(* ===== verification/_CoqProject ===== *)
-Q . S2P
Prelude.v
Endian.v
Mbuf.v
MbufSpec.v
MbufView.v
Format.v
Base64.v
Crc32.v
Sa.v
LinkedList.v
ListSpec.v
Tmr.v
TmrSpec.v
Hash.v
SrtpReplay.v
Rtp.v
RtpExt.v
RtpSource.v
Crypto.v
Srtp.v
SrtpSpec.v
SrtpSession.v
Srtcp.v
Stun.v
StunWire.v
StunSpec.v
StunSafe.v
StunTrans.v
StunTransSpec.v
Dname.v
DnameSpec.v
Dns.v
DnsSpec.v
Rtcp.v
RtcpSpec.v
RtcpWire.v
RtcpRound.v
RtcpSess.v
RtcpSessSpec.v
RtcpReport.v
Fmt.v
Odict.v
Print.v
Regex.v
Uri.v
UriSpec.v
SipMsg.v
SipMsgSpec.v
SipCtrans.v
SipCtransSpec.v
SipStrans.v
SipStransSpec.v
SipWire.v
SipReply.v
SipCall.v
Websock.v
WebsockSpec.v
Telev.v
TelevSpec.v
Amf.v
AmfSpec.v
Rtmp.v
RtmpSpec.v
RtmpConn.v
RtmpConnSpec.v
RtmpMedia.v
