(* ===== verification/Prelude.v ===== *)
(** * Verification of libre: real-time communications library

    libre is a C library of protocol modules (src/src/<module>/) with one public
    header each (src/include/re_<module>.h).  Everything rests on a few
    containers: memory buffers (mbuf), linked lists (list), hash tables (hash)
    and timers (tmr).  The protocols encode and decode messages in buffers, keep
    their state in lists and tables, and are driven by timers and by sockets.
    This development models the containers and the protocols of the media path
    above them.  C functions become functions of the same names; an out
    parameter becomes part of the result, an early return keeps what was done
    before it, and an error code is the [errno] value the code returns.

    ** Files, in the order of their dependencies

    - [Prelude]: machine widths ([u8] .. [u64], two's complement), bytes in
      network order, error codes, the state and error monad [M], tactics, hints
      and the lemmas on lists and integers that the components share.
    - [Endian] (sys/endian.c): [Class Host], what the library relies on of the
      platform: byte order and allocator.
    - [Mbuf], [MbufSpec], [MbufView] (mbuf/mbuf.c, mem_alloc and mem_realloc of
      mem/mem.c): buffers, their contract as byte strings with a cursor, and the
      view of them the protocols use.
    - [Format]: the monad [D] of decoders, formats of items in a buffer, and the
      rules with which decoders are proved to read formats.
    - [Base64] (base64/b64.c), [Crc32] (crc32/crc32.c), [Sa] (sa/sa.c without
      text conversion).
    - [LinkedList], [ListSpec] (list/list.c): pointers in a store; refinement of
      sequences.  [Tmr], [TmrSpec] (tmr/tmr.c): timers over such lists.
      [Hash] (hash/hash.c, func.c): tables of such lists.
    - [Rtp], [RtpExt], [RtpSource] (rtp/rtp.c, rtpext/rtpext.c, rtp/source.c).
    - [Crypto] (aes/openssl/aes.c, hmac/openssl/hmac.c): [Class Evp] is what is
      called of OpenSSL, [EvpLaws] what its documentation promises of calls that
      succeed, [EvpReliable] that calls succeed; [toy_evp] is an instance.
    - [SrtpReplay], [Srtp], [SrtpSpec], [SrtpSession], [Srtcp] (srtp/*.c).
    - [Stun], [StunWire], [StunSpec], [StunSafe] (stun/hdr.c, addr.c, attr.c,
      msg.c); [StunTrans], [StunTransSpec] (stun/ctrans.c, stun.c, req.c, ind.c,
      rep.c).
    - [Dname], [DnameSpec], [Dns], [DnsSpec] (dns/dname.c, hdr.c, cstr.c, rr.c).
    - [Rtcp], [RtcpSpec], [RtcpWire], [RtcpRound] (rtp/pkt.c, rr.c, sdes.c,
      fb.c and rtcp_recv_handler of rtp.c); [RtcpSess], [RtcpSessSpec],
      [RtcpReport] (rtp/sess.c, member.c, ntp.c, rtcp.c and the sockets of
      rtp.c).
    - [Fmt] (fmt/pl.c, str.c, ch.c), [Print] (fmt/print.c: a formatted print is a
      program [prog] of calls of the output handler; [Class Platform] is what is
      left to the C library: converting doubles, error strings, printing of
      addresses), [Regex] (fmt/regex.c), [Odict] (odict/).
    - [Uri], [UriSpec] (uri/uri.c, uric.c); [Class Resolver] (in [Uri]) is
      inet_pton and getaddrinfo.
    - [SipMsg], [SipMsgSpec] (sip/msg.c, addr.c, cseq.c, rack.c, via.c and
      msg/param.c, ctype.c); [SipCtrans], [SipCtransSpec] (sip/ctrans.c);
      [SipStrans], [SipStransSpec] (sip/strans.c, reply.c); [SipWire], [SipReply],
      [SipCall]: what these print is what the other side decodes.
    - [Websock], [WebsockSpec] (websock/websock.c without the handshake).
    - [Telev], [TelevSpec] (telev/telev.c).
    - [Amf], [AmfSpec], [Rtmp], [RtmpSpec], [RtmpConn], [RtmpConnSpec],
      [RtmpMedia] (rtmp/*.c).

    ** What the theorems show

    - Containers: executions of list.c and hash.c are those of a family of
      sequences and of one sequence of entries, and executions of mbuf.c in which
      the client sets position and end inside the contents are those of a byte
      string with a cursor
      ([mbuf_refines], [list_refines], [hash_refines]); timer lists stay ordered
      and hold exactly the armed timers, and tmr_poll calls what is due
      ([tmr_invariant], [tmr_poll_correct]).
    - Codecs: what an encoder writes is what the decoder returns, for RTP, RTP
      extensions, RTCP compound packets, STUN messages, DNS messages with name
      compression and base64 (the [roundtrip] theorems); and decoders on
      arbitrary bytes return, stay inside the buffer and fail with the documented
      codes ([rtp_hdr_decode_safe], [rtcp_recv_safe], [stun_msg_decode_safe],
      [dns_dname_decode_exact]).
    - Sessions: two SRTP sessions carry an in-order exchange on several streams
      that loses fewer than 2^15 packets of a stream in a row ([srtp_session]),
      accept only authentic packets and none twice; a
      STUN request is answered exactly once ([stun_ctrans_accounted]),
      retransmitted on schedule, and its reply reaches its handler
      ([stun_request_reply]); the counters of an RTCP session agree with its
      table in every reachable state ([rtcp_sess_invariant]), a peer receives
      the report that RFC 3550 describes, stated independently of the code
      ([rtcp_report_exchange]), and measures the round-trip
      time within 19 microseconds ([rtcp_rtt_accuracy]).
    - Text: the regular expressions match what their tokens describe
      ([re_regex_correct]), formatted printing writes exactly the text where it
      fits ([re_snprintf_correct]), numbers and URIs come back from their text
      ([fmt_numbers], [uri_roundtrip]).
    - SIP: a message made of header lines, folded ones included, is decoded to
      its lines ([sip_msg_decode_lines]), any bytes are decoded within their bounds
      ([sip_msg_decode_safe]); the users of client and server transactions are
      told the outcome once and hold no dangling pointer ([sip_ctrans_accounted],
      [sip_strans_accounted]); retransmissions follow RFC 3261
      ([sip_ctrans_schedule], [sip_strans_schedule]); a printed reply finds the
      transaction of its request ([sip_reply_received]), and a call that is
      rejected goes through reply, ACK and confirmation over the wire
      ([sip_call_rejected]).
    - Streams: RTMP connections and WebSocket connections deliver the same
      however TCP cuts the bytes, as far as they fit in the receive buffers
      ([rtmp_segmentation], [rtmp_media_session], [websock_session]; the limits
      are in their statements); keys of a telephone pressed one after the other
      are heard once although packets are lost ([telev_keys_heard]).
    - Some theorems state what the code does where it does less than it means
      to: [srtp_forged_locks_out], [srtcp_gcm_unprotected],
      [base64_decode_bound], [hash_joaat_str_pl], [via_port_lost],
      [websock_decode_bounds], [telev_overlap_sends_end_event].

    ** Fuel and bounds

    Loops that are bounded by their data are structural.  Others take fuel, and
    [None] is a loop that has not ended; every claim that a result is returned
    is proved with fuel that is shown to be enough: the decoders get one unit
    more than the bytes left; dns_dname_decode gets 512 because a name of 255
    characters passes at most that many labels and pointers; padding loops get
    three turns; list loops get the length of the list; the receive loops of RTMP
    and WebSocket get the bytes left, of which each turn takes some; a number has
    at most 64 digits (NUM_SIZE); the timers of a SIP transaction fire at most
    twelve times until it ends.  Integers are [Z] with
    the wrap-around of their width written out where the C code can wrap.
    Sizes in memory stay below [MEM_SIZE_MAX], as mem.c enforces.

    ** What is outside

    The platform ([Host], [Platform], [Resolver]), OpenSSL ([Evp]), sockets,
    random numbers and clocks are parameters or inputs of the steps.  Mutexes are
    left out: an operation is one step.  The C stack is unbounded (amf_dec.c
    recurses once per level of nesting), and the casts of lengths to int in the
    OpenSSL wrappers are left out: the lengths the theorems allow are below
    2^31.  Pointers are modelled where sharing
    matters (lists, timers, tables, transactions a user holds); a buffer owns its
    memory.  Not modelled, because they are system calls, wrappers of other
    libraries or output: async, btrace, dbg, conf, main, md5, mod, mqueue, net,
    sha, sys (except byte order), tcp, thread, tls, trace, udp, unixsock.  Not
    modelled, although they have logic of their own: SIP dialogs, authentication,
    requests and transport and the users of SIP (sipevent, sipreg, sipsess), sdp,
    http and httpauth, json, ICE and TURN, bfcp, pcp, the DNS client, and the video
    codecs and audio processing of h264, h265, av1 and rem/. *)

From stdpp Require Import base list numbers.
From Stdlib Require Import ZArith Lia.
From Stdlib Require Ascii String.

Open Scope Z_scope.

(** ** Machine integers *)

(** [wrap w x]: the value of [x] stored in a [w]-bit unsigned integer. *)
Definition wrap (w x : Z) : Z := x mod 2 ^ w.

Declare Scope word_scope.
Delimit Scope word_scope with word.
Notation "'u8' x" := (wrap 8 x) (at level 9, x at level 9) : word_scope.
Notation "'u16' x" := (wrap 16 x) (at level 9, x at level 9) : word_scope.
Notation "'u32' x" := (wrap 32 x) (at level 9, x at level 9) : word_scope.
Notation "'u64' x" := (wrap 64 x) (at level 9, x at level 9) : word_scope.
Open Scope word_scope.

(** Two's-complement reading of a [w]-bit value. *)
Definition swrap (w x : Z) : Z :=
  let y := x mod 2 ^ w in
  if y <? 2 ^ (w - 1) then y else y - 2 ^ w.

Definition is_byte (b : Z) : Prop := 0 <= b < 256.
Definition is_u16 (x : Z) : Prop := 0 <= x < 2 ^ 16.
Definition is_u32 (x : Z) : Prop := 0 <= x < 2 ^ 32.
Definition is_u64 (x : Z) : Prop := 0 <= x < 2 ^ 64.
Abbreviation bytes := (Forall is_byte).

(** ** Characters

    A [char] is its code; string literals stand for their characters. *)
Definition chr (a : Ascii.ascii) : Z := Z.of_N (Ascii.N_of_ascii a).
Definition chars (s : String.string) : list Z := map chr (String.list_ascii_of_string s).

(** ** Error codes

    The values of <errno.h> on Linux; [0] is success.  [err |= f()] of the
    sources is [Z.lor]. *)
Definition EOK : Z := 0.
Definition ENOENT : Z := 2.
Definition ENOMEM : Z := 12.
Definition EINVAL : Z := 22.
Definition ERANGE : Z := 34.
Definition EPROTO : Z := 71.
Definition EAFNOSUPPORT : Z := 97.
Definition EBADMSG : Z := 74.
Definition EOVERFLOW : Z := 75.
Definition EALREADY : Z := 114.
Definition ENODATA : Z := 61.
Definition ENOSYS : Z := 38.
Definition EAUTH : Z := 217.
Definition ENOSR : Z := 63.
Definition ENOTSUP : Z := 95.
Definition EPROTONOSUPPORT : Z := 93.
Definition ECONNABORTED : Z := 103.
Definition ETIMEDOUT : Z := 110.

(** A result, or the error code of a function that failed. *)
Inductive res (A : Type) := Ok (a : A) | Err (e : Z).
Arguments Ok {A} a.
Arguments Err {A} e.

(** ** Functions with a state and early returns

    [M S A]: a computation over the state [S] that returns a result or stops
    with an error code; in both cases with the state it has reached, because
    the sources do not roll back on errors. *)
Definition M (S A : Type) : Type := S -> res A * S.

Definition ret {S A} (a : A) : M S A := fun s => (Ok a, s).
Definition throw {S A} (e : Z) : M S A := fun s => (Err e, s).
Definition bind {S A B} (m : M S A) (k : A -> M S B) : M S B := fun s =>
  match m s with
  | (Ok a, s) => k a s
  | (Err e, s) => (Err e, s)
  end.
(** [if (err) return err;] *)
Definition check_err {S} (e : Z) : M S unit := if e =? 0 then ret tt else throw e.
Definition guard {S} (b : bool) (e : Z) : M S unit := if b then ret tt else throw e.

Declare Scope monad_scope.
Delimit Scope monad_scope with monad.
Notation "'let!' x := m 'in' k" := (bind m (fun x => k))
  (at level 10, x pattern, m at level 100, k at level 200) : monad_scope.
Open Scope monad_scope.

(** ** Automation *)

Create HintDb relib discriminated.
Create Rewrite HintDb zlen.

(** Turn boolean comparisons of the context into propositions. *)
Ltac bool_prop :=
  repeat match goal with
  | H : (_ && _)%bool = true |- _ => apply andb_prop in H; destruct H
  | H : (_ || _)%bool = false |- _ => apply orb_false_elim in H; destruct H
  | H : negb _ = true |- _ => apply negb_true_iff in H
  | H : negb _ = false |- _ => apply negb_false_iff in H
  | H : (_ <? _) = true |- _ => apply Z.ltb_lt in H
  | H : (_ <? _) = false |- _ => apply Z.ltb_ge in H
  | H : (_ <=? _) = true |- _ => apply Z.leb_le in H
  | H : (_ <=? _) = false |- _ => apply Z.leb_gt in H
  | H : (_ =? _) = true |- _ => apply Z.eqb_eq in H
  | H : (_ =? _) = false |- _ => apply Z.eqb_neq in H
  | H : (_ >? _) = true |- _ => rewrite Z.gtb_ltb in H
  | H : (_ >? _) = false |- _ => rewrite Z.gtb_ltb in H
  | H : (_ >=? _) = true |- _ => rewrite Z.geb_leb in H
  | H : (_ >=? _) = false |- _ => rewrite Z.geb_leb in H
  end.

(** Split on the first conditional of the goal, keeping the test. *)
Ltac case_test :=
  match goal with
  | |- context [if ?b then _ else _] =>
      lazymatch type of b with
      | bool => destruct b eqn:?; bool_prop
      end
  end.

Ltac case_test_in H :=
  match type of H with
  | context [if ?b then _ else _] =>
      lazymatch type of b with
      | bool => destruct b eqn:?; bool_prop
      end
  end.

(** Discard a test whose outcome follows by arithmetic. *)
Ltac decide_test :=
  match goal with
  | |- context [if ?b then _ else _] =>
      first [ replace b with true by (symmetry; first [apply Z.ltb_lt | apply Z.leb_le | apply Z.eqb_eq | rewrite Z.gtb_ltb; apply Z.ltb_lt | rewrite Z.geb_leb; apply Z.leb_le]; lia)
            | replace b with false by (symmetry; first [apply Z.ltb_ge | apply Z.leb_gt | apply Z.eqb_neq | rewrite Z.gtb_ltb; apply Z.ltb_ge | rewrite Z.geb_leb; apply Z.leb_gt]; lia) ]
  end.

(** Closed facts: comparisons of constants, explicit byte lists, records of
    such facts. *)
Ltac by_compute :=
  repeat match goal with
  | |- _ /\ _ => split
  | |- Forall _ (_ :: _) => constructor
  | |- Forall _ [] => constructor
  | |- is_byte _ => split
  | |- is_u16 _ => split
  | |- is_u32 _ => split
  | |- is_u64 _ => split
  end; solve [vm_compute; congruence | vm_compute; reflexivity].

(** ** Lemmas on machine integers *)

Lemma wrap_small w x : 0 <= x < 2 ^ w -> wrap w x = x.
Proof. apply Z.mod_small. Qed.

Lemma wrap_range w x : 0 <= w -> 0 <= wrap w x < 2 ^ w.
Proof. intros. apply Z.mod_pos_bound, Z.pow_pos_nonneg; lia. Qed.

Lemma wrap_wrap w x : wrap w (wrap w x) = wrap w x.
Proof. apply Zmod_mod. Qed.

Lemma wrap8_byte x : is_byte (wrap 8 x).
Proof. apply (wrap_range 8); lia. Qed.

(** Bitwise operators keep the width of their operands. *)
Lemma land_bound_l n x y : 0 <= n -> 0 <= x < 2 ^ n -> 0 <= Z.land x y < 2 ^ n.
Proof.
  intros Hn Hx. rewrite <- (Z.mod_small x (2 ^ n)) by lia.
  rewrite <- Z.land_ones, <- Z.land_assoc, (Z.land_comm (Z.ones n)), Z.land_assoc, Z.land_ones by lia.
  apply Z.mod_pos_bound. lia.
Qed.

Lemma land_bound_r n x y : 0 <= n -> 0 <= y < 2 ^ n -> 0 <= Z.land x y < 2 ^ n.
Proof. intros. rewrite Z.land_comm. by apply land_bound_l. Qed.

Lemma lor_bound n x y :
  0 <= n -> 0 <= x < 2 ^ n -> 0 <= y < 2 ^ n -> 0 <= Z.lor x y < 2 ^ n.
Proof.
  intros Hn Hx Hy. rewrite <- (Z.mod_small x (2 ^ n)), <- (Z.mod_small y (2 ^ n)) by lia.
  rewrite <- !Z.land_ones, <- Z.land_lor_distr_l, Z.land_ones by lia.
  apply Z.mod_pos_bound. lia.
Qed.

Lemma lxor_bound n x y :
  0 <= n -> 0 <= x < 2 ^ n -> 0 <= y < 2 ^ n -> 0 <= Z.lxor x y < 2 ^ n.
Proof.
  intros Hn Hx Hy. replace (Z.lxor x y) with (Z.land (Z.lxor x y) (Z.ones n)).
  - rewrite Z.land_ones by lia. apply Z.mod_pos_bound. lia.
  - rewrite <- (Z.mod_small x (2 ^ n)), <- (Z.mod_small y (2 ^ n)) by lia.
    rewrite <- !Z.land_ones by lia. apply Z.bits_inj'. intros i Hi.
    rewrite !Z.land_spec, !Z.lxor_spec, !Z.land_spec.
    destruct (Z.testbit x i), (Z.testbit y i), (Z.testbit (Z.ones n) i); reflexivity.
Qed.

Lemma shiftr_bound n k x : 0 <= k <= n -> 0 <= x < 2 ^ n -> 0 <= Z.shiftr x k < 2 ^ (n - k).
Proof.
  intros Hk Hx. rewrite Z.shiftr_div_pow2 by lia. split.
  - apply Z.div_pos; [lia|]. apply Z.pow_pos_nonneg; lia.
  - apply Z.div_lt_upper_bound; [apply Z.pow_pos_nonneg; lia|].
    rewrite <- Z.pow_add_r by lia. replace (k + (n - k)) with n by lia. lia.
Qed.

(** Disjoint bit ranges: [|] is addition. *)
Lemma lor_disjoint k x y : 0 <= k -> x mod 2 ^ k = 0 -> 0 <= y < 2 ^ k -> Z.lor x y = x + y.
Proof.
  intros Hk Hx Hy. rewrite <- Z.add_lor_land.
  replace (Z.land x y) with 0; [lia|].
  symmetry. apply Z.bits_inj'. intros i Hi. rewrite Z.land_spec, Z.bits_0.
  destruct (Z.lt_ge_cases i k).
  - rewrite <- (Z.mod_pow2_bits_low x k) by lia. by rewrite Hx, Z.bits_0.
  - rewrite <- (Z.mod_small y (2 ^ k)), Z.mod_pow2_bits_high by lia. apply andb_false_r.
Qed.

Lemma land_255 x : Z.land x 255 = x mod 256.
Proof. apply (Z.land_ones x 8). lia. Qed.

(** Testing a single bit, [v & (1 << k)]. *)
Lemma land_pow2 v k : 0 <= k -> Z.land v (2 ^ k) = if Z.testbit v k then 2 ^ k else 0.
Proof.
  intros Hk. apply Z.bits_inj'. intros i Hi. rewrite Z.land_spec, Z.pow2_bits_eqb by lia.
  destruct (Z.eqb_spec k i) as [->|Hne].
  - destruct (Z.testbit v i); [by rewrite Z.pow2_bits_true by lia | by rewrite Z.bits_0].
  - rewrite andb_false_r. destruct (Z.testbit v k); [|by rewrite Z.bits_0].
    by rewrite Z.pow2_bits_false by lia.
Qed.

Lemma testbit_div v k : 0 <= k -> Z.testbit v k = Z.odd (v / 2 ^ k).
Proof. intros. by rewrite Z.testbit_odd, Z.shiftr_div_pow2 by lia. Qed.

(** A field placed in clear low bits: [|] is addition. *)
Lemma lor_shiftl_add a b k : 0 <= k -> 0 <= b < 2 ^ k -> Z.lor (Z.shiftl a k) b = a * 2 ^ k + b.
Proof.
  intros Hk Hb. rewrite Z.shiftl_mul_pow2, (lor_disjoint k); try lia.
  apply Z.mod_mul. lia.
Qed.

#[export] Hint Resolve wrap8_byte : relib.

(** ** Lists indexed by machine integers *)

Definition zlength {A} (l : list A) : Z := Z.of_nat (length l).
Definition ztake {A} (n : Z) (l : list A) : list A := take (Z.to_nat n) l.
Definition zdrop {A} (n : Z) (l : list A) : list A := drop (Z.to_nat n) l.
(** [l[i]], reading 0 outside the list. *)
Definition znth (i : Z) (l : list Z) : Z :=
  if i <? 0 then 0 else nth (Z.to_nat i) l 0.
(** memcpy into [l] at offset [off]; the whole block stays in range in every
    use the theorems cover. *)
Definition zsplice {A} (off : Z) (d l : list A) : list A :=
  ztake off l ++ d ++ zdrop (off + zlength d) l.

Section Lists.
Context {A : Type}.
Implicit Types l d : list A.

Lemma zlength_nonneg l : 0 <= zlength l.
Proof. unfold zlength. lia. Qed.

Lemma zlength_nil : zlength (@nil A) = 0.
Proof. reflexivity. Qed.

Lemma zlength_cons x l : zlength (x :: l) = 1 + zlength l.
Proof. unfold zlength. simpl. lia. Qed.

Lemma zlength_app l d : zlength (l ++ d) = zlength l + zlength d.
Proof. unfold zlength. rewrite length_app. lia. Qed.

Lemma zlength_ztake n l : 0 <= n <= zlength l -> zlength (ztake n l) = n.
Proof. unfold zlength, ztake. intros. rewrite length_take. lia. Qed.

Lemma zlength_zdrop n l : 0 <= n <= zlength l -> zlength (zdrop n l) = zlength l - n.
Proof. unfold zlength, zdrop. intros. rewrite length_drop. lia. Qed.

Lemma ztake_zdrop n l : ztake n l ++ zdrop n l = l.
Proof. apply take_drop. Qed.

Lemma ztake_app_exact l d : ztake (zlength l) (l ++ d) = l.
Proof. unfold ztake, zlength. rewrite Nat2Z.id. apply take_app_length. Qed.

Lemma zdrop_app_exact l d : zdrop (zlength l) (l ++ d) = d.
Proof. unfold zdrop, zlength. rewrite Nat2Z.id. apply drop_app_length. Qed.

Lemma ztake_app_le n l d : n <= zlength l -> ztake n (l ++ d) = ztake n l.
Proof. unfold ztake, zlength. intros. apply take_app_le. lia. Qed.

Lemma zdrop_app_ge n l d : zlength l <= n -> zdrop n (l ++ d) = zdrop (n - zlength l) d.
Proof.
  unfold zdrop, zlength. intros. rewrite drop_app_ge by lia. f_equal. lia.
Qed.

Lemma zdrop_app_le n l d : n <= zlength l -> zdrop n (l ++ d) = zdrop n l ++ d.
Proof. unfold zdrop, zlength. intros. apply drop_app_le. lia. Qed.

Lemma ztake_app_ge n l d : zlength l <= n -> ztake n (l ++ d) = l ++ ztake (n - zlength l) d.
Proof.
  unfold ztake, zlength. intros. rewrite take_app_ge by lia. f_equal. f_equal. lia.
Qed.

Lemma zdrop_zdrop m n l : 0 <= m -> 0 <= n -> zdrop m (zdrop n l) = zdrop (n + m) l.
Proof. unfold zdrop. intros. rewrite drop_drop. f_equal. lia. Qed.

Lemma ztake_ztake m n l : 0 <= m <= n -> ztake m (ztake n l) = ztake m l.
Proof. unfold ztake. intros. rewrite take_take. f_equal. lia. Qed.

Lemma ztake_zdrop_comm m n l :
  0 <= m -> 0 <= n -> ztake m (zdrop n l) = zdrop n (ztake (n + m) l).
Proof. unfold ztake, zdrop. intros. rewrite take_drop_commute. do 2 f_equal. lia. Qed.

Lemma ztake_ge n l : zlength l <= n -> ztake n l = l.
Proof. unfold ztake, zlength. intros. apply take_ge. lia. Qed.

Lemma zdrop_ge n l : zlength l <= n -> zdrop n l = [].
Proof. unfold zdrop, zlength. intros. apply drop_ge. lia. Qed.

Lemma ztake_0 l : ztake 0 l = [].
Proof. reflexivity. Qed.

Lemma zdrop_0 l : zdrop 0 l = l.
Proof. reflexivity. Qed.

(** Two adjacent blocks stored one after the other. *)
Lemma zsplice_app off d1 d2 l :
  0 <= off <= zlength l -> zsplice (off + zlength d1) d2 (zsplice off d1 l) = zsplice off (d1 ++ d2) l.
Proof.
  intros Ho. pose proof (zlength_nonneg d1). pose proof (zlength_nonneg d2). unfold zsplice.
  rewrite (app_assoc (ztake off l) d1).
  assert (E : off + zlength d1 = zlength (ztake off l ++ d1)) by (rewrite zlength_app, zlength_ztake; lia).
  rewrite E at 1. rewrite ztake_app_exact, <- !app_assoc. do 3 f_equal.
  rewrite app_assoc, zdrop_app_ge by lia. rewrite <- E, zdrop_zdrop, zlength_app by lia. f_equal. lia.
Qed.

Lemma zsplice_end d l : zsplice (zlength l) d l = l ++ d.
Proof.
  pose proof (zlength_nonneg d). unfold zsplice. rewrite ztake_ge, zdrop_ge, app_nil_r by lia. done.
Qed.

Lemma zlength_replicate n (x : A) : 0 <= n -> zlength (replicate (Z.to_nat n) x) = n.
Proof. intros. unfold zlength. rewrite length_replicate. lia. Qed.

Lemma zlength_zsplice off d l :
  0 <= off -> off + zlength d <= zlength l -> zlength (zsplice off d l) = zlength l.
Proof.
  intros. pose proof (zlength_nonneg d). unfold zsplice.
  rewrite !zlength_app, zlength_ztake, zlength_zdrop; lia.
Qed.
End Lists.

(** Induction over a list consumed three elements at a time. *)
Lemma list_ind3 {A} (P : list A -> Prop) :
  P [] -> (forall a, P [a]) -> (forall a b, P [a; b]) ->
  (forall a b c l, P l -> P (a :: b :: c :: l)) -> forall l, P l.
Proof.
  intros H0 H1 H2 H3. fix IH 1. intros [|a [|b [|c l]]]; [done|apply H1|apply H2|]. apply H3, IH.
Qed.

Lemma list_ind4 {A} (P : list A -> Prop) :
  P [] -> (forall a, P [a]) -> (forall a b, P [a; b]) -> (forall a b c, P [a; b; c]) ->
  (forall a b c d l, P l -> P (a :: b :: c :: d :: l)) -> forall l, P l.
Proof.
  intros H0 H1 H2 H3 H4. fix IH 1.
  intros [|a [|b [|c [|d l]]]]; [done|apply H1|apply H2|apply H3|]. apply H4, IH.
Qed.

#[export] Hint Rewrite @zlength_nil @zlength_cons @zlength_app : zlen.

(** Simplify the lengths of a goal and finish with arithmetic. *)
Ltac zlen := autorewrite with zlen in *; try lia.

(** Evaluate the indexing of explicit lists. *)
Ltac znth_red :=
  repeat match goal with
  | |- context [znth ?i (?x :: ?l)] =>
      let v := eval cbv [znth Z.ltb Z.compare Pos.compare Pos.compare_cont Z.to_nat Pos.to_nat
                         Pos.iter_op Nat.add nth] in (znth i (x :: l)) in
      change (znth i (x :: l)) with v
  end.

Lemma znth_app_l i l d : i < zlength l -> znth i (l ++ d) = znth i l.
Proof.
  unfold znth, zlength. intros. case_test; [done|]. apply app_nth1. lia.
Qed.

Lemma znth_app_r i l d : zlength l <= i -> znth i (l ++ d) = znth (i - zlength l) d.
Proof.
  unfold znth, zlength. intros.
  destruct (i <? 0) eqn:?; bool_prop; [lia|].
  destruct (i - _ <? 0) eqn:?; bool_prop; [lia|].
  rewrite app_nth2 by lia. f_equal. lia.
Qed.

Lemma znth_cons_0 x l : znth 0 (x :: l) = x.
Proof. reflexivity. Qed.

Lemma znth_cons_S i x l : 0 < i -> znth i (x :: l) = znth (i - 1) l.
Proof.
  intros. change (x :: l) with ([x] ++ l). rewrite znth_app_r; [done|].
  rewrite zlength_cons, zlength_nil. lia.
Qed.

Lemma znth_byte i l : bytes l -> is_byte (znth i l).
Proof.
  unfold znth. intros H. case_test; [split; lia|].
  destruct (nth_in_or_default (Z.to_nat i) l 0) as [Hin| ->]; [|split; lia].
  rewrite Forall_forall in H. by apply H.
Qed.

Lemma bytes_app l d : bytes (l ++ d) <-> bytes l /\ bytes d.
Proof. apply Forall_app. Qed.

Lemma bytes_ztake n l : bytes l -> bytes (ztake n l).
Proof. apply Forall_take. Qed.

Lemma bytes_zdrop n l : bytes l -> bytes (zdrop n l).
Proof. apply Forall_drop. Qed.

Lemma bytes_zsplice off d l : bytes d -> bytes l -> bytes (zsplice off d l).
Proof. intros. unfold zsplice. rewrite !bytes_app. auto using bytes_ztake, bytes_zdrop. Qed.

#[export] Hint Resolve bytes_ztake bytes_zdrop bytes_zsplice znth_byte : relib.
