(* ===== verification/Endian.v ===== *)
(** * The host platform and byte order

    [Class Host] is the interface between libre and the platform it runs on:
    the byte order of the CPU and the C allocator.  Both are outside the
    repository, so every component that touches them is parametric in a
    [Host]; [lp64_le] and [lp64_be] are two concrete platforms.

    The second half models src/src/sys/endian.c, the library's own byte order
    conversions, and htons/htonl/ntohs/ntohl of <arpa/inet.h>. *)

From stdpp Require Import base list numbers.
From Stdlib Require Import ZArith Lia.
From S2P Require Import Prelude.

Open Scope Z_scope.

Inductive endian := LittleEndian | BigEndian.

#[export] Instance endian_eq_dec : EqDecision endian.
Proof. solve_decision. Defined.

(** What libre expects of the platform: [malloc n] is a fresh block of [n]
    bytes with arbitrary contents, or NULL; [realloc] keeps the common prefix. *)
Class Host := {
  host_endian : endian;
  malloc : Z -> option (list Z);
  realloc : list Z -> Z -> option (list Z);
  malloc_length n b : 0 <= n -> malloc n = Some b -> zlength b = n;
  malloc_bytes n b : malloc n = Some b -> bytes b;
  realloc_length o n b : 0 <= n -> realloc o n = Some b -> zlength b = n;
  realloc_bytes o n b : bytes o -> realloc o n = Some b -> bytes b;
  realloc_prefix o n b k :
    realloc o n = Some b -> 0 <= k <= n -> k <= zlength o -> ztake k b = ztake k o;
}.

(** ** Integers as byte strings *)

Fixpoint le_bytes (n : nat) (v : Z) : list Z :=
  match n with
  | O => []
  | S n => v mod 256 :: le_bytes n (v / 256)
  end.

Fixpoint le_val (bs : list Z) : Z :=
  match bs with
  | [] => 0
  | b :: bs => b + 256 * le_val bs
  end.

Definition be_bytes (n : nat) (v : Z) : list Z := rev (le_bytes n v).
Definition be_val (bs : list Z) : Z := le_val (rev bs).

Lemma le_bytes_length n v : length (le_bytes n v) = n.
Proof. revert v. induction n; intros; simpl; auto. Qed.

Lemma be_bytes_length n v : length (be_bytes n v) = n.
Proof. unfold be_bytes. rewrite length_rev. apply le_bytes_length. Qed.

Lemma le_bytes_bytes n v : bytes (le_bytes n v).
Proof.
  revert v. induction n; intros; simpl; constructor; auto.
  apply Z.mod_pos_bound. lia.
Qed.

Lemma bytes_rev l : bytes l -> bytes (rev l).
Proof. intros. apply List.Forall_rev. assumption. Qed.

Lemma be_bytes_bytes n v : bytes (be_bytes n v).
Proof. apply bytes_rev, le_bytes_bytes. Qed.

Lemma le_val_bound bs : bytes bs -> 0 <= le_val bs < 256 ^ Z.of_nat (length bs).
Proof.
  induction 1 as [|b bs Hb _ IH]; simpl length; [simpl; lia|].
  rewrite Nat2Z.inj_succ, Z.pow_succ_r by lia. simpl. unfold is_byte in Hb. nia.
Qed.

Lemma le_val_le_bytes n v : le_val (le_bytes n v) = v mod 256 ^ Z.of_nat n.
Proof.
  revert v. induction n as [|n IH]; intros.
  - simpl. by rewrite Z.mod_1_r.
  - rewrite Nat2Z.inj_succ, Z.pow_succ_r by lia. simpl. rewrite IH.
    rewrite Z.rem_mul_r; lia.
Qed.

Lemma le_bytes_le_val bs : bytes bs -> le_bytes (length bs) (le_val bs) = bs.
Proof.
  induction 1 as [|b bs Hb _ IH]; simpl; [done|]. unfold is_byte in Hb. f_equal.
  - rewrite (Z.mul_comm 256), Z.mod_add, Z.mod_small; lia.
  - replace ((b + 256 * le_val bs) / 256) with (le_val bs); [done|].
    rewrite (Z.mul_comm 256), Z.div_add, Z.div_small; lia.
Qed.

Lemma le_bytes_val_n n bs : bytes bs -> length bs = n -> le_bytes n (le_val bs) = bs.
Proof. intros H <-. by apply le_bytes_le_val. Qed.

Lemma be_val_be_bytes n v : be_val (be_bytes n v) = v mod 256 ^ Z.of_nat n.
Proof. unfold be_val, be_bytes. rewrite rev_involutive. apply le_val_le_bytes. Qed.

Lemma be_bytes_be_val bs : bytes bs -> be_bytes (length bs) (be_val bs) = bs.
Proof.
  intros. unfold be_val, be_bytes. rewrite <- length_rev, le_bytes_le_val by by apply bytes_rev.
  apply rev_involutive.
Qed.

Lemma be_val_bound bs : bytes bs -> 0 <= be_val bs < 256 ^ Z.of_nat (length bs).
Proof.
  intros. unfold be_val. rewrite <- length_rev. by apply le_val_bound, bytes_rev.
Qed.

(** Any bytes are the big-endian form of a number. *)
Lemma be_split n l :
  bytes l -> Z.of_nat n <= zlength l ->
  exists v r, l = be_bytes n v ++ r /\ 0 <= v < 256 ^ Z.of_nat n /\ bytes r.
Proof.
  intros Hb Hn. assert (Hl : length (ztake (Z.of_nat n) l) = n)
    by (pose proof (zlength_ztake (Z.of_nat n) l ltac:(lia)) as Hz; unfold zlength in Hz; lia).
  assert (Hb' : bytes (ztake (Z.of_nat n) l)) by auto with relib.
  exists (be_val (ztake (Z.of_nat n) l)), (zdrop (Z.of_nat n) l). split; [|split; [|auto with relib]].
  - pose proof (be_bytes_be_val _ Hb') as Hv. rewrite Hl in Hv. by rewrite Hv, ztake_zdrop.
  - pose proof (be_val_bound _ Hb') as Hv. by rewrite Hl in Hv.
Qed.

Lemma be_val_small n v : 0 <= v < 256 ^ Z.of_nat n -> be_val (be_bytes n v) = v.
Proof. intros. rewrite be_val_be_bytes. by apply Z.mod_small. Qed.

#[export] Hint Resolve le_bytes_bytes be_bytes_bytes bytes_rev : relib.

(** ** Objects in memory *)

Section Host.
Context `{H : Host}.

(** The [n] bytes an unsigned [n]-byte object occupies. *)
Definition host_bytes (n : nat) (v : Z) : list Z :=
  match host_endian with
  | LittleEndian => le_bytes n v
  | BigEndian => be_bytes n v
  end.

Definition host_val (bs : list Z) : Z :=
  match host_endian with
  | LittleEndian => le_val bs
  | BigEndian => be_val bs
  end.

Lemma host_bytes_length n v : length (host_bytes n v) = n.
Proof.
  unfold host_bytes. destruct host_endian; [apply le_bytes_length | apply be_bytes_length].
Qed.

Lemma host_bytes_bytes n v : bytes (host_bytes n v).
Proof. unfold host_bytes. destruct host_endian; eauto with relib. Qed.

Lemma host_val_host_bytes n v : host_val (host_bytes n v) = v mod 256 ^ Z.of_nat n.
Proof.
  unfold host_val, host_bytes.
  destruct host_endian; [apply le_val_le_bytes | apply be_val_be_bytes].
Qed.

Lemma host_bytes_host_val bs : bytes bs -> host_bytes (length bs) (host_val bs) = bs.
Proof.
  intros. unfold host_val, host_bytes.
  destruct host_endian; [by apply le_bytes_le_val | by apply be_bytes_be_val].
Qed.

Lemma host_val_bound bs : bytes bs -> 0 <= host_val bs < 256 ^ Z.of_nat (length bs).
Proof.
  intros. unfold host_val. destruct host_endian; [by apply le_val_bound | by apply be_val_bound].
Qed.

(** <arpa/inet.h> *)
Definition htons (v : Z) : Z := host_val (be_bytes 2 v).
Definition htonl (v : Z) : Z := host_val (be_bytes 4 v).
Definition ntohs (v : Z) : Z := be_val (host_bytes 2 v).
Definition ntohl (v : Z) : Z := be_val (host_bytes 4 v).

Lemma host_bytes_htons v : host_bytes 2 (htons v) = be_bytes 2 v.
Proof.
  unfold htons. rewrite <- (be_bytes_length 2 v) at 1.
  apply host_bytes_host_val, be_bytes_bytes.
Qed.

Lemma host_bytes_htonl v : host_bytes 4 (htonl v) = be_bytes 4 v.
Proof.
  unfold htonl. rewrite <- (be_bytes_length 4 v) at 1.
  apply host_bytes_host_val, be_bytes_bytes.
Qed.

Lemma ntohs_host_val bs : bytes bs -> length bs = 2%nat -> ntohs (host_val bs) = be_val bs.
Proof. intros Hb Hl. unfold ntohs. rewrite <- Hl, host_bytes_host_val by done. done. Qed.

Lemma ntohl_host_val bs : bytes bs -> length bs = 4%nat -> ntohl (host_val bs) = be_val bs.
Proof. intros Hb Hl. unfold ntohl. rewrite <- Hl, host_bytes_host_val by done. done. Qed.

(** *** src/src/sys/endian.c

    [*p++] walks the bytes of the argument as they lie in memory. *)
Definition sys_htols (v : Z) : Z :=
  let p := host_bytes 2 v in
  Z.lor (Z.shiftl (znth 0 p) 0) (Z.shiftl (znth 1 p) 8).

Definition sys_htoll (v : Z) : Z :=
  let p := host_bytes 4 v in
  Z.lor (Z.lor (Z.lor (Z.shiftl (znth 0 p) 0) (Z.shiftl (znth 1 p) 8))
    (Z.shiftl (znth 2 p) 16)) (Z.shiftl (znth 3 p) 24).

Definition sys_ltohs (v : Z) : Z :=
  host_val [Z.land (Z.shiftr v 0) 255; Z.land (Z.shiftr v 8) 255].

Definition sys_ltohl (v : Z) : Z :=
  host_val [Z.land (Z.shiftr v 0) 255; Z.land (Z.shiftr v 8) 255;
            Z.land (Z.shiftr v 16) 255; Z.land (Z.shiftr v 24) 255].

Definition sys_htonll (v : Z) : Z :=
  let p := host_bytes 8 v in
  Z.lor (Z.lor (Z.lor (Z.lor (Z.lor (Z.lor (Z.lor
    (Z.shiftl (znth 0 p) 56) (Z.shiftl (znth 1 p) 48)) (Z.shiftl (znth 2 p) 40))
    (Z.shiftl (znth 3 p) 32)) (Z.shiftl (znth 4 p) 24)) (Z.shiftl (znth 5 p) 16))
    (Z.shiftl (znth 6 p) 8)) (Z.shiftl (znth 7 p) 0).

Definition sys_ntohll (v : Z) : Z :=
  host_val [Z.land (Z.shiftr v 56) 255; Z.land (Z.shiftr v 48) 255;
            Z.land (Z.shiftr v 40) 255; Z.land (Z.shiftr v 32) 255;
            Z.land (Z.shiftr v 24) 255; Z.land (Z.shiftr v 16) 255;
            Z.land (Z.shiftr v 8) 255; Z.land (Z.shiftr v 0) 255].

(** The shift-and-or chains compute the value of the bytes. *)
Ltac split_bytes n v :=
  let p := fresh "p" in let Hl := fresh in let Hb := fresh in
  generalize (host_bytes_length n v) (host_bytes_bytes n v); cbv zeta;
  generalize (host_bytes n v); intros p Hl Hb;
  repeat (destruct p as [|? p]; simpl in Hl; try discriminate Hl);
  rewrite ?Forall_cons_iff in Hb; unfold is_byte in Hb; destruct_and?; clear Hl;
  znth_red; rewrite ?Z.shiftl_mul_pow2 by lia.

Ltac sum_disjoint k :=
  match goal with
  | |- context [Z.lor ?x ?y] =>
      lazymatch x with context [Z.lor] => fail | _ => idtac end;
      lazymatch y with context [Z.lor] => fail | _ => idtac end;
      rewrite (lor_disjoint k x y) by (try lia; Z.to_euclidean_division_equations; lia)
  end.

Lemma sys_htols_val v : sys_htols v = le_val (host_bytes 2 v).
Proof.
  unfold sys_htols. split_bytes 2%nat v. unfold le_val.
  rewrite Z.lor_comm. sum_disjoint 8. lia.
Qed.

Lemma sys_htoll_val v : sys_htoll v = le_val (host_bytes 4 v).
Proof.
  unfold sys_htoll. split_bytes 4%nat v. unfold le_val.
  rewrite Z.lor_comm, (Z.lor_comm _ (_ * 2 ^ 16)), (Z.lor_comm _ (_ * 2 ^ 8)).
  sum_disjoint 8. sum_disjoint 16. sum_disjoint 24. lia.
Qed.

Lemma sys_htonll_val v : sys_htonll v = be_val (host_bytes 8 v).
Proof.
  unfold sys_htonll. split_bytes 8%nat v. unfold be_val, le_val, rev, app.
  sum_disjoint 56. sum_disjoint 48. sum_disjoint 40. sum_disjoint 32.
  sum_disjoint 24. sum_disjoint 16. sum_disjoint 8. lia.
Qed.

Lemma sys_ltohs_val v : sys_ltohs v = host_val (le_bytes 2 v).
Proof.
  unfold sys_ltohs. rewrite !land_255, !Z.shiftr_div_pow2 by lia.
  simpl le_bytes. by rewrite Z.div_1_r.
Qed.

Lemma sys_ltohl_val v : sys_ltohl v = host_val (le_bytes 4 v).
Proof.
  unfold sys_ltohl. rewrite !land_255, !Z.shiftr_div_pow2 by lia.
  simpl le_bytes. rewrite Z.div_1_r, !Z.div_div by lia. done.
Qed.

Lemma sys_ntohll_val v : sys_ntohll v = host_val (be_bytes 8 v).
Proof.
  unfold sys_ntohll. rewrite !land_255, !Z.shiftr_div_pow2 by lia.
  unfold be_bytes. simpl le_bytes. rewrite Z.div_1_r, !Z.div_div by lia. done.
Qed.

Lemma le_bytes_swap n v : le_bytes n (le_val (host_bytes n v)) = host_bytes n v.
Proof.
  rewrite <- (host_bytes_length n v) at 1. apply le_bytes_le_val, host_bytes_bytes.
Qed.

Lemma be_bytes_swap n v : be_bytes n (be_val (host_bytes n v)) = host_bytes n v.
Proof.
  rewrite <- (host_bytes_length n v) at 1. apply be_bytes_be_val, host_bytes_bytes.
Qed.

Lemma host_bytes_le_val n v : host_bytes n (le_val (host_bytes n v)) = le_bytes n v.
Proof.
  unfold host_bytes, be_bytes. destruct host_endian.
  - apply le_bytes_val_n; [apply le_bytes_bytes | apply le_bytes_length].
  - rewrite le_bytes_val_n; [apply rev_involutive | eauto with relib |].
    rewrite length_rev. apply le_bytes_length.
Qed.

Lemma host_bytes_be_val n v : host_bytes n (be_val (host_bytes n v)) = be_bytes n v.
Proof.
  unfold host_bytes, be_val, be_bytes. destruct host_endian.
  - apply le_bytes_val_n; [eauto with relib|]. rewrite length_rev. apply le_bytes_length.
  - rewrite rev_involutive, le_bytes_val_n; [done | eauto with relib | apply le_bytes_length].
Qed.

Lemma sys_ntohll_host_val bs : bytes bs -> length bs = 8%nat -> sys_ntohll (host_val bs) = be_val bs.
Proof.
  intros Hb Hl. rewrite sys_ntohll_val. unfold host_val, be_val, be_bytes. destruct host_endian.
  - by rewrite le_bytes_val_n.
  - by rewrite rev_involutive, le_bytes_val_n; [|auto with relib|rewrite length_rev].
Qed.

(** The byte-order routines of sys/endian.c are correct on either kind of
    host: the to-wire direction lays the value out little (htols, htoll) or
    big (htonll) endian in memory, and the from-wire direction undoes it at
    the full width of the type. *)
Theorem sys_endian_correct v :
  host_bytes 2 (sys_htols v) = le_bytes 2 v
  /\ host_bytes 4 (sys_htoll v) = le_bytes 4 v
  /\ host_bytes 8 (sys_htonll v) = be_bytes 8 v
  /\ sys_ltohs (sys_htols v) = wrap 16 v
  /\ sys_ltohl (sys_htoll v) = wrap 32 v
  /\ sys_ntohll (sys_htonll v) = wrap 64 v.
Proof.
  rewrite sys_ltohs_val, sys_ltohl_val, sys_ntohll_val.
  rewrite sys_htols_val, sys_htoll_val, sys_htonll_val.
  rewrite !host_bytes_le_val, host_bytes_be_val, !le_bytes_swap, be_bytes_swap.
  rewrite !host_val_host_bytes. done.
Qed.
End Host.

(** ** Two concrete platforms *)

(** Allocation that never fails below the address-space limit, zero filled. *)
Definition calloc_bytes (n : Z) : list Z := replicate (Z.to_nat n) 0.

Lemma calloc_length n : 0 <= n -> zlength (calloc_bytes n) = n.
Proof. intros. unfold zlength, calloc_bytes. rewrite length_replicate. lia. Qed.

Lemma calloc_is_bytes n : bytes (calloc_bytes n).
Proof. apply Forall_replicate. split; lia. Qed.

Definition grow_bytes (o : list Z) (n : Z) : list Z :=
  ztake n o ++ calloc_bytes (n - zlength (ztake n o)).

Program Definition simple_host (e : endian) : Host :=
  {| host_endian := e;
     malloc := fun n => Some (calloc_bytes n);
     realloc := fun o n => Some (grow_bytes o n) |}.
Next Obligation. intros e n b Hn [= <-]. by apply calloc_length. Qed.
Next Obligation. intros e n b [= <-]. apply calloc_is_bytes. Qed.
Next Obligation.
  intros e o n b Hn [= <-]. unfold grow_bytes. rewrite zlength_app, calloc_length; [lia|].
  unfold zlength, ztake. rewrite length_take. lia.
Qed.
Next Obligation.
  intros e o n b Ho [= <-]. unfold grow_bytes. rewrite bytes_app.
  split; [by apply bytes_ztake | apply calloc_is_bytes].
Qed.
Next Obligation.
  intros e o n b k [= <-] Hk Hl. unfold grow_bytes.
  rewrite ztake_app_le, ztake_ztake; try lia; [done|].
  unfold zlength, ztake in *. rewrite length_take. lia.
Qed.

Definition lp64_le : Host := simple_host LittleEndian.
Definition lp64_be : Host := simple_host BigEndian.

#[global] Arguments be_bytes : simpl never.
#[global] Arguments be_val : simpl never.

(** A platform whose allocator is exhausted. *)
Program Definition oom_host : Host :=
  {| host_endian := LittleEndian; malloc := fun _ => None; realloc := fun _ _ => None |}.
Solve All Obligations with done.
