(* ===== verification/Mbuf.v ===== *)
(** * Memory buffers: src/src/mbuf/mbuf.c and src/include/re_mbuf.h

    [struct mbuf] is the record [mbuf]; each function of mbuf.c that takes a
    [struct mbuf *] becomes a function from the buffer to the error code and
    the updated buffer.  The object pointer itself is never NULL here.  The
    memory behind [mb->buf] is a list of bytes obtained from the allocator of
    [Class Host] through mem_alloc/mem_realloc of mem.c, so out-of-memory
    paths are exercised; a buffer owns its memory (reference count 1).

    The abstract view of a buffer is its [content] (the bytes up to [end]) and
    the [rest] that is left to read; the lemmas at the end state every
    operation over that view, and the other components only use those. *)

From stdpp Require Import base list numbers.
From Stdlib Require Import ZArith Lia.
From S2P Require Import Prelude Endian.

Open Scope Z_scope.

Record mbuf := Mbuf {
  mb_buf : option (list Z);
  mb_size : Z;
  mb_pos : Z;
  mb_end : Z;
}.

(** The bytes behind [mb->buf]; NULL has none. *)
Definition mb_mem (mb : mbuf) : list Z := default [] (mb_buf mb).

Definition DEFAULT_SIZE : Z := 512.

(** src/src/mem/mem.c: sizes are stored in 32 bits. *)
Definition MEM_SIZE_MAX : Z := 2 ^ 32 - 1.

Definition set_mem (mb : mbuf) (b : list Z) : mbuf :=
  {| mb_buf := Some b; mb_size := mb_size mb; mb_pos := mb_pos mb; mb_end := mb_end mb |}.

(** ** Inline functions of re_mbuf.h *)

Definition mbuf_get_left (mb : mbuf) : Z :=
  if mb_end mb >? mb_pos mb then mb_end mb - mb_pos mb else 0.

Definition mbuf_get_space (mb : mbuf) : Z :=
  if mb_size mb >? mb_pos mb then mb_size mb - mb_pos mb else 0.

Definition mbuf_set_pos (mb : mbuf) (pos : Z) : mbuf :=
  {| mb_buf := mb_buf mb; mb_size := mb_size mb; mb_pos := pos; mb_end := mb_end mb |}.

Definition mbuf_set_end (mb : mbuf) (end_ : Z) : mbuf :=
  {| mb_buf := mb_buf mb; mb_size := mb_size mb; mb_pos := mb_pos mb; mb_end := end_ |}.

Definition mbuf_advance (mb : mbuf) (n : Z) : mbuf :=
  mbuf_set_pos mb (u64 (mb_pos mb + n)).

Definition mbuf_rewind (mb : mbuf) : mbuf :=
  {| mb_buf := mb_buf mb; mb_size := mb_size mb; mb_pos := 0; mb_end := 0 |}.

Definition mbuf_skip_to_end (mb : mbuf) : mbuf := mbuf_set_pos mb (mb_end mb).

(** The bytes from the position on, [mbuf_buf(mb)]. *)
Definition mbuf_buf (mb : mbuf) : list Z := zdrop (mb_pos mb) (mb_mem mb).

(** ** mbuf.c *)

Section Mbuf.
Context `{H : Host}.

Definition mem_alloc (size : Z) : option (list Z) :=
  if size >? MEM_SIZE_MAX then None else malloc size.

Definition mem_realloc (data : list Z) (size : Z) : option (list Z) :=
  if size >? MEM_SIZE_MAX then None else realloc data size.

Definition mbuf_init : mbuf := {| mb_buf := None; mb_size := 0; mb_pos := 0; mb_end := 0 |}.

Definition mbuf_resize (mb : mbuf) (size : Z) : Z * mbuf :=
  let buf := match mb_buf mb with
             | Some b => mem_realloc b size
             | None => mem_alloc size
             end in
  match buf with
  | None => (ENOMEM, mb)
  | Some b => (0, {| mb_buf := Some b; mb_size := size; mb_pos := mb_pos mb; mb_end := mb_end mb |})
  end.

(** NULL is [None]; the object itself is zeroed by mem_zalloc. *)
Definition mbuf_alloc (size : Z) : option mbuf :=
  let '(err, mb) := mbuf_resize mbuf_init (if size =? 0 then DEFAULT_SIZE else size) in
  if err =? 0 then Some mb else None.

Definition mbuf_dup (mbd : mbuf) : option mbuf :=
  match mbuf_alloc (mb_size mbd) with
  | None => None
  | Some mb =>
      Some {| mb_buf := Some (zsplice 0 (ztake (mb_size mbd) (mb_mem mbd)) (mb_mem mb));
              mb_size := mb_size mbd; mb_pos := mb_pos mbd; mb_end := mb_end mbd |}
  end.

Definition mbuf_reset (mb : mbuf) : mbuf := mbuf_init.

Definition mbuf_trim (mb : mbuf) : mbuf :=
  if (mb_end mb =? 0) || (mb_end mb =? mb_size mb) then mb
  else snd (mbuf_resize mb (mb_end mb)).

Definition mbuf_shift (mb : mbuf) (shift : Z) : Z * mbuf :=
  if (swrap 64 (mb_pos mb) + shift <? 0) || (swrap 64 (mb_end mb) + shift <? 0) then (ERANGE, mb)
  else
    let rsize := u64 (mb_end mb + shift) in
    let '(err, mb) := if rsize >? mb_size mb then mbuf_resize mb rsize else (0, mb) in
    if negb (err =? 0) then (err, mb)
    else
      let blk := ztake (mbuf_get_left mb) (mbuf_buf mb) in
      let mb := set_mem mb (zsplice (mb_pos mb + shift) blk (mb_mem mb)) in
      (0, {| mb_buf := mb_buf mb; mb_size := mb_size mb;
             mb_pos := u64 (mb_pos mb + shift); mb_end := u64 (mb_end mb + shift) |}).

(** Store [d] at the position, growing the buffer: the body mbuf_write_mem
    and mbuf_fill share. *)
Definition mbuf_put (mb : mbuf) (d : list Z) : Z * mbuf :=
  let size := zlength d in
  let rsize := u64 (mb_pos mb + size) in
  let '(err, mb) :=
    if rsize >? mb_size mb then
      let dsize := if mb_size mb =? 0 then DEFAULT_SIZE else u64 (mb_size mb * 2) in
      mbuf_resize mb (Z.max rsize dsize)
    else (0, mb) in
  if negb (err =? 0) then (err, mb)
  else
    let mb := set_mem mb (zsplice (mb_pos mb) d (mb_mem mb)) in
    let pos := u64 (mb_pos mb + size) in
    (0, {| mb_buf := mb_buf mb; mb_size := mb_size mb; mb_pos := pos;
           mb_end := Z.max (mb_end mb) pos |}).

Definition mbuf_write_mem (mb : mbuf) (buf : list Z) : Z * mbuf := mbuf_put mb buf.

Definition mbuf_write_ptr (v : Z) (mb : mbuf) : Z * mbuf := mbuf_write_mem mb (host_bytes 8 v).
Definition mbuf_write_u8 (v : Z) (mb : mbuf) : Z * mbuf := mbuf_write_mem mb (host_bytes 1 v).
Definition mbuf_write_u16 (v : Z) (mb : mbuf) : Z * mbuf := mbuf_write_mem mb (host_bytes 2 v).
Definition mbuf_write_u32 (v : Z) (mb : mbuf) : Z * mbuf := mbuf_write_mem mb (host_bytes 4 v).
Definition mbuf_write_u64 (v : Z) (mb : mbuf) : Z * mbuf := mbuf_write_mem mb (host_bytes 8 v).
(** A C string is its characters without the terminator. *)
Definition mbuf_write_str (str : list Z) (mb : mbuf) : Z * mbuf := mbuf_write_mem mb str.
(** A pointer-length object: NULL is refused by mbuf_write_mem. *)
Definition mbuf_write_pl (pl : option (list Z)) (mb : mbuf) : Z * mbuf :=
  match pl with
  | None => (EINVAL, mb)
  | Some p => mbuf_write_mem mb p
  end.

(** [pl] and [skip] point into the same text: each is an offset and a length. *)
Definition mbuf_write_pl_skip (text : list Z) (pl_p pl_l skip_p skip_l : Z) (mb : mbuf) : Z * mbuf :=
  if (pl_p >? skip_p) || (skip_p + skip_l >? pl_p + pl_l) then (ERANGE, mb)
  else
    let '(err, mb) := mbuf_write_mem mb (ztake (skip_p - pl_p) (zdrop pl_p text)) in
    if negb (err =? 0) then (err, mb)
    else
      let r := skip_p + skip_l in
      mbuf_write_mem mb (ztake (pl_p + pl_l - r) (zdrop r text)).

Definition mbuf_fill (c n : Z) (mb : mbuf) : Z * mbuf :=
  if n =? 0 then (EINVAL, mb) else mbuf_put mb (replicate (Z.to_nat n) c).

(** On success the block read; on error nothing is read and the position stays. *)
Definition mbuf_read_mem (mb : mbuf) (size : Z) : Z * list Z * mbuf :=
  if size >? mbuf_get_left mb then (EOVERFLOW, [], mb)
  else (0, ztake size (mbuf_buf mb), mbuf_set_pos mb (u64 (mb_pos mb + size))).

(** [(0 == mbuf_read_mem(mb, &v, n)) ? v : 0] *)
Definition mbuf_read_uint (n : nat) (mb : mbuf) : Z * mbuf :=
  let '(err, d, mb) := mbuf_read_mem mb (Z.of_nat n) in
  (if err =? 0 then host_val d else 0, mb).

Definition mbuf_read_ptr (mb : mbuf) : Z * mbuf :=
  let '(v, mb) := mbuf_read_uint 8 mb in (swrap 64 v, mb).
Definition mbuf_read_u8 (mb : mbuf) : Z * mbuf := mbuf_read_uint 1 mb.
Definition mbuf_read_u16 (mb : mbuf) : Z * mbuf := mbuf_read_uint 2 mb.
Definition mbuf_read_u32 (mb : mbuf) : Z * mbuf := mbuf_read_uint 4 mb.
Definition mbuf_read_u64 (mb : mbuf) : Z * mbuf := mbuf_read_uint 8 mb.

(** The bytes stored into [str], the terminator included. *)
Fixpoint mbuf_read_str (size : nat) (mb : mbuf) : list Z * mbuf :=
  match size with
  | O => ([], mb)
  | S size =>
      let '(c, mb) := mbuf_read_u8 mb in
      if c =? 0 then ([0], mb)
      else let '(s, mb) := mbuf_read_str size mb in (c :: s, mb)
  end.

(** The allocated string with its terminator. *)
Definition mbuf_strdup (mb : mbuf) (len : Z) : Z * option (list Z) * mbuf :=
  match mem_alloc (u64 (len + 1)) with
  | None => (ENOMEM, None, mb)
  | Some _ =>
      let '(err, d, mb) := mbuf_read_mem mb len in
      if err =? 0 then (0, Some (d ++ [0]), mb) else (err, None, mb)
  end.

Definition mbuf_set_posend (mb : mbuf) (pos end_ : Z) : mbuf :=
  if pos >? end_ then mb
  else if end_ >? mb_size mb then mb
  else {| mb_buf := mb_buf mb; mb_size := mb_size mb; mb_pos := pos; mb_end := end_ |}.
End Mbuf.

(** ** Well-formed buffers and their abstract view *)

Record mbuf_wf (mb : mbuf) : Prop := {
  wf_len : zlength (mb_mem mb) = mb_size mb;
  wf_pos : 0 <= mb_pos mb <= mb_end mb;
  wf_end : mb_end mb <= mb_size mb;
  wf_max : mb_size mb <= MEM_SIZE_MAX;
  wf_bytes : bytes (mb_mem mb);
}.

(** The valid bytes, and those left to read. *)
Definition content (mb : mbuf) : list Z := ztake (mb_end mb) (mb_mem mb).
Definition rest (mb : mbuf) : list Z := zdrop (mb_pos mb) (content mb).

Ltac mbuf_wf_facts :=
  repeat match goal with
  | W : mbuf_wf ?mb |- _ =>
      let E := fresh "W" in pose proof W as E; destruct E; revert W
  end; intros; unfold MEM_SIZE_MAX in *.

Lemma zlength_content mb : mbuf_wf mb -> zlength (content mb) = mb_end mb.
Proof. intros. mbuf_wf_facts. unfold content. rewrite zlength_ztake; lia. Qed.

Lemma zlength_rest mb : mbuf_wf mb -> zlength (rest mb) = mb_end mb - mb_pos mb.
Proof.
  intros W. unfold rest. rewrite zlength_zdrop; rewrite zlength_content by done; [done|].
  mbuf_wf_facts. lia.
Qed.

Lemma bytes_content mb : mbuf_wf mb -> bytes (content mb).
Proof. intros []. unfold content. auto with relib. Qed.

Lemma bytes_rest mb : mbuf_wf mb -> bytes (rest mb).
Proof. intros. unfold rest. auto using bytes_zdrop, bytes_content. Qed.

Lemma mbuf_get_left_rest mb : mbuf_wf mb -> mbuf_get_left mb = zlength (rest mb).
Proof. intros W. rewrite zlength_rest by done. mbuf_wf_facts. unfold mbuf_get_left. case_test; lia. Qed.

Lemma mbuf_buf_rest mb n :
  mbuf_wf mb -> 0 <= n <= zlength (rest mb) -> ztake n (mbuf_buf mb) = ztake n (rest mb).
Proof.
  intros W Hn. rewrite zlength_rest in Hn by done. unfold mbuf_buf, rest, content. mbuf_wf_facts.
  rewrite !ztake_zdrop_comm, ztake_ztake; try lia. done.
Qed.

#[export] Hint Resolve bytes_content bytes_rest : relib.

Section MbufFacts.
Context `{H : Host}.

Lemma mbuf_init_wf : mbuf_wf mbuf_init.
Proof. split; unfold mb_mem, MEM_SIZE_MAX; simpl; try lia; [apply zlength_nil | constructor]. Qed.

Lemma mbuf_resize_cases mb size :
  mbuf_wf mb -> 0 <= size ->
  (exists b, mbuf_resize mb size = (0, Mbuf (Some b) size (mb_pos mb) (mb_end mb))
     /\ zlength b = size /\ bytes b /\ size <= MEM_SIZE_MAX
     /\ forall k, 0 <= k <= size -> k <= mb_size mb -> ztake k b = ztake k (mb_mem mb))
  \/ mbuf_resize mb size = (ENOMEM, mb).
Proof.
  intros W Hs. mbuf_wf_facts. unfold mbuf_resize, mem_realloc, mem_alloc, mb_mem in *.
  destruct (mb_buf mb) as [o|]; simpl in *; (case_test; [by right|]).
  - destruct (realloc o size) as [b|] eqn:E; [left|by right]. exists b.
    pose proof (realloc_length _ _ _ Hs E). pose proof (realloc_bytes _ _ _ wf_bytes0 E).
    split_and!; try done. intros. eapply realloc_prefix; eauto. lia.
  - destruct (malloc size) as [b|] eqn:E; [left|by right]. exists b.
    pose proof (malloc_length _ _ Hs E). pose proof (malloc_bytes _ _ E).
    rewrite zlength_nil in *. split_and!; try done. intros. by replace k with 0 by lia.
Qed.

(** Storing at the position: either the block is spliced into the contents
    or memory ran out and the buffer is as it was. *)
Lemma mbuf_put_cases mb d :
  mbuf_wf mb -> bytes d -> zlength d < 2 ^ 63 ->
  (exists mb', mbuf_put mb d = (0, mb') /\ mbuf_wf mb'
     /\ mb_pos mb' = mb_pos mb + zlength d
     /\ mb_end mb' = Z.max (mb_end mb) (mb_pos mb + zlength d)
     /\ content mb' = zsplice (mb_pos mb) d (content mb))
  \/ mbuf_put mb d = (ENOMEM, mb).
Proof.
  intros W Hd Hl. pose proof (zlength_nonneg d).
  assert (Hgo : forall b size, mb_pos mb + zlength d <= size <= MEM_SIZE_MAX -> mb_end mb <= size ->
    zlength b = size -> bytes b ->
    (forall k, 0 <= k <= mb_size mb -> ztake k b = ztake k (mb_mem mb)) ->
    let mb' := Mbuf (Some (zsplice (mb_pos mb) d b)) size (mb_pos mb + zlength d)
                 (Z.max (mb_end mb) (mb_pos mb + zlength d)) in
    mbuf_wf mb' /\ content mb' = zsplice (mb_pos mb) d (content mb)).
  { intros b size Hsz Hend Hb Hbb Hpre mb'. subst mb'. mbuf_wf_facts. split.
    - split; unfold mb_mem; simpl; unfold MEM_SIZE_MAX; try lia; auto with relib.
      rewrite zlength_zsplice; lia.
    - unfold content, mb_mem at 1, zsplice. simpl.
      rewrite (ztake_ztake (mb_pos mb)) by lia. rewrite <- (Hpre (mb_pos mb)), <- (Hpre (mb_end mb)) by lia.
      rewrite app_assoc, ztake_app_ge; rewrite zlength_app, zlength_ztake; try lia.
      rewrite <- app_assoc. do 2 f_equal. rewrite ztake_zdrop_comm by lia.
      destruct (Z.max_spec (mb_end mb) (mb_pos mb + zlength d)) as [[? ->]|[? ->]].
      + rewrite !zdrop_ge; rewrite ?zlength_ztake; try lia. done.
      + do 2 f_equal. lia. }
  unfold mbuf_put. mbuf_wf_facts. rewrite (wrap_small _ (mb_pos mb + _)) by lia.
  case_test.
  - rewrite (wrap_small _ (mb_size mb * 2)) by lia.
    set (sz := Z.max _ _). assert (Hsz : mb_pos mb + zlength d <= sz) by apply Z.le_max_l.
    clearbody sz. pose proof (zlength_nonneg (mb_mem mb)).
    destruct (mbuf_resize_cases mb sz) as [(b & -> & Hb & Hbb & Hmax & Hpre)| ->]; [done|lia| |by right].
    left. unfold MEM_SIZE_MAX in Hmax.
    destruct (Hgo b sz) as [Hwf Hc]; try done; try lia; [intros; apply Hpre; lia|].
    unfold set_mem, mb_mem. simpl. rewrite wrap_small by lia. eauto 10.
  - left. destruct (Hgo (mb_mem mb) (mb_size mb)) as [Hwf Hc]; try done; try lia.
    unfold set_mem. simpl. rewrite wrap_small by lia. eauto 10.
Qed.

(** *** Reading *)

(** The buffer after [n] bytes were read. *)
Definition adv (mb : mbuf) (n : Z) : mbuf := mbuf_set_pos mb (mb_pos mb + n).

Lemma adv_wf mb n : mbuf_wf mb -> 0 <= n <= zlength (rest mb) -> mbuf_wf (adv mb n).
Proof.
  intros W Hn. rewrite zlength_rest in Hn by done. mbuf_wf_facts.
  split; unfold adv; simpl; unfold MEM_SIZE_MAX; try lia; done.
Qed.

Lemma rest_adv mb n : mbuf_wf mb -> 0 <= n -> rest (adv mb n) = zdrop n (rest mb).
Proof.
  intros W Hn. unfold rest. mbuf_wf_facts. rewrite zdrop_zdrop by lia. done.
Qed.

Lemma content_adv mb n : content (adv mb n) = content mb.
Proof. done. Qed.

Lemma rest_adv_app mb d r : mbuf_wf mb -> rest mb = d ++ r -> rest (adv mb (zlength d)) = r.
Proof.
  intros W E. rewrite rest_adv, E, zdrop_app_exact; auto using zlength_nonneg.
Qed.

Lemma adv_wf_app mb d r : mbuf_wf mb -> rest mb = d ++ r -> mbuf_wf (adv mb (zlength d)).
Proof.
  intros W E. apply adv_wf; [done|]. rewrite E, zlength_app.
  pose proof (zlength_nonneg d). pose proof (zlength_nonneg r). lia.
Qed.

Lemma mbuf_read_mem_app mb d r :
  mbuf_wf mb -> rest mb = d ++ r ->
  mbuf_read_mem mb (zlength d) = (0, d, adv mb (zlength d)).
Proof.
  intros W E. pose proof (zlength_nonneg d). pose proof (zlength_nonneg r).
  assert (Hl : zlength (rest mb) = zlength d + zlength r) by (rewrite E; apply zlength_app).
  unfold mbuf_read_mem. rewrite mbuf_get_left_rest by done.
  rewrite mbuf_buf_rest, E, ztake_app_exact by (done || lia).
  rewrite zlength_app. decide_test. unfold adv. do 2 f_equal.
  rewrite zlength_rest in Hl by done. mbuf_wf_facts. apply wrap_small. lia.
Qed.

Lemma mbuf_read_mem_short mb n :
  mbuf_wf mb -> zlength (rest mb) < n -> mbuf_read_mem mb n = (EOVERFLOW, [], mb).
Proof.
  intros W Hn. unfold mbuf_read_mem. rewrite mbuf_get_left_rest by done. by decide_test.
Qed.

Lemma mbuf_read_uint_app n mb d r :
  mbuf_wf mb -> rest mb = d ++ r -> length d = n ->
  mbuf_read_uint n mb = (host_val d, adv mb (Z.of_nat n)).
Proof.
  intros W E <-. unfold mbuf_read_uint. fold (zlength d).
  by rewrite (mbuf_read_mem_app mb d r).
Qed.

Lemma mbuf_read_u8_cons mb b r :
  mbuf_wf mb -> rest mb = b :: r ->
  mbuf_read_u8 mb = (b, adv mb 1) /\ mbuf_wf (adv mb 1) /\ rest (adv mb 1) = r.
Proof.
  intros W E. unfold mbuf_read_u8. rewrite (mbuf_read_uint_app 1 mb [b] r) by done.
  split_and!.
  - f_equal. unfold host_val. destruct host_endian; unfold be_val; simpl; lia.
  - exact (adv_wf_app mb [b] r W E).
  - exact (rest_adv_app mb [b] r W E).
Qed.

Lemma mbuf_read_be16 mb a b r :
  mbuf_wf mb -> rest mb = a :: b :: r ->
  exists v, mbuf_read_u16 mb = (v, adv mb 2) /\ ntohs v = a * 256 + b
    /\ mbuf_wf (adv mb 2) /\ rest (adv mb 2) = r.
Proof.
  intros W E. exists (host_val [a; b]). unfold mbuf_read_u16.
  rewrite (mbuf_read_uint_app 2 mb [a; b] r) by done.
  assert (Hb : bytes [a; b]).
  { pose proof (bytes_rest mb W) as Hr. rewrite E in Hr. exact (proj1 (proj1 (bytes_app [a; b] r) Hr)). }
  split_and!; [done | | exact (adv_wf_app mb [a; b] r W E) | exact (rest_adv_app mb [a; b] r W E)].
  rewrite ntohs_host_val by done. unfold be_val; simpl. lia.
Qed.

Lemma mbuf_read_be32 mb a b c d r :
  mbuf_wf mb -> rest mb = a :: b :: c :: d :: r ->
  exists v, mbuf_read_u32 mb = (v, adv mb 4) /\ ntohl v = be_val [a; b; c; d]
    /\ mbuf_wf (adv mb 4) /\ rest (adv mb 4) = r.
Proof.
  intros W E. exists (host_val [a; b; c; d]). unfold mbuf_read_u32.
  rewrite (mbuf_read_uint_app 4 mb [a; b; c; d] r) by done.
  assert (Hb : bytes [a; b; c; d]).
  { pose proof (bytes_rest mb W) as Hr. rewrite E in Hr. exact (proj1 (proj1 (bytes_app [a; b; c; d] r) Hr)). }
  split_and!; [done | | exact (adv_wf_app mb [a; b; c; d] r W E) | exact (rest_adv_app mb [a; b; c; d] r W E)].
  by rewrite ntohl_host_val.
Qed.

(** *** Appending *)

(** A buffer positioned at its end, as encoders find it. *)
Definition at_end (mb : mbuf) : Prop := mbuf_wf mb /\ mb_pos mb = mb_end mb.

(** An allocator that serves every request mem.c lets through. *)
Definition ample_memory : Prop :=
  forall n, 0 <= n <= MEM_SIZE_MAX -> is_Some (malloc n) /\ forall o, is_Some (realloc o n).

(** [f] stores [d] at the position, or fails; it fails only when memory is
    short or the buffer would exceed 2 GiB. *)
Definition writes (f : mbuf -> Z * mbuf) (d : list Z) : Prop :=
  forall mb, mbuf_wf mb ->
    mbuf_wf (f mb).2 /\
    (((f mb).1 = 0 /\ mb_pos (f mb).2 = mb_pos mb + zlength d
      /\ content (f mb).2 = zsplice (mb_pos mb) d (content mb)) \/
     ((f mb).1 <> 0 /\ (ample_memory -> 2 ^ 31 <= mb_pos mb + zlength d))).

Lemma mbuf_put_ample mb d :
  mbuf_wf mb -> ample_memory -> mb_pos mb + zlength d < 2 ^ 31 -> (mbuf_put mb d).1 = 0.
Proof.
  intros W Ham Hl. pose proof (zlength_nonneg d). unfold mbuf_put. mbuf_wf_facts.
  rewrite (wrap_small _ (mb_pos mb + _)) by lia. case_test; [|done].
  rewrite (wrap_small _ (mb_size mb * 2)) by lia.
  set (sz := Z.max _ _). assert (0 <= sz <= MEM_SIZE_MAX).
  { subst sz. unfold MEM_SIZE_MAX, DEFAULT_SIZE. case_test; lia. }
  destruct (Ham sz) as [[b1 Hb1] Hre]; [done|].
  unfold mbuf_resize, mem_realloc, mem_alloc. rewrite Hb1. unfold MEM_SIZE_MAX in *.
  destruct (mb_buf mb) as [o|].
  - destruct (Hre o) as [b2 Hb2]. rewrite Hb2. by decide_test.
  - by decide_test.
Qed.

Lemma writes_put d :
  bytes d -> zlength d < 2 ^ 63 -> writes (fun mb => mbuf_put mb d) d.
Proof.
  intros Hd Hl mb W.
  destruct (mbuf_put_cases mb d W Hd Hl) as [(mb' & E & W' & Hp & He & Hc)|E]; rewrite E; simpl.
  - split; [done|]. by left.
  - split; [done|]. right. split; [done|]. intros Ham.
    destruct (Z.lt_ge_cases (mb_pos mb + zlength d) (2 ^ 31)) as [Hlt|]; [|lia].
    pose proof (mbuf_put_ample mb d W Ham Hlt) as Hok. rewrite E in Hok. discriminate.
Qed.
End MbufFacts.

(** ** Sequencing of calls

    [f ;| g] is [err = f(mb); err |= g(mb);] and [f ;& g] is
    [err = f(mb); if (err) return err; err = g(mb);]. *)
Definition seq_or (f g : mbuf -> Z * mbuf) (mb : mbuf) : Z * mbuf :=
  let '(e1, mb1) := f mb in
  let '(e2, mb2) := g mb1 in (Z.lor e1 e2, mb2).

Definition seq_ok (f g : mbuf -> Z * mbuf) (mb : mbuf) : Z * mbuf :=
  let '(e1, mb1) := f mb in
  if negb (e1 =? 0) then (e1, mb1) else g mb1.

Definition ret_ok (mb : mbuf) : Z * mbuf := (0, mb).

Declare Scope mbuf_scope.
Delimit Scope mbuf_scope with mbuf.
Notation "f ;| g" := (seq_or f g) (at level 93, right associativity) : mbuf_scope.
Notation "f ;& g" := (seq_ok f g) (at level 93, right associativity) : mbuf_scope.
Open Scope mbuf_scope.

(** Call [f] for each element, [err |=] throughout. *)
Fixpoint for_each_or {A} (f : A -> mbuf -> Z * mbuf) (l : list A) : mbuf -> Z * mbuf :=
  match l with
  | [] => ret_ok
  | x :: l => f x ;| for_each_or f l
  end.

Section Sequencing.
Context `{H : Host}.

Lemma pos_content mb : mbuf_wf mb -> 0 <= mb_pos mb <= zlength (content mb).
Proof. intros W. rewrite zlength_content by done. mbuf_wf_facts. lia. Qed.

Lemma writes_ret : writes ret_ok [].
Proof.
  intros mb W. split; [done|]. left. pose proof (pos_content mb W). simpl. split_and!; [done|by rewrite zlength_nil, Z.add_0_r|].
  unfold zsplice. rewrite zlength_nil, Z.add_0_r. simpl. by rewrite ztake_zdrop.
Qed.

Lemma writes_compose f g d1 d2 mb :
  writes f d1 -> writes g d2 -> mbuf_wf mb ->
  (f mb).1 = 0 ->
  let r := g (f mb).2 in
  mbuf_wf r.2 /\
  ((r.1 = 0 /\ mb_pos r.2 = mb_pos mb + zlength (d1 ++ d2)
    /\ content r.2 = zsplice (mb_pos mb) (d1 ++ d2) (content mb)) \/
   (r.1 <> 0 /\ (ample_memory -> 2 ^ 31 <= mb_pos mb + zlength (d1 ++ d2)))).
Proof.
  intros Hf Hg W E. destruct (Hf mb W) as [W1 [[_ [Hp1 Hc1]]|[He _]]]; [|done].
  destruct (Hg _ W1) as [W2 Hc2]. rewrite zlength_app, Z.add_assoc, <- Hp1. split; [done|].
  destruct Hc2 as [(E2 & Hp2 & Hc2)|[He2 Ha2]]; [left|by right].
  split_and!; try done. rewrite Hc2, Hc1, Hp1. apply zsplice_app. by apply pos_content.
Qed.

Lemma writes_seq_or f g d1 d2 : writes f d1 -> writes g d2 -> writes (f ;| g) (d1 ++ d2).
Proof.
  intros Hf Hg mb W. unfold seq_or. pose proof (writes_compose f g d1 d2 mb Hf Hg W) as Hc.
  destruct (Hf mb W) as [W1 Hd]. destruct (f mb) as [e1 mb1]; simpl in *.
  destruct (Hg mb1 W1) as [W2 _]. destruct (g mb1) as [e2 mb2]; simpl in *.
  destruct Hd as [[-> _]|[He1 Ha1]]; [rewrite Z.lor_0_l; by apply Hc|].
  split; [done|]. right. split; [rewrite Z.lor_eq_0_iff; tauto|].
  rewrite zlength_app. pose proof (zlength_nonneg d2). intros. specialize (Ha1 ltac:(done)). lia.
Qed.

Lemma writes_seq_ok f g d1 d2 : writes f d1 -> writes g d2 -> writes (f ;& g) (d1 ++ d2).
Proof.
  intros Hf Hg mb W. unfold seq_ok. pose proof (writes_compose f g d1 d2 mb Hf Hg W) as Hc.
  destruct (Hf mb W) as [W1 Hd]. destruct (f mb) as [e1 mb1]; simpl in *.
  destruct Hd as [[-> _]|[He1 Ha1]]; [by apply Hc|].
  replace (e1 =? 0) with false by (symmetry; by apply Z.eqb_neq). simpl.
  split; [done|]. right. split; [done|].
  rewrite zlength_app. pose proof (zlength_nonneg d2). intros. specialize (Ha1 ltac:(done)). lia.
Qed.

Lemma writes_for_each {A} (f : A -> mbuf -> Z * mbuf) (enc : A -> list Z) l :
  (forall x, In x l -> writes (f x) (enc x)) ->
  writes (for_each_or f l) (concat (map enc l)).
Proof.
  induction l as [|x l IH]; intros Hx; simpl; [apply writes_ret|].
  apply writes_seq_or; [apply Hx; by left|]. apply IH. intros. apply Hx. by right.
Qed.

Lemma writes_mem d : bytes d -> zlength d < 2 ^ 63 -> writes (fun mb => mbuf_write_mem mb d) d.
Proof. apply writes_put. Qed.

Lemma writes_host n v (d : list Z) :
  host_bytes n v = d -> Z.of_nat n < 2 ^ 63 -> writes (fun mb => mbuf_write_mem mb (host_bytes n v)) d.
Proof.
  intros <- Hn. apply writes_mem; [apply host_bytes_bytes|].
  unfold zlength. by rewrite host_bytes_length.
Qed.

Lemma host_bytes_1 v : host_bytes 1 v = [v mod 256].
Proof. unfold host_bytes. destruct host_endian; done. Qed.

Lemma writes_u8 v : writes (mbuf_write_u8 v) [v mod 256].
Proof. apply (writes_host 1); [apply host_bytes_1 | done]. Qed.

Lemma writes_be16 v : writes (mbuf_write_u16 (htons v)) (be_bytes 2 v).
Proof. apply (writes_host 2); [apply host_bytes_htons | done]. Qed.

Lemma writes_be32 v : writes (mbuf_write_u32 (htonl v)) (be_bytes 4 v).
Proof. apply (writes_host 4); [apply host_bytes_htonl | done]. Qed.

Lemma writes_be64 v : writes (mbuf_write_u64 (sys_htonll v)) (be_bytes 8 v).
Proof.
  apply (writes_host 8); [|done]. rewrite sys_htonll_val. apply host_bytes_be_val.
Qed.

Lemma writes_fill c n :
  is_byte c -> 0 < n < 2 ^ 63 -> writes (mbuf_fill c n) (replicate (Z.to_nat n) c).
Proof.
  intros Hc Hn mb Hm. unfold mbuf_fill. decide_test. revert mb Hm. apply writes_put.
  - by apply Forall_replicate.
  - unfold zlength. rewrite length_replicate. lia.
Qed.

(** What an encoder proved with [writes] leaves at the old position, once it
    returned 0. *)
Lemma writes_at f d mb mb' :
  writes f d -> mbuf_wf mb -> f mb = (0, mb') ->
  mbuf_wf mb' /\ mb_pos mb' = mb_pos mb + zlength d /\ mb_pos mb' <= mb_end mb'
  /\ content mb' = zsplice (mb_pos mb) d (content mb)
  /\ mbuf_wf (mbuf_set_pos mb' (mb_pos mb))
  /\ rest (mbuf_set_pos mb' (mb_pos mb)) = d ++ zdrop (zlength d) (rest mb).
Proof.
  intros Hw W E. destruct (Hw mb W) as [W' Hc]. rewrite E in *; simpl in *.
  destruct Hc as [(_ & Hp & Hc)|[Hc _]]; [|done]. pose proof (zlength_nonneg d).
  pose proof (pos_content mb W). split_and!; try done.
  - mbuf_wf_facts. lia.
  - mbuf_wf_facts. split; simpl; unfold MEM_SIZE_MAX; try lia; done.
  - unfold rest. simpl. change (content (mbuf_set_pos mb' (mb_pos mb))) with (content mb').
    rewrite Hc. unfold zsplice. rewrite zdrop_app_ge by (rewrite zlength_ztake; lia).
    rewrite zlength_ztake, Z.sub_diag, zdrop_0, zdrop_zdrop by lia. done.
Qed.

(** The same for a buffer positioned at its end: [d] was appended. *)
Lemma writes_done f d mb mb' :
  writes f d -> at_end mb -> f mb = (0, mb') ->
  at_end mb' /\ content mb' = content mb ++ d
  /\ mbuf_wf (mbuf_set_pos mb' (mb_pos mb)) /\ rest (mbuf_set_pos mb' (mb_pos mb)) = d.
Proof.
  intros Hw [W Hpe] E. destruct (writes_at f d mb mb' Hw W E) as (W' & Hp & _ & Hc & W'' & Hr).
  rewrite Hpe, <- (zlength_content mb W), zsplice_end in Hc.
  split; [split; [done|]|split; [done|split; [done|]]].
  - rewrite <- (zlength_content mb' W'), Hc, zlength_app, zlength_content by done. lia.
  - rewrite Hr. pose proof (zlength_rest mb W). pose proof (zlength_nonneg d).
    rewrite zdrop_ge, app_nil_r by lia. done.
Qed.

(** Encoders succeed while there is memory and the result stays below 2 GiB. *)
Lemma writes_total f d mb :
  writes f d -> mbuf_wf mb -> ample_memory -> mb_pos mb + zlength d < 2 ^ 31 -> (f mb).1 = 0.
Proof.
  intros Hw Hm Ham Hl. destruct (Hw mb Hm) as [_ [[? _]|[_ Ha]]]; [done|].
  specialize (Ha Ham). lia.
Qed.
End Sequencing.

(** ** Integers in network order, [ntohs(mbuf_read_u16(mb))] and the like *)

Section NetworkOrder.
Context `{H : Host}.

Definition read_be16 (mb : mbuf) : Z * mbuf := let '(v, mb) := mbuf_read_u16 mb in (ntohs v, mb).
Definition read_be32 (mb : mbuf) : Z * mbuf := let '(v, mb) := mbuf_read_u32 mb in (ntohl v, mb).
Definition read_be64 (mb : mbuf) : Z * mbuf := let '(v, mb) := mbuf_read_u64 mb in (sys_ntohll v, mb).
Definition write_be16 (v : Z) : mbuf -> Z * mbuf := mbuf_write_u16 (htons v).
Definition write_be32 (v : Z) : mbuf -> Z * mbuf := mbuf_write_u32 (htonl v).
Definition write_be64 (v : Z) : mbuf -> Z * mbuf := mbuf_write_u64 (sys_htonll v).

Lemma adv_step mb d r n :
  mbuf_wf mb -> rest mb = d ++ r -> zlength d = n -> mbuf_wf (adv mb n) /\ rest (adv mb n) = r.
Proof. intros W E <-. split; [by eapply adv_wf_app | by apply rest_adv_app]. Qed.

Lemma adv_adv mb a b : adv (adv mb a) b = adv mb (a + b).
Proof. unfold adv, mbuf_set_pos. simpl. f_equal. lia. Qed.

Lemma mbuf_advance_adv mb n :
  mbuf_wf mb -> 0 <= n <= zlength (rest mb) -> mbuf_advance mb n = adv mb n.
Proof.
  intros W Hn. unfold mbuf_advance, adv. rewrite zlength_rest in Hn by done.
  mbuf_wf_facts. by rewrite wrap_small by lia.
Qed.

Lemma read_u8_app mb v r :
  mbuf_wf mb -> rest mb = v :: r ->
  mbuf_read_u8 mb = (v, adv mb 1) /\ mbuf_wf (adv mb 1) /\ rest (adv mb 1) = r.
Proof. apply mbuf_read_u8_cons. Qed.

Lemma read_be16_app mb v r :
  mbuf_wf mb -> rest mb = be_bytes 2 v ++ r ->
  read_be16 mb = (wrap 16 v, adv mb 2) /\ mbuf_wf (adv mb 2) /\ rest (adv mb 2) = r.
Proof.
  intros W E. split; [|by apply (adv_step mb (be_bytes 2 v) r 2)].
  unfold read_be16, mbuf_read_u16.
  rewrite (mbuf_read_uint_app 2 mb (be_bytes 2 v) r) by done. f_equal.
  rewrite ntohs_host_val by (done || apply be_bytes_bytes). apply be_val_be_bytes.
Qed.

Lemma read_be32_app mb v r :
  mbuf_wf mb -> rest mb = be_bytes 4 v ++ r ->
  read_be32 mb = (wrap 32 v, adv mb 4) /\ mbuf_wf (adv mb 4) /\ rest (adv mb 4) = r.
Proof.
  intros W E. split; [|by apply (adv_step mb (be_bytes 4 v) r 4)].
  unfold read_be32, mbuf_read_u32.
  rewrite (mbuf_read_uint_app 4 mb (be_bytes 4 v) r) by done. f_equal.
  rewrite ntohl_host_val by (done || apply be_bytes_bytes). apply be_val_be_bytes.
Qed.

Lemma read_be64_app mb v r :
  mbuf_wf mb -> rest mb = be_bytes 8 v ++ r ->
  read_be64 mb = (wrap 64 v, adv mb 8) /\ mbuf_wf (adv mb 8) /\ rest (adv mb 8) = r.
Proof.
  intros W E. split; [|by apply (adv_step mb (be_bytes 8 v) r 8)].
  unfold read_be64, mbuf_read_u64.
  rewrite (mbuf_read_uint_app 8 mb (be_bytes 8 v) r) by done. f_equal.
  rewrite sys_ntohll_host_val by (done || apply be_bytes_bytes). apply be_val_be_bytes.
Qed.

Lemma read_mem_app mb d r n :
  mbuf_wf mb -> rest mb = d ++ r -> zlength d = n ->
  mbuf_read_mem mb n = (0, d, adv mb n) /\ mbuf_wf (adv mb n) /\ rest (adv mb n) = r.
Proof.
  intros W E <-. split; [by eapply mbuf_read_mem_app|]. by eapply adv_step.
Qed.
End NetworkOrder.

(** ** Decoders only move forward *)

(** [mb'] is [mb] with some more bytes consumed. *)
Definition advances (mb mb' : mbuf) : Prop :=
  mbuf_wf mb -> mbuf_wf mb' /\ mb_buf mb' = mb_buf mb /\ mb_size mb' = mb_size mb
    /\ mb_end mb' = mb_end mb /\ mb_pos mb <= mb_pos mb'.

#[export] Instance advances_preorder : PreOrder advances.
Proof.
  split.
  - intros mb W. by split_and!.
  - intros a b c Hab Hbc W. destruct (Hab W) as (Wb & E1 & E2 & E3 & ?).
    destruct (Hbc Wb) as (Wc & F1 & F2 & F3 & ?). split_and!; try congruence; try done. lia.
Qed.

Lemma advances_rest mb mb' :
  mbuf_wf mb -> advances mb mb' -> rest mb' = zdrop (mb_pos mb' - mb_pos mb) (rest mb).
Proof.
  intros W Ha. destruct (Ha W) as (W' & E1 & E2 & E3 & ?). unfold rest, content, mb_mem.
  rewrite E1, E3. mbuf_wf_facts. rewrite zdrop_zdrop by lia. f_equal. lia.
Qed.

Lemma advances_set_pos mb p :
  mb_pos mb <= p <= mb_end mb -> advances mb (mbuf_set_pos mb p).
Proof.
  intros Hp W. mbuf_wf_facts. split_and!; try done; [|simpl; lia].
  split; simpl; unfold MEM_SIZE_MAX; try lia; done.
Qed.

Section Advance.
Context `{H : Host}.

Lemma read_mem_advances mb n : mbuf_wf mb -> 0 <= n -> advances mb (mbuf_read_mem mb n).2.
Proof.
  intros W Hn. unfold mbuf_read_mem. rewrite mbuf_get_left_rest, zlength_rest by done.
  case_test; [done|]. simpl. mbuf_wf_facts. rewrite wrap_small by lia. apply advances_set_pos. lia.
Qed.

Lemma read_mem_bytes mb n : mbuf_wf mb -> bytes (mbuf_read_mem mb n).1.2.
Proof.
  intros W. unfold mbuf_read_mem. case_test; [constructor|]. simpl. unfold mbuf_buf.
  apply bytes_ztake, bytes_zdrop. by destruct W.
Qed.

Lemma read_mem_length mb n d mb' :
  mbuf_wf mb -> 0 <= n -> mbuf_read_mem mb n = (0, d, mb') -> zlength d = n.
Proof.
  intros W Hn. unfold mbuf_read_mem. case_test; [discriminate|]. intros [= <- _].
  rewrite mbuf_get_left_rest in * by done.
  rewrite mbuf_buf_rest by (done || lia). apply zlength_ztake. lia.
Qed.

Lemma read_uint_advances n mb : mbuf_wf mb -> advances mb (mbuf_read_uint n mb).2.
Proof.
  intros W. unfold mbuf_read_uint. pose proof (read_mem_advances mb (Z.of_nat n) W ltac:(lia)).
  by destruct (mbuf_read_mem mb (Z.of_nat n)) as [[e d] mb'].
Qed.

Lemma read_uint_range n mb : mbuf_wf mb -> 0 <= (mbuf_read_uint n mb).1 < 256 ^ Z.of_nat n.
Proof.
  intros W. unfold mbuf_read_uint.
  pose proof (read_mem_bytes mb (Z.of_nat n) W) as Hb.
  pose proof (read_mem_length mb (Z.of_nat n)) as Hl.
  destruct (mbuf_read_mem mb (Z.of_nat n)) as [[e d] mb']; simpl in *.
  destruct (Z.eqb_spec e 0) as [->|_]; [|split; [lia|apply Z.pow_pos_nonneg; lia]].
  pose proof (host_val_bound d Hb) as Hv. specialize (Hl _ _ W ltac:(lia) eq_refl).
  unfold zlength in Hl. by rewrite Hl in Hv.
Qed.

Lemma be_val_range n v : 0 <= be_val (host_bytes n v) < 256 ^ Z.of_nat n.
Proof.
  pose proof (be_val_bound (host_bytes n v) (host_bytes_bytes n v)) as Hb.
  by rewrite host_bytes_length in Hb.
Qed.

Lemma read_be16_any mb : mbuf_wf mb -> advances mb (read_be16 mb).2 /\ is_u16 (read_be16 mb).1.
Proof.
  intros W. pose proof (read_uint_advances 2 mb W). unfold read_be16, mbuf_read_u16.
  destruct (mbuf_read_uint 2 mb) as [v mb']. split; [done|]. apply (be_val_range 2).
Qed.

Lemma read_be32_any mb : mbuf_wf mb -> advances mb (read_be32 mb).2 /\ is_u32 (read_be32 mb).1.
Proof.
  intros W. pose proof (read_uint_advances 4 mb W). unfold read_be32, mbuf_read_u32.
  destruct (mbuf_read_uint 4 mb) as [v mb']. split; [done|]. apply (be_val_range 4).
Qed.

Lemma read_u8_any mb : mbuf_wf mb -> advances mb (mbuf_read_u8 mb).2 /\ is_byte (mbuf_read_u8 mb).1.
Proof.
  intros W. split; [by apply read_uint_advances|]. apply (read_uint_range 1 mb W).
Qed.

Lemma advances_wf mb mb' : mbuf_wf mb -> advances mb mb' -> mbuf_wf mb'.
Proof. intros W Ha. by destruct (Ha W). Qed.
End Advance.

(** One read of a decoder on arbitrary input: [L] is [read_be16_any mb W] or
    alike; names the value, the new buffer and what is known of them. *)
Tactic Notation "read_any" constr(L) "as" ident(v) ident(mb) ident(W) ident(A) ident(P) :=
  destruct L as [A P];
  lazymatch type of A with
  | advances ?old (?f ?o).2 =>
      destruct (f o) as [v mb]; cbn [fst snd] in A, P;
      match goal with Wo : mbuf_wf old |- _ => pose proof (advances_wf _ _ Wo A) as W end
  end.

Lemma zlength_be_bytes n v : zlength (be_bytes n v) = Z.of_nat n.
Proof. unfold zlength. by rewrite be_bytes_length. Qed.
#[export] Hint Rewrite zlength_be_bytes : zlen.

(** One read of a decoder: [L] is one of the [_app] lemmas, applied to the
    state the decoder is in. *)
Tactic Notation "read_step" open_constr(L) "as" ident(W) ident(R) :=
  let E := fresh in edestruct L as (E & W & R); [eassumption | eassumption | rewrite E; clear E].

Create HintDb writes discriminated.
#[export] Hint Resolve writes_ret writes_seq_or writes_seq_ok writes_u8 : writes.
#[export] Hint Extern 1 (writes (write_be16 _) _) => apply writes_be16 : writes.
#[export] Hint Extern 1 (writes (write_be32 _) _) => apply writes_be32 : writes.
#[export] Hint Extern 1 (writes (write_be64 _) _) => apply writes_be64 : writes.

Lemma lp64_ample : ample_memory (H := lp64_le).
Proof. intros n _. split; [by eexists | intros o; by eexists]. Qed.
