(* ===== verification/MbufSpec.v ===== *)
(** * What a memory buffer promises

    An abstract buffer is a byte string with a cursor.  [mbuf_refines] shows
    by simulation that the executions of a client that sets position, end and
    size only where the contents stay addressed ([op_ok]) are executions of the
    abstract buffer, with "out of memory, nothing happened" as the only extra
    outcome.  The other theorems cover mbuf_dup and the round trip of integers;
    positions beyond the end are the subject of [MbufView]. *)

From stdpp Require Import base list numbers.
From Stdlib Require Import ZArith Lia.
From S2P Require Import Prelude Endian Mbuf.

Open Scope Z_scope.

(** ** The abstract buffer *)

Record vbuf := Vbuf { v_content : list Z; v_pos : Z }.

Definition abs (mb : mbuf) : vbuf := Vbuf (content mb) (mb_pos mb).

(** The widths of the integer accessors. *)
Inductive width := W8 | W16 | W32 | W64.

Definition width_bytes (w : width) : nat :=
  match w with W8 => 1 | W16 => 2 | W32 => 4 | W64 => 8 end.

Inductive mop :=
  | WriteMem (d : list Z)
  | WriteUint (w : width) (v : Z)
  | Fill (c n : Z)
  | ReadMem (n : Z)
  | ReadUint (w : width)
  | SetPos (p : Z)
  | SetEnd (e : Z)
  | Advance (n : Z)
  | SkipToEnd
  | Rewind
  | Shift (s : Z)
  | Resize (n : Z)
  | Trim
  | Reset.

(** What the caller owes: blocks that exist in memory, positions inside the
    contents, an end that only cuts unread bytes off, a new size that holds
    the contents (MBUF_CHECK_POS and MBUF_CHECK_END only check in debug
    builds). *)
Definition op_ok (v : vbuf) (op : mop) : Prop :=
  match op with
  | WriteMem d => bytes d /\ zlength d < 2 ^ 63
  | Fill c n => is_byte c /\ 0 <= n < 2 ^ 63
  | ReadMem n => 0 <= n
  | SetPos p => 0 <= p <= zlength (v_content v)
  | SetEnd e => v_pos v <= e <= zlength (v_content v)
  | Advance n => 0 <= v_pos v + n <= zlength (v_content v)
  | Shift s => - 2 ^ 62 < s < 2 ^ 62
  | Resize n => zlength (v_content v) <= n
  | _ => True
  end.

Definition spec_write (v : vbuf) (d : list Z) : Z * list Z * vbuf :=
  (0, [], Vbuf (zsplice (v_pos v) d (v_content v)) (v_pos v + zlength d)).

(** Bytes a shift forwards leaves before the cursor: the buffer says how many
    there are and not what they are. *)
Definition exposed (op : mop) : Z := match op with Shift s => Z.max s 0 | _ => 0 end.

Section Spec.
Context `{H : Host}.

(** One call; [x] are the bytes a shift forwards exposes.  A failed integer
    read gives 0. *)
Definition spec_step (v : vbuf) (op : mop) (x : list Z) : Z * list Z * vbuf :=
  let left := zdrop (v_pos v) (v_content v) in
  match op with
  | WriteMem d => spec_write v d
  | WriteUint w n => spec_write v (host_bytes (width_bytes w) n)
  | Fill c n => if n =? 0 then (EINVAL, [], v) else spec_write v (replicate (Z.to_nat n) c)
  | ReadMem n =>
      if n >? zlength left then (EOVERFLOW, [], v)
      else (0, ztake n left, Vbuf (v_content v) (v_pos v + n))
  | ReadUint w =>
      let n := Z.of_nat (width_bytes w) in
      if n >? zlength left then (0, [0], v)
      else (0, [host_val (ztake n left)], Vbuf (v_content v) (v_pos v + n))
  | SetPos p => (0, [], Vbuf (v_content v) p)
  | SetEnd e => (0, [], Vbuf (ztake e (v_content v)) (v_pos v))
  | Advance n => (0, [], Vbuf (v_content v) (v_pos v + n))
  | SkipToEnd => (0, [], Vbuf (v_content v) (zlength (v_content v)))
  | Rewind => (0, [], Vbuf [] 0)
  | Shift s =>
      let p := v_pos v + s in
      if p <? 0 then (ERANGE, [], v)
      else (0, [], Vbuf (ztake (Z.min p (v_pos v)) (v_content v) ++ x ++ left) p)
  | Resize n => (0, [], v)
  | Trim => (0, [], v)
  | Reset => (0, [], Vbuf [] 0)
  end.

(** An operation may also run out of memory, without effect. *)
Inductive spec_result (v : vbuf) (op : mop) : Z * list Z * vbuf -> Prop :=
  | spec_done x : zlength x = exposed op -> spec_result v op (spec_step v op x)
  | spec_oom : spec_result v op (ENOMEM, [], v).

Inductive spec_trace : vbuf -> list (mop * (Z * list Z)) -> vbuf -> Prop :=
  | spec_nil v : spec_trace v [] v
  | spec_cons v op e o v1 tr v2 :
      spec_result v op (e, o, v1) -> spec_trace v1 tr v2 ->
      spec_trace v ((op, (e, o)) :: tr) v2.
End Spec.

Section Refinement.
Context `{H : Host}.

Definition quiet (r : Z * mbuf) : Z * list Z * mbuf := (r.1, [], r.2).

Definition write_uint (w : width) : Z -> mbuf -> Z * mbuf :=
  match w with W8 => mbuf_write_u8 | W16 => mbuf_write_u16 | W32 => mbuf_write_u32 | W64 => mbuf_write_u64 end.

Definition read_uint (w : width) : mbuf -> Z * mbuf :=
  match w with W8 => mbuf_read_u8 | W16 => mbuf_read_u16 | W32 => mbuf_read_u32 | W64 => mbuf_read_u64 end.

Definition mbuf_step (mb : mbuf) (op : mop) : Z * list Z * mbuf :=
  match op with
  | WriteMem d => quiet (mbuf_write_mem mb d)
  | WriteUint w n => quiet (write_uint w n mb)
  | Fill c n => quiet (mbuf_fill c n mb)
  | ReadMem n => mbuf_read_mem mb n
  | ReadUint w => let '(n, mb) := read_uint w mb in (0, [n], mb)
  | SetPos p => (0, [], mbuf_set_pos mb p)
  | SetEnd e => (0, [], mbuf_set_end mb e)
  | Advance n => (0, [], mbuf_advance mb n)
  | SkipToEnd => (0, [], mbuf_skip_to_end mb)
  | Rewind => (0, [], mbuf_rewind mb)
  | Shift s => quiet (mbuf_shift mb s)
  | Resize n => quiet (mbuf_resize mb n)
  | Trim => (0, [], mbuf_trim mb)
  | Reset => (0, [], mbuf_reset mb)
  end.

(** Executions of a client of mbuf.c: the calls with what they returned. *)
Inductive client : mbuf -> list (mop * (Z * list Z)) -> mbuf -> Prop :=
  | client_nil mb : client mb [] mb
  | client_cons mb op e o mb1 tr mb2 :
      op_ok (abs mb) op -> mbuf_step mb op = (e, o, mb1) -> client mb1 tr mb2 ->
      client mb ((op, (e, o)) :: tr) mb2.

Lemma set_pos_refines mb p :
  mbuf_wf mb -> 0 <= p <= mb_end mb ->
  mbuf_wf (mbuf_set_pos mb p) /\ abs (mbuf_set_pos mb p) = Vbuf (content mb) p.
Proof.
  intros W Hp. mbuf_wf_facts. split; [|done].
  split; simpl; unfold MEM_SIZE_MAX; try lia; done.
Qed.

Lemma put_refines mb d :
  mbuf_wf mb -> bytes d -> zlength d < 2 ^ 63 ->
  mbuf_wf (mbuf_put mb d).2 /\
  ((quiet (mbuf_put mb d)).1 = (0, []) /\ abs (mbuf_put mb d).2 = (spec_write (abs mb) d).2
   \/ mbuf_put mb d = (ENOMEM, mb)).
Proof.
  intros W Hd Hl. destruct (mbuf_put_cases mb d W Hd Hl) as [(mb' & -> & W' & Hp & _ & Hc)| ->].
  - split; [done|]. left. split; [done|]. unfold abs. simpl. by rewrite Hc, Hp.
  - split; [done|]. by right.
Qed.

Lemma trim_refines mb : mbuf_wf mb -> mbuf_wf (mbuf_trim mb) /\ abs (mbuf_trim mb) = abs mb.
Proof.
  intros W. unfold mbuf_trim. case_test; [done|].
  mbuf_wf_facts. destruct (mbuf_resize_cases mb (mb_end mb) W) as [(b & -> & Hb & Hbb & Hm & Hpre)| ->];
    [lia| |done].
  split; [split; unfold mb_mem; simpl; done || lia|].
  unfold abs, content, mb_mem; simpl. f_equal. apply Hpre; lia.
Qed.

Lemma rewind_refines mb : mbuf_wf mb -> mbuf_wf (mbuf_rewind mb) /\ abs (mbuf_rewind mb) = Vbuf [] 0.
Proof.
  intros W. mbuf_wf_facts. split; [|done].
  split; simpl; unfold MEM_SIZE_MAX; try lia; done.
Qed.

Lemma shift_blk mb mem :
  mbuf_wf mb -> zlength mem >= mb_end mb -> ztake (mb_end mb) mem = content mb ->
  ztake (mbuf_get_left mb) (zdrop (mb_pos mb) mem) = rest mb.
Proof.
  intros W Hl Hc. rewrite mbuf_get_left_rest, zlength_rest by done. mbuf_wf_facts.
  rewrite ztake_zdrop_comm by lia. unfold rest. rewrite <- Hc. do 2 f_equal. lia.
Qed.

(** Moving the unread bytes by [s] inside memory that is large enough. *)
Lemma shift_moves mb mem size s :
  mbuf_wf mb -> zlength mem = size -> bytes mem -> mb_end mb <= size <= MEM_SIZE_MAX ->
  ztake (mb_end mb) mem = content mb ->
  0 <= mb_pos mb + s -> mb_end mb + s <= size ->
  let mb' := Mbuf (Some (zsplice (mb_pos mb + s) (rest mb) mem)) size (mb_pos mb + s) (mb_end mb + s) in
  mbuf_wf mb' /\ content mb' = ztake (mb_pos mb + s) mem ++ rest mb.
Proof.
  intros W Hl Hb Hsz Hc Hp He mb'. subst mb'. pose proof (zlength_rest mb W) as Hr. split.
  - mbuf_wf_facts. split; unfold mb_mem; simpl; unfold MEM_SIZE_MAX; try lia; auto with relib.
    rewrite zlength_zsplice; lia.
  - unfold content, mb_mem, zsplice; simpl. mbuf_wf_facts.
    rewrite app_assoc, ztake_app_le by (rewrite zlength_app, zlength_ztake; lia).
    apply ztake_ge. rewrite zlength_app, zlength_ztake; lia.
Qed.

(** The bytes before the new cursor: the old ones as far as they go, and what
    the memory held behind them. *)
Lemma shift_prefix mb mem s :
  mbuf_wf mb -> mb_end mb <= zlength mem -> ztake (mb_end mb) mem = content mb ->
  0 <= mb_pos mb + s <= zlength mem ->
  exists x, zlength x = Z.max s 0
    /\ ztake (mb_pos mb + s) mem = ztake (Z.min (mb_pos mb + s) (mb_pos mb)) (content mb) ++ x.
Proof.
  intros W Hl Hc Hp. mbuf_wf_facts. rewrite <- Hc, ztake_ztake by lia.
  destruct (Z.le_ge_cases s 0) as [Hs|Hs].
  - exists []. rewrite app_nil_r, Z.min_l by lia. split; [rewrite zlength_nil; lia|done].
  - exists (ztake s (zdrop (mb_pos mb) mem)). rewrite Z.min_r by lia. split.
    + rewrite zlength_ztake; rewrite ?zlength_zdrop; lia.
    + rewrite ztake_zdrop_comm by lia. rewrite Z.add_comm.
      rewrite <- (ztake_ztake (mb_pos mb) (s + mb_pos mb)) by lia.
      by rewrite (Z.add_comm s), ztake_zdrop.
Qed.

(** Mbuf_shift moves the unread bytes by [shift] positions, backwards or
    forwards, growing the buffer when needed, and loses none of them; a shift
    below the start of the buffer is refused with ERANGE and a shift that
    needs more memory than there is with ENOMEM, both without effect. *)
Lemma mbuf_shift_correct mb s :
  mbuf_wf mb -> - 2 ^ 62 < s < 2 ^ 62 ->
  (mb_pos mb + s < 0 /\ mbuf_shift mb s = (ERANGE, mb))
  \/ (0 <= mb_pos mb + s /\ mb_size mb < mb_end mb + s /\ mbuf_shift mb s = (ENOMEM, mb))
  \/ (0 <= mb_pos mb + s /\ exists mb', mbuf_shift mb s = (0, mb') /\ mbuf_wf mb'
      /\ mb_pos mb' = mb_pos mb + s /\ mb_end mb' = mb_end mb + s
      /\ exists x, zlength x = Z.max s 0
           /\ content mb' = ztake (Z.min (mb_pos mb + s) (mb_pos mb)) (content mb) ++ x ++ rest mb).
Proof.
  intros W Hs. unfold mbuf_shift. mbuf_wf_facts.
  assert (Hsw : forall x, 0 <= x <= mb_end mb -> swrap 64 x = x).
  { intros x Hx. unfold swrap. rewrite Z.mod_small by lia. decide_test. lia. }
  rewrite !Hsw by lia. clear Hsw.
  destruct (Z.lt_ge_cases (mb_pos mb + s) 0) as [Hn|Hp].
  { left. split; [done|]. replace (_ <? 0) with true by (symmetry; apply Z.ltb_lt; lia). done. }
  right. replace (mb_pos mb + s <? 0) with false by (symmetry; apply Z.ltb_ge; lia).
  replace (mb_end mb + s <? 0) with false by (symmetry; apply Z.ltb_ge; lia). simpl.
  rewrite !(wrap_small _ (mb_end mb + s)) by lia. destruct (_ >? _) eqn:Eg; bool_prop.
  - destruct (mbuf_resize_cases mb (mb_end mb + s) W) as [(b & -> & Hb & Hbb & Hm & Hpre)| ->]; [lia| |by left].
    unfold MEM_SIZE_MAX in *.
    right. split; [done|]. simpl. unfold mbuf_get_left, mbuf_buf, mb_mem; simpl.
    change (if mb_end mb >? mb_pos mb then _ else _) with (mbuf_get_left mb).
    rewrite !wrap_small by lia. rewrite shift_blk; [| done | lia | apply Hpre; lia].
    destruct (shift_moves mb b (mb_end mb + s) s) as [W' Hr]; try done; unfold MEM_SIZE_MAX; try lia.
    { apply Hpre; lia. }
    destruct (shift_prefix mb b s) as (x & Hx & Ex); [done|lia|apply Hpre; lia|lia|].
    rewrite Ex, <- app_assoc in Hr. eauto 12.
  - right. split; [done|]. simpl. rewrite !wrap_small by lia. unfold mbuf_buf.
    rewrite shift_blk; [| done | lia | done].
    destruct (shift_moves mb (mb_mem mb) (mb_size mb) s) as [W' Hr]; try done; unfold MEM_SIZE_MAX; try lia.
    destruct (shift_prefix mb (mb_mem mb) s) as (x & Hx & Ex); [done|lia|done|lia|].
    rewrite Ex, <- app_assoc in Hr. eauto 12.
Qed.

Lemma deterministic v op x : exposed op = 0 -> zlength x = 0 -> spec_result v op (spec_step v op x).
Proof. intros He Hx. apply spec_done. by rewrite He. Qed.

Lemma set_end_refines mb e :
  mbuf_wf mb -> mb_pos mb <= e <= mb_end mb ->
  mbuf_wf (mbuf_set_end mb e) /\ abs (mbuf_set_end mb e) = Vbuf (ztake e (content mb)) (mb_pos mb).
Proof.
  intros W Hp. mbuf_wf_facts. split.
  - split; simpl; unfold MEM_SIZE_MAX; try lia; done.
  - unfold abs, content; simpl. by rewrite ztake_ztake by lia.
Qed.

Lemma resize_refines mb n :
  mbuf_wf mb -> mb_end mb <= n ->
  mbuf_wf (mbuf_resize mb n).2 /\ abs (mbuf_resize mb n).2 = abs mb
  /\ ((mbuf_resize mb n).1 = 0 \/ (mbuf_resize mb n).1 = ENOMEM).
Proof.
  intros W Hn. mbuf_wf_facts.
  destruct (mbuf_resize_cases mb n W) as [(b & -> & Hb & Hbb & Hm & Hpre)| ->]; [lia| |by auto].
  split; [split; unfold mb_mem; simpl; done || lia|]. split; [|by left].
  unfold abs, content, mb_mem; simpl. f_equal. apply Hpre; lia.
Qed.

Lemma read_refines mb n :
  mbuf_wf mb -> 0 <= n ->
  let left := rest mb in
  mbuf_wf (mbuf_read_mem mb n).2
  /\ ((mbuf_read_mem mb n).1, abs (mbuf_read_mem mb n).2)
     = if n >? zlength left then (EOVERFLOW, [], abs mb) else (0, ztake n left, Vbuf (content mb) (mb_pos mb + n)).
Proof.
  intros W Hn left. subst left. unfold mbuf_read_mem. rewrite mbuf_get_left_rest by done.
  destruct (n >? zlength (rest mb)) eqn:En; [done|]. bool_prop. simpl.
  rewrite mbuf_buf_rest by (done || lia). pose proof (zlength_rest mb W).
  mbuf_wf_facts. rewrite wrap_small by lia.
  destruct (set_pos_refines mb (mb_pos mb + n)) as [W' E]; [done|lia|]. cbn [fst snd]. rewrite E. by split.
Qed.

Lemma write_step_refines mb op d :
  mbuf_wf mb -> bytes d -> zlength d < 2 ^ 63 -> exposed op = 0 -> spec_step (abs mb) op [] = spec_write (abs mb) d ->
  mbuf_wf (mbuf_put mb d).2
  /\ spec_result (abs mb) op ((quiet (mbuf_put mb d)).1, abs (mbuf_put mb d).2).
Proof.
  intros W Hd Hl Hx Es. destruct (put_refines mb d W Hd Hl) as [W' [[E1 E2]|E]]; split; try done.
  - rewrite E1, E2. pose proof (deterministic (abs mb) op [] Hx zlength_nil) as R. by rewrite Es in R.
  - rewrite E. apply spec_oom.
Qed.

Lemma shift_refines mb s :
  mbuf_wf mb -> - 2 ^ 62 < s < 2 ^ 62 ->
  mbuf_wf (mbuf_shift mb s).2
  /\ spec_result (abs mb) (Shift s) ((quiet (mbuf_shift mb s)).1, abs (mbuf_shift mb s).2).
Proof.
  intros W Hs.
  assert (R : forall x, zlength x = Z.max s 0 -> spec_result (abs mb) (Shift s) (spec_step (abs mb) (Shift s) x))
    by (intros x Hx; by apply spec_done).
  cbn [spec_step abs v_pos v_content] in R. fold (rest mb) in R.
  destruct (mbuf_shift_correct mb s W Hs) as [[Hn E]|[(Hp & _ & E)|(Hp & mb' & E & W' & Ep & _ & x & Hx & Ec)]]; rewrite E.
  - split; [done|]. rewrite (proj2 (Z.ltb_lt _ _) Hn) in R. apply (R (replicate (Z.to_nat (Z.max s 0)) 0)).
    apply zlength_replicate. lia.
  - split; [done|]. apply spec_oom.
  - split; [done|]. specialize (R x Hx). rewrite (proj2 (Z.ltb_ge _ _) Hp) in R. unfold quiet, abs. cbn [fst snd]. by rewrite Ep, Ec.
Qed.

Lemma uint_step_refines mb w :
  mbuf_wf mb ->
  mbuf_wf (mbuf_step mb (ReadUint w)).2
  /\ spec_result (abs mb) (ReadUint w) ((mbuf_step mb (ReadUint w)).1, abs (mbuf_step mb (ReadUint w)).2).
Proof.
  intros W. pose proof (deterministic (abs mb) (ReadUint w) [] eq_refl zlength_nil) as R.
  assert (Er : read_uint w mb = mbuf_read_uint (width_bytes w) mb) by (by destruct w).
  unfold mbuf_step. rewrite Er. unfold mbuf_read_uint.
  destruct (read_refines mb (Z.of_nat (width_bytes w)) W ltac:(lia)) as [W' E].
  destruct (mbuf_read_mem mb (Z.of_nat (width_bytes w))) as [[e d] mb1]. cbn [fst snd] in *.
  split; [done|]. cbn [spec_step abs v_pos v_content] in R. fold (rest mb) in R.
  destruct (_ >? _); injection E as -> -> E1 E2; unfold abs in *; cbn [fst snd]; rewrite E1, E2; exact R.
Qed.

(** One call: the buffer stays well formed and the outcome is one the
    abstract buffer allows. *)
Lemma mbuf_step_refines mb op :
  mbuf_wf mb -> op_ok (abs mb) op ->
  mbuf_wf (mbuf_step mb op).2 /\
  spec_result (abs mb) op ((mbuf_step mb op).1, abs (mbuf_step mb op).2).
Proof.
  intros W Hop.
  assert (R : exposed op = 0 -> spec_result (abs mb) op (spec_step (abs mb) op []))
    by (intros Hx; by apply deterministic).
  destruct op; try specialize (R eq_refl); cbn [op_ok abs v_pos v_content] in Hop;
    cbn [mbuf_step]; rewrite ?zlength_content in Hop by done.
  - destruct Hop as [Hd Hl]. by apply write_step_refines.
  - assert (Eu : write_uint w v mb = mbuf_put mb (host_bytes (width_bytes w) v)) by (by destruct w).
    rewrite Eu. apply write_step_refines; try done; [apply host_bytes_bytes|].
    unfold zlength. rewrite host_bytes_length. by destruct w.
  - destruct Hop as [Hc Hn]. unfold mbuf_fill. cbn [spec_step] in R. destruct (n =? 0) eqn:En; [done|].
    apply write_step_refines; try done; [by apply Forall_replicate|rewrite zlength_replicate; lia|].
    cbn [spec_step]. by rewrite En.
  - destruct (read_refines mb n W Hop) as [W' ->]. by split.
  - by apply uint_step_refines.
  - destruct (set_pos_refines mb p) as [W' E]; [done..|]. cbn [fst snd]. rewrite E. by split.
  - destruct (set_end_refines mb e) as [W' E]; [done..|]. cbn [fst snd]. rewrite E. by split.
  - unfold mbuf_advance. mbuf_wf_facts. rewrite wrap_small by lia.
    destruct (set_pos_refines mb (mb_pos mb + n)) as [W' E]; [done..|]. cbn [fst snd]. rewrite E. by split.
  - unfold mbuf_skip_to_end. cbn [spec_step abs v_content v_pos] in R. rewrite zlength_content in R by done.
    destruct (set_pos_refines mb (mb_end mb)) as [W' E]; [done|mbuf_wf_facts; lia|]. cbn [fst snd]. rewrite E. by split.
  - destruct (rewind_refines mb W) as [W' E]. cbn [fst snd]. rewrite E. by split.
  - by apply shift_refines.
  - destruct (resize_refines mb n W Hop) as (W' & E & Hr). split; [done|]. unfold quiet. cbn [fst snd].
    rewrite E. destruct Hr as [->| ->]; [exact R|apply spec_oom].
  - destruct (trim_refines mb W) as [W' E]. cbn [fst snd]. rewrite E. by split.
  - split; [apply mbuf_init_wf|exact R].
Qed.

(** C3: a client starts from a well-formed buffer and makes any sequence of
    these calls: writing blocks and integers, mbuf_fill, reading blocks and
    integers, moving the position, cutting the end, mbuf_shift, mbuf_resize,
    mbuf_trim, rewind and reset.  As long as it keeps to [op_ok] (positions
    inside the contents, an end between the position and the old end, a new
    size that holds the contents), its execution is one of the abstract buffer
    with the same return values and data, up to calls that fail with ENOMEM
    and change nothing; the buffer stays well formed, so no access is out of
    the allocated memory.  Positions beyond the end, as the headroom that some
    senders reserve before they write, are not part of it. *)
Theorem mbuf_refines mb tr mb' :
  mbuf_wf mb -> client mb tr mb' -> mbuf_wf mb' /\ spec_trace (abs mb) tr (abs mb').
Proof.
  intros W Hc. induction Hc as [|mb op e o mb1 tr mb2 Hop Hs Hc IH]; [split; [done|constructor]|].
  destruct (mbuf_step_refines mb op W Hop) as [W1 R]. rewrite Hs in W1, R. simpl in W1, R.
  destruct (IH W1) as [W2 Htr]. split; [done|]. by econstructor.
Qed.
End Refinement.

(** The execution: write 3 bytes, go back to 0, read 2 of them. *)
Lemma mbuf_refines_witness :
  let _ := lp64_le in
  exists mb', mbuf_wf mbuf_init /\
    client mbuf_init [(WriteMem [1; 2; 3], (0, [])); (SetPos 0, (0, [])); (ReadMem 2, (0, [1; 2]))] mb'
    /\ mbuf_wf mb' /\ v_pos (abs mb') = 2.
Proof.
  intros host.
  assert (C : client (H := lp64_le) mbuf_init
     [(WriteMem [1; 2; 3], (0, [])); (SetPos 0, (0, [])); (ReadMem 2, (0, [1; 2]))]
     (Mbuf (Some (1 :: 2 :: 3 :: replicate 509 0)) 512 2 3)).
  { repeat (eapply client_cons; [| vm_compute; reflexivity |]); try apply client_nil; simpl;
      unfold is_byte; repeat split; repeat constructor; try lia; try (vm_compute; congruence). }
  eexists. split; [apply mbuf_init_wf|]. split; [exact C|].
  split; [exact (proj1 (mbuf_refines (H := lp64_le) _ _ _ mbuf_init_wf C)) | reflexivity].
Defined.

Section MoreOperations.
Context `{H : Host}.

Lemma write_uint_read n v mb mb' :
  (0 < n)%nat -> Z.of_nat n <= 8 -> mbuf_wf mb ->
  mbuf_write_mem mb (host_bytes n v) = (0, mb') ->
  mbuf_read_uint n (mbuf_set_pos mb' (mb_pos mb)) = (v mod 256 ^ Z.of_nat n, mb').
Proof.
  unfold mbuf_write_mem. intros Hn Hn8 W E. assert (Hl : zlength (host_bytes n v) = Z.of_nat n)
    by (unfold zlength; by rewrite host_bytes_length).
  destruct (mbuf_put_cases mb (host_bytes n v) W) as [(mb2 & E2 & W2 & Hp & He & Hc)|E2];
    [apply host_bytes_bytes | lia | | rewrite E2 in E; discriminate].
  rewrite E2 in E. injection E as ->. rewrite Hl in Hp, He.
  destruct (set_pos_refines mb' (mb_pos mb)) as [W3 _]; [done | mbuf_wf_facts; lia|].
  rewrite (mbuf_read_uint_app n _ (host_bytes n v) (zdrop (mb_pos mb + Z.of_nat n) (content mb)));
    [| done | | apply host_bytes_length].
  - rewrite host_val_host_bytes. f_equal. unfold adv, mbuf_set_pos. simpl.
    rewrite <- Hp. by destruct mb'.
  - unfold rest. simpl. change (content (mbuf_set_pos mb' (mb_pos mb))) with (content mb'). rewrite Hc. unfold zsplice.
    rewrite zdrop_app_ge; rewrite zlength_ztake; rewrite ?zlength_content by done; mbuf_wf_facts; try lia.
    by rewrite Z.sub_diag, Hl.
Qed.

(** An integer written at any position of a buffer is read back from
    there at full width (8 to 64 bits), whatever the byte order of the host,
    and the read leaves the buffer as the write left it. *)
Theorem mbuf_uint_roundtrip mb v mb' :
  mbuf_wf mb ->
  (mbuf_write_u8 v mb = (0, mb') -> mbuf_read_u8 (mbuf_set_pos mb' (mb_pos mb)) = (wrap 8 v, mb'))
  /\ (mbuf_write_u16 v mb = (0, mb') -> mbuf_read_u16 (mbuf_set_pos mb' (mb_pos mb)) = (wrap 16 v, mb'))
  /\ (mbuf_write_u32 v mb = (0, mb') -> mbuf_read_u32 (mbuf_set_pos mb' (mb_pos mb)) = (wrap 32 v, mb'))
  /\ (mbuf_write_u64 v mb = (0, mb') -> mbuf_read_u64 (mbuf_set_pos mb' (mb_pos mb)) = (wrap 64 v, mb')).
Proof.
  intros W. split_and!; intros E; eapply write_uint_read; eauto; lia.
Qed.

(** Mbuf_dup returns a well-formed buffer with the memory, position and
    end of the original. *)
Theorem mbuf_dup_correct mb mb' :
  mbuf_wf mb -> 0 < mb_size mb -> mbuf_dup mb = Some mb' ->
  mbuf_wf mb' /\ mb_mem mb' = mb_mem mb /\ abs mb' = abs mb /\ rest mb' = rest mb.
Proof.
  intros W Hs. unfold mbuf_dup, mbuf_alloc. decide_test.
  destruct (mbuf_resize_cases mbuf_init (mb_size mb) mbuf_init_wf) as [(b & -> & Hb & _)| ->];
    [lia| |done].
  simpl. intros [= <-]. mbuf_wf_facts.
  assert (E : zsplice 0 (ztake (mb_size mb) (mb_mem mb)) b = mb_mem mb).
  { unfold zsplice. rewrite ztake_0. simpl. rewrite (ztake_ge (mb_size mb)) by lia.
    rewrite zdrop_ge, app_nil_r by lia. done. }
  change (mb_mem (Mbuf (Some b) (mb_size mb) 0 0)) with b. rewrite E.
  assert (W' : mbuf_wf (Mbuf (Some (mb_mem mb)) (mb_size mb) (mb_pos mb) (mb_end mb)));
    [|by split_and!].
  split; unfold mb_mem; simpl; unfold MEM_SIZE_MAX; try lia; done.
Qed.
End MoreOperations.

Definition sample_mb : mbuf := Mbuf (Some [10; 20; 30; 40]) 4 1 3.

Lemma sample_mb_wf : mbuf_wf sample_mb.
Proof. split; unfold MEM_SIZE_MAX, is_byte; simpl; try lia; [done|]. repeat constructor; lia. Qed.

Lemma mbuf_shift_correct_witness :
  mbuf_wf sample_mb /\ - 2 ^ 62 < 3 < 2 ^ 62 /\
  exists mb' x, mbuf_shift (H := lp64_le) sample_mb 3 = (0, mb') /\ content mb' = [10] ++ x ++ [20; 30].
Proof.
  split; [exact sample_mb_wf|]. split; [lia|].
  destruct (mbuf_shift_correct (H := lp64_le) sample_mb 3 sample_mb_wf (conj eq_refl eq_refl))
    as [[E _]|[[_ [_ E]]|(_ & mb' & E & _ & _ & _ & x & _ & R)]].
  - vm_compute in E. discriminate.
  - vm_compute in E. discriminate.
  - exists mb', x. split; [exact E | exact R].
Defined.

Lemma mbuf_uint_roundtrip_witness :
  mbuf_wf sample_mb /\ exists mb', mbuf_write_u32 (H := lp64_le) 305419896 sample_mb = (0, mb')
  /\ mbuf_read_u32 (H := lp64_le) (mbuf_set_pos mb' 1) = (305419896, mb').
Proof.
  split; [exact sample_mb_wf|]. eexists. split; [vm_compute; reflexivity|].
  exact (proj1 (proj2 (proj2 (mbuf_uint_roundtrip (H := lp64_le) sample_mb 305419896 _ sample_mb_wf))) eq_refl).
Defined.

Lemma mbuf_dup_correct_witness :
  mbuf_wf sample_mb /\ 0 < mb_size sample_mb /\
  exists mb', mbuf_dup (H := lp64_le) sample_mb = Some mb' /\ rest mb' = [20; 30].
Proof.
  split; [exact sample_mb_wf|]. split; [reflexivity|]. eexists. split; [vm_compute; reflexivity|].
  exact (proj2 (proj2 (proj2 (mbuf_dup_correct (H := lp64_le) sample_mb _ sample_mb_wf eq_refl eq_refl)))).
Defined.
