(* ===== verification/MbufView.v ===== *)
(** * Buffers by their contents

    Code that moves the position and the end of a buffer back and forth (the
    SRTP transforms, message encoders that patch a length) is followed through
    [holds mb c p]: the buffer is well formed, its valid bytes are [c] and its
    position is [p]. *)

From stdpp Require Import base list numbers.
From Stdlib Require Import ZArith Lia.
From S2P Require Import Prelude Endian Mbuf.

Open Scope Z_scope.

Record holds (mb : mbuf) (c : list Z) (p : Z) : Prop := {
  holds_wf : mbuf_wf mb;
  holds_content : content mb = c;
  holds_pos : mb_pos mb = p;
}.

(** Bytes of the memory, and memcpy into it. *)
Definition mb_slice (mb : mbuf) (from len : Z) : list Z := ztake len (zdrop from (mb_mem mb)).
Definition mb_store (mb : mbuf) (at_ : Z) (d : list Z) : mbuf :=
  set_mem mb (zsplice at_ d (mb_mem mb)).

Lemma holds_end mb c p : holds mb c p -> mb_end mb = zlength c.
Proof. intros [W <- _]. by rewrite zlength_content. Qed.

Lemma holds_bytes mb c p : holds mb c p -> bytes c.
Proof. intros [W <- _]. by apply bytes_content. Qed.

Lemma holds_range mb c p : holds mb c p -> 0 <= p <= zlength c.
Proof. intros [W <- <-]. by apply pos_content. Qed.

Lemma holds_rest mb c p : holds mb c p -> rest mb = zdrop p c.
Proof. intros [W <- <-]. done. Qed.

Lemma holds_of_rest mb pre d :
  mbuf_wf mb -> ztake (mb_pos mb) (content mb) = pre -> rest mb = d -> holds mb (pre ++ d) (zlength pre).
Proof.
  intros W <- <-. pose proof (pos_content mb W). split; [done| |].
  - unfold rest. by rewrite ztake_zdrop.
  - rewrite zlength_ztake; lia.
Qed.

Lemma holds_get_left mb c p : holds mb c p -> mbuf_get_left mb = zlength c - p.
Proof.
  intros Hh. pose proof (holds_range _ _ _ Hh). destruct Hh as [W <- <-].
  rewrite mbuf_get_left_rest, zlength_rest, zlength_content by done. done.
Qed.

Lemma holds_set_pos mb c p q : holds mb c p -> 0 <= q <= zlength c -> holds (mbuf_set_pos mb q) c q.
Proof.
  intros Hh Hq. pose proof (holds_end _ _ _ Hh) as He. destruct Hh as [W Hc Hp].
  split; [|done|done]. mbuf_wf_facts. split; simpl; unfold MEM_SIZE_MAX; try lia; done.
Qed.

(** Cutting the buffer at [q]. *)
Lemma holds_cut mb c p q r :
  holds mb c p -> 0 <= r <= q -> q <= zlength c ->
  holds (mbuf_set_pos (mbuf_set_end mb q) r) (ztake q c) r.
Proof.
  intros Hh Hr Hq. pose proof (holds_end _ _ _ Hh) as He. destruct Hh as [W Hc Hp].
  split; [|unfold content in *; simpl|done].
  - mbuf_wf_facts. split; simpl; unfold MEM_SIZE_MAX; try lia; done.
  - rewrite <- Hc, ztake_ztake by lia. done.
Qed.

Lemma holds_set_end mb c p q :
  holds mb c p -> p <= q <= zlength c -> holds (mbuf_set_end mb q) (ztake q c) p.
Proof.
  intros Hh Hq. pose proof (holds_range _ _ _ Hh). pose proof (holds_cut mb c p q p Hh) as Hc.
  destruct Hh as [W _ <-]. apply Hc; lia.
Qed.

Lemma holds_slice mb c p from len :
  holds mb c p -> 0 <= from -> 0 <= len -> from + len <= zlength c ->
  mb_slice mb from len = ztake len (zdrop from c).
Proof.
  intros Hh Hf Hl Hle. pose proof (holds_end _ _ _ Hh). destruct Hh as [W <- _].
  unfold mb_slice, content. rewrite !ztake_zdrop_comm, ztake_ztake by lia. done.
Qed.

Lemma holds_store mb c p at_ d :
  holds mb c p -> 0 <= at_ -> at_ + zlength d <= zlength c -> bytes d ->
  holds (mb_store mb at_ d) (zsplice at_ d c) p.
Proof.
  intros Hh Ha Hl Hd. pose proof (holds_end _ _ _ Hh) as He. pose proof (zlength_nonneg d).
  destruct Hh as [W <- <-]. pose proof (zlength_content mb W) as Hlc. mbuf_wf_facts. split; [| |done].
  - split; unfold mb_store, set_mem, mb_mem in *; simpl; unfold MEM_SIZE_MAX; try lia; auto with relib.
    rewrite zlength_zsplice; lia.
  - unfold mb_store, content, set_mem, mb_mem in *. simpl. unfold zsplice.
    rewrite (ztake_ztake at_), !app_assoc, ztake_app_ge
      by (rewrite ?zlength_app, ?zlength_ztake; lia).
    rewrite zlength_app, zlength_ztake, ztake_zdrop_comm by lia. do 3 f_equal. lia.
Qed.

Lemma zsplice_mid {A} (a b b' c : list A) :
  zlength b' = zlength b -> zsplice (zlength a) b' (a ++ b ++ c) = a ++ b' ++ c.
Proof.
  intros Hl. unfold zsplice. rewrite ztake_app_exact. do 2 f_equal.
  rewrite zdrop_app_ge, Hl by (pose proof (zlength_nonneg b'); lia).
  replace (zlength a + zlength b - zlength a) with (zlength b) by lia. apply zdrop_app_exact.
Qed.

Section View.
Context `{H : Host}.

Lemma holds_append mb c d :
  holds mb c (zlength c) -> bytes d -> ample_memory -> zlength c + zlength d < 2 ^ 31 ->
  exists mb', mbuf_write_mem mb d = (0, mb') /\ holds mb' (c ++ d) (zlength (c ++ d)).
Proof.
  intros [W Hc Hp] Hd Ham Hl. pose proof (zlength_nonneg c). unfold mbuf_write_mem.
  pose proof (mbuf_put_ample mb d W Ham ltac:(lia)) as Hok.
  destruct (mbuf_put_cases mb d W Hd ltac:(lia)) as [(mb' & -> & W' & Hp' & _ & Hc')|E];
    [|rewrite E in Hok; discriminate].
  eexists. split; [done|]. split; [done| |rewrite zlength_app; lia].
  by rewrite Hc', Hc, Hp, zsplice_end.
Qed.

Lemma holds_append_be32 mb c v :
  holds mb c (zlength c) -> ample_memory -> zlength c + 4 < 2 ^ 31 ->
  exists mb', write_be32 v mb = (0, mb') /\ holds mb' (c ++ be_bytes 4 v) (zlength c + 4).
Proof.
  intros Hh Ham Hl. unfold write_be32, mbuf_write_u32. rewrite host_bytes_htonl.
  destruct (holds_append mb c (be_bytes 4 v) Hh) as (mb' & E & Hh'); auto with relib.
  exists mb'. split; [done|]. by rewrite zlength_app, zlength_be_bytes in Hh'.
Qed.

(** A buffer that was received: all of it is to be read. *)
Definition rcv_buf (d : list Z) : mbuf := Mbuf (Some d) (zlength d) 0 (zlength d).

Lemma rcv_buf_holds d : bytes d -> zlength d <= MEM_SIZE_MAX -> holds (rcv_buf d) d 0.
Proof.
  intros Hd Hl. pose proof (zlength_nonneg d). split; [|unfold content; simpl|done].
  - split; unfold mb_mem; simpl; try lia; done.
  - unfold mb_mem. simpl. apply ztake_ge. lia.
Qed.

(** Appending with an encoder, and a new buffer. *)
Lemma holds_writes f d mb c :
  ample_memory -> writes f d -> holds mb c (zlength c) -> zlength c + zlength d < 2 ^ 31 ->
  exists mb', f mb = (0, mb') /\ holds mb' (c ++ d) (zlength (c ++ d)).
Proof.
  intros Ham Hw [W Hc Hp] Hl. pose proof (writes_total f d mb Hw W Ham ltac:(lia)) as Hok. destruct (f mb) as [e mb'] eqn:E.
  cbn in Hok. subst e. destruct (writes_at f d mb mb' Hw W E) as (W' & Hp' & _ & Hc' & _). exists mb'. split; [done|].
  split; [done| |zlen]. by rewrite Hc', Hc, Hp, zsplice_end.
Qed.

Lemma mbuf_alloc_new size :
  ample_memory -> 0 < size <= MEM_SIZE_MAX -> exists mb, mbuf_alloc size = Some mb /\ holds mb [] 0 /\ mb_size mb = size.
Proof.
  intros Ham Hs. unfold mbuf_alloc. rewrite (proj2 (Z.eqb_neq size 0)) by lia.
  destruct (mbuf_resize_cases mbuf_init size mbuf_init_wf ltac:(lia)) as [(b & Er & Hl & Hb & Hmax & _)|Er].
  - rewrite Er. eexists. split; [done|]. split; [|done]. split; [|done|done]. unfold MEM_SIZE_MAX in *. split; cbn; try done; lia.
  - exfalso. unfold mbuf_resize, mbuf_init in Er. cbn [mb_buf] in Er. unfold mem_alloc in Er. destruct (Ham size) as [[b Hb] _]; [lia|].
    rewrite Hb in Er. revert Er. unfold MEM_SIZE_MAX in *. decide_test. done.
Qed.

(** Overwriting a block of the contents. *)
Lemma holds_overwrite mb f d a b c :
  writes f d -> holds mb (a ++ b ++ c) (zlength a) -> zlength b = zlength d -> ample_memory ->
  zlength (a ++ b) < 2 ^ 31 ->
  exists mb', f mb = (0, mb') /\ holds mb' (a ++ d ++ c) (zlength (a ++ d)).
Proof.
  intros Hw [W Hc Hp] Hl Ham Hlt. rewrite zlength_app in Hlt.
  pose proof (writes_total f d mb Hw W Ham ltac:(lia)) as Hok. destruct (f mb) as [e mb'] eqn:E.
  cbn in Hok. subst e. destruct (writes_at f d mb mb' Hw W E) as (W' & Hp' & _ & Hc' & _).
  exists mb'. split; [done|]. split; [done| |rewrite zlength_app; lia].
  rewrite Hc', Hc, Hp. by apply zsplice_mid.
Qed.

(** ** Space reserved for a header

    Encoders move the position beyond the end, write a body there and come
    back to fill in the header.  [reserved mb c p]: the valid bytes are [c] and
    the position is [p], possibly beyond them and beyond the memory. *)
Record reserved (mb : mbuf) (c : list Z) (p : Z) : Prop := {
  reserved_wf : mbuf_wf (mbuf_set_pos mb 0);
  reserved_content : content mb = c;
  reserved_pos : mb_pos mb = p;
  reserved_far : zlength c <= p;
}.

Lemma reserve mb c p : holds mb c (zlength c) -> zlength c <= p -> reserved (mbuf_set_pos mb p) c p.
Proof.
  intros Hh Hp. pose proof (zlength_nonneg c). destruct (holds_set_pos mb c _ 0 Hh ltac:(lia)) as [W _ _].
  destruct Hh as [_ Hc _]. by split.
Qed.

Lemma reserved_back mb c p q : reserved mb c p -> 0 <= q <= zlength c -> holds (mbuf_set_pos mb q) c q.
Proof.
  intros [W Hc _ _] Hq. assert (Hh : holds (mbuf_set_pos mb 0) c 0) by (by split).
  exact (holds_set_pos _ _ _ q Hh Hq).
Qed.

Lemma reserved_seek mb c p q : reserved mb c p -> zlength c <= q -> reserved (mbuf_set_pos mb q) c q.
Proof. by intros [W Hc _ _] Hq. Qed.

Lemma reserved_put mb c p d :
  reserved mb c p -> bytes d -> ample_memory -> p + zlength d < 2 ^ 31 ->
  exists hole mb', mbuf_put mb d = (0, mb') /\ zlength hole = p - zlength c
    /\ holds mb' (c ++ hole ++ d) (p + zlength d).
Proof.
  intros [W Hc Hp Hfar] Hd Ham Hl. pose proof (zlength_nonneg c). pose proof (zlength_nonneg d).
  pose proof (zlength_content _ W) as He. change (content (mbuf_set_pos mb 0)) with (content mb) in He.
  rewrite Hc in He. cbn in He.
  assert (Hgo : forall b size, p + zlength d <= size <= MEM_SIZE_MAX -> zlength b = size -> bytes b ->
    ztake (mb_end mb) b = c ->
    holds (Mbuf (Some (zsplice p d b)) size (p + zlength d) (Z.max (mb_end mb) (p + zlength d)))
      (c ++ zdrop (zlength c) (ztake p b) ++ d) (p + zlength d)).
  { intros b size Hsz Hb Hbb Hpre. split; [|unfold content, mb_mem; cbn|done].
    - split; unfold mb_mem; cbn; unfold MEM_SIZE_MAX in *; try lia; auto with relib. rewrite zlength_zsplice; lia.
    - rewrite Z.max_r by lia. unfold zsplice. rewrite app_assoc, ztake_app_le, ztake_ge
        by (rewrite !zlength_app, !zlength_ztake; lia).
      rewrite app_assoc. f_equal. rewrite <- (ztake_zdrop (zlength c) (ztake p b)) at 1. f_equal.
      rewrite ztake_ztake by lia. by rewrite He. }
  assert (Hhole : forall b : list Z, p <= zlength b -> zlength (zdrop (zlength c) (ztake p b)) = p - zlength c).
  { intros b Hb. rewrite zlength_zdrop, zlength_ztake; rewrite ?zlength_ztake; lia. }
  destruct W as [Wl Wp We Wm Wb]. cbn in *. unfold mbuf_put. rewrite Hp. rewrite (wrap_small _ (p + _)) by lia.
  case_test.
  - unfold MEM_SIZE_MAX in *. rewrite (wrap_small _ (mb_size mb * 2)) by lia.
    set (sz := Z.max _ _). assert (Hsz : p + zlength d <= sz <= MEM_SIZE_MAX).
    { subst sz. unfold MEM_SIZE_MAX, DEFAULT_SIZE. case_test; lia. }
    clearbody sz. destruct (Ham sz ltac:(lia)) as [[b1 Hb1] Hre].
    assert (Hex : exists b, mbuf_resize mb sz = (0, Mbuf (Some b) sz p (mb_end mb)) /\ zlength b = sz /\ bytes b
      /\ ztake (mb_end mb) b = c).
    { unfold mbuf_resize, mem_realloc, mem_alloc. unfold content, mb_mem in *. cbn in *. rewrite Hp.
      replace (sz >? MEM_SIZE_MAX) with false by (symmetry; rewrite Z.gtb_ltb; apply Z.ltb_ge; lia).
      destruct (mb_buf mb) as [o|]; cbn in *.
      - destruct (Hre o) as [b Hb]. rewrite Hb. exists b. split_and!; [done|eapply (realloc_length o); [lia|done]|eapply (realloc_bytes o); done|].
        rewrite <- Hc. eapply realloc_prefix; [done|lia|lia].
      - rewrite Hb1. exists b1. rewrite zlength_nil in *. split_and!; [done|eapply malloc_length; [lia|done]|eapply malloc_bytes; done|].
        rewrite <- Hc. by replace (mb_end mb) with 0 by lia. }
    destruct Hex as (b & -> & Hb & Hbb & Hpre). cbn [Z.eqb negb]. unfold set_mem, mb_mem. cbn.
    rewrite wrap_small by lia. eexists _, _. split; [done|]. split; [|by apply Hgo]. apply Hhole. lia.
  - unfold set_mem, mb_mem. cbn. rewrite Hp, wrap_small by lia. eexists _, _. split; [done|].
    split; [|apply Hgo; try done; unfold MEM_SIZE_MAX in *; lia]. apply Hhole. unfold mb_mem in Wl. lia.
Qed.

(** ** Padding to a multiple of four

    [while ((mb->pos - start) & 0x03) err |= mbuf_write_u8(mb, byte);]: the
    error of a write does not end the loop. *)
Fixpoint align_loop (fuel : nat) (byte start err : Z) (mb : mbuf) : option (Z * mbuf) :=
  if Z.land (u64 (mb_pos mb - start)) 3 =? 0 then Some (err, mb)
  else
    match fuel with
    | O => None
    | S fuel =>
        let '(e, mb) := mbuf_write_u8 byte mb in
        align_loop fuel byte start (Z.lor err e) mb
    end.

Lemma aligned mb start :
  mbuf_wf mb -> 0 <= start <= mb_pos mb -> Z.land (u64 (mb_pos mb - start)) 3 = (mb_pos mb - start) mod 4.
Proof.
  intros W Hs. mbuf_wf_facts. rewrite wrap_small by lia. apply (Z.land_ones _ 2). lia.
Qed.

(** While there is memory, [k] turns pad with [k] bytes. *)
Lemma align_loop_done byte k : forall fuel start mb,
  (k <= fuel)%nat -> (k < 4)%nat -> mbuf_wf mb -> ample_memory ->
  mb_pos mb + Z.of_nat k < 2 ^ 31 -> 0 <= start <= mb_pos mb ->
  (mb_pos mb - start + Z.of_nat k) mod 4 = 0 -> is_byte byte ->
  exists mb', align_loop fuel byte start 0 mb = Some (0, mb') /\ mbuf_wf mb'
    /\ mb_pos mb' = mb_pos mb + Z.of_nat k
    /\ content mb' = zsplice (mb_pos mb) (replicate k byte) (content mb).
Proof.
  induction k as [|k IH]; intros fuel start mb Hf Hk W Ham Hp Hst Hmod Hby;
    pose proof (aligned mb start W Hst) as E.
  - exists mb. destruct (writes_ret mb W) as [_ [(_ & Hp0 & Hc)|[? _]]]; [|done]. simpl in Hp0, Hc.
    rewrite Z.add_0_r in Hmod. split_and!; [|done|lia|done]. destruct fuel; cbn [align_loop]; by rewrite E, Hmod.
  - destruct fuel as [|fuel]; [lia|]. cbn [align_loop]. rewrite E.
    rewrite (proj2 (Z.eqb_neq _ 0)) by (intros E0; rewrite <- Z.add_mod_idemp_l, E0, Z.mod_small in Hmod; lia).
    pose proof (writes_u8 byte) as Hw. rewrite Z.mod_small in Hw by done.
    pose proof (writes_total (mbuf_write_u8 byte) _ mb Hw W Ham) as Hok.
    destruct (mbuf_write_u8 byte mb) as [e1 mb1] eqn:E1. simpl in Hok.
    rewrite zlength_cons, zlength_nil in Hok. rewrite Hok in * by lia.
    destruct (writes_at _ _ _ _ Hw W E1) as (W1 & Hp1 & _ & Hc1 & _).
    rewrite zlength_cons, zlength_nil in Hp1.
    change (Z.lor 0 0) with 0. destruct (IH fuel start mb1) as (mb' & -> & W' & Hp' & Hc'); try done; try lia.
    { rewrite Hp1. rewrite <- Hmod. f_equal. lia. }
    exists mb'. split_and!; try done; [lia|]. rewrite Hc', Hc1, Hp1.
    change (1 + 0) with (zlength [byte]). rewrite zsplice_app by by apply pos_content. done.
Qed.

(** Without progress the loop does not end. *)
Lemma align_loop_stuck fuel byte start err mb :
  (mbuf_write_u8 byte mb).2 = mb -> Z.land (u64 (mb_pos mb - start)) 3 <> 0 ->
  align_loop fuel byte start err mb = None.
Proof.
  intros Hs Hn. apply Z.eqb_neq in Hn. revert err.
  induction fuel as [|fuel IH]; intros err; cbn [align_loop]; rewrite Hn; [done|].
  destruct (mbuf_write_u8 byte mb) as [e mb1]. simpl in Hs. subst mb1. apply IH.
Qed.
End View.

(** Number of padding bytes after [n] bytes. *)
Definition pad_len (n : Z) : Z := (- n) mod 4.

Lemma pad_len_range n : 0 <= pad_len n < 4.
Proof. apply Z.mod_pos_bound. lia. Qed.

Lemma pad_len_mod n : (n + pad_len n) mod 4 = 0.
Proof. unfold pad_len. rewrite Z.add_mod_idemp_r by lia. by rewrite Z.add_opp_diag_r. Qed.

Lemma slice_mid {A} (a b c : list A) : ztake (zlength b) (zdrop (zlength a) (a ++ b ++ c)) = b.
Proof. by rewrite zdrop_app_exact, ztake_app_exact. Qed.
