(* ===== verification/Format.v ===== *)
(** * Decoders and the formats they read

    Decoders over a buffer are written in the monad [D]: an error code or a
    value, and the buffer; [None] is a loop that has not ended or an access out
    of bounds.  A [format] says where an item lies in the known bytes of a
    message ([view]: all bytes of a buffer), and [reads d F P] that the decoder
    [d] reads an item of format [F] and returns a value that satisfies [P]. *)

From Stdlib Require Import ZArith Lia.
From stdpp Require Import base numbers list.
From S2P Require Import Prelude Endian Mbuf MbufView.

Open Scope Z_scope.

Declare Scope decode_scope.
Delimit Scope decode_scope with decode.

(** ** Decoders *)

Definition D (A : Type) : Type := mbuf -> option (res A * mbuf).
Definition dret {A} (a : A) : D A := fun mb => Some (Ok a, mb).
Definition dthrow {A} (e : Z) : D A := fun mb => Some (Err e, mb).
Definition dbind {A B} (m : D A) (k : A -> D B) : D B := fun mb =>
  match m mb with
  | None => None
  | Some (Err e, mb) => Some (Err e, mb)
  | Some (Ok a, mb) => k a mb
  end.
Definition dread {A} (f : mbuf -> A * mbuf) : D A := fun mb => let '(a, mb) := f mb in Some (Ok a, mb).
(** [if (mbuf_get_left(mb) < n) goto fmerr] with the code of the error. *)
Definition dneed (n e : Z) : D unit := fun mb => if mbuf_get_left mb <? n then Some (Err e, mb) else Some (Ok tt, mb).
Definition dcheck (b : bool) (e : Z) : D unit := if b then dret tt else dthrow e.

Notation "'do!' x := m 'in' k" := (dbind m (fun x => k))
  (at level 10, x pattern, m at level 100, k at level 200) : decode_scope.

Open Scope decode_scope.

Definition dread_mem (n : Z) : D (list Z) := fun mb =>
  let '(err, d, mb) := mbuf_read_mem mb n in
  Some (if err =? 0 then Ok d else Err err, mb).

(** Allocating a block, the position, and an item a number of times. *)
Definition dalloc `{Host} (size : Z) : D unit := match mem_alloc size with Some _ => dret tt | None => dthrow ENOMEM end.
Definition dpos : D Z := fun mb => Some (Ok (mb_pos mb), mb).

Fixpoint repeat_read {A} (n : nat) (d : D A) : D (list A) :=
  match n with
  | O => dret []
  | S n => do! a := d in do! l := repeat_read n d in dret (a :: l)
  end.

(** ** Known bytes *)

(** The known bytes of a message. *)
Definition view (c : list Z) (p : Z) : option Z := if 0 <=? p then c !! Z.to_nat p else None.

Definition seg (g : Z -> option Z) (p : Z) (l : list Z) : Prop :=
  forall i b, l !! i = Some b -> g (p + Z.of_nat i) = Some b.

Lemma view_lookup c p b : view c p = Some b <-> 0 <= p /\ c !! Z.to_nat p = Some b.
Proof. unfold view. destruct (Z.leb_spec 0 p) as [Hp|Hp]; [naive_solver|split; [done|]]. intros [? _]. lia. Qed.

Lemma view_bound c p b : view c p = Some b -> 0 <= p < zlength c.
Proof. rewrite view_lookup. intros [Hp Hb%lookup_lt_Some]. unfold zlength. lia. Qed.

Lemma view_app c d p b : view c p = Some b -> view (c ++ d) p = Some b.
Proof. rewrite !view_lookup. intros [Hp Hb]. split; [done|]. by apply lookup_app_l_Some. Qed.

Lemma view_r c d p : view (c ++ d) (zlength c + p) = if 0 <=? p then d !! Z.to_nat p else view c (zlength c + p).
Proof.
  pose proof (zlength_nonneg c). unfold view. destruct (Z.leb_spec 0 p).
  - rewrite (proj2 (Z.leb_le 0 _)) by lia. rewrite lookup_app_r by (unfold zlength; lia). f_equal. unfold zlength. lia.
  - destruct (Z.leb_spec 0 (zlength c + p)); [|done]. apply lookup_app_l. unfold zlength in *. lia.
Qed.

Lemma seg_mid a l b : seg (view (a ++ l ++ b)) (zlength a) l.
Proof.
  intros i x Hx. rewrite view_r, (proj2 (Z.leb_le 0 _)) by lia. rewrite Nat2Z.id. by apply lookup_app_l_Some.
Qed.

Lemma slice_lookup (c : list Z) p n : 0 <= p -> 0 <= n -> p + n <= zlength c -> seg (view c) p (ztake n (zdrop p c)).
Proof.
  intros Hp Hn Hl. pose proof (seg_mid (ztake p c) (ztake n (zdrop p c)) (zdrop n (zdrop p c))) as E.
  by rewrite !ztake_zdrop, zlength_ztake in E by lia.
Qed.

Lemma seg_slice c p l : 0 <= p -> seg (view c) p l -> ztake (zlength l) (zdrop p c) = l.
Proof.
  intros Hp Hs. unfold ztake, zdrop, zlength. rewrite Nat2Z.id. apply list_eq. intros i.
  destruct (l !! i) as [b|] eqn:Hi.
  - pose proof (lookup_lt_Some _ _ _ Hi). apply Hs, view_lookup in Hi as [_ Hb].
    rewrite lookup_take_lt, lookup_drop by lia. rewrite <- Hb. f_equal. lia.
  - apply lookup_ge_None in Hi. by rewrite lookup_take_ge.
Qed.

Lemma seg_bound c p l : 0 <= p <= zlength c -> seg (view c) p l -> p + zlength l <= zlength c.
Proof.
  intros Hp Hs. destruct (decide (l = [])) as [->|Hne]; [zlen|]. destruct (last l) as [b|] eqn:Hl; [|by apply last_None in Hl].
  rewrite last_lookup in Hl. apply Hs, view_bound in Hl. destruct l; [done|]. unfold zlength in *. cbn in *. lia.
Qed.

Lemma view_head c p b : view c p = Some b -> exists r, zdrop p c = b :: r.
Proof. rewrite view_lookup. intros [Hp Hb]. exists (zdrop (p + 1) c). unfold zdrop. erewrite drop_S by done. do 2 f_equal. lia. Qed.

Lemma set_pos_twice mb p q : mbuf_set_pos (mbuf_set_pos mb p) q = mbuf_set_pos mb q.
Proof. done. Qed.

(** ** Formats *)

Definition format : Type := (Z -> option Z) -> Z -> Z -> Prop.

Definition raw (l : list Z) : format := fun g p q => seg g p l /\ q = p + zlength l.
Definition fseq (F G : format) : format := fun g p q => exists r, F g p r /\ G g r q.
Definition fnil : format := fun g p q => q = p.

Declare Scope format_scope.
Delimit Scope format_scope with format.
Bind Scope format_scope with format.
Notation "F ⨾ G" := (fseq F G) (at level 93, right associativity) : format_scope.
Open Scope format_scope.

(** What is read from known bytes is read from more of them. *)
Definition fmono (F : format) : Prop :=
  forall g g' p q, (forall i b, g i = Some b -> g' i = Some b) -> F g p q -> F g' p q.

(** Items have at least a number of bytes. *)
Definition fmin (F : format) (n : Z) : Prop := forall g p q, F g p q -> p + n <= q.

Lemma raw_mono l : fmono (raw l).
Proof. intros g g' p q Hg [Hs Hq]. split; [|done]. intros i b Hb. by apply Hg, Hs. Qed.

Lemma fseq_mono F G : fmono F -> fmono G -> fmono (F ⨾ G).
Proof. intros HF HG g g' p q Hg (r & H1 & H2). exists r. eauto. Qed.

Lemma fmin_raw l : fmin (raw l) (zlength l).
Proof. intros g p q [_ ->]. lia. Qed.

Lemma fmin_be16 v : fmin (raw (be_bytes 2 v)) 2.
Proof. apply (fmin_raw (be_bytes 2 v)). Qed.

Lemma fmin_be32 v : fmin (raw (be_bytes 4 v)) 4.
Proof. apply (fmin_raw (be_bytes 4 v)). Qed.

Lemma fmin_seq F G m n k : fmin F m -> fmin G n -> k <= m + n -> fmin (F ⨾ G) k.
Proof. intros HF HG Hk g p q (r & H1 & H2). apply HF in H1. apply HG in H2. lia. Qed.

Create HintDb format.
#[export] Hint Resolve raw_mono fseq_mono : format.

(** ** Reading *)

Section Reading.
Context `{H : Host}.

Definition reads {A} (d : D A) (F : format) (P : A -> Prop) : Prop :=
  forall mb c p0 p q, holds mb c p0 -> 0 <= p <= zlength c -> F (view c) p q ->
  p <= q <= zlength c /\ exists a, d (mbuf_set_pos mb p) = Some (Ok a, mbuf_set_pos mb q) /\ P a.

Lemma reads_bind {A B} (d : D A) (k : A -> D B) F G P Q :
  reads d F P -> (forall a, P a -> reads (k a) G Q) -> reads (dbind d k) (F ⨾ G) Q.
Proof.
  intros Hd Hk mb c p0 p q Hh Hp (r & HF & HG). destruct (Hd mb c p0 p r Hh Hp HF) as (Hr & a & E & Ha).
  destruct (Hk a Ha mb c p0 r q Hh ltac:(lia) HG) as (Hq & b & E' & Hb). split; [lia|]. exists b. unfold dbind. by rewrite E.
Qed.

Lemma reads_ret {A B} (d : D A) (f : A -> B) F P Q :
  reads d F P -> (forall a, P a -> Q (f a)) -> reads (do! x := d in dret (f x)) F Q.
Proof.
  intros Hd Hf mb c p0 p q Hh Hp HF. destruct (Hd mb c p0 p q Hh Hp HF) as (Hr & a & E & Ha). split; [done|].
  exists (f a). unfold dbind. rewrite E. auto.
Qed.

(** A test for [n] bytes that the item has. *)
Lemma reads_need {A} (d : D A) F P n e :
  fmin F n -> reads d F P -> reads (do! _ := dneed n e in d) F P.
Proof.
  intros Hn Hd mb c p0 p q Hh Hp HF. destruct (Hd mb c p0 p q Hh Hp HF) as (Hr & a & E & Ha). split; [done|].
  exists a. split; [|done]. unfold dbind, dneed. rewrite (holds_get_left _ _ _ (holds_set_pos _ _ _ p Hh Hp)).
  specialize (Hn _ _ _ HF). by rewrite (proj2 (Z.ltb_ge _ _)) by lia.
Qed.

Lemma reads_check {A} (d : D A) F P b e : b = true -> reads d F P -> reads (do! _ := dcheck b e in d) F P.
Proof. by intros ->. Qed.

Lemma rest_seg mb c p0 p l :
  holds mb c p0 -> 0 <= p <= zlength c -> seg (view c) p l ->
  p + zlength l <= zlength c /\ mbuf_wf (mbuf_set_pos mb p) /\ exists r, rest (mbuf_set_pos mb p) = l ++ r.
Proof.
  intros Hh Hp Hs. split; [by apply seg_bound|]. pose proof (holds_set_pos _ _ _ p Hh Hp) as Hh'. split; [apply Hh'|].
  exists (zdrop (zlength l) (zdrop p c)). rewrite (holds_rest _ _ _ Hh').
  rewrite <- (seg_slice c p l) at 1 by (done || lia). symmetry. apply ztake_zdrop.
Qed.

Lemma reads_16 v : is_u16 v -> reads (dread read_be16) (raw (be_bytes 2 v)) (fun a => a = v).
Proof.
  intros Hv mb c p0 p q Hh Hp [Hs ->]. destruct (rest_seg mb c p0 p _ Hh Hp Hs) as (Hb & W & r & Hr).
  rewrite zlength_be_bytes in *. split; [lia|]. exists v. split; [|done]. unfold dread.
  destruct (read_be16_app _ v r W Hr) as [-> _]. by rewrite wrap_small.
Qed.

Lemma reads_32 v : is_u32 v -> reads (dread read_be32) (raw (be_bytes 4 v)) (fun a => a = v).
Proof.
  intros Hv mb c p0 p q Hh Hp [Hs ->]. destruct (rest_seg mb c p0 p _ Hh Hp Hs) as (Hb & W & r & Hr).
  rewrite zlength_be_bytes in *. split; [lia|]. exists v. split; [|done]. unfold dread.
  destruct (read_be32_app _ v r W Hr) as [-> _]. by rewrite wrap_small.
Qed.

Lemma reads_8 v : reads (dread mbuf_read_u8) (raw [v]) (fun a => a = v).
Proof.
  intros mb c p0 p q Hh Hp [Hs ->]. destruct (rest_seg mb c p0 p _ Hh Hp Hs) as (Hb & W & r & Hr).
  change (zlength [v]) with 1 in *. split; [lia|]. exists v. split; [|done]. unfold dread.
  by destruct (read_u8_app _ v r W Hr) as [-> _].
Qed.

Lemma reads_mem l : reads (dread_mem (zlength l)) (raw l) (fun a => a = l).
Proof.
  intros mb c p0 p q Hh Hp [Hs ->]. destruct (rest_seg mb c p0 p _ Hh Hp Hs) as (Hb & W & r & Hr). pose proof (zlength_nonneg l).
  split; [lia|]. exists l. split; [|done]. unfold dread_mem.
  by destruct (read_mem_app _ l r (zlength l) W Hr eq_refl) as [-> _].
Qed.

Lemma reads_weaken {A} (d : D A) F G P Q :
  reads d F P -> (forall g p q, G g p q -> F g p q) -> (forall a, P a -> Q a) -> reads d G Q.
Proof.
  intros Hd HF HP mb c p0 p q Hh Hp HG. destruct (Hd mb c p0 p q Hh Hp (HF _ _ _ HG)) as (Hq & a & E & Ha).
  split; [done|]. exists a. auto.
Qed.

(** The announced length of items whose length is fixed. *)
Lemma reads_len {A} (d : D A) (F : format) P n rdlen :
  (forall g p q, F g p q -> q = p + n) -> (rdlen = n -> reads d F P) -> reads d (fun g p q => F g p q /\ q = p + rdlen) P.
Proof.
  intros Hn Hd mb c p0 p q Hh Hp [HF Hq]. pose proof (Hn _ _ _ HF). apply (Hd ltac:(lia) mb c p0 p q); done.
Qed.

End Reading.

(** ** Decoders on arbitrary input

    [eats n d P]: where [n] bytes are left, [d] consumes them and returns a
    value with [P].  [runs es s n d P]: where [n] bytes are left and the position
    is [s] or beyond, [d] returns, only moves forward, and fails only with an
    error of [es]. *)
Section Safety.
Context `{H : Host} (es : list Z).

Definition eats {A} (n : Z) (d : D A) (P : A -> Prop) : Prop :=
  forall mb, mbuf_wf mb -> n <= mbuf_get_left mb -> exists a, d mb = Some (Ok a, adv mb n) /\ P a.

Definition runs {A} (s n : Z) (d : D A) (P : A -> Prop) : Prop :=
  forall mb, mbuf_wf mb -> n <= mbuf_get_left mb -> 0 <= s <= mb_pos mb ->
  exists r mb', d mb = Some (r, mb') /\ advances mb mb' /\ match r with Ok a => P a | Err e => e ∈ es end.

Lemma left_adv mb n : mbuf_wf mb -> 0 <= n <= mbuf_get_left mb -> mbuf_get_left (adv mb n) = mbuf_get_left mb - n /\ mbuf_wf (adv mb n).
Proof.
  intros W Hn. rewrite mbuf_get_left_rest in * by done. pose proof (adv_wf mb n W Hn) as W'. split; [|done].
  rewrite !mbuf_get_left_rest by done. rewrite rest_adv by (done || lia). by apply zlength_zdrop.
Qed.

Lemma adv_advances mb n : mbuf_wf mb -> 0 <= n <= mbuf_get_left mb -> advances mb (adv mb n).
Proof.
  intros W Hn. rewrite mbuf_get_left_rest, zlength_rest in Hn by done. apply advances_set_pos. lia.
Qed.

Lemma eats_runs {A} s n (d : D A) P : 0 <= n -> eats n d P -> runs s n d P.
Proof. intros Hn Hd mb W Hl Hs. destruct (Hd mb W Hl) as (a & E & Ha). exists (Ok a), (adv mb n). split; [done|]. split; [by apply adv_advances|done]. Qed.

Lemma eats_impl {A} n (d : D A) (P Q : A -> Prop) : eats n d P -> (forall a, P a -> Q a) -> eats n d Q.
Proof. intros Hd HP mb W Hl. destruct (Hd mb W Hl) as (a & E & Ha). eauto. Qed.

Lemma eats_bind {A B} (d : D A) (k : A -> D B) n m P Q :
  0 <= n -> 0 <= m -> eats n d P -> (forall a, P a -> eats m (k a) Q) -> eats (n + m) (dbind d k) Q.
Proof.
  intros Hn Hm Hd Hk mb W Hl. destruct (Hd mb W ltac:(lia)) as (a & E & Ha). destruct (left_adv mb n W ltac:(lia)) as [El W'].
  destruct (Hk a Ha (adv mb n) W' ltac:(lia)) as (b & E' & Hb). exists b. unfold dbind. rewrite E, E', adv_adv. done.
Qed.

Lemma eats_ret {A} (a : A) (P : A -> Prop) : P a -> eats 0 (dret a) P.
Proof. intros Ha mb W Hl. exists a. split; [|done]. unfold dret, adv. rewrite Z.add_0_r. by destruct mb. Qed.

Lemma runs_ret {A} (a : A) (P : A -> Prop) s n : P a -> runs s n (dret a) P.
Proof. intros Ha mb W Hl Hs. by exists (Ok a), mb. Qed.

Lemma runs_throw {A} e (P : A -> Prop) s n : e ∈ es -> runs s n (dthrow e) P.
Proof. intros He mb W Hl Hs. by exists (Err e), mb. Qed.

Lemma runs_eat {A B} (d : D A) (k : A -> D B) s n m P Q :
  0 <= n -> 0 <= m -> eats n d P -> (forall a, P a -> runs s m (k a) Q) -> runs s (n + m) (dbind d k) Q.
Proof.
  intros Hn Hm Hd Hk mb W Hl Hs.
  destruct (Hd mb W ltac:(lia)) as (a & E & Ha). destruct (left_adv mb n W ltac:(lia)) as [El W'].
  destruct (Hk a Ha (adv mb n) W' ltac:(lia) ltac:(cbn; lia)) as (r & mb' & E' & Hadv & Hr). exists r, mb'. unfold dbind. rewrite E.
  split; [done|]. split; [|done]. etrans; [apply (adv_advances mb n W); lia|done].
Qed.

Lemma runs_bind {A B} (d : D A) (k : A -> D B) s n P Q :
  runs s n d P -> (forall a, P a -> runs s 0 (k a) Q) -> runs s n (dbind d k) Q.
Proof.
  intros Hd Hk mb W Hl Hs. destruct (Hd mb W Hl Hs) as ([a|e] & mb1 & E & Ha & Hr); unfold dbind; rewrite E; [|by exists (Err e), mb1].
  destruct (Ha W) as (W1 & _ & _ & _ & Hp). destruct (Hk a Hr mb1 W1) as (r & mb2 & E2 & Ha2 & Hr2).
  { rewrite mbuf_get_left_rest by done. apply zlength_nonneg. }
  { lia. }
  exists r, mb2. split; [done|]. split; [by etrans|done].
Qed.

Lemma runs_need {A} (d : D A) s n m e P : e ∈ es -> runs s m d P -> runs s n (do! _ := dneed m e in d) P.
Proof.
  intros He Hd mb W Hl Hs. unfold dbind, dneed. destruct (Z.ltb_spec (mbuf_get_left mb) m); [by exists (Err e), mb|]. by apply Hd.
Qed.

Lemma runs_check {A} (d : D A) b s n e P : e ∈ es -> (b = true -> runs s n d P) -> runs s n (do! _ := dcheck b e in d) P.
Proof. intros He Hd. destruct b; [by apply Hd|]. intros mb W Hl Hs. by exists (Err e), mb. Qed.

Lemma runs_alloc {A} (d : D A) s n k P : ENOMEM ∈ es -> runs s n d P -> runs s n (do! _ := dalloc k in d) P.
Proof. intros He Hd. unfold dalloc. destruct (mem_alloc k); [done|]. intros mb W Hl Hs. by exists (Err ENOMEM), mb. Qed.

(** The position the decoder is at. *)
Lemma runs_pos {B} (k : Z -> D B) s n Q : (forall p, s <= p -> runs p n (k p) Q) -> runs s n (dbind dpos k) Q.
Proof. intros Hk mb W Hl Hs. unfold dbind, dpos. apply (Hk (mb_pos mb)); [lia|done|done|lia]. Qed.

Lemma runs_impl {A} (d : D A) s n m (P Q : A -> Prop) : runs s n d P -> n <= m -> (forall a, P a -> Q a) -> runs s m d Q.
Proof.
  intros Hd Hn HP mb W Hl Hs. destruct (Hd mb W ltac:(lia) Hs) as (r & mb' & E & Ha & Hr). exists r, mb'. split; [done|]. split; [done|].
  destruct r; auto.
Qed.

(** The reads of integers: on short input they return 0 and stay. *)
Lemma runs_16 s : runs s 0 (dread read_be16) is_u16.
Proof. intros mb W Hl Hs. destruct (read_be16_any mb W) as [Ha Hv]. unfold dread. destruct (read_be16 mb) as [v mb']. by exists (Ok v), mb'. Qed.
Lemma runs_32 s : runs s 0 (dread read_be32) is_u32.
Proof. intros mb W Hl Hs. destruct (read_be32_any mb W) as [Ha Hv]. unfold dread. destruct (read_be32 mb) as [v mb']. by exists (Ok v), mb'. Qed.
Lemma runs_8 s : runs s 0 (dread mbuf_read_u8) is_byte.
Proof. intros mb W Hl Hs. destruct (read_u8_any mb W) as [Ha Hv]. unfold dread. destruct (mbuf_read_u8 mb) as [v mb']. by exists (Ok v), mb'. Qed.

Lemma read_uint_adv n mb : mbuf_wf mb -> Z.of_nat n <= mbuf_get_left mb -> (mbuf_read_uint n mb).2 = adv mb (Z.of_nat n).
Proof.
  intros W Hl. rewrite mbuf_get_left_rest in Hl by done.
  rewrite (mbuf_read_uint_app n mb (ztake (Z.of_nat n) (rest mb)) (zdrop (Z.of_nat n) (rest mb))); [done|done|by rewrite ztake_zdrop|].
  pose proof (zlength_ztake (Z.of_nat n) (rest mb) ltac:(lia)) as E. unfold zlength in E. lia.
Qed.

Lemma eats_16 : eats 2 (dread read_be16) is_u16.
Proof.
  intros mb W Hl. destruct (read_be16_any mb W) as [_ Hv]. pose proof (read_uint_adv 2 mb W Hl) as Ea. unfold dread, read_be16, mbuf_read_u16 in *.
  destruct (mbuf_read_uint 2 mb) as [v mb']. cbn in Ea, Hv. subst mb'. by eexists.
Qed.
Lemma eats_32 : eats 4 (dread read_be32) is_u32.
Proof.
  intros mb W Hl. destruct (read_be32_any mb W) as [_ Hv]. pose proof (read_uint_adv 4 mb W Hl) as Ea. unfold dread, read_be32, mbuf_read_u32 in *.
  destruct (mbuf_read_uint 4 mb) as [v mb']. cbn in Ea, Hv. subst mb'. by eexists.
Qed.
Lemma eats_8 : eats 1 (dread mbuf_read_u8) is_byte.
Proof.
  intros mb W Hl. destruct (read_u8_any mb W) as [_ Hv]. pose proof (read_uint_adv 1 mb W Hl) as Ea. unfold dread, mbuf_read_u8 in *.
  destruct (mbuf_read_uint 1 mb) as [v mb']. cbn in Ea, Hv. subst mb'. by eexists.
Qed.

Lemma eats_mem n : 0 <= n -> eats n (dread_mem n) (fun d => zlength d = n).
Proof.
  intros Hn mb W Hl. pose proof (read_mem_length mb n) as Hd. unfold dread_mem in *. rewrite mbuf_get_left_rest in Hl by done.
  destruct (read_mem_app mb (ztake n (rest mb)) (zdrop n (rest mb)) n W) as [E _]; [by rewrite ztake_zdrop|by apply zlength_ztake|].
  rewrite E in *. cbn [Z.eqb]. eexists. split; [done|]. by eapply Hd.
Qed.

Lemma eats_advance n : 0 <= n < 2 ^ 32 -> eats n (fun mb => Some (Ok tt, mbuf_advance mb n)) (fun _ => True).
Proof.
  intros Hn mb W Hl. exists tt. split; [|done]. unfold mbuf_advance, adv. do 2 f_equal. rewrite mbuf_get_left_rest, zlength_rest in Hl by done.
  f_equal. apply wrap_small. mbuf_wf_facts. lia.
Qed.

Lemma eats_repeat {A} (d : D A) n k P :
  0 <= n -> eats n d P -> eats (Z.of_nat k * n) (repeat_read k d) (fun l => length l = k /\ Forall P l).
Proof.
  intros Hn Hd. induction k as [|k IH]; cbn [repeat_read].
  - apply eats_ret. by split.
  - replace (Z.of_nat (S k) * n) with (n + (Z.of_nat k * n + 0)) by lia. apply (eats_bind _ _ _ _ P); [lia|lia|done|]. intros a Ha.
    eapply eats_bind; [lia|lia|exact IH|]. intros l [Hl HP]. apply eats_ret. split; [cbn; by rewrite Hl|by constructor].
Qed.

Lemma runs_repeat {A} (d : D A) s k P :
  runs s 0 d P -> runs s 0 (repeat_read k d) (fun l => length l = k /\ Forall P l).
Proof.
  intros Hd. induction k as [|k IH]; cbn [repeat_read].
  - apply runs_ret. by split.
  - eapply runs_bind; [exact Hd|]. intros a Ha. eapply runs_bind; [exact IH|]. intros l [Hl HP]. apply runs_ret.
    split; [cbn; by rewrite Hl|by constructor].
Qed.
End Safety.

(** ** Items one after the other in a sequence of bytes *)
Section Raw.
Context `{H : Host}.

Lemma raw_app a b g p q : raw (a ++ b) g p q -> (raw a ⨾ raw b) g p q.
Proof.
  intros [Hs ->]. exists (p + zlength a). split; (split; [|rewrite ?zlength_app; lia]).
  - intros i x Hx. apply Hs. by apply lookup_app_l_Some.
  - intros i x Hx. unfold zlength. rewrite <- Z.add_assoc, <- Nat2Z.inj_add. apply Hs. rewrite lookup_app_r by lia.
    by replace (length a + i - length a)%nat with i by lia.
Qed.

Lemma reads_app {A B} (d : D A) (k : A -> D B) a b P Q :
  reads d (raw a) P -> (forall v, P v -> reads (k v) (raw b) Q) -> reads (dbind d k) (raw (a ++ b)) Q.
Proof. intros Hd Hk. eapply reads_weaken; [by eapply reads_bind|intros g p q; apply raw_app|done]. Qed.

Lemma reads_dret {A} (a : A) P : P a -> reads (dret a) (raw []) P.
Proof. intros Ha mb c p0 p q Hh Hp [_ ->]. change (zlength (@nil Z)) with 0. rewrite Z.add_0_r. split; [lia|]. by exists a. Qed.

Lemma reads_last {A B} (d : D A) (k : A -> D B) a P Q :
  reads d (raw a) P -> (forall v, P v -> exists b, k v = dret b /\ Q b) -> reads (dbind d k) (raw a) Q.
Proof.
  intros Hd Hk. rewrite <- (app_nil_r a). eapply reads_app; [exact Hd|]. intros v Hv. destruct (Hk v Hv) as (b & -> & Hb). by apply reads_dret.
Qed.

Lemma reads_need_raw {A} (d : D A) l P n e : n <= zlength l -> reads d (raw l) P -> reads (do! _ := dneed n e in d) (raw l) P.
Proof. intros Hn. apply reads_need. intros g p q [_ ->]. lia. Qed.

Lemma reads_alloc {A} (d : D A) F P n : ample_memory -> 0 <= n <= MEM_SIZE_MAX -> reads d F P -> reads (do! _ := dalloc n in d) F P.
Proof.
  intros Ham Hn Hd. unfold dalloc, mem_alloc. rewrite Z.gtb_ltb, (proj2 (Z.ltb_ge _ _)) by lia. by destruct (Ham n Hn) as [[b ->] _].
Qed.

(** Skipping bytes, and a buffer that refers to them. *)
Lemma advance_to mb c p0 p l : holds mb c p0 -> 0 <= p <= zlength c -> seg (view c) p l ->
  mbuf_advance (mbuf_set_pos mb p) (zlength l) = mbuf_set_pos mb (p + zlength l).
Proof.
  intros Hh Hp Hs. pose proof (seg_bound _ _ _ Hp Hs). pose proof (zlength_nonneg l). pose proof (holds_end _ _ _ Hh) as He.
  pose proof (holds_wf _ _ _ Hh) as W. mbuf_wf_facts. unfold mbuf_advance. cbn [mb_pos mbuf_set_pos]. by rewrite set_pos_twice, wrap_small by lia.
Qed.

Lemma reads_advance l n : zlength l = n -> reads (fun mb => Some (Ok tt, mbuf_advance mb n)) (raw l) (fun _ => True).
Proof.
  intros <- mb c p0 p q Hh Hp [Hs ->]. pose proof (seg_bound _ _ _ Hp Hs). pose proof (zlength_nonneg l). split; [lia|].
  exists tt. by erewrite advance_to.
Qed.

Lemma reads_slice l n : zlength l = n ->
  reads (fun mb => Some (Ok (mb_slice mb (mb_pos mb) n), mbuf_advance mb n)) (raw l) (fun v => v = l).
Proof.
  intros <- mb c p0 p q Hh Hp [Hs ->]. pose proof (seg_bound _ _ _ Hp Hs). pose proof (zlength_nonneg l). split; [lia|].
  exists l. split; [|done]. erewrite advance_to by done. do 3 f_equal. cbn [mb_pos mbuf_set_pos].
  erewrite (holds_slice (mbuf_set_pos mb p)) by (eauto using holds_set_pos || lia). apply seg_slice; [lia|done].
Qed.

(** An item at the position of a buffer. *)
Lemma reads_here {A} (d : D A) l P mb r :
  reads d (raw l) P -> mbuf_wf mb -> rest mb = l ++ r -> exists a, d mb = Some (Ok a, adv mb (zlength l)) /\ P a.
Proof.
  intros Hd W E. set (c := content mb).
  assert (Hh : holds mb c (mb_pos mb)) by done. pose proof (holds_range _ _ _ Hh) as Hr.
  assert (Hs : raw l (view c) (mb_pos mb) (mb_pos mb + zlength l)).
  { split; [|done]. unfold rest in E. fold c in E. rewrite <- (ztake_zdrop (mb_pos mb) c), E.
    rewrite <- (zlength_ztake (mb_pos mb) c) at 2 by lia. apply seg_mid. }
  destruct (Hd mb c (mb_pos mb) (mb_pos mb) _ Hh Hr Hs) as (_ & a & Ea & Ha). exists a. split; [|done].
  unfold adv. rewrite <- Ea. f_equal. by destruct mb.
Qed.

Lemma reads_step {A} (d : D A) l P mb r :
  reads d (raw l) P -> mbuf_wf mb -> rest mb = l ++ r ->
  exists a, d mb = Some (Ok a, adv mb (zlength l)) /\ P a /\ mbuf_wf (adv mb (zlength l)) /\ rest (adv mb (zlength l)) = r.
Proof.
  intros Hd W E. destruct (reads_here d l P mb r Hd W E) as (a & Ea & Ha). exists a.
  destruct (adv_step mb l r _ W E eq_refl). done.
Qed.

Lemma reads_repeat {A} (d : D A) (enc : A -> list Z) l :
  Forall (fun a => reads d (raw (enc a)) (fun v => v = a)) l ->
  reads (repeat_read (length l) d) (raw (concat (map enc l))) (fun v => v = l).
Proof.
  induction 1 as [|a l Ha _ IH]; cbn [length repeat_read map concat].
  - by apply reads_dret.
  - eapply reads_app; [exact Ha|]. intros v ->. eapply reads_last; [exact IH|]. intros v ->. by eexists.
Qed.
End Raw.
