(* ===== verification/Base64.v ===== *)
(** * Base64: src/src/base64/b64.c

    Input and output buffers are byte lists.  The encoders and the decoder
    return the error code and the bytes stored in [out]; their number is what
    the C code stores in [*olen].  base64_print hands the encoder blocks of
    192 bytes. *)

From stdpp Require Import base list numbers.
From Stdlib Require Import ZArith Lia.
From stdpp Require Import strings.

From S2P Require Import Prelude.

Open Scope Z_scope.

Definition b64_table : list Z :=
  chars "ABCDEFGHIJKLMNOPQRSTUVWXYZabcdefghijklmnopqrstuvwxyz0123456789+/".
Definition b64url_table : list Z :=
  chars "ABCDEFGHIJKLMNOPQRSTUVWXYZabcdefghijklmnopqrstuvwxyz0123456789-_".

Definition pad_char : Z := 61.

(** [v >> k & 0x3f] *)
Definition sextet (v k : Z) : Z := Z.land (Z.shiftr v k) 63.

(** The loop of base64_encode; each turn consumes up to three bytes. *)
Fixpoint encode_loop (inp : list Z) : list Z :=
  match inp with
  | [] => []
  | a :: inp =>
      let v := Z.shiftl a 16 in
      match inp with
      | [] =>
          [znth (sextet v 18) b64_table; znth (sextet v 12) b64_table; pad_char; pad_char]
      | b :: inp =>
          let v := Z.lor v (Z.shiftl b 8) in
          match inp with
          | [] =>
              [znth (sextet v 18) b64_table; znth (sextet v 12) b64_table;
               znth (sextet v 6) b64_table; pad_char]
          | c :: inp =>
              let v := Z.lor v (Z.shiftl c 0) in
              [znth (sextet v 18) b64_table; znth (sextet v 12) b64_table;
               znth (sextet v 6) b64_table; znth (sextet v 0) b64_table] ++ encode_loop inp
          end
      end
  end.

Definition base64_encode (inp : list Z) (olen : Z) : Z * list Z :=
  if olen <? 4 * ((zlength inp + 2) / 3) then (EOVERFLOW, [])
  else (0, encode_loop inp).

Fixpoint encode_url_loop (inp : list Z) : list Z :=
  match inp with
  | [] => []
  | a :: inp =>
      let v := Z.shiftl a 16 in
      match inp with
      | [] => [znth (sextet v 18) b64url_table; znth (sextet v 12) b64url_table]
      | b :: inp =>
          let v := Z.lor v (Z.shiftl b 8) in
          match inp with
          | [] =>
              [znth (sextet v 18) b64url_table; znth (sextet v 12) b64url_table;
               znth (sextet v 6) b64url_table]
          | c :: inp =>
              let v := Z.lor v (Z.shiftl c 0) in
              [znth (sextet v 18) b64url_table; znth (sextet v 12) b64url_table;
               znth (sextet v 6) b64url_table; znth (sextet v 0) b64url_table]
              ++ encode_url_loop inp
          end
      end
  end.

Definition base64url_encode (inp : list Z) (olen : Z) : Z * list Z :=
  if olen <? 4 * ((zlength inp + 2) / 3) then (EOVERFLOW, [])
  else (0, encode_url_loop inp).

(** The print loop; [fuel] bounds the number of blocks. *)
Fixpoint print_loop (fuel : nat) (ptr : list Z) : Z * list Z :=
  match fuel with
  | O => (0, [])
  | S fuel =>
      if zlength ptr >? 0 then
        let l := Z.min (zlength ptr) (3 * (256 / 4)) in
        let '(err, buf) := base64_encode (ztake l ptr) 256 in
        if negb (err =? 0) then (err, [])
        else
          let '(err, out) := print_loop fuel (zdrop l ptr) in (err, buf ++ out)
      else (0, [])
  end.

Definition base64_print (ptr : list Z) : Z * list Z := print_loop (S (length ptr)) ptr.

Definition b64val (c : Z) : Z :=
  if (65 <=? c) && (c <=? 90) then c - 65 + 0
  else if (97 <=? c) && (c <=? 122) then c - 97 + 26
  else if (48 <=? c) && (c <=? 57) then c - 48 + 52
  else if (43 =? c) || (45 =? c) then 62
  else if (47 =? c) || (95 =? c) then 63
  else if 61 =? c then Z.shiftl 1 24
  else 0.

(** The three conditional stores at the end of a turn of base64_decode. *)
Definition store_group (v : Z) : list Z :=
  [u8 (Z.shiftr v 16)]
  ++ (if Z.land v (2 ^ 30) =? 0 then [Z.land (Z.shiftr v 8) 255] else [])
  ++ (if Z.land v (2 ^ 24) =? 0 then [Z.land (Z.shiftr v 0) 255] else []).

Fixpoint decode_loop (inp : list Z) : list Z :=
  match inp with
  | a :: b :: inp =>
      let v := Z.lor (u32 (Z.shiftl (b64val a) 18)) (u32 (Z.shiftl (b64val b) 12)) in
      match inp with
      | [] =>
          store_group (Z.lor (Z.lor v (u32 (Z.shiftl (2 ^ 24) 6))) (u32 (Z.shiftl (2 ^ 24) 0)))
      | c :: inp =>
          let v := Z.lor v (u32 (Z.shiftl (b64val c) 6)) in
          match inp with
          | [] => store_group (Z.lor v (u32 (Z.shiftl (2 ^ 24) 0)))
          | d :: inp =>
              store_group (Z.lor v (u32 (Z.shiftl (b64val d) 0))) ++ decode_loop inp
          end
      end
  | _ => []
  end.

Definition base64_decode (inp : list Z) (olen : Z) : Z * list Z :=
  if olen <? 3 * (zlength inp / 4) then (EOVERFLOW, [])
  else (0, decode_loop inp).

(** ** Correctness *)

Definition range64 : list Z := map Z.of_nat (seq 0 64).

Lemma range64_in i : 0 <= i < 64 -> In i range64.
Proof.
  intros Hi. apply in_map_iff. exists (Z.to_nat i). split; [lia|]. apply in_seq. lia.
Qed.

(** [b64val] inverts both alphabets. *)
Lemma b64val_tables i :
  0 <= i < 64 -> b64val (znth i b64_table) = i /\ b64val (znth i b64url_table) = i.
Proof.
  intros Hi. assert (Hall : forallb (fun i => (b64val (znth i b64_table) =? i)
    && (b64val (znth i b64url_table) =? i)) range64 = true) by (vm_compute; reflexivity).
  rewrite forallb_forall in Hall. specialize (Hall i (range64_in i Hi)). by bool_prop.
Qed.

Lemma sextet_range v k : 0 <= sextet v k < 64.
Proof. unfold sextet. apply (land_bound_r 6); lia. Qed.

Lemma sextet_div v k : 0 <= k -> sextet v k = v / 2 ^ k mod 64.
Proof.
  intros. unfold sextet. rewrite Z.shiftr_div_pow2 by done. apply (Z.land_ones _ 6). lia.
Qed.

Lemma sextet_val (i k : Z) : 0 <= i < 64 -> 0 <= k <= 24 -> u32 (Z.shiftl i k) = i * 2 ^ k.
Proof.
  intros Hi Hk. rewrite Z.shiftl_mul_pow2 by lia. apply wrap_small. split.
  - apply Z.mul_nonneg_nonneg; lia.
  - assert (2 ^ k <= 2 ^ 24) by (apply Z.pow_le_mono_r; lia). nia.
Qed.

(** The four characters of a group carry its 24 bits. *)
Lemma group_value v i j k l :
  0 <= v < 2 ^ 24 -> i = sextet v 18 -> j = sextet v 12 -> k = sextet v 6 -> l = sextet v 0 ->
  Z.lor (Z.lor (Z.lor (i * 2 ^ 18) (j * 2 ^ 12)) (k * 2 ^ 6)) (l * 2 ^ 0) = v.
Proof.
  intros Hv -> -> -> ->. rewrite !sextet_div by lia.
  pose proof (Z.mod_pos_bound (v / 2 ^ 18) 64). pose proof (Z.mod_pos_bound (v / 2 ^ 12) 64).
  pose proof (Z.mod_pos_bound (v / 2 ^ 6) 64). pose proof (Z.mod_pos_bound (v / 2 ^ 0) 64).
  rewrite (lor_disjoint 18 (_ * 2 ^ 18)) by (try lia; apply Z.mod_mul; lia).
  rewrite (lor_disjoint 12 (_ + _)) by (try lia; Z.to_euclidean_division_equations; lia).
  rewrite (lor_disjoint 6 (_ + _)) by (try lia; Z.to_euclidean_division_equations; lia).
  Z.to_euclidean_division_equations; lia.
Qed.

Lemma pack3 a b c :
  is_byte a -> is_byte b -> is_byte c ->
  Z.lor (Z.lor (Z.shiftl a 16) (Z.shiftl b 8)) (Z.shiftl c 0) = a * 2 ^ 16 + b * 2 ^ 8 + c.
Proof.
  unfold is_byte. intros. rewrite !Z.shiftl_mul_pow2 by lia.
  rewrite (lor_disjoint 16 (_ * 2 ^ 16)) by (try lia; apply Z.mod_mul; lia).
  rewrite (lor_disjoint 8 (_ + _)) by (try lia; Z.to_euclidean_division_equations; lia). lia.
Qed.

Lemma pack2 a b :
  is_byte a -> is_byte b -> Z.lor (Z.shiftl a 16) (Z.shiftl b 8) = a * 2 ^ 16 + b * 2 ^ 8.
Proof.
  unfold is_byte. intros. rewrite !Z.shiftl_mul_pow2 by lia.
  rewrite (lor_disjoint 16) by (try lia; apply Z.mod_mul; lia). lia.
Qed.

(** The decoded value keeps the padding flags above bit 24. *)
Lemma store_group_flags a b c (f30 f24 : bool) :
  is_byte a -> is_byte b -> is_byte c ->
  store_group (a * 2 ^ 16 + b * 2 ^ 8 + c + (if f30 then 2 ^ 30 else 0) + (if f24 then 2 ^ 24 else 0))
  = [a] ++ (if f30 then [] else [b]) ++ (if f24 then [] else [c]).
Proof.
  unfold is_byte. intros Ha Hb Hc. set (v := _ + _ + _ + _ + _).
  assert (E : v = a * 2 ^ 16 + b * 2 ^ 8 + c + (if f30 then 2 ^ 30 else 0) + (if f24 then 2 ^ 24 else 0))
    by reflexivity. clearbody v.
  unfold store_group, wrap. rewrite !land_pow2, !testbit_div, !land_255, !Z.shiftr_div_pow2 by lia.
  replace (v / 2 ^ 16 mod 2 ^ 8) with a by (destruct f30, f24; Z.to_euclidean_division_equations; lia).
  replace (v / 2 ^ 8 mod 256) with b by (destruct f30, f24; Z.to_euclidean_division_equations; lia).
  replace (v / 2 ^ 0 mod 256) with c by (destruct f30, f24; Z.to_euclidean_division_equations; lia).
  replace (v / 2 ^ 30) with (if f30 then 1 else 0) by (destruct f30, f24; Z.to_euclidean_division_equations; lia).
  replace (v / 2 ^ 24) with (if f30 then (if f24 then 65 else 64) else (if f24 then 1 else 0))
    by (destruct f30, f24; Z.to_euclidean_division_equations; lia).
  by destruct f30, f24.
Qed.

Section Groups.
(** The two alphabets behave alike. *)
Context (T : list Z) (HT : forall i, 0 <= i < 64 -> b64val (znth i T) = i).

Lemma sextet_char v k s : 0 <= s <= 24 -> u32 (Z.shiftl (b64val (znth (sextet v k) T)) s) = sextet v k * 2 ^ s.
Proof. intros. rewrite HT by apply sextet_range. apply sextet_val; [apply sextet_range | done]. Qed.

Lemma decode_group3 a b c v :
  is_byte a -> is_byte b -> is_byte c -> v = a * 2 ^ 16 + b * 2 ^ 8 + c ->
  store_group (Z.lor (Z.lor (Z.lor
     (u32 (Z.shiftl (b64val (znth (sextet v 18) T)) 18))
     (u32 (Z.shiftl (b64val (znth (sextet v 12) T)) 12)))
     (u32 (Z.shiftl (b64val (znth (sextet v 6) T)) 6)))
     (u32 (Z.shiftl (b64val (znth (sextet v 0) T)) 0))) = [a; b; c].
Proof.
  intros Ha Hb Hc Hv. rewrite !sextet_char by lia.
  rewrite (group_value v) by (try done; unfold is_byte in *; lia).
  pose proof (store_group_flags a b c false false Ha Hb Hc) as E. simpl in E.
  rewrite Hv. by rewrite !Z.add_0_r in E.
Qed.

Lemma decode_group2 a b v :
  is_byte a -> is_byte b -> v = a * 2 ^ 16 + b * 2 ^ 8 ->
  store_group (Z.lor (Z.lor (Z.lor
     (u32 (Z.shiftl (b64val (znth (sextet v 18) T)) 18))
     (u32 (Z.shiftl (b64val (znth (sextet v 12) T)) 12)))
     (u32 (Z.shiftl (b64val (znth (sextet v 6) T)) 6)))
     (u32 (Z.shiftl (2 ^ 24) 0))) = [a; b].
Proof.
  intros Ha Hb Hv. rewrite !sextet_char by lia.
  assert (Hv24 : 0 <= v < 2 ^ 24) by (unfold is_byte in *; lia).
  pose proof (group_value v _ _ _ _ Hv24 eq_refl eq_refl eq_refl eq_refl) as E.
  replace (sextet v 0) with 0 in E
    by (rewrite sextet_div by lia; subst v; Z.to_euclidean_division_equations; lia).
  rewrite Z.mul_0_l, Z.lor_0_r in E. rewrite E.
  change (u32 (Z.shiftl (2 ^ 24) 0)) with (2 ^ 24).
  rewrite Z.lor_comm, (lor_disjoint 24) by (try lia; reflexivity).
  pose proof (store_group_flags a b 0 false true Ha Hb ltac:(split; lia)) as F. simpl app in F.
  rewrite <- F. f_equal. lia.
Qed.

Lemma decode_group1 a v :
  is_byte a -> v = a * 2 ^ 16 ->
  store_group (Z.lor (Z.lor (Z.lor
     (u32 (Z.shiftl (b64val (znth (sextet v 18) T)) 18))
     (u32 (Z.shiftl (b64val (znth (sextet v 12) T)) 12)))
     (u32 (Z.shiftl (2 ^ 24) 6)))
     (u32 (Z.shiftl (2 ^ 24) 0))) = [a].
Proof.
  intros Ha Hv. rewrite !sextet_char by lia.
  assert (Hv24 : 0 <= v < 2 ^ 24) by (unfold is_byte in *; lia).
  pose proof (group_value v _ _ _ _ Hv24 eq_refl eq_refl eq_refl eq_refl) as E.
  replace (sextet v 0) with 0 in E
    by (rewrite sextet_div by lia; subst v; Z.to_euclidean_division_equations; lia).
  replace (sextet v 6) with 0 in E
    by (rewrite sextet_div by lia; subst v; Z.to_euclidean_division_equations; lia).
  rewrite !Z.mul_0_l, !Z.lor_0_r in E. rewrite E.
  change (u32 (Z.shiftl (2 ^ 24) 0)) with (2 ^ 24). change (u32 (Z.shiftl (2 ^ 24) 6)) with (2 ^ 30).
  rewrite <- Z.lor_assoc. change (Z.lor (2 ^ 30) (2 ^ 24)) with (2 ^ 30 + 2 ^ 24).
  rewrite Z.lor_comm, (lor_disjoint 24) by (try lia; reflexivity).
  pose proof (store_group_flags a 0 0 true true Ha ltac:(split; lia) ltac:(split; lia)) as F.
  simpl app in F. rewrite <- F. f_equal. lia.
Qed.
End Groups.

Lemma shiftl_16 a : Z.shiftl a 16 = a * 2 ^ 16.
Proof. apply Z.shiftl_mul_pow2. lia. Qed.

#[local] Opaque b64_table b64url_table store_group.

Lemma decode_encode_loop inp : bytes inp -> decode_loop (encode_loop inp) = inp.
Proof.
  assert (HT : forall i, 0 <= i < 64 -> b64val (znth i b64_table) = i) by (intros; by apply b64val_tables).
  induction inp as [|a|a b|a b c l IH] using list_ind3; intros Hb; rewrite ?Forall_cons_iff in Hb;
    destruct_and?; [done|..]; cbn [encode_loop decode_loop app]; change (b64val pad_char) with (2 ^ 24).
  - rewrite app_nil_r, shiftl_16. by apply (decode_group1 _ HT a).
  - rewrite app_nil_r, pack2 by done. by apply (decode_group2 _ HT a b).
  - rewrite pack3 by done. rewrite (decode_group3 _ HT a b c) by done. simpl. by rewrite IH.
Qed.

Lemma decode_encode_url_loop inp : bytes inp -> decode_loop (encode_url_loop inp) = inp.
Proof.
  assert (HT : forall i, 0 <= i < 64 -> b64val (znth i b64url_table) = i) by (intros; by apply b64val_tables).
  induction inp as [|a|a b|a b c l IH] using list_ind3; intros Hb; rewrite ?Forall_cons_iff in Hb;
    destruct_and?; [done|..]; cbn [encode_url_loop decode_loop app].
  - rewrite shiftl_16. by apply (decode_group1 _ HT a).
  - rewrite pack2 by done. by apply (decode_group2 _ HT a b).
  - rewrite pack3 by done. rewrite (decode_group3 _ HT a b c) by done. simpl. by rewrite IH.
Qed.

Lemma encode_loop_length inp : zlength (encode_loop inp) = 4 * ((zlength inp + 2) / 3).
Proof.
  induction inp as [|a|a b|a b c l IH] using list_ind3; try reflexivity.
  cbn [encode_loop app]. rewrite !zlength_cons, IH.
  Z.to_euclidean_division_equations; lia.
Qed.

Lemma encode_url_loop_length inp : zlength (encode_url_loop inp) = (4 * zlength inp + 2) / 3.
Proof.
  induction inp as [|a|a b|a b c l IH] using list_ind3; try reflexivity.
  cbn [encode_url_loop app]. rewrite !zlength_cons, IH.
  Z.to_euclidean_division_equations; lia.
Qed.

(** Encoding then decoding any byte string gives it back, the encoder
    succeeds whenever the output buffer has its documented size, and it fills
    exactly 4 characters per started group of 3 bytes, so never more than
    [*olen]. *)
Theorem base64_roundtrip inp olen olen2 :
  bytes inp -> 4 * ((zlength inp + 2) / 3) <= olen -> zlength inp + 2 <= olen2 ->
  exists out, base64_encode inp olen = (0, out)
    /\ zlength out = 4 * ((zlength inp + 2) / 3)
    /\ base64_decode out olen2 = (0, inp).
Proof.
  intros Hb H1 H2. exists (encode_loop inp). unfold base64_encode, base64_decode.
  rewrite encode_loop_length, decode_encode_loop by done. decide_test.
  rewrite Z.mul_comm, Z.div_mul by lia.
  replace (olen2 <? _) with false by (symmetry; apply Z.ltb_ge; Z.to_euclidean_division_equations; lia).
  done.
Qed.

(** The unpadded URL alphabet round-trips through the same decoder, within
    the buffer size the encoder checks. *)
Theorem base64url_roundtrip inp olen olen2 :
  bytes inp -> 4 * ((zlength inp + 2) / 3) <= olen -> zlength inp <= olen2 ->
  exists out, base64url_encode inp olen = (0, out) /\ zlength out <= olen
    /\ base64_decode out olen2 = (0, inp).
Proof.
  intros Hb H1 H2. exists (encode_url_loop inp). unfold base64url_encode, base64_decode.
  rewrite encode_url_loop_length, decode_encode_url_loop by done. decide_test.
  replace (olen2 <? _) with false by (symmetry; apply Z.ltb_ge; Z.to_euclidean_division_equations; lia).
  split_and!; try done. Z.to_euclidean_division_equations; lia.
Qed.

(** *** Printing in blocks *)

Lemma encode_loop_app3 n l d :
  length l = (3 * n)%nat -> encode_loop (l ++ d) = encode_loop l ++ encode_loop d.
Proof.
  revert l. induction n as [|n IH]; intros l Hl.
  - by destruct l.
  - destruct l as [|a [|b [|c l]]]; simpl in Hl; try lia.
    cbn [app encode_loop]. by rewrite IH by lia.
Qed.

Lemma print_loop_encode fuel ptr :
  zlength ptr <= 192 * Z.of_nat fuel -> print_loop fuel ptr = (0, encode_loop ptr).
Proof.
  revert ptr. induction fuel as [|fuel IH]; intros ptr Hf.
  { destruct ptr; [done|]. rewrite zlength_cons in Hf. pose proof (zlength_nonneg ptr). lia. }
  cbn [print_loop]. destruct (zlength ptr >? 0) eqn:Ep; bool_prop.
  2:{ destruct ptr; [done|]. rewrite zlength_cons in Ep. pose proof (zlength_nonneg ptr). lia. }
  change (3 * (256 / 4)) with 192. unfold base64_encode.
  destruct (Z.le_gt_cases (zlength ptr) 192) as [Hle|Hgt].
  - rewrite Z.min_l, ztake_ge, zdrop_ge by lia.
    replace (256 <? _) with false by (symmetry; apply Z.ltb_ge; Z.to_euclidean_division_equations; lia).
    simpl negb. rewrite IH by (rewrite zlength_nil; lia). simpl. by rewrite app_nil_r.
  - rewrite Z.min_r by lia. rewrite zlength_ztake by lia. simpl.
    rewrite IH by (rewrite zlength_zdrop; lia).
    rewrite <- (encode_loop_app3 64); [by rewrite ztake_zdrop|].
    pose proof (zlength_ztake 192 ptr). unfold zlength in *. lia.
Qed.

(** Base64_print, which encodes in blocks of 192 bytes through a 256-byte
    stack buffer, prints exactly the one-shot encoding and never fails. *)
Theorem base64_print_encodes ptr : base64_print ptr = (0, encode_loop ptr).
Proof. apply print_loop_encode. unfold zlength. lia. Qed.

(** *** Output bound of the decoder *)

#[local] Transparent store_group.

Lemma store_group_length v : zlength (store_group v) <= 3.
Proof. unfold store_group. rewrite !zlength_app. repeat case_test; rewrite ?zlength_cons, ?zlength_nil; lia. Qed.

(** Without the fourth character the last store is suppressed. *)
Lemma store_group_length2 v : Z.testbit v 24 = true -> zlength (store_group v) <= 2.
Proof.
  intros Hv. unfold store_group. rewrite (land_pow2 v 24), Hv by lia. rewrite !zlength_app.
  repeat case_test; rewrite ?zlength_cons, ?zlength_nil in *; lia.
Qed.

Lemma decode_loop_length inp :
  zlength (decode_loop inp) <= 3 * (zlength inp / 4) + (if 2 <=? zlength inp mod 4 then 2 else 0).
Proof.
  induction inp as [|a|a b|a b c|a b c d l IH] using list_ind4.
  - vm_compute. congruence.
  - vm_compute. congruence.
  - cbn [decode_loop]. etransitivity; [apply store_group_length2|vm_compute; congruence].
    rewrite !Z.lor_spec. change (Z.testbit (u32 (Z.shiftl (2 ^ 24) 0)) 24) with true. apply orb_true_r.
  - cbn [decode_loop]. etransitivity; [apply store_group_length2|vm_compute; congruence].
    rewrite !Z.lor_spec. change (Z.testbit (u32 (Z.shiftl (2 ^ 24) 0)) 24) with true. apply orb_true_r.
  - cbn [decode_loop]. rewrite zlength_app.
    pose proof (store_group_length (Z.lor (Z.lor (Z.lor u32 (Z.shiftl (b64val a) 18) u32 (Z.shiftl (b64val b) 12))
      u32 (Z.shiftl (b64val c) 6)) u32 (Z.shiftl (b64val d) 0))).
    rewrite !zlength_cons.
    replace (1 + (1 + (1 + (1 + zlength l)))) with (zlength l + 1 * 4) by lia.
    rewrite Z.div_add, Z.mod_add by lia. lia.
Qed.

(** The size check of base64_decode is exact for input that is not a
    partial group, but a partial group of 2 or 3 characters may store up to 2
    bytes beyond [*olen]: two characters decode to one byte even when the
    caller announced an empty output buffer. *)
Theorem base64_decode_bound :
  (forall inp olen out, base64_decode inp olen = (0, out) ->
     zlength out <= olen + 2 /\ (zlength inp mod 4 <= 1 -> zlength out <= olen))
  /\ (exists out, base64_decode (chars "QQ") 0 = (0, out) /\ zlength out > 0).
Proof.
  split.
  - intros inp olen out. unfold base64_decode. pose proof (decode_loop_length inp) as Hl.
    case_test; [discriminate|]. intros [= <-]. split.
    + destruct (2 <=? _); lia.
    + intros Hm. replace (2 <=? _) with false in Hl by (symmetry; apply Z.leb_gt; lia). lia.
  - eexists. split; [vm_compute; reflexivity|]. vm_compute. reflexivity.
Qed.

Lemma base64_roundtrip_witness :
  bytes (chars "hello") /\ exists out, base64_encode (chars "hello") 8 = (0, out)
  /\ base64_decode out 7 = (0, chars "hello").
Proof.
  assert (Hb : bytes (chars "hello")) by (repeat constructor; vm_compute; congruence).
  split; [exact Hb|].
  destruct (base64_roundtrip (chars "hello") 8 7 Hb) as (out & E1 & _ & E2);
    [vm_compute; congruence | vm_compute; congruence|].
  exists out. split; [exact E1 | exact E2].
Defined.

Lemma base64url_roundtrip_witness :
  bytes (chars "hello") /\ exists out, base64url_encode (chars "hello") 8 = (0, out)
  /\ zlength out <= 8 /\ base64_decode out 5 = (0, chars "hello").
Proof.
  assert (Hb : bytes (chars "hello")) by (repeat constructor; vm_compute; congruence).
  split; [exact Hb|].
  apply (base64url_roundtrip (chars "hello") 8 5 Hb); vm_compute; congruence.
Defined.
