(* ===== verification/Crc32.v ===== *)
(** * CRC-32: src/src/crc32/crc32.c

    The table-driven CRC of the STUN fingerprint, and its definition one bit at
    a time: a shift register with the polynomial of the file's comment, taken
    backwards.  The register after a message is the register xored with the
    message, shifted once per bit ([crc_run_shift]); the table is the register
    shifted eight times, so the table-driven loop computes the same value. *)

From stdpp Require Import base list numbers strings.
From Stdlib Require Import ZArith Lia.
From S2P Require Import Prelude Endian.

Open Scope Z_scope.

Definition crc32_tab : list Z :=
  [ 0x00000000; 0x77073096; 0xee0e612c; 0x990951ba; 0x076dc419; 0x706af48f; 0xe963a535; 0x9e6495a3;
  0x0edb8832; 0x79dcb8a4; 0xe0d5e91e; 0x97d2d988; 0x09b64c2b; 0x7eb17cbd; 0xe7b82d07; 0x90bf1d91;
  0x1db71064; 0x6ab020f2; 0xf3b97148; 0x84be41de; 0x1adad47d; 0x6ddde4eb; 0xf4d4b551; 0x83d385c7;
  0x136c9856; 0x646ba8c0; 0xfd62f97a; 0x8a65c9ec; 0x14015c4f; 0x63066cd9; 0xfa0f3d63; 0x8d080df5;
  0x3b6e20c8; 0x4c69105e; 0xd56041e4; 0xa2677172; 0x3c03e4d1; 0x4b04d447; 0xd20d85fd; 0xa50ab56b;
  0x35b5a8fa; 0x42b2986c; 0xdbbbc9d6; 0xacbcf940; 0x32d86ce3; 0x45df5c75; 0xdcd60dcf; 0xabd13d59;
  0x26d930ac; 0x51de003a; 0xc8d75180; 0xbfd06116; 0x21b4f4b5; 0x56b3c423; 0xcfba9599; 0xb8bda50f;
  0x2802b89e; 0x5f058808; 0xc60cd9b2; 0xb10be924; 0x2f6f7c87; 0x58684c11; 0xc1611dab; 0xb6662d3d;
  0x76dc4190; 0x01db7106; 0x98d220bc; 0xefd5102a; 0x71b18589; 0x06b6b51f; 0x9fbfe4a5; 0xe8b8d433;
  0x7807c9a2; 0x0f00f934; 0x9609a88e; 0xe10e9818; 0x7f6a0dbb; 0x086d3d2d; 0x91646c97; 0xe6635c01;
  0x6b6b51f4; 0x1c6c6162; 0x856530d8; 0xf262004e; 0x6c0695ed; 0x1b01a57b; 0x8208f4c1; 0xf50fc457;
  0x65b0d9c6; 0x12b7e950; 0x8bbeb8ea; 0xfcb9887c; 0x62dd1ddf; 0x15da2d49; 0x8cd37cf3; 0xfbd44c65;
  0x4db26158; 0x3ab551ce; 0xa3bc0074; 0xd4bb30e2; 0x4adfa541; 0x3dd895d7; 0xa4d1c46d; 0xd3d6f4fb;
  0x4369e96a; 0x346ed9fc; 0xad678846; 0xda60b8d0; 0x44042d73; 0x33031de5; 0xaa0a4c5f; 0xdd0d7cc9;
  0x5005713c; 0x270241aa; 0xbe0b1010; 0xc90c2086; 0x5768b525; 0x206f85b3; 0xb966d409; 0xce61e49f;
  0x5edef90e; 0x29d9c998; 0xb0d09822; 0xc7d7a8b4; 0x59b33d17; 0x2eb40d81; 0xb7bd5c3b; 0xc0ba6cad;
  0xedb88320; 0x9abfb3b6; 0x03b6e20c; 0x74b1d29a; 0xead54739; 0x9dd277af; 0x04db2615; 0x73dc1683;
  0xe3630b12; 0x94643b84; 0x0d6d6a3e; 0x7a6a5aa8; 0xe40ecf0b; 0x9309ff9d; 0x0a00ae27; 0x7d079eb1;
  0xf00f9344; 0x8708a3d2; 0x1e01f268; 0x6906c2fe; 0xf762575d; 0x806567cb; 0x196c3671; 0x6e6b06e7;
  0xfed41b76; 0x89d32be0; 0x10da7a5a; 0x67dd4acc; 0xf9b9df6f; 0x8ebeeff9; 0x17b7be43; 0x60b08ed5;
  0xd6d6a3e8; 0xa1d1937e; 0x38d8c2c4; 0x4fdff252; 0xd1bb67f1; 0xa6bc5767; 0x3fb506dd; 0x48b2364b;
  0xd80d2bda; 0xaf0a1b4c; 0x36034af6; 0x41047a60; 0xdf60efc3; 0xa867df55; 0x316e8eef; 0x4669be79;
  0xcb61b38c; 0xbc66831a; 0x256fd2a0; 0x5268e236; 0xcc0c7795; 0xbb0b4703; 0x220216b9; 0x5505262f;
  0xc5ba3bbe; 0xb2bd0b28; 0x2bb45a92; 0x5cb36a04; 0xc2d7ffa7; 0xb5d0cf31; 0x2cd99e8b; 0x5bdeae1d;
  0x9b64c2b0; 0xec63f226; 0x756aa39c; 0x026d930a; 0x9c0906a9; 0xeb0e363f; 0x72076785; 0x05005713;
  0x95bf4a82; 0xe2b87a14; 0x7bb12bae; 0x0cb61b38; 0x92d28e9b; 0xe5d5be0d; 0x7cdcefb7; 0x0bdbdf21;
  0x86d3d2d4; 0xf1d4e242; 0x68ddb3f8; 0x1fda836e; 0x81be16cd; 0xf6b9265b; 0x6fb077e1; 0x18b74777;
  0x88085ae6; 0xff0f6a70; 0x66063bca; 0x11010b5c; 0x8f659eff; 0xf862ae69; 0x616bffd3; 0x166ccf45;
  0xa00ae278; 0xd70dd2ee; 0x4e048354; 0x3903b3c2; 0xa7672661; 0xd06016f7; 0x4969474d; 0x3e6e77db;
  0xaed16a4a; 0xd9d65adc; 0x40df0b66; 0x37d83bf0; 0xa9bcae53; 0xdebb9ec5; 0x47b2cf7f; 0x30b5ffe9;
  0xbdbdf21c; 0xcabac28a; 0x53b39330; 0x24b4a3a6; 0xbad03605; 0xcdd70693; 0x54de5729; 0x23d967bf;
  0xb3667a2e; 0xc4614ab8; 0x5d681b02; 0x2a6f2b94; 0xb40bbe37; 0xc30c8ea1; 0x5a05df1b; 0x2d02ef8d ].

(** The configuration without zlib. *)
Fixpoint crc32_loop (crc : Z) (p : list Z) : Z :=
  match p with
  | [] => crc
  | b :: p => crc32_loop (Z.lxor (znth (Z.land (Z.lxor crc b) 255) crc32_tab) (Z.shiftr crc 8)) p
  end.

(** [~crc] and [~0U] of a 32-bit integer. *)
Definition not32 (x : Z) : Z := u32 (Z.lnot x).

Definition re_crc32 (crc : Z) (buf : list Z) : Z :=
  Z.lxor (crc32_loop (not32 crc) buf) (not32 0).

(** ** The shift register *)

(** X^32+X^26+X^23+X^22+X^16+X^12+X^11+X^10+X^8+X^7+X^5+X^4+X^2+X^1+X^0 with
    the highest-order term in the lowest-order bit. *)
Definition poly : Z :=
  foldr (fun e acc => Z.lor (2 ^ (31 - e)) acc) 0 [26; 23; 22; 16; 12; 11; 10; 8; 7; 5; 4; 2; 1; 0].

Definition crc_shift (r : Z) : Z := Z.lxor (Z.shiftr r 1) (if Z.odd r then poly else 0).

(** One bit of the message enters the register. *)
Definition crc_bit (r : Z) (bit : bool) : Z := crc_shift (Z.lxor r (Z.b2z bit)).

(** The bits of a byte, lowest first. *)
Definition byte_bits (b : Z) : list bool := map (fun i => Z.testbit b (Z.of_nat i)) (seq 0 8).

(** The CRC of a message, bit by bit. *)
Definition crc_serial (crc : Z) (msg : list Z) : Z :=
  Z.lxor (fold_left crc_bit (concat (map byte_bits msg)) (Z.lxor crc (2 ^ 32 - 1))) (2 ^ 32 - 1).

Abbreviation shifts n := (Nat.iter n crc_shift).

Lemma crc_shift_lxor a b : crc_shift (Z.lxor a b) = Z.lxor (crc_shift a) (crc_shift b).
Proof.
  unfold crc_shift. rewrite Z.shiftr_lxor, !Z.lxor_assoc. f_equal.
  rewrite <- (Z.bit0_odd (Z.lxor a b)), Z.lxor_spec, !Z.bit0_odd.
  destruct (Z.odd a), (Z.odd b); cbn [xorb]; rewrite ?Z.lxor_0_r, ?Z.lxor_0_l; try done.
  - by rewrite Z.lxor_comm, Z.lxor_assoc, Z.lxor_nilpotent, Z.lxor_0_r.
  - apply Z.lxor_comm.
Qed.

Lemma shifts_lxor n a b : shifts n (Z.lxor a b) = Z.lxor (shifts n a) (shifts n b).
Proof. induction n as [|n IH]; [done|]. by rewrite !Nat.iter_succ, IH, crc_shift_lxor. Qed.

Lemma crc_shift_double x : crc_shift (2 * x) = x.
Proof.
  unfold crc_shift. rewrite Z.odd_mul. cbn [Z.odd andb]. rewrite Z.lxor_0_r.
  rewrite Z.shiftr_div_pow2 by lia. change (2 ^ 1) with 2. rewrite Z.mul_comm. by apply Z.div_mul.
Qed.

(** Bits that have not reached the end of the register are only moved. *)
Lemma shifts_high n x : shifts n (x * 2 ^ Z.of_nat n) = x.
Proof.
  induction n as [|n IH]; [cbn; lia|]. rewrite Nat.iter_succ_r, Nat2Z.inj_succ, Z.pow_succ_r by lia.
  by rewrite Z.mul_shuffle3, crc_shift_double.
Qed.

Lemma shifts_byte x : shifts 8 (x * 2 ^ 8) = x.
Proof. pose proof (shifts_high 8 x) as E. change (Z.of_nat 8) with 8 in E. exact E. Qed.

Lemma shifts_add m n x : shifts (m + n) x = shifts m (shifts n x).
Proof. apply Nat.iter_add. Qed.

Lemma lxor_low_high k a x : 0 <= k -> 0 <= a < 2 ^ k -> a + 2 ^ k * x = Z.lxor a (x * 2 ^ k).
Proof.
  intros Hk Ha. rewrite Z.lxor_lor.
  - rewrite Z.lor_comm, <- Z.shiftl_mul_pow2, lor_shiftl_add by done. lia.
  - apply Z.bits_inj'. intros i Hi. rewrite Z.land_spec, Z.bits_0. destruct (Z.lt_ge_cases i k).
    + rewrite Z.mul_pow2_bits_low by done. apply andb_false_r.
    + rewrite <- (Z.mod_small a (2 ^ k)), Z.mod_pow2_bits_high by lia. done.
Qed.

(** ** Bit by bit *)

Fixpoint bits_val (l : list bool) : Z :=
  match l with [] => 0 | b :: l => Z.b2z b + 2 * bits_val l end.

Lemma serial_shifts l : forall r, fold_left crc_bit l r = shifts (length l) (Z.lxor r (bits_val l)).
Proof.
  induction l as [|b l IH]; intros r; cbn [fold_left length bits_val]; [cbn; by rewrite Z.lxor_0_r|].
  rewrite IH, Nat.iter_succ_r. f_equal.
  change 2 with (2 ^ 1). rewrite (lxor_low_high 1) by (destruct b; cbn; lia).
  rewrite <- Z.lxor_assoc, crc_shift_lxor. rewrite (Z.mul_comm _ (2 ^ 1)). by rewrite crc_shift_double.
Qed.

Lemma bits_val_app l l' : bits_val (l ++ l') = bits_val l + 2 ^ zlength l * bits_val l'.
Proof.
  induction l as [|b l IH]; cbn [app bits_val]; [change (zlength (@nil bool)) with 0; lia|].
  rewrite IH, zlength_cons, Z.pow_add_r by (pose proof (zlength_nonneg l); lia). lia.
Qed.

Lemma byte_bits_val b : is_byte b -> bits_val (byte_bits b) = b.
Proof.
  intros Hb. unfold byte_bits. cbn -[Z.testbit Z.b2z Z.mul Z.add]. rewrite !Z.testbit_spec' by lia.
  unfold is_byte in Hb. cbn -[Z.modulo Z.div Z.mul Z.add]. Z.to_euclidean_division_equations. lia.
Qed.

Lemma msg_bits_val msg : bytes msg -> bits_val (concat (map byte_bits msg)) = le_val msg.
Proof.
  induction 1 as [|b msg Hb _ IH]; cbn [map concat le_val]; [done|].
  rewrite bits_val_app, IH, byte_bits_val by done. done.
Qed.

Lemma msg_bits_length msg : length (concat (map byte_bits msg)) = (8 * length msg)%nat.
Proof. induction msg as [|b msg IH]; [done|]. cbn [map concat]. rewrite length_app, IH. cbn. lia. Qed.

(** ** Byte by byte *)

Lemma crc32_tab_shifts i : 0 <= i < 256 -> znth i crc32_tab = shifts 8 i.
Proof.
  intros Hi. assert (Hall : forallb (fun n => znth (Z.of_nat n) crc32_tab =? shifts 8 (Z.of_nat n)) (seq 0 256) = true)
    by (vm_compute; reflexivity).
  rewrite forallb_forall in Hall. specialize (Hall (Z.to_nat i)). rewrite Z2Nat.id in Hall by lia.
  apply Z.eqb_eq, Hall, in_seq. lia.
Qed.

Lemma crc32_step r b :
  is_byte b -> Z.lxor (znth (Z.land (Z.lxor r b) 255) crc32_tab) (Z.shiftr r 8) = shifts 8 (Z.lxor r b).
Proof.
  intros Hb. assert (E : Z.shiftr r 8 = Z.shiftr (Z.lxor r b) 8).
  { rewrite Z.shiftr_lxor, (Z.shiftr_div_pow2 b), (Z.div_small b), Z.lxor_0_r by (unfold is_byte in Hb; lia). done. }
  rewrite E. set (x := Z.lxor r b). rewrite land_255.
  pose proof (Z.mod_pos_bound x 256 ltac:(lia)). rewrite crc32_tab_shifts by done.
  rewrite <- (shifts_byte (Z.shiftr x 8)) at 1. rewrite <- shifts_lxor. f_equal.
  rewrite <- (lxor_low_high 8), Z.shiftr_div_pow2 by lia.
  change (2 ^ 8) with 256. pose proof (Z.div_mod x 256). lia.
Qed.

Lemma crc32_loop_shifts p : bytes p -> forall r, crc32_loop r p = shifts (8 * length p) (Z.lxor r (le_val p)).
Proof.
  induction 1 as [|b p Hb _ IH]; intros r; cbn [crc32_loop]; [cbn; by rewrite Z.lxor_0_r|].
  rewrite crc32_step, IH by done. cbn [length le_val].
  replace (8 * S (length p))%nat with (8 * length p + 8)%nat by lia. rewrite shifts_add. f_equal.
  change 256 with (2 ^ 8). rewrite (lxor_low_high 8) by (done || lia).
  by rewrite <- Z.lxor_assoc, (shifts_lxor 8 _ (_ * _)), shifts_byte.
Qed.

Lemma not32_lxor x : is_u32 x -> not32 x = Z.lxor x (2 ^ 32 - 1).
Proof.
  intros Hx. unfold not32, wrap. change (2 ^ 32 - 1) with (Z.ones 32).
  apply Z.bits_inj'. intros i Hi. rewrite Z.lxor_spec. destruct (Z.lt_ge_cases i 32).
  - rewrite Z.mod_pow2_bits_low, Z.lnot_spec, Z.ones_spec_low by lia. by destruct (Z.testbit x i).
  - rewrite Z.mod_pow2_bits_high, Z.ones_spec_high by lia.
    rewrite <- (Z.mod_small x (2 ^ 32)), Z.mod_pow2_bits_high by (unfold is_u32 in Hx; lia). done.
Qed.

Lemma crc_shift_range r : 0 <= r < 2 ^ 32 -> 0 <= crc_shift r < 2 ^ 32.
Proof.
  intros Hr. unfold crc_shift. apply lxor_bound; [lia| |destruct (Z.odd r); vm_compute; intuition congruence].
  pose proof (shiftr_bound 32 1 r ltac:(lia) Hr). lia.
Qed.

Lemma lxor_cancel a b x : Z.lxor a x = Z.lxor b x -> a = b.
Proof.
  intros E. apply (f_equal (fun y => Z.lxor y x)) in E.
  by rewrite !Z.lxor_assoc, Z.lxor_nilpotent, !Z.lxor_0_r in E.
Qed.

(** The register can be run backwards: the bit that left it is its top bit. *)
Lemma crc_shift_inj r r' : 0 <= r < 2 ^ 32 -> 0 <= r' < 2 ^ 32 -> crc_shift r = crc_shift r' -> r = r'.
Proof.
  intros Hr Hr' E.
  assert (Htop : forall x, 0 <= x < 2 ^ 32 -> Z.testbit (crc_shift x) 31 = Z.odd x).
  { intros x Hx. unfold crc_shift. rewrite Z.lxor_spec, Z.shiftr_spec by lia.
    rewrite <- (Z.mod_small x (2 ^ 32)) at 1 by lia. rewrite Z.mod_pow2_bits_high by lia. by destruct (Z.odd x). }
  pose proof (Htop r Hr) as Hodd. rewrite E, Htop in Hodd by done. unfold crc_shift in E. rewrite Hodd in E.
  apply lxor_cancel in E. rewrite <- !Z.div2_spec in E.
  pose proof (Z.div2_odd r). pose proof (Z.div2_odd r') as Hd. rewrite Hodd in Hd. lia.
Qed.

Lemma shifts_inj n r r' : 0 <= r < 2 ^ 32 -> 0 <= r' < 2 ^ 32 -> shifts n r = shifts n r' -> r = r'.
Proof.
  induction n as [|n IH] in r, r' |- *; intros Hr Hr' E; [done|]. rewrite !Nat.iter_succ_r in E.
  apply crc_shift_inj; [done..|]. apply IH; auto using crc_shift_range.
Qed.

Lemma shifts_range n r : 0 <= r < 2 ^ 32 -> 0 <= shifts n r < 2 ^ 32.
Proof. intros Hr. induction n as [|n IH]; [done|]. rewrite Nat.iter_succ. by apply crc_shift_range. Qed.

Lemma lxor_byte_range r b : 0 <= r < 2 ^ 32 -> is_byte b -> 0 <= Z.lxor r b < 2 ^ 32.
Proof. intros Hr Hb. apply lxor_bound; unfold is_byte in Hb; lia. Qed.

Lemma crc32_loop_range p : bytes p -> forall r, 0 <= r < 2 ^ 32 -> 0 <= crc32_loop r p < 2 ^ 32.
Proof.
  induction 1 as [|b p Hb _ IH]; intros r Hr; cbn [crc32_loop]; [done|].
  rewrite crc32_step by done. by apply IH, shifts_range, lxor_byte_range.
Qed.

Lemma crc32_loop_app a b r : crc32_loop r (a ++ b) = crc32_loop (crc32_loop r a) b.
Proof. revert r. induction a as [|x a IH]; intros r; cbn [app crc32_loop]; [done|]. apply IH. Qed.

(** Different registers stay different. *)
Lemma crc32_loop_inj p : bytes p -> forall r r', 0 <= r < 2 ^ 32 -> 0 <= r' < 2 ^ 32 ->
  crc32_loop r p = crc32_loop r' p -> r = r'.
Proof.
  induction 1 as [|b p Hb _ IH]; intros r r' Hr Hr'; cbn [crc32_loop]; [done|].
  rewrite !crc32_step by done. intros E.
  apply IH, shifts_inj, lxor_cancel in E; auto using shifts_range, lxor_byte_range.
Qed.

Lemma le_val_inj a b : bytes a -> bytes b -> length a = length b -> le_val a = le_val b -> a = b.
Proof.
  intros Ha Hb Hl E. by rewrite <- (le_bytes_le_val a Ha), <- (le_bytes_le_val b Hb), Hl, E.
Qed.

Lemma le_val_u32 a : bytes a -> (length a <= 4)%nat -> 0 <= le_val a < 2 ^ 32.
Proof.
  intros Ha Hl. pose proof (le_val_bound a Ha). change (2 ^ 32) with (256 ^ 4).
  pose proof (Z.pow_le_mono_r 256 (Z.of_nat (length a)) 4). lia.
Qed.

(** The table-driven loop computes the CRC of its polynomial: for every
    message it agrees with the shift register that takes one bit at a time, and
    a CRC can be continued where a former call stopped. *)
Theorem re_crc32_correct crc a b :
  is_u32 crc -> bytes a -> bytes b ->
  re_crc32 crc a = crc_serial crc a /\ re_crc32 (re_crc32 crc a) b = re_crc32 crc (a ++ b).
Proof.
  intros Hc Ha Hb. assert (Hn : 0 <= not32 crc < 2 ^ 32) by (apply wrap_range; lia).
  pose proof (crc32_loop_range a Ha _ Hn) as Hr. unfold re_crc32. rewrite (not32_lxor 0) by done. split.
  - unfold crc_serial. rewrite serial_shifts, msg_bits_val, msg_bits_length by done.
    by rewrite crc32_loop_shifts, not32_lxor.
  - rewrite crc32_loop_app. do 2 f_equal. rewrite Z.lxor_0_l, not32_lxor by (apply lxor_bound; lia).
    by rewrite Z.lxor_assoc, Z.lxor_nilpotent, Z.lxor_0_r.
Qed.

Lemma re_crc32_correct_witness :
  re_crc32 0 (chars "123456789") = 0xcbf43926 /\ crc_serial 0 (chars "123456789") = 0xcbf43926.
Proof.
  assert (E : re_crc32 0 (chars "123456789") = 0xcbf43926) by (vm_compute; reflexivity).
  split; [exact E|]. rewrite <- E. symmetry.
  apply (re_crc32_correct 0 (chars "123456789") []); [by_compute|repeat constructor; vm_compute; congruence|constructor].
Defined.

(** The CRC detects every corruption that is confined to four consecutive
    bytes of a message. *)
Theorem re_crc32_detects crc pre a b post :
  bytes pre -> bytes a -> bytes b -> bytes post -> length a = length b -> (length a <= 4)%nat -> a <> b ->
  re_crc32 crc (pre ++ a ++ post) <> re_crc32 crc (pre ++ b ++ post).
Proof.
  intros Hpre Ha Hb Hpost Hl H4 Hne E. apply Hne, le_val_inj; try done.
  assert (Hn : 0 <= not32 crc < 2 ^ 32) by (apply wrap_range; lia).
  pose proof (crc32_loop_range pre Hpre _ Hn) as Hr. pose proof (le_val_u32 a Ha H4).
  pose proof (le_val_u32 b Hb ltac:(lia)). apply lxor_cancel in E. rewrite !crc32_loop_app in E.
  apply crc32_loop_inj in E; auto using crc32_loop_range. set (r := crc32_loop _ pre) in *. clearbody r.
  rewrite !crc32_loop_shifts, Hl in E by done.
  apply shifts_inj in E; [|apply lxor_bound; lia..].
  rewrite !(Z.lxor_comm r) in E. by apply lxor_cancel in E.
Qed.

Lemma re_crc32_detects_witness :
  re_crc32 0 [1; 2; 3; 4; 5; 6] <> re_crc32 0 [1; 9; 0; 7; 5; 6].
Proof.
  apply (re_crc32_detects 0 [1] [2; 3; 4] [9; 0; 7] [5; 6]); by_compute || (simpl; lia).
Defined.
