(* ===== verification/Sa.v ===== *)
(** * Socket addresses: src/src/sa/sa.c and src/include/re_sa.h

    [struct sa] is a union of the socket address structures of the platform;
    [sa] has one constructor for each family the library works with.  IPv4
    addresses and ports are kept in host order ([sin_addr], [sin_port] are
    written with htonl/htons and read with ntohl/ntohs); IPv6 addresses are
    their 16 bytes.  String conversion (inet_pton, inet_ntop, getaddrinfo) is
    the platform's and is left out. *)

From stdpp Require Import base list numbers.
From Stdlib Require Import ZArith Lia.
From S2P Require Import Prelude Endian.

Open Scope Z_scope.

Definition AF_UNSPEC : Z := 0.
Definition AF_UNIX : Z := 1.
Definition AF_INET : Z := 2.
Definition AF_INET6 : Z := 10.

Definition SA_ADDR : Z := 1.
Definition SA_PORT : Z := 2.
Definition SA_ALL : Z := Z.lor SA_ADDR SA_PORT.

Inductive sa :=
  | SaIn (addr port : Z)
  | SaIn6 (addr : list Z) (port scope : Z)
  | SaUn (path : list Z)
  | SaOther (af : Z).

#[export] Instance sa_eq_dec : EqDecision sa.
Proof. solve_decision. Defined.

(** [flag & SA_ADDR] and the like. *)
Definition has (flag f : Z) : bool := negb (Z.land flag f =? 0).

Definition in6addr_any : list Z := replicate 16 0.
Definition in6addr_loopback : list Z := replicate 15 0 ++ [1].

Definition sa_init (af : Z) : sa :=
  if af =? AF_INET then SaIn 0 0
  else if af =? AF_INET6 then SaIn6 in6addr_any 0 0
  else if af =? AF_UNIX then SaUn []
  else SaOther af.

Definition sa_set_in (addr port : Z) : sa := SaIn (u32 addr) (u16 port).
Definition sa_set_in6 (addr : list Z) (port : Z) : sa := SaIn6 (ztake 16 addr) (u16 port) 0.

Definition sa_set_port (s : sa) (port : Z) : sa :=
  match s with
  | SaIn a _ => SaIn a (u16 port)
  | SaIn6 a _ sc => SaIn6 a (u16 port) sc
  | _ => s
  end.

Definition sa_af (s : sa) : Z :=
  match s with SaIn _ _ => AF_INET | SaIn6 _ _ _ => AF_INET6 | SaUn _ => AF_UNIX | SaOther af => af end.

(** The callers ask for the address of the family they have tested. *)
Definition sa_in (s : sa) : Z := match s with SaIn a _ => a | _ => 0 end.
Definition sa_in6 (s : sa) : list Z := match s with SaIn6 a _ _ => a | _ => in6addr_any end.

Definition sa_port (s : sa) : Z := match s with SaIn _ p | SaIn6 _ p _ => p | _ => 0 end.

Definition sa_isset (s : sa) (flag : Z) : bool :=
  match s with
  | SaUn path => negb (bool_decide (path = []))
  | SaIn a p =>
      if has flag SA_ADDR && (a =? 0) then false
      else if has flag SA_PORT && (p =? 0) then false else true
  | SaIn6 a p _ =>
      if has flag SA_ADDR && bool_decide (a = in6addr_any) then false
      else if has flag SA_PORT && (p =? 0) then false else true
  | SaOther _ => false
  end.

(** [same] says whether the two pointers are equal. *)
Definition sa_cmp (same : bool) (l r : sa) (flag : Z) : bool :=
  if same then true
  else
    match l, r with
    | SaUn p, SaUn q => bool_decide (p = q)
    | SaIn a p, SaIn b q =>
        if has flag SA_ADDR && negb (a =? b) then false
        else if has flag SA_PORT && negb (p =? q) then false else true
    | SaIn6 a p _, SaIn6 b q _ =>
        if has flag SA_ADDR && negb (bool_decide (a = b)) then false
        else if has flag SA_PORT && negb (p =? q) then false else true
    | _, _ => false
    end.

Definition sa_is_linklocal (s : sa) : bool :=
  match s with
  | SaIn a _ => Z.land a 0xffff0000 =? 0xa9fe0000
  | SaIn6 a _ _ => (znth 0 a =? 0xfe) && (Z.land (znth 1 a) 0xc0 =? 0x80)
  | _ => false
  end.

Definition sa_is_loopback (s : sa) : bool :=
  match s with
  | SaIn a _ => Z.land a 0xff000000 =? 0x7f000000
  | SaIn6 a _ _ => bool_decide (a = in6addr_loopback)
  | _ => false
  end.

Definition sa_is_multicast (s : sa) : bool :=
  match s with
  | SaIn a _ => Z.land a 0xf0000000 =? 0xe0000000
  | SaIn6 a _ _ => znth 0 a =? 0xff
  | _ => false
  end.

Definition sa_is_any (s : sa) : bool :=
  match s with
  | SaIn a _ => a =? 0
  | SaIn6 a _ _ => bool_decide (a = in6addr_any)
  | _ => false
  end.

Definition sa_set_scopeid (s : sa) (scopeid : Z) : sa :=
  match s with SaIn6 a p _ => SaIn6 a p scopeid | _ => s end.
Definition sa_scopeid (s : sa) : Z := match s with SaIn6 _ _ sc => sc | _ => 0 end.

Section Sa.
Context `{H : Host}.

(** An IPv6 address is read as four integers of the host. *)
Definition sa_hash (s : sa) (flag : Z) : Z :=
  match s with
  | SaIn a p =>
      let v := if has flag SA_ADDR then u32 a else 0 in
      if has flag SA_PORT then u32 (v + p) else v
  | SaIn6 a p _ =>
      let w i := host_val (ztake 4 (zdrop (4 * i) a)) in
      let v := if has flag SA_ADDR then Z.lxor (Z.lxor (Z.lxor (w 0) (w 1)) (w 2)) (w 3) else 0 in
      if has flag SA_PORT then u32 (v + p) else v
  | _ => 0
  end.

(** What sa_cmp compares: family, address and port as far as asked for. *)
Definition sa_key (s : sa) (flag : Z) : Z * list Z * option Z :=
  match s with
  | SaIn a p => (AF_INET, if has flag SA_ADDR then [a] else [], if has flag SA_PORT then Some p else None)
  | SaIn6 a p _ => (AF_INET6, if has flag SA_ADDR then a else [], if has flag SA_PORT then Some p else None)
  | SaUn q => (AF_UNIX, q, None)
  | SaOther af => (af, [], None)
  end.

Definition sa_valid (s : sa) : Prop := match s with SaOther _ => False | _ => True end.

(** For addresses of a known family sa_cmp holds exactly when family and
    the selected fields agree (it is an equivalence), and addresses it equates
    have the same hash, so that a hash table keyed by sa_hash and searched with
    sa_cmp finds every entry. *)
Theorem sa_cmp_hash l r flag :
  sa_valid l -> sa_valid r ->
  (sa_cmp false l r flag = true <-> sa_key l flag = sa_key r flag)
  /\ (sa_cmp false l r flag = true -> sa_hash l flag = sa_hash r flag).
Proof.
  intros Hl Hr. assert (Hk : sa_cmp false l r flag = true <-> sa_key l flag = sa_key r flag).
  { destruct l as [a p|a p s|q|], r as [b p'|b p' s'|q'|]; try done; cbn [sa_cmp sa_key];
      try (split; [discriminate|intros [=]]; done).
    - destruct (has flag SA_ADDR), (has flag SA_PORT); cbn [andb];
        destruct (Z.eqb_spec a b), (Z.eqb_spec p p'); cbn; split; congruence.
    - destruct (has flag SA_ADDR), (has flag SA_PORT); cbn [andb];
        destruct (decide (a = b)), (Z.eqb_spec p p'); rewrite ?bool_decide_true, ?bool_decide_false by done;
        cbn; split; congruence.
    - rewrite bool_decide_eq_true. split; [by intros -> | by intros [=]]. }
  split; [done|]. intros Hc. apply Hk in Hc.
  destruct l as [a p|a p s|q|], r as [b p'|b p' s'|q'|]; try done; cbn [sa_key sa_hash] in *;
    destruct (has flag SA_ADDR), (has flag SA_PORT); congruence.
Qed.
End Sa.

Lemma sa_cmp_hash_witness :
  sa_cmp false (SaIn 0x7f000001 5060) (SaIn 0x7f000001 5061) SA_ADDR = true
  /\ sa_hash (H := lp64_le) (SaIn 0x7f000001 5060) SA_ADDR = sa_hash (H := lp64_le) (SaIn 0x7f000001 5061) SA_ADDR.
Proof.
  assert (E : sa_cmp false (SaIn 0x7f000001 5060) (SaIn 0x7f000001 5061) SA_ADDR = true) by reflexivity.
  split; [exact E|]. exact (proj2 (sa_cmp_hash (H := lp64_le) (SaIn 0x7f000001 5060) (SaIn 0x7f000001 5061) SA_ADDR I I) E).
Defined.
