(* ===== verification/LinkedList.v ===== *)
(** * Linked lists: src/src/list/list.c and src/include/re_list.h

    Elements ([struct le], embedded in the objects of their users) and lists
    live in a store, [heap]; a pointer is an address, [0] is NULL.  Every
    function of list.c is a function on the store, field by field in the order
    of the source; loops take fuel.  [repr h l xs] says that the list at [l]
    is well linked and holds the elements [xs] (address and data) in order: it
    is the contract of list.c, and each operation refines the operation on
    plain sequences. *)

From Stdlib Require Import ZArith Lia Sorted Permutation.
From stdpp Require Import base numbers list gmap.
From S2P Require Import Prelude.

Open Scope Z_scope.

Record le := Le { le_prev : Z; le_next : Z; le_list : Z; le_data : Z }.
Record lst := Lst { l_head : Z; l_tail : Z; l_cnt : Z }.
Record heap := Heap { h_le : gmap Z le; h_list : gmap Z lst }.

Definition NULL : Z := 0.
Definition LE_INIT : le := Le 0 0 0 0.
Definition LIST_INIT : lst := Lst 0 0 0.

(** Fields behind a pointer. *)
Definition le_at (h : heap) (p : Z) : le := default LE_INIT (h_le h !! p).
Definition list_at (h : heap) (l : Z) : lst := default LIST_INIT (h_list h !! l).

Definition upd_le (p : Z) (f : le -> le) (h : heap) : heap := Heap (alter f p (h_le h)) (h_list h).
Definition upd_list (l : Z) (f : lst -> lst) (h : heap) : heap := Heap (h_le h) (alter f l (h_list h)).

Definition set_prev (v : Z) (e : le) : le := Le v (le_next e) (le_list e) (le_data e).
Definition set_next (v : Z) (e : le) : le := Le (le_prev e) v (le_list e) (le_data e).
Definition set_data (v : Z) (e : le) : le := Le (le_prev e) (le_next e) (le_list e) v.
Definition set_head (v : Z) (s : lst) : lst := Lst v (l_tail s) (l_cnt s).
Definition set_tail (v : Z) (s : lst) : lst := Lst (l_head s) v (l_cnt s).
Definition inc_cnt (s : lst) : lst := Lst (l_head s) (l_tail s) (u64 (l_cnt s + 1)).
(** [if (list->cnt) --list->cnt;] *)
Definition dec_cnt (s : lst) : lst := if l_cnt s =? 0 then s else Lst (l_head s) (l_tail s) (l_cnt s - 1).

(** [if (p) p->field = ..] *)
Definition when (p : Z) (f : heap -> heap) (h : heap) : heap := if p =? 0 then h else f h.

(** ** list.c *)

Definition list_init (l : Z) (h : heap) : heap := when l (upd_list l (fun _ => LIST_INIT)) h.

Definition list_append (l p data : Z) (h : heap) : heap :=
  if (l =? 0) || (p =? 0) then h
  else if negb (le_list (le_at h p) =? 0) then h
  else
    let h := upd_le p (fun _ => Le (l_tail (list_at h l)) 0 l data) h in
    let h := if l_head (list_at h l) =? 0 then upd_list l (set_head p) h else h in
    let h := when (l_tail (list_at h l)) (upd_le (l_tail (list_at h l)) (set_next p)) h in
    upd_list l inc_cnt (upd_list l (set_tail p) h).

Definition list_prepend (l p data : Z) (h : heap) : heap :=
  if (l =? 0) || (p =? 0) then h
  else if negb (le_list (le_at h p) =? 0) then h
  else
    let h := upd_le p (fun _ => Le 0 (l_head (list_at h l)) l data) h in
    let h := when (l_head (list_at h l)) (upd_le (l_head (list_at h l)) (set_prev p)) h in
    let h := if l_tail (list_at h l) =? 0 then upd_list l (set_tail p) h else h in
    upd_list l inc_cnt (upd_list l (set_head p) h).

Definition list_insert_before (l q p data : Z) (h : heap) : heap :=
  if (l =? 0) || (q =? 0) || (p =? 0) then h
  else if negb (le_list (le_at h p) =? 0) then h
  else
    let prev := le_prev (le_at h q) in
    let h := if negb (prev =? 0) then upd_le prev (set_next p) h
             else if l_head (list_at h l) =? q then upd_list l (set_head p) h else h in
    let h := upd_le p (fun _ => Le (le_prev (le_at h q)) q l data) h in
    upd_list l inc_cnt (upd_le q (set_prev p) h).

Definition list_insert_after (l q p data : Z) (h : heap) : heap :=
  if (l =? 0) || (q =? 0) || (p =? 0) then h
  else if negb (le_list (le_at h p) =? 0) then h
  else
    let next := le_next (le_at h q) in
    let h := if negb (next =? 0) then upd_le next (set_prev p) h
             else if l_tail (list_at h l) =? q then upd_list l (set_tail p) h else h in
    let h := upd_le p (fun _ => Le q (le_next (le_at h q)) l data) h in
    upd_list l inc_cnt (upd_le q (set_next p) h).

Definition list_unlink (p : Z) (h : heap) : heap :=
  if (p =? 0) || (le_list (le_at h p) =? 0) then h
  else
    let l := le_list (le_at h p) in
    let h := if negb (le_prev (le_at h p) =? 0)
             then upd_le (le_prev (le_at h p)) (set_next (le_next (le_at h p))) h
             else upd_list l (set_head (le_next (le_at h p))) h in
    let h := if negb (le_next (le_at h p) =? 0)
             then upd_le (le_next (le_at h p)) (set_prev (le_prev (le_at h p))) h
             else upd_list l (set_tail (le_prev (le_at h p))) h in
    let h := upd_le p (fun e => Le 0 0 0 (le_data e)) h in
    upd_list l dec_cnt h.

(** The sort handler sees the data of two elements. *)
Fixpoint insert_sorted_loop (fuel : nat) (sh : Z -> Z -> bool) (l q p : Z) (h : heap) : option heap :=
  match fuel with
  | O => None
  | S fuel =>
      if q =? 0 then Some (list_prepend l p (le_data (le_at h p)) h)
      else if sh (le_data (le_at h q)) (le_data (le_at h p))
      then Some (list_insert_after l q p (le_data (le_at h p)) h)
      else insert_sorted_loop fuel sh l (le_prev (le_at h q)) p h
  end.

Definition list_insert_sorted (fuel : nat) (sh : Z -> Z -> bool) (l p data : Z) (h : heap) : option heap :=
  if l =? 0 then Some h
  else
    let h' := upd_le p (set_data data) h in
    insert_sorted_loop fuel sh l (l_tail (list_at h l)) p h'.

(** One pass over the list: the store and whether something was moved. *)
Fixpoint sort_pass (fuel : nat) (sh : Z -> Z -> bool) (l q : Z) (sort : bool) (h : heap) : option (bool * heap) :=
  match fuel with
  | O => None
  | S fuel =>
      if (q =? 0) || (le_next (le_at h q) =? 0) then Some (sort, h)
      else
        let tle := le_next (le_at h q) in
        if sh (le_data (le_at h q)) (le_data (le_at h tle)) then sort_pass fuel sh l tle sort h
        else
          let h := list_unlink q h in
          let h := list_insert_after l tle q (le_data (le_at h q)) h in
          sort_pass fuel sh l q true h
  end.

Fixpoint list_sort (fuel : nat) (sh : Z -> Z -> bool) (l : Z) (h : heap) : option heap :=
  if l =? 0 then Some h
  else
    match fuel with
    | O => None
    | S fuel' =>
        match sort_pass fuel sh l (l_head (list_at h l)) false h with
        | None => None
        | Some (sort, h) => if sort then list_sort fuel' sh l h else Some h
        end
    end.

(** The apply handler may change the store; the next element is read first. *)
Fixpoint list_apply_loop (fuel : nat) (fwd : bool) (ah : Z -> heap -> bool * heap) (q : Z) (h : heap) : option (Z * heap) :=
  match fuel with
  | O => None
  | S fuel =>
      if q =? 0 then Some (0, h)
      else
        let nxt := if fwd then le_next (le_at h q) else le_prev (le_at h q) in
        let '(stop, h) := ah q h in
        if stop then Some (q, h) else list_apply_loop fuel fwd ah nxt h
  end.

Definition list_apply (fuel : nat) (l : Z) (fwd : bool) (ah : Z -> heap -> bool * heap) (h : heap) : option (Z * heap) :=
  if l =? 0 then Some (0, h)
  else list_apply_loop fuel fwd ah (if fwd then l_head (list_at h l) else l_tail (list_at h l)) h.

Fixpoint list_clear_loop (fuel : nat) (q : Z) (h : heap) : option heap :=
  match fuel with
  | O => None
  | S fuel =>
      if q =? 0 then Some h
      else list_clear_loop fuel (le_next (le_at h q)) (upd_le q (fun _ => Le 0 0 0 0) h)
  end.

Definition list_clear (fuel : nat) (l : Z) (h : heap) : option heap :=
  if l =? 0 then Some h
  else option_map (list_init l) (list_clear_loop fuel (l_head (list_at h l)) h).

(** [mem_deref] runs the destructor of the data: a parameter. *)
Fixpoint list_flush_loop (fuel : nat) (mem_deref : Z -> heap -> heap) (q : Z) (h : heap) : option heap :=
  match fuel with
  | O => None
  | S fuel =>
      if q =? 0 then Some h
      else
        let next := le_next (le_at h q) in
        let data := le_data (le_at h q) in
        let h := list_unlink q h in
        let h := upd_le q (set_data 0) h in
        list_flush_loop fuel mem_deref next (mem_deref data h)
  end.

Definition list_flush (fuel : nat) (mem_deref : Z -> heap -> heap) (l : Z) (h : heap) : option heap :=
  if l =? 0 then Some h
  else option_map (list_init l) (list_flush_loop fuel mem_deref (l_head (list_at h l)) h).

Definition list_head (l : Z) (h : heap) : Z := if l =? 0 then 0 else l_head (list_at h l).
Definition list_tail (l : Z) (h : heap) : Z := if l =? 0 then 0 else l_tail (list_at h l).
Definition list_count (l : Z) (h : heap) : Z := if l =? 0 then 0 else u32 (l_cnt (list_at h l)).

(** re_list.h *)
Definition list_ledata (p : Z) (h : heap) : Z := if p =? 0 then 0 else le_data (le_at h p).
Definition list_contains (l p : Z) (h : heap) : bool := if p =? 0 then false else le_list (le_at h p) =? l.
Definition list_isempty (l : Z) (h : heap) : bool := if l =? 0 then true else l_head (list_at h l) =? 0.
Definition list_move (p l : Z) (h : heap) : heap :=
  let h := list_unlink p h in list_append l p (le_data (le_at h p)) h.

(** ** The list a store holds *)

(** Address of the first element of [xs], or [d]; of the last one, or [d]. *)
Definition first_or (d : Z) (xs : list (Z * Z)) : Z := match xs with [] => d | x :: _ => x.1 end.
Fixpoint last_or (d : Z) (xs : list (Z * Z)) : Z := match xs with [] => d | x :: xs => last_or x.1 xs end.

(** The elements [xs] are chained, between the elements [prev] and [next]. *)
Fixpoint chain (m : gmap Z le) (l prev : Z) (xs : list (Z * Z)) (next : Z) : Prop :=
  match xs with
  | [] => True
  | x :: xs => x.1 <> 0 /\ m !! x.1 = Some (Le prev (first_or next xs) l x.2) /\ chain m l x.1 xs next
  end.

Record repr (h : heap) (l : Z) (xs : list (Z * Z)) : Prop := {
  repr_null : l <> 0;
  repr_nodup : NoDup (xs.*1);
  repr_chain : chain (h_le h) l 0 xs 0;
  repr_list : h_list h !! l = Some (Lst (first_or 0 xs) (last_or 0 xs) (zlength xs));
  repr_count : zlength xs < 2 ^ 32;
}.

(** An element that is not in any list. *)
Definition unlinked (h : heap) (p : Z) : Prop := p <> 0 /\ exists e, h_le h !! p = Some e /\ le_list e = 0.

Lemma first_or_app d xs ys : first_or d (xs ++ ys) = first_or (first_or d ys) xs.
Proof. by destruct xs. Qed.

Lemma last_or_app d xs ys : last_or d (xs ++ ys) = last_or (last_or d xs) ys.
Proof. revert d. induction xs as [|x xs IH]; intros; simpl; [done|]. apply IH. Qed.

Lemma chain_app m l a xs ys b :
  chain m l a (xs ++ ys) b <-> chain m l a xs (first_or b ys) /\ chain m l (last_or a xs) ys b.
Proof.
  revert a. induction xs as [|x xs IH]; intros a; simpl; [tauto|]. rewrite IH, first_or_app. tauto.
Qed.

Lemma chain_agree m m' l a xs b :
  (forall p, p ∈ xs.*1 -> m' !! p = m !! p) -> chain m l a xs b -> chain m' l a xs b.
Proof.
  revert a. induction xs as [|x xs IH]; intros a Hag; simpl; [done|]. intros (Hx & Hm & Hc).
  split_and!; [done| |].
  - rewrite Hag; [done|]. rewrite fmap_cons. by apply elem_of_cons; left.
  - apply IH; [|done]. intros p Hp. apply Hag. rewrite fmap_cons. by apply elem_of_cons; right.
Qed.

(** A member of a chain is an element of this list. *)
Lemma chain_member m l a xs b p :
  chain m l a xs b -> p ∈ xs.*1 -> p <> 0 /\ exists e, m !! p = Some e /\ le_list e = l.
Proof.
  revert a. induction xs as [|x xs IH]; intros a; simpl; [by intros _ ?%elem_of_nil|].
  intros (Hx & Hm & Hc) [->|Hp]%elem_of_cons; [|by eapply IH]. split; [done|]. by eexists.
Qed.

Lemma repr_member h l xs p : repr h l xs -> p ∈ xs.*1 -> p <> 0 /\ exists e, h_le h !! p = Some e /\ le_list e = l.
Proof. intros [_ _ Hc _ _]. by apply chain_member with (1 := Hc). Qed.

Lemma unlinked_fresh h l xs p : repr h l xs -> unlinked h p -> p ∉ xs.*1.
Proof.
  intros Hr (Hp & e & He & Hl) Hin. destruct (repr_member _ _ _ _ Hr Hin) as (_ & e' & He' & Hl').
  apply (repr_null _ _ _ Hr). congruence.
Qed.

Lemma last_or_in d xs : last_or d xs = d \/ last_or d xs ∈ xs.*1.
Proof.
  revert d. induction xs as [|x xs IH]; intros d; simpl; [by left|]. right.
  destruct (IH x.1) as [->|Hin]; apply elem_of_cons; auto.
Qed.

Lemma first_or_in d xs : first_or d xs = d \/ first_or d xs ∈ xs.*1.
Proof. destruct xs as [|x xs]; simpl; [by left|]. right. apply elem_of_cons. by left. Qed.

(** Only an empty list has NULL ends. *)
Lemma if_last_or {A} xs (v w : A) :
  (0 : Z) ∉ xs.*1 -> (if last_or 0 xs =? 0 then v else w) = match xs with [] => v | _ => w end.
Proof.
  intros H0. destruct xs as [|x xs]; [done|]. rewrite (proj2 (Z.eqb_neq _ 0)); [done|].
  simpl in *. destruct (last_or_in x.1 xs) as [E|Hin]; intros E0; apply H0, elem_of_cons; [left; congruence|right; by rewrite <- E0].
Qed.

Lemma if_first_or {A} xs (v w : A) :
  (0 : Z) ∉ xs.*1 -> (if first_or 0 xs =? 0 then v else w) = match xs with [] => v | _ => w end.
Proof.
  intros H0. destruct xs as [|x xs]; [done|]. rewrite (proj2 (Z.eqb_neq _ 0)); [done|].
  simpl in *. intros E0. apply H0, elem_of_cons. by left.
Qed.

(** *** Relinking a chain *)

(** The end of a chain, towards its successor. *)
Lemma chain_snoc_next m l a xs b b' q (Hq : q = last_or 0 xs) :
  NoDup (xs.*1) -> chain m l a xs b -> chain (if q =? 0 then m else alter (set_next b') q m) l a xs b'.
Proof.
  subst q. destruct xs as [|x xs _] using rev_ind; [done|]. intros Hnd Hc.
  rewrite last_or_app in *. simpl in *. rewrite fmap_app, NoDup_app in Hnd. destruct Hnd as (_ & Hdis & _).
  apply chain_app in Hc as [Hc1 (Hx & Hm & _)]. simpl in *. rewrite (proj2 (Z.eqb_neq _ 0)) by done.
  apply chain_app. simpl. split; [|split_and!; [done| |done]].
  - eapply chain_agree; [|exact Hc1]. intros p Hp. apply lookup_alter_ne. intros <-.
    eapply Hdis; [exact Hp|]. by apply list_elem_of_singleton.
  - by rewrite lookup_alter_eq, Hm.
Qed.

(** The start of a chain, towards its predecessor. *)
Lemma chain_cons_prev m l a a' xs b q (Hq : q = first_or 0 xs) :
  NoDup (xs.*1) -> chain m l a xs b -> chain (if q =? 0 then m else alter (set_prev a') q m) l a' xs b.
Proof.
  subst q. destruct xs as [|x xs]; [done|]. intros Hnd (Hx & Hm & Hc). cbn [first_or].
  rewrite fmap_cons, NoDup_cons in Hnd. destruct Hnd as [Hnin _].
  rewrite (proj2 (Z.eqb_neq _ 0)) by done. split_and!; [done| |].
  - by rewrite lookup_alter_eq, Hm.
  - eapply chain_agree; [|exact Hc]. intros p Hp. apply lookup_alter_ne. by intros <-.
Qed.

(** *** Linking an element in, and out *)

(** Link [p] in between [a] and [b] (either may be NULL). *)
Definition link (l a p d b : Z) (h : heap) : heap :=
  let m := <[p := Le a b l d]> (h_le h) in
  let m := if a =? 0 then m else alter (set_next p) a m in
  let m := if b =? 0 then m else alter (set_prev p) b m in
  Heap m (alter (fun s => Lst (if a =? 0 then p else l_head s) (if b =? 0 then p else l_tail s)
                            (u64 (l_cnt s + 1))) l (h_list h)).

Lemma alter_if_ne (c : bool) f (q p : Z) (m : gmap Z le) : q <> p -> (if c then m else alter f q m) !! p = m !! p.
Proof. intros. destruct c; [done|]. by rewrite lookup_alter_ne. Qed.

Lemma nodup_parts (xs ys : list (Z * Z)) :
  NoDup ((xs ++ ys).*1) -> NoDup (xs.*1) /\ NoDup (ys.*1) /\ forall p, p ∈ xs.*1 -> p ∉ ys.*1.
Proof. rewrite fmap_app, NoDup_app. tauto. Qed.

Lemma chain_not_null m l a xs b : chain m l a xs b -> (0 : Z) ∉ xs.*1.
Proof. intros Hc Hin. by destruct (chain_member _ _ _ _ _ _ Hc Hin). Qed.

Lemma link_repr h l xs ys p d :
  repr h l (xs ++ ys) -> p <> 0 -> p ∉ (xs ++ ys).*1 -> zlength (xs ++ ys) + 1 < 2 ^ 32 ->
  repr (link l (last_or 0 xs) p d (first_or 0 ys) h) l (xs ++ (p, d) :: ys).
Proof.
  intros [Hl Hnd Hc HL Hcnt] Hp Hfresh Hcnt'. destruct (nodup_parts _ _ Hnd) as (Hx & Hy & Hxy).
  rewrite fmap_app, not_elem_of_app in Hfresh. destruct Hfresh as [Hpx Hpy].
  apply chain_app in Hc as [Hcx Hcy].
  pose proof (chain_not_null _ _ _ _ _ Hcx) as H0x. pose proof (chain_not_null _ _ _ _ _ Hcy) as H0y.
  assert (Ha : last_or 0 xs <> p) by (destruct (last_or_in 0 xs) as [->|Hin]; [done|by intros <-]).
  assert (Hb : first_or 0 ys <> p) by (destruct (first_or_in 0 ys) as [->|Hin]; [done|by intros <-]).
  split; [done| | | |].
  - rewrite fmap_app, fmap_cons. apply NoDup_app. split_and!; [done| |].
    + intros q Hq [->|Hq']%elem_of_cons; [done|]. by eapply Hxy.
    + by apply NoDup_cons.
  - unfold link. cbn [h_le]. set (m1 := <[p:=_]> (h_le h)).
    assert (Hm1 : forall zs a b, p ∉ zs.*1 -> chain (h_le h) l a zs b -> chain m1 l a zs b).
    { intros zs a b Hz. apply chain_agree. intros q Hq. apply lookup_insert_ne. by intros ->. }
    apply chain_app. cbn [first_or fst]. split; [|split_and!; [done| |]].
    + eapply chain_agree; [|eapply (chain_snoc_next m1 l 0 xs _ p); [done|done|by apply Hm1]].
      intros q Hq. apply alter_if_ne. destruct (first_or_in 0 ys) as [->|Hin].
      * by intros <-.
      * intros <-. by eapply Hxy.
    + rewrite !alter_if_ne by done. unfold m1. by rewrite lookup_insert_eq.
    + eapply chain_cons_prev; [done|done|]. eapply chain_agree; [|apply Hm1; [done|exact Hcy]].
      intros q Hq. apply alter_if_ne. destruct (last_or_in 0 xs) as [->|Hin]; [by intros <-|].
      intros <-. by eapply Hxy.
  - unfold link. cbn [h_list]. rewrite lookup_alter_eq, HL. simpl. f_equal. f_equal.
    + rewrite if_last_or, first_or_app by done. by destruct xs.
    + rewrite if_first_or, !last_or_app by done. by destruct ys.
    + pose proof (zlength_nonneg (xs ++ ys)). rewrite wrap_small by lia. rewrite !zlength_app, zlength_cons. lia.
  - rewrite !zlength_app, zlength_cons in *. lia.
Qed.

(** Other lists do not notice. *)
Lemma link_other h l l' a p d b ys :
  repr h l' ys -> l' <> l -> p ∉ ys.*1 -> a ∉ ys.*1 -> b ∉ ys.*1 -> repr (link l a p d b h) l' ys.
Proof.
  intros [Hl Hnd Hc HL Hcnt] Hne Hp Ha Hb. split; try done.
  - eapply chain_agree; [|exact Hc]. intros q Hq. unfold link. cbn [h_le].
    rewrite !alter_if_ne, lookup_insert_ne by (by intros <-). done.
  - unfold link. cbn [h_list]. by rewrite lookup_alter_ne.
Qed.

(** The reverse of [link]: [a] and [b] become neighbours. *)
Definition unlink (l a p b : Z) (h : heap) : heap :=
  let m := if a =? 0 then h_le h else alter (set_next b) a (h_le h) in
  let m := if b =? 0 then m else alter (set_prev a) b m in
  Heap (alter (fun e => Le 0 0 0 (le_data e)) p m)
    (alter (fun s => dec_cnt (Lst (if a =? 0 then b else l_head s) (if b =? 0 then a else l_tail s) (l_cnt s))) l (h_list h)).

Lemma unlink_repr h l xs ys p d :
  repr h l (xs ++ (p, d) :: ys) ->
  repr (unlink l (last_or 0 xs) p (first_or 0 ys) h) l (xs ++ ys)
  /\ h_le (unlink l (last_or 0 xs) p (first_or 0 ys) h) !! p = Some (Le 0 0 0 d).
Proof.
  intros [Hl Hnd Hc HL Hcnt]. destruct (nodup_parts _ _ Hnd) as (Hx & Hpy & Hxp).
  rewrite fmap_cons in Hpy, Hxp. apply NoDup_cons in Hpy as [Hpy Hy].
  assert (Hpx : p ∉ xs.*1) by (intros Hin; apply (Hxp p Hin), elem_of_cons; by left).
  assert (Hxy : forall q, q ∈ xs.*1 -> q ∉ ys.*1) by (intros q Hq Hq'; apply (Hxp q Hq), elem_of_cons; by right).
  apply chain_app in Hc as [Hcx (Hp & Hm & Hcy)]. cbn [fst snd first_or] in *.
  pose proof (chain_not_null _ _ _ _ _ Hcx) as H0x. pose proof (chain_not_null _ _ _ _ _ Hcy) as H0y.
  assert (Ha : last_or 0 xs <> p) by (destruct (last_or_in 0 xs) as [->|Hin]; [done|by intros <-]).
  assert (Hb : first_or 0 ys <> p) by (destruct (first_or_in 0 ys) as [->|Hin]; [done|by intros <-]).
  split; [split; [done| | | |]|].
  - rewrite fmap_app. apply NoDup_app. by split_and!.
  - unfold unlink. cbn [h_le].
    assert (Hrm : forall (m : gmap Z le) f zs a b, p ∉ zs.*1 -> chain m l a zs b -> chain (alter f p m) l a zs b).
    { intros m f zs a b Hz. apply chain_agree. intros q Hq. apply lookup_alter_ne. by intros <-. }
    apply chain_app. split; apply Hrm; try done.
    + eapply chain_agree; [|eapply (chain_snoc_next (h_le h) l 0 xs _ (first_or 0 ys)); [done|done|exact Hcx]].
      intros q Hq. apply alter_if_ne. destruct (first_or_in 0 ys) as [->|Hin]; [by intros <-|].
      intros <-. by eapply Hxy.
    + eapply chain_cons_prev; [done|done|]. eapply chain_agree; [|exact Hcy].
      intros q Hq. apply alter_if_ne. destruct (last_or_in 0 xs) as [->|Hin]; [by intros <-|].
      intros <-. by eapply Hxy.
  - unfold unlink. cbn [h_list]. rewrite lookup_alter_eq, HL. simpl. rewrite !zlength_app, zlength_cons in *.
    pose proof (zlength_nonneg xs). pose proof (zlength_nonneg ys). unfold dec_cnt. cbn [l_cnt l_head l_tail].
    rewrite (proj2 (Z.eqb_neq (zlength xs + (1 + zlength ys)) 0)) by lia. f_equal. f_equal; [| |lia].
    + rewrite if_last_or, !first_or_app by done. by destruct xs.
    + rewrite if_first_or, !last_or_app by done. by destruct ys.
  - rewrite !zlength_app, zlength_cons in *. lia.
  - unfold unlink. cbn [h_le]. rewrite lookup_alter_eq, !alter_if_ne, Hm by done. done.
Qed.

(** *** The operations are [link] and [unlink] *)

Lemma alter_const (m : gmap Z le) p e v : m !! p = Some e -> alter (fun _ => v) p m = <[p := v]> m.
Proof.
  intros He. apply map_eq. intros q. destruct (decide (q = p)) as [->|Hne].
  - by rewrite lookup_alter_eq, lookup_insert_eq, He.
  - by rewrite lookup_alter_ne, lookup_insert_ne by done.
Qed.

Lemma repr_list_at h l xs : repr h l xs -> list_at h l = Lst (first_or 0 xs) (last_or 0 xs) (zlength xs).
Proof. intros [_ _ _ HL _]. unfold list_at. by rewrite HL. Qed.

Lemma repr_not_null h l xs : repr h l xs -> (0 : Z) ∉ xs.*1.
Proof. intros [_ _ Hc _ _]. by eapply chain_not_null. Qed.

(** The guards of the insertions let an unlinked element through. *)
Lemma unlinked_guards h l xs p :
  repr h l xs -> unlinked h p -> (l =? 0) = false /\ (p =? 0) = false /\ (le_list (le_at h p) =? 0) = true.
Proof.
  intros Hr (Hp & e & He & Hl). split_and!; [apply Z.eqb_neq; apply Hr|by apply Z.eqb_neq|].
  unfold le_at. rewrite He. by apply Z.eqb_eq.
Qed.

Lemma list_at_upd h l f : is_Some (h_list h !! l) -> list_at (upd_list l f h) l = f (list_at h l).
Proof. intros [s Hs]. unfold list_at, upd_list. cbn. by rewrite lookup_alter_eq, Hs. Qed.

Lemma le_at_upd_ne h p q f : q <> p -> le_at (upd_le q f h) p = le_at h p.
Proof. intros Hne. unfold le_at, upd_le. cbn. by rewrite lookup_alter_ne. Qed.

(** Several updates of one list structure are one. *)
Lemma alter_fields (m : gmap Z lst) l f g : (forall s, f s = g s) -> alter f l m = alter g l m.
Proof. intros Hfg. apply alter_ext. auto. Qed.

Lemma list_append_link h l xs p d :
  repr h l xs -> unlinked h p -> list_append l p d h = link l (last_or 0 xs) p d 0 h.
Proof.
  intros Hr Hu. destruct (unlinked_guards _ _ _ _ Hr Hu) as (Gl & Gp & Gu). destruct Hu as (Hp & e & He & _).
  pose proof (repr_not_null _ _ _ Hr) as H0. pose proof (repr_list _ _ _ Hr) as HL.
  unfold list_append. rewrite Gl, Gp, Gu. cbn [orb negb]. unfold when, link. rewrite <- (alter_const _ _ _ _ He).
  change (list_at (upd_le p ?f h) l) with (list_at h l). rewrite (repr_list_at _ _ _ Hr). cbn [l_head l_tail Z.eqb].
  rewrite !if_last_or, if_first_or by done. destruct xs as [|x xs].
  - rewrite list_at_upd by (by eexists). change (list_at (upd_le p ?f h) l) with (list_at h l).
    rewrite (repr_list_at _ _ _ Hr). cbn. unfold upd_list, upd_le. cbn. f_equal.
    rewrite !alter_alter_eq. by apply alter_fields.
  - change (list_at (upd_le p ?f h) l) with (list_at h l). rewrite (repr_list_at _ _ _ Hr). cbn [l_tail].
    rewrite if_last_or by done. unfold upd_list, upd_le. cbn [h_le h_list]. f_equal.
    rewrite !alter_alter_eq. apply alter_fields. intros s. by rewrite if_last_or.
Qed.

Lemma list_prepend_link h l xs p d :
  repr h l xs -> unlinked h p -> list_prepend l p d h = link l 0 p d (first_or 0 xs) h.
Proof.
  intros Hr Hu. destruct (unlinked_guards _ _ _ _ Hr Hu) as (Gl & Gp & Gu). destruct Hu as (Hp & e & He & _).
  pose proof (repr_not_null _ _ _ Hr) as H0. unfold list_prepend. rewrite Gl, Gp, Gu. cbn [orb negb].
  unfold when, link. rewrite <- (alter_const _ _ _ _ He).
  change (list_at (upd_le p ?f h) l) with (list_at h l). rewrite (repr_list_at _ _ _ Hr). cbn [l_head l_tail Z.eqb].
  rewrite !if_first_or by done. destruct xs as [|x xs];
    change (list_at (upd_le ?q ?g (upd_le p ?f h)) l) with (list_at h l);
    change (list_at (upd_le p ?f h) l) with (list_at h l); rewrite (repr_list_at _ _ _ Hr); cbn [l_tail].
  - cbn. unfold upd_list, upd_le. cbn. f_equal. rewrite !alter_alter_eq. by apply alter_fields.
  - rewrite if_last_or by done. unfold upd_list, upd_le. cbn [h_le h_list]. f_equal.
    rewrite alter_alter_eq. apply alter_fields. intros s. by rewrite if_first_or.
Qed.

(** The fields of a member. *)
Lemma repr_at h l xs q dq ys :
  repr h l (xs ++ (q, dq) :: ys) -> q <> 0 /\ h_le h !! q = Some (Le (last_or 0 xs) (first_or 0 ys) l dq).
Proof. intros [_ _ Hc _ _]. apply chain_app in Hc as [_ (Hq & Hm & _)]. done. Qed.

Lemma repr_neighbours h l xs q dq ys :
  repr h l (xs ++ (q, dq) :: ys) ->
  ((0 : Z) ∉ xs.*1) /\ ((0 : Z) ∉ ys.*1) /\ last_or 0 xs <> q /\ first_or 0 ys <> q
  /\ (last_or 0 xs <> 0 -> last_or 0 xs <> first_or 0 ys).
Proof.
  intros [Hl Hnd Hc HL Hcnt]. destruct (nodup_parts _ _ Hnd) as (Hx & Hqy & Hxq).
  rewrite fmap_cons in Hqy, Hxq. apply NoDup_cons in Hqy as [Hqy Hy]. cbn [fst] in *.
  apply chain_app in Hc as [Hcx (Hq & Hm & Hcy)]. cbn [fst] in *.
  split_and!; try by eapply chain_not_null.
  - destruct (last_or_in 0 xs) as [->|Hin]; [done|]. intros E. apply (Hxq _ Hin), elem_of_cons. by left.
  - destruct (first_or_in 0 ys) as [->|Hin]; [done|]. by intros <-.
  - intros H0 E. destruct (last_or_in 0 xs) as [?|Hin]; [done|]. destruct (first_or_in 0 ys) as [E0|Hin'].
    + by rewrite E in *.
    + rewrite E in Hin. apply (Hxq _ Hin), elem_of_cons. by right.
Qed.

Lemma list_insert_after_link h l xs q dq ys p d :
  repr h l (xs ++ (q, dq) :: ys) -> unlinked h p ->
  list_insert_after l q p d h = link l q p d (first_or 0 ys) h.
Proof.
  intros Hr Hu. destruct (unlinked_guards _ _ _ _ Hr Hu) as (Gl & Gp & Gu).
  pose proof (unlinked_fresh _ _ _ _ Hr Hu) as Hfr. destruct Hu as (Hp & e & He & _).
  destruct (repr_at _ _ _ _ _ _ Hr) as [Hq Eq]. destruct (repr_neighbours _ _ _ _ _ _ Hr) as (_ & H0 & _ & Hn & _).
  rewrite fmap_app, fmap_cons, not_elem_of_app, not_elem_of_cons in Hfr. destruct Hfr as (_ & Hqp & Hfy). cbn [fst] in Hqp.
  assert (Hbp : first_or 0 ys <> p) by (destruct (first_or_in 0 ys) as [->|Hin]; [done|by intros <-]).
  assert (Gq : (q =? 0) = false) by by apply Z.eqb_neq.
  assert (Ea : le_at h q = Le (last_or 0 xs) (first_or 0 ys) l dq) by (unfold le_at; by rewrite Eq).
  assert (Gf : negb (first_or 0 ys =? 0) = match ys with [] => false | _ => true end)
    by (pose proof (if_first_or ys false true H0); destruct (first_or 0 ys =? 0); done).
  unfold list_insert_after, link. rewrite Gl, Gp, Gu, Gq, Ea. cbn [orb negb le_next]. rewrite <- (alter_const _ _ _ _ He).
  rewrite Gf, !if_first_or by done. destruct ys as [|y ys].
  - rewrite (repr_list_at _ _ _ Hr), last_or_app. cbn [l_tail last_or fst]. rewrite Z.eqb_refl.
    change (le_at (upd_list ?a ?b h) q) with (le_at h q). rewrite Ea. cbn [le_next].
    unfold upd_list, upd_le. cbn [h_le h_list]. f_equal.
    rewrite alter_alter_eq. by apply alter_fields.
  - rewrite le_at_upd_ne, Ea by done. cbn [le_next].
    unfold upd_list, upd_le. cbn [h_le h_list]. f_equal.
    + rewrite (alter_alter_ne _ _ _ p (first_or 0 (y :: ys))) by congruence. by rewrite alter_alter_ne by congruence.
    + apply alter_fields. intros s. by rewrite if_first_or.
Qed.

Lemma list_insert_before_link h l xs q dq ys p d :
  repr h l (xs ++ (q, dq) :: ys) -> unlinked h p ->
  list_insert_before l q p d h = link l (last_or 0 xs) p d q h.
Proof.
  intros Hr Hu. destruct (unlinked_guards _ _ _ _ Hr Hu) as (Gl & Gp & Gu).
  pose proof (unlinked_fresh _ _ _ _ Hr Hu) as Hfr. destruct Hu as (Hp & e & He & _).
  destruct (repr_at _ _ _ _ _ _ Hr) as [Hq Eq]. destruct (repr_neighbours _ _ _ _ _ _ Hr) as (H0 & _ & Hn & _ & _).
  rewrite fmap_app, fmap_cons, not_elem_of_app, not_elem_of_cons in Hfr. destruct Hfr as (Hfx & Hqp & _). cbn [fst] in Hqp.
  assert (Hap : last_or 0 xs <> p) by (destruct (last_or_in 0 xs) as [->|Hin]; [done|by intros <-]).
  assert (Gq : (q =? 0) = false) by by apply Z.eqb_neq.
  assert (Ea : le_at h q = Le (last_or 0 xs) (first_or 0 ys) l dq) by (unfold le_at; by rewrite Eq).
  unfold list_insert_before, link. rewrite Gl, Gp, Gu, Gq, Ea. cbn [orb negb le_prev]. rewrite <- (alter_const _ _ _ _ He).
  assert (Gn : negb (last_or 0 xs =? 0) = match xs with [] => false | _ => true end)
    by (pose proof (if_last_or xs false true H0); destruct (last_or 0 xs =? 0); done).
  rewrite Gn, !if_last_or by done. destruct xs as [|x xs].
  - rewrite (repr_list_at _ _ _ Hr). cbn [l_head first_or fst app]. rewrite Z.eqb_refl.
    change (le_at (upd_list ?a ?b h) q) with (le_at h q). rewrite Ea. cbn [le_prev].
    unfold upd_list, upd_le. cbn [h_le h_list]. f_equal.
    rewrite alter_alter_eq. by apply alter_fields.
  - rewrite le_at_upd_ne, Ea by done. cbn [le_prev].
    unfold upd_list, upd_le. cbn [h_le h_list]. f_equal.
    + by rewrite (alter_alter_ne _ _ _ p (last_or 0 (x :: xs))) by congruence.
    + apply alter_fields. intros s. by rewrite if_last_or.
Qed.

Lemma list_unlink_unlink h l xs p d ys :
  repr h l (xs ++ (p, d) :: ys) -> list_unlink p h = unlink l (last_or 0 xs) p (first_or 0 ys) h.
Proof.
  intros Hr. destruct (repr_at _ _ _ _ _ _ Hr) as [Hp Ep].
  destruct (repr_neighbours _ _ _ _ _ _ Hr) as (H0x & H0y & Hap & Hbp & Hab).
  assert (Gp : (p =? 0) = false) by by apply Z.eqb_neq. assert (Gl : (l =? 0) = false) by (apply Z.eqb_neq; apply Hr).
  assert (Gn : negb (last_or 0 xs =? 0) = match xs with [] => false | _ => true end)
    by (pose proof (if_last_or xs false true H0x); destruct (last_or 0 xs =? 0); done).
  assert (Gf : negb (first_or 0 ys =? 0) = match ys with [] => false | _ => true end)
    by (pose proof (if_first_or ys false true H0y); destruct (first_or 0 ys =? 0); done).
  assert (Ea : le_at h p = Le (last_or 0 xs) (first_or 0 ys) l d) by (unfold le_at; by rewrite Ep).
  unfold list_unlink, unlink. rewrite Gp, Ea. cbn [le_list le_prev le_next orb]. rewrite Gl, Gn, !if_last_or, !if_first_or by done.
  destruct xs as [|x xs], ys as [|y ys];
    repeat first [ progress change (le_at (upd_list ?a ?b ?h') p) with (le_at h' p)
                 | rewrite le_at_upd_ne by done | rewrite Ea | rewrite Gf | progress cbn [le_list le_prev le_next] ];
    unfold upd_list, upd_le; cbn [h_le h_list]; f_equal;
    rewrite ?alter_alter_eq; apply alter_fields; intros []; cbn [compose];
    by rewrite ?if_last_or, ?if_first_or.
Qed.
