(* ===== verification/ListSpec.v ===== *)
(** * Linked lists: refinement and sorting

    [world h S] says that a store holds exactly the lists [S] (a map from list
    addresses to sequences of elements).  Every operation of list.c refines an
    operation on [S] ([lspec]), for any number of lists at once; sorted
    insertion and sorting are compared with their definitions on sequences. *)

From Stdlib Require Import ZArith Lia Sorted Permutation.
From stdpp Require Import base numbers list gmap sorting.
From S2P Require Import Prelude LinkedList.

Open Scope Z_scope.

Abbreviation lists := (gmap Z (list (Z * Z))).

Record world (h : heap) (S : lists) : Prop := {
  w_repr : forall l xs, S !! l = Some xs -> repr h l xs;
  w_le : forall p e, h_le h !! p = Some e ->
    le_list e = 0 \/ exists xs, S !! le_list e = Some xs /\ p ∈ xs.*1;
}.

(** An element is in some list of the world. *)
Definition linked (S : lists) (p : Z) : Prop := exists l xs, S !! l = Some xs /\ p ∈ xs.*1.

Lemma world_unlinked h S p : world h S -> p <> 0 -> is_Some (h_le h !! p) -> ~ linked S p -> unlinked h p.
Proof.
  intros Hw Hp [e He] Hnl. split; [done|]. exists e. split; [done|].
  destruct (w_le _ _ Hw _ _ He) as [?|(xs & HS & Hin)]; [done|]. destruct Hnl. by exists (le_list e), xs.
Qed.

Lemma world_linked_le h S p : world h S -> linked S p -> p <> 0 /\ le_list (le_at h p) <> 0.
Proof.
  intros Hw (l & xs & HS & Hin). pose proof (w_repr _ _ Hw _ _ HS) as Hr.
  destruct (repr_member _ _ _ _ Hr Hin) as (Hp & e & He & Hl). split; [done|]. unfold le_at. rewrite He. simpl.
  rewrite Hl. apply Hr.
Qed.

(** An element is in at most one list. *)
Lemma world_disjoint h S l l' xs ys p :
  world h S -> S !! l = Some xs -> S !! l' = Some ys -> p ∈ xs.*1 -> p ∈ ys.*1 -> l = l'.
Proof.
  intros Hw Hx Hy Hpx Hpy. destruct (repr_member _ _ _ _ (w_repr _ _ Hw _ _ Hx) Hpx) as (_ & e & He & <-).
  destruct (repr_member _ _ _ _ (w_repr _ _ Hw _ _ Hy) Hpy) as (_ & e' & He' & <-). congruence.
Qed.

Lemma not_linked_not_in (S : lists) p l xs : ~ linked S p -> S !! l = Some xs -> p ∉ xs.*1.
Proof. intros Hn HS Hin. destruct Hn. by exists l, xs. Qed.

(** Neighbours inside a list do not occur in another one. *)
Lemma world_last_or h S l l' xs ys zs :
  world h S -> S !! l = Some (xs ++ ys) -> S !! l' = Some zs -> l' <> l -> last_or 0 xs ∉ zs.*1.
Proof.
  intros Hw HS HS' Hne. destruct (last_or_in 0 xs) as [->|Hin].
  - exact (repr_not_null _ _ _ (w_repr _ _ Hw _ _ HS')).
  - intros Hin'. apply Hne. symmetry. eapply world_disjoint; eauto. rewrite fmap_app. apply elem_of_app. by left.
Qed.

Lemma world_first_or h S l l' xs ys zs :
  world h S -> S !! l = Some (xs ++ ys) -> S !! l' = Some zs -> l' <> l -> first_or 0 ys ∉ zs.*1.
Proof.
  intros Hw HS HS' Hne. destruct (first_or_in 0 ys) as [->|Hin].
  - exact (repr_not_null _ _ _ (w_repr _ _ Hw _ _ HS')).
  - intros Hin'. apply Hne. symmetry. eapply world_disjoint; eauto. rewrite fmap_app. apply elem_of_app. by right.
Qed.

Lemma alter_list_id (m : gmap Z le) q (f : le -> le) p e (c : bool) :
  (forall x, le_list (f x) = le_list x) -> (if c then m else alter f q m) !! p = Some e ->
  exists e', m !! p = Some e' /\ le_list e' = le_list e.
Proof.
  intros Hf. destruct c; [by eauto|]. intros He. destruct (decide (q = p)) as [->|Hne].
  - rewrite lookup_alter_eq in He. destruct (m !! p) as [x|]; [|done]. injection He as <-. eauto.
  - rewrite lookup_alter_ne in He by done. eauto.
Qed.

(** Linking a fresh element in. *)
Lemma link_world h S l xs ys p d :
  world h S -> S !! l = Some (xs ++ ys) -> p <> 0 -> ~ linked S p -> zlength (xs ++ ys) + 1 < 2 ^ 32 ->
  world (link l (last_or 0 xs) p d (first_or 0 ys) h) (<[l := xs ++ (p, d) :: ys]> S).
Proof.
  intros Hw HS Hp Hnl Hcnt. pose proof (w_repr _ _ Hw _ _ HS) as Hr. split.
  - intros l' zs. destruct (decide (l' = l)) as [->|Hne].
    + rewrite lookup_insert_eq. intros [= <-]. apply link_repr; try done. by eapply not_linked_not_in.
    + rewrite lookup_insert_ne by congruence. intros HS'. apply link_other; [by apply Hw|done|..].
      * by eapply not_linked_not_in.
      * by eapply world_last_or.
      * by eapply world_first_or.
  - intros q e. unfold link. cbn [h_le]. intros He.
    apply alter_list_id in He as (e1 & He1 & E1); [|done]. apply alter_list_id in He1 as (e2 & He2 & E2); [|done].
    rewrite <- E1, <- E2. destruct (decide (p = q)) as [->|Hpq].
    + rewrite lookup_insert_eq in He2. injection He2 as <-. right. cbn [le_list]. eexists.
      split; [by rewrite lookup_insert_eq|]. rewrite fmap_app, fmap_cons. apply elem_of_app. right. apply elem_of_cons. by left.
    + rewrite lookup_insert_ne in He2 by done. destruct (w_le _ _ Hw _ _ He2) as [?|(zs & HS' & Hin)]; [by left|right].
      destruct (decide (l = le_list e2)) as [Hl|Hl].
      * rewrite <- Hl in *. eexists. split; [by rewrite lookup_insert_eq|]. rewrite HS in HS'. injection HS' as <-.
        rewrite fmap_app in *. rewrite fmap_cons. apply elem_of_app. apply elem_of_app in Hin as [?|?]; [by left|].
        right. apply elem_of_cons. by right.
      * exists zs. by rewrite lookup_insert_ne.
Qed.

Lemma unlink_other h l l' a p b ys :
  repr h l' ys -> l' <> l -> p ∉ ys.*1 -> a ∉ ys.*1 -> b ∉ ys.*1 -> repr (unlink l a p b h) l' ys.
Proof.
  intros [Hl Hnd Hc HL Hcnt] Hne Hp Ha Hb. split; try done.
  - eapply chain_agree; [|exact Hc]. intros q Hq. unfold unlink. cbn [h_le].
    rewrite lookup_alter_ne, !alter_if_ne by (by intros <-). done.
  - unfold unlink. cbn [h_list]. by rewrite lookup_alter_ne.
Qed.

Lemma unlink_world h S l xs ys p d :
  world h S -> S !! l = Some (xs ++ (p, d) :: ys) ->
  world (unlink l (last_or 0 xs) p (first_or 0 ys) h) (<[l := xs ++ ys]> S).
Proof.
  intros Hw HS. pose proof (w_repr _ _ Hw _ _ HS) as Hr. destruct (unlink_repr _ _ _ _ _ _ Hr) as [Hr' Hp'].
  assert (Hpin : p ∈ (xs ++ (p, d) :: ys).*1).
  { rewrite fmap_app, fmap_cons. apply elem_of_app. right. apply elem_of_cons. by left. }
  split.
  - intros l' zs. destruct (decide (l' = l)) as [->|Hne].
    + rewrite lookup_insert_eq. by intros [= <-].
    + rewrite lookup_insert_ne by congruence. intros HS'. apply unlink_other; [by apply Hw|done|..].
      * intros Hin. apply Hne. symmetry. by eapply (world_disjoint h S l l').
      * by eapply world_last_or.
      * eapply (world_first_or h S l l' (xs ++ [(p, d)]) ys); eauto. by rewrite <- app_assoc.
  - intros q e He. destruct (decide (p = q)) as [->|Hpq]; [rewrite Hp' in He; injection He as <-; by left|].
    unfold unlink in He. cbn [h_le] in He. rewrite lookup_alter_ne in He by done.
    apply alter_list_id in He as (e1 & He1 & E1); [|done]. apply alter_list_id in He1 as (e2 & He2 & E2); [|done].
    rewrite <- E1, <- E2. destruct (w_le _ _ Hw _ _ He2) as [?|(zs & HS' & Hin)]; [by left|right].
    destruct (decide (l = le_list e2)) as [Hl|Hl].
    + rewrite <- Hl in *. eexists. split; [by rewrite lookup_insert_eq|]. rewrite HS in HS'. injection HS' as <-.
      rewrite fmap_app, fmap_cons in Hin. rewrite fmap_app. apply elem_of_app.
      apply elem_of_app in Hin as [?|[->|?]%elem_of_cons]; [by left|done|by right].
    + exists zs. by rewrite lookup_insert_ne.
Qed.

(** ** Clients *)

Inductive lop :=
  | Append (l p d : Z)
  | Prepend (l p d : Z)
  | InsertBefore (l q p d : Z)
  | InsertAfter (l q p d : Z)
  | Unlink (p : Z)
  | Move (p l : Z).

Definition lrun (op : lop) : heap -> heap :=
  match op with
  | Append l p d => list_append l p d
  | Prepend l p d => list_prepend l p d
  | InsertBefore l q p d => list_insert_before l q p d
  | InsertAfter l q p d => list_insert_after l q p d
  | Unlink p => list_unlink p
  | Move p l => list_move p l
  end.

(** The element an operation is about. *)
Definition subject (op : lop) : Z :=
  match op with
  | Append _ p _ | Prepend _ p _ | InsertBefore _ _ p _ | InsertAfter _ _ p _ | Unlink p | Move p _ => p
  end.

(** What each operation means for the sequences; inserting an element that is
    already in a list does nothing. *)
Inductive lspec (S : lists) : lop -> lists -> Prop :=
  | spec_append l p d xs :
      S !! l = Some xs -> ~ linked S p -> zlength xs + 1 < 2 ^ 32 ->
      lspec S (Append l p d) (<[l := xs ++ [(p, d)]]> S)
  | spec_prepend l p d xs :
      S !! l = Some xs -> ~ linked S p -> zlength xs + 1 < 2 ^ 32 ->
      lspec S (Prepend l p d) (<[l := (p, d) :: xs]> S)
  | spec_before l q dq p d xs ys :
      S !! l = Some (xs ++ (q, dq) :: ys) -> ~ linked S p -> zlength (xs ++ (q, dq) :: ys) + 1 < 2 ^ 32 ->
      lspec S (InsertBefore l q p d) (<[l := xs ++ (p, d) :: (q, dq) :: ys]> S)
  | spec_after l q dq p d xs ys :
      S !! l = Some (xs ++ (q, dq) :: ys) -> ~ linked S p -> zlength (xs ++ (q, dq) :: ys) + 1 < 2 ^ 32 ->
      lspec S (InsertAfter l q p d) (<[l := xs ++ (q, dq) :: (p, d) :: ys]> S)
  | spec_again op :
      linked S (subject op) -> match op with Unlink _ | Move _ _ => False | _ => True end -> lspec S op S
  | spec_unlink l p d xs ys :
      S !! l = Some (xs ++ (p, d) :: ys) -> lspec S (Unlink p) (<[l := xs ++ ys]> S)
  | spec_unlink_none p : ~ linked S p -> lspec S (Unlink p) S
  | spec_move l p d xs ys l' zs :
      S !! l = Some (xs ++ (p, d) :: ys) -> <[l := xs ++ ys]> S !! l' = Some zs -> zlength zs + 1 < 2 ^ 32 ->
      lspec S (Move p l') (<[l' := zs ++ [(p, d)]]> (<[l := xs ++ ys]> S)).

Inductive ltrace : lists -> list lop -> lists -> Prop :=
  | ltrace_nil S : ltrace S [] S
  | ltrace_cons S op S' ops S'' : lspec S op S' -> ltrace S' ops S'' -> ltrace S (op :: ops) S''.

(** The store keeps its elements. *)
Lemma upd_le_dom p f h : dom (h_le (upd_le p f h)) = dom (h_le h).
Proof. apply dom_alter_L. Qed.

Lemma lrun_dom op h : dom (h_le (lrun op h)) = dom (h_le h).
Proof.
  assert (Hu : forall p h, dom (h_le (list_unlink p h)) = dom (h_le h)).
  { intros p h'. unfold list_unlink. repeat case_match; cbn; rewrite ?dom_alter_L; done. }
  assert (Ha : forall l p d h, dom (h_le (list_append l p d h)) = dom (h_le h)).
  { intros l p d h'. unfold list_append, when. repeat case_match; cbn; rewrite ?dom_alter_L; done. }
  destruct op; cbn [lrun]; auto.
  - unfold list_prepend, when. repeat case_match; cbn; rewrite ?dom_alter_L; done.
  - unfold list_insert_before. repeat case_match; cbn; rewrite ?dom_alter_L; done.
  - unfold list_insert_after. repeat case_match; cbn; rewrite ?dom_alter_L; done.
  - unfold list_move. by rewrite Ha, Hu.
Qed.

Lemma list_unlink_world h S l xs ys p d :
  world h S -> S !! l = Some (xs ++ (p, d) :: ys) ->
  world (list_unlink p h) (<[l := xs ++ ys]> S) /\ unlinked (list_unlink p h) p /\ le_data (le_at (list_unlink p h) p) = d.
Proof.
  intros Hw HS. pose proof (w_repr _ _ Hw _ _ HS) as Hr. rewrite (list_unlink_unlink _ _ _ _ _ _ Hr).
  destruct (unlink_repr _ _ _ _ _ _ Hr) as [_ Hp]. destruct (repr_at _ _ _ _ _ _ Hr) as [Hp0 _].
  split_and!; [by eapply unlink_world|split; [done|by eexists]|]. unfold le_at. by rewrite Hp.
Qed.

Lemma unlinked_not_linked h S p : world h S -> unlinked h p -> ~ linked S p.
Proof.
  intros Hw (Hp & e & He & Hl) Hln. apply (world_linked_le h S p Hw) in Hln as [_ Hn].
  apply Hn. unfold le_at. by rewrite He.
Qed.

Lemma list_append_world h S l xs p d :
  world h S -> S !! l = Some xs -> unlinked h p -> zlength xs + 1 < 2 ^ 32 ->
  world (list_append l p d h) (<[l := xs ++ [(p, d)]]> S).
Proof.
  intros Hw HS Hu Hc. rewrite (list_append_link _ _ xs) by (done || by apply Hw).
  rewrite <- (app_nil_r xs) in HS, Hc. apply (link_world h S l xs []); try done; [apply Hu|by eapply unlinked_not_linked].
Qed.

(** The guards stop an insertion of a linked element. *)
Lemma insert_again h op :
  le_list (le_at h (subject op)) <> 0 -> match op with Unlink _ | Move _ _ => False | _ => True end -> lrun op h = h.
Proof.
  intros Hl. destruct op; try done; cbn [lrun subject] in *; intros _;
    unfold list_append, list_prepend, list_insert_before, list_insert_after;
    rewrite (proj2 (Z.eqb_neq (le_list _) 0)) by done; cbn [negb]; by case_match.
Qed.

Lemma lrun_refines h S op S' :
  world h S -> lspec S op S' -> subject op <> 0 -> subject op ∈ dom (h_le h) -> world (lrun op h) S'.
Proof.
  intros Hw Hs Hp Hdom. apply elem_of_dom in Hdom.
  destruct Hs as [l p d xs HS Hn Hc|l p d xs HS Hn Hc|l q dq p d xs ys HS Hn Hc|l q dq p d xs ys HS Hn Hc
    |op Hl Hop|l p d xs ys HS|p Hn|l p d xs ys l' zs HS HS' Hc]; cbn [lrun subject] in *.
  - eapply list_append_world; eauto. by eapply world_unlinked.
  - rewrite (list_prepend_link _ _ xs) by (by apply Hw || by eapply world_unlinked).
    by apply (link_world h S l [] xs).
  - rewrite (list_insert_before_link _ _ xs q dq ys) by (by apply Hw || by eapply world_unlinked).
    by apply (link_world h S l xs ((q, dq) :: ys)).
  - rewrite (list_insert_after_link _ _ xs q dq ys) by (by apply Hw || by eapply world_unlinked).
    pose proof (link_world h S l (xs ++ [(q, dq)]) ys p d Hw) as Hlw.
    rewrite last_or_app, <- !app_assoc in Hlw. by apply Hlw.
  - rewrite insert_again; [done| |done]. by apply (world_linked_le h S).
  - by eapply list_unlink_world.
  - unfold list_unlink. destruct (world_unlinked h S p Hw Hp Hdom Hn) as (_ & e & He & Hl).
    unfold le_at. rewrite He. simpl. rewrite Hl. simpl. by rewrite orb_true_r.
  - unfold list_move. destruct (list_unlink_world _ _ _ _ _ _ _ Hw HS) as (Hw' & Hu & Hd). rewrite Hd.
    by apply list_append_world.
Qed.

(** C4: list.c implements sequences.  Whatever operations a client runs on
    any number of lists (inserting linked elements and unlinking unlinked ones
    included), the store holds exactly the sequences of the abstract run:
    forward and backward links, head, tail and count agree with them, and
    every element points to the list that contains it. *)
Theorem list_refines h S ops S' :
  world h S -> ltrace S ops S' -> Forall (fun op => subject op <> 0 /\ subject op ∈ dom (h_le h)) ops ->
  let h' := foldl (fun h op => lrun op h) h ops in
  world h' S' /\
  forall l xs, S' !! l = Some xs ->
    list_head l h' = first_or 0 xs /\ list_tail l h' = last_or 0 xs /\ list_count l h' = zlength xs
    /\ list_isempty l h' = bool_decide (xs = [])
    /\ forall p, list_contains l p h' = true <-> p ∈ xs.*1.
Proof.
  intros Hw Ht Hops h'. assert (Hw' : world h' S').
  { subst h'. revert h Hw Hops. induction Ht as [S|S op S1 ops S2 Hs Ht IH]; intros h Hw Hops; [done|].
    inversion_clear Hops as [|? ? [Hp Hd] Hops']. cbn [foldl]. apply IH; [by eapply lrun_refines|].
    eapply Forall_impl; [exact Hops'|]. intros op'. by rewrite lrun_dom. }
  split; [done|]. intros l xs HS. pose proof (w_repr _ _ Hw' _ _ HS) as Hr.
  pose proof (repr_null _ _ _ Hr) as Hl. apply Z.eqb_neq in Hl as Gl.
  unfold list_head, list_tail, list_count, list_isempty. rewrite Gl, (repr_list_at _ _ _ Hr). cbn [l_head l_tail l_cnt].
  pose proof (zlength_nonneg xs). pose proof (repr_count _ _ _ Hr). split_and!; [done|done|rewrite wrap_small; [done|lia]| |].
  - pose proof (if_first_or xs true false (repr_not_null _ _ _ Hr)) as Hf. destruct (first_or 0 xs =? 0), xs; done.
  - intros p. unfold list_contains. split.
    + destruct (p =? 0); [done|]. intros Hc%Z.eqb_eq. unfold le_at in Hc.
      destruct (h_le h' !! p) as [e|] eqn:He; [|done]. simpl in Hc.
      destruct (w_le _ _ Hw' _ _ He) as [?|(zs & HS' & Hin)]; [congruence|]. rewrite Hc, HS in HS'. by injection HS' as <-.
    + intros Hin. destruct (repr_member _ _ _ _ Hr Hin) as (Hp & e & He & Hle).
      apply Z.eqb_neq in Hp as ->. unfold le_at. rewrite He. simpl. by apply Z.eqb_eq.
Qed.

(** ** Sorting *)

Section Sort.
Context (sh : Z -> Z -> bool).

(** The order of the sort handler, on elements. *)
Definition ordered (x y : Z * Z) : Prop := sh x.2 y.2 = true.

(** One pass of list_sort over [a :: ys], and whether it moved something. *)
Fixpoint bubble (a : Z * Z) (ys : list (Z * Z)) : list (Z * Z) * bool :=
  match ys with
  | [] => ([a], false)
  | b :: ys =>
      if sh a.2 b.2 then let '(zs, s) := bubble b ys in (a :: zs, s)
      else let '(zs, _) := bubble a ys in (b :: zs, true)
  end.

Lemma world_at h S l xs a ys :
  world h S -> S !! l = Some (xs ++ a :: ys) ->
  a.1 <> 0 /\ le_at h a.1 = Le (last_or 0 xs) (first_or 0 ys) l a.2.
Proof.
  intros Hw HS. destruct a as [q dq]. destruct (repr_at _ _ _ _ _ _ (w_repr _ _ Hw _ _ HS)) as [Hq Eq].
  split; [done|]. unfold le_at. cbn [fst]. by rewrite Eq.
Qed.

Lemma world_swap h S l xs a b ys :
  world h S -> S !! l = Some (xs ++ a :: b :: ys) ->
  world (list_insert_after l b.1 a.1 (le_data (le_at (list_unlink a.1 h) a.1)) (list_unlink a.1 h))
    (<[l := xs ++ b :: a :: ys]> S).
Proof.
  intros Hw HS. destruct a as [p d], b as [q dq]. cbn [fst].
  destruct (list_unlink_world _ _ _ _ _ _ _ Hw HS) as (Hw1 & Hu & Hd). rewrite Hd.
  rewrite <- (insert_insert_eq S l (xs ++ (q, dq) :: (p, d) :: ys) (xs ++ (q, dq) :: ys)).
  eapply (lrun_refines _ _ (InsertAfter l q p d)); [exact Hw1| | |].
  - apply spec_after; [by rewrite lookup_insert_eq|by eapply unlinked_not_linked|].
    pose proof (repr_count _ _ _ (w_repr _ _ Hw _ _ HS)) as Hc. rewrite !zlength_app, !zlength_cons in *. lia.
  - apply Hu.
  - apply elem_of_dom. destruct Hu as (_ & e & He & _). by eexists.
Qed.

Lemma sort_pass_world ys : forall fuel h S l xs a s,
  world h S -> S !! l = Some (xs ++ a :: ys) -> (length ys < fuel)%nat ->
  exists h', sort_pass fuel sh l a.1 s h = Some (s || (bubble a ys).2, h')
    /\ world h' (<[l := xs ++ (bubble a ys).1]> S).
Proof.
  induction ys as [|b ys IH]; intros fuel h S l xs a s Hw HS Hf; (destruct fuel as [|fuel]; [simpl in Hf; lia|]);
    destruct (world_at _ _ _ _ _ _ Hw HS) as [Ha Ea]; cbn [sort_pass]; rewrite (proj2 (Z.eqb_neq _ _) Ha), Ea;
    cbn [le_next first_or orb].
  - simpl. exists h. rewrite orb_false_r. split; [done|]. by rewrite insert_id.
  - assert (HS' : S !! l = Some ((xs ++ [a]) ++ b :: ys)) by (by rewrite <- app_assoc).
    destruct (world_at _ _ _ _ _ _ Hw HS') as [Hb Eb]. rewrite (proj2 (Z.eqb_neq _ _) Hb), Eb. cbn [le_data bubble].
    destruct (sh a.2 b.2).
    + destruct (IH fuel h S l (xs ++ [a]) b s Hw HS' ltac:(simpl in Hf; lia)) as (h' & E1 & Hw').
      rewrite E1. destruct (bubble b ys) as [zs s']. cbn [fst snd] in *. exists h'. split; [done|].
      by rewrite <- app_assoc in Hw'.
    + pose proof (world_swap _ _ _ _ _ _ _ Hw HS) as Hw1.
      destruct (IH fuel _ (<[l := xs ++ b :: a :: ys]> S) l (xs ++ [b]) a true Hw1) as (h' & E1 & Hw').
      { rewrite lookup_insert_eq, <- app_assoc. done. }
      { simpl in Hf; lia. }
      rewrite E1. destruct (bubble a ys) as [zs s']. cbn [fst snd orb] in *. exists h'. rewrite orb_true_r. split; [done|].
      rewrite insert_insert_eq, <- app_assoc in Hw'. done.
Qed.

Lemma bubble_perm a ys : (bubble a ys).1 ≡ₚ a :: ys.
Proof.
  revert a. induction ys as [|b ys IH]; intros a; cbn [bubble]; [done|]. destruct (sh a.2 b.2).
  - specialize (IH b). destruct (bubble b ys). cbn in *. by rewrite IH.
  - specialize (IH a). destruct (bubble a ys). cbn in *. rewrite IH. apply Permutation_swap.
Qed.

Lemma bubble_quiet a ys : (bubble a ys).2 = false -> (bubble a ys).1 = a :: ys /\ LocallySorted ordered (a :: ys).
Proof.
  revert a. induction ys as [|b ys IH]; intros a; cbn [bubble]; [split; [done|constructor]|].
  destruct (sh a.2 b.2) eqn:Es; [|by destruct (bubble a ys)].
  specialize (IH b). destruct (bubble b ys) as [zs s]. cbn in *. intros ->. destruct IH as [-> Hs]; [done|].
  split; [done|]. by constructor.
Qed.

(** Elements of one equivalence class of the handler never pass each other. *)
Lemma bubble_stable (P : Z * Z -> Prop) `{forall x, Decision (P x)} a ys :
  (forall x y, P x -> P y -> ordered x y) -> filter P (bubble a ys).1 = filter P (a :: ys).
Proof.
  intros HP. revert a. induction ys as [|b ys IH]; intros a; cbn [bubble]; [done|].
  destruct (sh a.2 b.2) eqn:Es.
  - specialize (IH b). destruct (bubble b ys) as [zs s]. cbn [fst] in *. by rewrite !(filter_cons P a), IH.
  - specialize (IH a). destruct (bubble a ys) as [zs s]. cbn [fst] in *. rewrite (filter_cons P b), IH.
    rewrite !filter_cons. destruct (decide (P a)), (decide (P b)); try done. by rewrite HP in Es.
Qed.

Context (sh_total : forall a b, sh a b = true \/ sh b a = true).
Context (sh_trans : forall a b c, sh a b = true -> sh b c = true -> sh a c = true).

#[local] Instance ordered_trans : Transitive ordered.
Proof. intros x y z. apply sh_trans. Qed.

Lemma bubble_sorted a vs : StronglySorted ordered (a :: vs) -> bubble a vs = (a :: vs, false).
Proof.
  revert a. induction vs as [|b vs IH]; intros a Hs; cbn [bubble]; [done|].
  apply StronglySorted_inv in Hs as [Hs Ha]. inversion Ha as [|? ? Hab _]. unfold ordered in Hab. rewrite Hab.
  by rewrite (IH b Hs).
Qed.

(** A pass moves a maximal element of the unsorted part to its place. *)
Lemma bubble_suffix us : forall a vs,
  StronglySorted ordered vs -> (forall u v, u ∈ a :: us -> v ∈ vs -> ordered u v) ->
  exists us' m, (bubble a (us ++ vs)).1 = us' ++ m :: vs /\ us' ++ [m] ≡ₚ a :: us
    /\ forall u, u ∈ us' -> ordered u m.
Proof.
  induction us as [|b us IH]; intros a vs Hv Hle.
  - exists [], a. cbn [app]. rewrite bubble_sorted.
    + split_and!; [done|done|]. by intros u ?%elem_of_nil.
    + constructor; [done|]. apply Forall_forall. intros v Hin. apply Hle; [|done]. apply elem_of_cons. by left.
  - cbn [app bubble]. destruct (sh a.2 b.2) eqn:Es.
    + destruct (IH b vs Hv) as (us' & m & E1 & Hp & Hm).
      { intros u v Hu. apply Hle. apply elem_of_cons. by right. }
      destruct (bubble b (us ++ vs)) as [zs s]. cbn [fst] in *. exists (a :: us'), m. split_and!.
      * by rewrite E1.
      * cbn [app]. by rewrite Hp.
      * intros u [->|Hu]%elem_of_cons; [|by apply Hm]. assert (Hb : b ∈ us' ++ [m]).
        { rewrite Hp. apply elem_of_cons. by left. }
        apply elem_of_app in Hb as [Hb| ->%list_elem_of_singleton]; [|done]. transitivity b; [done|by apply Hm].
    + destruct (IH a vs Hv) as (us' & m & E1 & Hp & Hm).
      { intros u v [->|Hu]%elem_of_cons; apply Hle; apply elem_of_cons; [by left|right]. apply elem_of_cons. by right. }
      destruct (bubble a (us ++ vs)) as [zs s]. cbn [fst] in *. exists (b :: us'), m. split_and!.
      * by rewrite E1.
      * cbn [app]. rewrite Hp. apply Permutation_swap.
      * intros u [->|Hu]%elem_of_cons; [|by apply Hm].
        assert (Hba : ordered b a) by (destruct (sh_total a.2 b.2); [congruence|done]).
        assert (Ha : a ∈ us' ++ [m]) by (rewrite Hp; apply elem_of_cons; by left).
        apply elem_of_app in Ha as [Ha| ->%list_elem_of_singleton]; [|done]. transitivity a; [done|by apply Hm].
Qed.

(** The class of a value under the handler. *)
Definition same_class (d : Z) (x : Z * Z) : Prop := sh d x.2 = true /\ sh x.2 d = true.

#[local] Instance same_class_dec d x : Decision (same_class d x).
Proof. unfold same_class. apply _. Defined.

Lemma same_class_ordered d x y : same_class d x -> same_class d y -> ordered x y.
Proof. intros [_ Hx] [Hy _]. by apply (sh_trans _ d). Qed.

Definition sorted_from (xs ys : list (Z * Z)) : Prop :=
  ys ≡ₚ xs /\ StronglySorted ordered ys /\ forall d, filter (same_class d) ys = filter (same_class d) xs.

Lemma list_sort_suffix us : forall fuel h S l vs,
  world h S -> S !! l = Some (us ++ vs) -> StronglySorted ordered vs ->
  (forall u v, u ∈ us -> v ∈ vs -> ordered u v) -> (length us + length (us ++ vs) < fuel)%nat ->
  exists h' ys, list_sort fuel sh l h = Some h' /\ world h' (<[l := ys]> S) /\ sorted_from (us ++ vs) ys.
Proof.
  induction us as [us IH] using (induction_ltof1 _ (fun us => length us)). unfold ltof in IH.
  intros fuel h S l vs Hw HS Hv Hle Hf. destruct fuel as [|fuel]; [lia|]. cbn [list_sort].
  pose proof (w_repr _ _ Hw _ _ HS) as Hr. rewrite (proj2 (Z.eqb_neq l 0)) by apply Hr.
  rewrite (repr_list_at _ _ _ Hr). cbn [l_head].
  destruct (us ++ vs) as [|a zs] eqn:Exs.
  { exists h, []. cbn. split; [done|]. split; [by rewrite insert_id|]. split_and!; [done|constructor|done]. }
  cbn [first_or]. destruct (sort_pass_world zs (Datatypes.S fuel) h S l [] a false Hw HS) as (h1 & -> & Hw1);
    [simpl in Hf; lia|]. cbn [orb app] in *. destruct (bubble a zs).2 eqn:Eb.
  2:{ destruct (bubble_quiet _ _ Eb) as [E1 Hs]. rewrite E1 in Hw1. exists h1, (a :: zs). split; [done|]. split; [done|]. split_and!; [done| |done].
      apply Sorted_StronglySorted; [exact ordered_trans|by apply Sorted_LocallySorted_iff]. }
  destruct us as [|u us].
  { cbn [app] in Exs. subst vs. by rewrite bubble_sorted in Eb. }
  cbn [app] in Exs. injection Exs as -> <-.
  destruct (bubble_suffix us a vs Hv Hle) as (us' & m & E1 & Hp & Hm). pose proof (bubble_perm a (us ++ vs)) as Hperm.
  assert (Hin : forall u, u ∈ us' ++ [m] -> u ∈ a :: us) by (intros u Hu; by rewrite <- Hp).
  rewrite E1 in *.
  assert (Hlen : length (us' ++ [m]) = length (a :: us)) by (by rewrite Hp).
  rewrite length_app in Hlen. cbn [length] in Hlen.
  destruct (IH us' ltac:(simpl; lia) fuel h1 (<[l := us' ++ m :: vs]> S) l (m :: vs) Hw1) as (h2 & ys & E2 & Hw2 & (P2 & S2 & F2)).
  - by rewrite lookup_insert_eq.
  - constructor; [done|]. apply Forall_forall. intros v Hin'. apply Hle; [|done]. apply Hin, elem_of_app. right. by apply list_elem_of_singleton.
  - intros u v Hu [->|Hv']%elem_of_cons; [by apply Hm|]. apply Hle; [|done]. apply Hin, elem_of_app. by left.
  - cbn [length] in Hf. rewrite length_app in Hf |- *. cbn [length]. lia.
  - rewrite insert_insert_eq in Hw2. exists h2, ys. split; [done|]. split; [done|]. split_and!; [by rewrite P2|done|].
    intros d. rewrite F2, <- E1. apply bubble_stable. apply same_class_ordered.
Qed.

(** C39: for a sort handler that is total and transitive, list_sort terminates
    (within 2n+1 rounds of its loops for n elements) and leaves the list
    sorted: a permutation of its elements in the order of the handler, in which
    elements that compare equal keep their order; other lists do not change. *)
Theorem list_sort_correct h S l xs fuel :
  world h S -> S !! l = Some xs -> (2 * length xs < fuel)%nat ->
  exists h' ys, list_sort fuel sh l h = Some h' /\ world h' (<[l := ys]> S)
    /\ ys ≡ₚ xs /\ StronglySorted ordered ys /\ forall d, filter (same_class d) ys = filter (same_class d) xs.
Proof.
  intros Hw HS Hf. rewrite <- (app_nil_r xs) in HS.
  destruct (list_sort_suffix xs fuel h S l [] Hw HS) as (h' & ys & E1 & Hw' & Hs).
  - constructor.
  - by intros u v _ ?%elem_of_nil.
  - rewrite app_nil_r. lia.
  - rewrite app_nil_r in Hs. exists h', ys. by destruct Hs.
Qed.

(** *** Sorted insertion *)

Lemma insert_sorted_loop_world xs1 : forall fuel h S l xs2 p d,
  world h S -> S !! l = Some (xs1 ++ xs2) -> unlinked h p -> le_data (le_at h p) = d ->
  zlength (xs1 ++ xs2) + 1 < 2 ^ 32 -> (length xs1 < fuel)%nat -> (forall x, x ∈ xs2 -> sh x.2 d = false) ->
  exists h' ys1 ys2, insert_sorted_loop fuel sh l (last_or 0 xs1) p h = Some h' /\ ys1 ++ ys2 = xs1 ++ xs2
    /\ world h' (<[l := ys1 ++ (p, d) :: ys2]> S)
    /\ (forall x, x ∈ ys2 -> sh x.2 d = false) /\ (forall zs z, ys1 = zs ++ [z] -> sh z.2 d = true).
Proof.
  induction xs1 as [|z xs1 IH] using rev_ind; intros fuel h S l xs2 p d Hw HS Hu Hd Hc Hf H2;
    (destruct fuel as [|fuel]; [lia|]); cbn [insert_sorted_loop].
  - cbn. rewrite Hd. exists (list_prepend l p d h), [], xs2. split_and!; try done.
    + rewrite (list_prepend_link _ _ xs2) by (done || by apply Hw).
      apply (link_world h S l [] xs2); try done; [apply Hu|by eapply unlinked_not_linked].
    + intros zs z Hz. by apply app_cons_not_nil in Hz.
  - rewrite <- app_assoc in HS. rewrite last_or_app. cbn [last_or app] in *.
    destruct (world_at _ _ _ _ _ _ Hw HS) as [Hz Ez]. rewrite (proj2 (Z.eqb_neq _ _) Hz), Ez, Hd. cbn [le_data le_prev].
    destruct (sh z.2 d) eqn:Es.
    + exists (list_insert_after l z.1 p d h), (xs1 ++ [z]), xs2. split_and!; try done.
      * rewrite <- app_assoc. cbn [app]. destruct z as [q dq]. cbn [fst].
        eapply (lrun_refines _ _ (InsertAfter l q p d)); [done| |apply Hu|].
        -- apply spec_after; [done|by eapply unlinked_not_linked|]. by rewrite <- app_assoc in Hc.
        -- apply elem_of_dom. destruct Hu as (_ & e & He & _). by eexists.
      * intros zs z' [_ [= ->]]%app_inj_tail. done.
    + destruct (IH fuel h S l (z :: xs2) p d Hw HS Hu Hd) as (h' & ys1 & ys2 & E1 & E2 & Hw' & Hy).
      * by rewrite <- app_assoc in Hc.
      * rewrite length_app in Hf. cbn in Hf. lia.
      * intros x [->|Hx]%elem_of_cons; [done|by apply H2].
      * exists h', ys1, ys2. split_and!; try done; try apply Hy. by rewrite E2, <- app_assoc.
Qed.

Lemma set_data_world h S p d : world h S -> unlinked h p ->
  world (upd_le p (set_data d) h) S /\ unlinked (upd_le p (set_data d) h) p
  /\ le_data (le_at (upd_le p (set_data d) h) p) = d.
Proof.
  intros Hw Hu. pose proof (unlinked_not_linked _ _ _ Hw Hu) as Hn. destruct Hu as (Hp & e & He & Hl). split_and!; [split| |].
  - intros l xs HS. destruct (w_repr _ _ Hw _ _ HS) as [H1 H2 H3 H4 H5]. split; try done.
    eapply chain_agree; [|exact H3]. intros q Hq. apply lookup_alter_ne. intros <-. by eapply not_linked_not_in.
  - intros q e' He'. unfold upd_le in He'. cbn in He'.
    apply (alter_list_id (h_le h) p (set_data d) q e' false) in He' as (e2 & He2 & <-); [|done]. by apply Hw in He2.
  - split; [done|]. eexists. unfold upd_le. cbn. by rewrite lookup_alter_eq, He.
  - unfold le_at, upd_le. cbn. by rewrite lookup_alter_eq, He.
Qed.

(** Inserting a fresh element into a sorted list with list_insert_sorted
    ends after one walk and keeps the list sorted: the element is placed behind
    the last one the handler puts before it, so behind its equals, and nothing
    else moves. *)
Theorem list_insert_sorted_correct h S l xs p d fuel :
  world h S -> S !! l = Some xs -> StronglySorted ordered xs -> unlinked h p ->
  zlength xs + 1 < 2 ^ 32 -> (length xs < fuel)%nat ->
  exists h' ys1 ys2, list_insert_sorted fuel sh l p d h = Some h' /\ xs = ys1 ++ ys2
    /\ world h' (<[l := ys1 ++ (p, d) :: ys2]> S) /\ StronglySorted ordered (ys1 ++ (p, d) :: ys2)
    /\ forall x, x ∈ ys2 -> sh x.2 d = false.
Proof.
  intros Hw HS Hs Hu Hc Hf. pose proof (w_repr _ _ Hw _ _ HS) as Hr. unfold list_insert_sorted.
  rewrite (proj2 (Z.eqb_neq l 0)), (repr_list_at _ _ _ Hr) by apply Hr. cbn [l_tail].
  destruct (set_data_world h S p d Hw Hu) as (Hw1 & Hu1 & Hd). rewrite <- (app_nil_r xs) in HS, Hc.
  destruct (insert_sorted_loop_world xs fuel _ S l [] p d Hw1 HS Hu1 Hd Hc Hf) as (h' & ys1 & ys2 & -> & E2 & Hw' & H2 & H1);
    [by intros x ?%elem_of_nil|].
  rewrite app_nil_r in E2. subst xs. exists h', ys1, ys2. split_and!; try done.
  apply StronglySorted_app in Hs as (Hs12 & Hs1 & Hs2). apply StronglySorted_app. split_and!.
  - intros x y Hx [->|Hy]%elem_of_cons; [|by apply Hs12].
    destruct ys1 as [|z ys1 _] using rev_ind; [by apply elem_of_nil in Hx|]. specialize (H1 _ _ eq_refl).
    apply elem_of_app in Hx as [Hx| ->%list_elem_of_singleton]; [|done].
    apply StronglySorted_app in Hs1 as (Hs1 & _ & _). apply (sh_trans _ z.2); [|done]. apply Hs1; [done|]. by apply list_elem_of_singleton.
  - done.
  - constructor; [done|]. apply Forall_forall. intros y Hy. specialize (H2 y Hy). unfold ordered. cbn [snd].
    destruct (sh_total d y.2); [done|congruence].
Qed.
End Sort.

(** List_sort does not terminate with a handler that orders neither of
    two elements before the other (a strict comparison of equal keys): they are
    exchanged for ever. *)
Theorem list_sort_diverges sh h S l a b :
  world h S -> S !! l = Some [a; b] -> sh a.2 b.2 = false -> sh b.2 a.2 = false ->
  forall fuel, list_sort fuel sh l h = None.
Proof.
  intros Hw HS Hab Hba fuel. revert h S a b Hw HS Hab Hba. induction fuel as [|fuel IH]; intros h S a b Hw HS Hab Hba;
    pose proof (w_repr _ _ Hw _ _ HS) as Hr; cbn [list_sort]; rewrite (proj2 (Z.eqb_neq l 0)) by apply Hr; [done|].
  rewrite (repr_list_at _ _ _ Hr). cbn [l_head first_or].
  destruct (decide (1 < Datatypes.S fuel)%nat) as [Hf|Hf].
  - destruct (sort_pass_world sh [b] (Datatypes.S fuel) h S l [] a false Hw HS) as (h1 & -> & Hw1); [simpl; lia|].
    cbn [bubble] in *. rewrite Hab in *. cbn [fst snd orb app] in *. eapply IH; [exact Hw1| | |]; [by rewrite lookup_insert_eq|done|done].
  - assert (fuel = 0%nat) as -> by lia. destruct (world_at h S l [] a [b] Hw HS) as [Ha Ea]. cbn [sort_pass].
    rewrite (proj2 (Z.eqb_neq _ _) Ha), Ea. cbn [le_next first_or orb le_data].
    destruct (world_at h S l [a] b [] Hw HS) as [Hb Eb]. rewrite (proj2 (Z.eqb_neq _ _) Hb), Eb. cbn [le_data]. by rewrite Hab.
Qed.

(** ** Emptying a list *)

Section Flush.
Context (mem_deref : Z -> heap -> heap).
(** Destructors do not move the elements of any list. *)
Context (mem_deref_world : forall d h S, world h S -> world (mem_deref d h) S).

Lemma list_init_world h S l : world h S -> S !! l = Some [] -> world (list_init l h) S.
Proof.
  intros Hw HS. pose proof (w_repr _ _ Hw _ _ HS) as Hr. unfold list_init, when.
  rewrite (proj2 (Z.eqb_neq l 0)) by apply Hr. unfold upd_list.
  replace (alter (fun _ => LIST_INIT) l (h_list h)) with (h_list h); [by destruct h|].
  apply map_eq. intros i. destruct (decide (i = l)) as [->|Hne].
  - by rewrite lookup_alter_eq, (repr_list _ _ _ Hr).
  - by rewrite lookup_alter_ne.
Qed.

Lemma list_flush_loop_world xs : forall fuel h S l,
  world h S -> S !! l = Some xs -> (length xs < fuel)%nat ->
  exists h', list_flush_loop fuel mem_deref (first_or 0 xs) h = Some h' /\ world h' (<[l := []]> S).
Proof.
  induction xs as [|x xs IH]; intros fuel h S l Hw HS Hf; (destruct fuel as [|fuel]; [simpl in Hf; lia|]); cbn [list_flush_loop].
  - exists h. split; [done|]. by rewrite insert_id.
  - destruct (world_at h S l [] x xs Hw HS) as [Hx Ex]. cbn [first_or]. rewrite (proj2 (Z.eqb_neq _ _) Hx), Ex.
    cbn [le_next le_data]. destruct x as [p d]. cbn [fst snd] in *.
    destruct (list_unlink_world h S l [] xs p d Hw HS) as (Hw1 & Hu & _). cbn [app] in Hw1.
    destruct (set_data_world _ _ p 0 Hw1 Hu) as (Hw2 & _).
    destruct (IH fuel _ _ l (mem_deref_world d _ _ Hw2)) as (h' & E1 & Hw').
    { by rewrite lookup_insert_eq. }
    { simpl in Hf; lia. }
    exists h'. split; [done|]. by rewrite insert_insert_eq in Hw'.
Qed.

Lemma clear_loop_chain xs : forall fuel h l a,
  chain (h_le h) l a xs 0 -> NoDup (xs.*1) -> (length xs < fuel)%nat ->
  exists m, list_clear_loop fuel (first_or 0 xs) h = Some (Heap m (h_list h))
    /\ forall p, m !! p = if decide (p ∈ xs.*1) then Some (Le 0 0 0 0) else h_le h !! p.
Proof.
  induction xs as [|x xs IH]; intros fuel h l a Hc Hnd Hf; (destruct fuel as [|fuel]; [simpl in Hf; lia|]); cbn [list_clear_loop].
  - exists (h_le h). split; [by destruct h|]. intros p. by rewrite decide_False by apply not_elem_of_nil.
  - destruct Hc as (Hx & Hm & Hc). rewrite fmap_cons in Hnd. apply NoDup_cons in Hnd as [Hnin Hnd]. cbn [first_or].
    rewrite (proj2 (Z.eqb_neq _ _) Hx). unfold le_at. rewrite Hm. cbn [from_option id le_next].
    destruct (IH fuel (upd_le x.1 (fun _ => Le 0 0 0 0) h) l x.1) as (m & E1 & Hlook); [|done|simpl in Hf; lia|].
    { eapply chain_agree; [|exact Hc]. intros p Hp. apply lookup_alter_ne. by intros <-. }
    exists m. split; [done|]. intros p. rewrite Hlook, fmap_cons. unfold upd_le. cbn [h_le].
    destruct (decide (p = x.1)) as [->|Hne].
    + rewrite decide_False by done. rewrite lookup_alter_eq, Hm. rewrite decide_True; [done|]. apply elem_of_cons. by left.
    + rewrite lookup_alter_ne by congruence.
      destruct (decide (p ∈ xs.*1)); [rewrite decide_True; [done|apply elem_of_cons; by right]|].
      rewrite decide_False; [done|]. by intros [?|?]%elem_of_cons.
Qed.

(** List_flush and list_clear terminate and empty the list: its elements
    can be linked again, and the other lists are untouched. *)
Theorem list_flush_correct h S l xs fuel :
  world h S -> S !! l = Some xs -> (length xs < fuel)%nat ->
  (exists h', list_flush fuel mem_deref l h = Some h' /\ world h' (<[l := []]> S))
  /\ exists h', list_clear fuel l h = Some h' /\ world h' (<[l := []]> S).
Proof.
  intros Hw HS Hf. pose proof (w_repr _ _ Hw _ _ HS) as Hr. unfold list_flush, list_clear.
  rewrite (proj2 (Z.eqb_neq l 0)), (repr_list_at _ _ _ Hr) by apply Hr. cbn [l_head]. split.
  - destruct (list_flush_loop_world xs fuel h S l Hw HS Hf) as (h' & -> & Hw'). eexists. split; [done|].
    apply list_init_world; [done|]. by rewrite lookup_insert_eq.
  - destruct (clear_loop_chain xs fuel h l 0 (repr_chain _ _ _ Hr) (repr_nodup _ _ _ Hr) Hf) as (m & -> & Hm).
    eexists. split; [done|]. unfold list_init, when. cbn. rewrite (proj2 (Z.eqb_neq l 0)) by apply Hr. split.
    + intros l' zs. destruct (decide (l' = l)) as [->|Hne].
      * rewrite lookup_insert_eq. intros [= <-]. split; cbn; [apply Hr|constructor|done| |done].
        by rewrite lookup_alter_eq, (repr_list _ _ _ Hr).
      * rewrite lookup_insert_ne by congruence. intros HS'. destruct (w_repr _ _ Hw _ _ HS') as [H1 H2 H3 H4 H5].
        split; cbn; try done; [|by rewrite lookup_alter_ne].
        eapply chain_agree; [|exact H3]. intros p Hp. rewrite Hm, decide_False; [done|].
        intros Hin. apply Hne. symmetry. by eapply (world_disjoint h S l l').
    + intros p e. cbn. rewrite Hm. destruct (decide (p ∈ xs.*1)) as [Hin|Hnin]; [intros [= <-]; by left|].
      intros He. destruct (w_le _ _ Hw _ _ He) as [?|(zs & HS' & Hin)]; [by left|right].
      destruct (decide (l = le_list e)) as [Hl|Hl]; [|exists zs; by rewrite lookup_insert_ne].
      rewrite <- Hl, HS in HS'. by injection HS' as <-.
Qed.
End Flush.

(** ** A concrete world: three elements, two lists *)

(** ** Removing an element wherever it is *)

Definition rm (t : Z) (S : lists) : lists := filter (fun x => x.1 <> t) <$> S.

Lemma filter_ne_notin t (xs : list (Z * Z)) : t ∉ xs.*1 -> filter (fun x => x.1 <> t) xs = xs.
Proof.
  induction xs as [|x xs IH]; [done|]. rewrite fmap_cons, not_elem_of_cons. intros [Hx Hn].
  rewrite filter_cons_True by congruence. by rewrite IH.
Qed.

Lemma rm_unlinked t S : ~ linked S t -> rm t S = S.
Proof.
  intros Hn. apply map_eq. intros l. unfold rm. rewrite lookup_fmap. destruct (S !! l) as [xs|] eqn:E; [|done]. cbn. f_equal.
  apply filter_ne_notin. by eapply not_linked_not_in.
Qed.

Lemma rm_linked h S l xs ys t d :
  world h S -> S !! l = Some (xs ++ (t, d) :: ys) -> <[l := xs ++ ys]> S = rm t S.
Proof.
  intros Hw HS. apply map_eq. intros l'. unfold rm. rewrite lookup_fmap. destruct (decide (l' = l)) as [->|Hne].
  - rewrite lookup_insert_eq, HS. cbn. f_equal. pose proof (repr_nodup _ _ _ (w_repr _ _ Hw _ _ HS)) as Hnd.
    rewrite fmap_app, fmap_cons, NoDup_app, NoDup_cons in Hnd. destruct Hnd as (_ & Hd & Hy & _).
    rewrite filter_app, filter_cons_False by (cbn; tauto). rewrite !filter_ne_notin; [done|done|].
    intros Hin. apply (Hd t Hin), elem_of_cons. by left.
  - rewrite lookup_insert_ne by done. destruct (S !! l') as [zs|] eqn:E; [|done]. cbn. f_equal. symmetry.
    apply filter_ne_notin. intros Hin. apply Hne. eapply (world_disjoint h S l' l); [done..|].
    rewrite fmap_app, fmap_cons. apply elem_of_app. right. apply elem_of_cons. by left.
Qed.

Lemma rm_not_linked t S : ~ linked (rm t S) t.
Proof.
  intros (l & xs & HS & Hin). unfold rm in HS. rewrite lookup_fmap in HS. destruct (S !! l) as [ys|]; [|done].
  injection HS as <-. apply list_elem_of_fmap in Hin as (x & -> & Hx%list_elem_of_filter). tauto.
Qed.

Lemma rm_lookup t S l xs : rm t S !! l = Some xs -> exists ys, S !! l = Some ys /\ xs = filter (fun x => x.1 <> t) ys.
Proof. unfold rm. rewrite lookup_fmap. destruct (S !! l) as [ys|]; [|done]. intros [= <-]. by exists ys. Qed.

Lemma dom_rm t S : dom (rm t S) = dom S.
Proof. unfold rm. by rewrite dom_fmap_L. Qed.

Lemma unlink_world_rm h S p : world h S -> p <> 0 -> p ∈ dom (h_le h) -> world (list_unlink p h) (rm p S).
Proof.
  intros Hw Hp Hd%elem_of_dom.
  assert (Hdec : linked S p \/ ~ linked S p).
  { destruct Hd as [e He]. destruct (w_le _ _ Hw _ _ He) as [H0|(xs & HS & Hin)]; [right|left; by exists (le_list e), xs].
    intros Hl. apply (world_linked_le _ _ _ Hw) in Hl as [_ Hl]. apply Hl. unfold le_at. by rewrite He. }
  destruct Hdec as [(l & xs & HS & Hin)|Hn].
  - apply list_elem_of_fmap in Hin as ([q d] & -> & Hx). apply list_elem_of_split in Hx as (a & b & ->). cbn [fst] in *.
    rewrite <- (rm_linked _ _ _ _ _ _ _ Hw HS). by eapply list_unlink_world.
  - rewrite rm_unlinked by done. apply (lrun_refines h S (Unlink p)); try done; [by constructor|by apply elem_of_dom].
Qed.

(** ** Searching with list_apply *)

Section Search.
Context (P : Z -> bool).

(** The address of the first element that satisfies the predicate. *)
Definition found (xs : list (Z * Z)) : Z := match List.find (fun x => P x.1) xs with Some x => x.1 | None => 0 end.

Context (ah : Z -> heap -> bool * heap) (h : heap) (Hah : forall q, ah q h = (P q, h)).

Lemma apply_loop_fwd ys : forall fuel l xs,
  repr h l (xs ++ ys) -> (length ys < fuel)%nat ->
  list_apply_loop fuel true ah (first_or 0 ys) h = Some (found ys, h).
Proof.
  induction ys as [|[q d] ys IH]; intros fuel l xs Hr Hf; (destruct fuel as [|fuel]; [cbn in Hf; lia|]); cbn [list_apply_loop first_or fst]; [done|].
  destruct (repr_at _ _ _ _ _ _ Hr) as [Hq Eq]. rewrite (proj2 (Z.eqb_neq q 0)) by done. unfold le_at. rewrite Eq, Hah.
  cbn [default le_next]. unfold found. cbn [List.find fst]. destruct (P q); [done|]. apply (IH fuel l (xs ++ [(q, d)])).
  - by rewrite <- app_assoc.
  - cbn in Hf. lia.
Qed.

Lemma apply_loop_bwd xs : forall fuel l ys,
  repr h l (xs ++ ys) -> (length xs < fuel)%nat ->
  list_apply_loop fuel false ah (last_or 0 xs) h = Some (found (rev xs), h).
Proof.
  induction xs as [|[q d] xs IH] using rev_ind; intros fuel l ys Hr Hf;
    (destruct fuel as [|fuel]; [rewrite ?length_app in Hf; cbn in Hf; lia|]); cbn [list_apply_loop]; [done|].
  rewrite <- app_assoc in Hr. destruct (repr_at _ _ _ _ _ _ Hr) as [Hq Eq]. rewrite last_or_app. cbn [last_or fst].
  rewrite (proj2 (Z.eqb_neq q 0)) by done. unfold le_at. rewrite Eq, Hah. cbn [default le_prev].
  unfold found. rewrite rev_unit. cbn [List.find fst]. destruct (P q); [done|].
  apply (IH fuel l _ Hr). rewrite length_app in Hf. cbn in Hf. lia.
Qed.

Lemma list_apply_found fuel l fwd xs :
  repr h l xs -> (length xs < fuel)%nat ->
  list_apply fuel l fwd ah h = Some (found (if fwd then xs else rev xs), h).
Proof.
  intros Hr Hf. unfold list_apply. rewrite (proj2 (Z.eqb_neq l 0)), (repr_list_at _ _ _ Hr) by apply Hr. destruct fwd.
  - by apply (apply_loop_fwd xs fuel l []).
  - apply (apply_loop_bwd xs fuel l []); [by rewrite app_nil_r|done].
Qed.

(** Where the search stops. *)
Lemma found_spec xs :
  (0 : Z) ∉ xs.*1 ->
  (found xs = 0 /\ Forall (fun x => P x.1 = false) xs)
  \/ exists a x b, xs = a ++ x :: b /\ found xs = x.1 /\ x.1 <> 0 /\ P x.1 = true /\ Forall (fun x => P x.1 = false) a.
Proof.
  intros H0. unfold found. induction xs as [|x xs IH]; [by left|]. cbn [List.find].
  rewrite fmap_cons, not_elem_of_cons in H0. destruct H0 as [Hx H0]. destruct (P x.1) eqn:Ex.
  - right. exists [], x, xs. by split_and!.
  - destruct (IH H0) as [[E Hf]|(a & y & b & -> & E & Hy & HPy & Ha)]; [left; split; [done|by constructor]|].
    right. exists (x :: a), y, b. split_and!; try done. by constructor.
Qed.
End Search.

Definition sample_heap : heap :=
  Heap (<[1 := LE_INIT]> (<[2 := LE_INIT]> (<[3 := LE_INIT]> ∅))) (<[10 := LIST_INIT]> (<[11 := LIST_INIT]> ∅)).
Definition sample_lists : lists := <[10 := []]> (<[11 := []]> ∅).

Lemma sample_world : world sample_heap sample_lists.
Proof.
  split.
  - intros l xs HS. unfold sample_lists in HS. rewrite !lookup_insert_Some in HS.
    destruct HS as [[<- <-]|[_ [[<- <-]|[_ HS]]]]; [| |by rewrite lookup_empty in HS];
      (split; [done|constructor|done|vm_compute; reflexivity|done]).
  - intros p e He. unfold sample_heap in He. cbn [h_le] in He. rewrite !lookup_insert_Some in He.
    destruct He as [[_ <-]|[_ [[_ <-]|[_ [[_ <-]|[_ He]]]]]]; [by left|by left|by left|by rewrite lookup_empty in He].
Qed.

Lemma sample_not_linked p : ~ linked sample_lists p.
Proof.
  intros (l & xs & HS & Hin). unfold sample_lists in HS. rewrite !lookup_insert_Some in HS.
  destruct HS as [[_ <-]|[_ [[_ <-]|[_ HS]]]]; [by apply elem_of_nil in Hin|by apply elem_of_nil in Hin|].
  by rewrite lookup_empty in HS.
Qed.

Lemma list_refines_witness :
  exists S', ltrace sample_lists [Append 10 1 7] S'
    /\ list_head 10 (foldl (fun h op => lrun op h) sample_heap [Append 10 1 7]) = 1.
Proof.
  assert (Ht : ltrace sample_lists [Append 10 1 7] (<[10 := [(1, 7)]]> sample_lists)).
  { econstructor; [|constructor]. apply (spec_append _ 10 1 7 []); [reflexivity|apply sample_not_linked|reflexivity]. }
  exists (<[10 := [(1, 7)]]> sample_lists). split; [exact Ht|].
  assert (Hd : Forall (fun op => subject op <> 0 /\ subject op ∈ dom (h_le sample_heap)) [Append 10 1 7]).
  { constructor; [|constructor]. split; [discriminate|]. apply elem_of_dom. by eexists. }
  destruct (list_refines sample_heap sample_lists [Append 10 1 7] _ sample_world Ht Hd) as [_ Hobs].
  exact (proj1 (Hobs 10 [(1, 7)] (lookup_insert_eq _ _ _))).
Defined.

(** The same store after two insertions: elements 1 and 2 in list 10. *)
Definition sample_heap2 (d1 d2 : Z) : heap := list_append 10 2 d2 (list_append 10 1 d1 sample_heap).
Definition sample_lists2 (d1 d2 : Z) : lists := <[10 := [(1, d1); (2, d2)]]> sample_lists.

Lemma sample_world2 d1 d2 : world (sample_heap2 d1 d2) (sample_lists2 d1 d2).
Proof.
  assert (H1 : world (list_append 10 1 d1 sample_heap) (<[10 := [(1, d1)]]> sample_lists)).
  { apply (list_append_world sample_heap sample_lists 10 [] 1 d1 sample_world); [done| |done].
    split; [done|]. by eexists. }
  pose proof (list_append_world _ _ 10 [(1, d1)] 2 d2 H1) as H2. rewrite insert_insert_eq in H2.
  apply H2; [done| |done]. split; [done|]. by eexists.
Qed.

Lemma leb_total x y : (x <=? y) = true \/ (y <=? x) = true.
Proof. lia. Qed.

Lemma leb_trans x y z : (x <=? y) = true -> (y <=? z) = true -> (x <=? z) = true.
Proof. lia. Qed.

Lemma list_sort_correct_witness :
  exists h' ys, list_sort 5 Z.leb 10 (sample_heap2 7 5) = Some h' /\ ys ≡ₚ [(1, 7); (2, 5)]
    /\ StronglySorted (ordered Z.leb) ys.
Proof.
  destruct (list_sort_correct Z.leb leb_total leb_trans (sample_heap2 7 5) (sample_lists2 7 5) 10 [(1, 7); (2, 5)] 5
    (sample_world2 7 5) eq_refl ltac:(simpl; lia)) as (h' & ys & E & _ & Hp & Hs & _).
  exists h', ys. exact (conj E (conj Hp Hs)).
Defined.

Lemma list_insert_sorted_correct_witness :
  exists h' ys1 ys2, list_insert_sorted 3 Z.leb 10 3 6 (sample_heap2 5 7) = Some h'
    /\ [(1, 5); (2, 7)] = ys1 ++ ys2 /\ StronglySorted (ordered Z.leb) (ys1 ++ (3, 6) :: ys2).
Proof.
  assert (Hs : StronglySorted (ordered Z.leb) [(1, 5); (2, 7)]) by (repeat constructor).
  assert (Hu : unlinked (sample_heap2 5 7) 3) by (split; [discriminate|by eexists]).
  destruct (list_insert_sorted_correct Z.leb leb_total leb_trans (sample_heap2 5 7) (sample_lists2 5 7) 10
    [(1, 5); (2, 7)] 3 6 3 (sample_world2 5 7) eq_refl Hs Hu eq_refl ltac:(simpl; lia))
    as (h' & ys1 & ys2 & E1 & E2 & _ & Hs' & _).
  exists h', ys1, ys2. exact (conj E1 (conj E2 Hs')).
Defined.

Lemma list_sort_diverges_witness : list_sort 1000 Z.ltb 10 (sample_heap2 4 4) = None.
Proof.
  exact (list_sort_diverges Z.ltb (sample_heap2 4 4) (sample_lists2 4 4) 10 (1, 4) (2, 4) (sample_world2 4 4)
    eq_refl eq_refl eq_refl 1000%nat).
Defined.

Lemma list_flush_correct_witness :
  exists h', list_flush 3 (fun _ h => h) 10 (sample_heap2 4 4) = Some h'
    /\ world h' (<[10 := []]> (sample_lists2 4 4)).
Proof.
  exact (proj1 (list_flush_correct (fun _ h => h) (fun _ _ _ Hw => Hw) (sample_heap2 4 4) (sample_lists2 4 4) 10
    [(1, 4); (2, 4)] 3 (sample_world2 4 4) eq_refl ltac:(simpl; lia))).
Defined.
