(* ===== verification/Tmr.v ===== *)
(** * Timers: src/src/tmr/tmr.c and src/include/re_tmr.h

    A timer is a list element with a deadline and a handler; a timer list keeps
    its timers in order of their deadlines.  Lists are those of list.c
    ([LinkedList]); the element of a timer has the address of the timer, as it
    is its first field.  The clock is what clock_gettime reports.  Handlers are
    sequences of calls to this interface, chosen in view of the state; the
    mutexes are not modelled: each operation is one step. *)

From Stdlib Require Import ZArith Lia Sorted.
From stdpp Require Import base numbers list gmap sorting.
From S2P Require Import Prelude LinkedList.

Open Scope Z_scope.

(** struct tmr without its list element and the debug fields; [tmr_llock] is
    the list whose lock it is. *)
Record tmr := Tmr { tmr_active : bool; tmr_llock : Z; tmr_th : Z; tmr_arg : Z; tmr_jfs : Z }.

Record timespec := Timespec { tv_sec : Z; tv_nsec : Z }.

(** The clock is [None] when clock_gettime fails. *)
Record tst := Tst { t_heap : heap; t_tmr : gmap Z tmr; t_clock : option timespec }.

Definition TMR_INIT : tmr := Tmr false 0 0 0 0.
Definition tmr_at (st : tst) (t : Z) : tmr := default TMR_INIT (t_tmr st !! t).
Definition with_heap (st : tst) (h : heap) : tst := Tst h (t_tmr st) (t_clock st).
Definition upd_tmr (t : Z) (f : tmr -> tmr) (st : tst) : tst := Tst (t_heap st) (alter f t (t_tmr st)) (t_clock st).

Definition tmr_jiffies_usec (st : tst) : Z :=
  match t_clock st with
  | None => 0
  | Some now => u64 (u64 (tv_sec now * 1000000) + tv_nsec now / 1000)
  end.

Definition tmr_jiffies (st : tst) : Z := tmr_jiffies_usec st / 1000.

(** [while (tp->tv_nsec > 1000000000LL)] *)
Fixpoint timespec_norm (fuel : nat) (tp : timespec) : option timespec :=
  if tv_nsec tp >? 1000000000 then
    match fuel with
    | O => None
    | S fuel => timespec_norm fuel (Timespec (tv_sec tp + 1) (tv_nsec tp - 1000000000))
    end
  else Some tp.

(** [now] is what clock_gettime(CLOCK_REALTIME) stored. *)
Definition tmr_timespec_get (fuel : nat) (now : timespec) (offset : Z) : option timespec :=
  if offset =? 0 then Some now
  else timespec_norm fuel
         (Timespec (tv_sec now + offset / 1000) (tv_nsec now + (u64 (offset * 1000000)) mod 1000000000)).

Definition inspos_handler (st : tst) (now : Z) (q : Z) (h : heap) : bool * heap :=
  (tmr_jfs (tmr_at st (le_data (le_at h q))) <=? now, h).

Definition inspos_handler_0 (st : tst) (now : Z) (q : Z) (h : heap) : bool * heap :=
  (tmr_jfs (tmr_at st (le_data (le_at h q))) >? now, h).

(** memset of a timer that is in no list. *)
Definition tmr_init (t : Z) (st : tst) : tst :=
  if t =? 0 then st
  else Tst (Heap (<[t := LE_INIT]> (h_le (t_heap st))) (h_list (t_heap st))) (<[t := TMR_INIT]> (t_tmr st)) (t_clock st).

(** Links timer [t] behind the timers that are due before or with it. *)
Definition tmr_insert (fuel : nat) (tmrl t delay : Z) (st : tst) : option tst :=
  let h := t_heap st in
  let jfs := tmr_jfs (tmr_at st t) in
  if delay =? 0 then
    '(le, _) ← list_apply fuel tmrl true (inspos_handler_0 st jfs) h;
    Some (with_heap st (if le =? 0 then list_append tmrl t t h else list_insert_before tmrl le t t h))
  else
    '(le, _) ← list_apply fuel tmrl false (inspos_handler st jfs) h;
    Some (with_heap st (if le =? 0 then list_prepend tmrl t t h else list_insert_after tmrl le t t h)).

(** The first part of tmr_startcont_dbg: out of the list, if it is in one. *)
Definition tmr_stop (t : Z) (st : tst) : tst :=
  let st := upd_tmr t (fun tm => Tmr false (tmr_llock tm) (tmr_th tm) (tmr_arg tm) (tmr_jfs tm)) st in
  if negb (tmr_th (tmr_at st t) =? 0) then with_heap st (list_unlink t (t_heap st)) else st.

(** [tmrl] is the list of the calling thread, re_tmrl_get(). *)
Definition tmr_startcont (fuel : nat) (tmrl t delay : Z) (syncnow : bool) (th arg : Z) (st : tst) : option tst :=
  if (t =? 0) || (tmrl =? 0) then Some st
  else if negb (tmr_active (tmr_at st t)) && (th =? 0) then Some st
  else
    let st := upd_tmr t (fun tm => Tmr (tmr_active tm) tmrl th arg (tmr_jfs tm)) (tmr_stop t st) in
    if th =? 0 then Some (upd_tmr t (fun tm => Tmr (tmr_active tm) 0 (tmr_th tm) (tmr_arg tm) (tmr_jfs tm)) st)
    else
      let now := tmr_jiffies st in
      let st := upd_tmr t (fun tm => Tmr (tmr_active tm) (tmr_llock tm) (tmr_th tm) (tmr_arg tm)
                                       (u64 ((if syncnow then now else tmr_jfs tm) + delay))) st in
      st ← tmr_insert fuel tmrl t delay st;
      Some (upd_tmr t (fun tm => Tmr true (tmr_llock tm) (tmr_th tm) (tmr_arg tm) (tmr_jfs tm)) st).

Definition tmr_start (fuel : nat) (tmrl t delay th arg : Z) := tmr_startcont fuel tmrl t delay true th arg.
Definition tmr_continue (fuel : nat) (tmrl t delay th arg : Z) := tmr_startcont fuel tmrl t delay false th arg.
Definition tmr_cancel (fuel : nat) (tmrl t : Z) := tmr_start fuel tmrl t 0 0 0.

Definition tmr_get_expire (t : Z) (st : tst) : Z :=
  if (t =? 0) || (tmr_th (tmr_at st t) =? 0) then 0
  else let jfs := tmr_jiffies st in if tmr_jfs (tmr_at st t) >? jfs then tmr_jfs (tmr_at st t) - jfs else 0.

Definition tmr_next_timeout (tmrl : Z) (st : tst) : Z :=
  let jif := tmr_jiffies st in
  if tmrl =? 0 then 0
  else
    let t := list_ledata (l_head (list_at (t_heap st) tmrl)) (t_heap st) in
    if t =? 0 then 0
    else if tmr_jfs (tmr_at st t) <=? jif then 1 else tmr_jfs (tmr_at st t) - jif.

Definition tmrl_count (tmrl : Z) (st : tst) : Z := if tmrl =? 0 then 0 else list_count tmrl (t_heap st).

(** What a handler does: it starts and cancels timers while time passes. *)
Inductive top :=
  | Start (tmrl t delay th arg : Z)
  | Continue (tmrl t delay th arg : Z)
  | Cancel (tmrl t : Z)
  | Tick (now : option timespec).

Definition trun (fuel : nat) (op : top) (st : tst) : option tst :=
  match op with
  | Start tmrl t delay th arg => tmr_start fuel tmrl t delay th arg st
  | Continue tmrl t delay th arg => tmr_continue fuel tmrl t delay th arg st
  | Cancel tmrl t => tmr_cancel fuel tmrl t st
  | Tick now => Some (Tst (t_heap st) (t_tmr st) now)
  end.

Fixpoint truns (fuel : nat) (ops : list top) (st : tst) : option tst :=
  match ops with
  | [] => Some st
  | op :: ops => st ← trun fuel op st; truns fuel ops st
  end.

(** The loop of tmr_poll, with the calls it makes; [n] is the fuel of the
    searches in lists. *)
Fixpoint poll_loop (fuel n : nat) (handler : Z -> Z -> tst -> list top) (jfs tmrl : Z) (st : tst)
  : option (list (Z * Z) * tst) :=
  match fuel with
  | O => None
  | S fuel =>
      let t := list_ledata (l_head (list_at (t_heap st) tmrl)) (t_heap st) in
      if (t =? 0) || (tmr_jfs (tmr_at st t) >? jfs) then Some ([], st)
      else
        let th := tmr_th (tmr_at st t) in
        let arg := tmr_arg (tmr_at st t) in
        let st := upd_tmr t (fun tm => Tmr (tmr_active tm) (tmr_llock tm) 0 (tmr_arg tm) (tmr_jfs tm)) st in
        let st := with_heap st (list_unlink t (t_heap st)) in
        if th =? 0 then poll_loop fuel n handler jfs tmrl st
        else
          st ← truns n (handler th arg st) st;
          '(calls, st) ← poll_loop fuel n handler jfs tmrl st;
          Some ((th, arg) :: calls, st)
  end.

Definition tmr_poll (fuel n : nat) (handler : Z -> Z -> tst -> list top) (tmrl : Z) (st : tst)
  : option (list (Z * Z) * tst) :=
  let jfs := tmr_jiffies st in
  if tmrl =? 0 then Some ([], st) else poll_loop fuel n handler jfs tmrl st.
