(* ===== verification/TmrSpec.v ===== *)
(** * Timers: ordering, polling and the invariant

    The lists of timers of a process are in order of their deadlines and hold
    exactly the armed timers, whatever happens; tmr_poll calls what is due, in
    order, and returns when the handlers start timers only for later. *)

From Stdlib Require Import ZArith Lia Sorted.
From stdpp Require Import base numbers list gmap sorting.
From S2P Require Import Prelude LinkedList ListSpec Tmr.

Open Scope Z_scope.

(** ** Queues of timers *)

(** A timer is put behind everything due no later. *)
Fixpoint ins (jf : Z -> Z) (j t : Z) (xs : list (Z * Z)) : list (Z * Z) :=
  match xs with
  | [] => [(t, t)]
  | x :: xs => if jf x.1 <=? j then x :: ins jf j t xs else (t, t) :: x :: xs
  end.

Lemma ins_mid jf j t a b :
  Forall (fun x => jf x.1 <= j) a -> Forall (fun x => j < jf x.1) b -> ins jf j t (a ++ b) = a ++ (t, t) :: b.
Proof.
  intros Ha Hb. induction Ha as [|x a Hx _ IH]; cbn.
  - destruct Hb as [|y b Hy _]; [done|]. cbn. by rewrite (proj2 (Z.leb_gt _ _)).
  - rewrite (proj2 (Z.leb_le _ _)) by done. by rewrite IH.
Qed.

Lemma ins_perm jf j t xs : ins jf j t xs ≡ₚ (t, t) :: xs.
Proof.
  induction xs as [|x xs IH]; cbn; [done|]. destruct (jf x.1 <=? j); [|done]. rewrite IH. apply Permutation_swap.
Qed.

Definition by_jfs (jf : Z -> Z) (x y : Z * Z) : Prop := jf x.1 <= jf y.1.

Lemma ins_sorted jf t xs : StronglySorted (by_jfs jf) xs -> StronglySorted (by_jfs jf) (ins jf (jf t) t xs).
Proof.
  induction 1 as [|x xs Hs IH Hx]; cbn; [by repeat constructor|]. destruct (Z.leb_spec (jf x.1) (jf t)).
  - constructor; [done|]. rewrite ins_perm. by constructor.
  - constructor; [by constructor|]. constructor; [unfold by_jfs; cbn; lia|]. eapply Forall_impl; [exact Hx|].
    unfold by_jfs. cbn. lia.
Qed.

(** ** The invariant *)

Definition jf (st : tst) (t : Z) : Z := tmr_jfs (tmr_at st t).

(** Exactly the armed timers are in a list, each in the one it was started on,
    and every list is in order of the deadlines. *)
Record timers (st : tst) (S : lists) : Prop := {
  tm_world : world (t_heap st) S;
  tm_dom : forall t, is_Some (t_tmr st !! t) -> t <> 0 /\ t ∈ dom (h_le (t_heap st));
  tm_member : forall l xs t d, S !! l = Some xs -> (t, d) ∈ xs ->
    d = t /\ exists tm, t_tmr st !! t = Some tm /\ tmr_th tm <> 0 /\ tmr_active tm = true /\ tmr_llock tm = l;
  tm_armed : forall t tm, t_tmr st !! t = Some tm -> tmr_th tm <> 0 -> linked S t;
  tm_sorted : forall l xs, S !! l = Some xs -> StronglySorted (by_jfs (jf st)) xs;
  tm_size : Z.of_nat (size (t_tmr st)) < 2 ^ 32;
}.

Lemma sorted_filter (R : Z * Z -> Z * Z -> Prop) (P : Z * Z -> Prop) `{forall x, Decision (P x)} xs :
  StronglySorted R xs -> StronglySorted R (filter P xs).
Proof.
  induction 1 as [|x xs _ IH Hx]; [constructor|]. rewrite filter_cons. destruct (decide (P x)); [|done].
  constructor; [done|]. apply Forall_forall. intros y [_ Hy]%list_elem_of_filter. by apply (proj1 (Forall_forall _ _) Hx).
Qed.

Lemma sorted_ext (R R' : Z * Z -> Z * Z -> Prop) xs :
  (forall x y, x ∈ xs -> y ∈ xs -> R x y -> R' x y) -> StronglySorted R xs -> StronglySorted R' xs.
Proof.
  intros HR. induction 1 as [|x xs Hs IH Hx]; [constructor|]. constructor.
  - apply IH. intros a b Ha Hb. apply HR; by apply elem_of_cons; right.
  - apply Forall_forall. intros y Hy. apply HR; [by apply elem_of_cons; left|by apply elem_of_cons; right|].
    by apply (proj1 (Forall_forall _ _) Hx).
Qed.

Lemma tmr_at_insert st t tm q : tmr_at (Tst (t_heap st) (<[t := tm]> (t_tmr st)) (t_clock st)) q
  = if decide (q = t) then tm else tmr_at st q.
Proof.
  unfold tmr_at. cbn. destruct (decide (q = t)) as [->|Hne]; [by rewrite lookup_insert_eq|by rewrite lookup_insert_ne].
Qed.

Lemma jf_other st st' t tm q : t_tmr st' = <[t := tm]> (t_tmr st) -> q <> t -> jf st' q = jf st q.
Proof. intros Em Hne. unfold jf, tmr_at. by rewrite Em, lookup_insert_ne. Qed.

(** The timers other than [t], after [t] was taken out. *)
Lemma rm_sorted st st' t tm S l xs :
  timers st S -> t_tmr st' = <[t := tm]> (t_tmr st) -> rm t S !! l = Some xs ->
  StronglySorted (by_jfs (jf st')) xs /\ t ∉ xs.*1.
Proof.
  intros Ht Em HS. split.
  - apply rm_lookup in HS as (ys & HS & ->). eapply sorted_ext; [|eapply sorted_filter, tm_sorted; eassumption].
    intros x y [Hx _]%list_elem_of_filter [Hy _]%list_elem_of_filter. unfold by_jfs. by rewrite !(jf_other st st' t tm).
  - intros Hin. apply (rm_not_linked t S). by exists l, xs.
Qed.

Lemma rm_armed st t tm q S :
  timers st S -> t_tmr st !! q = Some tm -> tmr_th tm <> 0 -> q <> t -> linked (rm t S) q.
Proof.
  intros Ht Hq Hth Hne. destruct (tm_armed _ _ Ht _ _ Hq Hth) as (l & xs & HS & Hin).
  exists l, (filter (fun x => x.1 <> t) xs). split; [unfold rm; by rewrite lookup_fmap, HS|].
  apply list_elem_of_fmap in Hin as (x & -> & Hx). apply list_elem_of_fmap. exists x. split; [done|]. by apply list_elem_of_filter.
Qed.

Lemma rm_member st t S l xs q d :
  timers st S -> rm t S !! l = Some xs -> (q, d) ∈ xs ->
  q <> t /\ d = q /\ exists tm, t_tmr st !! q = Some tm /\ tmr_th tm <> 0 /\ tmr_active tm = true /\ tmr_llock tm = l.
Proof.
  intros Ht HS Hin. apply rm_lookup in HS as (ys & HS & ->). apply list_elem_of_filter in Hin as [Hne Hin].
  split; [done|]. by eapply tm_member.
Qed.

Lemma size_update (st : tst) t tm : is_Some (t_tmr st !! t) -> size (<[t := tm]> (t_tmr st)) = size (t_tmr st).
Proof. apply map_size_insert_Some. Qed.

(** A timer that is disarmed. *)
Lemma timers_idle st st' S t tm :
  timers st S -> is_Some (t_tmr st !! t) -> world (t_heap st') (rm t S) -> dom (h_le (t_heap st')) = dom (h_le (t_heap st)) ->
  t_tmr st' = <[t := tm]> (t_tmr st) -> tmr_th tm = 0 -> timers st' (rm t S).
Proof.
  intros Ht Hin Hw Hdom Em Hth. split; [done| | | | |].
  - intros q Hq. rewrite Hdom. apply (tm_dom _ _ Ht). rewrite Em in Hq. destruct (decide (q = t)) as [->|Hne]; [done|].
    by rewrite lookup_insert_ne in Hq.
  - intros l xs q d HS Hq. destruct (rm_member st t S l xs q d Ht HS Hq) as (Hne & -> & x & Hx). split; [done|].
    exists x. by rewrite Em, lookup_insert_ne.
  - intros q x Hq Hx. rewrite Em in Hq. destruct (decide (q = t)) as [->|Hne].
    + rewrite lookup_insert_eq in Hq. by injection Hq as <-.
    + rewrite lookup_insert_ne in Hq by done. by eapply rm_armed.
  - intros l xs HS. by eapply (proj1 (rm_sorted st st' t tm S l xs Ht Em HS)).
  - rewrite Em, size_update by done. apply Ht.
Qed.

(** A timer that is armed. *)
Lemma timers_armed st st' S t tm l xs :
  timers st S -> is_Some (t_tmr st !! t) -> rm t S !! l = Some xs ->
  world (t_heap st') (<[l := ins (jf st') (tmr_jfs tm) t xs]> (rm t S)) -> dom (h_le (t_heap st')) = dom (h_le (t_heap st)) ->
  t_tmr st' = <[t := tm]> (t_tmr st) -> tmr_th tm <> 0 -> tmr_active tm = true -> tmr_llock tm = l ->
  timers st' (<[l := ins (jf st') (tmr_jfs tm) t xs]> (rm t S)).
Proof.
  intros Ht Hin HS Hw Hdom Em Hth Hact Hlk. assert (Ej : jf st' t = tmr_jfs tm) by (unfold jf, tmr_at; by rewrite Em, lookup_insert_eq).
  assert (Hins : forall q, q ∈ ins (jf st') (tmr_jfs tm) t xs <-> q = (t, t) \/ q ∈ xs)
    by (intros q; rewrite ins_perm; apply elem_of_cons).
  split; [done| | | | |].
  - intros q Hq. rewrite Hdom. apply (tm_dom _ _ Ht). rewrite Em in Hq. destruct (decide (q = t)) as [->|Hne]; [done|].
    by rewrite lookup_insert_ne in Hq.
  - intros l' ys q d HS' Hq. assert (Hrm : rm t S !! l' = Some ys /\ (q, d) ∈ ys \/ l' = l /\ (q, d) = (t, t) \/ rm t S !! l' = Some xs /\ (q, d) ∈ xs).
    { destruct (decide (l' = l)) as [->|Hne]; [|rewrite lookup_insert_ne in HS' by done; tauto].
      rewrite lookup_insert_eq in HS'. injection HS' as <-. apply Hins in Hq as [Hq|Hq]; tauto. }
    assert (Hold : forall zs, rm t S !! l' = Some zs -> (q, d) ∈ zs -> d = q /\ exists x, t_tmr st' !! q = Some x
      /\ tmr_th x <> 0 /\ tmr_active x = true /\ tmr_llock x = l').
    { intros zs Hz Hqz. destruct (rm_member st t S l' zs q d Ht Hz Hqz) as (Hne & -> & x & Hx). split; [done|].
      exists x. by rewrite Em, lookup_insert_ne. }
    destruct Hrm as [[H1 H2]|[[-> [= -> ->]]|[H1 H2]]]; [by eapply Hold| |by eapply Hold].
    split; [done|]. exists tm. by rewrite Em, lookup_insert_eq.
  - intros q x Hq Hx. rewrite Em in Hq. destruct (decide (q = t)) as [->|Hne].
    + exists l, (ins (jf st') (tmr_jfs tm) t xs). split; [apply lookup_insert_eq|]. apply list_elem_of_fmap. exists (t, t).
      split; [done|]. apply Hins. by left.
    + rewrite lookup_insert_ne in Hq by done. destruct (rm_armed st t x q S Ht Hq Hx Hne) as (l' & ys & HS' & Hin').
      destruct (decide (l' = l)) as [->|Hnl]; [|exists l', ys; by rewrite lookup_insert_ne].
      exists l, (ins (jf st') (tmr_jfs tm) t xs). split; [apply lookup_insert_eq|]. rewrite HS in HS'. injection HS' as ->.
      apply list_elem_of_fmap in Hin' as (y & -> & Hy). apply list_elem_of_fmap. exists y. split; [done|]. apply Hins. by right.
  - intros l' ys HS'. destruct (decide (l' = l)) as [->|Hne].
    + rewrite lookup_insert_eq in HS'. injection HS' as <-. rewrite <- Ej. apply ins_sorted.
      by eapply (proj1 (rm_sorted st st' t tm S l xs Ht Em HS)).
    + rewrite lookup_insert_ne in HS' by done. by eapply (proj1 (rm_sorted st st' t tm S l' ys Ht Em HS')).
  - rewrite Em, size_update by done. apply Ht.
Qed.

(** ** Starting and cancelling *)

(** The searches of tmr_startcont_dbg, on a sorted list. *)
Lemma found_ext (P Q : Z -> bool) (xs : list (Z * Z)) : (forall x, x ∈ xs -> P x.1 = Q x.1) -> found P xs = found Q xs.
Proof.
  unfold found. induction xs as [|x xs IH]; intros HPQ; cbn; [done|].
  rewrite (HPQ x) by (apply elem_of_cons; by left). destruct (Q x.1); [done|]. apply IH. intros y Hy.
  apply HPQ, elem_of_cons. by right.
Qed.

Lemma found_later f j xs :
  (0 : Z) ∉ xs.*1 -> StronglySorted (by_jfs f) xs ->
  exists a b, xs = a ++ b /\ Forall (fun x => f x.1 <= j) a /\ Forall (fun x => j < f x.1) b
    /\ found (fun q => f q >? j) xs = first_or 0 b.
Proof.
  intros H0 Hs. destruct (found_spec (fun q => f q >? j) xs H0) as [[E HP]|(a & x & b & -> & E & Hx & HPx & HP)].
  - exists xs, []. rewrite app_nil_r. split_and!; [done| |constructor|done].
    eapply Forall_impl; [exact HP|]. intros y Hy. cbv beta in Hy. by bool_prop.
  - exists a, (x :: b). bool_prop. split_and!; [done| | |done].
    + eapply Forall_impl; [exact HP|]. intros y Hy. cbv beta in Hy. by bool_prop.
    + apply StronglySorted_app_1_r, StronglySorted_inv in Hs as [_ Hb]. constructor; [done|].
      eapply Forall_impl; [exact Hb|]. unfold by_jfs. intros y. cbn. lia.
Qed.

Lemma found_earlier f j xs :
  (0 : Z) ∉ xs.*1 -> StronglySorted (by_jfs f) xs ->
  exists a b, xs = a ++ b /\ Forall (fun x => f x.1 <= j) a /\ Forall (fun x => j < f x.1) b
    /\ found (fun q => f q <=? j) (rev xs) = last_or 0 a.
Proof.
  intros H0 Hs. induction xs as [|x xs IH] using rev_ind; [by exists [], []|].
  rewrite fmap_app, not_elem_of_app in H0. destruct H0 as [H0 _].
  unfold found. rewrite rev_unit. cbn [List.find]. destruct (f x.1 <=? j) eqn:Ex; bool_prop.
  - exists (xs ++ [x]), []. rewrite app_nil_r, last_or_app. split_and!; [done| |constructor|done].
    apply Forall_app. split; [|by constructor]. apply Forall_forall. intros y Hy.
    assert (Hyx : by_jfs f y x).
    { apply (StronglySorted_app_1_elem_of _ xs [x]); [done|done|]. by apply list_elem_of_singleton. }
    unfold by_jfs in Hyx. lia.
  - destruct (IH H0 (StronglySorted_app_1_l _ _ _ Hs)) as (a & b & -> & Ha & Hb & E).
    exists a, (b ++ [x]). rewrite app_assoc. split_and!; [done|done| |exact E]. apply Forall_app. split; [done|]. by constructor.
Qed.

(** Linking between the parts of a list. *)
Lemma tmr_link_world h S l a b t :
  world h S -> S !! l = Some (a ++ b) -> ~ linked S t -> t <> 0 -> t ∈ dom (h_le h) -> zlength (a ++ b) + 1 < 2 ^ 32 ->
  (first_or 0 b <> 0 -> world (list_insert_before l (first_or 0 b) t t h) (<[l := a ++ (t, t) :: b]> S))
  /\ (first_or 0 b = 0 -> world (list_append l t t h) (<[l := a ++ (t, t) :: b]> S))
  /\ (last_or 0 a <> 0 -> world (list_insert_after l (last_or 0 a) t t h) (<[l := a ++ (t, t) :: b]> S))
  /\ (last_or 0 a = 0 -> world (list_prepend l t t h) (<[l := a ++ (t, t) :: b]> S)).
Proof.
  intros Hw HS Hn Ht Hdom Hc. pose proof (repr_not_null _ _ _ (w_repr _ _ Hw _ _ HS)) as H0.
  rewrite fmap_app, not_elem_of_app in H0. destruct H0 as [Ha Hb]. split_and!.
  - intros Hf. destruct b as [|[q d] b]; [done|]. by apply (lrun_refines h S (InsertBefore l q t t)); [|apply spec_before| |].
  - intros Hf. destruct b as [|x b]; [|cbn in *; rewrite Hf, not_elem_of_cons in Hb; tauto]. rewrite app_nil_r in *.
    by apply (lrun_refines h S (Append l t t)); [|apply spec_append| |].
  - intros Hl. destruct a as [|[q d] a _] using rev_ind; [done|]. rewrite last_or_app, <- !app_assoc in *. cbn.
    by apply (lrun_refines h S (InsertAfter l q t t)); [|apply (spec_after S l q d t t a b)| |].
  - intros Hl. destruct a as [|x a _] using rev_ind.
    + by apply (lrun_refines h S (Prepend l t t)); [|apply spec_prepend| |].
    + rewrite last_or_app in Hl. cbn in Hl. rewrite fmap_app, not_elem_of_app in Ha. destruct Ha as [_ Ha].
      cbn in Ha. rewrite Hl, not_elem_of_cons in Ha. tauto.
Qed.

(** The two searches of tmr_startcont_dbg end at the same place. *)
Lemma tmr_insert_world fuel l t delay st S xs :
  world (t_heap st) S -> S !! l = Some xs -> ~ linked S t -> t <> 0 -> t ∈ dom (h_le (t_heap st)) ->
  (forall q d, (q, d) ∈ xs -> d = q) -> StronglySorted (by_jfs (jf st)) xs -> zlength xs + 1 < 2 ^ 32 -> (length xs < fuel)%nat ->
  exists h', tmr_insert fuel l t delay st = Some (with_heap st h')
    /\ world h' (<[l := ins (jf st) (jf st t) t xs]> S) /\ dom (h_le h') = dom (h_le (t_heap st)).
Proof.
  intros Hw HS Hn Ht Hdom Hd Hs Hc Hf. pose proof (w_repr _ _ Hw _ _ HS) as Hr. pose proof (repr_not_null _ _ _ Hr) as H0.
  assert (Hdata : forall x, x ∈ xs -> le_data (le_at (t_heap st) x.1) = x.1).
  { intros [q d] Hx. pose proof (Hd _ _ Hx) as ->. apply list_elem_of_split in Hx as (a & b & ->). unfold le_at.
    cbn [fst]. by rewrite (proj2 (repr_at _ _ _ _ _ _ Hr)). }
  unfold tmr_insert. change (tmr_jfs (tmr_at st t)) with (jf st t). destruct (delay =? 0).
  - rewrite (list_apply_found _ (inspos_handler_0 st (jf st t)) _ (fun q => eq_refl) fuel l true xs Hr Hf). cbn [mbind option_bind].
    rewrite (found_ext _ (fun q => jf st q >? jf st t) xs) by (intros x Hx; by rewrite (Hdata x Hx)).
    destruct (found_later (jf st) (jf st t) xs H0 Hs) as (a & b & -> & Ha & Hb & ->). rewrite ins_mid by done.
    destruct (tmr_link_world _ _ _ _ _ _ Hw HS Hn Ht Hdom Hc) as (H1 & H2 & _). eexists. split; [done|].
    destruct (Z.eqb_spec (first_or 0 b) 0); (split; [by auto|]);
      [apply (lrun_dom (Append l t t))|apply (lrun_dom (InsertBefore l (first_or 0 b) t t))].
  - rewrite (list_apply_found _ (inspos_handler st (jf st t)) _ (fun q => eq_refl) fuel l false xs Hr Hf). cbn [mbind option_bind].
    rewrite (found_ext _ (fun q => jf st q <=? jf st t) (rev xs))
      by (intros x Hx%list_elem_of_In%in_rev%list_elem_of_In; by rewrite (Hdata x Hx)).
    destruct (found_earlier (jf st) (jf st t) xs H0 Hs) as (a & b & -> & Ha & Hb & ->). rewrite ins_mid by done.
    destruct (tmr_link_world _ _ _ _ _ _ Hw HS Hn Ht Hdom Hc) as (_ & _ & H1 & H2). eexists. split; [done|].
    destruct (Z.eqb_spec (last_or 0 a) 0); (split; [by auto|]);
      [apply (lrun_dom (Prepend l t t))|apply (lrun_dom (InsertAfter l (last_or 0 a) t t))].
Qed.

Lemma upd_tmr_eq st t tm f :
  t_tmr st !! t = Some tm -> upd_tmr t f st = Tst (t_heap st) (<[t := f tm]> (t_tmr st)) (t_clock st).
Proof.
  intros Ht. unfold upd_tmr. f_equal. apply map_eq. intros q. destruct (decide (q = t)) as [->|Hne].
  - by rewrite lookup_alter_eq, lookup_insert_eq, Ht.
  - by rewrite lookup_alter_ne, lookup_insert_ne.
Qed.

Lemma upd_set t f h m tm c : upd_tmr t f (Tst h (<[t := tm]> m) c) = Tst h (<[t := f tm]> m) c.
Proof. rewrite (upd_tmr_eq _ t tm) by apply lookup_insert_eq. cbn. by rewrite insert_insert_eq. Qed.

Lemma unlink_rm st S t tm :
  timers st S -> t_tmr st !! t = Some tm ->
  let h := if negb (tmr_th tm =? 0) then list_unlink t (t_heap st) else t_heap st in
  world h (rm t S) /\ dom (h_le h) = dom (h_le (t_heap st)).
Proof.
  intros Ht Hin h. pose proof (tm_world _ _ Ht) as Hw. subst h. destruct (Z.eqb_spec (tmr_th tm) 0) as [E|Hne]; cbn [negb].
  - split; [|done]. rewrite rm_unlinked; [done|]. intros (l & xs & HS & Hx). apply list_elem_of_fmap in Hx as ([q d] & -> & Hx).
    destruct (tm_member _ _ Ht _ _ _ _ HS Hx) as (_ & x & Hx' & Hth & _). cbn in *. congruence.
  - destruct (tm_dom _ _ Ht t ltac:(by eexists)) as [H0 Hd]. split; [by apply unlink_world_rm|apply (lrun_dom (Unlink t))].
Qed.

Lemma tmr_stop_eq st t tm :
  t_tmr st !! t = Some tm ->
  tmr_stop t st = Tst (if negb (tmr_th tm =? 0) then list_unlink t (t_heap st) else t_heap st)
    (<[t := Tmr false (tmr_llock tm) (tmr_th tm) (tmr_arg tm) (tmr_jfs tm)]> (t_tmr st)) (t_clock st).
Proof.
  intros Ht. unfold tmr_stop. rewrite (upd_tmr_eq st t tm) by done. unfold tmr_at. cbn [t_tmr]. rewrite lookup_insert_eq.
  cbn [default tmr_th]. by destruct (negb _).
Qed.

Lemma queue_room st S l xs t :
  timers st S -> is_Some (t_tmr st !! t) -> rm t S !! l = Some xs -> (length xs < size (t_tmr st))%nat.
Proof.
  intros Ht [tm Htm] HS. pose proof (proj2 (rm_sorted st (Tst (t_heap st) (<[t := tm]> (t_tmr st)) (t_clock st)) t tm S l xs Ht eq_refl HS)) as Hnin.
  assert (Hnd : NoDup (xs.*1)).
  { apply rm_lookup in HS as (ys & HS & ->). pose proof (repr_nodup _ _ _ (w_repr _ _ (tm_world _ _ Ht) _ _ HS)) as Hys.
    eapply sublist_NoDup; [exact Hys|]. apply fmap_sublist, sublist_filter. }
  rewrite <- (length_fmap fst xs), <- (size_list_to_set (C := gset Z)), <- size_dom by done. apply subset_size.
  split.
  - intros q Hq%elem_of_list_to_set. apply list_elem_of_fmap in Hq as ([q' d] & -> & Hq).
    destruct (rm_member st t S l xs q' d Ht HS Hq) as (_ & _ & x & Hx & _). apply elem_of_dom. by eexists.
  - intros Hsub. apply Hnin. apply (elem_of_list_to_set (C := gset Z)), Hsub, elem_of_dom. by eexists.
Qed.

(** The deadline tmr_startcont_dbg sets. *)
Definition deadline (st : tst) (t delay : Z) (syncnow : bool) : Z :=
  u64 ((if syncnow then tmr_jiffies st else jf st t) + delay).

(** The queue of the list after timer [t] was (re)started with deadline [j]. *)
Definition requeue (st : tst) (t j : Z) (xs : list (Z * Z)) : list (Z * Z) :=
  ins (jf st) j t (filter (fun x => x.1 <> t) xs).

Lemma ins_ext f g j t xs : (forall x, x ∈ xs -> f x.1 = g x.1) -> ins f j t xs = ins g j t xs.
Proof.
  induction xs as [|x xs IH]; intros Hfg; cbn; [done|]. rewrite (Hfg x) by (apply elem_of_cons; by left).
  rewrite IH; [done|]. intros y Hy. apply Hfg, elem_of_cons. by right.
Qed.

Lemma startcont_spec fuel l t delay sync th arg st S xs :
  timers st S -> S !! l = Some xs -> is_Some (t_tmr st !! t) -> th <> 0 -> (size (t_tmr st) <= fuel)%nat ->
  let j := deadline st t delay sync in
  exists st', tmr_startcont fuel l t delay sync th arg st = Some st'
    /\ t_tmr st' = <[t := Tmr true l th arg j]> (t_tmr st) /\ t_clock st' = t_clock st
    /\ timers st' (<[l := requeue st t j xs]> (rm t S)).
Proof.
  intros Ht HS [tm Htm] Hth Hf j. destruct (tm_dom _ _ Ht t ltac:(by eexists)) as [H0 Hdom].
  assert (Hl : l <> 0) by apply (w_repr _ _ (tm_world _ _ Ht) _ _ HS).
  assert (HS' : rm t S !! l = Some (filter (fun x => x.1 <> t) xs)) by (unfold rm; by rewrite lookup_fmap, HS).
  destruct (unlink_rm st S t tm Ht Htm) as [Hw Hd]. pose proof (queue_room _ _ _ _ t Ht ltac:(by eexists) HS') as Hroom.
  pose proof (tm_size _ _ Ht) as Hsz. unfold tmr_startcont.
  rewrite (proj2 (Z.eqb_neq t 0)), (proj2 (Z.eqb_neq l 0)), (proj2 (Z.eqb_neq th 0)), andb_false_r by done. cbn [orb].
  set (h := if negb (tmr_th tm =? 0) then list_unlink t (t_heap st) else t_heap st) in *.
  set (st0 := Tst h (<[t := Tmr false l th arg j]> (t_tmr st)) (t_clock st)).
  match goal with |- exists st', mbind _ (tmr_insert _ _ _ _ ?s) = _ /\ _ => assert (Es : s = st0) end.
  { rewrite (tmr_stop_eq st t tm Htm). fold h. rewrite !upd_set. unfold st0. do 3 f_equal. cbn [tmr_jfs]. unfold j, deadline, jf, tmr_at. by rewrite Htm. }
  rewrite Es. clear Es.
  assert (Hjf : forall q, q <> t -> jf st0 q = jf st q) by (intros q; by apply (jf_other st st0 t (Tmr false l th arg j))).
  assert (Hjt : jf st0 t = j) by (unfold jf, tmr_at, st0; cbn; by rewrite lookup_insert_eq).
  destruct (tmr_insert_world fuel l t delay st0 (rm t S) _ Hw HS') as (h' & -> & Hw' & Hd'); try done.
  - apply rm_not_linked.
  - cbn. by rewrite Hd.
  - intros q d Hq. by destruct (rm_member st t S l _ q d Ht HS' Hq) as (_ & -> & _).
  - by apply (proj1 (rm_sorted st st0 t _ S l _ Ht eq_refl HS')).
  - unfold zlength. lia.
  - lia.
  - cbn [mbind option_bind]. eexists. split; [done|].
    unfold with_heap, st0. cbn [t_tmr t_clock]. rewrite upd_set. cbn [tmr_llock tmr_th tmr_arg tmr_jfs]. split; [done|]. split; [done|].
    assert (Eq : requeue st t j xs = ins (jf (Tst h' (<[t := Tmr true l th arg j]> (t_tmr st)) (t_clock st))) j t (filter (fun x => x.1 <> t) xs)).
    { unfold requeue. apply ins_ext. intros x [Hx _]%list_elem_of_filter. symmetry. by apply (jf_other st _ t (Tmr true l th arg j)). }
    rewrite Eq. apply (timers_armed st _ S t (Tmr true l th arg j) l); try done.
    + cbn [t_heap tmr_jfs]. rewrite <- Eq. unfold requeue. rewrite Hjt in Hw'. erewrite ins_ext; [exact Hw'|].
      intros x [Hx _]%list_elem_of_filter. symmetry. by apply Hjf.
    + cbn. rewrite Hd'. exact Hd.
Qed.

Lemma cancel_spec fuel l t st S :
  timers st S -> l <> 0 -> is_Some (t_tmr st !! t) ->
  exists st', tmr_cancel fuel l t st = Some st' /\ timers st' (rm t S) /\ t_clock st' = t_clock st
    /\ exists tm, t_tmr st' = <[t := tm]> (t_tmr st).
Proof.
  intros Ht Hl [tm Htm]. destruct (tm_dom _ _ Ht t ltac:(by eexists)) as [H0 _]. unfold tmr_cancel, tmr_start, tmr_startcont.
  rewrite (proj2 (Z.eqb_neq t 0)), (proj2 (Z.eqb_neq l 0)) by done. cbn [orb Z.eqb]. rewrite andb_true_r.
  assert (Eat : tmr_at st t = tm) by (unfold tmr_at; by rewrite Htm). rewrite Eat. destruct (tmr_active tm) eqn:Ea; cbn [negb].
  - eexists. split; [done|]. rewrite (tmr_stop_eq st t tm Htm), !upd_set.
    destruct (unlink_rm st S t tm Ht Htm) as [Hw Hd]. split; [|split; [done|by eexists]].
    by eapply (timers_idle st _ S t _ Ht).
  - exists st. split; [done|]. rewrite rm_unlinked; [|].
    + split; [done|]. split; [done|]. exists tm. by rewrite insert_id.
    + intros (l' & xs & HS & Hx). apply list_elem_of_fmap in Hx as ([q d] & -> & Hx).
      destruct (tm_member _ _ Ht _ _ _ _ HS Hx) as (_ & x & Hx' & _ & Ha & _). cbn in *. congruence.
Qed.

(** ** Sequences of operations *)

(** The calls that are due at time [now], in the order of the queue. *)
Definition due_calls (st : tst) (now : Z) (xs : list (Z * Z)) : list (Z * Z) :=
  (fun x => (tmr_th (tmr_at st x.1), tmr_arg (tmr_at st x.1))) <$> filter (fun x => jf st x.1 <= now) xs.

Lemma due_calls_ext st st' now xs :
  (forall x, x ∈ xs -> tmr_at st' x.1 = tmr_at st x.1) -> due_calls st' now xs = due_calls st now xs.
Proof.
  unfold due_calls, jf. induction xs as [|x xs IH]; intros Hx; [done|]. rewrite !filter_cons.
  rewrite (Hx x) by (apply elem_of_cons; by left).
  assert (IH' := IH (fun y Hy => Hx y (proj2 (elem_of_cons _ _ _) (or_intror Hy)))). destruct (decide _); [|done].
  rewrite !fmap_cons, IH'. by rewrite (Hx x) by (apply elem_of_cons; by left).
Qed.

Lemma due_none st now xs : Forall (fun x => now < jf st x.1) xs -> due_calls st now xs = [].
Proof. unfold due_calls. induction 1 as [|x xs Hx _ IH]; [done|]. by rewrite filter_cons_False by lia. Qed.

Lemma due_calls_filter st now t xs : due_calls st now (filter (fun x => x.1 <> t) xs) `sublist_of` due_calls st now xs.
Proof.
  unfold due_calls. apply fmap_sublist. induction xs as [|x xs IH]; [done|]. rewrite (filter_cons (fun x => x.1 <> t)), (filter_cons _ x xs).
  destruct (decide (x.1 <> t)); [rewrite filter_cons|]; destruct (decide (jf st x.1 <= now)); try done;
    [by apply sublist_skip|by apply sublist_cons].
Qed.

Lemma due_calls_ins st now f j t xs : now < jf st t -> due_calls st now (ins f j t xs) = due_calls st now xs.
Proof.
  intros Hn. unfold due_calls. f_equal. induction xs as [|x xs IH]; cbn [ins].
  - by rewrite filter_cons_False by (cbn; lia).
  - destruct (f x.1 <=? j); [by rewrite !(filter_cons _ x), IH|]. by rewrite filter_cons_False by (cbn; lia).
Qed.

Section Machine.
(** Timers and lists of a process. *)
Context (D Ls : gset Z) (n : nat).

(** An operation of a handler that polls at [now]: on known timers and lists,
    with deadlines after [now]. *)
Definition op_ok (now : Z) (st : tst) (op : top) : Prop :=
  match op with
  | Start l t delay th arg => l ∈ Ls /\ t ∈ D /\ th <> 0 /\ now < deadline st t delay true
  | Continue l t delay th arg => l ∈ Ls /\ t ∈ D /\ th <> 0 /\ now < deadline st t delay false
  | Cancel l t => l ∈ Ls /\ t ∈ D
  | Tick _ => True
  end.

Fixpoint ops_ok (now : Z) (ops : list top) (st : tst) : Prop :=
  match ops with
  | [] => True
  | op :: ops => op_ok now st op /\ forall st', trun n op st = Some st' -> ops_ok now ops st'
  end.

Lemma ops_ok_any ops : Forall (fun op => match op with
  | Start l t _ th _ | Continue l t _ th _ => l ∈ Ls /\ t ∈ D /\ th <> 0
  | Cancel l t => l ∈ Ls /\ t ∈ D
  | Tick _ => True
  end) ops -> forall st, ops_ok (-1) ops st.
Proof.
  induction 1 as [|op ops Hop _ IH]; intros st; [done|]. split; [|by auto].
  assert (Hd : forall t delay sync, -1 < deadline st t delay sync).
  { intros t delay sync. unfold deadline. pose proof (wrap_range 64 ((if sync then tmr_jiffies st else jf st t) + delay) ltac:(lia)). lia. }
  destruct op; cbn; auto; destruct Hop as (? & ? & ?); auto.
Qed.

(** The timers and lists are the known ones, and well kept. *)
Definition good (st : tst) (S : lists) : Prop := timers st S /\ dom S = Ls /\ dom (t_tmr st) = D /\ (size D <= n)%nat.

(** Nothing new becomes due. *)
Definition fewer (now : Z) (st : tst) (S : lists) (st' : tst) (S' : lists) : Prop :=
  forall l xs, S !! l = Some xs -> exists xs', S' !! l = Some xs' /\ due_calls st' now xs' `sublist_of` due_calls st now xs.

Lemma fewer_trans now st S st1 S1 st2 S2 : fewer now st S st1 S1 -> fewer now st1 S1 st2 S2 -> fewer now st S st2 S2.
Proof.
  intros H1 H2 l xs HS. destruct (H1 l xs HS) as (ys & HS1 & Hy). destruct (H2 l ys HS1) as (zs & HS2 & Hz).
  exists zs. split; [done|]. by etransitivity.
Qed.

Lemma tmr_at_other st st' t tm q : t_tmr st' = <[t := tm]> (t_tmr st) -> q <> t -> tmr_at st' q = tmr_at st q.
Proof. intros Em Hne. unfold tmr_at. by rewrite Em, lookup_insert_ne. Qed.

Lemma due_rm st st' t tm now xs :
  t_tmr st' = <[t := tm]> (t_tmr st) ->
  due_calls st' now (filter (fun x => x.1 <> t) xs) `sublist_of` due_calls st now xs.
Proof.
  intros Em. rewrite (due_calls_ext st st').
  - apply due_calls_filter.
  - intros x [Hx _]%list_elem_of_filter. by eapply tmr_at_other.
Qed.

Lemma dom_update st st' t tm : t ∈ dom (t_tmr st) -> t_tmr st' = <[t := tm]> (t_tmr st) -> dom (t_tmr st') = dom (t_tmr st).
Proof. intros Ht ->. rewrite dom_insert_L. set_solver. Qed.

Lemma startcont_good now l t delay sync th arg st S :
  good st S -> l ∈ Ls -> t ∈ D -> th <> 0 -> now < deadline st t delay sync ->
  exists st' S', tmr_startcont n l t delay sync th arg st = Some st' /\ good st' S' /\ fewer now st S st' S'.
Proof.
  intros (Ht & HL & HD & Hn) Hl Htd Hth Hnow. rewrite <- HL in Hl. rewrite <- HD in Htd.
  pose proof Hl as [xs HS]%elem_of_dom. pose proof Htd as Hin%elem_of_dom.
  destruct (startcont_spec n l t delay sync th arg st S xs Ht HS Hin Hth ltac:(by rewrite <- size_dom, HD)) as (st' & E & Em & _ & Ht').
  set (j := deadline st t delay sync) in *. assert (Ej : jf st' t = j) by (unfold jf, tmr_at; by rewrite Em, lookup_insert_eq).
  exists st', (<[l := requeue st t j xs]> (rm t S)). split; [done|]. split; [split_and!; [done| | |done]|].
  - rewrite dom_insert_L, dom_rm. set_solver.
  - by rewrite (dom_update st st' t _ Htd Em).
  - intros l' ys HS'. destruct (decide (l' = l)) as [->|Hne].
    + exists (requeue st t j xs). split; [apply lookup_insert_eq|]. rewrite HS in HS'. injection HS' as <-. unfold requeue.
      rewrite due_calls_ins by (by rewrite Ej). by eapply due_rm.
    + exists (filter (fun x => x.1 <> t) ys). rewrite lookup_insert_ne by done. unfold rm. rewrite lookup_fmap, HS'.
      split; [done|]. by eapply due_rm.
Qed.

Lemma trun_good now op st S :
  good st S -> op_ok now st op -> exists st' S', trun n op st = Some st' /\ good st' S' /\ fewer now st S st' S'.
Proof.
  intros Hg Hop. destruct op as [l t delay th arg|l t delay th arg|l t|c]; cbn [op_ok trun] in *.
  - destruct Hop as (Hl & Ht & Hth & Hd). by apply startcont_good.
  - destruct Hop as (Hl & Ht & Hth & Hd). by apply startcont_good.
  - destruct Hop as [Hl Htd], Hg as (Ht & HL & HD & Hn). rewrite <- HL in Hl. rewrite <- HD in Htd.
    pose proof Hl as [xs HS]%elem_of_dom. pose proof Htd as Hin%elem_of_dom.
    assert (Hl0 : l <> 0) by apply (w_repr _ _ (tm_world _ _ Ht) _ _ HS).
    destruct (cancel_spec n l t st S Ht Hl0 Hin) as (st' & E & Ht' & _ & tm & Em). exists st', (rm t S).
    split; [done|]. split; [split_and!; [done|by rewrite dom_rm|by rewrite (dom_update st st' t tm)|done]|].
    intros l' ys HS'. exists (filter (fun x => x.1 <> t) ys). unfold rm. rewrite lookup_fmap, HS'. split; [done|]. by eapply due_rm.
  - exists (Tst (t_heap st) (t_tmr st) c), S. split; [done|]. destruct Hg as ([H1 H2 H3 H4 H5 H6] & HL & HD & Hn).
    split; [split; [by split|done]|]. intros l xs HS. by exists xs.
Qed.

Lemma truns_good now ops : forall st S,
  good st S -> ops_ok now ops st -> exists st' S', truns n ops st = Some st' /\ good st' S' /\ fewer now st S st' S'.
Proof.
  induction ops as [|op ops IH]; intros st S Hg Hok; cbn [truns ops_ok] in *.
  - exists st, S. split; [done|]. split; [done|]. intros l xs HS. by exists xs.
  - destruct Hok as [Hop Hops]. destruct (trun_good now op st S Hg Hop) as (st1 & S1 & E1 & Hg1 & Hf1). rewrite E1. cbn [mbind option_bind].
    destruct (IH st1 S1 Hg1 (Hops st1 E1)) as (st2 & S2 & E2 & Hg2 & Hf2). exists st2, S2. split; [done|]. split; [done|].
    by eapply fewer_trans.
Qed.
(** The head of a queue, as tmr_poll sees it. *)
Lemma queue_head st S l xs :
  timers st S -> S !! l = Some xs -> list_ledata (l_head (list_at (t_heap st) l)) (t_heap st) = first_or 0 xs.
Proof.
  intros Ht HS. pose proof (w_repr _ _ (tm_world _ _ Ht) _ _ HS) as Hr. rewrite (repr_list_at _ _ _ Hr). cbn [l_head].
  destruct xs as [|[t d] xs]; [done|]. cbn [first_or fst]. destruct (repr_at _ _ [] _ _ _ Hr) as [H0 Eq].
  unfold list_ledata, le_at. rewrite (proj2 (Z.eqb_neq t 0)), Eq by done. cbn.
  by destruct (tm_member _ _ Ht l _ t d HS (proj2 (elem_of_cons _ _ _) (or_introl eq_refl))) as [-> _].
Qed.

(** Taking the first timer out, as tmr_poll does. *)
Definition fired (st : tst) (t : Z) : tst :=
  with_heap (upd_tmr t (fun tm => Tmr (tmr_active tm) (tmr_llock tm) 0 (tmr_arg tm) (tmr_jfs tm)) st) (list_unlink t (t_heap st)).

Lemma fire_good st S l t d xs now :
  good st S -> S !! l = Some ((t, d) :: xs) -> jf st t <= now ->
  tmr_th (tmr_at st t) <> 0 /\ good (fired st t) (rm t S) /\ rm t S !! l = Some xs
  /\ due_calls st now ((t, d) :: xs) = (tmr_th (tmr_at st t), tmr_arg (tmr_at st t)) :: due_calls (fired st t) now xs.
Proof.
  intros (Ht & HL & HD & Hn) HS Hdue. pose proof (w_repr _ _ (tm_world _ _ Ht) _ _ HS) as Hr.
  destruct (tm_member _ _ Ht l _ t d HS (proj2 (elem_of_cons _ _ _) (or_introl eq_refl))) as (-> & tm & Htm & Hth & Ha & Hlk).
  assert (Eat : tmr_at st t = tm) by (unfold tmr_at; by rewrite Htm). rewrite Eat.
  pose proof (repr_nodup _ _ _ Hr) as Hnd. rewrite fmap_cons, NoDup_cons in Hnd. destruct Hnd as [Hnin _]. cbn [fst] in Hnin.
  assert (HS' : rm t S !! l = Some xs).
  { unfold rm. rewrite lookup_fmap, HS. change (Some (filter (fun x => x.1 <> t) ((t, t) :: xs)) = Some xs).
    rewrite filter_cons_False by (cbn; tauto). by rewrite filter_ne_notin. }
  set (tm' := Tmr (tmr_active tm) (tmr_llock tm) 0 (tmr_arg tm) (tmr_jfs tm)).
  assert (Em : t_tmr (fired st t) = <[t := tm']> (t_tmr st)) by (unfold fired; by rewrite (upd_tmr_eq st t tm)).
  destruct (unlink_rm st S t tm Ht Htm) as [Hw Hd]. rewrite (proj2 (Z.eqb_neq _ 0)) in Hw, Hd by done. cbn [negb] in Hw, Hd.
  split; [done|]. split; [split_and!; [by apply (timers_idle st _ S t tm')|by rewrite dom_rm| |done]|split; [done|]].
  - rewrite (dom_update st (fired st t) t tm'); [done|by apply elem_of_dom; eexists|done].
  - unfold due_calls. rewrite filter_cons_True by done. rewrite fmap_cons. cbn [fst]. rewrite Eat. f_equal.
    symmetry. apply due_calls_ext. intros x Hx. apply (tmr_at_other st _ t tm' _ Em). intros E. apply Hnin. rewrite <- E.
    by apply list_elem_of_fmap_2.
Qed.

Lemma poll_loop_good handler now l fuel : forall st S xs,
  (forall th arg st, ops_ok now (handler th arg st) st) ->
  good st S -> S !! l = Some xs -> (length (due_calls st now xs) < fuel)%nat ->
  exists calls st' S' xs', poll_loop fuel n handler now l st = Some (calls, st') /\ good st' S'
    /\ S' !! l = Some xs' /\ Forall (fun x => now < jf st' x.1) xs' /\ calls `sublist_of` due_calls st now xs.
Proof.
  induction fuel as [|fuel IH]; intros st S xs Hh Hg HS Hf; [lia|]. cbn [poll_loop].
  rewrite (queue_head st S l xs (proj1 Hg) HS). fold (jf st (first_or 0 xs)). destruct xs as [|[t d] xs]; cbn [first_or fst].
  - exists [], st, S, []. split; [done|]. split; [done|]. split; [done|]. split; [constructor|done].
  - pose proof (tm_sorted _ _ (proj1 Hg) _ _ HS) as Hs. apply StronglySorted_inv in Hs as [_ Hs].
    assert (Ht0 : t <> 0) by apply (repr_at _ _ [] _ _ _ (w_repr _ _ (tm_world _ _ (proj1 Hg)) _ _ HS)).
    rewrite (proj2 (Z.eqb_neq t 0)) by done. cbn [orb]. destruct (jf st t >? now) eqn:Eg; bool_prop.
    + exists [], st, S, ((t, d) :: xs). split; [done|]. split; [done|]. split; [done|].
      split; [constructor; [done|]|apply sublist_nil_l]. eapply Forall_impl; [exact Hs|]. unfold by_jfs. cbn. lia.
    + destruct (fire_good st S l t d xs now Hg HS Eg) as (Hth & Hg1 & HS1 & Edue). rewrite Edue in Hf |- *.
      rewrite (proj2 (Z.eqb_neq _ 0)) by done. fold (fired st t).
      change (with_heap _ (list_unlink t _)) with (fired st t).
      destruct (truns_good now _ (fired st t) (rm t S) Hg1
        (Hh (tmr_th (tmr_at st t)) (tmr_arg (tmr_at st t)) (fired st t))) as (st2 & S2 & -> & Hg2 & Hfew). cbn [mbind option_bind].
      destruct (Hfew l xs HS1) as (xs2 & HS2 & Hsub).
      destruct (IH st2 S2 xs2 Hh Hg2 HS2) as (calls & st' & S' & xs' & -> & Hg' & HS' & Hlate & Hc).
      { apply sublist_length in Hsub. cbn in Hf. lia. }
      eexists _, st', S', xs'. split; [done|]. split; [done|]. split; [done|]. split; [done|]. apply sublist_skip. by etransitivity.
Qed.

(** When the handlers leave the timers alone, everything due is called. *)
Lemma poll_loop_all handler now l fuel : forall st S xs,
  (forall th arg st, handler th arg st = []) ->
  good st S -> S !! l = Some xs -> (length (due_calls st now xs) < fuel)%nat ->
  exists st', poll_loop fuel n handler now l st = Some (due_calls st now xs, st').
Proof.
  induction fuel as [|fuel IH]; intros st S xs Hh Hg HS Hf; [lia|]. cbn [poll_loop].
  rewrite (queue_head st S l xs (proj1 Hg) HS). fold (jf st (first_or 0 xs)). destruct xs as [|[t d] xs]; cbn [first_or fst]; [by exists st|].
  pose proof (tm_sorted _ _ (proj1 Hg) _ _ HS) as Hs. apply StronglySorted_inv in Hs as [_ Hs].
  assert (Ht0 : t <> 0) by apply (repr_at _ _ [] _ _ _ (w_repr _ _ (tm_world _ _ (proj1 Hg)) _ _ HS)).
  rewrite (proj2 (Z.eqb_neq t 0)) by done. cbn [orb]. destruct (jf st t >? now) eqn:Eg; bool_prop.
  - exists st. do 2 f_equal. symmetry. apply due_none. constructor; [done|].
    eapply Forall_impl; [exact Hs|]. unfold by_jfs. cbn. lia.
  - destruct (fire_good st S l t d xs now Hg HS Eg) as (Hth & Hg1 & HS1 & Edue). rewrite Edue in Hf |- *.
    rewrite (proj2 (Z.eqb_neq _ 0)) by done. change (with_heap _ (list_unlink t _)) with (fired st t).
    rewrite Hh. cbn [truns mbind option_bind].
    destruct (IH (fired st t) (rm t S) xs Hh Hg1 HS1 ltac:(cbn in Hf; lia)) as (st' & ->). by exists st'.
Qed.
(** The invariant does not depend on what is due. *)
Lemma poll_loop_inv handler now l fuel : forall st S calls st',
  (forall th arg st, ops_ok (-1) (handler th arg st) st) ->
  good st S -> l ∈ Ls -> poll_loop fuel n handler now l st = Some (calls, st') -> exists S', good st' S'.
Proof.
  induction fuel as [|fuel IH]; intros st S calls st' Hh Hg Hl; [done|]. cbn [poll_loop].
  pose proof Hl as Hl'. rewrite <- (proj1 (proj2 Hg)) in Hl'. apply elem_of_dom in Hl' as [xs HS].
  rewrite (queue_head st S l xs (proj1 Hg) HS). destruct xs as [|[t d] xs]; cbn [first_or fst]; [intros [= <- <-]; by exists S|].
  assert (Ht0 : t <> 0) by apply (repr_at _ _ [] _ _ _ (w_repr _ _ (tm_world _ _ (proj1 Hg)) _ _ HS)).
  rewrite (proj2 (Z.eqb_neq t 0)) by done. cbn [orb]. destruct (_ >? now); [intros [= <- <-]; by exists S|].
  destruct (fire_good st S l t d xs (jf st t) Hg HS ltac:(lia)) as (Hth & Hg1 & HS1 & _).
  rewrite (proj2 (Z.eqb_neq _ 0)) by done. change (with_heap _ (list_unlink t _)) with (fired st t).
  destruct (truns_good (-1) _ (fired st t) (rm t S) Hg1 (Hh (tmr_th (tmr_at st t)) (tmr_arg (tmr_at st t)) (fired st t)))
    as (st2 & S2 & -> & Hg2 & _). cbn [mbind option_bind].
  destruct (poll_loop fuel n handler now l st2) as [[calls' st3]|] eqn:Ep; [|done]. cbn. intros [= <- <-]. by eapply IH.
Qed.

Lemma world_reset h S p : world h S -> ~ linked S p -> world (Heap (<[p := LE_INIT]> (h_le h)) (h_list h)) S.
Proof.
  intros Hw Hn. split.
  - intros l xs HS. destruct (w_repr _ _ Hw _ _ HS) as [H1 H2 H3 H4 H5]. split; try done. eapply chain_agree; [|exact H3].
    intros q Hq. cbn. apply lookup_insert_ne. intros <-. by eapply not_linked_not_in.
  - intros q e. cbn. destruct (decide (q = p)) as [->|Hne]; [rewrite lookup_insert_eq; intros [= <-]; by left|].
    rewrite lookup_insert_ne by done. apply (w_le _ _ Hw).
Qed.

Lemma idle_not_linked st S t : timers st S -> tmr_th (tmr_at st t) = 0 -> ~ linked S t.
Proof.
  intros Ht H0 (l & xs & HS & Hx). apply list_elem_of_fmap in Hx as ([q d] & -> & Hx).
  destruct (tm_member _ _ Ht _ _ _ _ HS Hx) as (_ & x & Hx' & Hth & _). apply Hth. unfold tmr_at in H0. cbn in H0. by rewrite Hx' in H0.
Qed.

Lemma tmr_init_good st S t : good st S -> t ∈ D -> tmr_th (tmr_at st t) = 0 -> good (tmr_init t st) S.
Proof.
  intros (Ht & HL & HD & Hn) Htd H0. rewrite <- HD in Htd. pose proof Htd as Hin%elem_of_dom.
  destruct (tm_dom _ _ Ht t Hin) as [Ht0 Hle]. pose proof (idle_not_linked _ _ _ Ht H0) as Hnl.
  unfold tmr_init. rewrite (proj2 (Z.eqb_neq t 0)) by done. split_and!; [|done| |done].
  - rewrite <- (rm_unlinked t S Hnl). apply (timers_idle st _ S t TMR_INIT); try done; cbn.
    + rewrite rm_unlinked by done. apply world_reset; [apply Ht|done].
    + rewrite dom_insert_L. set_solver.
  - cbn. rewrite dom_insert_L. set_solver.
Qed.

(** A process at its start: idle timers, empty lists. *)
Definition boot (clock : option timespec) : tst :=
  Tst (Heap (gset_to_gmap LE_INIT D) (gset_to_gmap LIST_INIT Ls)) (gset_to_gmap TMR_INIT D) clock.

(** What may happen next: an operation, the initialisation of an idle timer,
    or a poll with any handlers. *)
Inductive tstep : tst -> tst -> Prop :=
  | t_op st op st' : op_ok (-1) st op -> trun n op st = Some st' -> tstep st st'
  | t_init st t : t ∈ D -> tmr_th (tmr_at st t) = 0 -> tstep st (tmr_init t st)
  | t_poll st handler l fuel calls st' :
      l ∈ Ls -> (forall th arg st, ops_ok (-1) (handler th arg st) st) ->
      tmr_poll fuel n handler l st = Some (calls, st') -> tstep st st'.

Context (HD : (0 : Z) ∉ D) (HL : (0 : Z) ∉ Ls) (Hn : (size D <= n)%nat) (Hsz : Z.of_nat (size D) < 2 ^ 32).

Lemma boot_good clock : good (boot clock) (gset_to_gmap [] Ls).
Proof.
  assert (Hnil : forall l xs, gset_to_gmap (@nil (Z * Z)) Ls !! l = Some xs -> xs = [] /\ l ∈ Ls).
  { intros l xs [Hin <-]%lookup_gset_to_gmap_Some. done. }
  split_and!; [split|by rewrite dom_gset_to_gmap|cbn; by rewrite dom_gset_to_gmap|done].
  - split.
    + intros l xs [-> Hl]%Hnil. split; [by intros ->|constructor|done| |done]. cbn. by apply lookup_gset_to_gmap_Some.
    + intros p e [_ <-]%lookup_gset_to_gmap_Some. by left.
  - intros t [x [Hin _]%lookup_gset_to_gmap_Some]. split; [by intros ->|]. cbn. by rewrite dom_gset_to_gmap.
  - intros l xs t d [-> _]%Hnil Hin. by apply elem_of_nil in Hin.
  - by intros t tm [_ <-]%lookup_gset_to_gmap_Some.
  - intros l xs [-> _]%Hnil. constructor.
  - cbn. by rewrite <- size_dom, dom_gset_to_gmap.
Qed.

Lemma tstep_good st st' S : good st S -> tstep st st' -> exists S', good st' S'.
Proof.
  intros Hg Hs. destruct Hs as [st op st1 Hop E|st t Ht H0|st handler l fuel calls st1 Hl Hh E].
  - destruct (trun_good (-1) op st S Hg Hop) as (st2 & S2 & E2 & Hg2 & _). exists S2. congruence.
  - exists S. by apply tmr_init_good.
  - unfold tmr_poll in E. rewrite (proj2 (Z.eqb_neq l 0)) in E by (by intros ->). by eapply poll_loop_inv.
Qed.

Lemma reach_good clock st : rtc tstep (boot clock) st -> exists S, good st S.
Proof.
  apply (rtc_ind_r (fun st => exists S, good st S)); [|by intros x y _ Hs [S Hg]; eapply tstep_good].
  eexists. apply boot_good.
Qed.

(** C31: whatever a process does with its timers (starting, continuing and
    cancelling them on any of its lists, from any handlers, at any time), every
    list is in order of the deadlines and holds exactly the timers that are
    armed on it. *)
Theorem tmr_invariant clock st :
  rtc tstep (boot clock) st -> exists S, timers st S /\ dom S = Ls /\ dom (t_tmr st) = D.
Proof.
  intros Hr. destruct (reach_good clock st Hr) as (S & Ht & HS & Hd & _). by exists S.
Qed.

(** C34: tmr_poll with handlers that start timers only for a later time: it
    returns after as many turns as there are timers due; each due timer is
    called at most once, in the order of the queue, and none that is due is
    left; when the handlers leave the timers alone, exactly the due ones are
    called. *)
Theorem tmr_poll_correct handler l st S xs fuel :
  let now := tmr_jiffies st in
  timers st S -> dom S = Ls -> dom (t_tmr st) = D -> S !! l = Some xs ->
  (forall th arg st, ops_ok now (handler th arg st) st) -> (length (due_calls st now xs) < fuel)%nat ->
  exists calls st' S' xs', tmr_poll fuel n handler l st = Some (calls, st') /\ timers st' S'
    /\ S' !! l = Some xs' /\ Forall (fun x => now < jf st' x.1) xs' /\ calls `sublist_of` due_calls st now xs
    /\ ((forall th arg st, handler th arg st = []) -> calls = due_calls st now xs).
Proof.
  intros now Ht HS Hd Hl Hh Hf. assert (Hg : good st S) by done.
  destruct (poll_loop_good handler now l fuel st S xs Hh Hg Hl Hf) as (calls & st' & S' & xs' & E & Hg' & HS' & Hlate & Hc).
  exists calls, st', S', xs'. unfold tmr_poll. fold now.
  rewrite (proj2 (Z.eqb_neq l 0)) by (apply (w_repr _ _ (tm_world _ _ Ht) _ _ Hl)).
  split; [done|]. split; [by apply Hg'|]. do 3 (split; [done|]). intros Hnil.
  destruct (poll_loop_all handler now l fuel st S xs Hnil Hg Hl Hf) as (st2 & E2). congruence.
Qed.
End Machine.

(** Tmr_next_timeout is the time to wait for the earliest timer of the
    list, at least 1, and 0 only when there is none. *)
Theorem tmr_next_timeout_min st S l xs :
  timers st S -> S !! l = Some xs ->
  let w := tmr_next_timeout l st in
  (w = 0 <-> xs = [])
  /\ (forall t, t ∈ xs.*1 -> w <= Z.max 1 (tmr_get_expire t st))
  /\ (xs <> [] -> exists t, t ∈ xs.*1 /\ w = Z.max 1 (tmr_get_expire t st)).
Proof.
  intros Ht HS w. assert (Hl : l <> 0) by apply (w_repr _ _ (tm_world _ _ Ht) _ _ HS).
  assert (Hexp : forall t, t ∈ xs.*1 -> tmr_get_expire t st = if jf st t >? tmr_jiffies st then jf st t - tmr_jiffies st else 0).
  { intros t Hx. apply list_elem_of_fmap in Hx as ([q d] & -> & Hx).
    destruct (tm_member _ _ Ht _ _ _ _ HS Hx) as (_ & tm & Htm & Hth & _).
    destruct (tm_dom _ _ Ht q ltac:(by eexists)) as [Hq _]. unfold tmr_get_expire. cbn [fst].
    rewrite (proj2 (Z.eqb_neq q 0)) by done. cbn [orb]. rewrite (proj2 (Z.eqb_neq _ 0)); [done|].
    unfold tmr_at. by rewrite Htm. }
  assert (Ew : w = if first_or 0 xs =? 0 then 0 else if jf st (first_or 0 xs) <=? tmr_jiffies st then 1
    else jf st (first_or 0 xs) - tmr_jiffies st).
  { unfold w, tmr_next_timeout. rewrite (proj2 (Z.eqb_neq l 0)) by done. by rewrite (queue_head st S l xs Ht HS). }
  pose proof (tm_sorted _ _ Ht _ _ HS) as Hs. destruct xs as [|[t d] xs]; cbn [first_or fst] in Ew; [by rewrite Ew; cbn; split_and!; [done|by intros ? ?%elem_of_nil|]|].
  assert (Ht0 : t <> 0) by apply (repr_at _ _ [] _ _ _ (w_repr _ _ (tm_world _ _ Ht) _ _ HS)).
  rewrite (proj2 (Z.eqb_neq t 0)) in Ew by done.
  assert (Hin : t ∈ ((t, d) :: xs).*1) by (rewrite fmap_cons; apply elem_of_cons; by left).
  assert (Ewt : w = Z.max 1 (tmr_get_expire t st)).
  { rewrite Ew, (Hexp t Hin). destruct (Z.leb_spec (jf st t) (tmr_jiffies st)); case_match; bool_prop; lia. }
  split_and!; [split; [lia|done]| |by intros _; exists t].
  intros q Hq. rewrite Ewt, (Hexp t Hin), (Hexp q Hq). rewrite fmap_cons in Hq. apply elem_of_cons in Hq as [->|Hq]; [cbn [fst]; lia|].
  apply StronglySorted_inv in Hs as [_ Hs]. apply list_elem_of_fmap in Hq as (x & -> & Hx).
  apply (proj1 (Forall_forall _ _) Hs) in Hx. unfold by_jfs in Hx. cbn in Hx. repeat case_match; bool_prop; lia.
Qed.

(** Tmr_timespec_get adds the offset exactly and ends after at most one
    turn of its loop, but the result is not always normalised: a sum of
    exactly one second is left in tv_nsec. *)
Theorem tmr_timespec_get_exact now offset :
  0 <= tv_nsec now < 1000000000 -> 0 < offset < 2 ^ 44 ->
  exists tp, tmr_timespec_get 1 now offset = Some tp
    /\ tv_sec tp * 1000000000 + tv_nsec tp = tv_sec now * 1000000000 + tv_nsec now + offset * 1000000
    /\ 0 <= tv_nsec tp <= 1000000000
    /\ (tv_nsec tp = 1000000000 <-> tv_nsec now + offset mod 1000 * 1000000 = 1000000000).
Proof.
  intros Hns Ho. unfold tmr_timespec_get. rewrite (proj2 (Z.eqb_neq offset 0)), wrap_small by lia.
  replace (offset * 1000000) with (offset mod 1000 * 1000000 + offset / 1000 * 1000000000) by (pose proof (Z.div_mod offset 1000); lia).
  rewrite Z.mod_add by lia. pose proof (Z.mod_pos_bound offset 1000 ltac:(lia)). rewrite (Z.mod_small (_ * 1000000)) by lia.
  cbn [timespec_norm tv_nsec tv_sec]. destruct (Z.gtb_spec (tv_nsec now + offset mod 1000 * 1000000) 1000000000).
  - assert (Hg : (tv_nsec now + offset mod 1000 * 1000000 - 1000000000 >? 1000000000) = false) by (rewrite Z.gtb_ltb; apply Z.ltb_ge; lia).
    rewrite Hg. eexists. split; [done|]. cbn. lia.
  - eexists. split; [done|]. cbn. lia.
Qed.

(** ** Samples *)

(** Two timers on one list; the handlers do nothing. *)
Definition no_ops (th arg : Z) (st : tst) : list top := [].
Definition sample_boot : tst := boot {[ 1; 2 ]} {[ 10 ]} (Some (Timespec 5 0)).

(** Timer 1 after 20 ms, timer 2 at once; 30 ms later. *)
Definition sample_ops : list top := [Start 10 1 20 7 70; Start 10 2 0 8 80; Tick (Some (Timespec 5 30000000))].
Definition sample_st : tst := default sample_boot (truns 2 sample_ops sample_boot).

Lemma sample_steps : rtc (tstep {[ 1; 2 ]} {[ 10 ]} 2) sample_boot sample_st.
Proof.
  assert (Hrun : forall ops st, ops_ok {[ 1; 2 ]} {[ 10 ]} 2 (-1) ops st ->
    forall st', truns 2 ops st = Some st' -> rtc (tstep {[ 1; 2 ]} {[ 10 ]} 2) st st').
  { induction ops as [|op ops IH]; intros st Hok st' E; cbn [truns ops_ok] in *; [injection E as <-; constructor|].
    destruct Hok as [Hop Hok]. destruct (trun 2 op st) as [st1|] eqn:E1; [|done].
    econstructor; [by eapply t_op|]. eapply IH; [by apply Hok|exact E]. }
  apply (Hrun sample_ops); [|vm_compute; reflexivity]. apply ops_ok_any.
  unfold sample_ops. repeat constructor; try done; set_solver.
Qed.

Lemma tmr_invariant_witness : exists S, timers sample_st S /\ dom S = {[ 10 ]} /\ dom (t_tmr sample_st) = {[ 1; 2 ]}.
Proof.
  apply (tmr_invariant {[ 1; 2 ]} {[ 10 ]} 2 ltac:(set_solver) ltac:(set_solver) ltac:(vm_compute; lia) ltac:(vm_compute; reflexivity)
    (Some (Timespec 5 0))).
  exact sample_steps.
Defined.

(** The list 10 of the sample holds two timers. *)
Lemma sample_queue : exists S xs, timers sample_st S /\ dom S = {[ 10 ]} /\ dom (t_tmr sample_st) = {[ 1; 2 ]}
  /\ S !! 10 = Some xs /\ length xs = 2%nat.
Proof.
  destruct (reach_good {[ 1; 2 ]} {[ 10 ]} 2 ltac:(set_solver) ltac:(set_solver) ltac:(vm_compute; lia) ltac:(vm_compute; reflexivity)
    (Some (Timespec 5 0)) sample_st sample_steps) as (S & Ht & HS & Hd & _).
  assert (Hin : is_Some (S !! 10)) by (apply elem_of_dom; rewrite HS; set_solver). destruct Hin as [xs Hxs].
  exists S, xs. split_and!; try done. pose proof (w_repr _ _ (tm_world _ _ Ht) _ _ Hxs) as Hr.
  assert (Hc : l_cnt (list_at (t_heap sample_st) 10) = 2) by (vm_compute; reflexivity).
  rewrite (repr_list_at _ _ _ Hr) in Hc. cbn in Hc. unfold zlength in Hc. lia.
Qed.

Lemma sample_size : (size ({[ 1%Z; 2%Z ]} : gset Z) <= 2)%nat.
Proof. vm_compute. lia. Qed.

Lemma tmr_poll_correct_witness :
  exists calls st', tmr_poll 3 2 no_ops 10 sample_st = Some (calls, st') /\ calls = [(8, 80); (7, 70)].
Proof.
  destruct sample_queue as (S & xs & Ht & HS & Hd & Hxs & Hlen).
  destruct (tmr_poll_correct {[ 1; 2 ]} {[ 10 ]} 2 sample_size no_ops 10 sample_st S xs 3 Ht HS Hd Hxs
    (fun _ _ _ => I)) as (calls & st' & S' & xs' & E & _).
  - unfold due_calls. rewrite length_fmap. pose proof (sublist_length _ _ (sublist_filter (fun x => jf sample_st x.1 <= tmr_jiffies sample_st) xs)). lia.
  - exists calls, st'. split; [exact E|]. assert (E' : fst <$> tmr_poll 3 2 no_ops 10 sample_st = Some [(8, 80); (7, 70)]) by (vm_compute; reflexivity).
    rewrite E in E'. by injection E' as ->.
Defined.

Lemma tmr_next_timeout_min_witness : tmr_next_timeout 10 sample_st = 1 /\ exists t, 1 = Z.max 1 (tmr_get_expire t sample_st).
Proof.
  destruct sample_queue as (S & xs & Ht & HS & Hd & Hxs & Hlen). split; [vm_compute; reflexivity|].
  destruct (tmr_next_timeout_min sample_st S 10 xs Ht Hxs) as (_ & _ & Hex).
  destruct Hex as (t & _ & E); [by intros ->|]. exists t. rewrite <- E. vm_compute. reflexivity.
Defined.

(** Half a second after half a second. *)
Lemma tmr_timespec_get_exact_witness :
  exists tp, tmr_timespec_get 1 (Timespec 5 500000000) 500 = Some tp /\ tv_nsec tp = 1000000000.
Proof.
  destruct (tmr_timespec_get_exact (Timespec 5 500000000) 500 ltac:(cbn; lia) ltac:(lia)) as (tp & E & _ & _ & Hiff).
  exists tp. split; [exact E|]. apply Hiff. reflexivity.
Defined.
