(* ===== verification/Hash.v ===== *)
(** * Hash tables: src/src/hash/hash.c and func.c

    A table is an array of lists of list.c; [bkt t i] is the address of the
    list with index [i].  To its user a table is one sequence of entries: a
    lookup finds the oldest entry its handler accepts, as long as the handler
    only accepts entries with the key that is looked up.  The hash functions
    work on [char], which is signed on some platforms: [char_signed]. *)

From Stdlib Require Import ZArith Lia.
From stdpp Require Import base numbers list gmap.
From S2P Require Import Prelude LinkedList ListSpec.

Open Scope Z_scope.

Record hash := Hash { bucket : Z; bsize : Z }.

(** [sizeof(struct list)] of an LP64 platform. *)
Definition SIZEOF_LIST : Z := 24.
Definition bkt (t : hash) (i : Z) : Z := bucket t + SIZEOF_LIST * i.

(** [key & (h->bsize-1)] *)
Definition index (t : hash) (key : Z) : Z := Z.land key (u32 (bsize t - 1)).

(** [mem_zalloc] of the table and of the array are given by their results. *)
Definition hash_alloc (obj : option unit) (arr : option Z) (size : Z) (h : heap) : res hash * heap :=
  if size =? 0 then (Err EINVAL, h)
  else if negb (Z.land size (u32 (size - 1)) =? 0) then (Err EINVAL, h)
  else
    match obj, arr with
    | Some _, Some b =>
        let t := Hash b size in
        (Ok t, Heap (h_le h) (foldr (fun i m => <[bkt t i := LIST_INIT]> m) (h_list h) (seqZ 0 size)))
    | _, _ => (Err ENOMEM, h)
    end.

Definition hash_append (t : hash) (key le data : Z) (h : heap) : heap :=
  if le =? 0 then h else list_append (bkt t (index t key)) le data h.

Definition hash_unlink (le : Z) (h : heap) : heap := list_unlink le h.

Definition hash_lookup (fuel : nat) (t : hash) (key : Z) (ah : Z -> heap -> bool * heap) (h : heap) : option (Z * heap) :=
  list_apply fuel (bkt t (index t key)) true ah h.

(** [for (i=0; (i<h->bsize) && !le; i++)] over the remaining indices. *)
Fixpoint apply_buckets (fuel : nat) (t : hash) (l : list Z) (ah : Z -> heap -> bool * heap) (h : heap) : option (Z * heap) :=
  match l with
  | [] => Some (0, h)
  | i :: l =>
      '(le, h) ← list_apply fuel (bkt t i) true ah h;
      if le =? 0 then apply_buckets fuel t l ah h else Some (le, h)
  end.

Definition hash_apply (fuel : nat) (t : hash) := apply_buckets fuel t (seqZ 0 (bsize t)).

Definition hash_list_idx (t : hash) (i : Z) : Z := if i >=? bsize t then 0 else bkt t i.
Definition hash_list (t : hash) (key : Z) : Z := bkt t (index t key).
Definition hash_bsize (t : hash) : Z := bsize t.

Fixpoint each_bucket (f : Z -> heap -> option heap) (t : hash) (l : list Z) (h : heap) : option heap :=
  match l with
  | [] => Some h
  | i :: l => h ← f (bkt t i) h; each_bucket f t l h
  end.

Definition hash_flush (fuel : nat) (mem_deref : Z -> heap -> heap) (t : hash) (h : heap) : option heap :=
  each_bucket (list_flush fuel mem_deref) t (seqZ 0 (bsize t)) h.
Definition hash_clear (fuel : nat) (t : hash) (h : heap) : option heap :=
  each_bucket (list_clear fuel) t (seqZ 0 (bsize t)) h.

(** [for (x=0; (uint32_t)1<<x < size && x < 31; x++);] *)
Fixpoint valid_shift (fuel : nat) (x size : Z) : Z :=
  match fuel with
  | O => x
  | S fuel => if (u32 (Z.shiftl 1 x) <? size) && (x <? 31) then valid_shift fuel (x + 1) size else x
  end.
Definition hash_valid_size (size : Z) : Z := u32 (Z.shiftl 1 (valid_shift 31 0 size)).

(** ** func.c *)

Section Func.
Context (char_signed : bool).

(** A byte read through a [char] pointer. *)
Definition to_char (b : Z) : Z := if char_signed && (128 <=? b) then b - 256 else b.

(** tolower in the C locale. *)
Definition tolower (c : Z) : Z := if (65 <=? c) && (c <=? 90) then c + 32 else c.

(** The step of the Jenkins hash; [c] is added as a 32-bit integer. *)
Definition joaat_step (h c : Z) : Z :=
  let h := u32 (h + c) in
  let h := u32 (h + u32 (Z.shiftl h 10)) in
  Z.lxor h (Z.shiftr h 6).

Definition joaat_final (h : Z) : Z :=
  let h := u32 (h + u32 (Z.shiftl h 3)) in
  let h := Z.lxor h (Z.shiftr h 11) in
  u32 (h + u32 (Z.shiftl h 15)).

Definition hash_joaat (key : list Z) : Z := joaat_final (foldl joaat_step 0 key).
Definition hash_joaat_ci (str : list Z) : Z :=
  joaat_final (foldl (fun h b => joaat_step h (tolower (to_char b))) 0 str).

(** The characters before the terminator. *)
Fixpoint until_nul (s : list Z) : list Z :=
  match s with [] => [] | c :: s => if c =? 0 then [] else c :: until_nul s end.

Definition hash_joaat_str (str : list Z) : Z :=
  joaat_final (foldl (fun h b => joaat_step h (to_char b)) 0 (until_nul str)).
Definition hash_joaat_str_ci (str : list Z) : Z :=
  joaat_final (foldl (fun h b => joaat_step h (tolower (to_char b))) 0 (until_nul str)).
Definition hash_joaat_pl (pl : option (list Z)) : Z := match pl with Some p => hash_joaat p | None => 0 end.
Definition hash_joaat_pl_ci (pl : option (list Z)) : Z := match pl with Some p => hash_joaat_ci p | None => 0 end.

Definition FNV1_32A_INIT : Z := 0x811c9dc5.
Definition FNV_32_PRIME : Z := 0x01000193.
Definition fnv_step (h b : Z) : Z := u32 (Z.lxor h (u32 (to_char b)) * FNV_32_PRIME).
Definition hash_fast (k : list Z) : Z := foldl fnv_step FNV1_32A_INIT k.
Definition hash_fast_str (str : list Z) : Z := foldl fnv_step FNV1_32A_INIT (until_nul str).
End Func.

(** ** Sizes *)

Lemma valid_shift_spec fuel : forall x size,
  0 <= x <= 31 -> 31 <= x + Z.of_nat fuel ->
  let y := valid_shift fuel x size in
  x <= y <= 31 /\ (y < 31 -> size <= 2 ^ y) /\ (x < y -> 2 ^ (y - 1) < size).
Proof.
  induction fuel as [|fuel IH]; intros x size Hx Hf; cbn [valid_shift]; cbv zeta.
  - split_and!; lia.
  - assert (E : u32 (Z.shiftl 1 x) = 2 ^ x).
    { rewrite Z.shiftl_mul_pow2, Z.mul_1_l by lia. apply wrap_small. split; [lia|]. apply Z.pow_lt_mono_r; lia. }
    rewrite E. destruct (Z.ltb_spec (2 ^ x) size); destruct (Z.ltb_spec x 31); cbn [andb]; try (split_and!; lia).
    destruct (IH (x + 1) size ltac:(lia) ltac:(lia)) as (H1 & H2 & H3). split_and!; [lia|lia|done|].
    intros _. destruct (Z.eq_dec (valid_shift fuel (x + 1) size) (x + 1)) as [->|Hne]; [|apply H3; lia].
    by replace (x + 1 - 1) with x by lia.
Qed.

(** ** The table as one sequence of entries *)

(** An entry: key, element and data. *)
Abbreviation entry := (Z * (Z * Z))%type.

Section Table.
Context (t : hash) (D : gset Z) (k : Z) (Hk : 0 <= k <= 31) (Hb : bsize t = 2 ^ k) (Hbase : 0 < bucket t).

Lemma index_mod key : index t key = key mod 2 ^ k.
Proof.
  unfold index. rewrite Hb, wrap_small.
  - replace (2 ^ k - 1) with (Z.pred (2 ^ k)) by lia. rewrite <- Z.ones_equiv. apply Z.land_ones; lia.
  - assert (2 ^ k <= 2 ^ 31) by (apply Z.pow_le_mono_r; lia). assert (0 < 2 ^ k) by (apply Z.pow_pos_nonneg; lia). lia.
Qed.

Lemma index_range key : 0 <= index t key < bsize t.
Proof. rewrite index_mod, Hb. apply Z.mod_pos_bound, Z.pow_pos_nonneg; lia. Qed.

Lemma bkt_inj i j : bkt t i = bkt t j -> i = j.
Proof. unfold bkt, SIZEOF_LIST. lia. Qed.

(** What the bucket with index [i] holds. *)
Definition in_bucket (i : Z) (es : list entry) : list (Z * Z) := (filter (fun e => index t e.1 = i) es).*2.

Record table (h : heap) (es : list entry) (S : lists) : Prop := {
  tb_world : world h S;
  tb_bucket : forall i, 0 <= i < bsize t -> S !! bkt t i = Some (in_bucket i es);
  tb_only : forall l xs, S !! l = Some xs -> exists i, l = bkt t i /\ 0 <= i < bsize t;
  tb_dom : dom (h_le h) = D;
}.

Inductive hop := HAppend (key le data : Z) | HUnlink (le : Z).

Definition hrun (h : heap) (op : hop) : heap :=
  match op with HAppend key le data => hash_append t key le data h | HUnlink le => hash_unlink le h end.

Definition hspec (es : list entry) (op : hop) : list entry :=
  match op with
  | HAppend key le data => es ++ [(key, (le, data))]
  | HUnlink le => filter (fun e => e.2.1 <> le) es
  end.

(** Elements are appended once; at most 2^32 - 1 of them. *)
Definition hvalid (es : list entry) (op : hop) : Prop :=
  match op with
  | HAppend key le data => le <> 0 /\ le ∈ D /\ (le ∉ (es.*2).*1) /\ zlength es + 1 < 2 ^ 32
  | HUnlink le => le <> 0 /\ le ∈ D
  end.

Lemma table_linked h es S le : table h es S -> linked S le <-> le ∈ (es.*2).*1.
Proof.
  intros Ht. split.
  - intros (l & xs & HS & Hin). destruct (tb_only _ _ _ Ht _ _ HS) as (i & -> & Hi).
    rewrite (tb_bucket _ _ _ Ht i Hi) in HS. injection HS as <-. unfold in_bucket in Hin.
    apply list_elem_of_fmap in Hin as (x & -> & Hx). apply list_elem_of_fmap in Hx as (e & -> & He).
    apply list_elem_of_filter in He as [_ He]. by do 2 apply list_elem_of_fmap_2.
  - intros Hin. apply list_elem_of_fmap in Hin as (x & -> & Hx). apply list_elem_of_fmap in Hx as (e & -> & He).
    exists (bkt t (index t e.1)), (in_bucket (index t e.1) es). split; [apply (tb_bucket _ _ _ Ht), index_range|].
    unfold in_bucket. do 2 apply list_elem_of_fmap_2. by apply list_elem_of_filter.
Qed.

Lemma in_bucket_length i es : zlength (in_bucket i es) <= zlength es.
Proof.
  unfold in_bucket, zlength. rewrite length_fmap.
  pose proof (sublist_length _ _ (sublist_filter (fun e : entry => index t e.1 = i) es)). lia.
Qed.

Lemma append_table h es S key le data :
  table h es S -> hvalid es (HAppend key le data) ->
  exists S', table (hrun h (HAppend key le data)) (hspec es (HAppend key le data)) S'.
Proof.
  intros Ht (H0 & Hd & Hn & Hc). pose proof (index_range key) as Hi. set (i := index t key) in *.
  exists (<[bkt t i := in_bucket i es ++ [(le, data)]]> S). cbn [hrun hspec]. unfold hash_append.
  rewrite (proj2 (Z.eqb_neq le 0)) by done. fold i. split.
  - apply (lrun_refines h S (Append (bkt t i) le data)); cbn; [apply Ht| |done|by rewrite (tb_dom _ _ _ Ht)].
    apply spec_append; [by apply Ht|by rewrite (table_linked h es S)|]. pose proof (in_bucket_length i es). lia.
  - intros j Hj. unfold in_bucket. rewrite filter_app. destruct (decide (j = i)) as [->|Hne].
    + rewrite lookup_insert_eq, filter_cons_True, fmap_app by done. done.
    + rewrite lookup_insert_ne by (by intros ?%bkt_inj). rewrite filter_cons_False by (cbn; fold i; congruence).
      rewrite filter_nil, app_nil_r. by apply Ht.
  - intros l xs HS. destruct (decide (l = bkt t i)) as [->|Hne]; [by exists i|].
    rewrite lookup_insert_ne in HS by done. by eapply tb_only.
  - rewrite <- (tb_dom _ _ _ Ht). apply (lrun_dom (Append (bkt t i) le data)).
Qed.

Lemma unlink_table h es S le :
  table h es S -> hvalid es (HUnlink le) -> exists S', table (hrun h (HUnlink le)) (hspec es (HUnlink le)) S'.
Proof.
  intros Ht [H0 Hd]. exists (rm le S). cbn [hrun hspec]. unfold hash_unlink. split.
  - apply unlink_world_rm; [apply Ht|done|by rewrite (tb_dom _ _ _ Ht)].
  - intros i Hi. unfold rm. rewrite lookup_fmap, (tb_bucket _ _ _ Ht i Hi). change (Some (filter (fun x => x.1 <> le) (in_bucket i es)) = Some (in_bucket i (filter (fun e => e.2.1 <> le) es))).
    f_equal. unfold in_bucket. clear. induction es as [|e es IH]; [done|].
    rewrite (filter_cons (fun e => index t e.1 = i)), (filter_cons (fun e => e.2.1 <> le)).
    destruct (decide (index t e.1 = i)), (decide (e.2.1 <> le)); rewrite ?fmap_cons, ?(filter_cons (fun e => index t e.1 = i)), ?(filter_cons (fun x => x.1 <> le)).
    + by rewrite !decide_True, fmap_cons, IH by done.
    + by rewrite decide_False by done.
    + by rewrite decide_False by done.
    + done.
  - intros l xs [ys [HS _]]%rm_lookup. by eapply tb_only.
  - rewrite <- (tb_dom _ _ _ Ht). apply (lrun_dom (Unlink le)).
Qed.

(** The oldest entry that satisfies a predicate. *)
Definition oldest (P : entry -> bool) (es : list entry) : Z :=
  match List.find P es with Some e => e.2.1 | None => 0 end.

Lemma found_bucket (P : Z -> bool) i es :
  found P (in_bucket i es) = oldest (fun e => bool_decide (index t e.1 = i) && P e.2.1) es.
Proof.
  unfold found, oldest, in_bucket. induction es as [|e es IH]; [done|]. rewrite filter_cons. cbn [List.find].
  destruct (decide (index t e.1 = i)) as [Ei|Ei].
  - rewrite fmap_cons. cbn [List.find]. rewrite bool_decide_true by done. cbn [andb]. by destruct (P e.2.1).
  - by rewrite bool_decide_false by done.
Qed.

Fixpoint hvalids (es : list entry) (ops : list hop) : Prop :=
  match ops with [] => True | op :: ops => hvalid es op /\ hvalids (hspec es op) ops end.

Lemma hruns_table ops : forall h es S,
  table h es S -> hvalids es ops -> exists S', table (foldl hrun h ops) (foldl hspec es ops) S'.
Proof.
  induction ops as [|op ops IH]; intros h es S Ht Hv; [by exists S|]. destruct Hv as [Hop Hv]. cbn [foldl].
  assert (Hs : exists S1, table (hrun h op) (hspec es op) S1) by (destruct op; [by eapply append_table|by eapply unlink_table]).
  destruct Hs as [S1 Ht1]. by eapply IH.
Qed.

Lemma lookup_table h es S key P ah fuel :
  table h es S -> (forall q, ah q h = (P q, h)) -> (length es < fuel)%nat ->
  hash_lookup fuel t key ah h = Some (oldest (fun e => bool_decide (index t e.1 = index t key) && P e.2.1) es, h).
Proof.
  intros Ht Hah Hf. unfold hash_lookup. pose proof (tb_bucket _ _ _ Ht _ (index_range key)) as HS.
  rewrite (list_apply_found P ah h Hah fuel _ true _ (w_repr _ _ (tb_world _ _ _ Ht) _ _ HS)), found_bucket; [done|].
  pose proof (in_bucket_length (index t key) es). unfold zlength in *. lia.
Qed.

Lemma oldest_ext P Q es : (forall e, e ∈ es -> P e = Q e) -> oldest P es = oldest Q es.
Proof.
  unfold oldest. induction es as [|e es IH]; intros HPQ; cbn; [done|]. rewrite (HPQ e) by (apply elem_of_cons; by left).
  destruct (Q e); [done|]. apply IH. intros x Hx. apply HPQ, elem_of_cons. by right.
Qed.

(** C35: a hash table is one sequence of entries, oldest first.  After any
    appends and removals, hash_lookup returns the oldest entry in the bucket
    of the key that its handler accepts; when the handler accepts only entries
    with that key, it is the oldest one it accepts in the whole table. *)
Theorem hash_refines h es S ops key P ah fuel :
  let h' := foldl hrun h ops in
  let es' := foldl hspec es ops in
  table h es S -> hvalids es ops -> (forall q, ah q h' = (P q, h')) -> (length es' < fuel)%nat ->
  (exists S', table h' es' S')
  /\ hash_lookup fuel t key ah h' = Some (oldest (fun e => bool_decide (index t e.1 = index t key) && P e.2.1) es', h')
  /\ ((forall e, e ∈ es' -> P e.2.1 = true -> e.1 = key) ->
      hash_lookup fuel t key ah h' = Some (oldest (fun e => P e.2.1) es', h')).
Proof.
  intros h' es' Ht Hv Hah Hf. destruct (hruns_table ops h es S Ht Hv) as [S' Ht'].
  pose proof (lookup_table h' es' S' key P ah fuel Ht' Hah Hf) as E. split; [by exists S'|]. split; [done|].
  intros Hsel. rewrite E. do 2 f_equal. apply oldest_ext. intros e He. destruct (P e.2.1) eqn:EP; [|apply andb_false_r].
  rewrite (Hsel e He EP). by rewrite bool_decide_true.
Qed.
End Table.

(** Hash_valid_size gives the least power of two that is not below the
    requested size, up to 2^31, and hash_alloc accepts it. *)
Theorem hash_valid_size_least size :
  0 < size <= 2 ^ 31 ->
  exists k, 0 <= k <= 31 /\ hash_valid_size size = 2 ^ k /\ size <= 2 ^ k /\ (forall j, 0 <= j -> size <= 2 ^ j -> k <= j)
    /\ forall arr h, (hash_alloc (Some tt) (Some arr) (hash_valid_size size) h).1 = Ok (Hash arr (2 ^ k)).
Proof.
  intros Hs. destruct (valid_shift_spec 31 0 size ltac:(lia) ltac:(lia)) as (H1 & H2 & H3).
  set (k := valid_shift 31 0 size) in *. exists k.
  assert (Hp : 0 < 2 ^ k <= 2 ^ 31) by (split; [apply Z.pow_pos_nonneg; lia|apply Z.pow_le_mono_r; lia]).
  assert (E : hash_valid_size size = 2 ^ k).
  { unfold hash_valid_size. fold k. rewrite Z.shiftl_mul_pow2, Z.mul_1_l by lia. apply wrap_small. lia. }
  split; [lia|]. split; [done|]. split; [|split].
  - destruct (Z.eq_dec k 31) as [->|Hne]; [lia|]. apply H2. lia.
  - intros j Hj Hle. destruct (Z.le_gt_cases k j); [done|]. assert (2 ^ j <= 2 ^ (k - 1)) by (apply Z.pow_le_mono_r; lia).
    specialize (H3 ltac:(lia)). lia.
  - intros arr h. rewrite E. unfold hash_alloc. rewrite (proj2 (Z.eqb_neq (2 ^ k) 0)), wrap_small by lia.
    replace (2 ^ k - 1) with (Z.ones k) by (rewrite Z.ones_equiv; lia). rewrite Z.land_ones by lia.
    rewrite Z.mod_same by lia. done.
Qed.

(** Hash_joaat_str agrees with hash_joaat_pl on strings of ASCII
    characters, and on all strings where char is unsigned; where char is
    signed, a character outside ASCII is added as a negative number and the two
    functions disagree. *)
Theorem hash_joaat_str_pl s c :
  Forall (fun b => 0 < b < 256) s ->
  (c = false \/ Forall (fun b => b < 128) s -> hash_joaat_str c (s ++ [0]) = hash_joaat_pl (Some s))
  /\ (c = true -> forall b, 128 <= b < 256 -> hash_joaat_str c [b; 0] <> hash_joaat_pl (Some [b])).
Proof.
  intros Hs. split.
  - intros Hc. unfold hash_joaat_str, hash_joaat_pl, hash_joaat. f_equal.
    assert (Eu : until_nul (s ++ [0]) = s).
    { clear Hc. induction Hs as [|b s Hb _ IH]; [done|]. cbn. rewrite (proj2 (Z.eqb_neq b 0)) by lia. by rewrite IH. }
    rewrite Eu. clear Eu. assert (Hch : Forall (fun b => to_char c b = b) s).
    { destruct Hc as [->|Hc]; [apply Forall_true; done|]. eapply Forall_impl; [exact Hc|]. intros b Hb. unfold to_char.
      rewrite (proj2 (Z.leb_gt 128 b)) by done. by rewrite andb_false_r. }
    clear Hs Hc. generalize 0. induction Hch as [|b s Hb _ IH]; intros h; [done|]. cbn. by rewrite Hb, IH.
  - intros -> b Hb. assert (Hall : forallb (fun b => negb (hash_joaat_str true [b; 0] =? hash_joaat_pl (Some [b]))) (seqZ 128 128) = true)
      by (vm_compute; reflexivity).
    pose proof (proj1 (forallb_forall _ _) Hall b) as Hb'. cbv beta in Hb'. intros E. rewrite E, Z.eqb_refl in Hb'.
    specialize (Hb' (proj1 (list_elem_of_In _ _) (proj2 (elem_of_seqZ 128 128 b) ltac:(lia)))). done.
Qed.

(** ** Samples *)

Definition sample_table : hash := Hash 100 2.
Definition sample_hheap : heap :=
  Heap (<[1 := LE_INIT]> (<[2 := LE_INIT]> ∅)) (<[100 := LIST_INIT]> (<[124 := LIST_INIT]> ∅)).

Lemma sample_table_ok : table sample_table {[ 1; 2 ]} sample_hheap [] (<[100 := []]> (<[124 := []]> ∅)).
Proof.
  assert (Hl : forall l xs, <[100 := []]> (<[124 := []]> (∅ : lists)) !! l = Some xs -> xs = [] /\ (l = 100 \/ l = 124)).
  { intros l xs HS. rewrite !lookup_insert_Some in HS. destruct HS as [[<- <-]|[_ [[<- <-]|[_ HS]]]]; [tauto|tauto|by rewrite lookup_empty in HS]. }
  split.
  - split.
    + intros l xs [-> [->| ->]]%Hl; (split; [done|constructor|done|vm_compute; reflexivity|done]).
    + intros p e. cbn. rewrite !lookup_insert_Some. intros [[_ <-]|[_ [[_ <-]|[_ He]]]]; [by left|by left|by rewrite lookup_empty in He].
  - intros i Hi. cbn in Hi. assert (i = 0 \/ i = 1) as [->| ->] by lia; vm_compute; reflexivity.
  - intros l xs [_ [->| ->]]%Hl; [by exists 0|by exists 1].
  - vm_compute. reflexivity.
Qed.

(** The handler accepts the element 2. *)
Lemma hash_refines_witness :
  hash_lookup 3 sample_table 5 (fun q h => (q =? 2, h))
    (foldl (hrun sample_table) sample_hheap [HAppend 4 1 40; HAppend 5 2 50])
  = Some (2, foldl (hrun sample_table) sample_hheap [HAppend 4 1 40; HAppend 5 2 50]).
Proof.
  apply (proj1 (proj2 (hash_refines sample_table {[ 1; 2 ]} 1 ltac:(lia) eq_refl sample_hheap [] _
    [HAppend 4 1 40; HAppend 5 2 50] 5 (fun q => q =? 2) (fun q h => (q =? 2, h)) 3 sample_table_ok
    ltac:(cbn; split_and!; try done; set_solver) (fun q => eq_refl) ltac:(cbn; lia)))).
Defined.

Lemma hash_valid_size_least_witness : exists k, hash_valid_size 100 = 2 ^ k /\ 100 <= 2 ^ k.
Proof.
  destruct (hash_valid_size_least 100 ltac:(lia)) as (k & _ & E & Hle & _). exists k. split; [exact E|exact Hle].
Defined.

Lemma hash_joaat_str_pl_witness :
  hash_joaat_str true [97; 98; 0] = hash_joaat_pl (Some [97; 98]) /\ hash_joaat_str true [233; 0] <> hash_joaat_pl (Some [233]).
Proof.
  split.
  - apply (proj1 (hash_joaat_str_pl [97; 98] true ltac:(repeat constructor; lia))). right. repeat constructor; lia.
  - apply (proj2 (hash_joaat_str_pl [97; 98] true ltac:(repeat constructor; lia)) eq_refl 233). lia.
Defined.
