(* ===== verification/SrtpReplay.v ===== *)
(** * SRTP replay protection: src/src/srtp/replay.c

    The 64-packet sliding window is compared with the set of indices that were
    accepted so far: [replay_inv] says that the bitmap is that set, seen from
    the last index.  The theorems follow a stream of packets in any order. *)

From stdpp Require Import base list numbers gmap.
From Stdlib Require Import ZArith Lia.
From S2P Require Import Prelude.

Open Scope Z_scope.

Record replay := Replay { bitmap : Z; lix : Z }.

Definition SRTP_WINDOW_SIZE : Z := 64.

Definition srtp_replay_init : replay := Replay 0 0.

Definition srtp_replay_check (r : replay) (ix : Z) : bool * replay :=
  if ix >? lix r then
    let diff := ix - lix r in
    let bm := if diff <? SRTP_WINDOW_SIZE
              then Z.lor (u64 (Z.shiftl (bitmap r) diff)) 1
              else 1 in
    (true, Replay bm ix)
  else
    let diff := lix r - ix in
    if diff >=? SRTP_WINDOW_SIZE then (false, r)
    else if negb (Z.land (bitmap r) (Z.shiftl 1 diff) =? 0) then (false, r)
    else (true, Replay (Z.lor (bitmap r) (Z.shiftl 1 diff)) (lix r)).

(** A receiver that hands every index of [ixs] to the check: what it accepted
    (latest first) and the final state. *)
Fixpoint replay_run (r : replay) (acc ixs : list Z) : list Z * replay :=
  match ixs with
  | [] => (acc, r)
  | ix :: ixs =>
      let '(ok, r') := srtp_replay_check r ix in
      replay_run r' (if ok then ix :: acc else acc) ixs
  end.

(** ** The window is the set of accepted indices *)

Record replay_inv (r : replay) (seen : list Z) : Prop := {
  inv_lix : is_u64 (lix r);
  inv_bitmap : is_u64 (bitmap r);
  inv_max : forall i, In i seen -> 0 <= i <= lix r;
  inv_bits : forall d, 0 <= d < 64 -> Z.testbit (bitmap r) d = true <-> In (lix r - d) seen;
}.

Lemma replay_inv_init : replay_inv srtp_replay_init [].
Proof. split; unfold is_u64; simpl; try lia; try done. intros. by rewrite Z.bits_0. Qed.

Lemma testbit_shift_window bm diff d :
  0 <= d < 64 -> 0 < diff ->
  Z.testbit (Z.lor (u64 (Z.shiftl bm diff)) 1) d = (d =? 0) || ((diff <=? d) && Z.testbit bm (d - diff)).
Proof.
  intros Hd Hdiff. unfold wrap. rewrite Z.lor_spec, Z.mod_pow2_bits_low by lia.
  change 1 with (2 ^ 0). rewrite Z.pow2_bits_eqb by lia. rewrite (Z.eqb_sym 0 d), orb_comm. f_equal.
  destruct (Z.leb_spec diff d); simpl.
  - by rewrite Z.shiftl_spec by lia.
  - by rewrite Z.shiftl_spec_low by lia.
Qed.

Lemma shiftl_1 k : 0 <= k -> Z.shiftl 1 k = 2 ^ k.
Proof. intros. rewrite Z.shiftl_mul_pow2 by lia. lia. Qed.

(** A newer index slides the window. *)
Lemma replay_inv_ahead r seen ix :
  replay_inv r seen -> is_u64 ix -> lix r < ix ->
  (srtp_replay_check r ix).1 = true /\ replay_inv (srtp_replay_check r ix).2 (ix :: seen).
Proof.
  intros [Hl Hb Hm Hbits] Hix Hlt. unfold srtp_replay_check, SRTP_WINDOW_SIZE.
  replace (ix >? lix r) with true by (symmetry; rewrite Z.gtb_ltb; by apply Z.ltb_lt).
  split; [done|]. simpl. split; simpl; [done| | |].
  - unfold is_u64. case_test; [|lia]. apply lor_bound; try lia. apply wrap_range. lia.
  - intros i [->|Hi]; [unfold is_u64 in *; lia|]. specialize (Hm i Hi). lia.
  - intros d Hd. destruct (ix - lix r <? 64) eqn:Ew; bool_prop.
    + rewrite testbit_shift_window, orb_true_iff, andb_true_iff by lia.
      rewrite Z.eqb_eq, Z.leb_le. split.
      * intros [->|[Hge Ht]]; [left; lia|]. right. apply Hbits in Ht; [|lia].
        by replace (ix - d) with (lix r - (d - (ix - lix r))) by lia.
      * intros [He|Hin]; [left; lia|]. right. pose proof (Hm _ Hin). split; [lia|].
        apply Hbits; [lia|]. by replace (lix r - (d - (ix - lix r))) with (ix - d) by lia.
    + change 1 with (2 ^ 0). rewrite Z.pow2_bits_eqb, Z.eqb_eq by lia. split.
      * intros <-. left. lia.
      * intros [He|Hin]; [lia|]. pose proof (Hm _ Hin). lia.
Qed.

(** An index inside the window is accepted exactly when it is new. *)
Lemma replay_check_window r seen ix :
  replay_inv r seen -> 0 <= ix <= lix r -> lix r - ix < 64 ->
  if in_dec Z.eq_dec ix seen then srtp_replay_check r ix = (false, r)
  else (srtp_replay_check r ix).1 = true /\ replay_inv (srtp_replay_check r ix).2 (ix :: seen).
Proof.
  intros [Hl Hb Hm Hbits] Hix Hw. unfold srtp_replay_check, SRTP_WINDOW_SIZE.
  replace (ix >? lix r) with false by (symmetry; rewrite Z.gtb_ltb; apply Z.ltb_ge; lia).
  replace (lix r - ix >=? 64) with false by (symmetry; rewrite Z.geb_leb; apply Z.leb_gt; lia).
  rewrite shiftl_1, land_pow2 by lia.
  specialize (Hbits (lix r - ix)) as Hbit. replace (lix r - (lix r - ix)) with ix in Hbit by lia.
  destruct (in_dec Z.eq_dec ix seen) as [Hin|Hnin].
  - rewrite (proj2 (Hbit ltac:(lia)) Hin).
    replace (2 ^ (lix r - ix) =? 0) with false; [done|].
    symmetry. apply Z.eqb_neq. pose proof (Z.pow_pos_nonneg 2 (lix r - ix)). lia.
  - destruct (Z.testbit (bitmap r) (lix r - ix)) eqn:Et; [exfalso; apply Hnin, Hbit; [lia|done]|].
    simpl. split; [done|]. split; simpl; [done| | |].
    + apply lor_bound; try lia; [done|]. split; [apply Z.pow_nonneg; lia|].
      apply Z.pow_lt_mono_r; lia.
    + intros i [->|Hi]; [lia|]. by apply Hm.
    + intros d Hd. rewrite Z.lor_spec, orb_true_iff, Z.pow2_bits_eqb, Z.eqb_eq by lia.
      rewrite Hbits by lia. split.
      * intros [?|<-]; [by right | left; lia].
      * intros [He|?]; [right; lia | by left].
Qed.

Lemma replay_check_old r ix : lix r - ix >= 64 -> srtp_replay_check r ix = (false, r).
Proof.
  intros. unfold srtp_replay_check, SRTP_WINDOW_SIZE.
  replace (ix >? lix r) with false by (symmetry; rewrite Z.gtb_ltb; apply Z.ltb_ge; lia).
  by replace (lix r - ix >=? 64) with true by (symmetry; rewrite Z.geb_leb; apply Z.leb_le; lia).
Qed.

(** One packet, any index. *)
Lemma replay_check_spec r seen ix :
  replay_inv r seen -> is_u64 ix ->
  let '(ok, r') := srtp_replay_check r ix in
  if ok then ~ In ix seen /\ replay_inv r' (ix :: seen)
  else r' = r /\ (In ix seen \/ ix + 64 <= lix r).
Proof.
  intros Hinv Hix. destruct (Z.lt_ge_cases (lix r) ix) as [Ha|Hb].
  - destruct (replay_inv_ahead r seen ix Hinv Hix Ha) as [Hok Hinv'].
    destruct (srtp_replay_check r ix) as [ok r']; simpl in *. subst ok. split; [|done].
    intros Hin. pose proof (inv_max _ _ Hinv _ Hin). lia.
  - destruct (Z.lt_ge_cases (lix r - ix) 64) as [Hw|Ho].
    + pose proof (replay_check_window r seen ix Hinv) as Hc.
      specialize (Hc ltac:(unfold is_u64 in *; lia) Hw).
      destruct (in_dec Z.eq_dec ix seen); [rewrite Hc; by auto|].
      destruct Hc as [Hok Hinv']. destruct (srtp_replay_check r ix) as [ok r']; simpl in *.
      by subst ok.
    + rewrite replay_check_old by lia. split; [done|]. right. lia.
Qed.

Lemma replay_run_spec ixs r acc :
  replay_inv r acc -> List.NoDup acc -> Forall is_u64 ixs ->
  let '(acc', r') := replay_run r acc ixs in replay_inv r' acc' /\ List.NoDup acc'.
Proof.
  revert r acc. induction ixs as [|ix ixs IH]; intros r acc Hinv Hnd Hu; [done|].
  inversion_clear Hu as [|? ? Hix Hu']. cbn [replay_run].
  pose proof (replay_check_spec r acc ix Hinv Hix) as Hs.
  destruct (srtp_replay_check r ix) as [[] r'].
  - destruct Hs as [Hnin Hinv']. apply IH; auto. by constructor.
  - destruct Hs as [-> _]. by apply IH.
Qed.

(** C36: whatever packets arrive in whatever order, no index is ever accepted
    twice by a window that starts from srtp_replay_init. *)
Theorem srtp_replay_never_twice ixs :
  Forall is_u64 ixs -> List.NoDup (replay_run srtp_replay_init [] ixs).1.
Proof.
  intros Hu. pose proof (replay_run_spec ixs _ _ replay_inv_init (List.NoDup_nil Z) Hu) as Hs.
  destruct (replay_run srtp_replay_init [] ixs). apply Hs.
Qed.

(** The window rejects a packet only if it was accepted before or lies 64
    or more behind the highest index accepted: after any history, an index in
    reach that was not accepted yet is let through. *)
Theorem srtp_replay_complete ixs ix :
  Forall is_u64 ixs -> is_u64 ix ->
  let '(acc, r) := replay_run srtp_replay_init [] ixs in
  (srtp_replay_check r ix).1 = false <-> In ix acc \/ ix + 64 <= lix r.
Proof.
  intros Hu Hix. pose proof (replay_run_spec ixs _ _ replay_inv_init (List.NoDup_nil Z) Hu) as Hs.
  destruct (replay_run srtp_replay_init [] ixs) as [acc r]. destruct Hs as [Hinv _].
  pose proof (replay_check_spec r acc ix Hinv Hix) as Hc.
  destruct (srtp_replay_check r ix) as [[] r'] eqn:E; simpl.
  - split; [done|]. intros [Hin|Hold]; [by destruct Hc|].
    rewrite replay_check_old in E by lia. congruence.
  - split; [|done]. intros _. apply Hc.
Qed.

Lemma srtp_replay_never_twice_witness :
  Forall is_u64 [5; 7; 5; 6; 100; 6; 36] /\
  List.NoDup (replay_run srtp_replay_init [] [5; 7; 5; 6; 100; 6; 36]).1.
Proof.
  assert (Hu : Forall is_u64 [5; 7; 5; 6; 100; 6; 36]) by (repeat constructor; vm_compute; congruence).
  split; [exact Hu | exact (srtp_replay_never_twice _ Hu)].
Defined.

Lemma srtp_replay_complete_witness :
  Forall is_u64 [5; 7] /\ is_u64 6 /\
  ((srtp_replay_check (replay_run srtp_replay_init [] [5; 7]).2 6).1 = false <-> In 6 [7; 5] \/ 6 + 64 <= 7).
Proof.
  assert (Hu : Forall is_u64 [5; 7]) by (repeat constructor; vm_compute; congruence).
  assert (Hix : is_u64 6) by (vm_compute; split; congruence).
  split; [exact Hu|]. split; [exact Hix|]. exact (srtp_replay_complete [5; 7] 6 Hu Hix).
Defined.
