(* ===== verification/Rtp.v ===== *)
(** * RTP headers: src/src/rtp/rtp.c

    [rtp_hdr_encode]/[rtp_hdr_decode] and the packet-level functions built on
    them.  A decoder returns the header or an error code, with the buffer as it left
    it. *)

From stdpp Require Import base list numbers.
From Stdlib Require Import ZArith Lia.
From S2P Require Import Prelude Endian Mbuf.

Open Scope Z_scope.

Record rtp_header := RtpHeader {
  h_ver : Z;
  h_pad : bool;
  h_ext : bool;
  h_cc : Z;
  h_m : bool;
  h_pt : Z;
  h_seq : Z;
  h_ts : Z;
  h_ssrc : Z;
  h_csrc : list Z;
  h_x_type : Z;
  h_x_len : Z;
}.

Definition RTP_VERSION : Z := 2.
Definition RTP_HEADER_SIZE : Z := 12.

(** The encoder's part of struct rtp_sock. *)
Record rtp_sock := RtpSock { enc_seq : Z; enc_ssrc : Z }.

Section Rtp.
Context `{H : Host}.

Definition hdr_byte0 (h : rtp_header) : Z :=
  u8 (Z.lor (Z.lor (Z.lor (Z.shiftl (Z.land (h_ver h) 2) 6)
    (Z.shiftl (Z.b2z (h_pad h)) 5)) (Z.shiftl (Z.b2z (h_ext h)) 4))
    (Z.shiftl (Z.land (h_cc h) 15) 0)).

Definition hdr_byte1 (h : rtp_header) : Z :=
  u8 (Z.lor (Z.shiftl (Z.b2z (h_m h)) 7) (Z.shiftl (Z.land (h_pt h) 127) 0)).

Definition rtp_hdr_encode (h : rtp_header) : mbuf -> Z * mbuf :=
  (fun mb => mbuf_write_mem mb [hdr_byte0 h; hdr_byte1 h])
  ;| write_be16 (h_seq h)
  ;| write_be32 (h_ts h)
  ;| write_be32 (h_ssrc h)
  ;| for_each_or (fun i => write_be32 (znth i (h_csrc h))) (seqZ 0 (h_cc h)).

(** [for (i=0; i<hdr->cc; i++) hdr->csrc[i] = ntohl(mbuf_read_u32(mb));] *)
Fixpoint read_csrc (n : nat) (mb : mbuf) : list Z * mbuf :=
  match n with
  | O => ([], mb)
  | S n =>
      let '(v, mb) := read_be32 mb in
      let '(l, mb) := read_csrc n mb in (v :: l, mb)
  end.

Definition rtp_hdr_decode (mb : mbuf) : res rtp_header * mbuf :=
  if mbuf_get_left mb <? RTP_HEADER_SIZE then (Err EBADMSG, mb)
  else
    let '(err, buf, mb) := mbuf_read_mem mb 2 in
    if negb (err =? 0) then (Err err, mb)
    else
      let b0 := znth 0 buf in
      let b1 := znth 1 buf in
      let ver := Z.land (Z.shiftr b0 6) 3 in
      let pad := Z.land (Z.shiftr b0 5) 1 in
      let ext := Z.land (Z.shiftr b0 4) 1 in
      let cc := Z.land (Z.shiftr b0 0) 15 in
      let m := Z.land (Z.shiftr b1 7) 1 in
      let pt := Z.land (Z.shiftr b1 0) 127 in
      let '(seq, mb) := read_be16 mb in
      let '(ts, mb) := read_be32 mb in
      let '(ssrc, mb) := read_be32 mb in
      if mbuf_get_left mb <? cc * 4 then (Err EBADMSG, mb)
      else
        let '(csrc, mb) := read_csrc (Z.to_nat cc) mb in
        let h := RtpHeader ver (pad =? 1) (ext =? 1) cc (m =? 1) pt seq ts ssrc csrc in
        if ext =? 1 then
          if mbuf_get_left mb <? 4 then (Err EBADMSG, mb)
          else
            let '(x_type, mb) := read_be16 mb in
            let '(x_len, mb) := read_be16 mb in
            if mbuf_get_left mb <? x_len * 4 then (Err EBADMSG, mb)
            else (Ok (h x_type x_len), mbuf_set_pos mb (u64 (mb_pos mb + x_len * 4)))
        else (Ok (h 0 0), mb).

(** [pt&~0x7f] is the test that bit 7 of the byte is set. *)
Definition rtp_encode_seq (rs : rtp_sock) (seq : Z) (ext marker : bool) (pt ts : Z)
  (mb : mbuf) : Z * mbuf :=
  if negb (Z.land pt 128 =? 0) then (EINVAL, mb)
  else rtp_hdr_encode (RtpHeader RTP_VERSION false ext 0 marker pt seq ts (enc_ssrc rs) [] 0 0) mb.

Definition rtp_encode (rs : rtp_sock) (ext marker : bool) (pt ts : Z)
  (mb : mbuf) : Z * rtp_sock * mbuf :=
  if negb (Z.land pt 128 =? 0) then (EINVAL, rs, mb)
  else
    let seq := u16 (enc_seq rs + 1) in
    let '(err, mb) :=
      rtp_hdr_encode (RtpHeader RTP_VERSION false ext 0 marker pt seq ts (enc_ssrc rs) [] 0 0) mb in
    (err, RtpSock seq (enc_ssrc rs), mb).

Definition rtp_decode (mb : mbuf) : res rtp_header * mbuf :=
  match rtp_hdr_decode mb with
  | (Err e, mb) => (Err e, mb)
  | (Ok h, mb) => if negb (RTP_VERSION =? h_ver h) then (Err EBADMSG, mb) else (Ok h, mb)
  end.

(** rtp_send up to udp_send: the buffer handed to the socket. *)
Definition rtp_send_hdr (rs : rtp_sock) (ext marker : bool) (pt ts : Z)
  (mb : mbuf) : Z * rtp_sock * mbuf :=
  if mb_pos mb <? RTP_HEADER_SIZE then (EBADMSG, rs, mb)
  else
    let mb := mbuf_advance mb (- RTP_HEADER_SIZE) in
    let pos := mb_pos mb in
    let '(err, rs, mb) := rtp_encode rs ext marker pt ts mb in
    if negb (err =? 0) then (err, rs, mb) else (0, rs, mbuf_set_pos mb pos).
End Rtp.

(** Inline functions of re_rtp.h *)
Definition rtp_pt_is_rtcp (pt : Z) : bool := (64 <=? pt) && (pt <=? 95).
Definition rtp_seq_diff (x y : Z) : Z := swrap 16 (y - x).
Definition rtp_seq_less (x y : Z) : bool := swrap 16 (x - y) <? 0.

(** ** Well-formed headers and their wire format *)

Record rtp_header_wf (h : rtp_header) : Prop := {
  wf_ver : h_ver h = 0 \/ h_ver h = 2;
  wf_cc : h_cc h = zlength (h_csrc h);
  wf_cc15 : h_cc h <= 15;
  wf_pt : 0 <= h_pt h < 128;
  wf_seq : is_u16 (h_seq h);
  wf_ts : is_u32 (h_ts h);
  wf_ssrc : is_u32 (h_ssrc h);
  wf_csrc : Forall is_u32 (h_csrc h);
  wf_x : if h_ext h then is_u16 (h_x_type h) /\ is_u16 (h_x_len h)
         else h_x_type h = 0 /\ h_x_len h = 0;
}.

Definition rtp_fixed (h : rtp_header) : list Z :=
  [hdr_byte0 h; hdr_byte1 h] ++ be_bytes 2 (h_seq h) ++ be_bytes 4 (h_ts h)
  ++ be_bytes 4 (h_ssrc h) ++ concat (map (be_bytes 4) (h_csrc h)).

(** The extension block announced by the X bit. *)
Definition rtp_xblock (h : rtp_header) (x : list Z) : list Z :=
  if h_ext h then be_bytes 2 (h_x_type h) ++ be_bytes 2 (h_x_len h) ++ x else [].

Definition xblock_ok (h : rtp_header) (x : list Z) : Prop :=
  if h_ext h then zlength x = 4 * h_x_len h else x = [].

(** *** The two flag bytes *)

Definition byte0_fields (b : Z) : Z * Z * Z * Z :=
  (Z.land (Z.shiftr b 6) 3, Z.land (Z.shiftr b 5) 1, Z.land (Z.shiftr b 4) 1, Z.land (Z.shiftr b 0) 15).

Lemma hdr_byte0_fields h :
  rtp_header_wf h -> byte0_fields (hdr_byte0 h) = (h_ver h, Z.b2z (h_pad h), Z.b2z (h_ext h), h_cc h).
Proof.
  intros W. destruct W as [Hv Hc Hc15 _ _ _ _ _ _].
  assert (Hcc : In (h_cc h) (map Z.of_nat (seq 0 16))).
  { apply in_map_iff. exists (Z.to_nat (h_cc h)). pose proof (zlength_nonneg (h_csrc h)).
    split; [lia|]. apply in_seq. lia. }
  unfold hdr_byte0. generalize dependent (h_cc h). intros cc _ _ Hcc.
  assert (Hall : forallb (fun cc => forallb (fun v => forallb (fun p => forallb (fun e =>
      bool_decide (byte0_fields (u8 (Z.lor (Z.lor (Z.lor (Z.shiftl (Z.land v 2) 6)
      (Z.shiftl (Z.b2z p) 5)) (Z.shiftl (Z.b2z e) 4)) (Z.shiftl (Z.land cc 15) 0)))
      = (v, Z.b2z p, Z.b2z e, cc))) [false; true]) [false; true]) [0; 2]) (map Z.of_nat (seq 0 16)) = true)
    by (vm_compute; reflexivity).
  rewrite forallb_forall in Hall. specialize (Hall cc Hcc). rewrite forallb_forall in Hall.
  specialize (Hall (h_ver h) ltac:(simpl; lia)). rewrite forallb_forall in Hall.
  specialize (Hall (h_pad h) ltac:(destruct (h_pad h); simpl; tauto)). rewrite forallb_forall in Hall.
  specialize (Hall (h_ext h) ltac:(destruct (h_ext h); simpl; tauto)).
  by apply bool_decide_eq_true in Hall.
Qed.

Lemma hdr_byte1_fields h :
  rtp_header_wf h ->
  Z.land (Z.shiftr (hdr_byte1 h) 7) 1 = Z.b2z (h_m h) /\ Z.land (Z.shiftr (hdr_byte1 h) 0) 127 = h_pt h.
Proof.
  intros W. pose proof (wf_pt h W) as Hpt. unfold hdr_byte1.
  assert (Hin : In (h_pt h) (map Z.of_nat (seq 0 128))).
  { apply in_map_iff. exists (Z.to_nat (h_pt h)). split; [lia|]. apply in_seq. lia. }
  generalize dependent (h_pt h). intros pt _ Hin.
  assert (Hall : forallb (fun pt => forallb (fun m =>
     let b := u8 (Z.lor (Z.shiftl (Z.b2z m) 7) (Z.shiftl (Z.land pt 127) 0)) in
     (Z.land (Z.shiftr b 7) 1 =? Z.b2z m) && (Z.land (Z.shiftr b 0) 127 =? pt)) [false; true])
     (map Z.of_nat (seq 0 128)) = true) by (vm_compute; reflexivity).
  rewrite forallb_forall in Hall. specialize (Hall pt Hin). rewrite forallb_forall in Hall.
  specialize (Hall (h_m h) ltac:(destruct (h_m h); simpl; tauto)). cbv beta zeta in Hall. bool_prop. by split.
Qed.

(** *** Encoding *)

Section RtpFacts.
Context `{H : Host}.

Lemma csrc_seqZ (l : list Z) : map (fun i => znth i l) (seqZ 0 (zlength l)) = l.
Proof.
  unfold seqZ, zlength. rewrite Nat2Z.id. change (map ?f (fmap ?g ?l)) with (map f (map g l)).
  rewrite map_map. induction l as [|a l IH] using rev_ind; [done|].
  rewrite length_app, Nat.add_comm. simpl length. rewrite seq_S, map_app. simpl. f_equal.
  - rewrite <- IH at 2. apply map_ext_in. intros i Hi. apply in_seq in Hi.
    apply znth_app_l. unfold zlength. lia.
  - f_equal. rewrite znth_app_r by (unfold zlength; lia).
    by replace (Z.of_nat (length l) + 0 - zlength l) with 0 by (unfold zlength; lia).
Qed.

Lemma writes_hdr h : h_cc h = zlength (h_csrc h) -> writes (rtp_hdr_encode h) (rtp_fixed h).
Proof.
  intros Hcc. unfold rtp_hdr_encode, rtp_fixed.
  repeat apply writes_seq_or; auto with writes.
  - apply writes_mem; [|done]. unfold hdr_byte0, hdr_byte1. repeat constructor; apply wrap8_byte.
  - rewrite Hcc. replace (map (be_bytes 4) (h_csrc h)) with
      (map (fun i => be_bytes 4 (znth i (h_csrc h))) (seqZ 0 (zlength (h_csrc h))))
      by (by rewrite <- (map_map (fun i => znth i (h_csrc h)) (be_bytes 4)), csrc_seqZ).
    apply writes_for_each. intros. auto with writes.
Qed.

(** *** Decoding *)

Lemma read_csrc_app l : forall mb r,
  Forall is_u32 l -> mbuf_wf mb -> rest mb = concat (map (be_bytes 4) l) ++ r ->
  exists mb', read_csrc (length l) mb = (l, mb') /\ mb' = adv mb (4 * zlength l)
    /\ mbuf_wf mb' /\ rest mb' = r.
Proof.
  induction l as [|v l IH]; intros mb r Hu W R; cbn [map concat] in R.
  - exists mb. split_and!; try done. unfold adv. rewrite Z.add_0_r. by destruct mb.
  - inversion_clear Hu as [|? ? Hv Hl]. rewrite <- app_assoc in R. cbn [read_csrc length].
    read_step (read_be32_app mb v _) as W1 R1.
    destruct (IH _ _ Hl W1 R1) as (mb' & -> & -> & W2 & R2).
    rewrite wrap_small by exact Hv. rewrite adv_adv, zlength_cons in *.
    replace (4 * (1 + zlength l)) with (4 + 4 * zlength l) by lia. eauto 10.
Qed.

Lemma zlength_csrc l : zlength (concat (map (be_bytes 4) l)) = 4 * zlength l.
Proof. induction l; simpl; zlen. Qed.

(** Parsing: fixed header, extension block, payload. *)
Lemma rtp_hdr_decode_app h x payload mb :
  rtp_header_wf h -> xblock_ok h x -> mbuf_wf mb ->
  rest mb = rtp_fixed h ++ rtp_xblock h x ++ payload ->
  exists mb', rtp_hdr_decode mb = (Ok h, mb') /\ mbuf_wf mb' /\ rest mb' = payload
    /\ mb_end mb' = mb_end mb /\ mb_buf mb' = mb_buf mb.
Proof.
  intros Wh Hx W R. unfold rtp_hdr_decode, rtp_fixed in *. rewrite <- !app_assoc in R.
  rewrite mbuf_get_left_rest by done.
  assert (Hlen : 12 <= zlength (rest mb)).
  { rewrite R, !zlength_app, !zlength_be_bytes, zlength_csrc.
    pose proof (zlength_nonneg (h_csrc h)). pose proof (zlength_nonneg (rtp_xblock h x)).
    pose proof (zlength_nonneg payload). rewrite !zlength_cons, zlength_nil. lia. }
  unfold RTP_HEADER_SIZE. decide_test.
  destruct (read_mem_app mb _ _ 2 W R eq_refl) as (E & W1 & R1). rewrite E. clear E. simpl negb.
  znth_red. pose proof (hdr_byte0_fields h Wh) as F0. unfold byte0_fields in F0. injection F0 as -> -> -> ->.
  destruct (hdr_byte1_fields h Wh) as [-> ->].
  read_step (read_be16_app _ _ _) as W2 R2. read_step (read_be32_app _ _ _) as W3 R3.
  read_step (read_be32_app _ _ _) as W4 R4.
  destruct Wh as [_ Hcc Hcc15 _ Hseq Hts Hssrc Hcsrc Hxw].
  rewrite !wrap_small by assumption.
  rewrite mbuf_get_left_rest, R4, zlength_app, zlength_csrc by done.
  pose proof (zlength_nonneg (rtp_xblock h x ++ payload)).
  pose proof (zlength_nonneg (h_csrc h)). decide_test.
  destruct (read_csrc_app _ _ _ Hcsrc W4 R4) as (mb5 & E5 & Hmb5 & W5 & R5).
  replace (Z.to_nat (h_cc h)) with (length (h_csrc h)) by (rewrite Hcc; unfold zlength; lia).
  rewrite E5. clear E5.
  assert (Hb2z : forall b, (Z.b2z b =? 1) = b) by by intros [].
  rewrite !Hb2z. unfold rtp_xblock, xblock_ok in *.
  destruct (h_ext h) eqn:Eext.
  - destruct Hxw as [Hxt Hxl]. rewrite <- !app_assoc in R5.
    rewrite mbuf_get_left_rest, R5 by done. rewrite !zlength_app, !zlength_be_bytes.
    pose proof (zlength_nonneg x). pose proof (zlength_nonneg payload). decide_test.
    read_step (read_be16_app _ _ _) as W6 R6. read_step (read_be16_app _ _ _) as W7 R7.
    rewrite !wrap_small by assumption.
    rewrite mbuf_get_left_rest, R7, zlength_app by done. decide_test.
    destruct (adv_step _ _ _ (h_x_len h * 4) W7 R7 ltac:(lia)) as [W8 R8].
    eexists. split.
    + rewrite <- (mbuf_advance_adv _ (h_x_len h * 4)) in W8, R8
        by (try done; unfold is_u16 in *; rewrite R7, zlength_app; lia).
      unfold mbuf_advance. rewrite <- Eext at 1. by destruct h.
    + rewrite <- (mbuf_advance_adv _ (h_x_len h * 4)) in W8, R8
        by (try done; unfold is_u16 in *; rewrite R7, zlength_app; lia).
      split_and!; try exact W8; try exact R8; by subst mb5.
  - destruct Hxw as [Hxt Hxl]. subst x. exists mb5. split_and!; try done; try by subst mb5.
    rewrite <- Eext at 1. rewrite <- Hxt, <- Hxl at 1. by destruct h.
Qed.
End RtpFacts.

(** ** Theorems *)

Section RtpTheorems.
Context `{H : Host}.

Lemma rtp_fixed_bytes h : bytes (rtp_fixed h).
Proof.
  unfold rtp_fixed. rewrite !bytes_app. split_and!; auto with relib.
  - unfold hdr_byte0, hdr_byte1. repeat constructor; apply wrap8_byte.
  - apply Forall_concat, List.Forall_map. apply Forall_true. auto with relib.
Qed.

(** A packet assembled from rtp_hdr_encode, the extension block its X bit
    announces and a payload is taken apart by rtp_hdr_decode: the header comes
    back field for field (CSRC list and extension header included) and the
    buffer is left at the payload. *)
Theorem rtp_packet_roundtrip h x payload mb mb' :
  rtp_header_wf h -> xblock_ok h x -> bytes x -> bytes payload ->
  zlength x + 4 < 2 ^ 63 -> zlength payload < 2 ^ 63 -> at_end mb ->
  (rtp_hdr_encode h ;| (fun mb => mbuf_write_mem mb (rtp_xblock h x))
     ;| (fun mb => mbuf_write_mem mb payload)) mb = (0, mb') ->
  exists mb'', rtp_hdr_decode (mbuf_set_pos mb' (mb_pos mb)) = (Ok h, mb'')
    /\ mbuf_wf mb'' /\ rest mb'' = payload.
Proof.
  intros Wh Hx Hbx Hbp Hlx Hlp Hm E.
  assert (Hw : writes (rtp_hdr_encode h ;| (fun mb => mbuf_write_mem mb (rtp_xblock h x))
     ;| (fun mb => mbuf_write_mem mb payload)) (rtp_fixed h ++ rtp_xblock h x ++ payload)).
  { apply writes_seq_or; [apply writes_hdr; by destruct Wh|]. apply writes_seq_or; apply writes_mem; try done.
    - unfold rtp_xblock. destruct (h_ext h); [|done]. rewrite !bytes_app. auto with relib.
    - unfold rtp_xblock. destruct (h_ext h); [|done]. rewrite !zlength_app, !zlength_be_bytes. lia. }
  destruct (writes_done _ _ _ _ Hw Hm E) as (_ & _ & W & R).
  destruct (rtp_hdr_decode_app h x payload _ Wh Hx W R) as (mb'' & E' & W' & R' & _). eauto.
Qed.

Lemma read_csrc_any n mb :
  mbuf_wf mb -> advances mb (read_csrc n mb).2 /\ length (read_csrc n mb).1 = n
    /\ Forall is_u32 (read_csrc n mb).1.
Proof.
  revert mb. induction n as [|n IH]; intros mb W; cbn [read_csrc]; [by split_and!|].
  destruct (read_be32_any mb W) as [Ha Hu]. destruct (read_be32 mb) as [v mb1]; simpl in *.
  destruct (IH mb1 (advances_wf _ _ W Ha)) as (Ha2 & Hl & Hu2).
  destruct (read_csrc n mb1) as [l mb2]; simpl in *.
  split_and!; [by etransitivity | by rewrite Hl | by constructor].
Qed.

(** Rtp_hdr_decode is memory safe on arbitrary input: from a well-formed
    buffer it only moves the position forward and never past the end, fails
    with EBADMSG only, and a header it returns has every field in range, with
    as many CSRCs as its count says. *)
Theorem rtp_hdr_decode_safe mb :
  mbuf_wf mb ->
  advances mb (rtp_hdr_decode mb).2 /\
  match (rtp_hdr_decode mb).1 with
  | Err e => e = EBADMSG
  | Ok h => 0 <= h_ver h <= 3 /\ 0 <= h_pt h < 128 /\ is_u16 (h_seq h) /\ is_u32 (h_ts h)
      /\ is_u32 (h_ssrc h) /\ 0 <= h_cc h <= 15 /\ zlength (h_csrc h) = h_cc h
      /\ Forall is_u32 (h_csrc h) /\ (h_ext h = true -> is_u16 (h_x_type h) /\ is_u16 (h_x_len h))
  end.
Proof.
  intros W. unfold rtp_hdr_decode, RTP_HEADER_SIZE.
  rewrite mbuf_get_left_rest by done. case_test; [done|].
  pose proof (read_mem_advances mb 2 W ltac:(lia)) as Ha1.
  pose proof (read_mem_bytes mb 2 W) as Hb1.
  assert (E1 : (mbuf_read_mem mb 2).1.1 = 0).
  { unfold mbuf_read_mem. rewrite mbuf_get_left_rest by done. by decide_test. }
  destruct (mbuf_read_mem mb 2) as [[e1 buf] mb1]; simpl in E1, Ha1, Hb1. subst e1. simpl negb.
  set (b0 := znth 0 buf). set (b1 := znth 1 buf).
  assert (W1 := advances_wf _ _ W Ha1).
  read_any (read_be16_any mb1 W1) as sq mb2 W2 Ha2 Hseq.
  read_any (read_be32_any mb2 W2) as ts mb3 W3 Ha3 Hts.
  read_any (read_be32_any mb3 W3) as ssrc mb4 W4 Ha4 Hssrc.
  assert (A4 : advances mb mb4) by (do 3 (etransitivity; [eassumption|]); done).
  cbv beta. case_test; [done|].
  assert (Hcc : 0 <= Z.land (Z.shiftr b0 0) 15 < 2 ^ 4) by (apply land_bound_r; lia).
  assert (Hver : 0 <= Z.land (Z.shiftr b0 6) 3 < 2 ^ 2) by (apply land_bound_r; lia).
  assert (Hpt : 0 <= Z.land (Z.shiftr b1 0) 127 < 2 ^ 7) by (apply land_bound_r; lia).
  destruct (read_csrc_any (Z.to_nat (Z.land (Z.shiftr b0 0) 15)) mb4 W4) as (Ha5 & Hl5 & Hu5).
  destruct (read_csrc _ mb4) as [csrc mb5]; simpl in Ha5, Hl5, Hu5.
  assert (A5 : advances mb mb5) by (etransitivity; eassumption). assert (W5 := advances_wf _ _ W4 Ha5).
  assert (Hlc : zlength csrc = Z.land (Z.shiftr b0 0) 15) by (unfold zlength; lia).
  destruct (Z.land (Z.shiftr b0 4) 1 =? 1) eqn:Eext.
  2:{ simpl. split; [done|]. split_and!; try done; lia. }
  case_test; [done|].
  read_any (read_be16_any mb5 W5) as xt mb6 W6 Ha6 Hxt.
  read_any (read_be16_any mb6 W6) as xl mb7 W7 Ha7 Hxl.
  assert (A7 : advances mb mb7) by (do 2 (etransitivity; [eassumption|]); done).
  case_test; [done|]. simpl. split.
  - etransitivity; [exact A7|]. rewrite mbuf_get_left_rest, zlength_rest in * by done.
    unfold is_u16 in *. mbuf_wf_facts. rewrite wrap_small by lia. apply advances_set_pos. lia.
  - split_and!; try done; lia.
Qed.

(** Rtp_send puts a fresh 12-byte header right in front of the payload,
    which it does not touch, advances the sequence number modulo 2^16 and
    leaves the buffer at the header; the receiver's rtp_decode accepts the
    packet and finds the same fields and the payload.  A buffer without room
    for the header is refused with EBADMSG. *)
Theorem rtp_send_correct rs marker pt ts mb rs' mb' :
  mbuf_wf mb -> is_u32 (enc_ssrc rs) -> is_u32 ts -> 0 <= pt < 128 ->
  rtp_send_hdr rs false marker pt ts mb = (0, rs', mb') ->
  RTP_HEADER_SIZE <= mb_pos mb
  /\ enc_seq rs' = u16 (enc_seq rs + 1) /\ enc_ssrc rs' = enc_ssrc rs
  /\ mb_pos mb' = mb_pos mb - RTP_HEADER_SIZE
  /\ exists h mb'', rtp_decode mb' = (Ok h, mb'') /\ rest mb'' = rest mb
      /\ h_seq h = enc_seq rs' /\ h_ts h = ts /\ h_ssrc h = enc_ssrc rs /\ h_pt h = pt /\ h_m h = marker.
Proof.
  intros W Hs Ht Hpt. unfold rtp_send_hdr, RTP_HEADER_SIZE. case_test; [discriminate|].
  set (mb0 := mbuf_advance mb _). unfold rtp_encode. case_test; [discriminate|].
  set (h := RtpHeader _ _ _ _ _ _ _ _ _ _ _ _).
  destruct (rtp_hdr_encode h mb0) as [e mb1] eqn:E. cbv beta iota.
  assert (Hmb0 : mb0 = mbuf_set_pos mb (mb_pos mb - 12)).
  { unfold mb0, mbuf_advance. mbuf_wf_facts. by rewrite wrap_small by lia. }
  clearbody mb0.
  destruct (Z.eqb_spec e 0) as [->|He]; [|simpl; congruence]. simpl. intros [= <- <-].
  assert (W0 : mbuf_wf mb0).
  { rewrite Hmb0. mbuf_wf_facts. split; simpl; unfold MEM_SIZE_MAX; try lia; done. }
  assert (Wh : rtp_header_wf h).
  { split; simpl; try done; try (right; reflexivity). apply wrap_range. lia. }
  destruct (writes_at _ _ _ _ (writes_hdr h eq_refl) W0 E) as (_ & _ & _ & _ & W2 & R2).
  change (zlength (rtp_fixed h)) with 12 in R2.
  assert (Hr : zdrop 12 (rest mb0) = rest mb).
  { rewrite Hmb0. unfold rest. simpl. change (content (mbuf_set_pos _ _)) with (content mb).
    rewrite zdrop_zdrop by lia. f_equal. lia. }
  rewrite Hr in R2.
  destruct (rtp_hdr_decode_app h [] (rest mb) _ Wh eq_refl W2 R2) as (mb'' & Ed & _ & R3 & _).
  split_and!; try done; [by rewrite Hmb0|]. exists h, mb''. unfold rtp_decode. rewrite Ed.
  by split_and!.
Qed.
End RtpTheorems.

(** *** Concrete packets *)

Definition sample_hdr : rtp_header :=
  RtpHeader 2 false true 2 true 111 4660 305419896 3735928559 [1; 2] 48862 1.

Lemma sample_hdr_wf : rtp_header_wf sample_hdr.
Proof. split; cbn -[Z.pow is_u16 is_u32]; [by right | by_compute..]. Qed.

Lemma mbuf_init_at_end : at_end mbuf_init.
Proof. split; [apply mbuf_init_wf | done]. Qed.

Lemma rtp_packet_roundtrip_witness :
  rtp_header_wf sample_hdr /\ xblock_ok sample_hdr [16; 7; 0; 0] /\
  exists mb' mb'', (rtp_hdr_encode (H := lp64_le) sample_hdr
      ;| (fun mb => mbuf_write_mem (H := lp64_le) mb (rtp_xblock sample_hdr [16; 7; 0; 0]))
      ;| (fun mb => mbuf_write_mem (H := lp64_le) mb [9; 8; 7])) mbuf_init = (0, mb')
    /\ rtp_hdr_decode (H := lp64_le) (mbuf_set_pos mb' 0) = (Ok sample_hdr, mb'') /\ rest mb'' = [9; 8; 7].
Proof.
  split; [exact sample_hdr_wf|]. split; [reflexivity|].
  assert (Hx : bytes [16; 7; 0; 0]) by by_compute.
  assert (Hp : bytes [9; 8; 7]) by by_compute.
  eexists. edestruct (rtp_packet_roundtrip (H := lp64_le) sample_hdr [16; 7; 0; 0] [9; 8; 7] mbuf_init)
    as (mb'' & E & _ & R); [exact sample_hdr_wf | reflexivity | exact Hx | exact Hp | reflexivity | reflexivity
    | exact mbuf_init_at_end | vm_compute; reflexivity |].
  exists mb''. split; [vm_compute; reflexivity|]. split; [exact E | exact R].
Defined.

Lemma rtp_hdr_decode_safe_witness :
  mbuf_wf mbuf_init /\ advances mbuf_init (rtp_hdr_decode (H := lp64_le) mbuf_init).2.
Proof.
  split; [apply mbuf_init_wf|].
  exact (proj1 (rtp_hdr_decode_safe (H := lp64_le) mbuf_init mbuf_init_wf)).
Defined.

(** 16 bytes of head room, then the payload. *)
Definition sample_payload_mb : mbuf := Mbuf (Some (replicate 16 0 ++ [1; 2; 3; 4])) 20 16 20.

Lemma sample_payload_wf : mbuf_wf sample_payload_mb.
Proof. split; cbn -[MEM_SIZE_MAX]; by_compute. Qed.

Lemma rtp_send_correct_witness :
  mbuf_wf sample_payload_mb /\
  exists rs' mb', rtp_send_hdr (H := lp64_le) (RtpSock 65535 77) false true 8 160 sample_payload_mb = (0, rs', mb')
    /\ enc_seq rs' = 0 /\ mb_pos mb' = 4.
Proof.
  split; [exact sample_payload_wf|]. do 2 eexists. split; [vm_compute; reflexivity|].
  edestruct (rtp_send_correct (H := lp64_le) (RtpSock 65535 77) true 8 160 sample_payload_mb)
    as (_ & E1 & _ & E2 & _); [exact sample_payload_wf | split; vm_compute; congruence
    | split; vm_compute; congruence | split; vm_compute; congruence | vm_compute; reflexivity |].
  split; [exact E1 | exact E2].
Defined.
