(* ===== verification/RtpExt.v ===== *)
(** * RTP header extensions: src/src/rtpext/rtpext.c (RFC 8285)

    One-byte and two-byte extension elements.  The padding loop of
    rtpext_encode runs until the position is aligned; it takes a fuel argument
    and [None] means that it has not ended yet.  Three turns are enough while
    the writes succeed ([rtpext_encode_done]); when they do not, the loop never
    ends ([rtpext_pad_diverges]). *)

From stdpp Require Import base list numbers.
From Stdlib Require Import ZArith Lia.
From S2P Require Import Prelude Endian Mbuf MbufView.

Open Scope Z_scope.

Record rtpext := Rtpext { ext_id : Z; ext_data : list Z }.

Definition RTPEXT_TYPE_MAGIC : Z := 0xbede.
Definition RTPEXT_TYPE_MAGIC_LONG : Z := 0x1000.
Definition RTPEXT_ID_MIN : Z := 1.
Definition RTPEXT_ID_MAX : Z := 14.
Definition RTPEXT_LEN_MIN : Z := 1.
Definition RTPEXT_LEN_MAX : Z := 16.

Section RtpExt.
Context `{H : Host}.

Definition rtpext_hdr_encode (num_bytes : Z) (mb : mbuf) : Z * mbuf :=
  if num_bytes =? 0 then (EINVAL, mb)
  else if negb (Z.land num_bytes 3 =? 0) then (EINVAL, mb)
  else (write_be16 RTPEXT_TYPE_MAGIC ;| write_be16 (u16 (num_bytes / 4))) mb.

Definition rtpext_hdr_encode_long (num_bytes : Z) (mb : mbuf) : Z * mbuf :=
  if num_bytes =? 0 then (EINVAL, mb)
  else if negb (Z.land num_bytes 3 =? 0) then (EINVAL, mb)
  else (write_be16 RTPEXT_TYPE_MAGIC_LONG ;| write_be16 (u16 (num_bytes / 4))) mb.

(** [while ((mb->pos - start) & 0x03) err |= mbuf_write_u8(mb, 0x00);] *)
Definition rtpext_pad (fuel : nat) (start err : Z) (mb : mbuf) : option (Z * mbuf) := align_loop fuel 0 start err mb.

Definition rtpext_encode (fuel : nat) (id : Z) (data : list Z) (mb : mbuf) : option (Z * mbuf) :=
  let len := zlength data in
  if (id <? RTPEXT_ID_MIN) || (id >? RTPEXT_ID_MAX) then Some (EINVAL, mb)
  else if (len <? RTPEXT_LEN_MIN) || (len >? RTPEXT_LEN_MAX) then Some (EINVAL, mb)
  else
    let start := mb_pos mb in
    let '(err, mb) :=
      (mbuf_write_u8 (u8 (Z.lor (Z.shiftl id 4) (len - 1)))
       ;| (fun mb => mbuf_write_mem mb data)) mb in
    if negb (err =? 0) then Some (err, mb) else rtpext_pad fuel start err mb.

(** [while (mbuf_get_left(mb))] skip zero bytes; one turn per byte left. *)
Fixpoint rtpext_skip (fuel : nat) (mb : mbuf) : mbuf :=
  match fuel with
  | O => mb
  | S fuel =>
      if mbuf_get_left mb =? 0 then mb
      else if negb (znth 0 (mbuf_buf mb) =? 0) then mb
      else rtpext_skip fuel (mbuf_advance mb 1)
  end.

Definition rtpext_decode (mb : mbuf) : res rtpext * mbuf :=
  if mbuf_get_left mb <? 1 then (Err EBADMSG, mb)
  else
    let '(v, mb) := mbuf_read_u8 mb in
    let id := Z.shiftr v 4 in
    let len := Z.land v 15 + 1 in
    if (id <? RTPEXT_ID_MIN) || (id >? RTPEXT_ID_MAX) then (Err EBADMSG, mb)
    else if len >? mbuf_get_left mb then (Err ENODATA, mb)
    else
      let '(err, data, mb) := mbuf_read_mem mb len in
      if negb (err =? 0) then (Err err, mb)
      else (Ok (Rtpext id data), rtpext_skip (Z.to_nat (mbuf_get_left mb)) mb).

(** A NULL or empty [data] writes only the two header bytes. *)
Definition rtpext_encode_long (id : Z) (data : list Z) : mbuf -> Z * mbuf :=
  mbuf_write_u8 id ;| mbuf_write_u8 (zlength data)
  ;| (fun mb => if zlength data =? 0 then (0, mb) else mbuf_write_mem mb data).

Definition rtpext_decode_long (mb : mbuf) : res rtpext * mbuf :=
  if mbuf_get_left mb <? 2 then (Err EBADMSG, mb)
  else
    let '(id, mb) := mbuf_read_u8 mb in
    let '(len, mb) := mbuf_read_u8 mb in
    if id =? 0 then (Err EBADMSG, mb)
    else if len >? mbuf_get_left mb then (Err ENODATA, mb)
    else
      let '(err, data, mb) := mbuf_read_mem mb len in
      if negb (err =? 0) then (Err err, mb)
      else (Ok (Rtpext id data), rtpext_skip (Z.to_nat (mbuf_get_left mb)) mb).
End RtpExt.

Definition rtpext_find (extv : list rtpext) (id : Z) : option rtpext :=
  List.find (fun e => ext_id e =? id) extv.

(** ** Wire format *)

Definition ext_byte (e : rtpext) : Z := u8 (Z.lor (Z.shiftl (ext_id e) 4) (zlength (ext_data e) - 1)).

Definition ext_bytes (e : rtpext) : list Z :=
  ext_byte e :: ext_data e ++ replicate (Z.to_nat (pad_len (1 + zlength (ext_data e)))) 0.

Definition ext_wf (e : rtpext) : Prop :=
  1 <= ext_id e <= 14 /\ 1 <= zlength (ext_data e) <= 16 /\ bytes (ext_data e).

Lemma ext_byte_sum e : ext_wf e -> ext_byte e = ext_id e * 16 + (zlength (ext_data e) - 1).
Proof.
  intros (Hid & Hl & _). unfold ext_byte.
  rewrite (lor_shiftl_add (ext_id e) (zlength (ext_data e) - 1) 4) by lia.
  apply wrap_small. lia.
Qed.

(** What follows an element must not look like padding. *)
Definition not_pad (r : list Z) : Prop := match r with [] => True | b :: _ => b <> 0 end.

Section RtpExtFacts.
Context `{H : Host}.

Lemma rtpext_skip_app n : forall mb r,
  mbuf_wf mb -> rest mb = replicate n 0 ++ r -> not_pad r ->
  exists mb', (forall fuel, (n < fuel)%nat \/ r = [] /\ (n <= fuel)%nat -> rtpext_skip fuel mb = mb')
    /\ mbuf_wf mb' /\ rest mb' = r /\ mb_end mb' = mb_end mb /\ mb_buf mb' = mb_buf mb.
Proof.
  induction n as [|n IH]; intros mb r W R Hnp; simpl in R.
  - exists mb. split_and!; try done. intros fuel Hf.
    destruct fuel as [|fuel]; [done|]. cbn [rtpext_skip].
    rewrite mbuf_get_left_rest, R by done. destruct r as [|b r]; [done|].
    rewrite zlength_cons. pose proof (zlength_nonneg r). decide_test.
    assert (E : znth 0 (mbuf_buf mb) = b).
    { pose proof (mbuf_buf_rest mb 1 W) as E. rewrite R, zlength_cons in E. specialize (E ltac:(lia)).
      destruct (mbuf_buf mb) as [|x l]; [discriminate|]. by injection E as ->. }
    rewrite E. simpl in Hnp. by replace (b =? 0) with false by (symmetry; by apply Z.eqb_neq).
  - destruct (adv_step mb [0] (replicate n 0 ++ r) 1 W R eq_refl) as [W1 R1].
    destruct (IH _ _ W1 R1 Hnp) as (mb' & Hskip & W' & R' & He & Hb).
    exists mb'. split_and!; try done. intros [|fuel] Hf; [lia|]. cbn [rtpext_skip].
    assert (E : znth 0 (mbuf_buf mb) = 0).
    { pose proof (mbuf_buf_rest mb 1 W) as E. rewrite R, zlength_cons in E.
      pose proof (zlength_nonneg (replicate n 0 ++ r)). specialize (E ltac:(lia)).
      destruct (mbuf_buf mb) as [|x l]; [discriminate|]. by injection E as ->. }
    rewrite mbuf_get_left_rest, R, zlength_cons, E by done.
    pose proof (zlength_nonneg (replicate n 0 ++ r)). decide_test. simpl.
    rewrite mbuf_advance_adv by (try done; rewrite R, zlength_cons; lia).
    apply Hskip. destruct Hf as [|[? ?]]; [left; lia|right; split; [done|lia]].
Qed.

Lemma rtpext_decode_app e r mb :
  ext_wf e -> mbuf_wf mb -> rest mb = ext_bytes e ++ r -> not_pad r ->
  exists mb', rtpext_decode mb = (Ok e, mb') /\ mbuf_wf mb' /\ rest mb' = r.
Proof.
  intros We W R Hnp. pose proof (ext_byte_sum e We) as Hb. destruct We as (Hid & Hl & Hd).
  unfold rtpext_decode. unfold ext_bytes in R. simpl in R. rewrite <- app_assoc in R.
  rewrite mbuf_get_left_rest, R, zlength_cons, !zlength_app by done.
  pose proof (zlength_nonneg (replicate (Z.to_nat (pad_len (1 + zlength (ext_data e)))) 0)).
  pose proof (zlength_nonneg r). decide_test.
  read_step (read_u8_app mb _ _) as W1 R1. rewrite Hb.
  replace (Z.shiftr _ 4) with (ext_id e)
    by (rewrite Z.shiftr_div_pow2 by lia; Z.to_euclidean_division_equations; lia).
  replace (Z.land _ 15) with (zlength (ext_data e) - 1)
    by (change 15 with (Z.ones 4); rewrite Z.land_ones by lia; Z.to_euclidean_division_equations; lia).
  unfold RTPEXT_ID_MIN, RTPEXT_ID_MAX.
  replace ((ext_id e <? 1) || (ext_id e >? 14)) with false by (symmetry; apply orb_false_intro; [apply Z.ltb_ge | rewrite Z.gtb_ltb; apply Z.ltb_ge]; lia).
  rewrite mbuf_get_left_rest, R1, !zlength_app by done. decide_test.
  rewrite Z.sub_add.
  destruct (read_mem_app _ _ _ _ W1 R1 eq_refl) as (E & W2 & R2). rewrite E. simpl negb. cbv iota.
  destruct (rtpext_skip_app _ _ _ W2 R2 Hnp) as (mb' & Hs & W3 & R3 & _ & _).
  exists mb'. split_and!; try done. rewrite Hs; [by destruct e|].
  rewrite mbuf_get_left_rest, R2, zlength_app by done. unfold zlength. rewrite length_replicate.
  destruct r; simpl; [right; split; [done|lia] | left; lia].
Qed.

(** *** Encoding *)

(** With memory available an element is appended, padded to 4 bytes, and the
    padding loop takes at most 3 turns. *)
Lemma rtpext_encode_done e mb :
  ext_wf e -> at_end mb -> ample_memory -> mb_pos mb < 2 ^ 30 ->
  exists mb', rtpext_encode 3 (ext_id e) (ext_data e) mb = Some (0, mb')
    /\ at_end mb' /\ content mb' = content mb ++ ext_bytes e.
Proof.
  intros We [W Hpe] Ham Hp. destruct We as (Hid & Hl & Hd). unfold rtpext_encode.
  unfold RTPEXT_ID_MIN, RTPEXT_ID_MAX, RTPEXT_LEN_MIN, RTPEXT_LEN_MAX.
  replace ((ext_id e <? 1) || (ext_id e >? 14)) with false by (symmetry; apply orb_false_intro; [apply Z.ltb_ge | rewrite Z.gtb_ltb; apply Z.ltb_ge]; lia).
  replace ((zlength (ext_data e) <? 1) || (zlength (ext_data e) >? 16)) with false by (symmetry; apply orb_false_intro; [apply Z.ltb_ge | rewrite Z.gtb_ltb; apply Z.ltb_ge]; lia).
  set (f := mbuf_write_u8 _ ;| _).
  assert (Hw : writes f (ext_byte e :: ext_data e)).
  { apply (writes_seq_or _ _ [ext_byte e]); [|apply writes_mem; [done|lia]].
    pose proof (writes_u8 (ext_byte e)) as Hw1. unfold ext_byte in *.
    rewrite Z.mod_small in Hw1; [done|]. apply wrap8_byte. }
  pose proof (writes_total f _ mb Hw W Ham) as Hok. rewrite zlength_cons in Hok. specialize (Hok ltac:(lia)).
  destruct (f mb) as [e1 mb1] eqn:E1. simpl in Hok. subst e1. simpl negb. cbv iota.
  destruct (writes_at _ _ _ _ Hw W E1) as (W1 & Hp1 & _ & Hc1 & _). rewrite zlength_cons in Hp1.
  pose proof (pad_len_range (1 + zlength (ext_data e))).
  unfold rtpext_pad. destruct (align_loop_done 0 (Z.to_nat (pad_len (1 + zlength (ext_data e)))) 3 (mb_pos mb) mb1)
    as (mb' & -> & W' & Hp' & Hc'); try done; try lia; try (mbuf_wf_facts; lia).
  { rewrite Z2Nat.id by lia. rewrite Hp1. unfold pad_len.
    replace (mb_pos mb + (1 + zlength (ext_data e)) - mb_pos mb) with (1 + zlength (ext_data e)) by lia.
    rewrite Z.add_mod_idemp_r by lia. by rewrite Z.add_opp_diag_r. }
  exists mb'. split; [done|].
  assert (Hc2 : content mb' = content mb ++ ext_bytes e).
  { rewrite Hc', Hc1, Hp1, <- (zlength_cons (ext_byte e)), zsplice_app by by apply pos_content.
    rewrite Hpe, <- (zlength_content mb W), zsplice_end. by rewrite zlength_cons. }
  split; [|done]. split; [done|]. rewrite <- (zlength_content mb' W'), Hc2, zlength_app, zlength_content by done.
  rewrite Hp', Hp1, Hpe. unfold ext_bytes. rewrite zlength_cons, zlength_app, zlength_replicate; lia.
Qed.

(** Encode and decode a sequence of elements, the way callers do. *)
Fixpoint encode_all (exts : list rtpext) (mb : mbuf) : option (Z * mbuf) :=
  match exts with
  | [] => Some (0, mb)
  | e :: exts =>
      match rtpext_encode 3 (ext_id e) (ext_data e) mb with
      | Some (err, mb) => if negb (err =? 0) then Some (err, mb) else encode_all exts mb
      | None => None
      end
  end.

Fixpoint decode_all (n : nat) (mb : mbuf) : res (list rtpext) :=
  match n with
  | O => Ok []
  | S n =>
      match rtpext_decode mb with
      | (Err e, _) => Err e
      | (Ok e, mb) => match decode_all n mb with Ok l => Ok (e :: l) | Err e => Err e end
      end
  end.

Lemma ext_bytes_length e : ext_wf e -> zlength (ext_bytes e) <= 20.
Proof.
  intros (_ & Hl & _). pose proof (pad_len_range (1 + zlength (ext_data e))).
  unfold ext_bytes. rewrite zlength_cons, zlength_app, zlength_replicate; lia.
Qed.

Lemma encode_all_done exts : forall mb,
  Forall ext_wf exts -> at_end mb -> ample_memory -> mb_pos mb + 20 * zlength exts < 2 ^ 30 ->
  exists mb', encode_all exts mb = Some (0, mb') /\ at_end mb'
    /\ content mb' = content mb ++ concat (map ext_bytes exts).
Proof.
  induction exts as [|e exts IH]; intros mb Hwf Hm Ham Hp; cbn [encode_all map concat].
  - exists mb. by rewrite app_nil_r.
  - inversion_clear Hwf as [|? ? We Hwf']. rewrite zlength_cons in Hp. pose proof (zlength_nonneg exts).
    destruct (rtpext_encode_done e mb We Hm Ham ltac:(lia)) as (mb1 & -> & Hm1 & Hc1). simpl.
    destruct (IH mb1 Hwf' Hm1 Ham) as (mb' & -> & Hm' & Hc').
    { destruct Hm as [W Hpe], Hm1 as [W1 Hpe1]. pose proof (zlength_content mb1 W1) as L.
      rewrite Hc1, zlength_app, zlength_content in L by done. pose proof (ext_bytes_length e We). lia. }
    exists mb'. by rewrite Hc', Hc1, <- app_assoc.
Qed.

Lemma not_pad_exts exts : Forall ext_wf exts -> not_pad (concat (map ext_bytes exts)).
Proof.
  destruct 1 as [|e exts We _]; [done|]. simpl. rewrite (ext_byte_sum e We). destruct We as (? & ? & _). lia.
Qed.

Lemma decode_all_app exts : forall mb,
  Forall ext_wf exts -> mbuf_wf mb -> rest mb = concat (map ext_bytes exts) ->
  decode_all (length exts) mb = Ok exts.
Proof.
  induction exts as [|e exts IH]; intros mb Hwf W R; [done|]. inversion_clear Hwf as [|? ? We Hwf'].
  cbn [decode_all length]. destruct (rtpext_decode_app e _ mb We W R (not_pad_exts _ Hwf')) as (mb' & -> & W' & R').
  by rewrite (IH mb' Hwf' W' R').
Qed.

(** Any sequence of one-byte header extensions (identifier 1 to 14, 1 to
    16 bytes each) that is encoded into a buffer with enough memory is encoded
    without error, with the padding loop ending after at most three turns per
    element, and is decoded back element by element. *)
Theorem rtpext_roundtrip exts mb :
  Forall ext_wf exts -> at_end mb -> ample_memory -> mb_pos mb + 20 * zlength exts < 2 ^ 30 ->
  exists mb', encode_all exts mb = Some (0, mb') /\ at_end mb'
    /\ decode_all (length exts) (mbuf_set_pos mb' (mb_pos mb)) = Ok exts.
Proof.
  intros Hwf Hm Ham Hp. destruct (encode_all_done exts mb Hwf Hm Ham Hp) as (mb' & E & Hm' & Hc).
  exists mb'. split; [done|]. split; [done|]. destruct Hm as [W Hpe], Hm' as [W' Hpe'].
  pose proof (zlength_content mb' W') as L. rewrite Hc, zlength_app, zlength_content in L by done.
  apply decode_all_app; [done| |].
  - pose proof (zlength_nonneg (concat (map ext_bytes exts))).
    mbuf_wf_facts. split; simpl; unfold MEM_SIZE_MAX; try lia; done.
  - unfold rest. simpl. change (content (mbuf_set_pos mb' (mb_pos mb))) with (content mb').
    by rewrite Hc, Hpe, <- (zlength_content mb W), zdrop_app_exact.
Qed.

(** The padding loop of rtpext_encode does not check the error of its
    writes: if the buffer cannot grow while the position is unaligned, the loop
    makes no progress and never ends, whatever number of turns it is given. *)
Theorem rtpext_pad_diverges mb start :
  (forall n, malloc n = None) -> (forall o n, realloc o n = None) ->
  mbuf_wf mb -> mb_pos mb = mb_size mb -> 0 <= start <= mb_pos mb -> (mb_pos mb - start) mod 4 <> 0 ->
  forall fuel err, rtpext_pad fuel start err mb = None.
Proof.
  intros Hm Hr W Hfull Hst Hmod fuel err. apply align_loop_stuck.
  - unfold mbuf_write_u8, mbuf_write_mem.
    destruct (mbuf_put_cases mb (host_bytes 1 0) W) as [(mb' & E & _)|E];
      [apply host_bytes_bytes | unfold zlength; rewrite host_bytes_length; lia | |by rewrite E].
    exfalso. revert E. unfold mbuf_put. unfold zlength. rewrite host_bytes_length.
    destruct W as [? ? ? ? ?]. unfold MEM_SIZE_MAX in *. rewrite (wrap_small _ (mb_pos mb + _)) by lia.
    replace (_ >? _) with true by (symmetry; rewrite Z.gtb_ltb; apply Z.ltb_lt; lia).
    unfold mbuf_resize, mem_realloc, mem_alloc. rewrite Hm.
    destruct (mb_buf mb) as [o|]; [rewrite Hr|]; case_test; simpl; discriminate.
  - destruct W as [? ? ? ? ?]. unfold MEM_SIZE_MAX in *. rewrite wrap_small by lia.
    change 3 with (Z.ones 2). by rewrite Z.land_ones by lia.
Qed.
End RtpExtFacts.

Definition sample_exts : list rtpext := [Rtpext 1 [255]; Rtpext 14 [0; 0; 0; 0]; Rtpext 3 [1; 2; 3]].

Lemma rtpext_roundtrip_witness :
  Forall ext_wf sample_exts /\
  exists mb', encode_all (H := lp64_le) sample_exts mbuf_init = Some (0, mb')
    /\ decode_all (H := lp64_le) 3 (mbuf_set_pos mb' 0) = Ok sample_exts.
Proof.
  assert (Hwf : Forall ext_wf sample_exts).
  { repeat constructor; simpl; lia || (unfold zlength; simpl; lia). }
  split; [exact Hwf|].
  destruct (rtpext_roundtrip (H := lp64_le) sample_exts mbuf_init Hwf) as (mb' & E & _ & D);
    [split; [apply mbuf_init_wf | reflexivity] | exact lp64_ample | vm_compute; reflexivity |].
  exists mb'. split; [exact E | exact D].
Defined.

Lemma rtpext_pad_diverges_witness :
  mbuf_wf (Mbuf (Some [1]) 1 1 1) /\ forall fuel, rtpext_pad (H := oom_host) fuel 0 0 (Mbuf (Some [1]) 1 1 1) = None.
Proof.
  assert (W : mbuf_wf (Mbuf (Some [1]) 1 1 1)) by (split; cbn -[MEM_SIZE_MAX]; by_compute).
  split; [exact W|]. intros fuel.
  apply (rtpext_pad_diverges (H := oom_host) (Mbuf (Some [1]) 1 1 1) 0); try reflexivity;
    [exact W | vm_compute; split; congruence | vm_compute; congruence].
Defined.
