(* ===== verification/RtpSource.v ===== *)
(** * RTP source state: src/src/rtp/source.c (RFC 3550 A.1, A.3, A.8)

    Sequence number validation with probation, 16-bit wrap-around counted in
    [cycles], and the loss and jitter statistics derived from them.  Fields are
    kept at their C width; [int] results are two's complement. *)

From stdpp Require Import base list numbers.
From Stdlib Require Import ZArith Lia.
From S2P Require Import Prelude.

Open Scope Z_scope.

Record rtp_source := RtpSource {
  max_seq : Z;
  cycles : Z;
  base_seq : Z;
  bad_seq : Z;
  probation : Z;
  received : Z;
  expected_prior : Z;
  received_prior : Z;
  transit : Z;
  jitter : Z;
}.

Definition RTP_SEQ_MOD : Z := 2 ^ 16.
Definition MAX_DROPOUT : Z := 3000.
Definition MAX_MISORDER : Z := 100.
Definition MIN_SEQUENTIAL : Z := 2.

Definition rtp_source_init_seq (s : rtp_source) (seq : Z) : rtp_source :=
  {| max_seq := seq; cycles := 0; base_seq := seq; bad_seq := RTP_SEQ_MOD + 1;
     probation := probation s; received := 0; expected_prior := 0; received_prior := 0;
     transit := transit s; jitter := jitter s |}.

Definition set_received (s : rtp_source) (n : Z) : rtp_source :=
  {| max_seq := max_seq s; cycles := cycles s; base_seq := base_seq s; bad_seq := bad_seq s;
     probation := probation s; received := n; expected_prior := expected_prior s;
     received_prior := received_prior s; transit := transit s; jitter := jitter s |}.

Definition set_seq (s : rtp_source) (prob seq cyc : Z) : rtp_source :=
  {| max_seq := seq; cycles := cyc; base_seq := base_seq s; bad_seq := bad_seq s;
     probation := prob; received := received s; expected_prior := expected_prior s;
     received_prior := received_prior s; transit := transit s; jitter := jitter s |}.

Definition set_bad_seq (s : rtp_source) (bad : Z) : rtp_source :=
  {| max_seq := max_seq s; cycles := cycles s; base_seq := base_seq s; bad_seq := bad;
     probation := probation s; received := received s; expected_prior := expected_prior s;
     received_prior := received_prior s; transit := transit s; jitter := jitter s |}.

(** [s->received++; return 1;] *)
Definition count_packet (s : rtp_source) : Z * rtp_source := (1, set_received s (u32 (received s + 1))).

(** [seq == s->max_seq + 1] is evaluated in [int], without wrap-around. *)
Definition rtp_source_update_seq (s : rtp_source) (seq : Z) : Z * rtp_source :=
  let udelta := u16 (seq - max_seq s) in
  if negb (probation s =? 0) then
    if seq =? max_seq s + 1 then
      let s := set_seq s (u32 (probation s - 1)) seq (cycles s) in
      if probation s =? 0 then count_packet (rtp_source_init_seq s seq) else (0, s)
    else (0, set_seq s (MIN_SEQUENTIAL - 1) seq (cycles s))
  else if udelta <? MAX_DROPOUT then
    let cyc := if seq <? max_seq s then u32 (cycles s + RTP_SEQ_MOD) else cycles s in
    count_packet (set_seq s (probation s) seq cyc)
  else if udelta <=? RTP_SEQ_MOD - MAX_MISORDER then
    if seq =? bad_seq s then count_packet (rtp_source_init_seq s seq)
    else (0, set_bad_seq s (Z.land (seq + 1) (RTP_SEQ_MOD - 1)))
  else count_packet s.

Definition rtp_source_calc_jitter (s : rtp_source) (rtp_ts arrival : Z) : rtp_source :=
  let tr := swrap 32 (arrival - rtp_ts) in
  let d := swrap 32 (tr - transit s) in
  let set jit :=
    {| max_seq := max_seq s; cycles := cycles s; base_seq := base_seq s; bad_seq := bad_seq s;
       probation := probation s; received := received s; expected_prior := expected_prior s;
       received_prior := received_prior s; transit := tr; jitter := jit |} in
  if transit s =? 0 then set (jitter s)
  else
    let d := if d <? 0 then - d else d in
    set (u32 (jitter s + d - Z.shiftr (u32 (jitter s + 8)) 4)).

Definition extended_max (s : rtp_source) : Z := swrap 32 (cycles s + max_seq s).
Definition expected (s : rtp_source) : Z := swrap 32 (extended_max s - base_seq s + 1).

Definition rtp_source_calc_lost (s : rtp_source) : Z :=
  let lost := swrap 32 (expected s - received s) in
  if lost >? 0x7fffff then 0x7fffff
  else if lost <? - 0x7fffff then - 0x7fffff
  else lost.

Definition rtp_source_calc_fraction_lost (s : rtp_source) : Z * rtp_source :=
  let expected_interval := swrap 32 (expected s - expected_prior s) in
  let received_interval := swrap 32 (received s - received_prior s) in
  let lost_interval := swrap 32 (expected_interval - received_interval) in
  let fraction :=
    if (expected_interval =? 0) || (lost_interval <=? 0) then 0
    else u8 (Z.quot (swrap 32 (Z.shiftl lost_interval 8)) expected_interval) in
  (fraction,
   {| max_seq := max_seq s; cycles := cycles s; base_seq := base_seq s; bad_seq := bad_seq s;
      probation := probation s; received := received s; expected_prior := u32 (expected s);
      received_prior := received s; transit := transit s; jitter := jitter s |}).

(** ** Tracking the extended sequence number *)

(** The receiver has seen packets up to extended number [ext] (counted from
    the one it was initialised with), [n] of them. *)
Record tracks (s : rtp_source) (base ext n : Z) : Prop := {
  tr_prob : probation s = 0;
  tr_base : base_seq s = base;
  tr_max : max_seq s = ext mod 2 ^ 16;
  tr_cycles : cycles s = u32 (ext - ext mod 2 ^ 16);
  tr_received : received s = u32 n;
}.

Lemma tracks_init s seq :
  is_u16 seq -> probation s = 0 -> tracks (rtp_source_init_seq s seq) seq seq 0.
Proof.
  intros Hs Hp. split; simpl; try done.
  - by rewrite Z.mod_small.
  - rewrite Z.mod_small by done. by rewrite Z.sub_diag.
Qed.

(** In-order packet with a gap below MAX_DROPOUT. *)
Lemma tracks_step s base ext n delta :
  tracks s base ext n -> 0 <= ext -> 0 <= delta < MAX_DROPOUT ->
  let seq := (ext + delta) mod 2 ^ 16 in
  (rtp_source_update_seq s seq).1 = 1 /\ tracks (rtp_source_update_seq s seq).2 base (ext + delta) (n + 1).
Proof.
  intros [Hp Hb Hm Hc Hr] He Hd seq. unfold rtp_source_update_seq, MAX_DROPOUT in *. rewrite Hp, Hm. simpl negb. cbv iota.
  assert (Hu : u16 (seq - ext mod 2 ^ 16) = delta).
  { unfold wrap, seq. rewrite <- Zminus_mod. rewrite Z.add_simpl_l. apply Z.mod_small. lia. }
  rewrite Hu. decide_test. simpl. split; [done|]. split; simpl; try done.
  - rewrite Hc. unfold wrap, seq. change (2 ^ 32) with 4294967296. change (2 ^ 16) with 65536.
    assert (H1 : ext mod 65536 + delta = (ext + delta) mod 65536
                 \/ ext mod 65536 + delta = (ext + delta) mod 65536 + 65536)
      by (Z.to_euclidean_division_equations; lia).
    destruct ((ext + delta) mod 65536 <? ext mod 65536) eqn:El; bool_prop.
    + destruct H1 as [H1|H1]; [lia|].
      unfold RTP_SEQ_MOD. change (2 ^ 16) with 65536. rewrite Z.add_mod_idemp_l by lia. f_equal. lia.
    + destruct H1 as [H1|H1]; [f_equal; lia|].
      pose proof (Z.mod_pos_bound ext 65536). pose proof (Z.mod_pos_bound (ext + delta) 65536). lia.
  - rewrite Hr. unfold wrap. by rewrite Z.add_mod_idemp_l by lia.
Qed.

(** Feeding packets, given by their distance to the previous one. *)
Fixpoint feed (s : rtp_source) (ext : Z) (deltas : list Z) : list Z * rtp_source :=
  match deltas with
  | [] => ([], s)
  | d :: deltas =>
      let '(v, s) := rtp_source_update_seq s ((ext + d) mod 2 ^ 16) in
      let '(vs, s) := feed s (ext + d) deltas in (v :: vs, s)
  end.

Definition sum (l : list Z) : Z := foldr Z.add 0 l.

Lemma feed_tracks deltas : forall s base ext n,
  tracks s base ext n -> 0 <= ext -> Forall (fun d => 0 <= d < MAX_DROPOUT) deltas ->
  Forall (fun v => v = 1) (feed s ext deltas).1 /\
  tracks (feed s ext deltas).2 base (ext + sum deltas) (n + zlength deltas).
Proof.
  induction deltas as [|d deltas IH]; intros s base ext n Ht He Hd; cbn [feed sum foldr].
  - rewrite Z.add_0_r. rewrite zlength_nil, Z.add_0_r. split; [constructor|done].
  - inversion_clear Hd as [|? ? Hd1 Hds].
    destruct (tracks_step s base ext n d Ht He Hd1) as [Hv Ht1].
    destruct (rtp_source_update_seq s ((ext + d) mod 2 ^ 16)) as [v s1]; simpl in Hv, Ht1. subst v.
    destruct (IH s1 base (ext + d) (n + 1) Ht1) as [Hvs Ht2]; [lia|done|].
    destruct (feed s1 (ext + d) deltas) as [vs s2]; simpl in *.
    split; [by constructor|]. rewrite zlength_cons. fold (sum deltas).
    replace (ext + (d + sum deltas)) with (ext + d + sum deltas) by lia.
    by replace (n + (1 + zlength deltas)) with (n + 1 + zlength deltas) by lia.
Qed.

Lemma sum_bound deltas : Forall (fun d => 0 <= d < MAX_DROPOUT) deltas -> 0 <= sum deltas <= 3000 * zlength deltas.
Proof.
  induction 1 as [|d l Hd _ IH]; simpl; [done|]. rewrite zlength_cons. unfold sum, MAX_DROPOUT in *. simpl. lia.
Qed.

Lemma swrap_small x : - 2 ^ 31 <= x < 2 ^ 31 -> swrap 32 x = x.
Proof.
  intros Hx. unfold swrap. change (32 - 1) with 31. destruct (Z.lt_ge_cases x 0).
  - replace (x mod 2 ^ 32) with (x + 2 ^ 32) by (Z.to_euclidean_division_equations; lia). decide_test. lia.
  - rewrite Z.mod_small by lia. decide_test. lia.
Qed.

Lemma swrap_wrap x y : x mod 2 ^ 32 = y mod 2 ^ 32 -> swrap 32 x = swrap 32 y.
Proof. unfold swrap. by intros ->. Qed.

(** For any in-order stream (gaps below MAX_DROPOUT, any number of 16-bit
    wrap-arounds) every packet is accepted, the highest sequence number and the
    cycle count together are the extended sequence number, and the cumulative
    loss is exactly the number of packets that were skipped. *)
Theorem rtp_source_in_order s seq deltas :
  is_u16 seq -> probation s = 0 -> Forall (fun d => 0 <= d < MAX_DROPOUT) deltas ->
  zlength deltas < 2 ^ 18 -> - 0x7fffff <= sum deltas + 1 - zlength deltas <= 0x7fffff ->
  let '(vs, s') := feed (rtp_source_init_seq s seq) seq deltas in
  Forall (fun v => v = 1) vs
  /\ cycles s' + max_seq s' = seq + sum deltas
  /\ received s' = zlength deltas
  /\ rtp_source_calc_lost s' = sum deltas + 1 - zlength deltas.
Proof.
  intros Hs Hp Hd Hn Hl. pose proof (sum_bound deltas Hd) as Hsum. pose proof (zlength_nonneg deltas).
  destruct (feed_tracks deltas _ seq seq 0 (tracks_init s seq Hs Hp)) as [Hv [_ Hb Hm Hc Hr]];
    [unfold is_u16 in Hs; lia|done|].
  destruct (feed (rtp_source_init_seq s seq) seq deltas) as [vs s']; simpl in *. unfold is_u16 in Hs.
  assert (Hcm : cycles s' + max_seq s' = seq + sum deltas).
  { rewrite Hc, Hm. unfold wrap. pose proof (Z.mod_pos_bound (seq + sum deltas) (2 ^ 16)).
    pose proof (Z.mod_le (seq + sum deltas) (2 ^ 16)). rewrite Z.mod_small by lia. lia. }
  assert (Hrv : received s' = zlength deltas) by (rewrite Hr; apply wrap_small; lia).
  split_and!; try done. unfold rtp_source_calc_lost, expected, extended_max. rewrite Hcm, Hb, Hrv.
  rewrite (swrap_small (seq + _)) by lia. rewrite (swrap_small (_ - seq + 1)) by lia.
  rewrite swrap_small by lia. replace (seq + sum deltas - seq + 1 - zlength deltas) with (sum deltas + 1 - zlength deltas) by lia.
  repeat decide_test. done.
Qed.

(** ** Probation *)

Fixpoint feed_seqs (s : rtp_source) (seqs : list Z) : list Z * rtp_source :=
  match seqs with
  | [] => ([], s)
  | q :: seqs =>
      let '(v, s) := rtp_source_update_seq s q in
      let '(vs, s) := feed_seqs s seqs in (v :: vs, s)
  end.

(** A source on probation becomes valid exactly at the last of
    [probation] packets with consecutive sequence numbers (below the 16-bit
    wrap): the earlier ones are not counted, the last one restarts the
    statistics at its own sequence number and is counted. *)
Theorem rtp_source_probation s k :
  probation s = Z.of_nat (S k) -> Z.of_nat k < 2 ^ 31 -> 0 <= max_seq s ->
  max_seq s + Z.of_nat (S k) < 2 ^ 16 ->
  let '(vs, s') := feed_seqs s (map (fun i => max_seq s + Z.of_nat i) (seq 1 (S k))) in
  vs = replicate k 0 ++ [1] /\ probation s' = 0 /\ received s' = 1
  /\ base_seq s' = max_seq s + Z.of_nat (S k) /\ max_seq s' = base_seq s' /\ cycles s' = 0.
Proof.
  revert s. induction k as [|k IH]; intros s Hp Hk Hm Hb.
  - cbn [seq map feed_seqs]. unfold rtp_source_update_seq. rewrite Hp. simpl negb. cbv iota.
    decide_test. simpl. by split_and!.
  - rewrite <- cons_seq. cbn [map feed_seqs]. unfold rtp_source_update_seq at 1. rewrite Hp.
    replace (Z.of_nat (S (S k)) =? 0) with false by (symmetry; apply Z.eqb_neq; lia). simpl negb. cbv iota.
    decide_test. cbn [set_seq probation].
    replace (u32 (Z.of_nat (S (S k)) - 1)) with (Z.of_nat (S k)) by (rewrite wrap_small; lia).
    replace (Z.of_nat (S k) =? 0) with false by (symmetry; apply Z.eqb_neq; lia).
    set (s1 := set_seq s (Z.of_nat (S k)) (max_seq s + Z.of_nat 1) (cycles s)).
    specialize (IH s1 eq_refl ltac:(lia) ltac:(simpl; lia) ltac:(simpl max_seq; lia)).
    rewrite <- seq_shift, map_map in *.
    rewrite (map_ext (fun i => max_seq s1 + Z.of_nat (S i)) (fun i => max_seq s + Z.of_nat (S (S i)))) in IH
      by (intros; simpl max_seq; lia).
    rewrite <- seq_shift, map_map. destruct (feed_seqs s1 _) as [vs s'].
    destruct IH as (-> & ? & ? & -> & -> & ?). simpl max_seq. split_and!; try done; lia.
Qed.

(** The probation test compares with [max_seq + 1] in [int]: when the
    consecutive packets cross the 16-bit wrap (65535 then 0), the second one is
    taken as out of sequence and the probation starts over. *)
Theorem rtp_source_probation_wrap s :
  max_seq s = 65535 -> probation s <> 0 ->
  (rtp_source_update_seq s 0).1 = 0 /\ probation (rtp_source_update_seq s 0).2 = MIN_SEQUENTIAL - 1.
Proof.
  intros Hm Hp. unfold rtp_source_update_seq. rewrite Hm. apply Z.eqb_neq in Hp. by rewrite Hp.
Qed.

(** Re-synchronisation.  A valid source ignores a packet far away from the
    current sequence numbers, and restarts at the next one if and only if it
    directly follows the first. *)
Theorem rtp_source_resync s q :
  probation s = 0 -> is_u16 q -> is_u16 (max_seq s) ->
  MAX_DROPOUT <= u16 (q - max_seq s) -> u16 (q + 1 - max_seq s) <= RTP_SEQ_MOD - MAX_MISORDER ->
  MAX_DROPOUT <= u16 (q + 1 - max_seq s) -> u16 (q - max_seq s) <= RTP_SEQ_MOD - MAX_MISORDER ->
  bad_seq s <> q ->
  let '(v1, s1) := rtp_source_update_seq s q in
  let '(v2, s2) := rtp_source_update_seq s1 (u16 (q + 1)) in
  v1 = 0 /\ max_seq s1 = max_seq s /\ received s1 = received s
  /\ v2 = 1 /\ base_seq s2 = u16 (q + 1) /\ max_seq s2 = u16 (q + 1) /\ received s2 = 1.
Proof.
  intros Hp Hq Hm H1 H2 H3 H4 Hbad. unfold rtp_source_update_seq at 1. rewrite Hp. simpl negb. cbv iota.
  decide_test. decide_test. replace (q =? bad_seq s) with false by (symmetry; apply Z.eqb_neq; congruence).
  unfold rtp_source_update_seq. cbn [set_bad_seq probation max_seq bad_seq]. rewrite Hp. simpl negb. cbv iota.
  assert (E : u16 (u16 (q + 1) - max_seq s) = u16 (q + 1 - max_seq s))
    by (unfold wrap; apply Zminus_mod_idemp_l). rewrite E. decide_test. decide_test.
  assert (E2 : Z.land (q + 1) (RTP_SEQ_MOD - 1) = u16 (q + 1)) by (apply (Z.land_ones (q + 1) 16); lia).
  rewrite E2, Z.eqb_refl. simpl. by split_and!.
Qed.

(** ** Witnesses *)

Definition fresh_source : rtp_source := RtpSource 0 0 0 0 0 0 0 0 0 0.

Lemma rtp_source_in_order_witness :
  is_u16 65534 /\ Forall (fun d => 0 <= d < MAX_DROPOUT) [0; 1; 1; 5; 2] /\
  (let '(vs, s') := feed (rtp_source_init_seq fresh_source 65534) 65534 [0; 1; 1; 5; 2] in
   Forall (fun v => v = 1) vs /\ cycles s' + max_seq s' = 65543 /\ received s' = 5 /\ rtp_source_calc_lost s' = 5).
Proof.
  assert (Hs : is_u16 65534) by by_compute.
  assert (Hd : Forall (fun d => 0 <= d < MAX_DROPOUT) [0; 1; 1; 5; 2]) by by_compute.
  split; [exact Hs|]. split; [exact Hd|].
  exact (rtp_source_in_order fresh_source 65534 [0; 1; 1; 5; 2] Hs eq_refl Hd eq_refl
    ltac:(vm_compute; split; congruence)).
Defined.

Definition probation_source : rtp_source := RtpSource 10 0 0 0 2 0 0 0 0 0.

Lemma rtp_source_probation_witness :
  probation probation_source = Z.of_nat 2 /\ (feed_seqs probation_source [11; 12]).1 = [0; 1].
Proof.
  split; [reflexivity|].
  exact (proj1 (rtp_source_probation probation_source 1 eq_refl eq_refl ltac:(vm_compute; congruence) eq_refl)).
Defined.

Lemma rtp_source_probation_wrap_witness :
  (rtp_source_update_seq (RtpSource 65535 0 0 0 1 0 0 0 0 0) 0).1 = 0.
Proof.
  exact (proj1 (rtp_source_probation_wrap (RtpSource 65535 0 0 0 1 0 0 0 0 0) eq_refl ltac:(vm_compute; congruence))).
Defined.

Lemma rtp_source_resync_witness :
  max_seq (rtp_source_update_seq (rtp_source_update_seq fresh_source 20000).2 20001).2 = 20001.
Proof.
  exact (proj1 (proj2 (proj2 (proj2 (proj2 (proj2 (rtp_source_resync fresh_source 20000 eq_refl
    ltac:(by_compute) ltac:(by_compute) ltac:(by_compute) ltac:(by_compute) ltac:(by_compute)
    ltac:(by_compute) ltac:(by_compute)))))))).
Defined.
