(* ===== verification/Crypto.v ===== *)
(** * AES and HMAC contexts: src/src/aes/openssl/aes.c and src/src/hmac/openssl/hmac.c

    libre wraps OpenSSL's EVP cipher contexts and its HMAC function.  OpenSSL
    is outside the repository: [Class Evp] is the part of its interface the
    wrappers call (every call may fail), and [Class EvpLaws] is what its
    documentation promises of calls that succeed, in terms of a [view] of the
    context: cipher, key, IV, direction, associated data and ciphertext so
    far.  [Class EvpReliable] says that the calls do not fail.  The wrappers
    are translated on top of it; [toy_evp] is an instance of all three.  The
    casts of lengths to int in aes.c and hmac.c are left out: they change
    nothing for lengths below 2^31. *)

From stdpp Require Import base list numbers.
From Stdlib Require Import ZArith Lia.
From S2P Require Import Prelude Endian Mbuf.

Open Scope Z_scope.

Inductive aes_mode := AES_MODE_CTR | AES_MODE_GCM.

Inductive EVP_CIPHER := EVP_aes_128_ctr | EVP_aes_256_ctr | EVP_aes_128_gcm | EVP_aes_256_gcm.

Inductive hmac_hash := HMAC_HASH_SHA1 | HMAC_HASH_SHA256.

#[export] Instance aes_mode_eq_dec : EqDecision aes_mode.
Proof. solve_decision. Defined.
#[export] Instance EVP_CIPHER_eq_dec : EqDecision EVP_CIPHER.
Proof. solve_decision. Defined.

Definition AES_BLOCK_SIZE : Z := 16.
Definition SHA_DIGEST_LENGTH : Z := 20.
Definition GCM_TAGLEN : Z := 16.

Definition xor_bytes (d ks : list Z) : list Z := zip_with Z.lxor d ks.

(** ** The interface of libcrypto *)

(** A call returns whether it succeeded and the context as it left it.
    [EVP_CipherInit_ex ctx iv enc] is the call with cipher and key NULL; [None]
    stands for a NULL IV and for the direction -1.  [EVP_CipherUpdate enc ctx
    out d] is EVP_EncryptUpdate or EVP_DecryptUpdate; [out] is false when the
    output pointer is NULL. *)
Class Evp := {
  EVP_CIPHER_CTX : Type;
  EVP_CIPHER_CTX_new : option EVP_CIPHER_CTX;
  EVP_EncryptInit_ex : EVP_CIPHER_CTX -> EVP_CIPHER -> list Z -> option (list Z) -> bool * EVP_CIPHER_CTX;
  EVP_CipherInit_ex : EVP_CIPHER_CTX -> option (list Z) -> option bool -> bool * EVP_CIPHER_CTX;
  EVP_CipherUpdate : bool -> EVP_CIPHER_CTX -> bool -> list Z -> bool * list Z * EVP_CIPHER_CTX;
  EVP_EncryptFinal_ex : EVP_CIPHER_CTX -> bool * EVP_CIPHER_CTX;
  EVP_CTRL_GCM_GET_TAG : EVP_CIPHER_CTX -> Z -> bool * list Z;
  EVP_CTRL_GCM_SET_TAG : EVP_CIPHER_CTX -> list Z -> bool * EVP_CIPHER_CTX;
  EVP_DecryptFinal_ex : EVP_CIPHER_CTX -> bool * EVP_CIPHER_CTX;
  HMAC : hmac_hash -> list Z -> list Z -> option (list Z);
}.

Record evp_view := EvpView {
  v_cipher : EVP_CIPHER;
  v_key : list Z;
  v_iv : option (list Z);
  v_enc : bool;
  v_aad : list Z;
  v_ct : list Z;
}.

Class EvpLaws `{E : Evp} := {
  view : EVP_CIPHER_CTX -> evp_view;
  (** the key stream the counter mode xors with the data *)
  keystream : EVP_CIPHER -> list Z -> list Z -> Z -> list Z;
  (** the authentication tag of key, IV, associated data and ciphertext *)
  gcm_tag : EVP_CIPHER -> list Z -> list Z -> list Z -> list Z -> list Z;
  keystream_length c k iv n : 0 <= n -> zlength (keystream c k iv n) = n;
  keystream_bytes c k iv n : bytes (keystream c k iv n);
  gcm_tag_length c k iv a d : zlength (gcm_tag c k iv a d) = 16;
  gcm_tag_bytes c k iv a d : bytes (gcm_tag c k iv a d);
  init_view x c k iv x' :
    EVP_EncryptInit_ex x c k iv = (true, x') -> view x' = EvpView c k iv true [] [];
  set_iv_view x iv x' :
    EVP_CipherInit_ex x (Some iv) None = (true, x') ->
    view x' = EvpView (v_cipher (view x)) (v_key (view x)) (Some iv) (v_enc (view x)) [] [];
  set_enc_view x e x' :
    EVP_CipherInit_ex x None (Some e) = (true, x') ->
    view x' = EvpView (v_cipher (view x)) (v_key (view x)) (v_iv (view x)) e (v_aad (view x)) (v_ct (view x));
  update_length e x out d : zlength (EVP_CipherUpdate e x out d).1.2 = zlength d;
  update_bytes e x out d : bytes d -> bytes (EVP_CipherUpdate e x out d).1.2;
  update_aad e x d o x' :
    EVP_CipherUpdate e x false d = (true, o, x') -> v_enc (view x) = e ->
    view x' = EvpView (v_cipher (view x)) (v_key (view x)) (v_iv (view x)) e (v_aad (view x) ++ d) (v_ct (view x));
  update_data e x iv d o x' :
    EVP_CipherUpdate e x true d = (true, o, x') -> v_enc (view x) = e ->
    v_iv (view x) = Some iv -> v_ct (view x) = [] ->
    o = xor_bytes d (keystream (v_cipher (view x)) (v_key (view x)) iv (zlength d)) /\
    view x' = EvpView (v_cipher (view x)) (v_key (view x)) (v_iv (view x)) e (v_aad (view x))
                (if e then o else d);
  final_view x x' : EVP_EncryptFinal_ex x = (true, x') -> view x' = view x;
  get_tag x iv n t :
    EVP_CTRL_GCM_GET_TAG x n = (true, t) -> v_iv (view x) = Some iv -> 0 <= n <= 16 ->
    t = ztake n (gcm_tag (v_cipher (view x)) (v_key (view x)) iv (v_aad (view x)) (v_ct (view x)));
  set_tag x t x' iv :
    EVP_CTRL_GCM_SET_TAG x t = (true, x') -> v_iv (view x) = Some iv -> zlength t = 16 ->
    view x' = view x /\
    ((EVP_DecryptFinal_ex x').1 = true <->
     t = gcm_tag (v_cipher (view x)) (v_key (view x)) iv (v_aad (view x)) (v_ct (view x)));
  tag_final_view x x' b : EVP_DecryptFinal_ex x = (b, x') ->
    v_cipher (view x') = v_cipher (view x) /\ v_key (view x') = v_key (view x) /\ v_enc (view x') = v_enc (view x);
  hmac_length k d t : HMAC HMAC_HASH_SHA1 k d = Some t -> zlength t = 20 /\ bytes t;
}.

(** Nothing but a wrong tag makes a call fail. *)
Class EvpReliable `{E : Evp} := {
  rel_new : is_Some EVP_CIPHER_CTX_new;
  rel_init x c k iv : (EVP_EncryptInit_ex x c k iv).1 = true;
  rel_set x iv e : (EVP_CipherInit_ex x iv e).1 = true;
  rel_update e x out d : (EVP_CipherUpdate e x out d).1.1 = true;
  rel_final x : (EVP_EncryptFinal_ex x).1 = true;
  rel_get_tag x n : (EVP_CTRL_GCM_GET_TAG x n).1 = true;
  rel_set_tag x t : (EVP_CTRL_GCM_SET_TAG x t).1 = true;
  rel_hmac h k d : is_Some (HMAC h k d);
}.

(** ** openssl/aes.c *)

Section Aes.
Context `{H : Host} `{E : Evp}.

Record aes := Aes { aes_ctx : EVP_CIPHER_CTX; aes_md : aes_mode; aes_enc : bool }.

Definition sizeof_aes : Z := 16.

Definition aes_cipher (mode : aes_mode) (key_bits : Z) : option EVP_CIPHER :=
  match mode with
  | AES_MODE_CTR =>
      if key_bits =? 128 then Some EVP_aes_128_ctr
      else if key_bits =? 256 then Some EVP_aes_256_ctr else None
  | AES_MODE_GCM =>
      if key_bits =? 128 then Some EVP_aes_128_gcm
      else if key_bits =? 256 then Some EVP_aes_256_gcm else None
  end.

Definition set_crypt_dir (a : aes) (encr : bool) : bool * aes :=
  if negb (Bool.eqb (aes_enc a) encr) then
    let '(r, ctx) := EVP_CipherInit_ex (aes_ctx a) None (Some encr) in
    if r then (true, Aes ctx (aes_md a) encr) else (false, Aes ctx (aes_md a) (aes_enc a))
  else (true, a).

Definition aes_alloc (mode : aes_mode) (key : list Z) (key_bits : Z) (iv : option (list Z)) : res aes :=
  match aes_cipher mode key_bits with
  | None => Err ENOTSUP
  | Some cipher =>
      match mem_alloc sizeof_aes with
      | None => Err ENOMEM
      | Some _ =>
          match EVP_CIPHER_CTX_new with
          | None => Err ENOMEM
          | Some ctx =>
              let '(r, ctx) := EVP_EncryptInit_ex ctx cipher key iv in
              if r then Ok (Aes ctx mode true) else Err EPROTO
          end
      end
  end.

Definition aes_set_iv (a : aes) (iv : list Z) : aes :=
  let '(_, ctx) := EVP_CipherInit_ex (aes_ctx a) (Some iv) None in
  Aes ctx (aes_md a) (aes_enc a).

(** The body aes_encr and aes_decr share. *)
Definition aes_crypt (encr : bool) (a : aes) (out : bool) (inp : list Z) : Z * list Z * aes :=
  let '(r, a) := set_crypt_dir a encr in
  if negb r then (EPROTO, inp, a)
  else
    let '(r, o, ctx) := EVP_CipherUpdate encr (aes_ctx a) out inp in
    (if r then 0 else EPROTO, o, Aes ctx (aes_md a) (aes_enc a)).

Definition aes_encr : aes -> bool -> list Z -> Z * list Z * aes := aes_crypt true.
Definition aes_decr : aes -> bool -> list Z -> Z * list Z * aes := aes_crypt false.

Definition aes_get_authtag (a : aes) (taglen : Z) : res (list Z) * aes :=
  if taglen =? 0 then (Err EINVAL, a)
  else
    match aes_md a with
    | AES_MODE_GCM =>
        let '(r, ctx) := EVP_EncryptFinal_ex (aes_ctx a) in
        let a := Aes ctx (aes_md a) (aes_enc a) in
        if negb r then (Err EPROTO, a)
        else
          let '(r, tag) := EVP_CTRL_GCM_GET_TAG ctx taglen in
          (if r then Ok tag else Err EPROTO, a)
    | AES_MODE_CTR => (Err ENOTSUP, a)
    end.

Definition aes_authenticate (a : aes) (tag : list Z) : Z * aes :=
  if zlength tag =? 0 then (EINVAL, a)
  else
    match aes_md a with
    | AES_MODE_GCM =>
        let '(r, ctx) := EVP_CTRL_GCM_SET_TAG (aes_ctx a) tag in
        if negb r then (EPROTO, Aes ctx (aes_md a) (aes_enc a))
        else
          let '(r, ctx) := EVP_DecryptFinal_ex ctx in
          (if r then 0 else EAUTH, Aes ctx (aes_md a) (aes_enc a))
    | AES_MODE_CTR => (ENOTSUP, a)
    end.

(** ** openssl/hmac.c *)

Record hmac := Hmac { hmac_evp : hmac_hash; hmac_key : list Z }.

Definition sizeof_hmac : Z := 24.

Definition hmac_create (hash : hmac_hash) (key : list Z) : res hmac :=
  if zlength key =? 0 then Err EINVAL
  else
    match mem_alloc sizeof_hmac with
    | None => Err ENOMEM
    | Some _ =>
        match mem_alloc (zlength key) with
        | None => Err ENOMEM
        | Some _ => Ok (Hmac hash key)
        end
    end.

Definition hmac_digest (h : hmac) (data : list Z) : res (list Z) :=
  if zlength data =? 0 then Err EINVAL
  else match HMAC (hmac_evp h) (hmac_key h) data with
       | None => Err EPROTO
       | Some md => Ok md
       end.
End Aes.

(** ** What the wrappers do to a context *)

Section AesFacts.
Context `{H : Host} `{E : Evp} `{L : !EvpLaws} `{R : !EvpReliable}.

(** The direction libre remembers is the one of the context. *)
Record aes_wf (a : aes) : Prop := { aes_dir : aes_enc a = v_enc (view (aes_ctx a)) }.

(** Same cipher and key: what one context encrypts the other decrypts. *)
Definition same_key (a b : aes) : Prop :=
  v_cipher (view (aes_ctx a)) = v_cipher (view (aes_ctx b))
  /\ v_key (view (aes_ctx a)) = v_key (view (aes_ctx b)) /\ aes_md a = aes_md b.

#[export] Instance same_key_equiv : Equivalence same_key.
Proof. unfold same_key. split; repeat intro; destruct_and?; split_and!; congruence. Qed.

Lemma aes_alloc_ok mode key bits iv c :
  aes_cipher mode bits = Some c -> ample_memory ->
  exists a, aes_alloc mode key bits iv = Ok a /\ aes_wf a /\ aes_md a = mode
    /\ view (aes_ctx a) = EvpView c key iv true [] [].
Proof.
  intros Hc Ham. unfold aes_alloc. rewrite Hc. unfold mem_alloc, sizeof_aes.
  destruct (Ham 16) as [[b ->] _]; [unfold MEM_SIZE_MAX; lia|]. simpl.
  destruct rel_new as [x ->]. pose proof (rel_init x c key iv) as Hr.
  destruct (EVP_EncryptInit_ex x c key iv) as [r x'] eqn:Ei. simpl in Hr. subst r.
  apply init_view in Ei. eexists. split; [done|]. split_and!; try done. split. simpl. by rewrite Ei.
Qed.

(** The state the IV of a packet puts a context in. *)
Definition ready (a : aes) (iv aad : list Z) (a0 : aes) : Prop :=
  aes_wf a /\ same_key a a0 /\ v_iv (view (aes_ctx a)) = Some iv
  /\ v_aad (view (aes_ctx a)) = aad /\ v_ct (view (aes_ctx a)) = [].

Lemma aes_set_iv_ready a iv : aes_wf a -> ready (aes_set_iv a iv) iv [] a.
Proof.
  intros [Hd]. unfold aes_set_iv. pose proof (rel_set (aes_ctx a) (Some iv) None) as Hr.
  destruct (EVP_CipherInit_ex (aes_ctx a) (Some iv) None) as [r x] eqn:Es. simpl in Hr. subst r.
  apply set_iv_view in Es. unfold ready, same_key. simpl. rewrite Es. simpl. split_and!; try done.
  split. simpl. by rewrite Es.
Qed.

Lemma set_crypt_dir_ready a e iv aad a0 :
  ready a iv aad a0 ->
  exists a', set_crypt_dir a e = (true, a') /\ ready a' iv aad a0 /\ v_enc (view (aes_ctx a')) = e.
Proof.
  intros ([Hd] & (Hc & Hk & Hm) & Hiv & Haad & Hct). unfold set_crypt_dir.
  destruct (Bool.eqb (aes_enc a) e) eqn:Eb; simpl.
  - apply eqb_prop in Eb. exists a. unfold ready, same_key. split_and!; try done; congruence || by split.
  - pose proof (rel_set (aes_ctx a) None (Some e)) as Hr.
    destruct (EVP_CipherInit_ex (aes_ctx a) None (Some e)) as [r x] eqn:Es. simpl in Hr. subst r.
    apply set_enc_view in Es. eexists. split; [done|]. unfold ready, same_key. simpl. rewrite Es. simpl.
    split_and!; try done. split. simpl. by rewrite Es.
Qed.

Lemma aes_crypt_aad e a iv aad a0 d :
  ready a iv aad a0 -> exists o a', aes_crypt e a false d = (0, o, a') /\ ready a' iv (aad ++ d) a0.
Proof.
  intros Hrd. unfold aes_crypt. destruct (set_crypt_dir_ready a e iv aad a0 Hrd) as (a1 & -> & Hrd1 & He).
  simpl. pose proof (rel_update e (aes_ctx a1) false d) as Hr.
  destruct (EVP_CipherUpdate e (aes_ctx a1) false d) as [[r o] x] eqn:Eu. simpl in Hr. subst r.
  apply update_aad in Eu; [|done]. destruct Hrd1 as ([Hd] & (Hc & Hk & Hm) & Hiv & Haad & Hct).
  do 2 eexists. split; [done|]. unfold ready, same_key. simpl. rewrite Eu. simpl.
  rewrite Haad. split_and!; try done. split. simpl. rewrite Eu. simpl. congruence.
Qed.

(** One pass over the data, in either direction, xors the key stream; the
    context then holds what its tag is computed from. *)
Definition done_with (a : aes) (iv aad ct : list Z) (a0 : aes) : Prop :=
  aes_wf a /\ same_key a a0 /\ v_iv (view (aes_ctx a)) = Some iv
  /\ v_aad (view (aes_ctx a)) = aad /\ v_ct (view (aes_ctx a)) = ct.

Definition aes_stream (a : aes) (iv : list Z) (n : Z) : list Z :=
  keystream (v_cipher (view (aes_ctx a))) (v_key (view (aes_ctx a))) iv n.

Definition aes_tag (a : aes) (iv aad ct : list Z) : list Z :=
  gcm_tag (v_cipher (view (aes_ctx a))) (v_key (view (aes_ctx a))) iv aad ct.

Lemma aes_crypt_data e a iv aad a0 d :
  ready a iv aad a0 ->
  exists a', let o := xor_bytes d (aes_stream a0 iv (zlength d)) in
    aes_crypt e a true d = (0, o, a') /\ done_with a' iv aad (if e then o else d) a0.
Proof.
  intros Hrd. unfold aes_crypt. destruct (set_crypt_dir_ready a e iv aad a0 Hrd) as (a1 & -> & Hrd1 & He).
  simpl. pose proof (rel_update e (aes_ctx a1) true d) as Hr.
  destruct (EVP_CipherUpdate e (aes_ctx a1) true d) as [[r o] x] eqn:Eu. simpl in Hr. subst r.
  destruct Hrd1 as ([Hd] & (Hc & Hk & Hm) & Hiv & Haad & Hct).
  destruct (update_data _ _ iv _ _ _ Eu He Hiv Hct) as [Ho Hx]. unfold aes_stream.
  rewrite Hc, Hk in Ho. rewrite <- Ho. eexists. split; [done|].
  unfold done_with, same_key. simpl. rewrite Hx. simpl. split_and!; try done.
  split. simpl. rewrite Hx. simpl. congruence.
Qed.

Lemma aes_get_authtag_done a iv aad ct a0 :
  done_with a iv aad ct a0 -> aes_md a0 = AES_MODE_GCM ->
  exists a', aes_get_authtag a GCM_TAGLEN = (Ok (aes_tag a0 iv aad ct), a') /\ aes_wf a' /\ same_key a' a0.
Proof.
  intros ([Hd] & (Hc & Hk & Hm) & Hiv & Haad & Hct) Hg. unfold aes_get_authtag. simpl.
  rewrite Hm, Hg. pose proof (rel_final (aes_ctx a)) as Hr.
  destruct (EVP_EncryptFinal_ex (aes_ctx a)) as [r x] eqn:Ef. simpl in Hr. subst r. simpl.
  apply final_view in Ef. pose proof (rel_get_tag x GCM_TAGLEN) as Hr.
  destruct (EVP_CTRL_GCM_GET_TAG x GCM_TAGLEN) as [r t] eqn:Eg. simpl in Hr. subst r.
  eapply get_tag in Eg; [|rewrite Ef; exact Hiv|unfold GCM_TAGLEN; lia].
  rewrite ztake_ge in Eg by (rewrite gcm_tag_length; unfold GCM_TAGLEN; lia). subst t.
  rewrite Ef, Hc, Hk, Haad, Hct. eexists. split; [done|]. unfold same_key. simpl. rewrite Ef.
  split_and!; try done. split. simpl. by rewrite Ef.
Qed.

(** The tag is accepted exactly when it is the one of what was decrypted. *)
Lemma aes_authenticate_done a iv aad ct a0 t :
  done_with a iv aad ct a0 -> aes_md a0 = AES_MODE_GCM -> zlength t = 16 ->
  exists a', aes_authenticate a t = (if decide (t = aes_tag a0 iv aad ct) then 0 else EAUTH, a')
    /\ aes_wf a' /\ same_key a' a0.
Proof.
  intros ([Hd] & (Hc & Hk & Hm) & Hiv & Haad & Hct) Hg Ht. unfold aes_authenticate. rewrite Ht. simpl.
  rewrite Hm, Hg. pose proof (rel_set_tag (aes_ctx a) t) as Hr.
  destruct (EVP_CTRL_GCM_SET_TAG (aes_ctx a) t) as [r x] eqn:Es. simpl in Hr. subst r. simpl.
  destruct (set_tag _ _ _ _ Es Hiv Ht) as [Hv Hiff].
  destruct (EVP_DecryptFinal_ex x) as [b y] eqn:Ef. simpl in Hiff.
  destruct (tag_final_view _ _ _ Ef) as (V1 & V2 & V3). rewrite Hv in *.
  rewrite Hc, Hk, Haad, Hct in Hiff. fold (aes_tag a0 iv aad ct) in Hiff.
  exists (Aes y AES_MODE_GCM (aes_enc a)). unfold same_key. simpl.
  split; [|split; [split; simpl; congruence | split_and!; congruence]].
  f_equal. destruct (decide (t = aes_tag a0 iv aad ct)) as [Hd'|Hd'].
  - by rewrite (proj2 Hiff).
  - destruct b; [|done]. by destruct Hd'; apply Hiff.
Qed.

Lemma xor_bytes_length d ks : zlength ks = zlength d -> zlength (xor_bytes d ks) = zlength d.
Proof. unfold xor_bytes, zlength. intros. rewrite length_zip_with. lia. Qed.

Lemma xor_bytes_involutive d ks :
  zlength ks = zlength d -> xor_bytes (xor_bytes d ks) ks = d.
Proof.
  unfold xor_bytes, zlength. intros Hl. assert (Hl' : length ks = length d) by lia. clear Hl.
  revert ks Hl'. induction d as [|b d IH]; intros [|k ks] Hl; try done; simpl in *. f_equal.
  - by rewrite Z.lxor_assoc, Z.lxor_nilpotent, Z.lxor_0_r.
  - apply IH. lia.
Qed.

Lemma xor_bytes_bytes d ks : bytes d -> bytes ks -> bytes (xor_bytes d ks).
Proof.
  intros Hd Hk. revert ks Hk. induction Hd as [|b d Hb Hd IH]; intros ks Hk; [constructor|].
  destruct Hk as [|k ks Hk' Hks]; [constructor|]. unfold xor_bytes. simpl. constructor; [|by apply IH].
  apply (lxor_bound 8); [lia|exact Hb|exact Hk'].
Qed.

Lemma aes_stream_length a iv n : 0 <= n -> zlength (aes_stream a iv n) = n.
Proof. apply keystream_length. Qed.
Lemma aes_stream_bytes a iv n : bytes (aes_stream a iv n).
Proof. apply keystream_bytes. Qed.
Lemma aes_tag_length a iv aad ct : zlength (aes_tag a iv aad ct) = 16.
Proof. apply gcm_tag_length. Qed.
Lemma aes_tag_bytes a iv aad ct : bytes (aes_tag a iv aad ct).
Proof. apply gcm_tag_bytes. Qed.

Lemma same_key_stream a b iv n : same_key a b -> aes_stream a iv n = aes_stream b iv n.
Proof. intros (Hc & Hk & _). unfold aes_stream. by rewrite Hc, Hk. Qed.
Lemma same_key_tag a b iv aad ct : same_key a b -> aes_tag a iv aad ct = aes_tag b iv aad ct.
Proof. intros (Hc & Hk & _). unfold aes_tag. by rewrite Hc, Hk. Qed.

Lemma hmac_create_ok hash key :
  0 < zlength key <= MEM_SIZE_MAX -> ample_memory -> hmac_create hash key = Ok (Hmac hash key).
Proof.
  intros Hk Ham. unfold hmac_create, mem_alloc, sizeof_hmac. decide_test.
  destruct (Ham 24) as [[b ->] _]; [unfold MEM_SIZE_MAX; lia|].
  destruct (Ham (zlength key)) as [[b' ->] _]; [lia|]. unfold MEM_SIZE_MAX in *. simpl. by decide_test.
Qed.

Lemma hmac_digest_ok key d :
  0 < zlength d -> exists t, hmac_digest (Hmac HMAC_HASH_SHA1 key) d = Ok t
    /\ HMAC HMAC_HASH_SHA1 key d = Some t /\ zlength t = 20 /\ bytes t.
Proof.
  intros Hd. unfold hmac_digest. decide_test. simpl. destruct (rel_hmac HMAC_HASH_SHA1 key d) as [t Ht].
  rewrite Ht. destruct (hmac_length _ _ _ Ht). eauto.
Qed.
End AesFacts.

#[export] Hint Resolve aes_stream_bytes aes_tag_bytes xor_bytes_bytes : relib.

(** ** A concrete library

    Not a secure one: key stream and tags mix the inputs by sums. *)

Definition mix (seed : Z) (n : Z) : list Z := map (fun i => (seed + 7 * i) mod 256) (seqZ 0 n).
Definition sumz (l : list Z) : Z := foldr (fun b acc => b + 3 * acc) 1 l.

#[export] Instance toy_evp : Evp := {
  EVP_CIPHER_CTX := evp_view * option (list Z);
  EVP_CIPHER_CTX_new := Some (EvpView EVP_aes_128_ctr [] None true [] [], None);
  EVP_EncryptInit_ex _ c k iv := (true, (EvpView c k iv true [] [], None));
  EVP_CipherInit_ex x iv e :=
    let v := x.1 in
    let enc := match e with Some e => e | None => v_enc v end in
    (true, (match iv with
            | Some iv => EvpView (v_cipher v) (v_key v) (Some iv) enc [] []
            | None => EvpView (v_cipher v) (v_key v) (v_iv v) enc (v_aad v) (v_ct v)
            end, None));
  EVP_CipherUpdate e x out d :=
    let v := x.1 in
    if out then
      let o := xor_bytes d (mix (sumz (v_key v) + sumz (default [] (v_iv v))) (zlength d)) in
      (true, o, (EvpView (v_cipher v) (v_key v) (v_iv v) (v_enc v) (v_aad v) (if e then o else d), None))
    else (true, d, (EvpView (v_cipher v) (v_key v) (v_iv v) (v_enc v) (v_aad v ++ d) (v_ct v), None));
  EVP_EncryptFinal_ex x := (true, x);
  EVP_CTRL_GCM_GET_TAG x n :=
    let v := x.1 in
    (true, ztake n (mix (sumz (v_key v) + sumz (default [] (v_iv v)) + sumz (v_aad v) + sumz (v_ct v)) 16));
  EVP_CTRL_GCM_SET_TAG x t := (true, (x.1, Some t));
  EVP_DecryptFinal_ex x :=
    let v := x.1 in
    (bool_decide (x.2 = Some (mix (sumz (v_key v) + sumz (default [] (v_iv v)) + sumz (v_aad v) + sumz (v_ct v)) 16)), x);
  HMAC h k d := Some (mix (sumz k + sumz d) 20);
}.

Lemma mix_length s n : 0 <= n -> zlength (mix s n) = n.
Proof. intros. unfold mix, zlength. rewrite length_map, length_seqZ. lia. Qed.

Lemma mix_bytes s n : bytes (mix s n).
Proof. unfold mix. apply List.Forall_map, Forall_true. intros. apply Z.mod_pos_bound. lia. Qed.

#[export] Program Instance toy_laws : EvpLaws (E := toy_evp) := {
  view x := x.1;
  keystream c k iv n := mix (sumz k + sumz iv) n;
  gcm_tag c k iv a d := mix (sumz k + sumz iv + sumz a + sumz d) 16;
}.
Next Obligation. intros. by apply mix_length. Qed.
Next Obligation. intros. apply mix_bytes. Qed.
Next Obligation. intros. by apply mix_length. Qed.
Next Obligation. intros. apply mix_bytes. Qed.
Next Obligation. intros x c k iv x' [= <-]. done. Qed.
Next Obligation. intros x iv x' [= <-]. done. Qed.
Next Obligation. intros x e x' [= <-]. done. Qed.
Next Obligation.
  intros e x [] d; simpl; [|done]. apply xor_bytes_length, mix_length, zlength_nonneg.
Qed.
Next Obligation. intros e x [] d Hd; simpl; [|done]. apply xor_bytes_bytes; [done|apply mix_bytes]. Qed.
Next Obligation. intros e x d o x' [= <- <-] <-. done. Qed.
Next Obligation. intros e x iv d o x' Eu <- Hiv Hct. simpl in *. rewrite Hiv in Eu. simpl in Eu. injection Eu as <- <-. by rewrite Hiv. Qed.
Next Obligation. intros x x' [= <-]. done. Qed.
Next Obligation. intros x iv n t Eg Hiv Hn. simpl in *. rewrite Hiv in Eg. by injection Eg as <-. Qed.
Next Obligation.
  intros x t x' iv [= <-] Hiv Hl. simpl in *. split; [done|]. rewrite bool_decide_eq_true, Hiv. simpl.
  split; [by intros [= ->] | by intros ->].
Qed.
Next Obligation. intros x x' b [= <- <-]. done. Qed.
Next Obligation. intros k d t [= <-]. split; [by apply mix_length | apply mix_bytes]. Qed.

#[export] Instance toy_reliable : EvpReliable (E := toy_evp).
Proof. split; intros; simpl; try done. by destruct out. Qed.
