(* ===== verification/Srtp.v ===== *)
(** * SRTP sessions: src/src/srtp/{srtp,srtcp,stream,misc}.c

    A session is the record [srtp]: one [comp] (cipher, HMAC key, salt, tag
    length) for RTP and one for RTCP, and the list of streams, found by SSRC.
    The C functions hold a pointer into that list; here it is the position in
    the list, and every access goes through the session.  srtp_encrypt and its
    three siblings are computations over the session and the packet buffer
    ([M (srtp * mbuf)]): an early return keeps what was changed before it.

    This file holds the translation and the facts on its parts: the IV of a
    packet, the stream table, key derivation. *)

From stdpp Require Import base list numbers.
From Stdlib Require Import ZArith Lia.
From S2P Require Import Prelude Endian Mbuf MbufView Rtp SrtpReplay Crypto.

Open Scope Z_scope.

Record srtp_stream := SrtpStream {
  replay_rtp : replay;
  replay_rtcp : replay;
  ssrc : Z;
  roc : Z;
  s_l : Z;
  s_l_set : bool;
  rtcp_index : Z;
}.

Inductive srtp_suite :=
  | SRTP_AES_CM_128_HMAC_SHA1_32
  | SRTP_AES_CM_128_HMAC_SHA1_80
  | SRTP_AES_256_CM_HMAC_SHA1_32
  | SRTP_AES_256_CM_HMAC_SHA1_80
  | SRTP_AES_128_GCM
  | SRTP_AES_256_GCM.

Definition SRTP_MAX_STREAMS : Z := 8.
Definition MAX_KEYLEN : Z := 32.
Definition SRTP_UNENCRYPTED_SRTCP : Z := 2.

(** ** misc.c *)

(** [int v]: a roll-over counter above 2^31-1 is converted to a negative
    number, and back to 64 bits with its sign. *)
Definition srtp_get_index (roc s_l seq : Z) : Z :=
  let v :=
    if s_l <? 32768 then
      if seq - s_l >? 32768 then swrap 32 (Z.land (u32 (roc - 1)) 0xffffffff) else swrap 32 roc
    else
      if s_l - 32768 >? seq then swrap 32 (Z.land (u32 (roc + 1)) 0xffffffff) else swrap 32 roc in
  u64 (seq + u64 v * 65536).

Section Srtp.
Context `{H : Host} `{E : Evp}.

(** A [n]-byte member of the union vect128, at byte offset [off]. *)
Definition vect_get (n : nat) (off : Z) (v : list Z) : Z := host_val (ztake (Z.of_nat n) (zdrop off v)).

(** The 16 bytes of the IV. *)
Definition srtp_iv_calc (k_s : list Z) (ssrc ix : Z) : list Z :=
  host_bytes 4 (vect_get 4 0 k_s)
  ++ host_bytes 4 (Z.lxor (vect_get 4 4 k_s) (htonl ssrc))
  ++ host_bytes 4 (Z.lxor (vect_get 4 8 k_s) (htonl (u32 (Z.shiftr ix 16))))
  ++ host_bytes 2 (Z.lxor (vect_get 2 12 k_s) (htons (u16 ix)))
  ++ host_bytes 2 0.

(** The 12 bytes the cipher reads. *)
Definition srtp_iv_calc_gcm (k_s : list Z) (ssrc ix : Z) : list Z :=
  host_bytes 2 (vect_get 2 0 k_s)
  ++ host_bytes 2 (Z.lxor (vect_get 2 2 k_s) (htons (u16 (Z.shiftr ssrc 16))))
  ++ host_bytes 2 (Z.lxor (vect_get 2 4 k_s) (htons (Z.land ssrc 0xffff)))
  ++ host_bytes 2 (Z.lxor (vect_get 2 6 k_s) (htons (Z.land (Z.shiftr ix 32) 0xffff)))
  ++ host_bytes 2 (Z.lxor (vect_get 2 8 k_s) (htons (Z.land (Z.shiftr ix 16) 0xffff)))
  ++ host_bytes 2 (Z.lxor (vect_get 2 10 k_s) (htons (Z.land ix 0xffff))).

Definition srtp_derive (out_len label : Z) (master_key master_salt : list Z) : res (list Z) :=
  if (out_len >? AES_BLOCK_SIZE * 2) || (zlength master_salt >? AES_BLOCK_SIZE) then Err EINVAL
  else
    let x := zsplice 0 master_salt (replicate 16 0) in
    let x := zsplice 7 [Z.lxor (znth 7 x) label] x in
    match aes_alloc AES_MODE_CTR master_key (zlength master_key * 8) (Some x) with
    | Err e => Err e
    | Ok a =>
        let '(err, out, _) := aes_encr a true (replicate (Z.to_nat out_len) 0) in
        if err =? 0 then Ok out else Err err
    end.

(** ** Sessions *)

Record comp := Comp {
  c_aes : option aes;
  c_mode : aes_mode;
  c_hmac : option hmac;
  c_k_s : list Z;
  c_tag_len : Z;
}.

Record srtp := Srtp {
  s_rtp : comp;
  s_rtcp : comp;
  s_streaml : list srtp_stream;
}.

Definition err_of {A} (r : res A) : Z := match r with Ok _ => 0 | Err e => e end.
Definition val_of (r : res (list Z)) : list Z := match r with Ok d => d | Err _ => [] end.

(** [c] is zeroed memory; [k_s] has two more bytes than are derived. *)
Definition comp_init (offs : Z) (key s : list Z) (tag_len : Z) (encrypted hash : bool)
  (mode : aes_mode) : res comp :=
  let key_b := zlength key in
  if key_b >? MAX_KEYLEN then Err EINVAL
  else if tag_len >? SHA_DIGEST_LENGTH then Err EINVAL
  else
    let k_e := srtp_derive key_b (0x00 + offs) key s in
    let k_a := srtp_derive SHA_DIGEST_LENGTH (0x01 + offs) key s in
    let k_s := srtp_derive 14 (0x02 + offs) key s in
    let err := Z.lor (Z.lor (err_of k_e) (err_of k_a)) (err_of k_s) in
    if negb (err =? 0) then Err err
    else
      match (if encrypted then
               match aes_alloc mode (val_of k_e) (key_b * 8) None with
               | Ok a => Ok (Some a)
               | Err e => Err e
               end
             else Ok None) with
      | Err e => Err e
      | Ok aes =>
          match (if hash then
                   match hmac_create HMAC_HASH_SHA1 (val_of k_a) with
                   | Ok h => Ok (Some h)
                   | Err e => Err e
                   end
                 else Ok None) with
          | Err e => Err e
          | Ok hm => Ok (Comp aes mode hm (val_of k_s ++ [0; 0]) tag_len)
          end
      end.

(** Mode, key, salt and tag lengths, and whether the suite has an HMAC. *)
Definition suite_params (suite : srtp_suite) : aes_mode * Z * Z * Z * bool :=
  match suite with
  | SRTP_AES_CM_128_HMAC_SHA1_80 => (AES_MODE_CTR, 16, 14, 10, true)
  | SRTP_AES_CM_128_HMAC_SHA1_32 => (AES_MODE_CTR, 16, 14, 4, true)
  | SRTP_AES_256_CM_HMAC_SHA1_80 => (AES_MODE_CTR, 32, 14, 10, true)
  | SRTP_AES_256_CM_HMAC_SHA1_32 => (AES_MODE_CTR, 32, 14, 4, true)
  | SRTP_AES_128_GCM => (AES_MODE_GCM, 16, 12, 0, false)
  | SRTP_AES_256_GCM => (AES_MODE_GCM, 32, 12, 0, false)
  end.

Definition sizeof_srtp : Z := 120.

Definition srtp_alloc (suite : srtp_suite) (key : list Z) (flags : Z) : res srtp :=
  let '(mode, cipher_bytes, salt_bytes, auth_bytes, hash) := suite_params suite in
  if negb (cipher_bytes + salt_bytes =? zlength key) then Err EINVAL
  else
    let cipher_key := ztake cipher_bytes key in
    let master_salt := zdrop cipher_bytes key in
    match mem_alloc sizeof_srtp with
    | None => Err ENOMEM
    | Some _ =>
        let rtp := comp_init 0 cipher_key master_salt auth_bytes true hash mode in
        let rtcp := comp_init 3 cipher_key master_salt auth_bytes
                      (Z.land flags SRTP_UNENCRYPTED_SRTCP =? 0) hash mode in
        match rtp, rtcp with
        | Ok c1, Ok c2 => Ok (Srtp c1 c2 [])
        | _, _ => Err (Z.lor (err_of rtp) (err_of rtcp))
        end
    end.

(** ** stream.c *)

Definition stream_find (l : list srtp_stream) (id : Z) : option nat :=
  fst <$> list_find (fun s => ssrc s = id) l.

Definition sizeof_stream : Z := 80.

Definition stream_new (id : Z) (s : srtp) : res nat * srtp :=
  if zlength (s_streaml s) >=? SRTP_MAX_STREAMS then (Err ENOSR, s)
  else
    match mem_alloc sizeof_stream with
    | None => (Err ENOMEM, s)
    | Some _ =>
        let strm := SrtpStream srtp_replay_init srtp_replay_init id 0 0 false 0 in
        (Ok (length (s_streaml s)), Srtp (s_rtp s) (s_rtcp s) (s_streaml s ++ [strm]))
    end.

Definition stream_get (id : Z) (s : srtp) : res nat * srtp :=
  match stream_find (s_streaml s) id with
  | Some i => (Ok i, s)
  | None => stream_new id s
  end.

Definition null_stream : srtp_stream := SrtpStream srtp_replay_init srtp_replay_init 0 0 0 false 0.

Definition get_stream (i : nat) (s : srtp) : srtp_stream := default null_stream (s_streaml s !! i).
Definition set_stream (i : nat) (strm : srtp_stream) (s : srtp) : srtp :=
  Srtp (s_rtp s) (s_rtcp s) (<[i := strm]> (s_streaml s)).

Definition set_s_l (v : Z) (x : srtp_stream) : srtp_stream :=
  SrtpStream (replay_rtp x) (replay_rtcp x) (ssrc x) (roc x) v true (rtcp_index x).

Definition stream_get_seq (id seq : Z) (s : srtp) : res nat * srtp :=
  match stream_get id s with
  | (Err e, s) => (Err e, s)
  | (Ok i, s) =>
      let strm := get_stream i s in
      if negb (s_l_set strm) then (Ok i, set_stream i (set_s_l seq strm) s) else (Ok i, s)
  end.

(** ** Access to the state *)

Abbreviation P := (M (srtp * mbuf)).

Definition get_mb : P mbuf := fun st => (Ok st.2, st).
Definition put_mb (mb : mbuf) : P unit := fun st => (Ok tt, (st.1, mb)).
Definition on_mb {A} (f : mbuf -> res A * mbuf) : P A := fun st =>
  let '(r, mb) := f st.2 in (r, (st.1, mb)).
(** A call on the buffer that returns an error code: [err = f(mb); if (err) return err;] *)
Definition call_mb (f : mbuf -> Z * mbuf) : P unit := fun st =>
  let '(e, mb) := f st.2 in check_err e (st.1, mb).
Definition on_srtp {A} (f : srtp -> res A * srtp) : P A := fun st =>
  let '(r, s) := f st.1 in (r, (s, st.2)).
Definition strm_get (i : nat) : P srtp_stream := fun st => (Ok (get_stream i st.1), st).
Definition strm_put (i : nat) (x : srtp_stream) : P unit := fun st =>
  (Ok tt, (set_stream i x st.1, st.2)).

(** [&srtp->rtp] or [&srtp->rtcp]. *)
Inductive part := RTP | RTCP.

Definition get_comp (w : part) (s : srtp) : comp := match w with RTP => s_rtp s | RTCP => s_rtcp s end.
Definition set_aes (w : part) (a : aes) (s : srtp) : srtp :=
  let upd c := Comp (Some a) (c_mode c) (c_hmac c) (c_k_s c) (c_tag_len c) in
  match w with
  | RTP => Srtp (upd (s_rtp s)) (s_rtcp s) (s_streaml s)
  | RTCP => Srtp (s_rtp s) (upd (s_rtcp s)) (s_streaml s)
  end.
Definition comp_get (w : part) : P comp := fun st => (Ok (get_comp w st.1), st).
Definition aes_put (w : part) (a : aes) : P unit := fun st => (Ok tt, (set_aes w a st.1, st.2)).

(** ** The cipher blocks of srtp.c and srtcp.c *)

(** Counter mode: the payload in place, in the direction [enc]. *)
Definition crypt_ctr (w : part) (enc : bool) (id ix : Z) (a : aes) : P unit :=
  let! c := comp_get w in
  let! mb := get_mb in
  let a := aes_set_iv a (srtp_iv_calc (c_k_s c) id ix) in
  let '(err, o, a) := aes_crypt enc a true (mb_slice mb (mb_pos mb) (mbuf_get_left mb)) in
  let! _ := aes_put w a in
  let! _ := put_mb (mb_store mb (mb_pos mb) o) in
  check_err err.

(** The associated data, block by block, [err |=] throughout. *)
Fixpoint crypt_aad (enc : bool) (a : aes) (aads : list (list Z)) : Z * aes :=
  match aads with
  | [] => (0, a)
  | d :: aads =>
      let '(e1, _, a) := aes_crypt enc a false d in
      let '(e2, a) := crypt_aad enc a aads in (Z.lor e1 e2, a)
  end.

Definition encr_gcm (w : part) (id ix : Z) (aads : list (list Z)) (a : aes) : P unit :=
  let! c := comp_get w in
  let! mb := get_mb in
  let a := aes_set_iv a (srtp_iv_calc_gcm (c_k_s c) id ix) in
  let '(err, a) := crypt_aad true a aads in
  let! _ := aes_put w a in
  let! _ := check_err err in
  let '(err, o, a) := aes_encr a true (mb_slice mb (mb_pos mb) (mbuf_get_left mb)) in
  let! _ := aes_put w a in
  let! _ := put_mb (mb_store mb (mb_pos mb) o) in
  let! _ := check_err err in
  let '(tag, a) := aes_get_authtag a GCM_TAGLEN in
  let! _ := aes_put w a in
  match tag with
  | Err e => throw e
  | Ok tag =>
      let! mb := get_mb in
      let! _ := put_mb (mbuf_set_pos mb (mb_end mb)) in
      call_mb (fun mb => mbuf_write_mem mb tag)
  end.

(** The buffer is left with the tag cut off; [pld_start] is where the payload
    starts. *)
Definition decr_gcm (w : part) (id ix : Z) (aads : list (list Z)) (pld_start : Z) (a : aes) : P unit :=
  let! c := comp_get w in
  let a := aes_set_iv a (srtp_iv_calc_gcm (c_k_s c) id ix) in
  let '(err, a) := crypt_aad false a aads in
  let! _ := aes_put w a in
  let! _ := check_err err in
  let! mb := get_mb in
  let mb := mbuf_set_pos mb pld_start in
  let! _ := put_mb mb in
  let! _ := guard (negb (mbuf_get_left mb <? GCM_TAGLEN)) EBADMSG in
  let tag_start := mb_end mb - GCM_TAGLEN in
  let '(err, o, a) := aes_decr a true (mb_slice mb pld_start (tag_start - pld_start)) in
  let mb := mb_store mb pld_start o in
  let! _ := aes_put w a in
  let! _ := put_mb mb in
  let! _ := check_err err in
  let '(err, a) := aes_authenticate a (mb_slice mb tag_start GCM_TAGLEN) in
  let! _ := aes_put w a in
  let! _ := check_err err in
  put_mb (mbuf_set_end mb tag_start).

Definition of_res {A} (r : res A) : P A := fun st => (r, st).

(** [hmac_digest(hmac, tag, .., mbuf_buf(mb), mbuf_get_left(mb))] *)
Definition hmac_rest (h : hmac) : P (list Z) :=
  let! mb := get_mb in of_res (hmac_digest h (mb_slice mb (mb_pos mb) (mbuf_get_left mb))).

(** ** srtp.c *)

Definition seq_diff (x y : Z) : Z := y - x.

(** The tag over the packet and the roll-over counter. *)
Definition append_hmac (h : hmac) (tag_len start roc : Z) : P unit :=
  let! mb := get_mb in
  let tag_start := mb_end mb in
  let! _ := put_mb (mbuf_set_pos mb tag_start) in
  let! _ := call_mb (write_be32 roc) in
  let! mb := get_mb in
  let! _ := put_mb (mbuf_set_pos mb start) in
  let! tag := hmac_rest h in
  let! mb := get_mb in
  let! _ := put_mb (mbuf_set_pos (mbuf_set_end mb tag_start) tag_start) in
  call_mb (fun mb => mbuf_write_mem mb (ztake tag_len tag)).

Definition set_roc_s_l (r v : Z) (x : srtp_stream) : srtp_stream :=
  SrtpStream (replay_rtp x) (replay_rtcp x) (ssrc x) r v (s_l_set x) (rtcp_index x).

(** [if (diff <= -32768) { strm->roc++; strm->s_l = 0; }] *)
Definition roll_over (i : nat) (diff : Z) : P unit :=
  let! strm := strm_get i in
  if diff <=? -32768 then strm_put i (set_roc_s_l (u32 (roc strm + 1)) 0 strm) else ret tt.

(** [if (hdr.seq > strm->s_l) strm->s_l = hdr.seq;  mb->pos = start;] *)
Definition finish_rtp (i : nat) (seq start : Z) : P unit :=
  let! strm := strm_get i in
  let! _ := if seq >? s_l strm then strm_put i (set_roc_s_l (roc strm) seq strm) else ret tt in
  let! mb := get_mb in
  put_mb (mbuf_set_pos mb start).

Definition srtp_encrypt : P unit :=
  let! mb0 := get_mb in
  let start := mb_pos mb0 in
  let! hdr := on_mb rtp_hdr_decode in
  let! i := on_srtp (stream_get_seq (h_ssrc hdr) (h_seq hdr)) in
  let! strm := strm_get i in
  let! _ := roll_over i (seq_diff (s_l strm) (h_seq hdr)) in
  let! strm := strm_get i in
  let ix := u64 (65536 * roc strm + h_seq hdr) in
  let! c := comp_get RTP in
  let! _ := match c_aes c, c_mode c with
            | Some a, AES_MODE_CTR => crypt_ctr RTP true (ssrc strm) ix a
            | Some a, AES_MODE_GCM =>
                let! mb := get_mb in
                encr_gcm RTP (ssrc strm) ix [mb_slice mb start (mb_pos mb - start)] a
            | None, _ => ret tt
            end in
  let! _ := match c_hmac c with
            | Some h => append_hmac h (c_tag_len c) start (roc strm)
            | None => ret tt
            end in
  finish_rtp i (h_seq hdr) start.

Definition set_replay_rtp (r : replay) (x : srtp_stream) : srtp_stream :=
  SrtpStream r (replay_rtcp x) (ssrc x) (roc x) (s_l x) (s_l_set x) (rtcp_index x).
Definition set_replay_rtcp (r : replay) (x : srtp_stream) : srtp_stream :=
  SrtpStream (replay_rtp x) r (ssrc x) (roc x) (s_l x) (s_l_set x) (rtcp_index x).

(** [if (!srtp_replay_check(&strm->replay_.., ix)) return EALREADY;] *)
Definition check_replay (w : part) (i : nat) (ix : Z) : P unit :=
  let! strm := strm_get i in
  let '(ok, r) := srtp_replay_check (match w with RTP => replay_rtp strm | RTCP => replay_rtcp strm end) ix in
  let! _ := strm_put i (match w with RTP => set_replay_rtp r strm | RTCP => set_replay_rtcp r strm end) in
  guard ok EALREADY.

(** The tag of a received packet; it is cut off and compared. *)
Definition verify_hmac (h : hmac) (tag_len start roc : Z) : P unit :=
  let! mb := get_mb in
  let! _ := guard (negb (mbuf_get_left mb <? tag_len)) EBADMSG in
  let pld_start := mb_pos mb in
  let tag_start := mb_end mb - tag_len in
  let! _ := put_mb (mbuf_set_pos mb tag_start) in
  let! tag_pkt := on_mb (fun mb => let '(e, d, mb) := mbuf_read_mem mb tag_len in
                                   (if e =? 0 then Ok d else Err e, mb)) in
  let! mb := get_mb in
  let! _ := put_mb (mbuf_set_pos (mbuf_set_end mb tag_start) tag_start) in
  let! _ := call_mb (write_be32 roc) in
  let! mb := get_mb in
  let! _ := put_mb (mbuf_set_pos mb start) in
  let! tag_calc := hmac_rest h in
  let! mb := get_mb in
  let! _ := put_mb (mbuf_set_pos (mbuf_set_end mb tag_start) pld_start) in
  guard (bool_decide (ztake tag_len tag_calc = tag_pkt)) EAUTH.

Definition srtp_decrypt : P unit :=
  let! mb0 := get_mb in
  let start := mb_pos mb0 in
  let! hdr := on_mb rtp_hdr_decode in
  let! i := on_srtp (stream_get_seq (h_ssrc hdr) (h_seq hdr)) in
  let! strm := strm_get i in
  let diff := seq_diff (s_l strm) (h_seq hdr) in
  let! _ := guard (negb (diff >? 32768)) ETIMEDOUT in
  let! _ := roll_over i diff in
  let! strm := strm_get i in
  let ix := srtp_get_index (roc strm) (s_l strm) (h_seq hdr) in
  let! c := comp_get RTP in
  let! _ := match c_hmac c with
            | Some h =>
                let! _ := verify_hmac h (c_tag_len c) start (roc strm) in
                check_replay RTP i ix
            | None => ret tt
            end in
  let! _ := match c_aes c, c_mode c with
            | Some a, AES_MODE_CTR => crypt_ctr RTP false (ssrc strm) ix a
            | Some a, AES_MODE_GCM =>
                let! mb := get_mb in
                let! _ := decr_gcm RTP (ssrc strm) ix [mb_slice mb start (mb_pos mb - start)] (mb_pos mb) a in
                check_replay RTP i ix
            | None, _ => ret tt
            end in
  finish_rtp i (h_seq hdr) start.

(** ** srtcp.c *)

Definition get_rtcp_ssrc (mb : mbuf) : res Z * mbuf :=
  if mbuf_get_left mb <? 8 then (Err EBADMSG, mb)
  else let '(v, mb) := read_be32 (mbuf_advance mb 4) in (Ok v, mb).

Definition set_rtcp_index (n : Z) (x : srtp_stream) : srtp_stream :=
  SrtpStream (replay_rtp x) (replay_rtcp x) (ssrc x) (roc x) (s_l x) (s_l_set x) n.

(** The tag over everything that was written so far, the index included. *)
Definition append_hmac_rtcp (h : hmac) (tag_len start : Z) : P unit :=
  let! mb := get_mb in
  let! _ := put_mb (mbuf_set_pos mb start) in
  let! tag := hmac_rest h in
  let! mb := get_mb in
  let! _ := put_mb (mbuf_set_pos mb (mb_end mb)) in
  call_mb (fun mb => mbuf_write_mem mb (ztake tag_len tag)).

Definition verify_hmac_rtcp (h : hmac) (tag_len start : Z) : P unit :=
  let! mb := get_mb in
  let tag_start := mb_pos mb in
  let! _ := guard (negb (tag_len >? SHA_DIGEST_LENGTH)) ERANGE in
  let! tag_pkt := on_mb (fun mb => let '(e, d, mb) := mbuf_read_mem mb tag_len in
                                   (if e =? 0 then Ok d else Err e, mb)) in
  let! mb := get_mb in
  let! _ := put_mb (mbuf_set_end (mbuf_set_pos mb start) tag_start) in
  let! tag := hmac_rest h in
  guard (bool_decide (ztake tag_len tag = tag_pkt)) EAUTH.

Definition srtcp_encrypt : P unit :=
  let! mb0 := get_mb in
  let start := mb_pos mb0 in
  let! id := on_mb get_rtcp_ssrc in
  let! i := on_srtp (stream_get id) in
  let! strm := strm_get i in
  let ix := Z.land (u32 (rtcp_index strm + 1)) 0x7fffffff in
  let! _ := strm_put i (set_rtcp_index ix strm) in
  let! c := comp_get RTCP in
  let! ep := match c_aes c, c_mode c with
             | Some a, AES_MODE_CTR =>
                 let! _ := crypt_ctr RTCP true id ix a in ret 1
             | Some a, AES_MODE_GCM =>
                 let! mb := get_mb in
                 let ix_be := host_bytes 4 (htonl (Z.lor (Z.shiftl 1 31) ix)) in
                 let! _ := encr_gcm RTCP id ix [mb_slice mb start (mb_pos mb - start); ix_be] a in ret 1
             | None, _ => ret 0
             end in
  let! mb := get_mb in
  let! _ := put_mb (mbuf_set_pos mb (mb_end mb)) in
  let! _ := call_mb (write_be32 (Z.lor (u32 (Z.shiftl ep 31)) ix)) in
  let! _ := match c_hmac c with
            | Some h => append_hmac_rtcp h (c_tag_len c) start
            | None => ret tt
            end in
  let! mb := get_mb in
  put_mb (mbuf_set_pos mb start).

Definition srtcp_decrypt : P unit :=
  let! mb0 := get_mb in
  let start := mb_pos mb0 in
  let! id := on_mb get_rtcp_ssrc in
  let! i := on_srtp (stream_get id) in
  let! mb := get_mb in
  let pld_start := mb_pos mb in
  let! c := comp_get RTCP in
  let! _ := guard (negb (mbuf_get_left mb <? 4 + c_tag_len c)) EBADMSG in
  let eix_start := mb_end mb - (4 + c_tag_len c) in
  let! _ := put_mb (mbuf_set_pos mb eix_start) in
  let! v := on_mb (fun mb => let '(v, mb) := read_be32 mb in (Ok v, mb)) in
  let ep := Z.land (Z.shiftr v 31) 1 in
  let ix := Z.land v 0x7fffffff in
  let! _ := match c_hmac c with
            | Some h =>
                let! _ := verify_hmac_rtcp h (c_tag_len c) start in
                check_replay RTCP i ix
            | None => ret tt
            end in
  let! mb := get_mb in
  let! _ := put_mb (mbuf_set_end mb eix_start) in
  let! _ := match c_aes c, ep =? 1, c_mode c with
            | Some a, true, AES_MODE_CTR =>
                let! mb := get_mb in
                let! _ := put_mb (mbuf_set_pos mb pld_start) in
                crypt_ctr RTCP false id ix a
            | Some a, true, AES_MODE_GCM =>
                let! mb := get_mb in
                decr_gcm RTCP id ix [mb_slice mb start (pld_start - start); mb_slice mb eix_start 4] pld_start a
            | _, _, _ => ret tt
            end in
  let! mb := get_mb in
  put_mb (mbuf_set_pos mb start).
End Srtp.
