(* ===== verification/SrtpSpec.v ===== *)
(** * What SRTP promises

    The wire format of a protected packet as a function ([protect]), the
    stream table as a map from SSRCs to streams ([stream_of]), the packet index
    of RFC 3711 as a 48-bit counter ([at_index]), and the theorems: a lossy
    in-order session delivers every packet that arrives, for every suite; what
    the receiver does with forged and replayed packets. *)

From Stdlib Require Import ZArith Lia.
From stdpp Require Import base numbers list.
From S2P Require Import Prelude Endian Mbuf MbufView Rtp SrtpReplay Crypto Srtp.

Open Scope Z_scope.

Lemma bind_ok {S A B} (m : M S A) (k : A -> M S B) s a s' :
  m s = (Ok a, s') -> bind m k s = k a s'.
Proof. intros E. unfold bind. by rewrite E. Qed.

Lemma bind_err {S A B} (m : M S A) (k : A -> M S B) s e s' :
  m s = (Err e, s') -> bind m k s = (Err e, s').
Proof. intros E. unfold bind. by rewrite E. Qed.

(** ** Packet indices *)

(** The stream's roll-over counter and highest sequence number are those of
    the packet index [n]. *)
Definition at_index (x : srtp_stream) (n : Z) : Prop :=
  s_l_set x = true /\ roc x = n / 65536 /\ s_l x = n mod 65536 /\ 0 <= n < 2 ^ 47.

(** A fresh stream, or one whose last packet is at most 2^15 behind. *)
Definition expects (x : srtp_stream) (n : Z) : Prop :=
  0 <= n < 2 ^ 47 /\
  (if s_l_set x then exists e, at_index x e /\ e <= n < e + 32768
   else roc x = 0 /\ n < 65536).

(** What stream_get_seq makes of the stream. *)
Definition seen_first (seq : Z) (x : srtp_stream) : srtp_stream :=
  if s_l_set x then x else set_s_l seq x.

Definition rolled (seq : Z) (x : srtp_stream) : srtp_stream :=
  if seq_diff (s_l x) seq <=? -32768 then set_roc_s_l (u32 (roc x + 1)) 0 x else x.

Definition finished (seq : Z) (x : srtp_stream) : srtp_stream :=
  if seq >? s_l x then set_roc_s_l (roc x) seq x else x.

Lemma swrap32_small v : 0 <= v < 2 ^ 31 -> swrap 32 v = v.
Proof. intros. unfold swrap. rewrite Z.mod_small by lia. case_test; lia. Qed.

(** Arithmetic with the lengths of the goal. *)
Ltac lia_nonneg :=
  repeat match goal with
  | |- context [zlength ?l] =>
      lazymatch goal with
      | _ : 0 <= zlength l |- _ => fail
      | _ => pose proof (zlength_nonneg l)
      end
  end; lia.

Ltac index_arith := Z.to_euclidean_division_equations; lia.

Lemma expects_index x n (y := rolled (n mod 65536) (seen_first (n mod 65536) x)) :
  expects x n ->
  - 65536 < seq_diff (s_l (seen_first (n mod 65536) x)) (n mod 65536) <= 32768
  /\ s_l_set y = true /\ roc y = n / 65536 /\ u64 (65536 * roc y + n mod 65536) = n
  /\ srtp_get_index (roc y) (s_l y) (n mod 65536) = n
  /\ 0 <= s_l y <= n mod 65536.
Proof.
  intros [Hn Hx].
  assert (Hi : forall s_l, 0 <= s_l < 65536 -> - 32768 < n mod 65536 - s_l <= 32768 ->
    srtp_get_index (n / 65536) s_l (n mod 65536) = n).
  { intros sl Hs Hd. unfold srtp_get_index.
    rewrite (Z.gtb_ltb (n mod 65536 - sl)), (Z.gtb_ltb (sl - 32768)).
    replace (32768 <? n mod 65536 - sl) with false by (symmetry; apply Z.ltb_ge; lia).
    replace (n mod 65536 <? sl - 32768) with false by (symmetry; apply Z.ltb_ge; lia).
    assert (0 <= n / 65536 < 2 ^ 31) by index_arith.
    destruct (sl <? 32768); rewrite swrap32_small, (wrap_small 64 (n / 65536)), wrap_small; index_arith. }
  subst y. unfold rolled, seen_first, seq_diff. destruct (s_l_set x) eqn:Es.
  - destruct Hx as (e & (_ & Hr & Hs & He) & Hlt). rewrite Hr, Hs.
    assert (Hc : n / 65536 = e / 65536 \/ n / 65536 = e / 65536 + 1) by index_arith.
    destruct Hc as [Hc|Hc].
    + assert (0 <= n mod 65536 - e mod 65536 < 32768) by index_arith. decide_test.
      rewrite Hs, Es, Hr, <- Hc, Hi by index_arith. rewrite wrap_small by index_arith.
      split_and!; try done; index_arith.
    + assert (n mod 65536 - e mod 65536 < - 32768) by index_arith. decide_test. simpl.
      rewrite (wrap_small 32) by index_arith. rewrite <- Hc, Hi by index_arith.
      rewrite wrap_small by index_arith. split_and!; try done; index_arith.
  - destruct Hx as [Hr Hlt]. simpl. rewrite Z.sub_diag. decide_test. simpl. rewrite Hr.
    assert (Hz : n / 65536 = 0) by index_arith. rewrite Hz in *. rewrite Hi, wrap_small by index_arith.
    split_and!; try done; index_arith.
Qed.

Lemma expects_finished x n (y := rolled (n mod 65536) (seen_first (n mod 65536) x)) :
  expects x n -> at_index (finished (n mod 65536) y) n.
Proof.
  intros Hx. destruct (expects_index x n Hx) as (_ & Es & Er & _ & _ & Hs). fold y in Es, Er, Hs.
  destruct Hx as [Hn _]. unfold finished, at_index. case_test; simpl; split_and!; try done; lia.
Qed.

Lemma rolled_same seq x :
  replay_rtp (rolled seq x) = replay_rtp x /\ replay_rtcp (rolled seq x) = replay_rtcp x
  /\ ssrc (rolled seq x) = ssrc x.
Proof. unfold rolled. by case_test. Qed.

Lemma seen_first_same seq x :
  replay_rtp (seen_first seq x) = replay_rtp x /\ replay_rtcp (seen_first seq x) = replay_rtcp x
  /\ ssrc (seen_first seq x) = ssrc x.
Proof. unfold seen_first. by case_test. Qed.

Lemma finished_same seq x :
  replay_rtp (finished seq x) = replay_rtp x /\ replay_rtcp (finished seq x) = replay_rtcp x
  /\ ssrc (finished seq x) = ssrc x.
Proof. unfold finished. by case_test. Qed.

Lemma stepped_replay seq x : replay_rtp (rolled seq (seen_first seq x)) = replay_rtp x.
Proof.
  destruct (rolled_same seq (seen_first seq x)) as (-> & _). by destruct (seen_first_same seq x) as (-> & _).
Qed.

(** ** The stream table *)

Section Streams.
Context `{H : Host} `{E : Evp}.

Definition fresh_stream (id : Z) : srtp_stream :=
  SrtpStream srtp_replay_init srtp_replay_init id 0 0 false 0.

(** The stream of an SSRC, or the one stream_new would make. *)
Definition stream_of (s : srtp) (id : Z) : srtp_stream :=
  default (fresh_stream id) (snd <$> list_find (fun x => ssrc x = id) (s_streaml s)).

(** The SSRCs of a session are among the (at most eight) of [ids]. *)
Record table_wf (ids : list Z) (s : srtp) : Prop := {
  tab_nodup : NoDup (ssrc <$> s_streaml s);
  tab_incl : forall x, x ∈ s_streaml s -> ssrc x ∈ ids;
  tab_max : zlength ids <= SRTP_MAX_STREAMS;
}.

(** [i] is a valid stream pointer, to [x]. *)
Definition points (s : srtp) (i : nat) (x : srtp_stream) : Prop := s_streaml s !! i = Some x.

Lemma points_get s i x : points s i x -> get_stream i s = x.
Proof. unfold points, get_stream. by intros ->. Qed.

Lemma list_find_ssrc l i x :
  NoDup (ssrc <$> l) -> l !! i = Some x -> list_find (fun y => ssrc y = ssrc x) l = Some (i, x).
Proof.
  intros Hnd Hi. apply list_find_Some. split_and!; [done|done|]. intros j y Hj Hlt Heq.
  enough (i = j) by lia. eapply (NoDup_lookup _ _ _ (ssrc x) Hnd); rewrite list_lookup_fmap.
  - by rewrite Hi.
  - by rewrite Hj; simpl; rewrite Heq.
Qed.

Lemma points_stream_of ids s i x : table_wf ids s -> points s i x -> stream_of s (ssrc x) = x.
Proof.
  intros [Hnd _ _] Hp. unfold stream_of. by rewrite (list_find_ssrc _ i x Hnd Hp).
Qed.

(** Writing through a stream pointer. *)
Lemma set_stream_points s i x y : points s i x -> points (set_stream i y s) i y.
Proof. intros Hp. unfold points, set_stream. simpl. apply list_lookup_insert_eq. by apply lookup_lt_Some in Hp. Qed.

Lemma set_stream_wf ids s i x y :
  table_wf ids s -> points s i x -> ssrc y = ssrc x -> table_wf ids (set_stream i y s).
Proof.
  intros [Hnd Hin Hmax] Hp Hxy. unfold set_stream. split; simpl; [| |done].
  - by rewrite list_fmap_insert, Hxy, list_insert_id by (by rewrite list_lookup_fmap, Hp).
  - intros z Hz. apply list_elem_of_lookup in Hz as [j Hj].
    apply list_lookup_insert_Some in Hj as [(-> & <- & _)|(_ & Hj)].
    + rewrite Hxy. eapply Hin, list_elem_of_lookup_2. exact Hp.
    + by eapply Hin, list_elem_of_lookup_2.
Qed.

Lemma set_stream_other ids s i x y id :
  table_wf ids s -> points s i x -> ssrc y = ssrc x -> id <> ssrc x ->
  stream_of (set_stream i y s) id = stream_of s id.
Proof.
  intros Hwf Hp Hxy Hid. pose proof (set_stream_wf _ _ _ _ _ Hwf Hp Hxy) as Hwf'.
  assert (Hother : forall j, j <> i -> s_streaml (set_stream i y s) !! j = s_streaml s !! j).
  { intros j Hj. apply list_lookup_insert_ne. congruence. }
  unfold stream_of at 2. destruct (list_find (fun z => ssrc z = id) (s_streaml s)) as [[j z]|] eqn:Ef; simpl.
  - apply list_find_Some in Ef as (Hj & Hz & _). assert (j <> i) by (intros ->; congruence).
    rewrite <- Hz. eapply points_stream_of; [exact Hwf'|]. unfold points. by rewrite Hother.
  - unfold stream_of. rewrite (proj2 (list_find_None _ _)); [done|]. apply Forall_lookup_2.
    intros j z Hj. destruct (decide (j = i)) as [->|Hne].
    + rewrite (set_stream_points s i x y Hp) in Hj. injection Hj as <-. congruence.
    + rewrite Hother in Hj by done. apply list_find_None in Ef. by eapply Forall_lookup_1 in Ef.
Qed.

Lemma table_room ids s id :
  table_wf ids s -> id ∈ ids -> (forall x, x ∈ s_streaml s -> ssrc x <> id) ->
  zlength (s_streaml s) < SRTP_MAX_STREAMS.
Proof.
  intros [Hnd Hin Hmax] Hid Hno.
  assert (Hle : (length (id :: (ssrc <$> s_streaml s)) <= length ids)%nat).
  { apply submseteq_length, NoDup_submseteq.
    - constructor; [|done]. intros Hel. apply list_elem_of_fmap in Hel as (x & -> & Hx). by eapply Hno.
    - intros z Hz. apply elem_of_cons in Hz as [->|Hz]; [done|].
      apply list_elem_of_fmap in Hz as (x & -> & Hx). by apply Hin. }
  simpl in Hle. rewrite length_fmap in Hle. unfold zlength in *. lia.
Qed.

(** stream_get finds the stream or makes a fresh one; no other stream changes. *)
Lemma stream_get_ok ids s id :
  table_wf ids s -> id ∈ ids -> ample_memory ->
  exists i s', stream_get id s = (Ok i, s') /\ table_wf ids s' /\ points s' i (stream_of s id)
    /\ ssrc (stream_of s id) = id /\ s_rtp s' = s_rtp s /\ s_rtcp s' = s_rtcp s
    /\ (forall id', id' <> id -> stream_of s' id' = stream_of s id').
Proof.
  intros Hwf Hid Ham. unfold stream_get, stream_find, stream_of.
  destruct (list_find (fun x => ssrc x = id) (s_streaml s)) as [[i x]|] eqn:Ef; simpl.
  - apply list_find_Some in Ef as (Hi & Hx & _). exists i, s. by split_and!.
  - apply list_find_None in Ef. rewrite Forall_forall in Ef.
    pose proof (table_room ids s id Hwf Hid Ef).
    unfold stream_new. decide_test. unfold mem_alloc, sizeof_stream.
    destruct (Ham 80) as [[b ->] _]; [unfold MEM_SIZE_MAX; lia|]. simpl.
    destruct Hwf as [Hnd Hin Hmax]. do 2 eexists. split; [done|]. split_and!; try done.
    + split; simpl; [|intros z Hz|done].
      * rewrite fmap_app. apply NoDup_app. split_and!; [done| |by apply NoDup_singleton].
        intros z Hz Hz'. apply list_elem_of_fmap in Hz as (x & -> & Hx). simpl in Hz'.
        apply list_elem_of_singleton in Hz'. by apply Ef in Hx.
      * apply elem_of_app in Hz as [Hz|Hz]; [by apply Hin|]. by apply list_elem_of_singleton in Hz as ->.
    + unfold points. simpl. by rewrite lookup_app_r, Nat.sub_diag by lia.
    + intros id' Hne. simpl.
      destruct (list_find (fun x => ssrc x = id') (s_streaml s)) as [[j y]|] eqn:Ej.
      * by rewrite (list_find_app_l _ _ _ _ _ Ej).
      * rewrite list_find_app_r by done. simpl. by rewrite decide_False by done.
Qed.

Lemma stream_get_seq_ok ids s id seq (y := seen_first seq (stream_of s id)) :
  table_wf ids s -> id ∈ ids -> ample_memory ->
  exists i s', stream_get_seq id seq s = (Ok i, s') /\ table_wf ids s' /\ points s' i y
    /\ ssrc y = id /\ s_rtp s' = s_rtp s /\ s_rtcp s' = s_rtcp s
    /\ (forall id', id' <> id -> stream_of s' id' = stream_of s id').
Proof.
  intros Hwf Hid Ham. destruct (stream_get_ok ids s id Hwf Hid Ham) as (i & s1 & E1 & Hwf1 & Hp & Hs & Hr1 & Hr2 & Ho).
  unfold stream_get_seq. rewrite E1, (points_get _ _ _ Hp). subst y. unfold seen_first.
  destruct (s_l_set (stream_of s id)) eqn:Es; simpl.
  - exists i, s1. by split_and!.
  - exists i, (set_stream i (set_s_l seq (stream_of s id)) s1). split_and!; try done.
    + by eapply set_stream_wf.
    + by eapply set_stream_points.
    + intros id' Hne. transitivity (stream_of s1 id'); [|by apply Ho]. eapply set_stream_other; eauto; simpl; congruence.
Qed.
End Streams.

(** ** Keys and the protected packet *)

Section Wire.
Context `{H : Host} `{E : Evp} `{L : !EvpLaws} `{R : !EvpReliable}.

(** The key material two ends share: a cipher context (of which only cipher,
    key and mode matter), the HMAC key, the salt and the tag length. *)
Record keys := Keys { k_ref : aes; k_mac : option (list Z); k_salt : list Z; k_tag : Z }.

Definition comp_has (K : keys) (c : comp) : Prop :=
  exists a, c = Comp (Some a) (aes_md (k_ref K)) (Hmac HMAC_HASH_SHA1 <$> k_mac K) (k_salt K) (k_tag K)
    /\ aes_wf a /\ same_key a (k_ref K).

(** [s'] is [s] after some use of the cipher of part [w]. *)
Definition frame (w : part) (K : keys) (s s' : srtp) : Prop :=
  s_streaml s' = s_streaml s /\ comp_has K (get_comp w s')
  /\ match w with RTP => s_rtcp s' = s_rtcp s | RTCP => s_rtp s' = s_rtp s end.

Lemma frame_set_aes w K s a b :
  comp_has K (get_comp w s) -> aes_wf b -> same_key b a -> same_key a (k_ref K) -> frame w K s (set_aes w b s).
Proof.
  intros (a' & Hc & _ & _) Hb Hk Hk'. assert (same_key b (k_ref K)) by (by etransitivity).
  destruct w; (split_and!; [done| |done]); simpl in *; rewrite Hc; exists b; by split_and!.
Qed.

Lemma frame_trans w K s1 s2 s3 : frame w K s1 s2 -> frame w K s2 s3 -> frame w K s1 s3.
Proof. intros (E1 & _ & F1) (E2 & C2 & F2). split_and!; [congruence|done|]. destruct w; congruence. Qed.

Lemma frame_step w K s s' a b :
  frame w K s s' -> aes_wf b -> same_key b a -> same_key a (k_ref K) -> frame w K s (set_aes w b s').
Proof.
  intros F Hb Hk Hk'. eapply frame_trans; [exact F|]. eapply frame_set_aes; eauto. apply F.
Qed.

Definition ctr_stream (K : keys) (id ix n : Z) : list Z :=
  aes_stream (k_ref K) (srtp_iv_calc (k_salt K) id ix) n.
Definition gcm_stream (K : keys) (id ix n : Z) : list Z :=
  aes_stream (k_ref K) (srtp_iv_calc_gcm (k_salt K) id ix) n.
Definition gcm_auth (K : keys) (id ix : Z) (aad ct : list Z) : list Z :=
  aes_tag (k_ref K) (srtp_iv_calc_gcm (k_salt K) id ix) aad ct.
Definition mac (K : keys) (d : list Z) : list Z :=
  ztake (k_tag K) (default [] (HMAC HMAC_HASH_SHA1 (default [] (k_mac K)) d)).

(** The key stream of packet [n], its authentication tag and the tag's size. *)
Definition pkt_stream (K : keys) (id n len : Z) : list Z :=
  match aes_md (k_ref K) with
  | AES_MODE_CTR => ctr_stream K id n len
  | AES_MODE_GCM => gcm_stream K id n len
  end.
Definition pkt_auth (K : keys) (id n : Z) (hdr ct : list Z) : list Z :=
  match aes_md (k_ref K) with
  | AES_MODE_CTR => mac K (hdr ++ ct ++ be_bytes 4 (n / 65536))
  | AES_MODE_GCM => gcm_auth K id n hdr ct
  end.
Definition tag_size (K : keys) : Z :=
  match aes_md (k_ref K) with AES_MODE_CTR => k_tag K | AES_MODE_GCM => GCM_TAGLEN end.

(** The bytes of a protected RTP packet with header [hdr] and index [n]. *)
Definition protect (K : keys) (id n : Z) (hdr payload : list Z) : list Z :=
  let ct := xor_bytes payload (pkt_stream K id n (zlength payload)) in
  hdr ++ ct ++ pkt_auth K id n hdr ct.

(** A suite either encrypts in counter mode and has an HMAC, or is an AEAD. *)
Definition keys_ok (K : keys) : Prop :=
  0 <= k_tag K <= SHA_DIGEST_LENGTH /\
  match aes_md (k_ref K) with AES_MODE_CTR => is_Some (k_mac K) | AES_MODE_GCM => k_mac K = None end.

(** *** The blocks of the transforms *)

Lemma crypt_ctr_ok w K enc id ix a s mb pre d :
  comp_has K (get_comp w s) -> c_aes (get_comp w s) = Some a -> holds mb (pre ++ d) (zlength pre) ->
  exists s' mb', crypt_ctr w enc id ix a (s, mb) = (Ok tt, (s', mb')) /\ frame w K s s'
    /\ holds mb' (pre ++ xor_bytes d (ctr_stream K id ix (zlength d))) (zlength pre).
Proof.
  intros Hc Ha Hh. pose proof (zlength_nonneg pre). pose proof (zlength_nonneg d).
  unfold crypt_ctr, comp_get, get_mb, aes_put, put_mb, bind. cbn [fst snd].
  rewrite (holds_pos _ _ _ Hh), (holds_get_left _ _ _ Hh), zlength_app.
  replace (zlength pre + zlength d - zlength pre) with (zlength d) by lia.
  rewrite (holds_slice _ _ _ _ _ Hh) by (rewrite ?zlength_app; lia).
  rewrite zdrop_app_exact, ztake_ge by lia.
  pose proof Hc as (a' & Hcc & Hwf & Hk). rewrite Hcc in Ha |- *. simpl in Ha. injection Ha as ->. cbn [c_k_s].
  destruct (aes_crypt_data enc _ _ _ a d (aes_set_iv_ready a (srtp_iv_calc (k_salt K) id ix) Hwf)) as (b & -> & Hb).
  do 2 eexists. split; [done|]. destruct Hb as (Hbw & Hbk & _). split.
  - by eapply frame_set_aes.
  - unfold ctr_stream. rewrite (same_key_stream a (k_ref K)) by done.
    set (o := xor_bytes _ _). assert (Ho : zlength o = zlength d) by (apply xor_bytes_length, aes_stream_length; lia).
    replace (pre ++ o) with (zsplice (zlength pre) o (pre ++ d)).
    + apply holds_store; [done|lia|rewrite zlength_app; lia|].
      apply xor_bytes_bytes; [|apply aes_stream_bytes]. apply (holds_bytes _ _ _) in Hh. by apply bytes_app in Hh as [_ ?].
    + rewrite <- (app_nil_r d), zsplice_mid, app_nil_r by done. done.
Qed.

Lemma crypt_aad_ok enc aads a iv aad a0 :
  ready a iv aad a0 -> exists a', crypt_aad enc a aads = (0, a') /\ ready a' iv (aad ++ concat aads) a0.
Proof.
  revert a aad. induction aads as [|d aads IH]; intros a aad Hr; cbn [crypt_aad concat].
  - exists a. by rewrite app_nil_r.
  - destruct (aes_crypt_aad enc a iv aad a0 d Hr) as (o & a1 & -> & Hr1).
    destruct (IH a1 _ Hr1) as (a2 & -> & Hr2). exists a2. by rewrite app_assoc.
Qed.

(** Reading the payload and storing its image: shared by the GCM blocks. *)
Lemma holds_crypted mb pre d tl p ks :
  holds mb (pre ++ d ++ tl) p -> zlength ks = zlength d -> bytes ks ->
  mb_slice mb (zlength pre) (zlength d) = d
  /\ holds (mb_store mb (zlength pre) (xor_bytes d ks)) (pre ++ xor_bytes d ks ++ tl) p.
Proof.
  intros Hh Hl Hk. pose proof (zlength_nonneg pre). pose proof (zlength_nonneg d). pose proof (zlength_nonneg tl).
  pose proof (holds_bytes _ _ _ Hh) as Hb. rewrite !bytes_app in Hb. destruct Hb as (_ & Hd & _). split.
  - rewrite (holds_slice _ _ _ _ _ Hh) by (rewrite ?zlength_app; lia). apply slice_mid.
  - assert (zlength (xor_bytes d ks) = zlength d) by by apply xor_bytes_length.
    rewrite <- (zsplice_mid pre d _ tl) by done. apply holds_store; auto with relib. rewrite !zlength_app. lia.
Qed.

Lemma call_mb_ok (f : mbuf -> Z * mbuf) s mb mb' : f mb = (0, mb') -> call_mb f (s, mb) = (Ok tt, (s, mb')).
Proof. intros Ef. unfold call_mb. simpl. by rewrite Ef. Qed.

Lemma encr_gcm_ok w K id ix aads a s mb pre d :
  comp_has K (get_comp w s) -> c_aes (get_comp w s) = Some a -> aes_md (k_ref K) = AES_MODE_GCM ->
  holds mb (pre ++ d) (zlength pre) -> ample_memory -> zlength (pre ++ d) + 16 < 2 ^ 31 ->
  let ct := xor_bytes d (gcm_stream K id ix (zlength d)) in
  let wire := pre ++ ct ++ gcm_auth K id ix (concat aads) ct in
  exists s' mb', encr_gcm w id ix aads a (s, mb) = (Ok tt, (s', mb')) /\ frame w K s s'
    /\ holds mb' wire (zlength wire).
Proof.
  intros Hc Ha Hmd Hh Ham Hsz ct wire. pose proof (zlength_nonneg d).
  pose proof Hc as (a' & Hcc & Hwf & Hk). rewrite Hcc in Ha. simpl in Ha. injection Ha as ->.
  unfold encr_gcm, comp_get, get_mb, aes_put, put_mb, bind. cbn [fst snd]. rewrite Hcc. cbn [c_k_s].
  set (iv := srtp_iv_calc_gcm (k_salt K) id ix).
  destruct (crypt_aad_ok true aads _ iv [] a (aes_set_iv_ready a iv Hwf)) as (a1 & -> & Hr1).
  cbn [check_err Z.eqb ret].
  rewrite (holds_pos _ _ _ Hh), (holds_get_left _ _ _ Hh), zlength_app.
  replace (zlength pre + zlength d - zlength pre) with (zlength d) by lia.
  rewrite <- (app_nil_r d) in Hh.
  destruct (holds_crypted mb pre d [] _ (aes_stream a iv (zlength d)) Hh) as [Hsl Hst];
    [by apply aes_stream_length | apply aes_stream_bytes |]. rewrite Hsl.
  unfold aes_encr. destruct (aes_crypt_data true a1 iv _ a d Hr1) as (a2 & -> & Hd2). cbn [check_err Z.eqb ret].
  assert (Hga : aes_md a = AES_MODE_GCM) by (destruct Hk as (_ & _ & ->); done).
  destruct (aes_get_authtag_done _ _ _ _ _ Hd2 Hga) as (a3 & -> & Hw3 & Hk3).
  rewrite (same_key_stream a (k_ref K)), (same_key_tag a (k_ref K)) in * by done.
  change (xor_bytes d (aes_stream (k_ref K) iv (zlength d))) with ct in Hst |- *.
  rewrite app_nil_r in Hst. rewrite app_nil_l. fold (gcm_auth K id ix (concat aads) ct).
  assert (Hlc : zlength ct = zlength d) by (apply xor_bytes_length, aes_stream_length; done).
  pose proof (holds_set_pos _ _ _ (zlength (pre ++ ct)) Hst ltac:(split; [apply zlength_nonneg | done])) as Hst'.
  assert (Hlt : zlength (gcm_auth K id ix (concat aads) ct) = 16) by apply aes_tag_length.
  destruct (holds_append _ _ (gcm_auth K id ix (concat aads) ct) Hst') as (mb' & Ew & Hh');
    [apply aes_tag_bytes | done | rewrite Hlt, zlength_app; rewrite zlength_app in Hsz; lia |].
  cbn [fst snd]. rewrite (holds_end _ _ _ Hst). do 2 eexists. split; [by apply call_mb_ok|]. split.
  - destruct Hr1 as (W1 & S1 & _), Hd2 as (W2 & S2 & _).
    assert (F1 : frame w K s (set_aes w a1 s)) by by eapply frame_set_aes.
    assert (F2 : frame w K s (set_aes w a2 (set_aes w a1 s))) by by eapply frame_step.
    by eapply frame_step.
  - subst wire. rewrite app_assoc. exact Hh'.
Qed.

(** The AEAD tag decides; the plaintext is in place in both cases. *)
Lemma decr_gcm_cases w K id ix aads a s mb pre ct tag :
  comp_has K (get_comp w s) -> c_aes (get_comp w s) = Some a -> aes_md (k_ref K) = AES_MODE_GCM ->
  holds (mbuf_set_pos mb (zlength pre)) (pre ++ ct ++ tag) (zlength pre) -> zlength tag = GCM_TAGLEN ->
  let d := xor_bytes ct (gcm_stream K id ix (zlength ct)) in
  exists s' mb', frame w K s s' /\
    if decide (tag = gcm_auth K id ix (concat aads) ct)
    then decr_gcm w id ix aads (zlength pre) a (s, mb) = (Ok tt, (s', mb'))
         /\ holds mb' (pre ++ d) (zlength pre)
    else decr_gcm w id ix aads (zlength pre) a (s, mb) = (Err EAUTH, (s', mb')).
Proof.
  intros Hc Ha Hmd Hh1 Hlt d. pose proof (zlength_nonneg ct). pose proof (zlength_nonneg pre).
  assert (Hld : zlength d = zlength ct) by (apply xor_bytes_length, aes_stream_length; done).
  pose proof Hc as (a' & Hcc & Hwf & Hk). rewrite Hcc in Ha. simpl in Ha. injection Ha as ->.
  unfold decr_gcm, comp_get, get_mb, aes_put, put_mb, guard, bind. cbn [fst snd]. rewrite Hcc. cbn [c_k_s].
  set (iv := srtp_iv_calc_gcm (k_salt K) id ix).
  destruct (crypt_aad_ok false aads _ iv [] a (aes_set_iv_ready a iv Hwf)) as (a1 & -> & Hr1).
  cbn [check_err Z.eqb ret fst snd]. unfold GCM_TAGLEN in *.
  rewrite (holds_get_left _ _ _ Hh1), (holds_end _ _ _ Hh1), !zlength_app, Hlt.
  replace (zlength pre + (zlength ct + 16) - zlength pre <? 16) with false by (symmetry; apply Z.ltb_ge; lia).
  replace (zlength pre + (zlength ct + 16) - 16 - zlength pre) with (zlength ct) by lia.
  replace (zlength pre + (zlength ct + 16) - 16) with (zlength (pre ++ d))
    by (rewrite zlength_app; lia).
  cbn [negb ret fst snd].
  destruct (holds_crypted _ pre ct tag _ (aes_stream a iv (zlength ct)) Hh1) as [Hsl Hst];
    [by apply aes_stream_length | apply aes_stream_bytes |]. rewrite Hsl.
  unfold aes_decr. destruct (aes_crypt_data false a1 iv _ a ct Hr1) as (a2 & -> & Hd2). cbn [check_err Z.eqb ret fst snd].
  assert (Hga : aes_md a = AES_MODE_GCM) by (destruct Hk as (_ & _ & ->); done).
  rewrite (same_key_stream a (k_ref K)) in * by done.
  change (xor_bytes ct (aes_stream (k_ref K) iv (zlength ct))) with d in Hst |- *.
  rewrite app_assoc in Hst. rewrite (holds_slice _ _ _ _ _ Hst)
    by (rewrite ?zlength_app, ?Hlt; pose proof (zlength_nonneg d); lia).
  rewrite zdrop_app_exact, ztake_ge by lia.
  destruct (aes_authenticate_done _ _ _ _ _ tag Hd2 Hga Hlt) as (a3 & -> & Hw3 & Hk3).
  rewrite (same_key_tag a (k_ref K)) by done. rewrite app_nil_l. fold (gcm_auth K id ix (concat aads) ct).
  assert (F3 : frame w K s (set_aes w a3 (set_aes w a2 (set_aes w a1 s)))).
  { destruct Hr1 as (W1 & S1 & _), Hd2 as (W2 & S2 & _).
    eapply frame_step; eauto. eapply frame_step; eauto. by eapply frame_set_aes. }
  destruct (decide _); do 2 eexists; (split; [exact F3|]); [|done]. split; [done|].
  rewrite <- (ztake_app_exact (pre ++ d) tag) at 2.
  apply (holds_set_end _ _ _ _ Hst); rewrite ?zlength_app, ?Hlt; pose proof (zlength_nonneg d); lia.
Qed.

Lemma hmac_rest_ok K k s mb pre d p :
  k_mac K = Some k -> 0 < zlength d -> holds mb (pre ++ d) p -> p = zlength pre ->
  exists t, hmac_rest (Hmac HMAC_HASH_SHA1 k) (s, mb) = (Ok t, (s, mb)) /\ ztake (k_tag K) t = mac K d
    /\ zlength t = SHA_DIGEST_LENGTH /\ bytes t.
Proof.
  intros Hk Hd Hh ->. pose proof (zlength_nonneg pre). unfold hmac_rest, get_mb, bind, of_res. cbn [snd].
  rewrite (holds_pos _ _ _ Hh), (holds_get_left _ _ _ Hh), zlength_app.
  replace (zlength pre + zlength d - zlength pre) with (zlength d) by lia.
  rewrite (holds_slice _ _ _ _ _ Hh), zdrop_app_exact, ztake_ge by (rewrite ?zlength_app; lia).
  destruct (hmac_digest_ok k d Hd) as (t & -> & Ht & Hl & Hb). exists t. split_and!; try done.
  unfold mac. rewrite Hk. simpl. by rewrite Ht.
Qed.

(** Appending the tag computed over the packet and the roll-over counter. *)
Lemma append_hmac_ok K k s mb pre d p r :
  k_mac K = Some k -> 0 <= k_tag K <= SHA_DIGEST_LENGTH -> holds mb (pre ++ d) p -> ample_memory ->
  zlength (pre ++ d) + 20 < 2 ^ 31 ->
  let wire := pre ++ d ++ mac K (d ++ be_bytes 4 r) in
  exists mb', append_hmac (Hmac HMAC_HASH_SHA1 k) (k_tag K) (zlength pre) r (s, mb) = (Ok tt, (s, mb'))
    /\ holds mb' wire (zlength wire).
Proof.
  intros Hk Htag Hh Ham Hsz wire. unfold SHA_DIGEST_LENGTH in *.
  pose proof (zlength_nonneg pre). pose proof (zlength_nonneg d). pose proof (zlength_nonneg (pre ++ d)).
  unfold append_hmac, get_mb, put_mb. erewrite bind_ok by done. cbn [fst snd].
  rewrite (holds_end _ _ _ Hh). erewrite bind_ok by done. cbn [fst snd].
  pose proof (holds_set_pos _ _ _ (zlength (pre ++ d)) Hh ltac:(lia)) as B1.
  destruct (holds_append_be32 _ _ r B1 Ham ltac:(lia)) as (mb2 & E2 & B2).
  rewrite (bind_ok _ _ _ _ _ (call_mb_ok _ s _ _ E2)). erewrite bind_ok by done. cbn [fst snd].
  erewrite bind_ok by done. cbn [fst snd].
  pose proof (holds_set_pos _ _ _ (zlength pre) B2 ltac:(rewrite !zlength_app, zlength_be_bytes; lia)) as B3.
  rewrite <- app_assoc in B3.
  destruct (hmac_rest_ok K k s _ pre (d ++ be_bytes 4 r) _ Hk
    ltac:(rewrite zlength_app, zlength_be_bytes; lia) B3 eq_refl) as (t & E4 & Ht & Hl & Hb).
  rewrite (bind_ok _ _ _ _ _ E4). erewrite bind_ok by done. cbn [fst snd].
  erewrite bind_ok by done. cbn [fst snd]. rewrite Ht.
  rewrite app_assoc in B3.
  pose proof (holds_cut _ _ _ (zlength (pre ++ d)) (zlength (pre ++ d)) B3) as B5. rewrite ztake_app_exact in B5.
  destruct (holds_append _ _ (mac K (d ++ be_bytes 4 r)) (B5 ltac:(lia) ltac:(rewrite (zlength_app (pre ++ d)), zlength_be_bytes; lia)))
    as (mb6 & E6 & B6); [|done| |].
  - rewrite <- Ht. auto with relib.
  - rewrite <- Ht, zlength_ztake by (unfold SHA_DIGEST_LENGTH in *; lia). lia.
  - exists mb6. split; [by apply call_mb_ok|]. subst wire. by rewrite app_assoc.
Qed.

(** Checking it: the tag decides, and is cut off in both cases. *)
Lemma verify_hmac_cases K k s mb pre hdr ct tag r :
  k_mac K = Some k -> 0 <= k_tag K <= SHA_DIGEST_LENGTH -> zlength tag = k_tag K ->
  holds mb (pre ++ hdr ++ ct ++ tag) (zlength (pre ++ hdr)) -> ample_memory ->
  zlength (pre ++ hdr ++ ct) + 4 < 2 ^ 31 -> 0 < zlength hdr ->
  exists mb', holds mb' (pre ++ hdr ++ ct) (zlength (pre ++ hdr)) /\
    verify_hmac (Hmac HMAC_HASH_SHA1 k) (k_tag K) (zlength pre) r (s, mb)
    = ((if decide (tag = mac K (hdr ++ ct ++ be_bytes 4 r)) then Ok tt else Err EAUTH), (s, mb')).
Proof.
  intros Hk Htag Hlt Hh Ham Hsz Hhdr. unfold SHA_DIGEST_LENGTH in *.
  pose proof (zlength_nonneg pre). pose proof (zlength_nonneg ct).
  unfold verify_hmac, get_mb, put_mb. erewrite bind_ok by done. cbn [fst snd].
  rewrite (holds_get_left _ _ _ Hh), (holds_end _ _ _ Hh), (holds_pos _ _ _ Hh).
  replace (zlength (pre ++ hdr ++ ct ++ tag) - k_tag K) with (zlength (pre ++ hdr ++ ct)) by (rewrite !zlength_app; lia).
  replace (zlength (pre ++ hdr ++ ct ++ tag) - zlength (pre ++ hdr) <? k_tag K) with false
    by (symmetry; apply Z.ltb_ge; rewrite !zlength_app; lia).
  erewrite bind_ok by done. erewrite bind_ok by done. cbn [fst snd].
  pose proof (holds_set_pos _ _ _ (zlength (pre ++ hdr ++ ct)) Hh ltac:(rewrite !zlength_app; lia)) as B1.
  assert (Hr : rest (mbuf_set_pos mb (zlength (pre ++ hdr ++ ct))) = tag ++ []).
  { rewrite (holds_rest _ _ _ B1), app_nil_r.
    replace (pre ++ hdr ++ ct ++ tag) with ((pre ++ hdr ++ ct) ++ tag) by (by rewrite <- !app_assoc).
    apply zdrop_app_exact. }
  destruct (read_mem_app _ tag [] (k_tag K) (holds_wf _ _ _ B1) Hr Hlt) as (E2 & _ & _).
  rewrite (bind_ok (on_mb _) _ _ tag (s, adv (mbuf_set_pos mb (zlength (pre ++ hdr ++ ct))) (k_tag K)))
    by (unfold on_mb; cbn [snd]; by rewrite E2).
  erewrite bind_ok by done. erewrite bind_ok by done. cbn [fst snd].
  change (mbuf_set_pos (mbuf_set_end (adv ?m ?n) ?q) ?q') with (mbuf_set_pos (mbuf_set_end m q) q').
  pose proof (holds_cut _ _ _ (zlength (pre ++ hdr ++ ct)) (zlength (pre ++ hdr ++ ct)) B1) as B3.
  replace (pre ++ hdr ++ ct ++ tag) with ((pre ++ hdr ++ ct) ++ tag) in B3 by (by rewrite <- !app_assoc).
  rewrite ztake_app_exact in B3.
  specialize (B3 ltac:(pose proof (zlength_nonneg (pre ++ hdr ++ ct)); lia) ltac:(rewrite (zlength_app _ tag); lia)).
  destruct (holds_append_be32 _ _ r B3 Ham ltac:(lia)) as (mb4 & E4 & B4).
  rewrite (bind_ok _ _ _ _ _ (call_mb_ok _ s _ _ E4)). erewrite bind_ok by done. cbn [fst snd].
  erewrite bind_ok by done. cbn [fst snd].
  pose proof (holds_set_pos _ _ _ (zlength pre) B4 ltac:(rewrite !zlength_app, zlength_be_bytes; lia)) as B5.
  rewrite <- !app_assoc in B5.
  destruct (hmac_rest_ok K k s _ pre (hdr ++ ct ++ be_bytes 4 r) _ Hk
    ltac:(rewrite !zlength_app, zlength_be_bytes; lia) B5 eq_refl) as (t & E6 & Ht & Hl & Hb).
  rewrite (bind_ok _ _ _ _ _ E6). erewrite bind_ok by done. erewrite bind_ok by done. cbn [fst snd]. rewrite Ht.
  pose proof (holds_cut _ _ _ (zlength (pre ++ hdr ++ ct)) (zlength (pre ++ hdr)) B5) as B7.
  replace (pre ++ hdr ++ ct ++ be_bytes 4 r) with ((pre ++ hdr ++ ct) ++ be_bytes 4 r) in B7 by (by rewrite <- !app_assoc).
  rewrite ztake_app_exact in B7.
  eexists. split; [apply B7; rewrite !zlength_app, ?zlength_be_bytes; lia|].
  unfold guard. destruct (decide _) as [->|Hne]; [by rewrite bool_decide_true|by rewrite bool_decide_false by congruence].
Qed.

(** *** Following a session through a transform *)

(** [s'] is [s] with the stream of [id], at [i], now [y]; the keys of part [w]
    are in place. *)
Record now (w : part) (ids : list Z) (K : keys) (s : srtp) (id : Z) (i : nat) (y : srtp_stream) (s' : srtp) : Prop := {
  now_table : table_wf ids s';
  now_points : points s' i y;
  now_ssrc : ssrc y = id;
  now_comp : comp_has K (get_comp w s');
  now_part : match w with RTP => s_rtcp s' = s_rtcp s | RTCP => s_rtp s' = s_rtp s end;
  now_other : forall id', id' <> id -> stream_of s' id' = stream_of s id';
}.
Arguments now_table {_ _ _ _ _ _ _ _} _.
Arguments now_points {_ _ _ _ _ _ _ _} _.
Arguments now_ssrc {_ _ _ _ _ _ _ _} _.
Arguments now_comp {_ _ _ _ _ _ _ _} _.
Arguments now_other {_ _ _ _ _ _ _ _} _.

Lemma now_get {w ids K s id i y s'} mb :
  now w ids K s id i y s' -> strm_get i (s', mb) = (Ok y, (s', mb)).
Proof. intros Hn. unfold strm_get. simpl. by rewrite (points_get _ _ _ (now_points Hn)). Qed.

Lemma now_put w ids K s id i y z s' :
  now w ids K s id i y s' -> ssrc z = id -> now w ids K s id i z (set_stream i z s').
Proof.
  intros [Ht Hp Hs Hc Hr Ho] Hz. assert (ssrc z = ssrc y) by congruence. split; try done; try by destruct w.
  - by eapply set_stream_wf.
  - by eapply set_stream_points.
  - intros id' Hne. rewrite <- Ho by done. eapply set_stream_other; eauto. congruence.
Qed.

Lemma now_frame {w ids K s id i y s' s''} :
  now w ids K s id i y s' -> frame w K s' s'' -> now w ids K s id i y s''.
Proof.
  intros [[Ht1 Ht2 Ht3] Hp Hs Hc Hr Ho] (Es & Hc' & Hr'). unfold points, stream_of in *.
  split; [split| | | | |]; unfold points, stream_of; rewrite ?Es; try done; destruct w; congruence.
Qed.

Lemma now_stream_of {w ids K s id i y s'} : now w ids K s id i y s' -> stream_of s' id = y.
Proof. intros [Ht Hp <- _ _ _]. by eapply points_stream_of. Qed.

Lemma roll_over_ok ids K s id i y s' mb seq :
  now RTP ids K s id i y s' ->
  exists s'', roll_over i (seq_diff (s_l y) seq) (s', mb) = (Ok tt, (s'', mb))
    /\ now RTP ids K s id i (rolled seq y) s''.
Proof.
  intros Hn. unfold roll_over. rewrite (bind_ok _ _ _ _ _ (now_get mb Hn)).
  unfold rolled. destruct (seq_diff (s_l y) seq <=? -32768).
  - eexists. split; [done|]. eapply now_put; [done|]. simpl. by destruct Hn.
  - by exists s'.
Qed.

Lemma finish_rtp_ok ids K s id i y s' mb c p seq start :
  now RTP ids K s id i y s' -> holds mb c p -> 0 <= start <= zlength c ->
  exists s'' mb', finish_rtp i seq start (s', mb) = (Ok tt, (s'', mb'))
    /\ now RTP ids K s id i (finished seq y) s'' /\ holds mb' c start.
Proof.
  intros Hn Hh Hst. unfold finish_rtp. rewrite (bind_ok _ _ _ _ _ (now_get mb Hn)).
  unfold finished. destruct (seq >? s_l y); erewrite bind_ok by done; do 2 eexists; (split; [done|]).
  - split; [|by eapply holds_set_pos]. eapply now_put; [done|]. simpl. by destruct Hn.
  - split; [done|by eapply holds_set_pos].
Qed.

(** The header of a packet, with its extension block. *)
Definition hdr_bytes (h : rtp_header) (x : list Z) : list Z := rtp_fixed h ++ rtp_xblock h x.

Lemma hdr_decode_holds h x pre payload mb :
  rtp_header_wf h -> xblock_ok h x -> holds mb (pre ++ hdr_bytes h x ++ payload) (zlength pre) ->
  exists mb', rtp_hdr_decode mb = (Ok h, mb')
    /\ holds mb' (pre ++ hdr_bytes h x ++ payload) (zlength (pre ++ hdr_bytes h x)).
Proof.
  intros Wh Hx Hh. pose proof (holds_rest _ _ _ Hh) as Hr. rewrite zdrop_app_exact in Hr.
  unfold hdr_bytes in Hr. rewrite <- app_assoc in Hr.
  destruct (rtp_hdr_decode_app h x payload mb Wh Hx (holds_wf _ _ _ Hh) Hr) as (mb' & Ed & W' & Rr & He & Hb).
  exists mb'. split; [done|]. pose proof (holds_end _ _ _ Hh) as Hend. destruct Hh as [W Hc Hp].
  split; [done| |].
  - unfold content, mb_mem in *. by rewrite Hb, He.
  - pose proof (zlength_rest mb' W') as Hl. rewrite Rr, He, Hend, !zlength_app in Hl.
    rewrite zlength_app. unfold hdr_bytes. rewrite zlength_app. unfold hdr_bytes in Hl. rewrite zlength_app in Hl. lia.
Qed.

Lemma zlength_hdr_bytes h x : 12 <= zlength (hdr_bytes h x).
Proof.
  unfold hdr_bytes, rtp_fixed. rewrite !zlength_app, !zlength_be_bytes.
  pose proof (zlength_nonneg (rtp_xblock h x)). rewrite zlength_csrc. pose proof (zlength_nonneg (h_csrc h)).
  rewrite !zlength_cons, zlength_nil. lia.
Qed.

(** srtp_encrypt sends the packet out as [protect] says and moves the stream
    to its index. *)
Lemma srtp_encrypt_ok ids K s mb pre h x payload n (id := h_ssrc h) :
  table_wf ids s -> id ∈ ids -> comp_has K (s_rtp s) -> keys_ok K ->
  rtp_header_wf h -> xblock_ok h x -> h_seq h = n mod 65536 -> expects (stream_of s id) n ->
  holds mb (pre ++ hdr_bytes h x ++ payload) (zlength pre) -> ample_memory ->
  zlength (pre ++ hdr_bytes h x ++ payload) + 20 < 2 ^ 31 ->
  exists i y s' mb', srtp_encrypt (s, mb) = (Ok tt, (s', mb'))
    /\ now RTP ids K s id i y s' /\ at_index y n /\ replay_rtp y = replay_rtp (stream_of s id)
    /\ holds mb' (pre ++ protect K id n (hdr_bytes h x) payload) (zlength pre).
Proof.
  intros Ht Hid HK Hok Wh Hx Hseq Hexp Hh Ham Hsz. unfold srtp_encrypt.
  pose proof (zlength_nonneg pre). pose proof (zlength_nonneg payload). pose proof (zlength_hdr_bytes h x).
  erewrite bind_ok by done. cbn [snd]. rewrite (holds_pos _ _ _ Hh).
  destruct (hdr_decode_holds h x pre payload mb Wh Hx Hh) as (mb1 & E1 & B1).
  rewrite (bind_ok (on_mb _) _ _ h (s, mb1)) by (unfold on_mb; cbn [snd]; by rewrite E1). fold id.
  destruct (stream_get_seq_ok ids s id (h_seq h) Ht Hid Ham) as (i & s1 & E2 & Ht1 & Hp1 & Hs1 & Hr1 & Hr2 & Ho1).
  rewrite (bind_ok (on_srtp _) _ _ i (s1, mb1)) by (unfold on_srtp; cbn [fst snd]; by rewrite E2).
  set (y := seen_first (h_seq h) (stream_of s id)) in *.
  assert (N1 : now RTP ids K s id i y s1) by (split; try done; simpl; by rewrite Hr1).
  rewrite (bind_ok _ _ _ _ _ (now_get mb1 N1)).
  destruct (roll_over_ok _ _ _ _ _ _ _ mb1 (h_seq h) N1) as (s2 & E3 & N2). rewrite (bind_ok _ _ _ _ _ E3).
  rewrite (bind_ok _ _ _ _ _ (now_get mb1 N2)). erewrite (bind_ok (comp_get _)) by done.
  cbn [get_comp fst snd].
  destruct (expects_index _ _ Hexp) as (_ & _ & Hroc & Hix & _ & _).
  pose proof (expects_finished _ _ Hexp) as Hfin. rewrite <- Hseq in *. fold y in Hroc, Hix, Hfin.
  set (z := rolled (h_seq h) y) in *. rewrite Hix.
  pose proof (now_ssrc N2) as Hsz2. rewrite Hsz2.
  assert (Hrep : replay_rtp (finished (h_seq h) z) = replay_rtp (stream_of s id)).
  { destruct (finished_same (h_seq h) z) as (-> & _). apply stepped_replay. }
  pose proof (now_comp N2) as (a & Hc & Hwf & Hk). cbn [get_comp] in Hc. rewrite Hc. cbn [c_aes c_mode c_hmac c_tag_len].
  pose proof (now_comp N2 : comp_has K (get_comp RTP s2)) as HK2.
  assert (Ha : c_aes (get_comp RTP s2) = Some a) by (simpl; by rewrite Hc).
  destruct Hok as [Htag Hmode]. unfold protect, pkt_stream, pkt_auth. destruct (aes_md (k_ref K)) eqn:Emd.
  - destruct Hmode as [k Hmac]. rewrite Hmac. cbn [fmap option_fmap option_map]. rewrite Hroc.
    rewrite app_assoc in B1.
    destruct (crypt_ctr_ok RTP K true id n a s2 mb1 _ _ HK2 Ha B1) as (s3 & mb3 & E4 & F3 & B3).
    rewrite (bind_ok _ _ _ _ _ E4). set (ct := xor_bytes _ _) in *.
    assert (Hlc : zlength ct = zlength payload) by (apply xor_bytes_length, aes_stream_length; lia).
    rewrite <- app_assoc in B3.
    destruct (append_hmac_ok K k s3 mb3 pre (hdr_bytes h x ++ ct) _ (n / 65536) Hmac Htag B3 Ham) as (mb4 & E5 & B4).
    { rewrite !zlength_app in *. lia. }
    rewrite (bind_ok _ _ _ _ _ E5). pose proof (now_frame N2 F3) as N3.
    destruct (finish_rtp_ok _ _ _ _ _ _ _ _ _ _ (h_seq h) (zlength pre) N3 B4) as (s5 & mb5 & E6 & N5 & B5).
    { rewrite zlength_app. lia_nonneg. }
    rewrite <- !app_assoc in B5. exists i, (finished (h_seq h) z), s5, mb5. by split_and!.
  - rewrite Hmode. cbn [fmap option_fmap option_map].
    destruct (encr_gcm_ok RTP K id n [hdr_bytes h x] a s2 mb1 (pre ++ hdr_bytes h x) payload HK2 Ha Emd)
      as (s3 & mb3 & E4 & F3 & B3); [by rewrite <- app_assoc | done | rewrite !zlength_app in *; lia |].
    rewrite (bind_ok (bind get_mb _) _ _ tt (s3, mb3)).
    2:{ erewrite bind_ok by done. cbn [snd]. rewrite (holds_pos _ _ _ B1).
        rewrite (holds_slice _ _ _ _ _ B1) by (rewrite ?zlength_app; lia).
        replace (zlength (pre ++ hdr_bytes h x) - zlength pre) with (zlength (hdr_bytes h x)) by (rewrite zlength_app; lia).
        by rewrite slice_mid. }
    erewrite (bind_ok (ret tt)) by done. pose proof (now_frame N2 F3) as N3.
    cbn [concat] in B3. rewrite app_nil_r, <- app_assoc in B3.
    destruct (finish_rtp_ok _ _ _ _ _ _ _ _ _ _ (h_seq h) (zlength pre) N3 B3) as (s5 & mb5 & E6 & N5 & B5).
    { rewrite zlength_app. lia_nonneg. }
    exists i, (finished (h_seq h) z), s5, mb5. by split_and!.
Qed.

Lemma check_replay_ok ids K s id i y s' mb ix ok r :
  now RTP ids K s id i y s' -> srtp_replay_check (replay_rtp y) ix = (ok, r) ->
  exists s'', check_replay RTP i ix (s', mb) = ((if ok then Ok tt else Err EALREADY), (s'', mb))
    /\ now RTP ids K s id i (set_replay_rtp r y) s'' /\ s_rtp s'' = s_rtp s'.
Proof.
  intros Hn Er. unfold check_replay. rewrite (bind_ok _ _ _ _ _ (now_get mb Hn)), Er.
  erewrite bind_ok by done. eexists. split; [by destruct ok|]. split; [|done].
  eapply now_put; [done|]. simpl. by destruct Hn.
Qed.

Lemma finished_set_replay seq r y : finished seq (set_replay_rtp r y) = set_replay_rtp r (finished seq y).
Proof. unfold finished. simpl. by case_test. Qed.

(** What srtp_decrypt makes of a packet with the expected index [n]: the tag
    is checked first, then the replay list; only a packet that passes both
    moves the stream to its index. *)
Lemma srtp_decrypt_cases ids K s mb pre h x ct tag n (id := h_ssrc h) :
  table_wf ids s -> id ∈ ids -> comp_has K (s_rtp s) -> keys_ok K ->
  rtp_header_wf h -> xblock_ok h x -> h_seq h = n mod 65536 -> expects (stream_of s id) n ->
  holds mb (pre ++ hdr_bytes h x ++ ct ++ tag) (zlength pre) -> zlength tag = tag_size K -> ample_memory ->
  zlength (pre ++ hdr_bytes h x ++ ct ++ tag) + 4 < 2 ^ 31 ->
  exists i y s' mb' res, srtp_decrypt (s, mb) = (res, (s', mb')) /\ now RTP ids K s id i y s' /\
    if decide (tag = pkt_auth K id n (hdr_bytes h x) ct) then
      replay_rtp y = (srtp_replay_check (replay_rtp (stream_of s id)) n).2 /\
      if (srtp_replay_check (replay_rtp (stream_of s id)) n).1 then
        res = Ok tt /\ at_index y n
        /\ holds mb' (pre ++ hdr_bytes h x ++ xor_bytes ct (pkt_stream K id n (zlength ct))) (zlength pre)
      else res = Err EALREADY
    else res = Err EAUTH /\ y = rolled (h_seq h) (seen_first (h_seq h) (stream_of s id)).
Proof.
  intros Ht Hid HK Hok Wh Hx Hseq Hexp Hh Hlt Ham Hsz. unfold srtp_decrypt.
  pose proof (zlength_nonneg pre). pose proof (zlength_nonneg ct). pose proof (zlength_hdr_bytes h x).
  erewrite bind_ok by done. cbn [snd]. rewrite (holds_pos _ _ _ Hh).
  destruct (hdr_decode_holds h x pre (ct ++ tag) mb Wh Hx Hh) as (mb1 & E1 & B1).
  rewrite (bind_ok (on_mb _) _ _ h (s, mb1)) by (unfold on_mb; cbn [snd]; by rewrite E1). fold id.
  destruct (stream_get_seq_ok ids s id (h_seq h) Ht Hid Ham) as (i & s1 & E2 & Ht1 & Hp1 & Hs1 & Hr1 & Hr2 & Ho1).
  rewrite (bind_ok (on_srtp _) _ _ i (s1, mb1)) by (unfold on_srtp; cbn [fst snd]; by rewrite E2).
  set (y := seen_first (h_seq h) (stream_of s id)) in *.
  assert (N1 : now RTP ids K s id i y s1) by (split; try done; simpl; by rewrite Hr1).
  rewrite (bind_ok _ _ _ _ _ (now_get mb1 N1)).
  destruct (expects_index _ _ Hexp) as (Hdiff & _ & Hroc & _ & Hix & _).
  pose proof (expects_finished _ _ Hexp) as Hfin. rewrite <- Hseq in *. fold y in Hdiff, Hroc, Hix, Hfin.
  erewrite (bind_ok (guard _ _)) by (rewrite Z.gtb_ltb; replace (32768 <? _) with false by (symmetry; apply Z.ltb_ge; lia); done).
  destruct (roll_over_ok _ _ _ _ _ _ _ mb1 (h_seq h) N1) as (s2 & E3 & N2). rewrite (bind_ok _ _ _ _ _ E3).
  rewrite (bind_ok _ _ _ _ _ (now_get mb1 N2)). erewrite (bind_ok (comp_get _)) by done.
  cbn [get_comp fst snd].
  pose proof (stepped_replay (h_seq h) (stream_of s id)) as Hrep. fold y in Hrep.
  set (z := rolled (h_seq h) y) in *. rewrite Hix, <- Hrep.
  pose proof (now_ssrc N2) as Hsz2. rewrite Hsz2.
  pose proof (now_comp N2) as (a & Hc & Hwf & Hk). cbn [get_comp] in Hc. rewrite Hc. cbn [c_aes c_mode c_hmac c_tag_len].
  pose proof (now_comp N2 : comp_has K (get_comp RTP s2)) as HK2.
  assert (Ha : c_aes (get_comp RTP s2) = Some a) by (simpl; by rewrite Hc).
  destruct Hok as [Htag Hmode]. unfold pkt_stream, pkt_auth, tag_size in *. destruct (aes_md (k_ref K)) eqn:Emd.
  - destruct Hmode as [k Hmac]. rewrite Hmac. cbn [fmap option_fmap option_map]. rewrite Hroc.
    destruct (verify_hmac_cases K k s2 mb1 pre (hdr_bytes h x) ct tag (n / 65536) Hmac Htag Hlt B1 Ham)
      as (mb3 & B3 & E4); [rewrite !zlength_app in *; lia | lia |].
    destruct (decide _) as [Hauth|Hforged].
    2:{ exists i, z, s2, mb3, (Err EAUTH). split; [|done]. apply bind_err. by rewrite (bind_err _ _ _ _ _ E4). }
    destruct (srtp_replay_check (replay_rtp z) n) as [ok r] eqn:Er. cbn [fst snd].
    destruct (check_replay_ok _ _ _ _ _ _ _ mb3 n ok r N2 Er) as (s3 & E5 & N3 & Hc3).
    destruct ok.
    2:{ exists i, (set_replay_rtp r z), s3, mb3, (Err EALREADY). split; [|done].
        apply bind_err. by rewrite (bind_ok _ _ _ _ _ E4). }
    rewrite (bind_ok _ _ _ tt (s3, mb3)) by (by rewrite (bind_ok _ _ _ _ _ E4)).
    rewrite app_assoc in B3.
    destruct (crypt_ctr_ok RTP K false id n a s3 mb3 _ _ (now_comp N3)
      ltac:(simpl; by rewrite Hc3, Hc) B3) as (s4 & mb4 & E6 & F4 & B4).
    rewrite (bind_ok _ _ _ _ _ E6). pose proof (now_frame N3 F4) as N4.
    destruct (finish_rtp_ok _ _ _ _ _ _ _ _ _ _ (h_seq h) (zlength pre) N4 B4) as (s5 & mb5 & E7 & N5 & B5).
    { rewrite !zlength_app. lia_nonneg. }
    rewrite finished_set_replay in N5. rewrite <- app_assoc in B5.
    exists i, (set_replay_rtp r (finished (h_seq h) z)), s5, mb5, (Ok tt). by split_and!.
  - rewrite Hmode. cbn [fmap option_fmap option_map]. erewrite (bind_ok (ret tt)) by done.
    destruct (decr_gcm_cases RTP K id n [hdr_bytes h x] a s2 mb1 (pre ++ hdr_bytes h x) ct tag
      HK2 Ha Emd ltac:(rewrite <- app_assoc; eapply holds_set_pos; [exact B1|rewrite !zlength_app; lia_nonneg]) Hlt)
      as (s3 & mb3 & F3 & B3).
    pose proof (now_frame N2 F3) as N3. cbn [concat] in B3. rewrite app_nil_r in B3.
    assert (Eaad : mb_slice mb1 (zlength pre) (zlength (pre ++ hdr_bytes h x) - zlength pre) = hdr_bytes h x).
    { rewrite (holds_slice _ _ _ _ _ B1) by (rewrite ?zlength_app; lia_nonneg).
      replace (zlength (pre ++ hdr_bytes h x) - zlength pre) with (zlength (hdr_bytes h x)) by (rewrite zlength_app; lia).
      apply slice_mid. }
    destruct (decide _) as [Hauth|Hforged].
    2:{ exists i, z, s3, mb3, (Err EAUTH). split; [|done]. apply bind_err.
        erewrite bind_ok by done. cbn [snd]. rewrite (holds_pos _ _ _ B1), Eaad. by apply bind_err. }
    destruct B3 as [E4 B3].
    destruct (srtp_replay_check (replay_rtp z) n) as [ok r] eqn:Er. cbn [fst snd].
    destruct (check_replay_ok _ _ _ _ _ _ _ mb3 n ok r N3 Er) as (s4 & E5 & N4 & Hc4).
    match goal with |- context [bind (bind get_mb ?f) _ _] =>
      assert (Edec : bind get_mb f (s2, mb1) = ((if ok then Ok tt else Err EALREADY), (s4, mb3))) end.
    { erewrite bind_ok by done. cbn [snd]. rewrite (holds_pos _ _ _ B1), Eaad.
      by rewrite (bind_ok _ _ _ _ _ E4). }
    destruct ok.
    2:{ exists i, (set_replay_rtp r z), s4, mb3, (Err EALREADY). split; [|done]. by apply bind_err. }
    rewrite (bind_ok _ _ _ _ _ Edec).
    destruct (finish_rtp_ok _ _ _ _ _ _ _ _ _ _ (h_seq h) (zlength pre) N4 B3) as (s5 & mb5 & E7 & N5 & B5).
    { rewrite !zlength_app. lia_nonneg. }
    rewrite finished_set_replay in N5. rewrite <- app_assoc in B5.
    exists i, (set_replay_rtp r (finished (h_seq h) z)), s5, mb5, (Ok tt). by split_and!.
Qed.
End Wire.

#[global] Arguments now_table {E L w ids K s id i y s'} _.
#[global] Arguments now_points {E L w ids K s id i y s'} _.
#[global] Arguments now_ssrc {E L w ids K s id i y s'} _.
#[global] Arguments now_comp {E L w ids K s id i y s'} _.
#[global] Arguments now_other {E L w ids K s id i y s'} _.
