(* ===== verification/SrtpSession.v ===== *)
(** * SRTP sessions, end to end

    The theorems on srtp_alloc, srtp_encrypt and srtp_decrypt: two sessions
    allocated from the same key carry any in-order, lossy exchange on up to
    eight streams without corrupting a packet; forged and replayed packets. *)

From Stdlib Require Import ZArith Lia.
From stdpp Require Import base numbers list gmap.
From S2P Require Import Prelude Endian Mbuf MbufView Rtp SrtpReplay Crypto Srtp SrtpSpec.

Open Scope Z_scope.

Section Session.
Context `{H : Host} `{E : Evp} `{L : !EvpLaws} `{R : !EvpReliable}.

(** ** Key derivation *)

Lemma srtp_derive_ok out_len label key salt :
  0 <= out_len <= 32 -> zlength salt <= 16 -> zlength key = 16 \/ zlength key = 32 -> ample_memory ->
  exists d, srtp_derive out_len label key salt = Ok d /\ zlength d = out_len.
Proof.
  intros Ho Hs Hk Ham. unfold srtp_derive, AES_BLOCK_SIZE.
  replace (out_len >? 16 * 2) with false by (symmetry; rewrite Z.gtb_ltb; apply Z.ltb_ge; lia).
  replace (zlength salt >? 16) with false by (symmetry; rewrite Z.gtb_ltb; apply Z.ltb_ge; lia).
  cbn [orb]. set (iv := zsplice 7 _ _).
  assert (Hc : is_Some (aes_cipher AES_MODE_CTR (zlength key * 8))) by (destruct Hk as [-> | ->]; by eexists).
  destruct Hc as [c Hc].
  destruct (aes_alloc_ok AES_MODE_CTR key _ (Some iv) c Hc Ham) as (a & -> & Hw & Hm & Hv).
  assert (Hr : ready a iv [] a) by (unfold ready; rewrite Hv; by split_and!).
  unfold aes_encr. destruct (aes_crypt_data true a iv [] a (replicate (Z.to_nat out_len) 0) Hr) as (a' & -> & _).
  cbn. eexists. split; [done|]. rewrite xor_bytes_length; [apply zlength_replicate; lia|].
  rewrite aes_stream_length; [done|apply zlength_nonneg].
Qed.

Lemma comp_init_ok offs key salt tag_len encrypted hash mode :
  zlength key = 16 \/ zlength key = 32 -> zlength salt <= 16 -> 0 <= tag_len <= SHA_DIGEST_LENGTH -> ample_memory ->
  exists aes hm salt', comp_init offs key salt tag_len encrypted hash mode = Ok (Comp aes mode hm salt' tag_len)
    /\ (if encrypted then exists a, aes = Some a /\ aes_wf a /\ aes_md a = mode else aes = None)
    /\ (if hash then exists k, hm = Some (Hmac HMAC_HASH_SHA1 k) else hm = None).
Proof.
  intros Hk Hs Ht Ham. unfold comp_init, MAX_KEYLEN, SHA_DIGEST_LENGTH in *.
  replace (zlength key >? 32) with false by (symmetry; rewrite Z.gtb_ltb; apply Z.ltb_ge; lia).
  replace (tag_len >? 20) with false by (symmetry; rewrite Z.gtb_ltb; apply Z.ltb_ge; lia).
  destruct (srtp_derive_ok (zlength key) (0 + offs) key salt ltac:(lia) Hs Hk Ham) as (k_e & -> & Hke).
  destruct (srtp_derive_ok 20 (1 + offs) key salt ltac:(lia) Hs Hk Ham) as (k_a & -> & Hka).
  destruct (srtp_derive_ok 14 (2 + offs) key salt ltac:(lia) Hs Hk Ham) as (k_s & -> & Hks).
  cbn [err_of val_of Z.lor Z.eqb negb].
  assert (Hc : is_Some (aes_cipher mode (zlength key * 8))) by (destruct Hk as [-> | ->], mode; by eexists).
  destruct Hc as [c Hc]. destruct (aes_alloc_ok mode k_e _ None c Hc Ham) as (a & Ea & Hw & Hm & _).
  assert (Eh : hmac_create HMAC_HASH_SHA1 k_a = Ok (Hmac HMAC_HASH_SHA1 k_a))
    by (apply hmac_create_ok; [rewrite Hka; unfold MEM_SIZE_MAX; lia | done]).
  rewrite Ea, Eh. destruct encrypted, hash; do 3 eexists; split; eauto 10.
Qed.

(** What srtp_alloc sets up for RTP: usable keys and an empty stream table. *)
Lemma srtp_alloc_inv suite key flags s :
  srtp_alloc suite key flags = Ok s -> ample_memory ->
  exists K, keys_ok K /\ comp_has K (s_rtp s) /\ s_streaml s = []
    /\ forall flags' s', srtp_alloc suite key flags' = Ok s' -> s_rtp s' = s_rtp s.
Proof.
  intros Es Ham. unfold srtp_alloc in *. set (sp := suite_params suite) in *.
  assert (Hsp : (sp.1.1.1.2 = 16 \/ sp.1.1.1.2 = 32) /\ 0 <= sp.1.1.2 <= 16 /\ 0 <= sp.1.2 <= 20
    /\ (sp.2 = match sp.1.1.1.1 with AES_MODE_CTR => true | AES_MODE_GCM => false end))
    by (subst sp; destruct suite; cbn; split_and!; auto; lia).
  destruct sp as [[[[mode cb] sb] ab] hash]. cbn [fst snd] in Hsp. destruct Hsp as (Hcb & Hsb & Hab & Hhash).
  destruct (cb + sb =? zlength key) eqn:Ek; cbn [negb] in *; [|discriminate]. bool_prop.
  assert (Hk1 : zlength (ztake cb key) = cb) by (apply zlength_ztake; lia).
  assert (Hk2 : zlength (zdrop cb key) = sb) by (rewrite zlength_zdrop; lia).
  destruct (comp_init_ok 0 (ztake cb key) (zdrop cb key) ab true hash mode) as (aes & hm & salt & E1 & (a & -> & Hw & Hm) & Hh);
    [lia|lia|unfold SHA_DIGEST_LENGTH; lia|done|].
  rewrite E1 in *. destruct (mem_alloc sizeof_srtp) as [b|]; [|discriminate].
  destruct (comp_init 3 _ _ _ (Z.land flags SRTP_UNENCRYPTED_SRTCP =? 0) _ _) as [c2|e]; [|discriminate].
  injection Es as <-. cbn [s_rtp s_streaml].
  exists (Keys a (if hash then hmac_key <$> hm else None) salt ab). split; [|split; [|split; [done|]]].
  - split; [unfold SHA_DIGEST_LENGTH; done|]. cbn. rewrite Hm. destruct mode; subst hash; [|done].
    destruct Hh as [k ->]. by eexists.
  - exists a. cbn. rewrite Hm. split_and!; try done. subst hash.
    destruct mode; [destruct Hh as [k ->]|subst hm]; done.
  - intros f' s' Es'. destruct (comp_init 3 _ _ _ (Z.land f' SRTP_UNENCRYPTED_SRTCP =? 0) _ _); [|discriminate].
    by injection Es' as <-.
Qed.

(** ** Sessions over a lossy, order-preserving network *)

Record sent := Sent {
  p_hdr : rtp_header;
  p_ext : list Z;
  p_payload : list Z;
  p_index : Z;         (* the packet index of RFC 3711 *)
  p_arrives : bool;
}.

Definition packet (p : sent) : list Z := hdr_bytes (p_hdr p) (p_ext p) ++ p_payload p.

(** Per SSRC, indices increase; neither end is ever 2^15 packets behind, and
    a stream starts with roll-over counter 0. *)
Definition follows (last : gmap Z Z) (id n : Z) : Prop :=
  match last !! id with Some e => e < n < e + 32768 | None => n < 65536 end.

Fixpoint in_order (tx rx : gmap Z Z) (l : list sent) : Prop :=
  match l with
  | [] => True
  | p :: l =>
      let id := h_ssrc (p_hdr p) in
      let n := p_index p in
      0 <= n < 2 ^ 47 /\ follows tx id n /\ follows rx id n
      /\ in_order (<[id := n]> tx) (if p_arrives p then <[id := n]> rx else rx) l
  end.

Record sent_ok (ids : list Z) (p : sent) : Prop := {
  so_hdr : rtp_header_wf (p_hdr p);
  so_ext : xblock_ok (p_hdr p) (p_ext p);
  so_seq : h_seq (p_hdr p) = p_index p mod 65536;
  so_ssrc : h_ssrc (p_hdr p) ∈ ids;
  so_bytes : bytes (p_ext p) /\ bytes (p_payload p);
  so_size : zlength (packet p) < 2 ^ 16;
}.

(** Every packet is encrypted by the sender; those that arrive are decrypted
    by the receiver.  For each of these: the two results and the bytes the
    receiver is left with. *)
Fixpoint session (tx rx : srtp) (l : list sent) : list (res unit * res unit * list Z) :=
  match l with
  | [] => []
  | p :: l =>
      let '(r, (tx, mb)) := srtp_encrypt (tx, rcv_buf (packet p)) in
      if p_arrives p then
        let '(r', (rx, mb')) := srtp_decrypt (rx, rcv_buf (rest mb)) in
        (r, r', rest mb') :: session tx rx l
      else session tx rx l
  end.

(** *** The invariant of a session *)

(** The streams of an end are at the indices of [last], the others are fresh;
    at the receiver, the replay list has followed. *)
Definition tracks (s : srtp) (last : gmap Z Z) (rx : bool) : Prop :=
  forall id, match last !! id with
             | Some e => at_index (stream_of s id) e /\ (rx = true -> lix (replay_rtp (stream_of s id)) = e)
             | None => stream_of s id = fresh_stream id
             end.

Lemma tracks_expects s last rx id n : tracks s last rx -> 0 <= n < 2 ^ 47 -> follows last id n -> expects (stream_of s id) n.
Proof.
  intros Ht Hn Hf. specialize (Ht id). unfold follows in Hf. split; [done|].
  destruct (last !! id) as [e|].
  - destruct Ht as [Ha _]. pose proof Ha as (-> & _). exists e. split; [done|lia].
  - by rewrite Ht.
Qed.

Lemma tracks_now ids K s s' last rx id i y n :
  tracks s last rx -> now RTP ids K s id i y s' -> at_index y n -> (rx = true -> lix (replay_rtp y) = n) ->
  tracks s' (<[id := n]> last) rx.
Proof.
  intros Ht Hn Ha Hl id'. destruct (decide (id' = id)) as [->|Hne].
  - rewrite lookup_insert_eq, (now_stream_of Hn). done.
  - rewrite lookup_insert_ne by congruence. rewrite (now_other Hn) by done. apply Ht.
Qed.

Lemma replay_check_new r n :
  0 <= n -> lix r < n \/ r = srtp_replay_init ->
  (srtp_replay_check r n).1 = true /\ lix (srtp_replay_check r n).2 = n.
Proof.
  intros Hn [Hlt| ->]; unfold srtp_replay_check; simpl.
  - rewrite Z.gtb_ltb. replace (lix r <? n) with true by (symmetry; by apply Z.ltb_lt). done.
  - destruct (n >? 0) eqn:?; bool_prop; [done|]. by assert (n = 0) as -> by lia.
Qed.

Lemma replay_rejected_same r n r' : srtp_replay_check r n = (false, r') -> r' = r.
Proof. unfold srtp_replay_check. intros Er. repeat case_test_in Er; congruence. Qed.

Lemma pkt_auth_length K id n hdr ct : keys_ok K -> zlength (pkt_auth K id n hdr ct) = tag_size K.
Proof.
  intros [Ht Hm]. unfold pkt_auth, tag_size, SHA_DIGEST_LENGTH in *. destruct (aes_md (k_ref K)).
  - unfold mac. destruct Hm as [k ->]. cbn. destruct (rel_hmac HMAC_HASH_SHA1 k (hdr ++ ct ++ be_bytes 4 (n / 65536))) as [t Et].
    rewrite Et. destruct (hmac_length _ _ _ Et) as [Hl _]. cbn. apply zlength_ztake. lia.
  - apply aes_tag_length.
Qed.

Lemma pkt_stream_length K id n len : 0 <= len -> zlength (pkt_stream K id n len) = len.
Proof. intros. unfold pkt_stream. destruct (aes_md _); by apply aes_stream_length. Qed.

Lemma tag_size_bound K : keys_ok K -> 0 <= tag_size K <= 20.
Proof. intros [Ht _]. unfold tag_size, SHA_DIGEST_LENGTH, GCM_TAGLEN in *. destruct (aes_md _); lia. Qed.

Lemma zlength_protect K id n hdr payload :
  keys_ok K -> zlength (protect K id n hdr payload) = zlength hdr + zlength payload + tag_size K.
Proof.
  intros HK. unfold protect. rewrite !zlength_app, pkt_auth_length, xor_bytes_length;
    [lia|apply pkt_stream_length, zlength_nonneg|done].
Qed.

(** A received packet, as the sender protected it. *)
Lemma decrypt_protected ids K s h x payload n (id := h_ssrc h) :
  table_wf ids s -> id ∈ ids -> comp_has K (s_rtp s) -> keys_ok K ->
  rtp_header_wf h -> xblock_ok h x -> h_seq h = n mod 65536 -> expects (stream_of s id) n ->
  bytes (protect K id n (hdr_bytes h x) payload) -> ample_memory ->
  zlength (hdr_bytes h x ++ payload) < 2 ^ 30 ->
  exists i y s' mb' res,
    srtp_decrypt (s, rcv_buf (protect K id n (hdr_bytes h x) payload)) = (res, (s', mb')) /\ now RTP ids K s id i y s'
    /\ replay_rtp y = (srtp_replay_check (replay_rtp (stream_of s id)) n).2
    /\ if (srtp_replay_check (replay_rtp (stream_of s id)) n).1
       then res = Ok tt /\ at_index y n /\ rest mb' = hdr_bytes h x ++ payload
       else res = Err EALREADY.
Proof.
  intros Ht Hid HK Hok Wh Hx Hseq Hexp Hb Ham Hsz.
  pose proof (tag_size_bound K Hok). rewrite zlength_app in Hsz.
  pose proof (zlength_protect K id n (hdr_bytes h x) payload Hok) as Hlp.
  assert (Hh : holds (rcv_buf (protect K id n (hdr_bytes h x) payload)) (protect K id n (hdr_bytes h x) payload) 0).
  { apply rcv_buf_holds; [done|]. rewrite Hlp. unfold MEM_SIZE_MAX. lia. }
  unfold protect in Hh, Hlp |- *. set (ct := xor_bytes payload _) in *.
  destruct (srtp_decrypt_cases ids K s _ [] h x ct (pkt_auth K id n (hdr_bytes h x) ct) n
    Ht Hid HK Hok Wh Hx Hseq Hexp Hh (pkt_auth_length _ _ _ _ _ Hok) Ham) as (i & y & s' & mb' & r & E1 & N1 & C1).
  { rewrite app_nil_l, Hlp. lia. }
  rewrite decide_True in C1 by done. exists i, y, s', mb', r. destruct C1 as [Hr C1]. split_and!; try done.
  fold id in C1, Hr |- *. destruct (srtp_replay_check _ n).1; [|done]. destruct C1 as (-> & Ha & B1). split_and!; try done.
  rewrite (holds_rest _ _ _ B1), zdrop_0, app_nil_l. f_equal. unfold ct.
  assert (Hl : zlength (pkt_stream K id n (zlength payload)) = zlength payload) by (apply pkt_stream_length, zlength_nonneg).
  rewrite xor_bytes_length by done. by apply xor_bytes_involutive.
Qed.

Lemma table_empty ids s : s_streaml s = [] -> zlength ids <= SRTP_MAX_STREAMS -> table_wf ids s.
Proof. intros Es Hl. split; rewrite ?Es; [constructor|intros ? Hx; by apply elem_of_nil in Hx|done]. Qed.

Lemma tracks_empty s rx : s_streaml s = [] -> tracks s ∅ rx.
Proof. intros Es id. rewrite lookup_empty. unfold stream_of. by rewrite Es. Qed.

Lemma session_delivers ids K l : keys_ok K -> ample_memory -> Forall (sent_ok ids) l ->
  forall tx rx mtx mrx, in_order mtx mrx l ->
  table_wf ids tx -> comp_has K (s_rtp tx) -> tracks tx mtx false ->
  table_wf ids rx -> comp_has K (s_rtp rx) -> tracks rx mrx true ->
  session tx rx l = map (fun p => (Ok tt, Ok tt, packet p)) (filter (fun p => p_arrives p = true) l).
Proof.
  intros HK Ham Hl. induction Hl as [|p l [Wh Hx Hseq Hid [Hbx Hbp] Hsz] _ IH]; [done|].
  intros tx rx mtx mrx (Hn & Ftx & Frx & Hord) Ttx Ktx Str Trx Krx Srx. cbn [session].
  set (id := h_ssrc (p_hdr p)) in *. set (n := p_index p) in *.
  assert (Hb : bytes (packet p)).
  { unfold packet, hdr_bytes. rewrite !bytes_app. split_and!; try done; [apply rtp_fixed_bytes|].
    unfold rtp_xblock. destruct (h_ext _); [|done]. rewrite !bytes_app. auto with relib. }
  pose proof (zlength_nonneg (packet p)).
  assert (Hh : holds (rcv_buf (packet p)) ([] ++ hdr_bytes (p_hdr p) (p_ext p) ++ p_payload p) 0).
  { apply rcv_buf_holds; [done|]. unfold MEM_SIZE_MAX. change ([] ++ hdr_bytes (p_hdr p) (p_ext p) ++ p_payload p) with (packet p). lia. }
  destruct (srtp_encrypt_ok ids K tx _ [] (p_hdr p) (p_ext p) (p_payload p) n Ttx Hid Ktx HK Wh Hx Hseq
    (tracks_expects _ _ _ _ _ Str Hn Ftx) Hh Ham) as (i & y & tx' & mb' & E1 & N1 & A1 & _ & B1).
  { rewrite app_nil_l. change (hdr_bytes _ _ ++ _) with (packet p). lia. }
  rewrite E1. rewrite app_nil_l in B1. fold id in N1, B1.
  pose proof (tracks_now _ _ _ _ _ _ _ _ _ _ Str N1 A1 ltac:(done)) as Str'.
  destruct N1 as [Ttx' _ _ Ktx' _ _]. unfold filter. cbn [list_filter]. destruct (p_arrives p).
  2:{ rewrite decide_False by done. by eapply IH. }
  rewrite decide_True by done. cbn [map].
  rewrite (holds_rest _ _ _ B1), zlength_nil, zdrop_0. pose proof (holds_bytes _ _ _ B1) as Hbw.
  destruct (decrypt_protected ids K rx (p_hdr p) (p_ext p) (p_payload p) n Trx Hid Krx HK Wh Hx Hseq
    (tracks_expects _ _ _ _ _ Srx Hn Frx) Hbw Ham) as (j & z & rx' & mb2 & r & E2 & N2 & Hrep & C2).
  { change (hdr_bytes _ _ ++ _) with (packet p). lia. }
  fold id in E2, N2, Hrep, C2. rewrite E2.
  destruct (replay_check_new (replay_rtp (stream_of rx id)) n) as [Er1 Er2]; [lia| |].
  { unfold follows in Frx. specialize (Srx id). destruct (mrx !! id).
    - left. destruct Srx as [_ ->]; [lia|done].
    - right. by rewrite Srx. }
  rewrite Er1 in C2. destruct C2 as (-> & A2 & ->). f_equal. rewrite <- Hrep in Er2.
  pose proof (tracks_now _ _ _ _ _ _ _ _ _ _ Srx N2 A2 ltac:(done)) as Srx'.
  destruct N2 as [Trx' _ _ Krx' _ _]. by eapply IH.
Qed.

(** C1: end to end.  Two sessions allocated with the same suite and master
    key (the flags may differ) exchange RTP packets of up to eight SSRCs over
    a network that keeps the order of each SSRC but may lose packets: every
    packet that arrives is authenticated and decrypted to exactly the packet
    that was sent, for every suite, counter mode with HMAC as well as GCM,
    across sequence number wrap-arounds.  Conditions: per SSRC the first packet
    has an index below 65536 (roll-over counter 0 at both ends), the index
    grows by less than 2^15 from one packet to the next and from one arriving
    packet to the next, and stays below 2^47 (a roll-over counter below 2^31);
    each packet is a well-formed RTP packet of less than 65536 bytes; memory
    suffices. *)
Theorem srtp_session suite key f1 f2 tx rx ids l :
  srtp_alloc suite key f1 = Ok tx -> srtp_alloc suite key f2 = Ok rx ->
  zlength ids <= SRTP_MAX_STREAMS -> Forall (sent_ok ids) l -> in_order ∅ ∅ l -> ample_memory ->
  session tx rx l = map (fun p => (Ok tt, Ok tt, packet p)) (filter (fun p => p_arrives p = true) l).
Proof.
  intros Etx Erx Hids Hl Hord Ham.
  destruct (srtp_alloc_inv _ _ _ _ Etx Ham) as (K & HK & Ktx & Stx & Hsame).
  pose proof (Hsame _ _ Erx) as Hrx. destruct (srtp_alloc_inv _ _ _ _ Erx Ham) as (_ & _ & _ & Srx & _).
  eapply session_delivers; eauto using table_empty, tracks_empty. by rewrite Hrx.
Qed.

(** ** What the receiver does with packets of an attacker *)

(** A packet for the receiver: header, body and tag as they arrive. *)
Record arriving (ids : list Z) (K : keys) (h : rtp_header) (x ct tag : list Z) (n : Z) : Prop := {
  ar_hdr : rtp_header_wf h;
  ar_ext : xblock_ok h x;
  ar_seq : h_seq h = n mod 65536;
  ar_ssrc : h_ssrc h ∈ ids;
  ar_bytes : bytes (hdr_bytes h x ++ ct ++ tag);
  ar_size : zlength (hdr_bytes h x ++ ct ++ tag) < 2 ^ 30;
  ar_tag : zlength tag = tag_size K;
}.

(** A receiver that is set up: its stream table and its keys. *)
Record receiver (ids : list Z) (K : keys) (s : srtp) : Prop := {
  rc_table : table_wf ids s;
  rc_comp : comp_has K (s_rtp s);
  rc_keys : keys_ok K;
}.

Lemma decrypt_arriving ids K s h x ct tag n (id := h_ssrc h) :
  receiver ids K s -> arriving ids K h x ct tag n -> expects (stream_of s id) n -> ample_memory ->
  exists i y s' mb' res, srtp_decrypt (s, rcv_buf (hdr_bytes h x ++ ct ++ tag)) = (res, (s', mb'))
    /\ now RTP ids K s id i y s' /\
    if decide (tag = pkt_auth K id n (hdr_bytes h x) ct) then
      replay_rtp y = (srtp_replay_check (replay_rtp (stream_of s id)) n).2 /\
      if (srtp_replay_check (replay_rtp (stream_of s id)) n).1 then res = Ok tt /\ at_index y n
      else res = Err EALREADY
    else res = Err EAUTH /\ y = rolled (h_seq h) (seen_first (h_seq h) (stream_of s id)).
Proof.
  intros [Ht HK Hok] [Wh Hx Hseq Hid Hb Hl Htag] Hexp Ham.
  assert (Hh : holds (rcv_buf (hdr_bytes h x ++ ct ++ tag)) ([] ++ hdr_bytes h x ++ ct ++ tag) 0).
  { rewrite app_nil_l. apply rcv_buf_holds; [done|]. unfold MEM_SIZE_MAX. lia. }
  destruct (srtp_decrypt_cases ids K s _ [] h x ct tag n Ht Hid HK Hok Wh Hx Hseq Hexp Hh Htag Ham)
    as (i & y & s' & mb' & r & E1 & N1 & C1).
  { rewrite app_nil_l. lia. }
  exists i, y, s', mb', r. split_and!; [done|done|]. fold id in C1 |- *.
  destruct (decide _); [|done]. destruct C1 as [Hr C1]. split; [done|].
  destruct (srtp_replay_check (replay_rtp (stream_of s id)) n).1; [|done]. by destruct C1 as (? & ? & _).
Qed.

(** C33: the receiver accepts a packet with the index it expects if and only if
    its tag is the authentication tag of exactly this header, ciphertext and
    index, and the replay list has not seen the index; otherwise it returns
    EAUTH or EALREADY, and the replay list of the stream and all the other
    streams are as before. *)
Theorem srtp_accepts_authentic ids K s h x ct tag n :
  receiver ids K s -> arriving ids K h x ct tag n -> expects (stream_of s (h_ssrc h)) n -> ample_memory ->
  let '(r, (s', _)) := srtp_decrypt (s, rcv_buf (hdr_bytes h x ++ ct ++ tag)) in
  (r = Ok tt <-> tag = pkt_auth K (h_ssrc h) n (hdr_bytes h x) ct
     /\ (srtp_replay_check (replay_rtp (stream_of s (h_ssrc h))) n).1 = true)
  /\ (r <> Ok tt -> (r = Err EAUTH \/ r = Err EALREADY)
       /\ replay_rtp (stream_of s' (h_ssrc h)) = replay_rtp (stream_of s (h_ssrc h)))
  /\ forall id', id' <> h_ssrc h -> stream_of s' id' = stream_of s id'.
Proof.
  intros Hrc Har Hexp Ham.
  destruct (decrypt_arriving ids K s h x ct tag n Hrc Har Hexp Ham) as (i & y & s' & mb' & r & -> & N1 & C1).
  rewrite (now_stream_of N1). split_and!; [| |apply (now_other N1)].
  - destruct (decide _) as [Ha|Hna]; [destruct C1 as [_ C1]; destruct (srtp_replay_check _ n).1|].
    + destruct C1 as [-> _]. split; [done|]. by intros _.
    + subst r. split; [done|]. by intros [_ ?].
    + destruct C1 as [-> _]. split; [done|]. by intros [? _].
  - intros Hr. destruct (decide _) as [Ha|Hna].
    + destruct C1 as [Hrep C1]. destruct (srtp_replay_check _ n) as [[] r'] eqn:Er; cbn [fst snd] in *.
      * by destruct C1 as [-> _].
      * split; [by right|]. rewrite Hrep. by eapply replay_rejected_same.
    + destruct C1 as [-> ->]. split; [by left|]. apply stepped_replay.
Qed.

(** A packet that was accepted is not accepted a second time: the same
    bytes are answered with EALREADY. *)
Theorem srtp_replayed_rejected ids K s s' mb' h x ct tag n seen :
  receiver ids K s -> arriving ids K h x ct tag n -> expects (stream_of s (h_ssrc h)) n -> ample_memory ->
  replay_inv (replay_rtp (stream_of s (h_ssrc h))) seen ->
  srtp_decrypt (s, rcv_buf (hdr_bytes h x ++ ct ++ tag)) = (Ok tt, (s', mb')) ->
  (srtp_decrypt (s', rcv_buf (hdr_bytes h x ++ ct ++ tag))).1 = Err EALREADY.
Proof.
  intros Hrc Har Hexp Ham Hinv E1. assert (Hn : is_u64 n) by (destruct Hexp as [Hn _]; unfold is_u64; lia).
  destruct (decrypt_arriving ids K s h x ct tag n Hrc Har Hexp Ham) as (i & y & s1 & mb1 & r & E1' & N1 & C1).
  rewrite E1 in E1'. injection E1' as <- <- <-.
  pose proof (replay_check_spec _ _ n Hinv Hn) as Hs.
  destruct (decide _) as [Ha|]; [|by destruct C1]. destruct C1 as [Hrep C1].
  destruct (srtp_replay_check _ n) as [[] r']; cbn [fst snd] in *; [|done].
  destruct Hs as [_ Hinv']. destruct C1 as [_ Hat].
  assert (Hrc' : receiver ids K s') by (destruct N1, Hrc; by split).
  assert (Hexp' : expects (stream_of s' (h_ssrc h)) n).
  { rewrite (now_stream_of N1). destruct Hexp as [Hn' _]. split; [done|].
    pose proof Hat as (-> & _). exists n. split; [done|lia]. }
  destruct (decrypt_arriving ids K s' h x ct tag n Hrc' Har Hexp' Ham) as (j & z & s2 & mb2 & r2 & -> & _ & C2).
  rewrite decide_True in C2 by done. destruct C2 as [_ C2].
  rewrite (now_stream_of N1), Hrep in C2.
  pose proof (replay_check_spec _ _ n Hinv' Hn) as Hs'.
  destruct (srtp_replay_check r' n) as [[] r'']; cbn [fst snd] in *; [|done].
  destruct Hs' as [Hnin _]. destruct Hnin. by left.
Qed.

(** A packet whose sequence number is more than 2^15 above the highest one. *)
Lemma decrypt_far_ahead ids s h x body (id := h_ssrc h) :
  table_wf ids s -> id ∈ ids -> rtp_header_wf h -> xblock_ok h x -> ample_memory ->
  bytes (hdr_bytes h x ++ body) -> zlength (hdr_bytes h x ++ body) < 2 ^ 30 ->
  s_l_set (stream_of s id) = true -> h_seq h - s_l (stream_of s id) > 32768 ->
  (srtp_decrypt (s, rcv_buf (hdr_bytes h x ++ body))).1 = Err ETIMEDOUT.
Proof.
  intros Ht Hid Wh Hx Ham Hb Hl Hset Hfar. unfold srtp_decrypt. erewrite bind_ok by done. cbn [snd].
  assert (Hh : holds (rcv_buf (hdr_bytes h x ++ body)) ([] ++ hdr_bytes h x ++ body) (zlength (@nil Z))).
  { rewrite app_nil_l. apply rcv_buf_holds; [done|]. unfold MEM_SIZE_MAX. lia. }
  destruct (hdr_decode_holds h x [] body _ Wh Hx Hh) as (mb1 & E1 & _).
  rewrite (bind_ok (on_mb _) _ _ h (s, mb1)) by (unfold on_mb; cbn [snd]; by rewrite E1). fold id.
  destruct (stream_get_seq_ok ids s id (h_seq h) Ht Hid Ham) as (i & s1 & E2 & _ & Hp1 & _).
  rewrite (bind_ok (on_srtp _) _ _ i (s1, mb1)) by (unfold on_srtp; cbn [fst snd]; by rewrite E2).
  erewrite (bind_ok (strm_get i)) by (unfold strm_get; cbn [fst]; by rewrite (points_get _ _ _ Hp1)).
  unfold seen_first. rewrite Hset. unfold seq_diff.
  rewrite Z.gtb_ltb. replace (32768 <? _) with true by (symmetry; apply Z.ltb_lt; lia). done.
Qed.

(** One forged packet locks out a stream.  The roll-over counter and the
    highest sequence number are moved before the tag is checked: from a stream
    in the upper half of the sequence numbers, a packet with sequence number 0
    and any wrong tag is answered with EAUTH, and yet every genuine packet that
    follows in sequence, whatever it carries, is then refused with ETIMEDOUT. *)
Theorem srtp_forged_locks_out ids K s h x ct tag e :
  receiver ids K s -> at_index (stream_of s (h_ssrc h)) e -> e < 2 ^ 46 -> 32768 < e mod 65536 ->
  arriving ids K h x ct tag (65536 * (e / 65536 + 1)) -> ample_memory ->
  tag <> pkt_auth K (h_ssrc h) (65536 * (e / 65536 + 1)) (hdr_bytes h x) ct ->
  let '(r, (s', _)) := srtp_decrypt (s, rcv_buf (hdr_bytes h x ++ ct ++ tag)) in
  r = Err EAUTH /\
  forall h' x' body, rtp_header_wf h' -> xblock_ok h' x' -> h_ssrc h' = h_ssrc h -> 32768 < h_seq h' ->
    bytes (hdr_bytes h' x' ++ body) -> zlength (hdr_bytes h' x' ++ body) < 2 ^ 30 ->
    (srtp_decrypt (s', rcv_buf (hdr_bytes h' x' ++ body))).1 = Err ETIMEDOUT.
Proof.
  intros Hrc Hat He Hup Har Ham Hne. set (n := 65536 * (e / 65536 + 1)) in *.
  pose proof Hat as (Hset & Hroc & Hsl & He').
  assert (Hexp : expects (stream_of s (h_ssrc h)) n).
  { unfold expects. rewrite Hset. split; [subst n; index_arith|]. exists e. split; [done|]. subst n. index_arith. }
  destruct (decrypt_arriving ids K s h x ct tag n Hrc Har Hexp Ham) as (i & y & s' & mb' & r & -> & N1 & C1).
  rewrite decide_False in C1 by done. destruct C1 as [-> ->]. split; [done|].
  intros h' x' body Wh' Hx' Hid' Hseq' Hb Hl.
  assert (Hseq : h_seq h = 0) by (rewrite (ar_seq _ _ _ _ _ _ _ Har); subst n; index_arith).
  assert (Hy : stream_of s' (h_ssrc h') = set_roc_s_l (u32 (roc (stream_of s (h_ssrc h)) + 1)) 0 (stream_of s (h_ssrc h))).
  { rewrite Hid', (now_stream_of N1). unfold rolled, seen_first. rewrite Hset, Hseq. unfold seq_diff. rewrite Hsl.
    by decide_test. }
  eapply decrypt_far_ahead; eauto.
  - by apply (now_table N1).
  - rewrite Hid'. apply (ar_ssrc _ _ _ _ _ _ _ Har).
  - by rewrite Hy.
  - rewrite Hy. simpl. lia.
Qed.
End Session.

(** ** A concrete session *)

#[local] Existing Instance lp64_le.

Definition sample_key : list Z := seqZ 0 30.

Definition no_comp : comp (E := toy_evp) := Comp None AES_MODE_CTR None [] 0.
Definition sample_srtp : srtp (E := toy_evp) :=
  match srtp_alloc (H := lp64_le) SRTP_AES_CM_128_HMAC_SHA1_80 sample_key 0 with
  | Ok s => s
  | Err _ => Srtp no_comp no_comp []
  end.

Lemma sample_srtp_alloc :
  srtp_alloc (H := lp64_le) SRTP_AES_CM_128_HMAC_SHA1_80 sample_key 0 = Ok sample_srtp.
Proof. vm_cast_no_check (eq_refl (Ok sample_srtp)). Qed.

Definition sample_keys : keys :=
  let c := s_rtp sample_srtp in
  Keys (default (Aes (default (EvpView EVP_aes_128_ctr [] None true [] [], None) EVP_CIPHER_CTX_new) AES_MODE_CTR true) (c_aes c))
    (hmac_key <$> c_hmac c) (c_k_s c) (c_tag_len c).

Definition sample_rtp (seq : Z) : rtp_header := RtpHeader 2 false false 0 false 8 seq 1000 77 [] 0 0.

Lemma sample_rtp_wf seq : 0 <= seq < 65536 -> rtp_header_wf (sample_rtp seq).
Proof. intros. split; cbn -[Z.pow is_u16 is_u32]; try done; [by right | by_compute..]. Qed.

Definition sample_sent (n : Z) (arrives : bool) : sent :=
  Sent (sample_rtp (n mod 65536)) [] [1; 2; n mod 256] n arrives.

Lemma sample_sent_ok n b : sent_ok [77] (sample_sent n b).
Proof.
  split; cbn [p_hdr p_ext p_payload p_index sample_sent]; try done.
  - apply sample_rtp_wf, Z.mod_pos_bound. lia.
  - apply elem_of_cons; by left.
  - split; [constructor|]. repeat constructor; try lia; by apply Z.mod_pos_bound.
Qed.

Lemma srtp_session_witness :
  let l := [sample_sent 65535 true; sample_sent 65536 false; sample_sent 65537 true] in
  in_order ∅ ∅ l /\
  session (H := lp64_le) sample_srtp sample_srtp l
  = [(Ok tt, Ok tt, packet (sample_sent 65535 true)); (Ok tt, Ok tt, packet (sample_sent 65537 true))].
Proof.
  intros l. assert (Ho : in_order ∅ ∅ l) by (vm_compute; repeat split; congruence). split; [exact Ho|].
  exact (srtp_session (H := lp64_le) _ _ _ _ _ _ [77] l sample_srtp_alloc sample_srtp_alloc
    ltac:(vm_compute; congruence) ltac:(repeat (apply Forall_cons; split; [apply sample_sent_ok|]); apply Forall_nil; exact I) Ho lp64_ample).
Defined.

Lemma sample_receiver l :
  table_wf [77] (Srtp (s_rtp sample_srtp) (s_rtcp sample_srtp) l) ->
  receiver [77] sample_keys (Srtp (s_rtp sample_srtp) (s_rtcp sample_srtp) l).
Proof.
  intros Ht. split; [exact Ht| |].
  - exists (k_ref sample_keys). split; [vm_cast_no_check (eq_refl (s_rtp sample_srtp))|].
    split; [split; vm_cast_no_check (eq_refl true)|done].
  - split; [vm_compute; split; congruence|]. vm_compute. by eexists.
Qed.

Definition sample_ct : list Z := [9; 8; 7].
Definition sample_tag (n : Z) : list Z :=
  pkt_auth sample_keys 77 n (hdr_bytes (sample_rtp (n mod 65536)) []) sample_ct.

Lemma sample_tag_bytes : bytes (sample_tag 5).
Proof.
  let t := eval vm_compute in (sample_tag 5) in
  assert (Et : sample_tag 5 = t) by (vm_cast_no_check (eq_refl t)).
  rewrite Et. by_compute.
Qed.

Lemma sample_arriving n tag :
  0 <= n -> bytes tag -> zlength tag = 10 -> arriving [77] sample_keys (sample_rtp (n mod 65536)) [] sample_ct tag n.
Proof.
  intros Hn Hb Hl. split; try done.
  - apply sample_rtp_wf, Z.mod_pos_bound. lia.
  - apply elem_of_cons. by left.
  - rewrite !bytes_app. split_and!; [|unfold sample_ct; by_compute|done].
    unfold hdr_bytes. rewrite bytes_app. split; [apply rtp_fixed_bytes|constructor].
  - rewrite !zlength_app, Hl. vm_compute. reflexivity.
Qed.

Lemma sample_expects n : 0 <= n < 65536 -> expects (stream_of sample_srtp 77) n.
Proof.
  intros Hn. split; [lia|]. replace (s_l_set (stream_of sample_srtp 77)) with false by (vm_compute; reflexivity).
  split; [vm_compute; reflexivity|lia].
Qed.

Lemma sample_table : table_wf [77] sample_srtp.
Proof. apply table_empty; [vm_compute; reflexivity | vm_compute; congruence]. Qed.

Lemma srtp_accepts_authentic_witness :
  let '(r, (s', _)) := srtp_decrypt (H := lp64_le)
    (sample_srtp, rcv_buf (hdr_bytes (sample_rtp 5) [] ++ sample_ct ++ sample_tag 5)) in
  (r = Ok tt <-> sample_tag 5 = pkt_auth sample_keys 77 5 (hdr_bytes (sample_rtp 5) []) sample_ct
     /\ (srtp_replay_check (replay_rtp (stream_of sample_srtp 77)) 5).1 = true)
  /\ (r <> Ok tt -> (r = Err EAUTH \/ r = Err EALREADY)
       /\ replay_rtp (stream_of s' 77) = replay_rtp (stream_of sample_srtp 77))
  /\ forall id', id' <> 77 -> stream_of s' id' = stream_of sample_srtp id'.
Proof.
  exact (srtp_accepts_authentic (H := lp64_le) [77] sample_keys sample_srtp (sample_rtp 5) [] sample_ct (sample_tag 5) 5
    (sample_receiver _ sample_table)
    (sample_arriving 5 (sample_tag 5) ltac:(lia) sample_tag_bytes ltac:(vm_compute; reflexivity))
    (sample_expects 5 ltac:(lia)) lp64_ample).
Defined.

Lemma srtp_replayed_rejected_witness :
  exists s' mb',
    srtp_decrypt (H := lp64_le) (sample_srtp, rcv_buf (hdr_bytes (sample_rtp 5) [] ++ sample_ct ++ sample_tag 5)) = (Ok tt, (s', mb'))
    /\ (srtp_decrypt (H := lp64_le) (s', rcv_buf (hdr_bytes (sample_rtp 5) [] ++ sample_ct ++ sample_tag 5))).1 = Err EALREADY.
Proof.
  set (X := srtp_decrypt _). exists X.2.1, X.2.2.
  assert (EX : X = (Ok tt, (X.2.1, X.2.2))).
  { assert (E1 : X.1 = Ok tt) by (vm_compute; reflexivity). clearbody X. destruct X as [r [s' mb']]. by rewrite <- E1. }
  split; [exact EX|].
  exact (srtp_replayed_rejected (H := lp64_le) [77] sample_keys sample_srtp X.2.1 X.2.2 (sample_rtp 5) [] sample_ct (sample_tag 5) 5 []
    (sample_receiver _ sample_table)
    (sample_arriving 5 (sample_tag 5) ltac:(lia) sample_tag_bytes ltac:(vm_compute; reflexivity))
    (sample_expects 5 ltac:(lia)) lp64_ample replay_inv_init EX).
Defined.

(** The receiver after packet 40000. *)
Definition sample_mid : srtp :=
  Srtp (s_rtp sample_srtp) (s_rtcp sample_srtp) [SrtpStream (Replay 1 40000) srtp_replay_init 77 0 40000 true 0].

Lemma srtp_forged_locks_out_witness :
  let '(r, (s', _)) := srtp_decrypt (H := lp64_le)
    (sample_mid, rcv_buf (hdr_bytes (sample_rtp 0) [] ++ sample_ct ++ replicate 10 0)) in
  r = Err EAUTH /\
  (srtp_decrypt (H := lp64_le) (s', rcv_buf (hdr_bytes (sample_rtp 40001) [] ++ [1; 2; 3]))).1 = Err ETIMEDOUT.
Proof.
  assert (Ht : table_wf [77] sample_mid).
  { split; [apply NoDup_singleton| |vm_compute; congruence]. intros x Hx.
    apply list_elem_of_singleton in Hx as ->. apply elem_of_cons. by left. }
  assert (Hne : replicate 10 0 <> pkt_auth sample_keys 77 65536 (hdr_bytes (sample_rtp 0) []) sample_ct) by (vm_compute; congruence).
  pose proof (srtp_forged_locks_out (H := lp64_le) [77] sample_keys sample_mid (sample_rtp 0) [] sample_ct (replicate 10 0) 40000
    (sample_receiver _ Ht) ltac:(vm_compute; repeat split; congruence) ltac:(lia) ltac:(vm_compute; reflexivity)
    (sample_arriving 65536 (replicate 10 0) ltac:(lia) ltac:(cbn; by_compute) ltac:(vm_compute; reflexivity)) lp64_ample Hne) as Hw.
  destruct (srtp_decrypt _) as [r [s' mb']]. destruct Hw as [Hr Hall]. split; [exact Hr|].
  apply Hall; [apply sample_rtp_wf; lia | reflexivity | reflexivity | vm_compute; reflexivity | | vm_compute; reflexivity].
  unfold hdr_bytes. rewrite !bytes_app. split_and!; [apply rtp_fixed_bytes | constructor | by_compute].
Defined.
