(* ===== verification/Srtcp.v ===== *)
(** * SRTCP and packet IVs

    Theorems on srtcp_encrypt/srtcp_decrypt (src/src/srtp/srtcp.c): the round
    trip of control packets, and what the GCM suites leave unprotected; and on
    the IV computation of src/src/srtp/misc.c, on which the counter modes rely. *)

From Stdlib Require Import ZArith Lia.
From stdpp Require Import base numbers list.
From S2P Require Import Prelude Endian Mbuf MbufView Rtp SrtpReplay Crypto Srtp SrtpSpec SrtpSession.

Open Scope Z_scope.

(** ** IVs *)

Section Iv.
Context `{H : Host}.

Lemma vect_get_bound n off v : bytes v -> 0 <= vect_get n off v < 256 ^ Z.of_nat n.
Proof.
  intros Hv. unfold vect_get.
  assert (Hb : bytes (ztake (Z.of_nat n) (zdrop off v))) by auto with relib.
  pose proof (host_val_bound _ Hb) as Hh. split; [lia|]. eapply Z.lt_le_trans; [apply Hh|].
  apply Z.pow_le_mono_r; [lia|]. unfold ztake. rewrite length_take. lia.
Qed.

Lemma host_bytes_val_n n bs : bytes bs -> length bs = n -> host_bytes n (host_val bs) = bs.
Proof. intros Hb <-. by apply host_bytes_host_val. Qed.

(** A masked field determines the value it was made of. *)
Lemma masked_inj n k a b :
  0 <= k < 256 ^ Z.of_nat n ->
  host_bytes n (Z.lxor k (host_val (be_bytes n a))) = host_bytes n (Z.lxor k (host_val (be_bytes n b))) ->
  a mod 256 ^ Z.of_nat n = b mod 256 ^ Z.of_nat n.
Proof.
  intros Hk Heq.
  assert (Hpow : 256 ^ Z.of_nat n = 2 ^ (8 * Z.of_nat n)) by (rewrite Z.pow_mul_r; try lia; done).
  assert (Hv : forall v, 0 <= host_val (be_bytes n v) < 256 ^ Z.of_nat n).
  { intros v. pose proof (host_val_bound _ (be_bytes_bytes n v)) as Hb. by rewrite be_bytes_length in Hb. }
  assert (Hx : forall v, 0 <= Z.lxor k (host_val (be_bytes n v)) < 256 ^ Z.of_nat n).
  { intros v. specialize (Hv v). rewrite Hpow in *. apply lxor_bound; [lia|done|done]. }
  apply (f_equal host_val) in Heq. rewrite !host_val_host_bytes, !Z.mod_small in Heq by done.
  apply (f_equal (Z.lxor k)) in Heq.
  rewrite <- !Z.lxor_assoc, Z.lxor_nilpotent, !Z.lxor_0_l in Heq.
  apply (f_equal (host_bytes n)) in Heq.
  rewrite !host_bytes_val_n in Heq by auto using be_bytes_bytes, be_bytes_length.
  by rewrite <- !be_val_be_bytes, Heq.
Qed.

(** Equal concatenations of fields of the same size are equal field by field. *)
Lemma host_bytes_app_inv n a b r r' :
  host_bytes n a ++ r = host_bytes n b ++ r' -> host_bytes n a = host_bytes n b /\ r = r'.
Proof. apply app_inj_1. by rewrite !host_bytes_length. Qed.

(** No two packets of a session share an IV.  For one salt, the 16-byte
    counter-mode IV and the 12-byte GCM IV determine both the SSRC and the
    48-bit packet index, on hosts of either byte order. *)
Theorem srtp_iv_unique k_s ssrc1 ix1 ssrc2 ix2 :
  bytes k_s -> is_u32 ssrc1 -> is_u32 ssrc2 -> 0 <= ix1 < 2 ^ 48 -> 0 <= ix2 < 2 ^ 48 ->
  srtp_iv_calc k_s ssrc1 ix1 = srtp_iv_calc k_s ssrc2 ix2
  \/ srtp_iv_calc_gcm k_s ssrc1 ix1 = srtp_iv_calc_gcm k_s ssrc2 ix2 ->
  ssrc1 = ssrc2 /\ ix1 = ix2.
Proof.
  unfold is_u32. intros Hk Hs1 Hs2 Hi1 Hi2 [Heq|Heq].
  - unfold srtp_iv_calc in Heq. apply host_bytes_app_inv in Heq as [_ Heq].
    apply host_bytes_app_inv in Heq as [E1 Heq]. apply host_bytes_app_inv in Heq as [E2 Heq].
    apply host_bytes_app_inv in Heq as [E3 _].
    apply masked_inj in E1, E2, E3; try by apply vect_get_bound.
    rewrite !Z.shiftr_div_pow2 in E2 by lia. unfold wrap in *. simpl in E1, E2, E3.
    Z.to_euclidean_division_equations. lia.
  - unfold srtp_iv_calc_gcm in Heq. apply host_bytes_app_inv in Heq as [_ Heq].
    apply host_bytes_app_inv in Heq as [E1 Heq]. apply host_bytes_app_inv in Heq as [E2 Heq].
    apply host_bytes_app_inv in Heq as [E3 Heq]. apply host_bytes_app_inv in Heq as [E4 E5].
    apply masked_inj in E1, E2, E3, E4, E5; try by apply vect_get_bound.
    change 0xffff with (Z.ones 16) in *. rewrite !Z.land_ones, !Z.shiftr_div_pow2 in * by lia.
    unfold wrap in *. simpl in E1, E2, E3, E4, E5. Z.to_euclidean_division_equations. lia.
Qed.
End Iv.

Lemma srtp_iv_unique_witness :
  srtp_iv_calc (H := lp64_le) (replicate 16 0) 1 5 <> srtp_iv_calc (H := lp64_le) (replicate 16 0) 1 6.
Proof.
  intros Heq.
  destruct (srtp_iv_unique (H := lp64_le) (replicate 16 0) 1 5 1 6 ltac:(cbn; by_compute) ltac:(by_compute) ltac:(by_compute)
    ltac:(lia) ltac:(lia) (or_introl Heq)) as [_ Hix].
  discriminate Hix.
Defined.

(** ** Control packets *)

Section Srtcp.
Context `{H : Host} `{E : Evp} `{L : !EvpLaws} `{R : !EvpReliable}.

(** The fixed part of an RTCP packet: four bytes and the SSRC of its sender. *)
Record rtcp_hdr (hdr : list Z) (id : Z) : Prop := {
  rh_parts : exists w, hdr = w ++ be_bytes 4 id /\ zlength w = 4;
  rh_id : is_u32 id;
}.

Lemma rtcp_hdr_length hdr id : rtcp_hdr hdr id -> zlength hdr = 8.
Proof. intros [(w & -> & Hw) _]. rewrite zlength_app, zlength_be_bytes. lia. Qed.

Lemma get_rtcp_ssrc_ok mb pre hdr d id :
  rtcp_hdr hdr id -> holds mb (pre ++ hdr ++ d) (zlength pre) ->
  exists mb', get_rtcp_ssrc mb = (Ok id, mb') /\ holds mb' (pre ++ hdr ++ d) (zlength (pre ++ hdr)).
Proof.
  intros Hr Hh. pose proof (rtcp_hdr_length _ _ Hr) as Hl8. pose proof (zlength_nonneg d). pose proof (zlength_nonneg pre).
  unfold get_rtcp_ssrc. rewrite (holds_get_left _ _ _ Hh), !zlength_app, Hl8.
  replace (_ <? 8) with false by (symmetry; apply Z.ltb_ge; lia).
  destruct Hr as [(w & -> & Hw) Hid]. rewrite <- app_assoc in Hh.
  pose proof (holds_rest _ _ _ Hh) as Hr. rewrite zdrop_app_exact in Hr.
  destruct (adv_step mb w _ 4 (holds_wf _ _ _ Hh) Hr Hw) as [W1 R1].
  rewrite mbuf_advance_adv; [|exact (holds_wf _ _ _ Hh)|rewrite Hr, !zlength_app, zlength_be_bytes; lia].
  destruct (read_be32_app _ id d W1 R1) as (E2 & W2 & R2).
  rewrite E2, wrap_small by exact Hid. eexists. split; [done|]. rewrite <- app_assoc.
  destruct Hh as [W Hc Hp]. split; [done|by rewrite !content_adv|].
  unfold adv. cbn [mb_pos mbuf_set_pos]. lia.
Qed.

(** The E bit and the index, as they travel. *)
Definition eix (ix : Z) : list Z := be_bytes 4 (2 ^ 31 + ix).

Definition protect_rtcp (K : keys) (id ix : Z) (hdr d : list Z) : list Z :=
  match aes_md (k_ref K) with
  | AES_MODE_CTR =>
      let ct := xor_bytes d (ctr_stream K id ix (zlength d)) in
      hdr ++ ct ++ eix ix ++ mac K (hdr ++ ct ++ eix ix)
  | AES_MODE_GCM =>
      let ct := xor_bytes d (gcm_stream K id ix (zlength d)) in
      hdr ++ ct ++ gcm_auth K id ix (hdr ++ eix ix) ct ++ eix ix
  end.

Lemma lor_ebit ix : 0 <= ix < 2 ^ 31 -> Z.lor (2 ^ 31) ix = 2 ^ 31 + ix.
Proof.
  intros. replace (2 ^ 31) with (Z.shiftl 1 31) at 1 by reflexivity. rewrite lor_shiftl_add by lia. lia.
Qed.

Lemma mac_length K d : keys_ok K -> is_Some (k_mac K) -> zlength (mac K d) = k_tag K /\ bytes (mac K d).
Proof.
  intros [Ht _] [k Hk]. unfold mac, SHA_DIGEST_LENGTH in *. rewrite Hk. cbn.
  destruct (rel_hmac HMAC_HASH_SHA1 k d) as [t Et]. rewrite Et. destruct (hmac_length _ _ _ Et) as [Hl Hb]. cbn.
  split; [apply zlength_ztake; lia | auto with relib].
Qed.

Lemma append_hmac_rtcp_ok K k s mb pkt p :
  keys_ok K -> k_mac K = Some k -> holds mb pkt p -> ample_memory -> 0 < zlength pkt -> zlength pkt + 20 < 2 ^ 31 ->
  exists mb', append_hmac_rtcp (Hmac HMAC_HASH_SHA1 k) (k_tag K) 0 (s, mb) = (Ok tt, (s, mb'))
    /\ holds mb' (pkt ++ mac K pkt) (zlength (pkt ++ mac K pkt)).
Proof.
  intros Hok Hmac Hh Ham Hpos Hsz. unfold append_hmac_rtcp.
  pose proof (holds_set_pos _ _ _ 0 Hh ltac:(lia)) as B1.
  destruct (hmac_rest_ok K k s _ [] pkt _ Hmac Hpos B1 eq_refl) as (t & E2 & Htm & _).
  pose proof (holds_set_pos _ _ _ (zlength pkt) B1 ltac:(lia)) as B3.
  destruct (mac_length K pkt Hok) as [Hml Hmb]; [by eexists|].
  destruct (holds_append _ _ (mac K pkt) B3 Hmb Ham) as (mb4 & E4 & B4).
  { destruct Hok as [Htag _]. unfold SHA_DIGEST_LENGTH in *. lia. }
  erewrite (bind_ok get_mb) by done. cbn [snd]. erewrite (bind_ok (put_mb _)) by done. cbn [fst snd].
  rewrite (bind_ok _ _ _ _ _ E2). erewrite (bind_ok get_mb) by done. cbn [snd].
  rewrite (holds_end _ _ _ B1). erewrite (bind_ok (put_mb _)) by done. cbn [fst snd]. rewrite Htm.
  exists mb4. split; [by apply call_mb_ok|done].
Qed.

(** The tag is read behind the packet and cut off. *)
Lemma verify_hmac_rtcp_ok K k s mb pkt :
  keys_ok K -> k_mac K = Some k -> holds mb (pkt ++ mac K pkt) (zlength pkt) -> 0 < zlength pkt ->
  exists mb', verify_hmac_rtcp (Hmac HMAC_HASH_SHA1 k) (k_tag K) 0 (s, mb) = (Ok tt, (s, mb')) /\ holds mb' pkt 0.
Proof.
  intros Hok Hmac Hh Hpos. unfold verify_hmac_rtcp. set (tag := mac K pkt) in *.
  destruct (mac_length K pkt Hok) as [Hml Hmb]; [by eexists|]. fold tag in Hml, Hmb.
  assert (Rt : rest mb = tag ++ []) by (rewrite (holds_rest _ _ _ Hh), zdrop_app_exact, app_nil_r; done).
  destruct (read_mem_app mb tag [] (k_tag K) (holds_wf _ _ _ Hh) Rt Hml) as (E4 & _ & _).
  pose proof (holds_cut _ _ _ (zlength pkt) 0 Hh ltac:(lia) ltac:(rewrite zlength_app; lia_nonneg)) as B5.
  rewrite ztake_app_exact in B5.
  change (mbuf_set_pos (mbuf_set_end mb (zlength pkt)) 0) with
    (mbuf_set_end (mbuf_set_pos (adv mb (k_tag K)) 0) (zlength pkt)) in B5.
  destruct (hmac_rest_ok K k s _ [] pkt _ Hmac Hpos B5 eq_refl) as (t & E6 & Htm & _).
  erewrite (bind_ok get_mb) by done. cbn [snd]. rewrite (holds_pos _ _ _ Hh).
  destruct Hok as [Htag _]. unfold SHA_DIGEST_LENGTH in *.
  rewrite Z.gtb_ltb. replace (20 <? k_tag K) with false by (symmetry; apply Z.ltb_ge; lia).
  erewrite (bind_ok (guard _ _)) by done.
  rewrite (bind_ok (on_mb _) _ _ tag (s, adv mb (k_tag K))) by (unfold on_mb; cbn [snd]; by rewrite E4).
  erewrite (bind_ok get_mb) by done. cbn [snd]. erewrite (bind_ok (put_mb _)) by done. cbn [fst snd].
  rewrite (bind_ok _ _ _ _ _ E6). rewrite Htm. fold tag. rewrite bool_decide_true by done. by eexists.
Qed.

(** The index a sender uses next. *)
Definition next_index (x : srtp_stream) : Z := Z.land (u32 (rtcp_index x + 1)) 0x7fffffff.

Lemma next_index_range x : 0 <= next_index x < 2 ^ 31.
Proof. unfold next_index. apply land_bound_r; lia. Qed.

Lemma srtcp_encrypt_ok ids K s mb hdr d id (ix := next_index (stream_of s id)) :
  table_wf ids s -> id ∈ ids -> comp_has K (s_rtcp s) -> keys_ok K -> rtcp_hdr hdr id ->
  holds mb (hdr ++ d) 0 -> ample_memory -> zlength (hdr ++ d) < 2 ^ 30 ->
  exists i s' mb', srtcp_encrypt (s, mb) = (Ok tt, (s', mb'))
    /\ now RTCP ids K s id i (set_rtcp_index ix (stream_of s id)) s'
    /\ holds mb' (protect_rtcp K id ix hdr d) 0.
Proof.
  intros Ht Hid HK Hok Hr Hh Ham Hsz. unfold srtcp_encrypt. pose proof (rtcp_hdr_length _ _ Hr) as Hl8.
  pose proof (zlength_nonneg d). pose proof (next_index_range (stream_of s id)) as Hix. fold ix in Hix.
  assert (Heix : be_bytes 4 (Z.lor (u32 (Z.shiftl 1 31)) ix) = eix ix)
    by (change (u32 (Z.shiftl 1 31)) with (2 ^ 31); by rewrite lor_ebit).
  erewrite bind_ok by done. cbn [snd]. rewrite (holds_pos _ _ _ Hh).
  destruct (get_rtcp_ssrc_ok mb [] hdr d id Hr Hh) as (mb1 & E1 & B1). rewrite !app_nil_l in B1.
  rewrite (bind_ok (on_mb _) _ _ id (s, mb1)) by (unfold on_mb; cbn [snd]; by rewrite E1).
  destruct (stream_get_ok ids s id Ht Hid Ham) as (i & s1 & E2 & Ht1 & Hp1 & Hs1 & Hr1 & Hr2 & Ho1).
  rewrite (bind_ok (on_srtp _) _ _ i (s1, mb1)) by (unfold on_srtp; cbn [fst snd]; by rewrite E2).
  assert (N1 : now RTCP ids K s id i (stream_of s id) s1) by (split; try done; simpl; by rewrite Hr2).
  rewrite (bind_ok _ _ _ _ _ (now_get mb1 N1)). fold (next_index (stream_of s id)). fold ix.
  erewrite (bind_ok (strm_put i _)) by done. cbn [fst snd].
  assert (N2 := now_put _ _ _ _ _ _ _ (set_rtcp_index ix (stream_of s id)) _ N1 Hs1).
  set (s2 := set_stream i _ s1) in *. erewrite (bind_ok (comp_get _)) by done. cbn [fst snd].
  pose proof (now_comp N2) as (a & Hc & Hwf & Hk). rewrite Hc. cbn [c_aes c_mode c_hmac c_tag_len].
  assert (Ha : c_aes (get_comp RTCP s2) = Some a) by (by rewrite Hc).
  pose proof Hok as [Htag Hmode]. unfold protect_rtcp. destruct (aes_md (k_ref K)) eqn:Emd.
  - destruct Hmode as [k Hmac]. rewrite Hmac. cbn [fmap option_fmap option_map].
    destruct (crypt_ctr_ok RTCP K true id ix a s2 mb1 hdr d (now_comp N2) Ha B1) as (s3 & mb3 & E3 & F3 & B3).
    pose proof (now_frame N2 F3) as N3.
    erewrite (bind_ok (bind (crypt_ctr _ _ _ _ _) _)) by (by rewrite (bind_ok _ _ _ _ _ E3)).
    set (ct := xor_bytes _ _) in *.
    assert (Hlc : zlength ct = zlength d) by (apply xor_bytes_length, aes_stream_length; lia).
    erewrite (bind_ok get_mb) by done. cbn [snd]. erewrite (bind_ok (put_mb _)) by done. cbn [fst snd].
    rewrite (holds_end _ _ _ B3).
    pose proof (holds_set_pos _ _ _ (zlength (hdr ++ ct)) B3 ltac:(lia_nonneg)) as B4.
    destruct (holds_append_be32 _ _ (Z.lor (u32 (Z.shiftl 1 31)) ix) B4 Ham) as (mb5 & E5 & B5);
      [rewrite !zlength_app in *; lia|]. rewrite Heix in B5.
    rewrite (bind_ok _ _ _ _ _ (call_mb_ok _ s3 _ _ E5)).
    rewrite <- app_assoc in B5. set (pkt := hdr ++ ct ++ eix ix) in *.
    assert (Hlp : zlength pkt = 12 + zlength d) by (subst pkt; unfold eix; rewrite !zlength_app, zlength_be_bytes; lia).
    destruct (append_hmac_rtcp_ok K k s3 mb5 pkt _ Hok Hmac B5 Ham) as (mb9 & E9 & B9);
      [lia|rewrite zlength_app in Hsz; lia|].
    rewrite (bind_ok _ _ _ _ _ E9).
    erewrite (bind_ok get_mb) by done. cbn [snd]. exists i, s3. eexists. split; [done|]. split; [done|].
    pose proof (holds_set_pos _ _ _ 0 B9 ltac:(split; [lia|apply zlength_nonneg])) as B10.
    subst pkt. by rewrite <- !app_assoc in B10.
  - rewrite Hmode. cbn [fmap option_fmap option_map].
    assert (Heixh : host_bytes 4 (htonl (Z.lor (Z.shiftl 1 31) ix)) = eix ix).
    { rewrite host_bytes_htonl. change (Z.shiftl 1 31) with (2 ^ 31). by rewrite lor_ebit. }
    destruct (encr_gcm_ok RTCP K id ix [hdr; eix ix] a s2 mb1 hdr d (now_comp N2) Ha Emd B1 Ham ltac:(lia))
      as (s3 & mb3 & E3 & F3 & B3).
    pose proof (now_frame N2 F3) as N3. cbn [concat] in B3. rewrite app_nil_r in B3.
    erewrite (bind_ok (bind get_mb _) _ _ 1 (s3, mb3)); cycle 1.
    { erewrite (bind_ok get_mb) by done. cbn [snd]. rewrite (holds_pos _ _ _ B1), Heixh.
      rewrite Z.sub_0_r, (holds_slice _ _ _ _ _ B1) by (rewrite ?zlength_app; lia).
      rewrite zdrop_0, ztake_app_exact. by rewrite (bind_ok _ _ _ _ _ E3). }
    set (ct := xor_bytes _ _) in *.
    assert (Hlc : zlength ct = zlength d) by (apply xor_bytes_length, aes_stream_length; lia).
    set (pkt := hdr ++ ct ++ gcm_auth K id ix (hdr ++ eix ix) ct) in *.
    assert (Hlp : zlength pkt = 24 + zlength d).
    { subst pkt. unfold gcm_auth. rewrite !zlength_app, aes_tag_length. lia. }
    erewrite (bind_ok get_mb) by done. cbn [snd]. erewrite (bind_ok (put_mb _)) by done. cbn [fst snd].
    rewrite (holds_end _ _ _ B3).
    pose proof (holds_set_pos _ _ _ (zlength pkt) B3 ltac:(lia)) as B4.
    destruct (holds_append_be32 _ _ (Z.lor (u32 (Z.shiftl 1 31)) ix) B4 Ham) as (mb5 & E5 & B5);
      [rewrite zlength_app in Hsz; lia|]. rewrite Heix in B5.
    rewrite (bind_ok _ _ _ _ _ (call_mb_ok _ s3 _ _ E5)). erewrite (bind_ok (ret tt)) by done.
    erewrite (bind_ok get_mb) by done. cbn [snd]. exists i, s3. eexists. split; [done|]. split; [done|].
    pose proof (holds_set_pos _ _ _ 0 B5 ltac:(split; [lia|apply zlength_nonneg])) as B10.
    subst pkt. by rewrite <- !app_assoc in B10.
Qed.

Lemma eix_fields ix : 0 <= ix < 2 ^ 31 ->
  Z.land (Z.shiftr (wrap 32 (2 ^ 31 + ix)) 31) 1 = 1 /\ Z.land (wrap 32 (2 ^ 31 + ix)) 0x7fffffff = ix.
Proof.
  intros Hix. rewrite wrap_small by lia. split.
  - change (Z.land (Z.shiftr (2 ^ 31 + ix) 31) (Z.ones 1) = 1).
    rewrite Z.land_ones, Z.shiftr_div_pow2 by lia. Z.to_euclidean_division_equations. lia.
  - change 0x7fffffff with (Z.ones 31). rewrite Z.land_ones by lia. Z.to_euclidean_division_equations. lia.
Qed.

Lemma read_be32_holds mb pre v tl :
  holds mb (pre ++ be_bytes 4 v ++ tl) (zlength pre) ->
  exists mb', read_be32 mb = (wrap 32 v, mb') /\ holds mb' (pre ++ be_bytes 4 v ++ tl) (zlength pre + 4).
Proof.
  intros Hh. pose proof (holds_rest _ _ _ Hh) as Hr. rewrite zdrop_app_exact in Hr.
  destruct (read_be32_app mb v tl (holds_wf _ _ _ Hh) Hr) as (E2 & W2 & R2).
  exists (adv mb 4). split; [done|]. destruct Hh as [W Hc Hp]. split; [done|by rewrite content_adv|].
  unfold adv. cbn [mb_pos mbuf_set_pos]. lia.
Qed.

Lemma check_replay_rtcp_ok ids K s id i y s' mb ix ok r :
  now RTCP ids K s id i y s' -> srtp_replay_check (replay_rtcp y) ix = (ok, r) ->
  exists s'', check_replay RTCP i ix (s', mb) = ((if ok then Ok tt else Err EALREADY), (s'', mb))
    /\ now RTCP ids K s id i (set_replay_rtcp r y) s'' /\ s_rtcp s'' = s_rtcp s'.
Proof.
  intros Hn Er. unfold check_replay. rewrite (bind_ok _ _ _ _ _ (now_get mb Hn)), Er.
  erewrite bind_ok by done. eexists. split; [by destruct ok|]. split; [|done].
  eapply now_put; [done|]. simpl. by destruct Hn.
Qed.

(** The receiver of a control packet that was protected with the same keys:
    the CTR suites check the replay list, the GCM suites do not. *)
Lemma srtcp_decrypt_ok ids K s mb hdr d id ix :
  table_wf ids s -> id ∈ ids -> comp_has K (s_rtcp s) -> keys_ok K ->
  (aes_md (k_ref K) = AES_MODE_GCM -> k_tag K = 0) -> rtcp_hdr hdr id -> 0 <= ix < 2 ^ 31 ->
  holds mb (protect_rtcp K id ix hdr d) 0 -> ample_memory ->
  exists i y s' mb' res, srtcp_decrypt (s, mb) = (res, (s', mb')) /\ now RTCP ids K s id i y s' /\
    match aes_md (k_ref K) with
    | AES_MODE_CTR =>
        let r := srtp_replay_check (replay_rtcp (stream_of s id)) ix in
        replay_rtcp y = r.2 /\ if r.1 then res = Ok tt /\ holds mb' (hdr ++ d) 0 else res = Err EALREADY
    | AES_MODE_GCM => res = Ok tt /\ y = stream_of s id /\ holds mb' (hdr ++ d) 0
    end.
Proof.
  intros Ht Hid HK Hok Hgt Hr Hix Hh Ham. unfold srtcp_decrypt. pose proof (rtcp_hdr_length _ _ Hr) as Hl8.
  destruct (eix_fields ix Hix) as [Hep Hixv].
  assert (Hw : exists tl, protect_rtcp K id ix hdr d = hdr ++ tl)
    by (unfold protect_rtcp; destruct (aes_md _); by eexists).
  destruct Hw as [tl Hw]. rewrite Hw in Hh.
  erewrite bind_ok by done. cbn [snd]. rewrite (holds_pos _ _ _ Hh).
  destruct (get_rtcp_ssrc_ok mb [] hdr tl id Hr Hh) as (mb1 & E1 & B1). rewrite !app_nil_l in B1.
  rewrite (bind_ok (on_mb _) _ _ id (s, mb1)) by (unfold on_mb; cbn [snd]; by rewrite E1).
  destruct (stream_get_ok ids s id Ht Hid Ham) as (i & s1 & E2 & Ht1 & Hp1 & Hs1 & Hr1 & Hr2 & Ho1).
  rewrite (bind_ok (on_srtp _) _ _ i (s1, mb1)) by (unfold on_srtp; cbn [fst snd]; by rewrite E2).
  assert (N1 : now RTCP ids K s id i (stream_of s id) s1) by (split; try done; simpl; by rewrite Hr2).
  erewrite (bind_ok get_mb) by done. cbn [snd]. erewrite (bind_ok (comp_get _)) by done. cbn [fst snd].
  rewrite (holds_pos _ _ _ B1), (holds_get_left _ _ _ B1), (holds_end _ _ _ B1). rewrite <- Hw in B1 |- *.
  clear tl Hw E1 Hh mb. rename mb1 into mb.
  pose proof (now_comp N1) as (a & Hc & Hwf & Hk). rewrite Hc. cbn [c_aes c_mode c_hmac c_tag_len].
  assert (Ha : c_aes (get_comp RTCP s1) = Some a) by (by rewrite Hc). pose proof (zlength_nonneg d).
  pose proof Hok as [Htag Hmode]. unfold protect_rtcp in *. destruct (aes_md (k_ref K)) eqn:Emd.
  - pose proof Hmode as [k Hmac]. rewrite Hmac. cbn [fmap option_fmap option_map].
    set (ct := xor_bytes _ _) in *.
    assert (Hlc : zlength ct = zlength d) by (apply xor_bytes_length, aes_stream_length; lia).
    destruct (mac_length K (hdr ++ ct ++ eix ix)) as [Hml Hmb]; [done|done|]. set (tag := mac K _) in *.
    assert (Hle : zlength (eix ix) = 4) by apply zlength_be_bytes.
    assert (Hll : zlength (hdr ++ ct ++ eix ix ++ tag) = 12 + zlength d + k_tag K) by (rewrite !zlength_app; lia).
    replace (zlength (hdr ++ ct ++ eix ix ++ tag) - (4 + k_tag K)) with (zlength (hdr ++ ct)) by (rewrite zlength_app; lia).
    rewrite Hll. replace (_ <? 4 + k_tag K) with false by (symmetry; apply Z.ltb_ge; lia).
    erewrite (bind_ok (guard _ _)) by done. erewrite (bind_ok (put_mb _)) by done. cbn [fst snd].
    pose proof (holds_set_pos _ _ _ (zlength (hdr ++ ct)) B1 ltac:(rewrite Hll, zlength_app; lia)) as B2.
    replace (hdr ++ ct ++ eix ix ++ tag) with ((hdr ++ ct) ++ eix ix ++ tag) in B2 by (by rewrite <- app_assoc).
    destruct (read_be32_holds _ _ _ _ B2) as (mb3 & E3 & B3).
    rewrite (bind_ok (on_mb _) _ _ (wrap 32 (2 ^ 31 + ix)) (s1, mb3)) by (unfold on_mb; cbn [snd]; by rewrite E3).
    rewrite Hep, Hixv. change (be_bytes 4 (2 ^ 31 + ix)) with (eix ix) in B3.
    replace ((hdr ++ ct) ++ eix ix ++ tag) with ((hdr ++ ct ++ eix ix) ++ tag) in B3 by (by rewrite <- !app_assoc).
    set (pkt := hdr ++ ct ++ eix ix) in *.
    assert (Hlp : zlength pkt = 12 + zlength d) by (subst pkt; rewrite !zlength_app; lia).
    replace (zlength (hdr ++ ct) + 4) with (zlength pkt) in B3 by (rewrite zlength_app; lia).
    destruct (verify_hmac_rtcp_ok K k s1 mb3 pkt Hok Hmac B3 ltac:(lia)) as (mb5 & E5 & B5).
    destruct (srtp_replay_check (replay_rtcp (stream_of s id)) ix) as [ok r] eqn:Er. cbn zeta. cbn [fst snd].
    destruct (check_replay_rtcp_ok _ _ _ _ _ _ _ mb5 ix ok r N1 Er) as (s6 & E7 & N6 & Hc6).
    match goal with |- context [bind (bind (verify_hmac_rtcp ?h _ _) ?f) _ (s1, mb3)] =>
      assert (Ehm : bind (verify_hmac_rtcp h (k_tag K) 0) f (s1, mb3)
        = ((if ok then Ok tt else Err EALREADY), (s6, mb5))) by (by rewrite (bind_ok _ _ _ _ _ E5)) end.
    destruct ok.
    2:{ exists i, (set_replay_rtcp r (stream_of s id)), s6, mb5, (Err EALREADY). split; [by apply bind_err|done]. }
    rewrite (bind_ok _ _ _ _ _ Ehm). erewrite (bind_ok get_mb) by done. cbn [snd].
    erewrite (bind_ok (put_mb _)) by done. cbn [fst snd Z.eqb Pos.eqb].
    pose proof (holds_set_end _ _ _ (zlength (hdr ++ ct)) B5 ltac:(rewrite zlength_app; lia)) as B8.
    subst pkt. rewrite (app_assoc hdr ct), ztake_app_exact in B8.
    pose proof (holds_set_pos _ _ _ (zlength hdr) B8 ltac:(rewrite zlength_app; lia)) as B9.
    destruct (crypt_ctr_ok RTCP K false id ix a s6 _ hdr ct (now_comp N6) ltac:(cbn; by rewrite Hc6) B9)
      as (s10 & mb10 & E10 & F10 & B10).
    rewrite (bind_ok (bind get_mb _) _ _ tt (s10, mb10)).
    2:{ erewrite (bind_ok get_mb) by done. cbn [snd]. erewrite (bind_ok (put_mb _)) by done. exact E10. }
    erewrite (bind_ok get_mb) by done. cbn [snd]. exists i, (set_replay_rtcp r (stream_of s id)), s10.
    eexists. eexists. split; [done|]. split; [by eapply now_frame|]. split; [done|]. split; [done|].
    replace (xor_bytes ct (ctr_stream K id ix (zlength ct))) with d in B10.
    2:{ subst ct. rewrite Hlc. symmetry. apply xor_bytes_involutive, aes_stream_length. lia. }
    eapply holds_set_pos; [exact B10|]. rewrite zlength_app. lia.
  - rewrite Hmode, Hgt by done. cbn [fmap option_fmap option_map].
    set (ct := xor_bytes _ _) in *. set (tag := gcm_auth _ _ _ _ _) in *.
    assert (Hlc : zlength ct = zlength d) by (apply xor_bytes_length, aes_stream_length; lia).
    assert (Hlt : zlength tag = 16) by apply aes_tag_length.
    assert (Hle : zlength (eix ix) = 4) by apply zlength_be_bytes.
    set (pkt := hdr ++ ct ++ tag) in *.
    replace (hdr ++ ct ++ tag ++ eix ix) with (pkt ++ eix ix) in * by (subst pkt; by rewrite <- !app_assoc).
    assert (Hlp : zlength pkt = 24 + zlength d) by (subst pkt; rewrite !zlength_app; lia).
    rewrite zlength_app. replace (_ <? 4 + 0) with false by (symmetry; apply Z.ltb_ge; lia).
    replace (zlength pkt + zlength (eix ix) - (4 + 0)) with (zlength pkt) by lia.
    erewrite (bind_ok (guard _ _)) by done. erewrite (bind_ok (put_mb _)) by done. cbn [fst snd].
    pose proof (holds_set_pos _ _ _ (zlength pkt) B1 ltac:(rewrite zlength_app; lia)) as B2.
    rewrite <- (app_nil_r (eix ix)) in B2.
    destruct (read_be32_holds _ _ _ _ B2) as (mb3 & E3 & B3).
    rewrite (bind_ok (on_mb _) _ _ (wrap 32 (2 ^ 31 + ix)) (s1, mb3)) by (unfold on_mb; cbn [snd]; by rewrite E3).
    rewrite Hep, Hixv. erewrite (bind_ok (ret tt)) by done. erewrite (bind_ok get_mb) by done. cbn [snd].
    erewrite (bind_ok (put_mb _)) by done. cbn [fst snd Z.eqb Pos.eqb].
    change (be_bytes 4 (2 ^ 31 + ix)) with (eix ix) in B3. rewrite app_nil_r in B3.
    pose proof (holds_cut _ _ _ (zlength pkt) (zlength hdr) B3 ltac:(lia) ltac:(rewrite zlength_app; lia)) as B4.
    rewrite ztake_app_exact in B4. subst pkt.
    destruct (decr_gcm_cases RTCP K id ix [hdr; eix ix] a s1 (mbuf_set_end mb3 (zlength (hdr ++ ct ++ tag))) hdr ct tag
      (now_comp N1) Ha Emd B4 Hlt) as (s5 & mb5 & F5 & B5).
    cbn [concat] in B5. rewrite app_nil_r, decide_True in B5 by done. destruct B5 as [E5 B5].
    rewrite (bind_ok (bind get_mb _) _ _ tt (s5, mb5)).
    2:{ erewrite (bind_ok get_mb) by done. cbn [snd].
        replace (mb_slice (mbuf_set_end mb3 _) 0 (zlength hdr - 0)) with hdr.
        2:{ change (mb_slice (mbuf_set_end ?m ?q) ?f ?n) with (mb_slice m f n).
            rewrite Z.sub_0_r, (holds_slice _ _ _ _ _ B3) by (rewrite ?zlength_app; lia).
            by rewrite <- app_assoc, zdrop_0, ztake_app_exact. }
        replace (mb_slice (mbuf_set_end mb3 _) (zlength (hdr ++ ct ++ tag)) 4) with (eix ix); [exact E5|].
        change (mb_slice (mbuf_set_end ?m ?q) ?f ?n) with (mb_slice m f n).
        rewrite (holds_slice _ _ _ _ _ B3), zdrop_app_exact, ztake_ge by (rewrite ?zlength_app; lia). done. }
    erewrite (bind_ok get_mb) by done. cbn [snd]. exists i, (stream_of s id), s5.
    eexists. eexists. split; [done|]. split; [by eapply now_frame|]. split; [done|]. split; [done|].
    replace (xor_bytes ct (gcm_stream K id ix (zlength ct))) with d in B5.
    2:{ subst ct. rewrite Hlc. symmetry. apply xor_bytes_involutive, aes_stream_length. lia. }
    eapply holds_set_pos; [exact B5|]. rewrite zlength_app. lia.
Qed.

(** Two ends with the same keys for RTCP. *)
Record rtcp_end (ids : list Z) (K : keys) (s : srtp) : Prop := {
  re_table : table_wf ids s;
  re_comp : comp_has K (s_rtcp s);
  re_keys : keys_ok K;
  re_gcm : aes_md (k_ref K) = AES_MODE_GCM -> k_tag K = 0;
}.

Lemma bytes_prefix_holds hdr d : bytes (hdr ++ d) -> zlength (hdr ++ d) < 2 ^ 30 -> holds (rcv_buf (hdr ++ d)) (hdr ++ d) 0.
Proof. intros. apply rcv_buf_holds; [done|]. unfold MEM_SIZE_MAX. lia. Qed.

Lemma zlength_protect_rtcp K id ix hdr d :
  keys_ok K -> rtcp_hdr hdr id -> zlength (protect_rtcp K id ix hdr d) <= zlength (hdr ++ d) + 24.
Proof.
  intros Hok Hr. pose proof (zlength_nonneg d). pose proof Hok as [Htag Hmode]. unfold protect_rtcp, eix, gcm_auth.
  unfold SHA_DIGEST_LENGTH in *. destruct (aes_md _).
  - destruct (mac_length K (hdr ++ xor_bytes d (ctr_stream K id ix (zlength d)) ++ be_bytes 4 (2 ^ 31 + ix)) Hok Hmode) as [Hm _].
    rewrite !zlength_app, Hm, zlength_be_bytes, xor_bytes_length by (by apply aes_stream_length). lia.
  - rewrite !zlength_app, aes_tag_length, zlength_be_bytes, xor_bytes_length by (by apply aes_stream_length). lia.
Qed.

(** A control packet that is protected by srtcp_encrypt comes out of the
    srtcp_decrypt of the other end unchanged, and the sender's 31-bit index
    advances modulo 2^31.  With an HMAC suite the index must be new to the
    receiver's replay list. *)
Theorem srtcp_roundtrip ids K tx rx hdr d id :
  rtcp_end ids K tx -> rtcp_end ids K rx -> id ∈ ids -> rtcp_hdr hdr id -> ample_memory ->
  bytes (hdr ++ d) -> zlength (hdr ++ d) < 2 ^ 30 ->
  (aes_md (k_ref K) = AES_MODE_CTR ->
   (srtp_replay_check (replay_rtcp (stream_of rx id)) (next_index (stream_of tx id))).1 = true) ->
  exists tx' mb rx' mb', srtcp_encrypt (tx, rcv_buf (hdr ++ d)) = (Ok tt, (tx', mb))
    /\ rtcp_index (stream_of tx' id) = next_index (stream_of tx id)
    /\ srtcp_decrypt (rx, rcv_buf (rest mb)) = (Ok tt, (rx', mb')) /\ rest mb' = hdr ++ d.
Proof.
  intros [Ttx Ktx Hok Hg] [Trx Krx _ _] Hid Hr Ham Hb Hl Hrep. set (ix := next_index (stream_of tx id)) in *.
  destruct (srtcp_encrypt_ok ids K tx _ hdr d id Ttx Hid Ktx Hok Hr (bytes_prefix_holds _ _ Hb Hl) Ham Hl)
    as (i & tx' & mb & E1 & N1 & B1). fold ix in N1, B1.
  pose proof (zlength_protect_rtcp K id ix hdr d Hok Hr) as Hlp.
  assert (B2 : holds (rcv_buf (protect_rtcp K id ix hdr d)) (protect_rtcp K id ix hdr d) 0).
  { apply rcv_buf_holds; [by eapply holds_bytes|]. unfold MEM_SIZE_MAX. lia. }
  destruct (srtcp_decrypt_ok ids K rx _ hdr d id ix Trx Hid Krx Hok Hg Hr (next_index_range _) B2 Ham)
    as (j & y & rx' & mb' & r & E2 & N2 & C2).
  exists tx', mb, rx', mb'. rewrite (holds_rest _ _ _ B1), zdrop_0, (now_stream_of N1). split; [done|]. split; [done|].
  destruct (aes_md (k_ref K)) eqn:Emd.
  - cbn zeta in C2. rewrite (Hrep eq_refl) in C2. destruct C2 as (_ & -> & B3). by rewrite E2, (holds_rest _ _ _ B3), zdrop_0.
  - destruct C2 as (-> & _ & B3). by rewrite E2, (holds_rest _ _ _ B3), zdrop_0.
Qed.

(** A packet whose E bit is clear, under a GCM suite. *)
Lemma srtcp_clear_ebit ids K s hdr d id ix :
  rtcp_end ids K s -> aes_md (k_ref K) = AES_MODE_GCM -> id ∈ ids -> rtcp_hdr hdr id -> 0 <= ix < 2 ^ 31 ->
  ample_memory -> bytes hdr -> bytes d -> zlength (hdr ++ d) < 2 ^ 30 ->
  exists s' mb', srtcp_decrypt (s, rcv_buf (hdr ++ d ++ be_bytes 4 ix)) = (Ok tt, (s', mb')) /\ rest mb' = hdr ++ d.
Proof.
  intros [Ht HK Hok Hg] Hgcm Hid Hr Hix Ham Hbh Hbd Hl. pose proof (rtcp_hdr_length _ _ Hr) as Hl8.
  pose proof (zlength_nonneg d).
  assert (Hle : zlength (be_bytes 4 ix) = 4) by apply zlength_be_bytes.
  assert (Hh : holds (rcv_buf (hdr ++ d ++ be_bytes 4 ix)) ([] ++ hdr ++ d ++ be_bytes 4 ix) 0).
  { apply rcv_buf_holds; [rewrite !bytes_app; auto with relib|]. unfold MEM_SIZE_MAX. rewrite app_nil_l, !zlength_app in *. lia. }
  unfold srtcp_decrypt. erewrite bind_ok by done. cbn [snd]. rewrite (holds_pos _ _ _ Hh).
  destruct (get_rtcp_ssrc_ok _ [] hdr _ id Hr Hh) as (mb1 & E1 & B1). rewrite !app_nil_l in B1.
  rewrite (bind_ok (on_mb _) _ _ id (s, mb1)) by (unfold on_mb; cbn [snd]; by rewrite E1).
  destruct (stream_get_ok ids s id Ht Hid Ham) as (i & s1 & E2 & _ & _ & _ & _ & Hr2 & _).
  rewrite (bind_ok (on_srtp _) _ _ i (s1, mb1)) by (unfold on_srtp; cbn [fst snd]; by rewrite E2).
  erewrite (bind_ok get_mb) by done. cbn [snd]. erewrite (bind_ok (comp_get _)) by done. cbn [fst snd get_comp].
  rewrite (holds_pos _ _ _ B1), (holds_get_left _ _ _ B1), (holds_end _ _ _ B1), Hr2.
  destruct HK as (a & -> & _). destruct Hok as [_ Hmode]. rewrite Hgcm in Hmode |- *. rewrite Hmode, Hg by done.
  cbn [c_aes c_mode c_hmac c_tag_len fmap option_fmap option_map].
  rewrite app_assoc in B1 |- *. set (pkt := hdr ++ d) in *. rewrite zlength_app, Hle, Hl8.
  assert (Hlp : zlength pkt = 8 + zlength d) by (subst pkt; rewrite zlength_app; lia).
  replace (_ <? 4 + 0) with false by (symmetry; apply Z.ltb_ge; lia).
  replace (zlength pkt + 4 - (4 + 0)) with (zlength pkt) by lia.
  erewrite (bind_ok (guard _ _)) by done. erewrite (bind_ok (put_mb _)) by done. cbn [fst snd].
  pose proof (holds_set_pos _ _ _ (zlength pkt) B1 ltac:(rewrite zlength_app; lia)) as B2.
  rewrite <- (app_nil_r (be_bytes 4 ix)) in B2.
  destruct (read_be32_holds _ _ _ _ B2) as (mb3 & E3 & B3). rewrite app_nil_r in B3.
  rewrite (bind_ok (on_mb _) _ _ (wrap 32 ix) (s1, mb3)) by (unfold on_mb; cbn [snd]; by rewrite E3).
  rewrite wrap_small by lia. erewrite (bind_ok (ret tt)) by done. erewrite (bind_ok get_mb) by done. cbn [snd].
  erewrite (bind_ok (put_mb _)) by done. cbn [fst snd].
  rewrite Z.shiftr_div_pow2, Z.div_small, Z.land_0_l by lia. cbn [Z.eqb].
  erewrite (bind_ok (ret tt)) by done. erewrite (bind_ok get_mb) by done. cbn [snd]. do 2 eexists. split; [done|].
  pose proof (holds_cut _ _ _ (zlength pkt) 0 B3 ltac:(lia) ltac:(rewrite zlength_app; lia)) as B4.
  rewrite ztake_app_exact in B4. by rewrite (holds_rest _ _ _ B4), zdrop_0.
Qed.

(** With a GCM suite, control packets have no replay protection and no
    mandatory authentication.  A protected packet is accepted again and again;
    and a packet whose E bit is clear is accepted whatever it contains, without
    the cipher or any key being used. *)
Theorem srtcp_gcm_unprotected ids K s hdr d id ix :
  rtcp_end ids K s -> aes_md (k_ref K) = AES_MODE_GCM -> id ∈ ids -> rtcp_hdr hdr id -> 0 <= ix < 2 ^ 31 ->
  ample_memory -> bytes (hdr ++ d) -> zlength (hdr ++ d) < 2 ^ 30 ->
  (exists s1 mb1 s2 mb2,
     srtcp_decrypt (s, rcv_buf (protect_rtcp K id ix hdr d)) = (Ok tt, (s1, mb1)) /\
     srtcp_decrypt (s1, rcv_buf (protect_rtcp K id ix hdr d)) = (Ok tt, (s2, mb2)))
  /\ exists s' mb', srtcp_decrypt (s, rcv_buf (hdr ++ d ++ be_bytes 4 ix)) = (Ok tt, (s', mb')) /\ rest mb' = hdr ++ d.
Proof.
  intros Hend Hgcm Hid Hr Hix Ham Hb Hl. rewrite bytes_app in Hb. destruct Hb as [Hbh Hbd].
  split; [|by eapply srtcp_clear_ebit]. destruct Hend as [Ht HK Hok Hg].
  pose proof (zlength_protect_rtcp K id ix hdr d Hok Hr) as Hlp.
  assert (B2 : holds (rcv_buf (protect_rtcp K id ix hdr d)) (protect_rtcp K id ix hdr d) 0).
  { apply rcv_buf_holds; [|unfold MEM_SIZE_MAX; lia].
    unfold protect_rtcp, eix, gcm_auth, gcm_stream. rewrite Hgcm, !bytes_app. auto 10 with relib. }
  destruct (srtcp_decrypt_ok ids K s _ hdr d id ix Ht Hid HK Hok Hg Hr Hix B2 Ham) as (i & y & s1 & mb1 & r1 & E1 & N1 & C1).
  destruct (srtcp_decrypt_ok ids K s1 _ hdr d id ix (now_table N1) Hid (now_comp N1) Hok Hg Hr Hix B2 Ham)
    as (j & z & s2 & mb2 & r2 & E2 & N2 & C2).
  rewrite Hgcm in C1, C2. destruct C1 as (-> & _), C2 as (-> & _). by exists s1, mb1, s2, mb2.
Qed.
End Srtcp.

(** ** Concrete control packets *)

#[local] Existing Instance lp64_le.

(** The RTCP half of the sample session, and the same with a GCM suite. *)
Definition rtcp_keys (s : srtp) : keys :=
  let c := s_rtcp s in
  Keys (default (k_ref sample_keys) (c_aes c)) (hmac_key <$> c_hmac c) (c_k_s c) (c_tag_len c).

Definition sample_gcm : srtp (E := toy_evp) :=
  match srtp_alloc SRTP_AES_128_GCM (seqZ 0 28) 0 with
  | Ok s => s
  | Err _ => sample_srtp
  end.

Definition sample_rr : list Z := [128; 201; 0; 1] ++ be_bytes 4 77.

Lemma sample_rr_hdr : rtcp_hdr sample_rr 77.
Proof. split; [by eexists|by_compute]. Qed.

Lemma sample_rtcp_end s :
  s_streaml s = [] -> keys_ok (rtcp_keys s) -> comp_has (rtcp_keys s) (s_rtcp s) ->
  (aes_md (k_ref (rtcp_keys s)) = AES_MODE_GCM -> k_tag (rtcp_keys s) = 0) -> rtcp_end [77] (rtcp_keys s) s.
Proof. intros Es Hk Hc Hg. split; try done. apply table_empty; [done|vm_compute; congruence]. Qed.

Lemma sample_srtp_end : rtcp_end [77] (rtcp_keys sample_srtp) sample_srtp.
Proof.
  apply sample_rtcp_end; [vm_compute; reflexivity| | |].
  - split; [vm_compute; split; congruence|]. vm_compute. by eexists.
  - exists (k_ref (rtcp_keys sample_srtp)). split; [vm_cast_no_check (eq_refl (s_rtcp sample_srtp))|].
    split; [split; vm_cast_no_check (eq_refl true)|done].
  - vm_compute. discriminate.
Qed.

Lemma sample_gcm_end : rtcp_end [77] (rtcp_keys sample_gcm) sample_gcm.
Proof.
  apply sample_rtcp_end; [vm_compute; reflexivity| | |].
  - split; [vm_compute; split; congruence|]. vm_compute. reflexivity.
  - exists (k_ref (rtcp_keys sample_gcm)). split; [vm_cast_no_check (eq_refl (s_rtcp sample_gcm))|].
    split; [split; vm_cast_no_check (eq_refl true)|done].
  - reflexivity.
Qed.

Lemma sample_rr_bytes : bytes (sample_rr ++ [1; 2; 3; 4]).
Proof. vm_compute. repeat constructor; congruence. Qed.

Lemma srtcp_roundtrip_witness :
  exists tx' mb rx' mb', srtcp_encrypt (sample_srtp, rcv_buf (sample_rr ++ [1; 2; 3; 4])) = (Ok tt, (tx', mb))
    /\ srtcp_decrypt (sample_srtp, rcv_buf (rest mb)) = (Ok tt, (rx', mb')) /\ rest mb' = sample_rr ++ [1; 2; 3; 4].
Proof.
  destruct (srtcp_roundtrip [77] (rtcp_keys sample_srtp) sample_srtp sample_srtp sample_rr [1; 2; 3; 4] 77
    sample_srtp_end sample_srtp_end ltac:(apply elem_of_cons; by left) sample_rr_hdr lp64_ample sample_rr_bytes
    ltac:(vm_compute; reflexivity) ltac:(intros _; vm_compute; reflexivity)) as (tx' & mb & rx' & mb' & E1 & _ & E2 & R2).
  exists tx', mb, rx', mb'. split; [exact E1|]. split; [exact E2|exact R2].
Defined.

Lemma srtcp_gcm_unprotected_witness :
  exists s' mb', srtcp_decrypt (sample_gcm, rcv_buf (sample_rr ++ [1; 2; 3; 4] ++ be_bytes 4 9)) = (Ok tt, (s', mb'))
    /\ rest mb' = sample_rr ++ [1; 2; 3; 4].
Proof.
  exact (proj2 (srtcp_gcm_unprotected [77] (rtcp_keys sample_gcm) sample_gcm sample_rr [1; 2; 3; 4] 77 9
    sample_gcm_end ltac:(vm_compute; reflexivity) ltac:(apply elem_of_cons; by left) sample_rr_hdr ltac:(lia) lp64_ample
    sample_rr_bytes ltac:(vm_compute; reflexivity))).
Defined.
