(* ===== verification/Stun.v ===== *)
(** * STUN messages: src/src/stun/hdr.c, addr.c, attr.c and msg.c

    The codec of STUN (RFC 5389) with its attributes, message integrity and
    fingerprint.  The union of [struct stun_attr] is [stun_val]; which member is
    in use follows from the attribute type ([attr_kind], the grouping of the
    two switch statements).  Loops take fuel: [None] is a loop that has not
    ended.  HMAC-SHA1 is OpenSSL's ([Class Evp]). *)

From stdpp Require Import base list numbers.
From Stdlib Require Import ZArith Lia.
From S2P Require Import Prelude Endian Mbuf MbufView Crypto Crc32 Sa.

Open Scope Z_scope.

Definition STUN_HEADER_SIZE : Z := 20.
Definition STUN_TID_SIZE : Z := 12.
Definition STUN_MAGIC_COOKIE : Z := 0x2112a442.
Definition STUN_AF_IPv4 : Z := 1.
Definition STUN_AF_IPv6 : Z := 2.
Definition MI_SIZE : Z := 24.
Definition FP_SIZE : Z := 8.

Definition STUN_ATTR_MAPPED_ADDR : Z := 0x0001.
Definition STUN_ATTR_CHANGE_REQ : Z := 0x0003.
Definition STUN_ATTR_USERNAME : Z := 0x0006.
Definition STUN_ATTR_MSG_INTEGRITY : Z := 0x0008.
Definition STUN_ATTR_ERR_CODE : Z := 0x0009.
Definition STUN_ATTR_UNKNOWN_ATTR : Z := 0x000a.
Definition STUN_ATTR_CHANNEL_NUMBER : Z := 0x000c.
Definition STUN_ATTR_LIFETIME : Z := 0x000d.
Definition STUN_ATTR_XOR_PEER_ADDR : Z := 0x0012.
Definition STUN_ATTR_DATA : Z := 0x0013.
Definition STUN_ATTR_REALM : Z := 0x0014.
Definition STUN_ATTR_NONCE : Z := 0x0015.
Definition STUN_ATTR_XOR_RELAY_ADDR : Z := 0x0016.
Definition STUN_ATTR_REQ_ADDR_FAMILY : Z := 0x0017.
Definition STUN_ATTR_EVEN_PORT : Z := 0x0018.
Definition STUN_ATTR_REQ_TRANSPORT : Z := 0x0019.
Definition STUN_ATTR_DONT_FRAGMENT : Z := 0x001a.
Definition STUN_ATTR_XOR_MAPPED_ADDR : Z := 0x0020.
Definition STUN_ATTR_RSV_TOKEN : Z := 0x0022.
Definition STUN_ATTR_PRIORITY : Z := 0x0024.
Definition STUN_ATTR_USE_CAND : Z := 0x0025.
Definition STUN_ATTR_PADDING : Z := 0x0026.
Definition STUN_ATTR_RESP_PORT : Z := 0x0027.
Definition STUN_ATTR_SOFTWARE : Z := 0x8022.
Definition STUN_ATTR_ALT_SERVER : Z := 0x8023.
Definition STUN_ATTR_FINGERPRINT : Z := 0x8028.
Definition STUN_ATTR_CONTROLLED : Z := 0x8029.
Definition STUN_ATTR_CONTROLLING : Z := 0x802a.
Definition STUN_ATTR_RESP_ORIGIN : Z := 0x802b.
Definition STUN_ATTR_OTHER_ADDR : Z := 0x802c.

(** The macros of stun.h. *)
Definition STUN_TYPE (method class : Z) : Z :=
  Z.lor (Z.lor (Z.lor (Z.lor (Z.shiftl (Z.land method 0x0f80) 2) (Z.shiftl (Z.land method 0x0070) 1))
    (Z.shiftl (Z.land method 0x000f) 0)) (Z.shiftl (Z.land class 2) 7)) (Z.shiftl (Z.land class 1) 4).
Definition STUN_CLASS (type : Z) : Z := Z.land (Z.lor (Z.shiftr type 7) (Z.shiftr type 4)) 3.
Definition STUN_METHOD (type : Z) : Z :=
  Z.lor (Z.lor (Z.shiftr (Z.land type 0x3e00) 2) (Z.shiftr (Z.land type 0x00e0) 1)) (Z.land type 0x000f).

Record stun_hdr := StunHdr { hdr_type : Z; hdr_len : Z; hdr_cookie : Z; hdr_tid : list Z }.

(** The union of struct stun_attr.  [VStr] and the reason of [VErrCode] are
    the memory of the string, with its terminator; [VUnknown] holds the first
    [typec] entries; in [VMb] the buffer is [None] when it is the one that is
    being written. *)
Inductive stun_val :=
  | VSa (a : sa)
  | VChangeReq (ip port : bool)
  | VStr (s : list Z)
  | VMi (d : list Z)
  | VErrCode (code : Z) (reason : list Z)
  | VUnknown (typev : list Z)
  | VU8 (n : Z)
  | VU16 (n : Z)
  | VU32 (n : Z)
  | VU64 (n : Z)
  | VMb (m : option mbuf)
  | VEvenPort (r : bool)
  | VNone.

Record stun_attr := StunAttr { attr_type : Z; attr_v : stun_val }.

Record stun_msg := StunMsg { msg_hdr : stun_hdr; msg_attrl : list stun_attr; msg_mb : mbuf; msg_start : Z }.

Inductive kind := KAddr | KXorAddr | KChangeReq | KStr | KMi | KErrCode | KUnknown | KU16 | KU32 | KMbuf
  | KU8 | KEvenPort | KNone | KU64 | KOther.

Definition attr_kind (type : Z) : kind :=
  let one_of l := existsb (Z.eqb type) l in
  if one_of [STUN_ATTR_MAPPED_ADDR; STUN_ATTR_ALT_SERVER; STUN_ATTR_RESP_ORIGIN; STUN_ATTR_OTHER_ADDR] then KAddr
  else if one_of [STUN_ATTR_XOR_PEER_ADDR; STUN_ATTR_XOR_RELAY_ADDR; STUN_ATTR_XOR_MAPPED_ADDR] then KXorAddr
  else if one_of [STUN_ATTR_CHANGE_REQ] then KChangeReq
  else if one_of [STUN_ATTR_USERNAME; STUN_ATTR_REALM; STUN_ATTR_NONCE; STUN_ATTR_SOFTWARE] then KStr
  else if one_of [STUN_ATTR_MSG_INTEGRITY] then KMi
  else if one_of [STUN_ATTR_ERR_CODE] then KErrCode
  else if one_of [STUN_ATTR_UNKNOWN_ATTR] then KUnknown
  else if one_of [STUN_ATTR_CHANNEL_NUMBER; STUN_ATTR_RESP_PORT] then KU16
  else if one_of [STUN_ATTR_LIFETIME; STUN_ATTR_PRIORITY; STUN_ATTR_FINGERPRINT] then KU32
  else if one_of [STUN_ATTR_DATA; STUN_ATTR_PADDING] then KMbuf
  else if one_of [STUN_ATTR_REQ_ADDR_FAMILY; STUN_ATTR_REQ_TRANSPORT] then KU8
  else if one_of [STUN_ATTR_EVEN_PORT] then KEvenPort
  else if one_of [STUN_ATTR_DONT_FRAGMENT; STUN_ATTR_USE_CAND] then KNone
  else if one_of [STUN_ATTR_RSV_TOKEN; STUN_ATTR_CONTROLLED; STUN_ATTR_CONTROLLING] then KU64
  else KOther.

(** strlen: the characters before the terminator. *)
Fixpoint cstr (s : list Z) : list Z :=
  match s with
  | [] => []
  | c :: s => if c =? 0 then [] else c :: cstr s
  end.

Section Stun.
Context `{H : Host} `{E : Evp}.

(** ** hdr.c *)

Definition stun_hdr_encode (hdr : stun_hdr) : mbuf -> Z * mbuf :=
  write_be16 (Z.land (hdr_type hdr) 0x3fff)
  ;| write_be16 (hdr_len hdr)
  ;| write_be32 (hdr_cookie hdr)
  ;| (fun mb => mbuf_write_mem mb (hdr_tid hdr)).

Definition stun_hdr_decode (mb : mbuf) : res stun_hdr * mbuf :=
  if mbuf_get_left mb <? STUN_HEADER_SIZE then (Err EBADMSG, mb)
  else
    let '(type, mb) := read_be16 mb in
    if negb (Z.land type 0xc000 =? 0) then (Err EBADMSG, mb)
    else
      let '(len, mb) := read_be16 mb in
      if negb (Z.land len 3 =? 0) then (Err EBADMSG, mb)
      else
        let '(cookie, mb) := read_be32 mb in
        let '(_, tid, mb) := mbuf_read_mem mb STUN_TID_SIZE in
        if mbuf_get_left mb <? len then (Err EBADMSG, mb)
        else (Ok (StunHdr type len cookie tid), mb).

(** ** addr.c *)

Definition in6_xor_tid (in6 tid : list Z) : list Z :=
  zip_with Z.lxor in6 ([0x21; 0x12; 0xa4; 0x42] ++ tid).

(** [tid] is [None] for the addresses that are not masked. *)
Definition stun_addr_encode (addr : sa) (tid : option (list Z)) : mbuf -> Z * mbuf :=
  let port := match tid with
              | Some _ => u16 (Z.lxor (sa_port addr) (Z.shiftr STUN_MAGIC_COOKIE 16))
              | None => sa_port addr
              end in
  if sa_af addr =? AF_INET then
    let addr4 := match tid with Some _ => Z.lxor (sa_in addr) STUN_MAGIC_COOKIE | None => sa_in addr end in
    mbuf_write_u8 0 ;| mbuf_write_u8 STUN_AF_IPv4 ;| write_be16 port ;| write_be32 addr4
  else if sa_af addr =? AF_INET6 then
    let addr6 := match tid with Some tid => in6_xor_tid (sa_in6 addr) tid | None => sa_in6 addr end in
    mbuf_write_u8 0 ;| mbuf_write_u8 STUN_AF_IPv6 ;| write_be16 port ;| (fun mb => mbuf_write_mem mb addr6)
  else fun mb => (EAFNOSUPPORT, mb).

(** Functions of mbuf.c in the monad of decoders. *)
Definition rd {A} (f : mbuf -> A * mbuf) : M mbuf A := fun mb => let '(a, mb) := f mb in (Ok a, mb).
Definition left_ge (n : Z) : M mbuf unit := fun mb => guard (negb (mbuf_get_left mb <? n)) EBADMSG mb.
Definition rd_mem (n : Z) : M mbuf (list Z) := fun mb =>
  let '(err, d, mb) := mbuf_read_mem mb n in (if err =? 0 then Ok d else Err err, mb).
Definition move (n : Z) : M mbuf unit := fun mb => (Ok tt, mbuf_advance mb n).

Definition stun_addr_decode (tid : option (list Z)) : M mbuf sa :=
  let! _ := left_ge 4 in
  let! _ := rd mbuf_read_u8 in
  let! family := rd mbuf_read_u8 in
  let! port := rd read_be16 in
  let port := match tid with Some _ => Z.lxor port (Z.shiftr STUN_MAGIC_COOKIE 16) | None => port end in
  if family =? STUN_AF_IPv4 then
    let! _ := left_ge 4 in
    let! addr4 := rd read_be32 in
    ret (sa_set_in (match tid with Some _ => Z.lxor addr4 STUN_MAGIC_COOKIE | None => addr4 end) port)
  else if family =? STUN_AF_IPv6 then
    let! _ := left_ge 16 in
    let! addr6 := rd_mem 16 in
    ret (sa_set_in6 (match tid with Some tid => in6_xor_tid addr6 tid | None => addr6 end) port)
  else throw EAFNOSUPPORT.

(** ** attr.c *)

Definition str_decode (len : Z) : M mbuf (list Z) :=
  let! _ := left_ge len in
  fun mb => let '(err, s, mb) := mbuf_strdup mb len in
            (match s with Some s => if err =? 0 then Ok s else Err err | None => Err err end, mb).

(** The member of the union that belongs to the type; a caller that passes
    another one is outside the contract of stun_attr_encode. *)
Definition as_sa (v : stun_val) : sa := match v with VSa a => a | _ => SaOther AF_UNSPEC end.
Definition as_str (v : stun_val) : list Z := match v with VStr s => s | _ => [] end.
Definition as_num (v : stun_val) : Z := match v with VU8 n | VU16 n | VU32 n | VU64 n => n | _ => 0 end.

Definition attr_body (type : Z) (v : stun_val) (tid : option (list Z)) : mbuf -> Z * mbuf :=
  match attr_kind type with
  | KAddr => stun_addr_encode (as_sa v) None
  | KXorAddr => stun_addr_encode (as_sa v) tid
  | KChangeReq =>
      let '(ip, port) := match v with VChangeReq ip port => (ip, port) | _ => (false, false) end in
      write_be32 (Z.lor (Z.shiftl (Z.b2z ip) 2) (Z.shiftl (Z.b2z port) 1))
  | KStr => mbuf_write_str (cstr (as_str v))
  | KMi => fun mb => mbuf_write_mem mb (match v with VMi d => ztake 20 d | _ => [] end)
  | KErrCode =>
      let '(code, reason) := match v with VErrCode c r => (c, r) | _ => (0, []) end in
      mbuf_write_u16 0 ;| mbuf_write_u8 (code / 100) ;| mbuf_write_u8 (code mod 100)
      ;| mbuf_write_str (cstr reason)
  | KUnknown => for_each_or write_be16 (match v with VUnknown l => l | _ => [] end)
  | KU16 => write_be16 (as_num v) ;| mbuf_write_u16 0
  | KU32 => write_be32 (as_num v)
  | KMbuf => fun mb =>
      match v with
      | VMb (Some mbd) =>
          match mb_buf mbd with
          | None => (EINVAL, mb)
          | Some _ => mbuf_write_mem mb (ztake (mbuf_get_left mbd) (mbuf_buf mbd))
          end
      | _ => (0, mbuf_skip_to_end mb)
      end
  | KU8 => mbuf_write_u8 (as_num v) ;| mbuf_write_u8 0 ;| mbuf_write_u16 0
  | KEvenPort => mbuf_write_u8 (u8 (Z.shiftl (match v with VEvenPort r => Z.b2z r | _ => 0 end) 7))
  | KNone => ret_ok
  | KU64 => write_be64 (as_num v)
  | KOther => fun mb => (EINVAL, mb)
  end.

Definition stun_attr_encode (fuel : nat) (type : Z) (v : stun_val) (tid : option (list Z)) (padding : Z)
  (mb : mbuf) : option (Z * mbuf) :=
  let mb := mbuf_set_pos mb (u64 (mb_pos mb + 4)) in
  let start := mb_pos mb in
  let '(err, mb) := attr_body type v tid mb in
  let len := u64 (mb_pos mb - start) in
  let mb := mbuf_set_pos mb (u64 (start - 4)) in
  let '(err', mb) := (write_be16 type ;| write_be16 (u16 len)) mb in
  let mb := mbuf_set_pos mb (u64 (mb_pos mb + len)) in
  align_loop fuel padding start (Z.lor err err') mb.

(** [for (i=0; i<len/2; i++)]: every entry is read. *)
Fixpoint read_types (n : nat) : M mbuf (list Z) :=
  match n with
  | O => ret []
  | S n => let! type := rd read_be16 in let! l := read_types n in ret (type :: l)
  end.

Definition decode_body (type len : Z) (tid : list Z) : M mbuf stun_val :=
  let need b := guard b EBADMSG in
  match attr_kind type with
  | KAddr => let! a := stun_addr_decode None in ret (VSa a)
  | KXorAddr => let! a := stun_addr_decode (Some tid) in ret (VSa a)
  | KChangeReq =>
      let! _ := need (len =? 4) in
      let! n := rd read_be32 in
      ret (VChangeReq (Z.land (Z.shiftr n 2) 1 =? 1) (Z.land (Z.shiftr n 1) 1 =? 1))
  | KStr => let! s := str_decode len in ret (VStr s)
  | KMi => let! _ := need (len =? 20) in let! d := rd_mem 20 in ret (VMi d)
  | KErrCode =>
      let! _ := need (negb (len <? 4)) in
      let! _ := move 2 in
      let! hi := rd mbuf_read_u8 in
      let! lo := rd mbuf_read_u8 in
      let! s := str_decode (len - 4) in
      ret (VErrCode (u16 (Z.land hi 7 * 100 + lo)) s)
  | KUnknown => let! l := read_types (Z.to_nat (len / 2)) in ret (VUnknown (ztake 8 l))
  | KU16 => let! _ := need (negb (len <? 2)) in let! n := rd read_be16 in ret (VU16 n)
  | KU32 => let! _ := need (len =? 4) in let! n := rd read_be32 in ret (VU32 n)
  | KMbuf => fun mb =>
      let stop := u64 (mb_pos mb + len) in
      (Ok (VMb (Some (Mbuf (mb_buf mb) (mb_size mb) (mb_pos mb) stop))), mbuf_set_pos mb stop)
  | KU8 => let! _ := need (negb (len <? 1)) in let! n := rd mbuf_read_u8 in ret (VU8 n)
  | KEvenPort =>
      let! _ := need (negb (len <? 1)) in
      let! n := rd mbuf_read_u8 in ret (VEvenPort (Z.land (Z.shiftr n 7) 1 =? 1))
  | KNone => let! _ := need (negb (len >? 0)) in ret VNone
  | KU64 => let! _ := need (len =? 8) in let! n := rd read_be64 in ret (VU64 n)
  | KOther => let! _ := move len in ret VNone
  end.

(** The caller's list of unknown attributes (at most 8), if it gave one. *)
Definition note_unknown (type : Z) (ua : option (list Z)) : option (list Z) :=
  match attr_kind type, ua with
  | KOther, Some l => if type >=? 0x8000 then ua else if zlength l <? 8 then Some (l ++ [type]) else ua
  | _, _ => ua
  end.

(** [while (((mb->pos - start) & 0x03) && mbuf_get_left(mb)) ++mb->pos;]: at
    most three turns. *)
Fixpoint skip_pad (fuel : nat) (start : Z) (mb : mbuf) : mbuf :=
  match fuel with
  | O => mb
  | S fuel =>
      if negb (Z.land (u64 (mb_pos mb - start)) 3 =? 0) && negb (mbuf_get_left mb =? 0)
      then skip_pad fuel start (mbuf_advance mb 1) else mb
  end.

(** [sizeof(struct stun_attr)] of an LP64 platform. *)
Definition SIZEOF_STUN_ATTR : Z := 160.

Definition stun_attr_decode (tid : list Z) (ua : option (list Z)) (mb : mbuf)
  : res stun_attr * option (list Z) * mbuf :=
  if mbuf_get_left mb <? 4 then (Err EBADMSG, ua, mb)
  else
    match mem_alloc SIZEOF_STUN_ATTR with
    | None => (Err ENOMEM, ua, mb)
    | Some _ =>
        let '(type, mb) := read_be16 mb in
        let '(len, mb) := read_be16 mb in
        if mbuf_get_left mb <? len then (Err EBADMSG, ua, mb)
        else
          let start := mb_pos mb in
          match decode_body type len tid mb with
          | (Err e, mb) => (Err e, ua, mb)
          | (Ok v, mb) => (Ok (StunAttr type v), note_unknown type ua, skip_pad 3 start mb)
          end
    end.

(** ** msg.c *)

Definition fingerprint (buf : list Z) : Z := Z.lxor (re_crc32 0 buf) 0x5354554e.

(** hmac_sha1.c: [out] keeps its contents when HMAC fails. *)
Definition hmac_sha1 (key data out : list Z) : list Z :=
  match HMAC HMAC_HASH_SHA1 key data with Some t => t | None => out end.

Fixpoint decode_attrs (fuel : nat) (tid : list Z) (extra : Z) (ua : option (list Z)) (attrl : list stun_attr)
  (mb : mbuf) : option (res (list stun_attr) * option (list Z) * mbuf) :=
  if u64 (mbuf_get_left mb - extra) >=? 4 then
    match fuel with
    | O => None
    | S fuel =>
        match stun_attr_decode tid ua mb with
        | (Err e, ua, mb) => Some (Err e, ua, mb)
        | (Ok a, ua, mb) => decode_attrs fuel tid extra ua (attrl ++ [a]) mb
        end
    end
  else Some (Ok attrl, ua, mb).

(** [sizeof(struct stun_msg)] of an LP64 platform. *)
Definition SIZEOF_STUN_MSG : Z := 64.

Definition stun_msg_decode (fuel : nat) (ua : option (list Z)) (mb : mbuf)
  : option (res stun_msg * option (list Z) * mbuf) :=
  let start := mb_pos mb in
  match stun_hdr_decode mb with
  | (Err e, mb) => Some (Err e, ua, mbuf_set_pos mb start)
  | (Ok hdr, mb) =>
      match mem_alloc SIZEOF_STUN_MSG with
      | None => Some (Err ENOMEM, ua, mbuf_set_pos mb start)
      | Some _ =>
          let ua := option_map (fun _ => []) ua in
          let extra := u64 (mbuf_get_left mb - hdr_len hdr) in
          '(r, ua, mb) ← decode_attrs fuel (hdr_tid hdr) extra ua [] mb;
          let mb := mbuf_set_pos mb start in
          Some (match r with Ok l => Ok (StunMsg hdr l mb start) | Err e => Err e end, ua, mb)
      end
  end.

Definition stun_msg_type (msg : stun_msg) : Z := hdr_type (msg_hdr msg).
Definition stun_msg_class (msg : stun_msg) : Z := STUN_CLASS (stun_msg_type msg).
Definition stun_msg_method (msg : stun_msg) : Z := STUN_METHOD (stun_msg_type msg).
Definition stun_msg_tid (msg : stun_msg) : list Z := hdr_tid (msg_hdr msg).
Definition stun_msg_mcookie (msg : stun_msg) : bool := STUN_MAGIC_COOKIE =? hdr_cookie (msg_hdr msg).
Definition stun_msg_attr (msg : stun_msg) (type : Z) : option stun_attr :=
  List.find (fun a => attr_type a =? type) (msg_attrl msg).
Definition stun_msg_attr_apply (msg : stun_msg) (h : stun_attr -> bool) : option stun_attr :=
  List.find h (msg_attrl msg).

(** The variable arguments: NULL values are skipped. *)
Fixpoint encode_attrs (fuel : nat) (tid : list Z) (padding : Z) (attrs : list (Z * option stun_val)) (err : Z)
  (mb : mbuf) : option (Z * mbuf) :=
  match attrs with
  | [] => Some (err, mb)
  | (_, None) :: attrs => encode_attrs fuel tid padding attrs err mb
  | (type, Some v) :: attrs =>
      '(e, mb) ← stun_attr_encode fuel (u16 type) v (Some tid) padding mb;
      encode_attrs fuel tid padding attrs (Z.lor err e) mb
  end.

(** The integrity attribute: over the message so far, with the length it will
    have.  [mi0] is what the local array [mi] holds before HMAC writes it. *)
Definition encode_mi (fuel : nat) (mi0 key : list Z) (start : Z) (hdr : stun_hdr) (padding : Z) (mb : mbuf)
  : option (Z * mbuf) :=
  let mb := mbuf_set_pos mb start in
  let mi := hmac_sha1 key (ztake (mbuf_get_left mb) (mbuf_buf mb)) mi0 in
  let mb := mbuf_set_pos mb (u64 (mb_pos mb + (STUN_HEADER_SIZE + hdr_len hdr - MI_SIZE))) in
  stun_attr_encode fuel STUN_ATTR_MSG_INTEGRITY (VMi mi) None padding mb.

Definition encode_fp (fuel : nat) (start : Z) (hdr : stun_hdr) (padding : Z) (mb : mbuf) : option (Z * mbuf) :=
  let hdr := StunHdr (hdr_type hdr) (u16 (mb_pos mb - start - STUN_HEADER_SIZE + FP_SIZE)) (hdr_cookie hdr)
               (hdr_tid hdr) in
  let mb := mbuf_set_pos mb start in
  let '(e1, mb) := stun_hdr_encode hdr mb in
  let mb := mbuf_set_pos mb start in
  let fprnt := fingerprint (ztake (mbuf_get_left mb) (mbuf_buf mb)) in
  let mb := mbuf_set_pos mb (u64 (mb_pos mb + (STUN_HEADER_SIZE + hdr_len hdr - FP_SIZE))) in
  '(e2, mb) ← stun_attr_encode fuel STUN_ATTR_FINGERPRINT (VU32 fprnt) None padding mb;
  Some (Z.lor e1 e2, mb).

Definition stun_msg_vencode (fuel : nat) (mi0 : list Z) (method class : Z) (tid : list Z) (ec : option (Z * list Z))
  (key : option (list Z)) (fp : bool) (padding : Z) (attrs : list (Z * option stun_val)) (mb : mbuf)
  : option (Z * mbuf) :=
  let start := mb_pos mb in
  let mb := mbuf_set_pos mb (u64 (start + STUN_HEADER_SIZE)) in
  let mi_size := match key with Some _ => MI_SIZE | None => 0 end in
  '(e1, mb) ← match ec with
              | Some (code, reason) =>
                  stun_attr_encode fuel STUN_ATTR_ERR_CODE (VErrCode code reason) None padding mb
              | None => Some (0, mb)
              end;
  '(e2, mb) ← encode_attrs fuel tid padding attrs e1 mb;
  let hdr := StunHdr (u16 (STUN_TYPE method class)) (u16 (u64 (mb_pos mb - start - STUN_HEADER_SIZE + mi_size)))
               STUN_MAGIC_COOKIE (ztake STUN_TID_SIZE tid) in
  let mb := mbuf_set_pos mb start in
  let '(e3, mb) := stun_hdr_encode hdr mb in
  let mb := mbuf_set_pos mb (u64 (mb_pos mb + (hdr_len hdr - mi_size))) in
  '(e4, mb) ← match key with Some key => encode_mi fuel mi0 key start hdr padding mb | None => Some (0, mb) end;
  '(e5, mb) ← (if fp then encode_fp fuel start hdr padding mb else Some (0, mb));
  Some (Z.lor (Z.lor (Z.lor e2 e3) e4) e5, mb).

Definition stun_msg_encode := stun_msg_vencode.

(** [hdr.len += n], and the header written over the one in the buffer. *)
Definition patch_len (msg : stun_msg) (n : Z) (mb : mbuf) : stun_hdr * mbuf :=
  let h := msg_hdr msg in
  let h := StunHdr (hdr_type h) (u16 (hdr_len h + n)) (hdr_cookie h) (hdr_tid h) in
  let '(_, mb) := stun_hdr_encode h mb in
  (h, mbuf_set_pos mb (u64 (mb_pos mb - STUN_HEADER_SIZE))).

Definition stun_msg_chk_mi (msg : stun_msg) (key : list Z) : Z * stun_msg :=
  match stun_msg_attr msg STUN_ATTR_MSG_INTEGRITY with
  | None => (EPROTO, msg)
  | Some mi =>
      let with_hdr h mb := StunMsg h (msg_attrl msg) mb (msg_start msg) in
      let mb := mbuf_set_pos (msg_mb msg) (msg_start msg) in
      let fp := match stun_msg_attr msg STUN_ATTR_FINGERPRINT with Some _ => true | None => false end in
      let '(h, mb) := if fp then patch_len msg (- FP_SIZE) mb else (msg_hdr msg, mb) in
      let hmac := hmac_sha1 key (ztake (u64 (STUN_HEADER_SIZE + hdr_len h - MI_SIZE)) (mbuf_buf mb))
                    (replicate 20 0) in
      let '(h, mb) := if fp then patch_len (with_hdr h mb) FP_SIZE mb else (h, mb) in
      (match attr_v mi with
       | VMi d => if bool_decide (ztake SHA_DIGEST_LENGTH d = ztake SHA_DIGEST_LENGTH hmac) then 0 else EBADMSG
       | _ => EBADMSG
       end, with_hdr h mb)
  end.

Definition stun_msg_chk_fingerprint (msg : stun_msg) : Z * stun_msg :=
  match stun_msg_attr msg STUN_ATTR_FINGERPRINT with
  | None => (EPROTO, msg)
  | Some fp =>
      let mb := mbuf_set_pos (msg_mb msg) (msg_start msg) in
      let fprnt := fingerprint (ztake (u64 (STUN_HEADER_SIZE + hdr_len (msg_hdr msg) - FP_SIZE)) (mbuf_buf mb)) in
      (if negb (fprnt =? as_num (attr_v fp)) then EBADMSG else 0,
       StunMsg (msg_hdr msg) (msg_attrl msg) mb (msg_start msg))
  end.
End Stun.
