(* ===== verification/StunWire.v ===== *)
(** * STUN wire format and the encoder

    [val_bytes], [attr_bytes] and [msg_bytes] are the format of RFC 5389 in
    one expression each; the encoders of attr.c and msg.c, which move the
    position back and forth to fill in lengths, produce exactly these bytes. *)

From stdpp Require Import base list numbers.
From Stdlib Require Import ZArith Lia.
From S2P Require Import Prelude Endian Mbuf MbufView Crypto Crc32 Sa Stun.

Open Scope Z_scope.

(** ** The format *)

Definition mask16 (tid : option (list Z)) (x : Z) : Z :=
  match tid with Some _ => Z.lxor x 0x2112 | None => x end.
Definition mask32 (tid : option (list Z)) (x : Z) : Z :=
  match tid with Some _ => Z.lxor x STUN_MAGIC_COOKIE | None => x end.
Definition mask128 (tid : option (list Z)) (x : list Z) : list Z :=
  match tid with Some tid => in6_xor_tid x tid | None => x end.

Definition addr_bytes (tid : option (list Z)) (a : sa) : list Z :=
  match a with
  | SaIn addr port => [0; 1] ++ be_bytes 2 (mask16 tid port) ++ be_bytes 4 (mask32 tid addr)
  | SaIn6 addr port _ => [0; 2] ++ be_bytes 2 (mask16 tid port) ++ mask128 tid addr
  | _ => []
  end.

(** The unread bytes of a buffer. *)
Definition unread (m : mbuf) : list Z := ztake (mbuf_get_left m) (mbuf_buf m).

Definition val_bytes (tid : option (list Z)) (type : Z) (v : stun_val) : list Z :=
  match v with
  | VSa a => addr_bytes (match attr_kind type with KXorAddr => tid | _ => None end) a
  | VChangeReq ip port => [0; 0; 0; 4 * Z.b2z ip + 2 * Z.b2z port]
  | VStr s => cstr s
  | VMi d => d
  | VErrCode code reason => [0; 0; code / 100; code mod 100] ++ cstr reason
  | VUnknown l => concat (map (be_bytes 2) l)
  | VU8 n => [n; 0; 0; 0]
  | VU16 n => be_bytes 2 n ++ [0; 0]
  | VU32 n => be_bytes 4 n
  | VU64 n => be_bytes 8 n
  | VMb m => match m with Some m => unread m | None => [] end
  | VEvenPort r => [128 * Z.b2z r]
  | VNone => []
  end.

Definition attr_bytes (tid : option (list Z)) (padding : Z) (a : stun_attr) : list Z :=
  let d := val_bytes tid (attr_type a) (attr_v a) in
  be_bytes 2 (attr_type a) ++ be_bytes 2 (zlength d) ++ d ++ replicate (Z.to_nat (pad_len (zlength d))) padding.

(** A string that fits in memory: characters and a terminator. *)
Definition str_wf (s : list Z) : Prop := s = cstr s ++ [0] /\ bytes s.

Definition sa_wf (a : sa) : Prop :=
  match a with
  | SaIn addr port => is_u32 addr /\ is_u16 port
  | SaIn6 addr port scope => zlength addr = 16 /\ bytes addr /\ is_u16 port /\ scope = 0
  | _ => False
  end.

(** Values the protocol can represent, of the member the type calls for. *)
Definition attr_wf (a : stun_attr) : Prop :=
  is_u16 (attr_type a) /\
  match attr_kind (attr_type a), attr_v a with
  | KAddr, VSa a | KXorAddr, VSa a => sa_wf a
  | KChangeReq, VChangeReq _ _ | KEvenPort, VEvenPort _ | KNone, VNone => True
  | KStr, VStr s => str_wf s
  | KMi, VMi d => zlength d = 20 /\ bytes d
  | KErrCode, VErrCode code reason => 0 <= code < 800 /\ str_wf reason
  | KUnknown, VUnknown l => (length l <= 8)%nat /\ Forall is_u16 l
  | KU8, VU8 n => is_byte n
  | KU16, VU16 n => is_u16 n
  | KU32, VU32 n => is_u32 n
  | KU64, VU64 n => is_u64 n
  | KMbuf, VMb (Some m) => mbuf_wf m /\ is_Some (mb_buf m)
  | _, _ => False
  end.

Definition tid_wf (tid : list Z) : Prop := zlength tid = 12 /\ bytes tid.

(** ** Writing beyond the end *)

Section Far.
Context `{H : Host}.

(** [d] was laid down at [p], with a hole between the old contents and [p]. *)
Definition laid (mb : mbuf) (c : list Z) (p : Z) (d : list Z) : Prop :=
  exists hole, zlength hole = p - zlength c /\ holds mb (c ++ hole ++ d) (p + zlength d).

(** The same, where nothing may have been written. *)
Definition laid_or_not (mb : mbuf) (c : list Z) (p : Z) (d : list Z) : Prop :=
  (d = [] /\ reserved mb c p) \/ laid mb c p d.

Definition lays (f : mbuf -> Z * mbuf) (d : list Z) : Prop :=
  forall mb c p, reserved mb c p -> p + zlength d < 2 ^ 31 -> exists mb', f mb = (0, mb') /\ laid mb' c p d.

Context (Ham : ample_memory).

Lemma lays_mem d : bytes d -> lays (fun mb => mbuf_write_mem mb d) d.
Proof.
  intros Hd mb c p Hr Hl. destruct (reserved_put mb c p d Hr Hd Ham Hl) as (hole & mb' & E & Hh & Hc).
  exists mb'. split; [done|]. by exists hole.
Qed.

Lemma lays_host n v d : host_bytes n v = d -> lays (fun mb => mbuf_write_mem mb (host_bytes n v)) d.
Proof. intros <-. apply lays_mem, host_bytes_bytes. Qed.

Lemma lays_u8 v : is_byte v -> lays (mbuf_write_u8 v) [v].
Proof. intros Hv. apply (lays_host 1). rewrite host_bytes_1. by rewrite Z.mod_small. Qed.

Lemma lays_u16_0 : lays (mbuf_write_u16 0) [0; 0].
Proof. apply (lays_host 2). unfold host_bytes. by destruct host_endian. Qed.

Lemma lays_be16 v : lays (write_be16 v) (be_bytes 2 v).
Proof. apply (lays_host 2), host_bytes_htons. Qed.

Lemma lays_be32 v : lays (write_be32 v) (be_bytes 4 v).
Proof. apply (lays_host 4), host_bytes_htonl. Qed.

Lemma lays_be64 v : lays (write_be64 v) (be_bytes 8 v).
Proof. apply (lays_host 8). rewrite sys_htonll_val. apply host_bytes_be_val. Qed.

Lemma holds_reserved mb c p : holds mb c p -> p = zlength c -> reserved mb c p.
Proof.
  intros Hh ->. pose proof (reserve mb c (zlength c) Hh ltac:(lia)) as Hr. destruct Hh as [_ _ Hp].
  rewrite <- Hp in Hr at 1. by destruct mb.
Qed.

(** Once something is laid down, the next write follows it. *)
Lemma laid_next mb c p d1 f d2 :
  laid mb c p d1 -> lays f d2 -> p + zlength d1 + zlength d2 < 2 ^ 31 ->
  exists mb', f mb = (0, mb') /\ laid mb' c p (d1 ++ d2).
Proof.
  intros (hole & Hh & Hc) Hf Hl. assert (El : p + zlength d1 = zlength (c ++ hole ++ d1)).
  { rewrite !zlength_app. lia. }
  destruct (Hf mb (c ++ hole ++ d1) (p + zlength d1)) as (mb' & E & hole2 & Hh2 & Hc2);
    [by apply holds_reserved|lia|].
  exists mb'. split; [done|]. exists hole. split; [done|].
  destruct hole2; [|rewrite zlength_cons in Hh2; pose proof (zlength_nonneg hole2); lia].
  cbn [app] in Hc2. rewrite <- !app_assoc in Hc2. by rewrite zlength_app, Z.add_assoc.
Qed.

Lemma lays_seq f g d1 d2 : lays f d1 -> lays g d2 -> lays (f ;| g) (d1 ++ d2).
Proof.
  intros Hf Hg mb c p Hr Hl. rewrite zlength_app in Hl. pose proof (zlength_nonneg d2).
  destruct (Hf mb c p Hr ltac:(lia)) as (mb1 & E1 & Hd1).
  destruct (laid_next mb1 c p d1 g d2 Hd1 Hg ltac:(lia)) as (mb2 & E2 & Hd2).
  exists mb2. unfold seq_or. rewrite E1, E2. done.
Qed.

(** Writers that may write nothing. *)
Definition lays_or_not (f : mbuf -> Z * mbuf) (d : list Z) : Prop :=
  forall mb c p, reserved mb c p -> p + zlength d < 2 ^ 31 ->
    exists mb', f mb = (0, mb') /\ laid_or_not mb' c p d.

Lemma lays_weaken f d : lays f d -> lays_or_not f d.
Proof.
  intros Hf mb c p Hr Hl. destruct (Hf mb c p Hr Hl) as (mb' & E & Hd). exists mb'. split; [done|]. by right.
Qed.

Lemma lays_ret : lays_or_not ret_ok [].
Proof. intros mb c p Hr Hl. exists mb. split; [done|]. by left. Qed.

Lemma lays_for_each {A} (f : A -> mbuf -> Z * mbuf) (enc : A -> list Z) l :
  (forall x, lays (f x) (enc x)) -> lays_or_not (for_each_or f l) (concat (map enc l)).
Proof.
  intros Hf. destruct l as [|x l]; [apply lays_ret|]. apply lays_weaken. revert x.
  induction l as [|y l IH]; intros x; cbn [for_each_or map concat].
  - rewrite app_nil_r. intros mb c p Hr Hl. destruct (Hf x mb c p Hr Hl) as (mb' & E & Hd).
    exists mb'. unfold seq_or. by rewrite E.
  - apply lays_seq; [done|]. apply (IH y).
Qed.
End Far.

(** ** Attributes *)

Section Encode.
Context `{H : Host} `{E : Evp}.
Context (Ham : ample_memory).

Lemma mask16_u16 tid x : is_u16 x -> is_u16 (mask16 tid x).
Proof. intros Hx. destruct tid; [|done]. apply lxor_bound; [lia|done|lia]. Qed.

Lemma mask32_u32 tid x : is_u32 x -> is_u32 (mask32 tid x).
Proof. intros Hx. destruct tid; [|done]. apply lxor_bound; [lia|done|unfold STUN_MAGIC_COOKIE; lia]. Qed.

Lemma zip_lxor_bytes a b : bytes a -> bytes b -> bytes (zip_with Z.lxor a b).
Proof.
  intros Ha. revert b. induction Ha as [|x a Hx _ IH]; intros b Hb; [constructor|].
  destruct Hb as [|y b Hy Hb]; cbn; constructor; [|by apply IH].
  apply (lxor_bound 8); unfold is_byte in *; lia.
Qed.

Lemma mask128_bytes tid x : bytes x -> (forall t, tid = Some t -> bytes t) -> bytes (mask128 tid x).
Proof.
  intros Hx Ht. destruct tid as [t|]; [|done]. apply zip_lxor_bytes; [done|].
  apply Forall_app. split; [by_compute|by apply Ht].
Qed.

Lemma addr_lays a tid :
  sa_wf a -> (forall t, tid = Some t -> bytes t) -> lays (stun_addr_encode a tid) (addr_bytes tid a).
Proof.
  intros Ha Ht. destruct a as [addr port|addr port scope| |]; try done; destruct Ha as (H1 & H2);
    unfold stun_addr_encode; cbn [sa_af sa_in sa_in6 sa_port addr_bytes];
    change (Z.shiftr STUN_MAGIC_COOKIE 16) with 0x2112.
  - change (AF_INET =? AF_INET) with true. cbv iota.
    change [0; 1] with ([0] ++ [1]). rewrite <- app_assoc.
    assert (Em : match tid with Some _ => u16 (Z.lxor port 0x2112) | None => port end = mask16 tid port).
    { destruct tid; [|done]. apply wrap_small. by apply (mask16_u16 (Some [])). }
    rewrite Em. replace (match tid with Some _ => Z.lxor addr STUN_MAGIC_COOKIE | None => addr end)
      with (mask32 tid addr) by (by destruct tid).
    repeat apply lays_seq; auto using lays_u8, lays_be16, lays_be32; apply lays_u8; done.
  - destruct H2 as (Hb & Hp & _). change (AF_INET6 =? AF_INET) with false. change (AF_INET6 =? AF_INET6) with true. cbv iota.
    change [0; 2] with ([0] ++ [2]). rewrite <- app_assoc.
    assert (Em : match tid with Some _ => u16 (Z.lxor port 0x2112) | None => port end = mask16 tid port).
    { destruct tid; [|done]. apply wrap_small. by apply (mask16_u16 (Some [])). }
    rewrite Em. replace (match tid with Some t => in6_xor_tid addr t | None => addr end)
      with (mask128 tid addr) by (by destruct tid).
    repeat apply lays_seq; auto using lays_be16; [by apply lays_u8..|].
    apply lays_mem; [done|]. by apply mask128_bytes.
Qed.

Lemma cstr_bytes s : str_wf s -> bytes (cstr s).
Proof. intros [Hs Hb]. rewrite Hs in Hb. by apply Forall_app in Hb as [? _]. Qed.

Lemma unread_rest m : mbuf_wf m -> unread m = rest m.
Proof.
  intros W. unfold unread. rewrite mbuf_get_left_rest by done.
  rewrite mbuf_buf_rest by (try done; pose proof (zlength_nonneg (rest m)); lia). by apply ztake_ge.
Qed.

Lemma attr_body_lays a tid :
  attr_wf a -> (forall t, tid = Some t -> bytes t) ->
  lays_or_not (attr_body (attr_type a) (attr_v a) tid) (val_bytes tid (attr_type a) (attr_v a)).
Proof.
  intros [_ Ha] Ht. destruct a as [type v]. cbn [attr_type attr_v] in *. unfold attr_body, val_bytes.
  destruct (attr_kind type), v; try done; cbn [as_sa as_str as_num].
  - apply lays_weaken, addr_lays; [done|]. by intros.
  - by apply lays_weaken, addr_lays.
  - apply lays_weaken. replace [0; 0; 0; _] with (be_bytes 4 (Z.lor (Z.shiftl (Z.b2z ip) 2) (Z.shiftl (Z.b2z port) 1)))
      by (by destruct ip, port). by apply lays_be32.
  - apply lays_weaken, lays_mem; [done|]. by apply cstr_bytes.
  - destruct Ha as [Hl Hb]. apply lays_weaken. rewrite ztake_ge by lia. by apply lays_mem.
  - destruct Ha as [Hc Hr]. apply lays_weaken. change [0; 0; ?x; ?y] with ([0; 0] ++ [x] ++ [y]).
    rewrite <- !app_assoc.
    repeat apply lays_seq; try by apply lays_u16_0.
    + apply lays_u8; [done|]. unfold is_byte. Z.to_euclidean_division_equations. lia.
    + apply lays_u8; [done|]. unfold is_byte. Z.to_euclidean_division_equations. lia.
    + apply lays_mem; [done|]. by apply cstr_bytes.
  - apply lays_for_each. intros x. by apply lays_be16.
  - apply lays_weaken, lays_seq; [by apply lays_be16|by apply lays_u16_0].
  - by apply lays_weaken, lays_be32.
  - destruct m as [m|]; [|done]. destruct Ha as [W [b Hb]]. rewrite Hb. apply lays_weaken.
    fold (unread m). apply lays_mem; [done|]. rewrite unread_rest by done. by apply bytes_rest.
  - apply lays_weaken. change [n; 0; 0; 0] with ([n] ++ [0] ++ [0; 0]).
    repeat apply lays_seq; first [by apply lays_u16_0 | by apply lays_u8].
  - apply lays_weaken. replace (u8 _) with (128 * Z.b2z r) by (by destruct r).
    apply lays_u8; [done|]. destruct r; done.
  - apply lays_ret.
  - by apply lays_weaken, lays_be64.
Qed.

Lemma laid_pos mb c p d : laid mb c p d -> mb_pos mb = p + zlength d.
Proof. by intros (hole & _ & Hc); destruct Hc. Qed.

Lemma laid_or_not_pos mb c p d : laid_or_not mb c p d -> mb_pos mb = p + zlength d.
Proof. intros [[-> Hr]|Hd]; [destruct Hr; rewrite zlength_nil; lia|by eapply laid_pos]. Qed.

(** Going back to fill in a header of [h] bytes, before [d]. *)
Lemma back_fill mb c p h d f :
  laid_or_not mb c (p + zlength h) d -> zlength c <= p -> writes f h -> lays f h ->
  p + zlength h + zlength d < 2 ^ 31 ->
  exists mb', f (mbuf_set_pos mb p) = (0, mb') /\ mb_pos mb' = p + zlength h
    /\ laid (mbuf_set_pos mb' (p + zlength h + zlength d)) c p (h ++ d).
Proof.
  intros Hd Hp Hw Hlay Hl. pose proof (zlength_nonneg h). pose proof (zlength_nonneg d).
  pose proof (zlength_nonneg c). destruct Hd as [[-> Hr]|(hole & Hh & Hc)].
  - destruct (Hlay _ c p (reserved_seek _ _ _ p Hr Hp) ltac:(lia)) as (mb' & E' & hole & Hh & Hc).
    exists mb'. split; [done|]. rewrite app_nil_r. split; [by destruct Hc|]. exists hole. split; [done|].
    change (zlength (@nil Z)) with 0. rewrite Z.add_0_r. apply (holds_set_pos _ _ _ _ Hc). rewrite !zlength_app. lia.
  - set (h1 := ztake (p - zlength c) hole). set (h2 := zdrop (p - zlength c) hole).
    assert (E1 : zlength h1 = p - zlength c) by (apply zlength_ztake; lia).
    assert (E2 : zlength h2 = zlength h) by (unfold h2; rewrite zlength_zdrop; lia).
    assert (Eh : c ++ hole ++ d = (c ++ h1) ++ h2 ++ d).
    { rewrite <- (ztake_zdrop (p - zlength c) hole). fold h1 h2. by rewrite <- !app_assoc. }
    rewrite Eh in Hc. assert (Ep : zlength (c ++ h1) = p) by (rewrite zlength_app; lia).
    destruct (holds_overwrite (mbuf_set_pos mb p) f h (c ++ h1) h2 d Hw) as (mb' & E' & Hc'); try done.
    + rewrite Ep. apply (holds_set_pos _ _ _ _ Hc). rewrite zlength_app. pose proof (zlength_nonneg (h2 ++ d)). lia.
    + rewrite zlength_app. lia.
    + rewrite zlength_app, Ep in Hc'. exists mb'. split; [done|]. split; [by destruct Hc'|]. exists h1. split; [done|].
      rewrite zlength_app, Z.add_assoc. rewrite <- app_assoc in Hc'. apply (holds_set_pos _ _ _ _ Hc').
      rewrite !zlength_app. lia.
Qed.

Lemma zlength_attr_bytes tid padding a :
  let n := zlength (val_bytes tid (attr_type a) (attr_v a)) in
  zlength (attr_bytes tid padding a) = 4 + n + pad_len n.
Proof.
  unfold attr_bytes. cbn zeta. rewrite !zlength_app, !zlength_be_bytes, zlength_replicate by apply pad_len_range.
  lia.
Qed.

Lemma stun_attr_encode_laid a tid padding mb c p :
  attr_wf a -> (forall t, tid = Some t -> bytes t) -> is_byte padding -> reserved mb c p ->
  p + zlength (attr_bytes tid padding a) < 2 ^ 31 -> zlength (val_bytes tid (attr_type a) (attr_v a)) < 2 ^ 16 ->
  exists mb', stun_attr_encode 3 (attr_type a) (attr_v a) tid padding mb = Some (0, mb')
    /\ laid mb' c p (attr_bytes tid padding a).
Proof.
  intros Ha Ht Hpad Hr Hl Hd16. pose proof (attr_body_lays a tid Ha Ht) as Hbody.
  rewrite zlength_attr_bytes in Hl. unfold stun_attr_encode, attr_bytes.
  set (d := val_bytes tid (attr_type a) (attr_v a)) in *. pose proof (zlength_nonneg d).
  pose proof (pad_len_range (zlength d)). pose proof (reserved_far _ _ _ Hr). pose proof (zlength_nonneg c).
  rewrite (reserved_pos _ _ _ Hr), (wrap_small _ (p + 4)) by lia. cbn [mb_pos mbuf_set_pos].
  destruct (Hbody (mbuf_set_pos mb (p + 4)) c (p + 4)) as (mb1 & -> & Hd); [by apply (reserved_seek _ _ p); [|lia]|lia|].
  rewrite (laid_or_not_pos _ _ _ _ Hd). rewrite (wrap_small _ (p + 4 + zlength d - _)), (wrap_small _ (p + 4 - 4)) by lia.
  replace (p + 4 + zlength d - (p + 4)) with (zlength d) by lia. replace (p + 4 - 4) with p by lia.
  rewrite (wrap_small 16) by lia.
  destruct (back_fill mb1 c p (be_bytes 2 (attr_type a) ++ be_bytes 2 (zlength d)) d
    (write_be16 (attr_type a) ;| write_be16 (zlength d)) Hd ltac:(lia)) as (mb2 & -> & Hp2 & Hd2);
    [auto with writes|apply lays_seq; by apply lays_be16|rewrite zlength_app, !zlength_be_bytes; lia|].
  rewrite zlength_app, !zlength_be_bytes in Hp2, Hd2. change (Z.of_nat 2 + Z.of_nat 2) with 4 in *.
  rewrite Hp2, wrap_small by lia. change (Z.lor 0 0) with 0. set (mb3 := mbuf_set_pos mb2 _) in *.
  destruct Hd2 as (hole & Hh & Hc3). rewrite <- !app_assoc in Hc3. rewrite !zlength_app, !zlength_be_bytes in Hc3.
  destruct (align_loop_done padding (Z.to_nat (pad_len (zlength d))) 3 (p + 4) mb3) as (mb4 & -> & W4 & Hp4 & Hc4);
    try done; rewrite ?(holds_pos _ _ _ Hc3), ?Z2Nat.id by lia; try lia; [apply Hc3| |].
  { rewrite <- (pad_len_mod (zlength d)). f_equal. lia. }
  exists mb4. split; [done|]. exists hole. split; [done|].
  rewrite (holds_pos _ _ _ Hc3) in Hp4, Hc4. rewrite (holds_content _ _ _ Hc3) in Hc4. rewrite Z2Nat.id in Hp4 by lia.
  split; [done| |rewrite Hp4, !zlength_app, !zlength_be_bytes, zlength_replicate by lia; lia].
  rewrite Hc4. replace (p + (Z.of_nat 2 + (Z.of_nat 2 + zlength d))) with (zlength (c ++ hole ++ be_bytes 2 (attr_type a) ++ be_bytes 2 (zlength d) ++ d))
    by (rewrite !zlength_app, !zlength_be_bytes; lia).
  rewrite zsplice_end. by rewrite <- !app_assoc.
Qed.

(** ** Messages *)

(** What is laid down can be continued. *)
Lemma laid_continue mb c p d :
  laid_or_not mb c p d ->
  exists c1, reserved mb c1 (p + zlength d) /\ forall mb' d2, laid mb' c1 (p + zlength d) d2 -> laid mb' c p (d ++ d2).
Proof.
  intros [[-> Hr]|(hole & Hh & Hc)].
  - exists c. rewrite zlength_nil, Z.add_0_r. done.
  - exists (c ++ hole ++ d). split; [apply holds_reserved; [done|rewrite !zlength_app; lia]|].
    intros mb' d2 (hole2 & Hh2 & Hc2). exists hole. split; [done|].
    rewrite !zlength_app in Hh2. destruct hole2; [|rewrite zlength_cons in Hh2; pose proof (zlength_nonneg hole2); lia].
    cbn [app] in Hc2. rewrite <- !app_assoc in Hc2. by rewrite zlength_app, Z.add_assoc.
Qed.

(** The attributes that are sent: those with a value. *)
Definition sent (attrs : list (Z * option stun_val)) : list stun_attr :=
  omap (fun x => StunAttr (u16 x.1) <$> x.2) attrs.

Definition body_bytes (tid : list Z) (padding : Z) (l : list stun_attr) : list Z :=
  concat (map (attr_bytes (Some tid) padding) l).

Lemma body_bytes_cons tid padding a l :
  body_bytes tid padding (a :: l) = attr_bytes (Some tid) padding a ++ body_bytes tid padding l.
Proof. done. Qed.

Lemma body_bytes_app tid padding l l' :
  body_bytes tid padding (l ++ l') = body_bytes tid padding l ++ body_bytes tid padding l'.
Proof. unfold body_bytes. by rewrite map_app, concat_app. Qed.

(** One more attribute. *)
Lemma laid_attr a tid padding mb c p d :
  attr_wf a -> (forall t, tid = Some t -> bytes t) -> is_byte padding -> laid_or_not mb c p d ->
  p + zlength d + zlength (attr_bytes tid padding a) < 2 ^ 31 -> zlength (attr_bytes tid padding a) < 2 ^ 16 ->
  exists mb', stun_attr_encode 3 (attr_type a) (attr_v a) tid padding mb = Some (0, mb')
    /\ laid mb' c p (d ++ attr_bytes tid padding a).
Proof.
  intros Ha Ht Hp Hd Hl H16. destruct (laid_continue _ _ _ _ Hd) as (c1 & Hr & Hnext).
  destruct (stun_attr_encode_laid a tid padding mb c1 (p + zlength d) Ha Ht Hp Hr Hl) as (mb' & E' & Hd').
  - rewrite zlength_attr_bytes in H16. pose proof (pad_len_range (zlength (val_bytes tid (attr_type a) (attr_v a)))). lia.
  - exists mb'. split; [done|]. by apply Hnext.
Qed.

Lemma encode_attrs_laid tid padding attrs : forall mb c p d,
  Forall attr_wf (sent attrs) -> bytes tid -> is_byte padding -> laid_or_not mb c p d ->
  p + zlength d + zlength (body_bytes tid padding (sent attrs)) < 2 ^ 31 ->
  zlength (body_bytes tid padding (sent attrs)) < 2 ^ 16 ->
  exists mb', encode_attrs 3 tid padding attrs 0 mb = Some (0, mb')
    /\ laid_or_not mb' c p (d ++ body_bytes tid padding (sent attrs)).
Proof.
  induction attrs as [|[type [v|]] attrs IH]; intros mb c p d Hw Ht Hp Hd Hl H16; cbn [encode_attrs].
  - exists mb. by rewrite app_nil_r.
  - change (sent ((type, Some v) :: attrs)) with (StunAttr (u16 type) v :: sent attrs) in *.
    inversion_clear Hw as [|? ? Ha Hw']. rewrite body_bytes_cons in *. rewrite zlength_app in Hl, H16.
    pose proof (zlength_nonneg (body_bytes tid padding (sent attrs))).
    pose proof (zlength_nonneg (attr_bytes (Some tid) padding (StunAttr (u16 type) v))).
    destruct (laid_attr _ (Some tid) padding mb c p d Ha) as (mb1 & E1 & Hd1); try done; [by intros ? [= <-]|lia|lia|].
    cbn [attr_type attr_v] in E1. rewrite E1. cbn [mbind option_bind]. change (Z.lor 0 0) with 0.
    destruct (IH mb1 c p (d ++ attr_bytes (Some tid) padding (StunAttr (u16 type) v))) as (mb' & E' & Hd'); try done.
    + by right.
    + rewrite zlength_app. lia.
    + lia.
    + exists mb'. by rewrite app_assoc.
  - apply IH; done.
Qed.

Lemma val_bytes_tid tid type v : attr_kind type <> KXorAddr -> val_bytes (Some tid) type v = val_bytes None type v.
Proof. intros Hk. destruct v; try done. unfold val_bytes. by destruct (attr_kind type). Qed.

Lemma attr_bytes_tid tid padding a :
  attr_kind (attr_type a) <> KXorAddr -> attr_bytes None padding a = attr_bytes (Some tid) padding a.
Proof. intros Hk. unfold attr_bytes. by rewrite (val_bytes_tid tid). Qed.

Definition hdr_bytes (h : stun_hdr) : list Z :=
  be_bytes 2 (hdr_type h) ++ be_bytes 2 (hdr_len h) ++ be_bytes 4 (hdr_cookie h) ++ hdr_tid h.

Definition header (type len : Z) (tid : list Z) : list Z := hdr_bytes (StunHdr type len STUN_MAGIC_COOKIE tid).

Lemma zlength_stun_hdr h : tid_wf (hdr_tid h) -> zlength (hdr_bytes h) = 20.
Proof. intros [Hl _]. unfold hdr_bytes. rewrite !zlength_app, !zlength_be_bytes. lia. Qed.

Lemma zlength_header type len tid : tid_wf tid -> zlength (header type len tid) = 20.
Proof. apply (zlength_stun_hdr (StunHdr _ _ _ _)). Qed.

Lemma hdr_encode_writes h :
  0 <= hdr_type h < 2 ^ 14 -> tid_wf (hdr_tid h) ->
  writes (stun_hdr_encode h) (hdr_bytes h) /\ lays (stun_hdr_encode h) (hdr_bytes h).
Proof.
  intros Ht [Hl Hb]. unfold stun_hdr_encode, hdr_bytes.
  assert (Em : Z.land (hdr_type h) 0x3fff = hdr_type h)
    by (change 0x3fff with (Z.ones 14); rewrite Z.land_ones, Z.mod_small; lia).
  rewrite Em. split.
  - repeat apply writes_seq_or; auto with writes. apply writes_mem; [done|lia].
  - repeat apply lays_seq; auto using lays_be16, lays_be32, lays_mem.
Qed.

Lemma holds_unread mb c p : holds mb c p -> ztake (mbuf_get_left mb) (mbuf_buf mb) = zdrop p c.
Proof. intros Hh. rewrite <- (holds_rest _ _ _ Hh). apply (unread_rest mb), Hh. Qed.

Lemma attr_at_end a padding mb c :
  attr_wf a -> is_byte padding -> holds mb c (zlength c) ->
  zlength c + zlength (attr_bytes None padding a) < 2 ^ 31 -> zlength (attr_bytes None padding a) < 2 ^ 16 ->
  exists mb', stun_attr_encode 3 (attr_type a) (attr_v a) None padding mb = Some (0, mb')
    /\ holds mb' (c ++ attr_bytes None padding a) (zlength (c ++ attr_bytes None padding a)).
Proof.
  intros Ha Hp Hh Hl H16.
  destruct (laid_attr a None padding mb c (zlength c) [] Ha) as (mb' & E' & hole & Hhole & Hc); try done.
  - left. split; [done|]. by apply holds_reserved.
  - rewrite zlength_nil. lia.
  - exists mb'. split; [done|]. destruct hole; [|rewrite zlength_cons in Hhole; pose proof (zlength_nonneg hole); lia].
    cbn [app] in Hc. by rewrite zlength_app.
Qed.

(** The authentication code of a message. *)
Definition mac (key data : list Z) : list Z := hmac_sha1 key data [].

Definition mi_attr (key : list Z) (type : Z) (tid body : list Z) : stun_attr :=
  StunAttr STUN_ATTR_MSG_INTEGRITY (VMi (mac key (header type (zlength body + MI_SIZE) tid ++ body))).

Definition fp_attr (type : Z) (tid body : list Z) : stun_attr :=
  StunAttr STUN_ATTR_FINGERPRINT (VU32 (fingerprint (header type (zlength body + FP_SIZE) tid ++ body))).

(** The attributes added by the key and the fingerprint flag, and the whole
    message. *)
Definition mi_tail (key : option (list Z)) (type : Z) (tid body : list Z) : list stun_attr :=
  match key with Some key => [mi_attr key type tid body] | None => [] end.
Definition fp_tail (fp : bool) (type : Z) (tid body : list Z) : list stun_attr :=
  if fp then [fp_attr type tid body] else [].

Definition ec_attr (ec : option (Z * list Z)) : list stun_attr :=
  match ec with Some (c, r) => [StunAttr STUN_ATTR_ERR_CODE (VErrCode c r)] | None => [] end.

Definition msg_attrs (method class : Z) (tid : list Z) (ec : option (Z * list Z)) (key : option (list Z)) (fp : bool)
  (padding : Z) (attrs : list (Z * option stun_val)) : list stun_attr :=
  let type := STUN_TYPE method class in
  let l := ec_attr ec ++ sent attrs in
  let l2 := l ++ mi_tail key type tid (body_bytes tid padding l) in
  l2 ++ fp_tail fp type tid (body_bytes tid padding l2).

Definition msg_bytes (type : Z) (tid : list Z) (padding : Z) (l : list stun_attr) : list Z :=
  header type (zlength (body_bytes tid padding l)) tid ++ body_bytes tid padding l.

Context {L : EvpLaws} {R : EvpReliable}.

Lemma hmac_sha1_mac key data out : hmac_sha1 key data out = mac key data.
Proof. unfold mac, hmac_sha1. destruct (rel_hmac HMAC_HASH_SHA1 key data) as [t Ht]. by rewrite Ht. Qed.

Lemma mac_wf key data : zlength (mac key data) = 20 /\ bytes (mac key data).
Proof.
  unfold mac, hmac_sha1. destruct (rel_hmac HMAC_HASH_SHA1 key data) as [t Ht]. rewrite Ht. by eapply hmac_length.
Qed.

Lemma mi_attr_wf key type tid body : attr_wf (mi_attr key type tid body).
Proof. split; [done|]. cbn. apply mac_wf. Qed.

Lemma mi_attr_length key type tid body padding : zlength (attr_bytes None padding (mi_attr key type tid body)) = 24.
Proof. rewrite zlength_attr_bytes. cbn [mi_attr attr_v val_bytes]. by rewrite (proj1 (mac_wf _ _)). Qed.

Lemma re_crc32_u32 buf : bytes buf -> is_u32 (re_crc32 0 buf).
Proof.
  intros Hb. unfold re_crc32. apply lxor_bound; [lia| |done].
  apply crc32_loop_range; [done|]. by apply wrap_range.
Qed.

Lemma fingerprint_u32 buf : bytes buf -> is_u32 (fingerprint buf).
Proof. intros Hb. apply lxor_bound; [lia|by apply re_crc32_u32|lia]. Qed.

Lemma header_bytes type len tid : tid_wf tid -> bytes (header type len tid).
Proof. intros [_ Hb]. unfold header, hdr_bytes. rewrite !Forall_app. split_and!; auto with relib. Qed.

Lemma fp_attr_wf type tid body : tid_wf tid -> bytes body -> attr_wf (fp_attr type tid body).
Proof. intros Ht Hb. split; [done|]. cbn. apply fingerprint_u32, Forall_app. split; [by apply header_bytes|done]. Qed.

Lemma fp_attr_length type tid body padding : zlength (attr_bytes None padding (fp_attr type tid body)) = 8.
Proof. rewrite zlength_attr_bytes. cbn [fp_attr attr_v val_bytes]. by rewrite zlength_be_bytes. Qed.

Lemma encode_mi_done mi0 key type tid padding c body mb :
  tid_wf tid -> is_byte padding -> zlength c + zlength body < 2 ^ 30 ->
  holds mb (c ++ header type (zlength body + MI_SIZE) tid ++ body) (zlength c + 20 + zlength body) ->
  exists mb', encode_mi 3 mi0 key (zlength c) (StunHdr type (zlength body + MI_SIZE) STUN_MAGIC_COOKIE tid) padding mb
      = Some (0, mb')
    /\ let c' := c ++ header type (zlength body + MI_SIZE) tid ++ body ++ attr_bytes None padding (mi_attr key type tid body) in
       holds mb' c' (zlength c').
Proof.
  intros Ht Hp Hl Hh. unfold encode_mi. cbn [hdr_len mb_pos mbuf_set_pos].
  pose proof (zlength_nonneg c). pose proof (zlength_nonneg body).
  assert (Hl' : zlength (c ++ header type (zlength body + MI_SIZE) tid ++ body) = zlength c + 20 + zlength body).
  { rewrite !zlength_app, zlength_header by done. lia. }
  rewrite (holds_unread _ _ _ (holds_set_pos _ _ _ (zlength c) Hh ltac:(lia))).
  rewrite zdrop_app_exact, hmac_sha1_mac. unfold STUN_HEADER_SIZE.
  replace (zlength c + (20 + (zlength body + MI_SIZE) - MI_SIZE)) with (zlength c + 20 + zlength body) by lia.
  rewrite wrap_small by lia.
  destruct (attr_at_end (mi_attr key type tid body) padding
    (mbuf_set_pos (mbuf_set_pos mb (zlength c)) (zlength c + 20 + zlength body))
    (c ++ header type (zlength body + MI_SIZE) tid ++ body) (mi_attr_wf _ _ _ _) Hp)
    as (mb' & E' & Hh').
  - rewrite Hl'. apply (holds_set_pos mb _ _ (zlength c + 20 + zlength body) Hh). lia.
  - rewrite Hl', mi_attr_length. lia.
  - by rewrite mi_attr_length.
  - cbn [mi_attr attr_type attr_v] in E'. rewrite E'. exists mb'. split; [done|].
    rewrite <- !app_assoc in Hh'. exact Hh'.
Qed.

Lemma encode_fp_done type len tid padding c body mb :
  0 <= type < 2 ^ 14 -> tid_wf tid -> bytes body -> is_byte padding -> zlength body + 8 < 2 ^ 16 ->
  zlength c + zlength body < 2 ^ 30 ->
  holds mb (c ++ header type len tid ++ body) (zlength c + 20 + zlength body) ->
  exists mb', encode_fp 3 (zlength c) (StunHdr type len STUN_MAGIC_COOKIE tid) padding mb = Some (0, mb')
    /\ let c' := c ++ header type (zlength body + FP_SIZE) tid ++ body ++ attr_bytes None padding (fp_attr type tid body) in
       holds mb' c' (zlength c').
Proof.
  intros Hty Ht Hb Hp H16 Hl Hh. unfold encode_fp. cbn [hdr_type hdr_cookie hdr_tid].
  pose proof (zlength_nonneg c). pose proof (zlength_nonneg body).
  rewrite (holds_pos _ _ _ Hh). unfold STUN_HEADER_SIZE.
  replace (zlength c + 20 + zlength body - zlength c - 20 + FP_SIZE) with (zlength body + FP_SIZE) by lia.
  unfold FP_SIZE. rewrite (wrap_small 16) by lia. fold FP_SIZE.
  assert (Hl' : forall n, zlength (c ++ header type n tid ++ body) = zlength c + 20 + zlength body).
  { intros n. rewrite !zlength_app, zlength_header by done. lia. }
  destruct (hdr_encode_writes (StunHdr type (zlength body + FP_SIZE) STUN_MAGIC_COOKIE tid) Hty Ht) as [Hw _].
  destruct (holds_overwrite (mbuf_set_pos mb (zlength c)) _ (header type (zlength body + FP_SIZE) tid) c (header type len tid) body Hw) as (mb1 & E1 & Hh1);
    [|by rewrite !zlength_header|done|rewrite zlength_app, zlength_header by done; lia|].
  { specialize (Hl' len). apply (holds_set_pos _ _ _ _ Hh). lia. }
  unfold FP_SIZE in *. rewrite E1. cbn [mb_pos mbuf_set_pos hdr_len].
  specialize (Hl' (zlength body + 8)).
  rewrite (holds_unread _ _ _ (holds_set_pos _ _ _ (zlength c) Hh1 ltac:(lia))), zdrop_app_exact.
  replace (zlength c + (20 + (zlength body + 8) - 8)) with (zlength c + 20 + zlength body) by lia.
  rewrite wrap_small by lia.
  destruct (attr_at_end (fp_attr type tid body) padding
    (mbuf_set_pos (mbuf_set_pos mb1 (zlength c)) (zlength c + 20 + zlength body))
    (c ++ header type (zlength body + 8) tid ++ body) (fp_attr_wf type tid body Ht Hb) Hp)
    as (mb' & E' & Hh').
  - rewrite Hl'. apply (holds_set_pos mb1 _ _ (zlength c + 20 + zlength body) Hh1). lia.
  - rewrite Hl', fp_attr_length. lia.
  - by rewrite fp_attr_length.
  - cbn [fp_attr attr_type attr_v] in E'. unfold FP_SIZE in E'. rewrite E'. exists mb'. split; [done|].
    rewrite <- !app_assoc in Hh'. exact Hh'.
Qed.

Lemma STUN_TYPE_range method class : 0 <= STUN_TYPE method class < 2 ^ 14.
Proof.
  assert (Hs : forall x m n k, 0 <= n -> 0 <= k -> n + k <= 14 -> 0 <= m < 2 ^ n -> 0 <= Z.shiftl (Z.land x m) k < 2 ^ 14).
  { intros x m n k Hn Hk Hnk Hm. pose proof (land_bound_r n x m Hn Hm).
    rewrite Z.shiftl_mul_pow2 by done. split; [apply Z.mul_nonneg_nonneg; lia|].
    apply Z.lt_le_trans with (2 ^ n * 2 ^ k); [apply Z.mul_lt_mono_pos_r; lia|].
    rewrite <- Z.pow_add_r by done. apply Z.pow_le_mono_r; lia. }
  unfold STUN_TYPE. repeat apply lor_bound; try done.
  - by apply (Hs _ _ 12).
  - by apply (Hs _ _ 7).
  - by apply (Hs _ _ 4).
  - by apply (Hs _ _ 2).
  - by apply (Hs _ _ 1).
Qed.

Lemma cstr_app s s' : Forall (fun c => c <> 0) s -> cstr (s ++ 0 :: s') = s.
Proof. induction 1 as [|c s Hc _ IH]; cbn; [done|]. rewrite (proj2 (Z.eqb_neq c 0)) by done. by rewrite IH. Qed.

Definition msg_wf (tid : list Z) (ec : option (Z * list Z)) (padding : Z) (attrs : list (Z * option stun_val)) : Prop :=
  tid_wf tid /\ is_byte padding /\ Forall attr_wf (ec_attr ec ++ sent attrs)
  /\ zlength (body_bytes tid padding (ec_attr ec ++ sent attrs)) + MI_SIZE + FP_SIZE < 2 ^ 16.

Lemma addr_bytes_bytes tid a : sa_wf a -> (forall t, tid = Some t -> bytes t) -> bytes (addr_bytes tid a).
Proof.
  intros Ha Ht. destruct a as [a p|a p s| |]; try done; unfold addr_bytes; rewrite !Forall_app.
  - split_and!; auto with relib. by_compute.
  - destruct Ha as (_ & Hb & _). split_and!; auto with relib; [by_compute|by apply mask128_bytes].
Qed.

Lemma attr_bytes_bytes tid padding a :
  attr_wf a -> (forall t, tid = Some t -> bytes t) -> is_byte padding -> bytes (attr_bytes tid padding a).
Proof.
  intros [_ Ha] Ht Hp. unfold attr_bytes. rewrite !Forall_app.
  split_and!; auto with relib; [|by apply Forall_replicate].
  destruct a as [type v]. cbn [attr_type attr_v] in *. unfold val_bytes.
  destruct (attr_kind type), v; try done; cbn.
  1,2: by apply addr_bytes_bytes.
  - destruct ip, port; by_compute.
  - by apply cstr_bytes.
  - apply Ha.
  - destruct Ha as [Hc Hr]. do 2 (constructor; [done|]).
    do 2 (constructor; [unfold is_byte; Z.to_euclidean_division_equations; lia|]). by apply cstr_bytes.
  - clear. induction typev as [|x l IH]; cbn; [constructor|]. apply Forall_app. split; [apply be_bytes_bytes|done].
  - apply Forall_app. split; [apply be_bytes_bytes|by_compute].
  - auto with relib.
  - destruct m as [m|]; [|done]. destruct Ha as [W _]. rewrite unread_rest by done. by apply bytes_rest.
  - constructor; [done|by_compute].
  - destruct r; by_compute.
  - auto with relib.
Qed.

Lemma body_bytes_bytes tid padding l :
  Forall attr_wf l -> tid_wf tid -> is_byte padding -> bytes (body_bytes tid padding l).
Proof.
  intros Hl [_ Ht] Hp. induction Hl as [|a l Ha _ IH]; [constructor|].
  rewrite body_bytes_cons. apply Forall_app. split; [|done]. apply attr_bytes_bytes; try done. by intros ? [= <-].
Qed.

(** The attributes and the header, before integrity and fingerprint. *)
Lemma encode_front tid ec padding attrs mb c type len :
  msg_wf tid ec padding attrs -> 0 <= type < 2 ^ 14 -> zlength c < 2 ^ 30 -> holds mb c (zlength c) ->
  let l := ec_attr ec ++ sent attrs in
  let body := body_bytes tid padding l in
  let mb0 := mbuf_set_pos mb (u64 (zlength c + STUN_HEADER_SIZE)) in
  exists mb1 mb2 mb3,
    match ec with
    | Some (code, reason) => stun_attr_encode 3 STUN_ATTR_ERR_CODE (VErrCode code reason) None padding mb0
    | None => Some (0, mb0)
    end = Some (0, mb1)
    /\ encode_attrs 3 tid padding attrs 0 mb1 = Some (0, mb2) /\ mb_pos mb2 = zlength c + 20 + zlength body
    /\ stun_hdr_encode (StunHdr type len STUN_MAGIC_COOKIE tid) (mbuf_set_pos mb2 (zlength c)) = (0, mb3)
    /\ mb_pos mb3 = zlength c + 20
    /\ holds (mbuf_set_pos mb3 (zlength c + 20 + zlength body)) (c ++ header type len tid ++ body)
         (zlength c + 20 + zlength body).
Proof.
  intros (Ht & Hp & Hw & Hl) Hty Hc Hh l body mb0. pose proof (zlength_nonneg c). unfold MI_SIZE, FP_SIZE in Hl.
  unfold STUN_HEADER_SIZE in *. subst mb0. rewrite wrap_small by lia.
  apply Forall_app in Hw as [Hwe Hws]. subst l body. rewrite body_bytes_app in *. rewrite zlength_app in Hl.
  pose proof (zlength_nonneg (body_bytes tid padding (sent attrs))).
  pose proof (zlength_nonneg (body_bytes tid padding (ec_attr ec))).
  assert (Hec : exists mb1, match ec with
    | Some (code, reason) => stun_attr_encode 3 STUN_ATTR_ERR_CODE (VErrCode code reason) None padding
                               (mbuf_set_pos mb (zlength c + 20))
    | None => Some (0, mbuf_set_pos mb (zlength c + 20))
    end = Some (0, mb1) /\ laid_or_not mb1 c (zlength c + 20) (body_bytes tid padding (ec_attr ec))).
  { pose proof (reserve mb c (zlength c + 20) Hh ltac:(lia)) as Hr. destruct ec as [[code reason]|].
    - inversion_clear Hwe as [|? ? Ha _]. change (body_bytes tid padding (ec_attr (Some (code, reason)))) with
        (attr_bytes (Some tid) padding (StunAttr STUN_ATTR_ERR_CODE (VErrCode code reason)) ++ []) in *.
      rewrite app_nil_r in *. rewrite <- attr_bytes_tid in * by done.
      destruct (laid_attr _ None padding _ c _ [] Ha ltac:(done) Hp (or_introl (conj eq_refl Hr))) as (mb1 & E1 & Hd1);
        [rewrite zlength_nil; lia|lia|]. exists mb1. split; [done|]. by right.
    - eexists. split; [done|]. by left. }
  destruct Hec as (mb1 & E1 & Hd1).
  destruct (encode_attrs_laid tid padding attrs mb1 c (zlength c + 20) _ Hws (proj2 Ht) Hp Hd1) as (mb2 & E2 & Hd2);
    [lia|lia|].
  exists mb1, mb2. destruct (hdr_encode_writes (StunHdr type len STUN_MAGIC_COOKIE tid) Hty Ht) as [Hwr Hla].
  destruct (back_fill mb2 c (zlength c) (header type len tid) (body_bytes tid padding (ec_attr ec) ++ body_bytes tid padding (sent attrs))
    (stun_hdr_encode (StunHdr type len STUN_MAGIC_COOKIE tid))) as (mb3 & E3 & Hp3 & Hd3);
    rewrite ?zlength_header by done; [done|lia|done|done|rewrite zlength_app; lia|].
  rewrite zlength_header in Hp3, Hd3 by done. exists mb3. split_and!; try done; [exact (laid_or_not_pos _ _ _ _ Hd2)|].
  destruct Hd3 as (hole & Hhole & Hd3).
  destruct hole; [|rewrite zlength_cons in Hhole; pose proof (zlength_nonneg hole); lia].
  cbn [app] in Hd3. apply (holds_set_pos _ _ _ (zlength c + 20 + _) Hd3).
  rewrite !zlength_app, zlength_header by done. lia.
Qed.

(** stun_msg_vencode appends the message. *)
Lemma stun_msg_vencode_done mi0 method class tid ec key fp padding attrs mb c :
  msg_wf tid ec padding attrs -> zlength c < 2 ^ 29 -> holds mb c (zlength c) ->
  let l := msg_attrs method class tid ec key fp padding attrs in
  exists mb', stun_msg_vencode 3 mi0 method class tid ec key fp padding attrs mb = Some (0, mb')
    /\ let c' := c ++ msg_bytes (STUN_TYPE method class) tid padding l in holds mb' c' (zlength c').
Proof.
  intros Hwf Hc Hh l. pose proof Hwf as (Ht & Hp & Hw & Hl). pose proof (zlength_nonneg c).
  unfold MI_SIZE, FP_SIZE in Hl. pose proof (STUN_TYPE_range method class) as Hty.
  unfold stun_msg_vencode. rewrite (wrap_small 16 (STUN_TYPE _ _)) by lia. set (type := STUN_TYPE method class) in *.
  set (body := body_bytes tid padding (ec_attr ec ++ sent attrs)) in *. pose proof (zlength_nonneg body).
  set (mi_size := match key with Some _ => MI_SIZE | None => 0 end).
  assert (Hmi : 0 <= mi_size <= 24) by (subst mi_size; unfold MI_SIZE; destruct key; lia).
  destruct (encode_front tid ec padding attrs mb c type (zlength body + mi_size) Hwf Hty ltac:(lia) Hh)
    as (mb1 & mb2 & mb3 & E1 & E2 & Hp2 & E3 & Hp3 & Hh3). fold body in Hp2, Hh3.
  rewrite (holds_pos _ _ _ Hh). rewrite E1. cbn [mbind option_bind]. rewrite E2. cbn [mbind option_bind].
  rewrite Hp2. unfold STUN_HEADER_SIZE, STUN_TID_SIZE. rewrite (ztake_ge 12 tid) by (destruct Ht; lia).
  replace (zlength c + 20 + zlength body - zlength c - 20 + mi_size) with (zlength body + mi_size) by lia.
  rewrite (wrap_small 64), (wrap_small 16) by lia. rewrite E3. cbn [hdr_len]. rewrite Hp3.
  replace (zlength c + 20 + (zlength body + mi_size - mi_size)) with (zlength c + 20 + zlength body) by lia.
  rewrite (wrap_small 64) by lia. set (mb4 := mbuf_set_pos mb3 _) in *.
  change (Z.lor (Z.lor (Z.lor 0 0) ?a) ?b) with (Z.lor a b).
  set (l2 := (ec_attr ec ++ sent attrs) ++ mi_tail key type tid body).
  assert (Hex : exists mb5, match key with
      | Some key => encode_mi 3 mi0 key (zlength c) (StunHdr type (zlength body + mi_size) STUN_MAGIC_COOKIE tid) padding mb4
      | None => Some (0, mb4) end = Some (0, mb5)
    /\ zlength (body_bytes tid padding l2) = zlength body + mi_size
    /\ holds mb5 (c ++ header type (zlength body + mi_size) tid ++ body_bytes tid padding l2)
         (zlength c + 20 + (zlength body + mi_size))).
  { subst l2 mi_size. rewrite body_bytes_app. fold body. destruct key as [key|]; cbn [mi_tail].
    - destruct (encode_mi_done mi0 key type tid padding c body mb4 Ht Hp ltac:(lia) Hh3) as (mb5 & E5 & Hh5).
      exists mb5. split; [done|]. rewrite body_bytes_cons. change (body_bytes tid padding []) with (@nil Z).
      rewrite app_nil_r, <- attr_bytes_tid by done. rewrite zlength_app, mi_attr_length. split; [done|].
      cbv zeta in Hh5. rewrite !zlength_app, zlength_header, mi_attr_length in Hh5 by done. by replace (zlength c + 20 + (zlength body + MI_SIZE)) with (zlength c + (20 + (zlength body + 24))) by (unfold MI_SIZE; lia).
    - exists mb4. change (body_bytes tid padding []) with (@nil Z). rewrite app_nil_r. by rewrite !Z.add_0_r in *. }
  destruct Hex as (mb5 & -> & Hl2 & Hh5). cbn [mbind option_bind]. rewrite <- Hl2 in Hh5 |- *.
  assert (Hw2 : Forall attr_wf l2).
  { subst l2. apply Forall_app. split; [done|]. destruct key; [|constructor]. constructor; [apply mi_attr_wf|constructor]. }
  unfold l, msg_attrs, msg_bytes. fold type. change (body_bytes tid padding (ec_attr ec ++ sent attrs)) with body. fold l2.
  destruct fp; cbn [fp_tail].
  - destruct (encode_fp_done type (zlength (body_bytes tid padding l2)) tid padding c (body_bytes tid padding l2) mb5 Hty Ht)
      as (mb6 & -> & Hh6); try done; [by apply body_bytes_bytes|lia|lia|].
    exists mb6. split; [done|]. rewrite body_bytes_app, body_bytes_cons. change (body_bytes tid padding []) with (@nil Z).
    rewrite app_nil_r, <- attr_bytes_tid by done. rewrite (zlength_app (body_bytes _ _ _)), fp_attr_length. exact Hh6.
  - exists mb5. rewrite app_nil_r. split; [done|]. rewrite !zlength_app, zlength_header by done.
    by rewrite Z.add_assoc in *.
Qed.
End Encode.
