(* ===== verification/StunSpec.v ===== *)
(** * STUN: what the decoder makes of the encoder's messages *)

From stdpp Require Import base list numbers.
From Stdlib Require Import ZArith Lia.
From S2P Require Import Prelude Endian Mbuf MbufView Crypto Crc32 Sa Stun StunWire.

Open Scope Z_scope.

(** ** Values *)

(** Two values mean the same: buffers by the bytes they hold. *)
Definition same_val (v w : stun_val) : Prop :=
  match v, w with
  | VMb (Some m), VMb (Some n) => unread m = unread n
  | _, _ => v = w
  end.

Definition same_attr (a b : stun_attr) : Prop := attr_type a = attr_type b /\ same_val (attr_v a) (attr_v b).

#[export] Instance same_val_equiv : Equivalence same_val.
Proof.
  split.
  - intros v. destruct v; try done. by destruct m.
  - intros v w. destruct v as [| | | | | | | | | |[m1|]| |], w as [| | | | | | | | | |[m2|]| |]; cbn; congruence.
  - intros v w x. destruct v as [| | | | | | | | | |[m1|]| |], w as [| | | | | | | | | |[m2|]| |]; cbn;
      try congruence; destruct x as [| | | | | | | | | |[m3|]| |]; congruence.
Qed.

#[export] Instance same_attr_equiv : Equivalence same_attr.
Proof.
  split.
  - intros a. by split.
  - intros a b [Ht Hv]. by split.
  - intros a b c [Ht Hv] [Ht' Hv']. split; [congruence|by etransitivity].
Qed.

Section Decode.
Context `{H : Host} `{E : Evp}.
Context (Ham : ample_memory).

Lemma rd_app {A} (f : mbuf -> A * mbuf) a mb n {B} (k : A -> M mbuf B) :
  f mb = (a, adv mb n) -> bind (rd f) k mb = k a (adv mb n).
Proof. intros Hf. unfold bind, rd. by rewrite Hf. Qed.

Lemma left_ge_ok n mb {B} (k : unit -> M mbuf B) :
  mbuf_wf mb -> n <= zlength (rest mb) -> bind (left_ge n) k mb = k tt mb.
Proof.
  intros W Hn. unfold bind, left_ge, guard. rewrite mbuf_get_left_rest by done.
  by replace (zlength (rest mb) <? n) with false by (symmetry; apply Z.ltb_ge; lia).
Qed.

Lemma rd_mem_app mb d r n {B} (k : list Z -> M mbuf B) :
  mbuf_wf mb -> rest mb = d ++ r -> zlength d = n -> bind (rd_mem n) k mb = k d (adv mb n).
Proof.
  intros W Hr Hn. destruct (read_mem_app mb d r n W Hr Hn) as (Er & _). unfold bind, rd_mem. by rewrite Er.
Qed.

Lemma need_ok (b : bool) mb {B} (k : unit -> M mbuf B) : b = true -> bind (guard b EBADMSG) k mb = k tt mb.
Proof. by intros ->. Qed.

Lemma mask16_mask16 tid x : is_u16 x ->
  match tid with Some _ => Z.lxor (mask16 tid x) (Z.shiftr STUN_MAGIC_COOKIE 16) | None => mask16 tid x end = x.
Proof.
  intros Hx. destruct tid as [t|]; [|done]. cbn [mask16]. change (Z.shiftr STUN_MAGIC_COOKIE 16) with 0x2112.
  by rewrite Z.lxor_assoc, Z.lxor_nilpotent, Z.lxor_0_r.
Qed.

Lemma mask32_mask32 tid x :
  match tid with Some _ => Z.lxor (mask32 tid x) STUN_MAGIC_COOKIE | None => mask32 tid x end = x.
Proof.
  destruct tid as [t|]; [|done]. cbn [mask32]. by rewrite Z.lxor_assoc, Z.lxor_nilpotent, Z.lxor_0_r.
Qed.

Lemma zip_xor_involutive a b : (length a <= length b)%nat -> zip_with Z.lxor (zip_with Z.lxor a b) b = a.
Proof.
  revert b. induction a as [|x a IH]; intros [|y b] Hl; cbn in *; try done; [lia|].
  rewrite IH by lia. by rewrite Z.lxor_assoc, Z.lxor_nilpotent, Z.lxor_0_r.
Qed.

Definition tid_opt_wf (tid : option (list Z)) : Prop := forall t, tid = Some t -> tid_wf t.

Lemma in6_tid_length t : tid_wf t -> length ([0x21; 0x12; 0xa4; 0x42] ++ t) = 16%nat.
Proof. intros [Hl _]. unfold zlength in Hl. cbn. lia. Qed.

Lemma mask128_mask128 tid x : zlength x = 16 -> tid_opt_wf tid ->
  match tid with Some t => in6_xor_tid (mask128 tid x) t | None => mask128 tid x end = x.
Proof.
  intros Hx Ht. destruct tid as [t|]; [|done]. cbn [mask128]. apply zip_xor_involutive.
  rewrite in6_tid_length by by apply Ht. unfold zlength in Hx. lia.
Qed.

Lemma mask128_length tid x : zlength x = 16 -> tid_opt_wf tid -> zlength (mask128 tid x) = 16.
Proof.
  intros Hx Ht. destruct tid as [t|]; [|done]. cbn [mask128]. unfold zlength, in6_xor_tid.
  rewrite length_zip_with, in6_tid_length by by apply Ht. unfold zlength in Hx. lia.
Qed.

Lemma stun_addr_decode_app tid a r mb :
  sa_wf a -> tid_opt_wf tid -> mbuf_wf mb -> rest mb = addr_bytes tid a ++ r ->
  stun_addr_decode tid mb = (Ok a, adv mb (zlength (addr_bytes tid a))).
Proof.
  intros Ha Ht W Hr. unfold stun_addr_decode.
  destruct a as [addr port|addr port scope| |]; try done; unfold addr_bytes in *; cbn [app] in Hr |- *;
    rewrite <- app_assoc in Hr.
  - destruct Ha as [Haddr Hport]. rewrite left_ge_ok by (try done; rewrite Hr; zlen; pose proof (zlength_nonneg r); lia).
    destruct (read_u8_app _ _ _ W Hr) as (E1 & W1 & R1). rewrite (rd_app _ _ _ _ _ E1).
    destruct (read_u8_app _ _ _ W1 R1) as (E2 & W2 & R2). rewrite (rd_app _ _ _ _ _ E2).
    destruct (read_be16_app _ _ _ W2 R2) as (E3 & W3 & R3). rewrite (rd_app _ _ _ _ _ E3).
    rewrite (wrap_small 16) by by apply mask16_u16. rewrite mask16_mask16 by done.
    change (1 =? STUN_AF_IPv4) with true. cbv iota.
    rewrite left_ge_ok by (try done; rewrite R3; zlen; pose proof (zlength_nonneg r); lia).
    destruct (read_be32_app _ _ _ W3 R3) as (E4 & W4 & R4). rewrite (rd_app _ _ _ _ _ E4).
    rewrite (wrap_small 32) by by apply mask32_u32. rewrite mask32_mask32. unfold ret, sa_set_in.
    rewrite !wrap_small by done. by rewrite !adv_adv, !zlength_cons, zlength_app, !zlength_be_bytes.
  - destruct Ha as (Hl & Hb & Hport & ->). pose proof (mask128_length tid addr Hl Ht) as Hm.
    rewrite left_ge_ok by (try done; rewrite Hr; zlen; pose proof (zlength_nonneg r); lia).
    destruct (read_u8_app _ _ _ W Hr) as (E1 & W1 & R1). rewrite (rd_app _ _ _ _ _ E1).
    destruct (read_u8_app _ _ _ W1 R1) as (E2 & W2 & R2). rewrite (rd_app _ _ _ _ _ E2).
    destruct (read_be16_app _ _ _ W2 R2) as (E3 & W3 & R3). rewrite (rd_app _ _ _ _ _ E3).
    rewrite (wrap_small 16) by by apply mask16_u16. rewrite mask16_mask16 by done.
    change (2 =? STUN_AF_IPv4) with false. change (2 =? STUN_AF_IPv6) with true. cbv iota.
    rewrite left_ge_ok by (try done; rewrite R3; zlen; pose proof (zlength_nonneg r); lia).
    rewrite (rd_mem_app _ _ _ _ _ W3 R3 Hm), mask128_mask128 by done. unfold ret, sa_set_in6.
    rewrite wrap_small, ztake_ge by (done || lia). by rewrite !adv_adv, !zlength_cons, zlength_app, zlength_be_bytes, Hm.
Qed.

Lemma str_decode_app s r mb :
  str_wf s -> mbuf_wf mb -> rest mb = cstr s ++ r -> zlength (cstr s) < 2 ^ 16 ->
  str_decode (zlength (cstr s)) mb = (Ok s, adv mb (zlength (cstr s))).
Proof.
  intros [Hs _] W Hr Hl. pose proof (zlength_nonneg (cstr s)). pose proof (zlength_nonneg r). unfold str_decode.
  rewrite left_ge_ok by (try done; rewrite Hr, zlength_app; lia). unfold mbuf_strdup, mem_alloc.
  rewrite wrap_small by lia. destruct (Ham (zlength (cstr s) + 1)) as [[b Hb] _]; [unfold MEM_SIZE_MAX; lia|].
  rewrite Hb. unfold MEM_SIZE_MAX. decide_test. destruct (read_mem_app mb _ r _ W Hr eq_refl) as (-> & _).
  cbn [Z.eqb]. by rewrite <- Hs.
Qed.

Lemma read_types_app l : forall mb r, Forall is_u16 l -> mbuf_wf mb -> rest mb = concat (map (be_bytes 2) l) ++ r ->
  read_types (length l) mb = (Ok l, adv mb (2 * zlength l)).
Proof.
  induction l as [|x l IH]; intros mb r Hl W Hr; cbn [read_types length map concat] in *.
  - unfold ret, adv, mbuf_set_pos. change (2 * zlength (@nil Z)) with 0. rewrite Z.add_0_r. by destruct mb.
  - inversion_clear Hl as [|? ? Hx Hl']. rewrite <- app_assoc in Hr.
    destruct (read_be16_app _ _ _ W Hr) as (E1 & W1 & R1). rewrite (rd_app _ _ _ _ _ E1).
    unfold bind at 1. rewrite (IH _ _ Hl' W1 R1), adv_adv, (wrap_small 16) by done. unfold ret.
    rewrite zlength_cons. do 2 f_equal. lia.
Qed.

Lemma zlength_types l : zlength (concat (map (be_bytes 2) l)) = 2 * zlength l.
Proof.
  induction l as [|x l IH]; [done|]. cbn [map concat]. rewrite zlength_app, IH, zlength_be_bytes, zlength_cons. lia.
Qed.

(** The value of an attribute is read back; what follows it up to the next
    multiple of four is left to the padding. *)
Lemma decode_body_app a tid r mb :
  let d := val_bytes (Some tid) (attr_type a) (attr_v a) in
  attr_wf a -> tid_wf tid -> mbuf_wf mb -> rest mb = d ++ r -> zlength d < 2 ^ 16 ->
  exists n v, decode_body (attr_type a) (zlength d) tid mb = (Ok v, adv mb n) /\ same_val (attr_v a) v
    /\ 0 <= n <= zlength d /\ n + pad_len n = zlength d + pad_len (zlength d).
Proof.
  intros d [_ Ha] Ht W Hr Hl. destruct a as [type v]. cbn [attr_type attr_v] in *. unfold decode_body. subst d.
  unfold val_bytes in *. destruct (attr_kind type), v; try done.
  - eexists _, _. split; [|split; [|split]]; [|reflexivity| |reflexivity]; [|pose proof (zlength_nonneg (addr_bytes None a)); lia].
    unfold bind at 1. rewrite (stun_addr_decode_app None a r mb) by done. done.
  - eexists _, _. split; [|split; [|split]]; [|reflexivity| |reflexivity]; [|pose proof (zlength_nonneg (addr_bytes (Some tid) a)); lia].
    unfold bind at 1. rewrite (stun_addr_decode_app (Some tid) a r mb); [done|done|by intros ? [= <-]|done|done].
  - exists 4. eexists. split; [|split; [|split]]; [|reflexivity|done|done]. rewrite need_ok by done.
    assert (R : rest mb = be_bytes 4 (4 * Z.b2z ip + 2 * Z.b2z port) ++ r) by (rewrite Hr; by destruct ip, port).
    destruct (read_be32_app _ _ _ W R) as (E1 & _). rewrite (rd_app _ _ _ _ _ E1). by destruct ip, port.
  - eexists _, _. split; [|split; [|split]]; [|reflexivity| |reflexivity]; [|pose proof (zlength_nonneg (cstr s)); lia].
    unfold bind at 1. by rewrite (str_decode_app s r mb).
  - destruct Ha as [H20 _]. exists 20. eexists. rewrite H20. split; [|split; [|split]]; [|reflexivity|done|done].
    rewrite need_ok by done. by rewrite (rd_mem_app _ _ _ _ _ W Hr H20).
  - destruct Ha as [Hc Hs]. rewrite zlength_app in *. change (zlength [0; 0; code / 100; code mod 100]) with 4 in *.
    pose proof (zlength_nonneg (cstr reason)).
    eexists _, _. split; [|split; [|split]]; [|reflexivity| |reflexivity]; [|lia].
    rewrite need_ok by (rewrite (proj2 (Z.ltb_ge _ _)); [done|lia]).
    cbn [app] in Hr. unfold bind at 1, move. rewrite mbuf_advance_adv
      by (try done; rewrite Hr, !zlength_cons, zlength_app; pose proof (zlength_nonneg r); lia).
    destruct (adv_step mb [0; 0] _ 2 W Hr eq_refl) as [W1 R1].
    destruct (read_u8_app _ _ _ W1 R1) as (E2 & W2 & R2). rewrite (rd_app _ _ _ _ _ E2).
    destruct (read_u8_app _ _ _ W2 R2) as (E3 & W3 & R3). rewrite (rd_app _ _ _ _ _ E3).
    replace (4 + zlength (cstr reason) - 4) with (zlength (cstr reason)) by lia.
    unfold bind at 1. rewrite (str_decode_app reason r _ Hs W3 R3) by lia. unfold ret. rewrite !adv_adv.
    assert (Ec : u16 (Z.land (code / 100) 7 * 100 + code mod 100) = code).
    { change 7 with (Z.ones 3). rewrite Z.land_ones by lia. change (2 ^ 3) with 8.
      rewrite (Z.mod_small (code / 100)) by (Z.to_euclidean_division_equations; lia).
      rewrite wrap_small by (Z.to_euclidean_division_equations; lia). pose proof (Z.div_mod code 100). lia. }
    rewrite Ec. do 2 f_equal. lia.
  - destruct Ha as [H8 Hu]. rewrite zlength_types in *. pose proof (zlength_nonneg typev).
    eexists _, _. split; [|split; [|split]]; [|reflexivity| |reflexivity]; [|lia].
    replace (2 * zlength typev / 2) with (zlength typev) by (symmetry; rewrite Z.mul_comm; by apply Z.div_mul).
    unfold bind at 1, zlength at 1. rewrite Nat2Z.id, (read_types_app typev mb r) by done. unfold ret.
    by rewrite ztake_ge by (unfold zlength; lia).
  - exists 2. eexists. rewrite zlength_app, zlength_be_bytes in *. split; [|split; [|split]]; [|reflexivity|done|done].
    rewrite <- app_assoc in Hr. rewrite need_ok by done. destruct (read_be16_app _ _ _ W Hr) as (E1 & _).
    rewrite (rd_app _ _ _ _ _ E1), wrap_small by done. done.
  - exists 4. eexists. rewrite zlength_be_bytes in *. split; [|split; [|split]]; [|reflexivity|done|done].
    rewrite need_ok by done. destruct (read_be32_app _ _ _ W Hr) as (E1 & _). by rewrite (rd_app _ _ _ _ _ E1), wrap_small by done.
  - destruct m as [m|]; [|done]. destruct Ha as [Wm _]. pose proof (zlength_nonneg (unread m)). pose proof (zlength_nonneg r).
    assert (Hp : mb_pos mb + zlength (unread m) <= mb_end mb).
    { pose proof (zlength_rest mb W) as Hlr. rewrite Hr, zlength_app in Hlr. lia. }
    assert (Hw : u64 (mb_pos mb + zlength (unread m)) = mb_pos mb + zlength (unread m))
      by (mbuf_wf_facts; apply wrap_small; lia).
    cbv zeta. rewrite Hw. exists (zlength (unread m)). eexists. split; [reflexivity|]. split; [|split; [lia|reflexivity]].
    cbn [same_val]. symmetry. unfold unread at 1, mbuf_get_left, mbuf_buf, mb_mem. cbn [mb_buf mb_pos mb_end].
    fold (mb_mem mb). fold (mbuf_buf mb). replace (if _ >? _ then _ else 0) with (zlength (unread m)) by (case_test; lia).
    rewrite mbuf_buf_rest, Hr, ztake_app_exact by (try done; rewrite Hr, zlength_app; lia). done.
  - exists 1. eexists. split; [|split; [|split]]; [|reflexivity|done|done]. rewrite need_ok by done.
    destruct (read_u8_app _ _ _ W Hr) as (E1 & _). by rewrite (rd_app _ _ _ _ _ E1).
  - exists 1. eexists. split; [|split; [|split]]; [|reflexivity|done|done]. rewrite need_ok by done.
    destruct (read_u8_app _ _ _ W Hr) as (E1 & _). rewrite (rd_app _ _ _ _ _ E1). by destruct r0.
  - exists 0. eexists. split; [|split; [|split]]; [|reflexivity|done|done]. rewrite need_ok by done.
    unfold ret, adv, mbuf_set_pos. rewrite Z.add_0_r. by destruct mb.
  - exists 8. eexists. rewrite zlength_be_bytes in *. split; [|split; [|split]]; [|reflexivity|done|done].
    rewrite need_ok by done. destruct (read_be64_app _ _ _ W Hr) as (E1 & _). by rewrite (rd_app _ _ _ _ _ E1), wrap_small by done.
Qed.

Lemma skip_pad_done k : forall fuel start mb,
  (k <= fuel)%nat -> (k < 4)%nat -> mbuf_wf mb -> 0 <= start <= mb_pos mb -> Z.of_nat k <= zlength (rest mb) ->
  (mb_pos mb - start + Z.of_nat k) mod 4 = 0 -> skip_pad fuel start mb = adv mb (Z.of_nat k).
Proof.
  induction k as [|k IH]; intros fuel start mb Hf Hk W Hs Hr Hm; pose proof (aligned mb start W Hs) as Ea.
  - rewrite Z.add_0_r in Hm. unfold adv, mbuf_set_pos. cbn [Z.of_nat]. rewrite Z.add_0_r.
    destruct fuel; cbn [skip_pad]; rewrite ?Ea, ?Hm; by destruct mb.
  - destruct fuel as [|fuel]; [lia|]. cbn [skip_pad]. rewrite Ea, mbuf_get_left_rest by done.
    rewrite (proj2 (Z.eqb_neq _ 0)) by (intros E0; rewrite <- Z.add_mod_idemp_l, E0, Z.mod_small in Hm; lia).
    rewrite (proj2 (Z.eqb_neq _ 0)) by lia. cbn [negb andb]. rewrite mbuf_advance_adv by (try done; lia).
    rewrite (IH fuel start (adv mb 1)); try lia.
    + rewrite adv_adv. f_equal. lia.
    + apply adv_wf; [done|lia].
    + cbn. lia.
    + rewrite rest_adv, zlength_zdrop by (done || lia). lia.
    + cbn. rewrite <- Hm. f_equal. lia.
Qed.

Lemma stun_attr_decode_app a tid padding ua r mb :
  attr_wf a -> tid_wf tid -> mbuf_wf mb -> rest mb = attr_bytes (Some tid) padding a ++ r ->
  zlength (attr_bytes (Some tid) padding a) < 2 ^ 16 ->
  exists a', stun_attr_decode tid ua mb = (Ok a', ua, adv mb (zlength (attr_bytes (Some tid) padding a)))
    /\ same_attr a a'.
Proof.
  intros Ha Ht W Hr Hl. rewrite zlength_attr_bytes in *. pose proof (proj1 Ha) as Hu.
  unfold attr_bytes in Hr. rewrite <- !app_assoc in Hr. set (d := val_bytes _ _ _) in *.
  pose proof (zlength_nonneg d). pose proof (pad_len_range (zlength d)). pose proof (zlength_nonneg r).
  unfold stun_attr_decode. rewrite mbuf_get_left_rest, Hr, !zlength_app, !zlength_be_bytes, zlength_replicate by (done || lia).
  rewrite (proj2 (Z.ltb_ge _ 4)) by lia. unfold mem_alloc.
  destruct (Ham SIZEOF_STUN_ATTR) as [[b Hb] _]; [done|]. rewrite Hb. cbn [Z.gtb Z.compare SIZEOF_STUN_ATTR].
  change (SIZEOF_STUN_ATTR >? MEM_SIZE_MAX) with false. cbv iota.
  destruct (read_be16_app _ _ _ W Hr) as (-> & W1 & R1). destruct (read_be16_app _ _ _ W1 R1) as (-> & W2 & R2).
  rewrite adv_adv in *. change (2 + 2) with 4 in *. rewrite (wrap_small 16 (attr_type a)), (wrap_small 16 (zlength d)) by (done || lia).
  rewrite mbuf_get_left_rest, R2, !zlength_app, zlength_replicate by (done || lia). rewrite (proj2 (Z.ltb_ge _ _)) by lia.
  destruct (decode_body_app a tid _ _ Ha Ht W2 R2 ltac:(fold d; lia)) as (n & v & Ed & Hv & Hn & Hpad). fold d in Ed, Hn, Hpad.
  rewrite Ed. exists (StunAttr (attr_type a) v). split; [|by split]. pose proof (pad_len_range n).
  assert (Hlr : zlength (rest (adv mb 4)) = zlength d + (pad_len (zlength d) + zlength r)).
  { rewrite R2, !zlength_app, zlength_replicate; lia. }
  assert (Wn : mbuf_wf (adv (adv mb 4) n)) by (apply adv_wf; [done|lia]).
  assert (Hp4 : 0 <= mb_pos (adv mb 4)) by (destruct W2; lia).
  assert (Hns : note_unknown (attr_type a) ua = ua).
  { destruct Ha as [_ Ha]. unfold note_unknown. by destruct (attr_kind (attr_type a)). }
  rewrite Hns, (skip_pad_done (Z.to_nat (pad_len n)) 3 (mb_pos (adv mb 4))); try done; rewrite ?Z2Nat.id by lia; try lia.
  - rewrite !adv_adv. do 2 f_equal. lia.
  - split; [done|]. cbn. lia.
  - rewrite rest_adv, zlength_zdrop by (done || lia). lia.
  - rewrite <- (pad_len_mod n). f_equal. cbn. lia.
Qed.

Lemma attr_bytes_align tid padding a : zlength (attr_bytes tid padding a) mod 4 = 0 /\ 4 <= zlength (attr_bytes tid padding a).
Proof.
  rewrite zlength_attr_bytes. set (n := zlength _). pose proof (zlength_nonneg (val_bytes tid (attr_type a) (attr_v a))).
  pose proof (pad_len_range n). pose proof (pad_len_mod n). fold n in H0. split; [|lia].
  rewrite <- Z.add_assoc, <- Z.add_mod_idemp_r, H2 by lia. done.
Qed.

Lemma body_bytes_align tid padding l : zlength (body_bytes tid padding l) mod 4 = 0.
Proof.
  induction l as [|a l IH]; [done|]. rewrite body_bytes_cons, zlength_app.
  rewrite <- Z.add_mod_idemp_l, (proj1 (attr_bytes_align _ _ _)) by lia. done.
Qed.

Lemma decode_attrs_app tid padding l : forall fuel ua acc mb r,
  Forall attr_wf l -> tid_wf tid -> mbuf_wf mb -> rest mb = body_bytes tid padding l ++ r ->
  zlength (body_bytes tid padding l) < 2 ^ 16 -> (length l <= fuel)%nat ->
  exists l', decode_attrs fuel tid (zlength r) ua acc mb
      = Some (Ok (acc ++ l'), ua, adv mb (zlength (body_bytes tid padding l)))
    /\ Forall2 same_attr l l'.
Proof.
  induction l as [|a l IH]; intros fuel ua acc mb r Hl Ht W Hr H16 Hf.
  - exists []. change (body_bytes tid padding []) with (@nil Z) in *. cbn [app] in Hr.
    assert (E0 : u64 (mbuf_get_left mb - zlength r) = 0) by (rewrite mbuf_get_left_rest, Hr, Z.sub_diag by done; done).
    split; [|constructor]. rewrite app_nil_r. change (zlength (@nil Z)) with 0.
    unfold adv, mbuf_set_pos. rewrite Z.add_0_r. destruct fuel; cbn [decode_attrs]; rewrite E0; by destruct mb.
  - inversion_clear Hl as [|? ? Ha Hl']. rewrite body_bytes_cons, <- app_assoc in Hr.
    rewrite body_bytes_cons, zlength_app in *. destruct fuel as [|fuel]; [cbn in Hf; lia|].
    destruct (attr_bytes_align (Some tid) padding a) as [_ H4]. pose proof (zlength_nonneg (body_bytes tid padding l)).
    cbn [decode_attrs]. rewrite mbuf_get_left_rest, Hr, !zlength_app by done. rewrite wrap_small by lia.
    rewrite Z.geb_leb, (proj2 (Z.leb_le _ _)) by lia.
    destruct (stun_attr_decode_app a tid padding ua _ mb Ha Ht W Hr ltac:(lia)) as (a' & -> & Hs).
    destruct (adv_step mb _ _ _ W Hr eq_refl) as [W1 R1].
    destruct (IH fuel ua (acc ++ [a']) _ r Hl' Ht W1 R1 ltac:(lia) ltac:(cbn in Hf; lia)) as (l' & -> & Hs').
    exists (a' :: l'). rewrite adv_adv, <- app_assoc. split; [done|]. by constructor.
Qed.

Lemma stun_hdr_decode_app type len tid mb r :
  0 <= type < 2 ^ 14 -> 0 <= len < 2 ^ 16 -> len mod 4 = 0 -> len <= zlength r -> tid_wf tid -> mbuf_wf mb ->
  rest mb = header type len tid ++ r ->
  stun_hdr_decode mb = (Ok (StunHdr type len STUN_MAGIC_COOKIE tid), adv mb 20).
Proof.
  intros Hty Hlen Hm Hr Ht W R. unfold header, hdr_bytes in R. cbn [hdr_type hdr_len hdr_cookie hdr_tid] in R.
  rewrite <- !app_assoc in R. unfold stun_hdr_decode.
  pose proof (proj1 Ht) as H12. rewrite mbuf_get_left_rest, R, !zlength_app, !zlength_be_bytes by done.
  unfold STUN_HEADER_SIZE. rewrite (proj2 (Z.ltb_ge _ 20)) by lia.
  destruct (read_be16_app _ _ _ W R) as (-> & W1 & R1). rewrite (wrap_small 16 type) by lia.
  assert (Ec : Z.land type 0xc000 = 0).
  { apply Z.bits_inj'. intros i Hi. rewrite Z.land_spec, Z.bits_0. destruct (Z.lt_ge_cases i 14).
    - change 0xc000 with (3 * 2 ^ 14). rewrite Z.mul_pow2_bits_low by lia. apply andb_false_r.
    - rewrite <- (Z.mod_small type (2 ^ 14)), Z.mod_pow2_bits_high by lia. done. }
  rewrite Ec. cbn [Z.eqb negb].
  destruct (read_be16_app _ _ _ W1 R1) as (-> & W2 & R2). rewrite (wrap_small 16 len) by lia.
  change 3 with (Z.ones 2). rewrite Z.land_ones by lia. change (2 ^ 2) with 4. rewrite Hm. cbn [Z.eqb negb].
  destruct (read_be32_app _ _ _ W2 R2) as (-> & W3 & R3).
  destruct (read_mem_app _ _ _ STUN_TID_SIZE W3 R3 H12) as (-> & W4 & R4).
  rewrite mbuf_get_left_rest, R4 by done. rewrite (proj2 (Z.ltb_ge _ _)) by lia. rewrite !adv_adv. done.
Qed.

Lemma adv_back mb n p : mb_pos mb = p -> mbuf_set_pos (adv mb n) p = mb.
Proof. intros <-. by destruct mb. Qed.

Lemma stun_msg_decode_app type tid padding l fuel ua mb r :
  0 <= type < 2 ^ 14 -> Forall attr_wf l -> tid_wf tid -> zlength (body_bytes tid padding l) < 2 ^ 16 ->
  mbuf_wf mb -> rest mb = msg_bytes type tid padding l ++ r -> (length l <= fuel)%nat ->
  exists l', stun_msg_decode fuel ua mb
      = Some (Ok (StunMsg (StunHdr type (zlength (body_bytes tid padding l)) STUN_MAGIC_COOKIE tid) l' mb (mb_pos mb)),
              option_map (fun _ => []) ua, mb)
    /\ Forall2 same_attr l l'.
Proof.
  intros Hty Hl Ht H16 W R Hf. unfold msg_bytes in R. rewrite <- app_assoc in R. unfold stun_msg_decode.
  set (body := body_bytes tid padding l) in *. pose proof (zlength_nonneg body). pose proof (zlength_nonneg r).
  rewrite (stun_hdr_decode_app type (zlength body) tid mb (body ++ r))
    by first [done | lia | apply body_bytes_align | rewrite zlength_app; lia].
  unfold mem_alloc. destruct (Ham SIZEOF_STUN_MSG) as [[b Hb] _]; [done|]. rewrite Hb.
  change (SIZEOF_STUN_MSG >? MEM_SIZE_MAX) with false. cbv iota zeta. cbn [hdr_len hdr_tid].
  destruct (adv_step mb _ _ 20 W R (zlength_header _ _ _ Ht)) as [W1 R1].
  rewrite mbuf_get_left_rest, R1, zlength_app by done.
  assert (Hsz : zlength r < 2 ^ 64).
  { pose proof (zlength_rest mb W) as Hlr. rewrite R, !zlength_app in Hlr. pose proof (zlength_nonneg (header type (zlength body) tid)).
    mbuf_wf_facts. lia. }
  replace (zlength body + zlength r - zlength body) with (zlength r) by lia. rewrite wrap_small by lia.
  destruct (decode_attrs_app tid padding l fuel (option_map (fun _ => []) ua) [] _ r Hl Ht W1 R1 H16 Hf) as (l' & -> & Hs).
  exists l'. split; [|done]. cbn [mbind option_bind app]. by rewrite adv_adv, adv_back.
Qed.

(** ** Integrity and fingerprint checks *)

Lemma mbuf_buf_mid mb c x y : holds mb (c ++ x ++ y) (zlength c) -> ztake (zlength x) (mbuf_buf mb) = x.
Proof.
  intros Hh. pose proof (zlength_nonneg x). pose proof (zlength_nonneg y).
  assert (Er : rest mb = x ++ y) by (rewrite (holds_rest _ _ _ Hh); apply zdrop_app_exact).
  rewrite mbuf_buf_rest, Er by (try apply Hh; rewrite Er, zlength_app; lia). apply ztake_app_exact.
Qed.

Definition with_len (h : stun_hdr) (len : Z) : stun_hdr := StunHdr (hdr_type h) len (hdr_cookie h) (hdr_tid h).

Definition hdr_wf (h : stun_hdr) : Prop := 0 <= hdr_type h < 2 ^ 14 /\ is_u16 (hdr_len h) /\ is_u32 (hdr_cookie h) /\ tid_wf (hdr_tid h).

Lemma with_len_wf h len : hdr_wf h -> is_u16 len -> hdr_wf (with_len h len).
Proof. intros (H1 & _ & H2 & H3) Hl. exact (conj H1 (conj Hl (conj H2 H3))). Qed.

Lemma patch_len_done msg n c b mb :
  let h := msg_hdr msg in
  hdr_wf h -> is_u16 (hdr_len h + n) -> zlength c < 2 ^ 30 -> holds mb (c ++ hdr_bytes h ++ b) (zlength c) ->
  exists mb', patch_len msg n mb = (with_len h (hdr_len h + n), mb')
    /\ holds mb' (c ++ hdr_bytes (with_len h (hdr_len h + n)) ++ b) (zlength c).
Proof.
  intros h Hwf Hn Hc Hh. unfold patch_len. fold h. rewrite (wrap_small 16) by done.
  pose proof (with_len_wf h _ Hwf Hn) as (Hty & _ & _ & Ht). fold (with_len h (hdr_len h + n)).
  destruct (hdr_encode_writes Ham (with_len h (hdr_len h + n)) Hty Ht) as [Hw _].
  pose proof (zlength_nonneg c). pose proof (zlength_nonneg b).
  assert (Hl : forall k, zlength (hdr_bytes (with_len h k)) = 20) by (intros k; apply zlength_stun_hdr; exact Ht).
  assert (Hl' : zlength (hdr_bytes h) = 20) by (apply zlength_stun_hdr; exact Ht).
  destruct (holds_overwrite mb _ _ c (hdr_bytes h) b Hw Hh) as (mb1 & -> & Hh1);
    [by rewrite Hl, Hl'|done|rewrite zlength_app; lia|].
  rewrite (holds_pos _ _ _ Hh1), zlength_app, Hl. unfold STUN_HEADER_SIZE.
  replace (zlength c + 20 - 20) with (zlength c) by lia. rewrite wrap_small by lia. eexists. split; [done|].
  apply (holds_set_pos _ _ _ _ Hh1). rewrite !zlength_app, Hl. lia.
Qed.

(** Looking for an attribute only compares types. *)
Lemma find_attr_app type l1 a l2 :
  Forall (fun x => attr_type x <> type) l1 -> attr_type a = type ->
  List.find (fun x => attr_type x =? type) (l1 ++ a :: l2) = Some a.
Proof.
  intros Hl Ha. induction Hl as [|x l1 Hx _ IH]; cbn.
  - by rewrite Ha, Z.eqb_refl.
  - by rewrite (proj2 (Z.eqb_neq _ _) Hx).
Qed.

Lemma find_attr_none type l :
  Forall (fun x => attr_type x <> type) l -> List.find (fun x => attr_type x =? type) l = None.
Proof. induction 1 as [|x l Hx _ IH]; cbn; [done|]. by rewrite (proj2 (Z.eqb_neq _ _) Hx). Qed.

Lemma same_types type l l' :
  Forall2 same_attr l l' -> Forall (fun x => attr_type x <> type) l -> Forall (fun x => attr_type x <> type) l'.
Proof.
  induction 1 as [|a a' l l' [Ht _] _ IH]; intros Hl; [constructor|]. inversion_clear Hl. constructor; [congruence|by apply IH].
Qed.

Context {L : EvpLaws}.

Lemma hmac_sha1_length key data : zlength (hmac_sha1 key data (replicate 20 0)) = 20.
Proof.
  unfold hmac_sha1. destruct (HMAC HMAC_HASH_SHA1 key data) as [t|] eqn:Et; [by apply hmac_length in Et as [? _]|done].
Qed.

Definition has_fp (msg : stun_msg) : bool :=
  match stun_msg_attr msg STUN_ATTR_FINGERPRINT with Some _ => true | None => false end.

(** The bytes behind the authenticated part: the integrity attribute and the
    fingerprint. *)
Definition mi_tail_len (msg : stun_msg) : Z := MI_SIZE + if has_fp msg then FP_SIZE else 0.

(** What stun_msg_chk_mi does with a message that is followed by [tail]. *)
Lemma chk_mi_exact msg key c body tail p mi d :
  let h := msg_hdr msg in
  hdr_wf h -> zlength c < 2 ^ 30 -> holds (msg_mb msg) (c ++ hdr_bytes h ++ body ++ tail) p ->
  msg_start msg = zlength c -> hdr_len h = zlength body + mi_tail_len msg ->
  stun_msg_attr msg STUN_ATTR_MSG_INTEGRITY = Some mi -> attr_v mi = VMi d -> zlength d = 20 ->
  exists mb', stun_msg_chk_mi msg key
      = (if bool_decide (d = hmac_sha1 key (hdr_bytes (with_len h (zlength body + MI_SIZE)) ++ body) (replicate 20 0))
         then 0 else EBADMSG, StunMsg h (msg_attrl msg) mb' (msg_start msg))
    /\ holds mb' (c ++ hdr_bytes h ++ body ++ tail) (zlength c).
Proof.
  intros h Hwf Hc Hh Hst Hlen Hmi Hv Hd. pose proof (zlength_nonneg c). pose proof (zlength_nonneg body).
  assert (H20 : forall k, zlength (hdr_bytes (with_len h k)) = 20) by (intros; apply zlength_stun_hdr, Hwf).
  assert (H20' : zlength (hdr_bytes h) = 20) by (apply zlength_stun_hdr, Hwf).
  pose proof (zlength_nonneg tail).
  pose proof (holds_set_pos _ _ _ (zlength c) Hh ltac:(rewrite zlength_app; pose proof (zlength_nonneg (hdr_bytes h ++ body ++ tail)); lia)) as Hh0.
  pose proof (proj1 (proj2 Hwf)) as H16. unfold is_u16 in H16.
  unfold stun_msg_chk_mi. rewrite Hmi, Hv, Hst. fold (has_fp msg). unfold mi_tail_len in Hlen. fold h.
  rewrite (ztake_ge SHA_DIGEST_LENGTH d) by (unfold SHA_DIGEST_LENGTH; lia).
  unfold MI_SIZE, FP_SIZE, STUN_HEADER_SIZE in *.
  assert (Hbuf : forall mb k, holds mb (c ++ hdr_bytes (with_len h k) ++ body ++ tail) (zlength c) ->
    ztake (20 + zlength body) (mbuf_buf mb) = hdr_bytes (with_len h k) ++ body).
  { intros mb k Hb. rewrite (app_assoc (hdr_bytes _)) in Hb. pose proof (mbuf_buf_mid mb c _ tail Hb) as Em.
    by rewrite zlength_app, H20 in Em. }
  destruct (has_fp msg).
  - destruct (patch_len_done msg (-8) c (body ++ tail) _ Hwf ltac:(unfold is_u16; fold h; lia) Hc Hh0) as (mb1 & E1 & Hh1).
    fold h in E1, Hh1. change (Z.opp 8) with (-8). rewrite E1. cbn [hdr_len with_len].
    replace (hdr_len h + -8) with (zlength body + 24) in * by lia.
    replace (20 + (zlength body + 24) - 24) with (20 + zlength body) by lia. rewrite wrap_small, (Hbuf _ _ Hh1) by lia.
    rewrite (ztake_ge SHA_DIGEST_LENGTH (hmac_sha1 _ _ _)) by (by rewrite hmac_sha1_length).
    destruct (patch_len_done (StunMsg (with_len h (zlength body + 24)) (msg_attrl msg) mb1 (zlength c)) 8 c (body ++ tail) mb1)
      as (mb2 & E2 & Hh2); [apply with_len_wf; [done|unfold is_u16; lia]|cbn; unfold is_u16; lia|done|done|].
    cbn [msg_hdr hdr_len with_len] in E2, Hh2. rewrite E2. exists mb2.
    assert (Eh : with_len (with_len h (zlength body + 24)) (zlength body + 24 + 8) = h)
      by (destruct h; unfold with_len; cbn in *; f_equal; lia).
    rewrite Eh in *. done.
  - assert (Eh : with_len h (zlength body + 24) = h) by (destruct h; unfold with_len; cbn in *; f_equal; lia).
    rewrite Eh. replace (20 + hdr_len h - 24) with (20 + zlength body) by lia. rewrite wrap_small by lia.
    rewrite <- Eh in Hh0. rewrite (Hbuf _ _ Hh0), Eh.
    rewrite (ztake_ge SHA_DIGEST_LENGTH (hmac_sha1 _ _ _)) by (by rewrite hmac_sha1_length). rewrite Eh in Hh0. eexists. by split.
Qed.

Lemma chk_fp_exact msg c body tail p fp n :
  let h := msg_hdr msg in
  hdr_wf h -> zlength c < 2 ^ 30 -> holds (msg_mb msg) (c ++ hdr_bytes h ++ body ++ tail) p ->
  msg_start msg = zlength c -> hdr_len h = zlength body + FP_SIZE ->
  stun_msg_attr msg STUN_ATTR_FINGERPRINT = Some fp -> attr_v fp = VU32 n ->
  (stun_msg_chk_fingerprint msg).1 = if n =? fingerprint (hdr_bytes h ++ body) then 0 else EBADMSG.
Proof.
  intros h Hwf Hc Hh Hst Hlen Hfp Hv. pose proof (zlength_nonneg c). pose proof (zlength_nonneg body).
  assert (H20 : zlength (hdr_bytes h) = 20) by (apply zlength_stun_hdr, Hwf).
  pose proof (holds_set_pos _ _ _ (zlength c) Hh ltac:(rewrite zlength_app; pose proof (zlength_nonneg (hdr_bytes h ++ body ++ tail)); lia)) as Hh0.
  pose proof (proj1 (proj2 Hwf)) as H16. unfold is_u16 in H16.
  unfold stun_msg_chk_fingerprint. rewrite Hfp, Hv, Hst. fold h. unfold STUN_HEADER_SIZE, FP_SIZE in *.
  replace (20 + hdr_len h - 8) with (20 + zlength body) by lia. rewrite wrap_small by lia. cbn [as_num fst].
  rewrite app_assoc in Hh0. pose proof (mbuf_buf_mid _ c _ tail ltac:(by rewrite <- app_assoc in Hh0 |- *)) as Em.
  rewrite zlength_app, H20 in Em. rewrite Em, Z.eqb_sym. by destruct (n =? _).
Qed.

Context {R : EvpReliable}.

Definition user_attr (a : stun_attr) : Prop :=
  attr_type a <> STUN_ATTR_MSG_INTEGRITY /\ attr_type a <> STUN_ATTR_FINGERPRINT.

Lemma msg_attrs_wf method class tid ec key fp padding attrs :
  msg_wf tid ec padding attrs ->
  let l := msg_attrs method class tid ec key fp padding attrs in
  Forall attr_wf l /\ zlength (body_bytes tid padding l) < 2 ^ 16
  /\ (length l <= length attrs + 3)%nat.
Proof.
  intros (Ht & Hp & Hw & Hl) l. unfold MI_SIZE, FP_SIZE in Hl.
  assert (Hs : (length (sent attrs) <= length attrs)%nat).
  { clear. induction attrs as [|[t [v|]] attrs IH]; [done| |].
    - change (S (length (sent attrs)) <= S (length attrs))%nat. lia.
    - change (length (sent attrs) <= S (length attrs))%nat. lia. }
  set (l1 := ec_attr ec ++ sent attrs) in *. set (type := STUN_TYPE method class).
  assert (Hmi : Forall attr_wf (mi_tail key type tid (body_bytes tid padding l1))
    /\ zlength (body_bytes tid padding (mi_tail key type tid (body_bytes tid padding l1))) <= 24
    /\ (length (mi_tail key type tid (body_bytes tid padding l1)) <= 1)%nat).
  { destruct key as [key|]; cbn [mi_tail]; [|split_and!; [constructor|vm_compute; congruence|cbn; lia]]. split_and!; [|rewrite body_bytes_cons, app_nil_r|done].
    - constructor; [apply mi_attr_wf|constructor].
    - by rewrite <- attr_bytes_tid, mi_attr_length. }
  destruct Hmi as (Hwmi & Hlmi & Hnmi).
  set (l2 := l1 ++ mi_tail key type tid (body_bytes tid padding l1)).
  assert (Hw2 : Forall attr_wf l2) by (by apply Forall_app).
  assert (Hfp : Forall attr_wf (fp_tail fp type tid (body_bytes tid padding l2))
    /\ zlength (body_bytes tid padding (fp_tail fp type tid (body_bytes tid padding l2))) <= 8
    /\ (length (fp_tail fp type tid (body_bytes tid padding l2)) <= 1)%nat).
  { destruct fp; cbn [fp_tail]; [|split_and!; [constructor|vm_compute; congruence|cbn; lia]]. split_and!; [|rewrite body_bytes_cons, app_nil_r|done].
    - constructor; [apply fp_attr_wf; [done|by apply body_bytes_bytes]|constructor].
    - by rewrite <- attr_bytes_tid, fp_attr_length. }
  destruct Hfp as (Hwfp & Hlfp & Hnfp). change l with (l2 ++ fp_tail fp type tid (body_bytes tid padding l2)). split_and!.
  - by apply Forall_app.
  - unfold l2 in *. rewrite !body_bytes_app, !zlength_app in *. lia.
  - rewrite length_app. assert (Hl2 : length l2 = (length l1 + length (mi_tail key type tid (body_bytes tid padding l1)))%nat)
      by apply length_app.
    assert (Hl1 : (length l1 <= 1 + length (sent attrs))%nat) by (unfold l1; rewrite length_app; destruct ec as [[c r]|]; cbn; lia).
    lia.
Qed.

Lemma user_not_mi l l' : Forall user_attr l -> Forall2 same_attr l l' ->
  Forall (fun x => attr_type x <> STUN_ATTR_MSG_INTEGRITY) l' /\ Forall (fun x => attr_type x <> STUN_ATTR_FINGERPRINT) l'.
Proof.
  intros Hu Hs. split; eapply same_types; try done; eapply Forall_impl; try done; by intros x [? ?].
Qed.

Lemma same_mi a d : same_attr (StunAttr STUN_ATTR_MSG_INTEGRITY (VMi d)) a ->
  attr_type a = STUN_ATTR_MSG_INTEGRITY /\ attr_v a = VMi d.
Proof. intros [Ht Hv]. cbn in *. by destruct (attr_v a). Qed.

Lemma same_fp a n : same_attr (StunAttr STUN_ATTR_FINGERPRINT (VU32 n)) a ->
  attr_type a = STUN_ATTR_FINGERPRINT /\ attr_v a = VU32 n.
Proof. intros [Ht Hv]. cbn in *. by destruct (attr_v a). Qed.

(** The attributes of a decoded message by their origin. *)
Definition mi_part (key : option (list Z)) (type : Z) (tid body : list Z) (k : list stun_attr) : Prop :=
  match key with
  | Some key => exists a, k = [a] /\ attr_type a = STUN_ATTR_MSG_INTEGRITY
      /\ attr_v a = VMi (mac key (header type (zlength body + MI_SIZE) tid ++ body))
  | None => k = []
  end.

Definition fp_part (fp : bool) (type : Z) (tid body : list Z) (k : list stun_attr) : Prop :=
  if fp then exists a, k = [a] /\ attr_type a = STUN_ATTR_FINGERPRINT
      /\ attr_v a = VU32 (fingerprint (header type (zlength body + FP_SIZE) tid ++ body))
  else k = [].

Definition mi_len (key : option (list Z)) : Z := match key with Some _ => MI_SIZE | None => 0 end.
Definition fp_len (fp : bool) : Z := if fp then FP_SIZE else 0.

Lemma decoded_parts method class tid ec key fp padding attrs l' :
  let l1 := ec_attr ec ++ sent attrs in
  let type := STUN_TYPE method class in
  let body := body_bytes tid padding l1 in
  let body2 := body_bytes tid padding (l1 ++ mi_tail key type tid body) in
  Forall2 same_attr (msg_attrs method class tid ec key fp padding attrs) l' ->
  exists k1 kmi kfp, l' = k1 ++ kmi ++ kfp /\ Forall2 same_attr l1 k1
    /\ mi_part key type tid body kmi /\ fp_part fp type tid body2 kfp.
Proof.
  intros l1 type body body2 Hs. apply Forall2_app_inv_l in Hs as (k2 & kfp & Hs2 & Hsfp & ->).
  apply Forall2_app_inv_l in Hs2 as (k1 & kmi & Hs1 & Hsmi & ->).
  exists k1, kmi, kfp. rewrite <- app_assoc. split_and!; [done|done| |].
  - destruct key as [key|]; cbn [mi_tail mi_part] in *; [|by inversion Hsmi].
    inversion Hsmi as [|? a ? ? Ha Hnil]; subst. inversion Hnil; subst. apply same_mi in Ha as [Hta Hva]. by exists a.
  - destruct fp; cbn [fp_tail fp_part] in *; [|by inversion Hsfp].
    inversion Hsfp as [|? a ? ? Ha Hnil]; subst. inversion Hnil; subst. apply same_fp in Ha as [Hta Hva]. by exists a.
Qed.

(** Body, integrity and fingerprint of an encoded message. *)
Lemma msg_attrs_body method class tid ec key fp padding attrs :
  let l1 := ec_attr ec ++ sent attrs in
  let type := STUN_TYPE method class in
  let body := body_bytes tid padding l1 in
  let body2 := body_bytes tid padding (l1 ++ mi_tail key type tid body) in
  exists t1 t2, body2 = body ++ t1 /\ zlength t1 = mi_len key
    /\ body_bytes tid padding (msg_attrs method class tid ec key fp padding attrs) = body2 ++ t2 /\ zlength t2 = fp_len fp.
Proof.
  intros l1 type body body2.
  exists (body_bytes tid padding (mi_tail key type tid body)), (body_bytes tid padding (fp_tail fp type tid body2)).
  split_and!.
  - apply body_bytes_app.
  - destruct key as [k|]; [|done]. cbn [mi_tail]. rewrite body_bytes_cons, app_nil_r.
    by rewrite <- attr_bytes_tid, mi_attr_length.
  - unfold msg_attrs. fold type l1 body. by rewrite body_bytes_app.
  - destruct fp; [|done]. cbn [fp_tail]. rewrite body_bytes_cons, app_nil_r.
    by rewrite <- attr_bytes_tid, fp_attr_length.
Qed.

(** Where the checks find their attributes. *)
Lemma find_parts key fp type tid body body2 h k1 kmi kfp mb start :
  Forall (fun x => attr_type x <> STUN_ATTR_MSG_INTEGRITY) k1 -> Forall (fun x => attr_type x <> STUN_ATTR_FINGERPRINT) k1 ->
  mi_part key type tid body kmi -> fp_part fp type tid body2 kfp ->
  let msg := StunMsg h (k1 ++ kmi ++ kfp) mb start in
  stun_msg_attr msg STUN_ATTR_MSG_INTEGRITY = (match key with Some _ => head kmi | None => None end)
  /\ stun_msg_attr msg STUN_ATTR_FINGERPRINT = (if fp then head kfp else None)
  /\ has_fp msg = fp
  /\ map attr_type (msg_attrl msg) = map attr_type k1
       ++ (match key with Some _ => [STUN_ATTR_MSG_INTEGRITY] | None => [] end) ++ (if fp then [STUN_ATTR_FINGERPRINT] else []).
Proof.
  intros Hmi Hfp Hkmi Hkfp msg.
  assert (E1 : stun_msg_attr msg STUN_ATTR_MSG_INTEGRITY = match key with Some _ => head kmi | None => None end).
  { unfold stun_msg_attr. cbn [msg_attrl msg]. destruct key as [k|]; cbn [mi_part] in Hkmi.
    - destruct Hkmi as (a & -> & Hta & _). by apply (find_attr_app _ k1 a kfp).
    - subst kmi. apply find_attr_none, Forall_app. split; [done|]. destruct fp; cbn [fp_part] in Hkfp.
      + destruct Hkfp as (a & -> & Hta & _). constructor; [by rewrite Hta|constructor].
      + subst kfp. constructor. }
  assert (E2 : stun_msg_attr msg STUN_ATTR_FINGERPRINT = if fp then head kfp else None).
  { unfold stun_msg_attr. cbn [msg_attrl msg]. rewrite app_assoc.
    assert (Hk : Forall (fun x => attr_type x <> STUN_ATTR_FINGERPRINT) (k1 ++ kmi)).
    { apply Forall_app. split; [done|]. destruct key as [k|]; cbn [mi_part] in Hkmi.
      - destruct Hkmi as (a & -> & Hta & _). constructor; [by rewrite Hta|constructor].
      - subst kmi. constructor. }
    destruct fp; cbn [fp_part] in Hkfp.
    - destruct Hkfp as (a & -> & Hta & _). by apply find_attr_app.
    - subst kfp. rewrite app_nil_r. by apply find_attr_none. }
  split_and!; [done|done| |].
  - unfold has_fp. rewrite E2. destruct fp; [|done]. destruct Hkfp as (a & -> & _). done.
  - cbn [msg_attrl msg]. rewrite !map_app. f_equal. f_equal.
    + destruct key as [k|]; [destruct Hkmi as (a & -> & Hta & _); cbn; by rewrite Hta|by rewrite Hkmi].
    + destruct fp; [destruct Hkfp as (a & -> & Hta & _); cbn; by rewrite Hta|by rewrite Hkfp].
Qed.

(** Both checks of a message with the given parts. *)
Lemma decoded_checks key fp type tid body t1 t2 k1 kmi kfp mb c :
  let len := zlength (body ++ t1 ++ t2) in
  let h := StunHdr type len STUN_MAGIC_COOKIE tid in
  let msg := StunMsg h (k1 ++ kmi ++ kfp) mb (zlength c) in
  0 <= type < 2 ^ 14 -> len < 2 ^ 16 -> tid_wf tid -> zlength c < 2 ^ 30 ->
  holds mb (c ++ hdr_bytes h ++ body ++ t1 ++ t2) (zlength c) ->
  zlength t1 = mi_len key -> zlength t2 = fp_len fp ->
  Forall (fun x => attr_type x <> STUN_ATTR_MSG_INTEGRITY) k1 -> Forall (fun x => attr_type x <> STUN_ATTR_FINGERPRINT) k1 ->
  mi_part key type tid body kmi -> fp_part fp type tid (body ++ t1) kfp ->
  (forall k, key = Some k -> (stun_msg_chk_mi msg k).1 = 0) /\ (fp = true -> (stun_msg_chk_fingerprint msg).1 = 0).
Proof.
  intros len h msg Hty H16 Ht Hc Hd Ht1 Ht2 Hnmi Hnfp Hkmi Hkfp.
  destruct (find_parts key fp _ _ _ _ h k1 kmi kfp mb (zlength c) Hnmi Hnfp Hkmi Hkfp) as (Emi & Efp & Ehas & _).
  fold msg in Emi, Efp, Ehas.
  assert (Hhw : hdr_wf (msg_hdr msg)).
  { split; [done|]. split; [|by split]. split; [apply zlength_nonneg|done]. }
  assert (Hl : len = zlength body + zlength t1 + zlength t2) by (unfold len; rewrite !zlength_app; lia).
  split.
  - intros k ->. destruct Hkmi as (a & -> & _ & Hva).
    assert (Hlen : hdr_len (msg_hdr msg) = zlength body + mi_tail_len msg).
    { unfold mi_tail_len. rewrite Ehas. cbn [msg_hdr hdr_len msg h]. rewrite Hl, Ht1, Ht2. cbn. unfold fp_len. lia. }
    destruct (chk_mi_exact msg k c body (t1 ++ t2) (zlength c) a _ Hhw Hc Hd eq_refl Hlen Emi Hva (proj1 (mac_wf _ _)))
      as (mb2 & -> & _).
    cbn [fst]. rewrite hmac_sha1_mac. by rewrite bool_decide_true.
  - intros ->. destruct Hkfp as (a & -> & _ & Hva). rewrite (app_assoc body) in Hd.
    assert (Hlen : hdr_len (msg_hdr msg) = zlength (body ++ t1) + FP_SIZE).
    { cbn [msg_hdr hdr_len msg h]. rewrite Hl, zlength_app, Ht2. cbn. lia. }
    rewrite (chk_fp_exact msg c (body ++ t1) t2 (zlength c) a _ Hhw Hc Hd eq_refl Hlen Efp Hva).
    replace (hdr_bytes (msg_hdr msg)) with (header type (zlength (body ++ t1) + FP_SIZE) tid); [by rewrite Z.eqb_refl|].
    unfold header. rewrite <- Hlen. done.
Qed.

(** Decoding what the encoder puts on the wire, wherever it is received. *)
Lemma wire_decoded method class tid ec key fp padding attrs mb c ua fuel :
  msg_wf tid ec padding attrs -> Forall user_attr (sent attrs) -> zlength c < 2 ^ 30 ->
  let l := msg_attrs method class tid ec key fp padding attrs in
  holds mb (c ++ msg_bytes (STUN_TYPE method class) tid padding l) (zlength c) -> (length attrs + 3 <= fuel)%nat ->
  exists msg l' tail,
    stun_msg_decode fuel ua mb = Some (Ok msg, option_map (fun _ => []) ua, mb)
    /\ stun_msg_type msg = STUN_TYPE method class /\ stun_msg_tid msg = tid /\ stun_msg_mcookie msg = true
    /\ msg_attrl msg = l' ++ tail /\ Forall2 same_attr (ec_attr ec ++ sent attrs) l'
    /\ map attr_type tail = (match key with Some _ => [STUN_ATTR_MSG_INTEGRITY] | None => [] end)
         ++ (if fp then [STUN_ATTR_FINGERPRINT] else [])
    /\ (forall k, key = Some k -> (stun_msg_chk_mi msg k).1 = 0)
    /\ (fp = true -> (stun_msg_chk_fingerprint msg).1 = 0).
Proof.
  intros Hwf Hu Hc l Hd Hf. destruct (msg_attrs_wf method class tid ec key fp padding attrs Hwf) as (Hw & H16 & Hn).
  destruct (msg_attrs_body method class tid ec key fp padding attrs) as (t1 & t2 & Eb2 & Ht1 & Eb & Ht2).
  fold l in Hw, H16, Hn, Eb. set (type := STUN_TYPE method class) in *.
  pose proof Hwf as (Ht & _). pose proof (STUN_TYPE_range method class) as Hty. fold type in Hty.
  pose proof (holds_pos _ _ _ Hd) as Hpd.
  destruct (stun_msg_decode_app type tid padding l fuel ua mb []) as (l0 & Ed & Hs); try done; try lia.
  { apply Hd. }
  { rewrite (holds_rest _ _ _ Hd), app_nil_r. apply zdrop_app_exact. }
  apply decoded_parts in Hs as (k1 & kmi & kfp & -> & Hs1 & Hkmi & Hkfp).
  assert (Hu1 : Forall user_attr (ec_attr ec ++ sent attrs)).
  { apply Forall_app. split; [|done]. destruct ec as [[? ?]|]; [constructor; [by split|constructor]|constructor]. }
  destruct (user_not_mi _ k1 Hu1 Hs1) as [Hnmi Hnfp].
  destruct (find_parts key fp _ _ _ _ (StunHdr type (zlength (body_bytes tid padding l)) STUN_MAGIC_COOKIE tid) k1 kmi kfp
    mb (mb_pos mb) Hnmi Hnfp Hkmi Hkfp) as (_ & _ & _ & Etypes).
  cbn [msg_attrl] in Etypes. rewrite map_app in Etypes. apply app_inv_head in Etypes.
  eexists _, k1, (kmi ++ kfp). split; [exact Ed|]. do 6 (split; [done|]). rewrite Eb, Eb2, <- app_assoc in *.
  unfold msg_bytes in Hd. rewrite Eb in Hd.
  rewrite Hpd in *. apply (decoded_checks key fp type tid _ t1 t2); try done. by rewrite <- Eb2.
Qed.

(** C5: a message made by stun_msg_encode from any attributes the protocol
    can represent, with or without error code, integrity and fingerprint, is
    encoded without error behind the contents of the buffer, and is decoded to
    the same transaction and the same attributes followed by
    MESSAGE-INTEGRITY and FINGERPRINT as asked for; the integrity check
    succeeds with the sender's key and the fingerprint matches. *)
Theorem stun_msg_roundtrip mi0 method class tid ec key fp padding attrs mb ua fuel :
  msg_wf tid ec padding attrs -> Forall user_attr (sent attrs) -> at_end mb -> mb_pos mb < 2 ^ 29 ->
  (length attrs + 3 <= fuel)%nat ->
  exists mb' msg l' tail,
    stun_msg_encode 3 mi0 method class tid ec key fp padding attrs mb = Some (0, mb') /\ at_end mb'
    /\ stun_msg_decode fuel ua (mbuf_set_pos mb' (mb_pos mb))
         = Some (Ok msg, option_map (fun _ => []) ua, mbuf_set_pos mb' (mb_pos mb))
    /\ stun_msg_type msg = STUN_TYPE method class /\ stun_msg_tid msg = tid /\ stun_msg_mcookie msg = true
    /\ msg_attrl msg = l' ++ tail /\ Forall2 same_attr (ec_attr ec ++ sent attrs) l'
    /\ map attr_type tail = (match key with Some _ => [STUN_ATTR_MSG_INTEGRITY] | None => [] end)
         ++ (if fp then [STUN_ATTR_FINGERPRINT] else [])
    /\ (forall k, key = Some k -> (stun_msg_chk_mi msg k).1 = 0)
    /\ (fp = true -> (stun_msg_chk_fingerprint msg).1 = 0).
Proof.
  intros Hwf Hu [W Hpe] Hp Hf. pose proof (zlength_content mb W) as Hlc.
  assert (Hh : holds mb (content mb) (zlength (content mb))) by (split; [done|done|lia]).
  destruct (stun_msg_vencode_done Ham mi0 method class tid ec key fp padding attrs mb (content mb) Hwf ltac:(lia) Hh) as (mb' & Ee & Hh').
  cbv zeta in Hh'. set (l := msg_attrs method class tid ec key fp padding attrs) in *. set (type := STUN_TYPE method class) in *.
  assert (Hd : holds (mbuf_set_pos mb' (mb_pos mb)) (content mb ++ msg_bytes type tid padding l) (zlength (content mb))).
  { rewrite Hpe, <- Hlc. apply (holds_set_pos _ _ _ _ Hh'). rewrite zlength_app.
    pose proof (zlength_nonneg (content mb)). pose proof (zlength_nonneg (msg_bytes type tid padding l)). lia. }
  destruct (wire_decoded method class tid ec key fp padding attrs _ (content mb) ua fuel Hwf Hu ltac:(lia) Hd Hf) as (msg & l' & tail & Ed & Hrest).
  exists mb', msg, l', tail. split; [exact Ee|]. split; [split; [apply Hh'|]|by split].
  rewrite (holds_pos _ _ _ Hh'), (holds_end _ _ _ Hh'). done.
Qed.
End Decode.

(** ** A sample *)

#[local] Existing Instance lp64_le.

Definition sample_tid : list Z := seqZ 1 12.
Definition sample_attrs : list (Z * option stun_val) :=
  [ (STUN_ATTR_XOR_MAPPED_ADDR, Some (VSa (SaIn 0x01020304 5060)));
    (STUN_ATTR_PRIORITY, None);
    (STUN_ATTR_USERNAME, Some (VStr [65; 66; 0])) ].

Lemma sample_msg_wf : msg_wf sample_tid None 0 sample_attrs.
Proof.
  split; [split; [done|vm_compute; repeat constructor; congruence]|]. split; [by_compute|]. split; [|by_compute].
  change (Forall attr_wf [StunAttr STUN_ATTR_XOR_MAPPED_ADDR (VSa (SaIn 0x01020304 5060)); StunAttr STUN_ATTR_USERNAME (VStr [65; 66; 0])]).
  constructor; [|constructor; [|constructor]]; (split; [by_compute|]).
  - change (sa_wf (SaIn 0x01020304 5060)). split; by_compute.
  - change (str_wf [65; 66; 0]). split; by_compute.
Qed.

Lemma stun_msg_roundtrip_witness :
  exists mb' msg, stun_msg_encode 3 [] 1 0 sample_tid None (Some [1; 2; 3]) true 0 sample_attrs mbuf_init = Some (0, mb')
    /\ stun_msg_decode 6 None (mbuf_set_pos mb' 0) = Some (Ok msg, None, mbuf_set_pos mb' 0)
    /\ (stun_msg_chk_mi msg [1; 2; 3]).1 = 0.
Proof.
  destruct (stun_msg_roundtrip lp64_ample [] 1 0 sample_tid None (Some [1; 2; 3]) true 0 sample_attrs mbuf_init None 6)
    as (mb' & msg & l' & tail & E1 & _ & E2 & _ & _ & _ & _ & _ & _ & Hmi & _).
  - exact sample_msg_wf.
  - repeat constructor; vm_compute; congruence.
  - split; [apply mbuf_init_wf|done].
  - done.
  - cbn; lia.
  - exists mb', msg. split; [exact E1|]. split; [exact E2|]. by apply Hmi.
Defined.
