(* ===== verification/StunSafe.v ===== *)
(** * STUN: the decoder on arbitrary input

    Whatever bytes arrive, stun_msg_decode terminates, leaves the buffer as it
    was and reports one of three errors; the attributes of an accepted message
    lie within the announced length.  The integrity check is exact on every
    accepted message. *)

From stdpp Require Import base list numbers.
From Stdlib Require Import ZArith Lia.
From S2P Require Import Prelude Endian Mbuf MbufView Crypto Crc32 Sa Stun StunWire StunSpec.

Open Scope Z_scope.

Definition stun_error (e : Z) : Prop := e = EBADMSG \/ e = ENOMEM \/ e = EAFNOSUPPORT.

(** [fwd k m]: with at least [k] bytes left, [m] only moves forward and fails
    with one of the errors above. *)
Definition fwd {A} (k : Z) (m : M mbuf A) : Prop :=
  forall mb, mbuf_wf mb -> k <= zlength (rest mb) ->
    advances mb (m mb).2 /\ match (m mb).1 with Ok _ => True | Err e => stun_error e end.

Section Forward.
Context `{H : Host}.

Lemma fwd_weaken {A} k k' (m : M mbuf A) : k <= k' -> fwd k m -> fwd k' m.
Proof. intros Hk Hm mb W Hr. apply Hm; [done|lia]. Qed.

Lemma fwd_ret {A} (a : A) : fwd 0 (ret a).
Proof. intros mb W _. by split. Qed.

Lemma fwd_throw {A} e : stun_error e -> fwd 0 (throw (A := A) e).
Proof. intros He mb W _. by split. Qed.

Lemma fwd_bind {A B} k (m : M mbuf A) (f : A -> M mbuf B) : fwd k m -> (forall a, fwd 0 (f a)) -> fwd k (bind m f).
Proof.
  intros Hm Hf mb W Hk. destruct (Hm mb W Hk) as [Ha He]. unfold bind. destruct (m mb) as [[a|e] mb1]; cbn in *; [|by split].
  destruct (Hf a mb1 (advances_wf _ _ W Ha) (zlength_nonneg _)) as [Ha' He']. split; [by etransitivity|done].
Qed.

(** A test leaves the buffer alone: what follows may rely on the same bytes. *)
Lemma fwd_guard {B} k (b : bool) (f : unit -> M mbuf B) : (b = true -> fwd k (f tt)) -> fwd k (bind (guard b EBADMSG) f).
Proof.
  intros Hf. destruct b; [by apply Hf|]. intros mb W _. split; [done|]. by left.
Qed.

Lemma fwd_left_ge {B} n (f : unit -> M mbuf B) : fwd n (f tt) -> fwd 0 (bind (left_ge n) f).
Proof.
  intros Hf mb W _. unfold bind, left_ge, guard. rewrite mbuf_get_left_rest by done.
  destruct (zlength (rest mb) <? n) eqn:El; cbn [negb]; bool_prop; [|by apply Hf].
  split; [done|]. by left.
Qed.

Lemma fwd_rd {A} (f : mbuf -> A * mbuf) : (forall mb, mbuf_wf mb -> advances mb (f mb).2) -> fwd 0 (rd f).
Proof. intros Hf mb W _. unfold rd. specialize (Hf mb W). by destruct (f mb). Qed.

Lemma fwd_u8 : fwd 0 (rd mbuf_read_u8).
Proof. apply fwd_rd. intros. by apply read_u8_any. Qed.

Lemma fwd_be16 : fwd 0 (rd read_be16).
Proof. apply fwd_rd. intros. by apply read_be16_any. Qed.

Lemma fwd_be32 : fwd 0 (rd read_be32).
Proof. apply fwd_rd. intros. by apply read_be32_any. Qed.

Lemma fwd_be64 : fwd 0 (rd read_be64).
Proof.
  apply fwd_rd. intros mb W. pose proof (read_uint_advances 8 mb W). unfold read_be64, mbuf_read_u64.
  by destruct (mbuf_read_uint 8 mb).
Qed.

Lemma fwd_mem n : 0 <= n -> fwd n (rd_mem n).
Proof.
  intros Hn mb W Hk. pose proof (read_mem_advances mb n W Hn) as Ha. unfold rd_mem.
  assert (E0 : (mbuf_read_mem mb n).1.1 = 0).
  { unfold mbuf_read_mem. rewrite mbuf_get_left_rest by done. by decide_test. }
  destruct (mbuf_read_mem mb n) as [[e d] mb1]. cbn in *. subst e. by split.
Qed.

Lemma fwd_move n : 0 <= n -> fwd n (move n).
Proof.
  intros Hn mb W Hk. unfold move. cbn. split; [|done]. rewrite mbuf_advance_adv by (done || lia).
  apply advances_set_pos. rewrite zlength_rest in Hk by done. lia.
Qed.

Lemma fwd_str n : 0 <= n -> fwd 0 (str_decode n).
Proof.
  intros Hn. apply fwd_left_ge. intros mb W Hk. unfold mbuf_strdup.
  destruct (mem_alloc (u64 (n + 1))) as [b|]; cbn; [|split; [done|by right; left]].
  destruct (fwd_mem n Hn mb W Hk) as [Ha He]. unfold rd_mem in *. destruct (mbuf_read_mem mb n) as [[e d] mb1]. cbn in *.
  destruct (e =? 0); cbn in *; by split.
Qed.

Lemma fwd_types n : fwd 0 (read_types n).
Proof.
  induction n as [|n IH]; [apply fwd_ret|]. apply fwd_bind; [apply fwd_be16|]. intros a.
  apply fwd_bind; [done|]. intros l. apply fwd_ret.
Qed.
End Forward.

Create HintDb fwd discriminated.
#[export] Hint Resolve fwd_ret fwd_u8 fwd_be16 fwd_be32 fwd_be64 fwd_str fwd_types : fwd.

(** Decoders, statement by statement. *)
Ltac fwd_step :=
  match goal with
  | |- forall _, fwd _ _ => intros ?
  | |- fwd _ (bind (guard _ _) _) => apply fwd_guard; intros ?
  | |- fwd 0 (bind (left_ge _) _) => apply fwd_left_ge
  | |- fwd _ (bind (rd_mem _) _) => apply fwd_bind; [apply fwd_mem; lia|intros ?]
  | |- fwd _ (bind _ _) => apply fwd_bind; [|intros ?]
  | |- fwd 0 (if _ then _ else _) => case_match
  | |- fwd 0 _ => solve [auto with fwd]
  | |- fwd 0 (throw _) => apply fwd_throw; unfold stun_error; tauto
  | |- fwd ?k _ => apply (fwd_weaken 0); [lia|]
  end.

Section Safe.
Context `{H : Host} `{E : Evp}.

Lemma addr_decode_fwd tid : fwd 0 (stun_addr_decode tid).
Proof.
  unfold stun_addr_decode. fwd_step. apply (fwd_weaken 0); [lia|]. repeat fwd_step.
Qed.

Lemma mbuf_attr_fwd len : 0 <= len < 2 ^ 16 ->
  fwd len (fun mb => let stop := u64 (mb_pos mb + len) in
    (Ok (VMb (Some (Mbuf (mb_buf mb) (mb_size mb) (mb_pos mb) stop))), mbuf_set_pos mb stop)).
Proof.
  intros Hl mb W Hk. cbn. split; [|done]. rewrite zlength_rest in Hk by done.
  assert (W' := W). mbuf_wf_facts. rewrite wrap_small by lia. apply advances_set_pos. lia.
Qed.

Lemma decode_body_fwd type len tid : 0 <= len < 2 ^ 16 -> fwd len (decode_body type len tid).
Proof.
  intros Hl. unfold decode_body. cbv zeta. destruct (attr_kind type).
  1,2: apply (fwd_weaken 0); [lia|]; apply fwd_bind; [apply addr_decode_fwd|]; repeat fwd_step.
  - repeat fwd_step.
  - apply (fwd_weaken 0); [lia|]. apply fwd_bind; [apply fwd_str; lia|]. repeat fwd_step.
  - apply fwd_guard. intros ->%Z.eqb_eq. repeat fwd_step.
  - apply fwd_guard. intros H4. bool_prop. apply fwd_bind; [apply (fwd_weaken 2); [lia|]; by apply fwd_move|]. intros _.
    do 2 (apply fwd_bind; [apply fwd_u8|intros ?]). apply fwd_bind; [apply fwd_str; lia|]. repeat fwd_step.
  - repeat fwd_step.
  - repeat fwd_step.
  - repeat fwd_step.
  - by apply mbuf_attr_fwd.
  - repeat fwd_step.
  - repeat fwd_step.
  - repeat fwd_step.
  - repeat fwd_step.
  - apply fwd_bind; [apply fwd_move; lia|]. repeat fwd_step.
Qed.

(** *** What a value takes of the buffer *)

(** The bytes of a decoded value: those of an address with its family and
    port, of a string without the terminator that is added to it, of the part of
    the buffer that DATA refers to. *)
Definition val_size (v : stun_val) : Z :=
  match v with
  | VSa (SaIn _ _) => 8
  | VSa (SaIn6 _ _ _) => 20
  | VSa _ => 4
  | VChangeReq _ _ | VU32 _ => 4
  | VStr s => Z.max 0 (zlength s - 1)
  | VMi d => zlength d
  | VErrCode _ s => 4 + Z.max 0 (zlength s - 1)
  | VUnknown l => 2 * zlength l
  | VU8 _ | VEvenPort _ => 1
  | VU16 _ => 2
  | VU64 _ => 8
  | VMb m => match m with Some m => Z.max 0 (mb_end m - mb_pos m) | None => 0 end
  | VNone => 0
  end.

Lemma val_size_nonneg v : 0 <= val_size v.
Proof.
  destruct v as [a| |s|d|c s|l| | | | |m| |]; cbn; try lia; try apply zlength_nonneg; [by destruct a|..].
  - pose proof (zlength_nonneg l). lia.
  - destruct m; lia.
Qed.

(** [takes k m Q]: with at least [k] bytes left, success of [m] with [a] moves
    the position by some [n] with [Q a n]. *)
Definition takes {A} (k : Z) (m : M mbuf A) (Q : A -> Z -> Prop) : Prop :=
  forall mb a mb', mbuf_wf mb -> k <= zlength (rest mb) -> m mb = (Ok a, mb') ->
    exists n, 0 <= n <= zlength (rest mb) /\ mb' = adv mb n /\ Q a n.

Lemma takes_ret {A} (a : A) (Q : A -> Z -> Prop) k : Q a 0 -> takes k (ret a) Q.
Proof.
  intros Hq mb a' mb' W _ [= <- <-]. exists 0. pose proof (zlength_nonneg (rest mb)). split; [lia|]. split; [|done].
  unfold adv, mbuf_set_pos. rewrite Z.add_0_r. by destruct mb.
Qed.

Lemma takes_bind {A B} k (m : M mbuf A) (f : A -> M mbuf B) P (Q : B -> Z -> Prop) :
  takes k m P -> (forall a n, P a n -> takes (k - n) (f a) (fun b n' => Q b (n + n'))) -> takes k (bind m f) Q.
Proof.
  intros Hm Hf mb b mb' W Hk. unfold bind. destruct (m mb) as [[a|e] mb1] eqn:Em; [|done]. intros Ef.
  destruct (Hm mb a mb1 W Hk Em) as (n & Hn & -> & HP). pose proof (adv_wf mb n W Hn) as W1.
  assert (Hr : zlength (rest (adv mb n)) = zlength (rest mb) - n) by (rewrite rest_adv, zlength_zdrop by (done || lia); lia).
  destruct (Hf a n HP (adv mb n) b mb' W1 ltac:(lia) Ef) as (n' & Hn' & -> & HQ).
  exists (n + n'). split; [lia|]. split; [by rewrite adv_adv|done].
Qed.

Lemma takes_weaken {A} k k' (m : M mbuf A) (P Q : A -> Z -> Prop) : k <= k' -> takes k m P -> (forall a n, P a n -> Q a n) -> takes k' m Q.
Proof. intros Hk Hm HPQ mb a mb' W Hl E1. destruct (Hm mb a mb' W ltac:(lia) E1) as (n & Hn & En & HP). exists n. auto. Qed.

Lemma takes_guard {B} k (b : bool) (f : unit -> M mbuf B) Q : (b = true -> takes k (f tt) Q) -> takes k (bind (guard b EBADMSG) f) Q.
Proof. intros Hf. destruct b; [by apply Hf|]. by intros mb a mb' W _ E1. Qed.

Lemma takes_left_ge {B} k n (f : unit -> M mbuf B) Q : takes (Z.max k n) (f tt) Q -> takes k (bind (left_ge n) f) Q.
Proof.
  intros Hf mb a mb' W Hk. unfold bind, left_ge, guard. rewrite mbuf_get_left_rest by done.
  destruct (zlength (rest mb) <? n) eqn:El; cbn [negb]; bool_prop; [done|]. apply Hf; [done|lia].
Qed.

Lemma read_exact mb n : mbuf_wf mb -> 0 <= n <= zlength (rest mb) -> mbuf_read_mem mb n = (0, ztake n (rest mb), adv mb n).
Proof.
  intros W Hn. unfold mbuf_read_mem. rewrite mbuf_get_left_rest by done. rewrite Z.gtb_ltb, (proj2 (Z.ltb_ge _ _)) by lia.
  rewrite mbuf_buf_rest by done. unfold adv. rewrite zlength_rest in Hn by done. mbuf_wf_facts. by rewrite wrap_small by lia.
Qed.

Lemma takes_uint w k (f : mbuf -> Z * mbuf) : Z.of_nat w <= k -> (forall mb, (f mb).2 = (mbuf_read_uint w mb).2) -> takes k (rd f) (fun _ n => n = Z.of_nat w).
Proof.
  intros Hk Hf mb a mb' W Hl. unfold rd. specialize (Hf mb). destruct (f mb) as [v mb1]. cbn in Hf. intros [= _ <-]. subst mb1.
  exists (Z.of_nat w). split; [lia|]. unfold mbuf_read_uint. by rewrite read_exact by (done || lia).
Qed.

Lemma takes_u8 k : 1 <= k -> takes k (rd mbuf_read_u8) (fun _ n => n = 1).
Proof. intros Hk. by apply (takes_uint 1). Qed.
Lemma takes_be16 k : 2 <= k -> takes k (rd read_be16) (fun _ n => n = 2).
Proof. intros Hk. apply (takes_uint 2); [done|]. intros mb. unfold read_be16, mbuf_read_u16. by destruct (mbuf_read_uint 2 mb). Qed.
Lemma takes_be32 k : 4 <= k -> takes k (rd read_be32) (fun _ n => n = 4).
Proof. intros Hk. apply (takes_uint 4); [done|]. intros mb. unfold read_be32, mbuf_read_u32. by destruct (mbuf_read_uint 4 mb). Qed.
Lemma takes_be64 k : 8 <= k -> takes k (rd read_be64) (fun _ n => n = 8).
Proof. intros Hk. apply (takes_uint 8); [done|]. intros mb. unfold read_be64, mbuf_read_u64. by destruct (mbuf_read_uint 8 mb). Qed.

Lemma takes_mem k n : 0 <= n <= k -> takes k (rd_mem n) (fun d n' => n' = n /\ zlength d = n).
Proof.
  intros Hn mb a mb' W Hk. unfold rd_mem. rewrite read_exact by (done || lia). cbn. intros [= <- <-].
  exists n. split; [lia|]. split; [done|]. split; [done|]. apply zlength_ztake. lia.
Qed.

Lemma takes_move k n : 0 <= n <= k -> takes k (move n) (fun _ n' => n' = n).
Proof. intros Hn mb a mb' W Hk. unfold move. rewrite mbuf_advance_adv by (done || lia). intros [= _ <-]. exists n. split; [lia|done]. Qed.

Lemma takes_str k n : 0 <= n -> takes k (str_decode n) (fun s n' => n' = n /\ zlength s = n + 1).
Proof.
  intros Hn. apply takes_left_ge. intros mb a mb' W Hk. unfold mbuf_strdup. destruct (mem_alloc _); [|done]. rewrite read_exact by (done || lia).
  cbn. intros [= <- <-]. exists n. split; [lia|]. split; [done|]. split; [done|]. rewrite zlength_app, zlength_ztake by lia. done.
Qed.

Lemma takes_types m : forall k, 2 * Z.of_nat m <= k -> takes k (read_types m) (fun l n => n = 2 * zlength l).
Proof.
  induction m as [|m IH]; intros k Hk; cbn [read_types]; [by apply takes_ret|]. eapply takes_bind; [apply takes_be16; lia|]. cbv beta. intros a n ->.
  eapply takes_bind; [apply IH; lia|]. cbv beta. intros l n ->. apply takes_ret. rewrite zlength_cons. lia.
Qed.

Ltac takes_step :=
  cbv beta in *;
  match goal with
  | |- forall _, _ => intros ?
  | |- takes _ (bind (guard _ _) _) _ => apply takes_guard; intros ?; bool_prop
  | |- takes _ (bind (left_ge _) _) _ => apply takes_left_ge
  | |- takes _ (bind (rd mbuf_read_u8) _) _ => eapply takes_bind; [apply takes_u8; lia|intros ? ? ->]
  | |- takes _ (bind (rd read_be16) _) _ => eapply takes_bind; [apply takes_be16; lia|intros ? ? ->]
  | |- takes _ (bind (rd read_be32) _) _ => eapply takes_bind; [apply takes_be32; lia|intros ? ? ->]
  | |- takes _ (bind (rd read_be64) _) _ => eapply takes_bind; [apply takes_be64; lia|intros ? ? ->]
  | |- takes _ (bind (rd_mem _) _) _ => eapply takes_bind; [apply takes_mem; lia|intros ? ? [-> ?]]
  | |- takes _ (bind (move _) _) _ => eapply takes_bind; [apply takes_move; lia|intros ? ? ->]
  | |- takes _ (bind (str_decode _) _) _ => eapply takes_bind; [apply takes_str; lia|intros ? ? [-> ?]]
  | |- takes _ (ret _) _ => apply takes_ret; cbn [val_size]; try lia
  | |- takes _ (throw _) _ => by intros ? ? ? ? ? ?
  end.

Lemma takes_addr k tid : takes k (stun_addr_decode tid) (fun a n => val_size (VSa a) <= n).
Proof.
  unfold stun_addr_decode. do 4 takes_step. destruct (_ =? STUN_AF_IPv4); [|destruct (_ =? STUN_AF_IPv6)]; repeat takes_step; apply Z.le_refl.
Qed.

(** The position moves over the value. *)
Lemma decode_body_takes type len tid : 0 <= len < 2 ^ 16 -> takes len (decode_body type len tid) (fun v n => val_size v <= n).
Proof.
  intros Hl. unfold decode_body. cbv zeta. destruct (attr_kind type).
  1, 2: eapply takes_bind; [apply takes_addr|]; cbv beta; intros a n Ha; apply takes_ret; lia.
  8: { intros mb a mb' W Hk [= <- <-]. exists len. split; [lia|]. pose proof (zlength_rest mb W). mbuf_wf_facts. rewrite wrap_small by lia. split; [done|]. cbn. lia. }
  5: { eapply takes_bind; [apply takes_types; pose proof (Z.div_pos len 2 ltac:(lia) ltac:(lia)); pose proof (Z.mul_div_le len 2 ltac:(lia)); lia|]. cbv beta. intros l n ->. apply takes_ret.
       cbn [val_size]. unfold ztake, zlength. rewrite length_take. lia. }
  all: repeat takes_step.
Qed.

(** The values of the two attributes the checks rely on. *)
Definition fixed_val (type : Z) (v : stun_val) : Prop :=
  (type = STUN_ATTR_MSG_INTEGRITY -> exists d, v = VMi d /\ zlength d = 20)
  /\ (type = STUN_ATTR_FINGERPRINT -> exists n, v = VU32 n).

Lemma decode_body_fixed type len tid mb v mb' :
  mbuf_wf mb -> 0 <= len < 2 ^ 16 -> len <= zlength (rest mb) -> decode_body type len tid mb = (Ok v, mb') ->
  mb_pos mb + val_size v <= mb_pos mb' /\ fixed_val type v.
Proof.
  intros W Hl Hr Hd. destruct (decode_body_takes type len tid Hl mb v mb' W Hr Hd) as (n & Hn & -> & Hv). split; [cbn; lia|].
  split; intros ->; unfold decode_body in Hd.
  - change (attr_kind STUN_ATTR_MSG_INTEGRITY) with KMi in Hd. cbv iota in Hd. unfold bind, guard in Hd. destruct (len =? 20); [|done]. cbn in Hd.
    destruct (rd_mem 20 mb) as [[d|] mb1] eqn:Em; [|done]. injection Hd as <- _. exists d. split; [done|].
    unfold rd_mem in Em. destruct (Z.le_gt_cases 20 (zlength (rest mb))) as [H20|H20].
    + rewrite read_exact in Em by (done || lia). cbn in Em. injection Em as <- _. apply zlength_ztake. lia.
    + unfold mbuf_read_mem in Em. rewrite mbuf_get_left_rest, Z.gtb_ltb, (proj2 (Z.ltb_lt _ _)) in Em by (done || lia). done.
  - change (attr_kind STUN_ATTR_FINGERPRINT) with KU32 in Hd. cbv iota in Hd. unfold bind, guard, rd in Hd. destruct (len =? 4); [|done]. cbn in Hd.
    destruct (read_be32 mb) as [x mb1]. injection Hd as <- _. by exists x.
Qed.

Lemma skip_pad_advances fuel start mb : mbuf_wf mb -> advances mb (skip_pad fuel start mb).
Proof.
  revert mb. induction fuel as [|fuel IH]; intros mb W; cbn [skip_pad]; [done|].
  rewrite mbuf_get_left_rest by done. destruct (zlength (rest mb) =? 0) eqn:E0; rewrite ?andb_false_r; [done|].
  case_match; [|done]. bool_prop. pose proof (zlength_nonneg (rest mb)). rewrite mbuf_advance_adv by (done || lia).
  assert (Ha : advances mb (adv mb 1)) by (apply advances_set_pos; rewrite zlength_rest in * by done; lia).
  etransitivity; [exact Ha|]. by apply IH, (advances_wf mb).
Qed.

(** One attribute, from arbitrary bytes. *)
Lemma attr_decode_any tid ua mb :
  mbuf_wf mb ->
  let r := stun_attr_decode tid ua mb in
  advances mb r.2
  /\ match r.1.1 with
     | Ok a => mb_pos mb + 4 + val_size (attr_v a) <= mb_pos r.2 /\ fixed_val (attr_type a) (attr_v a)
     | Err e => stun_error e
     end
  /\ (zlength (rest mb) < 4 -> r.1.1 = Err EBADMSG).
Proof.
  intros W. unfold stun_attr_decode. rewrite mbuf_get_left_rest by done.
  destruct (zlength (rest mb) <? 4) eqn:E4; bool_prop; [cbn; split_and!; [done|by left|done]|].
  destruct (mem_alloc SIZEOF_STUN_ATTR) as [b|]; [|cbn; split_and!; [done|by right; left|lia]].
  assert (Hsplit : exists a b r, rest mb = be_bytes 2 a ++ be_bytes 2 b ++ r /\ is_u16 a /\ is_u16 b).
  { destruct (be_split 2 (rest mb) (bytes_rest mb W) ltac:(lia)) as (a & r & Er & Ha & Hr).
    rewrite Er, zlength_app, zlength_be_bytes in E4.
    destruct (be_split 2 r Hr ltac:(lia)) as (c & r' & -> & Hc & _). by exists a, c, r'. }
  destruct Hsplit as (type & len & r & Er & Hty & Hlen).
  destruct (read_be16_app _ _ _ W Er) as (-> & W1 & R1). destruct (read_be16_app _ _ _ W1 R1) as (-> & W2 & R2).
  rewrite adv_adv in *. change (2 + 2) with 4 in *. rewrite !wrap_small by done.
  assert (Ha4 : advances mb (adv mb 4)).
  { apply advances_set_pos. rewrite zlength_rest in E4 by done. lia. }
  rewrite mbuf_get_left_rest by done. destruct (zlength (rest (adv mb 4)) <? len) eqn:El; bool_prop;
    [cbn; split_and!; [done|by left|lia]|].
  destruct (decode_body_fwd type len tid Hlen _ W2 El) as [Hab He].
  pose proof (decode_body_fixed type len tid (adv mb 4)) as Hfix.
  destruct (decode_body type len tid (adv mb 4)) as [[v|e] mb1]; cbn [fst snd] in *; [|split_and!; [by etransitivity|done|lia]].
  destruct (Hfix v mb1 W2 Hlen El eq_refl) as [Hp Hv]. pose proof (advances_wf _ _ W2 Hab) as W3.
  pose proof (skip_pad_advances 3 (mb_pos (adv mb 4)) mb1 W3) as Hs. cbn [fst snd attr_type attr_v]. split_and!; [| |done|lia].
  - etransitivity; [exact Ha4|]. by etransitivity.
  - destruct (Hs W3) as (_ & _ & _ & _ & Hp'). cbn in Hp. cbn [attr_type]. cbn in *. lia.
Qed.

(** The bytes a list of attributes takes: the header and the value of each. *)
Definition attrs_cost (l : list stun_attr) : Z := foldr (fun a n => 4 + val_size (attr_v a) + n) 0 l.

Definition attr_ok (a : stun_attr) : Prop := fixed_val (attr_type a) (attr_v a).

Lemma fixed_val_size a : attr_ok a -> (attr_type a = STUN_ATTR_MSG_INTEGRITY -> val_size (attr_v a) = 20)
  /\ (attr_type a = STUN_ATTR_FINGERPRINT -> val_size (attr_v a) = 4).
Proof. intros [H1 H2]. split; intros Et; [by destruct (H1 Et) as (d & -> & Hd)|by destruct (H2 Et) as (n & ->)]. Qed.

Lemma attrs_cost_cons a l : attrs_cost (a :: l) = 4 + val_size (attr_v a) + attrs_cost l.
Proof. done. Qed.

Lemma attrs_cost_nonneg l : 0 <= attrs_cost l.
Proof.
  induction l as [|a l IH]; [done|]. rewrite attrs_cost_cons. pose proof (val_size_nonneg (attr_v a)). lia.
Qed.

(** Each turn consumes four bytes, so the loop ends; when the attributes run
    past the announced length the unsigned difference keeps it going until the
    buffer is exhausted, which is an error. *)
Lemma decode_attrs_any fuel tid extra ua attrl mb :
  mbuf_wf mb -> 0 <= extra < 2 ^ 63 -> zlength (rest mb) < 4 * Z.of_nat fuel ->
  exists r ua' mb', decode_attrs fuel tid extra ua attrl mb = Some (r, ua', mb') /\ advances mb mb'
    /\ match r with
       | Ok l => exists l', l = attrl ++ l' /\ attrs_cost l' + extra <= zlength (rest mb) /\ Forall attr_ok l'
       | Err e => stun_error e
       end.
Proof.
  revert ua attrl mb. induction fuel as [|fuel IH]; intros ua attrl mb W Hx Hf;
    pose proof (zlength_nonneg (rest mb)); [lia|]. cbn [decode_attrs]. rewrite mbuf_get_left_rest by done.
  assert (Hlt : zlength (rest mb) < 2 ^ 63) by (rewrite zlength_rest by done; assert (W' := W); mbuf_wf_facts; lia).
  destruct (u64 (zlength (rest mb) - extra) >=? 4) eqn:Eg; bool_prop.
  - destruct (attr_decode_any tid ua mb W) as (Ha & Hr & _).
    destruct (stun_attr_decode tid ua mb) as [[[a|e] ua1] mb1]; cbn [fst snd] in *; [|by eexists _, _, _].
    destruct Hr as [Hp Hok]. pose proof (advances_wf _ _ W Ha) as W1. pose proof (val_size_nonneg (attr_v a)).
    destruct (Ha W) as (_ & _ & _ & Hend & _). pose proof (zlength_rest mb W). pose proof (zlength_rest mb1 W1).
    destruct (IH ua1 (attrl ++ [a]) mb1 W1 Hx ltac:(lia)) as (r & ua2 & mb2 & -> & Ha2 & Hr).
    eexists _, _, _. split; [done|]. split; [by etransitivity|]. destruct r as [l|e]; [|done].
    destruct Hr as (l' & -> & Hc & Hl). exists (a :: l'). rewrite <- app_assoc. split; [done|].
    split; [|by constructor]. rewrite attrs_cost_cons. lia.
  - eexists _, _, _. split; [done|]. split; [done|]. exists []. rewrite app_nil_r. split; [done|]. split; [|constructor].
    cbn. destruct (Z.le_gt_cases extra (zlength (rest mb))); [lia|].
    exfalso. revert Eg. replace (zlength (rest mb) - extra) with (zlength (rest mb) - extra + 2 ^ 64 + -1 * 2 ^ 64) by lia.
    unfold wrap. rewrite Z.mod_add by done. rewrite Z.mod_small by lia. lia.
Qed.

(** The two most significant bits of a STUN message are zero. *)
Lemma top_clear type : 0 <= type < 2 ^ 16 -> Z.land type 0xc000 = 0 -> type < 2 ^ 14.
Proof.
  intros Ht Hz. assert (Hs : Z.land (Z.shiftr type 14) (Z.ones 2) = 0).
  { change (Z.ones 2) with (Z.shiftr 0xc000 14). by rewrite <- Z.shiftr_land, Hz. }
  rewrite Z.land_ones, Z.shiftr_div_pow2 in Hs by lia. rewrite Z.mod_small in Hs by (split; [apply Z.div_pos; lia|apply Z.div_lt_upper_bound; lia]).
  pose proof (Z.div_mod type (2 ^ 14) ltac:(lia)). pose proof (Z.mod_pos_bound type (2 ^ 14) ltac:(lia)). lia.
Qed.

(** The header of arbitrary bytes. *)
Lemma hdr_decode_any mb :
  mbuf_wf mb ->
  match stun_hdr_decode mb with
  | (Ok h, mb') => mb' = adv mb 20 /\ hdr_wf h /\ hdr_len h mod 4 = 0
      /\ exists r, rest mb = hdr_bytes h ++ r /\ hdr_len h <= zlength r
  | (Err e, mb') => e = EBADMSG /\ advances mb mb'
  end.
Proof.
  intros W. unfold stun_hdr_decode. rewrite mbuf_get_left_rest by done.
  destruct (zlength (rest mb) <? STUN_HEADER_SIZE) eqn:E20; bool_prop; [done|]. unfold STUN_HEADER_SIZE in *.
  destruct (be_split 2 (rest mb) (bytes_rest mb W) ltac:(lia)) as (type & r1 & Er & Hty & Hr1).
  rewrite Er, zlength_app, zlength_be_bytes in E20.
  destruct (be_split 2 r1 Hr1 ltac:(lia)) as (len & r2 & -> & Hlen & Hr2). rewrite zlength_app, zlength_be_bytes in E20.
  destruct (be_split 4 r2 Hr2 ltac:(lia)) as (cookie & r3 & -> & Hck & Hr3). rewrite zlength_app, zlength_be_bytes in E20.
  rewrite <- (ztake_zdrop 12 r3) in Er. assert (Ht : tid_wf (ztake 12 r3)).
  { split; [apply zlength_ztake; lia|by apply bytes_ztake]. }
  destruct (read_be16_app _ _ _ W Er) as (-> & W1 & R1). rewrite (wrap_small 16 type) by done.
  assert (Ha : forall n, 0 <= n <= 20 -> advances mb (adv mb n)).
  { intros n Hn. apply advances_set_pos. pose proof (zlength_rest mb W) as Hz.
    rewrite Er, !zlength_app, !zlength_be_bytes, (proj1 Ht) in Hz. pose proof (zlength_nonneg (zdrop 12 r3)). lia. }
  destruct (Z.land type 0xc000 =? 0) eqn:Ec; cbn [negb]; [|split; [done|by apply Ha]]. bool_prop.
  destruct (read_be16_app _ _ _ W1 R1) as (-> & W2 & R2). rewrite (wrap_small 16 len) by done. rewrite adv_adv in *.
  destruct (Z.land len 3 =? 0) eqn:E3; cbn [negb]; [|split; [done|by apply Ha]]. bool_prop.
  destruct (read_be32_app _ _ _ W2 R2) as (-> & W3 & R3). rewrite (wrap_small 32 cookie) by done. rewrite adv_adv in *.
  destruct (read_mem_app _ _ _ STUN_TID_SIZE W3 R3 (proj1 Ht)) as (-> & W4 & R4). rewrite adv_adv in *.
  rewrite mbuf_get_left_rest, R4 by done.
  destruct (zlength (zdrop 12 r3) <? len) eqn:El; bool_prop; [split; [done|by apply Ha]|].
  change 3 with (Z.ones 2) in E3. rewrite Z.land_ones in E3 by lia.
  split; [done|]. split; [exact (conj (conj (proj1 Hty) (top_clear _ Hty Ec)) (conj Hlen (conj Hck Ht)))|].
  split; [done|]. exists (zdrop 12 r3). unfold hdr_bytes. cbn. by rewrite <- !app_assoc.
Qed.

(** What is known of an accepted message: the header is the one in the buffer,
    the announced length is a multiple of four within what was received, and
    the attributes with their values fit in that length. *)
Definition accepted (mb : mbuf) (msg : stun_msg) : Prop :=
  let h := msg_hdr msg in
  msg_mb msg = mb /\ msg_start msg = mb_pos mb /\ hdr_wf h /\ hdr_len h mod 4 = 0
  /\ (exists r, rest mb = hdr_bytes h ++ r /\ hdr_len h <= zlength r)
  /\ attrs_cost (msg_attrl msg) <= hdr_len h /\ Forall attr_ok (msg_attrl msg).

Lemma msg_decode_any fuel ua mb :
  mbuf_wf mb -> zlength (rest mb) < 4 * Z.of_nat fuel ->
  exists r ua', stun_msg_decode fuel ua mb = Some (r, ua', mb)
    /\ match r with Err e => stun_error e | Ok msg => accepted mb msg end.
Proof.
  intros W Hf. unfold stun_msg_decode. pose proof (hdr_decode_any mb W) as Hh.
  assert (Hpos : forall mb', advances mb mb' -> mbuf_set_pos mb' (mb_pos mb) = mb).
  { intros mb' Ha. destruct (Ha W) as (_ & E1 & E2 & E3 & _). destruct mb, mb'. cbn in *. by subst. }
  destruct (stun_hdr_decode mb) as [[h|e] mb1].
  - destruct Hh as (-> & Hwf & Hm & r & Er & Hr). pose proof (zlength_stun_hdr h (proj2 (proj2 (proj2 Hwf)))) as H20.
    destruct (adv_step mb _ _ 20 W Er H20) as [W1 R1]. pose proof (zlength_rest mb W) as Hz. rewrite Er, zlength_app, H20 in Hz.
    assert (Ha : advances mb (adv mb 20)) by (apply advances_set_pos; pose proof (zlength_nonneg r); lia).
    destruct (mem_alloc SIZEOF_STUN_MSG); [|rewrite Hpos by done; eexists _, _; split; [done|by right; left]].
    rewrite mbuf_get_left_rest, R1 by done. pose proof (proj1 (proj2 Hwf)) as H16. unfold is_u16 in H16.
    assert (Hlt : zlength r < 2 ^ 63) by (assert (W' := W); mbuf_wf_facts; lia).
    rewrite wrap_small by lia.
    destruct (decode_attrs_any fuel (hdr_tid h) (zlength r - hdr_len h) (option_map (fun _ => []) ua) [] (adv mb 20))
      as (res & ua' & mb' & -> & Ha' & Hres); [done|lia|rewrite R1; rewrite Er, zlength_app in Hf; lia|].
    cbn. rewrite Hpos by by etransitivity. eexists _, _. split; [done|]. destruct res as [l1|e]; [|done].
    destruct Hres as (l' & -> & Hc & Hok). rewrite R1 in Hc. unfold accepted. cbn [msg_mb msg_start msg_hdr msg_attrl app]. split_and!; try done; try apply Hwf; [by exists r|lia].
  - destruct Hh as [-> Ha]. rewrite Hpos by done. eexists _, _. split; [done|by left].
Qed.

(** C38: the decoder on arbitrary bytes: it returns, with the buffer as it
    was, and fails only with EBADMSG, ENOMEM or EAFNOSUPPORT; the header of an
    accepted message is the one in the buffer, the announced length is a
    multiple of four that does not exceed what was received, and the decoded
    attributes fit in that length: the 4 bytes of the header of each and the
    bytes of its decoded value ([val_size]: addresses, strings, integers, the
    part of the buffer that DATA refers to; an attribute of unknown type has no
    decoded value) add up to at most the announced length, where every
    MESSAGE-INTEGRITY has 20 bytes and every FINGERPRINT 4. *)
Theorem stun_msg_decode_safe fuel ua mb :
  mbuf_wf mb -> zlength (rest mb) < 4 * Z.of_nat fuel ->
  exists r ua', stun_msg_decode fuel ua mb = Some (r, ua', mb)
    /\ match r with
       | Err e => e = EBADMSG \/ e = ENOMEM \/ e = EAFNOSUPPORT
       | Ok msg => accepted mb msg
       end.
Proof. apply msg_decode_any. Qed.

Lemma find_attr_spec msg type a : stun_msg_attr msg type = Some a -> a ∈ msg_attrl msg /\ attr_type a = type.
Proof. intros [Hi He]%List.find_some. bool_prop. split; [by apply list_elem_of_In|done]. Qed.

Lemma attrs_cost_elem l a : a ∈ l -> 4 + val_size (attr_v a) <= attrs_cost l.
Proof.
  induction l as [|b l IH]; [by intros ?%elem_of_nil|]. rewrite attrs_cost_cons. pose proof (attrs_cost_nonneg l).
  pose proof (val_size_nonneg (attr_v b)). intros [->|Hl]%elem_of_cons; [lia|]. specialize (IH Hl). lia.
Qed.

Lemma attrs_cost_elem2 l a b :
  a ∈ l -> b ∈ l -> attr_type a <> attr_type b -> 8 + val_size (attr_v a) + val_size (attr_v b) <= attrs_cost l.
Proof.
  induction l as [|c l IH]; [by intros ?%elem_of_nil|]. rewrite attrs_cost_cons. pose proof (attrs_cost_nonneg l).
  pose proof (val_size_nonneg (attr_v c)).
  intros [->|Ha]%elem_of_cons [->|Hb]%elem_of_cons Hne; [done|apply attrs_cost_elem in Hb; lia|apply attrs_cost_elem in Ha; lia|].
  specialize (IH Ha Hb Hne). lia.
Qed.

Context {L : EvpLaws} (Ham : ample_memory).

Lemma chk_mi_any fuel ua ua' mb msg mb' key mi :
  mbuf_wf mb -> mb_pos mb < 2 ^ 30 -> zlength (rest mb) < 4 * Z.of_nat fuel ->
  stun_msg_decode fuel ua mb = Some (Ok msg, ua', mb') ->
  stun_msg_attr msg STUN_ATTR_MSG_INTEGRITY = Some mi ->
  let h := msg_hdr msg in
  exists d body tail mb2,
    attr_v mi = VMi d /\ rest mb = hdr_bytes h ++ body ++ tail /\ hdr_len h = zlength body + mi_tail_len msg
    /\ stun_msg_chk_mi msg key
         = (if bool_decide (d = hmac_sha1 key (hdr_bytes (with_len h (zlength body + MI_SIZE)) ++ body) (replicate 20 0))
            then 0 else EBADMSG, StunMsg h (msg_attrl msg) mb2 (msg_start msg))
    /\ content mb2 = content mb /\ mb_pos mb2 = mb_pos mb.
Proof.
  intros W Hp Hf Hdec Hmi h. destruct (msg_decode_any fuel ua mb W Hf) as (r & u & Es & Hr).
  rewrite Es in Hdec. injection Hdec as -> _ _. destruct Hr as (Emb & Est & Hwf & _ & (r & Er & Hle) & Hc & Hok).
  destruct (find_attr_spec _ _ _ Hmi) as [Hin Hty].
  assert (Hall : forall a, a ∈ msg_attrl msg -> attr_ok a) by (intros a Ha; exact (proj1 (List.Forall_forall _ _) Hok a (proj1 (list_elem_of_In _ _) Ha))).
  destruct (proj1 (Hall mi Hin) Hty) as (d & Hd & Hd20).
  assert (Hroom : mi_tail_len msg <= hdr_len h).
  { unfold mi_tail_len, has_fp, MI_SIZE, FP_SIZE. destruct (stun_msg_attr msg STUN_ATTR_FINGERPRINT) as [fp|] eqn:Efp.
    - destruct (find_attr_spec _ _ _ Efp) as [Hinf Htf]. pose proof (attrs_cost_elem2 _ _ _ Hin Hinf ltac:(by rewrite Hty, Htf)) as Hx.
      rewrite (proj1 (fixed_val_size _ (Hall mi Hin)) Hty), (proj2 (fixed_val_size _ (Hall fp Hinf)) Htf) in Hx. fold h in Hc. lia.
    - pose proof (attrs_cost_elem _ _ Hin) as Hx. rewrite (proj1 (fixed_val_size _ (Hall mi Hin)) Hty) in Hx. fold h in Hc. lia. }
  assert (Hmt : 0 <= mi_tail_len msg) by (unfold mi_tail_len; case_match; done).
  set (n := hdr_len h - mi_tail_len msg) in *. rewrite <- (ztake_zdrop n r) in Er.
  assert (Hbl : zlength (ztake n r) = n) by (apply zlength_ztake; fold h in Hle; lia).
  destruct (chk_mi_exact Ham msg key (ztake (mb_pos mb) (content mb)) (ztake n r) (zdrop n r) (mb_pos mb) mi d)
    as (mb2 & Echk & Hh2); try done.
  - rewrite zlength_ztake; [lia|]. rewrite zlength_content by done. assert (W' := W). mbuf_wf_facts. lia.
  - rewrite Emb. split; [done| |done]. rewrite <- Er. unfold rest. by rewrite ztake_zdrop.
  - rewrite Est. rewrite zlength_ztake; [done|]. rewrite zlength_content by done. assert (W' := W). mbuf_wf_facts. lia.
  - fold h. lia.
  - exists d, (ztake n r), (zdrop n r), mb2. split_and!; [done|done|fold h in Hbl |- *; lia|done| |].
    + rewrite (holds_content _ _ _ Hh2), <- Er. unfold rest. by rewrite ztake_zdrop.
    + rewrite (holds_pos _ _ _ Hh2), zlength_ztake; [done|]. rewrite zlength_content by done. assert (W' := W). mbuf_wf_facts. lia.
Qed.

(** The integrity check of any accepted message, whatever bytes it came
    from: it succeeds exactly when the first MESSAGE-INTEGRITY attribute is the
    HMAC-SHA1 of the header and the bytes before the last 24 of the announced
    length (the last 32 when there is a fingerprint), with the length field
    reduced by the size of the fingerprint; the length never underflows, and
    the message and its buffer are afterwards as they were. *)
Theorem stun_chk_mi_exact fuel ua ua' mb msg mb' key mi :
  mbuf_wf mb -> mb_pos mb < 2 ^ 30 -> zlength (rest mb) < 4 * Z.of_nat fuel ->
  stun_msg_decode fuel ua mb = Some (Ok msg, ua', mb') ->
  stun_msg_attr msg STUN_ATTR_MSG_INTEGRITY = Some mi ->
  let h := msg_hdr msg in
  exists d body tail mb2,
    attr_v mi = VMi d /\ rest mb = hdr_bytes h ++ body ++ tail /\ hdr_len h = zlength body + mi_tail_len msg
    /\ stun_msg_chk_mi msg key
         = (if bool_decide (d = hmac_sha1 key (hdr_bytes (with_len h (zlength body + MI_SIZE)) ++ body) (replicate 20 0))
            then 0 else EBADMSG, StunMsg h (msg_attrl msg) mb2 (msg_start msg))
    /\ content mb2 = content mb /\ mb_pos mb2 = mb_pos mb.
Proof. by apply chk_mi_any. Qed.
End Safe.

(** ** Message types *)

(** What STUN_CLASS adds to the class: bits 4 and 6 of the method. *)
Definition method_leak (m : Z) : Z := Z.lor (Z.land (Z.shiftr m 6) 1) (Z.shiftl (Z.land (Z.shiftr m 4) 1) 1).

Lemma type_fields_all :
  forallb (fun m => forallb (fun c =>
    (STUN_METHOD (STUN_TYPE m c) =? m) && (STUN_CLASS (STUN_TYPE m c) =? Z.lor c (method_leak m)))
    [0; 1; 2; 3]) (seqZ 0 4096) = true.
Proof. vm_compute. reflexivity. Qed.

(** The type field and its parts: the method of STUN_TYPE(m, c) is m for
    every 12-bit method and 2-bit class, but STUN_CLASS gives the class only
    when bits 4 and 6 of the method are clear, as they are for the methods of
    stun.h; otherwise those bits appear in it. *)
Theorem stun_type_fields m c :
  0 <= m < 4096 -> 0 <= c < 4 ->
  STUN_METHOD (STUN_TYPE m c) = m /\ STUN_CLASS (STUN_TYPE m c) = Z.lor c (method_leak m)
  /\ (Z.land m 0x50 = 0 -> STUN_CLASS (STUN_TYPE m c) = c).
Proof.
  intros Hm Hc. pose proof (proj1 (forallb_forall _ _) type_fields_all m) as Hall.
  specialize (Hall (proj1 (list_elem_of_In _ _) (proj2 (elem_of_seqZ _ _ _) Hm))). cbv beta in Hall.
  pose proof (proj1 (forallb_forall _ _) Hall c) as Hone.
  assert (Hin : In c [0; 1; 2; 3]) by (cbn; lia). specialize (Hone Hin). apply andb_true_iff in Hone as [H1 H2]. bool_prop.
  split; [done|]. split; [done|]. intros H50. rewrite H2. unfold method_leak.
  assert (Hbit : forall i, 0 <= i -> Z.testbit 0x50 i = true -> Z.testbit m i = false).
  { intros i Hi Hb. pose proof (f_equal (fun x => Z.testbit x i) H50) as Hx. cbv beta in Hx.
    rewrite Z.land_spec, Hb, Z.bits_0, andb_true_r in Hx. done. }
  assert (Hz : forall i, 0 <= i -> Z.testbit m i = false -> Z.land (Z.shiftr m i) 1 = 0).
  { intros i Hi Hb. change 1 with (Z.ones 1). rewrite Z.land_ones, <- Z.bit0_mod, Z.shiftr_spec, Z.add_0_l, Hb by lia. done. }
  rewrite (Hz 6), (Hz 4) by (try lia; apply Hbit; done). apply Z.lor_0_r.
Qed.

(** ** Samples *)

#[local] Existing Instance lp64_le.

(** The sample message as it is received. *)
Definition sample_wire : mbuf :=
  match stun_msg_encode 3 [] 1 0 sample_tid None (Some [1; 2; 3]) true 0 sample_attrs mbuf_init with
  | Some (_, mb) => rcv_buf (content mb)
  | None => mbuf_init
  end.

Lemma sample_wire_wf : mbuf_wf sample_wire.
Proof.
  assert (Hs : exists d, sample_wire = rcv_buf d /\ forallb (fun b => (0 <=? b) && (b <? 256)) d = true /\ zlength d = 72)
    by (exists (mb_mem sample_wire); split_and!; vm_compute; reflexivity).
  destruct Hs as (d & -> & Hd & Hl). apply (holds_wf _ d 0), rcv_buf_holds; [|by rewrite Hl].
  apply List.Forall_forall. intros b Hb. pose proof (proj1 (forallb_forall _ _) Hd b Hb) as Hx.
  apply andb_true_iff in Hx as [H1 H2]. bool_prop. by split.
Qed.

Lemma stun_msg_decode_safe_witness :
  exists r ua', stun_msg_decode 32 (Some []) sample_wire = Some (r, ua', sample_wire)
    /\ match r with
       | Err e => e = EBADMSG \/ e = ENOMEM \/ e = EAFNOSUPPORT
       | Ok msg => accepted sample_wire msg
       end.
Proof. apply (stun_msg_decode_safe 32 (Some []) sample_wire); [exact sample_wire_wf|by_compute]. Defined.

Lemma stun_chk_mi_exact_witness :
  exists msg d body tail mb2, stun_msg_decode 32 None sample_wire = Some (Ok msg, None, sample_wire)
    /\ rest sample_wire = hdr_bytes (msg_hdr msg) ++ body ++ tail
    /\ stun_msg_chk_mi msg [7]
         = (if bool_decide (d = hmac_sha1 [7] (hdr_bytes (with_len (msg_hdr msg) (zlength body + MI_SIZE)) ++ body) (replicate 20 0))
            then 0 else EBADMSG, StunMsg (msg_hdr msg) (msg_attrl msg) mb2 (msg_start msg))
    /\ content mb2 = content sample_wire.
Proof.
  assert (Hd : exists msg mi, stun_msg_decode 32 None sample_wire = Some (Ok msg, None, sample_wire)
    /\ stun_msg_attr msg STUN_ATTR_MSG_INTEGRITY = Some mi)
    by (eexists _, _; split; vm_compute; reflexivity).
  destruct Hd as (msg & mi & Hd & Hmi).
  destruct (stun_chk_mi_exact lp64_ample 32 None None sample_wire msg sample_wire [7] mi sample_wire_wf ltac:(by_compute)
    ltac:(by_compute) Hd Hmi) as (d & body & tail & mb2 & _ & Hr & _ & Hc & Hcont & _).
  exists msg, d, body, tail, mb2. split; [exact Hd|]. split; [exact Hr|]. split; [exact Hc|exact Hcont].
Defined.

Lemma stun_type_fields_witness :
  STUN_METHOD (STUN_TYPE 9 1) = 9 /\ STUN_CLASS (STUN_TYPE 9 1) = 1 /\ STUN_CLASS (STUN_TYPE 0x40 0) = 1.
Proof.
  split; [apply (stun_type_fields 9 1); lia|]. split; [by apply (stun_type_fields 9 1)|].
  by apply (stun_type_fields 0x40 0).
Defined.
