(* ===== verification/StunTrans.v ===== *)
(** * STUN client transactions: src/src/stun/ctrans.c, stun.c, req.c, ind.c and rep.c

    A STUN instance holds the pending transactions in the order of their list
    ([stun_ctl]); list.c and tmr.c are used through what [ListSpec] and
    [TmrSpec] prove of them: the list is a sequence and the timer of a
    transaction a deadline ([ct_tmr]).  Sockets are outside: what a call to
    them returned is given by [net], and what was sent or reported to the user
    is the output.  [OReq], [ODrop] record when a transaction starts and when
    its owner releases it.  Handlers of the user run after the step.  A
    transaction is named by [ct_id], counted up by the instance. *)

From stdpp Require Import base list numbers gmap.
From Stdlib Require Import ZArith Lia.
From S2P Require Import Prelude Endian Mbuf MbufView Crypto Sa Stun.

Open Scope Z_scope.

Definition IPPROTO_TCP : Z := 6.
Definition IPPROTO_UDP : Z := 17.
(** The enumerator after STUN_TRANSP_TCP. *)
Definition STUN_TRANSP_DTLS : Z := 7.

Definition STUN_CLASS_REQUEST : Z := 0.
Definition STUN_CLASS_INDICATION : Z := 1.
Definition STUN_CLASS_SUCCESS_RESP : Z := 2.
Definition STUN_CLASS_ERROR_RESP : Z := 3.

Record stun_conf := StunConf { rto : Z; rc : Z; rm : Z; ti : Z; tos : Z }.
Definition conf_default : stun_conf := StunConf 500 7 16 39500 0.

Record stun_ctrans := Ctrans {
  ct_id : Z;
  ct_tmr : option Z;
  ct_dst : option sa;
  ct_tid : list Z;
  ct_ctp : Z;
  ct_key : option (list Z);
  ct_sock : Z;
  ct_mb : mbuf;
  ct_pos : Z;
  ct_resph : Z;
  ct_arg : Z;
  ct_proto : Z;
  ct_txc : Z;
  ct_ival : Z;
  ct_met : Z;
}.

(** [stun_ptr] is the memory of the users' transaction pointers. *)
Record stun := StunI {
  stun_ctl : list stun_ctrans;
  stun_cnf : stun_conf;
  stun_indh : Z;
  stun_arg : Z;
  stun_ptr : gmap Z Z;
  stun_next : Z;
}.

Inductive out :=
  | OSend (proto sock : Z) (dst : option sa) (data : list Z)
  | OResp (id resph arg err scode : Z) (msg : option stun_msg)
  | OInd (indh arg : Z) (msg : stun_msg)
  | OReq (id resph : Z)
  | ODrop (id resph : Z).

(** What the socket layer answers. *)
Record net := Net { udp_send : Z; tcp_send : Z; dtls_send : Z; udp_listen : res Z; tcp_connect : res Z }.

Definition set_ctl (s : stun) (l : list stun_ctrans) : stun :=
  StunI l (stun_cnf s) (stun_indh s) (stun_arg s) (stun_ptr s) (stun_next s).
Definition find_ct (s : stun) (id : Z) : option stun_ctrans := List.find (fun ct => ct_id ct =? id) (stun_ctl s).
Definition without (id : Z) (l : list stun_ctrans) : list stun_ctrans := List.filter (fun ct => negb (ct_id ct =? id)) l.

(** ** ctrans.c *)

(** Unlinks, cancels the timer, clears the user's pointer and calls the
    handler, if there is one. *)
Definition completed (ct : stun_ctrans) (err scode : Z) (msg : option stun_msg) (s : stun) : stun * list out :=
  let ptr := if ct_ctp ct =? 0 then stun_ptr s else <[ct_ctp ct := 0]> (stun_ptr s) in
  (StunI (without (ct_id ct) (stun_ctl s)) (stun_cnf s) (stun_indh s) (stun_arg s) ptr (stun_next s),
   if ct_resph ct =? 0 then [] else [OResp (ct_id ct) (ct_resph ct) (ct_arg ct) err scode msg]).

(** The destructor, when the owner releases a pending transaction. *)
Definition destructor (id : Z) (s : stun) : stun * list out :=
  (set_ctl s (without id (stun_ctl s)), match find_ct s id with Some ct => [ODrop id (ct_resph ct)] | None => [] end).

Section Trans.
Context `{H : Host} `{E : Evp}.

(** stun.c *)
Definition stun_send (nt : net) (proto sock : Z) (dst : option sa) (mb : mbuf) : Z * list out :=
  if sock =? 0 then (EINVAL, [])
  else
    let err := if proto =? IPPROTO_UDP then udp_send nt
               else if proto =? IPPROTO_TCP then tcp_send nt
               else if proto =? STUN_TRANSP_DTLS then dtls_send nt
               else EPROTONOSUPPORT in
    (err, if err =? 0 then [OSend proto sock dst (ztake (mbuf_get_left mb) (mbuf_buf mb))] else []).

Definition put_ct (ct : stun_ctrans) (s : stun) : stun :=
  set_ctl s (map (fun c => if ct_id c =? ct_id ct then ct else c) (stun_ctl s)).

(** The timer was disarmed by tmr_poll. *)
Definition timeout_handler (nt : net) (now id : Z) (s : stun) : stun * list out :=
  match find_ct s id with
  | None => (s, [])
  | Some ct =>
      let cfg := stun_cnf s in
      let txc := u32 (ct_txc ct + 1) in
      if ct_txc ct >=? rc cfg then completed ct ETIMEDOUT 0 None s
      else
        let mb := mbuf_set_pos (ct_mb ct) (ct_pos ct) in
        let '(err, o) := stun_send nt (ct_proto ct) (ct_sock ct) (ct_dst ct) mb in
        if negb (err =? 0) then completed ct err 0 None s
        else
          let ival := if txc >=? rc cfg then u32 (rto cfg * rm cfg) else u32 (ct_ival ct * 2) in
          (put_ct (Ctrans (ct_id ct) (Some (u64 (now + ival))) (ct_dst ct) (ct_tid ct) (ct_ctp ct) (ct_key ct) (ct_sock ct) mb
                     (ct_pos ct) (ct_resph ct) (ct_arg ct) (ct_proto ct) txc ival (ct_met ct)) s, o)
  end.

Definition match_handler (msg : stun_msg) (ct : stun_ctrans) : bool :=
  (ct_met ct =? stun_msg_method msg) && bool_decide (ct_tid ct = stun_msg_tid msg).

(** stun_errcode of the message: the code, and EPROTO when an error response
    has none. *)
Definition resp_code (msg : stun_msg) : Z * Z :=
  if stun_msg_class msg =? STUN_CLASS_ERROR_RESP then
    match stun_msg_attr msg STUN_ATTR_ERR_CODE with
    | None => (EPROTO, 0)
    | Some a => (0, match attr_v a with VErrCode c _ => c | _ => 0 end)
    end
  else (0, 0).

Definition stun_ctrans_recv (msg : stun_msg) (ua : list Z) (s : stun) : Z * stun * list out :=
  if (stun_msg_class msg =? STUN_CLASS_ERROR_RESP) || (stun_msg_class msg =? STUN_CLASS_SUCCESS_RESP) then
    let '(herr, code) := resp_code msg in
    match List.find (match_handler msg) (stun_ctl s) with
    | None => (ENOENT, s, [])
    | Some ct =>
        let '(err, msg) := if (code =? 401) || (code =? 438) then (0, msg)
                           else match ct_key ct with None => (0, msg) | Some key => stun_msg_chk_mi msg key end in
        if negb (err =? 0) then (err, s, [])
        else
          let herr := if (herr =? 0) && negb (zlength ua =? 0) then EPROTO else herr in
          let '(s, o) := completed ct herr code (Some msg) s in (0, s, o)
    end
  else (0, s, []).

(** [sizeof(struct stun_ctrans)] of an LP64 platform. *)
Definition SIZEOF_STUN_CTRANS : Z := 360.

(** The transport part of stun_ctrans_request. *)
Definition start_transport (nt : net) (now : Z) (cfg : stun_conf) (dst : option sa) (sock : Z) (mb : mbuf) (ct : stun_ctrans)
  : Z * stun_ctrans * list out :=
  let armed ct d ival := Ctrans (ct_id ct) (Some (u64 (now + d))) (ct_dst ct) (ct_tid ct) (ct_ctp ct) (ct_key ct) (ct_sock ct)
                           (ct_mb ct) (ct_pos ct) (ct_resph ct) (ct_arg ct) (ct_proto ct) (ct_txc ct) ival (ct_met ct) in
  let tx ct sk n := Ctrans (ct_id ct) (ct_tmr ct) (ct_dst ct) (ct_tid ct) (ct_ctp ct) (ct_key ct) sk (ct_mb ct) (ct_pos ct)
                      (ct_resph ct) (ct_arg ct) (ct_proto ct) n (ct_ival ct) (ct_met ct) in
  let to ct d := Ctrans (ct_id ct) (ct_tmr ct) d (ct_tid ct) (ct_ctp ct) (ct_key ct) (ct_sock ct) (ct_mb ct) (ct_pos ct)
                   (ct_resph ct) (ct_arg ct) (ct_proto ct) (ct_txc ct) (ct_ival ct) (ct_met ct) in
  let data := ztake (mbuf_get_left mb) (mbuf_buf mb) in
  let sent err sk d := if err =? 0 then [OSend (ct_proto ct) sk d data] else [] in
  if ct_proto ct =? IPPROTO_UDP then
    match dst with
    | None => (EINVAL, ct, [])
    | Some _ =>
        let ct := armed (to ct dst) (rto cfg) (rto cfg) in
        match (if sock =? 0 then udp_listen nt else Ok sock) with
        | Err e => (e, ct, [])
        | Ok sk => (udp_send nt, tx ct sk 1, sent (udp_send nt) sk dst)
        end
    end
  else if ct_proto ct =? IPPROTO_TCP then
    let ct := armed (tx ct (ct_sock ct) (rc cfg)) (ti cfg) (ct_ival ct) in
    if negb (sock =? 0) then (tcp_send nt, ct, sent (tcp_send nt) sock None)
    else match tcp_connect nt with Err e => (e, ct, []) | Ok sk => (0, tx ct sk (ct_txc ct), []) end
  else if ct_proto ct =? STUN_TRANSP_DTLS then
    if sock =? 0 then (EINVAL, ct, [])
    else
      let ct := tx (armed ct (rto cfg) (rto cfg)) sock 1 in
      (dtls_send nt, ct, sent (dtls_send nt) sock None)
  else (EPROTONOSUPPORT, ct, []).

(** On an error the new transaction is destroyed again, which leaves the
    instance as it was. *)
Definition stun_ctrans_request (nt : net) (now ctp proto sock : Z) (dst : option sa) (mb : mbuf) (tid : list Z) (met : Z)
  (key : option (list Z)) (resph arg : Z) (s : stun) : Z * stun * list out :=
  match mem_alloc SIZEOF_STUN_CTRANS with
  | None => (ENOMEM, s, [])
  | Some _ =>
      let id := stun_next s in
      let s := StunI (stun_ctl s) (stun_cnf s) (stun_indh s) (stun_arg s) (stun_ptr s) (id + 1) in
      let ct := Ctrans id None None (ztake STUN_TID_SIZE tid) 0 None sock mb (mb_pos mb) 0 0 proto 0 0 met in
      let keyed := match key with
                   | None => Some None
                   | Some k => match mem_alloc (zlength k) with Some _ => Some (Some k) | None => None end
                   end in
      match keyed with
      | None => (ENOMEM, s, [])
      | Some key =>
          let ct := Ctrans id None None (ct_tid ct) 0 key sock mb (mb_pos mb) 0 0 proto 0 0 met in
          let '(err, ct, o) := start_transport nt now (stun_cnf s) dst sock mb ct in
          if err =? 0 then
            let ct := Ctrans (ct_id ct) (ct_tmr ct) (ct_dst ct) (ct_tid ct) ctp (ct_key ct) (ct_sock ct) (ct_mb ct) (ct_pos ct)
                        resph arg (ct_proto ct) (ct_txc ct) (ct_ival ct) (ct_met ct) in
            let ptr := if ctp =? 0 then stun_ptr s else <[ctp := id]> (stun_ptr s) in
            (0, StunI (stun_ctl s ++ [ct]) (stun_cnf s) (stun_indh s) (stun_arg s) ptr (stun_next s), o ++ [OReq id resph])
          else (err, s, o)
      end
  end.

Definition tcp_estab_handler (nt : net) (id : Z) (s : stun) : stun * list out :=
  match find_ct s id with
  | None => (s, [])
  | Some ct =>
      let err := tcp_send nt in
      if err =? 0 then (s, [OSend (ct_proto ct) (ct_sock ct) None (ztake (mbuf_get_left (ct_mb ct)) (mbuf_buf (ct_mb ct)))])
      else completed ct err 0 None s
  end.

Definition tcp_close_handler (err id : Z) (s : stun) : stun * list out :=
  match find_ct s id with None => (s, []) | Some ct => completed ct err 0 None s end.

(** list_apply with close_handler: the handler unlinks the element it is
    called for. *)
Fixpoint close_loop (l : list stun_ctrans) (s : stun) : stun * list out :=
  match l with
  | [] => (s, [])
  | ct :: l =>
      let '(s, o) := completed ct ECONNABORTED 0 None s in
      let '(s, o') := close_loop l s in (s, o ++ o')
  end.

Definition stun_ctrans_close (s : stun) : stun * list out := close_loop (stun_ctl s) s.

(** ** stun.c *)

Definition stun_alloc (conf : option stun_conf) (indh arg : Z) : stun :=
  StunI [] (default conf_default conf) indh arg ∅ 1.

Definition stun_recv (fuel : nat) (mb : mbuf) (s : stun) : option (Z * stun * list out) :=
  '(r, ua, _) ← stun_msg_decode fuel (Some []) mb;
  match r with
  | Err e => Some (e, s, [])
  | Ok msg =>
      let ua := default [] ua in
      let cls := stun_msg_class msg in
      if cls =? STUN_CLASS_INDICATION then
        Some (0, s, if negb (zlength ua =? 0) || (stun_indh s =? 0) then [] else [OInd (stun_indh s) (stun_arg s) msg])
      else if (cls =? STUN_CLASS_ERROR_RESP) || (cls =? STUN_CLASS_SUCCESS_RESP) then Some (stun_ctrans_recv msg ua s)
      else Some (0, s, [])
  end.

(** ** req.c, ind.c and rep.c

    [tid] is what stun_generate_tid stored, [mi0] the initial contents of the
    integrity buffer (see [Stun]). *)

(** Encoding at [presz] into a new buffer, and back to [presz]. *)
Definition encode_at (size presz : Z) (mi0 : list Z) (method class : Z) (tid : list Z) (ec : option (Z * list Z))
  (key : option (list Z)) (fp : bool) (attrs : list (Z * option stun_val)) : option (res mbuf) :=
  match mbuf_alloc size with
  | None => Some (Err ENOMEM)
  | Some mb =>
      '(err, mb) ← stun_msg_vencode 3 mi0 method class tid ec key fp 0 attrs (mbuf_set_pos mb presz);
      Some (if err =? 0 then Ok (mbuf_set_pos mb presz) else Err err)
  end.

Definition stun_request (nt : net) (now ctp proto sock : Z) (dst : option sa) (presz method : Z) (mi0 tid : list Z)
  (key : option (list Z)) (fp : bool) (resph arg : Z) (attrs : list (Z * option stun_val)) (s : stun)
  : option (Z * stun * list out) :=
  r ← encode_at 512 presz mi0 method STUN_CLASS_REQUEST tid None key fp attrs;
  Some (match r with
        | Err e => (e, s, [])
        | Ok mb => stun_ctrans_request nt now ctp proto sock dst mb tid method key resph arg s
        end).

Definition send_encoded (nt : net) (proto sock : Z) (dst : option sa) (r : option (res mbuf)) : option (Z * list out) :=
  r ← r;
  Some (match r with Err e => (e, []) | Ok mb => stun_send nt proto sock dst mb end).

Definition stun_indication (nt : net) (proto sock : Z) (dst : option sa) (presz method : Z) (mi0 tid : list Z)
  (key : option (list Z)) (fp : bool) (attrs : list (Z * option stun_val)) : option (Z * list out) :=
  if sock =? 0 then Some (EINVAL, [])
  else send_encoded nt proto sock dst (encode_at 2048 presz mi0 method STUN_CLASS_INDICATION tid None key fp attrs).

Definition stun_reply (nt : net) (proto sock : Z) (dst : option sa) (presz : Z) (req : stun_msg) (mi0 : list Z)
  (key : option (list Z)) (fp : bool) (attrs : list (Z * option stun_val)) : option (Z * list out) :=
  if sock =? 0 then Some (EINVAL, [])
  else send_encoded nt proto sock dst
         (encode_at 256 presz mi0 (stun_msg_method req) STUN_CLASS_SUCCESS_RESP (stun_msg_tid req) None key fp attrs).

Definition stun_ereply (nt : net) (proto sock : Z) (dst : option sa) (presz : Z) (req : stun_msg) (scode : Z) (reason : list Z)
  (mi0 : list Z) (key : option (list Z)) (fp : bool) (attrs : list (Z * option stun_val)) : option (Z * list out) :=
  if (sock =? 0) || (scode =? 0) then Some (EINVAL, [])
  else send_encoded nt proto sock dst
         (encode_at 256 presz mi0 (stun_msg_method req) STUN_CLASS_ERROR_RESP (stun_msg_tid req) (Some (scode, reason)) key fp attrs).
End Trans.
