(* ===== verification/StunTransSpec.v ===== *)
(** * STUN client transactions: accounting, schedule, authenticity

    Whatever happens to an instance, every accepted request is answered
    exactly once unless its owner releases it, and no pending transaction is
    without a timer; unanswered requests are retransmitted on the schedule of
    RFC 5389; responses are accepted only from who knows the key; a reply
    reaches the handler of its request. *)

From stdpp Require Import base list numbers gmap.
From Stdlib Require Import ZArith Lia.
From S2P Require Import Prelude Endian Mbuf MbufView Crypto Sa Stun StunWire StunSpec StunSafe StunTrans.

Open Scope Z_scope.

(** ** Counting outputs *)

Definition count {A} (f : A -> bool) (l : list A) : Z := zlength (List.filter f l).

Lemma count_app {A} (f : A -> bool) l l' : count f (l ++ l') = count f l + count f l'.
Proof. unfold count. rewrite List.filter_app. apply zlength_app. Qed.

Lemma count_cons {A} (f : A -> bool) x l : count f (x :: l) = Z.b2z (f x) + count f l.
Proof. unfold count. cbn. destruct (f x); [by rewrite zlength_cons|done]. Qed.

Lemma count_nil {A} (f : A -> bool) : count f [] = 0.
Proof. done. Qed.

Lemma count_nonneg {A} (f : A -> bool) l : 0 <= count f l.
Proof. apply zlength_nonneg. Qed.

Definition is_req (id : Z) (o : out) : bool := match o with OReq i h => (i =? id) && negb (h =? 0) | _ => false end.
Definition is_resp (id : Z) (o : out) : bool := match o with OResp i _ _ _ _ _ => i =? id | _ => false end.
Definition is_drop (id : Z) (o : out) : bool := match o with ODrop i h => (i =? id) && negb (h =? 0) | _ => false end.
Definition is_pend (id : Z) (ct : stun_ctrans) : bool := (ct_id ct =? id) && negb (ct_resph ct =? 0).

(** Every request with a handler is answered, released or pending. *)
Record books (s : stun) (os : list out) : Prop := {
  bk_nodup : NoDup (map ct_id (stun_ctl s));
  bk_fresh : Forall (fun ct => ct_id ct < stun_next s) (stun_ctl s);
  bk_timer : Forall (fun ct => is_Some (ct_tmr ct)) (stun_ctl s);
  bk_new : forall id, stun_next s <= id -> count (is_req id) os = 0;
  bk_once : forall id, count (is_req id) os <= 1;
  bk_sum : forall id, count (is_req id) os = count (is_resp id) os + count (is_drop id) os + count (is_pend id) (stun_ctl s);
}.

Lemma pend_without id i l :
  count (is_pend id) (without i l) = if id =? i then 0 else count (is_pend id) l.
Proof.
  unfold without. induction l as [|ct l IH]; [by destruct (id =? i)|]. cbn [List.filter].
  destruct (Z.eqb_spec (ct_id ct) i) as [E|Hne]; cbn [negb]; rewrite ?count_cons, IH; unfold is_pend.
  - destruct (Z.eqb_spec id i) as [->|Hn]; [done|]. rewrite (proj2 (Z.eqb_neq (ct_id ct) id)) by congruence. done.
  - destruct (Z.eqb_spec id i) as [->|Hn]; [|done]. by rewrite (proj2 (Z.eqb_neq (ct_id ct) i)).
Qed.

Lemma pend_in ct l : NoDup (map ct_id l) -> ct ∈ l -> count (is_pend (ct_id ct)) l = Z.b2z (negb (ct_resph ct =? 0)).
Proof.
  induction l as [|c l IH]; cbn [map]; rewrite ?NoDup_cons; intros Hnd Hin; [by apply elem_of_nil in Hin|].
  destruct Hnd as [Hn Hnd]. rewrite count_cons. unfold is_pend at 1. apply elem_of_cons in Hin as [->|Hin].
  - rewrite Z.eqb_refl. cbn [andb]. assert (count (is_pend (ct_id c)) l = 0); [|lia].
    clear IH Hnd. induction l as [|x l IH]; [done|]. cbn [map] in Hn. rewrite not_elem_of_cons in Hn. rewrite count_cons, IH by tauto.
    unfold is_pend. by rewrite (proj2 (Z.eqb_neq (ct_id x) (ct_id c))) by (intros Ex; apply (proj1 Hn); congruence).
  - rewrite IH by done. rewrite (proj2 (Z.eqb_neq (ct_id c) (ct_id ct))); [done|]. intros E. apply Hn. rewrite E.
    apply list_elem_of_In, in_map. by apply list_elem_of_In.
Qed.

Lemma without_sub i l : sublist (without i l) l.
Proof. unfold without. induction l as [|c l IH]; cbn; [done|]. destruct (negb _); by constructor. Qed.

Lemma without_books (P : stun_ctrans -> Prop) i l :
  NoDup (map ct_id l) -> Forall P l -> NoDup (map ct_id (without i l)) /\ Forall P (without i l).
Proof.
  intros Hnd HP. split; [|eapply List.incl_Forall; [apply List.incl_filter|done]].
  eapply sublist_NoDup; [exact Hnd|]. apply (fmap_sublist ct_id), without_sub.
Qed.

(** Taking a transaction off the books with one output that accounts for it. *)
Lemma books_off s os ct o ptr :
  books s os -> ct ∈ stun_ctl s ->
  (forall id, count (is_req id) o = 0) ->
  (forall id, count (is_resp id) o + count (is_drop id) o = Z.b2z ((id =? ct_id ct) && negb (ct_resph ct =? 0))) ->
  books (StunI (without (ct_id ct) (stun_ctl s)) (stun_cnf s) (stun_indh s) (stun_arg s) ptr (stun_next s)) (os ++ o).
Proof.
  intros [Hnd Hfr Htm Hnew Honce Hsum] Hin Hreq Hout.
  split; cbn [stun_ctl stun_next]; try (intros id); rewrite ?count_app, ?Hreq, ?Z.add_0_r; auto.
  - by eapply without_books.
  - by eapply without_books.
  - by eapply without_books.
  - specialize (Hout id). rewrite Hsum, pend_without. destruct (id =? ct_id ct) eqn:Eid; cbn [andb] in Hout.
    + bool_prop. subst id. rewrite pend_in by done. lia.
    + cbn in Hout. lia.
Qed.

Lemma completed_books s os ct err scode msg :
  books s os -> ct ∈ stun_ctl s ->
  books (completed ct err scode msg s).1 (os ++ (completed ct err scode msg s).2).
Proof.
  intros Hb Hin. unfold completed. cbn [fst snd]. apply books_off; try done; intros id; destruct (Z.eqb_spec (ct_resph ct) 0) as [E|Hne]; try done.
  - cbn. by rewrite andb_false_r.
  - rewrite !count_cons, !count_nil. cbn. rewrite Z.eqb_sym, andb_true_r. lia.
Qed.

Lemma find_ct_in s id ct : find_ct s id = Some ct -> ct ∈ stun_ctl s /\ ct_id ct = id.
Proof. intros [Hin E]%List.find_some. bool_prop. split; [by apply list_elem_of_In|done]. Qed.

Lemma destructor_books s os id : books s os -> books (destructor id s).1 (os ++ (destructor id s).2).
Proof.
  intros Hb. unfold destructor, set_ctl. cbn [fst snd]. destruct (find_ct s id) as [ct|] eqn:Ef.
  - apply find_ct_in in Ef as [Hin <-]. apply books_off; try done. intros i. rewrite !count_cons, !count_nil. cbn. rewrite Z.eqb_sym. lia.
  - replace (without id (stun_ctl s)) with (stun_ctl s); [rewrite app_nil_r; by destruct s|]. unfold find_ct in Ef.
    unfold without. induction (stun_ctl s) as [|c l IH]; [done|]. cbn in *. destruct (ct_id c =? id); [done|]. cbn. by rewrite <- IH.
Qed.

(** A transaction that is rewritten in place, keeping its name and handler. *)
Lemma put_ct_books s os ct ct' :
  books s os -> find_ct s (ct_id ct) = Some ct -> ct_id ct' = ct_id ct -> ct_resph ct' = ct_resph ct -> is_Some (ct_tmr ct') ->
  books (put_ct ct' s) os.
Proof.
  intros [Hnd Hfr Htm Hnew Honce Hsum] Hf Ei Eh Ht. unfold put_ct, set_ctl.
  set (f := fun c => if ct_id c =? ct_id ct' then ct' else c).
  assert (Hid : map ct_id (map f (stun_ctl s)) = map ct_id (stun_ctl s)).
  { rewrite map_map. apply map_ext. intros c. unfold f. by destruct (Z.eqb_spec (ct_id c) (ct_id ct')). }
  assert (HF : forall P : stun_ctrans -> Prop, Forall P (stun_ctl s) -> P ct' -> Forall P (map f (stun_ctl s))).
  { intros P HP Hct. apply List.Forall_map. eapply Forall_impl; [exact HP|]. intros c Hc. unfold f. by destruct (_ =? _). }
  split; cbn [stun_ctl stun_next]; try done; fold f.
  - by rewrite Hid.
  - apply HF; [done|]. rewrite Ei. apply find_ct_in in Hf as [Hin _].
    by apply (proj1 (List.Forall_forall _ _) Hfr), list_elem_of_In.
  - by apply HF.
  - intros id. rewrite Hsum. f_equal. apply find_ct_in in Hf as [Hin _]. revert Hnd Hin. generalize (stun_ctl s). clear -Ei Eh.
    induction l as [|c l IH]; [done|]. cbn [map]. rewrite NoDup_cons, elem_of_cons. intros [Hn Hnd] Hin. rewrite !count_cons.
    assert (Hsame : ct ∉ l -> count (is_pend id) l = count (is_pend id) (map f l) \/ ct_id ct ∈ map ct_id l).
    { intros _. destruct (decide (ct_id ct ∈ map ct_id l)) as [?|Hni]; [by right|left].
      replace (map f l) with l; [done|]. clear -Hni Ei. induction l as [|x l IH]; [done|]. cbn [map] in *.
      rewrite not_elem_of_cons in Hni. rewrite <- IH by tauto. unfold f. by rewrite (proj2 (Z.eqb_neq (ct_id x) (ct_id ct'))) by (rewrite Ei; intros Ex; apply (proj1 Hni); congruence). }
    destruct Hin as [<-|Hin].
    + assert (Hni : ct_id ct ∉ map ct_id l) by done. assert (Hl : ct ∉ l) by (intros Hl; apply Hni, list_elem_of_In, in_map; by apply list_elem_of_In).
      destruct (Hsame Hl) as [<-|?]; [|done]. f_equal. f_equal. unfold f, is_pend. rewrite Ei, Z.eqb_refl. by rewrite Ei, Eh.
    + rewrite (IH Hnd Hin). f_equal. f_equal. unfold f, is_pend. destruct (Z.eqb_spec (ct_id c) (ct_id ct')) as [Ec|Hne]; [|done].
      exfalso. apply Hn. rewrite Ec, Ei. apply list_elem_of_In, in_map. by apply list_elem_of_In.
Qed.

Section Books.
Context `{H : Host} `{E : Evp}.

(** Outputs that are not on the books. *)
Definition quiet (os : list out) : Prop :=
  forall id, count (is_req id) os = 0 /\ count (is_resp id) os = 0 /\ count (is_drop id) os = 0.

Lemma books_quiet s os o : books s os -> quiet o -> books s (os ++ o).
Proof.
  intros [Hnd Hfr Htm Hnew Honce Hsum] Hq. split; try done; intros id; destruct (Hq id) as (E1 & E2 & E3);
    rewrite ?count_app, ?E1, ?E2, ?E3, ?Z.add_0_r; auto.
Qed.

Lemma quiet_send (b : bool) proto sock dst data : quiet (if b then [OSend proto sock dst data] else []).
Proof. intros id. by destruct b. Qed.

Lemma timeout_books nt now id s os : books s os -> books (timeout_handler nt now id s).1 (os ++ (timeout_handler nt now id s).2).
Proof.
  intros Hb. unfold timeout_handler. destruct (find_ct s id) as [ct|] eqn:Ef; [|by rewrite app_nil_r].
  pose proof (find_ct_in _ _ _ Ef) as [Hin Eid]. destruct (ct_txc ct >=? rc (stun_cnf s)); [by apply completed_books|].
  destruct (stun_send nt (ct_proto ct) (ct_sock ct) (ct_dst ct) (mbuf_set_pos (ct_mb ct) (ct_pos ct))) as [err o] eqn:Es.
  destruct (err =? 0) eqn:Ee; cbn [negb]; [|by apply completed_books].
  assert (Hq : quiet o).
  { unfold stun_send in Es. destruct (ct_sock ct =? 0); injection Es as <- <-; [done|]. apply quiet_send. }
  apply books_quiet; [|done]. eapply put_ct_books; [done|by rewrite Eid|done|done|by eexists].
Qed.

Lemma recv_books msg ua s os : books s os ->
  let r := stun_ctrans_recv msg ua s in books r.1.2 (os ++ r.2).
Proof.
  intros Hb r. subst r. unfold stun_ctrans_recv. destruct (_ || _); [|by rewrite app_nil_r].
  destruct (resp_code msg) as [herr code]. destruct (List.find (match_handler msg) (stun_ctl s)) as [ct|] eqn:Ef; [|by rewrite app_nil_r].
  apply List.find_some in Ef as [Hin _]. destruct (if (code =? 401) || (code =? 438) then _ else _) as [err msg'].
  destruct (err =? 0); cbn [negb]; [|by rewrite app_nil_r]. apply list_elem_of_In in Hin.
  match goal with |- context [completed ct ?e ?c ?m s] => pose proof (completed_books s os ct e c m Hb Hin) as Hc;
    destruct (completed ct e c m s) as [s' o] end. done.
Qed.

Lemma transport_ct nt now cfg dst sock mb ct :
  let r := start_transport nt now cfg dst sock mb ct in
  quiet r.2 /\ ct_id r.1.2 = ct_id ct /\ (r.1.1 = 0 -> is_Some (ct_tmr r.1.2)).
Proof.
  unfold start_transport. destruct (ct_proto ct =? IPPROTO_UDP).
  - destruct dst as [d|]; [|by split_and!]. destruct (sock =? 0).
    + destruct (udp_listen nt) as [sk|e] eqn:El; cbn [fst snd]; (split; [apply quiet_send || done|]); (split; [done|]); intros; by eexists.
    + cbn [fst snd]. split; [apply quiet_send|]. split; [done|]. intros. by eexists.
  - destruct (ct_proto ct =? IPPROTO_TCP).
    + destruct (sock =? 0); cbn [negb].
      * destruct (tcp_connect nt) as [sk|e]; cbn [fst snd]; (split; [done|]); (split; [done|]); intros; by eexists.
      * cbn [fst snd]. split; [apply quiet_send|]. split; [done|]. intros. by eexists.
    + destruct (ct_proto ct =? STUN_TRANSP_DTLS); [|by split_and!]. destruct (sock =? 0); [by split_and!|].
      cbn [fst snd]. split; [apply quiet_send|]. split; [done|]. intros. by eexists.
Qed.
(** The counter may run ahead. *)
Lemma books_next s os : books s os ->
  books (StunI (stun_ctl s) (stun_cnf s) (stun_indh s) (stun_arg s) (stun_ptr s) (stun_next s + 1)) os.
Proof.
  intros [Hnd Hfr Htm Hnew Honce Hsum]. split; try done; cbn.
  - eapply Forall_impl; [exact Hfr|]. intros ct. cbn. lia.
  - intros id Hid. apply Hnew. lia.
Qed.

Lemma books_add s os ct ptr o :
  books s os -> ct_id ct = stun_next s -> is_Some (ct_tmr ct) -> quiet o ->
  books (StunI (stun_ctl s ++ [ct]) (stun_cnf s) (stun_indh s) (stun_arg s) ptr (stun_next s + 1))
    (os ++ o ++ [OReq (stun_next s) (ct_resph ct)]).
Proof.
  intros Hb Eid Ht Hq. rewrite <- Eid at 2. apply (books_quiet _ _ o) in Hb; [|done]. rewrite app_assoc. set (os' := os ++ o) in *. clearbody os'. clear os o Hq.
  pose proof (books_next _ _ Hb) as [_ Hfr _ _ _ _]. destruct Hb as [Hnd Hfr0 Htm Hnew Honce Hsum].
  assert (Hone : forall id, count (is_req id) [OReq (ct_id ct) (ct_resph ct)] = Z.b2z (is_pend id ct)).
  { intros id. rewrite count_cons, count_nil. cbn. unfold is_pend. lia. }
  split; cbn [stun_ctl stun_next].
  - rewrite map_app. apply NoDup_app. split_and!; [done| |apply NoDup_singleton].
    intros i Hi ->%list_elem_of_singleton. apply list_elem_of_In, in_map_iff in Hi as (c & Ec & Hc).
    apply (proj1 (List.Forall_forall _ _) Hfr0) in Hc. cbn in Hc. lia.
  - apply Forall_app. split; [done|]. constructor; [lia|constructor].
  - apply Forall_app. split; [done|]. by constructor.
  - intros id Hid. rewrite count_app, Hnew, Hone by lia. unfold is_pend. by rewrite (proj2 (Z.eqb_neq (ct_id ct) id)) by lia.
  - intros id. rewrite count_app, Hone. unfold is_pend. destruct (Z.eqb_spec (ct_id ct) id) as [<-|Hne].
    + rewrite Hnew by lia. by destruct (negb _).
    + specialize (Honce id). cbn. lia.
  - intros id. rewrite !count_app, Hone, Hsum, !count_cons, !count_nil. cbn. lia.
Qed.

Lemma request_books nt now ctp proto sock dst mb tid met key resph arg s os : books s os ->
  let r := stun_ctrans_request nt now ctp proto sock dst mb tid met key resph arg s in books r.1.2 (os ++ r.2).
Proof.
  intros Hb r. subst r. unfold stun_ctrans_request. destruct (mem_alloc SIZEOF_STUN_CTRANS); [|by rewrite app_nil_r].
  destruct (match key with None => _ | Some _ => _ end) as [key'|]; [|rewrite app_nil_r; by apply books_next].
  match goal with |- context [start_transport ?a ?b ?c ?d ?e ?f ?g] => destruct (transport_ct a b c d e f g) as (Hq & Eid & Htm);
    destruct (start_transport a b c d e f g) as [[err ct] o] end.
  cbn [fst snd] in *. destruct (Z.eqb_spec err 0) as [->|Hne].
  - cbn [fst snd]. cbn [ct_id] in Eid. by apply (books_add s os (Ctrans (ct_id ct) (ct_tmr ct) (ct_dst ct) (ct_tid ct) ctp (ct_key ct)
      (ct_sock ct) (ct_mb ct) (ct_pos ct) resph arg (ct_proto ct) (ct_txc ct) (ct_ival ct) (ct_met ct))); [..|apply Htm|].
  - cbn [fst snd]. apply books_quiet; [by apply books_next|done].
Qed.

Lemma close_books l : forall s os, books s os -> NoDup (map ct_id l) -> (forall ct, ct ∈ l -> ct ∈ stun_ctl s) ->
  books (close_loop l s).1 (os ++ (close_loop l s).2).
Proof.
  induction l as [|ct l IH]; intros s os Hb Hnd Hl; cbn [close_loop]; [by rewrite app_nil_r|].
  pose proof (completed_books s os ct ECONNABORTED 0 None Hb (Hl ct ltac:(apply elem_of_cons; by left))) as Hb1.
  destruct (completed ct ECONNABORTED 0 None s) as [s1 o1] eqn:Ec. cbn [fst snd] in Hb1. cbn [map] in Hnd. rewrite NoDup_cons in Hnd.
  destruct Hnd as [Hn Hnd].
  assert (Hl1 : forall c, c ∈ l -> c ∈ stun_ctl s1).
  { intros c Hc. unfold completed in Ec. injection Ec as <- _. cbn. apply list_elem_of_In, List.filter_In. split.
    - apply list_elem_of_In, Hl, elem_of_cons. by right.
    - apply negb_true_iff, Z.eqb_neq. intros Ei. apply Hn. rewrite <- Ei. apply list_elem_of_In, in_map. by apply list_elem_of_In. }
  pose proof (IH s1 (os ++ o1) Hb1 Hnd Hl1) as Hb2. destruct (close_loop l s1) as [s2 o2]. cbn [fst snd] in *. by rewrite app_assoc.
Qed.

(** ** Anything that can happen to an instance *)

Inductive event :=
  | EvRequest (nt : net) (now ctp proto sock : Z) (dst : option sa) (mb : mbuf) (tid : list Z) (met : Z)
      (key : option (list Z)) (resph arg : Z)
  | EvTimeout (nt : net) (now id : Z)
  | EvRecv (fuel : nat) (mb : mbuf)
  | EvEstab (nt : net) (id : Z)
  | EvClosed (err id : Z)
  | EvCloseAll
  | EvRelease (id : Z).

Definition happens (ev : event) (s : stun) : stun * list out :=
  match ev with
  | EvRequest nt now ctp proto sock dst mb tid met key resph arg =>
      let r := stun_ctrans_request nt now ctp proto sock dst mb tid met key resph arg s in (r.1.2, r.2)
  | EvTimeout nt now id => timeout_handler nt now id s
  | EvRecv fuel mb => match stun_recv fuel mb s with Some (_, s, o) => (s, o) | None => (s, []) end
  | EvEstab nt id => tcp_estab_handler nt id s
  | EvClosed err id => tcp_close_handler err id s
  | EvCloseAll => stun_ctrans_close s
  | EvRelease id => destructor id s
  end.

Fixpoint history (evs : list event) (s : stun) : stun * list out :=
  match evs with
  | [] => (s, [])
  | ev :: evs => let '(s, o) := happens ev s in let '(s, o') := history evs s in (s, o ++ o')
  end.

Lemma happens_books ev s os : books s os -> books (happens ev s).1 (os ++ (happens ev s).2).
Proof.
  intros Hb. destruct ev as [nt now ctp proto sock dst mb tid met key resph arg|nt now id|fuel mb|nt id|err id| |id]; cbn [happens].
  - by apply request_books.
  - by apply timeout_books.
  - unfold stun_recv. destruct (stun_msg_decode fuel (Some []) mb) as [[[r ua] mb']|]; [|by rewrite app_nil_r]. cbn [mbind option_bind].
    destruct r as [msg|e]; [|by rewrite app_nil_r]. destruct (stun_msg_class msg =? STUN_CLASS_INDICATION).
    + apply books_quiet; [done|]. intros i. by destruct (_ || _).
    + destruct (_ || _); [|by rewrite app_nil_r]. pose proof (recv_books msg (default [] ua) s os Hb) as Hr.
      by destruct (stun_ctrans_recv msg (default [] ua) s) as [[e s'] o].
  - unfold tcp_estab_handler. destruct (find_ct s id) as [ct|] eqn:Ef; [|by rewrite app_nil_r]. apply find_ct_in in Ef as [Hin _].
    destruct (tcp_send nt =? 0); [by apply books_quiet|by apply completed_books].
  - unfold tcp_close_handler. destruct (find_ct s id) as [ct|] eqn:Ef; [|by rewrite app_nil_r]. apply find_ct_in in Ef as [Hin _].
    by apply completed_books.
  - apply close_books; [done|apply Hb|done].
  - by apply destructor_books.
Qed.

(** C8: the books of an instance.  Whatever requests, messages, timeouts and
    connection events it sees, in any order and with any failures of the
    socket layer, each accepted request with a handler is in exactly one state:
    still pending, with an armed timer; reported to its handler, once; or
    released by its owner. *)
Theorem stun_ctrans_accounted conf indh arg evs id :
  let '(s, os) := history evs (stun_alloc conf indh arg) in
  count (is_resp id) os + count (is_drop id) os + count (is_pend id) (stun_ctl s) = count (is_req id) os
  /\ count (is_req id) os <= 1
  /\ Forall (fun ct => is_Some (ct_tmr ct)) (stun_ctl s).
Proof.
  assert (Hh : forall evs s os, books s os -> books (history evs s).1 (os ++ (history evs s).2)).
  { clear. induction evs as [|ev evs IH]; intros s os Hb; cbn [history]; [by rewrite app_nil_r|].
    pose proof (happens_books ev s os Hb) as Hb1. destruct (happens ev s) as [s1 o1]. cbn [fst snd] in Hb1.
    pose proof (IH s1 _ Hb1) as Hb2. destruct (history evs s1) as [s2 o2]. cbn [fst snd] in *. by rewrite app_assoc. }
  assert (H0 : books (stun_alloc conf indh arg) []) by (split; try done; constructor).
  pose proof (Hh evs _ _ H0) as Hb. destruct (history evs (stun_alloc conf indh arg)) as [s os]. cbn [fst snd app] in Hb.
  split; [symmetry; apply Hb|]. split; apply Hb.
Qed.
End Books.

(** ** Retransmission *)

Section Schedule.
Context `{H : Host} `{E : Evp}.

(** The timer of a transaction expires on time, [n] times, and what is sent or
    reported then. *)
Fixpoint fire (n : nat) (nt : net) (id : Z) (s : stun) : list (Z * out) * stun :=
  match n with
  | O => ([], s)
  | S n =>
      match find_ct s id with
      | Some ct =>
          match ct_tmr ct with
          | Some d =>
              let '(s, o) := timeout_handler nt d id s in
              let '(os, s) := fire n nt id s in (map (pair d) o ++ os, s)
          | None => ([], s)
          end
      | None => ([], s)
      end
  end.

Lemma find_put s id ct ct' :
  find_ct s id = Some ct -> ct_id ct' = id -> find_ct (put_ct ct' s) id = Some ct'.
Proof.
  unfold find_ct, put_ct, set_ctl. cbn [stun_ctl]. intros Hf Ei. induction (stun_ctl s) as [|c l IH]; [done|]. cbn in *.
  destruct (Z.eqb_spec (ct_id c) id) as [Ec|Hne].
  - rewrite Ec, Ei, Z.eqb_refl. by rewrite Ei, Z.eqb_refl.
  - rewrite (proj2 (Z.eqb_neq (ct_id c) (ct_id ct'))) by congruence. rewrite (proj2 (Z.eqb_neq (ct_id c) id)) by done. by apply IH.
Qed.

Lemma find_without s id ptr cnf ih ia nx : find_ct (StunI (without id (stun_ctl s)) cnf ih ia ptr nx) id = None.
Proof.
  unfold find_ct, without. cbn [stun_ctl]. induction (stun_ctl s) as [|c l IH]; [done|]. cbn.
  destruct (Z.eqb_spec (ct_id c) id) as [Ec|Hne]; cbn [negb List.find]; [done|]. by rewrite (proj2 (Z.eqb_neq (ct_id c) id)).
Qed.

(** The transaction after [k] transmissions of a request made at [t0]. *)
Record sent_times (cfg : stun_conf) (t0 k : Z) (data : list Z) (ct : stun_ctrans) : Prop := {
  snt_proto : ct_proto ct = IPPROTO_UDP;
  snt_sock : ct_sock ct <> 0;
  snt_txc : ct_txc ct = k;
  snt_data : let mb := mbuf_set_pos (ct_mb ct) (ct_pos ct) in ztake (mbuf_get_left mb) (mbuf_buf mb) = data;
  snt_ival : k < rc cfg -> ct_ival ct = rto cfg * 2 ^ (k - 1);
  snt_tmr : ct_tmr ct = Some (t0 + rto cfg * (2 ^ (k - 1) - 1) + if k <? rc cfg then rto cfg * 2 ^ (k - 1) else rto cfg * rm cfg);
}.

(** Nothing overflows: 32-bit intervals, 64-bit times. *)
Definition conf_ok (cfg : stun_conf) (t0 : Z) : Prop :=
  0 < rto cfg /\ 2 <= rc cfg < 2 ^ 32 - 1 /\ 0 <= rm cfg /\ rto cfg * 2 ^ (rc cfg) < 2 ^ 32 /\ rto cfg * rm cfg < 2 ^ 32
  /\ 0 <= t0 < 2 ^ 63.

Lemma retransmit nt s id ct t0 k data :
  find_ct s id = Some ct -> sent_times (stun_cnf s) t0 k data ct -> conf_ok (stun_cnf s) t0 -> udp_send nt = 0 ->
  1 <= k < rc (stun_cnf s) ->
  let d := t0 + rto (stun_cnf s) * (2 ^ k - 1) in
  exists ct' s', ct_tmr ct = Some d /\ timeout_handler nt d id s = (s', [OSend IPPROTO_UDP (ct_sock ct) (ct_dst ct) data])
    /\ find_ct s' id = Some ct' /\ stun_cnf s' = stun_cnf s /\ sent_times (stun_cnf s) t0 (k + 1) data ct'
    /\ ct_sock ct' = ct_sock ct /\ ct_dst ct' = ct_dst ct /\ ct_resph ct' = ct_resph ct /\ ct_arg ct' = ct_arg ct.
Proof.
  intros Hf [Hp Hs Htx Hd Hiv Htm] (Hrto & Hrc & Hrm & Hov & Hov' & Ht0) Hsend Hk d. set (cfg := stun_cnf s) in *.
  assert (Hpow : 2 ^ k = 2 * 2 ^ (k - 1)) by (rewrite <- (Z.pow_succ_r 2 (k - 1)) by lia; f_equal; lia).
  assert (Hlt : 2 ^ k <= 2 ^ rc cfg) by (apply Z.pow_le_mono_r; lia). assert (Hpos : 0 < 2 ^ (k - 1)) by (apply Z.pow_pos_nonneg; lia).
  assert (Hb : rto cfg * 2 ^ k < 2 ^ 32) by nia.
  rewrite (proj2 (Z.ltb_lt k (rc cfg))) in Htm by lia.
  assert (Ed : ct_tmr ct = Some d) by (rewrite Htm; f_equal; unfold d; nia).
  set (iv := if k + 1 >=? rc cfg then rto cfg * rm cfg else rto cfg * 2 ^ k).
  assert (Hivb : 0 <= iv < 2 ^ 32) by (unfold iv; case_match; nia).
  exists (Ctrans (ct_id ct) (Some (d + iv)) (ct_dst ct) (ct_tid ct) (ct_ctp ct) (ct_key ct) (ct_sock ct)
    (mbuf_set_pos (ct_mb ct) (ct_pos ct)) (ct_pos ct) (ct_resph ct) (ct_arg ct) (ct_proto ct) (k + 1) iv (ct_met ct)).
  eexists. split; [done|]. unfold timeout_handler. rewrite Hf. fold cfg. rewrite Htx. rewrite Z.geb_leb, (proj2 (Z.leb_gt (rc cfg) k)) by lia.
  unfold stun_send. rewrite (proj2 (Z.eqb_neq (ct_sock ct) 0)), Hp by done. cbn [IPPROTO_UDP Z.eqb Pos.eqb]. rewrite Hsend. cbn [Z.eqb negb].
  cbv zeta in Hd. rewrite Hd, (wrap_small 32 (k + 1)) by lia.
  assert (Eiv : (if k + 1 >=? rc cfg then u32 (rto cfg * rm cfg) else u32 (ct_ival ct * 2)) = iv).
  { unfold iv. rewrite Hiv by lia. destruct (k + 1 >=? rc cfg); apply wrap_small || (replace (rto cfg * 2 ^ (k - 1) * 2) with (rto cfg * 2 ^ k) by nia; apply wrap_small); nia. }
  rewrite Eiv, (wrap_small 64 (d + iv)) by (unfold d; nia).
  split; [done|]. split; [eapply find_put; [exact Hf|]; by apply find_ct_in in Hf as [_ ?]|]. split; [done|].
  split; [|by split_and!]. split; cbn; try done.
  - intros Hlt'. unfold iv. rewrite Z.geb_leb, (proj2 (Z.leb_gt (rc cfg) (k + 1))) by lia. by replace (k + 1 - 1) with k by lia.
  - f_equal. replace (k + 1 - 1) with k by lia. unfold d, iv. destruct (Z.ltb_spec (k + 1) (rc cfg)).
    + rewrite Z.geb_leb, (proj2 (Z.leb_gt (rc cfg) (k + 1))) by lia. done.
    + rewrite Z.geb_leb, (proj2 (Z.leb_le (rc cfg) (k + 1))) by lia. done.
Qed.
(** The transmissions with numbers [k], .., and their times. *)
Definition schedule (cfg : stun_conf) (t0 k : Z) (n : nat) (o : out) : list (Z * out) :=
  map (fun j => (t0 + rto cfg * (2 ^ j - 1), o)) (seqZ k (Z.of_nat n)).

Lemma fire_schedule nt id n : forall k s ct t0 data,
  find_ct s id = Some ct -> sent_times (stun_cnf s) t0 k data ct -> conf_ok (stun_cnf s) t0 -> udp_send nt = 0 ->
  1 <= k -> rc (stun_cnf s) = k + Z.of_nat n -> ct_resph ct <> 0 ->
  exists s', fire (S n) nt id s
    = (schedule (stun_cnf s) t0 k n (OSend IPPROTO_UDP (ct_sock ct) (ct_dst ct) data)
       ++ [(t0 + rto (stun_cnf s) * (2 ^ (rc (stun_cnf s) - 1) - 1 + rm (stun_cnf s)),
            OResp id (ct_resph ct) (ct_arg ct) ETIMEDOUT 0 None)], s')
    /\ find_ct s' id = None.
Proof.
  induction n as [|n IH]; intros k s ct t0 data Hf Hsnt Hok Hsend Hk Hrc Hh.
  - destruct Hsnt as [Hp Hs Htx Hd Hiv Htm]. apply find_ct_in in Hf as Hid. destruct Hid as [_ Hid].
    rewrite (proj2 (Z.ltb_ge k (rc (stun_cnf s)))) in Htm by lia. cbn [fire]. rewrite Hf, Htm. unfold timeout_handler.
    rewrite Hf, Htx, Z.geb_leb, (proj2 (Z.leb_le (rc (stun_cnf s)) k)) by lia. unfold completed.
    rewrite (proj2 (Z.eqb_neq (ct_resph ct) 0)) by done. eexists. split.
    + cbn [map app schedule seqZ Z.of_nat]. rewrite Hid. change (schedule _ _ _ 0 _) with (@nil (Z * out)). cbn [app].
      replace (rc (stun_cnf s)) with k by lia. do 3 f_equal. lia.
    + rewrite <- Hid. apply find_without.
  - destruct (retransmit nt s id ct t0 k data Hf Hsnt Hok Hsend ltac:(lia))
      as (ct' & s' & Htm & Et & Hf' & Ec & Hsnt' & Es & Ed & Eh & Ea).
    rewrite <- Ec in Hsnt', Hok. destruct (IH (k + 1) s' ct' t0 data Hf' Hsnt' Hok Hsend ltac:(lia) ltac:(rewrite Ec; lia) ltac:(by rewrite Eh))
      as (s2 & Efire & Hnone).
    cbn [fire]. cbn [fire] in Efire. rewrite Hf, Htm, Et. rewrite Efire. exists s2. split; [|done].
    rewrite Es, Ed, Eh, Ea, Ec. unfold schedule. rewrite (seqZ_cons k (Z.of_nat (S n))) by lia. cbn [map].
    replace (Z.succ k) with (k + 1) by lia. replace (Z.pred (Z.of_nat (S n))) with (Z.of_nat n) by lia. done.
Qed.

Lemma find_new s ct ptr : Forall (fun c => ct_id c < stun_next s) (stun_ctl s) -> ct_id ct = stun_next s ->
  find_ct (StunI (stun_ctl s ++ [ct]) (stun_cnf s) (stun_indh s) (stun_arg s) ptr (stun_next s + 1)) (stun_next s) = Some ct.
Proof.
  intros Hfr Eid. unfold find_ct. cbn [stun_ctl]. induction Hfr as [|c l Hc _ IH]; cbn; [by rewrite Eid, Z.eqb_refl|].
  by rewrite (proj2 (Z.eqb_neq (ct_id c) (stun_next s))) by lia.
Qed.

(** The transaction of a UDP request, and the instance that holds it. *)
Definition udp_ct (s : stun) (now ctp sock : Z) (d : sa) (mb : mbuf) (tid : list Z) (met : Z) (key : option (list Z)) (resph arg : Z)
  : stun_ctrans :=
  Ctrans (stun_next s) (Some (u64 (now + rto (stun_cnf s)))) (Some d) (ztake STUN_TID_SIZE tid) ctp key sock mb (mb_pos mb) resph arg
    IPPROTO_UDP 1 (rto (stun_cnf s)) met.

Definition with_ct (s : stun) (ctp : Z) (ct : stun_ctrans) : stun :=
  StunI (stun_ctl s ++ [ct]) (stun_cnf s) (stun_indh s) (stun_arg s)
    (if ctp =? 0 then stun_ptr s else <[ctp := stun_next s]> (stun_ptr s)) (stun_next s + 1).

Lemma udp_request (Ham : ample_memory) nt now ctp sock d mb tid met key resph arg s :
  udp_send nt = 0 -> sock <> 0 -> (forall k, key = Some k -> zlength k < 2 ^ 30) ->
  stun_ctrans_request nt now ctp IPPROTO_UDP sock (Some d) mb tid met key resph arg s
  = (0, with_ct s ctp (udp_ct s now ctp sock d mb tid met key resph arg),
     [OSend IPPROTO_UDP sock (Some d) (ztake (mbuf_get_left mb) (mbuf_buf mb)); OReq (stun_next s) resph]).
Proof.
  intros Hsend Hs Hkey. unfold stun_ctrans_request.
  destruct (Ham SIZEOF_STUN_CTRANS ltac:(done)) as [[b Hb] _]. unfold mem_alloc at 1. rewrite Hb.
  change (SIZEOF_STUN_CTRANS >? MEM_SIZE_MAX) with false. cbv iota zeta.
  assert (Ek : match key with None => Some None | Some k => match mem_alloc (zlength k) with Some _ => Some (Some k) | None => None end end
    = Some key).
  { destruct key as [k|]; [|done]. specialize (Hkey k eq_refl). pose proof (zlength_nonneg k). unfold mem_alloc, MEM_SIZE_MAX.
    destruct (Ham (zlength k)) as [[b' Hb'] _]; [unfold MEM_SIZE_MAX; lia|]. decide_test. by rewrite Hb'. }
  rewrite Ek. unfold start_transport. cbn [ct_proto]. change (IPPROTO_UDP =? IPPROTO_UDP) with true. cbv iota zeta.
  by rewrite (proj2 (Z.eqb_neq sock 0)), Hsend by done.
Qed.

(** A UDP request that nobody answers.  It is sent at once and then, with
    the intervals doubling from rto, until rc copies of the same bytes were
    sent, the last interval being rm * rto; then the handler is called with
    ETIMEDOUT and the transaction is gone: at 39.5 s for the default
    configuration, as RFC 5389 computes it. *)
Theorem stun_retransmission (Ham : ample_memory) nt t0 ctp sock d mb tid met key resph arg s :
  let cfg := stun_cnf s in
  let data := ztake (mbuf_get_left mb) (mbuf_buf mb) in
  conf_ok cfg t0 -> udp_send nt = 0 -> sock <> 0 -> resph <> 0 -> Forall (fun ct => ct_id ct < stun_next s) (stun_ctl s) ->
  (forall k, key = Some k -> zlength k < 2 ^ 30) ->
  let send := OSend IPPROTO_UDP sock (Some d) data in
  exists id s1 s2,
    stun_ctrans_request nt t0 ctp IPPROTO_UDP sock (Some d) mb tid met key resph arg s = (0, s1, [send; OReq id resph])
    /\ fire (Z.to_nat (rc cfg)) nt id s1
       = (schedule cfg t0 1 (Z.to_nat (rc cfg - 1)) send
          ++ [(t0 + rto cfg * (2 ^ (rc cfg - 1) - 1 + rm cfg), OResp id resph arg ETIMEDOUT 0 None)], s2)
    /\ find_ct s2 id = None.
Proof.
  intros cfg data Hok Hsend Hs Hh Hfr Hkey send. pose proof Hok as (Hrto & Hrc & Hrm & Hov & Hov' & Ht0). fold cfg in Hrto, Hrc, Hov.
  assert (Hb1 : 2 ^ 1 <= 2 ^ rc cfg) by (apply Z.pow_le_mono_r; lia). change (2 ^ 1) with 2 in Hb1.
  assert (Hr32 : rto cfg < 2 ^ 32) by nia.
  exists (stun_next s). rewrite (udp_request Ham) by done. set (ct := udp_ct s t0 ctp sock d mb tid met key resph arg).
  assert (Hsnt : sent_times cfg t0 1 data ct).
  { split; try done.
    - intros _. change (rto cfg = rto cfg * 2 ^ (1 - 1)). lia.
    - change (ct_tmr ct) with (Some (u64 (t0 + rto cfg))). f_equal. rewrite (proj2 (Z.ltb_lt 1 (rc cfg))) by lia. rewrite wrap_small by lia. lia. }
  pose proof (find_new s ct (if ctp =? 0 then stun_ptr s else <[ctp := stun_next s]> (stun_ptr s)) Hfr eq_refl) as Hf.
  destruct (fire_schedule nt (stun_next s) (Z.to_nat (rc cfg - 1)) 1 _ ct t0 data Hf Hsnt Hok Hsend ltac:(lia)
    ltac:(cbn [stun_cnf]; fold cfg; lia) Hh) as (s2 & Ef & Hnone).
  eexists _, s2. split; [done|]. split; [|done]. replace (Z.to_nat (rc cfg)) with (S (Z.to_nat (rc cfg - 1))) by lia. exact Ef.
Qed.
End Schedule.

(** ** Responses *)

Section Responses.
Context `{H : Host} `{E : Evp} {L : EvpLaws} (Ham : ample_memory).

(** The integrity attribute of a received message is the HMAC with [key] of
    what precedes it. *)
Definition authentic (key : list Z) (mb : mbuf) (msg : stun_msg) : Prop :=
  exists mi body tail, stun_msg_attr msg STUN_ATTR_MSG_INTEGRITY = Some mi
    /\ rest mb = hdr_bytes (msg_hdr msg) ++ body ++ tail /\ hdr_len (msg_hdr msg) = zlength body + mi_tail_len msg
    /\ attr_v mi = VMi (hmac_sha1 key (hdr_bytes (with_len (msg_hdr msg) (zlength body + MI_SIZE)) ++ body) (replicate 20 0)).

Lemma chk_mi_authentic fuel ua ua' mb msg mb' key :
  mbuf_wf mb -> mb_pos mb < 2 ^ 30 -> zlength (rest mb) < 4 * Z.of_nat fuel ->
  stun_msg_decode fuel ua mb = Some (Ok msg, ua', mb') -> (stun_msg_chk_mi msg key).1 = 0 -> authentic key mb msg.
Proof.
  intros W Hp Hf Hd Hc. destruct (stun_msg_attr msg STUN_ATTR_MSG_INTEGRITY) as [mi|] eqn:Emi.
  - destruct (chk_mi_any Ham fuel ua ua' mb msg mb' key mi W Hp Hf Hd Emi) as (d & body & tail & mb2 & Hv & Hr & Hl & Ec & _).
    rewrite Ec in Hc. cbn [fst] in Hc. exists mi, body, tail. split_and!; try done. rewrite Hv. f_equal.
    case_bool_decide; [done|]. done.
  - unfold stun_msg_chk_mi in Hc. rewrite Emi in Hc. done.
Qed.

(** C32: which responses reach a handler.  Whatever bytes arrive, a transaction
    is completed only by a well-formed response with its method and its
    transaction id; when the request was made with a key, the response carries
    the HMAC of its contents under that key, unless it is an error response
    with code 401 or 438. *)
Theorem stun_recv_authentic fuel mb s e s' o id h a err code m :
  mbuf_wf mb -> mb_pos mb < 2 ^ 30 -> zlength (rest mb) < 4 * Z.of_nat fuel ->
  stun_recv fuel mb s = Some (e, s', o) -> OResp id h a err code m ∈ o ->
  exists ct msg ua, ct ∈ stun_ctl s /\ ct_id ct = id /\ stun_msg_decode fuel (Some []) mb = Some (Ok msg, ua, mb)
    /\ (stun_msg_class msg = STUN_CLASS_SUCCESS_RESP \/ stun_msg_class msg = STUN_CLASS_ERROR_RESP)
    /\ ct_met ct = stun_msg_method msg /\ ct_tid ct = stun_msg_tid msg
    /\ (forall key, ct_key ct = Some key -> authentic key mb msg \/ code = 401 \/ code = 438).
Proof.
  intros W Hp Hf Hr Ho. unfold stun_recv in Hr. destruct (msg_decode_any fuel (Some []) mb W Hf) as (r & ua & Ed & _).
  rewrite Ed in Hr. cbn [mbind option_bind] in Hr. destruct r as [msg|e1]; [|injection Hr as <- <- <-; by apply elem_of_nil in Ho].
  destruct (stun_msg_class msg =? STUN_CLASS_INDICATION).
  { injection Hr as <- <- <-. destruct (_ || _); [by apply elem_of_nil in Ho|by apply list_elem_of_singleton in Ho]. }
  destruct ((stun_msg_class msg =? STUN_CLASS_ERROR_RESP) || (stun_msg_class msg =? STUN_CLASS_SUCCESS_RESP)) eqn:Ecls;
    [|injection Hr as <- <- <-; by apply elem_of_nil in Ho].
  unfold stun_ctrans_recv in Hr. rewrite Ecls in Hr. destruct (resp_code msg) as [herr cd].
  destruct (List.find (match_handler msg) (stun_ctl s)) as [ct|] eqn:Ef; [|injection Hr as <- <- <-; by apply elem_of_nil in Ho].
  apply List.find_some in Ef as [Hin Hm]. unfold match_handler in Hm. apply andb_true_iff in Hm as [Hmet Htid].
  apply bool_decide_eq_true in Htid. bool_prop.
  set (chk := if (cd =? 401) || (cd =? 438) then (0, msg) else match ct_key ct with None => (0, msg) | Some key => stun_msg_chk_mi msg key end) in *.
  destruct chk as [er msg'] eqn:Echk. destruct (Z.eqb_spec er 0) as [->|Hne]; cbn [negb] in Hr; [|injection Hr as <- <- <-; by apply elem_of_nil in Ho].
  unfold completed in Hr. injection Hr as <- <- <-. destruct (ct_resph ct =? 0); [by apply elem_of_nil in Ho|].
  apply list_elem_of_singleton in Ho. injection Ho as -> -> -> -> -> ->.
  exists ct, msg, ua. split; [by apply list_elem_of_In|]. split; [done|]. split; [done|].
  apply orb_true_iff in Ecls. rewrite !Z.eqb_eq in Ecls. split; [tauto|]. split; [done|]. split; [done|].
  intros key Hkey. subst chk. destruct ((cd =? 401) || (cd =? 438)) eqn:Ecode.
  - right. apply orb_true_iff in Ecode. rewrite !Z.eqb_eq in Ecode. done.
  - left. rewrite Hkey in Echk. eapply (chk_mi_authentic fuel (Some []) ua mb msg mb); try done. by rewrite Echk.
Qed.
End Responses.

(** ** A request and its reply *)

Section Exchange.
Context `{H : Host} `{E : Evp} {L : EvpLaws} {R : EvpReliable} (Ham : ample_memory).

(** The bytes of an encoded message. *)
Definition wire (method class : Z) (tid : list Z) (key : option (list Z)) (fp : bool) (attrs : list (Z * option stun_val)) : list Z :=
  msg_bytes (STUN_TYPE method class) tid 0 (msg_attrs method class tid None key fp 0 attrs).

Lemma alloc_holds size : 0 < size <= 2048 -> exists mb, mbuf_alloc size = Some mb /\ holds (mbuf_set_pos mb 0) [] 0.
Proof.
  intros Hs. destruct (mbuf_alloc_new size Ham) as (mb & Ea & Hh & _); [unfold MEM_SIZE_MAX; lia|]. exists mb. split; [done|].
  by apply (holds_set_pos _ _ _ _ Hh).
Qed.

Lemma encode_at_done size mi0 method class tid key fp attrs :
  0 < size <= 2048 -> msg_wf tid None 0 attrs ->
  exists mb, encode_at size 0 mi0 method class tid None key fp attrs = Some (Ok mb)
    /\ ztake (mbuf_get_left mb) (mbuf_buf mb) = wire method class tid key fp attrs.
Proof.
  intros Hs Hwf. destruct (alloc_holds size Hs) as (mb & Ea & Hh). unfold encode_at. rewrite Ea.
  destruct (stun_msg_vencode_done Ham mi0 method class tid None key fp 0 attrs _ [] Hwf ltac:(done) Hh) as (mb' & -> & Hh').
  cbn [mbind option_bind Z.eqb]. eexists. split; [done|]. cbn [app] in Hh'. set (w := msg_bytes _ _ _ _) in Hh'.
  assert (Hd : holds (mbuf_set_pos mb' 0) w 0) by (apply (holds_set_pos _ _ _ _ Hh'); pose proof (zlength_nonneg w); lia).
  assert (Er : rest (mbuf_set_pos mb' 0) = w) by (by rewrite (holds_rest _ _ _ Hd)).
  rewrite mbuf_get_left_rest, mbuf_buf_rest, Er by (try apply Hd; rewrite ?Er; pose proof (zlength_nonneg w); lia).
  by rewrite ztake_ge by lia.
Qed.

Lemma wire_holds method class tid key fp attrs :
  msg_wf tid None 0 attrs -> holds (rcv_buf (wire method class tid key fp attrs)) (wire method class tid key fp attrs) 0.
Proof.
  intros Hwf. destruct (alloc_holds 512 ltac:(lia)) as (mb & Ea & Hh).
  destruct (stun_msg_vencode_done Ham [] method class tid None key fp 0 attrs _ [] Hwf ltac:(done) Hh) as (mb' & _ & Hh').
  cbn [app] in Hh'. fold (wire method class tid key fp attrs) in Hh'. set (w := wire _ _ _ _ _ _) in *.
  pose proof (bytes_content mb' ltac:(apply Hh')) as Hb. rewrite (holds_content _ _ _ Hh') in Hb. apply rcv_buf_holds; [done|].
  pose proof (holds_end _ _ _ Hh') as He. pose proof (holds_wf _ _ _ Hh') as W. mbuf_wf_facts. lia.
Qed.

Lemma chk_mi_attrl msg key : msg_attrl (stun_msg_chk_mi msg key).2 = msg_attrl msg.
Proof.
  unfold stun_msg_chk_mi. destruct (stun_msg_attr msg STUN_ATTR_MSG_INTEGRITY) as [mi|]; [|done].
  destruct (match stun_msg_attr msg STUN_ATTR_FINGERPRINT with Some _ => true | None => false end); [|done].
  destruct (patch_len msg _ _) as [h1 mb1]. by destruct (patch_len _ _ mb1) as [h2 mb2].
Qed.

(** The client's side of a response that matches. *)
Lemma recv_completes msg ct s :
  stun_msg_class msg = STUN_CLASS_SUCCESS_RESP -> List.find (match_handler msg) (stun_ctl s) = Some ct ->
  (forall k, ct_key ct = Some k -> (stun_msg_chk_mi msg k).1 = 0) -> ct_resph ct <> 0 ->
  exists s' msg', stun_ctrans_recv msg [] s = (0, s', [OResp (ct_id ct) (ct_resph ct) (ct_arg ct) 0 0 (Some msg')])
    /\ msg_attrl msg' = msg_attrl msg /\ find_ct s' (ct_id ct) = None.
Proof.
  intros Hcls Hf Hmi Hh. unfold stun_ctrans_recv, resp_code. rewrite Hcls, Hf. cbn [STUN_CLASS_SUCCESS_RESP STUN_CLASS_ERROR_RESP Z.eqb Pos.eqb orb].
  assert (Hchk : exists msg', (match ct_key ct with None => (0, msg) | Some key => stun_msg_chk_mi msg key end) = (0, msg')
    /\ msg_attrl msg' = msg_attrl msg).
  { destruct (ct_key ct) as [k|]; [|by eexists]. specialize (Hmi k eq_refl). pose proof (chk_mi_attrl msg k) as Hl.
    destruct (stun_msg_chk_mi msg k) as [er msg']. cbn in Hmi, Hl. subst er. by exists msg'. }
  destruct Hchk as (msg' & -> & Hl). cbn [Z.eqb negb andb zlength length Z.of_nat]. unfold completed.
  rewrite (proj2 (Z.eqb_neq (ct_resph ct) 0)) by done. eexists _, msg'. split; [done|]. split; [done|]. apply find_without.
Qed.

(** The attributes that the encoder adds after those of the user. *)
Definition tail_types (key : option (list Z)) (fp : bool) : list Z :=
  (match key with Some _ => [STUN_ATTR_MSG_INTEGRITY] | None => [] end) ++ (if fp then [STUN_ATTR_FINGERPRINT] else []).

(** What a decoded message says: type, transaction id and the attributes of
    the sender in order, followed only by those the encoder adds, which the
    message checks accept. *)
Definition arrived (method class : Z) (tid : list Z) (key : option (list Z)) (fp : bool)
    (attrs : list (Z * option stun_val)) (msg : stun_msg) : Prop :=
  stun_msg_type msg = STUN_TYPE method class /\ stun_msg_tid msg = tid
  /\ (exists l tail, msg_attrl msg = l ++ tail /\ Forall2 same_attr (sent attrs) l /\ map attr_type tail = tail_types key fp)
  /\ (forall k, key = Some k -> (stun_msg_chk_mi msg k).1 = 0)
  /\ (fp = true -> (stun_msg_chk_fingerprint msg).1 = 0).

(** C2: a request and its reply.  A client's request over UDP arrives at the
    server with its type and transaction id and all its attributes, in order
    and followed only by the MESSAGE-INTEGRITY and FINGERPRINT that were asked
    for, which the server's checks accept; the reply the server makes from it
    is accepted by the client and reported to the handler of the request,
    without error and with the attributes the server gave; the transaction is
    then finished.  This holds for a method below 4096 whose bits 0x50 are
    clear (stun_msg_class reads the class from the wrong bits otherwise), for
    user attributes other than MESSAGE-INTEGRITY and FINGERPRINT that are
    well formed and fit in one message, with padding byte 0 and a key below
    2^30 bytes, when the client has no pending
    transaction with the same id, the sockets are set, a handler is given, the
    datagrams are sent and received, and memory suffices. *)
Theorem stun_request_reply nt t0 ctp csock ssock srv cli m mi0 mi1 tid key fp fp' resph arg rattrs attrs s fuel :
  0 <= m < 4096 -> Z.land m 0x50 = 0 -> msg_wf tid None 0 rattrs -> msg_wf tid None 0 attrs ->
  Forall user_attr (sent rattrs) -> Forall user_attr (sent attrs) -> (forall k, key = Some k -> zlength k < 2 ^ 30) ->
  udp_send nt = 0 -> csock <> 0 -> ssock <> 0 -> resph <> 0 ->
  Forall (fun ct => ct_id ct < stun_next s /\ ct_tid ct <> tid) (stun_ctl s) ->
  (length rattrs + 3 <= fuel)%nat -> (length attrs + 3 <= fuel)%nat ->
  exists id s1 s2 d1 d2 req resp l' tail,
    arrived m STUN_CLASS_REQUEST tid key fp rattrs req
    /\ stun_request nt t0 ctp IPPROTO_UDP csock (Some srv) 0 m mi0 tid key fp resph arg rattrs s
      = Some (0, s1, [OSend IPPROTO_UDP csock (Some srv) d1; OReq id resph])
    /\ stun_msg_decode fuel None (rcv_buf d1) = Some (Ok req, None, rcv_buf d1)
    /\ stun_reply nt IPPROTO_UDP ssock (Some cli) 0 req mi1 key fp' attrs = Some (0, [OSend IPPROTO_UDP ssock (Some cli) d2])
    /\ stun_recv fuel (rcv_buf d2) s1 = Some (0, s2, [OResp id resph arg 0 0 (Some resp)])
    /\ msg_attrl resp = l' ++ tail /\ Forall2 same_attr (sent attrs) l' /\ map attr_type tail = tail_types key fp'
    /\ find_ct s2 id = None.
Proof.
  intros Hm Hm50 Hwf1 Hwf2 Hu1 Hu2 Hkey Hsend Hcs Hss Hh Hfr Hf1 Hf2. pose proof (proj1 (proj1 Hwf1)) as Ht12.
  destruct (encode_at_done 512 mi0 m STUN_CLASS_REQUEST tid key fp rattrs ltac:(lia) Hwf1) as (mb1 & Ee1 & Ed1).
  destruct (encode_at_done 256 mi1 m STUN_CLASS_SUCCESS_RESP tid key fp' attrs ltac:(lia) Hwf2) as (mb2 & Ee2 & Ed2).
  destruct (wire_decoded Ham m STUN_CLASS_REQUEST tid None key fp 0 rattrs _ [] None fuel Hwf1 Hu1 ltac:(done)
    (wire_holds m STUN_CLASS_REQUEST tid key fp rattrs Hwf1) Hf1) as (req & lq & tq & Edq & Etq & Eiq & _ & Elq & Hsq & Htq & Hmq & Hfq).
  destruct (wire_decoded Ham m STUN_CLASS_SUCCESS_RESP tid None key fp' 0 attrs _ [] (Some []) fuel Hwf2 Hu2 ltac:(done)
    (wire_holds m STUN_CLASS_SUCCESS_RESP tid key fp' attrs Hwf2) Hf2) as (rsp & l' & tail & Edr & Etr & Eir & _ & Elr & Hsame & Htl & Hmi & _).
  destruct (stun_type_fields m STUN_CLASS_REQUEST Hm ltac:(done)) as (Emq & _).
  destruct (stun_type_fields m STUN_CLASS_SUCCESS_RESP Hm ltac:(done)) as (Emr & _ & Ecr). specialize (Ecr Hm50).
  assert (Emet : stun_msg_method req = m) by (unfold stun_msg_method; by rewrite Etq).
  set (ct := udp_ct s t0 ctp csock srv mb1 tid m key resph arg).
  assert (Hfind : List.find (match_handler rsp) (stun_ctl (with_ct s ctp ct)) = Some ct).
  { cbn [with_ct stun_ctl]. clear -Hfr Eir Emr Etr Ht12. induction Hfr as [|c l [_ Hc] _ IH]; cbn [app List.find].
    - unfold match_handler. cbn. unfold stun_msg_method. rewrite Etr, Emr, Z.eqb_refl, Eir, ztake_ge by (unfold STUN_TID_SIZE; lia). by rewrite bool_decide_true.
    - replace (match_handler rsp c) with false; [exact IH|].
      unfold match_handler. by rewrite Eir, (bool_decide_false (ct_tid c = tid)), andb_false_r by done. }
  destruct (recv_completes rsp ct (with_ct s ctp ct)) as (s2 & rsp' & Erecv & Hl' & Hnone); try done.
  { unfold stun_msg_class. by rewrite Etr. }
  exists (stun_next s), (with_ct s ctp ct), s2, (wire m STUN_CLASS_REQUEST tid key fp rattrs), (wire m STUN_CLASS_SUCCESS_RESP tid key fp' attrs),
    req, rsp', l', tail.
  split; [by split_and!; try exists lq, tq|].
  split; [|split; [exact Edq|split; [|split; [|split; [by rewrite Hl'|by split]]]]].
  - unfold stun_request. rewrite Ee1. cbn [mbind option_bind]. rewrite (udp_request Ham) by done. by rewrite Ed1.
  - unfold stun_reply, send_encoded. rewrite (proj2 (Z.eqb_neq ssock 0)), Emet, Eiq, Ee2 by done. cbn [mbind option_bind].
    unfold stun_send. rewrite (proj2 (Z.eqb_neq ssock 0)) by done. change (IPPROTO_UDP =? IPPROTO_UDP) with true. cbv iota.
    by rewrite Hsend, Ed2.
  - unfold stun_recv, stun_msg_class in *. rewrite Edr. cbn [mbind option_bind option_map default id].
    rewrite Etr, Ecr. cbn [STUN_CLASS_SUCCESS_RESP STUN_CLASS_ERROR_RESP STUN_CLASS_INDICATION Z.eqb Pos.eqb orb]. by rewrite Erecv.
Qed.
End Exchange.

(** ** Samples *)

#[local] Existing Instance lp64_le.

Definition sample_net : net := Net 0 0 0 (Ok 1) (Ok 1).
Definition sample_stun : stun := stun_alloc None 0 0.

Lemma stun_retransmission_witness :
  exists id s1 s2,
    fire 7 sample_net id s1
      = (schedule conf_default 1000 1 6 (OSend IPPROTO_UDP 3 (Some (SaIn 1 2)) [])
         ++ [(40500, OResp id 5 0 ETIMEDOUT 0 None)], s2)
    /\ find_ct s2 id = None.
Proof.
  destruct (stun_retransmission lp64_ample sample_net 1000 0 3 (SaIn 1 2) mbuf_init sample_tid 1 None 5 0 sample_stun)
    as (id & s1 & s2 & _ & Ef & Hn); try done.
  exists id, s1, s2. split; [exact Ef|exact Hn].
Defined.

(** The reply that the sample message is, for a pending request. *)
Definition sample_reply : list Z := wire 1 STUN_CLASS_SUCCESS_RESP sample_tid (Some [1; 2; 3]) true sample_attrs.
Definition sample_pending : stun :=
  with_ct sample_stun 0 (udp_ct sample_stun 1000 0 3 (SaIn 1 2) mbuf_init sample_tid 1 (Some [1; 2; 3]) 5 0).

Lemma stun_recv_authentic_witness :
  exists msg, stun_msg_decode 32 (Some []) (rcv_buf sample_reply) = Some (Ok msg, Some [], rcv_buf sample_reply)
    /\ authentic [1; 2; 3] (rcv_buf sample_reply) msg.
Proof.
  assert (Hr : exists s' m, stun_recv 32 (rcv_buf sample_reply) sample_pending = Some (0, s', [OResp 1 5 0 0 0 (Some m)]))
    by (eexists _, _; vm_compute; reflexivity).
  destruct Hr as (s' & m & Hr).
  assert (W : mbuf_wf (rcv_buf sample_reply)).
  { exact (holds_wf _ _ _ (wire_holds lp64_ample 1 STUN_CLASS_SUCCESS_RESP sample_tid (Some [1; 2; 3]) true sample_attrs sample_msg_wf)). }
  destruct (stun_recv_authentic lp64_ample 32 (rcv_buf sample_reply) sample_pending 0 s' _ 1 5 0 0 0 (Some m) W
    ltac:(by_compute) ltac:(by_compute) Hr ltac:(by apply list_elem_of_singleton)) as (ct & msg & ua & Hin & _ & Hd & _ & _ & _ & Hkey).
  apply list_elem_of_singleton in Hin. subst ct. exists msg. split.
  - rewrite Hd. assert (Eu : (fun r => r.1.2) <$> stun_msg_decode 32 (Some []) (rcv_buf sample_reply) = Some (Some [])) by (vm_compute; reflexivity).
    rewrite Hd in Eu. by injection Eu as ->.
  - by destruct (Hkey [1; 2; 3] eq_refl) as [Ha|[?|?]].
Defined.

Lemma stun_request_reply_witness :
  exists id s1 s2 d1 d2 req resp,
    arrived 1 STUN_CLASS_REQUEST sample_tid (Some [1; 2; 3]) true sample_attrs req
    /\ stun_request sample_net 1000 0 IPPROTO_UDP 3 (Some (SaIn 1 2)) 0 1 [] sample_tid (Some [1; 2; 3]) true 5 0 sample_attrs sample_stun
      = Some (0, s1, [OSend IPPROTO_UDP 3 (Some (SaIn 1 2)) d1; OReq id 5])
    /\ stun_reply sample_net IPPROTO_UDP 4 (Some (SaIn 3 4)) 0 req [] (Some [1; 2; 3]) true sample_attrs
       = Some (0, [OSend IPPROTO_UDP 4 (Some (SaIn 3 4)) d2])
    /\ stun_recv 6 (rcv_buf d2) s1 = Some (0, s2, [OResp id 5 0 0 0 (Some resp)]).
Proof.
  destruct (stun_request_reply lp64_ample sample_net 1000 0 3 4 (SaIn 1 2) (SaIn 3 4) 1 [] [] sample_tid (Some [1; 2; 3]) true true 5 0
    sample_attrs sample_attrs sample_stun 6) as (id & s1 & s2 & d1 & d2 & req & resp & _ & _ & A1 & E1 & _ & E2 & E3 & _).
  1: lia.
  1: reflexivity.
  1, 2: exact sample_msg_wf.
  1, 2: repeat constructor; vm_compute; congruence.
  1: intros k [= <-]; done.
  1: reflexivity.
  1, 2, 3: lia.
  1: constructor.
  1, 2: cbn; lia.
  exists id, s1, s2, d1, d2, req, resp. split; [exact A1|]. split; [exact E1|]. split; [exact E2|exact E3].
Defined.
