(* ===== verification/Dname.v ===== *)
(** * DNS domain names: src/src/dns/dname.c

    Names are C strings (their characters without the terminator; [None] is
    NULL).  The table of names already in the message is what hash.c keeps of
    it (Hash.v: the entries with their keys, oldest first, searched in the
    bucket of the key).  In [dname_decode_loop], [None] is a loop that has not ended
    or an access outside the array [buf] or the memory of the buffer. *)

From Stdlib Require Import ZArith Lia.
From stdpp Require Import base numbers list gmap.
From S2P Require Import Prelude Endian Mbuf MbufView LinkedList ListSpec Hash.

Open Scope Z_scope.

Definition COMP_MASK : Z := 0xc0.
Definition OFFSET_MASK : Z := 0x3fff.
Definition COMP_LOOP : Z := 255.
Definition DOT : Z := 46.

(** [sizeof(struct dname)] of an LP64 platform, and of the array [buf]. *)
Definition SIZEOF_DNAME : Z := 48.
Definition DNAME_BUF : Z := 256.

Record dname := Dname { dn_pos : Z; dn_name : list Z }.

(** The table of hash.c with the keys of its entries. *)
Record dtable := Dtable { dt_size : Z; dt_entries : list (Z * dname) }.

(** strcasecmp in the C locale. *)
Fixpoint strcasecmp (s1 s2 : list Z) : Z :=
  match s1, s2 with
  | [], [] => 0
  | c :: _, [] => tolower c
  | [], c :: _ => - tolower c
  | c1 :: s1, c2 :: s2 => if tolower c1 =? tolower c2 then strcasecmp s1 s2 else tolower c1 - tolower c2
  end.

(** Pointers are compared through the strings. *)
Definition str_casecmp (s1 s2 : option (list Z)) : Z :=
  match s1, s2 with
  | None, None => 0
  | Some s1, Some s2 => strcasecmp s1 s2
  | _, _ => 1
  end.

Section Dname.
Context `{H : Host} (char_signed : bool).

Definition hash_append_dname (t : dtable) (key : Z) (dn : dname) : dtable :=
  Dtable (dt_size t) (dt_entries t ++ [(key, dn)]).

(** [hash_lookup] as Hash.v describes it: the oldest accepted entry of the bucket. *)
Definition hash_lookup_dname (t : dtable) (key : Z) (ah : dname -> bool) : option dname :=
  snd <$> List.find (fun e => bool_decide (index (Hash 0 (dt_size t)) e.1 = index (Hash 0 (dt_size t)) key) && ah e.2)
            (dt_entries t).

Definition dname_append (ht : option dtable) (name : list Z) (pos : Z) : option dtable :=
  match ht with
  | None => None
  | Some t =>
      if (pos >? OFFSET_MASK) || bool_decide (name = []) then Some t
      else
        match mem_alloc SIZEOF_DNAME, mem_alloc (zlength name + 1) with
        | Some _, Some _ => Some (hash_append_dname t (hash_joaat_str_ci char_signed name) (Dname pos name))
        | _, _ => Some t
        end
  end.

Definition lookup_handler (name : list Z) (dn : dname) : bool := 0 =? strcasecmp (dn_name dn) name.

Definition dname_lookup (ht : option dtable) (name : list Z) : option dname :=
  t ← ht; hash_lookup_dname t (hash_joaat_str_ci char_signed name) (lookup_handler name).

Definition dname_encode_pointer (pos : Z) (mb : mbuf) : Z * mbuf :=
  write_be16 (Z.lor (u16 pos) (Z.shiftl COMP_MASK 8)) mb.

(** The loop of dns_dname_encode; [pos] is where the length of the current label goes. *)
Fixpoint dname_encode_loop (start : Z) (comp : bool) (name : list Z) (pos : Z) (ht : option dtable) (mb : mbuf) :
    Z * option dtable * mbuf :=
  let lablen := u64 (mb_pos mb - pos - 1) in
  match name with
  | [] =>
      if lablen =? 0 then (0, ht, mb)
      else
        let mb := mb_store mb pos [u8 lablen] in
        let '(err, mb) := mbuf_write_u8 0 mb in
        (err, ht, mb)
  | c :: name =>
      if c =? DOT then
        if lablen =? 0 then (EINVAL, ht, mb)
        else
          let mb := mb_store mb pos [u8 lablen] in
          match dname_lookup ht name, comp with
          | Some dn, true =>
              let '(err, mb) := dname_encode_pointer (dn_pos dn) mb in
              (err, ht, mb)
          | dn, _ =>
              let pos := mb_pos mb in
              let ht := if dn is Some _ then ht else dname_append ht name (u64 (pos - start)) in
              let '(err, mb) := mbuf_write_u8 0 mb in
              if err =? 0 then dname_encode_loop start comp name pos ht mb else (err, ht, mb)
          end
      else
        let '(err, mb) := mbuf_write_u8 c mb in
        if err =? 0 then dname_encode_loop start comp name pos ht mb else (err, ht, mb)
  end.

Definition dns_dname_encode (mb : mbuf) (name : option (list Z)) (ht : option dtable) (start : Z) (comp : bool) :
    Z * option dtable * mbuf :=
  match name with
  | None => (EINVAL, ht, mb)
  | Some name =>
      match dname_lookup ht name, comp with
      | Some dn, true =>
          let '(err, mb) := dname_encode_pointer (dn_pos dn) mb in
          (err, ht, mb)
      | dn, _ =>
          let pos := mb_pos mb in
          let ht := if dn is Some _ then ht else dname_append ht name (u64 (pos - start)) in
          let '(err, mb) := mbuf_write_u8 0 mb in
          if bool_decide (name = [DOT]) then (err, ht, mb)
          else if err =? 0 then dname_encode_loop start comp name pos ht mb
          else (err, ht, mb)
      end
  end.

(** Reading [n] bytes of the memory at [p], and storing behind [buf]. *)
Definition mem_get (mb : mbuf) (p n : Z) : option (list Z) :=
  if (p + n <=? mb_size mb) then Some (mb_slice mb p n) else None.
Definition buf_put (buf d : list Z) : option (list Z) :=
  if zlength buf + zlength d <=? DNAME_BUF then Some (buf ++ d) else None.

(** [buf] holds the [i] characters stored so far. *)
Fixpoint dname_decode_loop (fuel : nat) (start : Z) (buf : list Z) (loopc : Z) (comp : bool) (pos : Z) (mb : mbuf) :
    option (Z * option (list Z) * mbuf) :=
  match fuel with
  | O => None
  | S fuel =>
      if mb_pos mb <? mb_end mb then
        d ← mem_get mb (mb_pos mb) 1;
        let len := znth 0 d in
        let mb := mbuf_set_pos mb (mb_pos mb + 1) in
        if len =? 0 then
          let mb := if comp then mbuf_set_pos mb pos else mb in
          buf ← buf_put buf [0];
          match mem_alloc (zlength buf) with
          | None => Some (ENOMEM, None, mb)
          | Some _ => Some (0, Some (until_nul buf), mb)
          end
        else if Z.land len COMP_MASK =? COMP_MASK then
          if loopc >? COMP_LOOP then Some (EINVAL, None, mb)
          else
            let mb := mbuf_set_pos mb (mb_pos mb - 1) in
            if mbuf_get_left mb <? 2 then Some (EINVAL, None, mb)
            else
              let '(v, mb) := read_be16 mb in
              let offset := Z.land v OFFSET_MASK in
              let pos := if comp then pos else mb_pos mb in
              dname_decode_loop fuel start buf (loopc + 1) true pos (mbuf_set_pos mb (u64 (offset + start)))
        else if len >? mbuf_get_left mb then Some (EINVAL, None, mb)
        else if len + zlength buf + 2 >? DNAME_BUF then Some (EINVAL, None, mb)
        else
          buf ← if zlength buf >? 0 then buf_put buf [DOT] else Some buf;
          d ← mem_get mb (mb_pos mb) len;
          buf ← buf_put buf d;
          dname_decode_loop fuel start buf loopc comp pos (mbuf_set_pos mb (mb_pos mb + len))
      else Some (EINVAL, None, mb)
  end.

(** At most 255 labels fit in [buf] and 256 pointers are followed. *)
Definition DNAME_FUEL : nat := 512.
Definition dns_dname_decode (mb : mbuf) (start : Z) : option (Z * option (list Z) * mbuf) :=
  dname_decode_loop DNAME_FUEL start [] 0 false 0 mb.
End Dname.
