(* ===== verification/DnameSpec.v ===== *)
(** * What DNS names on the wire are, and that dname.c reads and writes them

    [enc g start p ls j q]: at [p] the bytes known to [g] are an encoding of
    the labels [ls] that goes through [j] pointers and whose own bytes end at
    [q].  dns_dname_decode returns exactly the names that are encoded; any
    sequence of names written by dns_dname_encode with one table is read back,
    compressed or not. *)

From Stdlib Require Import ZArith Lia.
From stdpp Require Import base numbers list gmap.
From S2P Require Import Prelude Endian Mbuf MbufView Format LinkedList ListSpec Hash Dname.

Open Scope Z_scope.

(** ** Encodings *)

Inductive enc (g : Z -> option Z) (start : Z) : Z -> list (list Z) -> nat -> Z -> Prop :=
| enc_root p : g p = Some 0 -> enc g start p [] 0 (p + 1)
| enc_label p l ls j q :
    g p = Some (zlength l) -> 1 <= zlength l < 192 -> seg g (p + 1) l ->
    enc g start (p + 1 + zlength l) ls j q -> enc g start p (l :: ls) j q
| enc_pointer p b0 b1 ls j q :
    g p = Some b0 -> g (p + 1) = Some b1 -> 192 <= b0 ->
    enc g start (Z.land (256 * b0 + b1) OFFSET_MASK + start) ls j q -> enc g start p ls (S j) (p + 2).

(** More bytes become known. *)
Lemma enc_mono g g' start p ls j q :
  (forall i b, g i = Some b -> g' i = Some b) -> enc g start p ls j q -> enc g' start p ls j q.
Proof. intros Hg. induction 1; econstructor; eauto. unfold seg in *. eauto. Qed.

(** The text of a name. *)
Definition add_label (buf l : list Z) : list Z := if zlength buf >? 0 then buf ++ DOT :: l else buf ++ l.
Definition dname_text (buf : list Z) (ls : list (list Z)) : list Z := foldl add_label buf ls.

(** The decoder has room for the labels behind [i] characters. *)
Fixpoint fits (buf : list Z) (ls : list (list Z)) : Prop :=
  match ls with
  | [] => True
  | l :: ls => zlength l + zlength buf + 2 <= DNAME_BUF /\ fits (add_label buf l) ls
  end.

Lemma add_label_length buf l :
  zlength (add_label buf l) = zlength buf + zlength l + (if zlength buf >? 0 then 1 else 0).
Proof. unfold add_label. case_test; zlen. Qed.

Lemma dname_text_grows buf ls : zlength buf <= zlength (dname_text buf ls).
Proof.
  revert buf. induction ls as [|l ls IH]; intros buf; cbn; [lia|]. specialize (IH (add_label buf l)).
  rewrite add_label_length in IH. pose proof (zlength_nonneg l). unfold dname_text in IH. case_test_in IH; lia.
Qed.

Lemma fits_text buf ls : zlength (dname_text buf ls) <= 254 -> fits buf ls.
Proof.
  revert buf. induction ls as [|l ls IH]; intros buf Hl; cbn; [done|]. cbn in Hl.
  split; [|by apply IH]. pose proof (dname_text_grows (add_label buf l) ls) as Hg. unfold dname_text in Hg.
  rewrite add_label_length in Hg. unfold DNAME_BUF. case_test_in Hg; lia.
Qed.

(** Bytes with both top bits set. *)
Lemma comp_mask b : is_byte b -> (Z.land b COMP_MASK =? COMP_MASK) = (192 <=? b).
Proof.
  intros Hb. assert (Hall : forallb (fun b => Bool.eqb (Z.land b COMP_MASK =? COMP_MASK) (192 <=? b)) (seqZ 0 256) = true)
    by (vm_compute; reflexivity).
  apply eqb_prop. apply (proj1 (forallb_forall _ _) Hall), list_elem_of_In, elem_of_seqZ. unfold is_byte in Hb. lia.
Qed.

(** ** Decoding *)

Section Decoding.
Context `{H : Host} (start : Z) (Hstart : 0 <= start < 2 ^ 62).

Lemma mem_get_ok mb c p0 q p n :
  holds mb c p0 -> 0 <= p -> 0 <= n -> p + n <= zlength c ->
  mem_get (mbuf_set_pos mb q) p n = Some (ztake n (zdrop p c)).
Proof.
  intros Hh Hp Hn Hl. rewrite <- (holds_slice mb c p0) by done. pose proof (holds_end _ _ _ Hh).
  pose proof (wf_end _ (holds_wf _ _ _ Hh)). unfold mem_get. cbn [mbuf_set_pos mb_size].
  by rewrite (proj2 (Z.leb_le _ _)) by lia.
Qed.

Lemma buf_put_ok buf d : zlength buf + zlength d <= 256 -> buf_put buf d = Some (buf ++ d).
Proof. intros. unfold buf_put, DNAME_BUF. by rewrite (proj2 (Z.leb_le _ _)). Qed.

Lemma read_be16_view mb c p0 p b0 b1 :
  holds mb c p0 -> view c p = Some b0 -> view c (p + 1) = Some b1 ->
  read_be16 (mbuf_set_pos mb p) = (256 * b0 + b1, mbuf_set_pos mb (p + 2)).
Proof.
  intros Hh H0 H1. pose proof (view_bound _ _ _ H0). pose proof (view_bound _ _ _ H1).
  pose proof (holds_set_pos _ _ _ p Hh ltac:(lia)) as Hp. destruct (view_head _ _ _ H0) as [r Hr].
  destruct (view_head _ _ _ H1) as [r' Hr']. replace (zdrop (p + 1) c) with r in Hr' by
    (rewrite <- (zdrop_zdrop 1 p), Hr by lia; done). subst r.
  pose proof (bytes_zdrop p c (holds_bytes _ _ _ Hh)) as Hb. rewrite Hr in Hb. inversion_clear Hb as [|? ? B0 Hb'].
  inversion_clear Hb' as [|? ? B1 _]. pose proof (be_val_small 2 (256 * b0 + b1)). unfold is_byte in *.
  destruct (read_be16_app (mbuf_set_pos mb p) (256 * b0 + b1) r') as [-> _].
  - apply Hp.
  - rewrite (holds_rest _ _ _ Hp), Hr. unfold be_bytes. cbn [le_bytes rev app].
    rewrite (Z.mul_comm 256 b0), Z.add_comm, Z_mod_plus_full, Z_div_plus_full, (Z.mod_small b1), (Z.div_small b1), Z.add_0_l, (Z.mod_small b0) by lia. done.
  - rewrite wrap_small by lia. done.
Qed.

(** What the loop does at [p] in terms of the bytes of the message. *)
Lemma decode_step mb c p0 p fuel buf loopc comp pos :
  holds mb c p0 -> 0 <= p -> zlength buf <= 255 ->
  dname_decode_loop (S fuel) start buf loopc comp pos (mbuf_set_pos mb p) =
  match view c p with
  | None => Some (EINVAL, None, mbuf_set_pos mb p)
  | Some len =>
      if len =? 0 then
        match mem_alloc (zlength buf + 1) with
        | None => Some (ENOMEM, None, mbuf_set_pos mb (if comp then pos else p + 1))
        | Some _ => Some (0, Some (until_nul (buf ++ [0])), mbuf_set_pos mb (if comp then pos else p + 1))
        end
      else if 192 <=? len then
        if loopc >? COMP_LOOP then Some (EINVAL, None, mbuf_set_pos mb (p + 1))
        else
          match view c (p + 1) with
          | None => Some (EINVAL, None, mbuf_set_pos mb p)
          | Some b1 =>
              dname_decode_loop fuel start buf (loopc + 1) true (if comp then pos else p + 2)
                (mbuf_set_pos mb (Z.land (256 * len + b1) OFFSET_MASK + start))
          end
      else if (p + 1 + len <=? zlength c) && (len + zlength buf + 2 <=? DNAME_BUF) then
        dname_decode_loop fuel start (add_label buf (ztake len (zdrop (p + 1) c))) loopc comp pos
          (mbuf_set_pos mb (p + 1 + len))
      else Some (EINVAL, None, mbuf_set_pos mb (p + 1))
  end.
Proof.
  intros Hh Hp Hb. pose proof (holds_end _ _ _ Hh) as Hend. pose proof (holds_bytes _ _ _ Hh) as Hby.
  cbn [dname_decode_loop]. cbn [mbuf_set_pos mb_pos mb_end]. rewrite Hend.
  destruct (view c p) as [len|] eqn:Ev; cycle 1.
  { case_test; [|done]. unfold view in Ev. rewrite (proj2 (Z.leb_le 0 p)) in Ev by lia.
    apply lookup_ge_None in Ev. unfold zlength in *. lia. }
  pose proof (view_bound _ _ _ Ev) as Hpc. rewrite (proj2 (Z.ltb_lt p _)) by lia.
  rewrite (mem_get_ok mb c p0) by (done || lia). cbn [mbind option_bind]. destruct (view_head _ _ _ Ev) as [r Hr].
  assert (Ez : znth 0 (ztake 1 (zdrop p c)) = len) by (rewrite Hr; done). rewrite Ez.
  assert (Hlen : is_byte len) by (pose proof (bytes_zdrop p c Hby) as Hx; rewrite Hr in Hx; by inversion Hx).
  rewrite comp_mask by done. rewrite !set_pos_twice. replace (p + 1 - 1) with p by lia.
  rewrite (buf_put_ok buf [0]) by (rewrite zlength_cons, zlength_nil; lia). cbn [mbind option_bind].
  replace (zlength (buf ++ [0])) with (zlength buf + 1) by zlen. unfold is_byte in Hlen.
  assert (Hleft : forall q, 0 <= q <= zlength c -> mbuf_get_left (mbuf_set_pos mb q) = zlength c - q)
    by (intros; eapply holds_get_left, holds_set_pos; done).
  rewrite !Hleft by lia. case_test; [by destruct comp|]. case_test; [case_test; [done|]|].
  - destruct (view c (p + 1)) as [b1|] eqn:Ev1.
    + rewrite (read_be16_view mb c p0 p len b1) by done. pose proof (view_bound _ _ _ Ev1).
      rewrite (proj2 (Z.ltb_ge _ 2)) by lia. cbn [mbuf_set_pos mb_pos]. rewrite set_pos_twice.
      rewrite wrap_small; [done|]. pose proof (land_bound_r 14 (256 * len + b1) OFFSET_MASK ltac:(lia) ltac:(by unfold OFFSET_MASK)). lia.
    + unfold view in Ev1. rewrite (proj2 (Z.leb_le 0 _)) in Ev1 by lia. apply lookup_ge_None in Ev1.
      rewrite (proj2 (Z.ltb_lt _ 2)) by (unfold zlength; lia). done.
  - rewrite Z.gtb_ltb, Z.gtb_ltb. destruct (Z.ltb_spec (zlength c - (p + 1)) len), (Z.leb_spec (p + 1 + len) (zlength c)); try lia; [done|].
    cbn [andb]. destruct (Z.ltb_spec DNAME_BUF (len + zlength buf + 2)), (Z.leb_spec (len + zlength buf + 2) DNAME_BUF); try lia; [done|].
    rewrite (mem_get_ok mb c p0) by (done || lia). unfold add_label. unfold DNAME_BUF in *.
    assert (Hl : zlength (ztake len (zdrop (p + 1) c)) = len) by (rewrite zlength_ztake; [done|rewrite zlength_zdrop; lia]).
    pose proof (zlength_nonneg buf). cbn [mbuf_set_pos mb_pos]. rewrite ?set_pos_twice.
    case_test; cbn [mbind option_bind].
    + rewrite buf_put_ok by zlen. cbn [mbind option_bind]. rewrite buf_put_ok by zlen. cbn [mbind option_bind].
      by rewrite <- app_assoc.
    + by rewrite buf_put_ok by zlen.
Qed.

Lemma fits_length buf ls : zlength buf <= 255 -> fits buf ls -> zlength (dname_text buf ls) <= 255.
Proof.
  revert buf. induction ls as [|l ls IH]; intros buf Hb; [done|]. cbn [fits dname_text foldl]. intros [Hl Hf].
  apply IH; [|done]. rewrite add_label_length. unfold DNAME_BUF in Hl. case_test; lia.
Qed.

Lemma enc_range c p ls j q : enc (view c) start p ls j q -> 0 <= p < q /\ q <= zlength c.
Proof.
  induction 1 as [p Hg|p l ls j q Hg Hl Hs He IH|p b0 b1 ls j q H0 H1 Hb He IH].
  - apply view_bound in Hg. lia.
  - apply view_bound in Hg. lia.
  - apply view_bound in H0, H1. lia.
Qed.

Definition decoded (mb : mbuf) (text : list Z) (q : Z) : option (Z * option (list Z) * mbuf) :=
  match mem_alloc (zlength text + 1) with
  | None => Some (ENOMEM, None, mbuf_set_pos mb q)
  | Some _ => Some (0, Some (until_nul (text ++ [0])), mbuf_set_pos mb q)
  end.

(** Every encoded name with room for it is decoded. *)
Lemma decode_enc mb c p0 p ls j q :
  holds mb c p0 -> enc (view c) start p ls j q ->
  forall fuel buf loopc comp pos,
  zlength buf <= 255 -> fits buf ls -> loopc + Z.of_nat j <= 256 -> (length ls + j < fuel)%nat ->
  dname_decode_loop fuel start buf loopc comp pos (mbuf_set_pos mb p) =
  decoded mb (dname_text buf ls) (if comp then pos else q).
Proof.
  intros Hh. induction 1 as [p Hg|p l ls j q Hg Hl Hs He IH|p b0 b1 ls j q H0 H1 Hb He IH];
    intros fuel buf loopc comp pos Hbuf Hf Hj Hfuel; (destruct fuel as [|fuel]; [lia|]).
  - pose proof (view_bound _ _ _ Hg). rewrite (decode_step mb c p0) by (done || lia). by rewrite Hg.
  - pose proof (view_bound _ _ _ Hg). pose proof (enc_range _ _ _ _ _ He).
    rewrite (decode_step mb c p0) by (done || lia). rewrite Hg. destruct Hf as [Hf1 Hf2]. cbn [length] in Hfuel.
    rewrite (proj2 (Z.eqb_neq _ 0)), (proj2 (Z.leb_gt 192 _)) by lia.
    rewrite (proj2 (Z.leb_le _ (zlength c))), (proj2 (Z.leb_le _ DNAME_BUF)) by lia. cbn [andb].
    rewrite (seg_slice c (p + 1) l) by (done || lia). apply IH; try lia; try done.
    rewrite add_label_length. unfold DNAME_BUF in Hf1. case_test; lia.
  - pose proof (view_bound _ _ _ H0). rewrite (decode_step mb c p0) by (done || lia). rewrite H0, H1.
    rewrite (proj2 (Z.eqb_neq _ 0)), (proj2 (Z.leb_le 192 _)) by lia. rewrite Z.gtb_ltb, (proj2 (Z.ltb_ge _ _)) by (unfold COMP_LOOP; lia).
    rewrite IH by (done || lia). by destruct comp.
Qed.

(** The loop ends whatever the bytes are, and accepts encoded names only. *)
Lemma decode_total mb c p0 :
  holds mb c p0 -> forall fuel p buf loopc comp pos,
  0 <= p -> zlength buf <= 255 -> 0 <= loopc <= 256 -> 511 - zlength buf - loopc < Z.of_nat fuel ->
  (exists p', dname_decode_loop fuel start buf loopc comp pos (mbuf_set_pos mb p) = Some (EINVAL, None, mbuf_set_pos mb p'))
  \/ exists ls j q, enc (view c) start p ls j q /\ fits buf ls /\ loopc + Z.of_nat j <= 256
       /\ (length ls + j < fuel)%nat.
Proof.
  intros Hh. pose proof (holds_bytes _ _ _ Hh) as Hby.
  induction fuel as [|fuel IH]; intros p buf loopc comp pos Hp Hb Hl Hf; [lia|].
  rewrite (decode_step mb c p0) by done. destruct (view c p) as [len|] eqn:Ev; [|left; by eexists].
  pose proof (view_bound _ _ _ Ev). destruct (view_head _ _ _ Ev) as [r Hr].
  assert (Hlen : is_byte len) by (pose proof (bytes_zdrop p c Hby) as Hx; rewrite Hr in Hx; by inversion Hx).
  unfold is_byte in Hlen. case_test; [right|case_test].
  - exists [], 0%nat, (p + 1). subst. cbn. split_and!; [by constructor|done|lia|lia].
  - rewrite Z.gtb_ltb. destruct (Z.ltb_spec COMP_LOOP loopc); [left; by eexists|]. unfold COMP_LOOP in *.
    destruct (view c (p + 1)) as [b1|] eqn:Ev1; [|left; by eexists].
    destruct (IH (Z.land (256 * len + b1) OFFSET_MASK + start) buf (loopc + 1) true (if comp then pos else p + 2))
      as [E|(ls & j & q & He & Hfit & Hj & Hn)]; try lia; try done.
    + pose proof (land_bound_r 14 (256 * len + b1) OFFSET_MASK ltac:(lia) ltac:(by unfold OFFSET_MASK)). lia.
    + by left.
    + right. exists ls, (S j), (p + 2). split; [by eapply enc_pointer|]. split; [done|]. split; lia.
  - destruct ((p + 1 + len <=? zlength c) && (len + zlength buf + 2 <=? DNAME_BUF)) eqn:Et; [|left; by eexists].
    apply andb_prop in Et as [E1%Z.leb_le E2%Z.leb_le]. set (l := ztake len (zdrop (p + 1) c)).
    assert (Hll : zlength l = len) by (unfold l; rewrite zlength_ztake; [done|rewrite zlength_zdrop; lia]).
    pose proof (add_label_length buf l) as Hal. unfold DNAME_BUF in *. pose proof (zlength_nonneg buf).
    assert (Hg : zlength buf + len <= zlength (add_label buf l) <= 255) by (case_test_in Hal; lia).
    destruct (IH (p + 1 + len) (add_label buf l) loopc comp pos) as [E|(ls & j & q & He & Hfit & Hj & Hn)]; try lia; try done; [by left|].
    right. exists (l :: ls), j, q. rewrite <- Hll in *. split; [|split; [by split; [unfold DNAME_BUF; lia|]|split; [lia|cbn; lia]]].
    eapply enc_label; try done; [lia|]. unfold l. apply slice_lookup; lia.
Qed.
End Decoding.

(** ** Names and their labels *)

(** The labels of [l ++ s], where [l] has no dot: a trailing dot is dropped. *)
Fixpoint dlabels (l s : list Z) : list (list Z) :=
  match s with
  | [] => if bool_decide (l = []) then [] else [l]
  | c :: s => if c =? DOT then l :: dlabels [] s else dlabels (l ++ [c]) s
  end.
Definition name_labels (s : list Z) : list (list Z) := if bool_decide (s = [DOT]) then [] else dlabels [] s.

Definition label_ok (l : list Z) : Prop := 1 <= zlength l < 192.
Definition c_string (s : list Z) : Prop := Forall (fun b => 0 < b < 256) s.
Definition valid_name (s : list Z) : Prop := c_string s /\ Forall label_ok (name_labels s).

Definition lower (s : list Z) : list Z := map tolower s.

(** Names that differ in case only. *)
Definition same_labels (ls ls' : list (list Z)) : Prop := map lower ls = map lower ls'.

Lemma tolower_dot c : (tolower c =? DOT) = (c =? DOT).
Proof. unfold tolower, DOT. destruct (Z.leb_spec 65 c), (Z.leb_spec c 90); cbn; lia. Qed.

Lemma tolower_pos c : 0 < c -> 0 < tolower c.
Proof. unfold tolower. case_test; lia. Qed.

Lemma lower_dlabels s : forall l, map lower (dlabels l s) = dlabels (lower l) (lower s).
Proof.
  induction s as [|c s IH]; intros l; cbn [dlabels lower map].
  - destruct l; done.
  - rewrite tolower_dot. destruct (c =? DOT); cbn [map]; [by rewrite IH|]. rewrite IH. f_equal. unfold lower. by rewrite map_app.
Qed.

Lemma lower_name_labels s : map lower (name_labels s) = name_labels (lower s).
Proof.
  unfold name_labels. replace (bool_decide (lower s = [DOT])) with (bool_decide (s = [DOT])).
  - destruct (bool_decide _); [done|]. apply lower_dlabels.
  - apply bool_decide_ext. split; [by intros ->|]. destruct s as [|c [|d s]]; try done. cbn. intros [= E].
    pose proof (tolower_dot c) as Hd. rewrite E in Hd. cbn in Hd. symmetry in Hd. apply Z.eqb_eq in Hd. by rewrite Hd.
Qed.

Lemma strcasecmp_eq s : forall s', c_string s -> c_string s' -> strcasecmp s s' = 0 <-> lower s = lower s'.
Proof.
  induction s as [|c s IH]; intros [|c' s'] Hs Hs'; cbn [strcasecmp lower map].
  - done.
  - inversion Hs' as [|? ? Hc' _]. pose proof (tolower_pos c' ltac:(lia)). split; [lia|done].
  - inversion Hs as [|? ? Hc _]. pose proof (tolower_pos c ltac:(lia)). split; [lia|done].
  - inversion Hs; inversion Hs'; subst. case_test.
    + rewrite IH by done. unfold lower. split; [intros ->; congruence|by intros [= _ ->]].
    + split; [lia|intros [= ? ?]; lia].
Qed.

Lemma dlabels_valid l s : Forall label_ok (dlabels l (DOT :: s)) -> s <> [DOT] /\ label_ok l /\ Forall label_ok (dlabels [] s).
Proof.
  cbn [dlabels]. rewrite Z.eqb_refl. intros Hv. inversion Hv as [|? ? Hl Hs]; subst. split; [|done]. intros ->.
  cbn in Hs. inversion Hs as [|? ? [Hx _] _]. by cbn in Hx.
Qed.

(** A pointer and how it is read. *)
Lemma pointer_bytes pos :
  0 <= pos <= OFFSET_MASK -> exists b0 b1,
  be_bytes 2 (Z.lor (u16 pos) (Z.shiftl COMP_MASK 8)) = [b0; b1] /\ 192 <= b0
  /\ Z.land (256 * b0 + b1) OFFSET_MASK = pos.
Proof.
  intros Hp. unfold OFFSET_MASK in Hp. rewrite wrap_small by lia. change (Z.shiftl COMP_MASK 8) with 49152.
  rewrite Z.lor_comm, (lor_disjoint 14) by (done || lia). set (v := 49152 + pos).
  exists (v / 256), (v mod 256). split; [|split].
  - unfold be_bytes. cbn [le_bytes rev app]. rewrite (Z.mod_small (v / 256)); [done|]. unfold v. split; [apply Z.div_pos; lia|].
    apply Z.div_lt_upper_bound; lia.
  - apply Z.div_le_lower_bound; lia.
  - rewrite <- Z.div_mod by lia. change OFFSET_MASK with (Z.ones 14). rewrite Z.land_ones by lia. unfold v.
    rewrite Z.add_mod by lia. change (49152 mod 2 ^ 14) with 0. rewrite Z.add_0_l, Z.mod_mod, Z.mod_small; lia.
Qed.

(** ** Encoding *)

(** [g] knows bytes of [c]; and of what is written behind [c] all of it. *)
Definition sub (g : Z -> option Z) (c : list Z) : Prop := forall p b, g p = Some b -> view c p = Some b.
Definition ext (g : Z -> option Z) (c c' : list Z) (p : Z) : option Z := if zlength c <=? p then view c' p else g p.

Lemma ext_old g c c' p b : sub g c -> g p = Some b -> ext g c c' p = Some b.
Proof. intros Hs Hg. pose proof (view_bound _ _ _ (Hs _ _ Hg)). unfold ext. by rewrite (proj2 (Z.leb_gt _ _)) by lia. Qed.

Lemma ext_sub g c x : sub g c -> sub (ext g c (c ++ x)) (c ++ x).
Proof. intros Hs p b. unfold ext. case_test; [done|]. intros Hg. by apply view_app, Hs. Qed.

Lemma ext_ext g c x y p b :
  ext (ext g c (c ++ x)) (c ++ x) ((c ++ x) ++ y) p = Some b -> ext g c (c ++ x ++ y) p = Some b.
Proof.
  rewrite app_assoc. unfold ext. pose proof (zlength_nonneg x). rewrite zlength_app.
  destruct (Z.leb_spec (zlength c + zlength x) p), (Z.leb_spec (zlength c) p); try done; try lia. apply view_app.
Qed.

Lemma ext_seg g c a l b : seg (ext g c (c ++ a ++ l ++ b)) (zlength c + zlength a) l.
Proof.
  intros i x Hx. unfold ext. pose proof (zlength_nonneg a). rewrite (proj2 (Z.leb_le _ _)) by lia.
  rewrite <- zlength_app, app_assoc. by apply seg_mid.
Qed.

Lemma ext_byte g c a x b : ext g c (c ++ a ++ x :: b) (zlength c + zlength a) = Some x.
Proof. pose proof (ext_seg g c a [x] b 0%nat x eq_refl) as E. cbn in E. by rewrite Z.add_0_r in E. Qed.

Definition entry_ok (g : Z -> option Z) (start : Z) (e : Z * dname) : Prop :=
  0 <= dn_pos e.2 <= OFFSET_MASK /\ c_string (dn_name e.2) /\
  exists ls j q, enc g start (start + dn_pos e.2) ls j q /\ same_labels ls (name_labels (dn_name e.2))
    /\ (j <= length ls)%nat.

Lemma entry_ok_mono g g' start e : (forall p b, g p = Some b -> g' p = Some b) -> entry_ok g start e -> entry_ok g' start e.
Proof. intros Hg (H1 & H2 & ls & j & q & He & Hs & Hj). split; [done|]. split; [done|]. exists ls, j, q. eauto using enc_mono. Qed.

Definition entries (ht : option dtable) : list (Z * dname) := match ht with Some t => dt_entries t | None => [] end.
Definition add_entries (ht : option dtable) (es : list (Z * dname)) : option dtable :=
  match ht with Some t => Some (Dtable (dt_size t) (dt_entries t ++ es)) | None => None end.

Lemma add_entries_nil ht : add_entries ht [] = ht.
Proof. destruct ht as [[n es]|]; cbn; [by rewrite app_nil_r|done]. Qed.

Lemma add_entries_app ht a b : add_entries (add_entries ht a) b = add_entries ht (a ++ b).
Proof. destruct ht as [[n es]|]; cbn; [by rewrite app_assoc|done]. Qed.

Lemma add_entries_elem ht a e : e ∈ entries (add_entries ht a) -> e ∈ entries ht \/ e ∈ a.
Proof. destruct ht as [[n es]|]; cbn; [by rewrite elem_of_app|by left]. Qed.

Section Encoding.
Context `{H : Host} (Ham : ample_memory) (cs : bool) (start : Z) (Hstart : 0 <= start).

Lemma write_u8_ok mb c b :
  holds mb c (zlength c) -> is_byte b -> zlength c + 1 < 2 ^ 31 ->
  exists mb', mbuf_write_u8 b mb = (0, mb') /\ holds mb' (c ++ [b]) (zlength (c ++ [b])).
Proof.
  intros Hh Hb Hl. unfold mbuf_write_u8. rewrite host_bytes_1, Z.mod_small by done.
  apply (holds_append mb c [b] Hh); [by apply Forall_singleton|done|zlen].
Qed.

Lemma lookup_found ht name dn :
  dname_lookup cs ht name = Some dn -> c_string name -> (forall e, e ∈ entries ht -> c_string (dn_name e.2)) ->
  exists e, e ∈ entries ht /\ e.2 = dn /\ lower (dn_name dn) = lower name.
Proof.
  unfold dname_lookup. intros Hl Hn Hes. destruct ht as [[n es]|]; [|done]. cbn in Hl, Hes |- *. unfold hash_lookup_dname in Hl.
  destruct (List.find _ _) as [e|] eqn:Ef; [|done]. injection Hl as <-. apply List.find_some in Ef as [Hin Ht].
  apply andb_prop in Ht as [_ Ht]. apply list_elem_of_In in Hin. exists e. split; [done|]. split; [done|].
  apply (proj1 (Z.eqb_eq 0 _)) in Ht. symmetry in Ht. apply strcasecmp_eq in Ht; auto.
Qed.

Lemma append_cases ht name pos :
  0 <= pos -> exists es, dname_append cs ht name pos = add_entries ht es /\
  (es = [] \/ es = [(hash_joaat_str_ci cs name, Dname pos name)] /\ pos <= OFFSET_MASK /\ name <> []).
Proof.
  intros Hp. unfold dname_append. destruct ht as [[n es]|]; [|by exists []; split; [|left]].
  destruct ((pos >? OFFSET_MASK) || bool_decide (name = [])) eqn:E; [exists []; rewrite add_entries_nil; tauto|].
  apply orb_false_iff in E as [E1 E2%bool_decide_eq_false]. rewrite Z.gtb_ltb in E1. apply Z.ltb_ge in E1.
  destruct (mem_alloc SIZEOF_DNAME); [|exists []; rewrite add_entries_nil; tauto].
  destruct (mem_alloc _); [|exists []; rewrite add_entries_nil; tauto]. eexists. split; [reflexivity|]. by right.
Qed.

(** What encoding the labels [ls] behind [c] achieves, where the first byte
    of the encoding is at [p]: the names of new entries are encoded too. *)
Definition encoded (g : Z -> option Z) (comp : bool) (c : list Z) (p : Z) (ls : list (list Z)) (ht : option dtable)
    (bound : Z) (extra : nat) (r : Z * option dtable * mbuf) : Prop :=
  exists x es mb' ls' j,
    r = (0, add_entries ht es, mb') /\ holds mb' (c ++ x) (zlength (c ++ x)) /\ 0 < zlength x <= bound
    /\ enc (ext g c (c ++ x)) start p ls' j (zlength (c ++ x)) /\ same_labels ls' ls /\ (j <= length ls' + extra)%nat
    /\ (comp = false -> ls' = ls)
    /\ Forall (entry_ok (ext g c (c ++ x)) start) es.

(** Entries that are encoded already, or longer than what is left to encode. *)
Definition usable (g : Z -> option Z) (n : nat) (e : Z * dname) : Prop :=
  entry_ok g start e \/ c_string (dn_name e.2) /\ (n <= length (dn_name e.2))%nat.

(** Writing a pointer to an entry. *)
Lemma pointer_encoded g c mb ht name dn comp :
  holds mb c (zlength c) -> sub g c -> c_string name -> zlength c + 2 < 2 ^ 31 -> comp = true ->
  dname_lookup cs ht name = Some dn -> Forall (usable g (S (length name))) (entries ht) ->
  encoded g comp c (zlength c) (name_labels name) ht 2 1
    (let '(err, mb) := dname_encode_pointer (dn_pos dn) mb in (err, ht, mb)).
Proof.
  intros Hh Hsub Hn Hl -> Hlk Hus. rewrite Forall_forall in Hus.
  destruct (lookup_found ht name dn Hlk Hn) as (e & He & <- & Hlow).
  { intros e He. destruct (Hus e He) as [(_ & ? & _)|[? _]]; done. }
  assert (Hok : entry_ok g start e).
  { destruct (Hus e He) as [|[_ Hlen]]; [done|]. apply (f_equal length) in Hlow. unfold lower in Hlow.
    rewrite !length_map in Hlow. lia. }
  destruct Hok as (Hpos & Hcs & ls & j & q & Henc & Hsame & Hj).
  destruct (pointer_bytes (dn_pos e.2) Hpos) as (b0 & b1 & Hb & H0 & Hland).
  unfold dname_encode_pointer, write_be16, mbuf_write_u16. rewrite host_bytes_htons, Hb.
  destruct (holds_append mb c [b0; b1] Hh) as (mb' & -> & Hh'); [rewrite <- Hb; auto with relib|done|zlen|].
  exists [b0; b1], [], mb', ls, (S j). rewrite add_entries_nil. split; [done|]. split; [done|]. split; [zlen|].
  split; [|split; [|split; [lia|split; [done|constructor]]]].
  - rewrite zlength_app. change (zlength [b0; b1]) with 2. pose proof (ext_byte g c [] b0 [b1]) as E0.
    pose proof (ext_byte g c [b0] b1 []) as E1. change (zlength [b0]) with 1 in E1. change (zlength (@nil Z)) with 0 in E0.
    rewrite Z.add_0_r in E0. eapply enc_pointer; [done|done|done|].
    rewrite Hland, Z.add_comm. eapply enc_mono; [|done]. intros p b Hp. by apply ext_old.
  - unfold same_labels in *. by rewrite Hsame, !lower_name_labels, Hlow.
Qed.

(** A new entry for the name whose encoding starts at [p]. *)
Definition entry_for (p : Z) (name : list Z) (es : list (Z * dname)) : Prop :=
  es = [] \/ exists k, es = [(k, Dname (p - start) name)] /\ 0 <= p - start <= OFFSET_MASK /\ c_string name.

Lemma entry_for_ok g p name es ls j q :
  entry_for p name es -> enc g start p ls j q -> same_labels ls (name_labels name) -> (j <= length ls)%nat ->
  Forall (entry_ok g start) es.
Proof.
  intros [->|(k & -> & Hp & Hn)] He Hs Hj; constructor; [|constructor]. split; [done|]. split; [done|].
  exists ls, j, q. cbn [snd dn_pos dn_name]. by replace (start + (p - start)) with p by lia.
Qed.

(** A label in front of an encoded name. *)
Lemma label_encoded g comp c l ls ht es0 name bound extra r :
  let c1 := c ++ zlength l :: l in
  sub g c -> label_ok l -> (extra <= 1)%nat -> entry_for (zlength c1) name es0 -> (extra <> 0%nat -> es0 = []) ->
  (es0 <> [] -> ls = name_labels name) ->
  encoded (ext g c c1) comp c1 (zlength c1) ls (add_entries ht es0) bound extra r ->
  encoded g comp c (zlength c) (l :: ls) ht (1 + zlength l + bound) 0 r.
Proof.
  intros c1 Hsub Hl Hex Hfor Hx0 Hls (x & es & mb' & ls' & j & -> & Hh & Hx & He & Hs & Hj & Hc & Hes).
  set (g1 := ext (ext g c c1) c1 (c1 ++ x)) in *. set (X := (zlength l :: l) ++ x).
  assert (EX : c1 ++ x = c ++ X) by (unfold c1, X; by rewrite <- app_assoc).
  assert (Hmono : forall p b, g1 p = Some b -> ext g c (c ++ X) p = Some b) by (intros p b; apply ext_ext).
  rewrite EX in *. assert (Hcl : zlength c1 = zlength c + 1 + zlength l) by (unfold c1; zlen).
  exists X, (es0 ++ es), mb', (l :: ls'), j. split; [by rewrite add_entries_app|]. split; [done|]. pose proof (zlength_nonneg l).
  split; [unfold X; zlen|]. split; [|split; [|split; [cbn; lia|split]]].
  - eapply enc_label; [|done| |].
    + pose proof (ext_byte g c [] (zlength l) (l ++ x)) as E. change (zlength (@nil Z)) with 0 in E. by rewrite Z.add_0_r in E.
    + apply (ext_seg g c [zlength l] l x).
    + rewrite <- Hcl. by eapply enc_mono.
  - unfold same_labels in *. cbn. by rewrite Hs.
  - intros ->. by rewrite Hc.
  - apply Forall_app. split; [|by eapply Forall_impl; [|intros e; apply entry_ok_mono]].
    destruct (decide (es0 = [])) as [->|Hne]; [constructor|]. eapply entry_for_ok; [done|by eapply enc_mono| |].
    + by rewrite <- Hls.
    + destruct extra; [lia|]. by rewrite Hx0 in Hne.
Qed.

Lemma usable_mono g g' n n' e :
  (forall p b, g p = Some b -> g' p = Some b) -> (n' <= n)%nat -> usable g n e -> usable g' n' e.
Proof. intros Hg Hn [He|[Hc He]]; [left; by eapply entry_ok_mono|right; split; [done|lia]]. Qed.

(** A new entry is appended unless the name is known. *)
Lemma append_for ht (dn : option dname) name p :
  c_string name -> start <= p < 2 ^ 63 ->
  exists es, (if dn is Some _ then ht else dname_append cs ht name (u64 (p - start))) = add_entries ht es
  /\ entry_for p name es /\ (forall e, e ∈ es -> dn_name e.2 = name).
Proof.
  intros Hn Hp. rewrite wrap_small by lia. destruct dn as [dn|].
  - exists []. rewrite add_entries_nil. split; [done|]. split; [by left|]. intros e He. by apply not_elem_of_nil in He.
  - destruct (append_cases ht name (p - start)) as (es & -> & Hes); [lia|]. exists es. split; [done|].
    destruct Hes as [->|(-> & Hm & _)]; [split; [by left|intros e He; by apply not_elem_of_nil in He]|].
    split; [right; eexists; split; [done|split; [lia|done]]|]. intros e ->%list_elem_of_singleton. done.
Qed.

(** The length of the finished label goes into its first byte. *)
Lemma store_length mb c l :
  holds mb (c ++ 0 :: l) (zlength (c ++ 0 :: l)) -> label_ok l ->
  holds (mb_store mb (zlength c) [u8 (zlength l)]) (c ++ zlength l :: l) (zlength (c ++ zlength l :: l)).
Proof.
  intros Hh Hl. unfold label_ok in Hl. rewrite wrap_small by lia. pose proof (zlength_nonneg c).
  replace (zlength (c ++ zlength l :: l)) with (zlength (c ++ 0 :: l)) by (rewrite !zlength_app, !zlength_cons; done).
  replace (c ++ zlength l :: l) with (zsplice (zlength c) [zlength l] (c ++ 0 :: l)) by (by apply (zsplice_mid c [0])).
  apply holds_store; [done|lia| |apply Forall_singleton; unfold is_byte; lia]. rewrite zlength_app, !zlength_cons, zlength_nil.
  pose proof (zlength_nonneg l). lia.
Qed.

Lemma encoded_le g comp c p ls ht b b' extra r : encoded g comp c p ls ht b extra r -> b <= b' -> encoded g comp c p ls ht b' extra r.
Proof. intros (x & es & mb' & ls' & j & E & Hh & Hx & Hr) Hb. exists x, es, mb', ls', j. split; [done|]. split; [done|]. split; [lia|done]. Qed.

Lemma root_encoded g comp c ht mb bound :
  holds mb (c ++ [0]) (zlength (c ++ [0])) -> 1 <= bound -> encoded g comp c (zlength c) [] ht bound 0 (0, ht, mb).
Proof.
  intros Hh Hb. exists [0], [], mb, [], 0%nat. rewrite add_entries_nil.
  split; [done|]. split; [done|]. split; [done|]. split; [|split; [done|split; [lia|split; [done|constructor]]]].
  pose proof (ext_byte g c [] 0 []) as E. rewrite zlength_app. change (zlength (@nil Z)) with 0 in E. rewrite Z.add_0_r in E.
  by constructor.
Qed.

Lemma loop_encoded comp name : forall l c g ht mb,
  holds mb (c ++ 0 :: l) (zlength (c ++ 0 :: l)) -> sub g c -> c_string name -> Forall label_ok (dlabels l name) ->
  start <= zlength c -> zlength c + zlength l + zlength name + 3 < 2 ^ 31 -> Forall (usable g (length name)) (entries ht) ->
  encoded g comp c (zlength c) (dlabels l name) ht (zlength l + zlength name + 2) 0
    (dname_encode_loop cs start comp name (zlength c) ht mb).
Proof.
  induction name as [|ch name IH]; intros l c g ht mb Hh Hsub Hn Hok Hst Hlen Hus; cbn [dname_encode_loop];
    pose proof (zlength_nonneg c); pose proof (zlength_nonneg l);
    (replace (u64 (mb_pos mb - zlength c - 1)) with (zlength l)
      by (rewrite (holds_pos _ _ _ Hh), zlength_app, zlength_cons, wrap_small; unfold zlength in *; lia)).
  - change (zlength (@nil Z)) with 0 in Hlen. case_test.
    + assert (l = []) as -> by (by apply nil_length_inv, Nat2Z.inj). apply root_encoded; [done|zlen].
    + assert (Hl : label_ok l) by (cbn [dlabels] in Hok; case_bool_decide; [by subst|by inversion Hok]).
      destruct (write_u8_ok _ _ 0 (store_length _ _ _ Hh Hl)) as (mb' & -> & Hh'); [done|rewrite zlength_app, zlength_cons; lia|].
      cbn [dlabels]. rewrite bool_decide_false by (by intros ->).
      replace (zlength l + zlength [] + 2) with (1 + zlength l + 1) by zlen.
      eapply (label_encoded g comp c l [] ht [] [] 1 0); try done; [lia|by left|]. rewrite add_entries_nil. by apply root_encoded.
  - inversion Hn as [|? ? Hch Hn']; subst. rewrite zlength_cons in *. destruct (Z.eqb_spec ch DOT) as [->|Hd].
    + destruct (dlabels_valid l name Hok) as (Hnd & Hl & Hok'). pose proof (store_length _ _ _ Hh Hl) as Hh1.
      set (c1 := c ++ zlength l :: l) in *. set (mb1 := mb_store _ _ _) in *. cbn [dlabels]. rewrite Z.eqb_refl.
      assert (Hc1 : zlength c1 = zlength c + 1 + zlength l) by (unfold c1; zlen).
      assert (Hnl : dlabels [] name = name_labels name) by (unfold name_labels; by rewrite bool_decide_false).
      assert (l <> []) by (intros ->; destruct Hl as [Hl _]; done).
      rewrite (proj2 (Z.eqb_neq (zlength l) 0)) by (unfold label_ok in Hl; lia).
      assert (Hus1 : Forall (usable (ext g c c1) (S (length name))) (entries ht)).
      { eapply Forall_impl; [exact Hus|]. intros e He. eapply usable_mono; [|done|done]. intros p b. by apply ext_old. }
      rewrite (holds_pos _ _ _ Hh1). pose proof (zlength_nonneg name). destruct (append_for ht (dname_lookup cs ht name) name (zlength c1) Hn' ltac:(lia)) as (es & Ees & Hfor & Hes).
      assert (Hrec : encoded g comp c (zlength c) (l :: dlabels [] name) ht (zlength l + (1 + zlength name) + 2) 0
        (let '(err, mb) := mbuf_write_u8 0 mb1 in
         if err =? 0 then dname_encode_loop cs start comp name (zlength c1) (add_entries ht es) mb else (err, add_entries ht es, mb))).
      { destruct (write_u8_ok mb1 c1 0 Hh1) as (mb2 & -> & Hh2); [done|lia|]. cbn [Z.eqb].
        replace (zlength l + (1 + zlength name) + 2) with (1 + zlength l + (zlength (@nil Z) + zlength name + 2)) by (change (zlength (@nil Z)) with 0; lia).
        apply (label_encoded g comp c l _ ht es name _ 0); try done; [lia|].
        apply IH; try done; [by apply ext_sub|unfold c1 in *; lia|change (zlength (@nil Z)) with 0; lia|].
        apply Forall_forall. intros e [He|He]%add_entries_elem.
        - rewrite Forall_forall in Hus1. apply (usable_mono (ext g c c1) _ (S (length name))); [done|lia|by apply Hus1].
        - right. rewrite (Hes e He). split; [done|lia]. }
      destruct (dname_lookup cs ht name) as [dn|] eqn:Elk; [destruct comp|]; [|by rewrite <- Ees in Hrec|by rewrite <- Ees in Hrec].
      eapply encoded_le; [apply (label_encoded g true c l _ ht [] name 2 1); try done; [by left|]|lia].
      rewrite add_entries_nil, Hnl. apply pointer_encoded; try done; [by apply ext_sub|fold c1; lia].
    + cbn [dlabels] in *. rewrite (proj2 (Z.eqb_neq ch DOT)) in * by done.
      pose proof (zlength_nonneg name). destruct (write_u8_ok mb (c ++ 0 :: l) ch Hh) as (mb' & -> & Hh'); [unfold is_byte; lia|zlen|]. cbn [Z.eqb].
      replace (zlength l + (1 + zlength name) + 2) with (zlength (l ++ [ch]) + zlength name + 2) by zlen.
      apply IH; try done; [by rewrite <- app_assoc in Hh'|zlen|].
      eapply Forall_impl; [exact Hus|]. intros e. apply usable_mono; [done|cbn; lia].
Qed.

Lemma dname_encoded g comp c name ht mb :
  holds mb c (zlength c) -> sub g c -> valid_name name -> start <= zlength c -> zlength c + zlength name + 3 < 2 ^ 31 ->
  Forall (entry_ok g start) (entries ht) ->
  encoded g comp c (zlength c) (name_labels name) ht (zlength name + 2) 1 (dns_dname_encode cs mb (Some name) ht start comp).
Proof.
  intros Hh Hsub [Hn Hv] Hst Hlen Hes. pose proof (zlength_nonneg c). pose proof (zlength_nonneg name). cbn [dns_dname_encode].
  assert (Hus : forall n, Forall (usable g n) (entries ht)) by (intros; eapply Forall_impl; [exact Hes|]; by left).
  rewrite (holds_pos _ _ _ Hh).
  destruct (append_for ht (dname_lookup cs ht name) name (zlength c) Hn ltac:(lia)) as (es & Ees & Hfor & Hnm).
  assert (Hrec : encoded g comp c (zlength c) (name_labels name) ht (zlength name + 2) 1
    (let '(err, mb) := mbuf_write_u8 0 mb in
     if bool_decide (name = [DOT]) then (err, add_entries ht es, mb)
     else if err =? 0 then dname_encode_loop cs start comp name (zlength c) (add_entries ht es) mb else (err, add_entries ht es, mb))).
  { destruct (write_u8_ok mb c 0 Hh) as (mb1 & -> & Hh1); [done|lia|]. cbn [Z.eqb].
    assert (Hone : encoded g comp c (zlength c) (name_labels name) (add_entries ht es) (zlength name + 2) 0
      (if bool_decide (name = [DOT]) then (0, add_entries ht es, mb1)
       else dname_encode_loop cs start comp name (zlength c) (add_entries ht es) mb1)).
    { unfold name_labels in Hv |- *. case_bool_decide; [apply root_encoded; [done|lia]|].
      replace (zlength name + 2) with (zlength (@nil Z) + zlength name + 2) by (change (zlength (@nil Z)) with 0; lia).
      apply loop_encoded; try done; [change (zlength (@nil Z)) with 0; lia|].
      apply Forall_forall. intros e [He|He]%add_entries_elem; [by apply (proj1 (Forall_forall _ _) (Hus _))|].
      right. by rewrite (Hnm e He). }
    destruct Hone as (x & es1 & mb' & ls & j & E & Hh' & Hx & He & Hs & Hj & Hc & Hes1).
    exists x, (es ++ es1), mb', ls, j. rewrite <- add_entries_app. split; [done|]. split; [done|]. split; [done|].
    split; [done|]. split; [done|]. split; [lia|]. split; [done|]. apply Forall_app. split; [|done].
    eapply entry_for_ok; try done. lia. }
  destruct (dname_lookup cs ht name) as [dn|] eqn:Elk; [destruct comp|]; [|by rewrite <- Ees in Hrec|by rewrite <- Ees in Hrec].
  eapply encoded_le; [apply pointer_encoded; try done; lia|lia].
Qed.
End Encoding.

(** ** The text of a name *)

Definition strip_dot (s : list Z) : list Z := if bool_decide (last s = Some DOT) then removelast s else s.

Lemma until_nul_app s : Forall (fun b => b <> 0) s -> until_nul (s ++ [0]) = s.
Proof. induction 1 as [|b s Hb _ IH]; [done|]. cbn. by rewrite (proj2 (Z.eqb_neq b 0)), IH. Qed.

Lemma lower_add_label buf l : lower (add_label buf l) = add_label (lower buf) (lower l).
Proof. unfold add_label, lower, zlength. rewrite length_map. case_test; by rewrite map_app. Qed.

Lemma lower_text ls : forall buf, lower (dname_text buf ls) = dname_text (lower buf) (map lower ls).
Proof. induction ls as [|l ls IH]; intros buf; [done|]. cbn. rewrite <- lower_add_label. apply IH. Qed.

Lemma same_text ls ls' : same_labels ls ls' -> lower (dname_text [] ls) = lower (dname_text [] ls').
Proof. unfold same_labels. intros E. by rewrite !lower_text, E. Qed.

Lemma add_label_dot buf l : buf <> [] -> add_label buf l = buf ++ DOT :: l.
Proof. intros Hb. unfold add_label. destruct buf; [done|]. rewrite zlength_cons. pose proof (zlength_nonneg buf). case_test; [done|lia]. Qed.

Lemma strip_dot_snoc s c : strip_dot (s ++ [c]) = if c =? DOT then s else s ++ [c].
Proof.
  unfold strip_dot. rewrite last_snoc, removelast_last. destruct (Z.eqb_spec c DOT) as [->|Hc].
  - by rewrite bool_decide_true.
  - rewrite bool_decide_false; [done|]. congruence.
Qed.

Lemma strip_dot_label buf l : DOT ∉ l -> l <> [] -> strip_dot (buf ++ l) = buf ++ l.
Proof.
  intros Hd Hl. destruct (exists_last Hl) as (l' & c & ->). rewrite app_assoc, strip_dot_snoc.
  rewrite (proj2 (Z.eqb_neq c DOT)); [done|]. intros ->. apply Hd, elem_of_app. right. by apply list_elem_of_singleton.
Qed.

Lemma text_dlabels s : forall buf l, buf <> [] -> DOT ∉ l -> dname_text buf (dlabels l s) = strip_dot (buf ++ DOT :: l ++ s).
Proof.
  induction s as [|c s IH]; intros buf l Hb Hd; cbn [dlabels].
  - rewrite app_nil_r. case_bool_decide as Hl.
    + subst. by rewrite strip_dot_snoc.
    + cbn. rewrite add_label_dot by done. pose proof (strip_dot_label (buf ++ [DOT]) l Hd Hl) as E. rewrite <- !app_assoc in E. by symmetry.
  - destruct (Z.eqb_spec c DOT) as [->|Hc].
    + cbn [dname_text foldl]. fold (dname_text (add_label buf l) (dlabels [] s)). rewrite add_label_dot by done.
      rewrite IH; [|by destruct buf|apply not_elem_of_nil]. by rewrite <- app_assoc.
    + rewrite IH; [by rewrite <- app_assoc|done|]. rewrite elem_of_app, list_elem_of_singleton. naive_solver.
Qed.

Lemma text_labels s : forall l, Forall label_ok (dlabels l s) -> DOT ∉ l -> dname_text [] (dlabels l s) = strip_dot (l ++ s).
Proof.
  induction s as [|c s IH]; intros l Hok Hd; cbn [dlabels] in *.
  - rewrite app_nil_r. case_bool_decide as Hl; [by subst|]. exact (eq_sym (strip_dot_label [] l Hd Hl)).
  - destruct (Z.eqb_spec c DOT) as [->|Hc].
    + inversion Hok as [|? ? [Hl _] _]. cbn [dname_text foldl]. change (add_label [] l) with l.
      apply (text_dlabels s l []); [by intros ->|apply not_elem_of_nil].
    + rewrite IH; [by rewrite <- app_assoc|done|]. rewrite elem_of_app, list_elem_of_singleton. naive_solver.
Qed.

(** The labels of a valid name spell the name, without a trailing dot. *)
Lemma text_name s : valid_name s -> dname_text [] (name_labels s) = strip_dot s.
Proof.
  unfold valid_name, name_labels. intros [_ Hok]. case_bool_decide as Hs; [by subst|]. apply (text_labels s []); [done|apply not_elem_of_nil].
Qed.

Lemma strip_dot_length s : zlength (strip_dot s) <= zlength s.
Proof.
  destruct (decide (s = [])) as [->|Hs]; [done|]. destruct (exists_last Hs) as (s' & c & ->). rewrite strip_dot_snoc. case_test; zlen.
Qed.

Lemma strip_dot_forall P s : Forall P s -> Forall P (strip_dot s).
Proof.
  intros HP. destruct (decide (s = [])) as [->|Hs]; [done|]. destruct (exists_last Hs) as (s' & c & ->).
  rewrite strip_dot_snoc. apply Forall_app in HP as [H1 H2]. case_test; [done|]. by apply Forall_app.
Qed.

Lemma lower_nonzero s s' : lower s = lower s' -> c_string s' -> Forall (fun b => b <> 0) s.
Proof.
  revert s'. induction s as [|c s IH]; intros [|c' s'] E Hc; try done. injection E as E1 E2. inversion Hc; subst.
  constructor; [|by eapply IH]. pose proof (tolower_pos c' ltac:(lia)). intros ->. cbn in E1. lia.
Qed.

(** ** Reading names back *)

Lemma text_count ls : forall buf, Forall (fun l => 1 <= zlength l) ls ->
  zlength buf + Z.of_nat (length ls) <= zlength (dname_text buf ls).
Proof.
  induction ls as [|l ls IH]; intros buf Hl; cbn [length]; [cbn; lia|]. inversion Hl as [|? ? H1 H2]; subst.
  specialize (IH (add_label buf l) H2). cbn [dname_text foldl]. unfold dname_text in IH. rewrite add_label_length in IH.
  case_test_in IH; lia.
Qed.

Lemma enc_labels g start p ls j q : enc g start p ls j q -> Forall (fun l => 1 <= zlength l) ls.
Proof. induction 1; [done| |done]. constructor; [lia|done]. Qed.

Lemma lower_length s s' : lower s = lower s' -> zlength s = zlength s'.
Proof. unfold lower, zlength. intros E%(f_equal length). rewrite !length_map in E. lia. Qed.

(** [p] holds an encoding of the name. *)
Definition name_in (start : Z) (exact : bool) (name : list Z) (g : Z -> option Z) (p q : Z) : Prop :=
  exists ls j, enc g start p ls j q /\ same_labels ls (name_labels name) /\ (j <= length ls + 1)%nat
    /\ (exact = true -> ls = name_labels name).
Definition name_at (c : list Z) (start p : Z) (exact : bool) (name : list Z) (q : Z) : Prop :=
  name_in start exact name (view c) p q.

Lemma name_at_app c d start p x name q : name_at c start p x name q -> name_at (c ++ d) start p x name q.
Proof. intros (ls & j & He & Hr). exists ls, j. split; [|done]. eapply enc_mono; [|done]. intros. by apply view_app. Qed.

(** The decoded name is the encoded one, up to case when it was compressed. *)
Definition name_back (exact : bool) (name n : list Z) : Prop :=
  lower n = lower (strip_dot name) /\ (exact = true -> n = strip_dot name).

Section ReadBack.
Context `{H : Host} (Ham : ample_memory) (start : Z) (Hstart : 0 <= start < 2 ^ 62).

Lemma mem_alloc_ample n : 0 <= n <= MEM_SIZE_MAX -> is_Some (mem_alloc n).
Proof. intros Hn. unfold mem_alloc. rewrite Z.gtb_ltb, (proj2 (Z.ltb_ge _ _)) by lia. by apply Ham. Qed.

Lemma dns_decode_enc mb c p0 p ls j q :
  holds mb c p0 -> enc (view c) start p ls j q -> fits [] ls -> (j <= 256)%nat ->
  dns_dname_decode (mbuf_set_pos mb p) start = Some (0, Some (until_nul (dname_text [] ls ++ [0])), mbuf_set_pos mb q)
  /\ zlength (dname_text [] ls) <= 255 /\ p < q <= zlength c.
Proof.
  intros Hh He Hf Hj. pose proof (fits_length [] ls ltac:(done) Hf) as Hl. pose proof (enc_range _ _ _ _ _ _ He).
  pose proof (text_count ls [] (enc_labels _ _ _ _ _ _ He)) as Hc. change (zlength (@nil Z)) with 0 in Hc.
  split; [|split; [done|lia]]. unfold dns_dname_decode.
  rewrite (decode_enc start Hstart mb c p0 p ls j q Hh He); [|done|done|lia|unfold DNAME_FUEL; lia]. unfold decoded.
  pose proof (zlength_nonneg (dname_text [] ls)).
  by destruct (mem_alloc_ample (zlength (dname_text [] ls) + 1)) as [b ->]; [unfold MEM_SIZE_MAX; lia|].
Qed.

Lemma dns_decode_total mb c p0 p :
  holds mb c p0 -> 0 <= p ->
  (exists p', dns_dname_decode (mbuf_set_pos mb p) start = Some (EINVAL, None, mbuf_set_pos mb p'))
  \/ exists ls j q, enc (view c) start p ls j q /\ fits [] ls /\ (j <= 256)%nat.
Proof.
  intros Hh Hp. unfold dns_dname_decode. change (zlength (@nil Z)) with 0.
  destruct (decode_total start Hstart mb c p0 Hh DNAME_FUEL p [] 0 false 0) as [E|(ls & j & q & He & Hf & Hj & _)];
    [done|done|lia|unfold DNAME_FUEL; change (zlength (@nil Z)) with 0; lia|by left|].
  right. exists ls, j, q. split; [done|]. split; [done|lia].
Qed.

Lemma decode_name mb c p0 p x name q :
  holds mb c p0 -> name_at c start p x name q -> valid_name name -> zlength name <= 254 ->
  exists n, dns_dname_decode (mbuf_set_pos mb p) start = Some (0, Some n, mbuf_set_pos mb q) /\ name_back x name n.
Proof.
  intros Hh (ls & j & He & Hs & Hj & Hx) Hv Hlen. pose proof (same_text _ _ Hs) as Ht. rewrite text_name in Ht by done.
  pose proof (lower_length _ _ Ht) as Htl. pose proof (strip_dot_length name). pose proof (zlength_nonneg (dname_text [] ls)).
  pose proof (text_count ls [] (enc_labels _ _ _ _ _ _ He)) as Hc. change (zlength (@nil Z)) with 0 in Hc.
  exists (dname_text [] ls). split; [|split; [done|]].
  - destruct (dns_decode_enc mb c p0 p ls j q Hh He) as [-> _]; [by apply fits_text; lia|lia|].
    rewrite until_nul_app; [done|]. eapply lower_nonzero; [exact Ht|]. apply strip_dot_forall, Hv.
  - intros ->. rewrite Hx by done. by apply text_name.
Qed.

(** On any bytes dns_dname_decode ends after at most 512 labels and pointers,
    reads and stores within bounds, and accepts exactly the encodings whose
    name fits its array and that go through at most 256 pointers; the result
    is the text of the labels up to an embedded NUL, at most 255 characters,
    and the position is behind the encoding. *)
Theorem dns_dname_decode_exact mb c p :
  holds mb c p ->
  exists err name p', dns_dname_decode mb start = Some (err, name, mbuf_set_pos mb p')
    /\ (err = 0 <-> exists ls j q, enc (view c) start p ls j q /\ fits [] ls /\ (j <= 256)%nat)
    /\ (err <> 0 -> err = EINVAL /\ name = None)
    /\ (forall ls j q, enc (view c) start p ls j q -> fits [] ls -> (j <= 256)%nat ->
        let text := dname_text [] ls in
        name = Some (until_nul (text ++ [0])) /\ zlength text <= 255 /\ p' = q /\ p < p' <= zlength c).
Proof.
  intros Hh. pose proof (holds_range _ _ _ Hh) as Hp.
  assert (Emb : mb = mbuf_set_pos mb p) by (destruct mb; rewrite <- (holds_pos _ _ _ Hh); done).
  pose proof (fun ls j q => dns_decode_enc mb c p p ls j q Hh) as Hgo. rewrite <- Emb in Hgo.
  destruct (dns_decode_total mb c p p Hh ltac:(lia)) as [[p' E]|(ls & j & q & He & Hf & Hj)].
  - exists EINVAL, None, p'. rewrite <- Emb in E. split; [done|].
    assert (Hno : forall ls j q, enc (view c) start p ls j q -> fits [] ls -> (j <= 256)%nat -> False).
    { intros ls j q He Hf Hj. destruct (Hgo ls j q He Hf Hj) as [E' _]. rewrite E in E'. discriminate. }
    split; [split; [done|]|split; [done|]].
    + intros (ls & j & q & He & Hf & Hj). by destruct (Hno ls j q).
    + intros ls j q He Hf Hj. by destruct (Hno ls j q).
  - destruct (Hgo ls j q He Hf Hj) as (E & Hl & Hq). eexists 0, _, q. split; [exact E|]. split; [|split; [done|]].
    + split; [|done]. intros _. by exists ls, j, q.
    + intros ls' j' q' He' Hf' Hj'. destruct (Hgo ls' j' q' He' Hf' Hj') as (E' & Hl' & Hq'). rewrite E in E'.
      injection E' as E1 E2. cbn zeta. rewrite E1. by subst q'.
Qed.
End ReadBack.

(** ** Messages with many names *)

(** Names and other data, in the order they are written. *)
Inductive nop := NName (name : list Z) (comp : bool) | NData (d : list Z).

Section Messages.
Context `{H : Host} (Ham : ample_memory) (cs : bool) (start : Z) (Hstart : 0 <= start < 2 ^ 62).

(** The error, where each name was written, the table and the buffer. *)
Fixpoint nrun (ops : list nop) (ht : option dtable) (mb : mbuf) : Z * list (Z * list Z * bool) * option dtable * mbuf :=
  match ops with
  | [] => (0, [], ht, mb)
  | NName name comp :: ops =>
      let '(err, ht1, mb1) := dns_dname_encode cs mb (Some name) ht start comp in
      if err =? 0 then
        let '(err, l, ht2, mb2) := nrun ops ht1 mb1 in (err, (mb_pos mb, name, comp) :: l, ht2, mb2)
      else (err, [], ht1, mb1)
  | NData d :: ops =>
      let '(err, mb1) := mbuf_write_mem mb d in
      if err =? 0 then nrun ops ht mb1 else (err, [], ht, mb1)
  end.

Definition nop_ok (op : nop) : Prop :=
  match op with NName name _ => valid_name name /\ zlength name <= 254 | NData d => bytes d end.
Definition nop_size (op : nop) : Z := match op with NName name _ => zlength name + 3 | NData d => zlength d end.
Definition nops_size (ops : list nop) : Z := foldr (fun op n => nop_size op + n) 0 ops.
Definition nop_name (op : nop) : option (list Z * bool) := match op with NName name comp => Some (name, comp) | NData _ => None end.

Lemma nops_size_nonneg ops : 0 <= nops_size ops.
Proof. unfold nops_size. induction ops as [|[name comp|d] ops IH]; cbn [foldr nop_size]; [done| |]; [pose proof (zlength_nonneg name)|pose proof (zlength_nonneg d)]; lia. Qed.

(** A message with its table: every entry points at its name. *)
Definition table_ok (c : list Z) (ht : option dtable) : Prop := Forall (entry_ok (view c) start) (entries ht).

Lemma table_ok_app c d ht : table_ok c ht -> table_ok (c ++ d) ht.
Proof. intros Ht. eapply Forall_impl; [exact Ht|]. intros e. apply entry_ok_mono. intros. by apply view_app. Qed.

Lemma view_ext c x p b : ext (view c) c (c ++ x) p = Some b -> view (c ++ x) p = Some b.
Proof. unfold ext. case_test; [done|]. apply view_app. Qed.

(** One name: it is encoded where it was written and the table stays right. *)
Lemma encode_name mb c ht name comp :
  holds mb c (zlength c) -> table_ok c ht -> valid_name name -> start <= zlength c -> zlength c + zlength name + 3 < 2 ^ 31 ->
  exists x ht' mb', dns_dname_encode cs mb (Some name) ht start comp = (0, ht', mb')
    /\ holds mb' (c ++ x) (zlength (c ++ x)) /\ 0 < zlength x <= zlength name + 2 /\ table_ok (c ++ x) ht'
    /\ name_at (c ++ x) start (zlength c) (negb comp) name (zlength (c ++ x)).
Proof.
  intros Hh Ht Hv Hst Hlen.
  destruct (dname_encoded Ham cs start ltac:(lia) (view c) comp c name ht mb) as
    (x & es & mb' & ls & j & E & Hh' & Hx & He & Hs & Hj & Hc & Hes); try done; [by intros p b|].
  exists x, (add_entries ht es), mb'. split; [done|]. split; [done|]. split; [done|]. split.
  - apply Forall_forall. intros e [Hin|Hin]%add_entries_elem.
    + by apply (proj1 (Forall_forall _ _) (table_ok_app c x ht Ht)).
    + eapply entry_ok_mono; [apply view_ext|by apply (proj1 (Forall_forall _ _) Hes)].
  - exists ls, j. split; [eapply enc_mono; [apply view_ext|done]|]. split; [done|]. split; [done|]. destruct comp; [done|]. auto.
Qed.

Lemma nrun_ok ops : forall mb c ht,
  holds mb c (zlength c) -> table_ok c ht -> Forall nop_ok ops -> start <= zlength c -> zlength c + nops_size ops < 2 ^ 31 ->
  exists l ht' mb' x, nrun ops ht mb = (0, l, ht', mb') /\ holds mb' (c ++ x) (zlength (c ++ x)) /\ table_ok (c ++ x) ht'
    /\ map (fun r => (r.1.2, r.2)) l = omap nop_name ops
    /\ Forall (fun r => exists q, name_at (c ++ x) start r.1.1 (negb r.2) r.1.2 q) l.
Proof.
  induction ops as [|op ops IH]; intros mb c ht Hh Ht Hok Hst Hlen.
  - exists [], ht, mb, []. rewrite app_nil_r. by split_and!.
  - inversion Hok as [|? ? Hop Hops]; subst. cbn [nops_size foldr] in Hlen. fold (nops_size ops) in Hlen.
    pose proof (nops_size_nonneg ops). pose proof (zlength_nonneg c). destruct op as [name comp|d]; cbn [nrun nop_ok nop_size] in *.
    + destruct Hop as [Hv Hn]. destruct (encode_name mb c ht name comp) as (x & ht1 & mb1 & -> & Hh1 & Hx & Ht1 & Hat); try done; [lia|].
      cbn [Z.eqb]. destruct (IH mb1 (c ++ x) ht1) as (l & ht' & mb' & y & -> & Hh' & Ht' & Hm & Hl); try done; [zlen|rewrite zlength_app; lia|].
      exists ((mb_pos mb, name, comp) :: l), ht', mb', (x ++ y). rewrite app_assoc. split; [done|]. split; [done|]. split; [done|].
      split; [cbn; by rewrite Hm|]. constructor; [|done]. cbn. rewrite (holds_pos _ _ _ Hh). eexists. by apply name_at_app.
    + destruct (holds_append mb c d Hh Hop Ham ltac:(lia)) as (mb1 & -> & Hh1). cbn [Z.eqb]. pose proof (zlength_nonneg d).
      destruct (IH mb1 (c ++ d) ht) as (l & ht' & mb' & y & -> & Hh' & Ht' & Hm & Hl); try done;
        [by apply table_ok_app|zlen|rewrite zlength_app; lia|].
      exists l, ht', mb', (d ++ y). rewrite app_assoc. by split_and!.
Qed.

(** Names written into one message with one table, in any order, each
    compressed or not, and between any other data, are all read back: the
    decoder returns the name at the position where it was written, without a
    trailing dot, in its own case if it was not compressed. *)
Theorem dns_dname_roundtrip ops mb c ht :
  holds mb c (zlength c) -> entries ht = [] -> Forall nop_ok ops -> start <= zlength c -> zlength c + nops_size ops < 2 ^ 31 ->
  exists l ht' mb', nrun ops ht mb = (0, l, ht', mb') /\ map (fun r => (r.1.2, r.2)) l = omap nop_name ops
    /\ Forall (fun '(p, name, comp) => exists n q,
         dns_dname_decode (mbuf_set_pos mb' p) start = Some (0, Some n, mbuf_set_pos mb' q)
         /\ lower n = lower (strip_dot name) /\ (comp = false -> n = strip_dot name)) l.
Proof.
  intros Hh He Hok Hst Hlen. assert (Ht : table_ok c ht) by (unfold table_ok; rewrite He; constructor).
  destruct (nrun_ok ops mb c ht Hh Ht Hok Hst Hlen) as (l & ht' & mb' & x & E & Hh' & _ & Hm & Hl).
  exists l, ht', mb'. split; [done|]. split; [done|]. apply Forall_forall. intros [[p name] comp] Hin.
  rewrite Forall_forall in Hl. destruct (Hl _ Hin) as [q Hat]. cbn in Hat.
  assert (Hnop : valid_name name /\ zlength name <= 254).
  { assert (Hi : (name, comp) ∈ omap nop_name ops) by (rewrite <- Hm; by apply (list_elem_of_fmap_2 (fun r : Z * list Z * bool => (r.1.2, r.2)) l (p, name, comp))).
    apply list_elem_of_omap in Hi as ([name' comp'|d] & Hi & Hi'); [|done]. injection Hi' as -> ->.
    by apply (proj1 (Forall_forall _ _) Hok (NName name comp)). }
  destruct Hnop as [Hv Hn]. destruct (decode_name Ham start Hstart mb' _ _ p _ name q Hh' Hat Hv Hn) as (n & E' & Hlow & Hx).
  exists n, q. split; [done|]. split; [done|]. intros ->. by apply Hx.
Qed.
End Messages.

(** ** Samples *)

(** The names ab.c, x.AB.C (compressed) and ab.c again. *)
Definition sample_names : list nop :=
  [NName [97; 98; 46; 99] true; NData [1; 2]; NName [120; 46; 65; 66; 46; 67] true; NName [97; 98; 46; 99] false].
Definition sample_msg : mbuf := Mbuf (Some (replicate 8 0)) 8 0 0.

Lemma sample_msg_holds : holds sample_msg [] 0.
Proof. split; [split; unfold MEM_SIZE_MAX; cbn; try lia; repeat constructor; unfold is_byte; lia|done|done]. Qed.

Ltac sample_name :=
  split; [split; [repeat (constructor; [lia|]); constructor|vm_compute; repeat constructor; discriminate]|vm_compute; discriminate].

Lemma sample_names_ok : Forall nop_ok sample_names.
Proof.
  constructor; [sample_name|]. constructor; [repeat (constructor; [unfold is_byte; lia|]); constructor|].
  constructor; [sample_name|]. constructor; [sample_name|]. constructor.
Qed.

Lemma dns_dname_roundtrip_witness :
  exists l ht' mb', nrun (H := lp64_le) false 0 sample_names (Some (Dtable 16 [])) sample_msg = (0, l, ht', mb')
    /\ map (fun r => (r.1.2, r.2)) l = omap nop_name sample_names.
Proof.
  destruct (dns_dname_roundtrip (H := lp64_le) lp64_ample false 0 ltac:(lia) sample_names sample_msg [] (Some (Dtable 16 []))
    sample_msg_holds eq_refl sample_names_ok ltac:(vm_compute; discriminate) ltac:(vm_compute; reflexivity)) as (l & ht' & mb' & E & Hm & _).
  exists l, ht', mb'. split; [exact E|exact Hm].
Defined.

(** A pointer to itself. *)
Definition sample_loop : mbuf := Mbuf (Some [192; 0]) 2 0 2.

Lemma sample_loop_holds : holds sample_loop [192; 0] 0.
Proof. split; [split; unfold MEM_SIZE_MAX; cbn; try lia; repeat constructor; unfold is_byte; lia|done|done]. Qed.

Lemma dns_dname_decode_exact_witness :
  exists err name p', dns_dname_decode (H := lp64_le) sample_loop 0 = Some (err, name, mbuf_set_pos sample_loop p')
    /\ (err <> 0 -> err = EINVAL /\ name = None).
Proof.
  destruct (dns_dname_decode_exact (H := lp64_le) lp64_ample 0 ltac:(lia) sample_loop [192; 0] 0 sample_loop_holds)
    as (err & name & p' & E & _ & He & _).
  exists err, name, p'. split; [exact E|exact He].
Defined.
