(* ===== verification/Dns.v ===== *)
(** * DNS messages: src/src/dns/hdr.c, cstr.c and rr.c

    Headers, character strings and resource records.  The union of
    [struct dnsrr] is [rdata]; [dns_type] is the type that selects its member.
    Encoders thread the table of names (Dname.v) and the buffer; decoders are
    in the monad [D] of Format.v. *)

From Stdlib Require Import ZArith Lia.
From stdpp Require Import base numbers list gmap.
From S2P Require Import Prelude Endian Mbuf MbufView Format Hash Dname.

Open Scope Z_scope.

Definition DNS_HEADER_SIZE : Z := 12.

Definition DNS_TYPE_A : Z := 1.
Definition DNS_TYPE_NS : Z := 2.
Definition DNS_TYPE_CNAME : Z := 5.
Definition DNS_TYPE_SOA : Z := 6.
Definition DNS_TYPE_PTR : Z := 12.
Definition DNS_TYPE_MX : Z := 15.
Definition DNS_TYPE_TXT : Z := 16.
Definition DNS_TYPE_AAAA : Z := 28.
Definition DNS_TYPE_SRV : Z := 33.
Definition DNS_TYPE_NAPTR : Z := 35.

Record dnshdr := Dnshdr {
  h_id : Z; h_qr : bool; h_opcode : Z; h_aa : bool; h_tc : bool; h_rd : bool; h_ra : bool;
  h_z : Z; h_rcode : Z; h_nq : Z; h_nans : Z; h_nauth : Z; h_nadd : Z;
}.

(** Strings are C strings, [None] is NULL. *)
Abbreviation cstr := (option (list Z)).

Inductive rdata :=
| RA (addr : Z)
| RNS (nsdname : cstr)
| RCNAME (cname : cstr)
| RSOA (mname rname : cstr) (serial refresh retry expire ttlmin : Z)
| RPTR (ptrdname : cstr)
| RMX (pref : Z) (exchange : cstr)
| RTXT (data : cstr)
| RAAAA (addr : list Z)
| RSRV (pri weight port : Z) (target : cstr)
| RNAPTR (order pref : Z) (flags services regexp replace : cstr)
| ROther (type : Z).

Definition dns_type (rd : rdata) : Z :=
  match rd with
  | RA _ => DNS_TYPE_A | RNS _ => DNS_TYPE_NS | RCNAME _ => DNS_TYPE_CNAME | RSOA _ _ _ _ _ _ _ => DNS_TYPE_SOA
  | RPTR _ => DNS_TYPE_PTR | RMX _ _ => DNS_TYPE_MX | RTXT _ => DNS_TYPE_TXT | RAAAA _ => DNS_TYPE_AAAA
  | RSRV _ _ _ _ => DNS_TYPE_SRV | RNAPTR _ _ _ _ _ _ => DNS_TYPE_NAPTR | ROther t => t
  end.

Record dnsrr := Dnsrr { rr_name : cstr; rr_class : Z; rr_ttl : Z; rr_rdlen : Z; rr_rdata : rdata }.

(** Writers with the table of names; [f ;+ g] is [err = f; err |= g]. *)
Definition dw : Type := option dtable -> mbuf -> Z * option dtable * mbuf.
Definition dlift (f : mbuf -> Z * mbuf) : dw := fun ht mb => let '(e, mb) := f mb in (e, ht, mb).
Definition dseq (f g : dw) : dw := fun ht mb =>
  let '(e1, ht, mb) := f ht mb in
  let '(e2, ht, mb) := g ht mb in (Z.lor e1 e2, ht, mb).

Declare Scope dns_scope.
Delimit Scope dns_scope with dns.
Notation "f ;+ g" := (dseq f g) (at level 93, right associativity) : dns_scope.
Open Scope dns_scope.

(** ** hdr.c *)

Definition QUERY_RESPONSE : Z := 15.
Definition OPCODE : Z := 11.
Definition AUTH_ANSWER : Z := 10.
Definition TRUNCATED : Z := 9.
Definition RECURSION_DESIRED : Z := 8.
Definition RECURSION_AVAILABLE : Z := 7.
Definition ZERO : Z := 4.

Section Dns.
Context `{H : Host} (char_signed : bool).

Definition hdr_flags (h : dnshdr) : Z :=
  let flags := u16 (Z.shiftl (Z.b2z (h_qr h)) QUERY_RESPONSE) in
  let flags := u16 (Z.lor flags (Z.shiftl (h_opcode h) OPCODE)) in
  let flags := u16 (Z.lor flags (Z.shiftl (Z.b2z (h_aa h)) AUTH_ANSWER)) in
  let flags := u16 (Z.lor flags (Z.shiftl (Z.b2z (h_tc h)) TRUNCATED)) in
  let flags := u16 (Z.lor flags (Z.shiftl (Z.b2z (h_rd h)) RECURSION_DESIRED)) in
  let flags := u16 (Z.lor flags (Z.shiftl (Z.b2z (h_ra h)) RECURSION_AVAILABLE)) in
  let flags := u16 (Z.lor flags (Z.shiftl (h_z h) ZERO)) in
  u16 (Z.lor flags (h_rcode h)).

Definition dns_hdr_encode (hdr : dnshdr) : mbuf -> Z * mbuf :=
  (write_be16 (h_id hdr) ;| write_be16 (hdr_flags hdr) ;| write_be16 (h_nq hdr) ;| write_be16 (h_nans hdr)
    ;| write_be16 (h_nauth hdr) ;| write_be16 (h_nadd hdr))%mbuf.

Definition bit (flags n : Z) : bool := negb (Z.land 1 (Z.shiftr flags n) =? 0).

Definition dns_hdr_decode : D dnshdr :=
  do! _ := dneed DNS_HEADER_SIZE EINVAL in
  do! id := dread read_be16 in
  do! flags := dread read_be16 in
  do! nq := dread read_be16 in
  do! nans := dread read_be16 in
  do! nauth := dread read_be16 in
  do! nadd := dread read_be16 in
  dret (Dnshdr id (bit flags QUERY_RESPONSE) (Z.land 0xf (Z.shiftr flags OPCODE)) (bit flags AUTH_ANSWER)
          (bit flags TRUNCATED) (bit flags RECURSION_DESIRED) (bit flags RECURSION_AVAILABLE)
          (Z.land 0x7 (Z.shiftr flags ZERO)) (Z.land 0xf (Z.shiftr flags 0)) nq nans nauth nadd).

(** ** cstr.c *)

Definition dns_cstr_encode (str : cstr) (mb : mbuf) : Z * mbuf :=
  match str with
  | None => (EINVAL, mb)
  | Some s =>
      let len := u8 (zlength s) in
      (mbuf_write_u8 len ;| (fun mb => mbuf_write_mem mb (ztake len s)))%mbuf mb
  end.

(** [mbuf_strdup] copies the bytes and the string ends at the first NUL. *)
Definition dns_strdup (len : Z) : D (list Z) := fun mb =>
  match mbuf_strdup mb len with
  | (_, Some s, mb) => Some (Ok (until_nul s), mb)
  | (err, None, mb) => Some (Err err, mb)
  end.

Definition dns_cstr_decode : D (list Z) :=
  do! _ := dneed 1 EINVAL in
  do! len := dread mbuf_read_u8 in
  do! _ := dneed len EBADMSG in
  dns_strdup len.

(** ** rr.c *)

(** The loop over the pieces of a text: [min((uint8_t)dlen, 0xff)] characters each. *)
Fixpoint txt_encode (fuel : nat) (ptr : list Z) (dlen err : Z) (mb : mbuf) : option (Z * mbuf) :=
  match fuel with
  | O => None
  | S fuel =>
      let slen := Z.min (u8 dlen) 0xff in
      let '(e1, mb) := mbuf_write_u8 slen mb in
      let '(e2, mb) := mbuf_write_mem mb (ztake slen ptr) in
      let err := Z.lor (Z.lor err e1) e2 in
      let dlen := u64 (dlen - slen) in
      if dlen >? 0 then txt_encode fuel (zdrop slen ptr) dlen err mb else Some (err, mb)
  end.

Definition wname (name : cstr) (start : Z) (comp : bool) : dw := fun ht mb =>
  dns_dname_encode char_signed mb name ht start comp.
Definition w16 (v : Z) : dw := dlift (write_be16 v).
Definition w32 (v : Z) : dw := dlift (write_be32 v).

(** The switch of dns_rr_encode; a type without a case sets [err] to EINVAL. *)
Definition rdata_encode (fuel : nat) (rd : rdata) (start : Z) (err : Z) (ht : option dtable) (mb : mbuf) :
    option (Z * option dtable * mbuf) :=
  let after (w : dw) := let '(e, ht, mb) := w ht mb in Some (Z.lor err e, ht, mb) in
  match rd with
  | RA addr => after (w32 addr)
  | RNS n => after (wname n start true)
  | RCNAME n => after (wname n start true)
  | RSOA mname rname serial refresh retry expire ttlmin =>
      after (wname mname start true ;+ wname rname start true ;+ w32 serial ;+ w32 refresh ;+ w32 retry
             ;+ w32 expire ;+ w32 ttlmin)
  | RPTR n => after (wname n start true)
  | RMX pref n => after (w16 pref ;+ wname n start true)
  | RTXT data =>
      match data with
      | Some s => '(err, mb) ← txt_encode fuel s (zlength s) err mb; Some (err, ht, mb)
      | None =>
          (* a text of length 0 at NULL: the piece is refused *)
          let '(e1, mb) := mbuf_write_u8 0 mb in Some (Z.lor (Z.lor err e1) EINVAL, ht, mb)
      end
  | RAAAA addr => after (dlift (fun mb => mbuf_write_mem mb addr))
  | RSRV pri weight port target => after (w16 pri ;+ w16 weight ;+ w16 port ;+ wname target start false)
  | RNAPTR order pref flags services regexp replace =>
      after (w16 order ;+ w16 pref ;+ dlift (dns_cstr_encode flags) ;+ dlift (dns_cstr_encode services)
             ;+ dlift (dns_cstr_encode regexp) ;+ wname replace start false)
  | ROther _ => Some (EINVAL, ht, mb)
  end.

Definition rr_ttl_left (rr : dnsrr) (ttl_offs : Z) : Z :=
  u32 (if rr_ttl rr >? ttl_offs then rr_ttl rr - ttl_offs else 0).

Definition dns_rr_encode (fuel : nat) (rr : dnsrr) (ttl_offs : Z) (start : Z) (ht : option dtable) (mb : mbuf) :
    option (Z * option dtable * mbuf) :=
  let '(err, ht, mb) :=
    (wname (rr_name rr) start true ;+ w16 (dns_type (rr_rdata rr)) ;+ w16 (rr_class rr)
     ;+ w32 (rr_ttl_left rr ttl_offs) ;+ w16 (rr_rdlen rr)) ht mb in
  let start_rdata := mb_pos mb in
  '(err, ht, mb) ← rdata_encode fuel (rr_rdata rr) start err ht mb;
  let len := u64 (mb_pos mb - start_rdata) in
  if len >? 0xffff then Some (EOVERFLOW, ht, mb)
  else
    let mb := mbuf_set_pos mb (start_rdata - 2) in
    let '(e, mb) := write_be16 (u16 len) mb in
    Some (Z.lor err e, ht, mbuf_advance mb len).

Definition read_dname (start : Z) : D (list Z) := fun mb =>
  match dns_dname_decode mb start with
  | Some (_, Some n, mb) => Some (Ok n, mb)
  | Some (err, None, mb) => Some (Err err, mb)
  | None => None
  end.

(** Storing behind the characters read so far, in a block of [cap] bytes. *)
Definition txt_put (cap : Z) (s d : list Z) : D (list Z) := fun mb =>
  if zlength s + zlength d <=? cap then Some (Ok (s ++ d), mb) else None.

Fixpoint txt_decode (fuel : nat) (cap : Z) (s : list Z) (rdlen : Z) : D (list Z) :=
  match fuel with
  | O => fun _ => None
  | S fuel =>
      if rdlen >? 0 then
        do! len := dread mbuf_read_u8 in
        let rdlen := u16 (rdlen - 1) in
        do! _ := dcheck (negb (len >? rdlen)) EINVAL in
        do! d := dread_mem len in
        do! s := txt_put cap s d in
        txt_decode fuel cap s (u16 (rdlen - len))
      else txt_put cap s [0]
  end.

Definition rdata_decode (type rdlen start : Z) : D rdata :=
  if type =? DNS_TYPE_A then
    do! _ := dcheck (rdlen =? 4) EINVAL in
    do! addr := dread read_be32 in dret (RA addr)
  else if type =? DNS_TYPE_NS then do! n := read_dname start in dret (RNS (Some n))
  else if type =? DNS_TYPE_CNAME then do! n := read_dname start in dret (RCNAME (Some n))
  else if type =? DNS_TYPE_SOA then
    do! m := read_dname start in
    do! r := read_dname start in
    do! _ := dneed 20 EINVAL in
    do! serial := dread read_be32 in
    do! refresh := dread read_be32 in
    do! retry := dread read_be32 in
    do! expire := dread read_be32 in
    do! ttlmin := dread read_be32 in
    dret (RSOA (Some m) (Some r) serial refresh retry expire ttlmin)
  else if type =? DNS_TYPE_PTR then do! n := read_dname start in dret (RPTR (Some n))
  else if type =? DNS_TYPE_MX then
    do! _ := dneed 2 EINVAL in
    do! pref := dread read_be16 in
    do! n := read_dname start in dret (RMX pref (Some n))
  else if type =? DNS_TYPE_TXT then
    match mem_alloc (rdlen + 1) with
    | None => dthrow ENOMEM
    | Some _ => do! s := txt_decode (S (Z.to_nat rdlen)) (rdlen + 1) [] rdlen in dret (RTXT (Some (until_nul s)))
    end
  else if type =? DNS_TYPE_AAAA then
    do! _ := dcheck (rdlen =? 16) EINVAL in
    do! addr := dread_mem 16 in dret (RAAAA addr)
  else if type =? DNS_TYPE_SRV then
    do! _ := dneed 6 EINVAL in
    do! pri := dread read_be16 in
    do! weight := dread read_be16 in
    do! port := dread read_be16 in
    do! n := read_dname start in dret (RSRV pri weight port (Some n))
  else if type =? DNS_TYPE_NAPTR then
    do! _ := dneed 4 EINVAL in
    do! order := dread read_be16 in
    do! pref := dread read_be16 in
    do! flags := dns_cstr_decode in
    do! services := dns_cstr_decode in
    do! regexp := dns_cstr_decode in
    do! n := read_dname start in dret (RNAPTR order pref (Some flags) (Some services) (Some regexp) (Some n))
  else fun mb => Some (Ok (ROther type), mbuf_advance mb rdlen).

(** [obj]: mem_zalloc of the record succeeded. *)
Definition dns_rr_decode (obj : bool) (start : Z) : D dnsrr :=
  do! _ := dcheck obj ENOMEM in
  do! name := read_dname start in
  do! _ := dneed 10 EINVAL in
  do! type := dread read_be16 in
  do! class := dread read_be16 in
  do! ttl := dread read_be32 in
  do! rdlen := dread read_be16 in
  do! _ := dneed rdlen EINVAL in
  do! rd := rdata_decode type rdlen start in
  dret (Dnsrr (Some name) class ttl rdlen rd).
End Dns.

Definition str_same (s1 s2 : cstr) : bool := str_casecmp s1 s2 =? 0.

(** [same]: the two pointers are equal. *)
Definition dns_rr_cmp (same : bool) (rr1 rr2 : dnsrr) (rdata : bool) : bool :=
  if same then true
  else if negb (dns_type (rr_rdata rr1) =? dns_type (rr_rdata rr2)) then false
  else if negb (rr_class rr1 =? rr_class rr2) then false
  else if negb (str_same (rr_name rr1) (rr_name rr2)) then false
  else if negb rdata then true
  else
    match rr_rdata rr1, rr_rdata rr2 with
    | RA a1, RA a2 => a1 =? a2
    | RNS n1, RNS n2 => str_same n1 n2
    | RCNAME n1, RCNAME n2 => str_same n1 n2
    | RSOA m1 r1 a1 b1 c1 d1 e1, RSOA m2 r2 a2 b2 c2 d2 e2 =>
        str_same m1 m2 && str_same r1 r2 && (a1 =? a2) && (b1 =? b2) && (c1 =? c2) && (d1 =? d2) && (e1 =? e2)
    | RPTR n1, RPTR n2 => str_same n1 n2
    | RMX p1 n1, RMX p2 n2 => (p1 =? p2) && str_same n1 n2
    | RTXT s1, RTXT s2 => str_same s1 s2
    | RAAAA a1, RAAAA a2 => bool_decide (a1 = a2)
    | RSRV p1 w1 o1 n1, RSRV p2 w2 o2 n2 => (p1 =? p2) && (w1 =? w2) && (o1 =? o2) && str_same n1 n2
    | RNAPTR o1 p1 f1 s1 e1 n1, RNAPTR o2 p2 f2 s2 e2 n2 =>
        (o1 =? o2) && (p1 =? p2) && str_same f1 f2 && str_same s1 s2 && str_same e1 e2 && str_same n1 n2
    | _, _ => false
    end.
