(* ===== verification/DnsSpec.v ===== *)
(** * DNS messages are read back as they were written

    A [format] says where an item lies in the known bytes of a message.
    [wr w n F]: the writer [w] appends an item of format [F] of at most [n]
    bytes and keeps the table of names right; [reads d F P]: the decoder [d]
    reads such an item and returns a value that satisfies [P].  Both compose, so
    that every record encoded by dns_rr_encode is read back by dns_rr_decode. *)

From Stdlib Require Import ZArith Lia.
From stdpp Require Import base numbers list gmap.
From S2P Require Import Prelude Endian Mbuf MbufView Format LinkedList ListSpec Hash Dname DnameSpec Dns.

Open Scope Z_scope.

Lemma name_mono start x name : fmono (name_in start x name).
Proof. intros g g' p q Hg (ls & j & He & Hr). exists ls, j. split; [by eapply enc_mono|done]. Qed.

#[export] Hint Resolve name_mono : format.

Section Writing.
Context `{H : Host} (Ham : ample_memory) (cs : bool) (start : Z) (Hstart : 0 <= start < 2 ^ 62).

Definition wr (w : dw) (n : Z) (F : format) : Prop :=
  0 <= n /\ forall g c ht mb,
  holds mb c (zlength c) -> sub g c -> Forall (entry_ok g start) (entries ht) -> start <= zlength c -> zlength c + n < 2 ^ 31 ->
  exists x ht' mb', w ht mb = (0, ht', mb') /\ holds mb' (c ++ x) (zlength (c ++ x)) /\ zlength x <= n
    /\ Forall (entry_ok (ext g c (c ++ x)) start) (entries ht') /\ F (ext g c (c ++ x)) (zlength c) (zlength (c ++ x)).

Lemma entries_ext g c x ht :
  sub g c -> Forall (entry_ok g start) (entries ht) -> Forall (entry_ok (ext g c (c ++ x)) start) (entries ht).
Proof. intros Hs He. eapply Forall_impl; [exact He|]. intros e. apply entry_ok_mono. intros p b. by apply ext_old. Qed.

Lemma wr_seq w1 w2 n1 n2 F1 F2 :
  fmono F1 -> fmono F2 -> wr w1 n1 F1 -> wr w2 n2 F2 -> wr (w1 ;+ w2) (n1 + n2) (F1 ⨾ F2).
Proof.
  intros Hm1 Hm2 [Hn1 H1] [Hn2 H2]. split; [lia|]. intros g c ht mb Hh Hsub He Hst Hl.
  destruct (H1 g c ht mb) as (x & ht1 & mb1 & E1 & Hh1 & Hx & He1 & HF1); try done; [lia|]. pose proof (zlength_nonneg x).
  destruct (H2 (ext g c (c ++ x)) (c ++ x) ht1 mb1) as (y & ht2 & mb2 & E2 & Hh2 & Hy & He2 & HF2); try done;
    [by apply ext_sub|rewrite zlength_app; lia|rewrite zlength_app; lia|].
  exists (x ++ y), ht2, mb2. unfold dseq. rewrite E1, E2, app_assoc. split; [done|]. split; [done|].
  split; [rewrite zlength_app; lia|].
  assert (Hmono : forall p b, ext (ext g c (c ++ x)) (c ++ x) ((c ++ x) ++ y) p = Some b -> ext g c ((c ++ x) ++ y) p = Some b)
    by (intros p b Hp; rewrite <- app_assoc; by apply ext_ext).
  split; [eapply Forall_impl; [exact He2|]; intros e; by apply entry_ok_mono|].
  exists (zlength (c ++ x)). split; [|by eapply Hm2].
  eapply Hm1; [|exact HF1]. intros p b Hp. apply Hmono, ext_old; [by apply ext_sub|done].
Qed.

Lemma wr_put f l : (forall mb, f mb = mbuf_write_mem mb l) -> bytes l -> wr (dlift f) (zlength l) (raw l).
Proof.
  intros Hf Hl. split; [apply zlength_nonneg|]. intros g c ht mb Hh Hsub He Hst Hlen. destruct (holds_append mb c l Hh Hl Ham Hlen) as (mb' & E & Hh').
  exists l, ht, mb'. unfold dlift. rewrite Hf, E. split; [done|]. split; [done|]. split; [lia|].
  split; [by apply entries_ext|]. split; [|rewrite zlength_app; lia].
  pose proof (ext_seg g c [] l []) as Hs. rewrite app_nil_r in Hs. change (zlength (@nil Z)) with 0 in Hs. by rewrite Z.add_0_r in Hs.
Qed.

Lemma wr_16 v : wr (w16 v) 2 (raw (be_bytes 2 v)).
Proof. apply (wr_put (write_be16 v) (be_bytes 2 v)); [|auto with relib]. intros mb. unfold write_be16, mbuf_write_u16. by rewrite host_bytes_htons. Qed.

Lemma wr_32 v : wr (w32 v) 4 (raw (be_bytes 4 v)).
Proof. apply (wr_put (write_be32 v) (be_bytes 4 v)); [|auto with relib]. intros mb. unfold write_be32, mbuf_write_u32. by rewrite host_bytes_htonl. Qed.

Lemma wr_8 v : is_byte v -> wr (dlift (mbuf_write_u8 v)) 1 (raw [v]).
Proof.
  intros Hv. apply (wr_put (mbuf_write_u8 v) [v]); [|by apply Forall_singleton]. intros mb. unfold mbuf_write_u8.
  by rewrite host_bytes_1, Z.mod_small.
Qed.

Lemma wr_name name comp : valid_name name -> wr (wname cs (Some name) start comp) (zlength name + 3) (name_in start (negb comp) name).
Proof.
  intros Hv. pose proof (zlength_nonneg name). split; [lia|]. intros g c ht mb Hh Hsub He Hst Hl.
  destruct (dname_encoded Ham cs start ltac:(lia) g comp c name ht mb) as
    (x & es & mb' & ls & j & E & Hh' & Hx & Henc & Hs & Hj & Hc & Hes); try done; [lia|].
  exists x, (add_entries ht es), mb'. split; [done|]. split; [done|]. split; [lia|]. split.
  - apply Forall_forall. intros e [Hin|Hin]%add_entries_elem.
    + by apply (proj1 (Forall_forall _ _) (entries_ext g c x ht Hsub He)).
    + by apply (proj1 (Forall_forall _ _) Hes).
  - exists ls, j. split; [done|]. split; [done|]. split; [done|]. destruct comp; [done|]. auto.
Qed.
End Writing.

Section Reading.
Context `{H : Host} (Ham : ample_memory) (start : Z) (Hstart : 0 <= start < 2 ^ 62).

Lemma reads_name x name :
  valid_name name -> zlength name <= 254 -> reads (read_dname start) (name_in start x name) (name_back x name).
Proof.
  intros Hv Hl mb c p0 p q Hh Hp Hn. destruct (decode_name Ham start Hstart mb c p0 p x name q Hh Hn Hv Hl) as (n & E & Hb).
  destruct Hn as (ls & j & He & _). pose proof (enc_range _ _ _ _ _ _ He). split; [lia|]. exists n. unfold read_dname.
  by rewrite E.
Qed.
End Reading.

(** ** Resource records *)

Definition name_ok (n : list Z) : Prop := valid_name n /\ zlength n <= 254.
Definition str_ok (s : list Z) : Prop := c_string s /\ zlength s < 256.

Definition rdata_ok (rd : rdata) : Prop :=
  match rd with
  | RA a => is_u32 a
  | RNS (Some n) | RCNAME (Some n) | RPTR (Some n) => name_ok n
  | RSOA (Some m) (Some r) a b c d e => name_ok m /\ name_ok r /\ is_u32 a /\ is_u32 b /\ is_u32 c /\ is_u32 d /\ is_u32 e
  | RMX p (Some n) => is_u16 p /\ name_ok n
  | RTXT (Some s) => str_ok s
  | RAAAA a => bytes a /\ zlength a = 16
  | RSRV p w o (Some n) => is_u16 p /\ is_u16 w /\ is_u16 o /\ name_ok n
  | RNAPTR o p (Some f) (Some s) (Some e) (Some n) => is_u16 o /\ is_u16 p /\ str_ok f /\ str_ok s /\ str_ok e /\ name_ok n
  | _ => False
  end.

Definition str_fmt (s : list Z) : format := raw [zlength s] ⨾ raw s.

(** The layout of the data; strings that are NULL have none. *)
Definition rdata_fmt (start : Z) (rd : rdata) : format :=
  match rd with
  | RA a => raw (be_bytes 4 a)
  | RNS (Some n) | RCNAME (Some n) | RPTR (Some n) => name_in start false n
  | RSOA (Some m) (Some r) a b c d e =>
      name_in start false m ⨾ name_in start false r ⨾ raw (be_bytes 4 a) ⨾ raw (be_bytes 4 b) ⨾ raw (be_bytes 4 c)
        ⨾ raw (be_bytes 4 d) ⨾ raw (be_bytes 4 e)
  | RMX p (Some n) => raw (be_bytes 2 p) ⨾ name_in start false n
  | RTXT (Some s) => str_fmt s
  | RAAAA a => raw a
  | RSRV p w o (Some n) => raw (be_bytes 2 p) ⨾ raw (be_bytes 2 w) ⨾ raw (be_bytes 2 o) ⨾ name_in start true n
  | RNAPTR o p (Some f) (Some s) (Some e) (Some n) =>
      raw (be_bytes 2 o) ⨾ raw (be_bytes 2 p) ⨾ str_fmt f ⨾ str_fmt s ⨾ str_fmt e ⨾ name_in start true n
  | _ => fun _ _ _ => False
  end.

(** The record that is read back: names without a trailing dot and, where they
    may be compressed, up to case. *)
Definition cname_back (x : bool) (n n' : cstr) : Prop :=
  match n, n' with Some n, Some n' => name_back x n n' | _, _ => False end.

Definition rdata_back (rd rd' : rdata) : Prop :=
  match rd, rd' with
  | RNS n, RNS n' | RCNAME n, RCNAME n' | RPTR n, RPTR n' => cname_back false n n'
  | RSOA m r a b c d e, RSOA m' r' a' b' c' d' e' =>
      cname_back false m m' /\ cname_back false r r' /\ (a, b, c, d, e) = (a', b', c', d', e')
  | RMX p n, RMX p' n' => p = p' /\ cname_back false n n'
  | RSRV p w o n, RSRV p' w' o' n' => (p, w, o) = (p', w', o') /\ cname_back true n n'
  | RNAPTR o p f s e n, RNAPTR o' p' f' s' e' n' => (o, p, f, s, e) = (o', p', f', s', e') /\ cname_back true n n'
  | _, _ => rd = rd'
  end.

Lemma str_fmt_mono s : fmono (str_fmt s).
Proof. unfold str_fmt. auto with format. Qed.
#[export] Hint Resolve str_fmt_mono : format.

Lemma rdata_fmt_mono start rd : fmono (rdata_fmt start rd).
Proof.
  assert (Hf : fmono (fun _ _ _ => False)) by (intros g g' p q _ []).
  destruct rd; cbn [rdata_fmt]; repeat case_match; auto 20 with format.
Qed.

(** ** Headers *)

Definition hdr_ok (h : dnshdr) : Prop :=
  is_u16 (h_id h) /\ 0 <= h_opcode h < 16 /\ 0 <= h_z h < 8 /\ 0 <= h_rcode h < 16
  /\ is_u16 (h_nq h) /\ is_u16 (h_nans h) /\ is_u16 (h_nauth h) /\ is_u16 (h_nadd h).

Definition hdr_fmt (h : dnshdr) : format :=
  raw (be_bytes 2 (h_id h)) ⨾ raw (be_bytes 2 (hdr_flags h)) ⨾ raw (be_bytes 2 (h_nq h)) ⨾ raw (be_bytes 2 (h_nans h))
    ⨾ raw (be_bytes 2 (h_nauth h)) ⨾ raw (be_bytes 2 (h_nadd h)).

(** The flags as a number. *)
Definition flags_sum (h : dnshdr) : Z :=
  Z.b2z (h_qr h) * 2 ^ 15 + h_opcode h * 2 ^ 11 + Z.b2z (h_aa h) * 2 ^ 10 + Z.b2z (h_tc h) * 2 ^ 9 + Z.b2z (h_rd h) * 2 ^ 8
  + Z.b2z (h_ra h) * 2 ^ 7 + h_z h * 2 ^ 4 + h_rcode h.

(** One field is added below those that are there. *)
Lemma add_field x y n k m :
  0 <= n <= k -> k <= 16 -> k = n + m -> 0 <= x < 2 ^ 16 -> x mod 2 ^ k = 0 -> 0 <= y < 2 ^ m ->
  u16 (Z.lor x (Z.shiftl y n)) = x + y * 2 ^ n.
Proof.
  intros Hn Hk Hkm Hx Hm Hy. rewrite Z.shiftl_mul_pow2 by lia. assert (Hy' : 0 <= y * 2 ^ n < 2 ^ k).
  { rewrite Hkm, Z.pow_add_r by lia. assert (0 < 2 ^ n) by (apply Z.pow_pos_nonneg; lia). nia. }
  rewrite (lor_disjoint k) by (done || lia). apply wrap_small. split; [lia|].
  assert (0 < 2 ^ k) by (apply Z.pow_pos_nonneg; lia). pose proof (Z.div_mod x (2 ^ k) ltac:(lia)) as E. rewrite Hm, Z.add_0_r in E.
  assert (E16 : 2 ^ 16 = 2 ^ k * 2 ^ (16 - k)) by (rewrite <- Z.pow_add_r by lia; f_equal; lia).
  assert (x / 2 ^ k < 2 ^ (16 - k)) by nia. rewrite E16, E. nia.
Qed.

Lemma b2z_range b : 0 <= Z.b2z b < 2.
Proof. destruct b; cbn; lia. Qed.

Ltac pow_lia :=
  repeat match goal with |- context [2 ^ ?k] => let v := eval vm_compute in (2 ^ k) in change (2 ^ k) with v end;
  Z.to_euclidean_division_equations; lia.

Lemma hdr_flags_sum h : hdr_ok h -> hdr_flags h = flags_sum h.
Proof.
  intros (_ & Ho & Hz & Hr & _). unfold hdr_flags, flags_sum, QUERY_RESPONSE, OPCODE, AUTH_ANSWER, TRUNCATED, RECURSION_DESIRED, RECURSION_AVAILABLE, ZERO.
  pose proof (b2z_range (h_qr h)). pose proof (b2z_range (h_aa h)). pose proof (b2z_range (h_tc h)). pose proof (b2z_range (h_rd h)).
  pose proof (b2z_range (h_ra h)).
  replace (u16 (Z.shiftl (Z.b2z (h_qr h)) 15)) with (Z.b2z (h_qr h) * 2 ^ 15) by (rewrite Z.shiftl_mul_pow2, wrap_small; lia).
  rewrite (add_field _ (h_opcode h) 11 15 4) by pow_lia. rewrite (add_field _ _ 10 11 1) by pow_lia. rewrite (add_field _ _ 9 10 1) by pow_lia.
  rewrite (add_field _ _ 8 9 1) by pow_lia. rewrite (add_field _ _ 7 8 1) by pow_lia. rewrite (add_field _ _ 4 7 3) by pow_lia.
  rewrite <- (Z.shiftl_0_r (h_rcode h)) at 1. rewrite (add_field _ _ 0 4 4) by pow_lia. lia.
Qed.

(** Taking a field out of the flags. *)
Lemma take_field f n m y : 0 <= n -> 0 <= m -> f / 2 ^ n mod 2 ^ m = y -> Z.land (Z.ones m) (Z.shiftr f n) = y.
Proof. intros Hn Hm <-. rewrite Z.land_comm, Z.land_ones, Z.shiftr_div_pow2 by lia. done. Qed.

Lemma take_bit f n b : 0 <= n -> f / 2 ^ n mod 2 = Z.b2z b -> bit f n = b.
Proof.
  intros Hn E. unfold bit. change 1 with (Z.ones 1). rewrite (take_field f n 1 (Z.b2z b)) by (done || lia). by destruct b.
Qed.

Lemma hdr_back h : hdr_flags h = flags_sum h -> 0 <= h_opcode h < 16 -> 0 <= h_z h < 8 -> 0 <= h_rcode h < 16 ->
  let flags := hdr_flags h in
  Dnshdr (h_id h) (bit flags QUERY_RESPONSE) (Z.land 0xf (Z.shiftr flags OPCODE)) (bit flags AUTH_ANSWER)
    (bit flags TRUNCATED) (bit flags RECURSION_DESIRED) (bit flags RECURSION_AVAILABLE)
    (Z.land 0x7 (Z.shiftr flags ZERO)) (Z.land 0xf (Z.shiftr flags 0)) (h_nq h) (h_nans h) (h_nauth h) (h_nadd h) = h.
Proof.
  intros E Ho Hz Hr flags. unfold flags. rewrite E. unfold flags_sum, QUERY_RESPONSE, OPCODE, AUTH_ANSWER, TRUNCATED, RECURSION_DESIRED, RECURSION_AVAILABLE, ZERO.
  pose proof (b2z_range (h_qr h)). pose proof (b2z_range (h_aa h)). pose proof (b2z_range (h_tc h)). pose proof (b2z_range (h_rd h)).
  pose proof (b2z_range (h_ra h)). clear E flags.
  set (f := _ + h_rcode h).
  assert (E1 : Z.land 15 (Z.shiftr f 11) = h_opcode h) by (apply (take_field f 11 4); unfold f; pow_lia).
  assert (E2 : Z.land 7 (Z.shiftr f 4) = h_z h) by (apply (take_field f 4 3); unfold f; pow_lia).
  assert (E3 : Z.land 15 (Z.shiftr f 0) = h_rcode h) by (apply (take_field f 0 4); unfold f; pow_lia).
  rewrite E1, E2, E3. unfold f.
  rewrite (take_bit _ 15 (h_qr h)), (take_bit _ 10 (h_aa h)), (take_bit _ 9 (h_tc h)), (take_bit _ 8 (h_rd h)), (take_bit _ 7 (h_ra h)) by pow_lia.
  by destruct h.
Qed.

Section Records.
Context `{H : Host} (Ham : ample_memory) (cs : bool) (start : Z) (Hstart : 0 <= start < 2 ^ 62).


Lemma wr_le w n n' F : wr start w n F -> n <= n' -> wr start w n' F.
Proof.
  intros [Hw0 Hw] Hn. split; [lia|]. intros g c ht mb Hh Hsub He Hst Hl. destruct (Hw g c ht mb) as (x & ht' & mb' & E & Hh' & Hx & Hr); try done; [lia|].
  exists x, ht', mb'. split; [done|]. split; [done|]. split; [lia|done].
Qed.

Lemma wr_ext w w' n F : (forall ht mb, w ht mb = w' ht mb) -> wr start w n F -> wr start w' n F.
Proof. intros E [Hn Hw]. split; [done|]. intros g c ht mb. rewrite <- E. apply Hw. Qed.

Lemma c_string_bytes s : c_string s -> bytes s.
Proof. intros Hs. eapply Forall_impl; [exact Hs|]. intros b. unfold is_byte. lia. Qed.

Lemma wr_pair s : str_ok s ->
  wr start (dlift (mbuf_write_u8 (zlength s)) ;+ dlift (fun mb => mbuf_write_mem mb s)) (1 + zlength s) (str_fmt s).
Proof.
  intros [Hs Hl]. pose proof (zlength_nonneg s). apply wr_seq; auto with format.
  - apply wr_8; [done|]. unfold is_byte. lia.
  - apply wr_put; [done|done|by apply c_string_bytes].
Qed.

Lemma wr_cstr s : str_ok s -> wr start (dlift (dns_cstr_encode (Some s))) (1 + zlength s) (str_fmt s).
Proof.
  intros Hs. pose proof (zlength_nonneg s). eapply wr_ext; [|by apply wr_pair]. intros ht mb. destruct Hs as [_ Hl].
  unfold dlift, dseq, dns_cstr_encode. cbv zeta. rewrite (wrap_small 8 (zlength s)) by lia. rewrite (ztake_ge _ s) by lia. unfold seq_or.
  destruct (mbuf_write_u8 (zlength s) mb) as [e1 mb1]. by destruct (mbuf_write_mem mb1 s).
Qed.

Lemma txt_one fuel s ht mb : str_ok s ->
  ('(err, mb) ← txt_encode (S fuel) s (zlength s) 0 mb; Some (err, ht, mb))
  = Some ((dlift (mbuf_write_u8 (zlength s)) ;+ dlift (fun mb => mbuf_write_mem mb s)) ht mb).
Proof.
  intros [_ Hl]. pose proof (zlength_nonneg s). cbn [txt_encode]. rewrite (wrap_small 8 (zlength s)) by lia.
  rewrite (Z.min_l (zlength s)), Z.sub_diag, (ztake_ge _ s) by lia. unfold dlift, dseq.
  destruct (mbuf_write_u8 (zlength s) mb) as [e1 mb1]. destruct (mbuf_write_mem mb1 s) as [e2 mb2]. done.
Qed.

Definition rdata_size (rd : rdata) : Z :=
  match rd with
  | RNS (Some n) | RCNAME (Some n) | RPTR (Some n) => zlength n + 3
  | RSOA (Some m) (Some r) _ _ _ _ _ => zlength m + zlength r + 26
  | RMX _ (Some n) => zlength n + 5
  | RTXT (Some s) => zlength s + 1
  | RSRV _ _ _ (Some n) => zlength n + 9
  | RNAPTR _ _ (Some f) (Some s) (Some e) (Some n) => zlength f + zlength s + zlength e + zlength n + 10
  | _ => 16
  end.

Ltac wr_chain :=
  lazymatch goal with
  | |- wr _ (_ ;+ _) _ _ => eapply wr_seq; [solve [auto 20 with format]|solve [auto 20 with format]|wr_chain|wr_chain]
  | |- wr _ (w16 _) _ _ => by apply wr_16
  | |- wr _ (w32 _) _ _ => by apply wr_32
  | |- wr _ (wname _ _ _ ?comp) _ (name_in _ ?x _) => change x with (negb comp); by apply wr_name
  | |- wr _ (dlift (dns_cstr_encode _)) _ _ => by apply wr_cstr
  end.

Ltac str_cases := repeat match goal with s : cstr |- _ => destruct s; [|done] end.

(** The data is written in its format. *)
Lemma rdata_written fuel rd :
  rdata_ok rd -> exists w, (forall ht mb, rdata_encode cs (S fuel) rd start 0 ht mb = Some (w ht mb))
    /\ wr start w (rdata_size rd) (rdata_fmt start rd).
Proof.
  assert (Hw : forall w n F, wr start w n F -> forall n', n <= n' -> exists w', (forall ht mb,
    (let '(e, ht', mb') := w ht mb in Some (Z.lor 0 e, ht', mb')) = Some (w' ht mb)) /\ wr start w' n' F).
  { intros w n F Hw n' Hn. exists w. split; [intros ht mb; by destruct (w ht mb) as [[e ht'] mb']|by eapply wr_le]. }
  unfold name_ok. destruct rd; cbn [rdata_ok rdata_encode rdata_size rdata_fmt]; str_cases; try done.
  - intros _. eapply Hw; [wr_chain|lia].
  - intros [Hv _]. eapply Hw; [wr_chain|lia].
  - intros [Hv _]. eapply Hw; [wr_chain|lia].
  - intros ([Hv1 _] & [Hv2 _] & _). eapply Hw; [wr_chain|lia].
  - intros [Hv _]. eapply Hw; [wr_chain|lia].
  - intros (_ & Hv & _). eapply Hw; [wr_chain|lia].
  - intros Hs. eexists. split; [intros; by apply txt_one|]. rewrite Z.add_comm. by apply wr_pair.
  - intros [Hb Hl]. eapply Hw; [by apply wr_put|lia].
  - intros (_ & _ & _ & Hv & _). eapply Hw; [wr_chain|lia].
  - intros (_ & _ & Hf & Hs & He & Hv & _). eapply Hw; [wr_chain|lia].
Qed.

Lemma enc_forward g p ls j q : enc g start p ls j q -> p < q.
Proof. induction 1; lia. Qed.

Lemma fmin_name x n : fmin (name_in start x n) 0.
Proof. intros g p q (ls & j & He & _). pose proof (enc_forward _ _ _ _ _ He). lia. Qed.

Lemma fmin_str s : fmin (str_fmt s) 1.
Proof. intros g p q (r & [_ ->] & [_ ->]). pose proof (zlength_nonneg s). change (zlength [zlength s]) with 1. lia. Qed.

Ltac fmin_chain :=
  lazymatch goal with
  | |- fmin (_ ⨾ _) _ => eapply fmin_seq; [fmin_chain|fmin_chain|first [lia|reflexivity]]
  | |- _ => first [apply fmin_be16|apply fmin_be32|apply fmin_name|apply fmin_str|apply fmin_raw]
  end.

Lemma reads_cstr s : str_ok s -> reads dns_cstr_decode (str_fmt s) (fun a => a = s).
Proof.
  intros [Hs Hl]. pose proof (zlength_nonneg s). unfold dns_cstr_decode. apply reads_need; [apply fmin_str|].
  eapply reads_bind; [apply reads_8|]. intros len ->. apply reads_need; [apply fmin_raw|].
  intros mb c p0 p q Hh Hp [Hseg ->]. destruct (rest_seg mb c p0 p s Hh Hp Hseg) as (Hb & W & r & Hr).
  split; [lia|]. exists s. split; [|done]. unfold dns_strdup, mbuf_strdup. rewrite wrap_small by lia.
  destruct (mem_alloc_ample Ham (zlength s + 1)) as [b ->]; [unfold MEM_SIZE_MAX; lia|].
  destruct (read_mem_app _ s r (zlength s) W Hr eq_refl) as [-> _]. cbn [Z.eqb]. rewrite until_nul_app; [done|].
  eapply Forall_impl; [exact Hs|]. cbn. lia.
Qed.

Lemma reads_txt s : str_ok s ->
  reads (txt_decode (S (Z.to_nat (1 + zlength s))) (1 + zlength s + 1) [] (1 + zlength s)) (str_fmt s) (fun a => a = s ++ [0]).
Proof.
  intros [Hs Hl]. pose proof (zlength_nonneg s). replace (Z.to_nat (1 + zlength s)) with (S (Z.to_nat (zlength s))) by lia.
  cbn [txt_decode]. rewrite Z.gtb_ltb, (proj2 (Z.ltb_lt 0 _)) by lia. eapply reads_bind; [apply reads_8|]. intros len ->.
  replace (1 + zlength s - 1) with (zlength s) by lia. rewrite (wrap_small 16 (zlength s)) by lia.
  apply reads_check; [by rewrite Z.gtb_ltb, Z.ltb_irrefl|].
  intros mb c p0 p q Hh Hp HF. destruct (reads_mem s mb c p0 p q Hh Hp HF) as (Hq & d & E & ->). split; [done|].
  exists (s ++ [0]). split; [|done]. unfold dbind. rewrite E. unfold txt_put. change (zlength (@nil Z)) with 0. cbn [app].
  rewrite (proj2 (Z.leb_le _ _)) by lia. rewrite Z.sub_diag. change (u16 0) with 0. rewrite Z.gtb_ltb. cbn [Z.ltb Z.compare].
  change (zlength [0]) with 1. by rewrite (proj2 (Z.leb_le _ _)) by lia.
Qed.

Ltac type_case :=
  unfold rdata_decode;
  repeat (rewrite (proj2 (Z.eqb_neq _ _)) by done); rewrite Z.eqb_refl.

Ltac reads_chain :=
  lazymatch goal with
  | |- reads (dbind (dneed _ _) _) _ _ => apply reads_need; [fmin_chain|reads_chain]
  | |- reads (dbind _ (fun x => dret _)) _ _ => eapply reads_ret; [reads_chain|]
  | |- reads (dbind _ _) _ _ => eapply reads_bind; [reads_chain|]; intros ? ?; cbv beta in *; subst; reads_chain
  | |- reads (dread read_be16) _ _ => by apply reads_16
  | |- reads (dread read_be32) _ _ => by apply reads_32
  | |- reads (read_dname _) _ _ => by apply reads_name
  | |- reads dns_cstr_decode _ _ => by apply reads_cstr
  end.

(** The data is read back. *)
Lemma rdata_read rd rdlen :
  rdata_ok rd -> reads (rdata_decode (dns_type rd) rdlen start)
    (fun g p q => rdata_fmt start rd g p q /\ q = p + rdlen) (rdata_back rd).
Proof.
  assert (Hw : forall A (d : D A) Q, reads d (rdata_fmt start rd) Q ->
    reads d (fun g p q => rdata_fmt start rd g p q /\ q = p + rdlen) Q).
  { intros A d Q Hd. eapply reads_weaken; [exact Hd| |done]. by intros g p q [HF _]. }
  unfold str_ok. destruct rd; cbn [rdata_ok dns_type rdata_fmt] in *; str_cases; try done.
  - intros Ha. apply reads_len with 4; [by intros g p q [_ ->]|]. intros ->. type_case. apply reads_check; [done|].
    eapply reads_ret; [by apply reads_32|]. by intros a ->.
  - intros [Hv Hl]. type_case. apply Hw. reads_chain. auto.
  - intros [Hv Hl]. type_case. apply Hw. reads_chain. auto.
  - intros ([Hv Hl] & [Hv' Hl'] & Ha & Hb & Hc & Hd & He). type_case. apply Hw. reads_chain. intros ? ->. cbn [rdata_back cname_back]. auto.
  - intros [Hv Hl]. type_case. apply Hw. reads_chain. auto.
  - intros (Hp & Hv & Hl). type_case. apply Hw. reads_chain. intros. cbn [rdata_back cname_back]. auto.
  - intros Hs. pose proof (zlength_nonneg l). apply reads_len with (1 + zlength l).
    { intros g p q (r & [_ ->] & [_ ->]). change (zlength [zlength l]) with 1. lia. }
    intros ->. type_case. destruct (mem_alloc_ample Ham (1 + zlength l + 1)) as [b ->]; [unfold MEM_SIZE_MAX; destruct Hs; lia|].
    eapply reads_ret; [by apply reads_txt|]. intros a ->. cbn. rewrite until_nul_app; [done|].
    eapply Forall_impl; [exact (proj1 Hs)|]. cbn. lia.
  - intros [Hb Hl]. apply reads_len with 16; [intros g p q [_ ->]; lia|]. intros ->. type_case. apply reads_check; [done|].
    rewrite <- Hl. eapply reads_ret; [apply reads_mem|]. by intros a ->.
  - intros (Hp & Hq & Ho & Hv & Hl). type_case. apply Hw. reads_chain. intros. cbn [rdata_back cname_back]. auto.
  - intros (Hp & Hq & Hf & Hs & He & Hv & Hl). type_case. apply Hw. reads_chain. intros. cbn [rdata_back cname_back]. auto.
Qed.

Definition rr_ok (rr : dnsrr) : Prop :=
  match rr_name rr with Some n => name_ok n | None => False end /\ is_u16 (rr_class rr) /\ rdata_ok (rr_rdata rr).

(** The layout of a record with [ttl] seconds left. *)
Definition rr_fmt (rr : dnsrr) (ttl : Z) : format := fun g p q =>
  exists len, is_u16 len /\
  (name_in start false (default [] (rr_name rr)) ⨾ raw (be_bytes 2 (dns_type (rr_rdata rr))) ⨾ raw (be_bytes 2 (rr_class rr))
   ⨾ raw (be_bytes 4 ttl) ⨾ raw (be_bytes 2 len)
   ⨾ (fun g p q => rdata_fmt start (rr_rdata rr) g p q /\ q = p + len)) g p q.

Definition rr_size (rr : dnsrr) : Z := zlength (default [] (rr_name rr)) + 13 + rdata_size (rr_rdata rr).

(** The record that is read back. *)
Definition rr_back (ttl : Z) (rr rr' : dnsrr) : Prop :=
  cname_back false (rr_name rr) (rr_name rr') /\ rr_class rr' = rr_class rr /\ rr_ttl rr' = ttl
  /\ dns_type (rr_rdata rr') = dns_type (rr_rdata rr) /\ rdata_back (rr_rdata rr) (rr_rdata rr').

Lemma dseq_last f g h k w ht mb ht' mb' :
  (f ;+ g ;+ h ;+ k) ht mb = (0, ht', mb') -> (f ;+ g ;+ h ;+ k ;+ w) ht mb = w ht' mb'.
Proof.
  unfold dseq. destruct (f ht mb) as [[e1 ht1] mb1]. destruct (g ht1 mb1) as [[e2 ht2] mb2].
  destruct (h ht2 mb2) as [[e3 ht3] mb3]. destruct (k ht3 mb3) as [[e4 ht4] mb4]. intros E.
  injection E as E -> ->. destruct (w ht' mb') as [[e5 ht5] mb5]. rewrite !Z.lor_assoc in *. by rewrite E.
Qed.

Lemma rdata_size_ok rd : rdata_ok rd -> 0 <= rdata_size rd < 2 ^ 16.
Proof.
  destruct rd; cbn [rdata_ok rdata_size]; str_cases; unfold name_ok, str_ok; intros Hok;
    repeat match goal with l : list Z |- _ => lazymatch goal with _ : 0 <= zlength l |- _ => fail | _ => pose proof (zlength_nonneg l) end end; lia.
Qed.

Lemma dns_type_u16 rd : rdata_ok rd -> is_u16 (dns_type rd).
Proof. unfold is_u16. destruct rd; cbn; intros Hok; done. Qed.

(** Two bytes of the message that nothing refers to are overwritten. *)
Lemma ext_patch g c x d d' y p b :
  zlength d = zlength d' ->
  ext (ext g c (c ++ x)) ((c ++ x) ++ d) (((c ++ x) ++ d) ++ y) p = Some b -> ext g c (((c ++ x) ++ d') ++ y) p = Some b.
Proof.
  intros Hd. unfold ext. pose proof (zlength_nonneg x). pose proof (zlength_nonneg d).
  destruct (Z.leb_spec (zlength ((c ++ x) ++ d)) p) as [Hp|Hp].
  - replace p with (zlength ((c ++ x) ++ d) + (p - zlength ((c ++ x) ++ d))) at 1 by lia.
    replace (view (((c ++ x) ++ d') ++ y) p) with (view (((c ++ x) ++ d') ++ y) (zlength ((c ++ x) ++ d') + (p - zlength ((c ++ x) ++ d))))
      by (f_equal; rewrite !zlength_app; lia).
    rewrite !view_r, (proj2 (Z.leb_le 0 _)) by lia. rewrite !zlength_app in Hp. by rewrite (proj2 (Z.leb_le (zlength c) p)) by lia.
  - case_test; [|done]. intros Hv. by do 2 apply view_app.
Qed.

(** The parts of a record with its length filled in. *)
Lemma rr_layout g c x old y rr n ttl :
  let a := c ++ x in
  let c' := (a ++ be_bytes 2 (zlength y)) ++ y in
  zlength old = 2 -> zlength y < 2 ^ 16 -> sub g c ->
  (name_in start false n ⨾ raw (be_bytes 2 (dns_type (rr_rdata rr))) ⨾ raw (be_bytes 2 (rr_class rr)) ⨾ raw (be_bytes 4 ttl))
    (ext g c a) (zlength c) (zlength a) ->
  rdata_fmt start (rr_rdata rr) (ext (ext g c a) (a ++ old) ((a ++ old) ++ y)) (zlength (a ++ old)) (zlength ((a ++ old) ++ y)) ->
  rr_name rr = Some n ->
  rr_fmt rr ttl (ext g c c') (zlength c) (zlength c')
  /\ forall p b, ext (ext g c a) (a ++ old) ((a ++ old) ++ y) p = Some b -> ext g c c' p = Some b.
Proof.
  intros a c' Hold Hy Hsub HF1 HF3 En. pose proof (zlength_nonneg y). set (len := be_bytes 2 (zlength y)) in *.
  assert (Hlen : zlength len = 2) by apply zlength_be_bytes.
  assert (Hm : forall p b, ext (ext g c a) (a ++ old) ((a ++ old) ++ y) p = Some b -> ext g c c' p = Some b)
    by (intros p b; apply ext_patch; lia).
  split; [|done]. unfold rr_fmt. rewrite En. cbn [default id]. exists (zlength y). split; [done|].
  destruct HF1 as (r1 & Hn & r2 & Hty & r3 & Hcl & Httl).
  assert (Hm1 : forall p b, ext g c a p = Some b -> ext g c c' p = Some b).
  { intros p b Hp. apply Hm, ext_old; [|done]. intros p' b' Hp'. apply view_app. by apply ext_sub in Hp'. }
  exists r1. split; [by eapply name_mono|]. exists r2. split; [by eapply raw_mono|]. exists r3. split; [by eapply raw_mono|].
  exists (zlength a). split; [by eapply raw_mono|]. exists (zlength (a ++ old)). split; [|split].
  - split; [|rewrite zlength_app, zlength_be_bytes; lia]. unfold c', a. rewrite <- !app_assoc.
    rewrite zlength_app. apply ext_seg.
  - replace (zlength c') with (zlength ((a ++ old) ++ y)) by (unfold c'; rewrite !zlength_app; lia). exact (rdata_fmt_mono start _ _ _ _ _ Hm HF3).
  - unfold c'. rewrite !zlength_app. lia.
Qed.

Lemma rr_written fuel rr offs : rr_ok rr -> forall g c ht mb,
  holds mb c (zlength c) -> sub g c -> Forall (entry_ok g start) (entries ht) -> start <= zlength c ->
  zlength c + rr_size rr < 2 ^ 31 ->
  exists x ht' mb', dns_rr_encode cs (S fuel) rr offs start ht mb = Some (0, ht', mb')
    /\ holds mb' (c ++ x) (zlength (c ++ x)) /\ zlength x <= rr_size rr
    /\ Forall (entry_ok (ext g c (c ++ x)) start) (entries ht')
    /\ rr_fmt rr (rr_ttl_left rr offs) (ext g c (c ++ x)) (zlength c) (zlength (c ++ x)).
Proof.
  unfold rr_ok, rr_size, rr_fmt. intros (Hn & Hc & Hrd) g c ht mb Hh Hsub He Hst Hl. destruct (rr_name rr) as [n|] eqn:En; [|done].
  cbn [default id] in *. pose proof (rdata_size_ok _ Hrd). destruct Hn as [Hv Hnl]. pose proof (zlength_nonneg n). pose proof (zlength_nonneg c).
  set (ty := dns_type (rr_rdata rr)). set (ttl := rr_ttl_left rr offs).
  assert (Hhead : wr start (wname cs (Some n) start true ;+ w16 ty ;+ w16 (rr_class rr) ;+ w32 ttl) (zlength n + 3 + (2 + (2 + 4)))
    (name_in start false n ⨾ raw (be_bytes 2 ty) ⨾ raw (be_bytes 2 (rr_class rr)) ⨾ raw (be_bytes 4 ttl))) by wr_chain.
  destruct (proj2 Hhead g c ht mb) as (x & ht1 & mb1 & E1 & Hh1 & Hx & He1 & HF1); try done; [lia|]. pose proof (zlength_nonneg x).
  unfold dns_rr_encode. rewrite En. fold ty ttl.
  rewrite (dseq_last _ _ _ _ (w16 (rr_rdlen rr)) _ _ _ _ E1). unfold w16, dlift.
  set (old := be_bytes 2 (rr_rdlen rr)). set (a := c ++ x) in *.
  destruct (holds_append mb1 a old Hh1) as (mb2 & E2 & Hh2); [unfold old; auto with relib|done|unfold old, a; rewrite zlength_be_bytes, zlength_app; lia|].
  replace (write_be16 (rr_rdlen rr) mb1) with (mbuf_write_mem mb1 old) by (unfold write_be16, mbuf_write_u16; by rewrite host_bytes_htons).
  rewrite E2. destruct (rdata_written fuel _ Hrd) as (w & Ew & Hw). rewrite Ew.
  assert (Hao : zlength (a ++ old) = zlength c + zlength x + 2) by (unfold a, old; rewrite !zlength_app, zlength_be_bytes; lia).
  destruct (proj2 Hw (ext g c a) (a ++ old) ht1 mb2) as (y & ht' & mb3 & E3 & Hh3 & Hy & He3 & HF3); try done; [|lia|lia|].
  { intros p b Hp. apply view_app. by apply ext_sub in Hp. }
  rewrite E3. cbn [mbind option_bind]. rewrite (holds_pos _ _ _ Hh2), (holds_pos _ _ _ Hh3). pose proof (zlength_nonneg y).
  replace (zlength ((a ++ old) ++ y) - zlength (a ++ old)) with (zlength y) by (rewrite zlength_app; lia).
  rewrite (wrap_small 64), (wrap_small 16), Z.gtb_ltb, (proj2 (Z.ltb_ge _ _)) by lia.
  set (len := be_bytes 2 (zlength y)). rewrite <- app_assoc in Hh3.
  assert (Hh4 : holds (mbuf_set_pos mb3 (zlength (a ++ old) - 2)) (a ++ old ++ y) (zlength a)).
  { replace (zlength (a ++ old) - 2) with (zlength a) by (rewrite zlength_app; unfold old; rewrite zlength_be_bytes; lia).
    eapply holds_set_pos; [exact Hh3|]. rewrite zlength_app. pose proof (zlength_nonneg (old ++ y)). unfold a. zlen. }
  destruct (holds_overwrite _ (write_be16 (zlength y)) len a old y (writes_be16 _) Hh4) as (mb4 & E4 & Hh5);
    [done|done|rewrite Hao; lia|].
  rewrite E4. exists (x ++ len ++ y), ht', (mbuf_advance mb4 (zlength y)). split; [done|].
  assert (EX : c ++ x ++ len ++ y = (a ++ len) ++ y) by (unfold a; by rewrite <- !app_assoc). rewrite EX.
  split; [|split; [rewrite !zlength_app; unfold len; rewrite zlength_be_bytes; lia|]].
  - assert (Hal : zlength (a ++ len) = zlength (a ++ old)) by (rewrite !zlength_app; unfold len, old; by rewrite !zlength_be_bytes).
    unfold mbuf_advance. rewrite (holds_pos _ _ _ Hh5), wrap_small by lia. rewrite app_assoc in Hh5.
    rewrite (zlength_app (a ++ len) y). eapply holds_set_pos; [exact Hh5|]. rewrite (zlength_app (a ++ len) y). pose proof (zlength_nonneg (a ++ len)). lia.
  - assert (Hd : zlength old = 2) by apply zlength_be_bytes. destruct (rr_layout g c x old y rr n ttl) as [HF Hm]; try done; [lia|].
    split; [|by unfold rr_fmt in HF; rewrite En in HF]. eapply Forall_impl; [exact He3|]. intros e. by apply entry_ok_mono.
Qed.

(** A record is read back as it was written. *)
Lemma rr_read rr ttl : rr_ok rr -> is_u32 ttl -> reads (dns_rr_decode true start) (rr_fmt rr ttl) (rr_back ttl rr).
Proof.
  unfold rr_ok, rr_fmt, rr_back. intros (Hn & Hc & Hrd) Ht mb c p0 p q Hh Hp (len & Hlen & HF).
  destruct (rr_name rr) as [n|]; [|done]. cbn [default id] in HF. destruct Hn as [Hv Hnl].
  pose proof (dns_type_u16 _ Hrd) as Hty. revert mb c p0 p q Hh Hp HF.
  change (reads (dns_rr_decode true start) (name_in start false n ⨾ raw (be_bytes 2 (dns_type (rr_rdata rr))) ⨾ raw (be_bytes 2 (rr_class rr))
    ⨾ raw (be_bytes 4 ttl) ⨾ raw (be_bytes 2 len) ⨾ (fun g p q => rdata_fmt start (rr_rdata rr) g p q /\ q = p + len))
    (fun rr' => cname_back false (Some n) (rr_name rr') /\ rr_class rr' = rr_class rr /\ rr_ttl rr' = ttl
      /\ dns_type (rr_rdata rr') = dns_type (rr_rdata rr) /\ rdata_back (rr_rdata rr) (rr_rdata rr'))).
  assert (Hmin : fmin (fun g p q => rdata_fmt start (rr_rdata rr) g p q /\ q = p + len) len) by (intros g p q [_ ->]; lia).
  assert (Hmin0 : fmin (fun g p q => rdata_fmt start (rr_rdata rr) g p q /\ q = p + len) 0)
    by (intros g p q [_ ->]; unfold is_u16 in Hlen; lia).
  unfold dns_rr_decode. apply reads_check; [done|]. eapply reads_bind; [by apply reads_name|]. intros n' Hb. cbv beta in Hb.
  apply reads_need.
  { eapply fmin_seq; [apply fmin_be16| |]; [eapply fmin_seq; [apply fmin_be16| |]|];
      [eapply fmin_seq; [apply fmin_be32| |]| |]; [eapply fmin_seq; [apply fmin_be16|exact Hmin0|]| | |]; first [reflexivity|lia]. }
  eapply reads_bind; [by apply reads_16|]. intros ty ->. eapply reads_bind; [by apply reads_16|]. intros cl ->.
  eapply reads_bind; [by apply reads_32|]. intros tt' ->. eapply reads_bind; [by apply reads_16|]. intros l ->.
  apply reads_need; [done|]. eapply reads_ret; [by apply rdata_read|]. intros rd' Hrb. cbn [rr_name rr_class rr_ttl rr_rdata].
  split; [done|]. split; [done|]. split; [done|]. split; [|done].
  destruct (rr_rdata rr), rd'; cbn in *; try done; injection Hrb; congruence.
Qed.
Lemma hdr_written h : wr start (dlift (dns_hdr_encode h)) 12 (hdr_fmt h).
Proof.
  assert (Hw : wr start (w16 (h_id h) ;+ w16 (hdr_flags h) ;+ w16 (h_nq h) ;+ w16 (h_nans h) ;+ w16 (h_nauth h) ;+ w16 (h_nadd h))
    (2 + (2 + (2 + (2 + (2 + 2))))) (hdr_fmt h)) by (unfold hdr_fmt; wr_chain).
  eapply wr_ext; [|exact Hw]. intros ht mb. unfold dns_hdr_encode, dseq, w16, dlift, seq_or.
  repeat match goal with |- context [write_be16 ?v ?m] => destruct (write_be16 v m) as [? ?] end. done.
Qed.

Lemma hdr_read h : hdr_ok h -> reads dns_hdr_decode (hdr_fmt h) (fun h' => h' = h).
Proof.
  intros Hok. pose proof (hdr_flags_sum h Hok) as Hfl. destruct Hok as (Hid & Ho & Hz & Hr & Hq & Ha & Hau & Had).
  assert (Hfu : is_u16 (hdr_flags h)) by (apply wrap_range; lia).
  unfold dns_hdr_decode, hdr_fmt. apply reads_need; [fmin_chain|]. eapply reads_bind; [by apply reads_16|]. intros id ->.
  eapply reads_bind; [by apply reads_16|]. intros flags ->. eapply reads_bind; [by apply reads_16|]. intros nq ->.
  eapply reads_bind; [by apply reads_16|]. intros nans ->. eapply reads_bind; [by apply reads_16|]. intros nauth ->.
  eapply reads_ret; [by apply reads_16|]. intros nadd ->. by apply hdr_back.
Qed.
End Records.

(** ** Comparison of records *)

Definition rr_names (rr : dnsrr) : list cstr :=
  rr_name rr ::
  match rr_rdata rr with
  | RNS n | RCNAME n | RPTR n | RMX _ n | RSRV _ _ _ n | RNAPTR _ _ _ _ _ n => [n]
  | RSOA m r _ _ _ _ _ => [m; r]
  | _ => []
  end.

(** No name of the record has a trailing dot. *)
Definition rr_plain (rr : dnsrr) : Prop := Forall (fun n => forall s, n = Some s -> strip_dot s = s) (rr_names rr).

Lemma strcasecmp_lower s : forall s', lower s = lower s' -> strcasecmp s s' = 0.
Proof. induction s as [|c s IH]; intros [|c' s'] E; try done. injection E as E1 E2. cbn. rewrite E1, Z.eqb_refl. by apply IH. Qed.

Lemma str_same_refl s : str_same s s = true.
Proof. destruct s as [s|]; [|done]. unfold str_same. cbn. by rewrite strcasecmp_lower. Qed.

Lemma back_same x n n' : cname_back x n n' -> (forall s, n = Some s -> strip_dot s = s) -> str_same n n' = true.
Proof.
  destruct n as [n|], n' as [n'|]; try done. cbn [cname_back]. intros [E _] Hp. rewrite (Hp n eq_refl) in E. unfold str_same.
  cbn [str_casecmp]. by rewrite strcasecmp_lower.
Qed.

(** A record and what is read back of it are equal to dns_rr_cmp. *)
Lemma back_cmp ttl rr rr' : rdata_ok (rr_rdata rr) -> rr_back ttl rr rr' -> rr_plain rr -> dns_rr_cmp false rr rr' true = true.
Proof.
  unfold rr_back, rr_plain, rr_names, dns_rr_cmp. intros Hok (Hn & Hc & _ & Ht & Hrd) Hp.
  inversion_clear Hp as [|? ? Hp1 Hp2]. rewrite Ht, Hc, !Z.eqb_refl, (back_same _ _ _ Hn Hp1). cbn [negb]. clear Ht.
  destruct (rr_rdata rr), (rr_rdata rr'); cbn [rdata_back] in Hrd; try done; try (injection Hrd as <-);
    repeat match goal with
    | H : _ /\ _ |- _ => destruct H
    | H : (_, _) = (_, _) |- _ => injection H as ? ? || injection H as ? ? ? || injection H as ? ? ? ? ?; subst
    | H : Forall _ (_ :: _) |- _ => inversion_clear H
    | H : cname_back _ ?n ?n', H' : forall s, ?n = Some s -> _ |- _ => rewrite (back_same _ _ _ H H'); clear H
    end; subst; by rewrite ?Z.eqb_refl, ?str_same_refl, ?bool_decide_true by done.
Qed.


(** ** Whole messages *)

Section Message.
Context `{H : Host} (Ham : ample_memory) (cs : bool).

(** A header and the records behind it, with one table of names. *)
Fixpoint rrs_encode (fuel : nat) (rrs : list dnsrr) (offs start : Z) (ht : option dtable) (mb : mbuf) :
    option (Z * option dtable * mbuf) :=
  match rrs with
  | [] => Some (0, ht, mb)
  | rr :: rrs =>
      '(err, ht, mb) ← dns_rr_encode cs fuel rr offs start ht mb;
      if err =? 0 then rrs_encode fuel rrs offs start ht mb else Some (err, ht, mb)
  end.

Definition msg_encode (fuel : nat) (h : dnshdr) (rrs : list dnsrr) (offs : Z) (ht : option dtable) (mb : mbuf) :
    option (Z * option dtable * mbuf) :=
  let start := mb_pos mb in
  let '(err, mb) := dns_hdr_encode h mb in
  if err =? 0 then rrs_encode fuel rrs offs start ht mb else Some (err, ht, mb).

Fixpoint rrs_decode (n : nat) (start : Z) : D (list dnsrr) :=
  match n with
  | O => dret []
  | S n => do! rr := dns_rr_decode true start in do! rrs := rrs_decode n start in dret (rr :: rrs)
  end.

Definition msg_decode (n : nat) : D (dnshdr * list dnsrr) := fun mb =>
  (do! h := dns_hdr_decode in do! rrs := rrs_decode n (mb_pos mb) in dret (h, rrs)) mb.

Definition rrs_size (rrs : list dnsrr) : Z := foldr (fun rr n => rr_size rr + n) 0 rrs.

Fixpoint rrs_fmt (start offs : Z) (rrs : list dnsrr) : format :=
  match rrs with [] => fnil | rr :: rrs => rr_fmt start rr (rr_ttl_left rr offs) ⨾ rrs_fmt start offs rrs end.

Lemma rr_fmt_mono start rr ttl : fmono (rr_fmt start rr ttl).
Proof.
  intros g g' p q Hg (len & Hlen & HF). exists len. split; [done|]. revert p q HF.
  refine (fun p q => _ g g' p q Hg). assert (Hm : fmono (fun g p q => rdata_fmt start (rr_rdata rr) g p q /\ q = p + len))
    by (intros g1 g2 p1 q1 Hg1 [H1 H2]; split; [by eapply rdata_fmt_mono|done]). apply fseq_mono; auto 20 with format.
Qed.

Lemma rrs_fmt_mono start offs rrs : fmono (rrs_fmt start offs rrs).
Proof. induction rrs as [|rr rrs IH]; [by intros g g' p q _|]. cbn. apply fseq_mono; [apply rr_fmt_mono|done]. Qed.

Lemma rr_size_nonneg rr : rr_ok rr -> 0 <= rr_size rr.
Proof. intros (_ & _ & Hrd). unfold rr_size. pose proof (rdata_size_ok _ Hrd). pose proof (zlength_nonneg (default [] (rr_name rr))). lia. Qed.

Lemma rrs_size_nonneg rrs : Forall rr_ok rrs -> 0 <= rrs_size rrs.
Proof. unfold rrs_size. induction 1 as [|rr rrs Hr _ IH]; cbn; [done|]. pose proof (rr_size_nonneg rr Hr). lia. Qed.

Lemma rrs_written fuel offs start rrs : 0 <= start < 2 ^ 62 -> Forall rr_ok rrs -> forall g c ht mb,
  holds mb c (zlength c) -> sub g c -> Forall (entry_ok g start) (entries ht) -> start <= zlength c ->
  zlength c + rrs_size rrs < 2 ^ 31 ->
  exists x ht' mb', rrs_encode (S fuel) rrs offs start ht mb = Some (0, ht', mb')
    /\ holds mb' (c ++ x) (zlength (c ++ x)) /\ rrs_fmt start offs rrs (ext g c (c ++ x)) (zlength c) (zlength (c ++ x)).
Proof.
  intros Hs. induction 1 as [|rr rrs Hr Hrs IH]; intros g c ht mb Hh Hsub He Hst Hl.
  - exists [], ht, mb. rewrite app_nil_r. done.
  - unfold rrs_size in Hl. cbn [foldr] in Hl. fold (rrs_size rrs) in Hl. pose proof (rrs_size_nonneg rrs Hrs).
    destruct (rr_written Ham cs start Hs fuel rr offs Hr g c ht mb) as (x & ht1 & mb1 & E1 & Hh1 & Hx & He1 & HF1); try done; [lia|].
    pose proof (zlength_nonneg x).
    destruct (IH (ext g c (c ++ x)) (c ++ x) ht1 mb1) as (y & ht2 & mb2 & E2 & Hh2 & HF2); try done;
      [by apply ext_sub|rewrite zlength_app; lia|rewrite zlength_app; lia|].
    exists (x ++ y), ht2, mb2. cbn [rrs_encode]. rewrite E1. cbn [mbind option_bind Z.eqb]. rewrite E2, app_assoc.
    split; [done|]. split; [done|].
    assert (Hmono : forall p b, ext (ext g c (c ++ x)) (c ++ x) ((c ++ x) ++ y) p = Some b -> ext g c ((c ++ x) ++ y) p = Some b)
      by (intros p b Hp; rewrite <- app_assoc; by apply ext_ext).
    exists (zlength (c ++ x)). split; [|by eapply rrs_fmt_mono].
    eapply rr_fmt_mono; [|exact HF1]. intros p b Hp. apply Hmono, ext_old; [by apply ext_sub|done].
Qed.

(** What is read back of a record. *)
Definition rr_returned (offs : Z) (rr rr' : dnsrr) : Prop :=
  rr_back (rr_ttl_left rr offs) rr rr' /\ (rr_plain rr -> dns_rr_cmp false rr rr' true = true).

Lemma rrs_read start offs rrs : 0 <= start < 2 ^ 62 -> Forall rr_ok rrs ->
  reads (rrs_decode (length rrs) start) (rrs_fmt start offs rrs) (Forall2 (rr_returned offs) rrs).
Proof.
  intros Hs. induction 1 as [|rr rrs Hr Hrs IH]; cbn [length rrs_decode rrs_fmt].
  - intros mb c p0 p q Hh Hp ->. split; [lia|]. exists []. done.
  - eapply reads_bind; [apply (rr_read Ham start Hs rr (rr_ttl_left rr offs) Hr)|].
    { apply wrap_range. lia. }
    intros rr' Hb. eapply reads_ret; [exact IH|]. intros rrs' Hbs. constructor; [|done]. split; [done|].
    apply (back_cmp (rr_ttl_left rr offs)); [apply Hr|done].
Qed.

(** C6: a DNS message, a header and any records of the ten types the library
    encodes, is written with one compression table, empty at the start, and
    read back: the header is the same, and each record has its class, its
    remaining time to live, its data and its name.  A name comes back without
    the trailing dot it may have had, and up to case (exactly in SRV and NAPTR
    data, which are not compressed).  For a record none of whose names has a
    trailing dot, dns_rr_cmp finds the two equal.  Conditions: names of at most
    254 characters with labels of 1 to 191, texts and strings below 256
    characters, header fields within their widths, a message below 2^31 bytes,
    memory enough. *)
Theorem dns_message_roundtrip fuel h rrs offs c ht mb :
  holds mb c (zlength c) -> entries ht = [] -> hdr_ok h -> Forall rr_ok rrs -> zlength c + 12 + rrs_size rrs < 2 ^ 31 ->
  exists ht' mb' rrs', msg_encode (S fuel) h rrs offs ht mb = Some (0, ht', mb')
    /\ msg_decode (length rrs) (mbuf_set_pos mb' (zlength c)) = Some (Ok (h, rrs'), mb')
    /\ Forall2 (rr_returned offs) rrs rrs'.
Proof.
  intros Hh Hht Hhd Hrs Hl. pose proof (zlength_nonneg c). pose proof (rrs_size_nonneg rrs Hrs).
  assert (Hs : 0 <= zlength c < 2 ^ 62) by lia. unfold msg_encode. rewrite (holds_pos _ _ _ Hh). set (start := zlength c) in *.
  destruct (proj2 (hdr_written Ham start h) (view c) c ht mb) as (x & ht1 & mb1 & E1 & Hh1 & Hx & He1 & HF1); try done;
    [by intros p b|rewrite Hht; constructor|fold start; lia|].
  unfold dlift in E1. destruct (dns_hdr_encode h mb) as [e mb1']. injection E1 as -> <- ->. cbn [Z.eqb]. pose proof (zlength_nonneg x).
  destruct (rrs_written fuel offs start rrs Hs Hrs (ext (view c) c (c ++ x)) (c ++ x) ht mb1) as (y & ht' & mb' & E2 & Hh2 & HF2);
    try done; [by apply ext_sub; intros p b|rewrite zlength_app; fold start; lia|rewrite zlength_app; fold start; lia|].
  pose proof (ext_sub _ _ y (ext_sub _ _ x (fun p b (E : view c p = Some b) => E))) as Hsub.
  assert (Hread : reads (do! h := dns_hdr_decode in do! rrs := rrs_decode (length rrs) start in dret (h, rrs))
    (hdr_fmt h ⨾ rrs_fmt start offs rrs) (fun r => r.1 = h /\ Forall2 (rr_returned offs) rrs r.2)).
  { eapply reads_bind; [by apply hdr_read|]. intros h' ->. eapply reads_ret; [by apply rrs_read|]. by intros. }
  destruct (Hread mb' _ _ start (zlength ((c ++ x) ++ y)) Hh2) as (_ & [h' rrs'] & Er & Hhb & Hb).
  - unfold start. rewrite !zlength_app. pose proof (zlength_nonneg y). lia.
  - exists (zlength (c ++ x)). split; [|by eapply rrs_fmt_mono]. eapply fseq_mono; [..|exact HF1]; auto with format.
    1: repeat apply fseq_mono; auto with format. intros p b Hp. apply Hsub, ext_old; [by apply ext_sub; intros ? ?|done].
  - cbn in Hhb. subst h'. exists ht', mb', rrs'. split; [done|]. split; [|done]. unfold msg_decode. cbn [mbuf_set_pos mb_pos]. fold start. rewrite Er.
    do 2 f_equal. rewrite <- (holds_pos _ _ _ Hh2). by destruct mb'.
Qed.
End Message.

(** ** Long texts *)

Section LongText.
Context `{H : Host} (cs : bool).

(** With 256 characters or more left, the piece is cut to the last byte of the
    length and 256 or more are left again. *)
Lemma txt_encode_stuck fuel : forall ptr dlen err mb, 256 <= dlen < 2 ^ 64 -> txt_encode fuel ptr dlen err mb = None.
Proof.
  induction fuel as [|fuel IH]; intros ptr dlen err mb Hd; [done|]. cbn [txt_encode].
  pose proof (wrap_range 8 dlen ltac:(lia)) as Hw. rewrite Z.min_l by lia.
  destruct (mbuf_write_u8 _ mb) as [e1 mb1]. destruct (mbuf_write_mem mb1 _) as [e2 mb2].
  assert (Hge : 256 <= dlen - u8 dlen) by (unfold wrap; change (2 ^ 8) with 256; Z.to_euclidean_division_equations; lia).
  rewrite (wrap_small 64) by lia. rewrite Z.gtb_ltb, (proj2 (Z.ltb_lt 0 _)) by lia. apply IH. lia.
Qed.

(** dns_rr_encode does not return for a TXT record with 256 characters or more. *)
Theorem dns_rr_txt_diverges fuel name class ttl rdlen s offs start ht mb :
  256 <= zlength s < 2 ^ 64 ->
  dns_rr_encode cs fuel (Dnsrr name class ttl rdlen (RTXT (Some s))) offs start ht mb = None.
Proof.
  intros Hs. unfold dns_rr_encode. cbn [rr_rdata]. destruct (dseq _ _ ht mb) as [[e ht1] mb1]. cbn [rdata_encode].
  by rewrite txt_encode_stuck.
Qed.
End LongText.

(** ** Samples *)

Definition ex_name : list Z := [97; 98; 46; 99].            (* ab.c *)
Definition ex_sub : list Z := [120; 46; 65; 66; 46; 67].    (* x.AB.C *)
Definition ex_hdr : dnshdr := Dnshdr 0x1234 true 0 true false true true 0 3 0 2 0 0.
Definition ex_rrs : list dnsrr :=
  [Dnsrr (Some ex_name) 1 300 0 (RMX 10 (Some ex_sub)); Dnsrr (Some ex_sub) 1 60 0 (RTXT (Some [104; 105]))].
Definition ex_mb : mbuf := Mbuf (Some (replicate 8 0)) 8 0 0.

Lemma ex_name_ok : name_ok ex_name /\ name_ok ex_sub.
Proof. split; sample_name. Qed.

Lemma ex_mb_holds : holds ex_mb [] 0.
Proof. split; [split; unfold MEM_SIZE_MAX; cbn; try lia; repeat constructor; unfold is_byte; lia|done|done]. Qed.

Lemma ex_rrs_ok : Forall rr_ok ex_rrs.
Proof.
  destruct ex_name_ok as [Hn Hs]. constructor; [|constructor; [|constructor]].
  - split; [exact Hn|]. split; [unfold is_u16; cbn; lia|]. split; [unfold is_u16; lia|exact Hs].
  - split; [exact Hs|]. split; [unfold is_u16; cbn; lia|]. split; [repeat (constructor; [lia|]); constructor|vm_compute; reflexivity].
Qed.

Lemma dns_message_roundtrip_witness :
  exists ht' mb' rrs', msg_encode (H := lp64_le) false 1 ex_hdr ex_rrs 100 (Some (Dtable 16 [])) ex_mb = Some (0, ht', mb')
    /\ msg_decode (H := lp64_le) 2 (mbuf_set_pos mb' 0) = Some (Ok (ex_hdr, rrs'), mb') /\ length rrs' = 2%nat.
Proof.
  destruct (dns_message_roundtrip (H := lp64_le) lp64_ample false 0 ex_hdr ex_rrs 100 [] (Some (Dtable 16 [])) ex_mb
    ex_mb_holds eq_refl ltac:(unfold hdr_ok, is_u16; cbn; lia) ex_rrs_ok ltac:(vm_compute; reflexivity)) as (ht' & mb' & rrs' & E & Ed & Hb).
  exists ht', mb', rrs'. split; [exact E|]. split; [exact Ed|]. symmetry. exact (Forall2_length _ _ _ Hb).
Defined.
