(* ===== verification/Rtcp.v ===== *)
(** * RTCP packets: src/src/rtp/pkt.c, rr.c, sdes.c and fb.c

    A packet is its header and one constructor of [rtcp_body] per member of the
    union in [struct rtcp_msg].  The variable arguments of rtcp_vencode are
    [rtcp_args]; an encode handler is a function on the buffer.  Buffers made by
    mbuf_alloc_ref for a part of a packet are the bytes of that part; the text
    of a BYE is the bytes before the terminator mbuf_strdup adds.  Loops
    take fuel where they are not bounded by their arguments. *)

From Stdlib Require Import ZArith Lia.
From stdpp Require Import base numbers list.
From S2P Require Import Prelude Endian Mbuf MbufView Format.

Open Scope Z_scope.

Definition RTCP_VERSION : Z := 2.
Definition RTCP_HDR_SIZE : Z := 4.
Definition RTCP_SRC_SIZE : Z := 4.
Definition RTCP_SR_SIZE : Z := 20.
Definition RTCP_RR_SIZE : Z := 24.
Definition RTCP_APP_SIZE : Z := 8.
Definition RTCP_FIR_SIZE : Z := 4.
Definition RTCP_NACK_SIZE : Z := 8.
Definition RTCP_FB_SIZE : Z := 8.
Definition RTCP_HEADROOM : Z := 4.
Definition RTCP_SDES_MIN_SIZE : Z := 1.
Definition RTCP_SDES_END : Z := 0.
Definition GNACK_SIZE : Z := 4.
Definition FIR_SIZE : Z := 8.
Definition SLI_SIZE : Z := 4.

Definition RTCP_FIR : Z := 192.
Definition RTCP_NACK : Z := 193.
Definition RTCP_SR : Z := 200.
Definition RTCP_RR : Z := 201.
Definition RTCP_SDES : Z := 202.
Definition RTCP_BYE : Z := 203.
Definition RTCP_APP : Z := 204.
Definition RTCP_RTPFB : Z := 205.
Definition RTCP_PSFB : Z := 206.
Definition RTCP_XR : Z := 207.
Definition RTCP_RTPFB_GNACK : Z := 1.
Definition RTCP_RTPFB_TWCC : Z := 15.
Definition RTCP_PSFB_PLI : Z := 1.
Definition RTCP_PSFB_SLI : Z := 2.
Definition RTCP_PSFB_FIR : Z := 4.
Definition RTCP_PSFB_AFB : Z := 15.
Definition RTCP_XR_RRTR : Z := 4.
Definition RTCP_XR_DLRR : Z := 5.

(** Sizes of the structures on an LP64 platform. *)
Definition SIZEOF_RTCP_MSG : Z := 56.
Definition SIZEOF_RTCP_RR : Z := 24.
Definition SIZEOF_RTCP_SDES : Z := 24.
Definition SIZEOF_SDES_ITEM : Z := 16.
Definition SIZEOF_GNACK : Z := 4.
Definition SIZEOF_SLI : Z := 6.
Definition SIZEOF_FIR : Z := 8.
Definition SIZEOF_TWCC : Z := 32.
Definition SIZEOF_MBUF : Z := 32.

Record rtcp_hdr := RtcpHdr { rh_version : Z; rh_p : Z; rh_count : Z; rh_pt : Z; rh_length : Z }.

Record rtcp_rr := RtcpRr {
  rr_ssrc : Z; rr_fraction : Z; rr_lost : Z; rr_last_seq : Z; rr_jitter : Z; rr_lsr : Z; rr_dlsr : Z;
}.

(** An item: type and text. *)
Record rtcp_sdes := RtcpSdes { sd_src : Z; sd_itemv : list (Z * list Z) }.

Record gnack := Gnack { gn_pid : Z; gn_blp : Z }.
Record sli := Sli { sl_first : Z; sl_number : Z; sl_picid : Z }.
Record fir_rfc5104 := FirRfc5104 { fi_ssrc : Z; fi_seq_n : Z }.
Record twcc := Twcc { tw_seq : Z; tw_count : Z; tw_reftime : Z; tw_fbcount : Z; tw_chunks : list Z; tw_deltas : list Z }.

(** The feedback control information; [FNone] where there is none or it is not decoded. *)
Inductive rtcp_fci :=
| FGnack (v : list gnack) | FTwcc (v : twcc) | FSli (v : list sli) | FFir (v : list fir_rfc5104) | FAfb (d : list Z) | FNone.

(** Report blocks of an extended report. *)
Inductive rtcp_xrb := XRrtr (ntp_msw ntp_lsw : Z) | XDlrr (ssrc lrr dlrr : Z) | XNone.

Inductive rtcp_body :=
| MSr (ssrc ntp_sec ntp_frac rtp_ts psent osent : Z) (rrv : list rtcp_rr)
| MRr (ssrc : Z) (rrv : list rtcp_rr)
| MSdes (sdesv : list rtcp_sdes)
| MBye (srcv : list Z) (reason : option (list Z))
| MApp (src : Z) (name : list Z) (data : option (list Z))
| MFir (ssrc : Z)
| MNack (ssrc fsn blp : Z)
| MFb (ssrc_packet ssrc_media n : Z) (fci : rtcp_fci)
| MXr (ssrc bt block_len : Z) (rb : rtcp_xrb)
| MOther.

Record rtcp_msg := RtcpMsg { rm_hdr : rtcp_hdr; rm_r : rtcp_body }.

Section Rtcp.
Context `{H : Host}.

(** A handler returns an error code; [None] is a handler that does not return. *)
Definition rtcp_encode_h : Type := mbuf -> option (Z * mbuf).

Inductive rtcp_args :=
| ASr (ssrc ntp_sec ntp_frac rtp_ts psent osent : Z) (ench : option rtcp_encode_h)
| ARr (ssrc : Z) (ench : option rtcp_encode_h)
| ASdes (ench : option rtcp_encode_h)
| ABye (srcv : list Z) (reason : option (list Z))
| AApp (src : Z) (name : list Z) (data : option (list Z))
| AFir (ssrc : Z)
| ANack (ssrc fsn blp : Z)
| ARtpfb (ssrc_packet ssrc_media : Z) (ench : option rtcp_encode_h)
| APsfb (ssrc_packet ssrc_media : Z) (ench : option rtcp_encode_h)
| AXr (ssrc : Z) (ench : option rtcp_encode_h)
| AOther (type : Z).

Definition args_type (a : rtcp_args) : Z :=
  match a with
  | ASr _ _ _ _ _ _ _ => RTCP_SR | ARr _ _ => RTCP_RR | ASdes _ => RTCP_SDES | ABye _ _ => RTCP_BYE | AApp _ _ _ => RTCP_APP
  | AFir _ => RTCP_FIR | ANack _ _ _ => RTCP_NACK | ARtpfb _ _ _ => RTCP_RTPFB | APsfb _ _ _ => RTCP_PSFB | AXr _ _ => RTCP_XR
  | AOther t => t
  end.

(** ** rr.c *)

Definition rtcp_rr_encode (rr : rtcp_rr) : mbuf -> Z * mbuf :=
  (write_be32 (rr_ssrc rr)
   ;| write_be32 (Z.lor (u32 (Z.shiftl (rr_fraction rr) 24)) (Z.land (u32 (rr_lost rr)) 0x00ffffff))
   ;| write_be32 (rr_last_seq rr) ;| write_be32 (rr_jitter rr) ;| write_be32 (rr_lsr rr) ;| write_be32 (rr_dlsr rr))%mbuf.

(** [lost] is a signed field of 24 bits. *)
Definition rtcp_rr_decode : D rtcp_rr :=
  do! _ := dneed RTCP_RR_SIZE EBADMSG in
  do! ssrc := dread read_be32 in
  do! w := dread read_be32 in
  do! last_seq := dread read_be32 in
  do! jitter := dread read_be32 in
  do! lsr := dread read_be32 in
  do! dlsr := dread read_be32 in
  dret (RtcpRr ssrc (u8 (Z.shiftr w 24)) (swrap 24 (Z.land w 0x00ffffff)) last_seq jitter lsr dlsr).

(** ** sdes.c *)

(** The items of rtcp_sdes_encode; a NULL text is skipped.  [Err e]: a text
    beyond 255 characters, [goto out] with the error [e]. *)
Fixpoint sdes_items (l : list (Z * option (list Z))) (mb : mbuf) : res Z * mbuf :=
  match l with
  | [] => (Ok 0, mb)
  | (type, v) :: l =>
      match v with
      | None => sdes_items l mb
      | Some v =>
          if zlength v >? 255 then (Err EINVAL, mb)
          else
            let '(err, mb) :=
              (mbuf_write_u8 (u8 type) ;| mbuf_write_u8 (Z.land (zlength v) 0xff) ;| (fun mb => mbuf_write_mem mb v))%mbuf mb in
            if err =? 0 then sdes_items l mb else (Ok err, mb)
      end
  end.

Definition rtcp_sdes_encode (fuel : nat) (src : Z) (items : list (Z * option (list Z))) (mb : mbuf) : option (Z * mbuf) :=
  if bool_decide (items = []) then Some (EINVAL, mb)
  else
    let start := mb_pos mb in
    let '(err, mb) := write_be32 src mb in
    let '(r, mb) := if err =? 0 then sdes_items items mb else (Ok err, mb) in
    match r with
    | Err e => Some (e, mb)
    | Ok err =>
        let '(e, mb) := mbuf_write_u8 RTCP_SDES_END mb in
        align_loop fuel RTCP_SDES_END start (Z.lor err e) mb
    end.

(** [while ((mb->pos - start) & 0x3 && mbuf_get_left(mb)) ++mb->pos;] *)
Fixpoint slurp (fuel : nat) (start : Z) : D unit := fun mb =>
  if negb (Z.land (u64 (mb_pos mb - start)) 3 =? 0) && (0 <? mbuf_get_left mb) then
    match fuel with
    | O => None
    | S fuel => slurp fuel start (mbuf_set_pos mb (u64 (mb_pos mb + 1)))
    end
  else Some (Ok tt, mb).

Definition drealloc (old size : Z) : D unit :=
  match mem_realloc (calloc_bytes old) size with Some _ => dret tt | None => dthrow ENOMEM end.

Fixpoint sdes_decode_items (fuel : nat) (itemv : list (Z * list Z)) : D (list (Z * list Z)) := fun mb =>
  match fuel with
  | O => None
  | S fuel =>
      if mbuf_get_left mb >=? RTCP_SDES_MIN_SIZE then
        (do! type := dread mbuf_read_u8 in
         if type =? RTCP_SDES_END then dret itemv
         else
           do! _ := dneed 1 EBADMSG in
           let n := zlength itemv in
           do! _ := (if n =? 0 then dalloc SIZEOF_SDES_ITEM else drealloc (n * SIZEOF_SDES_ITEM) ((n + 1) * SIZEOF_SDES_ITEM)) in
           do! length := dread mbuf_read_u8 in
           do! _ := dneed length EBADMSG in
           do! _ := dalloc length in
           do! data := dread_mem length in
           sdes_decode_items fuel (itemv ++ [(type, data)])) mb
      else Some (Ok itemv, mb)
  end.

(** Each item takes two bytes or more: the bytes that are left bound the loop. *)
Definition rtcp_sdes_decode : D rtcp_sdes := fun mb =>
  (do! _ := dneed RTCP_SRC_SIZE EBADMSG in
   do! start := dpos in
   do! src := dread read_be32 in
   do! itemv := sdes_decode_items (S (Z.to_nat (mbuf_get_left mb))) [] in
   do! _ := slurp 3 start in
   dret (RtcpSdes src itemv)) mb.

(** ** fb.c *)

Definition rtcp_rtpfb_gnack_encode (pid blp : Z) : mbuf -> Z * mbuf := (write_be16 pid ;| write_be16 blp)%mbuf.

Definition rtcp_rtpfb_twcc_encode (t : twcc) : mbuf -> Z * mbuf :=
  (write_be16 (tw_seq t) ;| write_be16 (tw_count t)
   ;| write_be32 (Z.lor (tw_fbcount t) (u32 (Z.shiftl (tw_reftime t) 8)))
   ;| (fun mb => mbuf_write_mem mb (tw_chunks t)) ;| (fun mb => mbuf_write_mem mb (tw_deltas t)))%mbuf.

Definition encode_fir_rfc5104_fci (f : fir_rfc5104) : mbuf -> Z * mbuf :=
  (write_be32 (fi_ssrc f) ;| mbuf_write_u8 (fi_seq_n f) ;| mbuf_write_u8 0 ;| mbuf_write_u8 0 ;| mbuf_write_u8 0)%mbuf.

(** The sum over [j] from 0 below [k]. *)
Definition sum_to (k : Z) (f : Z -> Z) : Z := foldr (fun j s => f j + s) 0 (seqZ 0 k).

(** The packets of [i] that a chunk describes, and the bytes of their deltas. *)
Definition chunk_step (chunk i : Z) : Z * Z :=
  if negb (Z.land chunk 0x8000 =? 0) then
    if negb (Z.land chunk 0x4000 =? 0) then
      let k := Z.min i 7 in (k, sum_to k (fun j => Z.land (Z.shiftr chunk (2 * (7 - 1 - j))) 3))
    else let k := Z.min i 14 in (k, sum_to k (fun j => Z.land (Z.shiftr chunk (14 - 1 - j)) 1))
  else let k := Z.min i (Z.land chunk 0x1fff) in (k, k * Z.land (Z.shiftr chunk 13) 3).

(** The chunks read and the bytes of deltas they announce. *)
Fixpoint twcc_chunks (fuel : nat) (i sz : Z) : D (Z * Z) := fun mb =>
  match fuel with
  | O => None
  | S fuel =>
      if i >? 0 then
        (do! _ := dneed 2 EBADMSG in
         do! chunk := dread read_be16 in
         let '(k, s) := chunk_step chunk i in
         do! (n, sz) := twcc_chunks fuel (i - k) (sz + s) in
         dret (n + 1, sz)) mb
      else Some (Ok (0, sz), mb)
  end.

(** [mb] is the buffer that [chunks] and [deltas] refer to. *)
Definition twcc_decode_ref (mb : mbuf) (fuel : nat) (n : Z) : D twcc :=
   do! _ := dneed 8 EBADMSG in
   do! seq := dread read_be16 in
   do! count := dread read_be16 in
   do! _ := dcheck (negb ((count =? 0) || (count >? 32768))) EBADMSG in
   do! reftime := dread read_be32 in
   do! _ := dalloc SIZEOF_MBUF in
   do! cpos := dpos in
   do! (nchunks, sz) := twcc_chunks fuel count 0 in
   do! _ := dneed sz EBADMSG in
   do! _ := dalloc SIZEOF_MBUF in
   do! dpos_ := dpos in
   let chunks := mb_slice mb cpos (2 * nchunks) in
   let deltas := mb_slice mb dpos_ sz in
   let rest := u64 (n * 4 - 8 - 2 * nchunks) in
   do! _ := dneed rest EBADMSG in
   do! _ := (fun mb => Some (Ok tt, mbuf_advance mb rest)) in
   dret (Twcc seq count (Z.shiftr reftime 8) (Z.land reftime 0xff) chunks deltas).

(** A chunk takes two bytes: the bytes that are left bound the loop. *)
Definition rtcp_rtpfb_twcc_decode (n : Z) : D twcc := fun mb =>
  twcc_decode_ref mb (S (Z.to_nat (mbuf_get_left mb))) n mb.

Definition gnack_read : D gnack :=
  do! pid := dread read_be16 in do! blp := dread read_be16 in dret (Gnack pid blp).
Definition sli_read : D sli :=
  do! v := dread read_be32 in
  dret (Sli (Z.land (Z.shiftr v 19) 0x1fff) (Z.land (Z.shiftr v 6) 0x1fff) (Z.land v 0x3f)).
Definition fir_read : D fir_rfc5104 :=
  do! ssrc := dread read_be32 in
  do! seq_n := dread mbuf_read_u8 in
  do! _ := (fun mb => Some (Ok tt, mbuf_advance mb 3)) in
  dret (FirRfc5104 ssrc seq_n).

(** [fmt] is [msg->hdr.count]; the number of entries is returned too. *)
Definition rtcp_rtpfb_decode (fmt n : Z) : D (Z * rtcp_fci) :=
  if fmt =? RTCP_RTPFB_GNACK then
    do! _ := dalloc (n * SIZEOF_GNACK) in
    do! _ := dneed (n * GNACK_SIZE) EBADMSG in
    do! v := repeat_read (Z.to_nat n) gnack_read in dret (n, FGnack v)
  else if fmt =? RTCP_RTPFB_TWCC then
    do! _ := dneed 8 EBADMSG in
    do! _ := dalloc SIZEOF_TWCC in
    do! t := rtcp_rtpfb_twcc_decode n in dret (n, FTwcc t)
  else dret (n, FNone).

Definition rtcp_psfb_decode (fmt n : Z) : D (Z * rtcp_fci) :=
  if fmt =? RTCP_PSFB_PLI then dret (n, FNone)
  else if fmt =? RTCP_PSFB_SLI then
    do! _ := dalloc (n * SIZEOF_SLI) in
    do! _ := dneed (n * SLI_SIZE) EBADMSG in
    do! v := repeat_read (Z.to_nat n) sli_read in dret (n, FSli v)
  else if fmt =? RTCP_PSFB_AFB then
    do! _ := dneed (n * 4) EBADMSG in
    do! _ := dalloc SIZEOF_MBUF in
    do! d := (fun mb => Some (Ok (mb_slice mb (mb_pos mb) (n * 4)), mbuf_advance mb (n * 4))) in dret (n, FAfb d)
  else if fmt =? RTCP_PSFB_FIR then
    let n := n / 2 in
    do! _ := dalloc (n * SIZEOF_FIR) in
    do! _ := dneed (n * FIR_SIZE) EBADMSG in
    do! v := repeat_read (Z.to_nat n) fir_read in dret (n, FFir v)
  else dret (n, FNone).

(** ** pkt.c *)

Definition rtcp_hdr_encode (count type length : Z) : mbuf -> Z * mbuf :=
  (mbuf_write_u8 (u8 (Z.lor (Z.shiftl RTCP_VERSION 6) count)) ;| mbuf_write_u8 (u8 type) ;| write_be16 length)%mbuf.

Definition rtcp_hdr_decode : D rtcp_hdr :=
  do! _ := dneed RTCP_HDR_SIZE EBADMSG in
  do! b := dread mbuf_read_u8 in
  do! pt := dread mbuf_read_u8 in
  do! length := dread read_be16 in
  dret (RtcpHdr (Z.land (Z.shiftr b 6) 3) (Z.land (Z.shiftr b 5) 1) (Z.land (Z.shiftr b 0) 0x1f) pt length).

(** [f;] then [if (ench) err |= ench(mb, arg);] *)
Definition then_handler (f : mbuf -> Z * mbuf) (ench : option rtcp_encode_h) (mb : mbuf) : option (Z * mbuf) :=
  let '(e1, mb) := f mb in
  match ench with
  | None => Some (e1, mb)
  | Some h => '(e2, mb) ← h mb; Some (Z.lor e1 e2, mb)
  end.

(** [for (i=0; i<count && !err; i++) err = mbuf_write_u32(mb, htonl(srcv[i]));]
    over the sources that are left. *)
Fixpoint bye_srcs (srcv : list Z) (mb : mbuf) : Z * mbuf :=
  match srcv with
  | [] => (0, mb)
  | s :: srcv => let '(err, mb) := write_be32 s mb in if err =? 0 then bye_srcs srcv mb else (err, mb)
  end.

(** The switch of rtcp_vencode.  [Err e]: [return e] with the header not written. *)
Definition rtcp_vencode_body (a : rtcp_args) (count : Z) (mb : mbuf) : option (res Z * mbuf) :=
  let plain (r : Z * mbuf) := Some (Ok r.1, r.2) in
  let handled (r : option (Z * mbuf)) := '(e, mb) ← r; Some (Ok e, mb) in
  match a with
  | ASr a1 a2 a3 a4 a5 a6 ench =>
      handled (then_handler (write_be32 a1 ;| write_be32 a2 ;| write_be32 a3 ;| write_be32 a4 ;| write_be32 a5 ;| write_be32 a6)%mbuf
                 ench mb)
  | ARr ssrc ench => handled (then_handler (write_be32 ssrc) ench mb)
  | ASdes ench => handled (then_handler ret_ok ench mb)
  | ABye srcv reason =>
      match reason with
      | None => plain (bye_srcs (ztake count srcv) mb)
      | Some r =>
          plain ((bye_srcs (ztake count srcv) ;| mbuf_write_u8 (u8 (zlength r)) ;| mbuf_write_str r)%mbuf mb)
      end
  | AApp src name data =>
      let '(err, mb) := (write_be32 src ;| (fun mb => mbuf_write_mem mb (ztake 4 name)))%mbuf mb in
      match data with
      | None => Some (Ok err, mb)
      | Some d =>
          if negb (zlength d mod 4 =? 0) then Some (Err EBADMSG, mb)
          else let '(e, mb) := mbuf_write_mem mb d in Some (Ok (Z.lor err e), mb)
      end
  | AFir ssrc => plain (write_be32 ssrc mb)
  | ANack ssrc fsn blp => plain ((write_be32 ssrc ;| write_be16 fsn ;| write_be16 blp)%mbuf mb)
  | ARtpfb p m ench => handled (then_handler (write_be32 p ;| write_be32 m)%mbuf ench mb)
  | APsfb p m ench => handled (then_handler (write_be32 p ;| write_be32 m)%mbuf ench mb)
  | AXr ssrc ench => handled (then_handler (write_be32 ssrc) ench mb)
  | AOther _ => Some (Err EINVAL, mb)
  end.

(** [while ((mb->end - pos) & 0x3) err |= mbuf_write_u8(mb, 0x00);] *)
Fixpoint pad_end (fuel : nat) (pos err : Z) (mb : mbuf) : option (Z * mbuf) :=
  if Z.land (u64 (mb_end mb - pos)) 3 =? 0 then Some (err, mb)
  else
    match fuel with
    | O => None
    | S fuel => let '(e, mb) := mbuf_write_u8 0 mb in pad_end fuel pos (Z.lor err e) mb
    end.

Definition rtcp_vencode (fuel : nat) (a : rtcp_args) (count : Z) (mb : mbuf) : option (Z * mbuf) :=
  let pos := mb_pos mb in
  let p := u64 (mb_pos mb + RTCP_HDR_SIZE) in
  '(r, mb) ← rtcp_vencode_body a count (mbuf_set_end (mbuf_set_pos mb p) p);
  match r with
  | Err e => Some (e, mb)
  | Ok err =>
      if negb (err =? 0) then Some (err, mb)
      else
        '(err, mb) ← pad_end fuel pos 0 mb;
        if negb (err =? 0) then Some (err, mb)
        else
          let mb := mbuf_set_pos mb pos in
          let len := u16 (u64 (mb_end mb - pos - RTCP_HDR_SIZE) / 4) in
          let '(err, mb) := rtcp_hdr_encode (u8 count) (args_type a) len mb in
          if negb (err =? 0) then Some (err, mb) else Some (0, mbuf_skip_to_end mb)
  end.

Definition rtcp_rrv (count : Z) : D (list rtcp_rr) :=
  do! _ := dalloc (count * SIZEOF_RTCP_RR) in repeat_read (Z.to_nat count) rtcp_rr_decode.

Definition sr_decode (count : Z) : D rtcp_body :=
  do! _ := dneed (RTCP_SRC_SIZE + RTCP_SR_SIZE) EBADMSG in
  do! ssrc := dread read_be32 in
  do! ntp_sec := dread read_be32 in
  do! ntp_frac := dread read_be32 in
  do! rtp_ts := dread read_be32 in
  do! psent := dread read_be32 in
  do! osent := dread read_be32 in
  do! rrv := rtcp_rrv count in
  dret (MSr ssrc ntp_sec ntp_frac rtp_ts psent osent rrv).

Definition bye_decode (count rem : Z) : D rtcp_body :=
  do! _ := dalloc (count * 4) in
  do! _ := dneed (count * 4) EBADMSG in
  do! srcv := repeat_read (Z.to_nat count) (dread read_be32) in
  if rem >? count * 4 then
    do! len := dread mbuf_read_u8 in
    do! _ := dneed len EBADMSG in
    do! _ := dalloc (u64 (len + 1)) in
    do! reason := dread_mem len in
    dret (MBye srcv (Some reason))
  else dret (MBye srcv None).

Definition app_decode (rem : Z) : D rtcp_body :=
  do! _ := dneed RTCP_APP_SIZE EBADMSG in
  do! src := dread read_be32 in
  do! name := dread_mem 4 in
  if rem >? RTCP_APP_SIZE then
    let len := rem - RTCP_APP_SIZE in
    do! _ := dalloc len in
    do! _ := dneed len EBADMSG in
    do! d := dread_mem len in
    dret (MApp src name (Some d))
  else dret (MApp src name None).

Definition fb_decode (length : Z) (fci : Z -> D (Z * rtcp_fci)) : D rtcp_body :=
  do! _ := dneed RTCP_FB_SIZE EBADMSG in
  do! _ := dcheck (negb (length <? 2)) EBADMSG in
  do! p := dread read_be32 in
  do! m := dread read_be32 in
  do! (n, f) := fci (length - 2) in
  dret (MFb p m n f).

Definition xr_decode : D rtcp_body :=
  do! _ := dneed RTCP_HEADROOM EBADMSG in
  do! ssrc := dread read_be32 in
  do! bt := dread mbuf_read_u8 in
  do! _ := dread mbuf_read_u8 in
  do! len := dread read_be16 in
  if bt =? RTCP_XR_RRTR then
    do! _ := dcheck (len =? 2) EBADMSG in
    do! msw := dread read_be32 in
    do! lsw := dread read_be32 in dret (MXr ssrc bt len (XRrtr msw lsw))
  else if bt =? RTCP_XR_DLRR then
    do! _ := dcheck (len =? 3) EBADMSG in
    do! s := dread read_be32 in
    do! lrr := dread read_be32 in
    do! dlrr := dread read_be32 in dret (MXr ssrc bt len (XDlrr s lrr dlrr))
  else dret (MXr ssrc bt len XNone).

(** The switch of rtcp_decode. *)
Definition body_decode (hdr : rtcp_hdr) : D rtcp_body :=
  let count := rh_count hdr in
  let rem := rh_length hdr * 4 in
  let pt := rh_pt hdr in
  if pt =? RTCP_SR then sr_decode count
  else if pt =? RTCP_RR then
    do! _ := dneed RTCP_SRC_SIZE EBADMSG in
    do! ssrc := dread read_be32 in
    do! rrv := rtcp_rrv count in dret (MRr ssrc rrv)
  else if pt =? RTCP_SDES then
    if count =? 0 then dret (MSdes [])
    else
      do! _ := dalloc (count * SIZEOF_RTCP_SDES) in
      do! v := repeat_read (Z.to_nat count) rtcp_sdes_decode in dret (MSdes v)
  else if pt =? RTCP_BYE then bye_decode count rem
  else if pt =? RTCP_APP then app_decode rem
  else if pt =? RTCP_FIR then
    do! _ := dneed RTCP_FIR_SIZE EBADMSG in
    do! ssrc := dread read_be32 in dret (MFir ssrc)
  else if pt =? RTCP_NACK then
    do! _ := dneed RTCP_NACK_SIZE EBADMSG in
    do! ssrc := dread read_be32 in
    do! fsn := dread read_be16 in
    do! blp := dread read_be16 in dret (MNack ssrc fsn blp)
  else if pt =? RTCP_RTPFB then fb_decode (rh_length hdr) (rtcp_rtpfb_decode count)
  else if pt =? RTCP_PSFB then fb_decode (rh_length hdr) (rtcp_psfb_decode count)
  else if pt =? RTCP_XR then xr_decode
  else fun mb => Some (Ok MOther, mbuf_advance mb rem).

Definition rtcp_decode : D rtcp_msg :=
  do! _ := dneed RTCP_HDR_SIZE EBADMSG in
  do! _ := dalloc SIZEOF_RTCP_MSG in
  do! start := dpos in
  do! hdr := rtcp_hdr_decode in
  do! _ := dcheck (rh_version hdr =? RTCP_VERSION) EBADMSG in
  do! _ := dneed (rh_length hdr * 4) EBADMSG in
  do! r := body_decode hdr in
  do! _ := slurp 3 start in
  dret (RtcpMsg hdr r).

(** The loop of rtcp_recv_handler in rtp.c; [h] stands for the two handlers, rtcp_handler and
    then the application's.  A message takes four bytes or more: the bytes that
    are left bound the loop. *)
Fixpoint rtcp_recv_loop {St} (h : St -> rtcp_msg -> St) (fuel : nat) (st : St) (mb : mbuf) : option (St * mbuf) :=
  match fuel with
  | O => None
  | S fuel =>
      match rtcp_decode mb with
      | None => None
      | Some (Err _, mb) => Some (st, mb)
      | Some (Ok m, mb) => rtcp_recv_loop h fuel (h st m) mb
      end
  end.

Definition rtcp_recv_handler {St} (h : St -> rtcp_msg -> St) (st : St) (mb : mbuf) : option (St * mbuf) :=
  rtcp_recv_loop h (S (Z.to_nat (mbuf_get_left mb))) st mb.
End Rtcp.
