(* ===== verification/RtcpSpec.v ===== *)
(** * RTCP: the decoder on arbitrary input, and round trips

    rtcp_decode returns on any bytes and only moves forward; a compound packet
    made by rtcp_vencode from any well-formed messages is decoded to them. *)

From Stdlib Require Import ZArith Lia.
From stdpp Require Import base numbers list.
From S2P Require Import Prelude Endian Mbuf MbufView Format Rtcp.

Open Scope Z_scope.

(** ** Arbitrary input *)

Section Safety.
Context `{H : Host}.

Definition errs : list Z := [EBADMSG; ENOMEM].
Abbreviation safe := (runs errs).

Lemma bad_in : EBADMSG ∈ errs. Proof. apply elem_of_cons. by left. Qed.
Lemma nomem_in : ENOMEM ∈ errs. Proof. apply elem_of_cons. right. by apply list_elem_of_singleton. Qed.
Local Hint Resolve bad_in nomem_in : core.

Lemma rr_decode_safe s : safe s 0 rtcp_rr_decode (fun _ => True).
Proof.
  unfold rtcp_rr_decode, RTCP_RR_SIZE. apply runs_need; [done|].
  replace 24 with (4 + (4 + (4 + (4 + (4 + (4 + 0)))))) by lia.
  do 6 (eapply runs_eat; [lia|lia|apply eats_32|intros ? ?]). by apply runs_ret.
Qed.

Lemma slurp_safe start k : forall fuel mb,
  (k <= fuel)%nat -> mbuf_wf mb -> 0 <= start <= mb_pos mb -> (mb_pos mb - start + Z.of_nat k) mod 4 = 0 ->
  exists mb', slurp fuel start mb = Some (Ok tt, mb') /\ advances mb mb'.
Proof.
  induction k as [|k IH]; intros fuel mb Hk W Hs Hm.
  - rewrite Z.add_0_r in Hm. exists mb. split; [|done]. destruct fuel; cbn [slurp]; by rewrite aligned, Hm by done.
  - destruct fuel as [|fuel]; [lia|]. cbn [slurp]. destruct (negb _ && _) eqn:E; [|by exists mb]. apply andb_prop in E as [_ E%Z.ltb_lt].
    rewrite mbuf_get_left_rest, zlength_rest in E by done. mbuf_wf_facts. rewrite wrap_small by lia.
    assert (Ha : advances mb (mbuf_set_pos mb (mb_pos mb + 1))) by (apply advances_set_pos; lia).
    destruct (IH fuel (mbuf_set_pos mb (mb_pos mb + 1))) as (mb' & E' & Ha'); [lia|by apply (advances_wf mb)|cbn; lia| |].
    { cbn. rewrite <- Hm. f_equal. lia. }
    exists mb'. split; [done|]. by etrans.
Qed.

Lemma slurp_any start mb : mbuf_wf mb -> 0 <= start <= mb_pos mb ->
  exists mb', slurp 3 start mb = Some (Ok tt, mb') /\ advances mb mb'.
Proof.
  intros W Hs. pose proof (pad_len_range (mb_pos mb - start)). apply (slurp_safe start (Z.to_nat (pad_len (mb_pos mb - start)))); [lia|done|done|].
  rewrite Z2Nat.id by lia. apply pad_len_mod.
Qed.

Lemma slurp_runs s : safe s 0 (slurp 3 s) (fun _ => True).
Proof. intros mb W Hl Hs. destruct (slurp_any s mb W Hs) as (mb' & E & Ha). by exists (Ok tt), mb'. Qed.

Definition any {A} (_ : A) : Prop := True.

Lemma repeat_safe {A} s k (d : D A) P : safe s 0 d P -> safe s 0 (repeat_read k d) any.
Proof. intros Hd. eapply runs_impl; [by apply runs_repeat|lia|done]. Qed.

Lemma rrv_safe s count : safe s 0 (rtcp_rrv count) any.
Proof. unfold rtcp_rrv. apply runs_alloc; [done|]. eapply repeat_safe, rr_decode_safe. Qed.

(** Steps of a decoder; what is left are the calls of other decoders. *)
Ltac run_step :=
  lazymatch goal with
  | |- runs _ _ _ (dbind (dneed _ _) _) _ => apply runs_need; [done|]
  | |- runs _ _ _ (dbind (dcheck _ _) _) _ => apply runs_check; [done|intros _]
  | |- runs _ _ _ (dbind (dalloc _) _) _ => apply runs_alloc; [done|]
  | |- runs _ _ _ (dbind dpos _) _ => apply runs_pos; intros ? ?
  | |- runs _ _ 0 (dbind (dread read_be32) _) _ => eapply runs_bind; [apply runs_32|intros ? ?]
  | |- runs _ _ 0 (dbind (dread read_be16) _) _ => eapply runs_bind; [apply runs_16|intros ? ?]
  | |- runs _ _ 0 (dbind (dread mbuf_read_u8) _) _ => eapply runs_bind; [apply runs_8|intros ? ?]
  | |- runs _ _ ?n (dbind (dread read_be32) _) _ => eapply (runs_impl _ _ _ 0 n); [|lia|]; [|intros ? Hx; exact Hx]
  | |- runs _ _ ?n (dbind (dread read_be16) _) _ => eapply (runs_impl _ _ _ 0 n); [|lia|]; [|intros ? Hx; exact Hx]
  | |- runs _ _ _ (dret _) _ => by apply runs_ret
  | |- runs _ _ _ (if ?b then _ else _) _ => destruct b
  end.

(** The words of a decoded report. *)
Definition body_sane (r : rtcp_body) : Prop :=
  match r with MSr a1 a2 a3 a4 a5 a6 _ => Forall is_u32 [a1; a2; a3; a4; a5; a6] | MRr ssrc _ => is_u32 ssrc | _ => True end.

Lemma sr_safe s count : safe s 0 (sr_decode count) body_sane.
Proof.
  unfold sr_decode, RTCP_SRC_SIZE, RTCP_SR_SIZE. repeat run_step. eapply runs_bind; [apply rrv_safe|]. intros. apply runs_ret.
  repeat (constructor; [done|]). constructor.
Qed.

Lemma app_safe s rem : safe s 0 (app_decode rem) body_sane.
Proof.
  unfold app_decode, RTCP_APP_SIZE. run_step. replace 8 with (4 + (4 + 0)) at 1 by lia.
  eapply runs_eat; [lia|lia|apply eats_32|]. intros src _. eapply runs_eat; [lia|lia|apply eats_mem; lia|]. intros name _.
  destruct (Z.gtb_spec rem 8); [|by run_step]. do 2 run_step. replace (rem - 8) with (rem - 8 + 0) at 1 by lia.
  eapply runs_eat; [lia|lia|apply eats_mem; lia|]. intros d _. by run_step.
Qed.

Lemma bye_safe s count rem : 0 <= count -> safe s 0 (bye_decode count rem) body_sane.
Proof.
  intros Hc. unfold bye_decode. do 2 run_step. eapply (runs_impl _ _ _ 0); [|lia|intros ? Hx; exact Hx].
  eapply runs_bind; [eapply repeat_safe, runs_32|]. intros srcv _. run_step; [|by run_step]. run_step. do 2 run_step.
  match goal with Hb : is_byte ?n |- runs _ _ ?n _ _ => rename n into len; rename Hb into Hlen end. unfold is_byte in Hlen.
  replace len with (len + 0) at 1 by lia. eapply runs_eat; [lia|lia|apply eats_mem; lia|]. intros d _. by run_step.
Qed.

Lemma advance_safe s n : 0 <= n -> safe s n (fun mb => Some (Ok tt, mbuf_advance mb n)) any.
Proof.
  intros Hn mb W Hl Hs. exists (Ok tt), (adv mb n). split; [|split; [by apply adv_advances|done]].
  rewrite mbuf_get_left_rest, zlength_rest in Hl by done. unfold mbuf_advance, adv. do 3 f_equal. apply wrap_small. mbuf_wf_facts. lia.
Qed.

(** A decoder with fuel for what is left: [n] bytes or more, less than [fuel]. *)
Definition bounded {A} (fuel : nat) (n : Z) (d : D A) (P : A -> Prop) : Prop :=
  forall mb, mbuf_wf mb -> n <= mbuf_get_left mb -> mbuf_get_left mb < Z.of_nat fuel ->
  exists r mb', d mb = Some (r, mb') /\ advances mb mb' /\ match r with Ok a => P a | Err e => e ∈ errs end.

Lemma bounded_eat {A B} fuel (d : D A) (k : A -> D B) n m P Q :
  0 <= n -> 0 <= m -> eats n d P -> (forall a, P a -> bounded (fuel - Z.to_nat n) m (k a) Q) -> bounded fuel (n + m) (dbind d k) Q.
Proof.
  intros Hn Hm Hd Hk mb W Hl Hf. destruct (Hd mb W ltac:(lia)) as (a & E & Ha). destruct (left_adv mb n W ltac:(lia)) as [El W'].
  destruct (Hk a Ha (adv mb n) W' ltac:(lia) ltac:(lia)) as (r & mb' & E' & Hadv & Hr). exists r, mb'. unfold dbind. rewrite E.
  split; [done|]. split; [|done]. etrans; [apply (adv_advances mb n W); lia|done].
Qed.

Lemma bounded_need {A} fuel (d : D A) n m P : bounded fuel m d P -> bounded fuel n (do! _ := dneed m EBADMSG in d) P.
Proof.
  intros Hd mb W Hl Hf. unfold dbind, dneed. destruct (Z.ltb_spec (mbuf_get_left mb) m); [by exists (Err EBADMSG), mb|]. by apply Hd.
Qed.

Lemma bounded_ret {A} fuel n (a : A) P : P a -> bounded fuel n (dret a) P.
Proof. intros Ha mb W Hl Hf. by exists (Ok a), mb. Qed.

Lemma bounded_le {A} fuel fuel' n (d : D A) P : bounded fuel n d P -> (fuel' <= fuel)%nat -> bounded fuel' n d P.
Proof. intros Hd Hf mb W Hl Hb. apply Hd; [done|done|lia]. Qed.

Lemma bounded_alloc {A} fuel n (d : D A) (alloc : D unit) P :
  (forall mb, alloc mb = Some (Ok tt, mb)) \/ (forall mb, alloc mb = Some (Err ENOMEM, mb)) ->
  bounded fuel n d P -> bounded fuel n (do! _ := alloc in d) P.
Proof.
  intros Hal Hd mb W Hl Hf. unfold dbind. destruct Hal as [E|E]; rewrite E; [by apply Hd|]. by exists (Err ENOMEM), mb.
Qed.

Lemma dalloc_cases n : (forall mb, dalloc n mb = Some (Ok tt, mb)) \/ (forall mb, dalloc n mb = Some (Err ENOMEM, mb)).
Proof. unfold dalloc. destruct (mem_alloc n); [by left|by right]. Qed.

Lemma drealloc_cases m n : (forall mb, drealloc m n mb = Some (Ok tt, mb)) \/ (forall mb, drealloc m n mb = Some (Err ENOMEM, mb)).
Proof. unfold drealloc. destruct (mem_realloc _ n); [by left|by right]. Qed.

Lemma left_nonneg mb : 0 <= mbuf_get_left mb.
Proof. unfold mbuf_get_left. case_test; lia. Qed.

Lemma items_bounded fuel : forall itemv, bounded fuel 0 (sdes_decode_items fuel itemv) any.
Proof.
  induction fuel as [|fuel IH]; intros itemv.
  { intros mb W Hl Hf. lia. }
  intros mb W Hl Hf. cbn [sdes_decode_items]. rewrite Z.geb_leb. unfold RTCP_SDES_MIN_SIZE.
  destruct (Z.leb_spec 1 (mbuf_get_left mb)) as [Hl1|]; [|by exists (Ok itemv), mb]. clear Hl. revert mb W Hl1 Hf.
  change 1 with (1 + 0). eapply bounded_eat; [lia|lia|apply eats_8|]. intros type _. replace (S fuel - Z.to_nat 1)%nat with fuel by lia.
  destruct (type =? RTCP_SDES_END); [by apply bounded_ret|]. apply bounded_need, bounded_alloc.
  { destruct (_ =? 0); [apply dalloc_cases|apply drealloc_cases]. }
  change 1 with (1 + 0). eapply bounded_eat; [lia|lia|apply eats_8|]. intros len Hlen. unfold is_byte in Hlen.
  apply bounded_need, bounded_alloc; [apply dalloc_cases|]. replace len with (len + 0) at 1 by lia.
  eapply bounded_eat; [lia|lia|apply eats_mem; lia|]. intros d _. eapply bounded_le; [apply IH|lia].
Qed.

Lemma sdes_safe s : safe s 0 rtcp_sdes_decode any.
Proof.
  intros mb W Hl Hs. unfold rtcp_sdes_decode. set (fuel := S (Z.to_nat (mbuf_get_left mb))).
  assert (Hfu : mbuf_get_left mb < Z.of_nat fuel) by (pose proof (left_nonneg mb); lia). clearbody fuel.
  unfold dbind at 1, dneed. destruct (Z.ltb_spec (mbuf_get_left mb) RTCP_SRC_SIZE) as [|H4]; [by exists (Err EBADMSG), mb|].
  unfold dbind at 1, dpos. unfold RTCP_SRC_SIZE in H4. destruct (eats_32 mb W H4) as (src & E & _). unfold dbind at 1. rewrite E.
  destruct (left_adv mb 4 W ltac:(lia)) as [El W1]. pose proof (adv_advances mb 4 W ltac:(lia)) as Ha1.
  destruct (items_bounded fuel [] (adv mb 4) W1 ltac:(lia) ltac:(lia)) as ([v|e] & mb2 & E2 & Ha2 & Hr); unfold dbind at 1; rewrite E2.
  - assert (Ha : advances mb mb2) by by etrans. destruct (Ha W) as (W2 & _ & _ & _ & Hp).
    destruct (slurp_any (mb_pos mb) mb2 W2 ltac:(lia)) as (mb3 & E3 & Ha3). unfold dbind. rewrite E3.
    exists (Ok (RtcpSdes src v)), mb3. split; [done|]. split; [by etrans|done].
  - exists (Err e), mb2. split; [done|]. split; [by etrans|done].
Qed.

Lemma bounded_map {A B} fuel n (d : D A) (k : A -> D B) P Q :
  bounded fuel n d P -> (forall a, P a -> exists b, k a = dret b /\ Q b) -> bounded fuel n (dbind d k) Q.
Proof.
  intros Hd Hk mb W Hl Hf. destruct (Hd mb W Hl Hf) as ([a|e] & mb' & E & Ha & Hr); unfold dbind; rewrite E.
  - destruct (Hk a Hr) as (b & -> & Hb). by exists (Ok b), mb'.
  - by exists (Err e), mb'.
Qed.

Lemma sum_to_nonneg k f : (forall j, 0 <= f j) -> 0 <= sum_to k f.
Proof. intros Hf. unfold sum_to. induction (seqZ 0 k) as [|j l IH]; cbn; [done|]. specialize (Hf j). lia. Qed.

Lemma chunk_step_nonneg chunk i : 0 <= i -> 0 <= (chunk_step chunk i).1 <= i /\ 0 <= (chunk_step chunk i).2.
Proof.
  intros Hi. assert (Hl : forall a b, 0 <= b -> 0 <= Z.land a b) by (intros; apply Z.land_nonneg; by right).
  unfold chunk_step. pose proof (Hl chunk 0x1fff ltac:(lia)). pose proof (Hl (Z.shiftr chunk 13) 3 ltac:(lia)).
  destruct (negb _); [destruct (negb _)|]; cbn [fst snd]; (split; [lia|]).
  - apply sum_to_nonneg. intros. by apply Hl.
  - apply sum_to_nonneg. intros. by apply Hl.
  - apply Z.mul_nonneg_nonneg; lia.
Qed.

Lemma chunks_bounded fuel : forall i sz, 0 <= sz -> bounded fuel 0 (twcc_chunks fuel i sz) (fun r => 0 <= r.1 /\ 0 <= r.2).
Proof.
  induction fuel as [|fuel IH]; intros i sz Hsz mb W Hl Hf; [lia|]. cbn [twcc_chunks].
  destruct (Z.gtb_spec i 0) as [Hi|]; [|by exists (Ok (0, sz)), mb; split; [|split; [|cbn; lia]]]. revert mb W Hl Hf.
  apply bounded_need. change 2 with (2 + 0). eapply bounded_eat; [lia|lia|apply eats_16|]. intros chunk _.
  destruct (chunk_step_nonneg chunk i ltac:(lia)) as [Hk Hs]. destruct (chunk_step chunk i) as [k s]. cbn [fst snd] in *.
  eapply bounded_map; [eapply bounded_le; [apply IH; lia|lia]|]. intros [n sz'] [Hn Hz]. eexists. split; [done|]. cbn in *. lia.
Qed.

Lemma bounded_bind {A B} fuel n (d : D A) (k : A -> D B) P Q :
  bounded fuel n d P -> (forall a, P a -> bounded fuel 0 (k a) Q) -> bounded fuel n (dbind d k) Q.
Proof.
  intros Hd Hk mb W Hl Hf. destruct (Hd mb W Hl Hf) as ([a|e] & mb1 & E & Ha & Hr); unfold dbind; rewrite E; [|by exists (Err e), mb1].
  destruct (Ha W) as (W1 & _ & _ & He & Hp). destruct (Hk a Hr mb1 W1) as (r & mb2 & E2 & Ha2 & Hr2); [apply left_nonneg| |].
  { rewrite mbuf_get_left_rest, zlength_rest in * by done. lia. }
  exists r, mb2. split; [done|]. split; [by etrans|done].
Qed.

Lemma runs_bounded {A} fuel n (d : D A) P : safe 0 n d P -> bounded fuel n d P.
Proof. intros Hd mb W Hl Hf. apply Hd; [done|done|]. mbuf_wf_facts. lia. Qed.

Lemma bounded_check {A} fuel n (d : D A) b P : bounded fuel n d P -> bounded fuel n (do! _ := dcheck b EBADMSG in d) P.
Proof. intros Hd. destruct b; [done|]. intros mb W Hl Hf. by exists (Err EBADMSG), mb. Qed.

Lemma twcc_bounded mem fuel n : bounded fuel 0 (twcc_decode_ref mem fuel n) any.
Proof.
  unfold twcc_decode_ref. apply bounded_need. change 8 with (2 + (2 + (4 + 0))) at 1.
  eapply bounded_eat; [lia|lia|apply eats_16|]. intros seq _. eapply bounded_eat; [lia|lia|apply eats_16|]. intros count _.
  apply bounded_check. eapply bounded_eat; [lia|lia|apply eats_32|]. intros reftime _. apply bounded_alloc; [apply dalloc_cases|].
  apply (bounded_bind _ _ _ _ any); [by intros mb W _ _; exists (Ok (mb_pos mb)), mb|]. intros cpos _.
  eapply bounded_bind; [eapply bounded_le; [by apply chunks_bounded|lia]|]. intros [nchunks sz] [_ _]. apply runs_bounded.
  do 4 run_step. eapply runs_bind; [apply advance_safe, wrap_range; lia|]. intros [] _. by run_step.
Qed.

Lemma twcc_safe s n : safe s 0 (rtcp_rtpfb_twcc_decode n) any.
Proof. intros mb W Hl Hs. apply twcc_bounded; [done|done|lia]. Qed.

Lemma rtpfb_safe s fmt n : 0 <= n -> safe s 0 (rtcp_rtpfb_decode fmt n) any.
Proof.
  intros Hn. unfold rtcp_rtpfb_decode. repeat run_step.
  - eapply (runs_impl _ _ _ 0); [|unfold GNACK_SIZE; lia|intros ? Hx; exact Hx].
    eapply runs_bind; [eapply (repeat_safe _ _ _ any)|intros; by run_step]. unfold gnack_read. repeat run_step.
  - eapply (runs_impl _ _ _ 0); [|lia|intros ? Hx; exact Hx]. eapply runs_bind; [apply twcc_safe|]. intros; by run_step.
Qed.

Lemma psfb_safe s fmt n : 0 <= n -> safe s 0 (rtcp_psfb_decode fmt n) any.
Proof.
  intros Hn. unfold rtcp_psfb_decode. repeat run_step.
  - eapply (runs_impl _ _ _ 0); [|unfold SLI_SIZE; lia|intros ? Hx; exact Hx].
    eapply runs_bind; [eapply (repeat_safe _ _ _ any)|intros; by run_step]. unfold sli_read. repeat run_step.
  - apply (runs_bind _ _ _ _ _ any); [|intros; by run_step]. intros mb W Hl Hs.
    destruct (advance_safe s (n * 4) ltac:(lia) mb W Hl Hs) as (r & mb' & E & Ha & _). injection E as <- <-. eexists (Ok _), _. by split_and!.
  - assert (Hn2 : 0 <= n / 2) by (apply Z.div_pos; lia). unfold FIR_SIZE.
    replace (n / 2 * 8) with (Z.of_nat (Z.to_nat (n / 2)) * 8 + 0) by lia.
    eapply (runs_eat _ _ _ _ _ _ (fun _ => True)); [lia|lia| |intros; by run_step].
    eapply eats_impl; [apply (eats_repeat _ 8 _ any); [lia|]|done]. unfold fir_read. change 8 with (4 + (1 + (3 + 0))).
    eapply eats_bind; [lia|lia|apply eats_32|]. intros ssrc _. eapply eats_bind; [lia|lia|apply eats_8|]. intros seq _.
    eapply eats_bind; [lia|lia|apply eats_advance; lia|]. intros [] _. by apply eats_ret.
Qed.

Lemma fb_safe s len fci : (forall n, 0 <= n -> safe s 0 (fci n) any) -> safe s 0 (fb_decode len fci) body_sane.
Proof.
  intros Hf. unfold fb_decode, RTCP_FB_SIZE. run_step. apply runs_check; [done|]. intros Hl%negb_true_iff%Z.ltb_ge.
  repeat run_step. eapply runs_bind; [apply Hf; lia|]. intros [n f] _. by run_step.
Qed.

Lemma xr_safe s : safe s 0 xr_decode body_sane.
Proof. unfold xr_decode, RTCP_HEADROOM. repeat run_step. Qed.

Definition hdr_sane (h : rtcp_hdr) : Prop := 0 <= rh_count h /\ is_u16 (rh_length h).

Lemma body_safe s hdr : hdr_sane hdr -> safe s (rh_length hdr * 4) (body_decode hdr) body_sane.
Proof.
  intros [Hc Hl]. unfold is_u16 in Hl. unfold body_decode. assert (Hle : 0 <= rh_length hdr * 4) by lia.
  assert (Hz : forall A (d : D A) P, safe s 0 d P -> safe s (rh_length hdr * 4) d P) by (intros; by eapply runs_impl; [|exact Hle|]).
  destruct (rh_pt hdr =? RTCP_SR); [apply Hz, sr_safe|].
  destruct (rh_pt hdr =? RTCP_RR). { unfold RTCP_SRC_SIZE. repeat run_step. eapply runs_bind; [apply rrv_safe|]. intros. by run_step. }
  destruct (rh_pt hdr =? RTCP_SDES).
  { run_step; [by run_step|]. run_step. apply Hz. eapply runs_bind; [eapply repeat_safe, sdes_safe|]. intros. by run_step. }
  destruct (rh_pt hdr =? RTCP_BYE); [by apply Hz, bye_safe|].
  destruct (rh_pt hdr =? RTCP_APP); [apply Hz, app_safe|].
  destruct (rh_pt hdr =? RTCP_FIR); [unfold RTCP_FIR_SIZE; repeat run_step|].
  destruct (rh_pt hdr =? RTCP_NACK); [unfold RTCP_NACK_SIZE; repeat run_step|].
  destruct (rh_pt hdr =? RTCP_RTPFB); [apply Hz, fb_safe; intros; by apply rtpfb_safe|].
  destruct (rh_pt hdr =? RTCP_PSFB); [apply Hz, fb_safe; intros; by apply psfb_safe|].
  destruct (rh_pt hdr =? RTCP_XR); [apply Hz, xr_safe|].
  intros mb W Hlm Hs. destruct (advance_safe s _ Hle mb W Hlm Hs) as (r & mb' & E & Ha & _). injection E as <- <-.
  eexists (Ok _), _. by split_and!.
Qed.

Lemma hdr_eats : eats 4 rtcp_hdr_decode hdr_sane.
Proof.
  intros mb W Hl. unfold rtcp_hdr_decode, dbind at 1, dneed, RTCP_HDR_SIZE. rewrite (proj2 (Z.ltb_ge _ _)) by done. revert mb W Hl.
  change 4 with (1 + (1 + (2 + 0))). eapply eats_bind; [lia|lia|apply eats_8|]. intros b _.
  eapply eats_bind; [lia|lia|apply eats_8|]. intros pt _. eapply eats_bind; [lia|lia|apply eats_16|]. intros len Hlen.
  apply eats_ret. split; [|done]. apply Z.land_nonneg. by right.
Qed.

(** rtcp_decode returns: a message, EBADMSG or ENOMEM.  It moves the position
    forward only, and by the size of the header at least when it succeeds. *)
Lemma decode_runs mb :
  mbuf_wf mb ->
  exists r mb', rtcp_decode mb = Some (r, mb') /\ advances mb mb'
    /\ match r with
       | Ok m => (rh_version (rm_hdr m) = RTCP_VERSION /\ body_sane (rm_r m)) /\ mb_pos mb + RTCP_HDR_SIZE <= mb_pos mb'
       | Err e => e = EBADMSG \/ e = ENOMEM
       end.
Proof.
  intros W. unfold rtcp_decode. assert (Hin : forall e, e ∈ errs -> e = EBADMSG \/ e = ENOMEM).
  { intros e [->|[->|He]%elem_of_cons]%elem_of_cons; [by left|by right|by apply not_elem_of_nil in He]. }
  unfold dbind at 1, dneed at 1. destruct (Z.ltb_spec (mbuf_get_left mb) RTCP_HDR_SIZE) as [|H4]; [exists (Err EBADMSG), mb; split_and!; [done|done|by left]|].
  unfold dbind at 1. destruct (dalloc_cases SIZEOF_RTCP_MSG) as [->| ->]; [|exists (Err ENOMEM), mb; split_and!; [done|done|by right]].
  unfold dbind at 1, dpos. unfold RTCP_HDR_SIZE in *. destruct (hdr_eats mb W H4) as (h & E & Hh). unfold dbind at 1. rewrite E.
  pose proof (adv_advances mb 4 W ltac:(lia)) as Ha. destruct (left_adv mb 4 W ltac:(lia)) as [_ W4].
  set (body := do! _ := dneed _ EBADMSG in _).
  assert (Hb : safe (mb_pos mb) 0 body (fun m => rm_hdr m = h /\ body_sane (rm_r m))).
  { unfold body. run_step. eapply runs_bind; [by apply body_safe|]. intros r Hr. eapply runs_bind; [apply slurp_runs|]. intros [] _. by apply runs_ret. }
  clearbody body. unfold dbind, dcheck. destruct (Z.eqb_spec (rh_version h) RTCP_VERSION) as [Hv|Hv]; cycle 1.
  { exists (Err EBADMSG), (adv mb 4). split; [done|]. split; [done|by left]. }
  destruct (Hb (adv mb 4) W4 (left_nonneg _)) as (r & mb' & E' & Ha' & Hr); [mbuf_wf_facts; cbn; lia|].
  exists r, mb'. split; [done|]. split; [by etrans|]. destruct r as [m|e]; [|by apply Hin]. destruct Hr as [-> Hr]. split; [done|].
  destruct (Ha' W4) as (_ & _ & _ & _ & Hp). cbn in Hp. lia.
Qed.

Lemma recv_loop_runs {St} (h : St -> rtcp_msg -> St) fuel : forall st mb,
  mbuf_wf mb -> mbuf_get_left mb < Z.of_nat fuel ->
  exists msgs mb', rtcp_recv_loop h fuel st mb = Some (fold_left h msgs st, mb') /\ advances mb mb'
    /\ Forall (fun m => rh_version (rm_hdr m) = RTCP_VERSION /\ body_sane (rm_r m)) msgs /\ mb_pos mb + RTCP_HDR_SIZE * zlength msgs <= mb_pos mb'.
Proof.
  induction fuel as [|fuel IH]; intros st mb W Hf; [pose proof (left_nonneg mb); lia|]. cbn [rtcp_recv_loop].
  destruct (decode_runs mb W) as (r & mb1 & -> & Ha & Hr). destruct (Ha W) as (W1 & _ & _ & He & Hp). unfold RTCP_HDR_SIZE in *. destruct r as [m|e].
  - destruct Hr as [Hv Hp4]. destruct (IH (h st m) mb1 W1) as (msgs & mb2 & E & Ha2 & Hv2 & Hp2).
    { rewrite !mbuf_get_left_rest, !zlength_rest in * by done. lia. }
    exists (m :: msgs), mb2. split; [done|]. split; [by etrans|]. split; [by constructor|]. rewrite zlength_cons. lia.
  - exists [], mb1. split; [done|]. split; [done|]. split; [constructor|]. change (zlength (@nil rtcp_msg)) with 0. lia.
Qed.

(** C37: whatever a datagram holds, rtcp_recv_handler returns: it hands a list of
    messages of version 2 to the handlers, in order, each of them decoded from
    at least a header's worth of new bytes, and only moves the position
    forward within the datagram. *)
Theorem rtcp_recv_safe {St} (h : St -> rtcp_msg -> St) st mb :
  mbuf_wf mb ->
  exists msgs mb', rtcp_recv_handler h st mb = Some (fold_left h msgs st, mb') /\ advances mb mb'
    /\ Forall (fun m => rh_version (rm_hdr m) = RTCP_VERSION) msgs /\ RTCP_HDR_SIZE * zlength msgs <= mbuf_get_left mb.
Proof.
  intros W. pose proof (left_nonneg mb). destruct (recv_loop_runs h (S (Z.to_nat (mbuf_get_left mb))) st mb W ltac:(lia)) as (msgs & mb' & E & Ha & Hv & Hp).
  exists msgs, mb'. split; [done|]. split; [done|]. split; [eapply Forall_impl; [exact Hv|]; by intros m [? _]|]. destruct (Ha W) as (W' & _ & _ & He & _).
  rewrite mbuf_get_left_rest, zlength_rest by done. pose proof (wf_pos _ W'). unfold RTCP_HDR_SIZE in *. lia.
Qed.
End Safety.

(** A BYE packet and three bytes more. *)
Lemma rtcp_recv_safe_witness :
  exists msgs mb', rtcp_recv_handler (H := lp64_le) (fun l m => l ++ [m]) [] (rcv_buf [129; 203; 0; 1; 0; 0; 0; 7; 1; 2; 3])
      = Some (fold_left (fun l m => l ++ [m]) msgs [], mb')
    /\ advances (rcv_buf [129; 203; 0; 1; 0; 0; 0; 7; 1; 2; 3]) mb'
    /\ Forall (fun m => rh_version (rm_hdr m) = RTCP_VERSION) msgs
    /\ RTCP_HDR_SIZE * zlength msgs <= mbuf_get_left (rcv_buf [129; 203; 0; 1; 0; 0; 0; 7; 1; 2; 3]).
Proof.
  apply (rtcp_recv_safe (H := lp64_le)). apply (holds_wf _ [129; 203; 0; 1; 0; 0; 0; 7; 1; 2; 3] 0).
  apply rcv_buf_holds; [repeat (constructor; [split; lia|]); constructor|vm_compute; discriminate].
Defined.
