(* ===== verification/RtcpWire.v ===== *)
(** * RTCP: messages on the wire

    The bytes of a message, what the decoder makes of them, and what
    rtcp_vencode writes: a compound packet made from any well-formed messages
    is decoded to them. *)

From Stdlib Require Import ZArith Lia.
From stdpp Require Import base numbers list.
From S2P Require Import Prelude Endian Mbuf MbufView Format Rtcp.

Open Scope Z_scope.

(** ** The bytes of a message *)

Definition rr_word (rr : rtcp_rr) : Z := Z.lor (u32 (Z.shiftl (rr_fraction rr) 24)) (Z.land (u32 (rr_lost rr)) 0x00ffffff).
Definition rr_bytes (rr : rtcp_rr) : list Z :=
  be_bytes 4 (rr_ssrc rr) ++ be_bytes 4 (rr_word rr) ++ be_bytes 4 (rr_last_seq rr) ++ be_bytes 4 (rr_jitter rr)
  ++ be_bytes 4 (rr_lsr rr) ++ be_bytes 4 (rr_dlsr rr).
Definition rr_ok (rr : rtcp_rr) : Prop :=
  is_u32 (rr_ssrc rr) /\ 0 <= rr_fraction rr < 256 /\ - 2 ^ 23 <= rr_lost rr < 2 ^ 23 /\ is_u32 (rr_last_seq rr)
  /\ is_u32 (rr_jitter rr) /\ is_u32 (rr_lsr rr) /\ is_u32 (rr_dlsr rr).

Definition zeros (n : Z) : list Z := replicate (Z.to_nat n) 0.

Definition item_bytes (i : Z * list Z) : list Z := i.1 :: zlength i.2 :: i.2.
Definition items_bytes (l : list (Z * list Z)) : list Z := concat (map item_bytes l).
(** The items, the END item and padding to four bytes. *)
Definition sdes_bytes (s : rtcp_sdes) : list Z :=
  let d := items_bytes (sd_itemv s) in
  be_bytes 4 (sd_src s) ++ (d ++ [0]) ++ zeros (pad_len (4 + zlength d + 1)).
Definition item_ok (i : Z * list Z) : Prop := 0 < i.1 < 256 /\ zlength i.2 <= 255 /\ bytes i.2.
Definition sdes_ok (s : rtcp_sdes) : Prop := is_u32 (sd_src s) /\ sd_itemv s <> [] /\ Forall item_ok (sd_itemv s) /\ zlength (items_bytes (sd_itemv s)) < 2 ^ 16.

(** Padding to four bytes. *)
Definition padded (l : list Z) : list Z := l ++ zeros (pad_len (zlength l)).

(** The walk of rtcp_rtpfb_twcc_decode over the chunks: the bytes of deltas
    that they announce, if they describe exactly [i] packets. *)
Fixpoint chunk_walk (i sz : Z) (chunks : list Z) : option Z :=
  match chunks with
  | [] => if i >? 0 then None else Some sz
  | c :: chunks => if i >? 0 then let '(k, s) := chunk_step c i in chunk_walk (i - k) (sz + s) chunks else None
  end.

Definition gnack_bytes (g : gnack) : list Z := be_bytes 2 (gn_pid g) ++ be_bytes 2 (gn_blp g).
Definition sli_bytes (s : sli) : list Z :=
  be_bytes 4 (Z.lor (Z.shiftl (sl_first s) 19) (Z.lor (Z.shiftl (sl_number s) 6) (sl_picid s))).
Definition fir_bytes (f : fir_rfc5104) : list Z := be_bytes 4 (fi_ssrc f) ++ [fi_seq_n f] ++ [0; 0; 0].
Definition twcc_bytes (t : twcc) : list Z :=
  be_bytes 2 (tw_seq t) ++ be_bytes 2 (tw_count t) ++ be_bytes 4 (Z.lor (tw_fbcount t) (u32 (Z.shiftl (tw_reftime t) 8)))
  ++ tw_chunks t ++ tw_deltas t.

Definition fci_bytes (f : rtcp_fci) : list Z :=
  match f with
  | FGnack v => concat (map gnack_bytes v) | FTwcc t => twcc_bytes t | FSli v => concat (map sli_bytes v)
  | FFir v => concat (map fir_bytes v) | FAfb d => d | FNone => []
  end.
Definition xrb_bytes (b : rtcp_xrb) : list Z :=
  match b with
  | XRrtr m l => be_bytes 4 m ++ be_bytes 4 l | XDlrr s l d => be_bytes 4 s ++ be_bytes 4 l ++ be_bytes 4 d | XNone => []
  end.
(** What is written after the header, before padding. *)
Definition body_wire (r : rtcp_body) : list Z :=
  match r with
  | MSr a1 a2 a3 a4 a5 a6 rrv =>
      be_bytes 4 a1 ++ be_bytes 4 a2 ++ be_bytes 4 a3 ++ be_bytes 4 a4 ++ be_bytes 4 a5 ++ be_bytes 4 a6 ++ concat (map rr_bytes rrv)
  | MRr ssrc rrv => be_bytes 4 ssrc ++ concat (map rr_bytes rrv)
  | MSdes v => concat (map sdes_bytes v)
  | MBye srcv reason => concat (map (be_bytes 4) srcv) ++ match reason with Some t => [zlength t] ++ t | None => [] end
  | MApp src name data => be_bytes 4 src ++ name ++ default [] data
  | MFir ssrc => be_bytes 4 ssrc
  | MNack ssrc fsn blp => be_bytes 4 ssrc ++ be_bytes 2 fsn ++ be_bytes 2 blp
  | MFb p m _ f => be_bytes 4 p ++ be_bytes 4 m ++ fci_bytes f
  | MXr ssrc bt len b => be_bytes 4 ssrc ++ [bt] ++ [0] ++ be_bytes 2 len ++ xrb_bytes b
  | MOther => []
  end.
(** What the decoder of the body consumes: padding too where it knows of it. *)
Definition body_bytes (r : rtcp_body) : list Z :=
  match r with MFb _ _ _ (FTwcc _) => padded (body_wire r) | _ => body_wire r end.

Definition body_pt (r : rtcp_body) : Z :=
  match r with
  | MSr _ _ _ _ _ _ _ => RTCP_SR | MRr _ _ => RTCP_RR | MSdes _ => RTCP_SDES | MBye _ _ => RTCP_BYE | MApp _ _ _ => RTCP_APP
  | MFir _ => RTCP_FIR | MNack _ _ _ => RTCP_NACK
  | MFb _ _ _ f => match f with FGnack _ | FTwcc _ => RTCP_RTPFB | _ => RTCP_PSFB end
  | MXr _ _ _ _ => RTCP_XR | MOther => 0
  end.
(** The count of the header; [sub] where it is not determined by the body. *)
Definition body_count (sub : Z) (r : rtcp_body) : Z :=
  match r with
  | MSr _ _ _ _ _ _ rrv => zlength rrv | MRr _ rrv => zlength rrv | MSdes v => zlength v | MBye srcv _ => zlength srcv
  | MFb _ _ _ f =>
      match f with
      | FGnack _ => RTCP_RTPFB_GNACK | FTwcc _ => RTCP_RTPFB_TWCC | FSli _ => RTCP_PSFB_SLI | FFir _ => RTCP_PSFB_FIR
      | FAfb _ => RTCP_PSFB_AFB | FNone => RTCP_PSFB_PLI
      end
  | _ => sub
  end.
Definition words (l : list Z) : Z := zlength l / 4.
Definition msg_of (sub : Z) (r : rtcp_body) : rtcp_msg :=
  RtcpMsg (RtcpHdr RTCP_VERSION 0 (body_count sub r) (body_pt r) (words (padded (body_wire r)))) r.

(** The bytes of a message. *)
Definition hdr_bytes (h : rtcp_hdr) : list Z := [Z.lor (Z.shiftl RTCP_VERSION 6) (rh_count h)] ++ [rh_pt h] ++ be_bytes 2 (rh_length h).
Definition msg_bytes (m : rtcp_msg) : list Z := hdr_bytes (rm_hdr m) ++ padded (body_wire (rm_r m)).

(** Well-formed messages: fields in range, and the counts the decoder reports. *)
Definition twcc_ok (t : twcc) : Prop :=
  is_u16 (tw_seq t) /\ 0 < tw_count t <= 32768 /\ 0 <= tw_fbcount t < 256 /\ 0 <= tw_reftime t < 2 ^ 24 /\ bytes (tw_deltas t)
  /\ exists cl, tw_chunks t = concat (map (be_bytes 2) cl) /\ Forall is_u16 cl /\ chunk_walk (tw_count t) 0 cl = Some (zlength (tw_deltas t)).
Definition fci_ok (n : Z) (f : rtcp_fci) : Prop :=
  match f with
  | FGnack v => n = zlength v /\ Forall (fun g => is_u16 (gn_pid g) /\ is_u16 (gn_blp g)) v
  | FTwcc t => n = words (padded (twcc_bytes t)) /\ twcc_ok t
  | FSli v => n = zlength v /\ Forall (fun s => 0 <= sl_first s < 2 ^ 13 /\ 0 <= sl_number s < 2 ^ 13 /\ 0 <= sl_picid s < 2 ^ 6) v
  | FFir v => n = zlength v /\ Forall (fun f => is_u32 (fi_ssrc f) /\ is_byte (fi_seq_n f)) v
  | FAfb d => zlength d = n * 4 /\ bytes d
  | FNone => n = 0
  end.
Definition body_ok (r : rtcp_body) : Prop :=
  match r with
  | MSr a1 a2 a3 a4 a5 a6 rrv => Forall is_u32 [a1; a2; a3; a4; a5; a6] /\ Forall rr_ok rrv /\ zlength rrv < 32
  | MRr ssrc rrv => is_u32 ssrc /\ Forall rr_ok rrv /\ zlength rrv < 32
  | MSdes v => 0 < zlength v < 32 /\ Forall sdes_ok v
  | MBye srcv reason =>
      0 < zlength srcv < 32 /\ Forall is_u32 srcv /\ match reason with Some t => zlength t <= 255 /\ bytes t /\ 0 ∉ t | None => True end
  | MApp src name data =>
      is_u32 src /\ zlength name = 4 /\ bytes name
      /\ match data with Some d => 0 < zlength d /\ zlength d mod 4 = 0 /\ bytes d | None => True end
  | MFir ssrc => is_u32 ssrc
  | MNack ssrc fsn blp => is_u32 ssrc /\ is_u16 fsn /\ is_u16 blp
  | MFb p m n f => is_u32 p /\ is_u32 m /\ fci_ok n f
  | MXr ssrc bt len b =>
      is_u32 ssrc
      /\ match b with
         | XRrtr m l => bt = RTCP_XR_RRTR /\ len = 2 /\ is_u32 m /\ is_u32 l
         | XDlrr s l d => bt = RTCP_XR_DLRR /\ len = 3 /\ is_u32 s /\ is_u32 l /\ is_u32 d
         | XNone => False
         end
  | MOther => False
  end /\ zlength (body_wire r) <= 4 * 65535.

Section Reading.
Context `{H : Host} (Ham : ample_memory).

Lemma rr_word_back rr : rr_ok rr ->
  is_u32 (rr_word rr) /\ u8 (Z.shiftr (rr_word rr) 24) = rr_fraction rr /\ swrap 24 (Z.land (rr_word rr) 0x00ffffff) = rr_lost rr.
Proof.
  intros (_ & Hf & Hl & _). unfold rr_word. change 0x00ffffff with (Z.ones 24). rewrite Z.land_ones, Z.shiftl_mul_pow2, wrap_small by lia.
  set (x := u32 (rr_lost rr) mod 2 ^ 24). assert (Hx : 0 <= x < 2 ^ 24) by (apply Z.mod_pos_bound; lia).
  rewrite (lor_disjoint 24) by (try lia; by rewrite Z.mod_mul).
  split; [unfold is_u32; lia|]. split.
  - rewrite Z.shiftr_div_pow2, Z.div_add_l, (Z.div_small x), Z.add_0_r, wrap_small by lia. done.
  - rewrite Z.land_ones, Z.add_comm, Z_mod_plus_full, (Z.mod_small x) by lia. unfold swrap. rewrite (Z.mod_small x) by lia.
    assert (Ex : x = rr_lost rr mod 2 ^ 24).
    { unfold x, wrap. apply Z.mod_mod_divide. exists (2 ^ 8). lia. }
    change (24 - 1) with 23. rewrite Ex. destruct (Z.lt_ge_cases (rr_lost rr) 0).
    + replace (rr_lost rr mod 2 ^ 24) with (rr_lost rr + 2 ^ 24) by (rewrite <- (Z.mod_add _ 1), Z.mod_small; lia). case_test; lia.
    + rewrite Z.mod_small by lia. case_test; lia.
Qed.

Lemma rtcp_rr_read rr : rr_ok rr -> reads rtcp_rr_decode (raw (rr_bytes rr)) (fun v => v = rr).
Proof.
  intros Hok. destruct (rr_word_back rr Hok) as (Hw & Hf & Hl). destruct Hok as (H1 & _ & _ & H2 & H3 & H4 & H5).
  unfold rtcp_rr_decode, rr_bytes. apply reads_need_raw; [by rewrite !zlength_app, !zlength_be_bytes|].
  eapply reads_app; [by apply reads_32|]. intros v ->. eapply reads_app; [by apply reads_32|]. intros v ->.
  eapply reads_app; [by apply reads_32|]. intros v ->. eapply reads_app; [by apply reads_32|]. intros v ->.
  eapply reads_app; [by apply reads_32|]. intros v ->. eapply reads_last; [by apply reads_32|]. intros v ->.
  eexists. split; [done|]. rewrite Hf, Hl. by destruct rr.
Qed.

Lemma rrv_read l : Forall rr_ok l -> (length l < 32)%nat ->
  reads (rtcp_rrv (zlength l)) (raw (concat (map rr_bytes l))) (fun v => v = l).
Proof.
  intros Hl Hn. unfold rtcp_rrv. apply reads_alloc; [done|unfold zlength, SIZEOF_RTCP_RR, MEM_SIZE_MAX; lia|].
  unfold zlength. rewrite Nat2Z.id. apply reads_repeat. eapply Forall_impl; [exact Hl|]. intros rr. apply rtcp_rr_read.
Qed.

(** ** SDES chunks *)

Lemma zlength_zeros n : 0 <= n -> zlength (zeros n) = n.
Proof. apply zlength_replicate. Qed.

(** The bytes to skip up to a multiple of four. *)
Lemma slurp_skip start k : forall fuel mb c p0 p,
  (k <= fuel)%nat -> (k < 4)%nat -> holds mb c p0 -> 0 <= start <= p -> p + Z.of_nat k <= zlength c -> (p - start + Z.of_nat k) mod 4 = 0 ->
  slurp fuel start (mbuf_set_pos mb p) = Some (Ok tt, mbuf_set_pos mb (p + Z.of_nat k)).
Proof.
  induction k as [|k IH]; intros fuel mb c p0 p Hf Hk Hh Hs Hl Hm; pose proof (holds_set_pos _ _ _ p Hh ltac:(lia)) as Hh';
    pose proof (aligned (mbuf_set_pos mb p) start (holds_wf _ _ _ Hh') Hs) as E; cbn [mb_pos mbuf_set_pos] in E.
  - rewrite Z.add_0_r in *. destruct fuel; cbn [slurp mb_pos mbuf_set_pos]; by rewrite E, Hm.
  - destruct fuel as [|fuel]; [lia|]. cbn [slurp]. cbn [mb_pos mbuf_set_pos]. rewrite E, (holds_get_left _ _ _ Hh').
    rewrite (proj2 (Z.eqb_neq _ 0)) by (intros E0; rewrite <- Z.add_mod_idemp_l, E0, Z.mod_small in Hm; lia).
    rewrite (proj2 (Z.ltb_lt _ _)) by lia. cbn [negb andb mb_pos mbuf_set_pos]. rewrite set_pos_twice.
    pose proof (holds_wf _ _ _ Hh') as W. pose proof (holds_end _ _ _ Hh') as He. mbuf_wf_facts. rewrite wrap_small by (cbn in *; lia).
    rewrite (IH fuel mb c p0 (p + 1)); [do 3 f_equal; lia|lia|lia|done|lia|lia|]. rewrite <- Hm. f_equal. lia.
Qed.

Lemma slurp_pad start mb c p0 p :
  holds mb c p0 -> 0 <= start <= p -> p + pad_len (p - start) <= zlength c ->
  slurp 3 start (mbuf_set_pos mb p) = Some (Ok tt, mbuf_set_pos mb (p + pad_len (p - start))).
Proof.
  intros Hh Hs Hl. pose proof (pad_len_range (p - start)). rewrite <- (Z2Nat.id (pad_len (p - start))) by lia.
  eapply slurp_skip; [lia|lia|done|done|lia|]. rewrite Z2Nat.id by lia. apply pad_len_mod.
Qed.

Lemma reads_some {A} (d e : D A) l P :
  1 <= zlength l -> reads d (raw l) P -> reads (fun mb => if mbuf_get_left mb >=? RTCP_SDES_MIN_SIZE then d mb else e mb) (raw l) P.
Proof.
  intros Hn Hd mb c p0 p q Hh Hp HF. destruct (Hd mb c p0 p q Hh Hp HF) as (Hr & a & E & Ha). split; [done|].
  exists a. split; [|done]. rewrite (holds_get_left _ _ _ (holds_set_pos _ _ _ p Hh Hp)). destruct HF as [_ ->].
  unfold RTCP_SDES_MIN_SIZE. rewrite Z.geb_leb, (proj2 (Z.leb_le _ _)) by lia. done.
Qed.

Lemma reads_realloc {A} (d : D A) F P m n : 0 <= n <= MEM_SIZE_MAX -> reads d F P -> reads (do! _ := drealloc m n in d) F P.
Proof.
  intros Hn Hd. unfold drealloc, mem_realloc. rewrite Z.gtb_ltb, (proj2 (Z.ltb_ge _ _)) by lia. destruct (Ham n Hn) as [_ Hre].
  by destruct (Hre (calloc_bytes m)) as [b ->].
Qed.

Lemma items_read l : forall fuel acc, Forall item_ok l -> (length l < fuel)%nat -> zlength acc + zlength l < 2 ^ 20 ->
  reads (sdes_decode_items fuel acc) (raw (items_bytes l ++ [RTCP_SDES_END])) (fun v => v = acc ++ l).
Proof.
  induction l as [|[ty d] l IH]; intros fuel acc Hok Hf Hn; (destruct fuel as [|fuel]; [cbn in Hf; lia|]); cbn [sdes_decode_items].
  - apply reads_some; [done|]. eapply reads_last; [apply reads_8|]. intros v ->. exists acc. split; [done|]. by rewrite app_nil_r.
  - apply Forall_cons in Hok as [(Ht & Hd & Hb) Hok]. cbn [fst snd] in *. rewrite zlength_cons in Hn. pose proof (zlength_nonneg acc).
    pose proof (zlength_nonneg l). pose proof (zlength_nonneg d). pose proof (zlength_nonneg (items_bytes l)).
    change (items_bytes ((ty, d) :: l)) with ([ty] ++ [zlength d] ++ d ++ items_bytes l). rewrite <- !app_assoc.
    apply reads_some; [zlen|]. eapply reads_app; [apply reads_8|]. intros v ->.
    rewrite (proj2 (Z.eqb_neq _ _)) by (unfold RTCP_SDES_END; lia). apply reads_need_raw; [zlen|].
    assert (Hgo : reads (do! length := dread mbuf_read_u8 in do! _ := dneed length EBADMSG in do! _ := dalloc length in
      do! data := dread_mem length in sdes_decode_items fuel (acc ++ [(ty, data)]))
      (raw ([zlength d] ++ d ++ items_bytes l ++ [RTCP_SDES_END])) (fun v => v = acc ++ (ty, d) :: l)).
    { eapply reads_app; [apply reads_8|]. intros v ->. apply reads_need_raw; [zlen|]. apply reads_alloc; [done|unfold MEM_SIZE_MAX; lia|].
      eapply reads_app; [apply reads_mem|]. intros v ->. eapply reads_weaken; [apply (IH fuel (acc ++ [(ty, d)])); [done|cbn in Hf; lia|zlen]|done|].
      intros v ->. by rewrite <- app_assoc. }
    destruct (zlength acc =? 0); [apply reads_alloc; [done|done|done]|apply reads_realloc; [|done]].
    unfold SIZEOF_SDES_ITEM, MEM_SIZE_MAX. lia.
Qed.

Lemma items_length l : 2 * zlength l <= zlength (items_bytes l).
Proof.
  induction l as [|[t d] l IH]; [done|]. change (items_bytes ((t, d) :: l)) with ((t :: zlength d :: d) ++ items_bytes l).
  pose proof (zlength_nonneg d). zlen.
Qed.

Lemma sdes_read s : sdes_ok s -> reads rtcp_sdes_decode (raw (sdes_bytes s)) (fun v => v = s).
Proof.
  intros (Hu & _ & Hi & Hl) mb c p0 p q Hh Hp HF. pose proof (items_length (sd_itemv s)). pose proof (zlength_nonneg (sd_itemv s)).
  pose proof (pad_len_range (4 + zlength (items_bytes (sd_itemv s)) + 1)) as Hpl.
  pose proof (seg_bound _ _ _ Hp (proj1 HF)) as Hb. unfold sdes_bytes in Hb. rewrite !zlength_app, zlength_zeros, zlength_be_bytes in Hb by lia.
  change (zlength [0]) with 1 in Hb.
  destruct HF as [HF ->]. destruct (raw_app _ _ _ _ _ (conj HF eq_refl)) as (p1 & F1 & F2). apply raw_app in F2 as (p2 & F2 & _).
  pose proof (holds_get_left _ _ _ (holds_set_pos _ _ _ p Hh Hp)) as El. unfold rtcp_sdes_decode, dbind, dneed, dpos, RTCP_SRC_SIZE. rewrite El.
  rewrite (proj2 (Z.ltb_ge _ _)) by lia.
  destruct (reads_32 (sd_src s) Hu mb c p0 p p1 Hh Hp F1) as (Hp1 & v & -> & ->).
  destruct (items_read (sd_itemv s) (S (Z.to_nat (zlength c - p))) [] Hi) with (mb := mb) (c := c) (p0 := p0) (p := p1) (q := p2)
    as (Hp2 & v & -> & ->); [unfold zlength in *; lia|change (zlength (@nil (Z * list Z))) with 0; lia|done|lia|done|].
  destruct F1 as [_ ->]. destruct F2 as [_ ->]. rewrite zlength_app, zlength_be_bytes in *. change (zlength [0]) with 1 in *.
  cbn [mb_pos mbuf_set_pos app].
  assert (Ep : p + Z.of_nat 4 + (zlength (items_bytes (sd_itemv s)) + 1) - p = 4 + zlength (items_bytes (sd_itemv s)) + 1) by lia.
  rewrite (slurp_pad p mb c p0) by (rewrite ?Ep; done || lia). rewrite Ep. unfold sdes_bytes.
  rewrite !zlength_app, zlength_zeros, zlength_be_bytes by lia. change (zlength [0]) with 1.
  split; [lia|]. exists s. split; [|done]. unfold dret. do 3 f_equal; [by destruct s|lia].
Qed.

(** ** The other packets *)

Lemma sr_read a1 a2 a3 a4 a5 a6 rrv : Forall is_u32 [a1; a2; a3; a4; a5; a6] -> Forall rr_ok rrv -> zlength rrv < 32 ->
  reads (sr_decode (zlength rrv)) (raw (body_wire (MSr a1 a2 a3 a4 a5 a6 rrv))) (fun v => v = MSr a1 a2 a3 a4 a5 a6 rrv).
Proof.
  rewrite !Forall_cons. intros (? & ? & ? & ? & ? & ? & _) Hr Hn. unfold sr_decode. cbn [body_wire]. pose proof (zlength_nonneg (concat (map rr_bytes rrv))).
  apply reads_need_raw; [unfold RTCP_SRC_SIZE, RTCP_SR_SIZE; zlen|].
  do 6 (eapply reads_app; [by apply reads_32|]; intros v ->). eapply reads_last; [apply rrv_read; [done|unfold zlength in Hn; lia]|].
  intros v ->. by eexists.
Qed.

Lemma bye_read srcv reason rem :
  zlength srcv < 32 -> Forall is_u32 srcv ->
  match reason with Some t => zlength t <= 255 /\ zlength srcv * 4 < rem | None => rem = zlength srcv * 4 end ->
  reads (bye_decode (zlength srcv) rem) (raw (body_wire (MBye srcv reason))) (fun v => v = MBye srcv reason).
Proof.
  intros Hn Hs Hr. pose proof (zlength_nonneg srcv). unfold bye_decode. cbn [body_wire]. apply reads_alloc; [done|unfold MEM_SIZE_MAX; lia|].
  assert (El : zlength (concat (map (be_bytes 4) srcv)) = zlength srcv * 4).
  { clear. induction srcv as [|v srcv IH]; [done|]. cbn [map concat]. zlen. }
  assert (Hsrc : reads (repeat_read (Z.to_nat (zlength srcv)) (dread read_be32)) (raw (concat (map (be_bytes 4) srcv))) (fun v => v = srcv)).
  { unfold zlength. rewrite Nat2Z.id. apply reads_repeat. eapply Forall_impl; [exact Hs|]. intros v. apply reads_32. }
  destruct reason as [t|].
  - destruct Hr as [Ht Hrem]. pose proof (zlength_nonneg t). apply reads_need_raw; [zlen|]. eapply reads_app; [exact Hsrc|]. intros v ->.
    rewrite Z.gtb_ltb, (proj2 (Z.ltb_lt _ _)) by lia. eapply reads_app; [apply reads_8|]. intros v ->. apply reads_need_raw; [done|].
    apply reads_alloc; [done|rewrite wrap_small by lia; unfold MEM_SIZE_MAX; lia|]. eapply reads_last; [apply reads_mem|]. intros v ->. by eexists.
  - rewrite app_nil_r. apply reads_need_raw; [lia|]. eapply reads_last; [exact Hsrc|]. intros v ->.
    rewrite Z.gtb_ltb, (proj2 (Z.ltb_ge _ _)) by lia. by eexists.
Qed.

Lemma app_read src name data :
  is_u32 src -> zlength name = 4 -> match data with Some d => 0 < zlength d <= MEM_SIZE_MAX | None => True end ->
  reads (app_decode (8 + zlength (default [] data))) (raw (body_wire (MApp src name data))) (fun v => v = MApp src name data).
Proof.
  intros Hs Hname Hd. pose proof (zlength_nonneg (default [] data)). unfold app_decode. cbn [body_wire].
  apply reads_need_raw; [unfold RTCP_APP_SIZE; zlen|]. eapply reads_app; [by apply reads_32|]. intros v ->.
  assert (Hm : reads (dread_mem 4) (raw name) (fun v => v = name)) by (rewrite <- Hname; apply reads_mem).
  destruct data as [d|]; cbn [from_option id] in *; unfold id in *.
  - eapply reads_app; [exact Hm|]. intros v ->. unfold RTCP_APP_SIZE. rewrite Z.gtb_ltb, (proj2 (Z.ltb_lt _ _)) by lia.
    replace (8 + zlength d - 8) with (zlength d) by lia. apply reads_alloc; [done|lia|]. apply reads_need_raw; [done|].
    eapply reads_last; [apply reads_mem|]. intros v ->. by eexists.
  - rewrite app_nil_r. eapply reads_last; [exact Hm|]. intros v ->. by eexists.
Qed.

Lemma xr_read ssrc bt len b : body_ok (MXr ssrc bt len b) ->
  reads xr_decode (raw (body_wire (MXr ssrc bt len b))) (fun v => v = MXr ssrc bt len b).
Proof.
  intros [[Hs Hb] _]. unfold xr_decode. cbn [body_wire]. pose proof (zlength_nonneg (xrb_bytes b)).
  apply reads_need_raw; [unfold RTCP_HEADROOM; zlen|]. eapply reads_app; [by apply reads_32|]. intros v ->.
  eapply reads_app; [apply reads_8|]. intros v ->. eapply reads_app; [apply reads_8|]. intros v _.
  destruct b as [m l|s l d|]; cbn [xrb_bytes]; [destruct Hb as (-> & -> & ? & ?)|destruct Hb as (-> & -> & ? & ? & ?)|done];
    (eapply reads_app; [by apply reads_16|]); intros v' ->; cbn [Z.eqb RTCP_XR_RRTR RTCP_XR_DLRR Pos.eqb]; (apply reads_check; [done|]).
  - eapply reads_app; [by apply reads_32|]. intros v' ->. eapply reads_last; [by apply reads_32|]. intros v' ->. by eexists.
  - do 2 (eapply reads_app; [by apply reads_32|]; intros v' ->). eapply reads_last; [by apply reads_32|]. intros v' ->. by eexists.
Qed.

(** ** Feedback *)

Lemma gnacks_read v : zlength v < 2 ^ 16 -> Forall (fun g => is_u16 (gn_pid g) /\ is_u16 (gn_blp g)) v ->
  reads (rtcp_rtpfb_decode RTCP_RTPFB_GNACK (zlength v)) (raw (concat (map gnack_bytes v))) (fun x => x = (zlength v, FGnack v)).
Proof.
  intros Hn Hv. pose proof (zlength_nonneg v). unfold rtcp_rtpfb_decode. cbn [Z.eqb RTCP_RTPFB_GNACK Pos.eqb].
  apply reads_alloc; [done|unfold SIZEOF_GNACK, MEM_SIZE_MAX; lia|]. apply reads_need_raw.
  { unfold GNACK_SIZE. clear. induction v as [|g v IH]; [done|]. cbn [map concat]. unfold gnack_bytes at 1. zlen. }
  apply (reads_last _ _ _ (fun x => x = v)); [|by intros x ->; eexists]. unfold zlength. rewrite Nat2Z.id. apply reads_repeat. eapply Forall_impl; [exact Hv|].
  intros g [H1 H2]. unfold gnack_read, gnack_bytes. eapply reads_app; [by apply reads_16|]. intros x ->.
  eapply reads_last; [by apply reads_16|]. intros x ->. eexists. split; [done|]. by destruct g.
Qed.

Lemma firs_read v : zlength v < 2 ^ 16 -> Forall (fun f => is_u32 (fi_ssrc f) /\ is_byte (fi_seq_n f)) v ->
  reads (rtcp_psfb_decode RTCP_PSFB_FIR (zlength v * 2)) (raw (concat (map fir_bytes v))) (fun x => x = (zlength v, FFir v)).
Proof.
  intros Hn Hv. pose proof (zlength_nonneg v). unfold rtcp_psfb_decode. cbn [Z.eqb RTCP_PSFB_FIR RTCP_PSFB_PLI RTCP_PSFB_SLI RTCP_PSFB_AFB Pos.eqb].
  rewrite Z.div_mul by done. apply reads_alloc; [done|unfold SIZEOF_FIR, MEM_SIZE_MAX; lia|]. apply reads_need_raw.
  { unfold FIR_SIZE. clear. induction v as [|g v IH]; [done|]. cbn [map concat]. unfold fir_bytes at 1. zlen. }
  apply (reads_last _ _ _ (fun x => x = v)); [|by intros x ->; eexists]. unfold zlength. rewrite Nat2Z.id. apply reads_repeat. eapply Forall_impl; [exact Hv|].
  intros f [H1 H2]. unfold fir_read, fir_bytes. eapply reads_app; [by apply reads_32|]. intros x ->. eapply reads_app; [apply reads_8|]. intros x ->.
  eapply reads_last; [by apply reads_advance|]. intros x _. eexists. split; [done|]. by destruct f.
Qed.

(** The three fields of an SLI entry. *)
Lemma sli_word s : 0 <= sl_first s < 2 ^ 13 -> 0 <= sl_number s < 2 ^ 13 -> 0 <= sl_picid s < 2 ^ 6 ->
  let w := Z.lor (Z.shiftl (sl_first s) 19) (Z.lor (Z.shiftl (sl_number s) 6) (sl_picid s)) in
  is_u32 w /\ Z.land (Z.shiftr w 19) 0x1fff = sl_first s /\ Z.land (Z.shiftr w 6) 0x1fff = sl_number s /\ Z.land w 0x3f = sl_picid s.
Proof.
  intros Hf Hn Hp w. unfold w. rewrite (lor_shiftl_add (sl_number s)), lor_shiftl_add by lia.
  change 0x1fff with (Z.ones 13). change 0x3f with (Z.ones 6). rewrite !Z.land_ones, !Z.shiftr_div_pow2 by lia.
  change (2 ^ 19) with 524288. change (2 ^ 6) with 64 in *. change (2 ^ 13) with 8192 in *. unfold is_u32. change (2 ^ 32) with 4294967296.
  split; [lia|]. split_and!; Z.div_mod_to_equations; lia.
Qed.

Lemma slis_read v : zlength v < 2 ^ 16 ->
  Forall (fun s => 0 <= sl_first s < 2 ^ 13 /\ 0 <= sl_number s < 2 ^ 13 /\ 0 <= sl_picid s < 2 ^ 6) v ->
  reads (rtcp_psfb_decode RTCP_PSFB_SLI (zlength v)) (raw (concat (map sli_bytes v))) (fun x => x = (zlength v, FSli v)).
Proof.
  intros Hn Hv. pose proof (zlength_nonneg v). unfold rtcp_psfb_decode. cbn [Z.eqb RTCP_PSFB_PLI RTCP_PSFB_SLI Pos.eqb].
  apply reads_alloc; [done|unfold SIZEOF_SLI, MEM_SIZE_MAX; lia|]. apply reads_need_raw.
  { unfold SLI_SIZE. clear. induction v as [|g v IH]; [done|]. cbn [map concat]. unfold sli_bytes at 1. zlen. }
  apply (reads_last _ _ _ (fun x => x = v)); [|by intros x ->; eexists]. unfold zlength. rewrite Nat2Z.id. apply reads_repeat. eapply Forall_impl; [exact Hv|].
  intros s (H1 & H2 & H3). destruct (sli_word s H1 H2 H3) as (Hw & E1 & E2 & E3). unfold sli_read, sli_bytes.
  eapply reads_last; [by apply reads_32|]. intros x ->. eexists. split; [done|]. rewrite E1, E2, E3. by destruct s.
Qed.

Lemma afb_read d n : zlength d = n * 4 ->
  reads (rtcp_psfb_decode RTCP_PSFB_AFB n) (raw d) (fun x => x = (n, FAfb d)).
Proof.
  intros Hn. unfold rtcp_psfb_decode. cbn [Z.eqb RTCP_PSFB_PLI RTCP_PSFB_SLI RTCP_PSFB_AFB Pos.eqb].
  apply reads_need_raw; [lia|]. apply reads_alloc; [done|done|]. eapply reads_last; [by apply reads_slice|]. intros x ->. by eexists.
Qed.

Lemma chunks_read cl : forall fuel i sz sz', (length cl < fuel)%nat -> Forall is_u16 cl -> chunk_walk i sz cl = Some sz' ->
  reads (twcc_chunks fuel i sz) (raw (concat (map (be_bytes 2) cl))) (fun r => r = (zlength cl, sz')).
Proof.
  induction cl as [|w cl IH]; intros fuel i sz sz' Hf Hc Hw; (destruct fuel as [|fuel]; [cbn in Hf; lia|]); cbn [twcc_chunks chunk_walk] in *;
    destruct (i >? 0) eqn:Ei; try done.
  - injection Hw as <-. by apply (reads_dret (0, sz)).
  - apply Forall_cons in Hc as [Hw1 Hc]. cbn [map concat]. pose proof (zlength_nonneg (concat (map (be_bytes 2) cl))).
    apply reads_need_raw; [zlen|]. eapply reads_app; [by apply reads_16|]. intros x ->. destruct (chunk_step w i) as [k s].
    eapply reads_last; [apply (IH fuel); [cbn in Hf; lia|done|done]|]. intros x ->. eexists. split; [done|]. rewrite zlength_cons. f_equal. lia.
Qed.

Lemma dalloc_ret n : 0 <= n <= MEM_SIZE_MAX -> dalloc n = dret tt.
Proof. intros Hn. unfold dalloc, mem_alloc. rewrite Z.gtb_ltb, (proj2 (Z.ltb_ge _ _)) by lia. by destruct (Ham n Hn) as [[b ->] _]. Qed.

Lemma twcc_word t : 0 <= tw_fbcount t < 256 -> 0 <= tw_reftime t < 2 ^ 24 ->
  let w := Z.lor (tw_fbcount t) (u32 (Z.shiftl (tw_reftime t) 8)) in
  is_u32 w /\ Z.shiftr w 8 = tw_reftime t /\ Z.land w 0xff = tw_fbcount t.
Proof.
  intros Hf Hr w. unfold w. rewrite Z.shiftl_mul_pow2, wrap_small, Z.lor_comm, <- Z.shiftl_mul_pow2, lor_shiftl_add by lia.
  change 0xff with (Z.ones 8). rewrite Z.land_ones, Z.shiftr_div_pow2 by lia. change (2 ^ 8) with 256. unfold is_u32. change (2 ^ 32) with 4294967296.
  change (2 ^ 24) with 16777216 in *. split; [lia|]. split; Z.div_mod_to_equations; lia.
Qed.

Lemma concat_be2_length cl : zlength (concat (map (be_bytes 2) cl)) = 2 * zlength cl.
Proof. induction cl as [|w cl IH]; [done|]. cbn [map concat]. zlen. Qed.

Lemma twcc_read t n : twcc_ok t -> n * 4 = zlength (padded (twcc_bytes t)) -> n < 2 ^ 16 ->
  reads (rtcp_rtpfb_twcc_decode n) (raw (padded (twcc_bytes t))) (fun v => v = t).
Proof.
  intros (Hs & Hc & Hf & Hr & _ & cl & Ecl & Hcl & Hw) Hn Hn16 mb c p0 p q Hh Hp [HF ->].
  pose proof (pad_len_range (zlength (twcc_bytes t))) as Hpl. pose proof (seg_bound _ _ _ Hp HF) as Hb. destruct (twcc_word t Hf Hr) as (Hu & E1 & E2).
  unfold padded in HF, Hb, Hn |- *. rewrite zlength_app, zlength_zeros in * by lia.
  destruct (raw_app _ _ _ _ _ (conj HF eq_refl)) as (pe & [F Fq] & [Fz _]). clear HF.
  assert (Et : zlength (twcc_bytes t) = 8 + 2 * zlength cl + zlength (tw_deltas t)) by (unfold twcc_bytes; rewrite Ecl; rewrite !zlength_app, !zlength_be_bytes, concat_be2_length; lia).
  pose proof (zlength_nonneg cl) as Hcn. pose proof (zlength_nonneg (tw_deltas t)) as Hdn.
  pose proof (holds_get_left _ _ _ (holds_set_pos _ _ _ p Hh Hp)) as El.
  unfold twcc_bytes in F. rewrite Ecl in F. destruct (raw_app _ _ _ _ _ (conj F eq_refl)) as (q1 & F1 & R1). apply raw_app in R1 as (q2 & F2 & R2).
  apply raw_app in R2 as (q3 & F3 & R3). apply raw_app in R3 as (q4 & F4 & F5).
  unfold rtcp_rtpfb_twcc_decode, twcc_decode_ref. rewrite El.
  unfold dbind at 1, dneed at 1. rewrite El, (proj2 (Z.ltb_ge _ _)) by lia.
  destruct (reads_16 _ Hs mb c p0 p q1 Hh Hp F1) as (Hq1 & v & Ev & ->). unfold dbind at 1. rewrite Ev.
  destruct (reads_16 (tw_count t) ltac:(unfold is_u16; lia) mb c p0 q1 q2 Hh ltac:(lia) F2) as (Hq2 & v & Ev2 & ->). unfold dbind at 1. rewrite Ev2.
  unfold dbind at 1, dcheck. rewrite (proj2 (Z.eqb_neq _ _)) by lia. rewrite Z.gtb_ltb, (proj2 (Z.ltb_ge _ _)) by lia. cbn [orb negb].
  unfold dret at 1.
  destruct (reads_32 _ Hu mb c p0 q2 q3 Hh ltac:(lia) F3) as (Hq3 & v & Ev3 & ->). unfold dbind at 1. rewrite Ev3.
  rewrite dalloc_ret by done. unfold dbind at 1, dret at 1. unfold dbind at 1, dpos at 1. cbn [mb_pos mbuf_set_pos].
  assert (Hfuel : (length cl < S (Z.to_nat (zlength c - p)))%nat) by (unfold zlength in *; lia).
  destruct (chunks_read cl _ _ _ _ Hfuel Hcl Hw mb c p0 q3 q4 Hh ltac:(lia) F4) as (Hq4 & v & Ev4 & ->). unfold dbind at 1. rewrite Ev4.
  destruct F1 as [_ ->], F2 as [_ ->], F3 as [_ ->], F4 as [F4 ->], F5 as [F5 _]. rewrite !zlength_be_bytes, concat_be2_length in *.
  clear Ev Ev2 Ev3 Ev4. set (q3 := p + Z.of_nat 2 + Z.of_nat 2 + Z.of_nat 4) in *. assert (Eq3 : q3 = p + 8) by (unfold q3; lia). clearbody q3.
  pose proof (holds_get_left _ _ _ (holds_set_pos _ _ _ (q3 + 2 * zlength cl) Hh ltac:(lia))) as El4.
  pose proof (holds_end _ _ _ Hh) as He. pose proof (holds_wf _ _ _ Hh) as W. mbuf_wf_facts.
  unfold dbind, dneed, dpos, dret, mbuf_advance. rewrite El4, (wrap_small _ (n * 4 - 8 - _)) by lia. rewrite !(proj2 (Z.ltb_ge _ _)) by lia.
  cbn [mb_pos mbuf_set_pos]. rewrite set_pos_twice, (wrap_small _ (q3 + _ + _)) by lia. split; [lia|]. exists t. split; [|done].
  replace (q3 + 2 * zlength cl + (n * 4 - 8 - 2 * zlength cl)) with (p + (zlength (twcc_bytes t) + pad_len (zlength (twcc_bytes t)))) by lia.
  do 3 f_equal. rewrite E1, E2. pose proof (holds_set_pos _ _ _ p Hh Hp) as Hhp.
  rewrite (holds_slice _ c p q3), (holds_slice _ c p (q3 + _)) by (done || lia).
  rewrite (seg_slice c (q3 + _)), <- concat_be2_length, (seg_slice c q3), <- Ecl by (done || lia). by destruct t.
Qed.

Lemma fb_read p m L n f d (fci : Z -> D (Z * rtcp_fci)) :
  is_u32 p -> is_u32 m -> 2 <= L -> reads (fci (L - 2)) (raw d) (fun x => x = (n, f)) ->
  reads (fb_decode L fci) (raw (be_bytes 4 p ++ be_bytes 4 m ++ d)) (fun v => v = MFb p m n f).
Proof.
  intros Hp Hm HL Hd. pose proof (zlength_nonneg d). unfold fb_decode. apply reads_need_raw; [unfold RTCP_FB_SIZE; zlen|].
  apply reads_check; [by rewrite (proj2 (Z.ltb_ge _ _)) by lia|]. eapply reads_app; [by apply reads_32|]. intros v ->.
  eapply reads_app; [by apply reads_32|]. intros v ->. eapply reads_last; [exact Hd|]. intros v ->. by eexists.
Qed.

(** ** Padding *)

Lemma pad_len_0 n : n mod 4 = 0 -> pad_len n = 0.
Proof. intros Hn. unfold pad_len. by apply Z.mod_opp_l_z. Qed.

Lemma padded_length l : zlength (padded l) = zlength l + pad_len (zlength l).
Proof. pose proof (pad_len_range (zlength l)). unfold padded. rewrite zlength_app, zlength_zeros; lia. Qed.

Lemma padded_mod l : zlength (padded l) mod 4 = 0.
Proof. rewrite padded_length. apply pad_len_mod. Qed.

Lemma padded_id l : zlength l mod 4 = 0 -> padded l = l.
Proof. intros Hl. unfold padded. rewrite pad_len_0 by done. apply app_nil_r. Qed.

Lemma padded_app a b : zlength a mod 4 = 0 -> padded (a ++ b) = a ++ padded b.
Proof.
  intros Ha. unfold padded. rewrite <- app_assoc. do 3 f_equal. unfold pad_len. rewrite zlength_app.
  rewrite <- (Z.mod_add _ (zlength a / 4)) by done. f_equal. Z.div_mod_to_equations. lia.
Qed.

Lemma words_4 l : zlength l mod 4 = 0 -> words l * 4 = zlength l.
Proof. intros Hl. unfold words. Z.div_mod_to_equations. lia. Qed.

Lemma words_padded l : words (padded l) * 4 = zlength l + pad_len (zlength l).
Proof. rewrite words_4, padded_length by apply padded_mod. done. Qed.

Lemma words_bound r : body_ok r -> 0 <= words (padded (body_wire r)) < 2 ^ 16.
Proof.
  intros [_ Hl]. pose proof (words_padded (body_wire r)). pose proof (pad_len_range (zlength (body_wire r))). pose proof (zlength_nonneg (body_wire r)).
  pose proof (padded_mod (body_wire r)) as Hm. rewrite padded_length in Hm. Z.div_mod_to_equations. lia.
Qed.

Lemma concat_4 {A} (f : A -> list Z) l : (forall a, zlength (f a) mod 4 = 0) -> zlength (concat (map f l)) mod 4 = 0.
Proof.
  intros Hf. induction l as [|a l IH]; [done|]. cbn [map concat]. rewrite zlength_app, Z.add_mod, Hf, IH by done. done.
Qed.

Ltac const_tests :=
  repeat match goal with
  | |- context [?a =? ?b] => let v := eval vm_compute in (a =? b) in lazymatch v with true => idtac | false => idtac end; change (a =? b) with v
  end; cbv iota.

(** The words after the two sources. *)
Lemma fb_words p m n f : words (padded (body_wire (MFb p m n f))) - 2 = words (padded (fci_bytes f)).
Proof.
  cbn [body_wire]. rewrite app_assoc, padded_app by done. unfold words. rewrite zlength_app, zlength_app, !zlength_be_bytes.
  replace (Z.of_nat 4 + Z.of_nat 4 + zlength (padded (fci_bytes f))) with (zlength (padded (fci_bytes f)) + 2 * 4) by lia.
  rewrite Z.div_add by done. lia.
Qed.

Lemma fci_words {A} (enc : A -> list Z) k l : (forall a, zlength (enc a) = 4 * k) -> words (padded (concat (map enc l))) = k * zlength l.
Proof.
  intros Hk. assert (El : zlength (concat (map enc l)) = k * zlength l * 4).
  { induction l as [|a l IH]; [cbn [map concat]; zlen|]. cbn [map concat]. rewrite zlength_app, IH, Hk, zlength_cons. lia. }
  rewrite padded_id by (rewrite El; by apply Z.mod_mul). unfold words. by rewrite El, Z.div_mul.
Qed.

Lemma fci_read n f : fci_ok n f -> words (padded (fci_bytes f)) < 2 ^ 16 ->
  let d := match f with FTwcc _ => padded (fci_bytes f) | _ => fci_bytes f end in
  let k := words (padded (fci_bytes f)) in
  match f with
  | FGnack _ => reads (rtcp_rtpfb_decode RTCP_RTPFB_GNACK k) (raw d) (fun x => x = (n, f))
  | FTwcc _ => reads (rtcp_rtpfb_decode RTCP_RTPFB_TWCC k) (raw d) (fun x => x = (n, f))
  | FSli _ => reads (rtcp_psfb_decode RTCP_PSFB_SLI k) (raw d) (fun x => x = (n, f))
  | FFir _ => reads (rtcp_psfb_decode RTCP_PSFB_FIR k) (raw d) (fun x => x = (n, f))
  | FAfb _ => reads (rtcp_psfb_decode RTCP_PSFB_AFB k) (raw d) (fun x => x = (n, f))
  | FNone => reads (rtcp_psfb_decode RTCP_PSFB_PLI k) (raw d) (fun x => x = (n, f))
  end.
Proof.
  destruct f as [v|t|v|v|d|]; cbn [fci_ok fci_bytes].
  - intros [-> Hv]. rewrite (fci_words gnack_bytes 1) by (intros; done). rewrite Z.mul_1_l. intros Hk. by apply gnacks_read.
  - intros [-> Ht] Hk. unfold rtcp_rtpfb_decode. const_tests. pose proof (zlength_nonneg (tw_deltas t)). pose proof (zlength_nonneg (tw_chunks t)).
    pose proof (pad_len_range (zlength (twcc_bytes t))).
    apply reads_need_raw; [rewrite padded_length; unfold twcc_bytes at 1; zlen|]. apply reads_alloc; [done|done|].
    eapply reads_last; [apply (twcc_read t); [done|by rewrite words_4 by apply padded_mod|done]|]. intros x ->. by eexists.
  - intros [-> Hv]. rewrite (fci_words sli_bytes 1) by (intros; done). rewrite Z.mul_1_l. intros Hk. by apply slis_read.
  - intros [-> Hv]. rewrite (fci_words fir_bytes 2) by (intros; done). rewrite Z.mul_comm. intros Hk. apply firs_read; [lia|done].
  - intros [Hd _]. rewrite padded_id by (rewrite Hd; by apply Z.mod_mul). unfold words. rewrite Hd, Z.div_mul by done. intros _. by apply afb_read.
  - intros ->. intros _. by apply reads_dret.
Qed.

Lemma fb_body_read sub p m n f : body_ok (MFb p m n f) ->
  reads (body_decode (rm_hdr (msg_of sub (MFb p m n f)))) (raw (body_bytes (MFb p m n f))) (fun v => v = MFb p m n f).
Proof.
  intros Hok. pose proof (words_bound _ Hok) as Hb. pose proof (fb_words p m n f) as Ew. destruct Hok as [(Hp & Hm & Hf) _].
  assert (Hw : 0 <= words (padded (fci_bytes f))) by (unfold words; apply Z.div_pos; [apply zlength_nonneg|lia]).
  pose proof (fci_read n f Hf ltac:(lia)) as Hr. unfold msg_of, body_decode. cbn [rm_hdr rh_count rh_length rh_pt]. rewrite <- Ew in Hr.
  assert (Ed : body_bytes (MFb p m n f) = be_bytes 4 p ++ be_bytes 4 m ++ match f with FTwcc _ => padded (fci_bytes f) | _ => fci_bytes f end).
  { destruct f; try done. cbn [body_bytes body_wire fci_bytes]. rewrite !app_assoc. by rewrite padded_app. }
  rewrite Ed. clear Ed. destruct f; cbn [body_pt body_count] in *; const_tests; (apply fb_read; [done|done|lia|exact Hr]).
Qed.

Lemma body_read sub r : body_ok r -> reads (body_decode (rm_hdr (msg_of sub r))) (raw (body_bytes r)) (fun v => v = r).
Proof.
  intros Hok. pose proof (words_padded (body_wire r)) as Ew. pose proof (pad_len_range (zlength (body_wire r))).
  destruct r as [a1 a2 a3 a4 a5 a6 rrv|ssrc rrv|v|srcv reason|src name data|ssrc|ssrc fsn blp|p m n f|ssrc bt len b|]; cbn [body_bytes];
    [| | | | | | |by apply fb_body_read| |by destruct Hok];
    unfold msg_of, body_decode; cbn [rm_hdr rh_count rh_length rh_pt body_pt body_count]; const_tests.
  - destruct Hok as [(Ha & Hr & Hn) _]. by apply sr_read.
  - destruct Hok as [(Hs & Hr & Hn) _]. cbn [body_wire]. pose proof (zlength_nonneg (concat (map rr_bytes rrv))).
    apply reads_need_raw; [unfold RTCP_SRC_SIZE; zlen|]. eapply reads_app; [by apply reads_32|]. intros v ->.
    eapply reads_last; [apply rrv_read; [done|unfold zlength in Hn; lia]|]. intros v ->. by eexists.
  - destruct Hok as [[Hn Hv] _]. rewrite (proj2 (Z.eqb_neq _ _)) by lia. apply reads_alloc; [done|unfold SIZEOF_RTCP_SDES, MEM_SIZE_MAX; lia|].
    apply (reads_last _ _ _ (fun x => x = v)); [|by intros x ->; eexists]. unfold zlength. rewrite Nat2Z.id. apply reads_repeat.
    eapply Forall_impl; [exact Hv|]. intros s. apply sdes_read.
  - destruct Hok as [(Hn & Hs & Hr) _]. cbn [body_wire] in Ew, H0 |- *. apply bye_read; [lia|done|]. rewrite Ew.
    assert (El : zlength (concat (map (be_bytes 4) srcv)) = zlength srcv * 4).
    { clear. induction srcv as [|v srcv IH]; [done|]. cbn [map concat]. zlen. }
    rewrite zlength_app, El in *. destruct reason as [t|].
    + destruct Hr as [Ht _]. split; [done|]. pose proof (zlength_nonneg t). rewrite zlength_app in *. change (zlength [zlength t]) with 1 in *. lia.
    + change (zlength (@nil Z)) with 0. rewrite Z.add_0_r. rewrite pad_len_0 by (by apply Z.mod_mul). lia.
  - destruct Hok as [(Hs & Hname & _ & Hd) Hl]. cbn [body_wire] in Ew, Hl |- *. rewrite !zlength_app, zlength_be_bytes, Hname in *.
    rewrite pad_len_0 in Ew.
    + replace (words _ * 4) with (8 + zlength (default [] data)) by lia. apply app_read; [done|done|]. destruct data as [d|]; [|done].
      cbn [from_option id] in Hl. unfold id in Hl. unfold MEM_SIZE_MAX. lia.
    + destruct data as [d|]; [|done]. destruct Hd as (_ & Hd & _). cbn [from_option]. unfold id. rewrite Z.add_assoc, Z.add_mod, Hd by done. done.
  - destruct Hok as [Hs _]. apply reads_need_raw; [done|]. eapply reads_last; [by apply reads_32|]. intros v ->. by eexists.
  - destruct Hok as [(Hs & Hf & Hb) _]. cbn [body_wire]. apply reads_need_raw; [done|]. eapply reads_app; [by apply reads_32|]. intros v ->.
    eapply reads_app; [by apply reads_16|]. intros v ->. eapply reads_last; [by apply reads_16|]. intros v ->. by eexists.
  - by apply xr_read.
Qed.

(** ** A message *)

Lemma padded_body r : padded (body_bytes r) = padded (body_wire r).
Proof. destruct r as [| | | | | | |? ? ? []| |]; try done. cbn [body_bytes]. apply padded_id, padded_mod. Qed.

Lemma rtcp_hdr_read count pt len : 0 <= count < 32 -> is_u16 len ->
  reads rtcp_hdr_decode (raw (hdr_bytes (RtcpHdr RTCP_VERSION 0 count pt len))) (fun v => v = RtcpHdr RTCP_VERSION 0 count pt len).
Proof.
  intros Hc Hl. unfold rtcp_hdr_decode, hdr_bytes. cbn [rh_count rh_pt rh_length]. apply reads_need_raw; [done|].
  eapply reads_app; [apply reads_8|]. intros v ->. eapply reads_app; [apply reads_8|]. intros v ->.
  eapply reads_last; [by apply reads_16|]. intros v ->. eexists. split; [done|].
  rewrite lor_shiftl_add, Z.shiftr_0_r by (unfold RTCP_VERSION; lia). change (RTCP_VERSION * 2 ^ 6) with 128. rewrite !Z.shiftr_div_pow2 by lia.
  f_equal; (etrans; [apply (Z.land_ones _ 2) || apply (Z.land_ones _ 1) || apply (Z.land_ones _ 5); lia|]);
    change (2 ^ 6) with 64; change (2 ^ 5) with 32; change (2 ^ 2) with 4; change (2 ^ 1) with 2;
    unfold RTCP_VERSION; Z.div_mod_to_equations; lia.
Qed.

Lemma decode_read sub r : body_ok r -> 0 <= body_count sub r < 32 ->
  reads rtcp_decode (raw (msg_bytes (msg_of sub r))) (fun v => v = msg_of sub r).
Proof.
  intros Hok Hc mb c p0 p q Hh Hp [HF ->]. pose proof (rtcp_hdr_read (body_count sub r) (body_pt r) _ Hc (words_bound r Hok)) as Hhr.
  pose proof (body_read sub r Hok) as Hbr. change (RtcpHdr _ _ _ _ _) with (rm_hdr (msg_of sub r)) in Hhr.
  assert (EL : rh_length (rm_hdr (msg_of sub r)) * 4 = zlength (body_bytes r) + pad_len (zlength (body_bytes r))).
  { cbn [rm_hdr msg_of rh_length]. rewrite <- padded_body, words_padded. done. }
  assert (Em : msg_bytes (msg_of sub r) = hdr_bytes (rm_hdr (msg_of sub r)) ++ padded (body_bytes r)) by (unfold msg_bytes; by rewrite padded_body).
  assert (El' : zlength (msg_bytes (msg_of sub r)) = 4 + (zlength (body_bytes r) + pad_len (zlength (body_bytes r)))).
  { rewrite Em, zlength_app, padded_length. done. }
  pose proof (seg_bound _ _ _ Hp HF) as Hb. rewrite El' in *. rewrite Em in HF. clear Em El'.
  destruct (raw_app _ _ _ _ _ (conj HF eq_refl)) as (q1 & F1 & R1). apply raw_app in R1 as (q2 & F2 & _). clear HF.
  pose proof (pad_len_range (zlength (body_bytes r))). pose proof (zlength_nonneg (body_bytes r)) as Hbl.
  pose proof (holds_get_left _ _ _ (holds_set_pos _ _ _ p Hh Hp)) as El.
  unfold rtcp_decode. rewrite dalloc_ret by done. unfold dbind at 1, dneed at 1, RTCP_HDR_SIZE. rewrite El, (proj2 (Z.ltb_ge _ _)) by lia.
  unfold dbind at 1, dret at 1. unfold dbind at 1, dpos at 1. cbn [mb_pos mbuf_set_pos].
  destruct (Hhr mb c p0 p q1 Hh Hp F1) as (Hq1 & h & Eh & ->). unfold dbind at 1. rewrite Eh.
  assert (E1 : q1 = p + 4) by (destruct F1 as [_ ->]; done). subst q1. unfold dbind at 1, dcheck. cbn [rh_version rm_hdr msg_of Z.eqb RTCP_VERSION Pos.eqb].
  unfold dret at 1. change (RtcpHdr _ _ _ _ _) with (rm_hdr (msg_of sub r)). unfold dbind at 1, dneed at 1. rewrite EL.
  rewrite (holds_get_left _ _ _ (holds_set_pos _ _ _ (p + 4) Hh ltac:(lia))), (proj2 (Z.ltb_ge _ _)) by lia.
  destruct (Hbr mb c p0 (p + 4) q2 Hh ltac:(lia) F2) as (Hq2 & v & Ev & ->). unfold dbind at 1. rewrite Ev. destruct F2 as [_ ->].
  assert (Epl : pad_len (p + 4 + zlength (body_bytes r) - p) = pad_len (zlength (body_bytes r))).
  { unfold pad_len. rewrite <- (Z.mod_add _ 1) by done. f_equal. lia. }
  unfold dbind. rewrite (slurp_pad p mb c p0) by (rewrite ?Epl; done || lia). rewrite Epl. split; [lia|]. eexists. split; [|done].
  unfold dret. do 3 f_equal. lia.
Qed.
End Reading.
