(* ===== verification/RtcpRound.v ===== *)
(** * RTCP: compound packets

    What rtcp_vencode writes for a message, and that the loop of
    rtcp_recv_handler decodes a compound packet to the messages it was made
    from. *)

From Stdlib Require Import ZArith Lia.
From stdpp Require Import base numbers list.
From S2P Require Import Prelude Endian Mbuf MbufView Format Rtcp RtcpWire.

Open Scope Z_scope.

Section Writing.
Context `{H : Host} (Ham : ample_memory).

(** Handlers as a caller of rtcp_encode passes them. *)
Definition put_mem (d : list Z) : rtcp_encode_h := fun mb => Some (mbuf_write_mem mb d).
Definition each {A} (f : A -> mbuf -> Z * mbuf) (l : list A) : rtcp_encode_h := fun mb => Some (for_each_or f l mb).
Fixpoint sdes_all (l : list rtcp_sdes) : rtcp_encode_h := fun mb =>
  match l with
  | [] => Some (0, mb)
  | s :: l =>
      '(e1, mb) ← rtcp_sdes_encode 3 (sd_src s) (map (fun i => (i.1, Some i.2)) (sd_itemv s)) mb;
      '(e2, mb) ← sdes_all l mb;
      Some (Z.lor e1 e2, mb)
  end.

(** The arguments that make a message. *)
Definition args_of (r : rtcp_body) : rtcp_args :=
  match r with
  | MSr a1 a2 a3 a4 a5 a6 rrv => ASr a1 a2 a3 a4 a5 a6 (Some (each rtcp_rr_encode rrv))
  | MRr ssrc rrv => ARr ssrc (Some (each rtcp_rr_encode rrv))
  | MSdes v => ASdes (Some (sdes_all v))
  | MBye srcv reason => ABye srcv reason
  | MApp src name data => AApp src name data
  | MFir ssrc => AFir ssrc
  | MNack ssrc fsn blp => ANack ssrc fsn blp
  | MFb p m _ f =>
      match f with
      | FGnack v => ARtpfb p m (Some (each (fun g => rtcp_rtpfb_gnack_encode (gn_pid g) (gn_blp g)) v))
      | FTwcc t => ARtpfb p m (Some (fun mb => Some (rtcp_rtpfb_twcc_encode t mb)))
      | FFir v => APsfb p m (Some (each encode_fir_rfc5104_fci v))
      | FSli v => APsfb p m (Some (put_mem (concat (map sli_bytes v))))
      | FAfb d => APsfb p m (Some (put_mem d))
      | FNone => APsfb p m None
      end
  | MXr ssrc bt len b => AXr ssrc (Some (put_mem ([bt] ++ [0] ++ be_bytes 2 len ++ xrb_bytes b)))
  | MOther => AOther 0
  end.

(** ** Appending, and writing after a gap for the header *)

Definition appends (h : mbuf -> option (Z * mbuf)) (d : list Z) : Prop :=
  forall mb c, holds mb c (zlength c) -> zlength c + zlength d < 2 ^ 30 ->
  exists mb', h mb = Some (0, mb') /\ holds mb' (c ++ d) (zlength (c ++ d)).

(** [mb->pos = mb->end = pos + RTCP_HDR_SIZE], possibly beyond the memory. *)
Definition gapped (mb : mbuf) : mbuf :=
  mbuf_set_end (mbuf_set_pos mb (mb_pos mb + RTCP_HDR_SIZE)) (mb_pos mb + RTCP_HDR_SIZE).

Definition gwrites (f : mbuf -> option (Z * mbuf)) (d : list Z) : Prop :=
  forall mb c, holds mb c (zlength c) -> zlength c + 4 + zlength d < 2 ^ 30 ->
  exists hole mb', f (gapped mb) = Some (0, mb') /\ zlength hole = 4 /\ holds mb' (c ++ hole ++ d) (zlength (c ++ hole ++ d)).

Definition lift (f : mbuf -> Z * mbuf) : rtcp_encode_h := fun mb => Some (f mb).

Lemma appends_writes f d : writes f d -> appends (lift f) d.
Proof. intros Hw mb c Hh Hl. destruct (holds_writes f d mb c Ham Hw Hh ltac:(lia)) as (mb' & E & Hh'). exists mb'. unfold lift. by rewrite E. Qed.

(** Where the write goes beyond the end, the end does not matter. *)
Lemma put_end mb d e mb' : 0 <= mb_pos mb -> mb_pos mb + zlength d < 2 ^ 64 -> mb_end mb <= mb_pos mb -> e <= mb_pos mb ->
  mbuf_put mb d = (0, mb') -> mbuf_put (mbuf_set_end mb e) d = (0, mb').
Proof.
  intros Hp Hl He Hle. pose proof (zlength_nonneg d). unfold mbuf_put, mbuf_resize, mbuf_set_end, set_mem, mb_mem. cbn.
  rewrite (wrap_small _ (mb_pos mb + zlength d)) by lia.
  destruct (_ >? _); [destruct (match mb_buf mb with Some _ => _ | None => _ end); [|done]|]; cbn; rewrite ?(wrap_small _ (mb_pos mb + zlength d)) by lia;
    intros [= <-]; do 2 f_equal; lia.
Qed.

Lemma gwrites_put d : bytes d -> gwrites (fun mb => Some (mbuf_put mb d)) d.
Proof.
  intros Hd mb c Hh Hl. pose proof (zlength_nonneg c). pose proof (zlength_nonneg d). pose proof (holds_end _ _ _ Hh) as He.
  pose proof (holds_pos _ _ _ Hh) as Hp. pose proof (reserve mb c (zlength c + 4) Hh ltac:(lia)) as Hr.
  destruct (reserved_put _ c _ d Hr Hd Ham ltac:(lia)) as (hole & mb' & E & Hlen & Hh').
  exists hole, mb'. split; [|split; [lia|]].
  - f_equal. unfold gapped, RTCP_HDR_SIZE. rewrite Hp. apply put_end; [..|exact E]; cbn; lia.
  - replace (zlength (c ++ hole ++ d)) with (zlength c + 4 + zlength d) by zlen. done.
Qed.

Lemma gwrites_32 v : gwrites (lift (write_be32 v)) (be_bytes 4 v).
Proof.
  unfold write_be32, mbuf_write_u32, mbuf_write_mem, lift. rewrite host_bytes_htonl. apply gwrites_put, be_bytes_bytes.
Qed.

Lemma gwrites_then f h d1 d2 : gwrites (lift f) d1 -> appends h d2 ->
  gwrites (fun mb => let '(e1, mb) := f mb in '(e2, mb) ← h mb; Some (Z.lor e1 e2, mb)) (d1 ++ d2).
Proof.
  intros Hf Hh mb c Hc Hl. pose proof (zlength_nonneg d2). rewrite zlength_app in Hl. destruct (Hf mb c Hc ltac:(lia)) as (hole & mb1 & E & El & H1).
  unfold lift in E. injection E as E. rewrite E. destruct (Hh _ _ H1) as (mb2 & E2 & H2); [zlen|]. exists hole, mb2. rewrite E2. cbn.
  split; [done|]. split; [done|]. by rewrite <- !app_assoc in H2.
Qed.

Lemma gwrites_seq f g d1 d2 : gwrites (lift f) d1 -> writes g d2 -> gwrites (lift (f ;| g)) (d1 ++ d2).
Proof.
  intros Hf Hg mb c Hc Hl. destruct (gwrites_then f (lift g) d1 d2 Hf (appends_writes g d2 Hg) mb c Hc Hl) as (hole & mb' & E & Hr).
  exists hole, mb'. split; [|done]. rewrite <- E. unfold lift, seq_or. destruct (f (gapped mb)) as [e1 m1]. cbn. by destruct (g m1).
Qed.

Lemma gwrites_seq_ok f g d1 d2 : gwrites (lift f) d1 -> writes g d2 -> gwrites (lift (f ;& g)) (d1 ++ d2).
Proof.
  intros Hf Hg mb c Hc Hl. pose proof (zlength_nonneg d2). rewrite zlength_app in Hl. destruct (Hf mb c Hc ltac:(lia)) as (hole & mb1 & E & El & H1).
  unfold lift in E. injection E as E. destruct (appends_writes g d2 Hg mb1 _ H1) as (mb2 & E2 & H2); [zlen|]. exists hole, mb2.
  unfold lift, seq_ok. rewrite E. split; [exact E2|]. split; [done|]. by rewrite <- !app_assoc in H2.
Qed.

Lemma gwrites_handler f h d1 d2 : gwrites (lift f) d1 -> appends h d2 -> gwrites (fun mb => then_handler f (Some h) mb) (d1 ++ d2).
Proof. apply gwrites_then. Qed.

(** ** The encoders of the parts *)

Lemma each_appends {A} (f : A -> mbuf -> Z * mbuf) enc l :
  Forall (fun x => writes (f x) (enc x)) l -> appends (each f l) (concat (map enc l)).
Proof.
  intros Hf. apply (appends_writes (for_each_or f l)), writes_for_each. intros x Hx. rewrite Forall_forall in Hf. apply Hf.
  by apply list_elem_of_In.
Qed.

Lemma put_appends d : bytes d -> zlength d < 2 ^ 31 -> appends (put_mem d) d.
Proof. intros Hd Hl. apply (appends_writes (fun mb => mbuf_write_mem mb d)), writes_mem; [done|lia]. Qed.

Lemma rr_writes rr : writes (rtcp_rr_encode rr) (rr_bytes rr).
Proof. unfold rtcp_rr_encode, rr_bytes. repeat (apply writes_seq_or; [apply writes_be32|]). apply writes_be32. Qed.

Lemma writes_byte v : is_byte v -> writes (mbuf_write_u8 v) [v].
Proof. intros Hv. pose proof (writes_u8 v) as Hw. by rewrite Z.mod_small in Hw. Qed.

Lemma fir_writes f : is_byte (fi_seq_n f) -> writes (encode_fir_rfc5104_fci f) (fir_bytes f).
Proof.
  intros Hf. unfold encode_fir_rfc5104_fci, fir_bytes. apply writes_seq_or; [apply writes_be32|]. apply writes_seq_or; [by apply writes_byte|].
  change [0; 0; 0] with ([0] ++ [0] ++ [0]). repeat (apply writes_seq_or; [by apply writes_byte|]). by apply writes_byte.
Qed.

Lemma twcc_writes t : twcc_ok t -> zlength (twcc_bytes t) < 2 ^ 31 -> writes (rtcp_rtpfb_twcc_encode t) (twcc_bytes t).
Proof.
  intros (_ & _ & _ & _ & Hd & cl & Ecl & _) Hl. pose proof (zlength_nonneg (tw_chunks t)). pose proof (zlength_nonneg (tw_deltas t)).
  unfold rtcp_rtpfb_twcc_encode, twcc_bytes in *. rewrite !zlength_app, !zlength_be_bytes in Hl.
  do 2 (apply writes_seq_or; [apply writes_be16|]). apply writes_seq_or; [apply writes_be32|]. apply writes_seq_or; apply writes_mem; [|lia|done|lia].
  rewrite Ecl. clear. induction cl as [|w cl IH]; [constructor|]. cbn [map concat]. apply bytes_app. split; [apply be_bytes_bytes|done].
Qed.

Lemma srcs_writes l : writes (bye_srcs l) (concat (map (be_bytes 4) l)).
Proof.
  induction l as [|v l IH]; [apply writes_ret|]. cbn [map concat]. intros mb W. pose proof (writes_seq_ok _ _ _ _ (writes_be32 v) IH mb W) as Hw.
  unfold seq_ok in Hw. cbn [bye_srcs]. change (mbuf_write_u32 (htonl v) mb) with (write_be32 v mb) in Hw.
  destruct (write_be32 v mb) as [e mb1]. by destruct (e =? 0).
Qed.

(** A chunk of an SDES packet, its first word written. *)
Lemma items_written l : Forall item_ok l -> forall mb c, holds mb c (zlength c) -> zlength c + zlength (items_bytes l) < 2 ^ 30 ->
  exists mb', sdes_items (map (fun i => (i.1, Some i.2)) l) mb = (Ok 0, mb') /\ holds mb' (c ++ items_bytes l) (zlength (c ++ items_bytes l)).
Proof.
  induction 1 as [|[ty d] l (Ht & Hd & Hb) _ IH]; intros mb c Hh Hl; cbn [map sdes_items].
  - exists mb. split; [done|]. by rewrite app_nil_r.
  - cbn [fst snd] in *. rewrite Z.gtb_ltb, (proj2 (Z.ltb_ge _ _)) by lia. pose proof (zlength_nonneg (items_bytes l)). pose proof (zlength_nonneg d).
    change (items_bytes ((ty, d) :: l)) with (([ty] ++ [zlength d] ++ d) ++ items_bytes l) in *. rewrite !zlength_app in Hl.
    change (zlength [ty]) with 1 in Hl. change (zlength [zlength d]) with 1 in Hl.
    assert (Hw : writes (mbuf_write_u8 (u8 ty) ;| mbuf_write_u8 (Z.land (zlength d) 0xff) ;| (fun mb => mbuf_write_mem mb d)) ([ty] ++ [zlength d] ++ d)).
    { rewrite wrap_small, land_255, Z.mod_small by lia. apply writes_seq_or; [apply writes_byte; red; lia|].
      apply writes_seq_or; [apply writes_byte; red; lia|]. apply writes_mem; [done|lia]. }
    destruct (appends_writes _ _ Hw mb c Hh) as (mb1 & E & Hh1); [zlen|]. unfold lift in E. injection E as ->. cbn [Z.eqb].
    destruct (IH mb1 _ Hh1) as (mb2 & -> & Hh2); [zlen|]. exists mb2. split; [done|]. by rewrite <- app_assoc in Hh2.
Qed.

(** ** Padding *)

Lemma align_holds byte start mb c :
  is_byte byte -> holds mb c (zlength c) -> 0 <= start <= zlength c -> zlength c + pad_len (zlength c - start) < 2 ^ 31 ->
  exists mb', align_loop 3 byte start 0 mb = Some (0, mb')
    /\ let c' := c ++ replicate (Z.to_nat (pad_len (zlength c - start))) byte in holds mb' c' (zlength c').
Proof.
  intros Hb [W Hc Hp] Hs Hl. pose proof (pad_len_range (zlength c - start)) as Hr.
  destruct (align_loop_done byte (Z.to_nat (pad_len (zlength c - start))) 3 start mb) as (mb' & E & W' & Hp' & Hc'); try (done || lia).
  { rewrite Z2Nat.id, Hp by lia. apply pad_len_mod. }
  exists mb'. split; [done|]. split; [done| |].
  - by rewrite Hc', Hp, Hc, zsplice_end.
  - rewrite Hp', Hp, zlength_app, zlength_replicate, Z2Nat.id by lia. done.
Qed.

Lemma pad_end_align pos fuel : forall mb c,
  holds mb c (zlength c) -> zlength c + Z.of_nat fuel < 2 ^ 31 -> pad_end fuel pos 0 mb = align_loop fuel 0 pos 0 mb.
Proof.
  induction fuel as [|fuel IH]; intros mb c Hh Hl; cbn [pad_end align_loop]; rewrite (holds_end _ _ _ Hh), (holds_pos _ _ _ Hh); [done|].
  destruct (_ =? 0); [done|]. destruct (holds_writes _ _ mb c Ham (writes_byte 0 ltac:(done)) Hh) as (mb1 & -> & H1).
  { change (zlength [0]) with 1. lia. }
  change (Z.lor 0 0) with 0. apply (IH _ _ H1). rewrite zlength_app. change (zlength [0]) with 1. lia.
Qed.

Lemma chunk_written s mb mb1 pre : sdes_ok s -> mb_pos mb = zlength pre -> write_be32 (sd_src s) mb = (0, mb1) ->
  holds mb1 (pre ++ be_bytes 4 (sd_src s)) (zlength (pre ++ be_bytes 4 (sd_src s))) -> zlength pre + zlength (sdes_bytes s) < 2 ^ 30 ->
  exists mb', rtcp_sdes_encode 3 (sd_src s) (map (fun i => (i.1, Some i.2)) (sd_itemv s)) mb = Some (0, mb')
    /\ holds mb' (pre ++ sdes_bytes s) (zlength (pre ++ sdes_bytes s)).
Proof.
  intros (_ & Hne & Hi & Hl) Hp E H1 Hb. set (d := items_bytes (sd_itemv s)) in *. pose proof (zlength_nonneg d).
  pose proof (pad_len_range (4 + zlength d + 1)). unfold sdes_bytes in Hb. fold d in Hb. rewrite !zlength_app, zlength_zeros, zlength_be_bytes in Hb by lia.
  change (zlength [0]) with 1 in Hb. pose proof (zlength_nonneg pre).
  unfold rtcp_sdes_encode. rewrite bool_decide_false by (by destruct (sd_itemv s)). rewrite E. cbn [Z.eqb].
  destruct (items_written _ Hi mb1 _ H1) as (mb2 & -> & H2'); [fold d; zlen|]. fold d in H2'.
  destruct (appends_writes _ _ (writes_byte 0 ltac:(done)) mb2 _ H2') as (mb3 & E3 & H3'); [change (zlength [0]) with 1; zlen|].
  unfold lift in E3. injection E3 as E3. unfold RTCP_SDES_END. rewrite E3. change (Z.lor 0 0) with 0. rewrite Hp.
  assert (Ep : zlength (((pre ++ be_bytes 4 (sd_src s)) ++ d) ++ [0]) - zlength pre = 4 + zlength d + 1) by zlen.
  destruct (align_holds 0 (zlength pre) mb3 _ ltac:(done) H3') as (mb' & -> & Hh'); [zlen|rewrite Ep; zlen|].
  exists mb'. split; [done|]. cbv zeta in Hh'. rewrite Ep in Hh'.
  unfold sdes_bytes. fold d. by rewrite <- !app_assoc in *.
Qed.

Lemma sdes_appends s : sdes_ok s ->
  appends (rtcp_sdes_encode 3 (sd_src s) (map (fun i => (i.1, Some i.2)) (sd_itemv s))) (sdes_bytes s).
Proof.
  intros Hs mb c Hh Hl. assert (H4 : 4 <= zlength (sdes_bytes s)).
  { unfold sdes_bytes. set (x := _ ++ zeros _). pose proof (zlength_nonneg x). zlen. }
  destruct (appends_writes _ _ (writes_be32 (sd_src s)) mb c Hh) as (mb1 & E & Hh1); [zlen|].
  unfold lift in E. injection E as E. apply (chunk_written s mb mb1 c Hs (holds_pos _ _ _ Hh) E Hh1 Hl).
Qed.

Lemma sdes_all_appends l : Forall sdes_ok l -> appends (sdes_all l) (concat (map sdes_bytes l)).
Proof.
  induction 1 as [|s l Hs _ IH]; intros mb c Hh Hl; cbn [sdes_all map concat] in *.
  - exists mb. split; [done|]. by rewrite app_nil_r.
  - pose proof (zlength_nonneg (concat (map sdes_bytes l))). rewrite zlength_app in Hl.
    destruct (sdes_appends s Hs mb c Hh ltac:(lia)) as (mb1 & -> & Hh1). cbn [mbind option_bind].
    destruct (IH mb1 _ Hh1) as (mb2 & -> & Hh2); [zlen|]. exists mb2. split; [done|]. by rewrite <- app_assoc in Hh2.
Qed.

Lemma sdes_bytes_4 s : 4 <= zlength (sdes_bytes s).
Proof. unfold sdes_bytes. set (x := _ ++ zeros _). pose proof (zlength_nonneg x). zlen. Qed.

Lemma sdes_gwrites s : sdes_ok s ->
  gwrites (then_handler ret_ok (Some (rtcp_sdes_encode 3 (sd_src s) (map (fun i => (i.1, Some i.2)) (sd_itemv s))))) (sdes_bytes s).
Proof.
  intros Hs mb c Hh Hb. pose proof (sdes_bytes_4 s). cbn [then_handler ret_ok].
  destruct (gwrites_32 (sd_src s) mb c Hh) as (hole & mb1 & E & El & Hh1); [zlen|]. unfold lift in E. injection E as E.
  rewrite app_assoc in Hh1. destruct (chunk_written s (gapped mb) mb1 (c ++ hole) Hs) as (mb2 & E2 & Hh2); [|done|done|zlen|].
  { cbn. rewrite (holds_pos _ _ _ Hh), zlength_app, El. done. }
  exists hole, mb2. rewrite E2. cbn [mbind option_bind]. split; [done|]. split; [done|]. by rewrite <- app_assoc in Hh2.
Qed.

Lemma gwrites_bind f h d1 d2 : gwrites f d1 -> appends h d2 ->
  gwrites (fun mb => '(e1, mb) ← f mb; '(e2, mb) ← h mb; Some (Z.lor e1 e2, mb)) (d1 ++ d2).
Proof.
  intros Hf Hh mb c Hc Hl. pose proof (zlength_nonneg d2). rewrite zlength_app in Hl. destruct (Hf mb c Hc ltac:(lia)) as (hole & mb1 & E & El & H1).
  rewrite E. cbn [mbind option_bind]. destruct (Hh _ _ H1) as (mb2 & E2 & H2); [zlen|]. exists hole, mb2. rewrite E2. cbn [mbind option_bind].
  split; [done|]. split; [done|]. by rewrite <- !app_assoc in H2.
Qed.

Lemma sdes_all_gwrites l : Forall sdes_ok l -> l <> [] -> gwrites (then_handler ret_ok (Some (sdes_all l))) (concat (map sdes_bytes l)).
Proof.
  intros Hl Hne. destruct l as [|s l]; [done|]. apply Forall_cons in Hl as [Hs Hl]. cbn [map concat].
  pose proof (gwrites_bind _ _ _ _ (sdes_gwrites s Hs) (sdes_all_appends l Hl)) as Hg. intros mb c Hh Hb.
  destruct (Hg mb c Hh Hb) as (hole & mb' & E & Hr). exists hole, mb'. split; [|done]. rewrite <- E. cbn [then_handler ret_ok sdes_all].
  destruct (rtcp_sdes_encode _ _ _ _) as [[e1 mb1]|]; cbn [mbind option_bind]; [|done]. by destruct (sdes_all l mb1) as [[]|].
Qed.

(** ** The body of a message *)

Lemma gwrites_ext f g d : (forall mb, f mb = g mb) -> gwrites f d -> gwrites g d.
Proof. intros Hfg Hf mb c Hh Hl. destruct (Hf mb c Hh Hl) as (hole & mb' & E & Hr). exists hole, mb'. by rewrite <- Hfg. Qed.

Lemma gwrites_be4s v l : gwrites (lift (write_be32 v ;| for_each_or write_be32 l)) (be_bytes 4 v ++ concat (map (be_bytes 4) l)).
Proof. apply gwrites_seq; [apply gwrites_32|]. apply writes_for_each. intros x _. apply writes_be32. Qed.

Lemma fb_handler_gwrites p m h d : appends h d -> gwrites (then_handler (write_be32 p ;| write_be32 m) (Some h)) (be_bytes 4 p ++ be_bytes 4 m ++ d).
Proof.
  intros Hh. rewrite app_assoc. apply gwrites_handler; [|done]. apply gwrites_seq; [apply gwrites_32|apply writes_be32].
Qed.

Definition enc_body (a : rtcp_args) (count : Z) : rtcp_encode_h := fun mb =>
  match rtcp_vencode_body a count mb with Some (Ok e, mb) => Some (e, mb) | _ => None end.
Abbreviation body_enc sub r := (enc_body (args_of r) (body_count sub r)).

Lemma concat_bytes {A} (f : A -> list Z) l : (forall a, bytes (f a)) -> bytes (concat (map f l)).
Proof. intros Hf. induction l as [|a l IH]; [constructor|]. cbn [map concat]. apply bytes_app. by split. Qed.

Lemma fb_written sub p m n f : body_ok (MFb p m n f) -> gwrites (body_enc sub (MFb p m n f)) (body_wire (MFb p m n f)).
Proof.
  intros [(Hp & Hm & Hf) Hl]. cbn [body_wire] in *. pose proof (zlength_nonneg (fci_bytes f)) as Hn. rewrite !zlength_app, !zlength_be_bytes in Hl.
  assert (Hgo : forall h, appends h (fci_bytes f) ->
    gwrites (fun mb => match (('(e, mb) ← then_handler (write_be32 p ;| write_be32 m) (Some h) mb; Some (Ok e, mb)) : option (res Z * mbuf))
      with Some (Ok e, mb) => Some (e, mb) | _ => None end) (be_bytes 4 p ++ be_bytes 4 m ++ fci_bytes f)).
  { intros h Hh. eapply gwrites_ext; [|by apply fb_handler_gwrites]. intros mb. cbn beta. by destruct (then_handler _ _ mb) as [[]|]. }
  destruct f as [v|t|v|v|d|]; cbn [fci_bytes fci_ok] in *; unfold enc_body; cbn [args_of rtcp_vencode_body]; try apply Hgo.
  - destruct Hf as [_ Hv]. apply each_appends. eapply Forall_impl; [exact Hv|]. intros g _. apply writes_seq_or; apply writes_be16.
  - destruct Hf as [_ Ht]. apply (appends_writes (rtcp_rtpfb_twcc_encode t)), twcc_writes; [done|lia].
  - apply put_appends; [|lia]. apply concat_bytes. intros x. apply be_bytes_bytes.
  - destruct Hf as [_ Hv]. apply each_appends. eapply Forall_impl; [exact Hv|]. intros g [_ Hg]. by apply fir_writes.
  - apply put_appends; [apply Hf|lia].
  - rewrite app_nil_r. apply (gwrites_ext (lift (write_be32 p ;| write_be32 m))).
    + intros mb. unfold then_handler, lift. by destruct ((write_be32 p ;| write_be32 m) mb).
    + apply gwrites_seq; [apply gwrites_32|apply writes_be32].
Qed.

Lemma rrs_appends l : appends (each rtcp_rr_encode l) (concat (map rr_bytes l)).
Proof. apply each_appends, Forall_forall. intros rr _. apply rr_writes. Qed.

Lemma xr_written sub ssrc bt len b : body_ok (MXr ssrc bt len b) -> gwrites (body_enc sub (MXr ssrc bt len b)) (body_wire (MXr ssrc bt len b)).
Proof.
  intros [[_ Hb] Hl]. set (dd := [bt] ++ [0] ++ be_bytes 2 len ++ xrb_bytes b).
  apply (gwrites_ext (then_handler (write_be32 ssrc) (Some (put_mem dd)))); [|apply gwrites_handler; [apply gwrites_32|]].
  { intros mb. unfold enc_body. cbn [args_of rtcp_vencode_body]. by destruct (then_handler _ _ mb) as [[]|]. }
  cbn [body_wire] in Hl. rewrite zlength_app, zlength_be_bytes in Hl. apply put_appends; [|unfold dd; lia]. unfold dd. clear dd Hl.
  destruct b as [m l|s l d|]; [destruct Hb as (-> & -> & _)|destruct Hb as (-> & -> & _)|done]; cbn [xrb_bytes];
    rewrite !bytes_app; split_and!; try apply be_bytes_bytes; constructor; done.
Qed.

Lemma bye_written sub srcv reason : body_ok (MBye srcv reason) -> gwrites (body_enc sub (MBye srcv reason)) (body_wire (MBye srcv reason)).
Proof.
  intros [(Hn & Hs & Hr) Hl]. destruct srcv as [|v l]; [change (zlength (@nil Z)) with 0 in Hn; lia|]. unfold enc_body. cbn [args_of rtcp_vencode_body body_count body_wire map concat].
  rewrite ztake_ge by done.
  assert (Hsrc : gwrites (lift (bye_srcs (v :: l))) (be_bytes 4 v ++ concat (map (be_bytes 4) l))).
  { eapply gwrites_ext; [|apply (gwrites_seq_ok (write_be32 v) (bye_srcs l)); [apply gwrites_32|apply srcs_writes]].
    intros mb. unfold lift, seq_ok. cbn [bye_srcs]. destruct (write_be32 v mb) as [e mb1]. by destruct (e =? 0). }
  destruct reason as [t|]; cbn [fst snd].
  - destruct Hr as (Ht & Hb & _). pose proof (zlength_nonneg t). eapply gwrites_ext; [|apply gwrites_seq; [exact Hsrc|]].
    { intros mb. unfold lift. by rewrite <- surjective_pairing. }
    apply writes_seq_or; [rewrite wrap_small by lia; apply writes_byte; red; lia|]. apply writes_mem; [done|lia].
  - rewrite app_nil_r. eapply gwrites_ext; [|exact Hsrc]. intros mb. unfold lift. by rewrite <- surjective_pairing.
Qed.

Lemma app_written sub src name data : body_ok (MApp src name data) ->
  gwrites (body_enc sub (MApp src name data)) (body_wire (MApp src name data)).
Proof.
  intros [(_ & Hn & Hb & Hd) Hl]. cbn [body_wire] in Hl |- *. rewrite !zlength_app, zlength_be_bytes in Hl. pose proof (zlength_nonneg (default [] data)).
  assert (Hf : gwrites (lift (write_be32 src ;| (fun mb => mbuf_write_mem mb (ztake 4 name)))) (be_bytes 4 src ++ name)).
  { rewrite ztake_ge by lia. apply gwrites_seq; [apply gwrites_32|]. apply writes_mem; [done|lia]. }
  unfold enc_body. cbn [args_of rtcp_vencode_body]. destruct data as [d|]; cbn [from_option] in *; unfold id in *.
  - destruct Hd as (_ & Hm & Hbd). rewrite Hm. cbn [Z.eqb negb]. rewrite app_assoc.
    eapply gwrites_ext; [|apply gwrites_then; [exact Hf|apply (put_appends d Hbd)]]; [|lia]. intros mb. unfold put_mem. cbn beta.
    destruct ((_ ;| _) mb) as [e mb1]. cbn [mbind option_bind]. by destruct (mbuf_write_mem mb1 d).
  - rewrite app_nil_r. eapply gwrites_ext; [|exact Hf]. intros mb. unfold lift. by destruct ((_ ;| _) mb).
Qed.

Lemma body_written sub r : body_ok r -> gwrites (body_enc sub r) (body_wire r).
Proof.
  intros Hok. destruct r as [a1 a2 a3 a4 a5 a6 rrv|ssrc rrv|v|srcv reason|src name data|ssrc|ssrc fsn blp|p m n f|ssrc bt len b|];
    [| | |by apply bye_written|by apply app_written| | |by apply fb_written|by apply xr_written|by destruct Hok];
    unfold enc_body; cbn [args_of rtcp_vencode_body body_wire].
  - set (f := (write_be32 a1 ;| _)). apply (gwrites_ext (then_handler f (Some (each rtcp_rr_encode rrv)))).
    + intros mb. by destruct (then_handler _ _ mb) as [[]|].
    + rewrite !app_assoc. apply gwrites_handler; [|apply rrs_appends]. rewrite <- !app_assoc. apply gwrites_seq; [apply gwrites_32|].
      repeat (apply writes_seq_or; [apply writes_be32|]). apply writes_be32.
  - apply (gwrites_ext (then_handler (write_be32 ssrc) (Some (each rtcp_rr_encode rrv)))).
    + intros mb. by destruct (then_handler _ _ mb) as [[]|].
    + apply gwrites_handler; [apply gwrites_32|apply rrs_appends].
  - destruct Hok as [[Hn Hv] _]. apply (gwrites_ext (then_handler ret_ok (Some (sdes_all v)))).
    + intros mb. by destruct (then_handler _ _ mb) as [[]|].
    + apply sdes_all_gwrites; [done|]. intros ->. change (zlength (@nil rtcp_sdes)) with 0 in Hn. lia.
  - eapply gwrites_ext; [|apply gwrites_32]. intros mb. unfold lift. by destruct (write_be32 ssrc mb).
  - eapply gwrites_ext; [|apply gwrites_seq; [apply (gwrites_32 ssrc)|apply (writes_seq_or (write_be16 fsn) (write_be16 blp)); apply writes_be16]].
    intros mb. unfold lift. by destruct ((_ ;| _) mb).
Qed.

(** ** The whole message *)

Lemma args_pt r : args_type (args_of r) = body_pt r.
Proof. by destruct r as [| | | | | | |? ? ? []| |]. Qed.

Lemma hdr_writes count pt len : 0 <= count < 32 -> is_byte pt ->
  writes (rtcp_hdr_encode (u8 count) pt len) (hdr_bytes (RtcpHdr RTCP_VERSION 0 count pt len)).
Proof.
  intros Hc Hp. unfold rtcp_hdr_encode, hdr_bytes. cbn [rh_count rh_pt rh_length].
  assert (0 <= Z.lor (Z.shiftl RTCP_VERSION 6) count < 2 ^ 8) by (apply lor_bound; unfold RTCP_VERSION; change (Z.shiftl 2 6) with 128; lia).
  rewrite !wrap_small by (red in Hp; rewrite ?wrap_small by lia; lia).
  apply writes_seq_or; [by apply writes_byte|]. apply writes_seq_or; [by apply writes_byte|apply writes_be16].
Qed.

(** The header in the gap. *)
Lemma hdr_filled mb c hole d count pt :
  holds mb (c ++ hole ++ d) (zlength (c ++ hole ++ d)) -> zlength hole = 4 -> 0 <= count < 32 -> is_byte pt -> words d < 2 ^ 16 ->
  zlength (c ++ hole) < 2 ^ 31 ->
  exists mb', rtcp_hdr_encode (u8 count) pt (u16 (u64 (mb_end (mbuf_set_pos mb (zlength c)) - zlength c - RTCP_HDR_SIZE) / 4)) (mbuf_set_pos mb (zlength c))
      = (0, mb')
    /\ let c' := c ++ hdr_bytes (RtcpHdr RTCP_VERSION 0 count pt (words d)) ++ d in holds (mbuf_skip_to_end mb') c' (zlength c').
Proof.
  intros Hh El Hc Hp Hw Hl. pose proof (zlength_nonneg c). pose proof (zlength_nonneg d). pose proof (holds_end _ _ _ Hh) as He.
  pose proof (holds_wf _ _ _ Hh) as W. mbuf_wf_facts. rewrite !zlength_app, El in He. cbn [mb_end mbuf_set_pos]. unfold RTCP_HDR_SIZE.
  assert (Hw0 : 0 <= words d) by (apply Z.div_pos; lia).
  replace (mb_end mb - zlength c - 4) with (zlength d) by lia. rewrite (wrap_small 64) by lia. fold (words d). rewrite (wrap_small 16) by lia.
  pose proof (holds_set_pos _ _ _ (zlength c) Hh ltac:(rewrite !zlength_app; lia)) as Hh'.
  destruct (holds_overwrite _ _ _ c hole d (hdr_writes count pt (words d) Hc Hp) Hh') as (mb' & E & Hm); [done|done|done|].
  exists mb'. split; [done|]. cbv zeta. unfold mbuf_skip_to_end. rewrite (holds_end _ _ _ Hm).
  eapply holds_set_pos; [exact Hm|]. split; [apply zlength_nonneg|done].
Qed.

Lemma vencode_writes a count w :
  gwrites (enc_body a count) w -> 0 <= count < 32 -> is_byte (args_type a) -> zlength w <= 4 * 65535 ->
  appends (rtcp_vencode 3 a count) (hdr_bytes (RtcpHdr RTCP_VERSION 0 count (args_type a) (words (padded w))) ++ padded w).
Proof.
  intros Hg Hc Ht Hwl mb c Hh Hl. pose proof (zlength_nonneg c). pose proof (zlength_nonneg w). pose proof (pad_len_range (zlength w)) as Hpl.
  assert (Hw : words (padded w) < 2 ^ 16).
  { pose proof (words_padded w). pose proof (padded_mod w) as Hm. rewrite padded_length in Hm. Z.div_mod_to_equations. lia. }
  rewrite zlength_app, padded_length in Hl. change (zlength (hdr_bytes _)) with 4 in Hl.
  destruct (Hg mb c Hh ltac:(lia)) as (hole & mb1 & E & El & Hh1).
  unfold rtcp_vencode. rewrite (wrap_small _ (mb_pos mb + _)) by (rewrite (holds_pos _ _ _ Hh); unfold RTCP_HDR_SIZE; lia).
  fold (gapped mb). unfold enc_body in E. destruct (rtcp_vencode_body _ _ _) as [[[e|] mb1']|]; [|done..]. injection E as -> ->.
  cbn [mbind option_bind Z.eqb negb]. rewrite (holds_pos _ _ _ Hh).
  assert (Ep : zlength (c ++ hole ++ w) - zlength c = zlength w + 1 * 4) by zlen.
  assert (Epl : pad_len (zlength (c ++ hole ++ w) - zlength c) = pad_len (zlength w)).
  { rewrite Ep. unfold pad_len. rewrite <- (Z.mod_add (- zlength w) (-1)) by done. f_equal. lia. }
  rewrite (pad_end_align _ _ _ _ Hh1) by (change (Z.of_nat 3) with 3; zlen).
  destruct (align_holds 0 (zlength c) mb1 _ ltac:(done) Hh1) as (mb2 & -> & Hh2); [zlen|rewrite Epl; zlen|]. cbv zeta in Hh2. rewrite Epl in Hh2.
  cbn [mbind option_bind Z.eqb negb].
  change (replicate _ 0) with (zeros (pad_len (zlength w))) in Hh2. rewrite <- !app_assoc in Hh2. fold (padded w) in Hh2.
  destruct (hdr_filled mb2 c hole (padded w) count (args_type a) Hh2 El Hc) as (mb3 & -> & Hh3); [done|lia|zlen|by exists (mbuf_skip_to_end mb3)].
Qed.

Lemma vencode_appends sub r : body_ok r -> 0 <= body_count sub r < 32 ->
  appends (rtcp_vencode 3 (args_of r) (body_count sub r)) (msg_bytes (msg_of sub r)).
Proof.
  intros Hok Hc. unfold msg_bytes, msg_of. cbn [rm_hdr rm_r]. rewrite <- args_pt. apply vencode_writes; [by apply body_written|done| |apply Hok].
  rewrite args_pt. destruct r as [| | | | | | |? ? ? []| |]; vm_compute; split; congruence.
Qed.

(** ** Compound packets *)

(** [rtcp_encode] for each message, [err |=]. *)
Fixpoint encode_all (l : list (Z * rtcp_body)) (mb : mbuf) : option (Z * mbuf) :=
  match l with
  | [] => Some (0, mb)
  | (sub, r) :: l =>
      '(e1, mb) ← rtcp_vencode 3 (args_of r) (body_count sub r) mb;
      '(e2, mb) ← encode_all l mb;
      Some (Z.lor e1 e2, mb)
  end.

Definition packet_ok (m : Z * rtcp_body) : Prop := body_ok m.2 /\ 0 <= body_count m.1 m.2 < 32.
Definition packet_msg (m : Z * rtcp_body) : rtcp_msg := msg_of m.1 m.2.
Definition compound (l : list (Z * rtcp_body)) : list Z := concat (map (fun m => msg_bytes (packet_msg m)) l).

Lemma encode_all_appends l : Forall packet_ok l -> appends (encode_all l) (compound l).
Proof.
  induction 1 as [|[sub r] l [Hr Hc] _ IH]; intros mb c Hh Hl; cbn [encode_all].
  - exists mb. split; [done|]. by rewrite app_nil_r.
  - change (compound ((sub, r) :: l)) with (msg_bytes (msg_of sub r) ++ compound l) in *. pose proof (zlength_nonneg (compound l)).
    rewrite zlength_app in Hl. destruct (vencode_appends sub r Hr Hc mb c Hh ltac:(lia)) as (mb1 & -> & Hh1). cbn [mbind option_bind].
    destruct (IH mb1 _ Hh1) as (mb2 & -> & Hh2); [zlen|]. exists mb2. split; [done|]. by rewrite <- app_assoc in Hh2.
Qed.

Lemma recv_compound {St} (h : St -> rtcp_msg -> St) l : Forall packet_ok l -> forall fuel st mb c pre,
  (length l < fuel)%nat -> holds mb c (zlength pre) -> c = pre ++ compound l ->
  exists mb', rtcp_recv_loop h fuel st mb = Some (fold_left h (map packet_msg l) st, mb') /\ mb' = mbuf_set_pos mb (zlength c).
Proof.
  induction 1 as [|[sub r] l [Hr Hc] _ IH]; intros fuel st mb c pre Hf Hh Hcc; (destruct fuel as [|fuel]; [cbn in Hf; lia|]); cbn [rtcp_recv_loop].
  - change (compound []) with (@nil Z) in Hcc. rewrite app_nil_r in Hcc. subst c. exists mb. split; [|by rewrite <- (holds_pos _ _ _ Hh); destruct mb].
    unfold rtcp_decode, dbind, dneed. rewrite (holds_get_left _ _ _ Hh), Z.sub_diag. done.
  - change (compound ((sub, r) :: l)) with (msg_bytes (msg_of sub r) ++ compound l) in Hcc.
    assert (Hs : raw (msg_bytes (msg_of sub r)) (view c) (zlength pre) (zlength pre + zlength (msg_bytes (msg_of sub r)))).
    { split; [|done]. subst c. apply seg_mid. }
    destruct (decode_read Ham sub r Hr Hc mb c _ _ _ Hh (holds_range _ _ _ Hh) Hs) as (Hq & m & E & ->).
    assert (Emb : mbuf_set_pos mb (zlength pre) = mb) by (rewrite <- (holds_pos _ _ _ Hh); by destruct mb). rewrite Emb in E. rewrite E.
    pose proof (zlength_nonneg pre).
    destruct (IH fuel (h st (msg_of sub r)) (mbuf_set_pos mb (zlength pre + zlength (msg_bytes (msg_of sub r)))) c (pre ++ msg_bytes (msg_of sub r)))
      as (mb' & E' & ->); [cbn in Hf; lia|rewrite zlength_app; apply (holds_set_pos _ _ _ _ Hh); lia|by rewrite <- app_assoc|].
    eexists. split; [exact E'|done].
Qed.

Lemma compound_length l : zlength l <= zlength (compound l).
Proof.
  induction l as [|[sub r] l IH]; [done|]. change (compound ((sub, r) :: l)) with ((hdr_bytes (rm_hdr (msg_of sub r)) ++ padded (body_wire r)) ++ compound l).
  rewrite !zlength_app, zlength_cons. change (zlength (hdr_bytes (rm_hdr (msg_of sub r)))) with 4. pose proof (zlength_nonneg (padded (body_wire r))). lia.
Qed.

(** A compound packet received as a datagram. *)
Lemma recv_datagram {St} (h : St -> rtcp_msg -> St) st l : Forall packet_ok l -> bytes (compound l) -> zlength (compound l) <= MEM_SIZE_MAX ->
  exists mb', rtcp_recv_handler h st (rcv_buf (compound l)) = Some (fold_left h (map packet_msg l) st, mb').
Proof.
  intros Hl Hb Hm. pose proof (rcv_buf_holds _ Hb Hm) as Hh.
  destruct (recv_compound h l Hl (S (Z.to_nat (mbuf_get_left (rcv_buf (compound l))))) st (rcv_buf (compound l)) (compound l) []) as (mb2 & E2 & _);
    [|done|done|by exists mb2].
  rewrite (holds_get_left _ _ _ Hh). pose proof (compound_length l). unfold zlength in *. lia.
Qed.

(** C7: a compound packet made with rtcp_encode from any well-formed messages
    (sender and receiver reports, source descriptions, BYE, APP, FIR, NACK,
    generic NACK, transport-wide feedback, PLI, SLI, FIR of RFC 5104,
    application feedback, extended reports), behind whatever the buffer already
    holds, is received as exactly these messages, in order, with nothing left. *)
Theorem rtcp_compound_roundtrip {St} (h : St -> rtcp_msg -> St) st l mb c :
  Forall packet_ok l -> holds mb c (zlength c) -> zlength c + zlength (compound l) < 2 ^ 30 ->
  exists mb', encode_all l mb = Some (0, mb')
    /\ rtcp_recv_handler h st (mbuf_set_pos mb' (zlength c)) = Some (fold_left h (map packet_msg l) st, mb').
Proof.
  intros Hl Hh Hb. destruct (encode_all_appends l Hl mb c Hh Hb) as (mb' & E & Hh'). exists mb'. split; [done|].
  pose proof (holds_set_pos _ _ _ (zlength c) Hh' ltac:(rewrite zlength_app; pose proof (zlength_nonneg c); pose proof (zlength_nonneg (compound l)); lia)) as Hp.
  destruct (recv_compound h l Hl (S (Z.to_nat (mbuf_get_left (mbuf_set_pos mb' (zlength c))))) st (mbuf_set_pos mb' (zlength c)) (c ++ compound l) c)
    as (mb2 & E2 & ->); [|done|done|].
  - rewrite (holds_get_left _ _ _ Hp), zlength_app. pose proof (compound_length l). unfold zlength in *. lia.
  - unfold rtcp_recv_handler. rewrite E2. rewrite set_pos_twice, <- (holds_pos _ _ _ Hh'). by destruct mb'.
Qed.
End Writing.

(** A report with a block, a description, feedback with padding and a BYE with a reason, behind four bytes of headroom. *)
Definition ex_packets : list (Z * rtcp_body) :=
  [(0, MSr 1 2 3 4 5 6 [RtcpRr 7 8 (-9) 10 11 12 13]);
   (0, MSdes [RtcpSdes 1 [(1, [97; 98; 99])]]);
   (0, MFb 1 2 4 (FTwcc (Twcc 100 3 5 6 (be_bytes 2 0x2003) [1; 2; 3])));
   (0, MBye [1] (Some [65; 100; 106; 111]))].

Definition ex_buf : mbuf := Mbuf (Some (zeros 32)) 32 4 4.

Lemma ex_packets_ok : Forall packet_ok ex_packets.
Proof.
  unfold ex_packets. repeat (apply Forall_cons; split); [..|constructor];
    (split; [|vm_compute; split; congruence]); (split; [|vm_compute; congruence]); cbn [snd body_ok].
  - split; [by repeat (constructor; [vm_compute; split; congruence|])|]. split; [|done]. constructor; [|done]. unfold rr_ok, is_u32. cbn [rr_ssrc rr_fraction rr_lost rr_last_seq rr_jitter rr_lsr rr_dlsr]. lia.
  - split; [done|]. constructor; [|done]. split; [vm_compute; split; congruence|]. split; [done|]. split; [|done]. constructor; [|done].
    split; [cbn; lia|]. split; [done|]. by repeat (constructor; [vm_compute; split; congruence|]).
  - split; [vm_compute; split; congruence|]. split; [vm_compute; split; congruence|]. split; [by vm_compute|]. split; [vm_compute; split; congruence|]. cbn [tw_count tw_fbcount tw_reftime tw_deltas tw_chunks].
    split; [lia|]. split; [lia|]. split; [lia|]. split; [by repeat (constructor; [vm_compute; split; congruence|])|].
    exists [0x2003]. split; [done|]. split; [by constructor; [vm_compute; split; congruence|]|by vm_compute].
  - split; [done|]. split; [by constructor; [vm_compute; split; congruence|]|]. split; [done|]. split; [by repeat (constructor; [vm_compute; split; congruence|])|].
    rewrite !not_elem_of_cons. split_and!; try lia. apply not_elem_of_nil.
Qed.

Lemma ex_buf_holds : holds ex_buf (zeros 4) (zlength (zeros 4)).
Proof. split; [|done|done]. split; cbn [mb_size mb_pos mb_end ex_buf]; [done|lia|lia|vm_compute; congruence|by apply Forall_replicate]. Qed.

Lemma rtcp_compound_roundtrip_witness :
  exists mb', encode_all (H := lp64_le) ex_packets ex_buf = Some (0, mb')
    /\ rtcp_recv_handler (H := lp64_le) (fun l m => l ++ [m]) [] (mbuf_set_pos mb' 4)
       = Some (fold_left (fun l m => l ++ [m]) (map packet_msg ex_packets) [], mb').
Proof.
  exact (rtcp_compound_roundtrip (H := lp64_le) lp64_ample (fun l m => l ++ [m]) [] ex_packets ex_buf (zeros 4) ex_packets_ok ex_buf_holds eq_refl).
Defined.
