(* ===== verification/RtcpSess.v ===== *)
(** * RTCP sessions: src/src/rtp/sess.c, member.c, ntp.c, rtcp.c, and the sockets of rtp.c

    The session of a socket is [rtcp_sess].  Its table of members is the
    sequence of entries, in order of insertion, that [Hash.hash_refines] shows
    a hash table to be; hash_apply visits them by bucket.  Times are arguments:
    [jfs] is tmr_jiffies() in milliseconds and [rt] is tmr_jiffies_rt_usec().
    An argument [ok] says whether the allocation of a member, or of the state of
    a source, succeeds.  The timer is the delay it was last armed with.  The
    mutex is left out: a session is used as if from one thread. *)

From Stdlib Require Import ZArith Lia SpecFloat.
From stdpp Require Import base numbers list.
From S2P Require Import Prelude Endian Mbuf MbufView Format Sa Rtp RtpSource Rtcp.

Open Scope Z_scope.

Definition RTCP_INTERVAL : Z := 5000.
Definition MAX_MEMBERS : Z := 8.

(** ** ntp.c *)

Record rtp_ntp_time := NtpTime { ntp_hi : Z; ntp_lo : Z }.

Definition UNIX_NTP_OFFSET : Z := 0x83aa7e80.

(** Arithmetic on [double]. *)
Definition dbl (z : Z) : spec_float := binary_normalize 53 1024 z 0 false.
Definition dmul : spec_float -> spec_float -> spec_float := SFmul 53 1024.
Definition dbl_1e_6 : spec_float := SFdiv 53 1024 (dbl 1) (dbl 1000000).
Definition dtrunc (x : spec_float) : Z :=
  match x with S754_finite false m e => Z.shiftl (Zpos m) e | _ => 0 end.

Definition unix2ntp (tv_sec tv_usec : Z) : rtp_ntp_time :=
  NtpTime (u32 (tv_sec + UNIX_NTP_OFFSET)) (u32 (dtrunc (dmul (dmul (dbl tv_usec) (dbl (2 ^ 32))) dbl_1e_6))).

Definition ntp_time_get (rt : Z) : rtp_ntp_time := unix2ntp (rt / 1000000) (rt mod 1000000).

Definition ntp_compact (t : rtp_ntp_time) : Z :=
  Z.lor (u32 (Z.shiftl (Z.land (ntp_hi t) 0xffff) 16)) (Z.shiftr (ntp_lo t) 16).

Definition ntp_compact2us (ntpc : Z) : Z :=
  let hi := Z.land (Z.shiftr ntpc 16) 0xffff in
  let lo := u32 (Z.shiftl (Z.land ntpc 0xffff) 16) in
  u64 (1000000 * hi + Z.shiftr (1000000 * lo) 32).

(** ** Members *)

(** struct rtp_source: the state source.c works on, and the rest. *)
Record member_source := MemberSource {
  ms_stat : rtp_source;
  ms_peer : sa;
  ms_rtp_rx_bytes : Z;
  ms_sr_recv : Z;
  ms_last_sr : rtp_ntp_time;
  ms_rtp_ts : Z;
  ms_last_rtp_ts : Z;
  ms_psent : Z;
  ms_osent : Z;
}.

Record rtp_member := RtpMember { mbr_s : option member_source; mbr_src : Z; mbr_cum_lost : Z; mbr_jit : Z; mbr_rtt : Z }.

Definition rtp_member_find (src : Z) (l : list rtp_member) : option rtp_member := find (fun m => mbr_src m =? src) l.

(** mem_zalloc and hash_append. *)
Definition rtp_member_add (ok : bool) (src : Z) (l : list rtp_member) : option (list rtp_member) :=
  if ok then Some (l ++ [RtpMember None src 0 0 0]) else None.

(** Writing through the pointer to the member found for [src], and its destructor. *)
Fixpoint upd_member (src : Z) (f : rtp_member -> rtp_member) (l : list rtp_member) : list rtp_member :=
  match l with
  | [] => []
  | m :: l => if mbr_src m =? src then f m :: l else m :: upd_member src f l
  end.
Fixpoint del_member (src : Z) (l : list rtp_member) : list rtp_member :=
  match l with
  | [] => []
  | m :: l => if mbr_src m =? src then l else m :: del_member src l
  end.

(** The order of hash_apply over the buckets [src & (bsize - 1)]. *)
Definition hash_order (l : list rtp_member) : list rtp_member :=
  concat (map (fun i => filter (fun m => Z.land (mbr_src m) (MAX_MEMBERS - 1) = i) l) (seqZ 0 MAX_MEMBERS)).

(** ** The session *)

Record txstat := TxStat { tx_psent : Z; tx_osent : Z; tx_jfs_rt_ref : Z; tx_ts_ref : Z; tx_ts_synced : bool }.

Record rtcp_sess := RtcpSess {
  se_members : list rtp_member;
  se_tmr : option Z;
  se_cname : option (list Z);
  se_memberc : Z;
  se_senderc : Z;
  se_srate_tx : Z;
  se_srate_rx : Z;
  se_interval : Z;
  se_txstat : txstat;
}.

(** mem_zalloc, mutex_alloc and hash_alloc with their results. *)
Definition sess_init : rtcp_sess := RtcpSess [] None None 0 0 0 0 RTCP_INTERVAL (TxStat 0 0 0 0 false).
Definition rtcp_sess_alloc (ok : bool) (lock_err hash_err : Z) : res rtcp_sess :=
  if negb ok then Err ENOMEM
  else if negb (lock_err =? 0) then Err lock_err
  else if negb (hash_err =? 0) then Err hash_err
  else Ok sess_init.

Definition set_members (l : list rtp_member) (memberc senderc : Z) (s : rtcp_sess) : rtcp_sess :=
  RtcpSess l (se_tmr s) (se_cname s) memberc senderc (se_srate_tx s) (se_srate_rx s) (se_interval s) (se_txstat s).
Definition set_txstat (t : txstat) (s : rtcp_sess) : rtcp_sess :=
  RtcpSess (se_members s) (se_tmr s) (se_cname s) (se_memberc s) (se_senderc s) (se_srate_tx s) (se_srate_rx s) (se_interval s) t.
Definition set_tmr (t : option Z) (s : rtcp_sess) : rtcp_sess :=
  RtcpSess (se_members s) t (se_cname s) (se_memberc s) (se_senderc s) (se_srate_tx s) (se_srate_rx s) (se_interval s) (se_txstat s).
Definition set_cname (c : option (list Z)) (s : rtcp_sess) : rtcp_sess :=
  RtcpSess (se_members s) (se_tmr s) c (se_memberc s) (se_senderc s) (se_srate_tx s) (se_srate_rx s) (se_interval s) (se_txstat s).
Definition rtcp_set_interval (n : Z) (s : rtcp_sess) : rtcp_sess :=
  RtcpSess (se_members s) (se_tmr s) (se_cname s) (se_memberc s) (se_senderc s) (se_srate_tx s) (se_srate_rx s) n (se_txstat s).
Definition rtcp_set_srate (srate_tx srate_rx : Z) (s : rtcp_sess) : rtcp_sess :=
  RtcpSess (se_members s) (se_tmr s) (se_cname s) (se_memberc s) (se_senderc s) srate_tx srate_rx (se_interval s) (se_txstat s).
Definition rtcp_set_srate_tx (srate_tx : Z) (s : rtcp_sess) : rtcp_sess := rtcp_set_srate srate_tx (se_srate_rx s) s.
Definition rtcp_set_srate_rx (srate_rx : Z) (s : rtcp_sess) : rtcp_sess := rtcp_set_srate (se_srate_tx s) srate_rx s.

(** tmr_start and tmr_cancel on the timer of the session. *)
Definition schedule (s : rtcp_sess) : rtcp_sess := set_tmr (Some (se_interval s)) s.
Definition rtcp_schedule_report (s : rtcp_sess) : rtcp_sess := schedule s.

(** [dup] says whether str_dup finds memory; it refuses NULL with EINVAL. *)
Definition rtcp_enable (dup : bool) (enabled : bool) (cname : option (list Z)) (s : rtcp_sess) : Z * rtcp_sess :=
  match cname with
  | None => (EINVAL, set_cname None s)
  | Some c =>
      if dup then (0, if enabled then schedule (set_cname (Some c) s) else set_tmr None (set_cname (Some c) s))
      else (ENOMEM, set_cname None s)
  end.

Definition get_member (ok : bool) (src : Z) (s : rtcp_sess) : option rtp_member * rtcp_sess :=
  match rtp_member_find src (se_members s) with
  | Some m => (Some m, s)
  | None =>
      if se_memberc s >=? MAX_MEMBERS then (None, s)
      else
        match rtp_member_add ok src (se_members s) with
        | None => (None, s)
        | Some l => (rtp_member_find src l, set_members l (u32 (se_memberc s + 1)) (se_senderc s) s)
        end
  end.

Definition change_member (src : Z) (f : rtp_member -> rtp_member) (s : rtcp_sess) : rtcp_sess :=
  set_members (upd_member src f (se_members s)) (se_memberc s) (se_senderc s) s.

(** The value stored for [rtt]. *)
Definition rtcp_calc_rtt (rt : Z) (lsr dlsr : Z) : Z :=
  let a_us := ntp_compact2us (ntp_compact (ntp_time_get rt)) in
  let lsr_us := ntp_compact2us lsr in
  let dlsr_us := 1000000 * dlsr / 65536 in
  Z.max (swrap 32 (a_us - lsr_us - dlsr_us)) 0.

(** [1000000 * rr->jitter / sess->srate_tx] is computed in 32 bits. *)
Definition handle_rr_block (rt : Z) (srate_tx : Z) (rr : rtcp_rr) (m : rtp_member) : rtp_member :=
  RtpMember (mbr_s m) (mbr_src m) (rr_lost rr)
    (if srate_tx =? 0 then mbr_jit m else u32 (1000000 * rr_jitter rr) / srate_tx)
    (if (rr_lsr rr =? 0) || (rr_dlsr rr =? 0) then mbr_rtt m else rtcp_calc_rtt rt (rr_lsr rr) (rr_dlsr rr)).

Definition handle_rr_blocks (rt : Z) (src : Z) (rrv : list rtcp_rr) (s : rtcp_sess) : rtcp_sess :=
  fold_left (fun s rr => change_member src (handle_rr_block rt (se_srate_tx s) rr) s) rrv s.

Definition handle_incoming_rr (ok : bool) (rt ssrc : Z) (rrv : list rtcp_rr) (s : rtcp_sess) : rtcp_sess :=
  match get_member ok ssrc s with
  | (None, s) => s
  | (Some _, s) => handle_rr_blocks rt ssrc rrv s
  end.

(** Saving the sender information of an SR. *)
Definition save_sr (jfs ntp_sec ntp_frac rtp_ts psent osent : Z) (m : rtp_member) : rtp_member :=
  match mbr_s m with
  | None => m
  | Some s =>
      RtpMember (Some (MemberSource (ms_stat s) (ms_peer s) (ms_rtp_rx_bytes s) jfs (NtpTime ntp_sec ntp_frac) rtp_ts
        (ms_last_rtp_ts s) psent osent)) (mbr_src m) (mbr_cum_lost m) (mbr_jit m) (mbr_rtt m)
  end.

Definition handle_incoming_sr (ok : bool) (jfs rt ssrc ntp_sec ntp_frac rtp_ts psent osent : Z) (rrv : list rtcp_rr) (s : rtcp_sess)
  : rtcp_sess :=
  match get_member ok ssrc s with
  | (None, s) => s
  | (Some _, s) => handle_rr_blocks rt ssrc rrv (change_member ssrc (save_sr jfs ntp_sec ntp_frac rtp_ts psent osent) s)
  end.

Definition bye_member (s : rtcp_sess) (src : Z) : rtcp_sess :=
  match rtp_member_find src (se_members s) with
  | None => s
  | Some m =>
      set_members (del_member src (se_members s)) (u32 (se_memberc s - 1))
        (match mbr_s m with Some _ => u32 (se_senderc s - 1) | None => se_senderc s end) s
  end.

Definition handle_incoming_bye (srcv : list Z) (s : rtcp_sess) : rtcp_sess := fold_left bye_member srcv s.

Definition rtcp_handler (ok : bool) (jfs rt : Z) (s : rtcp_sess) (msg : rtcp_msg) : rtcp_sess :=
  match rm_r msg with
  | MSr ssrc sec frac ts psent osent rrv => handle_incoming_sr ok jfs rt ssrc sec frac ts psent osent rrv s
  | MRr ssrc rrv => handle_incoming_rr ok rt ssrc rrv s
  | MBye srcv _ => handle_incoming_bye srcv s
  | _ => s
  end.

Definition rtcp_sess_tx_rtp (ts jfs_rt payload_size : Z) (s : rtcp_sess) : rtcp_sess :=
  let t := se_txstat s in
  let osent := u32 (tx_osent t + u32 payload_size) in
  let psent := u32 (tx_psent t + 1) in
  set_txstat (if tx_ts_synced t then TxStat psent osent (tx_jfs_rt_ref t) (tx_ts_ref t) true else TxStat psent osent jfs_rt ts true) s.

(** A source as mem_zalloc and rtp_source_init_seq leave it. *)
Definition new_source (seq : Z) (peer : sa) : member_source :=
  MemberSource (rtp_source_init_seq (RtpSource 0 0 0 0 0 0 0 0 0 0) seq) peer 0 0 (NtpTime 0 0) 0 0 0 0.

(** What a packet does to the source of its sender. *)
Definition source_rx (jfs srate_rx : Z) (hdr : rtp_header) (payload_size : Z) (s : member_source) : member_source :=
  let st := (rtp_source_update_seq (ms_stat s) (h_seq hdr)).2 in
  let st :=
    if srate_rx =? 0 then st
    else
      let ts_arrive := u64 (jfs * srate_rx) / 1000 in
      if h_ts hdr =? ms_last_rtp_ts s then st else rtp_source_calc_jitter st (h_ts hdr) (u32 ts_arrive) in
  MemberSource st (ms_peer s) (u64 (ms_rtp_rx_bytes s + payload_size)) (ms_sr_recv s) (ms_last_sr s) (ms_rtp_ts s) (h_ts hdr)
    (ms_psent s) (ms_osent s).

Definition set_source (ms : member_source) (m : rtp_member) : rtp_member :=
  RtpMember (Some ms) (mbr_src m) (mbr_cum_lost m) (mbr_jit m) (mbr_rtt m).

(** [ok] is for the member, [ok_s] for its source. *)
Definition rtcp_sess_rx_rtp (ok ok_s : bool) (jfs : Z) (hdr : rtp_header) (payload_size : Z) (peer : sa) (s : rtcp_sess) : rtcp_sess :=
  match get_member ok (h_ssrc hdr) s with
  | (None, s) => s
  | (Some m, s) =>
      match mbr_s m with
      | Some ms => change_member (h_ssrc hdr) (set_source (source_rx jfs (se_srate_rx s) hdr payload_size ms)) s
      | None =>
          if ok_s then
            let ms := source_rx jfs (se_srate_rx s) hdr payload_size (new_source (h_seq hdr) peer) in
            set_members (upd_member (h_ssrc hdr) (set_source ms) (se_members s)) (se_memberc s) (u32 (se_senderc s + 1)) s
          else s
      end
  end.

Record rtcp_stats := RtcpStats { st_tx_sent : Z; st_tx_lost : Z; st_tx_jit : Z; st_rx_sent : Z; st_rx_lost : Z; st_rx_jit : Z; st_rtt : Z }.

Definition get_stats (ssrc : Z) (s : rtcp_sess) : res rtcp_stats :=
  match rtp_member_find ssrc (se_members s) with
  | None => Err ENOENT
  | Some m =>
      let tx := RtcpStats (tx_psent (se_txstat s)) (mbr_cum_lost m) (mbr_jit m) in
      Ok (match mbr_s m with
          | None => tx 0 0 0 (mbr_rtt m)
          | Some ms =>
              tx (received (ms_stat ms)) (rtp_source_calc_lost (ms_stat ms))
                (if se_srate_rx s =? 0 then 0 else u32 (1000000 * Z.shiftr (jitter (ms_stat ms)) 4) / se_srate_rx s) (mbr_rtt m)
          end)
  end.

(** ** Reports *)

Definition calc_lsr (t : rtp_ntp_time) : Z := if ntp_hi t =? 0 then 0 else ntp_compact t.
Definition calc_dlsr (jfs sr_recv : Z) : Z :=
  if sr_recv =? 0 then 0 else u32 (u64 (65536 * u64 (jfs - sr_recv)) / 1000).

(** The report block of a source; computing the fraction lost starts a new interval. *)
Definition source_rr (jfs src : Z) (s : member_source) : rtcp_rr * member_source :=
  let '(fraction, st) := rtp_source_calc_fraction_lost (ms_stat s) in
  (RtcpRr src fraction (rtp_source_calc_lost st) (Z.lor (cycles st) (max_seq st)) (Z.shiftr (jitter st) 4)
     (calc_lsr (ms_last_sr s)) (calc_dlsr jfs (ms_sr_recv s)),
   MemberSource st (ms_peer s) (ms_rtp_rx_bytes s) (ms_sr_recv s) (ms_last_sr s) (ms_rtp_ts s) (ms_last_rtp_ts s) (ms_psent s) (ms_osent s)).

Section Reports.
Context `{H : Host}.

(** sender_apply_handler over the members; [true] where it stops the walk.  The
    members are returned as it leaves them. *)
Fixpoint sender_apply (jfs : Z) (l : list rtp_member) (mb : mbuf) : bool * mbuf * list rtp_member :=
  match l with
  | [] => (false, mb, [])
  | m :: l =>
      match mbr_s m with
      | None => let '(b, mb, l) := sender_apply jfs l mb in (b, mb, m :: l)
      | Some s =>
          let '(rr, s) := source_rr jfs (mbr_src m) s in
          let '(err, mb) := rtcp_rr_encode rr mb in
          if negb (err =? 0) then (true, mb, set_source s m :: l)
          else let '(b, mb, l) := sender_apply jfs l mb in (b, mb, set_source s m :: l)
      end
  end.

Definition encode_handler (jfs : Z) (l : list rtp_member) : rtcp_encode_h := fun mb =>
  let '(b, mb, _) := sender_apply jfs (hash_order l) mb in Some (if b then ENOMEM else 0, mb).

(** The members after the walk of encode_handler on [mb]: the walk writes
    through the pointers to the sources. *)
Definition put_source (o : option member_source) (m : rtp_member) : rtp_member :=
  match o, mbr_s m with Some s, Some _ => set_source s m | _, _ => m end.
Definition encode_members (jfs : Z) (l : list rtp_member) (mb : mbuf) : list rtp_member :=
  fold_left (fun l m => upd_member (mbr_src m) (put_source (mbr_s m)) l) (sender_apply jfs (hash_order l) mb).2 l.

(** The buffer with the gap that rtcp_vencode leaves for the header. *)
Definition hdr_gap (mb : mbuf) : mbuf :=
  let p := u64 (mb_pos mb + RTCP_HDR_SIZE) in mbuf_set_end (mbuf_set_pos mb p) p.

(** [ssrc] is rtp_sess_ssrc of the socket. *)
Definition mk_sr (ssrc jfs rt : Z) (s : rtcp_sess) (mb : mbuf) : option (Z * rtcp_sess * mbuf) :=
  let t := se_txstat s in
  let s := set_txstat (TxStat (tx_psent t) (tx_osent t) (tx_jfs_rt_ref t) (tx_ts_ref t) false) s in
  let h := encode_handler jfs (se_members s) in
  let '(a, fixed) :=
    if negb (tx_jfs_rt_ref t =? 0) then
      let ntp := ntp_time_get rt in
      let dur := u64 (rt - tx_jfs_rt_ref t) in
      let rtp_ts := u32 (u64 (tx_ts_ref t + u64 (dur * se_srate_tx s) / 1000000)) in
      (ASr ssrc (ntp_hi ntp) (ntp_lo ntp) rtp_ts (tx_psent t) (tx_osent t) (Some h),
       (write_be32 ssrc ;| write_be32 (ntp_hi ntp) ;| write_be32 (ntp_lo ntp) ;| write_be32 rtp_ts
        ;| write_be32 (tx_psent t) ;| write_be32 (tx_osent t))%mbuf)
    else (ARr ssrc (Some h), write_be32 ssrc) in
  '(err, mb') ← rtcp_vencode 3 a (se_senderc s) mb;
  let l := encode_members jfs (se_members s) (fixed (hdr_gap mb)).2 in
  Some (err, set_members l (se_memberc s) (se_senderc s) s, mb').

Definition RTCP_SDES_CNAME : Z := 1.

Definition mk_sdes (ssrc : Z) (s : rtcp_sess) (mb : mbuf) : option (Z * mbuf) :=
  rtcp_vencode 3 (ASdes (Some (rtcp_sdes_encode 3 ssrc [(RTCP_SDES_CNAME, se_cname s)]))) 1 mb.

(** ** rtp.c: sockets

    [rs_enc] is the encoder's part; [rs_sock_rtp] and [rs_sock_rtcp] say whether
    there are sockets. *)
Record rtp_sock := RtpSocket {
  rs_enc : Rtp.rtp_sock;
  rs_rtcp : option rtcp_sess;
  rs_rtcp_peer : sa;
  rs_rtcp_mux : bool;
  rs_sock_rtp : bool;
  rs_sock_rtcp : bool;
}.

Definition rtp_sess_ssrc (rs : rtp_sock) : Z := enc_ssrc (rs_enc rs).
Definition set_rtcp (s : rtcp_sess) (rs : rtp_sock) : rtp_sock :=
  RtpSocket (rs_enc rs) (Some s) (rs_rtcp_peer rs) (rs_rtcp_mux rs) (rs_sock_rtp rs) (rs_sock_rtcp rs).

(** A datagram handed to udp_send. *)
Definition datagram : Type := sa * list Z.

(** [udp] is what udp_send returns. *)
Definition rtcp_send (udp : Z) (rs : rtp_sock) (mb : mbuf) : Z * list datagram :=
  let sock := if rs_rtcp_mux rs then rs_sock_rtp rs else rs_sock_rtcp rs in
  if negb sock || negb (sa_isset (rs_rtcp_peer rs) SA_ALL) then (EINVAL, [])
  else (udp, [(rs_rtcp_peer rs, ztake (mbuf_get_left mb) (mbuf_buf mb))]).

(** Building a compound packet in a buffer of [size] bytes behind the headroom,
    and sending it.  The [build] functions return their errors or'ed. *)
Definition send_built (size udp : Z) (rs : rtp_sock) (sess : rtcp_sess)
  (build : rtcp_sess -> mbuf -> option (Z * rtcp_sess * mbuf)) : option (Z * rtcp_sess * list datagram) :=
  match mbuf_alloc size with
  | None => Some (ENOMEM, sess, [])
  | Some mb =>
      '(err, sess, mb) ← build sess (mbuf_set_pos mb RTCP_HEADROOM);
      if negb (err =? 0) then Some (err, sess, [])
      else let '(err, out) := rtcp_send udp rs (mbuf_set_pos mb RTCP_HEADROOM) in Some (err, sess, out)
  end.

Definition mk_report (ssrc jfs rt : Z) (s : rtcp_sess) (mb : mbuf) : option (Z * rtcp_sess * mbuf) :=
  '(e1, s, mb) ← mk_sr ssrc jfs rt s mb;
  '(e2, mb) ← mk_sdes ssrc s mb;
  Some (Z.lor e1 e2, s, mb).

Definition send_rtcp_report (jfs rt udp : Z) (rs : rtp_sock) (s : rtcp_sess) : option (Z * rtcp_sess * list datagram) :=
  send_built 512 udp rs s (mk_report (rtp_sess_ssrc rs) jfs rt).

Definition adjo : list Z := [65; 100; 106; 111].

(** The session may be NULL only where the caller has none; mk_sdes uses it. *)
Definition rtcp_send_bye_packet (udp : Z) (rs : rtp_sock) (s : rtcp_sess) : option (Z * rtcp_sess * list datagram) :=
  send_built 512 udp rs s (fun s mb =>
    '(e1, mb) ← rtcp_vencode 3 (ABye [rtp_sess_ssrc rs] (Some adjo)) 1 mb;
    '(e2, mb) ← mk_sdes (rtp_sess_ssrc rs) s mb;
    Some (Z.lor e1 e2, s, mb)).

(** The timer of the session. *)
Definition timeout (jfs rt udp : Z) (rs : rtp_sock) (s : rtcp_sess) : option (rtcp_sess * list datagram) :=
  '(_, s, out) ← send_rtcp_report jfs rt udp rs s;
  Some (schedule s, out).

(** rtcp.c: a report, a description and one packet more. *)
Definition rtcp_quick_send (jfs rt udp : Z) (rs : rtp_sock) (s : rtcp_sess) (a : rtcp_args) (count : Z)
  : option (Z * rtcp_sess * list datagram) :=
  '(err, s, out) ← send_built 32 udp rs s (fun s mb =>
    '(e, s, mb) ← mk_report (rtp_sess_ssrc rs) jfs rt s mb;
    if negb (e =? 0) then Some (e, s, mb)
    else '(e, mb) ← rtcp_vencode 3 a count mb; Some (e, s, mb));
  Some (err, if err =? 0 then rtcp_schedule_report s else s, out).

Definition rtcp_send_app (jfs rt udp : Z) (rs : rtp_sock) (s : rtcp_sess) (name : list Z) (data : option (list Z)) :=
  rtcp_quick_send jfs rt udp rs s (AApp (rtp_sess_ssrc rs) name data) 0.
Definition rtcp_send_fir (jfs rt udp : Z) (rs : rtp_sock) (s : rtcp_sess) (ssrc : Z) :=
  rtcp_quick_send jfs rt udp rs s (AFir ssrc) 0.
Definition rtcp_send_nack (jfs rt udp : Z) (rs : rtp_sock) (s : rtcp_sess) (fsn blp : Z) :=
  rtcp_quick_send jfs rt udp rs s (ANack (rtp_sess_ssrc rs) fsn blp) 0.
Definition rtcp_send_gnack (jfs rt udp : Z) (rs : rtp_sock) (s : rtcp_sess) (ssrc fsn blp : Z) :=
  rtcp_quick_send jfs rt udp rs s
    (ARtpfb (rtp_sess_ssrc rs) ssrc (Some (fun mb => Some (rtcp_rtpfb_gnack_encode fsn blp mb)))) RTCP_RTPFB_GNACK.
Definition rtcp_send_twcc (jfs rt udp : Z) (rs : rtp_sock) (s : rtcp_sess) (ssrc : Z) (t : twcc) :=
  rtcp_quick_send jfs rt udp rs s
    (ARtpfb (rtp_sess_ssrc rs) ssrc (Some (fun mb => Some (rtcp_rtpfb_twcc_encode t mb)))) RTCP_RTPFB_TWCC.
Definition rtcp_send_pli (jfs rt udp : Z) (rs : rtp_sock) (s : rtcp_sess) (fb_ssrc : Z) :=
  rtcp_quick_send jfs rt udp rs s (APsfb (rtp_sess_ssrc rs) fb_ssrc None) RTCP_PSFB_PLI.
Definition rtcp_send_fir_rfc5104 (jfs rt udp : Z) (rs : rtp_sock) (s : rtcp_sess) (ssrc fir_seqn : Z) :=
  rtcp_quick_send jfs rt udp rs s
    (APsfb (rtp_sess_ssrc rs) 0 (Some (fun mb => Some (encode_fir_rfc5104_fci (FirRfc5104 ssrc fir_seqn) mb)))) RTCP_PSFB_FIR.

(** rtp_alloc with its two random numbers. *)
Definition rtp_alloc (r16 r32 : Z) : rtp_sock :=
  RtpSocket (RtpSock (Z.land r16 0x7fff) r32) None (SaOther AF_UNSPEC) false false false.

Definition rtcp_start (dup : bool) (cname : option (list Z)) (peer : option sa) (rs : rtp_sock) : rtp_sock :=
  let rs := match peer with
            | Some p => RtpSocket (rs_enc rs) (rs_rtcp rs) p (rs_rtcp_mux rs) (rs_sock_rtp rs) (rs_sock_rtcp rs)
            | None => rs
            end in
  match rs_rtcp rs with
  | None => rs
  | Some s => set_rtcp (rtcp_enable dup (bool_decide (is_Some peer)) cname s).2 rs
  end.

Definition rtcp_enable_mux (enabled : bool) (rs : rtp_sock) : rtp_sock :=
  RtpSocket (rs_enc rs) (rs_rtcp rs) (rs_rtcp_peer rs) enabled (rs_sock_rtp rs) (rs_sock_rtcp rs).

(** rtp_send: the datagram and the statistics of the session. *)
Definition rtp_send (udp : Z) (ext marker : bool) (pt ts jfs_rt : Z) (dst : sa) (rs : rtp_sock) (mb : mbuf) : Z * rtp_sock * list datagram :=
  if mb_pos mb <? RTP_HEADER_SIZE then (EBADMSG, rs, [])
  else
    let mb := mbuf_advance mb (- RTP_HEADER_SIZE) in
    let pos := mb_pos mb in
    let '(err, enc, mb) := rtp_encode (rs_enc rs) ext marker pt ts mb in
    let rs := RtpSocket enc (rs_rtcp rs) (rs_rtcp_peer rs) (rs_rtcp_mux rs) (rs_sock_rtp rs) (rs_sock_rtcp rs) in
    if negb (err =? 0) then (err, rs, [])
    else
      let rs := match rs_rtcp rs with
                | None => rs
                | Some s => set_rtcp (rtcp_sess_tx_rtp ts jfs_rt (mbuf_get_left mb) s) rs
                end in
      let mb := mbuf_set_pos mb pos in
      (udp, rs, [(dst, ztake (mbuf_get_left mb) (mbuf_buf mb))]).

Definition rtp_is_rtcp_packet (mb : mbuf) : bool :=
  if mbuf_get_left mb <? 2 then false else rtp_pt_is_rtcp (Z.land (znth 1 (mbuf_buf mb)) 0x7f).

(** What the socket hands to the application. *)
Inductive delivery :=
| DRtp (hdr : rtp_header) (payload : list Z)
| DRtcp (msgs : list rtcp_msg).

(** udp_recv_handler; the messages of a compound packet are handled by the
    session and then relayed. *)
Definition rtcp_input (ok : bool) (jfs rt : Z) (rs : rtp_sock) (mb : mbuf) : option (rtp_sock * list delivery) :=
  let step st m := ((match st.1 with Some s => Some (rtcp_handler ok jfs rt s m) | None => None end), st.2 ++ [m]) in
  '(st, _) ← rtcp_recv_handler step (rs_rtcp rs, []) mb;
  Some (match st.1 with Some s => set_rtcp s rs | None => rs end, [DRtcp st.2]).

Definition udp_recv_handler (ok ok_s : bool) (jfs rt : Z) (src : sa) (rs : rtp_sock) (mb : mbuf) : option (rtp_sock * list delivery) :=
  if rs_rtcp_mux rs && (mbuf_get_left mb <? 2) then Some (rs, [])
  else if rs_rtcp_mux rs && rtp_pt_is_rtcp (Z.land (znth 1 (mbuf_buf mb)) 0x7f) then rtcp_input ok jfs rt rs mb
  else
    match rtp_decode mb with
    | (Err _, _) => Some (rs, [])
    | (Ok hdr, mb) =>
        let rs := match rs_rtcp rs with
                  | None => rs
                  | Some s => set_rtcp (rtcp_sess_rx_rtp ok ok_s jfs hdr (mbuf_get_left mb) src s) rs
                  end in
        Some (rs, [DRtp hdr (ztake (mbuf_get_left mb) (mbuf_buf mb))])
    end.
End Reports.
