(* ===== verification/RtcpReport.v ===== *)
(** * RTCP reports

    What a session reports in the terms of RFC 3550, that a peer receives
    exactly this, and the round-trip time measured with it. *)

From Stdlib Require Import ZArith Lia.
From stdpp Require Import base numbers list.
From S2P Require Import Prelude Endian Mbuf MbufView Format Sa Rtp RtpSource Rtcp RtcpSpec RtcpWire RtcpRound RtcpSess RtcpSessSpec.

Open Scope Z_scope.

(** ** Report blocks *)

(** The blocks of a report made at [jfs]: one per sender, in the order of the table. *)
Definition blocks_of (jfs : Z) (l : list rtp_member) : list rtcp_rr :=
  omap (fun m => match mbr_s m with Some s => Some (source_rr jfs (mbr_src m) s).1 | None => None end) l.
Definition blocks (jfs : Z) (s : rtcp_sess) : list rtcp_rr := blocks_of jfs (hash_order (se_members s)).

Lemma blocks_of_length jfs l : zlength (blocks_of jfs l) = senders l.
Proof.
  induction l as [|m l IH]; [done|]. unfold blocks_of, is_sender in *. cbn [omap list_omap senders]. unfold is_sender.
  destruct (mbr_s m); cbn [Z.b2z]; rewrite ?zlength_cons, <- IH; done.
Qed.

(** Walking the buckets visits every member once. *)
Lemma bucket_perm (m : rtp_member) l ks : NoDup ks ->
  concat (map (fun i => filter (fun x => Z.land (mbr_src x) (MAX_MEMBERS - 1) = i) (m :: l)) ks)
  ≡ₚ (if bool_decide (Z.land (mbr_src m) (MAX_MEMBERS - 1) ∈ ks) then [m] else [])
     ++ concat (map (fun i => filter (fun x => Z.land (mbr_src x) (MAX_MEMBERS - 1) = i) l) ks).
Proof.
  induction 1 as [|k ks Hk _ IH]; [done|]. cbn [map concat]. rewrite filter_cons, IH.
  destruct (decide (Z.land (mbr_src m) (MAX_MEMBERS - 1) = k)) as [->|Hne].
  - rewrite (bool_decide_eq_false_2 _ Hk), bool_decide_eq_true_2 by apply list_elem_of_here. done.
  - rewrite (bool_decide_ext (Z.land (mbr_src m) (MAX_MEMBERS - 1) ∈ k :: ks) (Z.land (mbr_src m) (MAX_MEMBERS - 1) ∈ ks))
      by (rewrite elem_of_cons; tauto). by rewrite Permutation_app_swap_app.
Qed.

Lemma hash_order_perm l : hash_order l ≡ₚ l.
Proof.
  unfold hash_order. induction l as [|m l IH].
  - induction (seqZ 0 MAX_MEMBERS) as [|k ks IHk]; [done|]. exact IHk.
  - rewrite bucket_perm by apply NoDup_seqZ. rewrite IH, bool_decide_eq_true_2; [done|].
    apply elem_of_seqZ. change (MAX_MEMBERS - 1) with (Z.ones 3). rewrite Z.land_ones by lia. unfold MAX_MEMBERS. pose proof (Z.mod_pos_bound (mbr_src m) (2 ^ 3) ltac:(lia)). lia.
Qed.

#[export] Instance senders_proper : Proper ((≡ₚ) ==> (=)) senders.
Proof. intros l k Hp. induction Hp; cbn [senders]; lia. Qed.

Lemma senders_order l : senders (hash_order l) = senders l.
Proof. by rewrite hash_order_perm. Qed.

Lemma blocks_length jfs s : sess_inv s -> zlength (blocks jfs s) = se_senderc s.
Proof. intros Hs. unfold blocks. rewrite blocks_of_length, senders_order. by rewrite (inv_senderc _ Hs). Qed.

Lemma compact_u32 t : is_u32 (ntp_lo t) -> is_u32 (ntp_compact t).
Proof.
  intros Hl. unfold ntp_compact. apply lor_bound; [lia|apply wrap_range; lia|]. pose proof (shiftr_bound 32 16 (ntp_lo t) ltac:(lia) Hl). lia.
Qed.

Lemma source_rr_block jfs src s : is_u32 src -> source_ok s -> rr_ok (source_rr jfs src s).1.
Proof.
  intros Hsrc ((Hm & Hc & Hj & _) & Hhi & Hlo). unfold source_rr, rtp_source_calc_fraction_lost. cbn [fst].
  split; [done|]. split; cbn [rr_fraction rr_lost rr_last_seq rr_jitter rr_lsr rr_dlsr].
  { destruct (_ || _); [lia|apply wrap_range; lia]. }
  split. { unfold rtp_source_calc_lost. repeat case_test; lia. }
  split; [apply lor_bound; [lia|done|unfold is_u16 in Hm; cbn [max_seq]; lia]|]. split; [pose proof (shiftr_bound 32 4 (jitter (ms_stat s)) ltac:(lia) Hj); unfold is_u32; cbn [jitter]; lia|].
  split; [unfold calc_lsr; destruct (_ =? 0); [by split|by apply compact_u32]|].
  unfold calc_dlsr. destruct (_ =? 0); [by split|apply wrap_range; lia].
Qed.

Lemma blocks_ok jfs s : sess_inv s -> Forall rr_ok (blocks jfs s).
Proof.
  intros Hs. apply Forall_forall. intros rr (m & Hm & E)%list_elem_of_omap. apply hash_order_in in Hm.
  pose proof (inv_members _ Hs) as Hall. rewrite Forall_forall in Hall. destruct (Hall m Hm) as [Hsrc Hms].
  destruct (mbr_s m) as [ms|]; [|done]. injection E as <-. by apply source_rr_block.
Qed.

(** ** What a report says, in the terms of RFC 3550 *)

(** An NTP time in units of 2^-32 seconds. *)
Definition ntp_units (t : rtp_ntp_time) : Z := ntp_hi t * 2 ^ 32 + ntp_lo t.

Lemma compact_units t : is_u32 (ntp_hi t) -> is_u32 (ntp_lo t) -> ntp_compact t = ntp_units t mod 2 ^ 48 / 2 ^ 16.
Proof.
  intros Hh Hl. unfold ntp_compact, ntp_units, is_u32 in *. change 0xffff with (Z.ones 16). rewrite Z.land_ones, Z.shiftl_mul_pow2 by lia.
  pose proof (Z.mod_pos_bound (ntp_hi t) (2 ^ 16) ltac:(lia)). rewrite wrap_small by lia. rewrite (lor_disjoint 16); [|lia|by apply Z.mod_mul|].
  2:{ pose proof (shiftr_bound 32 16 (ntp_lo t) ltac:(lia) Hl). lia. }
  rewrite Z.shiftr_div_pow2 by lia. change (2 ^ 48) with 281474976710656 in *. change (2 ^ 32) with 4294967296 in *. change (2 ^ 16) with 65536 in *.
  Z.div_mod_to_equations. lia.
Qed.

(** The extended highest sequence number and the packets expected (A.3). *)
Definition highest (st : rtp_source) : Z := cycles st + max_seq st.
Definition due (st : rtp_source) : Z := highest st - base_seq st + 1.

(** Counts inside the range of [int] that only grew since the last report. *)
Definition countable (st : rtp_source) : Prop :=
  base_seq st <= highest st < 2 ^ 31 - 1 /\ received st < 2 ^ 31
  /\ 0 <= expected_prior st <= due st /\ 0 <= received_prior st <= received st.

(** The block about [src] in a report made [jfs] milliseconds after the start of
    the clock: the cumulative loss is the difference of expected and received
    packets in 24 bits; the fraction is the loss of the interval since the last
    report in 256ths; jitter is reported in timestamp units, a sixteenth of the
    estimate; LSR is the middle of the NTP time of the last sender report, DLSR
    the time since it in units of 2^-16 seconds. *)
Record block_about (jfs src : Z) (s : member_source) (rr : rtcp_rr) : Prop := {
  ba_source : rr_ssrc rr = src;
  ba_highest : rr_last_seq rr = highest (ms_stat s);
  ba_lost : countable (ms_stat s) ->
    rr_lost rr = Z.max (- 0x7fffff) (Z.min 0x7fffff (due (ms_stat s) - received (ms_stat s)));
  ba_fraction : countable (ms_stat s) ->
    let e := due (ms_stat s) - expected_prior (ms_stat s) in
    let l := e - (received (ms_stat s) - received_prior (ms_stat s)) in
    (l <= 0 -> rr_fraction rr = 0)
    /\ (0 < l < e -> l < 2 ^ 23 -> rr_fraction rr * e <= 256 * l < (rr_fraction rr + 1) * e);
  ba_jitter : 16 * rr_jitter rr <= jitter (ms_stat s) < 16 * (rr_jitter rr + 1);
  ba_lsr : rr_lsr rr = if ntp_hi (ms_last_sr s) =? 0 then 0 else ntp_units (ms_last_sr s) mod 2 ^ 48 / 2 ^ 16;
  ba_dlsr_none : ms_sr_recv s = 0 -> rr_dlsr rr = 0;
  ba_dlsr : 0 < ms_sr_recv s <= jfs -> 65536 * (jfs - ms_sr_recv s) < 1000 * 2 ^ 32 ->
    1000 * rr_dlsr rr <= 65536 * (jfs - ms_sr_recv s) < 1000 * (rr_dlsr rr + 1);
}.

(** The blocks of a report: one for each member that has sent RTP, in some
    order, and none for the others. *)
Definition blocks_about (jfs : Z) (l : list rtp_member) (rrv : list rtcp_rr) : Prop :=
  exists order, order ≡ₚ omap (fun m => option_map (pair (mbr_src m)) (mbr_s m)) l
    /\ Forall2 (fun p rr => block_about jfs p.1 p.2 rr) order rrv.

(** The first packet: a receiver report as long as nothing was sent, then a
    sender report with the counts of packets and octets sent, the NTP time of
    [rt] (microseconds of Unix time; the fraction as the double arithmetic of
    unix2ntp gives it) and the RTP timestamp of the same moment: the one of the
    reference packet and the time since it at the clock rate. *)
Definition report_about (ssrc jfs rt : Z) (s : rtcp_sess) (r : rtcp_body) : Prop :=
  let t := se_txstat s in
  exists rrv, blocks_about jfs (se_members s) rrv
    /\ if tx_jfs_rt_ref t =? 0 then r = MRr ssrc rrv
       else exists hi ts, r = MSr ssrc hi (ntp_lo (ntp_time_get rt)) ts (tx_psent t) (tx_osent t) rrv
         /\ hi = (rt / 1000000 + 2208988800) mod 2 ^ 32
         /\ (0 <= rt - tx_jfs_rt_ref t < 2 ^ 64 -> 0 <= (rt - tx_jfs_rt_ref t) * se_srate_tx s < 2 ^ 64 ->
             ts = (tx_ts_ref t + (rt - tx_jfs_rt_ref t) * se_srate_tx s / 1000000) mod 2 ^ 32).

Lemma lost_spec st : stat_ok st -> countable st ->
  rtp_source_calc_lost st = Z.max (- 0x7fffff) (Z.min 0x7fffff (due st - received st)).
Proof.
  unfold stat_ok, countable, due, highest, is_u16, is_u32. intros (Hm & Hc & _ & _ & Hb & Hr) (Hh & Hr1 & _).
  unfold rtp_source_calc_lost, expected, extended_max.
  rewrite (swrap_small (cycles st + max_seq st)) by lia. rewrite (swrap_small (_ - base_seq st + 1)) by lia.
  rewrite swrap_small by lia. repeat case_test; lia.
Qed.

Lemma fraction_spec st : stat_ok st -> countable st ->
  let e := due st - expected_prior st in
  let l := e - (received st - received_prior st) in
  let f := (rtp_source_calc_fraction_lost st).1 in
  (l <= 0 -> f = 0) /\ (0 < l < e -> l < 2 ^ 23 -> f * e <= 256 * l < (f + 1) * e).
Proof.
  intros (Hm & Hc & _ & _ & Hb & Hr) (Hh & Hr1 & He & Hrp) e l f. unfold due, highest, is_u16, is_u32 in *.
  unfold f, rtp_source_calc_fraction_lost, expected, extended_max. cbn [fst].
  rewrite (swrap_small (cycles st + max_seq st)) by lia. rewrite (swrap_small (_ - base_seq st + 1)) by lia.
  rewrite (swrap_small (received st - _)) by lia. rewrite (swrap_small (_ - expected_prior st)) by lia.
  fold e. rewrite (swrap_small (e - _)) by (subst e; lia). fold l.
  destruct (Z.leb_spec l 0); [rewrite orb_true_r; split; [done|lia]|]. split; [lia|]. intros Hl Hb23.
  rewrite (proj2 (Z.eqb_neq e 0)) by lia. cbn [orb]. rewrite Z.shiftl_mul_pow2, swrap_small by lia. change (2 ^ 8) with 256.
  rewrite Z.quot_div_nonneg by lia. clearbody e l. clear -Hl.
  assert (Hq : 0 <= l * 256 / e < 256) by (split; [apply Z.div_pos; lia|apply Z.div_lt_upper_bound; lia]).
  rewrite wrap_small by (change (2 ^ 8) with 256; lia). pose proof (Z.mul_div_le (l * 256) e ltac:(lia)).
  pose proof (Z.mul_succ_div_gt (l * 256) e ltac:(lia)). lia.
Qed.

Lemma dlsr_spec jfs r : 0 < r <= jfs -> 65536 * (jfs - r) < 1000 * 2 ^ 32 ->
  1000 * calc_dlsr jfs r <= 65536 * (jfs - r) < 1000 * (calc_dlsr jfs r + 1).
Proof.
  intros Hr Hb. unfold calc_dlsr. rewrite (proj2 (Z.eqb_neq r 0)) by lia.
  rewrite (wrap_small 64 (jfs - r)) by lia. rewrite (wrap_small 64) by lia.
  rewrite wrap_small by (split; [apply Z.div_pos; lia|apply Z.div_lt_upper_bound; lia]).
  Z.div_mod_to_equations. lia.
Qed.

(** The code computes this block. *)
Lemma source_rr_about jfs src s : source_ok s -> block_about jfs src s (source_rr jfs src s).1.
Proof.
  intros (Hst & Hhi & Hlo). pose proof (lost_spec _ Hst) as Hlost. pose proof (fraction_spec _ Hst) as Hfr.
  destruct Hst as (Hm & _ & _ & Hc & _). unfold source_rr. destruct (rtp_source_calc_fraction_lost (ms_stat s)) as [f st] eqn:E.
  assert (Est : st = (rtp_source_calc_fraction_lost (ms_stat s)).2) by by rewrite E.
  cbn [fst] in *. subst st. split; cbn [rr_ssrc rr_fraction rr_lost rr_last_seq rr_jitter rr_lsr rr_dlsr]; try done.
  - apply (lor_disjoint 16); [lia|done|]. exact Hm.
  - cbn. rewrite Z.shiftr_div_pow2 by lia. change (2 ^ 4) with 16. Z.div_mod_to_equations. lia.
  - unfold calc_lsr. case_match; [done|]. by apply compact_units.
  - intros Hz. unfold calc_dlsr. by rewrite Hz.
  - apply dlsr_spec.
Qed.

Lemma blocks_spec jfs s : sess_inv s -> blocks_about jfs (se_members s) (blocks jfs s).
Proof.
  intros Hs. exists (omap (fun m => option_map (pair (mbr_src m)) (mbr_s m)) (hash_order (se_members s))).
  split; [by rewrite hash_order_perm|]. unfold blocks.
  assert (Hok : Forall member_ok (hash_order (se_members s))) by (rewrite hash_order_perm; apply Hs).
  induction Hok as [|m l [_ Hm] _ IH]; [constructor|]. unfold blocks_of in *. cbn [omap list_omap].
  destruct (mbr_s m) as [ms|]; cbn [option_map]; [|done]. constructor; [by apply source_rr_about|done].
Qed.

(** ** The packets of a report *)

Definition report_body (ssrc jfs rt : Z) (s : rtcp_sess) : rtcp_body :=
  let t := se_txstat s in
  if tx_jfs_rt_ref t =? 0 then MRr ssrc (blocks jfs s)
  else
    let ntp := ntp_time_get rt in
    let rtp_ts := u32 (u64 (tx_ts_ref t + u64 (u64 (rt - tx_jfs_rt_ref t) * se_srate_tx s) / 1000000)) in
    MSr ssrc (ntp_hi ntp) (ntp_lo ntp) rtp_ts (tx_psent t) (tx_osent t) (blocks jfs s).

Definition sdes_body (ssrc : Z) (cname : list Z) : rtcp_body := MSdes [RtcpSdes ssrc [(RTCP_SDES_CNAME, cname)]].

Lemma report_spec ssrc jfs rt s : sess_inv s -> report_about ssrc jfs rt s (report_body ssrc jfs rt s).
Proof.
  intros Hs. exists (blocks jfs s). split; [by apply blocks_spec|]. unfold report_body.
  destruct (tx_jfs_rt_ref (se_txstat s) =? 0) eqn:E; [done|]. bool_prop. eexists _, _. split; [done|]. split; [done|].
  intros Hrt Hd. pose proof (inv_tx _ Hs) as (_ & _ & Hts). unfold is_u32 in Hts.
  rewrite (wrap_small 64 (rt - _)) by lia. rewrite (wrap_small 64 (_ * _)) by lia.
  set (q := (rt - tx_jfs_rt_ref (se_txstat s)) * se_srate_tx s) in *.
  assert (0 <= q / 1000000 < 2 ^ 63) by (split; [apply Z.div_pos; lia|apply Z.div_lt_upper_bound; lia]).
  by rewrite (wrap_small 64) by lia.
Qed.

Section Reports.
Context `{H : Host} (Ham : ample_memory).

Lemma sender_apply_appends jfs l :
  appends (fun mb => let '(b, mb, _) := sender_apply jfs l mb in Some (if b then ENOMEM else 0, mb)) (concat (map rr_bytes (blocks_of jfs l))).
Proof.
  induction l as [|m l IH]; intros mb c Hh Hl; cbn [sender_apply].
  - exists mb. split; [done|]. by rewrite app_nil_r.
  - unfold blocks_of in *. cbn [omap list_omap] in *. destruct (mbr_s m) as [s|].
    + destruct (source_rr jfs (mbr_src m) s) as [rr s']. cbn [fst map concat] in *.
      pose proof (zlength_nonneg (concat (map rr_bytes (blocks_of jfs l)))) as Hn. unfold blocks_of in Hn. rewrite zlength_app in Hl.
      destruct (holds_writes _ _ mb c Ham (rr_writes rr) Hh) as (mb1 & -> & Hh1); [lia|]. cbn [Z.eqb negb].
      destruct (IH mb1 _ Hh1) as (mb2 & E & Hh2); [zlen|]. exists mb2. rewrite <- app_assoc in Hh2. split; [|done].
      destruct (sender_apply jfs l mb1) as [[b mb3] l3]. exact E.
    + destruct (IH mb c Hh Hl) as (mb2 & E & Hh2). exists mb2. split; [|done]. destruct (sender_apply jfs l mb) as [[b mb3] l3]. exact E.
Qed.

Lemma encode_handler_appends jfs s : appends (encode_handler jfs (se_members s)) (concat (map rr_bytes (blocks jfs s))).
Proof. apply sender_apply_appends. Qed.

Lemma report_ok ssrc jfs rt s : sess_inv s -> is_u32 ssrc -> body_ok (report_body ssrc jfs rt s) /\ body_count 0 (report_body ssrc jfs rt s) = se_senderc s.
Proof.
  intros Hs Hss. pose proof (blocks_length jfs s Hs) as Hl. pose proof (blocks_ok jfs s Hs) as Hb. pose proof (inv_max _ Hs).
  pose proof (senders_bound (se_members s)). pose proof (inv_senderc _ Hs). destruct (inv_tx _ Hs) as (Hx1 & Hx2 & Hx3). unfold MAX_MEMBERS in *.
  assert (Hlen : zlength (concat (map rr_bytes (blocks jfs s))) = 24 * zlength (blocks jfs s)).
  { generalize (blocks jfs s). clear. induction l as [|rr l IH]; [done|]. cbn [map concat]. rewrite zlength_app, IH, zlength_cons. change (zlength (rr_bytes rr)) with 24. lia. }
  unfold report_body. destruct (_ =? 0); (split; [split|done]).
  - split; [done|]. split; [done|lia].
  - cbn [body_wire]. rewrite zlength_app, zlength_be_bytes. lia.
  - split; [|split; [done|lia]]. repeat (constructor; [try done; apply wrap_range; lia|]). constructor.
  - cbn [body_wire]. rewrite !zlength_app, !zlength_be_bytes. lia.
Qed.

Lemma msg_bytes_bound sub r : body_ok r -> zlength (msg_bytes (msg_of sub r)) < 2 ^ 19.
Proof.
  intros [_ Hl]. unfold msg_bytes. rewrite zlength_app, padded_length. cbn [rm_r msg_of]. pose proof (pad_len_range (zlength (body_wire r))).
  change (zlength (hdr_bytes _)) with 4. lia.
Qed.

(** Reports with any handler that writes the blocks. *)
Lemma sr_vencode a1 a2 a3 a4 a5 a6 (h : rtcp_encode_h) rrv count : body_ok (MSr a1 a2 a3 a4 a5 a6 rrv) -> count = zlength rrv -> appends h (concat (map rr_bytes rrv)) ->
  appends (rtcp_vencode 3 (ASr a1 a2 a3 a4 a5 a6 (Some h)) count) (msg_bytes (msg_of 0 (MSr a1 a2 a3 a4 a5 a6 rrv))).
Proof.
  intros Hok -> Hh. pose proof (zlength_nonneg rrv). unfold msg_bytes, msg_of. cbn [rm_hdr rm_r]. apply (vencode_writes Ham); [|destruct Hok as [(_ & _ & ?) _]; cbn [body_count]; lia|vm_compute; split; congruence|apply Hok].
  unfold enc_body. cbn [rtcp_vencode_body body_wire]. set (f := (write_be32 a1 ;| _)). apply (gwrites_ext (then_handler f (Some h))).
  - intros mb. by destruct (then_handler _ _ mb) as [[]|].
  - rewrite !app_assoc. apply gwrites_handler; [|done]. rewrite <- !app_assoc. apply gwrites_seq; [done|by apply gwrites_32|].
    repeat (apply writes_seq_or; [apply writes_be32|]). apply writes_be32.
Qed.

Lemma rr_vencode a1 (h : rtcp_encode_h) rrv count : body_ok (MRr a1 rrv) -> count = zlength rrv -> appends h (concat (map rr_bytes rrv)) ->
  appends (rtcp_vencode 3 (ARr a1 (Some h)) count) (msg_bytes (msg_of 0 (MRr a1 rrv))).
Proof.
  intros Hok -> Hh. pose proof (zlength_nonneg rrv). unfold msg_bytes, msg_of. cbn [rm_hdr rm_r]. apply (vencode_writes Ham); [|destruct Hok as [(_ & _ & ?) _]; cbn [body_count]; lia|vm_compute; split; congruence|apply Hok].
  unfold enc_body. cbn [rtcp_vencode_body body_wire]. apply (gwrites_ext (then_handler (write_be32 a1) (Some h))).
  - intros mb. by destruct (then_handler _ _ mb) as [[]|].
  - apply gwrites_handler; [by apply gwrites_32|done].
Qed.

Lemma mk_sr_appends ssrc jfs rt s mb c : sess_inv s -> is_u32 ssrc -> holds mb c (zlength c) -> zlength c < 2 ^ 29 ->
  exists s' mb', mk_sr ssrc jfs rt s mb = Some (0, s', mb') /\ se_cname s' = se_cname s
    /\ let c' := c ++ msg_bytes (msg_of 0 (report_body ssrc jfs rt s)) in holds mb' c' (zlength c').
Proof.
  intros Hs Hss Hh Hc. destruct (report_ok ssrc jfs rt s Hs Hss) as [Hok Hcount]. pose proof (blocks_length jfs s Hs) as Hl.
  pose proof (msg_bytes_bound 0 _ Hok) as Hb. unfold mk_sr.
  pose proof (encode_handler_appends jfs s) as Hh'. unfold report_body in *. destruct (tx_jfs_rt_ref (se_txstat s) =? 0) eqn:E; cbn [negb]; cbv beta iota zeta; cbn [se_members se_senderc se_srate_tx set_txstat].
  - destruct (rr_vencode _ _ _ _ Hok (eq_sym Hl) Hh' mb c Hh ltac:(lia)) as (mb' & -> & Hm). cbn [mbind option_bind]. by eexists _, _.
  - destruct (sr_vencode _ _ _ _ _ _ _ _ _ Hok (eq_sym Hl) Hh' mb c Hh ltac:(lia)) as (mb' & -> & Hm). cbn [mbind option_bind]. by eexists _, _.
Qed.

Lemma sdes_body_ok ssrc cname : is_u32 ssrc -> bytes cname -> zlength cname <= 255 ->
  sdes_ok (RtcpSdes ssrc [(RTCP_SDES_CNAME, cname)]) /\ body_ok (sdes_body ssrc cname).
Proof.
  intros Hs Hb Hl. pose proof (zlength_nonneg cname). assert (Hi : items_bytes [(RTCP_SDES_CNAME, cname)] = [1] ++ [zlength cname] ++ cname) by (cbn; by rewrite app_nil_r).
  assert (Hok : sdes_ok (RtcpSdes ssrc [(RTCP_SDES_CNAME, cname)])).
  { split; [done|]. split; [done|]. cbn [sd_itemv]. split; [by apply Forall_singleton|]. rewrite Hi, !zlength_app.
    change (zlength [1]) with 1. change (zlength [zlength cname]) with 1. lia. }
  split; [done|]. split; [split; [done|by apply Forall_singleton]|].
  pose proof (pad_len_range (4 + zlength ([1] ++ [zlength cname] ++ cname) + 1)). unfold sdes_body. cbn [body_wire map concat]. rewrite app_nil_r.
  unfold sdes_bytes. cbn [sd_itemv]. rewrite Hi, !zlength_app, zlength_be_bytes, zlength_zeros by (rewrite !zlength_app in *; lia).
  rewrite !zlength_app in *. change (zlength [1]) with 1 in *. change (zlength [zlength cname]) with 1 in *. change (zlength [0]) with 1. lia.
Qed.

Lemma mk_sdes_appends ssrc s cname : is_u32 ssrc -> bytes cname -> zlength cname <= 255 -> se_cname s = Some cname ->
  appends (mk_sdes ssrc s) (msg_bytes (msg_of 0 (sdes_body ssrc cname))).
Proof.
  intros Hs Hb Hl Hcn. destruct (sdes_body_ok ssrc cname Hs Hb Hl) as [Hok Hbody]. unfold mk_sdes, msg_bytes, msg_of. rewrite Hcn. cbn [rm_hdr rm_r].
  apply (vencode_writes Ham); [|by cbn|vm_compute; split; congruence|apply Hbody]. unfold enc_body. cbn [rtcp_vencode_body body_wire sdes_body map concat].
  rewrite app_nil_r. eapply gwrites_ext; [|exact (sdes_gwrites Ham _ Hok)]. cbn [sd_src sd_itemv map fst snd].
  intros mb. by destruct (then_handler _ _ mb) as [[]|].
Qed.

(** The messages of a report. *)
Definition report_packets (ssrc jfs rt : Z) (s : rtcp_sess) (cname : list Z) : list (Z * rtcp_body) :=
  [(0, report_body ssrc jfs rt s); (0, sdes_body ssrc cname)].

Lemma report_packets_ok ssrc jfs rt s cname : sess_inv s -> is_u32 ssrc -> bytes cname -> zlength cname <= 255 ->
  Forall packet_ok (report_packets ssrc jfs rt s cname).
Proof.
  intros Hs Hss Hb Hl. destruct (report_ok ssrc jfs rt s Hs Hss) as [Hok Hc]. destruct (sdes_body_ok ssrc cname Hss Hb Hl) as [_ Hok2].
  pose proof (inv_senderc _ Hs). pose proof (senders_bound (se_members s)). pose proof (inv_max _ Hs). unfold MAX_MEMBERS in *.
  constructor; [split; [done|cbn [fst snd]; lia]|]. constructor; [|constructor]. split; [done|]. by cbn.
Qed.

Lemma mk_report_appends ssrc jfs rt s cname mb c :
  sess_inv s -> is_u32 ssrc -> bytes cname -> zlength cname <= 255 -> se_cname s = Some cname -> holds mb c (zlength c) -> zlength c < 2 ^ 28 ->
  exists s' mb', mk_report ssrc jfs rt s mb = Some (0, s', mb')
    /\ let c' := c ++ compound (report_packets ssrc jfs rt s cname) in holds mb' c' (zlength c').
Proof.
  intros Hs Hss Hb Hl Hcn Hh Hc. destruct (mk_sr_appends ssrc jfs rt s mb c Hs Hss Hh ltac:(lia)) as (s1 & mb1 & E1 & Ec & Hh1). cbv zeta in Hh1.
  destruct (report_ok ssrc jfs rt s Hs Hss) as [Hok _]. pose proof (msg_bytes_bound 0 _ Hok).
  destruct (sdes_body_ok ssrc cname Hss Hb Hl) as [_ Hok2]. pose proof (msg_bytes_bound 0 _ Hok2).
  destruct (mk_sdes_appends ssrc s1 cname Hss Hb Hl ltac:(by rewrite Ec) mb1 _ Hh1) as (mb2 & E2 & Hh2); [zlen|].
  exists s1, mb2. unfold mk_report. rewrite E1. cbn [mbind option_bind]. rewrite E2. cbn [mbind option_bind]. split; [done|]. cbv zeta.
  unfold compound, report_packets, packet_msg. cbn [map concat fst snd]. rewrite app_nil_r. by rewrite <- app_assoc in Hh2.
Qed.

(** A new buffer with the position behind the headroom. *)
Lemma alloc_headroom size : 4 <= size <= 2 ^ 20 -> exists mb c,
  mbuf_alloc size = Some mb /\ zlength c = RTCP_HEADROOM /\ holds (mbuf_set_end (mbuf_set_pos mb RTCP_HEADROOM) RTCP_HEADROOM) c RTCP_HEADROOM.
Proof.
  intros Hs. unfold mbuf_alloc. rewrite (proj2 (Z.eqb_neq _ _)) by lia. unfold mbuf_resize, mem_alloc. cbn [mb_buf mbuf_init].
  rewrite Z.gtb_ltb, (proj2 (Z.ltb_ge _ _)) by (unfold MEM_SIZE_MAX; lia). destruct (Ham size ltac:(unfold MEM_SIZE_MAX; lia)) as [[b Eb] _]. rewrite Eb.
  pose proof (malloc_length size b ltac:(lia) Eb) as Hl. pose proof (malloc_bytes _ _ Eb) as Hb. cbn [Z.eqb].
  eexists _, (ztake 4 b). split; [done|]. split; [by rewrite zlength_ztake by lia|]. split; [|done|done].
  split; unfold mb_mem, RTCP_HEADROOM, MEM_SIZE_MAX; cbn; [done|lia|lia|lia|done].
Qed.

(** C9: the report that a session sends every interval, in any state a socket
    can reach.  With memory enough, a socket, a peer address and a CNAME of at
    most 255 bytes it is one datagram to the RTCP peer, and whoever receives it
    decodes exactly two messages: the report and the CNAME of the session.  The
    report is a sender report with the counts of packets and octets sent and the
    time in NTP and RTP units (a receiver report before the first packet was
    sent), with one block for every member that has sent RTP, and each block
    says of its source what RFC 3550 asks for ([block_about]): the extended
    highest sequence number, the jitter, LSR, DLSR (0 when no sender report has
    come; exact while it is less than 65536 seconds old) and, while the counts
    are in the range of int and only grew since the last report, the cumulative
    loss and the fraction lost (for an interval in which something arrived and
    less than 2^23 packets were lost). *)
Theorem rtcp_report_exchange rs s jfs rt udp cname {St} (h : St -> rtcp_msg -> St) st :
  reachable rs -> rs_rtcp rs = Some s -> is_u32 (rtp_sess_ssrc rs) ->
  se_cname s = Some cname -> bytes cname -> zlength cname <= 255 ->
  (if rs_rtcp_mux rs then rs_sock_rtp rs else rs_sock_rtcp rs) = true -> sa_isset (rs_rtcp_peer rs) SA_ALL = true ->
  exists s' d r mb',
    send_rtcp_report jfs rt udp rs s = Some (udp, s', [(rs_rtcp_peer rs, d)])
    /\ rtcp_recv_handler h st (rcv_buf d)
       = Some (h (h st (msg_of 0 r)) (msg_of 0 (MSdes [RtcpSdes (rtp_sess_ssrc rs) [(RTCP_SDES_CNAME, cname)]])), mb')
    /\ report_about (rtp_sess_ssrc rs) jfs rt s r.
Proof.
  intros Hr Es Hss Hcn Hb Hl Hsock Hpeer. assert (Hs : sess_inv s) by (pose proof (reachable_inv _ Hr) as Hi; unfold sock_inv in Hi; by rewrite Es in Hi).
  destruct (alloc_headroom 512 ltac:(lia)) as (mb & c & Ea & Hcl & Hh). set (pk := report_packets (rtp_sess_ssrc rs) jfs rt s cname).
  destruct (mk_report_appends (rtp_sess_ssrc rs) jfs rt s cname (mbuf_set_end (mbuf_set_pos mb RTCP_HEADROOM) RTCP_HEADROOM) c Hs Hss Hb Hl Hcn) as (s1 & mb1 & E1 & Hh1).
  { by rewrite Hcl. } { rewrite Hcl. done. }
  fold pk in Hh1. cbv zeta in Hh1. pose proof (zlength_nonneg (compound pk)) as Hpn.
  pose proof (holds_set_pos _ _ _ RTCP_HEADROOM Hh1 ltac:(rewrite zlength_app, Hcl; unfold RTCP_HEADROOM; lia)) as Hh2.
  assert (Ed : ztake (mbuf_get_left (mbuf_set_pos mb1 RTCP_HEADROOM)) (mbuf_buf (mbuf_set_pos mb1 RTCP_HEADROOM)) = compound pk).
  { rewrite mbuf_get_left_rest by apply Hh2. rewrite mbuf_buf_rest, ztake_ge by (done || apply Hh2 || pose proof (zlength_nonneg (rest (mbuf_set_pos mb1 RTCP_HEADROOM))); lia).
    rewrite (holds_rest _ _ _ Hh2), <- Hcl. apply zdrop_app_exact. }
  destruct (recv_datagram Ham h st pk (report_packets_ok _ jfs rt s cname Hs Hss Hb Hl)) as (mb2 & E2).
  { by pose proof (holds_bytes _ _ _ Hh1) as [_ Hbc]%bytes_app. }
  { pose proof (holds_end _ _ _ Hh1) as He. rewrite zlength_app, Hcl in He. pose proof (holds_wf _ _ _ Hh1) as W. mbuf_wf_facts. unfold RTCP_HEADROOM in *. lia. }
  exists s1, (compound pk), (report_body (rtp_sess_ssrc rs) jfs rt s), mb2. split; [|split; [exact E2|by apply report_spec]].
  unfold send_rtcp_report, send_built. rewrite Ea. change (mk_report _ _ _ _ (mbuf_set_pos mb RTCP_HEADROOM)) with (mk_report (rtp_sess_ssrc rs) jfs rt s (mbuf_set_end (mbuf_set_pos mb RTCP_HEADROOM) RTCP_HEADROOM)).
  rewrite E1. cbn [mbind option_bind Z.eqb negb]. unfold rtcp_send. rewrite Hsock, Hpeer, Ed. done.
Qed.
End Reports.

(** ** Round-trip times *)

Lemma compact2us_val c : is_u32 c -> ntp_compact2us c = c * 1000000 / 65536.
Proof.
  intros Hc. unfold ntp_compact2us, is_u32 in *. change 0xffff with (Z.ones 16). rewrite !Z.land_ones, Z.shiftl_mul_pow2, !Z.shiftr_div_pow2 by lia.
  pose proof (Z.mod_pos_bound c (2 ^ 16) ltac:(lia)). rewrite (wrap_small 32) by lia.
  change (2 ^ 32) with 4294967296 in *. change (2 ^ 16) with 65536 in *. rewrite (Z.mod_small (c / 65536)) by (Z.div_mod_to_equations; lia).
  rewrite wrap_small by (change (2 ^ 64) with 18446744073709551616; Z.div_mod_to_equations; lia). Z.div_mod_to_equations. lia.
Qed.

Lemma unix2ntp_u32 a b : is_u32 (ntp_hi (unix2ntp a b)) /\ is_u32 (ntp_lo (unix2ntp a b)).
Proof. split; apply wrap_range; lia. Qed.

Lemma swrap32_shift x k : - 2 ^ 31 <= x + k * 2 ^ 32 < 2 ^ 31 -> swrap 32 x = x + k * 2 ^ 32.
Proof.
  intros Hx. unfold swrap. change (32 - 1) with 31. rewrite <- (Z.mod_add x k) by lia. set (y := x + k * 2 ^ 32) in *. clearbody y.
  destruct (Z.lt_ge_cases y 0).
  - rewrite <- (Z.mod_add y 1), Z.mod_small by lia. case_test; lia.
  - rewrite Z.mod_small by lia. case_test; lia.
Qed.

(** A peer that received a sender report with the NTP time [t1] echoes it
    as LSR with the time it held it as DLSR.  The round-trip time computed when
    the echo arrives is exact to 19 microseconds (a timestamp has a resolution
    of 15), but it is 0 for every echo that crosses the wrap-around of the middle
    bits of NTP time, which happens every 65536 seconds. *)
Theorem rtcp_rtt_accuracy rt t1 dlsr :
  is_u32 (ntp_hi t1) -> is_u32 (ntp_lo t1) ->
  let T1 := ntp_units t1 in
  let T2 := ntp_units (ntp_time_get rt) in
  0 <= dlsr -> dlsr * 2 ^ 16 <= T2 - T1 -> T2 - T1 <= 1000 * 2 ^ 32 ->
  (T1 / 2 ^ 48 = T2 / 2 ^ 48 ->
   Z.abs (rtcp_calc_rtt rt (ntp_compact t1) dlsr * 2 ^ 32 - (T2 - T1 - dlsr * 2 ^ 16) * 1000000) < 19 * 2 ^ 32)
  /\ (T1 / 2 ^ 48 <> T2 / 2 ^ 48 -> rtcp_calc_rtt rt (ntp_compact t1) dlsr = 0).
Proof.
  intros Hh Hl T1 T2 Hd Hle Hlt. unfold rtcp_calc_rtt, ntp_time_get in *. destruct (unix2ntp_u32 (rt / 1000000) (rt mod 1000000)) as [Hh2 Hl2].
  rewrite !compact2us_val by by apply compact_u32. rewrite !compact_units by done. fold T1.
  change (ntp_units (unix2ntp _ _)) with T2. set (c1 := T1 mod 2 ^ 48 / 2 ^ 16). set (c2 := T2 mod 2 ^ 48 / 2 ^ 16).
  assert (Hc1 : c1 * 65536 <= T1 - T1 / 2 ^ 48 * 2 ^ 48 < c1 * 65536 + 65536 /\ 0 <= c1 < 2 ^ 32).
  { unfold c1. change (2 ^ 48) with 281474976710656. change (2 ^ 16) with 65536. change (2 ^ 32) with 4294967296. Z.div_mod_to_equations. lia. }
  assert (Hc2 : c2 * 65536 <= T2 - T2 / 2 ^ 48 * 2 ^ 48 < c2 * 65536 + 65536 /\ 0 <= c2 < 2 ^ 32).
  { unfold c2. change (2 ^ 48) with 281474976710656. change (2 ^ 16) with 65536. change (2 ^ 32) with 4294967296. Z.div_mod_to_equations. lia. }
  assert (He : T2 / 2 ^ 48 = T1 / 2 ^ 48 \/ T2 / 2 ^ 48 = T1 / 2 ^ 48 + 1).
  { change (2 ^ 48) with 281474976710656. change (2 ^ 32) with 4294967296 in *. change (2 ^ 16) with 65536 in *. Z.div_mod_to_equations. lia. }
  clearbody T1 T2 c1 c2. clear Hh Hl Hh2 Hl2. set (e1 := T1 / 2 ^ 48) in *. set (e2 := T2 / 2 ^ 48) in *. clearbody e1 e2.
  change (2 ^ 48) with 281474976710656 in *. change (2 ^ 32) with 4294967296 in *. change (2 ^ 16) with 65536 in *.
  assert (Ha : c2 * 1000000 / 65536 * 65536 <= c2 * 1000000 < c2 * 1000000 / 65536 * 65536 + 65536) by (Z.div_mod_to_equations; lia).
  assert (Hb : c1 * 1000000 / 65536 * 65536 <= c1 * 1000000 < c1 * 1000000 / 65536 * 65536 + 65536) by (Z.div_mod_to_equations; lia).
  assert (Hdd : 1000000 * dlsr / 65536 * 65536 <= 1000000 * dlsr < 1000000 * dlsr / 65536 * 65536 + 65536) by (Z.div_mod_to_equations; lia).
  set (a := c2 * 1000000 / 65536) in *. set (b := c1 * 1000000 / 65536) in *. set (d := 1000000 * dlsr / 65536) in *. clearbody a b d.
  split; intros Hee.
  - rewrite (swrap32_shift _ 0) by (change (2 ^ 32) with 4294967296; change (2 ^ 31) with 2147483648; lia). change (2 ^ 32) with 4294967296. lia.
  - rewrite (swrap32_shift _ 15) by (change (2 ^ 32) with 4294967296; change (2 ^ 31) with 2147483648; lia). change (2 ^ 32) with 4294967296. lia.
Qed.

Lemma rtcp_rtt_accuracy_witness :
  let t1 := ntp_time_get 1700000000123456 in
  let rt := 1700000000243456 in
  Z.abs (rtcp_calc_rtt rt (ntp_compact t1) 3000 * 2 ^ 32 - (ntp_units (ntp_time_get rt) - ntp_units t1 - 3000 * 2 ^ 16) * 1000000) < 19 * 2 ^ 32.
Proof.
  intros t1 rt. apply (rtcp_rtt_accuracy rt t1 3000); vm_compute; (split; congruence) || congruence || reflexivity.
Defined.

(** The report of the socket after it received a packet. *)
Lemma rtcp_report_exchange_witness :
  exists s' d r mb',
    send_rtcp_report (H := lp64_le) 2000 1700000000123456 0 ex_rs2 ex_sess = Some (0, s', [(SaIn 1 3, d)])
    /\ rtcp_recv_handler (H := lp64_le) (fun l m => l ++ [m]) [] (rcv_buf d)
       = Some (([] ++ [msg_of 0 r]) ++ [msg_of 0 (MSdes [RtcpSdes 7 [(RTCP_SDES_CNAME, [97])]])], mb')
    /\ report_about 7 2000 1700000000123456 ex_sess r.
Proof.
  apply (rtcp_report_exchange (H := lp64_le) lp64_ample ex_rs2 ex_sess 2000 1700000000123456 0 [97] (fun l m => l ++ [m]) []);
    [exact ex_rs2_reachable|vm_compute; reflexivity|vm_compute; split; congruence|vm_compute; reflexivity| |vm_compute; congruence|reflexivity|reflexivity].
  constructor; [vm_compute; split; congruence|constructor].
Defined.

(** The jitter of a report block is converted to microseconds in 32 bits: of
    4295 units at 90 kHz, 47722 microseconds, nothing is left. *)
Lemma rtcp_jitter_overflow m :
  mbr_jit (handle_rr_block 0 90000 (RtcpRr 1 0 0 0 4295 0 0) m) = 0 /\ 4295 * 1000000 / 90000 = 47722.
Proof. by vm_compute. Qed.
