(* ===== verification/Fmt.v ===== *)
(** * Pointer-length strings and numbers: src/src/fmt/pl.c, ch.c and local_itoa

    A [struct pl] is [None] when its pointer is NULL and otherwise the
    characters it refers to.  The number parsers run over the characters from
    the end, as the code does, with the factor and the sum at their widths.
    What re_vhprintf prints is read back by them in [Print.fmt_numbers]. *)

From stdpp Require Import base list numbers strings.
From Stdlib Require Import ZArith Lia.
From S2P Require Import Prelude Endian Mbuf Hash Dname.

Open Scope Z_scope.

Definition pl : Type := option (list Z).

(** The characters, and the length. *)
Definition pl_str (p : pl) : list Z := match p with None => [] | Some s => s end.
Definition pl_l (p : pl) : Z := zlength (pl_str p).

Definition pl_isset (p : pl) : bool := match p with None => false | Some s => negb (zlength s =? 0) end.

Definition pl_advance (p : pl) (n : Z) : pl := match p with None => None | Some s => Some (zdrop n s) end.

(** ** Numbers *)

Definition is_digit (c : Z) : bool := (48 <=? c) && (c <=? 57).

(** Digit values: [uint8_t c = ch - '0'], not above 9; and hexadecimal. *)
Definition dec_digit (c : Z) : option Z := let d := u8 (c - 48) in if d >? 9 then None else Some d.
Definition hex_digit (c : Z) : option Z :=
  if (48 <=? c) && (c <=? 57) then Some (c - 48)
  else if (65 <=? c) && (c <=? 70) then Some (c - 65 + 10)
  else if (97 <=? c) && (c <=? 102) then Some (c - 97 + 10)
  else None.

(** The loop from the last character to the first. *)
Fixpoint num_loop (w base : Z) (digit : Z -> option Z) (rs : list Z) (v mul : Z) : Z :=
  match rs with
  | [] => v
  | c :: rs => match digit c with None => 0 | Some d => num_loop w base digit rs (wrap w (v + wrap w (mul * d))) (wrap w (mul * base)) end
  end.

Definition pl_num (w base : Z) (digit : Z -> option Z) (p : pl) : Z :=
  match p with None => 0 | Some s => num_loop w base digit (rev s) 0 1 end.

Definition pl_u32 : pl -> Z := pl_num 32 10 dec_digit.
Definition pl_x32 : pl -> Z := pl_num 32 16 hex_digit.
Definition pl_u64 : pl -> Z := pl_num 64 10 dec_digit.
Definition pl_x64 : pl -> Z := pl_num 64 16 hex_digit.

(** The signed loop adds up the negated value; a sign only counts in front. *)
Fixpoint int_loop (w : Z) (rs : list Z) (v mul : Z) : option (bool * Z) :=
  match rs with
  | [] => Some (false, v)
  | c :: rs =>
      if is_digit c then int_loop w rs (swrap w (v - wrap w (mul * (c - 48)))) (wrap w (mul * 10))
      else if (c =? 45) && (match rs with [] => true | _ => false end) then Some (true, v)
      else if (c =? 43) && (match rs with [] => true | _ => false end) then Some (false, v)
      else None
  end.

Definition pl_int (w : Z) (p : pl) : Z :=
  match p with
  | None => 0
  | Some s =>
      match int_loop w (rev s) 0 1 with
      | None => 0
      | Some (neg, v) => if negb neg && (v =? - 2 ^ (w - 1)) then - 2 ^ (w - 1) else if neg then v else - v
      end
  end.

Definition pl_i32 : pl -> Z := pl_int 32.
Definition pl_i64 : pl -> Z := pl_int 64.

Definition ch_hex (c : Z) : Z := match hex_digit c with Some d => d | None => 0 end.

Fixpoint hex_pairs (s : list Z) : list Z :=
  match s with
  | a :: b :: s => u8 (u8 (Z.shiftl (ch_hex a) 4) + ch_hex b) :: hex_pairs s
  | _ => []
  end.

Definition pl_hex (p : pl) (len : Z) : res (list Z) :=
  if negb (pl_isset p) || negb (pl_l p =? 2 * len) then Err EINVAL else Ok (hex_pairs (pl_str p)).

(** local_itoa of print.c: the digits of [n]; NUM_SIZE is 64. *)
Definition itoa_digit (uc : bool) (c : Z) : Z := if c <? 10 then 48 + c else (if uc then 65 else 97) + (c - 10).
Fixpoint itoa_loop (fuel : nat) (n base : Z) (uc : bool) (acc : list Z) : list Z :=
  match fuel with
  | O => acc
  | S fuel =>
      let dv := n / base in
      let acc := itoa_digit uc (n - dv * base) :: acc in
      if dv =? 0 then acc else itoa_loop fuel dv base uc acc
  end.
Definition local_itoa (n base : Z) (uc : bool) : list Z := itoa_loop 64 n base uc [].

(** re_snprintf(.., "%u", i) *)
Definition dec_str (i : Z) : list Z := local_itoa i 10 false.

(** ** Comparing and searching *)

Definition pl_cmp (p1 p2 : pl) : Z :=
  if negb (pl_l p1 =? pl_l p2) then EINVAL else if bool_decide (pl_str p1 = pl_str p2) then 0 else EINVAL.
Definition pl_strcmp (p : pl) (str : list Z) : Z := pl_cmp p (Some str).

Definition lowered (s : list Z) : list Z := map tolower s.

Definition pl_casecmp (p1 p2 : pl) : Z :=
  if negb (pl_l p1 =? pl_l p2) then EINVAL else if bool_decide (lowered (pl_str p1) = lowered (pl_str p2)) then 0 else EINVAL.
Definition pl_strcasecmp (p : pl) (str : list Z) : Z := pl_casecmp p (Some str).

(** strncmp looks at the terminating zero of the literal, too. *)
Definition pl_strncmp (p : pl) (str : list Z) (n : Z) : Z :=
  if negb (pl_isset p) || (n =? 0) then EINVAL
  else if pl_l p <? n then EINVAL
  else if bool_decide (until_nul (ztake n (pl_str p)) = until_nul (ztake n (str ++ [0]))) then 0 else EINVAL.
Definition pl_strncasecmp (p : pl) (str : list Z) (n : Z) : Z :=
  if negb (pl_isset p) || (n =? 0) then EINVAL
  else if pl_l p <? n then EINVAL
  else if bool_decide (lowered (until_nul (ztake n (pl_str p))) = lowered (until_nul (ztake n (str ++ [0])))) then 0 else EINVAL.

(** Positions are offsets from the start. *)
Fixpoint find_first (f : list Z -> bool) (i : Z) (s : list Z) : option Z :=
  match s with
  | [] => None
  | c :: s' => if f s then Some i else find_first f (i + 1) s'
  end.

Definition starts_with (x s : list Z) : bool := bool_decide (ztake (zlength x) s = x).

Definition pl_strchr (p : pl) (c : Z) : option Z := find_first (starts_with [c]) 0 (pl_str p).
Definition pl_strrchr (p : pl) (c : Z) : option Z :=
  match find_first (starts_with [c]) 0 (rev (pl_str p)) with None => None | Some i => Some (pl_l p - 1 - i) end.
Definition pl_strstr (p : pl) (str : list Z) : option Z :=
  if negb (pl_isset p) || (pl_l p <? zlength str) then None
  else if zlength str =? 0 then Some 0
  else find_first (starts_with str) 0 (pl_str p).

Definition isspace (c : Z) : bool := (c =? 32) || ((9 <=? c) && (c <=? 13)).

Fixpoint drop_space (s : list Z) : list Z :=
  match s with [] => [] | c :: s' => if isspace c then drop_space s' else s end.

Definition pl_ltrim (p : pl) : pl := match p with None => None | Some s => Some (drop_space s) end.
Definition pl_rtrim (p : pl) : pl := match p with None => None | Some s => Some (rev (drop_space (rev s))) end.
Definition pl_trim (p : pl) : pl := pl_rtrim (pl_ltrim p).

(** The first name that is equal, ignoring case. *)
Definition pl_bool (p : pl) : res bool :=
  if existsb (fun s => pl_strcasecmp p (chars s) =? 0) ["1"; "true"; "enable"; "yes"; "on"]%string then Ok true
  else if existsb (fun s => pl_strcasecmp p (chars s) =? 0) ["0"; "false"; "disable"; "no"; "off"]%string then Ok false
  else Err EINVAL.

(** ** Copies *)

Section Copies.
Context `{H : Host}.

(** The string in [size] bytes, without the terminating zero. *)
Definition pl_strcpy (p : pl) (size : Z) : res (list Z) :=
  match p with
  | None => Err EINVAL
  | Some s => if size =? 0 then Err EINVAL else Ok (ztake (Z.min (zlength s) (size - 1)) s)
  end.
Definition pl_strdup (p : pl) : res (list Z) :=
  match p with
  | None => Err EINVAL
  | Some s => match mem_alloc (zlength s + 1) with None => Err ENOMEM | Some _ => Ok s end
  end.
Definition pl_dup (p : pl) : res pl :=
  match p with
  | None => Err EINVAL
  | Some s => match mem_alloc (zlength s) with None => Err ENOMEM | Some _ => Ok (Some s) end
  end.
End Copies.

(** ** The value of a number *)

(** The value of digits, the most significant first. *)
Definition digits_value (base : Z) (digit : Z -> option Z) (s : list Z) : Z :=
  fold_left (fun v c => v * base + default 0 (digit c)) s 0.

Lemma digits_value_snoc base digit s c : digits_value base digit (s ++ [c]) = digits_value base digit s * base + default 0 (digit c).
Proof. unfold digits_value. by rewrite fold_left_app. Qed.

(** The loop on the characters [s] adds their value times the factor. *)
Lemma num_loop_value w base digit s : 0 <= w -> forall v mul, 0 <= v < 2 ^ w ->
  num_loop w base digit (rev s) v mul
  = if forallb (fun c => bool_decide (is_Some (digit c))) s then wrap w (v + mul * digits_value base digit s) else 0.
Proof.
  intros Hw. assert (Hm : 0 < 2 ^ w) by (by apply Z.pow_pos_nonneg). induction s as [|c s IH] using rev_ind; intros v mul Hv.
  { cbn. rewrite wrap_small; lia. }
  rewrite rev_app_distr, forallb_app. cbn [rev app num_loop forallb].
  destruct (bool_decide (is_Some (digit c))) eqn:Eb; [apply bool_decide_eq_true in Eb as [d Ed]|apply bool_decide_eq_false in Eb].
  2: { rewrite andb_false_r. by apply eq_None_not_Some in Eb as ->. }
  rewrite Ed, andb_true_r, IH by (apply Z.mod_pos_bound; lia). destruct (forallb _ s); [|done].
  rewrite digits_value_snoc, Ed. change (default 0 (Some d)) with d. set (V := digits_value base digit s). unfold wrap.
  rewrite Z.add_mod_idemp_l by lia. replace (v + (mul * d) mod 2 ^ w + (mul * base) mod 2 ^ w * V) with ((mul * d) mod 2 ^ w + ((mul * base) mod 2 ^ w * V + v)) by ring.
  rewrite Z.add_mod_idemp_l by lia. rewrite Z.add_assoc, (Z.add_comm (mul * d)), <- Z.add_assoc, <- Z.add_mod_idemp_l by lia.
  rewrite Z.mul_mod_idemp_l, Z.add_mod_idemp_l by lia. f_equal. ring.
Qed.

Lemma pl_num_value w base digit s : 0 < w ->
  pl_num w base digit (Some s) = if forallb (fun c => bool_decide (is_Some (digit c))) s then wrap w (digits_value base digit s) else 0.
Proof.
  intros Hw. unfold pl_num. rewrite (num_loop_value w base digit s ltac:(lia)) by (split; [lia|apply Z.pow_pos_nonneg; lia]). by rewrite Z.mul_1_l.
Qed.

(** ** Printing a number and reading it back *)

Lemma itoa_loop_chars fuel uc : forall n base acc, 2 <= base <= 16 ->
  Forall (fun c => 48 <= c < 123) acc ->
  Forall (fun c => 48 <= c < 123) (itoa_loop fuel n base uc acc) /\ zlength (itoa_loop fuel n base uc acc) <= Z.of_nat fuel + zlength acc.
Proof.
  induction fuel as [|fuel IH]; intros n base acc Hb Ha; cbn [itoa_loop]; [split; [done|lia]|].
  assert (Hr : 0 <= n - n / base * base < base) by (pose proof (Z.div_mod n base ltac:(lia)); pose proof (Z.mod_pos_bound n base ltac:(lia)); lia).
  assert (Ha' : Forall (fun c => 48 <= c < 123) (itoa_digit uc (n - n / base * base) :: acc)).
  { constructor; [|done]. unfold itoa_digit. destruct (Z.ltb_spec (n - n / base * base) 10); [lia|]. destruct uc; lia. }
  destruct (_ =? 0); [split; [done|rewrite zlength_cons; lia]|].
  destruct (IH (n / base) base _ Hb Ha') as [IH1 IH2]. split; [done|]. rewrite zlength_cons in IH2. lia.
Qed.

Lemma itoa_chars n : Forall (fun c => 48 <= c < 123) (dec_str n) /\ zlength (dec_str n) <= 64.
Proof. destruct (itoa_loop_chars 64 false n 10 []) as [Hc Hl]; [lia|constructor|]. by split. Qed.

Lemma itoa_digit_back uc base d digit :
  base = 10 /\ digit = dec_digit \/ base = 16 /\ digit = hex_digit -> 0 <= d < base -> digit (itoa_digit uc d) = Some d.
Proof.
  intros Hb Hd. unfold itoa_digit. destruct Hb as [[-> ->]|[-> ->]].
  - rewrite (proj2 (Z.ltb_lt _ _)) by lia. unfold dec_digit. rewrite wrap_small by lia. replace (48 + d - 48) with d by lia.
    rewrite Z.gtb_ltb, (proj2 (Z.ltb_ge _ _)) by lia. done.
  - assert (Hall : forallb (fun d => forallb (fun uc : bool => bool_decide (hex_digit (if d <? 10 then 48 + d else (if uc then 65 else 97) + (d - 10)) = Some d)) [true; false])
      (seqZ 0 16) = true) by (by vm_compute).
    rewrite forallb_forall in Hall. specialize (Hall d). rewrite <- list_elem_of_In, elem_of_seqZ in Hall. specialize (Hall Hd).
    rewrite forallb_forall in Hall. specialize (Hall uc). rewrite bool_decide_eq_true in Hall. apply Hall. destruct uc; cbn; tauto.
Qed.

Lemma itoa_loop_back fuel uc base digit : base = 10 /\ digit = dec_digit \/ base = 16 /\ digit = hex_digit ->
  forall n acc, 0 <= n < base ^ Z.of_nat fuel -> (0 < fuel)%nat ->
  exists s, itoa_loop fuel n base uc acc = s ++ acc /\ forallb (fun c => bool_decide (is_Some (digit c))) s = true /\ digits_value base digit s = n.
Proof.
  intros Hb. assert (2 <= base) by lia. induction fuel as [|fuel IH]; intros n acc Hn Hf; [lia|]. cbn [itoa_loop].
  pose proof (Z.div_mod n base ltac:(lia)) as Hdm. pose proof (Z.mod_pos_bound n base ltac:(lia)) as Hm.
  replace (n - n / base * base) with (n mod base) by lia. pose proof (itoa_digit_back uc base (n mod base) digit Hb Hm) as Hd.
  destruct (Z.eqb_spec (n / base) 0) as [Hz|Hz].
  - exists [itoa_digit uc (n mod base)]. split; [done|]. cbn [forallb]. rewrite Hd. split; [done|].
    unfold digits_value. cbn [fold_left]. rewrite Hd. change (default 0 (Some (n mod base))) with (n mod base). lia.
  - assert (Hn' : 0 <= n / base < base ^ Z.of_nat fuel).
    { split; [apply Z.div_pos; lia|]. apply Z.div_lt_upper_bound; [lia|]. rewrite Nat2Z.inj_succ, Z.pow_succ_r in Hn by lia. lia. }
    assert (Hf' : (0 < fuel)%nat) by (destruct fuel; [change (base ^ Z.of_nat 0) with 1 in Hn'; lia|lia]).
    destruct (IH (n / base) (itoa_digit uc (n mod base) :: acc) Hn' Hf') as (s & -> & Hs & Hv).
    exists (s ++ [itoa_digit uc (n mod base)]). rewrite <- app_assoc. split; [done|]. rewrite forallb_app, Hs. cbn [forallb]. rewrite Hd.
    split; [done|]. rewrite digits_value_snoc, Hd, Hv. change (default 0 (Some (n mod base))) with (n mod base). lia.
Qed.

Lemma itoa_back w uc base digit n :
  base = 10 /\ digit = dec_digit \/ base = 16 /\ digit = hex_digit -> 0 < w <= 64 -> 0 <= n < 2 ^ w -> pl_num w base digit (Some (local_itoa n base uc)) = n.
Proof.
  intros Hb Hw Hn. unfold local_itoa.
  assert (Hlt : 0 <= n < base ^ Z.of_nat 64).
  { split; [lia|]. pose proof (Z.pow_le_mono_r 2 w 64 ltac:(lia) ltac:(lia)). assert (2 ^ 64 < base ^ Z.of_nat 64) by (by destruct Hb as [[-> _]|[-> _]]; vm_compute). lia. }
  destruct (itoa_loop_back 64 uc base digit Hb n [] Hlt ltac:(lia)) as (s & -> & Hs & Hv). rewrite app_nil_r, pl_num_value, Hs, Hv by lia.
  apply wrap_small. lia.
Qed.

(** *** Signed numbers *)

Lemma swrap_mod w x : 0 <= w -> swrap w x mod 2 ^ w = x mod 2 ^ w.
Proof.
  intros Hw. unfold swrap. assert (2 ^ w <> 0) by (apply Z.pow_nonzero; lia). destruct (_ <? _); [by apply Z.mod_mod|].
  rewrite <- (Z.mod_add _ 1) by done. replace (x mod 2 ^ w - 2 ^ w + 1 * 2 ^ w) with (x mod 2 ^ w) by lia. by apply Z.mod_mod.
Qed.

Lemma swrap_eq w x y : x mod 2 ^ w = y mod 2 ^ w -> swrap w x = swrap w y.
Proof. intros E. unfold swrap. by rewrite E. Qed.

Lemma swrap_within w x : 0 < w -> - 2 ^ (w - 1) <= x < 2 ^ (w - 1) -> swrap w x = x.
Proof.
  intros Hw Hx. unfold swrap. assert (E : 2 ^ w = 2 * 2 ^ (w - 1)) by (rewrite <- Z.pow_succ_r by lia; f_equal; lia). rewrite E.
  destruct (Z.ltb_spec x 0).
  - rewrite <- (Z.mod_add x 1), Z.mod_small by lia. rewrite (proj2 (Z.ltb_ge _ _)) by lia. lia.
  - rewrite Z.mod_small by lia. by rewrite (proj2 (Z.ltb_lt _ _)) by lia.
Qed.

Lemma digit_is c : is_byte c -> is_digit c = bool_decide (is_Some (dec_digit c)) /\ (is_digit c = true -> dec_digit c = Some (c - 48)).
Proof.
  intros Hc. unfold is_digit, dec_digit, wrap, is_byte in *. change (2 ^ 8) with 256.
  destruct (Z.leb_spec 48 c); cbn [andb].
  - rewrite Z.mod_small by lia. rewrite Z.gtb_ltb. destruct (Z.ltb_spec 9 (c - 48)), (Z.leb_spec c 57); try lia; by split.
  - rewrite <- (Z.mod_add _ 1), Z.mod_small by lia. rewrite Z.gtb_ltb, (proj2 (Z.ltb_lt _ _)) by lia. by split.
Qed.

Lemma int_loop_value w s : 0 < w -> bytes s -> forallb is_digit s = true -> forall r v mul, swrap w v = v ->
  exists mul', int_loop w (rev s ++ r) v mul = int_loop w r (swrap w (v - mul * digits_value 10 dec_digit s)) mul'.
Proof.
  intros Hw. induction s as [|c s IH] using rev_ind; intros Hb Hd r v mul Hv.
  { exists mul. cbn. unfold digits_value. cbn. by rewrite Z.mul_0_r, Z.sub_0_r, Hv. }
  rewrite bytes_app in Hb. destruct Hb as [Hb Hc]. apply Forall_inv in Hc. rewrite forallb_app in Hd. apply andb_prop in Hd as [Hd Hdc].
  cbn [forallb] in Hdc. rewrite andb_true_r in Hdc. rewrite rev_app_distr. cbn [rev app int_loop]. rewrite Hdc.
  destruct (IH Hb Hd r (swrap w (v - wrap w (mul * (c - 48)))) (wrap w (mul * 10))) as [mul' ->].
  { apply swrap_eq. apply swrap_mod. lia. }
  exists mul'. f_equal. apply swrap_eq. rewrite digits_value_snoc, (proj2 (digit_is c Hc) Hdc). change (default 0 (Some (c - 48))) with (c - 48).
  assert (Hz : 2 ^ w <> 0) by (apply Z.pow_nonzero; lia). set (V := digits_value 10 dec_digit s).
  rewrite Zminus_mod, swrap_mod by lia. rewrite <- Zminus_mod. unfold wrap. 
  rewrite Zminus_mod, (Zminus_mod v), Z.mod_mod, <- (Zminus_mod v), Z.mul_mod_idemp_l, <- Zminus_mod by done. f_equal. lia.
Qed.

(** The text of a signed number; [printed_signed] shows that %d and %lld print it. *)
Definition int_str (n : Z) : list Z := (if n <? 0 then [45] else []) ++ dec_str (Z.abs n).

Lemma dec_str_spec n : 0 <= n < 2 ^ 64 -> bytes (dec_str n) /\ forallb is_digit (dec_str n) = true /\ digits_value 10 dec_digit (dec_str n) = n.
Proof.
  intros Hn. assert (Hlt : 0 <= n < 10 ^ Z.of_nat 64) by (assert (2 ^ 64 < 10 ^ Z.of_nat 64) by (by vm_compute); lia).
  destruct (itoa_loop_back 64 false 10 dec_digit ltac:(by left) n [] Hlt ltac:(lia)) as (s & Es & Hs & Hv). rewrite app_nil_r in Es.
  assert (Hb : bytes (dec_str n)) by (eapply Forall_impl; [apply itoa_chars|]; unfold is_byte; cbn; lia).
  unfold dec_str, local_itoa in *. rewrite Es in *. split_and!; [done| |done].
  rewrite forallb_forall in Hs |- *. intros c Hc. rewrite (proj1 (digit_is c (proj1 (List.Forall_forall _ _) Hb c Hc))). by apply Hs.
Qed.

Lemma int_back w n : 1 < w <= 64 -> - 2 ^ (w - 1) <= n < 2 ^ (w - 1) -> pl_int w (Some (int_str n)) = n.
Proof.
  intros Hw Hn. pose proof (Z.pow_le_mono_r 2 (w - 1) 63 ltac:(lia) ltac:(lia)). pose proof (Z.pow_pos_nonneg 2 (w - 1) ltac:(lia) ltac:(lia)).
  destruct (dec_str_spec (Z.abs n) ltac:(lia)) as (Hb & Hd & Hv). unfold pl_int, int_str. rewrite rev_app_distr.
  destruct (int_loop_value w _ ltac:(lia) Hb Hd (rev (if n <? 0 then [45] else [])) 0 1) as [mul' ->]; [apply swrap_within; lia|].
  rewrite Hv, Z.mul_1_l, Z.sub_0_l. rewrite swrap_within by lia.
  destruct (Z.ltb_spec n 0); cbn [rev app int_loop is_digit Z.leb Z.compare andb Z.eqb negb].
  - change (is_digit 45) with false. change (45 =? 45) with true. cbn. lia.
  - rewrite (proj2 (Z.eqb_neq _ _)) by lia. lia.
Qed.

(** A sign in front, and the rest. *)
Definition sign_split (s : list Z) : bool * list Z :=
  match s with c :: d => if c =? 45 then (true, d) else if c =? 43 then (false, d) else (false, s) | [] => (false, []) end.

(** A character that is neither a digit nor a sign in front ends the loop. *)
Lemma int_loop_bad w s : forallb is_digit s = false -> forall r v mul,
  r <> [] \/ match s with c :: _ => (c =? 45) || (c =? 43) = false | [] => False end -> int_loop w (rev s ++ r) v mul = None.
Proof.
  induction s as [|c s IH] using rev_ind; [done|]. rewrite forallb_app. cbn [forallb]. rewrite andb_true_r. intros Hs r v mul Hr.
  rewrite rev_app_distr. cbn [rev app int_loop]. destruct (is_digit c) eqn:Ec.
  - rewrite andb_true_r in Hs. apply IH; [done|]. destruct Hr as [Hr|Hr]; [by left|]. destruct s; [done|]. by right.
  - destruct (rev s ++ r) eqn:E; [|by rewrite !andb_false_r]. apply app_eq_nil in E as [E ->]. apply (f_equal (@rev Z)) in E. rewrite rev_involutive in E. subst s.
    destruct Hr as [|Hr]; [done|]. cbn [app] in Hr. apply orb_false_elim in Hr as [-> ->]. done.
Qed.

Lemma neg_swrap w x : 0 < w -> (if swrap w (- x) =? - 2 ^ (w - 1) then - 2 ^ (w - 1) else - swrap w (- x)) = swrap w x.
Proof.
  intros Hw. assert (E : 2 ^ w = 2 * 2 ^ (w - 1)) by (rewrite <- Z.pow_succ_r by lia; f_equal; lia). pose proof (Z.pow_pos_nonneg 2 (w - 1) ltac:(lia) ltac:(lia)).
  assert (Hb : - 2 ^ (w - 1) <= swrap w (- x) < 2 ^ (w - 1)).
  { unfold swrap. rewrite E. pose proof (Z.mod_pos_bound (- x) (2 * 2 ^ (w - 1)) ltac:(lia)). destruct (Z.ltb_spec ((- x) mod (2 * 2 ^ (w - 1))) (2 ^ (w - 1))); lia. }
  pose proof (swrap_mod w (- x) ltac:(lia)) as Hm. set (y := swrap w (- x)) in *. clearbody y.
  assert (Hx : x mod 2 ^ w = (- y) mod 2 ^ w).
  { replace x with (0 - - x) by lia. replace (- y) with (0 - y) by lia. rewrite Zminus_mod, <- Hm, <- Zminus_mod. done. }
  rewrite (swrap_eq w x (- y) Hx). destruct (Z.eqb_spec y (- 2 ^ (w - 1))) as [->|].
  - rewrite (swrap_eq w _ (- 2 ^ (w - 1))); [symmetry; apply swrap_within; lia|]. rewrite Z.opp_involutive, E, <- (Z.mod_add (- 2 ^ (w - 1)) 1) by lia. f_equal. lia.
  - symmetry. apply swrap_within; lia.
Qed.

(** A signed number: an optional sign and digits, any other text is 0. *)
Lemma pl_int_value w s : 0 < w -> bytes s -> pl_int w (Some s) =
  let '(neg, d) := sign_split s in
  if forallb is_digit d then swrap w (if neg : bool then - digits_value 10 dec_digit d else digits_value 10 dec_digit d) else 0.
Proof.
  intros Hw Hb. assert (H0 : swrap w 0 = 0) by (apply swrap_within; pose proof (Z.pow_pos_nonneg 2 (w - 1) ltac:(lia) ltac:(lia)); lia).
  assert (Hd : forall d r, bytes d -> forallb is_digit d = true -> exists mul, int_loop w (rev d ++ r) 0 1 = int_loop w r (swrap w (- digits_value 10 dec_digit d)) mul).
  { intros d r Hbd Hdd. destruct (int_loop_value w d Hw Hbd Hdd r 0 1 H0) as [mul E]. exists mul. by rewrite E, Z.mul_1_l, Z.sub_0_l. }
  unfold pl_int. destruct s as [|c s].
  { cbn [rev int_loop negb andb sign_split forallb]. change (digits_value 10 dec_digit []) with 0. pose proof (Z.pow_pos_nonneg 2 (w - 1) ltac:(lia) ltac:(lia)). by rewrite H0, (proj2 (Z.eqb_neq _ _)) by lia. }
  cbn [sign_split]. apply Forall_cons in Hb as [Hc Hb].
  assert (Hplain : (c =? 45) || (c =? 43) = false -> match int_loop w (rev (c :: s)) 0 1 with None => 0 | Some (neg, v) => if negb neg && (v =? - 2 ^ (w - 1)) then - 2 ^ (w - 1) else if neg then v else - v end
    = if forallb is_digit (c :: s) then swrap w (digits_value 10 dec_digit (c :: s)) else 0).
  { intros Hns. rewrite <- (app_nil_r (rev (c :: s))). destruct (forallb is_digit (c :: s)) eqn:Eall.
    - destruct (Hd (c :: s) [] ltac:(by constructor) Eall) as [mul ->]. cbn [int_loop negb andb]. by apply neg_swrap.
    - by rewrite int_loop_bad by auto. }
  assert (Hsign : forall neg : bool, c = (if neg then 45 else 43) -> match int_loop w (rev (c :: s)) 0 1 with None => 0 | Some (neg, v) => if negb neg && (v =? - 2 ^ (w - 1)) then - 2 ^ (w - 1) else if neg then v else - v end
    = if forallb is_digit s then swrap w (if neg then - digits_value 10 dec_digit s else digits_value 10 dec_digit s) else 0).
  { intros neg Ec. cbn [rev]. destruct (forallb is_digit s) eqn:Eall.
    - destruct (Hd s [c] Hb Eall) as [mul ->]. destruct neg; subst c; cbn [int_loop andb negb]; [done|]. by apply neg_swrap.
    - by rewrite int_loop_bad by auto. }
  destruct (Z.eqb_spec c 45) as [Ec|]; [exact (Hsign true Ec)|]. destruct (Z.eqb_spec c 43) as [Ec|]; [exact (Hsign false Ec)|]. by apply Hplain.
Qed.
