(* ===== verification/Odict.v ===== *)
(** * Ordered dictionaries: src/src/odict/odict.c, entry.c, get.c and type.c

    A dictionary keeps its entries in a list, in the order they were added, and
    in a hash table.  Entries with the same key are in the same bucket in that
    order, so a lookup finds the first entry with the key ([Hash.hash_refines]):
    a dictionary is the sequence of its entries.  Keys and strings are C strings
    without the terminator.  A double is its 64 bits. *)

From stdpp Require Import base list numbers.
From Stdlib Require Import ZArith Lia SpecFloat.
From S2P Require Import Prelude Endian Mbuf Hash.

Open Scope Z_scope.

(** ** Doubles *)

(** IEEE 754 binary64: sign, exponent and fraction of the 64 bits. *)
Definition dbl_exp (b : Z) : Z := (b / 2 ^ 52) mod 2 ^ 11.
Definition dbl_frac (b : Z) : Z := b mod 2 ^ 52.
Definition dbl_neg (b : Z) : bool := 2 ^ 63 <=? b.

Definition sf_of_bits (b : Z) : spec_float :=
  let s := dbl_neg b in
  let e := dbl_exp b in
  let f := dbl_frac b in
  if e =? 2047 then (if f =? 0 then S754_infinity s else S754_nan)
  else
    let '(m, k) := if e =? 0 then (f, -1074) else (2 ^ 52 + f, e - 1075) in
    match m with
    | Zpos p => S754_finite s p k
    | _ => S754_zero s
    end.

(** The bits of [(double)n]: to the nearest, ties to even. *)
Definition dbl_of_u64 (n : Z) : Z :=
  if n =? 0 then 0
  else
    let e := Z.log2 n in
    let q :=
      if e <=? 52 then n * 2 ^ (52 - e)
      else
        let q := n / 2 ^ (e - 52) in
        let r := n mod 2 ^ (e - 52) in
        let half := 2 ^ (e - 53) in
        if (half <? r) || ((half =? r) && Z.odd q) then q + 1 else q in
    (e + 1022) * 2 ^ 52 + q.

(** [(uint64_t)d]: truncation.  The result for a value out of range is left
    to the platform: [cvt]. *)
Definition dbl_to_u64 (cvt : Z -> Z) (b : Z) : Z :=
  let e := dbl_exp b in
  if e =? 2047 then cvt b
  else if e =? 0 then 0
  else
    let m := 2 ^ 52 + dbl_frac b in
    let v := if 1075 <=? e then m * 2 ^ (e - 1075) else m / 2 ^ (1075 - e) in
    if dbl_neg b then (if v =? 0 then 0 else cvt b)
    else if v <? 2 ^ 64 then v else cvt b.

(** DBL_EPSILON is 2^-52. *)
Definition cmp_double (a b : Z) : bool :=
  SFltb (SFabs (SFsub 53 1024 (sf_of_bits a) (sf_of_bits b))) (S754_finite false 4503599627370496 (-104)).

(** ** Dictionaries *)

Inductive odict_value :=
| OObject (o : list (list Z * odict_value))
| OArray (o : list (list Z * odict_value))
| OString (s : list Z)
| OInt (n : Z)
| ODouble (bits : Z)
| OBool (b : bool)
| ONull.

Abbreviation odict := (list (list Z * odict_value)).

Inductive odict_type := ODICT_OBJECT | ODICT_ARRAY | ODICT_STRING | ODICT_INT | ODICT_DOUBLE | ODICT_BOOL | ODICT_NULL.

#[export] Instance odict_type_eq_dec : EqDecision odict_type.
Proof. solve_decision. Defined.

Definition odict_entry_type (v : odict_value) : odict_type :=
  match v with
  | OObject _ => ODICT_OBJECT
  | OArray _ => ODICT_ARRAY
  | OString _ => ODICT_STRING
  | OInt _ => ODICT_INT
  | ODouble _ => ODICT_DOUBLE
  | OBool _ => ODICT_BOOL
  | ONull => ODICT_NULL
  end.

Definition odict_type_iscontainer (t : odict_type) : bool :=
  match t with ODICT_OBJECT | ODICT_ARRAY => true | _ => false end.
Definition odict_type_isreal (t : odict_type) : bool :=
  match t with ODICT_OBJECT | ODICT_ARRAY => false | _ => true end.

Definition odict_lookup (o : odict) (key : list Z) : option (list Z * odict_value) :=
  List.find (fun e => bool_decide (fst e = key)) o.

(** mem_deref of the entry that is found removes it from the list and the table. *)
Fixpoint odict_entry_del (o : odict) (key : list Z) : odict :=
  match o with
  | [] => []
  | e :: o => if bool_decide (fst e = key) then o else e :: odict_entry_del o key
  end.

(** Nested: the entries of containers are counted, the containers are not. *)
Fixpoint value_count (v : odict_value) : Z :=
  match v with
  | OObject o | OArray o => fold_right (fun e n => value_count (snd e) + n) 0 o
  | _ => 1
  end.

Definition odict_count (o : odict) (nested : bool) : Z :=
  if nested then fold_right (fun e n => value_count (snd e) + n) 0 o else zlength o.

Fixpoint odict_value_compare (ignore_order : bool) (v1 v2 : odict_value) {struct v1} : bool :=
  let compare :=
    fix walk (l1 : odict) (o2 l2 : odict) {struct l1} : bool :=
      match l1, l2 with
      | (k1, w1) :: l1, e2 :: l2 =>
          match (if ignore_order then odict_lookup o2 k1 else Some e2) with
          | None => false
          | Some (k2, w2) => bool_decide (k1 = k2) && odict_value_compare ignore_order w1 w2 && walk l1 o2 l2
          end
      | _, _ => true
      end in
  match v1, v2 with
  | OObject o1, OObject o2 | OArray o1, OArray o2 => (odict_count o1 true =? odict_count o2 true) && compare o1 o2 o2
  | OInt a, OInt b => a =? b
  | ODouble a, ODouble b => cmp_double a b
  | OString a, OString b => bool_decide (a = b)
  | OBool a, OBool b => Bool.eqb a b
  | ONull, ONull => true
  | _, _ => false
  end.

Definition odict_compare (o1 o2 : odict) (ignore_order : bool) : bool :=
  odict_value_compare ignore_order (OObject o1) (OObject o2).

Definition odict_get_type (o : odict) (t : odict_type) (key : list Z) : option odict_value :=
  match odict_lookup o key with
  | Some (_, v) => if bool_decide (odict_entry_type v = t) then Some v else None
  | None => None
  end.

Definition odict_get_object (o : odict) (key : list Z) : option odict :=
  match odict_get_type o ODICT_OBJECT key with Some (OObject d) => Some d | _ => None end.
Definition odict_get_array (o : odict) (key : list Z) : option odict :=
  match odict_get_type o ODICT_ARRAY key with Some (OArray d) => Some d | _ => None end.
Definition odict_string (o : odict) (key : list Z) : option (list Z) :=
  match odict_get_type o ODICT_STRING key with Some (OString s) => Some s | _ => None end.
Definition odict_get_boolean (o : odict) (key : list Z) : option bool :=
  match odict_get_type o ODICT_BOOL key with Some (OBool b) => Some b | _ => None end.
Definition odict_get_number (cvt : Z -> Z) (o : odict) (key : list Z) : option Z :=
  match odict_lookup o key with
  | Some (_, ODouble b) => Some (dbl_to_u64 cvt b)
  | Some (_, OInt n) => Some (u64 n)
  | _ => None
  end.

Definition odict_entry_str (v : odict_value) : option (list Z) := match v with OString s => Some s | _ => None end.
Definition odict_entry_int (v : odict_value) : Z := match v with OInt n => n | _ => 0 end.
Definition odict_entry_dbl (v : odict_value) : Z := match v with ODouble b => b | _ => 0 end.
Definition odict_entry_boolean (v : odict_value) : bool := match v with OBool b => b | _ => false end.

Section Odict.
Context `{H : Host}.

(** sizeof(struct odict), (struct odict_entry), (struct hash), (struct list) *)
Definition ODICT_STRUCT : Z := 24.
Definition ODICT_ENTRY_STRUCT : Z := 88.
Definition HASH_STRUCT : Z := 16.
Definition LIST_STRUCT : Z := 16.

Definition odict_alloc (hash_size : Z) : res odict :=
  if hash_size =? 0 then Err EINVAL
  else
    match mem_alloc ODICT_STRUCT with
    | None => Err ENOMEM
    | Some _ =>
        match mem_alloc HASH_STRUCT, mem_alloc (hash_valid_size hash_size * LIST_STRUCT) with
        | Some _, Some _ => Ok []
        | _, _ => Err ENOMEM
        end
    end.

(** A copy of a C string; [s] may have bytes after its terminator. *)
Definition str_dup (s : list Z) : option (list Z) :=
  match mem_alloc (zlength (until_nul s) + 1) with
  | None => None
  | Some _ => Some (until_nul s)
  end.

Definition odict_entry_add (o : odict) (key : list Z) (v : odict_value) : res odict :=
  match mem_alloc ODICT_ENTRY_STRUCT with
  | None => Err ENOMEM
  | Some _ =>
      match str_dup key with
      | None => Err ENOMEM
      | Some key =>
          match v with
          | OString s => match str_dup s with None => Err ENOMEM | Some s => Ok (o ++ [(key, OString s)]) end
          | v => Ok (o ++ [(key, v)])
          end
      end
  end.
End Odict.

(** ** Lemmas *)

Lemma lookup_add o key v : odict_lookup o key = None -> odict_lookup (o ++ [(key, v)]) key = Some (key, v).
Proof.
  unfold odict_lookup. induction o as [|e o IH]; cbn; [by rewrite bool_decide_eq_true_2|].
  destruct (bool_decide (e.1 = key)); [done|auto].
Qed.

Lemma lookup_add_first o key key' v e :
  odict_lookup o key' = Some e -> odict_lookup (o ++ [(key, v)]) key' = Some e.
Proof.
  unfold odict_lookup. induction o as [|e' o IH]; cbn; [done|]. destruct (bool_decide (e'.1 = key')); [done|auto].
Qed.

(** A dictionary that holds only an empty object counts as empty, and the
    comparison of it with the empty dictionary ends before the first entry. *)
Lemma compare_empty_object key : odict_compare [(key, OObject [])] [] false = true /\ odict_compare [(key, OObject [])] [] true = true.
Proof. done. Qed.

(** Transaction numbers and stream ids survive the conversion to double. *)
Lemma dbl_roundtrip cvt n : 0 <= n <= 2 ^ 53 -> dbl_to_u64 cvt (dbl_of_u64 n) = n.
Proof.
  intros Hn. unfold dbl_of_u64. destruct (Z.eqb_spec n 0) as [->|Hz]; [done|].
  destruct (Z.eq_dec n (2 ^ 53)) as [->|Hne]; [done|].
  pose proof (Z.log2_spec n ltac:(lia)) as [Hlo Hhi]. set (e := Z.log2 n) in *. assert (0 <= e) by apply Z.log2_nonneg.
  assert (He : e <= 52) by (apply Z.lt_succ_r, (Z.pow_lt_mono_r_iff 2); lia).
  rewrite (proj2 (Z.leb_le e 52)) by lia. set (q := n * 2 ^ (52 - e)).
  assert (E52 : 2 ^ 52 = 2 ^ e * 2 ^ (52 - e)) by (rewrite <- Z.pow_add_r by lia; f_equal; lia).
  assert (E53 : 2 ^ 53 = 2 ^ Z.succ e * 2 ^ (52 - e)) by (rewrite <- Z.pow_add_r by lia; f_equal; lia).
  assert (0 < 2 ^ (52 - e)) by lia.
  assert (Hq : 2 ^ 52 <= q < 2 ^ 53) by (unfold q; rewrite E52, E53; nia).
  set (b := (e + 1022) * 2 ^ 52 + q). assert (Eb : b = (e + 1023) * 2 ^ 52 + (q - 2 ^ 52)) by (unfold b; lia).
  assert (Ed : b / 2 ^ 52 = e + 1023) by (rewrite Eb, Z.div_add_l by lia; rewrite Z.div_small by lia; lia).
  assert (Ef : b mod 2 ^ 52 = q - 2 ^ 52) by (rewrite Eb, Z.add_comm, Z.mod_add by lia; apply Z.mod_small; lia).
  unfold dbl_to_u64, dbl_exp, dbl_frac, dbl_neg. rewrite Ed, Ef, (Z.mod_small (e + 1023)) by lia.
  rewrite (proj2 (Z.eqb_neq (e + 1023) 2047)), (proj2 (Z.eqb_neq (e + 1023) 0)) by lia.
  replace (2 ^ 52 + (q - 2 ^ 52)) with q by lia.
  assert (Ev : (if 1075 <=? e + 1023 then q * 2 ^ (e + 1023 - 1075) else q / 2 ^ (1075 - (e + 1023))) = n).
  { destruct (Z.leb_spec 1075 (e + 1023)).
    - unfold q. rewrite <- Z.mul_assoc, <- Z.pow_add_r by lia. replace (52 - e + (e + 1023 - 1075)) with 0 by lia. lia.
    - replace (1075 - (e + 1023)) with (52 - e) by lia. unfold q. apply Z.div_mul. lia. }
  rewrite Ev, (proj2 (Z.leb_gt (2 ^ 63) b)) by (unfold b; lia). by rewrite (proj2 (Z.ltb_lt n (2 ^ 64))) by lia.
Qed.
