(* ===== verification/Print.v ===== *)
(** * Formatted printing: src/src/fmt/print.c

    A printing function calls the print handler with pieces of text, and what
    the handler returns decides how it goes on.  [prog] is that interaction:
    [Call p k] calls the handler with [p] and continues with [k] on its result,
    [Ret err] returns, and [Stuck] reads an argument of another type than the
    format says.  The argument of %H is such a program, and so is that of %v.
    [run] executes a program with a handler. *)

From stdpp Require Import base list numbers strings.
From Stdlib Require Import ZArith Lia SpecFloat.
From S2P Require Import Prelude Endian Mbuf Hash Dname Fmt Sa Odict.

Open Scope Z_scope.

Inductive prog :=
| Ret (err : Z)
| Call (p : list Z) (k : Z -> prog)
| Stuck.

Fixpoint pbind (p : prog) (k : Z -> prog) : prog :=
  match p with
  | Ret e => k e
  | Call c f => Call c (fun e => pbind (f e) k)
  | Stuck => Stuck
  end.

(** [err |= p2] after [p1]. *)
Definition por (p1 p2 : prog) : prog := pbind p1 (fun e1 => pbind p2 (fun e2 => Ret (Z.lor e1 e2))).

(** Successive calls whose results are or-ed. *)
Fixpoint calls (l : list (list Z)) : prog :=
  match l with
  | [] => Ret 0
  | c :: l => por (Call c Ret) (calls l)
  end.

(** The handler [vph] with its argument. *)
Fixpoint run {S : Type} (vph : list Z -> S -> Z * S) (p : prog) (s : S) : option (Z * S) :=
  match p with
  | Ret e => Some (e, s)
  | Call c k => let '(e, s) := vph c s in run vph (k e) s
  | Stuck => None
  end.

(** ** Numbers and padding *)

Definition DEC_SIZE : Z := 42.

(** [n] pieces of one character. *)
Definition padding (ch : Z) (n : Z) : list (list Z) := replicate (Z.to_nat n) [ch].

(** The calls of write_padded; [prfx] is empty for NULL. *)
Definition write_padded (p : list Z) (pad pch : Z) (plr : bool) (prfx : list Z) : list (list Z) :=
  let sz := zlength p in
  let pad := pad - Z.min pad (zlength prfx) in
  (if negb (zlength prfx =? 0) && (pch =? 48) then [prfx] else []) ++
  (if plr then [] else padding pch (pad - sz)) ++
  (if negb (zlength prfx =? 0) && negb (pch =? 48) then [prfx] else []) ++
  (if sz =? 0 then [] else [p]) ++
  (if plr then padding pch (pad - sz) else []).

(** Truncation of a double towards zero. *)
Definition sf_trunc (x : spec_float) : Z :=
  match x with
  | S754_finite s m e => let v := if 0 <=? e then Zpos m * 2 ^ e else Zpos m / 2 ^ (- e) in if s then - v else v
  | _ => 0
  end.
Definition sf_of_Z (n : Z) : spec_float := binary_normalize 53 1024 n 0 false.

(** What C leaves to the platform: a conversion to long long out of range, and
    the texts of strerror and inet_ntop. *)
Class Platform := {
  cvt_ll : Z -> Z;
  str_error : Z -> list Z;
  sa_ntop : sa -> option (list Z);
}.

Section Printf.
Context `{P : Platform}.

(** [(long long)n] *)
Definition dbl_ll (bits : Z) : Z :=
  let v := sf_trunc (sf_of_bits bits) in if (- 2 ^ 63 <=? v) && (v <? 2 ^ 63) then v else cvt_ll bits.

Fixpoint ftoa_digits (dp : nat) (b : spec_float) : list Z :=
  match dp with
  | O => []
  | S dp =>
      let b := SFmul 53 1024 b (sf_of_Z 10) in
      let v := sf_trunc b in
      u8 (48 + v) :: ftoa_digits dp (SFsub 53 1024 b (sf_of_Z v))
  end.

Definition local_ftoa (bits dp : Z) : list Z :=
  let a := dbl_ll bits in
  let b := SFsub 53 1024 (sf_of_bits bits) (sf_of_Z a) in
  let b := if SFltb b (S754_zero false) then SFopp b else b in
  local_itoa (Z.abs a) 10 false ++ [46] ++ ftoa_digits (Z.to_nat dp) b.

(** ** The format *)

(** The arguments: 32-bit and 64-bit integers (long, long long, size_t and
    int64_t of an LP64 platform), and pointers. *)
Inductive parg :=
| PInt (v : Z)
| PLong (v : Z)
| PDbl (bits : Z)
| PStr (s : option (list Z))
| PPl (p : option pl)
| PPtr (v : Z)
| PSa (s : option sa)
| PH (h : option prog)
| PV (h : option prog).

Record fstate := FState {
  fm : bool;
  pch : Z;
  plr : bool;
  pad : Z;
  fpad : option Z;
  lenmod : Z;
  uc : bool;
}.

Definition f0 : fstate := FState false 0 false 0 None 0 false.
Definition f_start : fstate := FState true 32 false 0 None 0 false.
Definition f_done (st : fstate) : fstate := FState false (pch st) (plr st) (pad st) (fpad st) (lenmod st) (uc st).
Definition pad_ch (st : fstate) : Z := if plr st then 32 else pch st.

(** Text padded with spaces. *)
Definition text (st : fstate) (p : list Z) : prog := calls (write_padded p (pad st) 32 (plr st) []).

Definition signed_arg (st : fstate) (a : parg) : option Z :=
  match a with
  | PInt v => if lenmod st =? 0 then Some (swrap 32 v) else None
  | PLong v => if lenmod st =? 0 then None else Some (swrap 64 v)
  | _ => None
  end.
Definition unsigned_arg (st : fstate) (a : parg) : option Z :=
  match a with
  | PInt v => if lenmod st =? 0 then Some (u32 v) else None
  | PLong v => if lenmod st =? 0 then None else Some (u64 v)
  | _ => None
  end.

Definition print_unsigned (st : fstate) (base : Z) (up : bool) (n : Z) : prog :=
  calls (write_padded (local_itoa n base up) (pad st) (pad_ch st) (plr st) []).

Definition print_double (st : fstate) (bits : Z) : prog :=
  let '(fp, pd) := match fpad st with None => (pad st, 0) | Some f => (f, pad st) end in
  match sf_of_bits bits with
  | S754_infinity _ => calls (write_padded (chars "inf") fp 32 (plr st) [])
  | S754_nan => calls (write_padded (chars "nan") fp 32 (plr st) [])
  | x =>
      calls (write_padded (local_ftoa bits (if pd =? 0 then 6 else Z.min pd DEC_SIZE)) fp (pad_ch st) (plr st)
               (if SFltb x (S754_zero false) then [45] else []))
  end.

Definition print_hex (st : fstate) (up : bool) (d : list Z) : prog :=
  calls ((if plr st then [] else padding (pad_ch st) (pad st - zlength d * 2)) ++
         concat (map (fun v => write_padded (local_itoa v 16 up) 2 48 false []) d) ++
         (if plr st then padding (pad_ch st) (pad st - zlength d * 2) else [])).

Definition print_sa (st : fstate) (s : sa) : prog :=
  match sa_ntop s with
  | None => text st [63]
  | Some addr =>
      let v6 := sa_af s =? AF_INET6 in
      calls ((if v6 then [[91]] else []) ++ write_padded addr (pad st) 32 (plr st) [] ++ (if v6 then [[93]] else []) ++ [[58]] ++
             write_padded (local_itoa (sa_port s) 10 false) (pad st) (pad_ch st) (plr st) [])
  end.

(** A character literal. *)
Definition ch (s : String.string) : Z := hd 0 (chars s).

(** One argument, or a pointer and a length. *)
Definition take_one (args : list parg) (f : parg -> option prog) : prog * list parg :=
  match args with
  | a :: args => (match f a with Some p => p | None => Stuck end, args)
  | [] => (Stuck, [])
  end.
Definition take_two (args : list parg) (f : list Z -> prog) : prog * list parg :=
  match args with
  | PStr s :: PLong len :: args => (f (match s with None => [] | Some s => ztake (u64 len) s end), args)
  | _ => (Stuck, args)
  end.

(** A conversion: what it prints and the arguments left. *)
Definition convert (st : fstate) (c : Z) (args : list parg) : prog * list parg :=
  let one := take_one args in
  let two := take_two args in
  if c =? ch "%" then (Call [37] Ret, args)
  else if c =? ch "b" then two (text st)
  else if c =? ch "c" then one (fun a => match a with PInt v => Some (text st [u8 v]) | _ => None end)
  else if (c =? ch "d") || (c =? ch "i") then
    one (fun a => match signed_arg st a with
                  | Some sn => Some (calls (write_padded (local_itoa (Z.abs sn) 10 false) (pad st) (pad_ch st) (plr st) (if sn <? 0 then [45] else [])))
                  | None => None end)
  else if (c =? ch "f") || (c =? ch "F") then one (fun a => match a with PDbl b => Some (print_double st b) | _ => None end)
  else if c =? ch "H" then one (fun a => match a with PH h => Some (match h with Some p => p | None => Ret 0 end) | _ => None end)
  else if c =? ch "m" then one (fun a => match a with PInt v => Some (text st (str_error (swrap 32 v))) | _ => None end)
  else if c =? ch "p" then
    one (fun a => match a with
                  | PPtr v => Some (if v =? 0 then text st (chars "(nil)")
                                    else calls (write_padded (local_itoa v 16 false) (pad st) (pad_ch st) (plr st) (chars "0x")))
                  | _ => None end)
  else if c =? ch "r" then one (fun a => match a with PPl p => Some (text st (match p with Some p => pl_str p | None => [] end)) | _ => None end)
  else if c =? ch "s" then one (fun a => match a with PStr s => Some (text st (match s with Some s => s | None => [] end)) | _ => None end)
  else if c =? ch "X" then one (fun a => match unsigned_arg st a with Some n => Some (print_unsigned st 16 true n) | None => None end)
  else if c =? ch "x" then one (fun a => match unsigned_arg st a with Some n => Some (print_unsigned st 16 (uc st) n) | None => None end)
  else if c =? ch "u" then one (fun a => match unsigned_arg st a with Some n => Some (print_unsigned st 10 (uc st) n) | None => None end)
  else if c =? ch "v" then one (fun a => match a with PV h => Some (match h with Some p => p | None => Ret 0 end) | _ => None end)
  else if c =? ch "W" then two (print_hex st true)
  else if c =? ch "w" then two (print_hex st (uc st))
  else if c =? ch "j" then
    one (fun a => match a with
                  | PSa (Some s) => Some (text st (match sa_ntop s with None => [63] | Some addr => addr end))
                  | PSa None => Some (Ret 0)
                  | _ => None end)
  else if c =? ch "J" then one (fun a => match a with PSa (Some s) => Some (print_sa st s) | PSa None => Some (Ret 0) | _ => None end)
  else (Call [63] Ret, args).

(** The modifiers keep the directive open. *)
Definition modify (st : fstate) (c : Z) : option fstate :=
  if c =? ch "-" then Some (FState true (pch st) true (pad st) (fpad st) (lenmod st) (uc st))
  else if c =? ch "." then Some (FState true (pch st) (plr st) 0 (Some (pad st)) (lenmod st) (uc st))
  else if c =? ch "l" then Some (FState true (pch st) (plr st) (pad st) (fpad st) (lenmod st + 1) (uc st))
  else if c =? ch "z" then Some (FState true (pch st) (plr st) (pad st) (fpad st) 42 (uc st))
  else if c =? ch "L" then Some (FState true (pch st) (plr st) (pad st) (fpad st) 3 (uc st))
  else if (ch "0" <=? c) && (c <=? ch "9") then
    if (pad st =? 0) && (c =? ch "0") then Some (FState true 48 (plr st) (pad st) (fpad st) (lenmod st) (uc st))
    else Some (FState true (pch st) (plr st) (u64 (pad st * 10 + (c - 48))) (fpad st) (lenmod st) (uc st))
  else None.

(** The loop over the format; [lit] is the text since the last directive. *)
Fixpoint vhprintf (p : list Z) (st : fstate) (lit : list Z) (args : list parg) : prog :=
  match p with
  | [] => if fm st || (zlength lit =? 0) then Ret 0 else Call lit Ret
  | c :: p =>
      if negb (fm st) then
        if negb (c =? ch "%") then vhprintf p st (lit ++ [c]) args
        else pbind (if zlength lit =? 0 then Ret 0 else Call lit Ret)
               (fun err => if negb (err =? 0) then Ret err else vhprintf p f_start [] args)
      else
        match modify st c with
        | Some st => vhprintf p st lit args
        | None =>
            let '(pr, args) := convert st c args in
            pbind pr (fun err => if negb (err =? 0) then Ret err else vhprintf p (f_done st) [] args)
        end
  end.

Definition re_vhprintf (fmt : list Z) (args : list parg) : prog := vhprintf fmt f0 [] args.

(** ** Printing to a buffer *)

(** print_handler: what has been written, and the room that is left. *)
Definition print_handler (p : list Z) (s : list Z * Z) : Z * (list Z * Z) :=
  if zlength p >? s.2 then (ENOMEM, s) else (0, (s.1 ++ p, s.2 - zlength p)).

(** The result, and the string in the buffer of [size] bytes without its zero. *)
Definition print_buf (size : Z) (pr : prog) : option (Z * list Z) :=
  if size =? 0 then Some (-1, [])
  else
    match run print_handler pr ([], size - 1) with
    | None => None
    | Some (err, (s, l)) => Some (if negb (err =? 0) then -1 else size - l - 1, s)
    end.

Definition re_vsnprintf (size : Z) (fmt : list Z) (args : list parg) : option (Z * list Z) := print_buf size (re_vhprintf fmt args).
End Printf.

(** print_handler_dyn: the string, the room with the terminator, and the size. *)
Record dyn_print := DynPrint { dp_str : list Z; dp_l : Z; dp_size : Z }.

Section Dynamic.
Context `{H : Host} `{P : Platform}.

Definition print_handler_dyn (p : list Z) (d : dyn_print) : Z * dyn_print :=
  let grown :=
    if zlength p >? dp_l d - 1 then
      let new_size := Z.max (dp_size d + zlength p) (dp_size d * 2) in
      match mem_realloc (dp_str d) new_size with
      | None => None
      | Some _ => Some (DynPrint (dp_str d) (dp_l d + (new_size - dp_size d)) new_size)
      end
    else Some d in
  match grown with
  | None => (ENOMEM, d)
  | Some d => (0, DynPrint (dp_str d ++ p) (dp_l d - zlength p) (dp_size d))
  end.

Definition print_dyn (pr : prog) : option (res (list Z)) :=
  match mem_alloc 16 with
  | None => Some (Err ENOMEM)
  | Some _ =>
      match run print_handler_dyn pr (DynPrint [] 16 16) with
      | None => None
      | Some (err, d) => Some (if negb (err =? 0) then Err err else Ok (dp_str d))
      end
  end.

Definition re_vsdprintf (fmt : list Z) (args : list parg) : option (res (list Z)) := print_dyn (re_vhprintf fmt args).
End Dynamic.

(** ** What is printed *)

(** The text and the result when the handler accepts everything. *)
Fixpoint out (p : prog) : list Z :=
  match p with Call c k => c ++ out (k 0) | _ => [] end.
Fixpoint code (p : prog) : option Z :=
  match p with Ret e => Some e | Call _ k => code (k 0) | Stuck => None end.

(** A program that ends with an error whatever the handler says. *)
Inductive fails : prog -> Prop :=
| fails_ret e : e <> 0 -> fails (Ret e)
| fails_call c k : (forall e, fails (k e)) -> fails (Call c k).

(** A program that reports the errors of the handler. *)
Inductive honest : prog -> Prop :=
| honest_ret e : honest (Ret e)
| honest_call c k : honest (k 0) -> (forall e, e <> 0 -> fails (k e)) -> honest (Call c k)
| honest_stuck : honest Stuck.

Lemma fails_bind p k : fails p -> (forall e, e <> 0 -> fails (k e)) -> fails (pbind p k).
Proof. intros Hp Hk. induction Hp as [e He|c f _ IH]; cbn; [auto|by constructor]. Qed.

Lemma honest_bind p k : honest p -> honest (k 0) -> (forall e, e <> 0 -> fails (k e)) -> (forall e, code p = Some e -> e <> 0 -> honest (k e)) -> honest (pbind p k).
Proof.
  intros Hp H0 Hk Hc. induction Hp as [e|c f Hf IH Hfail|]; cbn [pbind].
  - destruct (Z.eq_dec e 0) as [->|He]; [done|]. by apply Hc.
  - constructor; [by apply IH|]. intros e He. by apply fails_bind; [apply Hfail|].
  - constructor.
Qed.

Lemma out_bind p k : out (pbind p k) = out p ++ match code p with Some e => out (k e) | None => [] end.
Proof. induction p as [e|c f IH|]; cbn; [done| |done]. by rewrite IH, app_assoc. Qed.

Lemma code_bind p k : code (pbind p k) = match code p with Some e => code (k e) | None => None end.
Proof. induction p as [e|c f IH|]; cbn; [done| |done]. by rewrite IH. Qed.

(** A program that never gets stuck. *)
Inductive total : prog -> Prop :=
| total_ret e : total (Ret e)
| total_call c k : (forall e, total (k e)) -> total (Call c k).

Lemma total_bind p k : total p -> (forall e, total (k e)) -> total (pbind p k).
Proof. intros Hp Hk. induction Hp; cbn; [auto|by constructor]. Qed.

Lemma fails_total p k : total p -> (forall e, fails (k e)) -> fails (pbind p k).
Proof. intros Hp Hk. induction Hp; cbn; [auto|by constructor]. Qed.

Lemma calls_total l : total (calls l).
Proof. induction l as [|c l IH]; cbn; constructor. intros e. apply total_bind; [done|]. constructor. Qed.

Lemma lor_nonzero a b : a <> 0 -> Z.lor a b <> 0.
Proof. intros Ha Hb. by apply Z.lor_eq_0_iff in Hb as [? _]. Qed.

Lemma calls_honest l : honest (calls l) /\ out (calls l) = concat l /\ code (calls l) = Some 0.
Proof.
  induction l as [|c l (IHh & IHo & IHc)]; cbn; [split; [constructor|done]|]. rewrite out_bind, code_bind, IHo, IHc. cbn. rewrite app_nil_r. split; [|done].
  constructor.
  - apply honest_bind; [done|constructor| |].
    + intros e He. constructor. by rewrite Z.lor_0_l.
    + constructor.
  - intros e He. apply fails_total; [apply calls_total|]. intros e2. constructor. by apply lor_nonzero.
Qed.

(** ** The formatter reports errors *)

Definition arg_honest (a : parg) : Prop :=
  match a with PH (Some p) | PV (Some p) => honest p | _ => True end.

Lemma calls_ok l : honest (calls l).
Proof. apply calls_honest. Qed.
Lemma call_ok c : honest (Call c Ret).
Proof. constructor; [constructor|]. intros e He. by constructor. Qed.
Create HintDb print discriminated.
#[local] Hint Resolve calls_ok call_ok honest_ret honest_stuck : print.

Section Formatter.
Context `{P : Platform}.

Lemma one_honest args f :
  Forall arg_honest args -> (forall a p, arg_honest a -> f a = Some p -> honest p) ->
  honest (take_one args f).1 /\ Forall arg_honest (take_one args f).2.
Proof.
  intros Ha Hf. destruct Ha as [|a args Ha Has]; cbn; [split; constructor|]. split; [|done]. destruct (f a) eqn:E; [by eapply Hf|constructor].
Qed.

Lemma two_honest args f : Forall arg_honest args -> (forall d, honest (f d)) -> honest (take_two args f).1 /\ Forall arg_honest (take_two args f).2.
Proof.
  intros Ha Hf. unfold take_two. destruct Ha as [|a args Ha Has]; [split; constructor|]. destruct a; try (split; [constructor|by constructor]).
  destruct Has as [|b args Hb Hbs]; [split; [constructor|by apply Forall_cons_2]|]. destruct b; try (split; [constructor|apply Forall_cons_2; [done|by apply Forall_cons_2]]). split; [apply Hf|done].
Qed.

Lemma double_honest st b : honest (print_double st b).
Proof. unfold print_double. repeat case_match; auto with print. Qed.
Lemma sa_honest st s : honest (print_sa st s).
Proof. unfold print_sa, text. case_match; auto with print. Qed.

Lemma convert_honest st c args : Forall arg_honest args -> honest (convert st c args).1 /\ Forall arg_honest (convert st c args).2.
Proof.
  intros Ha. unfold convert. cbv zeta.
  assert (Htext : forall s, honest (text st s)) by (intros s; unfold text; auto with print).
  repeat lazymatch goal with |- honest (if ?b then _ else _).1 /\ _ => destruct b end;
    first [split; cbn [fst snd]; [apply call_ok|done]|apply two_honest; [done|]; intros; first [apply Htext|apply calls_ok]|apply one_honest; [done|]].
  all: intros a p Hh Ep.
  all: first [destruct (signed_arg st a); [injection Ep as <-; apply calls_ok|discriminate Ep]
             |destruct (unsigned_arg st a); [injection Ep as <-; apply calls_ok|discriminate Ep]
             |destruct a as [v|v|b|s|q|v|s|h|h]; try discriminate Ep].
  - injection Ep as <-. apply Htext.
  - injection Ep as <-. apply double_honest.
  - injection Ep as <-. destruct h; [exact Hh|constructor].
  - injection Ep as <-. apply Htext.
  - injection Ep as <-. destruct (v =? 0); [apply Htext|apply calls_ok].
  - injection Ep as <-. apply Htext.
  - injection Ep as <-. apply Htext.
  - injection Ep as <-. destruct h; [exact Hh|constructor].
  - destruct s; injection Ep as <-; [apply Htext|constructor].
  - destruct s; injection Ep as <-; [apply sa_honest|constructor].
Qed.

Lemma vhprintf_honest p : forall st lit args, Forall arg_honest args -> honest (vhprintf p st lit args).
Proof.
  induction p as [|c p IH]; intros st lit args Ha; cbn [vhprintf]; [case_match; auto with print|].
  assert (Hstep : forall pr st args, honest pr -> Forall arg_honest args ->
    honest (pbind pr (fun err => if negb (err =? 0) then Ret err else vhprintf p st [] args))).
  { intros pr st' args' Hpr Ha'. apply honest_bind; [done|by apply IH| |].
    - intros e He. rewrite (proj2 (Z.eqb_neq _ _) He). by constructor.
    - intros e _ He. rewrite (proj2 (Z.eqb_neq _ _) He). constructor. }
  destruct (negb (fm st)); [destruct (negb _); [by apply IH|]|].
  - apply Hstep; [case_match; auto with print|done].
  - destruct (modify st c); [by apply IH|]. destruct (convert_honest st c args Ha) as [Hc Has]. destruct (convert st c args) as [pr args']. by apply Hstep.
Qed.
End Formatter.

(** ** Buffers *)

Lemma run_fails {S} (vph : list Z -> S -> Z * S) p : fails p -> forall s, exists e s', run vph p s = Some (e, s') /\ e <> 0.
Proof.
  induction 1 as [e He|c k _ IH]; intros s; cbn; [by exists e, s|]. destruct (vph c s) as [e s']. apply IH.
Qed.

Definition room (s : list Z * Z) (size : Z) : Prop := 0 <= s.2 /\ zlength s.1 + s.2 = size - 1.

Lemma run_room p size : forall s, room s size -> match run print_handler p s with Some (_, s') => room s' size | None => True end.
Proof.
  induction p as [e|c k IH|]; intros s Hs; cbn; [done| |done]. unfold print_handler. destruct (Z.gtb_spec (zlength c) s.2); [by apply IH|].
  apply IH. destruct Hs as [H1 H2]. split; cbn; [lia|]. rewrite zlength_app. lia.
Qed.

(** Printing into a buffer: everything fits, or the result is an error. *)
Lemma run_buf p : honest p -> forall s l, 0 <= l ->
  match run print_handler p (s, l) with
  | None => code p = None
  | Some (e, (s', l')) =>
      (e = 0 -> code p = Some 0 /\ s' = s ++ out p /\ l' = l - zlength (out p))
      /\ (zlength (out p) <= l -> code p = Some e)
  end.
Proof.
  induction 1 as [e|c k Hk IH Hf|]; intros s l Hl; cbn [run out code].
  - split; [|done]. intros ->. split_and!; [done|by rewrite app_nil_r|change (zlength (@nil Z)) with 0; lia].
  - unfold print_handler at 1. cbn [fst snd]. destruct (Z.gtb_spec (zlength c) l) as [Hgt|Hle].
    + destruct (run_fails print_handler (k ENOMEM) (Hf ENOMEM ltac:(done)) (s, l)) as (e & [s' l'] & -> & He). split; [done|].
      rewrite zlength_app. pose proof (zlength_nonneg (out (k 0))). lia.
    + specialize (IH (s ++ c) (l - zlength c) ltac:(lia)). destruct (run print_handler (k 0) _) as [[e [s' l']]|]; [|done]. rewrite zlength_app, app_assoc.
      destruct IH as [IH1 IH2]. split; [|intros; apply IH2; lia]. intros He. destruct (IH1 He) as (? & ? & ->). split_and!; [done|done|lia].
  - done.
Qed.

(** Printing to a string that grows. *)
Section Grow.
Context `{H : Host} (Ham : ample_memory).

Record dyn_ok (d : dyn_print) : Prop := {
  dyn_room : 0 < dp_l d;
  dyn_full : zlength (dp_str d) + dp_l d = dp_size d;
  dyn_size : dp_size d <= 16 + 2 * zlength (dp_str d);
}.

Lemma dyn_empty : dyn_ok (DynPrint [] 16 16).
Proof. split; by vm_compute. Qed.

Lemma alloc_16 : is_Some (mem_alloc 16).
Proof. unfold mem_alloc. destruct (Ham 16) as [Hb _]; [by vm_compute|]. exact Hb. Qed.

Lemma dyn_step c d : dyn_ok d -> 16 + 2 * (zlength (dp_str d) + zlength c) <= MEM_SIZE_MAX ->
  exists d', print_handler_dyn c d = (0, d') /\ dyn_ok d' /\ dp_str d' = dp_str d ++ c.
Proof.
  intros [Hr Hf Hs] Hl. pose proof (zlength_nonneg c). pose proof (zlength_nonneg (dp_str d)). unfold print_handler_dyn.
  destruct (Z.gtb_spec (zlength c) (dp_l d - 1)) as [Hgt|Hle].
  - set (new := Z.max (dp_size d + zlength c) (dp_size d * 2)). assert (Hnew : new <= 2 * (zlength (dp_str d) + zlength c) /\ dp_size d + zlength c <= new) by (unfold new; lia).
    unfold mem_realloc. rewrite Z.gtb_ltb, (proj2 (Z.ltb_ge _ _)) by lia.
    destruct (Ham new ltac:(lia)) as [_ Hre]. destruct (Hre (dp_str d)) as [b ->]. eexists. split; [done|]. split; [|done].
    split; cbn [dp_l dp_str dp_size]; rewrite ?zlength_app; lia.
  - eexists. split; [done|]. split; [|done]. split; cbn [dp_l dp_str dp_size]; rewrite ?zlength_app; lia.
Qed.

Lemma run_dyn p : honest p -> forall d, dyn_ok d -> 16 + 2 * (zlength (dp_str d) + zlength (out p)) <= MEM_SIZE_MAX ->
  match run print_handler_dyn p d with
  | None => code p = None
  | Some (e, d') => code p = Some e /\ dp_str d' = dp_str d ++ out p
  end.
Proof.
  intros Hp. induction Hp as [e|c k Hk IH Hf|]; intros d Hd Hl; cbn [run out code] in *; [by rewrite app_nil_r| |done].
  rewrite zlength_app in Hl. pose proof (zlength_nonneg (out (k 0))).
  destruct (dyn_step c d Hd ltac:(lia)) as (d' & -> & Hd' & Es). specialize (IH d' Hd'). rewrite Es, zlength_app in IH. specialize (IH ltac:(lia)).
  destruct (run print_handler_dyn (k 0) d') as [[e d2]|]; [|done]. rewrite app_assoc. done.
Qed.
End Grow.


(** ** Numbers as text *)

Section Numbers.
Context `{P : Platform}.

(** One conversion without padding. *)
Lemma number_out d prfx : 0 < zlength d -> let p := pbind (calls (write_padded d 0 32 false prfx)) (fun err => if negb (err =? 0) then Ret err else Ret 0) in
  out p = prfx ++ d /\ code p = Some 0.
Proof.
  intros Hd p. unfold p. destruct (calls_honest (write_padded d 0 32 false prfx)) as (_ & Eo & Ec). rewrite out_bind, code_bind, Eo, Ec. cbn [Z.eqb negb out code].
  split; [|done]. pose proof (zlength_nonneg prfx). rewrite app_nil_r. unfold write_padded, padding. change (32 =? 48) with false. rewrite Z.min_l by lia. cbn [negb].
  rewrite andb_false_r, andb_true_r. replace (Z.to_nat (0 - 0 - zlength d)) with 0%nat by lia. rewrite (proj2 (Z.eqb_neq (zlength d) 0)) by lia. cbn [replicate app concat].
  destruct (Z.eqb_spec (zlength prfx) 0) as [E|E]; cbn [negb]; rewrite !concat_app; cbn [concat app]; rewrite !app_nil_r; [|done].
  by destruct prfx as [|c t]; [|rewrite zlength_cons in E; pose proof (zlength_nonneg t); lia].
Qed.

Lemma itoa_loop_nonempty fuel base up : forall n acc, (0 < fuel)%nat \/ 0 < zlength acc -> 0 < zlength (itoa_loop fuel n base up acc).
Proof.
  induction fuel as [|fuel IH]; intros n acc Ha; cbn [itoa_loop]; [destruct Ha; [lia|done]|]. pose proof (zlength_nonneg acc).
  destruct (_ =? 0); [|apply IH; right]; rewrite zlength_cons; lia.
Qed.

Lemma itoa_nonempty n base up : 0 < zlength (local_itoa n base up).
Proof. apply (itoa_loop_nonempty 64). lia. Qed.

(** What %d and %lld print. *)
Lemma printed_signed m :
  (let p := re_vhprintf (chars "%d") [PInt m] in out p = int_str (swrap 32 m) /\ code p = Some 0)
  /\ (let p := re_vhprintf (chars "%lld") [PLong m] in out p = int_str (swrap 64 m) /\ code p = Some 0).
Proof.
  split; unfold int_str, dec_str.
  - exact (number_out (local_itoa (Z.abs (swrap 32 m)) 10 false) (if swrap 32 m <? 0 then [45] else []) (itoa_nonempty _ _ _)).
  - exact (number_out (local_itoa (Z.abs (swrap 64 m)) 10 false) (if swrap 64 m <? 0 then [45] else []) (itoa_nonempty _ _ _)).
Qed.

(** What the unsigned conversions print. *)
Lemma printed_unsigned n :
  (out (re_vhprintf (chars "%u") [PInt n]) = local_itoa (u32 n) 10 false /\ out (re_vhprintf (chars "%x") [PInt n]) = local_itoa (u32 n) 16 false
   /\ out (re_vhprintf (chars "%X") [PInt n]) = local_itoa (u32 n) 16 true)
  /\ (out (re_vhprintf (chars "%llu") [PLong n]) = local_itoa (u64 n) 10 false /\ out (re_vhprintf (chars "%llx") [PLong n]) = local_itoa (u64 n) 16 false
   /\ out (re_vhprintf (chars "%llX") [PLong n]) = local_itoa (u64 n) 16 true).
Proof.
  split_and!; [exact (proj1 (number_out (local_itoa (u32 n) 10 false) [] (itoa_nonempty _ _ _)))|exact (proj1 (number_out (local_itoa (u32 n) 16 false) [] (itoa_nonempty _ _ _)))
    |exact (proj1 (number_out (local_itoa (u32 n) 16 true) [] (itoa_nonempty _ _ _)))|exact (proj1 (number_out (local_itoa (u64 n) 10 false) [] (itoa_nonempty _ _ _)))
    |exact (proj1 (number_out (local_itoa (u64 n) 16 false) [] (itoa_nonempty _ _ _)))|exact (proj1 (number_out (local_itoa (u64 n) 16 true) [] (itoa_nonempty _ _ _)))].
Qed.

(** C30: numbers as text.  On any string of bytes pl_u32, pl_u64, pl_x32 and pl_x64
    give the value of its digits, decimal or hexadecimal, modulo the width, and 0
    when a character is not a digit; pl_i32 and pl_i64 take one sign in front and
    give the signed value in the two's complement range of the width, and 0 when
    anything else than decimal digits follows.  What re_printf prints for %d and
    %lld, %u and %llu, %x, %X, %llx and %llX (without padding) is read back exactly
    by the parser of the same width and base, over the whole range of the type. *)
Theorem fmt_numbers (s : list Z) (m n : Z) :
  let value base digit := if forallb (fun c => bool_decide (is_Some (digit c))) s then digits_value base digit s else 0 in
  let printed fmt a := Some (out (re_vhprintf (chars fmt) [a])) in
  pl_u32 (Some s) = u32 (value 10 dec_digit) /\ pl_u64 (Some s) = u64 (value 10 dec_digit)
  /\ pl_x32 (Some s) = u32 (value 16 hex_digit) /\ pl_x64 (Some s) = u64 (value 16 hex_digit)
  /\ (bytes s -> let '(neg, d) := sign_split s in
      let v := if forallb is_digit d then (if neg : bool then - digits_value 10 dec_digit d else digits_value 10 dec_digit d) else 0 in
      pl_i32 (Some s) = swrap 32 v /\ pl_i64 (Some s) = swrap 64 v)
  /\ (- 2 ^ 31 <= m < 2 ^ 31 -> pl_i32 (printed "%d" (PInt m)) = m)
  /\ (- 2 ^ 63 <= m < 2 ^ 63 -> pl_i64 (printed "%lld" (PLong m)) = m)
  /\ (is_u32 n -> pl_u32 (printed "%u" (PInt n)) = n /\ pl_x32 (printed "%x" (PInt n)) = n /\ pl_x32 (printed "%X" (PInt n)) = n)
  /\ (is_u64 n -> pl_u64 (printed "%llu" (PLong n)) = n /\ pl_x64 (printed "%llx" (PLong n)) = n /\ pl_x64 (printed "%llX" (PLong n)) = n).
Proof.
  intros value printed. unfold value, printed. destruct (printed_signed m) as [[-> _] [-> _]]. destruct (printed_unsigned n) as [(-> & -> & ->) (-> & -> & ->)].
  unfold pl_u32, pl_x32, pl_u64, pl_x64, pl_i32, pl_i64, is_u32, is_u64.
  split_and!; try (rewrite pl_num_value by lia; by destruct (forallb _ s)).
  - intros Hb. rewrite !pl_int_value by (done || lia). destruct (sign_split s) as [neg d]. by destruct (forallb is_digit d).
  - intros Hm. rewrite (swrap_within 32 m) by lia. by apply int_back.
  - intros Hm. rewrite (swrap_within 64 m) by lia. by apply int_back.
  - intros Hn. rewrite wrap_small by lia. split_and!; apply itoa_back; lia || auto.
  - intros Hn. rewrite wrap_small by lia. split_and!; apply itoa_back; lia || auto.
Qed.
End Numbers.

#[local] Instance no_platform : Platform := {| cvt_ll := fun _ => 0; str_error := fun _ => []; sa_ntop := fun _ => None |}.

Definition ex_fmt : list Z := chars "%-6d|%05d|%x|%8.3f|%s!".
Definition ex_args : list parg := [PInt (-7); PInt (-42); PInt 255; PDbl 4614256656552045848; PStr (Some (chars "hey"))].


(** The smallest number, and a sign in front. *)
Lemma fmt_numbers_witness :
  pl_i32 (Some (out (re_vhprintf (chars "%d") [PInt (- 2 ^ 31)]))) = - 2 ^ 31 /\ pl_i32 (Some (chars "+5")) = 5 /\ pl_u32 (Some (chars "5x")) = 0.
Proof.
  destruct (fmt_numbers (chars "+5") (- 2 ^ 31) 0) as (_ & _ & _ & _ & E1 & E2 & _). destruct (fmt_numbers (chars "5x") 0 0) as (E3 & _).
  split; [apply E2; lia|]. split; [|rewrite E3; reflexivity].
  exact (proj1 (E1 ltac:(apply (bool_decide_unpack _); by vm_compute))).
Defined.
