(* ===== verification/Regex.v ===== *)
(** * Basic regular expressions: src/src/fmt/regex.c

    re_regex interprets its expression character by character while it reads the
    string.  [attempt] is one pass of the loop from a start position, [re_regex]
    the search over the start positions; the fragments stored through the
    variable arguments are returned in order.  [compile] translates an expression
    to tokens once and for all and [exec] executes the tokens:
    [re_regex_compiled] shows that the interpreter does the same, and
    [re_regex_sound] what a match is. *)

From stdpp Require Import base list numbers strings.
From Stdlib Require Import ZArith Lia.
From S2P Require Import Prelude Mbuf Hash Dname Fmt.

Open Scope Z_scope.

(** A character class while it is read: the ranges, newest last; the lower end
    of a range that is being read; and the flags of the code. *)
Record class_st := ClassSt {
  c_chrv : list (Z * Z);
  c_range : option Z;
  c_neg : bool;
  c_qesc : bool;
  c_ec : bool;
}.

Definition CHRV_SIZE : Z := 64.

Definition class0 : class_st := ClassSt [] None false false false.

Definition expr_match (chrv : list (Z * Z)) (c : Z) (neg : bool) : bool :=
  let found := existsb (fun r => (r.1 <=? c) && (c <=? r.2)) chrv in
  if neg then negb found else found.

(** The characters a class takes, and the rest.  Within quotes and after an
    escape every character is taken. *)
Fixpoint take_class (chrv : list (Z * Z)) (neg qesc : bool) (nm nmax : Z) (quote esc : bool) (s : list Z) : list Z * list Z :=
  match s with
  | [] => ([], [])
  | c :: s' =>
      if nm <? nmax then
        let go quote esc := let '(t, r) := take_class chrv neg qesc (nm + 1) nmax quote esc s' in (c :: t, r) in
        if qesc && esc then go quote false
        else if qesc && (c =? 92) then go quote true
        else if qesc && (c =? 34) then go (negb quote) esc
        else if qesc && quote then go quote esc
        else if expr_match chrv (tolower c) neg then go quote esc
        else ([], s)
      else ([], s)
  end.

(** Quotes around the fragment are stripped. *)
Definition stripped (qesc : bool) (t : list Z) : bool :=
  qesc && (zlength t >? 1) && (znth 0 t =? 34) && (znth (zlength t - 1) t =? 34).

(** How often a class may match. *)
Definition quantifier (e : Z) : option (Z * Z) :=
  if e =? 42 then Some (0, 2 ^ 32 - 1)
  else if e =? 43 then Some (1, 2 ^ 32 - 1)
  else if (49 <=? e) && (e <=? 57) then Some (e - 48, e - 48)
  else None.

(** The fragment of a class at [s] and the rest, or no match. *)
Definition match_class (chrv : list (Z * Z)) (neg qesc : bool) (nmin nmax : Z) (s : list Z) : option (list Z * list Z) :=
  let '(t, r) := take_class chrv neg qesc 0 nmax false false s in
  let '(frag, nm) := if stripped qesc t then (ztake (zlength t - 2) (zdrop 1 t), u32 (u32 (zlength t) - 2)) else (t, u32 (zlength t)) in
  if (nm <? nmin) || (nm >? nmax) then None else Some (frag, r).

Inductive verdict :=
| Again
| Stop (err : Z) (frags : list (list Z)).

(** A character of a class. *)
Definition add_chr (k : class_st) (e : Z) : option class_st :=
  if zlength (c_chrv k) >=? CHRV_SIZE then None
  else
    let lo := match c_range k with Some lo => lo | None => tolower e end in
    Some (ClassSt (c_chrv k ++ [(lo, tolower e)]) None (c_neg k) (c_qesc k) (c_ec k)).

(** One character of an open class: the class goes on, or the expression is wrong. *)
Definition class_chr (k : class_st) (e : Z) (eesc : bool) : option class_st :=
  if eesc then add_chr k e
  else if e =? 93 then Some (ClassSt (c_chrv k) (c_range k) (c_neg k) (c_qesc k) true)
  else if (e =? 126) && (zlength (c_chrv k) =? 0) then Some (ClassSt (c_chrv k) (c_range k) true true (c_ec k))
  else if (e =? 94) && (zlength (c_chrv k) =? 0) then Some (ClassSt (c_chrv k) (c_range k) true (c_qesc k) (c_ec k))
  else if (e =? 45) && negb (zlength (c_chrv k) =? 0) && (match c_range k with None => true | Some _ => false end) then
    Some (ClassSt (removelast (c_chrv k)) (Some (List.last (c_chrv k) (0, 0)).1) (c_neg k) (c_qesc k) (c_ec k))
  else add_chr k e.

(** The loop over the expression; [fm] is the class being read, if any. *)
Fixpoint attempt (ep : list Z) (eesc : bool) (fm : option class_st) (s : list Z) (frags : list (list Z)) : verdict :=
  match ep with
  | [] => Stop (match fm with Some _ => EINVAL | None => 0 end) frags
  | e :: ep =>
      if (e =? 92) && negb eesc then attempt ep true fm s frags
      else
        match fm with
        | None =>
            if (e =? 91) && negb eesc then attempt ep eesc (Some class0) s frags
            else
              match s with
              | [] => Stop ENOENT frags
              | c :: s => if tolower e =? tolower c then attempt ep false None s frags else Again
              end
        | Some k =>
            if c_ec k then
              match quantifier e with
              | None => Stop EINVAL frags
              | Some (nmin, nmax) =>
                  match match_class (c_chrv k) (c_neg k) (c_qesc k) nmin nmax s with
                  | None => Again
                  | Some (frag, s) => attempt ep false None s (frags ++ [frag])
                  end
              end
            else
              match class_chr k e eesc with
              | None => Stop EINVAL frags
              | Some k => attempt ep false (Some k) s frags
              end
        end
  end.

(** The start positions in turn.  At the end of the string only an empty
    expression matches. *)
Fixpoint search (f : list Z -> verdict) (empty : bool) (s : list Z) : res (list (list Z)) :=
  match s with
  | [] => if empty then Ok [] else Err ENOENT
  | _ :: s' =>
      match f s with
      | Again => search f empty s'
      | Stop err frags => if err =? 0 then Ok frags else Err err
      end
  end.

Definition re_regex (s expr : list Z) : res (list (list Z)) :=
  search (fun s => attempt expr false None s []) (zlength expr =? 0) s.

(** ** Compiled expressions *)

Inductive token :=
| TChr (c : Z)
| TClass (chrv : list (Z * Z)) (neg qesc : bool) (nmin nmax : Z).

Fixpoint compile (ep : list Z) (eesc : bool) (fm : option class_st) : option (list token) :=
  match ep with
  | [] => match fm with Some _ => None | None => Some [] end
  | e :: ep =>
      if (e =? 92) && negb eesc then compile ep true fm
      else
        match fm with
        | None =>
            if (e =? 91) && negb eesc then compile ep eesc (Some class0)
            else match compile ep false None with Some l => Some (TChr (tolower e) :: l) | None => None end
        | Some k =>
            if c_ec k then
              match quantifier e with
              | None => None
              | Some (nmin, nmax) =>
                  match compile ep false None with
                  | Some l => Some (TClass (c_chrv k) (c_neg k) (c_qesc k) nmin nmax :: l)
                  | None => None
                  end
              end
            else match class_chr k e eesc with Some k => compile ep false (Some k) | None => None end
        end
  end.

Fixpoint exec (l : list token) (s : list Z) (frags : list (list Z)) : verdict :=
  match l with
  | [] => Stop 0 frags
  | TChr e :: l =>
      match s with
      | [] => Stop ENOENT frags
      | c :: s => if e =? tolower c then exec l s frags else Again
      end
  | TClass chrv neg qesc nmin nmax :: l =>
      match match_class chrv neg qesc nmin nmax s with
      | None => Again
      | Some (frag, s) => exec l s (frags ++ [frag])
      end
  end.

Lemma attempt_exec ep : forall eesc fm l s frags, compile ep eesc fm = Some l -> attempt ep eesc fm s frags = exec l s frags.
Proof.
  induction ep as [|e ep IH]; intros eesc fm l s frags; cbn [compile attempt]; [destruct fm; [done|by intros [= <-]]|].
  destruct ((e =? 92) && negb eesc); [apply IH|]. destruct fm as [k|].
  - destruct (c_ec k).
    + destruct (quantifier e) as [[nmin nmax]|]; [|done]. destruct (compile ep false None) as [l'|] eqn:El; [|done]. intros [= <-]. cbn [exec].
      destruct (match_class _ _ _ _ _ s) as [[frag r]|]; [|done]. by apply IH.
    + destruct (class_chr k e eesc); [apply IH|done].
  - destruct ((e =? 91) && negb eesc); [apply IH|]. destruct (compile ep false None) as [l'|] eqn:El; [|done]. intros [= <-]. cbn [exec].
    destruct s as [|c s]; [done|]. destruct (_ =? _); [by apply IH|done].
Qed.

Definition regex_run (l : list token) (s : list Z) : res (list (list Z)) :=
  search (fun s => exec l s []) (match l with [] => true | _ => false end) s.

Lemma search_ext f g b b' s : (forall s, f s = g s) -> b = b' -> search f b s = search g b' s.
Proof. intros E ->. induction s as [|c s IH]; cbn; [done|]. by rewrite E, IH. Qed.

Lemma regex_compiled s expr l : compile expr false None = Some l -> l <> [] -> re_regex s expr = regex_run l s.
Proof.
  intros Hc Hl. unfold re_regex, regex_run. apply search_ext; [intros s'; by apply attempt_exec|].
  destruct expr as [|e expr]; [by injection Hc as <-|]. rewrite zlength_cons. pose proof (zlength_nonneg expr). rewrite (proj2 (Z.eqb_neq _ 0)) by lia. by destruct l.
Qed.

(** ** What a match is *)

(** Characters of a class: with the quote escape, any within quotes or after a
    backslash. *)
Fixpoint class_chars (chrv : list (Z * Z)) (neg qesc quote esc : bool) (t : list Z) : bool :=
  match t with
  | [] => true
  | c :: t =>
      if qesc && esc then class_chars chrv neg qesc quote false t
      else if qesc && (c =? 92) then class_chars chrv neg qesc quote true t
      else if qesc && (c =? 34) then class_chars chrv neg qesc (negb quote) esc t
      else (qesc && quote || expr_match chrv (tolower c) neg) && class_chars chrv neg qesc quote esc t
  end.

Inductive matches : list token -> list Z -> list (list Z) -> Prop :=
| m_nil : matches [] [] []
| m_chr e c l s fs : e = tolower c -> matches l s fs -> matches (TChr e :: l) (c :: s) fs
| m_class chrv neg qesc nmin nmax t frag l s fs :
    class_chars chrv neg qesc false false t = true ->
    frag = t \/ qesc = true /\ t = [34] ++ frag ++ [34] ->
    nmin <= zlength frag <= nmax -> matches l s fs ->
    matches (TClass chrv neg qesc nmin nmax :: l) (t ++ s) (frag :: fs).

Lemma take_class_spec chrv neg qesc nmax s : forall nm quote esc t r,
  take_class chrv neg qesc nm nmax quote esc s = (t, r) ->
  s = t ++ r /\ class_chars chrv neg qesc quote esc t = true /\ zlength t <= Z.max 0 (nmax - nm).
Proof.
  induction s as [|c s IH]; intros nm quote esc t r; cbn [take_class].
  { intros [= <- <-]. split_and!; [done|done|change (zlength (@nil Z)) with 0; lia]. }
  destruct (Z.ltb_spec nm nmax) as [Hlt|Hge].
  2: { intros [= <- <-]. split_and!; [done|done|change (zlength (@nil Z)) with 0; lia]. }
  assert (Hgo : forall q e, (let '(t0, r0) := take_class chrv neg qesc (nm + 1) nmax q e s in (c :: t0, r0)) = (t, r) ->
    exists t0, t = c :: t0 /\ s = t0 ++ r /\ class_chars chrv neg qesc q e t0 = true /\ zlength t <= Z.max 0 (nmax - nm)).
  { intros q e. destruct (take_class _ _ _ _ _ q e s) as [t0 r0] eqn:E. intros [= <- <-]. destruct (IH _ _ _ _ _ E) as (-> & Hc & Hl). exists t0.
    split_and!; [done|done|done|]. rewrite zlength_cons. lia. }
  destruct (qesc && esc) eqn:E1; [|destruct (qesc && (c =? 92)) eqn:E2; [|destruct (qesc && (c =? 34)) eqn:E3; [|destruct (qesc && quote) eqn:E4; [|
    destruct (expr_match chrv (tolower c) neg) eqn:E5]]]];
    try (intros Hx; destruct (Hgo _ _ Hx) as (t0 & -> & -> & Hc & Hl); split; [done|]; split; [|done]; cbn [class_chars]; rewrite E1, ?E2, ?E3, ?E4, ?E5; done).
  intros [= <- <-]. split_and!; [done|done|change (zlength (@nil Z)) with 0; lia].
Qed.

Lemma strip_eq qesc t : stripped qesc t = true -> qesc = true /\ t = [34] ++ ztake (zlength t - 2) (zdrop 1 t) ++ [34].
Proof.
  unfold stripped. intros Hs. apply andb_prop in Hs as [Hs H4]. apply andb_prop in Hs as [Hs H3]. apply andb_prop in Hs as [Hq H2]. split; [done|].
  apply Z.eqb_eq in H3, H4. rewrite Z.gtb_ltb in H2. apply Z.ltb_lt in H2.
  destruct t as [|a t]; [by change (zlength (@nil Z)) with 0 in H2|]. rewrite zlength_cons in *. change (znth 0 (a :: t)) with a in H3. subst a. cbn [app]. f_equal.
  change (zdrop 1 (34 :: t)) with (zdrop 0 t). rewrite zdrop_0. destruct (exists_last (l := t)) as (t' & b & ->); [intros ->; change (zlength (@nil Z)) with 0 in H2; lia|].
  rewrite zlength_app in *. change (zlength [b]) with 1 in *. assert (Eb : b = 34).
  { pose proof (zlength_nonneg t'). rewrite znth_cons_S, znth_app_r in H4 by lia. by replace (1 + (zlength t' + 1) - 1 - 1 - zlength t') with 0 in H4 by lia. }
  subst b. replace (1 + (zlength t' + 1) - 2) with (zlength t') by lia. by rewrite ztake_app_exact.
Qed.

Lemma match_class_spec chrv neg qesc nmin nmax s frag r :
  0 <= nmax < 2 ^ 32 -> match_class chrv neg qesc nmin nmax s = Some (frag, r) ->
  exists t, s = t ++ r /\ class_chars chrv neg qesc false false t = true /\ (frag = t \/ qesc = true /\ t = [34] ++ frag ++ [34]) /\ nmin <= zlength frag <= nmax.
Proof.
  intros Hn. unfold match_class. destruct (take_class _ _ _ _ _ _ _ s) as [t r'] eqn:E. destruct (take_class_spec _ _ _ _ _ _ _ _ _ _ E) as (-> & Hc & Hl).
  pose proof (zlength_nonneg t). rewrite Z.sub_0_r in Hl. destruct (stripped qesc t) eqn:Es.
  - destruct (strip_eq _ _ Es) as [Hq Et]. set (f := ztake (zlength t - 2) (zdrop 1 t)) in *. assert (Lf : zlength t = zlength f + 2).
    { rewrite Et, !zlength_app. change (zlength [34]) with 1. lia. }
    pose proof (zlength_nonneg f). rewrite (wrap_small 32 (zlength t)), wrap_small by lia. replace (zlength t - 2) with (zlength f) by lia.
    destruct (Z.ltb_spec (zlength f) nmin); [done|]. rewrite Z.gtb_ltb. destruct (Z.ltb_spec nmax (zlength f)); [done|]. cbn [orb]. intros [= <- <-]. exists t. split_and!; try done; by right.
  - rewrite wrap_small by lia. destruct (Z.ltb_spec (zlength t) nmin); [done|]. rewrite Z.gtb_ltb. destruct (Z.ltb_spec nmax (zlength t)); [done|]. cbn [orb].
    intros [= <- <-]. exists t. split_and!; try done; by left.
Qed.

(** Quantifiers of expressions. *)
Definition tok_ok (t : token) : Prop := match t with TChr _ => True | TClass _ _ _ nmin nmax => 0 <= nmin <= nmax /\ nmax < 2 ^ 32 end.

Lemma compile_ok ep : forall eesc fm l, compile ep eesc fm = Some l -> Forall tok_ok l.
Proof.
  induction ep as [|e ep IH]; intros eesc fm l; cbn [compile]; [destruct fm; [done|by intros [= <-]]|].
  destruct ((e =? 92) && negb eesc); [apply IH|]. destruct fm as [k|].
  - destruct (c_ec k).
    + destruct (quantifier e) as [[nmin nmax]|] eqn:Eq; [|done]. destruct (compile ep false None) as [l'|] eqn:El; [|done]. intros [= <-].
      apply Forall_cons. split; [|by eapply IH]. revert Eq. unfold quantifier. repeat case_match; intros [= <- <-]; cbn; lia.
    + destruct (class_chr k e eesc); [apply IH|done].
  - destruct ((e =? 91) && negb eesc); [apply IH|]. destruct (compile ep false None) as [l'|] eqn:El; [|done]. intros [= <-]. apply Forall_cons. split; [done|]. by eapply IH.
Qed.

Lemma exec_spec l : Forall tok_ok l -> forall s frags e fs, exec l s frags = Stop e fs ->
  e = 0 /\ (exists mid post fs', s = mid ++ post /\ fs = frags ++ fs' /\ matches l mid fs') \/ e = ENOENT.
Proof.
  induction 1 as [|tk l Hk Hl IH]; intros s frags e fs; cbn [exec].
  { intros [= <- <-]. left. split; [done|]. exists [], s, []. rewrite app_nil_r. split_and!; try done. constructor. }
  destruct tk as [x|chrv neg qesc nmin nmax].
  - destruct s as [|c s]; [intros [= <- _]; by right|]. destruct (Z.eqb_spec x (tolower c)) as [->|]; [|done]. intros Hx.
    destruct (IH _ _ _ _ Hx) as [(-> & mid & post & fs' & -> & -> & Hm)| -> ]; [|by right]. left. split; [done|]. exists (c :: mid), post, fs'. split_and!; try done. by constructor.
  - destruct (match_class _ _ _ _ _ s) as [[frag r]|] eqn:Em; [|done]. intros Hx. destruct Hk as [Hn1 Hn2].
    destruct (match_class_spec chrv neg qesc nmin nmax s frag r ltac:(lia) Em) as (t & -> & Hc & Hfr & Hb).
    destruct (IH _ _ _ _ Hx) as [(-> & mid & post & fs' & -> & -> & Hm)| -> ]; [|by right]. left. split; [done|]. exists (t ++ mid), post, (frag :: fs').
    rewrite <- !app_assoc. split_and!; try done. by constructor.
Qed.

(** C27: re_regex interprets an expression as it would be compiled: the loop over
    its characters, with all its flags, does what the tokens of the expression
    say.  Where it succeeds, the string has a part that is the concatenation of
    the literal characters, up to case, and of the fragments returned, each of
    characters of its class and within its number of repetitions, quotes
    stripped; otherwise the result is ENOENT. *)
Theorem re_regex_correct (s expr : list Z) (l : list token) :
  compile expr false None = Some l -> l <> [] ->
  re_regex s expr = regex_run l s
  /\ match re_regex s expr with
     | Ok frags => exists pre mid post, s = pre ++ mid ++ post /\ matches l mid frags
     | Err e => e = ENOENT
     end.
Proof.
  intros Hc Hl. rewrite (regex_compiled s expr l Hc Hl). split; [done|]. pose proof (compile_ok _ _ _ _ Hc) as Hok. unfold regex_run.
  induction s as [|c s IH]; cbn [search]; [by destruct l|]. destruct (exec l (c :: s) []) as [|e fs] eqn:Ee.
  - destruct (search _ _ s) as [frags|e]; [|done]. destruct IH as (pre & mid & post & -> & Hm). by exists (c :: pre), mid, post.
  - destruct (exec_spec l Hok _ _ _ _ Ee) as [(-> & mid & post & fs' & Es & -> & Hm)| -> ]; [|done]. cbn. exists [], mid, post. by rewrite Es.
Qed.

Lemma re_regex_correct_witness :
  re_regex (chars "Via: sip.org:5060;lr") (chars "[^:]+:[ ]*[^:;]+[:]*[0-9]*") = Ok (map chars ["Via"; " "; "sip.org"; ":"; "5060"]%string)
  /\ exists pre mid post l, chars "Via: sip.org:5060;lr" = pre ++ mid ++ post /\ matches l mid (map chars ["Via"; " "; "sip.org"; ":"; "5060"]%string).
Proof.
  destruct (compile (chars "[^:]+:[ ]*[^:;]+[:]*[0-9]*") false None) as [l|] eqn:Ec; [|by vm_compute in Ec].
  pose proof (re_regex_correct (chars "Via: sip.org:5060;lr") (chars "[^:]+:[ ]*[^:;]+[:]*[0-9]*") l Ec ltac:(intros ->; by vm_compute in Ec)) as [_ Hm].
  assert (Er : re_regex (chars "Via: sip.org:5060;lr") (chars "[^:]+:[ ]*[^:;]+[:]*[0-9]*") = Ok (map chars ["Via"; " "; "sip.org"; ":"; "5060"]%string)) by (by vm_compute).
  split; [exact Er|]. rewrite Er in Hm. destruct Hm as (pre & mid & post & Hs & Hx). by exists pre, mid, post, l.
Defined.
