(* ===== verification/Uri.v ===== *)
(** * Uniform resource identifiers: src/src/uri/uri.c and uric.c

    The fields of [struct uri] are pointer-length strings.  Decoding uses the
    expressions of the source with [re_regex], encoding and escaping print
    through [vhprintf].  [char] is signed, as on x86. *)

From stdpp Require Import base list numbers strings.
From Stdlib Require Import ZArith Lia.
From S2P Require Import Prelude Endian Mbuf Hash Dname Fmt Sa Odict Print Regex.

Open Scope Z_scope.

Record uri := Uri {
  u_scheme : pl;
  u_user : pl;
  u_host : pl;
  u_af : Z;
  u_port : Z;
  u_path : pl;
  u_params : pl;
  u_headers : pl;
}.

(** inet_pton and getaddrinfo of the platform. *)
Class Resolver := {
  inet_pton4 : list Z -> option Z;
  inet_pton6 : list Z -> option (list Z);
  getaddrinfo : list Z -> option sa;
}.

(** ** Encoding *)

Section Encode.
Context `{P : Platform}.

Definition hprintf (fmt : String.string) (args : list parg) : prog := re_vhprintf (chars fmt) args.

(** [if (err) return err;] *)
Definition pcheck (p k : prog) : prog := pbind p (fun err => if negb (err =? 0) then Ret err else k).

Definition uri_encode (u : uri) : prog :=
  if negb (pl_isset (u_scheme u)) || negb (pl_isset (u_host u)) then Ret EINVAL
  else
    pcheck (hprintf "%r:" [PPl (Some (u_scheme u))])
      (pcheck (if pl_isset (u_user u) then por (hprintf "%r" [PPl (Some (u_user u))]) (Call [64] Ret) else Ret 0)
        (pcheck (if u_af u =? AF_INET6 then hprintf "[%r]" [PPl (Some (u_host u))] else hprintf "%r" [PPl (Some (u_host u))])
          (por (if u_port u =? 0 then Ret 0 else hprintf ":%u" [PInt (u_port u)])
             (hprintf "%r%r%r" [PPl (Some (u_path u)); PPl (Some (u_params u)); PPl (Some (u_headers u))])))).

(** ** Decoding *)

Definition regex (p : pl) (expr : list Z) : res (list pl) :=
  match p with
  | None => Err EINVAL
  | Some s => match re_regex s expr with Ok l => Ok (map Some l) | Err e => Err e end
  end.

Definition expr_host6 : list Z := chars "\[[0-9a-f:]+\][:]*[0-9]*".
Definition expr_host : list Z := chars "[^:]+[:]*[0-9]*".

Definition uri_decode_hostport (hostport : pl) : res (pl * pl) :=
  match regex hostport expr_host6 with
  | Ok [host; _; port] => Ok (host, port)
  | _ =>
      match regex hostport expr_host with
      | Ok [host; _; port] => Ok (host, port)
      | Ok _ => Err EINVAL
      | Err e => Err e
      end
  end.

Definition expr_user : list Z := chars "[^:]+:[^@:]*[:]*[^@]*@[^/;? ]+[^;? ]*[^?]*[^]*".
Definition expr_nouser : list Z := chars "[^:]+:[^/;? ]+[^;? ]*[^?]*[^]*".

(** *** Numeric addresses: sa_pton, sa_set_str and sa_set of src/src/sa/sa.c *)

Context `{R : Resolver}.

Definition EADDRNOTAVAIL : Z := 99.
Definition is_v4mapped (a : list Z) : bool := bool_decide (ztake 12 a = replicate 10 0 ++ [255; 255]).

Definition sa_pton (addr : list Z) : res sa :=
  match inet_pton4 addr with
  | Some a => Ok (SaIn a 0)
  | None =>
      if starts_with (chars "unix:") addr then Ok (SaUn (ztake 107 (zdrop 5 addr)))
      else if starts_with (chars "fe80:") addr && existsb (Z.eqb 37) addr then
        match getaddrinfo addr with Some s => Ok s | None => Err EADDRNOTAVAIL end
      else
        match inet_pton6 addr with
        | Some a => if is_v4mapped a then Ok (SaIn (be_val (zdrop 12 a)) 0) else Ok (SaIn6 a 0 0)
        | None => Err EINVAL
        end
  end.

Definition sa_set_str (addr : list Z) (port : Z) : res sa :=
  match sa_pton addr with
  | Err e => Err e
  | Ok (SaOther _) => Err EAFNOSUPPORT
  | Ok s => Ok (sa_set_port s port)
  end.

Definition sa_set (addr : pl) (port : Z) : res sa :=
  match pl_strcpy addr 64 with Ok s => sa_set_str (until_nul s) port | Err e => Err e end.

(** The cached family of the host. *)
Definition host_af (host : pl) : Z := match sa_set host 0 with Ok s => sa_af s | Err _ => AF_UNSPEC end.

Definition uri_finish (scheme user host port path params headers : pl) : uri :=
  Uri scheme user host (host_af host) (if pl_isset port then u16 (pl_u32 port) else 0) path params headers.

Definition uri_decode (p : pl) : res uri :=
  let second :=
    match regex p expr_nouser with
    | Ok [scheme; hostport; path; params; headers] =>
        match uri_decode_hostport hostport with
        | Ok (host, port) => Ok (uri_finish scheme None host port path params headers)
        | Err e => Err e
        end
    | Ok _ => Err EINVAL
    | Err e => Err e
    end in
  match regex p expr_user with
  | Ok [scheme; user; _; _; hostport; path; params; headers] =>
      match uri_decode_hostport hostport with
      | Ok (host, port) => Ok (uri_finish scheme user host port path params headers)
      | Err _ => second
      end
  | _ => second
  end.

(** ** Parameters and headers *)

(** The expression is printed to 128 bytes. *)
Definition snprint (size : Z) (p : prog) : option (list Z) := match print_buf size p with Some (_, s) => Some s | None => None end.

(** [None]: the name brings classes of its own, for which there are no
    arguments.  The value stays [pvalue] when the expression has lost them. *)
Definition got_value (pvalue : pl) (r : res (list pl)) : option (res pl) :=
  match r with
  | Err e => Some (Err e)
  | Ok [_; v] => Some (Ok v)
  | Ok (_ :: _ :: _) => None
  | Ok _ => Some (Ok pvalue)
  end.

Definition uri_param_get (p : pl) (pname pvalue : pl) : option (res pl) :=
  match snprint 128 (hprintf ";%r[=]*[^;]*" [PPl (Some pname)]) with
  | None => None
  | Some expr => got_value pvalue (regex p expr)
  end.

Definition uri_header_get (p : pl) (hname hvalue : pl) : option (res pl) :=
  match snprint 128 (hprintf "[?&]1%r=[^&]+" [PPl (Some hname)]) with
  | None => None
  | Some expr => got_value hvalue (regex p expr)
  end.

(** The handler of the application returns an error code. *)
Fixpoint uri_params_loop {S} (ah : pl -> pl -> S -> Z * S) (fuel : nat) (plr : pl) (st : S) : option (Z * S) :=
  if pl_l plr =? 0 then Some (0, st)
  else
    match fuel with
    | O => None
    | Datatypes.S fuel =>
        match regex plr (chars ";[^;=]+[=]*[^;]*") with
        | Err e => Some (e, st)
        | Ok [pname; eq; pvalue] =>
            let plr := pl_advance plr (1 + pl_l pname + pl_l eq + pl_l pvalue) in
            let '(err, st) := ah pname pvalue st in
            if negb (err =? 0) then Some (err, st) else uri_params_loop ah fuel plr st
        | Ok _ => None
        end
    end.
Definition uri_params_apply {S} (ah : pl -> pl -> S -> Z * S) (p : pl) (st : S) : option (Z * S) :=
  uri_params_loop ah (Z.to_nat (pl_l p)) p st.

Fixpoint uri_headers_loop {S} (ah : pl -> pl -> S -> Z * S) (fuel : nat) (plr : pl) (st : S) : option (Z * S) :=
  if pl_l plr =? 0 then Some (0, st)
  else
    match fuel with
    | O => None
    | Datatypes.S fuel =>
        match regex plr (chars "[?&]1[^=]+=[^&]+") with
        | Err e => Some (e, st)
        | Ok [sep; hname; hvalue] =>
            let plr := pl_advance plr (pl_l sep + pl_l hname + 1 + pl_l hvalue) in
            let '(err, st) := ah hname hvalue st in
            if negb (err =? 0) then Some (err, st) else uri_headers_loop ah fuel plr st
        | Ok _ => None
        end
    end.
Definition uri_headers_apply {S} (ah : pl -> pl -> S -> Z * S) (p : pl) (st : S) : option (Z * S) :=
  uri_headers_loop ah (Z.to_nat (pl_l p)) p st.

(** ** Escaping: uric.c *)

Definition among (s : String.string) (c : Z) : bool := existsb (Z.eqb c) (chars s).

Definition isalnum (c : Z) : bool := is_digit c || ((65 <=? c) && (c <=? 90)) || ((97 <=? c) && (c <=? 122)).
Definition is_mark (c : Z) : bool := among "-_.!~*'()" c.
Definition is_unreserved (c : Z) : bool := isalnum c || is_mark c.
Definition is_user_unreserved (c : Z) : bool := among "&=+$,;?/" c.
Definition is_hnv_unreserved (c : Z) : bool := among "[]/?:+$" c.
Definition is_user (c : Z) : bool := is_unreserved c || is_user_unreserved c.
Definition is_param_unreserved (c : Z) : bool := among "[]/:&+$" c.
Definition is_paramchar (c : Z) : bool := is_param_unreserved c || is_unreserved c.
Definition is_hvalue (c : Z) : bool := is_hnv_unreserved c || is_unreserved c.

(** The escape of a character is printed from a signed [char]. *)
Fixpoint escape_loop (eh : Z -> bool) (s : list Z) : prog :=
  match s with
  | [] => Ret 0
  | c :: s => pcheck (if eh c then Call [c] Ret else hprintf "%%%02X" [PInt (swrap 8 c)]) (escape_loop eh s)
  end.
Definition comp_escape (p : pl) (eh : Z -> bool) : prog := escape_loop eh (pl_str p).

Fixpoint unescape_loop (eh : Z -> bool) (s : list Z) : prog :=
  match s with
  | [] => Ret 0
  | c :: s =>
      if eh c then pcheck (Call [c] Ret) (unescape_loop eh s)
      else if c =? 37 then
        match s with
        | h :: l :: s => pcheck (Call [u8 (Z.lor (Z.shiftl (ch_hex h) 4) (ch_hex l))] Ret) (unescape_loop eh s)
        | _ => Ret EBADMSG
        end
      else Ret EINVAL
  end.
Definition comp_unescape (p : pl) (eh : Z -> bool) : prog := unescape_loop eh (pl_str p).

Definition uri_user_escape (p : pl) : prog := comp_escape p is_user.
Definition uri_user_unescape (p : pl) : prog := comp_unescape p is_user.
Definition uri_param_escape (p : pl) : prog := comp_escape p is_paramchar.
Definition uri_param_unescape (p : pl) : prog := comp_unescape p is_paramchar.
Definition uri_header_escape (p : pl) : prog := comp_escape p is_hvalue.
Definition uri_header_unescape (p : pl) : prog := comp_unescape p is_hvalue.
End Encode.
