(* ===== verification/UriSpec.v ===== *)
(** * URIs: what is encoded is decoded

    The expressions are compiled ([Regex.compile]) and executed on the parts of
    an encoded URI, each of which ends where the next class does not match. *)

From stdpp Require Import base list numbers strings.
From Stdlib Require Import ZArith Lia.
From S2P Require Import Prelude Endian Mbuf Hash Dname Fmt Sa Odict Print Regex Uri.

Open Scope Z_scope.

(** ** Classes that take what they should *)

Definition cls (chrv : list (Z * Z)) (neg : bool) (c : Z) : bool := expr_match chrv (tolower c) neg.

(** [r] does not start with a character of the class. *)
Definition ends (chrv : list (Z * Z)) (neg : bool) (r : list Z) : Prop := match r with [] => True | c :: _ => cls chrv neg c = false end.

Lemma take_exact chrv neg nmax t : forall nm r, forallb (cls chrv neg) t = true -> ends chrv neg r -> nm + zlength t <= nmax ->
  take_class chrv neg false nm nmax false false (t ++ r) = (t, r).
Proof.
  induction t as [|c t IH]; intros nm r Ht Hr Hn; cbn [app].
  - destruct r as [|c r]; [done|]. cbn [take_class andb]. unfold ends, cls in Hr. rewrite Hr. by destruct (nm <? nmax).
  - cbn [forallb] in Ht. apply andb_prop in Ht as [Hc Ht]. rewrite zlength_cons in Hn. pose proof (zlength_nonneg t). cbn [take_class andb].
    rewrite (proj2 (Z.ltb_lt _ _)) by lia. unfold cls in Hc. rewrite Hc, IH by (done || lia). done.
Qed.

Lemma class_exact chrv neg nmin nmax t r :
  forallb (cls chrv neg) t = true -> ends chrv neg r -> nmin <= zlength t <= nmax -> nmax < 2 ^ 32 ->
  match_class chrv neg false nmin nmax (t ++ r) = Some (t, r).
Proof.
  intros Ht Hr Hn Hm. unfold match_class. rewrite take_exact by (done || lia). cbn [stripped andb]. pose proof (zlength_nonneg t). rewrite wrap_small by lia.
  rewrite (proj2 (Z.ltb_ge _ _)), Z.gtb_ltb, (proj2 (Z.ltb_ge _ _)) by lia. done.
Qed.

Lemma exec_class chrv neg nmin nmax l t r frags :
  forallb (cls chrv neg) t = true -> ends chrv neg r -> nmin <= zlength t <= nmax -> nmax < 2 ^ 32 ->
  exec (TClass chrv neg false nmin nmax :: l) (t ++ r) frags = exec l r (frags ++ [t]).
Proof. intros. cbn [exec]. by rewrite class_exact. Qed.

Lemma exec_chr e l c r frags : e = tolower c -> exec (TChr e :: l) (c :: r) frags = exec l r frags.
Proof. intros ->. cbn. by rewrite Z.eqb_refl. Qed.

(** Any string has a longest beginning in a class. *)
Lemma split_class chrv neg s : exists t r, s = t ++ r /\ forallb (cls chrv neg) t = true /\ ends chrv neg r.
Proof.
  induction s as [|c s (t & r & -> & Ht & Hr)]; [by exists [], []|]. destruct (cls chrv neg c) eqn:Ec.
  - exists (c :: t), r. cbn. by rewrite Ec, Ht.
  - exists [], (c :: t ++ r). by split.
Qed.

(** Search. *)
Lemma search_first l s fs : exec l s [] = Stop 0 fs -> s <> [] -> regex_run l s = Ok fs.
Proof. intros E Hs. unfold regex_run. destruct s as [|c s]; [done|]. cbn [search]. by rewrite E. Qed.

Lemma search_enoent l s : exec l s [] = Stop ENOENT [] \/ (exists fs, exec l s [] = Stop ENOENT fs) -> s <> [] -> regex_run l s = Err ENOENT.
Proof. intros [E|[fs E]] Hs; unfold regex_run; destruct s as [|c s]; try done; cbn [search]; by rewrite E. Qed.

Lemma search_absent e l s : forallb (fun c => negb (e =? tolower c)) s = true -> regex_run (TChr e :: l) s = Err ENOENT.
Proof.
  unfold regex_run. induction s as [|c s IH]; [done|]. cbn [forallb search exec]. intros Hx. apply andb_prop in Hx as [Hc Hs].
  rewrite (negb_true_iff _) in Hc. rewrite Hc. by apply IH.
Qed.

(** ** Characters and classes *)

Definition plain (x : Z) : bool := negb ((65 <=? x) && (x <=? 90)) && negb ((97 <=? x) && (x <=? 122)).

Lemma tolower_plain c x : plain x = true -> (tolower c =? x) = (c =? x).
Proof.
  unfold plain, tolower. intros Hx. destruct ((65 <=? c) && (c <=? 90)) eqn:E; [|done]. apply Bool.eq_iff_eq_true. rewrite !Z.eqb_eq. lia.
Qed.

Definition free_of (s : String.string) (t : list Z) : bool := forallb (fun c => negb (among s c)) t.

(** The rest is empty or starts with one of the characters. *)
Definition stops (s : String.string) (r : list Z) : bool := match r with [] => true | c :: _ => among s c end.

Definition same (x : Z) : Z * Z := (x, x).
Definition any : Z := 2 ^ 32 - 1.

(** A class [^...]. *)
Definition c_not (s : String.string) (nmin : Z) : token := TClass (map same (chars s)) true false nmin any.

Lemma cls_none cs c : forallb plain cs = true -> cls (map same cs) true c = negb (existsb (Z.eqb c) cs).
Proof.
  unfold cls, expr_match. intros Hp. f_equal. induction cs as [|x cs IH]; [done|].
  cbn [forallb map existsb] in *. apply andb_prop in Hp as [Hx Hcs]. rewrite IH by done. f_equal. cbn [same fst snd].
  rewrite <- (tolower_plain c x Hx). apply Bool.eq_iff_eq_true. lia.
Qed.

Lemma exec_none cs nmin l t r frags : forallb plain cs = true -> forallb (fun c => negb (existsb (Z.eqb c) cs)) t = true ->
  (match r with [] => true | c :: _ => existsb (Z.eqb c) cs end) = true -> nmin <= zlength t < 2 ^ 32 ->
  exec (TClass (map same cs) true false nmin any :: l) (t ++ r) frags = exec l r (frags ++ [t]).
Proof.
  intros Hp Ht Hr Hn. apply exec_class; [| |unfold any; lia|done].
  - rewrite forallb_forall in Ht |- *. intros c Hc. rewrite cls_none by done. by apply Ht.
  - destruct r as [|c r]; [done|]. unfold ends. rewrite cls_none by done. by rewrite Hr.
Qed.

Lemma exec_not s nmin l t r frags : forallb plain (chars s) = true -> free_of s t = true -> stops s r = true -> nmin <= zlength t < 2 ^ 32 ->
  exec (c_not s nmin :: l) (t ++ r) frags = exec l r (frags ++ [t]).
Proof. apply exec_none. Qed.

(** ** The expressions of uri.c *)

Definition c_colon := TClass [(58, 58)] false false 0 any.
Definition c_digits := TClass [(48, 57)] false false 0 any.
Definition t_tail := [c_not "/;? " 1; c_not ";? " 0; c_not "?" 0; c_not "" 0].
Definition t_user := c_not ":" 1 :: TChr 58 :: c_not "@:" 0 :: c_colon :: c_not "@" 0 :: TChr 64 :: t_tail.
Definition t_nouser := c_not ":" 1 :: TChr 58 :: t_tail.
Definition t_host6 := [TChr 91; TClass [(48, 57); (97, 102); (58, 58)] false false 1 any; TChr 93; c_colon; c_digits].
Definition t_host := [c_not ":" 1; c_colon; c_digits].

Lemma expr_user_tokens s : re_regex s expr_user = regex_run t_user s.
Proof. apply regex_compiled; [by vm_compute|done]. Qed.
Lemma expr_nouser_tokens s : re_regex s expr_nouser = regex_run t_nouser s.
Proof. apply regex_compiled; [by vm_compute|done]. Qed.
Lemma expr_host6_tokens s : re_regex s expr_host6 = regex_run t_host6 s.
Proof. apply regex_compiled; [by vm_compute|done]. Qed.
Lemma expr_host_tokens s : re_regex s expr_host = regex_run t_host s.
Proof. apply regex_compiled; [by vm_compute|done]. Qed.

(** ** Well-formed URIs *)

(** A part that is empty or starts with [c]. *)
Definition starts (c : Z) (t : list Z) : bool := match t with [] => true | x :: _ => x =? c end.

Definition hex_or_colon (c : Z) : bool := cls [(48, 57); (97, 102); (58, 58)] false c.

Record uri_ok (u : uri) : Prop := {
  ok_scheme : exists s, u_scheme u = Some s /\ 0 < zlength s /\ free_of ":" s = true;
  ok_user : free_of "@:" (pl_str (u_user u)) = true;
  ok_host : exists h, u_host u = Some h /\ 0 < zlength h
    /\ (if u_af u =? AF_INET6 then forallb hex_or_colon h else free_of ":/;? [" h) = true;
  ok_port : 0 <= u_port u < 2 ^ 16;
  ok_path : free_of ";? " (pl_str (u_path u)) = true /\ starts 47 (pl_str (u_path u)) = true;
  ok_params : free_of "?" (pl_str (u_params u)) = true /\ starts 59 (pl_str (u_params u)) = true;
  ok_headers : starts 63 (pl_str (u_headers u)) = true;
  ok_at : pl_isset (u_user u) = false ->
    free_of "@" (pl_str (u_host u) ++ pl_str (u_path u) ++ pl_str (u_params u) ++ pl_str (u_headers u)) = true;
}.

(** ** The text of a URI *)

Definition host_text (u : uri) : list Z := if u_af u =? AF_INET6 then [91] ++ pl_str (u_host u) ++ [93] else pl_str (u_host u).
Definition port_text (u : uri) : list Z := if u_port u =? 0 then [] else [58] ++ dec_str (u_port u).
Definition user_text (u : uri) : list Z := if pl_isset (u_user u) then pl_str (u_user u) ++ [64] else [].
Definition uri_text (u : uri) : list Z :=
  pl_str (u_scheme u) ++ [58] ++ user_text u ++ (host_text u ++ port_text u) ++ pl_str (u_path u) ++ pl_str (u_params u) ++ pl_str (u_headers u).

Section Text.
Context `{P : Platform}.

(** A program that prints [s]. *)
Definition prints (p : prog) (s : list Z) : Prop := out p = s /\ code p = Some 0.

Lemma prints_calls l : prints (calls l) (concat l).
Proof. split; apply calls_honest. Qed.
Lemma prints_call c : prints (Call c Ret) c.
Proof. split; [cbn; by rewrite app_nil_r|done]. Qed.
Lemma prints_check p k s s' : prints p s -> prints k s' -> prints (pcheck p k) (s ++ s').
Proof. intros [Ho Hc] [Ho' Hc']. unfold pcheck. split; [rewrite out_bind|rewrite code_bind]; rewrite Hc; cbn; by rewrite ?Ho, ?Ho', ?Hc'. Qed.
Lemma prints_bind p k s s' : prints p s -> prints (k 0) s' -> prints (pbind p k) (s ++ s').
Proof. intros [Ho Hc] [Ho' Hc']. split; [rewrite out_bind|rewrite code_bind]; rewrite Hc; by rewrite ?Ho, ?Ho', ?Hc'. Qed.
Lemma prints_or p k s s' : prints p s -> prints k s' -> prints (por p k) (s ++ s').
Proof.
  intros Hp Hk. unfold por. apply prints_bind; [done|]. rewrite <- (app_nil_r s'). apply prints_bind; [done|]. by split.
Qed.

Lemma prints_text p : prints (calls (write_padded p 0 32 false [])) p.
Proof.
  destruct (prints_calls (write_padded p 0 32 false [])) as [Ho Hc]. split; [|done]. rewrite Ho. unfold write_padded, padding.
  change (zlength (@nil Z)) with 0. pose proof (zlength_nonneg p). replace (Z.to_nat (0 - Z.min 0 0 - zlength p)) with 0%nat by lia. cbn.
  destruct (Z.eqb_spec (zlength p) 0) as [Hz|]; cbn; [|by rewrite app_nil_r]. destruct p; [done|]. rewrite zlength_cons in Hz. pose proof (zlength_nonneg p). lia.
Qed.

Lemma prints_r p : prints (hprintf "%r" [PPl (Some p)]) (pl_str p).
Proof.
  rewrite <- (app_nil_r (pl_str p)). change (hprintf "%r" [PPl (Some p)]) with (pcheck (calls (write_padded (pl_str p) 0 32 false [])) (Ret 0)).
  apply prints_check; [apply prints_text|done].
Qed.

Lemma prints_r_colon p : prints (hprintf "%r:" [PPl (Some p)]) (pl_str p ++ [58]).
Proof.
  change (hprintf "%r:" [PPl (Some p)]) with (pcheck (calls (write_padded (pl_str p) 0 32 false [])) (Call [58] Ret)).
  apply prints_check; [apply prints_text|apply prints_call].
Qed.

Lemma prints_brackets p : prints (hprintf "[%r]" [PPl (Some p)]) ([91] ++ pl_str p ++ [93]).
Proof.
  change (hprintf "[%r]" [PPl (Some p)]) with (pcheck (Call [91] Ret) (pcheck (calls (write_padded (pl_str p) 0 32 false [])) (Call [93] Ret))).
  repeat apply prints_check; auto using prints_text, prints_call.
Qed.

Lemma prints_port n : is_u32 n -> prints (hprintf ":%u" [PInt n]) ([58] ++ dec_str n).
Proof.
  intros Hn. change (hprintf ":%u" [PInt n]) with (pcheck (Call [58] Ret) (pcheck (calls (write_padded (local_itoa (u32 n) 10 false) 0 32 false [])) (Ret 0))).
  rewrite (wrap_small 32) by apply Hn. apply prints_check; [apply prints_call|]. rewrite <- (app_nil_r (dec_str n)). apply prints_check; [apply prints_text|done].
Qed.

Lemma prints_tail a b c : prints (hprintf "%r%r%r" [PPl (Some a); PPl (Some b); PPl (Some c)]) (pl_str a ++ pl_str b ++ pl_str c).
Proof.
  change (hprintf "%r%r%r" [PPl (Some a); PPl (Some b); PPl (Some c)]) with
    (pcheck (calls (write_padded (pl_str a) 0 32 false [])) (pcheck (calls (write_padded (pl_str b) 0 32 false [])) (pcheck (calls (write_padded (pl_str c) 0 32 false [])) (Ret 0)))).
  do 2 (apply prints_check; [apply prints_text|]). rewrite <- (app_nil_r (pl_str c)) at 2. apply prints_check; [apply prints_text|done].
Qed.

Lemma isset_str p : pl_isset p = true <-> 0 < zlength (pl_str p).
Proof. destruct p as [s|]; cbn; [|done]. rewrite negb_true_iff, Z.eqb_neq. pose proof (zlength_nonneg s). lia. Qed.

Lemma encode_prints u : uri_ok u -> prints (uri_encode u) (uri_text u).
Proof.
  intros K. destruct (ok_scheme u K) as (s & Es & Hs & _). destruct (ok_host u K) as (h & Eh & Hh & _).
  assert (Hps : pl_isset (u_scheme u) = true) by (apply isset_str; by rewrite Es). assert (Hph : pl_isset (u_host u) = true) by (apply isset_str; by rewrite Eh).
  unfold uri_encode, uri_text, user_text, host_text, port_text. rewrite Hps, Hph. cbn [negb orb]. rewrite app_assoc. apply prints_check; [apply prints_r_colon|].
  apply prints_check; [destruct (pl_isset (u_user u)); [apply prints_or; [apply prints_r|apply prints_call]|done]|].
  rewrite <- app_assoc. apply prints_check; [destruct (_ =? AF_INET6); [apply prints_brackets|apply prints_r]|].
  apply prints_or; [|apply prints_tail]. destruct (u_port u =? 0); [done|]. apply prints_port. pose proof (ok_port u K). unfold is_u32. lia.
Qed.
End Text.


(** ** Decoding the text *)

Lemma free_app s a b : free_of s (a ++ b) = free_of s a && free_of s b.
Proof. apply forallb_app. Qed.

(** Characters that are all in [f] are free of the characters that are not. *)
Lemma free_if s (f : Z -> bool) t : forallb (fun c => negb (f c)) (chars s) = true -> forallb f t = true -> free_of s t = true.
Proof.
  intros Hs Ht. unfold free_of. rewrite forallb_forall in Ht, Hs |- *. intros c Hc. apply negb_true_iff. unfold among.
  destruct (existsb (Z.eqb c) (chars s)) eqn:E; [|done]. apply existsb_exists in E as (x & Hx & Ex). apply Z.eqb_eq in Ex as <-.
  specialize (Hs c Hx). by rewrite (Ht c Hc) in Hs.
Qed.

Lemma free_sub s s' t : forallb (among s) (chars s') = true -> free_of s t = true -> free_of s' t = true.
Proof.
  intros Hs Ht. apply (free_if s' (fun c => negb (among s c))); [|done]. rewrite forallb_forall in Hs |- *. intros c Hc. by rewrite (Hs c Hc).
Qed.

Lemma stops_app s c a b : among s c = true -> starts c a = true -> stops s b = true -> stops s (a ++ b) = true.
Proof. intros Hc Ha Hb. destruct a as [|x a]; [done|]. cbn in Ha |- *. by apply Z.eqb_eq in Ha as ->. Qed.

(** The digits of a port. *)
Lemma port_digits n : 0 < n < 2 ^ 16 -> forallb is_digit (dec_str n) = true /\ 0 < zlength (dec_str n) <= 64 /\ pl_u32 (Some (dec_str n)) = n.
Proof.
  intros Hn. destruct (dec_str_spec n ltac:(lia)) as (_ & Hd & Hv). split_and!; [done| |apply itoa_chars|apply itoa_back; [by left|lia|lia]].
  destruct (dec_str n) as [|c t]; [by cbn in Hv; lia|]. rewrite zlength_cons. pose proof (zlength_nonneg t). lia.
Qed.

Definition colon_text (u : uri) : list Z := if u_port u =? 0 then [] else [58].
Definition digits_text (u : uri) : list Z := if u_port u =? 0 then [] else dec_str (u_port u).

(** The end of both expressions for a host and a port. *)
Lemma exec_port u frags : 0 <= u_port u < 2 ^ 16 -> exec [c_colon; c_digits] (port_text u) frags = Stop 0 (frags ++ [colon_text u] ++ [digits_text u]).
Proof.
  intros Hp. unfold port_text, colon_text, digits_text. destruct (Z.eqb_spec (u_port u) 0) as [|Hz].
  { change (Stop 0 ((frags ++ [[]]) ++ [[]]) = Stop 0 (frags ++ [[]] ++ [[]])). by rewrite <- app_assoc. }
  destruct (port_digits (u_port u) ltac:(lia)) as (Hd & Hl & _).
  assert (Hx : forall c, is_digit c = true -> cls [(48, 57)] false c = true /\ cls [(58, 58)] false c = false).
  { intros c Hc. unfold is_digit in Hc. unfold cls, expr_match, tolower. cbn [existsb fst snd]. destruct (_ && (c <=? 90)) eqn:E; lia. }
  unfold c_colon. rewrite exec_class; [|by vm_compute| |by vm_compute|by vm_compute].
  - rewrite <- (app_nil_r (dec_str (u_port u))) at 1. unfold c_digits. rewrite exec_class; [cbn [exec]; by rewrite <- app_assoc| |done|unfold any; lia|done].
    rewrite forallb_forall in Hd |- *. intros c Hc. by apply Hx, Hd.
  - destruct (dec_str (u_port u)) as [|c t]; [done|]. cbn [forallb] in Hd. apply andb_prop in Hd as [Hd _]. by apply Hx.
Qed.

Lemma port_free s u : forallb (fun c => negb (is_digit c || (c =? 58))) (chars s) = true -> 0 <= u_port u < 2 ^ 16 -> free_of s (port_text u) = true.
Proof.
  intros Hs Hp. apply (free_if s (fun c => is_digit c || (c =? 58)) (port_text u) Hs). unfold port_text. destruct (Z.eqb_spec (u_port u) 0); [done|].
  destruct (port_digits (u_port u) ltac:(lia)) as (Hd & _). change (forallb (fun c => is_digit c || (c =? 58)) (dec_str (u_port u)) = true). rewrite forallb_forall in Hd |- *. intros c Hc. by rewrite (Hd c Hc).
Qed.

Lemma hostport_back u : uri_ok u -> zlength (pl_str (u_host u)) < 2 ^ 32 ->
  uri_decode_hostport (Some (host_text u ++ port_text u)) = Ok (u_host u, Some (digits_text u)).
Proof.
  intros K Hl. destruct (ok_host u K) as (h & Eh & Hh & Hc). pose proof (ok_port u K) as Hp. unfold uri_decode_hostport, regex, host_text. rewrite Eh in *. cbn [pl_str] in *.
  rewrite expr_host6_tokens, expr_host_tokens. destruct (u_af u =? AF_INET6).
  - rewrite (search_first t_host6 _ [h; colon_text u; digits_text u]); [done| |done]. unfold t_host6. cbn [app]. rewrite exec_chr by done. rewrite <- app_assoc.
    rewrite exec_class; [|done|done|unfold any; lia|done]. cbn [app]. rewrite exec_chr by done. by rewrite exec_port.
  - assert (Hne : h ++ port_text u <> []) by (destruct h; [by change (zlength (@nil Z)) with 0 in Hh|done]).
    unfold t_host6. rewrite search_absent.
    + rewrite (search_first t_host _ [h; colon_text u; digits_text u]); [done| |done]. unfold t_host.
      rewrite exec_not; [by rewrite exec_port|done|by apply (free_sub ":/;? [")| |lia]. unfold port_text. by destruct (u_port u =? 0).
    + assert (Hb : free_of "[" (h ++ port_text u) = true) by (rewrite free_app, (free_sub ":/;? [" "[" h) by done; by apply port_free).
      unfold free_of in Hb. rewrite forallb_forall in Hb |- *. intros c Hin. specialize (Hb c Hin). rewrite Z.eqb_sym, tolower_plain by done. cbn in Hb. by rewrite orb_false_r in Hb.
Qed.

(** The host and everything after it. *)
Definition rest_text (u : uri) : list Z := pl_str (u_path u) ++ pl_str (u_params u) ++ pl_str (u_headers u).
Definition hp_text (u : uri) : list Z := host_text u ++ port_text u.

Lemma hp_free s u : uri_ok u -> forallb (fun c => negb (is_digit c || (c =? 58) || (c =? 91) || (c =? 93) || hex_or_colon c)) (chars s) = true ->
  ((u_af u =? AF_INET6) = false -> free_of s (pl_str (u_host u)) = true) -> free_of s (hp_text u) = true.
Proof.
  intros K Hs Hh. unfold hp_text. rewrite free_app. rewrite port_free; [|rewrite forallb_forall in Hs |- *; intros c Hc; specialize (Hs c Hc); by destruct (is_digit c || _)|apply K].
  rewrite andb_true_r. unfold host_text. destruct (ok_host u K) as (h & Eh & _ & Hc). rewrite Eh in *. cbn [pl_str] in *. destruct (u_af u =? AF_INET6); [|by apply Hh].
  apply (free_if s (fun c => (c =? 91) || (c =? 93) || hex_or_colon c)).
  - rewrite forallb_forall in Hs |- *. intros c Hin. specialize (Hs c Hin). by destruct (is_digit c), (c =? 58).
  - rewrite !forallb_app. apply andb_true_intro. split; [done|]. apply andb_true_intro. split; [|done]. rewrite forallb_forall in Hc |- *. intros c Hin. by rewrite (Hc c Hin), orb_true_r.
Qed.

Lemma exec_tail u frags : uri_ok u -> zlength (hp_text u ++ rest_text u) < 2 ^ 32 ->
  exec t_tail (hp_text u ++ rest_text u) frags = Stop 0 (frags ++ [hp_text u; pl_str (u_path u); pl_str (u_params u); pl_str (u_headers u)]).
Proof.
  intros K Hl. unfold rest_text in *. rewrite !zlength_app in Hl.
  pose proof (zlength_nonneg (hp_text u)). pose proof (zlength_nonneg (pl_str (u_path u))). pose proof (zlength_nonneg (pl_str (u_params u))). pose proof (zlength_nonneg (pl_str (u_headers u))).
  destruct (ok_path u K) as [Hp1 Hp2], (ok_params u K) as [Hq1 Hq2]. pose proof (ok_headers u K) as Hh. unfold t_tail.
  assert (Hsh : stops "?" (pl_str (u_headers u)) = true) by (rewrite <- (app_nil_r (pl_str _)); by apply (stops_app _ 63)).
  rewrite exec_not; [|done|apply hp_free; [done|by vm_compute|]| |].
  - rewrite exec_not; [|done|done| |lia].
    + rewrite exec_not by (done || lia). rewrite <- (app_nil_r (pl_str (u_headers u))) at 1. rewrite exec_not; [cbn [exec]; by rewrite <- !app_assoc|done| |done|lia].
      apply (free_if "" (fun _ => true)); [done|]. by apply forallb_forall.
    + apply (stops_app _ 59); [done|done|]. rewrite <- (app_nil_r (pl_str _)). by apply (stops_app _ 63).
  - intros Ha. destruct (ok_host u K) as (h & Eh & _ & Hc). rewrite Ha in Hc. rewrite Eh. by apply (free_sub ":/;? [").
  - apply (stops_app _ 47); [done|done|]. apply (stops_app _ 59); [done|done|]. rewrite <- (app_nil_r (pl_str _)). by apply (stops_app _ 63).
  - split; [|lia]. unfold hp_text. rewrite zlength_app. pose proof (zlength_nonneg (port_text u)). destruct (ok_host u K) as (h & Eh & Hn & _). unfold host_text. rewrite Eh. cbn [pl_str].
    destruct (_ =? AF_INET6); rewrite ?zlength_app; change (zlength [91]) with 1; change (zlength [93]) with 1; lia.
Qed.

Lemma text_parts u : uri_text u = pl_str (u_scheme u) ++ [58] ++ user_text u ++ hp_text u ++ rest_text u.
Proof. reflexivity. Qed.

Lemma scheme_split u : uri_ok u -> exists s, u_scheme u = Some s /\ s <> [] /\ 1 <= zlength s /\ free_of ":" s = true.
Proof. intros K. destruct (ok_scheme u K) as (s & Es & Hs & Hf). exists s. split_and!; try done; [|lia]. by intros ->. Qed.

(** The start of both expressions. *)
Lemma exec_scheme l s r frags : free_of ":" s = true -> 1 <= zlength s < 2 ^ 32 ->
  exec (c_not ":" 1 :: TChr 58 :: l) (s ++ [58] ++ r) frags = exec l r (frags ++ [s]).
Proof. intros Hf Hl. rewrite exec_not by done. cbn [app]. by rewrite exec_chr. Qed.

Lemma regex_user u : uri_ok u -> zlength (uri_text u) < 2 ^ 32 -> pl_isset (u_user u) = true ->
  re_regex (uri_text u) expr_user = Ok [pl_str (u_scheme u); pl_str (u_user u); []; []; hp_text u; pl_str (u_path u); pl_str (u_params u); pl_str (u_headers u)].
Proof.
  intros K Hl Hu. rewrite expr_user_tokens. destruct (scheme_split u K) as (s & Es & Hs & Hsl & Hf). rewrite text_parts in *. unfold user_text in *. rewrite Hu in *. rewrite Es in *. cbn [pl_str] in *.
  pose proof (zlength_nonneg s). pose proof (zlength_nonneg (pl_str (u_user u))). pose proof (zlength_nonneg (hp_text u ++ rest_text u)). pose proof (zlength_nonneg [64]).
  pose proof (zlength_nonneg [58]). rewrite zlength_app, (zlength_app [58]), zlength_app, zlength_app in Hl. apply search_first; [|by destruct s]. unfold t_user.
  rewrite exec_scheme by (done || lia). rewrite <- app_assoc. rewrite exec_not by (apply K || done || lia). set (x := [64] ++ hp_text u ++ rest_text u).
  unfold c_colon. change x with ([] ++ x). rewrite exec_class; [|done|done|by vm_compute|done]. change x with ([] ++ x). rewrite exec_not; [|done|done|done|by vm_compute].
  unfold x. cbn [app]. rewrite exec_chr by done. rewrite exec_tail by (done || lia). done.
Qed.

(** Without a user there is no @ that the first expression could find. *)
Lemma no_at u : uri_ok u -> pl_isset (u_user u) = false -> free_of "@" (hp_text u ++ rest_text u) = true.
Proof.
  intros K Hu. pose proof (ok_at u K Hu) as Ha. rewrite free_app in Ha |- *. apply andb_prop in Ha as [Hh Hr]. unfold rest_text. rewrite Hr, andb_true_r.
  apply hp_free; [done|by vm_compute|done].
Qed.

Lemma exec_no_at x frags : free_of "@" x = true -> zlength x < 2 ^ 32 -> exists fs, exec (c_not "@:" 0 :: c_colon :: c_not "@" 0 :: TChr 64 :: t_tail) x frags = Stop ENOENT fs.
Proof.
  intros Hx Hl. destruct (split_class (map same (chars "@:")) true x) as (t & r & -> & Ht & Hr). rewrite free_app in Hx. apply andb_prop in Hx as [_ Hx].
  rewrite zlength_app in Hl. pose proof (zlength_nonneg t). pose proof (zlength_nonneg r). unfold c_not at 1. rewrite exec_class; [|done|done|unfold any; lia|done].
  destruct (split_class [(58, 58)] false r) as (t' & r' & -> & Ht' & Hr'). rewrite free_app in Hx. apply andb_prop in Hx as [_ Hx]. rewrite zlength_app in *.
  pose proof (zlength_nonneg t'). pose proof (zlength_nonneg r'). unfold c_colon. rewrite exec_class; [|done|done|unfold any; lia|done].
  rewrite <- (app_nil_r r'). rewrite exec_not by (done || lia). by eexists.
Qed.

Lemma regex_nouser u : uri_ok u -> zlength (uri_text u) < 2 ^ 32 -> pl_isset (u_user u) = false ->
  re_regex (uri_text u) expr_user = Err ENOENT
  /\ re_regex (uri_text u) expr_nouser = Ok [pl_str (u_scheme u); hp_text u; pl_str (u_path u); pl_str (u_params u); pl_str (u_headers u)].
Proof.
  intros K Hl Hu. rewrite expr_user_tokens, expr_nouser_tokens. destruct (scheme_split u K) as (s & Es & Hs & Hsl & Hf). rewrite text_parts in *. unfold user_text in *.
  rewrite Hu in *. change ([] ++ ?x) with x in *. rewrite Es in *. cbn [pl_str] in *.
  pose proof (zlength_nonneg s). pose proof (zlength_nonneg (hp_text u ++ rest_text u)). pose proof (zlength_nonneg [58]). rewrite zlength_app, (zlength_app [58]) in Hl. split.
  - apply search_enoent; [|by destruct s]. right. unfold t_user. rewrite exec_scheme by (done || lia). apply exec_no_at; [by apply no_at|lia].
  - apply search_first; [|by destruct s]. unfold t_nouser. rewrite exec_scheme by (done || lia). by rewrite exec_tail by (done || lia).
Qed.

Lemma port_back u : 0 <= u_port u < 2 ^ 16 -> (if pl_isset (Some (digits_text u)) then u16 (pl_u32 (Some (digits_text u))) else 0) = u_port u.
Proof.
  intros Hp. unfold digits_text. destruct (Z.eqb_spec (u_port u) 0) as [-> |]; [done|]. destruct (port_digits (u_port u) ltac:(lia)) as (_ & Hl & ->).
  rewrite (proj2 (isset_str (Some _))) by (cbn [pl_str]; lia). by rewrite wrap_small by lia.
Qed.

Lemma isset_some p : pl_isset p = true -> Some (pl_str p) = p.
Proof. by destruct p. Qed.

Lemma host_length u : zlength (pl_str (u_host u)) <= zlength (uri_text u).
Proof.
  rewrite text_parts. unfold hp_text. rewrite !zlength_app. assert (Hh : zlength (pl_str (u_host u)) <= zlength (host_text u)).
  { unfold host_text. destruct (_ =? AF_INET6); [|done]. rewrite !zlength_app. change (zlength [91]) with 1. change (zlength [93]) with 1. lia. }
  pose proof (zlength_nonneg (pl_str (u_scheme u))). pose proof (zlength_nonneg [58]). pose proof (zlength_nonneg (user_text u)).
  pose proof (zlength_nonneg (port_text u)). pose proof (zlength_nonneg (rest_text u)). lia.
Qed.

Section Round.
Context `{P : Platform} `{R : Resolver}.

(** C28: A URI that is encoded is decoded to itself: for parts that do not hold the
    delimiters of the grammar (and no @ after the scheme when there is no user),
    uri_encode prints scheme, user, host (in brackets for IPv6), port, path,
    parameters and headers, and uri_decode gives these parts back, with the
    family of the host as sa_set finds it; parts that were not set are empty. *)
Theorem uri_roundtrip (u : uri) :
  uri_ok u -> zlength (uri_text u) < 2 ^ 32 ->
  code (uri_encode u) = Some 0 /\ out (uri_encode u) = uri_text u
  /\ uri_decode (Some (out (uri_encode u)))
     = Ok (Uri (u_scheme u) (if pl_isset (u_user u) then u_user u else None) (u_host u) (host_af (u_host u)) (u_port u)
         (Some (pl_str (u_path u))) (Some (pl_str (u_params u))) (Some (pl_str (u_headers u)))).
Proof.
  intros K Hl. destruct (encode_prints u K) as [-> ->]. split_and!; [done|done|]. unfold uri_decode, regex.
  destruct (scheme_split u K) as (s & Es & _). destruct (ok_host u K) as (h & Eh & _).
  assert (Hh : uri_decode_hostport (Some (hp_text u)) = Ok (u_host u, Some (digits_text u))).
  { apply hostport_back; [done|]. pose proof (host_length u). lia. }
  destruct (pl_isset (u_user u)) eqn:Hu.
  - rewrite regex_user by done. cbn [map]. rewrite Hh. unfold uri_finish. rewrite (port_back u (ok_port u K)), (isset_some _ Hu). by rewrite Es.
  - destruct (regex_nouser u K Hl Hu) as [-> ->]. cbn [map]. rewrite Hh. unfold uri_finish. rewrite (port_back u (ok_port u K)). by rewrite Es.
Qed.

(** ** Escaping *)

(** The escape of an ASCII character: a percent sign and two hex digits. *)
Definition hex_chr (d : Z) : Z := itoa_digit true d.

Lemma escape_chr c : 0 <= c < 128 -> prints (hprintf "%%%02X" [PInt (swrap 8 c)]) [37; hex_chr (c / 16); hex_chr (c mod 16)].
Proof.
  intros Hc. assert (Hall : forallb (fun c => bool_decide (out (hprintf "%%%02X" [PInt (swrap 8 c)]) = [37; hex_chr (c / 16); hex_chr (c mod 16)])
    && bool_decide (code (hprintf "%%%02X" [PInt (swrap 8 c)]) = Some 0)) (seqZ 0 128) = true) by (by vm_compute).
  rewrite forallb_forall in Hall. specialize (Hall c). rewrite <- list_elem_of_In, elem_of_seqZ in Hall. specialize (Hall ltac:(lia)).
  apply andb_prop in Hall as [H1 H2]. apply bool_decide_eq_true in H1, H2. by split.
Qed.

Lemma hex_chr_back c : 0 <= c < 128 -> u8 (Z.lor (Z.shiftl (ch_hex (hex_chr (c / 16))) 4) (ch_hex (hex_chr (c mod 16)))) = c.
Proof.
  intros Hc. assert (Hall : forallb (fun c => u8 (Z.lor (Z.shiftl (ch_hex (hex_chr (c / 16))) 4) (ch_hex (hex_chr (c mod 16)))) =? c) (seqZ 0 128) = true) by (by vm_compute).
  rewrite forallb_forall in Hall. specialize (Hall c). rewrite <- list_elem_of_In, elem_of_seqZ in Hall. apply Z.eqb_eq, Hall. lia.
Qed.

Lemma hex_chr_alnum c : 0 <= c < 128 -> isalnum (hex_chr (c / 16)) && isalnum (hex_chr (c mod 16)) = true.
Proof.
  intros Hc. assert (Hall : forallb (fun c => isalnum (hex_chr (c / 16)) && isalnum (hex_chr (c mod 16))) (seqZ 0 128) = true) by (by vm_compute).
  rewrite forallb_forall in Hall. apply Hall. rewrite <- list_elem_of_In, elem_of_seqZ. lia.
Qed.

(** The escaped text. *)
Fixpoint escaped (eh : Z -> bool) (s : list Z) : list Z :=
  match s with
  | [] => []
  | c :: s => (if eh c then [c] else [37; hex_chr (c / 16); hex_chr (c mod 16)]) ++ escaped eh s
  end.

Lemma escape_prints eh s : Forall (fun c => 0 <= c < 128) s -> prints (comp_escape (Some s) eh) (escaped eh s).
Proof.
  unfold comp_escape. cbn [pl_str]. induction 1 as [|c s Hc Hs IH]; [by split|]. cbn [escape_loop escaped]. apply prints_check; [|done].
  destruct (eh c); [apply prints_call|by apply escape_chr].
Qed.

Lemma unescape_prints eh s : eh 37 = false -> Forall (fun c => 0 <= c < 128) s -> prints (comp_unescape (Some (escaped eh s)) eh) s.
Proof.
  intros He. unfold comp_unescape. cbn [pl_str]. induction 1 as [|c s Hc Hs IH]; [by split|]. cbn [escaped]. destruct (eh c) eqn:Ec; cbn [app unescape_loop].
  - rewrite Ec. apply (prints_check _ _ [c] s); [apply prints_call|done].
  - rewrite He. change (37 =? 37) with true. cbn iota. rewrite hex_chr_back by done. apply (prints_check _ _ [c] s); [apply prints_call|done].
Qed.

Lemma escaped_chars eh s : (forall c, isalnum c = true -> eh c = true) -> Forall (fun c => 0 <= c < 128) s -> forallb (fun c => eh c || (c =? 37)) (escaped eh s) = true.
Proof.
  intros Ha. induction 1 as [|c s Hc Hs IH]; [done|]. cbn [escaped]. rewrite forallb_app, IH, andb_true_r. destruct (eh c) eqn:Ec; cbn [forallb]; [by rewrite Ec|].
  pose proof (hex_chr_alnum c Hc) as Hx. apply andb_prop in Hx as [Hx Hy]. rewrite (Ha _ Hx), (Ha _ Hy). by rewrite orb_true_r.
Qed.

(** Escaping [s] succeeds, leaves only characters that may stand in the
    component and escapes, and unescaping gives [s] back. *)
Definition escapes (esc unesc : pl -> prog) (eh : Z -> bool) (s : list Z) : Prop :=
  code (esc (Some s)) = Some 0 /\ forallb (fun c => eh c || (c =? 37)) (out (esc (Some s))) = true
  /\ out (unesc (Some (out (esc (Some s))))) = s /\ code (unesc (Some (out (esc (Some s))))) = Some 0.

Lemma comp_escapes eh s : eh 37 = false -> (forall c, isalnum c = true -> eh c = true) -> Forall (fun c => 0 <= c < 128) s ->
  escapes (fun p => comp_escape p eh) (fun p => comp_unescape p eh) eh s.
Proof.
  intros He Ha Hs. unfold escapes. destruct (escape_prints eh s Hs) as [-> ->]. destruct (unescape_prints eh s He Hs) as [-> ->]. split_and!; try done. by apply escaped_chars.
Qed.

(** Escaping of the user part, of a parameter and of a header, for any ASCII
    text: it succeeds, what it prints holds only characters that the component
    allows and percent escapes, so none of the delimiters, and unescaping
    succeeds and prints the text that was escaped. *)
Theorem uri_escape_roundtrip (s : list Z) :
  Forall (fun c => 0 <= c < 128) s ->
  escapes uri_user_escape uri_user_unescape is_user s
  /\ escapes uri_param_escape uri_param_unescape is_paramchar s
  /\ escapes uri_header_escape uri_header_unescape is_hvalue s.
Proof.
  intros Hs. split_and!; apply comp_escapes; try done; intros c Hc; unfold is_user, is_paramchar, is_hvalue, is_unreserved; rewrite Hc; by rewrite ?orb_true_r.
Qed.

(** A character above 127 is sign-extended before it is printed. *)
Lemma escape_signed : out (uri_user_escape (Some [233])) = chars "%FFFFFFE9" /\ out (uri_user_unescape (Some (chars "%FFFFFFE9"))) <> [233].
Proof. split; [by vm_compute|]. intros E. by vm_compute in E. Qed.
End Round.

#[local] Instance uri_platform : Platform := {| cvt_ll := fun _ => 0; str_error := fun _ => []; sa_ntop := fun _ => None |}.
#[local] Instance uri_resolver : Resolver := {| inet_pton4 := fun _ => None; inet_pton6 := fun s => if bool_decide (s = chars "2001:db8::1") then Some (replicate 16 32) else None; getaddrinfo := fun _ => None |}.

Definition ex_uri : uri :=
  Uri (Some (chars "sip")) (Some (chars "alice")) (Some (chars "2001:db8::1")) AF_INET6 5061 None (Some (chars ";transport=tcp")) (Some (chars "?subject=a%20b@c")).
Definition ex_plain : uri := Uri (Some (chars "http")) None (Some (chars "example.com")) AF_UNSPEC 0 (Some (chars "/index.html")) None (Some (chars "?q=1")).

Ltac ex_part := eexists; split; [reflexivity|]; vm_compute; done.

Lemma ex_uri_ok : uri_ok ex_uri.
Proof. split; [ex_part|by vm_compute|ex_part|by vm_compute|by vm_compute|by vm_compute|by vm_compute|intros Hx; first [by vm_compute in Hx|by vm_compute]]. Qed.
Lemma ex_plain_ok : uri_ok ex_plain.
Proof. split; [ex_part|by vm_compute|ex_part|by vm_compute|by vm_compute|by vm_compute|by vm_compute|intros Hx; first [by vm_compute in Hx|by vm_compute]]. Qed.

Lemma uri_roundtrip_witness :
  out (uri_encode ex_uri) = chars "sip:alice@[2001:db8::1]:5061;transport=tcp?subject=a%20b@c"
  /\ uri_decode (Some (out (uri_encode ex_uri)))
     = Ok (Uri (Some (chars "sip")) (Some (chars "alice")) (Some (chars "2001:db8::1")) AF_INET6 5061 (Some []) (Some (chars ";transport=tcp")) (Some (chars "?subject=a%20b@c")))
  /\ uri_decode (Some (out (uri_encode ex_plain))) = Ok (Uri (Some (chars "http")) None (Some (chars "example.com")) AF_UNSPEC 0 (Some (chars "/index.html")) (Some []) (Some (chars "?q=1"))).
Proof.
  destruct (uri_roundtrip ex_uri ex_uri_ok) as (_ & E1 & E2); [by vm_compute|]. destruct (uri_roundtrip ex_plain ex_plain_ok) as (_ & _ & E3); [by vm_compute|].
  split_and!; [rewrite E1; by vm_compute|rewrite E2; by vm_compute|rewrite E3; by vm_compute].
Defined.

Lemma uri_escape_roundtrip_witness : escapes uri_user_escape uri_user_unescape is_user (chars "bob;@x") /\ out (uri_user_escape (Some (chars "bob;@x"))) = chars "bob;%40x".
Proof.
  assert (Hs : Forall (fun c => 0 <= c < 128) (chars "bob;@x")) by (apply (bool_decide_unpack _); by vm_compute).
  destruct (uri_escape_roundtrip (chars "bob;@x") Hs) as [Hu _]. split; [exact Hu|by vm_compute].
Defined.
