(* ===== verification/SipMsg.v ===== *)
(** * SIP messages: src/src/sip/msg.c, via.c, addr.c, cseq.c, rack.c and src/src/msg/

    A message is decoded from the unread bytes of a buffer ([text]); [p] is a
    position in them, as the pointers of the code are.  Fields of a message are
    pointer-length strings into the text, modelled by their characters; taking
    characters outside the text is [None].  The hash table of headers is the
    list of its entries, oldest first (Hash.v): a bucket holds those whose
    identifiers agree in their low 5 bits. *)

From stdpp Require Import base list numbers strings.
From Stdlib Require Import ZArith Lia.
From S2P Require Import Prelude Endian Mbuf Hash Dname Fmt Sa Odict Print Regex Uri.

Open Scope Z_scope.

(** ** Header identifiers: enum sip_hdrid *)

Definition SIP_HDR_ACCEPT : Z := 3186.
Definition SIP_HDR_ACCEPT_CONTACT : Z := 232.
Definition SIP_HDR_ACCEPT_ENCODING : Z := 708.
Definition SIP_HDR_ACCEPT_LANGUAGE : Z := 2867.
Definition SIP_HDR_ACCEPT_RESOURCE_PRIORITY : Z := 1848.
Definition SIP_HDR_ALERT_INFO : Z := 274.
Definition SIP_HDR_ALLOW : Z := 2429.
Definition SIP_HDR_ALLOW_EVENTS : Z := 66.
Definition SIP_HDR_ANSWER_MODE : Z := 2905.
Definition SIP_HDR_AUTHENTICATION_INFO : Z := 3144.
Definition SIP_HDR_AUTHORIZATION : Z := 2503.
Definition SIP_HDR_CALL_ID : Z := 3095.
Definition SIP_HDR_CALL_INFO : Z := 586.
Definition SIP_HDR_CONTACT : Z := 229.
Definition SIP_HDR_CONTENT_DISPOSITION : Z := 1425.
Definition SIP_HDR_CONTENT_ENCODING : Z := 580.
Definition SIP_HDR_CONTENT_LANGUAGE : Z := 3371.
Definition SIP_HDR_CONTENT_LENGTH : Z := 3861.
Definition SIP_HDR_CONTENT_TYPE : Z := 809.
Definition SIP_HDR_CSEQ : Z := 746.
Definition SIP_HDR_DATE : Z := 1027.
Definition SIP_HDR_ENCRYPTION : Z := 3125.
Definition SIP_HDR_ERROR_INFO : Z := 21.
Definition SIP_HDR_EVENT : Z := 3286.
Definition SIP_HDR_EXPIRES : Z := 1983.
Definition SIP_HDR_FLOW_TIMER : Z := 584.
Definition SIP_HDR_FROM : Z := 1963.
Definition SIP_HDR_HIDE : Z := 283.
Definition SIP_HDR_HISTORY_INFO : Z := 2582.
Definition SIP_HDR_IDENTITY : Z := 2362.
Definition SIP_HDR_IDENTITY_INFO : Z := 980.
Definition SIP_HDR_IN_REPLY_TO : Z := 1577.
Definition SIP_HDR_JOIN : Z := 3479.
Definition SIP_HDR_MAX_BREADTH : Z := 3701.
Definition SIP_HDR_MAX_FORWARDS : Z := 3549.
Definition SIP_HDR_MIME_VERSION : Z := 3659.
Definition SIP_HDR_MIN_EXPIRES : Z := 1121.
Definition SIP_HDR_MIN_SE : Z := 2847.
Definition SIP_HDR_ORGANIZATION : Z := 3247.
Definition SIP_HDR_P_ACCESS_NETWORK_INFO : Z := 1662.
Definition SIP_HDR_P_ANSWER_STATE : Z := 42.
Definition SIP_HDR_P_ASSERTED_IDENTITY : Z := 1233.
Definition SIP_HDR_P_ASSOCIATED_URI : Z := 900.
Definition SIP_HDR_P_CALLED_PARTY_ID : Z := 3347.
Definition SIP_HDR_P_CHARGING_FUNCTION_ADDRESSES : Z := 2171.
Definition SIP_HDR_P_CHARGING_VECTOR : Z := 25.
Definition SIP_HDR_P_DCS_TRACE_PARTY_ID : Z := 3027.
Definition SIP_HDR_P_DCS_OSPS : Z := 1788.
Definition SIP_HDR_P_DCS_BILLING_INFO : Z := 2017.
Definition SIP_HDR_P_DCS_LAES : Z := 693.
Definition SIP_HDR_P_DCS_REDIRECT : Z := 1872.
Definition SIP_HDR_P_EARLY_MEDIA : Z := 2622.
Definition SIP_HDR_P_MEDIA_AUTHORIZATION : Z := 1035.
Definition SIP_HDR_P_PREFERRED_IDENTITY : Z := 1263.
Definition SIP_HDR_P_PROFILE_KEY : Z := 1904.
Definition SIP_HDR_P_REFUSED_URI_LIST : Z := 1047.
Definition SIP_HDR_P_SERVED_USER : Z := 1588.
Definition SIP_HDR_P_USER_DATABASE : Z := 2827.
Definition SIP_HDR_P_VISITED_NETWORK_ID : Z := 3867.
Definition SIP_HDR_PATH : Z := 2741.
Definition SIP_HDR_PERMISSION_MISSING : Z := 1409.
Definition SIP_HDR_PRIORITY : Z := 3520.
Definition SIP_HDR_PRIV_ANSWER_MODE : Z := 2476.
Definition SIP_HDR_PRIVACY : Z := 3150.
Definition SIP_HDR_PROXY_AUTHENTICATE : Z := 116.
Definition SIP_HDR_PROXY_AUTHORIZATION : Z := 2363.
Definition SIP_HDR_PROXY_REQUIRE : Z := 3562.
Definition SIP_HDR_RACK : Z := 2523.
Definition SIP_HDR_REASON : Z := 3732.
Definition SIP_HDR_RECORD_ROUTE : Z := 278.
Definition SIP_HDR_REFER_SUB : Z := 2458.
Definition SIP_HDR_REFER_TO : Z := 1521.
Definition SIP_HDR_REFERRED_BY : Z := 3456.
Definition SIP_HDR_REJECT_CONTACT : Z := 285.
Definition SIP_HDR_REPLACES : Z := 2534.
Definition SIP_HDR_REPLY_TO : Z := 2404.
Definition SIP_HDR_REQUEST_DISPOSITION : Z := 3715.
Definition SIP_HDR_REQUIRE : Z := 3905.
Definition SIP_HDR_RESOURCE_PRIORITY : Z := 1643.
Definition SIP_HDR_RESPONSE_KEY : Z := 1548.
Definition SIP_HDR_RETRY_AFTER : Z := 409.
Definition SIP_HDR_ROUTE : Z := 661.
Definition SIP_HDR_RSEQ : Z := 445.
Definition SIP_HDR_SECURITY_CLIENT : Z := 1358.
Definition SIP_HDR_SECURITY_SERVER : Z := 811.
Definition SIP_HDR_SECURITY_VERIFY : Z := 519.
Definition SIP_HDR_SERVER : Z := 973.
Definition SIP_HDR_SERVICE_ROUTE : Z := 1655.
Definition SIP_HDR_SESSION_EXPIRES : Z := 1979.
Definition SIP_HDR_SIP_ETAG : Z := 1997.
Definition SIP_HDR_SIP_IF_MATCH : Z := 3056.
Definition SIP_HDR_SUBJECT : Z := 1043.
Definition SIP_HDR_SUBSCRIPTION_STATE : Z := 2884.
Definition SIP_HDR_SUPPORTED : Z := 119.
Definition SIP_HDR_TARGET_DIALOG : Z := 3450.
Definition SIP_HDR_TIMESTAMP : Z := 938.
Definition SIP_HDR_TO : Z := 1449.
Definition SIP_HDR_TRIGGER_CONSENT : Z := 3180.
Definition SIP_HDR_UNSUPPORTED : Z := 982.
Definition SIP_HDR_USER_AGENT : Z := 4064.
Definition SIP_HDR_VIA : Z := 3961.
Definition SIP_HDR_WARNING : Z := 2108.
Definition SIP_HDR_WWW_AUTHENTICATE : Z := 2763.
Definition SIP_HDR_NONE : Z := -1.

(** The headers by their names. *)
Definition sip_hdrids : list (String.string * Z) :=
  [("Accept"%string, SIP_HDR_ACCEPT);
   ("Accept-Contact"%string, SIP_HDR_ACCEPT_CONTACT);
   ("Accept-Encoding"%string, SIP_HDR_ACCEPT_ENCODING);
   ("Accept-Language"%string, SIP_HDR_ACCEPT_LANGUAGE);
   ("Accept-Resource-Priority"%string, SIP_HDR_ACCEPT_RESOURCE_PRIORITY);
   ("Alert-Info"%string, SIP_HDR_ALERT_INFO);
   ("Allow"%string, SIP_HDR_ALLOW);
   ("Allow-Events"%string, SIP_HDR_ALLOW_EVENTS);
   ("Answer-Mode"%string, SIP_HDR_ANSWER_MODE);
   ("Authentication-Info"%string, SIP_HDR_AUTHENTICATION_INFO);
   ("Authorization"%string, SIP_HDR_AUTHORIZATION);
   ("Call-Id"%string, SIP_HDR_CALL_ID);
   ("Call-Info"%string, SIP_HDR_CALL_INFO);
   ("Contact"%string, SIP_HDR_CONTACT);
   ("Content-Disposition"%string, SIP_HDR_CONTENT_DISPOSITION);
   ("Content-Encoding"%string, SIP_HDR_CONTENT_ENCODING);
   ("Content-Language"%string, SIP_HDR_CONTENT_LANGUAGE);
   ("Content-Length"%string, SIP_HDR_CONTENT_LENGTH);
   ("Content-Type"%string, SIP_HDR_CONTENT_TYPE);
   ("Cseq"%string, SIP_HDR_CSEQ);
   ("Date"%string, SIP_HDR_DATE);
   ("Encryption"%string, SIP_HDR_ENCRYPTION);
   ("Error-Info"%string, SIP_HDR_ERROR_INFO);
   ("Event"%string, SIP_HDR_EVENT);
   ("Expires"%string, SIP_HDR_EXPIRES);
   ("Flow-Timer"%string, SIP_HDR_FLOW_TIMER);
   ("From"%string, SIP_HDR_FROM);
   ("Hide"%string, SIP_HDR_HIDE);
   ("History-Info"%string, SIP_HDR_HISTORY_INFO);
   ("Identity"%string, SIP_HDR_IDENTITY);
   ("Identity-Info"%string, SIP_HDR_IDENTITY_INFO);
   ("In-Reply-To"%string, SIP_HDR_IN_REPLY_TO);
   ("Join"%string, SIP_HDR_JOIN);
   ("Max-Breadth"%string, SIP_HDR_MAX_BREADTH);
   ("Max-Forwards"%string, SIP_HDR_MAX_FORWARDS);
   ("Mime-Version"%string, SIP_HDR_MIME_VERSION);
   ("Min-Expires"%string, SIP_HDR_MIN_EXPIRES);
   ("Min-Se"%string, SIP_HDR_MIN_SE);
   ("Organization"%string, SIP_HDR_ORGANIZATION);
   ("P-Access-Network-Info"%string, SIP_HDR_P_ACCESS_NETWORK_INFO);
   ("P-Answer-State"%string, SIP_HDR_P_ANSWER_STATE);
   ("P-Asserted-Identity"%string, SIP_HDR_P_ASSERTED_IDENTITY);
   ("P-Associated-Uri"%string, SIP_HDR_P_ASSOCIATED_URI);
   ("P-Called-Party-Id"%string, SIP_HDR_P_CALLED_PARTY_ID);
   ("P-Charging-Function-Addresses"%string, SIP_HDR_P_CHARGING_FUNCTION_ADDRESSES);
   ("P-Charging-Vector"%string, SIP_HDR_P_CHARGING_VECTOR);
   ("P-Dcs-Trace-Party-Id"%string, SIP_HDR_P_DCS_TRACE_PARTY_ID);
   ("P-Dcs-Osps"%string, SIP_HDR_P_DCS_OSPS);
   ("P-Dcs-Billing-Info"%string, SIP_HDR_P_DCS_BILLING_INFO);
   ("P-Dcs-Laes"%string, SIP_HDR_P_DCS_LAES);
   ("P-Dcs-Redirect"%string, SIP_HDR_P_DCS_REDIRECT);
   ("P-Early-Media"%string, SIP_HDR_P_EARLY_MEDIA);
   ("P-Media-Authorization"%string, SIP_HDR_P_MEDIA_AUTHORIZATION);
   ("P-Preferred-Identity"%string, SIP_HDR_P_PREFERRED_IDENTITY);
   ("P-Profile-Key"%string, SIP_HDR_P_PROFILE_KEY);
   ("P-Refused-Uri-List"%string, SIP_HDR_P_REFUSED_URI_LIST);
   ("P-Served-User"%string, SIP_HDR_P_SERVED_USER);
   ("P-User-Database"%string, SIP_HDR_P_USER_DATABASE);
   ("P-Visited-Network-Id"%string, SIP_HDR_P_VISITED_NETWORK_ID);
   ("Path"%string, SIP_HDR_PATH);
   ("Permission-Missing"%string, SIP_HDR_PERMISSION_MISSING);
   ("Priority"%string, SIP_HDR_PRIORITY);
   ("Priv-Answer-Mode"%string, SIP_HDR_PRIV_ANSWER_MODE);
   ("Privacy"%string, SIP_HDR_PRIVACY);
   ("Proxy-Authenticate"%string, SIP_HDR_PROXY_AUTHENTICATE);
   ("Proxy-Authorization"%string, SIP_HDR_PROXY_AUTHORIZATION);
   ("Proxy-Require"%string, SIP_HDR_PROXY_REQUIRE);
   ("Rack"%string, SIP_HDR_RACK);
   ("Reason"%string, SIP_HDR_REASON);
   ("Record-Route"%string, SIP_HDR_RECORD_ROUTE);
   ("Refer-Sub"%string, SIP_HDR_REFER_SUB);
   ("Refer-To"%string, SIP_HDR_REFER_TO);
   ("Referred-By"%string, SIP_HDR_REFERRED_BY);
   ("Reject-Contact"%string, SIP_HDR_REJECT_CONTACT);
   ("Replaces"%string, SIP_HDR_REPLACES);
   ("Reply-To"%string, SIP_HDR_REPLY_TO);
   ("Request-Disposition"%string, SIP_HDR_REQUEST_DISPOSITION);
   ("Require"%string, SIP_HDR_REQUIRE);
   ("Resource-Priority"%string, SIP_HDR_RESOURCE_PRIORITY);
   ("Response-Key"%string, SIP_HDR_RESPONSE_KEY);
   ("Retry-After"%string, SIP_HDR_RETRY_AFTER);
   ("Route"%string, SIP_HDR_ROUTE);
   ("Rseq"%string, SIP_HDR_RSEQ);
   ("Security-Client"%string, SIP_HDR_SECURITY_CLIENT);
   ("Security-Server"%string, SIP_HDR_SECURITY_SERVER);
   ("Security-Verify"%string, SIP_HDR_SECURITY_VERIFY);
   ("Server"%string, SIP_HDR_SERVER);
   ("Service-Route"%string, SIP_HDR_SERVICE_ROUTE);
   ("Session-Expires"%string, SIP_HDR_SESSION_EXPIRES);
   ("Sip-Etag"%string, SIP_HDR_SIP_ETAG);
   ("Sip-If-Match"%string, SIP_HDR_SIP_IF_MATCH);
   ("Subject"%string, SIP_HDR_SUBJECT);
   ("Subscription-State"%string, SIP_HDR_SUBSCRIPTION_STATE);
   ("Supported"%string, SIP_HDR_SUPPORTED);
   ("Target-Dialog"%string, SIP_HDR_TARGET_DIALOG);
   ("Timestamp"%string, SIP_HDR_TIMESTAMP);
   ("To"%string, SIP_HDR_TO);
   ("Trigger-Consent"%string, SIP_HDR_TRIGGER_CONSENT);
   ("Unsupported"%string, SIP_HDR_UNSUPPORTED);
   ("User-Agent"%string, SIP_HDR_USER_AGENT);
   ("Via"%string, SIP_HDR_VIA);
   ("Warning"%string, SIP_HDR_WARNING);
   ("Www-Authenticate"%string, SIP_HDR_WWW_AUTHENTICATE)].

Definition hdr_comma_separated (id : Z) : bool :=
  existsb (Z.eqb id)
    [SIP_HDR_ACCEPT; SIP_HDR_ACCEPT_CONTACT; SIP_HDR_ACCEPT_ENCODING; SIP_HDR_ACCEPT_LANGUAGE;
     SIP_HDR_ACCEPT_RESOURCE_PRIORITY; SIP_HDR_ALERT_INFO; SIP_HDR_ALLOW; SIP_HDR_ALLOW_EVENTS;
     SIP_HDR_AUTHENTICATION_INFO; SIP_HDR_CALL_INFO; SIP_HDR_CONTACT; SIP_HDR_CONTENT_ENCODING;
     SIP_HDR_CONTENT_LANGUAGE; SIP_HDR_ERROR_INFO; SIP_HDR_HISTORY_INFO; SIP_HDR_IN_REPLY_TO;
     SIP_HDR_P_ASSERTED_IDENTITY; SIP_HDR_P_ASSOCIATED_URI; SIP_HDR_P_EARLY_MEDIA; SIP_HDR_P_MEDIA_AUTHORIZATION;
     SIP_HDR_P_PREFERRED_IDENTITY; SIP_HDR_P_REFUSED_URI_LIST; SIP_HDR_P_VISITED_NETWORK_ID; SIP_HDR_PATH;
     SIP_HDR_PERMISSION_MISSING; SIP_HDR_PROXY_REQUIRE; SIP_HDR_REASON; SIP_HDR_RECORD_ROUTE;
     SIP_HDR_REJECT_CONTACT; SIP_HDR_REQUEST_DISPOSITION; SIP_HDR_REQUIRE; SIP_HDR_RESOURCE_PRIORITY;
     SIP_HDR_ROUTE; SIP_HDR_SECURITY_CLIENT; SIP_HDR_SECURITY_SERVER; SIP_HDR_SECURITY_VERIFY;
     SIP_HDR_SERVICE_ROUTE; SIP_HDR_SUPPORTED; SIP_HDR_TRIGGER_CONSENT; SIP_HDR_UNSUPPORTED;
     SIP_HDR_VIA; SIP_HDR_WARNING].

Section Hash.
Context (char_signed : bool).

(** The compact form of a header name. *)
Definition hdr_compact (c : Z) : Z :=
  if c =? ch "a" then SIP_HDR_ACCEPT_CONTACT
  else if c =? ch "b" then SIP_HDR_REFERRED_BY
  else if c =? ch "c" then SIP_HDR_CONTENT_TYPE
  else if c =? ch "d" then SIP_HDR_REQUEST_DISPOSITION
  else if c =? ch "e" then SIP_HDR_CONTENT_ENCODING
  else if c =? ch "f" then SIP_HDR_FROM
  else if c =? ch "i" then SIP_HDR_CALL_ID
  else if c =? ch "j" then SIP_HDR_REJECT_CONTACT
  else if c =? ch "k" then SIP_HDR_SUPPORTED
  else if c =? ch "l" then SIP_HDR_CONTENT_LENGTH
  else if c =? ch "m" then SIP_HDR_CONTACT
  else if c =? ch "n" then SIP_HDR_IDENTITY_INFO
  else if c =? ch "o" then SIP_HDR_EVENT
  else if c =? ch "r" then SIP_HDR_REFER_TO
  else if c =? ch "s" then SIP_HDR_SUBJECT
  else if c =? ch "t" then SIP_HDR_TO
  else if c =? ch "u" then SIP_HDR_ALLOW_EVENTS
  else if c =? ch "v" then SIP_HDR_VIA
  else if c =? ch "x" then SIP_HDR_SESSION_EXPIRES
  else if c =? ch "y" then SIP_HDR_IDENTITY
  else SIP_HDR_NONE.

Definition hdr_hash (name : list Z) : Z :=
  match name with
  | [] => SIP_HDR_NONE
  | [c] => hdr_compact (tolower c)
  | c0 :: c1 :: _ =>
      if ((c0 =? 120) || (c0 =? 88)) && (c1 =? 45) then SIP_HDR_NONE
      else Z.land (hash_joaat_ci char_signed name) 0xfff
  end.
End Hash.

(** ** The records of re_sip.h and re_msg.h *)

Record sip_hdr := SipHdr { hdr_name : list Z; hdr_val : list Z; hdr_id : Z }.

Inductive sip_transp := SIP_TRANSP_NONE | SIP_TRANSP_UDP | SIP_TRANSP_TCP | SIP_TRANSP_TLS | SIP_TRANSP_WS | SIP_TRANSP_WSS.

#[export] Instance sip_transp_eq_dec : EqDecision sip_transp.
Proof. solve_decision. Defined.

Record sip_via := SipVia { via_sentby : pl; via_addr : sa; via_params : pl; via_branch : pl; via_val : pl; via_tp : sip_transp }.
Record sip_addr := SipAddr { addr_dname : pl; addr_auri : pl; addr_uri : uri; addr_params : pl }.
Record sip_taddr := SipTaddr { ta_addr : sip_addr; ta_tag : pl; ta_val : pl }.
Record sip_cseq := SipCseq { cseq_met : pl; cseq_num : Z }.
Record sip_rack := SipRack { rack_met : pl; rack_rel_seq : Z; rack_cseq : Z }.
Record msg_ctype := MsgCtype { ctype_type : pl; ctype_subtype : pl; ctype_params : pl }.

Record sip_msg := SipMsg {
  m_src : sa;
  m_ver : pl;
  m_met : pl;
  m_ruri : pl;
  m_uri : uri;
  m_scode : Z;
  m_reason : pl;
  m_hdrl : list sip_hdr;
  m_via : sip_via;
  m_to : sip_taddr;
  m_from : sip_taddr;
  m_cseq : sip_cseq;
  m_rack : sip_rack;
  m_rel_seq : Z;
  m_ctyp : msg_ctype;
  m_callid : pl;
  m_maxfwd : pl;
  m_expires : pl;
  m_clen : pl;
  m_hdrht : list sip_hdr;
  m_tag : Z;
  m_tp : sip_transp;
  m_req : bool;
}.

(** What mem_zalloc gives. *)
Definition uri0 : uri := Uri None None None 0 0 None None None.
Definition sa0 : sa := SaOther AF_UNSPEC.
Definition via0 : sip_via := SipVia None sa0 None None None SIP_TRANSP_UDP.
Definition taddr0 : sip_taddr := SipTaddr (SipAddr None None uri0 None) None None.
Definition msg0 : sip_msg :=
  SipMsg sa0 None None None uri0 0 None [] via0 taddr0 taddr0 (SipCseq None 0) (SipRack None 0 0) 0 (MsgCtype None None None)
    None None None None [] 0 SIP_TRANSP_UDP false.

(** sizeof(struct sip_msg) and (struct sip_hdr) of an LP64 platform. *)
Definition SIP_MSG_STRUCT : Z := 1200.
Definition SIP_HDR_STRUCT : Z := 104.
Definition HDR_HASH_SIZE : Z := 32.
Definition STARTLINE_MAX : Z := 8192.

(** Assignments to fields. *)
Definition set_hdrl x (m : sip_msg) : sip_msg :=
  SipMsg (m_src m) (m_ver m) (m_met m) (m_ruri m) (m_uri m) (m_scode m) (m_reason m) x (m_via m) (m_to m) (m_from m) (m_cseq m) (m_rack m) (m_rel_seq m) (m_ctyp m) (m_callid m) (m_maxfwd m) (m_expires m) (m_clen m) (m_hdrht m) (m_tag m) (m_tp m) (m_req m).
Definition set_hdrht x (m : sip_msg) : sip_msg :=
  SipMsg (m_src m) (m_ver m) (m_met m) (m_ruri m) (m_uri m) (m_scode m) (m_reason m) (m_hdrl m) (m_via m) (m_to m) (m_from m) (m_cseq m) (m_rack m) (m_rel_seq m) (m_ctyp m) (m_callid m) (m_maxfwd m) (m_expires m) (m_clen m) x (m_tag m) (m_tp m) (m_req m).
Definition set_via x (m : sip_msg) : sip_msg :=
  SipMsg (m_src m) (m_ver m) (m_met m) (m_ruri m) (m_uri m) (m_scode m) (m_reason m) (m_hdrl m) x (m_to m) (m_from m) (m_cseq m) (m_rack m) (m_rel_seq m) (m_ctyp m) (m_callid m) (m_maxfwd m) (m_expires m) (m_clen m) (m_hdrht m) (m_tag m) (m_tp m) (m_req m).
Definition set_to x (m : sip_msg) : sip_msg :=
  SipMsg (m_src m) (m_ver m) (m_met m) (m_ruri m) (m_uri m) (m_scode m) (m_reason m) (m_hdrl m) (m_via m) x (m_from m) (m_cseq m) (m_rack m) (m_rel_seq m) (m_ctyp m) (m_callid m) (m_maxfwd m) (m_expires m) (m_clen m) (m_hdrht m) (m_tag m) (m_tp m) (m_req m).
Definition set_from x (m : sip_msg) : sip_msg :=
  SipMsg (m_src m) (m_ver m) (m_met m) (m_ruri m) (m_uri m) (m_scode m) (m_reason m) (m_hdrl m) (m_via m) (m_to m) x (m_cseq m) (m_rack m) (m_rel_seq m) (m_ctyp m) (m_callid m) (m_maxfwd m) (m_expires m) (m_clen m) (m_hdrht m) (m_tag m) (m_tp m) (m_req m).
Definition set_cseq x (m : sip_msg) : sip_msg :=
  SipMsg (m_src m) (m_ver m) (m_met m) (m_ruri m) (m_uri m) (m_scode m) (m_reason m) (m_hdrl m) (m_via m) (m_to m) (m_from m) x (m_rack m) (m_rel_seq m) (m_ctyp m) (m_callid m) (m_maxfwd m) (m_expires m) (m_clen m) (m_hdrht m) (m_tag m) (m_tp m) (m_req m).
Definition set_rack x (m : sip_msg) : sip_msg :=
  SipMsg (m_src m) (m_ver m) (m_met m) (m_ruri m) (m_uri m) (m_scode m) (m_reason m) (m_hdrl m) (m_via m) (m_to m) (m_from m) (m_cseq m) x (m_rel_seq m) (m_ctyp m) (m_callid m) (m_maxfwd m) (m_expires m) (m_clen m) (m_hdrht m) (m_tag m) (m_tp m) (m_req m).
Definition set_rel_seq x (m : sip_msg) : sip_msg :=
  SipMsg (m_src m) (m_ver m) (m_met m) (m_ruri m) (m_uri m) (m_scode m) (m_reason m) (m_hdrl m) (m_via m) (m_to m) (m_from m) (m_cseq m) (m_rack m) x (m_ctyp m) (m_callid m) (m_maxfwd m) (m_expires m) (m_clen m) (m_hdrht m) (m_tag m) (m_tp m) (m_req m).
Definition set_ctyp x (m : sip_msg) : sip_msg :=
  SipMsg (m_src m) (m_ver m) (m_met m) (m_ruri m) (m_uri m) (m_scode m) (m_reason m) (m_hdrl m) (m_via m) (m_to m) (m_from m) (m_cseq m) (m_rack m) (m_rel_seq m) x (m_callid m) (m_maxfwd m) (m_expires m) (m_clen m) (m_hdrht m) (m_tag m) (m_tp m) (m_req m).
Definition set_callid x (m : sip_msg) : sip_msg :=
  SipMsg (m_src m) (m_ver m) (m_met m) (m_ruri m) (m_uri m) (m_scode m) (m_reason m) (m_hdrl m) (m_via m) (m_to m) (m_from m) (m_cseq m) (m_rack m) (m_rel_seq m) (m_ctyp m) x (m_maxfwd m) (m_expires m) (m_clen m) (m_hdrht m) (m_tag m) (m_tp m) (m_req m).
Definition set_maxfwd x (m : sip_msg) : sip_msg :=
  SipMsg (m_src m) (m_ver m) (m_met m) (m_ruri m) (m_uri m) (m_scode m) (m_reason m) (m_hdrl m) (m_via m) (m_to m) (m_from m) (m_cseq m) (m_rack m) (m_rel_seq m) (m_ctyp m) (m_callid m) x (m_expires m) (m_clen m) (m_hdrht m) (m_tag m) (m_tp m) (m_req m).
Definition set_expires x (m : sip_msg) : sip_msg :=
  SipMsg (m_src m) (m_ver m) (m_met m) (m_ruri m) (m_uri m) (m_scode m) (m_reason m) (m_hdrl m) (m_via m) (m_to m) (m_from m) (m_cseq m) (m_rack m) (m_rel_seq m) (m_ctyp m) (m_callid m) (m_maxfwd m) x (m_clen m) (m_hdrht m) (m_tag m) (m_tp m) (m_req m).
Definition set_clen x (m : sip_msg) : sip_msg :=
  SipMsg (m_src m) (m_ver m) (m_met m) (m_ruri m) (m_uri m) (m_scode m) (m_reason m) (m_hdrl m) (m_via m) (m_to m) (m_from m) (m_cseq m) (m_rack m) (m_rel_seq m) (m_ctyp m) (m_callid m) (m_maxfwd m) (m_expires m) x (m_hdrht m) (m_tag m) (m_tp m) (m_req m).
Definition set_src x (m : sip_msg) : sip_msg :=
  SipMsg x (m_ver m) (m_met m) (m_ruri m) (m_uri m) (m_scode m) (m_reason m) (m_hdrl m) (m_via m) (m_to m) (m_from m) (m_cseq m) (m_rack m) (m_rel_seq m) (m_ctyp m) (m_callid m) (m_maxfwd m) (m_expires m) (m_clen m) (m_hdrht m) (m_tag m) (m_tp m) (m_req m).
Definition set_tag x (m : sip_msg) : sip_msg :=
  SipMsg (m_src m) (m_ver m) (m_met m) (m_ruri m) (m_uri m) (m_scode m) (m_reason m) (m_hdrl m) (m_via m) (m_to m) (m_from m) (m_cseq m) (m_rack m) (m_rel_seq m) (m_ctyp m) (m_callid m) (m_maxfwd m) (m_expires m) (m_clen m) (m_hdrht m) x (m_tp m) (m_req m).
Definition set_tp x (m : sip_msg) : sip_msg :=
  SipMsg (m_src m) (m_ver m) (m_met m) (m_ruri m) (m_uri m) (m_scode m) (m_reason m) (m_hdrl m) (m_via m) (m_to m) (m_from m) (m_cseq m) (m_rack m) (m_rel_seq m) (m_ctyp m) (m_callid m) (m_maxfwd m) (m_expires m) (m_clen m) (m_hdrht m) (m_tag m) x (m_req m).

(** ** Expressions and where they match *)

(** The position of the match, and the fragments. *)
Fixpoint search_from (f : list Z -> verdict) (i : Z) (s : list Z) : res (Z * list (list Z)) :=
  match s with
  | [] => Err ENOENT
  | _ :: s' =>
      match f s with
      | Again => search_from f (i + 1) s'
      | Stop err frags => if err =? 0 then Ok (i, frags) else Err err
      end
  end.
Definition re_regex_at (s expr : list Z) : res (Z * list (list Z)) := search_from (fun s => attempt expr false None s []) 0 s.

Lemma search_from_search f s : forall i, match search_from f i s with Ok (_, fs) => search f false s = Ok fs | Err e => search f false s = Err e end.
Proof. induction s as [|c s IH]; intros i; cbn; [done|]. destruct (f (c :: s)) as [|err fs]; [apply IH|]. by destruct (err =? 0). Qed.

Lemma re_regex_at_same s expr : expr <> [] -> match re_regex_at s expr with Ok (_, fs) => re_regex s expr = Ok fs | Err e => re_regex s expr = Err e end.
Proof.
  intros He. unfold re_regex. destruct expr as [|e expr]; [done|]. rewrite zlength_cons. pose proof (zlength_nonneg expr).
  rewrite (proj2 (Z.eqb_neq _ 0)) by lia. apply search_from_search.
Qed.

(** Tab, carriage return and line feed. *)
Definition HT : Z := 9.
Definition CR : Z := 13.
Definition LF : Z := 10.
Definition tcn : list Z := [HT; CR; LF].

(** "[ \t\r\n]*" *)
Definition expr_ws : list Z := chars "[ " ++ tcn ++ chars "]*".

Section Parts.
Context `{P : Platform} `{R : Resolver}.

(** ** msg/param.c and ctype.c *)

(** The expression is printed to 128 bytes with the name of the parameter. *)
Definition param_expr (before : list Z) (name : list Z) (behind : list Z) : option (list Z) :=
  snprint 128 (re_vhprintf (before ++ chars "%s" ++ behind) [PStr (Some name)]).

(** [None]: the name brings classes of its own.  [Ok] has the place of the
    parameter in the string: from the semicolon to the end of the name. *)
Definition msg_param_exists (p : pl) (name : list Z) : option (res (Z * Z)) :=
  match param_expr (chars ";" ++ expr_ws) name (chars "[ " ++ tcn ++ chars ";=]*"), p with
  | None, _ => None
  | _, None => Some (Err ENOENT)
  | Some xpr, Some s =>
      match re_regex_at s xpr with
      | Err _ => Some (Err ENOENT)
      | Ok (i, [v1; v2]) =>
          let len := 1 + zlength v1 + zlength name in
          if (zlength v2 =? 0) && (i + len <? zlength s) then Some (Err ENOENT) else Some (Ok (i, len))
      | Ok _ => None
      end
  end.

Definition msg_param_decode (p : pl) (name : list Z) : option (res pl) :=
  match param_expr (chars ";" ++ expr_ws) name (expr_ws ++ chars "=" ++ expr_ws ++ chars "[~ " ++ tcn ++ chars ";]+") with
  | None => None
  | Some expr =>
      match regex p expr with
      | Err _ => Some (Err ENOENT)
      | Ok [_; _; _; v] => Some (Ok v)
      | Ok _ => None
      end
  end.

Definition expr_ctype : list Z :=
  expr_ws ++ chars "[^ " ++ tcn ++ chars ";/]+" ++ expr_ws ++ chars "/" ++ expr_ws ++ chars "[^ " ++ tcn ++ chars ";]+" ++ chars "[^]*".

Definition msg_ctype_decode (p : pl) : res msg_ctype :=
  match p with
  | None => Err EBADMSG
  | Some s =>
      match re_regex_at s expr_ctype with
      | Ok (i, [_; type; _; _; subtype; params]) =>
          if negb (i =? 0) then Err EBADMSG else Ok (MsgCtype (Some type) (Some subtype) (Some params))
      | _ => Err EBADMSG
      end
  end.

Definition msg_ctype_cmp (ctype : msg_ctype) (type subtype : list Z) : bool :=
  if negb (pl_strcasecmp (ctype_type ctype) type =? 0) then false
  else if negb (pl_strcasecmp (ctype_subtype ctype) subtype =? 0) then false
  else true.

(** ** sip/addr.c *)

Definition expr_addr : list Z := chars "[~ " ++ tcn ++ chars "<]*" ++ expr_ws ++ chars "<[^>]+>[^]*".

(** A fragment of length 0 loses its pointer. *)
Definition or_null (p : pl) : pl := if pl_l p =? 0 then None else p.

Definition sip_addr_decode (p : pl) : res sip_addr :=
  let finish dname auri params := match uri_decode auri with Ok u => Ok (SipAddr dname auri u params) | Err e => Err e end in
  match regex p expr_addr with
  | Ok [dname; _; auri; params] => finish (or_null dname) auri (or_null params)
  | _ =>
      match regex p (chars "[^;]+[^]*") with
      | Ok [auri; params] => finish None auri params
      | _ => Err EBADMSG
      end
  end.

(** ** sip/cseq.c and rack.c *)

Definition expr_ws1 : list Z := chars "[ " ++ tcn ++ chars "]+".
Definition expr_met : list Z := chars "[^ " ++ tcn ++ chars "]+".

Definition sip_cseq_decode (p : pl) : res sip_cseq :=
  match regex p (chars "[0-9]+" ++ expr_ws1 ++ expr_met) with
  | Ok [num; _; met] => Ok (SipCseq met (pl_u32 num))
  | Ok _ => Err EINVAL
  | Err e => Err e
  end.

Definition sip_rack_decode (p : pl) : res sip_rack :=
  match regex p (chars "[0-9]+" ++ expr_ws1 ++ chars "[0-9]+" ++ expr_ws1 ++ expr_met) with
  | Ok [rel_seq; _; cseq; _; met] => Ok (SipRack met (pl_u32 rel_seq) (pl_u32 cseq))
  | Ok _ => Err EINVAL
  | Err e => Err e
  end.

(** ** sip/via.c *)

Definition decode_hostport (hostport : pl) : res (pl * pl) :=
  match regex hostport (chars "\[[0-9a-f:]+\][:]*[0-9]*") with
  | Ok [host; _; port] => Ok (host, port)
  | _ =>
      match regex hostport (chars "[^:]+[:]*[0-9]*") with
      | Ok [host; _; port] => Ok (host, port)
      | Ok _ => Err EINVAL
      | Err e => Err e
      end
  end.

Definition expr_via : list Z :=
  chars "SIP[  " ++ tcn ++ chars "]*/" ++ expr_ws ++ chars "2.0" ++ expr_ws ++ chars "/" ++ expr_ws ++
  chars "[A-Z]+" ++ expr_ws ++ chars "[^; " ++ tcn ++ chars "]+" ++ expr_ws ++ chars "[^]*".

Definition via_transp (transp : pl) : sip_transp :=
  if pl_strcmp transp (chars "TCP") =? 0 then SIP_TRANSP_TCP
  else if pl_strcmp transp (chars "TLS") =? 0 then SIP_TRANSP_TLS
  else if pl_strcmp transp (chars "UDP") =? 0 then SIP_TRANSP_UDP
  else if pl_strcmp transp (chars "WS") =? 0 then SIP_TRANSP_WS
  else if pl_strcmp transp (chars "WSS") =? 0 then SIP_TRANSP_WSS
  else SIP_TRANSP_NONE.

(** sa_set clears the address before it fails. *)
Definition via_address (host port : pl) : sa :=
  let addr := match sa_set host 0 with Ok s => s | Err _ => sa0 end in
  if pl_isset port then sa_set_port addr (u16 (pl_u32 port)) else addr.

Definition sip_via_decode (p : pl) : option (res sip_via) :=
  match regex p expr_via with
  | Ok [_; _; _; _; transp; _; sentby; _; params] =>
      match decode_hostport sentby with
      | Err e => Some (Err e)
      | Ok (host, port) =>
          match msg_param_decode params (chars "branch") with
          | None => None
          | Some (Err e) => Some (Err e)
          | Some (Ok branch) => Some (Ok (SipVia sentby (via_address host port) params branch p (via_transp transp)))
          end
      end
  | Ok _ => None
  | Err e => Some (Err e)
  end.
End Parts.

(** ** sip/msg.c *)

(** The characters of a pointer-length string in the text. *)
Definition subtext (text : list Z) (off len : Z) : option (list Z) :=
  if (0 <=? off) && (0 <=? len) && (off + len <=? zlength text) then Some (ztake len (zdrop off text)) else None.

(** The state of the loop over the headers: [ds_name] is the pointer of the
    name, [ds_v] the start of the value, [ds_cv] that of the value after the last
    comma; [ds_ws] counts white space, [ds_lf] line feeds. *)
Record dec_state := DecState {
  ds_name : option Z;
  ds_namel : Z;
  ds_v : option Z;
  ds_cv : option Z;
  ds_ws : Z;
  ds_lf : Z;
  ds_comsep : bool;
  ds_quote : bool;
  ds_id : Z;
  ds_msg : sip_msg;
}.

Definition set_msg (st : dec_state) (m : sip_msg) : dec_state :=
  DecState (ds_name st) (ds_namel st) (ds_v st) (ds_cv st) (ds_ws st) (ds_lf st) (ds_comsep st) (ds_quote st) (ds_id st) m.
Definition set_space (st : dec_state) (ws lf : Z) : dec_state :=
  DecState (ds_name st) (ds_namel st) (ds_v st) (ds_cv st) (u32 ws) (u32 lf) (ds_comsep st) (ds_quote st) (ds_id st) (ds_msg st).

Section Message.
Context `{H : Host} `{P : Platform} `{R : Resolver} (char_signed : bool).

Definition hdr_store (m : sip_msg) (hdr : sip_hdr) (atomic line : bool) : sip_msg :=
  let to_hash m := set_hdrht (m_hdrht m ++ [hdr]) m in
  let to_list m := set_hdrl (m_hdrl m ++ [hdr]) m in
  if (hdr_id hdr =? SIP_HDR_VIA) || (hdr_id hdr =? SIP_HDR_ROUTE) then if negb atomic then m else to_list (to_hash m)
  else
    let m := if atomic then to_hash m else m in
    if line then to_list m else m.

(** An address with its tag; the tag of an earlier header stays when there is none. *)
Definition taddr_decode (old : sip_taddr) (val : pl) : option (res sip_taddr) :=
  match sip_addr_decode val with
  | Err e => Some (Err e)
  | Ok a =>
      match msg_param_decode (addr_params a) (chars "tag") with
      | None => None
      | Some t => Some (Ok (SipTaddr a (match t with Ok tag => tag | Err _ => ta_tag old end) val))
      end
  end.

(** The common headers. *)
Definition hdr_parse (m : sip_msg) (hdr : sip_hdr) (atomic : bool) : option (res sip_msg) :=
  let val := Some (hdr_val hdr) in
  let id := hdr_id hdr in
  let opt {A} (r : option (res A)) (f : A -> sip_msg) := match r with Some (Ok a) => Some (Ok (f a)) | Some (Err e) => Some (Err e) | None => None end in
  if id =? SIP_HDR_VIA then
    if negb atomic || pl_isset (via_sentby (m_via m)) then Some (Ok m) else opt (sip_via_decode val) (fun v => set_via v m)
  else if id =? SIP_HDR_TO then opt (taddr_decode (m_to m) val) (fun a => set_to a m)
  else if id =? SIP_HDR_FROM then opt (taddr_decode (m_from m) val) (fun a => set_from a m)
  else if id =? SIP_HDR_CALL_ID then Some (Ok (set_callid val m))
  else if id =? SIP_HDR_CSEQ then opt (Some (sip_cseq_decode val)) (fun c => set_cseq c m)
  else if id =? SIP_HDR_RSEQ then Some (Ok (set_rel_seq (pl_u32 val) m))
  else if id =? SIP_HDR_RACK then opt (Some (sip_rack_decode val)) (fun r => set_rack r m)
  else if id =? SIP_HDR_MAX_FORWARDS then Some (Ok (set_maxfwd val m))
  else if id =? SIP_HDR_CONTENT_TYPE then opt (Some (msg_ctype_decode val)) (fun c => set_ctyp c m)
  else if id =? SIP_HDR_CONTENT_LENGTH then Some (Ok (set_clen val m))
  else if id =? SIP_HDR_EXPIRES then Some (Ok (set_expires val m))
  else Some (Ok m).

Definition hdr_add (text : list Z) (m : sip_msg) (name : Z * Z) (id : Z) (p l : Z) (atomic line : bool) : option (res sip_msg) :=
  match mem_alloc SIP_HDR_STRUCT with
  | None => Some (Err ENOMEM)
  | Some _ =>
      match subtext text name.1 name.2, subtext text p (Z.max l 0) with
      | Some n, Some v =>
          let hdr := SipHdr n v id in
          hdr_parse (hdr_store m hdr atomic line) hdr atomic
      | _, _ => None
      end
  end.

(** A value or a line has ended at [p]: the headers are added.  After a line the
    state is reset. *)
Definition end_value (text : list Z) (p : Z) (st : dec_state) : option (res dec_state) :=
  match ds_name st with
  | None => None
  | Some n =>
      let name := (n, ds_namel st) in
      let at_ o := match o with Some c => c | None => p end in
      let len o := match o with Some c => p - c - ds_ws st | None => 0 end in
      let same := bool_decide (ds_cv st = ds_v st) in
      let lf := negb (ds_lf st =? 0) in
      match hdr_add text (ds_msg st) name (ds_id st) (at_ (ds_cv st)) (len (ds_cv st)) true (same && lf) with
      | Some (Ok m) =>
          if negb lf then
            Some (Ok (DecState (ds_name st) (ds_namel st) (ds_v st) None (ds_ws st) (ds_lf st) (ds_comsep st) (ds_quote st) (ds_id st) m))
          else
            match (if same then Some (Ok m) else hdr_add text m name (ds_id st) (at_ (ds_v st)) (len (ds_v st)) false true) with
            | Some (Ok m) => Some (Ok (DecState None (ds_namel st) None None (ds_ws st) 0 false (ds_quote st) (ds_id st) m))
            | Some (Err e) => Some (Err e)
            | None => None
            end
      | Some (Err e) => Some (Err e)
      | None => None
      end
  end.

(** A character of a name or of a value. *)
Definition name_value (text : list Z) (p c : Z) (st : dec_state) : option (res dec_state) :=
  let st := match ds_name st with
            | None => DecState (Some p) 0 (ds_v st) (ds_cv st) 0 (ds_lf st) (ds_comsep st) (ds_quote st) (ds_id st) (ds_msg st)
            | Some _ => st
            end in
  if ds_namel st =? 0 then
    if negb (c =? ch ":") then Some (Ok (set_space st 0 (ds_lf st)))
    else
      match ds_name st with
      | None => None
      | Some n =>
          let l := Z.max (swrap 32 (p - n - ds_ws st)) 0 in
          if l =? 0 then Some (Err EBADMSG)
          else
            match subtext text n l with
            | None => None
            | Some name =>
                let id := hdr_hash char_signed name in
                Some (Ok (DecState (Some n) l (ds_v st) (ds_cv st) (ds_ws st) (ds_lf st) (hdr_comma_separated id) (ds_quote st) id (ds_msg st)))
            end
      end
  else
    let '(quote, cv) := match ds_cv st with None => (false, Some p) | Some _ => (ds_quote st, ds_cv st) end in
    let v := match ds_v st with None => Some p | Some _ => ds_v st end in
    let quote := if c =? 34 then negb quote else quote in
    Some (Ok (DecState (ds_name st) (ds_namel st) v cv 0 (ds_lf st) (ds_comsep st) quote (ds_id st) (ds_msg st))).

(** The loop over the headers: the message and the number of bytes left. *)
Fixpoint hdr_loop (text : list Z) (p : Z) (rest : list Z) (st : dec_state) : option (res (sip_msg * Z)) :=
  match rest with
  | [] => Some (Err ENODATA)
  | c :: rest =>
      let next st := hdr_loop text (p + 1) rest st in
      if (c =? 32) || (c =? HT) then next (set_space st (ds_ws st + 1) 0)
      else if c =? CR then next (set_space st (ds_ws st + 1) (ds_lf st))
      else if c =? LF then
        let first := ds_lf st =? 0 in
        let st := set_space st (ds_ws st + 1) (ds_lf st + 1) in
        if first then next st
        else if ds_namel st =? 0 then Some (Err EBADMSG)
        else
          match end_value text (p + 1) st with
          | Some (Ok st) => Some (Ok (ds_msg st, zlength rest))
          | Some (Err e) => Some (Err e)
          | None => None
          end
      else
        let go st := match name_value text p c st with Some (Ok st) => next st | Some (Err e) => Some (Err e) | None => None end in
        if negb (ds_lf st =? 0) || ((c =? ch ",") && ds_comsep st && negb (ds_quote st)) then
          if ds_namel st =? 0 then Some (Err EBADMSG)
          else
            match end_value text p st with
            | Some (Ok st') => if ds_lf st =? 0 then next st' else go st'
            | Some (Err e) => Some (Err e)
            | None => None
            end
        else go st
  end.

Definition expr_startline : list Z :=
  chars "[^ " ++ tcn ++ chars "]+ [^ " ++ tcn ++ chars "]+ [^" ++ [CR; LF] ++ chars "]*[" ++ [CR] ++ chars "]*[" ++ [LF] ++ chars "]1".

(** The start line: a request or a status. *)
Definition start_line (x y z : list Z) (tag : Z) : res sip_msg :=
  let req := pl_strcmp (Some z) (chars "SIP/2.0") =? 0 in
  let mk ver met ruri uri scode reason :=
    SipMsg sa0 ver met ruri uri scode reason [] via0 taddr0 taddr0 (SipCseq None 0) (SipRack None 0 0) 0 (MsgCtype None None None)
      None None None None [] tag SIP_TRANSP_UDP req in
  if req then
    match uri_decode (Some y) with
    | Ok u => Ok (mk (Some z) (Some x) (Some y) u 0 None)
    | Err _ => Err EBADMSG
    end
  else
    let scode := u16 (pl_u32 (Some y)) in
    if scode =? 0 then Err EBADMSG else Ok (mk (Some x) None None uri0 scode (Some z)).

Definition dec0 (m : sip_msg) : dec_state := DecState None 0 None None 0 0 false false SIP_HDR_NONE m.

(** [tag] is what rand_u64 returned. *)
Definition decode_text (tag : Z) (text : list Z) : option (res (sip_msg * Z)) :=
  match re_regex_at text expr_startline with
  | Ok (0, [x; y; z; r; e]) =>
      match mem_alloc SIP_MSG_STRUCT, mem_alloc HASH_STRUCT, mem_alloc (hash_valid_size HDR_HASH_SIZE * LIST_STRUCT) with
      | Some _, Some _, Some _ =>
          match start_line x y z tag with
          | Err err => Some (Err err)
          | Ok m =>
              let n := zlength x + 1 + zlength y + 1 + zlength z + zlength r + zlength e in
              hdr_loop text n (zdrop n text) (dec0 m)
          end
      | _, _, _ => Some (Err ENOMEM)
      end
  | _ => Some (Err (if zlength text >? STARTLINE_MAX then EBADMSG else ENODATA))
  end.

Definition sip_msg_decode (tag : Z) (mb : mbuf) : option (res (sip_msg * mbuf)) :=
  match decode_text tag (ztake (mbuf_get_left mb) (mbuf_buf mb)) with
  | Some (Ok (m, l)) => Some (Ok (m, mbuf_set_pos mb (mb_end mb - l)))
  | Some (Err e) => Some (Err e)
  | None => None
  end.

(** ** Headers of a message *)

Definition hdr_bucket (m : sip_msg) (id : Z) : list sip_hdr :=
  List.filter (fun h => Z.land (hdr_id h) (HDR_HASH_SIZE - 1) =? Z.land id (HDR_HASH_SIZE - 1)) (m_hdrht m).

(** The loop over a bucket; [h] returns true to stop. *)
Fixpoint hdr_apply {S} (skip : sip_hdr -> bool) (h : option (sip_hdr -> S -> bool * S)) (l : list sip_hdr) (s : S) : option sip_hdr * S :=
  match l with
  | [] => (None, s)
  | hdr :: l =>
      if skip hdr then hdr_apply skip h l s
      else
        match h with
        | None => (Some hdr, s)
        | Some f => let '(stop, s) := f hdr s in if stop then (Some hdr, s) else hdr_apply skip h l s
        end
  end.

Definition sip_msg_hdr_apply {S} (m : sip_msg) (fwd : bool) (id : Z) (h : option (sip_hdr -> S -> bool * S)) (s : S) : option sip_hdr * S :=
  let l := hdr_bucket m id in
  hdr_apply (fun hdr => negb (hdr_id hdr =? id)) h (if fwd then l else rev l) s.
Definition sip_msg_hdr (m : sip_msg) (id : Z) : option sip_hdr := (sip_msg_hdr_apply m true id None tt).1.

Definition sip_msg_xhdr_apply {S} (m : sip_msg) (fwd : bool) (name : list Z) (h : option (sip_hdr -> S -> bool * S)) (s : S) : option sip_hdr * S :=
  let l := hdr_bucket m (hdr_hash char_signed name) in
  hdr_apply (fun hdr => negb (pl_casecmp (Some (hdr_name hdr)) (Some name) =? 0)) h (if fwd then l else rev l) s.
Definition sip_msg_xhdr (m : sip_msg) (name : list Z) : option sip_hdr := (sip_msg_xhdr_apply m true name None tt).1.

Definition count_handler (_ : sip_hdr) (n : Z) : bool * Z := (false, u32 (n + 1)).
Definition sip_msg_hdr_count (m : sip_msg) (id : Z) : Z := (sip_msg_hdr_apply m true id (Some count_handler) 0).2.
Definition sip_msg_xhdr_count (m : sip_msg) (name : list Z) : Z := (sip_msg_xhdr_apply m true name (Some count_handler) 0).2.

Definition value_handler (value : list Z) (hdr : sip_hdr) (s : unit) : bool * unit := (pl_strcasecmp (Some (hdr_val hdr)) value =? 0, s).
Definition sip_msg_hdr_has_value (m : sip_msg) (id : Z) (value : list Z) : bool :=
  match (sip_msg_hdr_apply m true id (Some (value_handler value)) tt).1 with Some _ => true | None => false end.
Definition sip_msg_xhdr_has_value (m : sip_msg) (name value : list Z) : bool :=
  match (sip_msg_xhdr_apply m true name (Some (value_handler value)) tt).1 with Some _ => true | None => false end.
End Message.
