(* ===== verification/SipMsgSpec.v ===== *)
(** * SIP messages: what is decoded

    The loop of sip_msg_decode runs over characters, with positions, counters of
    white space and flags.  [msg_add] is what a header line means: its values
    are added one by one, and then the line as a whole.  [decode_lines] shows
    that the loop does just that. *)

From stdpp Require Import base list numbers strings.
From Stdlib Require Import ZArith Lia.
From S2P Require Import Prelude Endian Mbuf Hash Dname Fmt Sa Odict Print Regex Uri UriSpec SipMsg.

Open Scope Z_scope.

(** ** Results *)

Definition andthen {A B} (r : option (res A)) (k : A -> option (res B)) : option (res B) :=
  match r with Some (Ok a) => k a | Some (Err e) => Some (Err e) | None => None end.

Lemma andthen_assoc {A B C} (r : option (res A)) (k : A -> option (res B)) (k' : B -> option (res C)) :
  andthen (andthen r k) k' = andthen r (fun a => andthen (k a) k').
Proof. by destruct r as [[]|]. Qed.
Lemma andthen_ext {A B} (r : option (res A)) (k k' : A -> option (res B)) : (forall a, k a = k' a) -> andthen r k = andthen r k'.
Proof. intros E. destruct r as [[]|]; cbn; auto. Qed.

Lemma subtext_mid pre s post : subtext (pre ++ s ++ post) (zlength pre) (zlength s) = Some s.
Proof.
  unfold subtext. rewrite !zlength_app. pose proof (zlength_nonneg pre). pose proof (zlength_nonneg s). pose proof (zlength_nonneg post).
  rewrite !(proj2 (Z.leb_le _ _)) by lia. cbn [andb]. by rewrite zdrop_app_exact, ztake_app_exact.
Qed.

(** ** Lines *)

Definition blank (c : Z) : bool := (c =? 32) || (c =? HT).
Definition eol (c : Z) : bool := (c =? CR) || (c =? LF).
Definition space (c : Z) : bool := blank c || eol c.

(** Every line feed is a fold: a blank comes before the next character that is
    not white space and before the next line feed.  [lf] says that a line feed
    has been read. *)
Fixpoint folded (lf : bool) (u : list Z) : bool :=
  match u with
  | [] => negb lf
  | c :: u =>
      if blank c then folded false u
      else if c =? CR then folded lf u
      else negb lf && folded (c =? LF) u
  end.

(** White space, possibly over several lines. *)
Definition lws (g : list Z) : bool := forallb space g && folded false g.

(** No comma separates values: they are quoted, or the header has one value. *)
Fixpoint bare (comsep quote : bool) (u : list Z) : bool :=
  match u with
  | [] => true
  | c :: u => negb ((c =? ch ",") && comsep && negb quote) && bare comsep (if c =? 34 then negb quote else quote) u
  end.
Fixpoint quote_after (quote : bool) (u : list Z) : bool :=
  match u with [] => quote | c :: u => quote_after (if c =? 34 then negb quote else quote) u end.

(** A header line: the name, the first value and the values after commas, with
    the white space (and the folds) around them. *)
Record line := Line {
  ln_name : list Z;
  ln_lead : list Z;
  ln_first : list Z;
  ln_more : list (list Z * list Z * list Z);
  ln_trail : list Z;
}.

Definition more_text (g : list Z * list Z * list Z) : list Z := let '(g1, g2, u) := g in g1 ++ [ch ","] ++ g2 ++ u.
Definition ln_value (l : line) : list Z := ln_first l ++ concat (map more_text (ln_more l)).
Definition line_text (l : line) : list Z := ln_name l ++ [ch ":"] ++ ln_lead l ++ ln_value l ++ ln_trail l ++ [CR; LF].

Definition core_ok (comsep : bool) (u : list Z) : bool :=
  folded false u && bare comsep false u &&
  match u with c :: _ => negb (space c) && negb (space (List.last u 0)) | [] => false end.

Lemma unfolded u : forallb (fun c => negb (eol c)) u = true -> folded false u = true.
Proof.
  induction u as [|c u IH]; [done|]. cbn [forallb folded]. unfold eol. intros [Hc Hu]%andb_prop.
  apply negb_true_iff, orb_false_elim in Hc as [-> ->]. destruct (blank c); by apply IH.
Qed.

Lemma folded_app u u' : forall lf, folded lf u = true -> folded false u' = true -> folded lf (u ++ u') = true.
Proof.
  induction u as [|c u IH]; intros lf; cbn [folded app]; [by destruct lf|]. destruct (blank c); [apply IH|]. destruct (c =? CR); [apply IH|].
  intros [-> Hu]%andb_prop Hu'. by apply IH.
Qed.

(** The count of white space after some characters. *)
Fixpoint ws_after (ws : Z) (u : list Z) : Z := match u with [] => ws | c :: u => ws_after (if space c then ws + 1 else 0) u end.

Lemma ws_after_app u u' : forall ws, ws_after ws (u ++ u') = ws_after (ws_after ws u) u'.
Proof. induction u as [|c u IH]; intros ws; [done|]. cbn. apply IH. Qed.
Lemma ws_after_last u ws : space (List.last u 0) = false -> u <> [] -> ws_after ws u = 0.
Proof. intros Hl Hu. destruct (exists_last Hu) as (u' & c & ->). rewrite List.last_last in Hl. rewrite ws_after_app. cbn. by rewrite Hl. Qed.

Definition ln_last (l : line) : list Z := List.last (map snd (ln_more l)) (ln_first l).

Lemma more_last more cur : exists w, cur ++ concat (map more_text more) = w ++ List.last (map snd more) cur /\ (more <> [] -> w <> []) /\ (more = [] -> w = []).
Proof.
  destruct more as [|g more'] eqn:E; [exists []; cbn; by rewrite app_nil_r|]. rewrite <- E. assert (Hne : more <> []) by (by rewrite E).
  destruct (exists_last Hne) as (l & [[g1 g2] u] & ->). rewrite !map_app, concat_app. cbn [map concat snd]. rewrite List.last_last, app_nil_r.
  exists (cur ++ concat (map more_text l) ++ g1 ++ [ch ","] ++ g2). split_and!; [by rewrite <- !app_assoc|intros _ Hx|by destruct l].
  apply (f_equal zlength) in Hx. rewrite !zlength_app in Hx. change (zlength [ch ","]) with 1 in Hx. change (zlength (@nil Z)) with 0 in Hx.
  pose proof (zlength_nonneg cur). pose proof (zlength_nonneg (concat (map more_text l))). pose proof (zlength_nonneg g1). pose proof (zlength_nonneg g2). lia.
Qed.

Section Decode.
Context `{H : Host} `{P : Platform} `{R : Resolver} (char_signed : bool).

Definition ln_id (l : line) : Z := hdr_hash char_signed (ln_name l).

Record line_ok (l : line) : Prop := {
  lok_name : forallb (fun c => negb (blank c || eol c || (c =? ch ":"))) (ln_name l) = true /\ 0 < zlength (ln_name l);
  lok_lead : lws (ln_lead l) = true;
  lok_first : core_ok (hdr_comma_separated (ln_id l)) (ln_first l) = true;
  lok_more : forall g1 g2 u, In (g1, g2, u) (ln_more l) ->
    lws g1 = true /\ lws g2 = true /\ core_ok (hdr_comma_separated (ln_id l)) u = true;
  lok_sep : ln_more l <> [] ->
    hdr_comma_separated (ln_id l) = true /\ forallb (fun u => negb (quote_after false u)) (removelast (ln_first l :: map snd (ln_more l))) = true;
  lok_trail : lws (ln_trail l) = true;
}.

(** A header is stored and, where it is a common one, parsed. *)
Definition msg_hdr (m : sip_msg) (hdr : sip_hdr) (atomic line : bool) : option (res sip_msg) :=
  match mem_alloc SIP_HDR_STRUCT with None => Some (Err ENOMEM) | Some _ => hdr_parse (hdr_store m hdr atomic line) hdr atomic end.

Fixpoint msg_values (name : list Z) (id : Z) (m : sip_msg) (vs : list (list Z)) : option (res sip_msg) :=
  match vs with
  | [] => Some (Ok m)
  | v :: vs => andthen (msg_hdr m (SipHdr name v id) true false) (fun m => msg_values name id m vs)
  end.

Definition msg_add (m : sip_msg) (l : line) : option (res sip_msg) :=
  let id := ln_id l in
  match ln_more l with
  | [] => msg_hdr m (SipHdr (ln_name l) (ln_first l) id) true true
  | _ => andthen (msg_values (ln_name l) id m (ln_first l :: map snd (ln_more l)))
           (fun m => msg_hdr m (SipHdr (ln_name l) (ln_value l) id) false true)
  end.

Fixpoint msg_lines (m : sip_msg) (ls : list line) : option (res sip_msg) :=
  match ls with [] => Some (Ok m) | l :: ls => andthen (msg_add m l) (fun m => msg_lines m ls) end.

(** hdr_add where name and value are found in the text. *)
Lemma hdr_add_eq text m n nl id p l atomic line name v : subtext text n nl = Some name -> subtext text p (Z.max l 0) = Some v ->
  hdr_add text m (n, nl) id p l atomic line = msg_hdr m (SipHdr name v id) atomic line.
Proof. intros En Ev. unfold hdr_add, msg_hdr. cbn [fst snd]. by rewrite En, Ev. Qed.

(** ** The loop on the parts of a line *)

Lemma space_step c s lf : space c = true -> folded lf (c :: s) = true -> exists lf', folded lf' s = true
  /\ forall text p rest n nl v cv ws cs q id m, 0 <= ws < 2 ^ 32 - 1 ->
     hdr_loop char_signed text p (c :: rest) (DecState n nl v cv ws (Z.b2z lf) cs q id m)
     = hdr_loop char_signed text (p + 1) rest (DecState n nl v cv (ws + 1) (Z.b2z lf') cs q id m).
Proof.
  unfold space, eol. cbn [folded]. destruct (blank c) eqn:Eb; [|destruct (c =? CR) eqn:Er; [|destruct (c =? LF) eqn:El; [|done]]]; intros _ Hf.
  - exists false. split; [done|]. intros text p rest n nl v cv ws cs q id m Hw. unfold blank in Eb. cbn [hdr_loop]. rewrite Eb. unfold set_space.
    cbn [ds_name ds_namel ds_v ds_cv ds_ws ds_lf ds_comsep ds_quote ds_id ds_msg]. by rewrite (wrap_small 32 (ws + 1)) by lia.
  - exists lf. split; [done|]. intros text p rest n nl v cv ws cs q id m Hw. unfold blank in Eb. cbn [hdr_loop]. rewrite Eb, Er. unfold set_space.
    cbn [ds_name ds_namel ds_v ds_cv ds_ws ds_lf ds_comsep ds_quote ds_id ds_msg]. rewrite (wrap_small 32 (ws + 1)) by lia. by destruct lf.
  - apply andb_prop in Hf as [Hlf Hf]. destruct lf; [done|]. exists true. split; [done|]. intros text p rest n nl v cv ws cs q id m Hw. unfold blank in Eb.
    cbn [hdr_loop]. rewrite Eb, Er, El. unfold set_space. cbn [ds_name ds_namel ds_v ds_cv ds_ws ds_lf ds_comsep ds_quote ds_id ds_msg Z.b2z Z.eqb].
    by rewrite (wrap_small 32 (ws + 1)) by lia.
Qed.

Lemma run_space s : forall lf text p rest n nl v cv ws cs q id m, forallb space s = true -> folded lf s = true -> 0 <= ws -> ws + zlength s < 2 ^ 32 ->
  hdr_loop char_signed text p (s ++ rest) (DecState n nl v cv ws (Z.b2z lf) cs q id m)
  = hdr_loop char_signed text (p + zlength s) rest (DecState n nl v cv (ws + zlength s) 0 cs q id m).
Proof.
  induction s as [|c s IH]; intros lf text p rest n nl v cv ws cs q id m Hs Hf Hw Hl.
  { change (zlength (@nil Z)) with 0. rewrite !Z.add_0_r. by destruct lf. }
  cbn [forallb] in Hs. apply andb_prop in Hs as [Hc Hs]. rewrite zlength_cons in *. pose proof (zlength_nonneg s).
  destruct (space_step c s lf Hc Hf) as (lf' & Hf' & E). cbn [app]. rewrite E by lia. rewrite (IH lf') by (done || lia). f_equal; [lia|]. f_equal. lia.
Qed.

Lemma run_blank s text p rest n nl v cv ws cs q id m : lws s = true -> 0 <= ws -> ws + zlength s < 2 ^ 32 ->
  hdr_loop char_signed text p (s ++ rest) (DecState n nl v cv ws 0 cs q id m)
  = hdr_loop char_signed text (p + zlength s) rest (DecState n nl v cv (ws + zlength s) 0 cs q id m).
Proof. intros [Hs Hf]%andb_prop. by apply (run_space s false). Qed.

Lemma default_step text p c rest st : blank c = false -> eol c = false -> ds_lf st = 0 -> (c =? ch ",") && ds_comsep st && negb (ds_quote st) = false ->
  hdr_loop char_signed text p (c :: rest) st = andthen (name_value char_signed text p c st) (fun st => hdr_loop char_signed text (p + 1) rest st).
Proof.
  unfold blank, eol. intros Hb He Hl Hc. apply orb_false_elim in He as [He1 He2]. cbn [hdr_loop]. rewrite Hb, He1, He2, Hl, Hc. cbn [negb Z.eqb orb].
  by destruct (name_value char_signed text p c st) as [[]|].
Qed.

(** The characters of a name, and the colon. *)
Lemma run_name_chars s : forall text p rest n q id m, forallb (fun c => negb (blank c || eol c || (c =? ch ":"))) s = true ->
  hdr_loop char_signed text p (s ++ rest) (DecState (Some n) 0 None None 0 0 false q id m)
  = hdr_loop char_signed text (p + zlength s) rest (DecState (Some n) 0 None None 0 0 false q id m).
Proof.
  induction s as [|c s IH]; intros text p rest n q id m Hs; [by rewrite Z.add_0_r|].
  cbn [forallb] in Hs. apply andb_prop in Hs as [Hc Hs]. apply negb_true_iff, orb_false_elim in Hc as [Hc Hcol]. apply orb_false_elim in Hc as [Hb He].
  cbn [app]. rewrite default_step by (done || by rewrite andb_false_r). unfold name_value. cbn [ds_name ds_namel]. rewrite Hcol. cbn [negb andthen Z.eqb]. 
  change (set_space _ 0 _) with (DecState (Some n) 0 None None 0 0 false q id m). rewrite IH by done. rewrite zlength_cons. f_equal. lia.
Qed.

Lemma run_name pre name rest nl ws q id m : forallb (fun c => negb (blank c || eol c || (c =? ch ":"))) name = true -> 0 < zlength name < 2 ^ 31 ->
  hdr_loop char_signed (pre ++ name ++ [ch ":"] ++ rest) (zlength pre) (name ++ [ch ":"] ++ rest) (DecState None nl None None ws 0 false q id m)
  = hdr_loop char_signed (pre ++ name ++ [ch ":"] ++ rest) (zlength pre + zlength name + 1) rest
      (DecState (Some (zlength pre)) (zlength name) None None 0 0 (hdr_comma_separated (hdr_hash char_signed name)) q (hdr_hash char_signed name) m).
Proof.
  intros Hs Hl. set (text := pre ++ _). assert (Hn : subtext text (zlength pre) (zlength name) = Some name) by apply subtext_mid. clearbody text.
  assert (E : forall c s, name = c :: s -> hdr_loop char_signed text (zlength pre) (name ++ [ch ":"] ++ rest) (DecState None nl None None ws 0 false q id m)
    = hdr_loop char_signed text (zlength pre) (name ++ [ch ":"] ++ rest) (DecState (Some (zlength pre)) 0 None None 0 0 false q id m)).
  { intros c s ->. cbn [forallb] in Hs. apply andb_prop in Hs as [Hc _]. apply negb_true_iff, orb_false_elim in Hc as [Hc _]. apply orb_false_elim in Hc as [Hb He].
    cbn [app]. rewrite !default_step by (done || by rewrite andb_false_r). reflexivity. }
  destruct name as [|c s]; [change (zlength (@nil Z)) with 0 in Hl; lia|]. rewrite (E c s eq_refl), run_name_chars by done. cbn [app].
  rewrite default_step by done. unfold name_value. cbn [ds_name ds_namel ds_v ds_cv ds_ws ds_lf ds_comsep ds_quote ds_id ds_msg]. change (negb (ch ":" =? ch ":")) with false. change (0 =? 0) with true. cbn iota.
  replace (zlength pre + zlength (c :: s) - zlength pre - 0) with (zlength (c :: s)) by lia. rewrite swrap_within by lia.
  rewrite Z.max_l by lia. rewrite (proj2 (Z.eqb_neq _ 0)) by lia. rewrite Hn. reflexivity.
Qed.

(** The characters of a value. *)
Lemma run_core u : forall lf text p rest n nl b a ws cs q id m, nl <> 0 -> folded lf u = true -> bare cs q u = true -> 0 <= ws -> ws + zlength u < 2 ^ 32 ->
  hdr_loop char_signed text p (u ++ rest) (DecState (Some n) nl (Some b) (Some a) ws (Z.b2z lf) cs q id m)
  = hdr_loop char_signed text (p + zlength u) rest (DecState (Some n) nl (Some b) (Some a) (ws_after ws u) 0 cs (quote_after q u) id m).
Proof.
  induction u as [|c u IH]; intros lf text p rest n nl b a ws cs q id m Hn Hu Hb Hw Hl; [rewrite Z.add_0_r; by destruct lf|].
  cbn [bare] in Hb. apply andb_prop in Hb as [Hcm Hb]. apply negb_true_iff in Hcm. rewrite zlength_cons in *. pose proof (zlength_nonneg u).
  cbn [ws_after quote_after app]. destruct (space c) eqn:Es.
  - destruct (space_step c u lf Es Hu) as (lf' & Hf' & E). rewrite E by lia.
    assert (Eq : (c =? 34) = false) by (unfold space, blank, eol, HT, CR, LF in Es; lia). rewrite Eq in *. rewrite (IH lf') by (done || lia). f_equal. lia.
  - pose proof Es as Es'. unfold space in Es. apply orb_false_elim in Es as [Eb Ee]. pose proof Ee as Ee'. unfold eol in Ee. apply orb_false_elim in Ee as [E1 E2].
    cbn [folded] in Hu. rewrite Eb, E1, E2 in Hu. apply andb_prop in Hu as [Hlf Hu]. destruct lf; [done|]. cbn [Z.b2z].
    rewrite default_step by done. unfold name_value. cbn [ds_name ds_namel ds_v ds_cv ds_ws ds_lf ds_comsep ds_quote ds_id ds_msg andthen].
    rewrite (proj2 (Z.eqb_neq _ 0) Hn). cbn [andthen].
    rewrite (IH false) by (done || lia). f_equal. lia.
Qed.

(** A whole value, from its first character. *)
Lemma run_value u text p rest n nl v ws cs q id m : nl <> 0 -> core_ok cs u = true -> zlength u < 2 ^ 32 ->
  hdr_loop char_signed text p (u ++ rest) (DecState (Some n) nl v None ws 0 cs q id m)
  = hdr_loop char_signed text (p + zlength u) rest (DecState (Some n) nl (match v with None => Some p | Some _ => v end) (Some p) 0 0 cs (quote_after false u) id m).
Proof.
  intros Hn Hu Hl. unfold core_ok in Hu. apply andb_prop in Hu as [Hu Hx]. apply andb_prop in Hu as [He Hb]. destruct u as [|c u]; [done|].
  apply andb_prop in Hx as [Hc Hlast]. apply negb_true_iff in Hc, Hlast. pose proof Hc as Hc'. unfold space in Hc'. apply orb_false_elim in Hc' as [Hbl Hel].
  assert (E : hdr_loop char_signed text p ((c :: u) ++ rest) (DecState (Some n) nl v None ws 0 cs q id m)
    = hdr_loop char_signed text p ((c :: u) ++ rest) (DecState (Some n) nl (match v with None => Some p | Some _ => v end) (Some p) 0 0 cs false id m)).
  { cbn [bare] in Hb. apply andb_prop in Hb as [Hb _]. apply negb_true_iff in Hb. cbn [app].
    assert (Hq : forall q, (c =? ch ",") && cs && negb q = false) by (intros q'; destruct (c =? ch ","), cs, q'; done).
    rewrite !default_step by (done || apply Hq). unfold name_value. cbn [ds_name ds_namel ds_v ds_cv ds_ws ds_lf ds_comsep ds_quote ds_id ds_msg andthen].
    rewrite (proj2 (Z.eqb_neq _ 0) Hn). by destruct v. }
  rewrite E. pose proof (zlength_nonneg (c :: u)). destruct v as [v|]; rewrite (run_core _ false) by (done || lia); rewrite ws_after_last by done; done.
Qed.

(** A comma ends a value. *)
Lemma comma_step text p rest n nl name v b a ws id m : nl <> 0 -> subtext text n nl = Some name -> 0 <= p - a - ws -> subtext text a (p - a - ws) = Some v ->
  hdr_loop char_signed text p (ch "," :: rest) (DecState (Some n) nl b (Some a) ws 0 true false id m)
  = andthen (msg_hdr m (SipHdr name v id) true false) (fun m => hdr_loop char_signed text (p + 1) rest (DecState (Some n) nl b None ws 0 true false id m)).
Proof.
  intros Hn En Hp Ev. cbn [hdr_loop ds_lf ds_comsep ds_quote ds_namel]. change ((ch "," =? 32) || (ch "," =? HT)) with false. change (ch "," =? CR) with false.
  change (ch "," =? LF) with false. cbn [Z.eqb negb orb]. change ((ch "," =? ch ",") && true && true) with true. cbn iota. rewrite (proj2 (Z.eqb_neq _ 0) Hn).
  unfold end_value. cbn [ds_name ds_namel ds_v ds_cv ds_ws ds_lf ds_comsep ds_quote ds_id ds_msg]. change (negb (0 =? 0)) with false. rewrite andb_false_r.
  rewrite (hdr_add_eq _ _ _ _ _ _ _ _ _ name v En) by (by rewrite Z.max_l by lia). by destruct (msg_hdr m _ true false) as [[]|].
Qed.

Lemma msg_values_app name id vs vs' : forall m, msg_values name id m (vs ++ vs') = andthen (msg_values name id m vs) (fun m => msg_values name id m vs').
Proof. induction vs as [|v vs IH]; intros m; [done|]. cbn [app msg_values]. rewrite andthen_assoc. apply andthen_ext. intros a. apply IH. Qed.

(** The values after the first one. *)
Lemma run_more more : forall text pre cur rest n nl name b id cs m, text = pre ++ cur ++ concat (map more_text more) ++ rest ->
  subtext text n nl = Some name -> nl <> 0 -> zlength text < 2 ^ 32 ->
  (more <> [] -> cs = true /\ forallb (fun u => negb (quote_after false u)) (removelast (cur :: map snd more)) = true) ->
  (forall g1 g2 u, In (g1, g2, u) more -> lws g1 = true /\ lws g2 = true /\ core_ok cs u = true) ->
  hdr_loop char_signed text (zlength pre + zlength cur) (concat (map more_text more) ++ rest) (DecState (Some n) nl (Some b) (Some (zlength pre)) 0 0 cs (quote_after false cur) id m)
  = andthen (msg_values name id m (removelast (cur :: map snd more))) (fun m =>
      hdr_loop char_signed text (zlength pre + zlength cur + zlength (concat (map more_text more))) rest
        (DecState (Some n) nl (Some b) (Some (zlength pre + zlength cur + zlength (concat (map more_text more)) - zlength (List.last (map snd more) cur))) 0 0 cs
           (quote_after false (List.last (map snd more) cur)) id m)).
Proof.
  induction more as [|[[g1 g2] u] more IH]; intros text pre cur rest n nl name b id cs m Et En Hn Hl Hq Hm.
  { cbn [map concat removelast List.last app msg_values andthen]. change (zlength (@nil Z)) with 0. by rewrite !Z.add_0_r, Z.add_simpl_r. }
  destruct (Hq ltac:(done)) as [-> Hcl]. clear Hq. cbn [map snd] in Hcl |- *. change (removelast (cur :: u :: map snd more)) with (cur :: removelast (u :: map snd more)) in *.
  cbn [forallb] in Hcl. apply andb_prop in Hcl as [Hc Hcl]. apply negb_true_iff in Hc. destruct (Hm g1 g2 u ltac:(by left)) as (Hg1 & Hg2 & Hu).
  cbn [concat]. set (tl := concat (map more_text more)) in *. change (more_text (g1, g2, u)) with (g1 ++ [ch ","] ++ g2 ++ u) in *.
  cbn [concat map] in Et. change (more_text (g1, g2, u)) with (g1 ++ [ch ","] ++ g2 ++ u) in Et. fold tl in Et. rewrite <- !app_assoc in Et |- *.
  assert (Lt : zlength text = zlength pre + zlength cur + zlength g1 + 1 + zlength g2 + zlength u + zlength tl + zlength rest).
  { rewrite Et, !zlength_app. change (zlength [ch ","]) with 1. lia. }
  pose proof (zlength_nonneg pre). pose proof (zlength_nonneg cur). pose proof (zlength_nonneg g1). pose proof (zlength_nonneg g2). pose proof (zlength_nonneg u). pose proof (zlength_nonneg tl). pose proof (zlength_nonneg rest).
  rewrite run_blank by (done || lia). rewrite Z.add_0_l, Hc. change ([ch ","] ++ ?x) with (ch "," :: x).
  rewrite (comma_step _ _ _ _ _ name cur) by (done || lia || (rewrite Et; replace (zlength pre + zlength cur + zlength g1 - zlength pre - zlength g1) with (zlength cur) by lia; apply subtext_mid)).
  cbn [msg_values]. rewrite andthen_assoc. apply andthen_ext. intros m'. rewrite run_blank by (done || lia). rewrite run_value by (done || lia).
  specialize (IH text (pre ++ cur ++ g1 ++ [ch ","] ++ g2) u rest n nl name b id true m').
  repeat rewrite zlength_app in IH. repeat rewrite zlength_app. change (zlength [ch ","]) with 1 in *. rewrite <- !app_assoc in IH.
  replace (zlength pre + zlength cur + zlength g1 + 1 + zlength g2) with (zlength pre + (zlength cur + (zlength g1 + (1 + zlength g2)))) by lia.
  rewrite IH; [|done|done|done|done|by intros _|intros; apply Hm; by right]. apply andthen_ext. intros m''. fold tl.
  assert (El : List.last (u :: map snd more) cur = List.last (map snd more) u) by (destruct (map snd more) as [|x l]; [done|]; change (List.last (x :: l) cur = List.last (x :: l) u); generalize x; clear; induction l as [|y l IHl]; intros x; [done|apply IHl]).
  rewrite El. repeat (rewrite zlength_app || rewrite zlength_cons). f_equal; [lia|]. f_equal. f_equal. lia.
Qed.

(** *** A line, and its end *)

(** The end of the line has been read, its last value not yet added: [k] counts
    the white space of an empty line. *)
Definition pending (pre : list Z) (l : line) (k lf : Z) (m : sip_msg) : dec_state :=
  let b := zlength pre + zlength (ln_name l) + 1 + zlength (ln_lead l) in
  DecState (Some (zlength pre)) (zlength (ln_name l)) (Some b) (Some (b + zlength (ln_value l) - zlength (ln_last l)))
    (zlength (ln_trail l) + 2 + k) lf (hdr_comma_separated (ln_id l)) (quote_after false (ln_last l)) (ln_id l) m.

Definition ln_init (l : line) : list (list Z) := removelast (ln_first l :: map snd (ln_more l)).

Lemma line_text_length l : zlength (line_text l) = zlength (ln_name l) + 1 + zlength (ln_lead l) + zlength (ln_value l) + zlength (ln_trail l) + 2.
Proof. unfold line_text. rewrite !zlength_app. change (zlength [ch ":"]) with 1. change (zlength [CR; LF]) with 2. lia. Qed.

Lemma run_crlf text p rest n nl v cv ws cs q id m : 0 <= ws -> ws + 2 < 2 ^ 32 ->
  hdr_loop char_signed text p ([CR; LF] ++ rest) (DecState n nl v cv ws 0 cs q id m) = hdr_loop char_signed text (p + 2) rest (DecState n nl v cv (ws + 2) 1 cs q id m).
Proof.
  intros Hw Hl. change ([CR; LF] ++ rest) with (CR :: LF :: rest). cbn [hdr_loop]. change ((CR =? 32) || (CR =? HT)) with false. change ((LF =? 32) || (LF =? HT)) with false.
  change (CR =? CR) with true. change (LF =? CR) with false. change (LF =? LF) with true. cbn iota. unfold set_space. cbn [ds_name ds_namel ds_v ds_cv ds_ws ds_lf ds_comsep ds_quote ds_id ds_msg].
  change (u32 0) with 0. change (0 =? 0) with true. cbn iota. change (u32 (0 + 1)) with 1. rewrite (wrap_small 32 (ws + 1)) by lia. rewrite (wrap_small 32) by lia. f_equal; [lia|]. f_equal. lia.
Qed.

Lemma run_line pre l rest nl ws q id m : line_ok l -> zlength (pre ++ line_text l ++ rest) < 2 ^ 31 ->
  hdr_loop char_signed (pre ++ line_text l ++ rest) (zlength pre) (line_text l ++ rest) (DecState None nl None None ws 0 false q id m)
  = andthen (msg_values (ln_name l) (ln_id l) m (ln_init l)) (fun m =>
      hdr_loop char_signed (pre ++ line_text l ++ rest) (zlength pre + zlength (line_text l)) rest (pending pre l 0 1 m)).
Proof.
  intros K Hl. rewrite !zlength_app, line_text_length in Hl. destruct (lok_name l K) as [Hn1 Hn2]. destruct (more_last (ln_more l) (ln_first l)) as (w & Ew & _).
  fold (ln_value l) (ln_last l) in Ew. assert (Lw : zlength (ln_value l) = zlength w + zlength (ln_last l)) by (by rewrite Ew, zlength_app).
  pose proof (zlength_nonneg pre). pose proof (zlength_nonneg (ln_lead l)). pose proof (zlength_nonneg (ln_trail l)). pose proof (zlength_nonneg rest). pose proof (zlength_nonneg w). pose proof (zlength_nonneg (ln_last l)).
  set (text := pre ++ line_text l ++ rest).
  assert (Et : text = pre ++ ln_name l ++ [ch ":"] ++ ln_lead l ++ ln_value l ++ ln_trail l ++ [CR; LF] ++ rest) by (unfold text, line_text; by rewrite <- !app_assoc).
  assert (En : subtext text (zlength pre) (zlength (ln_name l)) = Some (ln_name l)) by (rewrite Et; apply subtext_mid).
  assert (Lx : zlength text < 2 ^ 31) by (unfold text; rewrite !zlength_app, line_text_length; lia).
  unfold line_text at 1. rewrite <- !app_assoc. rewrite Et at 1. rewrite run_name by (done || lia). rewrite <- Et. change (hdr_hash char_signed (ln_name l)) with (ln_id l). rewrite run_blank by (apply K || lia).
  unfold ln_value at 1. rewrite <- !app_assoc. assert (Lf : zlength (ln_first l) <= zlength (ln_value l)) by (unfold ln_value; rewrite zlength_app; pose proof (zlength_nonneg (concat (map more_text (ln_more l)))); lia).
  rewrite run_value by (apply K || lia). set (b := zlength pre + zlength (ln_name l) + 1 + zlength (ln_lead l)).
  assert (Hm := run_more (ln_more l) text (pre ++ ln_name l ++ [ch ":"] ++ ln_lead l) (ln_first l) (ln_trail l ++ [CR; LF] ++ rest) (zlength pre) (zlength (ln_name l)) (ln_name l) b (ln_id l) (hdr_comma_separated (ln_id l)) m).
  assert (Eb : zlength (pre ++ ln_name l ++ [ch ":"] ++ ln_lead l) = b) by (unfold b; rewrite !zlength_app; change (zlength [ch ":"]) with 1; lia). rewrite Eb in Hm.
  rewrite Hm; [|rewrite Et; unfold ln_value; by rewrite <- !app_assoc|done|lia|lia|apply K|apply K]. apply andthen_ext. intros m'.
  assert (Ev : zlength (ln_first l) + zlength (concat (map more_text (ln_more l))) = zlength (ln_value l)) by (unfold ln_value; by rewrite zlength_app).
  rewrite run_blank by (apply K || lia). rewrite run_crlf by lia. unfold pending. fold b. rewrite line_text_length. unfold ln_last. f_equal; [lia|]. f_equal; [f_equal; lia|lia].
Qed.

(** What is added at the end of the line. *)
Definition msg_finish (m : sip_msg) (l : line) : option (res sip_msg) :=
  let add v atomic line m := msg_hdr m (SipHdr (ln_name l) v (ln_id l)) atomic line in
  match ln_more l with [] => add (ln_first l) true true m | _ => andthen (add (ln_last l) true false m) (add (ln_value l) false true) end.

Lemma msg_add_split m l : msg_add m l = andthen (msg_values (ln_name l) (ln_id l) m (ln_init l)) (fun m => msg_finish m l).
Proof.
  unfold msg_add, msg_finish, ln_init, ln_last. destruct (ln_more l) as [|g more] eqn:E; [done|].
  assert (Hv : ln_first l :: map snd (g :: more) = removelast (ln_first l :: map snd (g :: more)) ++ [List.last (map snd (g :: more)) (ln_first l)]).
  { rewrite (app_removelast_last (ln_first l) (l := ln_first l :: map snd (g :: more))) at 1 by done. f_equal. }
  rewrite Hv at 1. rewrite msg_values_app, andthen_assoc. apply andthen_ext. intros m'. cbn [msg_values]. rewrite andthen_assoc. apply andthen_ext. by intros m''.
Qed.

Lemma pending_end pre l rest k lf m : line_ok l -> 0 <= k -> lf <> 0 ->
  end_value (pre ++ line_text l ++ rest) (zlength pre + zlength (line_text l) + k) (pending pre l k lf m)
  = andthen (msg_finish m l) (fun m =>
      Some (Ok (DecState None (zlength (ln_name l)) None None (zlength (ln_trail l) + 2 + k) 0 false (quote_after false (ln_last l)) (ln_id l) m))).
Proof.
  intros K Hk Hlf. destruct (more_last (ln_more l) (ln_first l)) as (w & Ew & Hw1 & Hw2). fold (ln_value l) (ln_last l) in Ew.
  assert (Lw : zlength (ln_value l) = zlength w + zlength (ln_last l)) by (by rewrite Ew, zlength_app). pose proof (zlength_nonneg w). pose proof (zlength_nonneg (ln_last l)).
  set (text := pre ++ line_text l ++ rest). assert (Et : text = pre ++ ln_name l ++ [ch ":"] ++ ln_lead l ++ ln_value l ++ ln_trail l ++ [CR; LF] ++ rest) by (unfold text, line_text; by rewrite <- !app_assoc).
  assert (En : subtext text (zlength pre) (zlength (ln_name l)) = Some (ln_name l)) by (rewrite Et; apply subtext_mid).
  set (b := zlength pre + zlength (ln_name l) + 1 + zlength (ln_lead l)).
  assert (Eb : zlength (pre ++ ln_name l ++ [ch ":"] ++ ln_lead l) = b) by (unfold b; rewrite !zlength_app; change (zlength [ch ":"]) with 1; lia).
  assert (Ev : subtext text b (zlength (ln_value l)) = Some (ln_value l)).
  { rewrite Et, <- Eb. replace (pre ++ _) with ((pre ++ ln_name l ++ [ch ":"] ++ ln_lead l) ++ ln_value l ++ ln_trail l ++ [CR; LF] ++ rest) by (by rewrite <- !app_assoc). apply subtext_mid. }
  assert (El : subtext text (b + zlength w) (zlength (ln_last l)) = Some (ln_last l)).
  { rewrite Et, <- Eb, <- zlength_app, Ew. replace (pre ++ _) with (((pre ++ ln_name l ++ [ch ":"] ++ ln_lead l) ++ w) ++ ln_last l ++ ln_trail l ++ [CR; LF] ++ rest) by (by rewrite <- !app_assoc). apply subtext_mid. }
  clearbody text. unfold end_value, pending. fold b. cbn [ds_name ds_namel ds_v ds_cv ds_ws ds_lf ds_comsep ds_quote ds_id ds_msg]. rewrite line_text_length, (proj2 (Z.eqb_neq _ 0) Hlf). cbn [negb].
  rewrite andb_true_r. replace (b + zlength (ln_value l) - zlength (ln_last l)) with (b + zlength w) by lia.
  match goal with |- context [hdr_add _ _ _ _ (b + zlength w) ?x] => replace x with (zlength (ln_last l)) by (unfold b; lia) end.
  match goal with |- context [hdr_add _ _ _ _ b ?x] => replace x with (zlength (ln_value l)) by (unfold b; lia) end.
  rewrite (hdr_add_eq _ _ _ _ _ _ _ _ _ _ _ En) by (rewrite Z.max_l by lia; exact El). unfold msg_finish.
  destruct (ln_more l) as [|g more] eqn:Em.
  - rewrite Hw2 by done. change (zlength (@nil Z)) with 0. rewrite Z.add_0_r. rewrite bool_decide_eq_true_2 by done. assert (Ef : ln_last l = ln_first l) by (unfold ln_last; by rewrite Em). rewrite Ef.
    by destruct (msg_hdr m _ true true) as [[]|].
  - rewrite bool_decide_eq_false_2. 2: { intros [= Hx]. apply Hw1; [done|]. destruct w as [|x w]; [done|]. rewrite zlength_cons in Hx. pose proof (zlength_nonneg w). lia. }
    destruct (msg_hdr m _ true false) as [[m'|]|]; [|done|done]. cbn [andthen].
    rewrite (hdr_add_eq _ _ _ _ _ _ _ _ _ _ _ En) by (rewrite Z.max_l by lia; exact Ev). by destruct (msg_hdr m' _ false true) as [[]|].
Qed.

(** The first character of the next line ends the line before. *)
Lemma next_line pre l c rest lf m : line_ok l -> lf <> 0 -> blank c = false -> eol c = false ->
  let text := pre ++ line_text l ++ c :: rest in
  let p := zlength pre + zlength (line_text l) in
  hdr_loop char_signed text p (c :: rest) (pending pre l 0 lf m)
  = andthen (msg_finish m l) (fun m => hdr_loop char_signed text p (c :: rest)
      (DecState None (zlength (ln_name l)) None None (zlength (ln_trail l) + 2) 0 false (quote_after false (ln_last l)) (ln_id l) m)).
Proof.
  intros K Hlf Hb He text p. pose proof (pending_end pre l (c :: rest) 0 lf m K ltac:(lia) Hlf) as Ep. fold text p in Ep. rewrite !Z.add_0_r in Ep.
  destruct (lok_name l K) as [_ Hn]. pose proof He as He'. unfold eol in He. apply orb_false_elim in He as [He1 He2]. pose proof Hb as Hb'. unfold blank in Hb. cbn [hdr_loop]. rewrite Hb, He1, He2.
  change (ds_lf (pending pre l 0 lf m)) with lf. change (ds_namel (pending pre l 0 lf m)) with (zlength (ln_name l)). rewrite (proj2 (Z.eqb_neq lf 0) Hlf), (proj2 (Z.eqb_neq (zlength (ln_name l)) 0)) by lia. cbn [negb orb].
  rewrite Ep. destruct (msg_finish m l) as [[m'|]|]; [|done|done]. cbn [andthen ds_lf ds_comsep]. rewrite andb_false_r. cbn [andb Z.eqb negb orb]. done.
Qed.

(** An empty line ends the headers. *)
Lemma end_lines pre l body m : line_ok l -> zlength (pre ++ line_text l ++ [CR; LF] ++ body) < 2 ^ 31 ->
  let text := pre ++ line_text l ++ [CR; LF] ++ body in
  hdr_loop char_signed text (zlength pre + zlength (line_text l)) ([CR; LF] ++ body) (pending pre l 0 1 m)
  = andthen (msg_finish m l) (fun m => Some (Ok (m, zlength body))).
Proof.
  intros K Hl text. destruct (lok_name l K) as [_ Hn]. rewrite !zlength_app, line_text_length in Hl. change (zlength [CR; LF]) with 2 in Hl.
  pose proof (zlength_nonneg pre). pose proof (zlength_nonneg (ln_lead l)). pose proof (zlength_nonneg (ln_trail l)). pose proof (zlength_nonneg body). pose proof (zlength_nonneg (ln_value l)).
  pose proof (pending_end pre l ([CR; LF] ++ body) 2 2 m K ltac:(lia) ltac:(lia)) as Ep. fold text in Ep. change ([CR; LF] ++ body) with (CR :: LF :: body).
  cbn [hdr_loop]. change ((CR =? 32) || (CR =? HT)) with false. change ((LF =? 32) || (LF =? HT)) with false. change (CR =? CR) with true. change (LF =? CR) with false. change (LF =? LF) with true. cbn iota.
  unfold set_space, pending in Ep |- *. cbn [ds_name ds_namel ds_v ds_cv ds_ws ds_lf ds_comsep ds_quote ds_id ds_msg] in Ep |- *. change (u32 1) with 1. change (1 =? 0) with false. change (u32 (1 + 1)) with 2. cbn iota.
  rewrite (proj2 (Z.eqb_neq (zlength (ln_name l)) 0)) by lia. rewrite !Z.add_0_r, (wrap_small 32 (zlength (ln_trail l) + 2 + 1)), (wrap_small 32) by lia.
  replace (zlength (ln_trail l) + 2 + 1 + 1) with (zlength (ln_trail l) + 2 + 2) by lia. replace (zlength pre + zlength (line_text l) + 1 + 1) with (zlength pre + zlength (line_text l) + 2) by lia.
  rewrite Ep. by destruct (msg_finish m l) as [[]|].
Qed.

Lemma run_lines ls : forall pre body nl ws q id m, Forall line_ok ls -> ls <> [] -> zlength (pre ++ concat (map line_text ls) ++ [CR; LF] ++ body) < 2 ^ 31 ->
  hdr_loop char_signed (pre ++ concat (map line_text ls) ++ [CR; LF] ++ body) (zlength pre) (concat (map line_text ls) ++ [CR; LF] ++ body) (DecState None nl None None ws 0 false q id m)
  = andthen (msg_lines m ls) (fun m => Some (Ok (m, zlength body))).
Proof.
  induction ls as [|l ls IH]; intros pre body nl ws q id m Hok Hne Hl; [done|]. apply Forall_cons in Hok as [K Hok]. cbn [map concat msg_lines] in *. rewrite <- app_assoc in *.
  rewrite run_line by done. rewrite msg_add_split, !andthen_assoc. apply andthen_ext. intros m'. destruct ls as [|l' ls].
  { cbn [map concat] in *. rewrite !app_nil_l in *. rewrite end_lines by done. apply andthen_ext. by intros m''. }
  pose proof (Forall_inv Hok) as K'. destruct (lok_name l' K') as [Hn' Hn'']. assert (Hc : exists c r, concat (map line_text (l' :: ls)) ++ [CR; LF] ++ body = c :: r /\ blank c = false /\ eol c = false).
  { cbn [map concat]. unfold line_text at 1. destruct (ln_name l') as [|c n]; [by change (zlength (@nil Z)) with 0 in Hn''|]. cbn [app]. eexists c, _. split; [done|]. cbn [forallb] in Hn'.
    apply andb_prop in Hn' as [Hc _]. apply negb_true_iff, orb_false_elim in Hc as [Hc _]. by apply orb_false_elim in Hc. }
  destruct Hc as (c & r & Ec & Hb & He). rewrite Ec in *. rewrite next_line by done. apply andthen_ext. intros m''. rewrite <- Ec in *.
  specialize (IH (pre ++ line_text l) body (zlength (ln_name l)) (zlength (ln_trail l) + 2) (quote_after false (ln_last l)) (ln_id l) m'' Hok ltac:(done)).
  rewrite <- app_assoc in IH. rewrite (zlength_app pre (line_text l)) in IH. by apply IH.
Qed.

(** ** The start line *)

Definition word (cs s : list Z) : bool := forallb (fun c => negb (existsb (Z.eqb c) cs)) s.

Definition t_startline : list token :=
  [TClass (map same [32; HT; CR; LF]) true false 1 any; TChr 32; TClass (map same [32; HT; CR; LF]) true false 1 any; TChr 32;
   TClass (map same [CR; LF]) true false 0 any; TClass [(CR, CR)] false false 0 any; TClass [(LF, LF)] false false 1 1].

Lemma take_lf r : match_class [(LF, LF)] false false 1 1 (LF :: r) = Some ([LF], r).
Proof. by destruct r. Qed.

Lemma startline_match x y z rest : word [32; HT; CR; LF] x = true -> word [32; HT; CR; LF] y = true -> word [CR; LF] z = true ->
  0 < zlength x < 2 ^ 32 -> 0 < zlength y < 2 ^ 32 -> zlength z < 2 ^ 32 ->
  re_regex_at (x ++ [32] ++ y ++ [32] ++ z ++ [CR; LF] ++ rest) expr_startline = Ok (0, [x; y; z; [CR]; [LF]]).
Proof.
  intros Hx Hy Hz Lx Ly Lz. pose proof (zlength_nonneg z). unfold re_regex_at. set (s := x ++ _). assert (Ea : attempt expr_startline false None s [] = Stop 0 [x; y; z; [CR]; [LF]]).
  { rewrite (attempt_exec expr_startline false None t_startline) by (by vm_compute). unfold t_startline, s. rewrite exec_none by (done || lia). cbn [app]. rewrite exec_chr by done.
    change (y ++ 32 :: ?x) with (y ++ [32] ++ x). rewrite exec_none by (done || lia). cbn [app]. rewrite exec_chr by done.
    change (z ++ CR :: LF :: rest) with (z ++ [CR] ++ LF :: rest). rewrite exec_none by (done || lia). rewrite exec_class by (done || by vm_compute). cbn [exec]. by rewrite take_lf. }
  assert (Hs : s <> []) by (unfold s; destruct x; [by change (zlength (@nil Z)) with 0 in Lx|done]). destruct s as [|c s]; [done|]. cbn [search_from]. by rewrite Ea.
Qed.

(** A message as it stands in a buffer. *)
Definition msg_text (x y z : list Z) (ls : list line) (body : list Z) : list Z :=
  (x ++ [32] ++ y ++ [32] ++ z ++ [CR; LF]) ++ concat (map line_text ls) ++ [CR; LF] ++ body.

Definition msg_alloc : option (res unit) :=
  match mem_alloc SIP_MSG_STRUCT, mem_alloc HASH_STRUCT, mem_alloc (hash_valid_size HDR_HASH_SIZE * LIST_STRUCT) with
  | Some _, Some _, Some _ => Some (Ok tt)
  | _, _, _ => Some (Err ENOMEM)
  end.

Lemma decode_lines tag x y z ls body : word [32; HT; CR; LF] x = true -> word [32; HT; CR; LF] y = true -> word [CR; LF] z = true -> 0 < zlength x -> 0 < zlength y ->
  Forall line_ok ls -> ls <> [] -> zlength (msg_text x y z ls body) < 2 ^ 31 ->
  decode_text char_signed tag (msg_text x y z ls body)
  = andthen msg_alloc (fun _ => andthen (Some (start_line x y z tag)) (fun m => andthen (msg_lines m ls) (fun m => Some (Ok (m, zlength body))))).
Proof.
  intros Hx Hy Hz Lx Ly Hls Hne Hl. unfold decode_text. set (pre := x ++ [32] ++ y ++ [32] ++ z ++ [CR; LF]).
  assert (Lp : zlength pre = zlength x + 1 + zlength y + 1 + zlength z + 1 + 1) by (unfold pre; rewrite !zlength_app; change (zlength [32]) with 1; change (zlength [CR; LF]) with 2; lia).
  assert (Hb : zlength pre < 2 ^ 31) by (revert Hl; unfold msg_text; fold pre; rewrite zlength_app; pose proof (zlength_nonneg (concat (map line_text ls) ++ [CR; LF] ++ body)); lia).
  pose proof (zlength_nonneg x). pose proof (zlength_nonneg y). pose proof (zlength_nonneg z).
  assert (Er : re_regex_at (msg_text x y z ls body) expr_startline = Ok (0, [x; y; z; [CR]; [LF]])).
  { unfold msg_text. rewrite <- !app_assoc. apply startline_match; (done || lia). }
  rewrite Er. unfold msg_alloc. destruct (mem_alloc SIP_MSG_STRUCT), (mem_alloc HASH_STRUCT), (mem_alloc (hash_valid_size HDR_HASH_SIZE * LIST_STRUCT)); try done.
  cbn [andthen]. destruct (start_line x y z tag) as [m|e]; [|done]. change (zlength [CR]) with 1. change (zlength [LF]) with 1. rewrite <- Lp.
  unfold msg_text. fold pre. rewrite zdrop_app_exact. apply run_lines; [done|done|exact Hl].
Qed.
End Decode.

(** ** Any text *)

(** The fragments of an expression are as many as its classes. *)
Definition classes (l : list token) : nat := length (List.filter (fun t => match t with TClass _ _ _ _ _ => true | _ => false end) l).

Lemma exec_count l : forall s frags fs, exec l s frags = Stop 0 fs -> length fs = (length frags + classes l)%nat.
Proof.
  induction l as [|[e|chrv neg qesc nmin nmax] l IH]; intros s frags fs; cbn [exec].
  - intros [= <-]. cbn. lia.
  - destruct s as [|c s]; [done|]. destruct (_ =? _); [|done]. apply IH.
  - destruct (match_class _ _ _ _ _ s) as [[frag r]|]; [|done]. intros Hx. rewrite (IH _ _ _ Hx), length_app. unfold classes. cbn [List.filter length]. lia.
Qed.

Lemma exec_error l : forall s frags e fs, exec l s frags = Stop e fs -> e = 0 \/ e = ENOENT.
Proof.
  induction l as [|[x|chrv neg qesc nmin nmax] l IH]; intros s frags e fs; cbn [exec]; [intros [= <- _]; by left| |].
  - destruct s as [|c s]; [intros [= <- _]; by right|]. destruct (_ =? _); [apply IH|done].
  - destruct (match_class _ _ _ _ _ s) as [[frag r]|]; [apply IH|done].
Qed.

(** A compiled expression on any string: where it matches, or ENOENT. *)
Lemma regex_at_cases s expr l : compile expr false None = Some l ->
  (exists i fs, re_regex_at s expr = Ok (i, fs) /\ 0 <= i < zlength s /\ length fs = classes l) \/ re_regex_at s expr = Err ENOENT.
Proof.
  intros Hc. unfold re_regex_at. assert (Hg : forall i s, 0 <= i -> (exists j fs, search_from (fun s => attempt expr false None s []) i s = Ok (j, fs) /\ i <= j < i + zlength s /\ length fs = classes l)
    \/ search_from (fun s => attempt expr false None s []) i s = Err ENOENT).
  { clear s. intros i s. revert i. induction s as [|c s IH]; intros i Hi; [by right|]. cbn [search_from]. rewrite (attempt_exec expr false None l) by done. rewrite zlength_cons. pose proof (zlength_nonneg s).
    destruct (exec l (c :: s) []) as [|e fs] eqn:Ee.
    - destruct (IH (i + 1) ltac:(lia)) as [(j & fs & -> & Hj & Hf)| -> ]; [left; exists j, fs; split_and!; done || lia|by right].
    - destruct (exec_error _ _ _ _ _ Ee) as [-> | -> ]; [|by right]. left. exists i, fs. split_and!; [done|lia|lia|]. by rewrite (exec_count _ _ _ _ Ee). }
  destruct (Hg 0 s ltac:(lia)) as [(j & fs & E & Hj & Hf)|E]; [|by right]. left. exists j, fs. split_and!; done || lia.
Qed.

Lemma regex_cases s expr l : compile expr false None = Some l -> expr <> [] ->
  (exists fs, regex (Some s) expr = Ok (map Some fs) /\ length fs = classes l) \/ regex (Some s) expr = Err ENOENT.
Proof.
  intros Hc He. pose proof (re_regex_at_same s expr He) as Hs. unfold regex. destruct (regex_at_cases s expr l Hc) as [(i & fs & E & _ & Hf)|E]; rewrite E in Hs; rewrite Hs; [|by right].
  left. by exists fs.
Qed.

Definition codes : list Z := [ENODATA; EBADMSG; ENOMEM; ENOENT].

(** A result or one of these errors, and no access outside the text. *)
Definition fine {A} (r : option (res A)) (Q : A -> Prop) : Prop := match r with Some (Ok a) => Q a | Some (Err e) => In e codes | None => False end.

Lemma fine_mono {A} (r : option (res A)) (Q Q' : A -> Prop) : fine r Q -> (forall a, Q a -> Q' a) -> fine r Q'.
Proof. destruct r as [[]|]; cbn; auto. Qed.

(** The cases of an expression, with the list of its fragments taken apart. *)
Ltac regex_split s expr l :=
  let fs := fresh "fs" in let E := fresh "E" in let Hf := fresh "Hf" in
  destruct (regex_cases s expr l ltac:(by vm_compute) ltac:(done)) as [(fs & E & Hf)|E]; rewrite E;
  [vm_compute in Hf; repeat (destruct fs as [|? fs]; try discriminate Hf); cbn [map]|].

(** The start line is at the start of the text. *)
Lemma exec_prefix l : Forall tok_ok l -> forall s frags fs, exec l s frags = Stop 0 fs ->
  exists mid post fs', s = mid ++ post /\ fs = frags ++ fs' /\ matches l mid fs'.
Proof. intros Hok s frags fs E. destruct (exec_spec l Hok s frags 0 fs E) as [(_ & Hx)|Hx]; [done|by vm_compute in Hx]. Qed.

Definition literals (l : list token) : Z := zlength (List.filter (fun t => match t with TChr _ => true | _ => false end) l).

Lemma matches_length l mid fs : matches l mid fs -> forallb (fun t => match t with TClass _ _ true _ _ => false | _ => true end) l = true ->
  zlength mid = literals l + zlength (concat fs).
Proof.
  induction 1 as [|e c l s fs _ _ IH|chrv neg qesc nmin nmax t frag l s fs _ Hfr _ _ IH]; [done| |]; cbn [forallb andb]; intros Hq.
  - unfold literals in *. cbn [List.filter]. rewrite !zlength_cons, IH by done. lia.
  - destruct qesc; [done|]. destruct Hfr as [-> |[? _]]; [|done]. unfold literals in *. cbn [List.filter concat]. rewrite !zlength_app, IH by done. lia.
Qed.

Lemma startline_length text x y z r e : re_regex_at text expr_startline = Ok (0, [x; y; z; r; e]) ->
  0 <= zlength x + 1 + zlength y + 1 + zlength z + zlength r + zlength e <= zlength text.
Proof.
  unfold re_regex_at. destruct text as [|c text]; [done|]. cbn [search_from]. rewrite (attempt_exec expr_startline false None t_startline) by (by vm_compute).
  set (s := c :: text). destruct (exec t_startline s []) as [|err fs] eqn:Ee.
  { intros Hx. exfalso. assert (Hg : forall f i s fs, 0 < i -> search_from f i s <> Ok (0, fs)).
    { clear. intros f i s fs. revert i. induction s as [|c s IH]; intros i Hi; cbn; [done|]. destruct (f (c :: s)) as [|e' fs']; [apply IH; lia|]. destruct (e' =? 0); [|done]. intros [= -> _]. lia. }
    by apply Hg in Hx; [|lia]. }
  destruct (Z.eqb_spec err 0) as [-> |]; [|done]. intros [= ->]. destruct (exec_prefix t_startline) with (s := s) (frags := @nil (list Z)) (fs := [x; y; z; r; e]) as (mid & post & fs' & -> & Ef & Hm).
  - repeat (apply Forall_cons; split; [by vm_compute|]). apply Forall_nil_2.
  - done.
  - cbn [app] in Ef. subst fs'. rewrite zlength_app. pose proof (zlength_nonneg post). unfold t_startline in Hm.
    rewrite (matches_length _ _ _ Hm) by (by vm_compute). change (zlength (concat [x; y; z; r; e])) with (zlength (x ++ y ++ z ++ r ++ e ++ [])). rewrite !zlength_app.
    change (zlength (@nil Z)) with 0. change (literals _) with 2. pose proof (zlength_nonneg x). pose proof (zlength_nonneg y). pose proof (zlength_nonneg z). pose proof (zlength_nonneg r). pose proof (zlength_nonneg e). lia.
Qed.

Section Parsers.
Context `{H : Host} `{P : Platform} `{R : Resolver} (char_signed : bool).

Lemma hostport_fine s : fine (Some (uri_decode_hostport (Some s))) (fun _ => True).
Proof.
  unfold uri_decode_hostport. regex_split s expr_host6 t_host6; [done|]. regex_split s expr_host t_host; [done|]. cbn. tauto.
Qed.

Lemma uri_fine s : fine (Some (uri_decode (Some s))) (fun _ => True).
Proof.
  assert (H2 : fine (Some (match regex (Some s) expr_nouser with
    | Ok [scheme; hostport; path; params; headers] => match uri_decode_hostport hostport with Ok (host, port) => Ok (uri_finish scheme None host port path params headers) | Err e => Err e end
    | Ok _ => Err EINVAL | Err e => Err e end)) (fun _ => True)).
  { regex_split s expr_nouser t_nouser; [|by cbn; tauto]. cbn [map]. pose proof (hostport_fine l0) as Hh. by destruct (uri_decode_hostport (Some l0)) as [[]|]. }
  unfold uri_decode. regex_split s expr_user t_user; [|exact H2]. cbn [map]. destruct (uri_decode_hostport (Some l3)) as [[]|]; [done|exact H2].
Qed.

(** The expressions of the parameters the library looks for. *)
Definition param_tokens (name : list Z) : list token :=
  let ws := TClass (map same [32; HT; CR; LF]) false false 0 any in
  [TChr 59; ws] ++ map TChr name ++ [ws; TChr 61; ws; TClass (map same [32; HT; CR; LF; 59]) true true 1 any].

Lemma param_expr_tokens name : In name (map chars ["branch"; "tag"; "maddr"; "rport"]%string) ->
  exists expr, param_expr (chars ";" ++ expr_ws) name (expr_ws ++ chars "=" ++ expr_ws ++ chars "[~ " ++ tcn ++ chars ";]+") = Some expr
    /\ compile expr false None = Some (param_tokens name) /\ expr <> [].
Proof.
  intros Hin. cbn [map In] in Hin. destruct Hin as [<-|[<-|[<-|[<-|[]]]]]; eexists; (split; [vm_compute; reflexivity|]); (split; [by vm_compute|done]).
Qed.

Lemma param_fine p name : In name (map chars ["branch"; "tag"; "maddr"; "rport"]%string) -> fine (msg_param_decode p name) (fun _ => True).
Proof.
  intros Hin. unfold msg_param_decode. destruct (param_expr_tokens name Hin) as (expr & -> & Hc & He). destruct p as [s|]; [|cbn; tauto].
  destruct (regex_cases s expr _ Hc He) as [(fs & E & Hf)|E]; rewrite E; [|cbn; tauto].
  assert (Hn : length fs = 4%nat) by (rewrite Hf; cbn [map In] in Hin; by destruct Hin as [<-|[<-|[<-|[<-|[]]]]]).
  repeat (destruct fs as [|? fs]; try discriminate Hn). done.
Qed.

Definition t_addr := [TClass (map same [32; HT; CR; LF; 60]) true true 0 any; TClass (map same [32; HT; CR; LF]) false false 0 any; TChr 60; TClass [(62, 62)] true false 1 any; TChr 62; TClass [] true false 0 any].
Definition t_bare := [TClass [(59, 59)] true false 1 any; TClass [] true false 0 any].

Lemma addr_fine s : fine (Some (sip_addr_decode (Some s))) (fun _ => True).
Proof.
  unfold sip_addr_decode. regex_split s expr_addr t_addr.
  - pose proof (uri_fine l1) as Hu. by destruct (uri_decode (Some l1)).
  - regex_split s (chars "[^;]+[^]*") t_bare; [|cbn; tauto]. pose proof (uri_fine l) as Hu. by destruct (uri_decode (Some l)).
Qed.

Lemma taddr_fine old s : fine (taddr_decode old (Some s)) (fun _ => True).
Proof.
  unfold taddr_decode. pose proof (addr_fine s) as Ha. destruct (sip_addr_decode (Some s)) as [a|e]; [|done].
  pose proof (param_fine (addr_params a) (chars "tag") ltac:(cbn; tauto)) as Hp. by destruct (msg_param_decode (addr_params a) (chars "tag")) as [[]|].
Qed.

Definition c_ws (nmin : Z) : token := TClass (map same [32; HT; CR; LF]) false false nmin any.
Definition c_word (nmin : Z) : token := TClass (map same [32; HT; CR; LF]) true false nmin any.
Definition t_cseq := [TClass [(48, 57)] false false 1 any; c_ws 1; c_word 1].
Definition t_rack := [TClass [(48, 57)] false false 1 any; c_ws 1; TClass [(48, 57)] false false 1 any; c_ws 1; c_word 1].
Definition t_ctype := [c_ws 0; TClass (map same [32; HT; CR; LF; 59; 47]) true false 1 any; c_ws 0; TChr 47; c_ws 0; TClass (map same [32; HT; CR; LF; 59]) true false 1 any; TClass [] true false 0 any].
Definition t_via := map TChr (chars "sip") ++ [TClass (map same [32; 32; HT; CR; LF]) false false 0 any; TChr 47; c_ws 0] ++ map TChr (chars "2.0") ++ [c_ws 0; TChr 47; c_ws 0;
  TClass [(97, 122)] false false 1 any; c_ws 0; TClass (map same [59; 32; HT; CR; LF]) true false 1 any; c_ws 0; TClass [] true false 0 any].

Lemma via_fine s : fine (sip_via_decode (Some s)) (fun _ => True).
Proof.
  unfold sip_via_decode. regex_split s expr_via t_via; [|cbn; tauto]. pose proof (hostport_fine l5) as Hh. change (uri_decode_hostport (Some l5)) with (decode_hostport (Some l5)) in Hh.
  destruct (decode_hostport (Some l5)) as [[host port]|e]; [|done]. pose proof (param_fine (Some l7) (chars "branch") ltac:(cbn; tauto)) as Hp.
  by destruct (msg_param_decode (Some l7) (chars "branch")) as [[]|].
Qed.

Lemma hdr_parse_fine m hdr atomic : fine (hdr_parse m hdr atomic) (fun _ => True).
Proof.
  destruct hdr as [name v id]. unfold hdr_parse. cbn [hdr_val hdr_id].
  repeat match goal with |- fine (if ?b then _ else _) _ => destruct b end; try done.
  - pose proof (via_fine v). by destruct (sip_via_decode (Some v)) as [[]|].
  - pose proof (taddr_fine (m_to m) v). by destruct (taddr_decode (m_to m) (Some v)) as [[]|].
  - pose proof (taddr_fine (m_from m) v). by destruct (taddr_decode (m_from m) (Some v)) as [[]|].
  - unfold sip_cseq_decode. regex_split v (chars "[0-9]+" ++ expr_ws1 ++ expr_met) t_cseq; [done|cbn; tauto].
  - unfold sip_rack_decode. regex_split v (chars "[0-9]+" ++ expr_ws1 ++ chars "[0-9]+" ++ expr_ws1 ++ expr_met) t_rack; [done|cbn; tauto].
  - unfold msg_ctype_decode. destruct (regex_at_cases v expr_ctype t_ctype ltac:(by vm_compute)) as [(i & fs & -> & _ & Hf)| -> ]; [|cbn; tauto].
    vm_compute in Hf. repeat (destruct fs as [|? fs]; try discriminate Hf). destruct (negb (i =? 0)); cbn; tauto.
Qed.

Lemma subtext_some text off len : 0 <= off -> 0 <= len -> off + len <= zlength text -> exists s, subtext text off len = Some s.
Proof. intros Ho Hl Hb. unfold subtext. rewrite !(proj2 (Z.leb_le _ _)) by lia. by eexists. Qed.

Lemma hdr_add_fine text m n nl id p l atomic line : 0 <= n -> 0 <= nl -> n + nl <= zlength text -> 0 <= p -> p + Z.max l 0 <= zlength text ->
  fine (hdr_add text m (n, nl) id p l atomic line) (fun _ => True).
Proof.
  intros Hn Hnl Hb Hp Hl. unfold hdr_add. destruct (mem_alloc _); [|cbn; tauto]. cbn [fst snd].
  destruct (subtext_some text n nl) as [name ->]; [lia..|]. destruct (subtext_some text p (Z.max l 0)) as [v ->]; [lia..|]. apply hdr_parse_fine.
Qed.

(** The pointers of the loop are in the text that has been read. *)
Definition upto (p : Z) (o : option Z) : Prop := match o with Some a => 0 <= a <= p | None => True end.

Record dec_inv (p : Z) (st : dec_state) : Prop := {
  dinv_name : match ds_name st with Some n => 0 <= n /\ n + ds_namel st <= p | None => True end;
  dinv_namel : 0 <= ds_namel st;
  dinv_v : upto p (ds_v st);
  dinv_cv : upto p (ds_cv st);
  dinv_ws : 0 <= ds_ws st;
  dinv_nws : match ds_name st with Some n => ds_namel st = 0 -> n + ds_ws st <= p | None => True end;
}.

Lemma dec_inv_space p p' st ws lf : dec_inv p st -> p <= p' -> 0 <= ws <= ds_ws st + (p' - p) -> dec_inv p' (set_space st ws lf).
Proof.
  intros [Hn Hl Hv Hc Hw Hx] Hp Hs. pose proof (Z.mod_pos_bound ws (2 ^ 32) ltac:(by vm_compute)). pose proof (Z.mod_le ws (2 ^ 32) ltac:(lia) ltac:(by vm_compute)).
  unfold set_space, wrap. split; cbn [ds_name ds_namel ds_v ds_cv ds_ws]; unfold upto in *.
  - destruct (ds_name st); [lia|done].
  - done.
  - destruct (ds_v st); [lia|done].
  - destruct (ds_cv st); [lia|done].
  - lia.
  - destruct (ds_name st); [|done]. intros Hz. specialize (Hx Hz). lia.
Qed.

Lemma end_value_fine text p st : dec_inv p st -> ds_name st <> None -> 0 <= p <= zlength text -> fine (end_value text p st) (fun st' => dec_inv p st').
Proof.
  intros [Hn Hl Hv Hc Hw Hx] Hne Hp. unfold end_value. destruct (ds_name st) as [n|] eqn:En; [|done]. cbn zeta.
  assert (Hadd : forall m o atomic line, upto p o -> fine (hdr_add text m (n, ds_namel st) (ds_id st) (match o with Some c => c | None => p end) (match o with Some c => p - c - ds_ws st | None => 0 end) atomic line) (fun _ => True)).
  { intros m o atomic line Ho. apply hdr_add_fine; [lia|lia|lia| |]; unfold upto in Ho; destruct o; lia. }
  pose proof (Hadd (ds_msg st) (ds_cv st) true (bool_decide (ds_cv st = ds_v st) && negb (ds_lf st =? 0)) Hc) as H1. destruct (hdr_add _ _ _ _ _ _ true _) as [[m|]|]; [|done|done]. clear H1.
  destruct (ds_lf st =? 0); cbn [negb].
  - split; cbn [ds_name ds_namel ds_v ds_cv ds_ws upto]; done || lia.
  - assert (Hf : fine (if bool_decide (ds_cv st = ds_v st) then Some (Ok m) else hdr_add text m (n, ds_namel st) (ds_id st) (match ds_v st with Some c => c | None => p end) (match ds_v st with Some c => p - c - ds_ws st | None => 0 end) false true) (fun _ => True)).
    { destruct (bool_decide _); [done|]. by apply Hadd. }
    destruct (if bool_decide _ then _ else _) as [[m'|]|]; [|done|done]. by split.
Qed.

Lemma swrap_below x : 0 <= x -> swrap 32 x <= x.
Proof.
  intros Hx. unfold swrap. pose proof (Z.mod_pos_bound x (2 ^ 32) ltac:(lia)). pose proof (Z.mod_le x (2 ^ 32) ltac:(lia) ltac:(lia)). destruct (_ <? _); lia.
Qed.

Lemma name_value_fine text p c st : dec_inv p st -> 0 <= p < zlength text -> fine (name_value char_signed text p c st) (fun st' => dec_inv (p + 1) st' /\ ds_name st' <> None).
Proof.
  intros Hi Hp. unfold name_value. set (st0 := match ds_name st with None => _ | Some _ => st end).
  assert (H0 : dec_inv p st0 /\ ds_name st0 <> None).
  { unfold st0. destruct Hi as [Hn Hl Hv Hc Hw Hx]. destruct (ds_name st) as [n|] eqn:En; [split; [split; rewrite ?En; done|by rewrite En]|]. split; [|done]. split; cbn [ds_name ds_namel ds_v ds_cv ds_ws]; done || lia. }
  destruct H0 as [Hi0 Hn0]. clearbody st0. clear Hi st. destruct (ds_namel st0 =? 0) eqn:El; [apply Z.eqb_eq in El|apply Z.eqb_neq in El].
  - destruct (negb (c =? ch ":")). { split; [apply (dec_inv_space p); [done|lia|]; pose proof (dinv_ws _ _ Hi0); lia|done]. }
    destruct Hi0 as [Hn Hl Hv Hc Hw Hx]. destruct (ds_name st0) as [n|] eqn:En; [|done]. specialize (Hx El). pose proof (swrap_below (p - n - ds_ws st0) ltac:(lia)) as Hs.
    destruct (Z.max _ 0 =? 0); [cbn; tauto|]. destruct (subtext_some text n (Z.max (swrap 32 (p - n - ds_ws st0)) 0)) as [name ->]; [lia..|]. split; [|done].
    unfold upto in *. split; cbn [ds_name ds_namel ds_v ds_cv ds_ws]; unfold upto; [lia|lia| | |lia|lia]; [destruct (ds_v st0)|destruct (ds_cv st0)]; done || lia.
  - destruct Hi0 as [Hn Hl Hv Hc Hw Hx]. destruct (match ds_cv st0 with None => (false, Some p) | Some _ => (ds_quote st0, ds_cv st0) end) as [quote cv] eqn:Eq.
    assert (Hcv : upto (p + 1) cv) by (unfold upto in *; destruct (ds_cv st0) as [a|] eqn:Ea; injection Eq as <- <-; lia). split; [|done].
    split; cbn [ds_name ds_namel ds_v ds_cv ds_ws]; [destruct (ds_name st0); [lia|done]|lia| |done|lia|destruct (ds_name st0); [lia|done]].
    unfold upto in *. destruct (ds_v st0); lia.
Qed.

Lemma hdr_loop_fine text rest : forall p st, dec_inv p st -> (ds_namel st <> 0 -> ds_name st <> None) -> 0 <= p -> p + zlength rest = zlength text ->
  fine (hdr_loop char_signed text p rest st) (fun r => 0 <= r.2 <= zlength rest).
Proof.
  induction rest as [|c rest IH]; intros p st Hi Hn Hp Hl; [cbn; tauto|]. rewrite zlength_cons in *. pose proof (zlength_nonneg rest).
  assert (Hnext : forall st, dec_inv (p + 1) st -> (ds_namel st <> 0 -> ds_name st <> None) -> fine (hdr_loop char_signed text (p + 1) rest st) (fun r => 0 <= r.2 <= 1 + zlength rest)).
  { intros st' Hi' Hn'. eapply fine_mono; [apply IH; [done|done|lia|lia]|]. cbn. lia. }
  assert (Hsp : forall ws lf, 0 <= ws <= ds_ws st + 1 -> dec_inv (p + 1) (set_space st ws lf)) by (intros; apply (dec_inv_space p); [done|lia|lia]).
  pose proof (dinv_ws _ _ Hi). pose proof (dinv_namel _ _ Hi). cbn [hdr_loop]. destruct (_ || _); [apply Hnext; [apply Hsp; lia|done]|]. destruct (c =? CR); [apply Hnext; [apply Hsp; lia|done]|].
  destruct (c =? LF).
  { destruct (ds_lf st =? 0); [apply Hnext; [apply Hsp; lia|done]|]. destruct (Z.eqb_spec (ds_namel (set_space st (ds_ws st + 1) (ds_lf st + 1))) 0) as [|Hnl]; [cbn; tauto|].
    pose proof (end_value_fine text (p + 1) _ (Hsp (ds_ws st + 1) (ds_lf st + 1) ltac:(lia)) (Hn Hnl) ltac:(lia)) as He. destruct (end_value _ _ _) as [[st'|]|]; [cbn; lia|done|done]. }
  assert (Hgo : forall st, dec_inv p st -> fine (match name_value char_signed text p c st with Some (Ok st) => hdr_loop char_signed text (p + 1) rest st | Some (Err e) => Some (Err e) | None => None end) (fun r => 0 <= r.2 <= 1 + zlength rest)).
  { intros st' Hi'. pose proof (name_value_fine text p c st' Hi' ltac:(lia)) as Hv. destruct (name_value _ _ _ _ _) as [[st''|]|]; [|done|done]. destruct Hv as [Hv Hnn]. by apply Hnext. }
  destruct (_ || _); [|by apply Hgo]. destruct (Z.eqb_spec (ds_namel st) 0) as [|Hnl]; [cbn; tauto|].
  pose proof (end_value_fine text p st Hi (Hn Hnl) ltac:(lia)) as He. destruct (end_value text p st) as [[st'|]|] eqn:Ee; [|done|done]. destruct (ds_lf st =? 0) eqn:Elf; [|by apply Hgo].
  apply Hnext.
  - cbn in He. destruct He as [Hn1 Hl1 Hv1 Hc1 Hw1 Hx1]. unfold upto in *. split; unfold upto; [destruct (ds_name st'); lia|lia|destruct (ds_v st'); lia|destruct (ds_cv st'); lia|lia|destruct (ds_name st'); [intros H0'; specialize (Hx1 H0'); lia|done]].
  - intros _. revert Ee. unfold end_value. destruct (ds_name st) as [n|] eqn:En; [|done]. rewrite Elf. cbn [negb]. rewrite andb_false_r. destruct (hdr_add _ _ _ _ _ _ _ _) as [[]|]; [|done|done]. by intros [= <-].
Qed.

Lemma startline_fine x y z tag : fine (Some (start_line x y z tag)) (fun _ => True).
Proof. unfold start_line. destruct (_ =? 0); [destruct (uri_decode _); cbn; tauto|]. destruct (_ =? 0); cbn; tauto. Qed.

Lemma decode_text_fine tag text : fine (decode_text char_signed tag text) (fun r => 0 <= r.2 <= zlength text).
Proof.
  unfold decode_text. assert (He : fine (A := sip_msg * Z) (Some (Err (if zlength text >? STARTLINE_MAX then EBADMSG else ENODATA))) (fun r => 0 <= r.2 <= zlength text)).
  { destruct (_ >? _); cbn; tauto. }
  destruct (regex_at_cases text expr_startline t_startline ltac:(by vm_compute)) as [(i & fs & E & Hi & Hf)|E]; rewrite E; [|exact He]. vm_compute in Hf.
  repeat (destruct fs as [|? fs]; try discriminate Hf). destruct i as [|i|i]; [|exact He..].
  destruct (mem_alloc SIP_MSG_STRUCT), (mem_alloc HASH_STRUCT), (mem_alloc (hash_valid_size HDR_HASH_SIZE * LIST_STRUCT)); try (cbn; tauto).
  pose proof (startline_fine l l0 l1 tag) as Hs. destruct (start_line l l0 l1 tag) as [m|e]; [|done].
  pose proof (startline_length text l l0 l1 l2 l3 E) as Hn. set (n := zlength l + 1 + zlength l0 + 1 + zlength l1 + zlength l2 + zlength l3) in *.
  eapply fine_mono; [apply hdr_loop_fine|].
  - by split.
  - done.
  - lia.
  - rewrite zlength_zdrop by lia. lia.
  - cbn. intros [m' r]. cbn. rewrite zlength_zdrop by lia. lia.
Qed.
End Parsers.

(** ** Claims *)

Section Claims.
Context `{H : Host} `{P : Platform} `{R : Resolver} (char_signed : bool).

(** C20: decoding a SIP message is what its lines say.  For any start line of
    three parts, one or more header lines and any body, in fewer than 2^31 bytes,
    sip_msg_decode adds the values of each line in order to the table and to the
    list of headers and parses the common ones, gives the first error any of them
    has, and leaves the buffer at the body.  A header line ([line_ok]) is a name,
    a colon, one value that is not empty, in a comma-separated header further
    such values after commas, and the end of the line; commas may stand within
    quotes; around the values and within them there may be white space, folded
    over several lines wherever each line feed is followed by a blank.  There is
    no white space before the colon. *)
Theorem sip_msg_decode_lines (tag : Z) (mb : mbuf) (x y z body : list Z) (ls : list line) :
  ztake (mbuf_get_left mb) (mbuf_buf mb) = msg_text x y z ls body -> zlength (msg_text x y z ls body) < 2 ^ 31 ->
  word [32; HT; CR; LF] x = true -> word [32; HT; CR; LF] y = true -> word [CR; LF] z = true -> 0 < zlength x -> 0 < zlength y ->
  Forall (line_ok char_signed) ls -> ls <> [] ->
  sip_msg_decode char_signed tag mb
  = andthen msg_alloc (fun _ => andthen (Some (start_line x y z tag)) (fun m => andthen (msg_lines char_signed m ls)
      (fun m => Some (Ok (m, mbuf_set_pos mb (mb_end mb - zlength body)))))).
Proof.
  intros Et Hl Hx Hy Hz Lx Ly Hls Hne. unfold sip_msg_decode. rewrite Et, decode_lines by done.
  destruct msg_alloc as [[]|]; [|done|done]. cbn [andthen]. destruct (start_line x y z tag) as [m|]; [|done]. by destruct (msg_lines char_signed m ls) as [[]|].
Qed.

(** C21: sip_msg_decode on any bytes returns: it does not read outside the
    unread part of the buffer, and either gives a message and leaves the buffer
    well formed, its position between where it was and the end, or fails with
    ENODATA, EBADMSG, ENOENT or ENOMEM. *)
Theorem sip_msg_decode_safe (tag : Z) (mb : mbuf) :
  mbuf_wf mb ->
  fine (sip_msg_decode char_signed tag mb) (fun r =>
    mbuf_wf r.2 /\ mb_pos mb <= mb_pos r.2 <= mb_end mb /\ r.2 = mbuf_set_pos mb (mb_pos r.2)).
Proof.
  intros W. unfold sip_msg_decode. set (text := ztake (mbuf_get_left mb) (mbuf_buf mb)). pose proof (wf_pos mb W) as Wp. pose proof (zlength_rest mb W) as Lr.
  assert (Et : text = rest mb) by (unfold text; rewrite mbuf_get_left_rest, mbuf_buf_rest by (done || lia); apply ztake_ge; lia).
  assert (Hf : fine (decode_text char_signed tag text) (fun r => 0 <= r.2 <= zlength text)) by apply decode_text_fine.
  destruct (decode_text char_signed tag text) as [[[m l]|]|]; [|done|done]. cbn in Hf |- *. rewrite Et in Hf. split_and!; [|lia|lia|done].
  replace (mb_end mb - l) with (mb_pos mb + (mb_end mb - l - mb_pos mb)) by lia. apply adv_wf; [done|lia].
Qed.
End Claims.

(** *** Header identifiers *)

Definition ascii_name (s : list Z) : bool := forallb (fun c => (0 <=? c) && (c <? 128)) s.

Lemma tolower_idem c : tolower (tolower c) = tolower c.
Proof. unfold tolower. destruct ((65 <=? c) && (c <=? 90)) eqn:E; [|by rewrite E]. destruct ((65 <=? c + 32) && (c + 32 <=? 90)) eqn:E'; lia. Qed.

Lemma joaat_ci_lower b s : ascii_name s = true -> hash_joaat_ci b s = hash_joaat_ci b (lowered s).
Proof.
  intros Hs. unfold hash_joaat_ci. f_equal. generalize 0. induction s as [|c s IH]; intros h; [done|]. cbn [ascii_name forallb] in Hs. apply andb_prop in Hs as [Hc Hs].
  cbn [lowered map foldl]. rewrite IH by done. f_equal. f_equal. assert (Hl : 0 <= tolower c < 128) by (unfold tolower; destruct ((65 <=? c) && (c <=? 90)) eqn:E; lia).
  unfold to_char. rewrite (proj2 (Z.leb_gt 128 c)), (proj2 (Z.leb_gt 128 (tolower c))), !andb_false_r by lia. by rewrite tolower_idem.
Qed.

Lemma hdr_hash_lower b s : ascii_name s = true -> hdr_hash b s = hdr_hash b (lowered s).
Proof.
  intros Hs. destruct s as [|c0 [|c1 s]]; [done|cbn; by rewrite tolower_idem|]. unfold hdr_hash. rewrite (joaat_ci_lower b _ Hs).
  change (lowered (c0 :: c1 :: s)) with (tolower c0 :: tolower c1 :: lowered s).
  assert (E : ((c0 =? 120) || (c0 =? 88)) && (c1 =? 45) = ((tolower c0 =? 120) || (tolower c0 =? 88)) && (tolower c1 =? 45)).
  { rewrite (tolower_plain c1 45) by done. f_equal. unfold tolower. destruct ((65 <=? c0) && (c0 <=? 90)) eqn:E; lia. }
  by rewrite E.
Qed.

(** C40: The identifiers of enum sip_hdrid are a perfect hash of the header names
    of the library: whatever the case of its letters, and whether char is signed
    or not, the name of a header is hashed to its identifier, and no two headers
    have the same one. *)
Theorem sip_hdrid_perfect (b : bool) (name : String.string) (id : Z) (s : list Z) :
  In (name, id) sip_hdrids -> lowered s = lowered (chars name) -> ascii_name s = true ->
  hdr_hash b s = id /\ NoDup (map snd sip_hdrids).
Proof.
  intros Hin Hs Ha. split; [|apply (bool_decide_unpack _); by vm_compute]. rewrite (hdr_hash_lower b s Ha), Hs.
  assert (Hall : forallb (fun e => (hdr_hash true (lowered (chars e.1)) =? e.2) && (hdr_hash false (lowered (chars e.1)) =? e.2)) sip_hdrids = true) by (by vm_compute).
  rewrite forallb_forall in Hall. specialize (Hall _ Hin). cbn [fst snd] in Hall. apply andb_prop in Hall as [H1 H2]. apply Z.eqb_eq in H1, H2. by destruct b.
Qed.

Lemma sip_hdrid_perfect_witness : hdr_hash true (chars "cOnTaCt") = 229 /\ NoDup (map snd sip_hdrids).
Proof. apply (sip_hdrid_perfect true "Contact" 229 (chars "cOnTaCt")); [vm_compute; tauto|by vm_compute|by vm_compute]. Defined.

(** ** Examples *)

#[local] Instance sip_platform : Platform := {| cvt_ll := fun _ => 0; str_error := fun _ => []; sa_ntop := fun _ => None |}.
#[local] Instance sip_resolver : Resolver :=
  {| inet_pton4 := fun s => if bool_decide (s = chars "10.0.0.1") then Some 0x0a000001 else None; inet_pton6 := fun _ => None; getaddrinfo := fun _ => None |}.
#[local] Instance sip_host : Host := lp64_le.

Definition ex_hdr (n v : String.string) : line := Line (chars n) [32] (chars v) [] [].
Definition ex_lines : list line :=
  [ex_hdr "Via" "SIP/2.0/UDP 10.0.0.1:5066;branch=z9hG4bKnash";
   ex_hdr "From" "Alice <sip:alice@a.com>;tag=77"; ex_hdr "t" "<sip:bob@b.com>"; ex_hdr "Call-ID" "f81d4@a.com"; ex_hdr "CSeq" "2 INVITE";
   Line (chars "Subject") [CR; LF; 32] (chars "two" ++ [CR; LF; HT] ++ chars "lines") [] [];
   Line (chars "Contact") [] (chars "<sip:x>") [([32], [CR; LF; 9], chars "<sip:y>")] [32]].
Definition ex_text : list Z := msg_text (chars "INVITE") (chars "sip:bob@b.com") (chars "SIP/2.0") ex_lines (chars "v=0").
Definition ex_mb : mbuf := Mbuf (Some ex_text) (zlength ex_text) 0 (zlength ex_text).

Lemma ex_lines_ok : Forall (line_ok true) ex_lines.
Proof.
  repeat (apply Forall_cons; split; [split; try (by vm_compute); try (by vm_compute; tauto); try (by intros ? ? ? [])|]); [|apply Forall_nil_2].
  intros g1 g2 u [E|[]]. injection E as <- <- <-. by vm_compute.
Qed.

(** A host name with a port: sa_set has cleared the address, and the port is lost. *)
Lemma via_port_lost :
  match sip_via_decode (Some (chars "SIP/2.0/UDP pc33.a.com:5066;branch=z9hG4bKnash")) with Some (Ok v) => sa_port (via_addr v) = 0 | _ => False end
  /\ match sip_via_decode (Some (chars "SIP/2.0/UDP 10.0.0.1:5066;branch=z9hG4bKnash")) with Some (Ok v) => sa_port (via_addr v) = 5066 | _ => False end.
Proof. by vm_compute. Qed.

Lemma sip_msg_decode_lines_witness :
  match sip_msg_decode true 5 ex_mb with
  | Some (Ok (m, mb)) => via_branch (m_via m) = Some (chars "z9hG4bKnash") /\ cseq_num (m_cseq m) = 2 /\ ta_tag (m_from m) = Some (chars "77")
      /\ sip_msg_hdr_count m SIP_HDR_CONTACT = 2 /\ mbuf_get_left mb = 3
  | _ => False
  end.
Proof.
  rewrite (sip_msg_decode_lines true 5 ex_mb (chars "INVITE") (chars "sip:bob@b.com") (chars "SIP/2.0") (chars "v=0") ex_lines);
    [by vm_compute|by vm_compute|by vm_compute|by vm_compute|by vm_compute|by vm_compute|by vm_compute|by vm_compute|apply ex_lines_ok|done].
Defined.

Lemma sip_msg_decode_safe_witness : fine (sip_msg_decode true 5 ex_mb) (fun r => mb_pos r.2 <= mb_end ex_mb).
Proof.
  eapply fine_mono; [apply (sip_msg_decode_safe true 5 ex_mb)|cbn; tauto].
  split; [by vm_compute|by vm_compute|by vm_compute|by vm_compute|]. apply (bool_decide_unpack _). by vm_compute.
Defined.
