(* ===== verification/SipCtrans.v ===== *)
(** * SIP client transactions: src/src/sip/ctrans.c

    The transactions of a SIP instance in the order of their table: a lookup
    finds the oldest one in the bucket of the key that the handler accepts
    (Hash.v).  Timers are deadlines (Tmr.v).  The transport is outside: what
    sip_transp_send returned is given, and what it was handed is the output, with
    what is reported to the user.  A transaction is named by [ct_id], counted up
    by the instance; handlers of the user run after the step.  Printing to a
    buffer (mbuf_printf of src/src/mbuf/mbuf.c) is vhprintf over
    mbuf_write_mem. *)

From stdpp Require Import base list numbers strings.
From Stdlib Require Import ZArith Lia.
From S2P Require Import Prelude Endian Mbuf Hash Dname Fmt Sa Odict Print Regex Uri SipMsg.

Open Scope Z_scope.

Definition SIP_T1 : Z := 500.
Definition SIP_T2 : Z := 4000.
Definition SIP_T4 : Z := 5000.
Definition COMPLETE_WAIT : Z := 32000.

(** transp.c *)
Definition sip_transp_reliable (tp : sip_transp) : bool :=
  match tp with SIP_TRANSP_TCP | SIP_TRANSP_TLS | SIP_TRANSP_WS | SIP_TRANSP_WSS => true | _ => false end.

Definition crlf : list Z := [CR; LF].
Definition unread (mb : mbuf) : list Z := ztake (mbuf_get_left mb) (mbuf_buf mb).

(** ** Printing to a buffer *)

Section Printf.
Context `{H : Host} `{P : Platform}.

Definition vprintf_handler (p : list Z) (mb : mbuf) : Z * mbuf := mbuf_write_mem mb p.
Definition mbuf_printf (fmt : list Z) (args : list parg) (mb : mbuf) : option (Z * mbuf) := run vprintf_handler (re_vhprintf fmt args) mb.

(** [err |= g()] *)
Definition mb_or (f g : mbuf -> option (Z * mbuf)) (mb : mbuf) : option (Z * mbuf) :=
  match f mb with
  | Some (e, mb) => match g mb with Some (e', mb) => Some (Z.lor e e', mb) | None => None end
  | None => None
  end.
Definition mb_skip (mb : mbuf) : option (Z * mbuf) := Some (0, mb).
Definition mb_do (f : mbuf -> Z * mbuf) (mb : mbuf) : option (Z * mbuf) := Some (f mb).
End Printf.

(** ** Transactions *)

Inductive ct_state_ := TRYING | CALLING | PROCEEDING | COMPLETED.

#[export] Instance ct_state_eq_dec : EqDecision ct_state_.
Proof. solve_decision. Defined.

(** [ct_resph] is 0 for the handler that does nothing. *)
Record sip_ctrans := SipCtransaction {
  ct_id : Z;
  ct_dst : sa;
  ct_tmr : option Z;
  ct_tmre : option Z;
  ct_mb : mbuf;
  ct_mb_ack : option mbuf;
  ct_req : option sip_msg;
  ct_met : list Z;
  ct_branch : list Z;
  ct_resph : Z;
  ct_tp : sip_transp;
  ct_state : ct_state_;
  ct_txc : Z;
  ct_invite : bool;
}.

(** The instance: the transactions, the size of the table, the name of the
    software and the next identifier. *)
Record sip := Sip { s_ctrans : list sip_ctrans; s_ctsize : Z; s_software : option (list Z); s_next : Z }.

Inductive cout :=
| CSend (tp : sip_transp) (dst : sa) (data : list Z)
| CNew (id resph : Z)
| CResp (id resph err : Z) (msg : option sip_msg)
| CDrop (id : Z).

Definition set_state (x : ct_state_) (ct : sip_ctrans) : sip_ctrans :=
  SipCtransaction (ct_id ct) (ct_dst ct) (ct_tmr ct) (ct_tmre ct) (ct_mb ct) (ct_mb_ack ct) (ct_req ct) (ct_met ct) (ct_branch ct) (ct_resph ct) (ct_tp ct) x (ct_txc ct) (ct_invite ct).
Definition set_tmr (x : option Z) (ct : sip_ctrans) : sip_ctrans :=
  SipCtransaction (ct_id ct) (ct_dst ct) x (ct_tmre ct) (ct_mb ct) (ct_mb_ack ct) (ct_req ct) (ct_met ct) (ct_branch ct) (ct_resph ct) (ct_tp ct) (ct_state ct) (ct_txc ct) (ct_invite ct).
Definition set_tmre (x : option Z) (txc : Z) (ct : sip_ctrans) : sip_ctrans :=
  SipCtransaction (ct_id ct) (ct_dst ct) (ct_tmr ct) x (ct_mb ct) (ct_mb_ack ct) (ct_req ct) (ct_met ct) (ct_branch ct) (ct_resph ct) (ct_tp ct) (ct_state ct) txc (ct_invite ct).
Definition set_req (mb : mbuf) (x : option sip_msg) (ct : sip_ctrans) : sip_ctrans :=
  SipCtransaction (ct_id ct) (ct_dst ct) (ct_tmr ct) (ct_tmre ct) mb (ct_mb_ack ct) x (ct_met ct) (ct_branch ct) (ct_resph ct) (ct_tp ct) (ct_state ct) (ct_txc ct) (ct_invite ct).
Definition set_ack (x : option mbuf) (ct : sip_ctrans) : sip_ctrans :=
  SipCtransaction (ct_id ct) (ct_dst ct) (ct_tmr ct) (ct_tmre ct) (ct_mb ct) x (ct_req ct) (ct_met ct) (ct_branch ct) (ct_resph ct) (ct_tp ct) (ct_state ct) (ct_txc ct) (ct_invite ct).

Definition set_ctrans (l : list sip_ctrans) (s : sip) : sip := Sip l (s_ctsize s) (s_software s) (s_next s).
Definition find_ct (id : Z) (s : sip) : option sip_ctrans := List.find (fun ct => ct_id ct =? id) (s_ctrans s).
Definition put_ct (ct : sip_ctrans) (s : sip) : sip := set_ctrans (map (fun c => if ct_id c =? ct_id ct then ct else c) (s_ctrans s)) s.
(** mem_deref: the destructor unlinks the transaction and cancels its timers. *)
Definition drop_ct (id : Z) (s : sip) : sip := set_ctrans (List.filter (fun ct => negb (ct_id ct =? id)) (s_ctrans s)) s.

(** sizeof(struct sip_ctrans) of an LP64 platform. *)
Definition SIP_CTRANS_STRUCT : Z := 352.

Section Ctrans.
Context `{H : Host} `{P : Platform} `{R : Resolver} (char_signed : bool).

(** sip_transp_send and sip_send; [nt] is what the transport returns. *)
Definition sip_transp_send (nt : Z) (tp : sip_transp) (dst : sa) (mb : mbuf) : Z * list cout :=
  (nt, if nt =? 0 then [CSend tp dst (unread mb)] else []).
Definition sip_send (nt : Z) (tp : sip_transp) (dst : sa) (mb : option mbuf) : list cout :=
  match mb with None => [] | Some mb => (sip_transp_send nt tp dst mb).2 end.

(** true stops the loop over the headers. *)
Definition route_handler (hdr : sip_hdr) (mb : option mbuf) : bool * option mbuf :=
  match mb with
  | None => (true, None)
  | Some mb =>
      match mbuf_printf (chars "Route: %r" ++ crlf) [PPl (Some (Some (hdr_val hdr)))] mb with
      | Some (e, mb) => (negb (e =? 0), Some mb)
      | None => (true, None)
      end
  end.
Definition routes (req : sip_msg) (mb : mbuf) : option (Z * mbuf) :=
  match sip_msg_hdr_apply req true SIP_HDR_ROUTE (Some route_handler) (Some mb) with
  | (Some _, Some mb) => Some (ENOMEM, mb)
  | (None, Some mb) => Some (0, mb)
  | (_, None) => None
  end.

(** What is printed for a copy of the request. *)
Definition copy_text (req : sip_msg) (met : list Z) (resp : option sip_msg) (software : option (list Z)) : mbuf -> option (Z * mbuf) :=
  mb_or (mbuf_printf (chars "%s %r SIP/2.0" ++ crlf) [PStr (Some met); PPl (Some (m_ruri req))])
  (mb_or (mbuf_printf (chars "Via: %r" ++ crlf) [PPl (Some (via_val (m_via req)))])
  (mb_or (mb_do (mbuf_write_str (chars "Max-Forwards: 70" ++ crlf)))
  (mb_or (routes req)
  (mb_or (mbuf_printf (chars "To: %r" ++ crlf) [PPl (Some (match resp with Some r => ta_val (m_to r) | None => ta_val (m_to req) end))])
  (mb_or (mbuf_printf (chars "From: %r" ++ crlf) [PPl (Some (ta_val (m_from req)))])
  (mb_or (mbuf_printf (chars "Call-ID: %r" ++ crlf) [PPl (Some (m_callid req))])
  (mb_or (mbuf_printf (chars "CSeq: %u %s" ++ crlf) [PInt (cseq_num (m_cseq req)); PStr (Some met)])
  (mb_or (match software with Some sw => mbuf_printf (chars "User-Agent: %s" ++ crlf) [PStr (Some sw)] | None => mb_skip end)
  (mb_do (mbuf_write_str (chars "Content-Length: 0" ++ crlf ++ crlf))))))))))).

(** The request is decoded once; its buffer is then at the body.  [tag] is what
    rand_u64 returns. *)
Definition request_copy (tag : Z) (ct : sip_ctrans) (met : list Z) (resp : option sip_msg) (software : option (list Z)) : option (res mbuf) * sip_ctrans :=
  let copy req ct :=
    (match mbuf_alloc 1024 with
     | None => Some (Err ENOMEM)
     | Some mb =>
         match copy_text req met resp software mb with
         | Some (e, mb) => Some (if e =? 0 then Ok (mbuf_set_pos mb 0) else Err e)
         | None => None
         end
     end, ct) in
  match ct_req ct with
  | Some req => copy req ct
  | None =>
      match sip_msg_decode char_signed tag (ct_mb ct) with
      | Some (Ok (req, mb)) => copy req (set_req mb (Some req) ct)
      | Some (Err e) => (Some (Err e), ct)
      | None => (None, ct)
      end
  end.

Definition cmp_handler (msg : sip_msg) (ct : sip_ctrans) : bool :=
  if negb (pl_strcmp (via_branch (m_via msg)) (ct_branch ct) =? 0) then false
  else if negb (pl_strcmp (cseq_met (m_cseq msg)) (ct_met ct) =? 0) then false
  else true.

Definition resp (ct : sip_ctrans) (err : Z) (msg : option sip_msg) : list cout :=
  if ct_resph ct =? 0 then [] else [CResp (ct_id ct) (ct_resph ct) err msg].

Definition terminate (ct : sip_ctrans) (err : Z) : list cout :=
  match ct_state ct with TRYING | CALLING | PROCEEDING => resp ct err None | COMPLETED => [] end.

Definition transport_handler (id err : Z) (s : sip) : sip * list cout :=
  match find_ct id s with None => (s, []) | Some ct => (drop_ct id s, terminate ct err) end.

Definition tmr_handler (id : Z) (s : sip) : sip * list cout :=
  match find_ct id s with None => (s, []) | Some ct => (drop_ct id s, terminate ct ETIMEDOUT) end.

(** The timer was disarmed when it fired. *)
Definition retransmit_handler (nt now id : Z) (s : sip) : sip * list cout :=
  match find_ct id s with
  | None => (s, [])
  | Some ct =>
      let txc := u32 (ct_txc ct + 1) in
      let again timeout :=
        let ct := set_tmre (Some (now + timeout)) txc ct in
        let '(err, o) := sip_transp_send nt (ct_tp ct) (ct_dst ct) (ct_mb ct) in
        if negb (err =? 0) then (drop_ct id s, o ++ terminate ct err) else (put_ct ct s, o) in
      match ct_state ct with
      | TRYING => again (Z.min (u32 (Z.shiftl SIP_T1 txc)) SIP_T2)
      | CALLING => again (u32 (Z.shiftl SIP_T1 txc))
      | PROCEEDING => again SIP_T2
      | COMPLETED => (put_ct (set_tmre None txc ct) s, [])
      end
  end.

Definition invite_response (nt now tag : Z) (ct : sip_ctrans) (msg : sip_msg) (s : sip) : sip * list cout :=
  let answer ct :=
    if m_scode msg <? 200 then (put_ct (set_state PROCEEDING ct) s, resp ct 0 (Some msg))
    else if m_scode msg <? 300 then (drop_ct (ct_id ct) s, resp ct 0 (Some msg))
    else
      let '(r, ct) := request_copy tag (set_state COMPLETED ct) (chars "ACK") (Some msg) (s_software s) in
      let ct := match r with Some (Ok mb) => set_ack (Some mb) ct | _ => ct end in
      let o := sip_send nt (ct_tp ct) (ct_dst ct) (ct_mb_ack ct) ++ resp ct 0 (Some msg) in
      if sip_transp_reliable (ct_tp ct) then (drop_ct (ct_id ct) s, o)
      else (put_ct (set_tmr (Some (now + COMPLETE_WAIT)) ct) s, o) in
  match ct_state ct with
  | CALLING => answer (set_tmr None (set_tmre None (ct_txc ct) ct))
  | PROCEEDING => answer ct
  | COMPLETED => if m_scode msg <? 300 then (s, []) else (s, sip_send nt (ct_tp ct) (ct_dst ct) (ct_mb_ack ct))
  | TRYING => (s, [])
  end.

(** The transaction of a response. *)
Definition lookup_ct (msg : sip_msg) (s : sip) : option sip_ctrans :=
  let t := Hash 0 (s_ctsize s) in
  List.find (fun ct => (index t (hash_joaat_str char_signed (ct_branch ct)) =? index t (hash_joaat_pl (via_branch (m_via msg)))) && cmp_handler msg ct)
    (s_ctrans s).

Definition response_handler (nt now tag : Z) (msg : sip_msg) (s : sip) : bool * sip * list cout :=
  match lookup_ct msg s with
  | None => (false, s, [])
  | Some ct =>
      let '(s, o) :=
        if ct_invite ct then invite_response nt now tag ct msg s
        else
          match ct_state ct with
          | TRYING | PROCEEDING =>
              if m_scode msg <? 200 then (put_ct (set_state PROCEEDING ct) s, resp ct 0 (Some msg))
              else
                let ct := set_state COMPLETED ct in
                if sip_transp_reliable (ct_tp ct) then (drop_ct (ct_id ct) s, resp ct 0 (Some msg))
                else (put_ct (set_tmr (Some (now + SIP_T4)) (set_tmre None (ct_txc ct) ct)) s, resp ct 0 (Some msg))
          | _ => (s, [])
          end in
      (true, s, o)
  end.

Definition sip_ctrans_request (nt now : Z) (tp : sip_transp) (dst : sa) (met branch : list Z) (mb : mbuf) (resph : Z) (s : sip) : res Z * sip * list cout :=
  match mem_alloc SIP_CTRANS_STRUCT with
  | None => (Err ENOMEM, s, [])
  | Some _ =>
      let id := s_next s in
      let s := Sip (s_ctrans s) (s_ctsize s) (s_software s) (id + 1) in
      let invite := bool_decide (met = chars "INVITE") in
      let '(err, o) := sip_transp_send nt tp dst mb in
      if negb (err =? 0) then (Err err, s, o)
      else
        let tmre := if sip_transp_reliable tp then None else Some (now + SIP_T1) in
        let ct := SipCtransaction id dst (Some (now + 64 * SIP_T1)) tmre mb None None met branch resph tp (if invite then CALLING else TRYING) 0 invite in
        (Ok id, set_ctrans (s_ctrans s ++ [ct]) s, CNew id resph :: o)
  end.

Definition sip_ctrans_cancel (nt now tag : Z) (id : Z) (s : sip) : Z * sip * list cout :=
  match find_ct id s with
  | None => (EINVAL, s, [])
  | Some ct =>
      if negb (ct_invite ct) then (0, s, [])
      else
        match ct_state ct with
        | PROCEEDING =>
            let ct := set_tmr (Some (now + 64 * SIP_T1)) ct in
            match mem_alloc 7 with
            | None => (ENOMEM, put_ct ct s, [])
            | Some _ =>
                let '(r, ct) := request_copy tag ct (chars "CANCEL") None (s_software s) in
                let s := put_ct ct s in
                match r with
                | Some (Ok mb) =>
                    match sip_ctrans_request nt now (ct_tp ct) (ct_dst ct) (chars "CANCEL") (ct_branch ct) mb 0 s with
                    | (Ok _, s, o) => (0, s, o)
                    | (Err e, s, o) => (e, s, o)
                    end
                | Some (Err e) => (e, s, [])
                | None => (EINVAL, s, [])
                end
            end
        | _ => (EPROTO, s, [])
        end
  end.

(** The owner releases the transaction. *)
Definition release (id : Z) (s : sip) : sip * list cout :=
  match find_ct id s with None => (s, []) | Some _ => (drop_ct id s, [CDrop id]) end.
End Ctrans.
