(* ===== verification/SipCtransSpec.v ===== *)
(** * SIP client transactions: what users are told, and when

    [monitor] reads the outputs of an instance and follows one transaction:
    between its start and its one final report it may be told provisional
    responses, and nothing afterwards.  The invariant relates this automaton to
    the transactions that are pending in every reachable state. *)

From stdpp Require Import base list numbers strings.
From Stdlib Require Import ZArith Lia.
From S2P Require Import Prelude Endian Mbuf Hash Dname Fmt Sa Odict Print Regex Uri SipMsg SipCtrans.

Open Scope Z_scope.

(** ** The table *)

Lemma ct_find_put id ct s : find_ct id (put_ct ct s) = if id =? ct_id ct then match find_ct id s with Some _ => Some ct | None => None end else find_ct id s.
Proof.
  unfold find_ct, put_ct, set_ctrans. cbn [s_ctrans]. induction (s_ctrans s) as [|c l IH]; cbn [map List.find]; [by destruct (id =? ct_id ct)|].
  destruct (Z.eqb_spec (ct_id c) (ct_id ct)) as [E|E], (Z.eqb_spec id (ct_id ct)) as [Ei|Hn].
  - subst id. by rewrite E, Z.eqb_refl.
  - rewrite (proj2 (Z.eqb_neq (ct_id ct) id)), (proj2 (Z.eqb_neq (ct_id c) id)) by congruence. exact IH.
  - subst id. rewrite (proj2 (Z.eqb_neq _ _) E). exact IH.
  - by destruct (ct_id c =? id).
Qed.

Lemma find_drop id i s : find_ct id (drop_ct i s) = if id =? i then None else find_ct id s.
Proof.
  unfold find_ct, drop_ct, set_ctrans. cbn [s_ctrans]. induction (s_ctrans s) as [|c l IH]; cbn [List.filter List.find]; [by destruct (id =? i)|].
  destruct (Z.eqb_spec (ct_id c) i) as [E|E]; cbn [negb List.find].
  - destruct (Z.eqb_spec id i) as [Ei|Hn]; [exact IH|]. rewrite (proj2 (Z.eqb_neq (ct_id c) id)) by congruence. exact IH.
  - destruct (Z.eqb_spec (ct_id c) id) as [Ei|Hn]; [|exact IH]. by rewrite (proj2 (Z.eqb_neq id i)) by congruence.
Qed.

Lemma find_append ct s n : find_ct (ct_id ct) s = None -> find_ct (ct_id ct) (set_ctrans (s_ctrans s ++ [ct]) (Sip (s_ctrans s) (s_ctsize s) (s_software s) n)) = Some ct.
Proof.
  unfold find_ct, set_ctrans. cbn [s_ctrans]. induction (s_ctrans s) as [|c l IH]; cbn [app List.find]; [by rewrite Z.eqb_refl|]. destruct (_ =? _); [done|auto].
Qed.

Lemma find_id id s ct : find_ct id s = Some ct -> ct_id ct = id /\ In ct (s_ctrans s).
Proof. intros [Hin E]%List.find_some. apply Z.eqb_eq in E. by split. Qed.

Lemma find_in ct s : NoDup (map ct_id (s_ctrans s)) -> In ct (s_ctrans s) -> find_ct (ct_id ct) s = Some ct.
Proof.
  unfold find_ct. induction (s_ctrans s) as [|c l IH]; [done|]. cbn [map List.find]. rewrite NoDup_cons. intros [Hn Hd] [->|Hin]; [by rewrite Z.eqb_refl|].
  destruct (Z.eqb_spec (ct_id c) (ct_id ct)) as [E|E]; [|by apply IH]. exfalso. apply Hn. rewrite E. apply list_elem_of_In, in_map, Hin.
Qed.

(** ** Events *)

Inductive event :=
| EReq (nt : Z) (tp : sip_transp) (dst : sa) (met branch : list Z) (mb : mbuf) (resph : Z)
| ETmr (id : Z)
| ETmre (nt id : Z)
| ETransp (id err : Z)
| EResp (nt tag : Z) (msg : sip_msg)
| ECancel (nt tag id : Z)
| ERelease (id : Z).

Section Spec.
Context `{H : Host} `{P : Platform} `{R : Resolver} (char_signed : bool).

Definition step (now : Z) (e : event) (s : sip) : sip * list cout :=
  match e with
  | EReq nt tp dst met branch mb resph => let '(_, s, o) := sip_ctrans_request nt now tp dst met branch mb resph s in (s, o)
  | ETmr id => tmr_handler id s
  | ETmre nt id => retransmit_handler nt now id s
  | ETransp id err => transport_handler id err s
  | EResp nt tag msg => let '(_, s, o) := response_handler char_signed nt now tag msg s in (s, o)
  | ECancel nt tag id => let '(_, s, o) := sip_ctrans_cancel char_signed nt now tag id s in (s, o)
  | ERelease id => release id s
  end.

(** Timers fire when they are due; the transport reports errors. *)
Definition allowed (now : Z) (e : event) (s : sip) : Prop :=
  match e with
  | ETmr id => exists ct d, find_ct id s = Some ct /\ ct_tmr ct = Some d /\ d <= now
  | ETmre _ id => exists ct d, find_ct id s = Some ct /\ ct_tmre ct = Some d /\ d <= now
  | ETransp _ err => err <> 0
  | _ => True
  end.

Inductive reach (size : Z) (software : option (list Z)) : sip -> Z -> list cout -> Prop :=
| reach_init now : reach size software (Sip [] size software 0) now []
| reach_step s t os now e : reach size software s t os -> t <= now -> allowed now e s ->
    reach size software (step now e s).1 now (os ++ (step now e s).2).

(** ** The monitor *)

Inductive status := Unborn | Silent | Waiting | Done | Released | Bad.

Definition is_final (err : Z) (msg : option sip_msg) : bool := negb (err =? 0) || match msg with Some m => 200 <=? m_scode m | None => true end.

Definition monitor1 (id : Z) (st : status) (o : cout) : status :=
  match o with
  | CNew i resph => if i =? id then match st with Unborn => if resph =? 0 then Silent else Waiting | _ => Bad end else st
  | CResp i _ err msg => if i =? id then match st with Waiting => if is_final err msg then Done else Waiting | _ => Bad end else st
  | CDrop i => if i =? id then match st with Waiting => Released | Unborn => Bad | st => st end else st
  | CSend _ _ _ => st
  end.
Definition monitor (id : Z) (os : list cout) : status := fold_left (monitor1 id) os Unborn.

Lemma monitor_app id os o : monitor id (os ++ o) = fold_left (monitor1 id) o (monitor id os).
Proof. apply fold_left_app. Qed.

(** The timers of a transaction, at a time not after [t]: all wait at most 64 T1,
    and only an INVITE that has been provisionally answered waits without one. *)
Record ct_ok (t : Z) (ct : sip_ctrans) : Prop := {
  ok_state : match ct_state ct with
    | TRYING => ct_invite ct = false /\ is_Some (ct_tmr ct) /\ (ct_tmre ct = None <-> sip_transp_reliable (ct_tp ct) = true)
    | CALLING => ct_invite ct = true /\ is_Some (ct_tmr ct) /\ (ct_tmre ct = None <-> sip_transp_reliable (ct_tp ct) = true)
    | PROCEEDING => if ct_invite ct then ct_tmre ct = None else is_Some (ct_tmr ct) /\ (ct_tmre ct = None <-> sip_transp_reliable (ct_tp ct) = true)
    | COMPLETED => is_Some (ct_tmr ct) /\ ct_tmre ct = None /\ sip_transp_reliable (ct_tp ct) = false
    end;
  ok_wait : match ct_tmr ct with Some d => d <= t + 64 * SIP_T1 | None => True end;
}.

Definition follows (s : sip) (id : Z) (st : status) : Prop :=
  match st with
  | Unborn => find_ct id s = None
  | Silent => match find_ct id s with Some ct => ct_resph ct = 0 | None => True end
  | Waiting => match find_ct id s with Some ct => ct_resph ct <> 0 /\ ct_state ct <> COMPLETED | None => False end
  | Done => match find_ct id s with Some ct => ct_state ct = COMPLETED | None => True end
  | Released => find_ct id s = None
  | Bad => False
  end.

Record inv (s : sip) (t : Z) (os : list cout) : Prop := {
  inv_nodup : NoDup (map ct_id (s_ctrans s));
  inv_ok : Forall (ct_ok t) (s_ctrans s);
  inv_fresh : forall id, s_next s <= id -> find_ct id s = None /\ monitor id os = Unborn;
  inv_follow : forall id, follows s id (monitor id os);
}.

(** ** How a step changes the books *)

Definition about (id : Z) (o : cout) : bool := match o with CSend _ _ _ => true | CNew i _ | CResp i _ _ _ | CDrop i => i =? id end.

Lemma monitor_other i id o st : forallb (about id) o = true -> i <> id -> fold_left (monitor1 i) o st = st.
Proof.
  revert st. induction o as [|x o IH]; intros st Ho Hi; [done|]. cbn [forallb] in Ho. apply andb_prop in Ho as [Hx Ho]. cbn [fold_left].
  rewrite IH by done. destruct x; cbn in Hx |- *; try done; apply Z.eqb_eq in Hx as ->; by rewrite (proj2 (Z.eqb_neq id i)) by congruence.
Qed.

(** What the monitor may say of a pending transaction, and of one that is gone. *)
Definition pends (ct : sip_ctrans) (st : status) : Prop :=
  match st with Silent => ct_resph ct = 0 | Waiting => ct_resph ct <> 0 /\ ct_state ct <> COMPLETED | Done => ct_state ct = COMPLETED | _ => False end.
Definition gone (st : status) : Prop := match st with Silent | Done | Released => True | _ => False end.

Lemma follows_pends s id ct st : find_ct id s = Some ct -> follows s id st <-> pends ct st.
Proof. intros E. unfold follows, pends. rewrite E. by destruct st. Qed.

Lemma ct_ok_later t now ct : ct_ok t ct -> t <= now -> ct_ok now ct.
Proof. intros [Hs Hw] Ht. split; [done|]. destruct (ct_tmr ct); [lia|done]. Qed.

Lemma find_fresh s t os id ct : inv s t os -> find_ct id s = Some ct -> id < s_next s.
Proof. intros Hi Hf. destruct (Z.lt_ge_cases id (s_next s)) as [|Hge]; [done|]. destruct (inv_fresh _ _ _ Hi id Hge) as [E _]. by rewrite Hf in E. Qed.

Lemma inv_put s t os now id ct ct' o : inv s t os -> t <= now -> find_ct id s = Some ct -> ct_id ct' = id -> ct_ok now ct' ->
  forallb (about id) o = true -> (forall st, pends ct st -> pends ct' (fold_left (monitor1 id) o st)) -> inv (put_ct ct' s) now (os ++ o).
Proof.
  intros Hi Ht Hf Eid Hok Ho Hm. pose proof (find_fresh _ _ _ _ _ Hi Hf) as Hlt. split.
  - unfold put_ct, set_ctrans. cbn [s_ctrans]. rewrite map_map. erewrite map_ext; [apply Hi|]. intros c. cbn. by destruct (Z.eqb_spec (ct_id c) (ct_id ct')).
  - unfold put_ct, set_ctrans. cbn [s_ctrans]. apply List.Forall_map. eapply Forall_impl; [apply Hi|]. intros c Hc. cbn. destruct (_ =? _); [done|by eapply ct_ok_later].
  - intros i Hge. change (s_next (put_ct ct' s)) with (s_next s) in Hge. rewrite ct_find_put, Eid, monitor_app. destruct (inv_fresh _ _ _ Hi i Hge) as [E1 E2].
    rewrite (proj2 (Z.eqb_neq i id)) by lia. rewrite (monitor_other i id) by (done || lia). done.
  - intros i. rewrite monitor_app. destruct (Z.eq_dec i id) as [->|Hne].
    + apply (follows_pends _ _ ct'); [by rewrite ct_find_put, Eid, Z.eqb_refl, Hf|]. apply Hm. apply (follows_pends s id); [done|apply Hi].
    + rewrite (monitor_other i id) by done. pose proof (inv_follow _ _ _ Hi i) as Hx. unfold follows in *. by rewrite ct_find_put, Eid, (proj2 (Z.eqb_neq i id) Hne).
Qed.

Lemma inv_drop s t os now id ct o : inv s t os -> t <= now -> find_ct id s = Some ct ->
  forallb (about id) o = true -> (forall st, pends ct st -> gone (fold_left (monitor1 id) o st)) -> inv (drop_ct id s) now (os ++ o).
Proof.
  intros Hi Ht Hf Ho Hm. pose proof (find_fresh _ _ _ _ _ Hi Hf) as Hlt. split.
  - unfold drop_ct, set_ctrans. cbn [s_ctrans]. eapply sublist_NoDup; [apply Hi|]. apply (fmap_sublist ct_id).
    clear. induction (s_ctrans s) as [|c l IH]; cbn; [done|]. destruct (negb _); by constructor.
  - unfold drop_ct, set_ctrans. cbn [s_ctrans]. eapply List.incl_Forall; [apply List.incl_filter|]. eapply Forall_impl; [apply Hi|]. intros c Hc. by eapply ct_ok_later.
  - intros i Hge. change (s_next (drop_ct id s)) with (s_next s) in Hge. rewrite find_drop, monitor_app. destruct (inv_fresh _ _ _ Hi i Hge) as [E1 E2].
    rewrite (monitor_other i id) by (done || lia). by destruct (i =? id).
  - intros i. rewrite monitor_app. destruct (Z.eq_dec i id) as [->|Hne].
    + pose proof (Hm _ (proj1 (follows_pends s id ct _ Hf) (inv_follow _ _ _ Hi id))) as Hg. unfold follows. rewrite find_drop, Z.eqb_refl. by destruct (fold_left _ _ _).
    + rewrite (monitor_other i id) by done. pose proof (inv_follow _ _ _ Hi i) as Hx. unfold follows in *. by rewrite find_drop, (proj2 (Z.eqb_neq i id) Hne).
Qed.

Lemma inv_idle s t os now : inv s t os -> t <= now -> inv s now (os ++ []).
Proof.
  intros Hi Ht. rewrite app_nil_r. split; [apply Hi| |apply Hi|apply Hi]. eapply Forall_impl; [apply Hi|]. intros c Hc. by eapply ct_ok_later.
Qed.

(** *** Outputs *)

Lemma resp_about ct err msg : forallb (about (ct_id ct)) (resp ct err msg) = true.
Proof. unfold resp. destruct (_ =? 0); cbn; by rewrite ?Z.eqb_refl. Qed.
Lemma send_about id nt tp dst mb : forallb (about id) (sip_send nt tp dst mb) = true.
Proof. unfold sip_send, sip_transp_send. destruct mb; [|done]. cbn. by destruct (nt =? 0). Qed.
Lemma transp_about id nt tp dst mb : forallb (about id) (sip_transp_send nt tp dst mb).2 = true.
Proof. unfold sip_transp_send. cbn. by destruct (nt =? 0). Qed.
Lemma send_monitor id nt tp dst mb st : fold_left (monitor1 id) (sip_send nt tp dst mb) st = st.
Proof. unfold sip_send, sip_transp_send. destruct mb; [|done]. cbn. by destruct (nt =? 0). Qed.
Lemma transp_monitor id nt tp dst mb st : fold_left (monitor1 id) (sip_transp_send nt tp dst mb).2 st = st.
Proof. unfold sip_transp_send. cbn. by destruct (nt =? 0). Qed.

Lemma resp_final ct err msg st : pends ct st -> ct_state ct <> COMPLETED -> is_final err msg = true ->
  fold_left (monitor1 (ct_id ct)) (resp ct err msg) st = if ct_resph ct =? 0 then Silent else Done.
Proof.
  intros Hp Hs Hf. unfold resp. destruct st; cbn in Hp; try done.
  - by rewrite Hp.
  - rewrite (proj2 (Z.eqb_neq _ 0) (proj1 Hp)). cbn. by rewrite Z.eqb_refl, Hf.
Qed.
Lemma resp_prov ct err msg st : pends ct st -> ct_state ct <> COMPLETED -> is_final err msg = false -> fold_left (monitor1 (ct_id ct)) (resp ct err msg) st = st.
Proof.
  intros Hp Hs Hf. unfold resp. destruct st; cbn in Hp; try done.
  - by rewrite Hp.
  - rewrite (proj2 (Z.eqb_neq _ 0) (proj1 Hp)). cbn. by rewrite Z.eqb_refl, Hf.
Qed.

Lemma terminate_about ct err : forallb (about (ct_id ct)) (terminate ct err) = true.
Proof. unfold terminate. destruct (ct_state ct); auto using resp_about. Qed.
Lemma terminate_gone ct err st : pends ct st -> err <> 0 -> gone (fold_left (monitor1 (ct_id ct)) (terminate ct err) st).
Proof.
  intros Hp He. unfold terminate. assert (Hf : is_final err None = true) by (unfold is_final; by rewrite orb_true_r).
  destruct (ct_state ct) eqn:Es; try (rewrite resp_final by (rewrite ?Es; done); by destruct (_ =? 0)). destruct st; cbn in Hp |- *; tauto || (destruct Hp; congruence).
Qed.

Lemma scode_final scode msg : m_scode msg = scode -> is_final 0 (Some msg) = (200 <=? scode).
Proof. intros <-. done. Qed.

(** *** The steps *)

Lemma timer_inv s t os now id ct err : inv s t os -> t <= now -> find_ct id s = Some ct -> err <> 0 -> inv (drop_ct id s) now (os ++ terminate ct err).
Proof.
  intros Hi Ht Hf He. destruct (find_id _ _ _ Hf) as [<- _]. eapply inv_drop; [done|done|done|apply terminate_about|]. intros st Hp. by apply terminate_gone.
Qed.

Lemma find_ok s t os id ct : inv s t os -> find_ct id s = Some ct -> ct_ok t ct.
Proof. intros Hi Hf. destruct (find_id _ _ _ Hf) as [_ Hin]. by apply (proj1 (List.Forall_forall _ _) (inv_ok _ _ _ Hi)). Qed.

Lemma tmre_inv s t os nt now id ct d : inv s t os -> t <= now -> find_ct id s = Some ct -> ct_tmre ct = Some d ->
  inv (retransmit_handler nt now id s).1 now (os ++ (retransmit_handler nt now id s).2).
Proof.
  intros Hi Ht Hf Hd. unfold retransmit_handler. rewrite Hf. destruct (find_id _ _ _ Hf) as [Eid _]. pose proof (find_ok _ _ _ _ _ Hi Hf) as [Hs Hw].
  assert (Hgo : forall timeout, ct_state ct <> COMPLETED -> let again := let ct := set_tmre (Some (now + timeout)) (u32 (ct_txc ct + 1)) ct in
    let '(err, o) := sip_transp_send nt (ct_tp ct) (ct_dst ct) (ct_mb ct) in if negb (err =? 0) then (drop_ct id s, o ++ terminate ct err) else (put_ct ct s, o) in
    inv again.1 now (os ++ again.2)).
  { intros timeout Hst. cbn zeta. set (ct' := set_tmre _ _ ct). destruct (sip_transp_send nt (ct_tp ct') (ct_dst ct') (ct_mb ct')) as [err o] eqn:Eo.
    assert (Ho1 : forallb (about id) o = true) by (pose proof (transp_about id nt (ct_tp ct') (ct_dst ct') (ct_mb ct')) as Hx; by rewrite Eo in Hx).
    assert (Ho2 : forall st, fold_left (monitor1 id) o st = st) by (intros st; pose proof (transp_monitor id nt (ct_tp ct') (ct_dst ct') (ct_mb ct') st) as Hx; by rewrite Eo in Hx).
    destruct (Z.eqb_spec err 0) as [_|He]; cbn [negb fst snd].
    - eapply inv_put; [done|done|done|done| |done|]; [|intros st Hp; by rewrite Ho2].
      assert (Hok : ct_ok now ct); [|destruct Hok as [Hs' Hw']; split; [|done]; unfold ct'; cbn [ct_state ct_invite ct_tmr ct_tmre ct_tp set_tmre]; destruct (ct_state ct); try done; rewrite Hd in *; try (by destruct (ct_invite ct)); tauto || idtac].
      + by apply (ct_ok_later t).
      + destruct Hs' as (? & ? & Hx). split_and!; [done|done|]. split; [done|]. intros E. apply Hx in E. done.
      + destruct Hs' as (? & ? & Hx). split_and!; [done|done|]. split; [done|]. intros E. apply Hx in E. done.
      + destruct (ct_invite ct); [done|]. destruct Hs' as (? & Hx). split; [done|]. split; [done|]. intros E. apply Hx in E. done.
    - eapply inv_drop; [done|done|done| |].
      + rewrite forallb_app, Ho1. rewrite <- Eid. apply (terminate_about ct').
      + intros st Hp. rewrite fold_left_app, Ho2, <- Eid. by apply (terminate_gone ct'). }
  destruct (ct_state ct) eqn:Es; try (apply Hgo; by rewrite ?Es). destruct Hs as (_ & Hx & _). congruence.
Qed.

Lemma lookup_find s t os msg ct : inv s t os -> lookup_ct char_signed msg s = Some ct -> find_ct (ct_id ct) s = Some ct.
Proof. intros Hi Hl. apply List.find_some in Hl as [Hin _]. apply find_in; [apply Hi|done]. Qed.

(** Copying the request only decodes it. *)
Lemma request_copy_keeps tag ct met r sw : exists mb req, (request_copy char_signed tag ct met r sw).2 = set_req mb req ct.
Proof.
  unfold request_copy. assert (Hself : exists mb req, ct = set_req mb req ct) by (exists (ct_mb ct), (ct_req ct); by destruct ct).
  destruct (ct_req ct) as [req|]; cbn [snd]; [done|]. destruct (sip_msg_decode _ _ _) as [[[req mb]|]|]; cbn [snd]; [by exists mb, (Some req)|done|done].
Qed.

Lemma completed_put s t os now ct ct' o : inv s t os -> t <= now -> find_ct (ct_id ct) s = Some ct -> ct_state ct <> COMPLETED -> ct_id ct' = ct_id ct -> ct_resph ct' = ct_resph ct ->
  ct_state ct' = COMPLETED -> ct_ok now ct' -> forallb (about (ct_id ct)) o = true ->
  (forall st, pends ct st -> fold_left (monitor1 (ct_id ct)) o st = if ct_resph ct =? 0 then Silent else Done) -> inv (put_ct ct' s) now (os ++ o).
Proof.
  intros Hi Ht Hf Hs Eid Er Es Hok Ho Hm. eapply inv_put; [done|done|done|done|done|done|]. intros st Hp. rewrite (Hm st Hp). destruct (Z.eqb_spec (ct_resph ct) 0); cbn; congruence.
Qed.

Lemma final_drop s t os now ct o : inv s t os -> t <= now -> find_ct (ct_id ct) s = Some ct -> forallb (about (ct_id ct)) o = true ->
  (forall st, pends ct st -> fold_left (monitor1 (ct_id ct)) o st = if ct_resph ct =? 0 then Silent else Done) -> inv (drop_ct (ct_id ct) s) now (os ++ o).
Proof. intros Hi Ht Hf Ho Hm. eapply inv_drop; [done|done|done|done|]. intros st Hp. rewrite (Hm st Hp). by destruct (_ =? 0). Qed.

Lemma prov_put s t os now ct ct' msg : inv s t os -> t <= now -> find_ct (ct_id ct) s = Some ct -> ct_state ct <> COMPLETED -> ct_id ct' = ct_id ct -> ct_resph ct' = ct_resph ct ->
  ct_state ct' = PROCEEDING -> ct_ok now ct' -> (m_scode msg <? 200) = true -> inv (put_ct ct' s) now (os ++ resp ct 0 (Some msg)).
Proof.
  intros Hi Ht Hf Hs Eid Er Es Hok Hc. eapply inv_put; [done|done|done|done|done|apply resp_about|]. intros st Hp. rewrite resp_prov; [|done|done|unfold is_final; cbn; lia].
  unfold pends in *. rewrite Er, Es. destruct st; try done; first [by destruct Hp|by destruct Hs].
Qed.

(** A response to an INVITE whose timers have been cancelled. *)
Lemma answer_inv s t os nt now tag ct ct0 msg : inv s t os -> t <= now -> find_ct (ct_id ct) s = Some ct -> ct_state ct <> COMPLETED -> ct_invite ct = true ->
  ct_id ct0 = ct_id ct -> ct_resph ct0 = ct_resph ct -> ct_invite ct0 = true -> ct_tp ct0 = ct_tp ct -> ct_tmre ct0 = None ->
  match ct_tmr ct0 with Some d => d <= now + 64 * SIP_T1 | None => True end ->
  let answer :=
    if m_scode msg <? 200 then (put_ct (set_state PROCEEDING ct0) s, resp ct0 0 (Some msg))
    else if m_scode msg <? 300 then (drop_ct (ct_id ct0) s, resp ct0 0 (Some msg))
    else
      let '(r, ct) := request_copy char_signed tag (set_state COMPLETED ct0) (chars "ACK") (Some msg) (s_software s) in
      let ct := match r with Some (Ok mb) => set_ack (Some mb) ct | _ => ct end in
      let o := sip_send nt (ct_tp ct) (ct_dst ct) (ct_mb_ack ct) ++ resp ct 0 (Some msg) in
      if sip_transp_reliable (ct_tp ct) then (drop_ct (ct_id ct) s, o) else (put_ct (set_tmr (Some (now + COMPLETE_WAIT)) ct) s, o) in
  inv answer.1 now (os ++ answer.2).
Proof.
  intros Hi Ht Hf Hs Hinv Eid Er Einv0 Etp Etmre Hd. cbn zeta. assert (Eresp : forall err m, resp ct0 err m = resp ct err m) by (intros; unfold resp; by rewrite Eid, Er).
  destruct (m_scode msg <? 200) eqn:E2; cbn [fst snd].
  { rewrite Eresp. eapply (prov_put s t os now ct); try done. split; cbn; [by rewrite Einv0|done]. }
  assert (Hfin : is_final 0 (Some msg) = true) by (unfold is_final; cbn; lia).
  destruct (m_scode msg <? 300) eqn:E3; cbn [fst snd].
  { rewrite Eresp, Eid. apply (final_drop s t os now ct); [done|done|done|apply resp_about|]. intros st Hp. by apply resp_final. }
  destruct (request_copy_keeps tag (set_state COMPLETED ct0) (chars "ACK") (Some msg) (s_software s)) as (mb & req & Ek).
  destruct (request_copy _ _ _ _ _ _) as [r ct1] eqn:Ec. cbn [snd] in Ek. subst ct1. set (ct2 := match r with Some (Ok mb0) => _ | _ => _ end).
  assert (H2 : ct_id ct2 = ct_id ct /\ ct_resph ct2 = ct_resph ct /\ ct_state ct2 = COMPLETED /\ ct_tp ct2 = ct_tp ct /\ ct_tmre ct2 = None /\ ct_invite ct2 = true) by (unfold ct2; destruct r as [[]|]; by repeat split).
  destruct H2 as (Ei2 & Er2 & Es2 & Et2 & Em2 & Ev2). clearbody ct2. assert (Eresp2 : forall err m, resp ct2 err m = resp ct err m) by (intros; unfold resp; by rewrite Ei2, Er2).
  rewrite Eresp2. set (o := sip_send nt (ct_tp ct2) (ct_dst ct2) (ct_mb_ack ct2) ++ resp ct 0 (Some msg)).
  assert (Ho : forallb (about (ct_id ct)) o = true) by (unfold o; by rewrite forallb_app, send_about, resp_about).
  assert (Hm : forall st, pends ct st -> fold_left (monitor1 (ct_id ct)) o st = if ct_resph ct =? 0 then Silent else Done).
  { intros st Hp. unfold o. rewrite fold_left_app, send_monitor. by apply resp_final. }
  destruct (sip_transp_reliable (ct_tp ct2)) eqn:Erel; cbn [fst snd].
  - rewrite Ei2. by apply (final_drop s t os now ct).
  - apply (completed_put s t os now ct); try done. split; cbn; [by rewrite Es2|unfold COMPLETE_WAIT, SIP_T1; lia].
Qed.

Lemma invite_inv s t os nt now tag ct msg : inv s t os -> t <= now -> find_ct (ct_id ct) s = Some ct -> ct_invite ct = true ->
  inv (invite_response char_signed nt now tag ct msg s).1 now (os ++ (invite_response char_signed nt now tag ct msg s).2).
Proof.
  intros Hi Ht Hf Hinv. pose proof (find_ok _ _ _ _ _ Hi Hf) as [Hs Hw]. unfold invite_response. destruct (ct_state ct) eqn:Es.
  - by apply (inv_idle s t).
  - apply (answer_inv s t os nt now tag ct); try done. by rewrite Es.
  - rewrite Hinv in Hs. apply (answer_inv s t os nt now tag ct); try done; [by rewrite Es|]. destruct (ct_tmr ct); [lia|done].
  - destruct (m_scode msg <? 300); cbn [fst snd]; [by apply (inv_idle s t)|].
    assert (Ep : put_ct ct s = s). { unfold put_ct, set_ctrans. destruct s as [l sz sw nx]. cbn. f_equal. rewrite <- (map_id l) at 2. apply map_ext_in. intros c Hin.
      destruct (Z.eqb_spec (ct_id c) (ct_id ct)) as [E|]; [|done]. pose proof (find_in c _ (inv_nodup _ _ _ Hi) Hin) as Hc. rewrite E, Hf in Hc. by injection Hc. }
    rewrite <- Ep. eapply (inv_put s t os now (ct_id ct)); [done|done|done|done|by apply (ct_ok_later t); [eapply find_ok|]|apply send_about|]. intros st Hp. by rewrite send_monitor.
Qed.

Lemma response_inv s t os nt now tag msg b s' o : inv s t os -> t <= now -> response_handler char_signed nt now tag msg s = (b, s', o) -> inv s' now (os ++ o).
Proof.
  intros Hi Ht. unfold response_handler. destruct (lookup_ct char_signed msg s) as [ct|] eqn:El; [|intros [= <- <- <-]; by apply (inv_idle s t)].
  pose proof (lookup_find _ _ _ _ _ Hi El) as Hf. pose proof (find_ok _ _ _ _ _ Hi Hf) as [Hs Hw]. destruct (ct_invite ct) eqn:Einv.
  { pose proof (invite_inv s t os nt now tag ct msg Hi Ht Hf Einv) as Hx. destruct (invite_response _ _ _ _ _ _ _) as [s1 o1]. by intros [= <- <- <-]. }
  assert (Hlive : ct_state ct = TRYING \/ ct_state ct = PROCEEDING -> forall b' s1 o1,
    (let '(s, o) := if m_scode msg <? 200 then (put_ct (set_state PROCEEDING ct) s, resp ct 0 (Some msg))
      else let ct := set_state COMPLETED ct in if sip_transp_reliable (ct_tp ct) then (drop_ct (ct_id ct) s, resp ct 0 (Some msg))
        else (put_ct (set_tmr (Some (now + SIP_T4)) (set_tmre None (ct_txc ct) ct)) s, resp ct 0 (Some msg)) in (true, s, o)) = (b', s1, o1) -> inv s1 now (os ++ o1)).
  { intros Hst b' s1 o1. assert (Hnc : ct_state ct <> COMPLETED) by (intros E; destruct Hst; congruence). destruct (m_scode msg <? 200) eqn:E2; [intros [= _ <- <-]|].
    - apply (prov_put s t os now ct); try done. split; cbn; [rewrite Einv|by destruct (ct_tmr ct); [lia|]].
      destruct Hst as [E|E]; rewrite E in Hs; [tauto|exact Hs].
    - cbn zeta. change (resp (set_state COMPLETED ct) 0 (Some msg)) with (resp ct 0 (Some msg)). assert (Hfin : is_final 0 (Some msg) = true) by (unfold is_final; cbn; lia).
      assert (Hm : forall st, pends ct st -> fold_left (monitor1 (ct_id ct)) (resp ct 0 (Some msg)) st = if ct_resph ct =? 0 then Silent else Done) by (intros st Hp; by apply resp_final).
      change (ct_tp (set_state COMPLETED ct)) with (ct_tp ct). destruct (sip_transp_reliable (ct_tp ct)) eqn:Er; intros [= _ <- <-].
      + by apply (final_drop s t os now ct); auto using resp_about.
      + apply (completed_put s t os now ct); auto using resp_about. split; cbn; [done|]. unfold SIP_T4, SIP_T1. lia. }
  destruct (ct_state ct) eqn:Es; [apply Hlive; by left| |apply Hlive; by right|]; intros [= <- <- <-]; by apply (inv_idle s t).
Qed.

Lemma request_inv s t os nt now tp dst met branch mb resph r s' o : inv s t os -> t <= now ->
  sip_ctrans_request nt now tp dst met branch mb resph s = (r, s', o) -> inv s' now (os ++ o).
Proof.
  intros Hi Ht. unfold sip_ctrans_request. destruct (mem_alloc _); [|intros [= <- <- <-]; by apply (inv_idle s t)]. set (id := s_next s).
  assert (Hnew : inv (Sip (s_ctrans s) (s_ctsize s) (s_software s) (id + 1)) now os).
  { split; [apply Hi| | |apply Hi]; [eapply Forall_impl; [apply Hi|]; intros c Hc; by eapply ct_ok_later|]. intros i Hge. apply (inv_fresh _ _ _ Hi). cbn in Hge. unfold id in *. lia. }
  destruct (inv_fresh _ _ _ Hi id (Z.le_refl _)) as [Hf0 Hm0]. unfold sip_transp_send. destruct (Z.eqb_spec nt 0) as [Hn|Hn]; cbn [negb]; intros [= <- <- <-]; [|by rewrite app_nil_r].
  set (ct := SipCtransaction _ _ _ _ _ _ _ _ _ _ _ _ _ _). set (s1 := set_ctrans _ _).
  assert (Hfind : forall i, find_ct i s1 = if i =? id then Some ct else find_ct i s).
  { intros i. unfold find_ct, s1, set_ctrans. cbn [s_ctrans]. unfold find_ct in Hf0. revert Hf0. clear. generalize (s_ctrans s) as cts. induction cts as [|c cts IH]; cbn [app List.find].
    - intros _. change (ct_id ct) with id. rewrite Z.eqb_sym. by destruct (i =? id).
    - destruct (Z.eqb_spec (ct_id c) id) as [E|E]; [done|]. intros Hl. destruct (Z.eqb_spec (ct_id c) i) as [Ei|]; [by rewrite (proj2 (Z.eqb_neq i id)) by congruence|by apply IH]. }
  split.
  - unfold s1, set_ctrans. cbn [s_ctrans]. rewrite map_app. apply NoDup_app. split_and!; [apply Hi| |apply NoDup_singleton]. intros x Hx. change (map ct_id [ct]) with [id].
    rewrite list_elem_of_singleton. intros ->. apply list_elem_of_In, in_map_iff in Hx as (c & Ec & Hin). pose proof (find_in c s (inv_nodup _ _ _ Hi) Hin) as Hc. rewrite Ec, Hf0 in Hc. done.
  - unfold s1, set_ctrans. cbn [s_ctrans]. apply Forall_app. split; [apply Hnew|]. apply Forall_singleton. split; cbn; [|unfold SIP_T1; lia].
    destruct (bool_decide _); split_and!; try done; destruct (sip_transp_reliable tp); by split.
  - intros i Hge. change (s_next s1) with (id + 1) in Hge. rewrite Hfind, (proj2 (Z.eqb_neq i id)), monitor_app by lia. destruct (inv_fresh _ _ _ Hi i ltac:(unfold id in Hge; lia)) as [E1 E2].
    split; [done|]. rewrite E2. cbn. by rewrite (proj2 (Z.eqb_neq id i)) by lia.
  - intros i. rewrite monitor_app. cbn [fold_left monitor1]. unfold follows. rewrite Hfind. destruct (Z.eqb_spec i id) as [->|Hne].
    + rewrite Z.eqb_refl, Hm0. destruct (Z.eqb_spec resph 0) as [->|Hr]; cbn; [done|]. split; [done|]. by destruct (bool_decide _).
    + rewrite (proj2 (Z.eqb_neq id i)) by congruence. apply (inv_follow _ _ _ Hi i).
Qed.

Lemma cancel_inv s t os nt now tag id r s' o : inv s t os -> t <= now -> sip_ctrans_cancel char_signed nt now tag id s = (r, s', o) -> inv s' now (os ++ o).
Proof.
  intros Hi Ht. unfold sip_ctrans_cancel. destruct (find_ct id s) as [ct|] eqn:Hf; [|intros [= <- <- <-]; by apply (inv_idle s t)]. destruct (find_id _ _ _ Hf) as [Eid _].
  pose proof (find_ok _ _ _ _ _ Hi Hf) as [Hs Hw]. destruct (ct_invite ct) eqn:Einv; cbn [negb]; [|intros [= <- <- <-]; by apply (inv_idle s t)].
  destruct (ct_state ct) eqn:Es; try (intros [= <- <- <-]; by apply (inv_idle s t)).
  assert (Hput : forall ct', ct_id ct' = id -> ct_resph ct' = ct_resph ct -> ct_state ct' = PROCEEDING -> ct_invite ct' = true -> ct_tmre ct' = None -> ct_tmr ct' = Some (now + 64 * SIP_T1) -> inv (put_ct ct' s) now os).
  { intros ct' E1 E2 E3 E4 E5 E6. rewrite <- (app_nil_r os). eapply (inv_put s t os now id ct); try done; [split; [by rewrite E3, E4|rewrite E6; lia]|]. intros st Hp. cbn. unfold pends in *. by rewrite E2, E3, ?Es in *. }
  cbn zeta. destruct (mem_alloc 7); [|intros [= <- <- <-]; rewrite app_nil_r; by apply Hput].
  destruct (request_copy_keeps tag (set_tmr (Some (now + 64 * SIP_T1)) ct) (chars "CANCEL") None (s_software s)) as (mb & req & Ek).
  destruct (request_copy _ _ _ _ _ _) as [rc ct1]. cbn [snd] in Ek. subst ct1. assert (Hp : inv (put_ct (set_req mb req (set_tmr (Some (now + 64 * SIP_T1)) ct)) s) now os) by (by apply Hput).
  destruct rc as [[mb'|e]|]; [|intros [= <- <- <-]; by rewrite app_nil_r..].
  destruct (sip_ctrans_request _ _ _ _ _ _ _ _ _) as [[r1 s1] o1] eqn:Er. intros Hx. assert (s' = s1 /\ o = o1) as [-> ->] by (destruct r1; by injection Hx). eapply request_inv; [exact Hp| |exact Er]. lia.
Qed.

Lemma release_inv s t os now id : inv s t os -> t <= now -> inv (release id s).1 now (os ++ (release id s).2).
Proof.
  intros Hi Ht. unfold release. destruct (find_ct id s) as [ct|] eqn:Hf; [|by apply (inv_idle s t)]. destruct (find_id _ _ _ Hf) as [Eid _]. cbn [fst snd].
  eapply inv_drop; [done|done|done|by cbn; rewrite Z.eqb_refl|]. intros st Hp. cbn. rewrite Z.eqb_refl. by destruct st.
Qed.

(** ** A request that is not answered *)

(** The timers of a transaction fire in their order, each when it is due. *)
Fixpoint unanswered (fuel : nat) (id : Z) (s : sip) : list (Z * cout) :=
  match fuel with
  | O => []
  | S fuel =>
      match find_ct id s with
      | None => []
      | Some ct =>
          let again a := let '(s, o) := retransmit_handler 0 a id s in map (pair a) o ++ unanswered fuel id s in
          let timeout b := let '(s, o) := tmr_handler id s in map (pair b) o ++ unanswered fuel id s in
          match ct_tmre ct, ct_tmr ct with
          | Some a, Some b => if a <=? b then again a else timeout b
          | Some a, None => again a
          | None, Some b => timeout b
          | None, None => []
          end
      end
  end.

(** The transaction after [txc] retransmissions; the next one is due at [t0 + k]. *)
Definition sent_so_far (id t0 : Z) (dst : sa) (mb : mbuf) (met branch : list Z) (resph : Z) (tp : sip_transp) (invite : bool) (k txc : Z) (s : sip) : Prop :=
  find_ct id s = Some (SipCtransaction id dst (Some (t0 + 64 * SIP_T1)) (Some (t0 + k)) mb None None met branch resph tp (if invite then CALLING else TRYING) txc invite).

Lemma resend fuel id t0 dst mb met branch resph tp invite k txc s w : sent_so_far id t0 dst mb met branch resph tp invite k txc s -> k <= 64 * SIP_T1 -> 0 <= txc < 100 ->
  w = (if invite then u32 (Z.shiftl SIP_T1 (txc + 1)) else Z.min (u32 (Z.shiftl SIP_T1 (txc + 1))) SIP_T2) ->
  exists s', unanswered (S fuel) id s = (t0 + k, CSend tp dst (unread mb)) :: unanswered fuel id s' /\ sent_so_far id t0 dst mb met branch resph tp invite (k + w) (txc + 1) s'.
Proof.
  intros Hf Hk Htx Hw. unfold sent_so_far in Hf. cbn [unanswered]. rewrite Hf. cbn [ct_tmre ct_tmr]. rewrite (proj2 (Z.leb_le _ _)) by lia. unfold retransmit_handler. rewrite Hf.
  cbn [ct_txc ct_state]. rewrite (wrap_small 32 (txc + 1)) by lia.
  assert (Hput : forall w', w' = w -> sent_so_far id t0 dst mb met branch resph tp invite (k + w) (txc + 1)
    (put_ct (set_tmre (Some (t0 + k + w')) (txc + 1) (SipCtransaction id dst (Some (t0 + 64 * SIP_T1)) (Some (t0 + k)) mb None None met branch resph tp (if invite then CALLING else TRYING) txc invite)) s)).
  { intros w' ->. unfold sent_so_far. rewrite ct_find_put. cbn [ct_id set_tmre]. rewrite Z.eqb_refl, Hf. by rewrite Z.add_assoc. }
  destruct invite; (eexists; split; [cbn; reflexivity|]); by apply Hput.
Qed.

Lemma times_out fuel id s ct b : find_ct id s = Some ct -> ct_tmr ct = Some b -> match ct_tmre ct with Some a => b < a | None => True end ->
  ct_state ct <> COMPLETED -> ct_resph ct <> 0 -> unanswered (S fuel) id s = [(b, CResp id (ct_resph ct) ETIMEDOUT None)].
Proof.
  intros Hf Hb Ha Hs Hr. destruct (find_id _ _ _ Hf) as [Eid _].
  assert (Ht : terminate ct ETIMEDOUT = [CResp id (ct_resph ct) ETIMEDOUT None]) by (unfold terminate, resp; rewrite (proj2 (Z.eqb_neq _ 0) Hr), Eid; by destruct (ct_state ct)).
  assert (Hto : (let '(s, o) := tmr_handler id s in map (pair b) o ++ unanswered fuel id s) = [(b, CResp id (ct_resph ct) ETIMEDOUT None)]).
  { unfold tmr_handler. rewrite Hf, Ht. cbn [map app]. f_equal. destruct fuel; [done|]. cbn [unanswered]. by rewrite find_drop, Z.eqb_refl. }
  cbn [unanswered]. rewrite Hf, Hb. destruct (ct_tmre ct) as [a|]; [|exact Hto]. rewrite (proj2 (Z.leb_gt _ _)) by lia. exact Hto.
Qed.

(** When a request is sent, from its start (Timers A and E of RFC 3261). *)
Definition times (tp : sip_transp) (invite : bool) : list Z :=
  if sip_transp_reliable tp then [0]
  else if invite then [0; 500; 1500; 3500; 7500; 15500; 31500]
  else [0; 500; 1500; 3500; 7500; 11500; 15500; 19500; 23500; 27500; 31500].

(** The retransmissions of a transaction, one after the other. *)
Ltac resends :=
  repeat match goal with
  | Q : sent_so_far ?id ?t0 ?dst ?mb ?met ?branch ?resph ?tp ?invite ?k ?txc ?s |- context [unanswered (S ?f) ?id ?s] =>
      let E := fresh "E" in let s' := fresh "s" in let Q' := fresh "Q" in
      let w := eval vm_compute in (if invite then u32 (Z.shiftl SIP_T1 (txc + 1)) else Z.min (u32 (Z.shiftl SIP_T1 (txc + 1))) SIP_T2) in
      destruct (resend f id t0 dst mb met branch resph tp invite k txc s w Q ltac:(by vm_compute) ltac:(lia) ltac:(by vm_compute)) as (s' & E & Q');
      rewrite E; clear E Q;
      let k' := eval vm_compute in (k + w) in change (k + w) with k' in Q';
      let t' := eval vm_compute in (txc + 1) in change (txc + 1) with t' in Q'; cbn [app]; f_equal
  end.

Lemma reach_inv size sw s t os : reach size sw s t os -> inv s t os.
Proof.
  induction 1 as [now|s t os now e _ Hi Ht Ha]; [split; try done; apply NoDup_nil_2|]. destruct e as [nt tp dst met branch mb resph|id|nt id|id err|nt tag msg|nt tag id|id]; cbn [step].
  - destruct (sip_ctrans_request _ _ _ _ _ _ _ _ _) as [[r s'] o] eqn:E. cbn [fst snd]. by eapply request_inv.
  - destruct Ha as (ct & d & Hf & _). unfold tmr_handler. rewrite Hf. cbn [fst snd]. by apply (timer_inv s t).
  - destruct Ha as (ct & d & Hf & Hd & _). by eapply tmre_inv.
  - cbn in Ha. unfold transport_handler. destruct (find_ct id s) as [ct|] eqn:Hf; [by apply (timer_inv s t)|by apply (inv_idle s t)].
  - destruct (response_handler _ _ _ _ _ _) as [[b s'] o] eqn:E. cbn [fst snd]. by eapply response_inv.
  - destruct (sip_ctrans_cancel _ _ _ _ _ _) as [[r s'] o] eqn:E. cbn [fst snd]. by eapply cancel_inv.
  - by apply (release_inv s t).
Qed.

(** ** Claims *)

(** C19: Every client transaction is accounted for.  In every reachable state of
    an instance, whatever was sent, received, cancelled or released, in any order
    and with any errors of the transport: a transaction with a handler is told
    provisional responses, then one final response or error, then nothing, and
    nothing before it starts or after its owner released it; as long as it has
    not been told the end it is pending, with a timer due within 64 T1 unless it
    is an INVITE that was provisionally answered; after the end it lingers at
    most until its timer. *)
Theorem sip_ctrans_accounted (size : Z) (software : option (list Z)) (s : sip) (t : Z) (os : list cout) (id : Z) :
  reach size software s t os ->
  match monitor id os with
  | Bad => False
  | Unborn | Released => find_ct id s = None
  | Silent => True
  | Waiting => exists ct, find_ct id s = Some ct /\ ct_state ct <> COMPLETED
      /\ (ct_invite ct = true /\ ct_state ct = PROCEEDING \/ exists d, ct_tmr ct = Some d /\ d <= t + 64 * SIP_T1)
  | Done => forall ct, find_ct id s = Some ct -> ct_state ct = COMPLETED /\ exists d, ct_tmr ct = Some d /\ d <= t + 64 * SIP_T1
  end.
Proof.
  intros Hr%reach_inv. pose proof (inv_follow _ _ _ Hr id) as Hf. unfold follows in Hf. destruct (monitor id os); try done.
  - destruct (find_ct id s) as [ct|] eqn:E; [|done]. destruct (find_ok _ _ _ _ _ Hr E) as [Hs Hw]. exists ct. split_and!; [done|tauto|]. destruct Hf as [_ Hf].
    destruct (ct_state ct) eqn:Es; [destruct Hs as (_ & [d Ed] & _)|destruct Hs as (_ & [d Ed] & _)|destruct (ct_invite ct); [by left|destruct Hs as ([d Ed] & _)]|done]; right; exists d; by rewrite Ed in Hw.
  - intros ct E. rewrite E in Hf. destruct (find_ok _ _ _ _ _ Hr E) as [Hs Hw]. split; [done|]. rewrite Hf in Hs. destruct Hs as ([d Ed] & _). exists d. by rewrite Ed in Hw.
Qed.

(** C22: A request that stays without an answer is sent at the times of RFC 3261,
    once on a reliable transport, seven times for an INVITE over UDP, with the
    intervals doubled from T1, eleven times for another request, with intervals
    of at most T2; and after 64 T1 the user is told ETIMEDOUT and the transaction
    is gone. *)
Theorem sip_ctrans_schedule (t0 : Z) (tp : sip_transp) (dst : sa) (met branch : list Z) (mb : mbuf) (resph : Z) (s s' : sip) (id : Z) (o : list cout) :
  find_ct (s_next s) s = None -> resph <> 0 ->
  sip_ctrans_request 0 t0 tp dst met branch mb resph s = (Ok id, s', o) ->
  map (pair t0) o ++ unanswered 12 id s'
  = (t0, CNew id resph) :: map (fun k => (t0 + k, CSend tp dst (unread mb))) (times tp (bool_decide (met = chars "INVITE"))) ++ [(t0 + 64 * SIP_T1, CResp id resph ETIMEDOUT None)].
Proof.
  intros Hf Hr. unfold sip_ctrans_request. destruct (mem_alloc _); [|done]. set (invite := bool_decide _). cbn [sip_transp_send Z.eqb negb]. intros [= <- <- <-]. cbn [map app].
  f_equal. set (ct tmre := SipCtransaction (s_next s) dst (Some (t0 + 64 * SIP_T1)) tmre mb None None met branch resph tp (if invite then CALLING else TRYING) 0 invite).
  assert (Hs1 : forall tmre, find_ct (s_next s) (set_ctrans (s_ctrans s ++ [ct tmre]) (Sip (s_ctrans s) (s_ctsize s) (s_software s) (s_next s + 1))) = Some (ct tmre)) by (intros tmre; by apply (find_append (ct tmre))).
  unfold times. destruct (sip_transp_reliable tp).
  - cbn [map app]. rewrite Z.add_0_r. f_equal. apply (times_out 11 _ _ _ _ (Hs1 None)); try done. by destruct invite.
  - assert (Q : exists s1, sent_so_far (s_next s) t0 dst mb met branch resph tp invite 500 0 s1 /\ s1 = set_ctrans (s_ctrans s ++ [ct (Some (t0 + SIP_T1))]) (Sip (s_ctrans s) (s_ctsize s) (s_software s) (s_next s + 1))) by (eexists; split; [apply Hs1|done]).
    unfold ct in Q. destruct Q as (s1 & Q & Es1). rewrite <- Es1. clear Es1 Hs1 ct. clearbody invite.
    destruct invite; cbn [map app]; rewrite Z.add_0_r; f_equal; resends;
      match goal with |- unanswered (S ?f) _ _ = _ => apply (times_out f _ _ _ _ Q); [done|cbn; unfold SIP_T1; lia|done|done] end.
Qed.
End Spec.

(** ** Examples *)

#[local] Instance ct_platform : Platform := {| cvt_ll := fun _ => 0; str_error := fun _ => []; sa_ntop := fun _ => None |}.
#[local] Instance ct_resolver : Resolver := {| inet_pton4 := fun _ => None; inet_pton6 := fun _ => None; getaddrinfo := fun _ => None |}.
#[local] Instance ct_host : Host := lp64_le.

Definition ex_dst : sa := SaIn 0x0a000001 5060.
Definition ex_request : mbuf := Mbuf (Some (chars "OPTIONS")) 7 0 7.
Definition ex_sip : sip := Sip [] 16 None 0.
Definition ex_step1 : sip * list cout := step true 0 (EReq 0 SIP_TRANSP_UDP ex_dst (chars "OPTIONS") (chars "z9hG4bK1") ex_request 7) ex_sip.
Definition ex_step2 : sip * list cout := step true 500 (ETmre 0 0) ex_step1.1.
Definition ex_step3 : sip * list cout := step true 900 (ETransp 0 111) ex_step2.1.

Lemma sip_ctrans_accounted_witness : monitor 0 ((([] ++ ex_step1.2) ++ ex_step2.2) ++ ex_step3.2) = Done /\ find_ct 0 ex_step3.1 = None.
Proof.
  assert (H1 : reach true 16 None ex_step1.1 0 ([] ++ ex_step1.2)) by (apply (reach_step true 16 None ex_sip 0); [constructor|lia|done]).
  assert (H2 : reach true 16 None ex_step2.1 500 (([] ++ ex_step1.2) ++ ex_step2.2)).
  { apply (reach_step true 16 None ex_step1.1 0); [exact H1|lia|]. do 2 eexists. split_and!; [vm_compute; reflexivity|vm_compute; reflexivity|lia]. }
  assert (H3 : reach true 16 None ex_step3.1 900 ((([] ++ ex_step1.2) ++ ex_step2.2) ++ ex_step3.2)) by (apply (reach_step true 16 None ex_step2.1 500); [exact H2|lia|done]).
  pose proof (sip_ctrans_accounted true 16 None _ _ _ 0 H3) as Hd. split; [by vm_compute|]. destruct (find_ct 0 ex_step3.1) as [ct|] eqn:E; [|done]. by vm_compute in E.
Defined.

Lemma sip_ctrans_schedule_witness :
  let '(r, s, o) := sip_ctrans_request 0 1000 SIP_TRANSP_UDP ex_dst (chars "OPTIONS") (chars "z9hG4bK1") ex_request 7 ex_sip in
  last (map (pair 1000) o ++ unanswered 12 0 s) = Some (33000, CResp 0 7 ETIMEDOUT None) /\ zlength (unanswered 12 0 s) = 11.
Proof.
  destruct (sip_ctrans_request _ _ _ _ _ _ _ _ _) as [[r s] o] eqn:E. pose proof E as E'. vm_compute in E'. injection E' as <- _ Eo.
  pose proof (sip_ctrans_schedule 1000 SIP_TRANSP_UDP ex_dst (chars "OPTIONS") (chars "z9hG4bK1") ex_request 7 ex_sip s 0 o eq_refl ltac:(done) E) as Hs.
  rewrite Hs. split; [by vm_compute|]. rewrite <- Eo in Hs. apply (f_equal zlength) in Hs. rewrite zlength_app in Hs. vm_compute (zlength (map _ _)) in Hs.
  assert (Hn : zlength ((1000, CNew 0 7) :: map (fun k => (1000 + k, CSend SIP_TRANSP_UDP ex_dst (unread ex_request))) (times SIP_TRANSP_UDP (bool_decide (chars "OPTIONS" = chars "INVITE"))) ++ [(1000 + 64 * SIP_T1, CResp 0 7 ETIMEDOUT None)]) = 13) by (by vm_compute).
  rewrite Hn in Hs. lia.
Defined.
