(* ===== verification/SipStrans.v ===== *)
(** * SIP server transactions and replies: src/src/sip/strans.c and reply.c

    The server transactions of a SIP instance, in the order in which both of its
    tables list them: by branch, and by call for merged requests.  As in
    SipCtrans.v, timers are deadlines and the transport is outside.  [stp] of the
    code is a pointer to the user's transaction pointer: [None] is NULL. *)

From stdpp Require Import base list numbers strings.
From Stdlib Require Import ZArith Lia.
From S2P Require Import Prelude Endian Mbuf Hash Dname Fmt Sa Odict Print Regex Uri SipMsg SipCtrans.

Open Scope Z_scope.

Definition SIP_PORT : Z := 5060.
Definition SIP_PORT_TLS : Z := 5061.

Inductive st_state_ := ST_TRYING | ST_PROCEEDING | ST_ACCEPTED | ST_COMPLETED | ST_CONFIRMED.

#[export] Instance st_state_eq_dec : EqDecision st_state_.
Proof. solve_decision. Defined.

Record sip_strans := SipStransaction {
  st_id : Z;
  st_tmr : option Z;
  st_tmrg : option Z;
  st_dst : sa;
  st_msg : sip_msg;
  st_cancel_msg : option sip_msg;
  st_mb : option mbuf;
  st_cancelh : Z;
  st_state : st_state_;
  st_txc : Z;
  st_invite : bool;
}.

Record sips := Sips { ss_strans : list sip_strans; ss_size : Z; ss_software : option (list Z); ss_next : Z }.

Inductive sout :=
| SSend (tp : sip_transp) (dst : sa) (data : list Z)
| SCancel (id cancelh : Z).

Definition st_set_cancel (x : option sip_msg) (st : sip_strans) : sip_strans :=
  SipStransaction (st_id st) (st_tmr st) (st_tmrg st) (st_dst st) (st_msg st) x (st_mb st) (st_cancelh st) (st_state st) (st_txc st) (st_invite st).
Definition st_set_reply (dst : sa) (mb : mbuf) (st : sip_strans) : sip_strans :=
  SipStransaction (st_id st) (st_tmr st) (st_tmrg st) dst (st_msg st) (st_cancel_msg st) (Some mb) (st_cancelh st) (st_state st) (st_txc st) (st_invite st).
Definition st_set_state (x : st_state_) (tmr tmrg : option Z) (st : sip_strans) : sip_strans :=
  SipStransaction (st_id st) tmr tmrg (st_dst st) (st_msg st) (st_cancel_msg st) (st_mb st) (st_cancelh st) x (st_txc st) (st_invite st).
Definition st_set_txc (tmrg : option Z) (txc : Z) (st : sip_strans) : sip_strans :=
  SipStransaction (st_id st) (st_tmr st) tmrg (st_dst st) (st_msg st) (st_cancel_msg st) (st_mb st) (st_cancelh st) (st_state st) txc (st_invite st).

Definition set_strans (l : list sip_strans) (s : sips) : sips := Sips l (ss_size s) (ss_software s) (ss_next s).
Definition find_st (id : Z) (s : sips) : option sip_strans := List.find (fun st => st_id st =? id) (ss_strans s).
Definition put_st (st : sip_strans) (s : sips) : sips := set_strans (map (fun c => if st_id c =? st_id st then st else c) (ss_strans s)) s.
(** mem_deref: the destructor unlinks the transaction and cancels its timers. *)
Definition drop_st (id : Z) (s : sips) : sips := set_strans (List.filter (fun st => negb (st_id st =? id)) (ss_strans s)) s.

(** transp.c *)
Definition sip_transp_port (tp : sip_transp) (port : Z) : Z :=
  if negb (port =? 0) then port
  else match tp with SIP_TRANSP_UDP | SIP_TRANSP_TCP => SIP_PORT | SIP_TRANSP_TLS => SIP_PORT_TLS | SIP_TRANSP_WS => 80 | SIP_TRANSP_WSS => 443 | SIP_TRANSP_NONE => 0 end.

(** ** Finding a transaction *)

Definition strans_cmp (msg1 msg2 : sip_msg) : bool :=
  if negb (pl_cmp (via_branch (m_via msg1)) (via_branch (m_via msg2)) =? 0) then false
  else if negb (pl_cmp (via_sentby (m_via msg1)) (via_sentby (m_via msg2)) =? 0) then false
  else true.

Definition cmp_handler (msg : sip_msg) (st : sip_strans) : bool :=
  if negb (strans_cmp (st_msg st) msg) then false
  else if negb (pl_cmp (cseq_met (m_cseq (st_msg st))) (cseq_met (m_cseq msg)) =? 0) then false
  else true.

Definition cmp_ack_handler (msg : sip_msg) (st : sip_strans) : bool :=
  if negb (strans_cmp (st_msg st) msg) then false
  else if negb (pl_strcmp (cseq_met (m_cseq (st_msg st))) (chars "INVITE") =? 0) then false
  else true.

Definition cmp_cancel_handler (msg : sip_msg) (st : sip_strans) : bool :=
  if negb (strans_cmp (st_msg st) msg) then false
  else if pl_strcmp (cseq_met (m_cseq (st_msg st))) (chars "CANCEL") =? 0 then false
  else true.

Definition cmp_merge_handler (msg : sip_msg) (st : sip_strans) : bool :=
  let m := st_msg st in
  if negb (pl_cmp (cseq_met (m_cseq m)) (cseq_met (m_cseq msg)) =? 0) then false
  else if negb (cseq_num (m_cseq m) =? cseq_num (m_cseq msg)) then false
  else if negb (pl_cmp (m_callid m) (m_callid msg) =? 0) then false
  else if negb (pl_cmp (ta_tag (m_from m)) (ta_tag (m_from msg)) =? 0) then false
  else if negb (pl_cmp (m_ruri m) (m_ruri msg) =? 0) then false
  else true.

(** hash_lookup in the table by branch and in the table by call. *)
Definition lookup_st (h : sip_msg -> sip_strans -> bool) (msg : sip_msg) (s : sips) : option sip_strans :=
  let t := Hash 0 (ss_size s) in
  let key m := index t (hash_joaat_pl (via_branch (m_via m))) in
  List.find (fun st => (key (st_msg st) =? key msg) && h msg st) (ss_strans s).
Definition lookup_mrg (msg : sip_msg) (s : sips) : option sip_strans :=
  let t := Hash 0 (ss_size s) in
  let key m := index t (hash_joaat_pl (m_callid m)) in
  List.find (fun st => (key (st_msg st) =? key msg) && cmp_merge_handler msg st) (ss_strans s).

(** sizeof(struct sip_strans) of an LP64 platform. *)
Definition SIP_STRANS_STRUCT : Z := 384.

Section Strans.
Context `{H : Host} `{P : Platform} `{R : Resolver} (char_signed : bool).

Definition sip_strans_cancel_msg (st : option sip_strans) : option sip_msg := match st with None => None | Some st => st_cancel_msg st end.

Definition st_send (nt : Z) (tp : sip_transp) (dst : sa) (mb : option mbuf) : Z * list sout :=
  match mb with
  | None => (EINVAL, [])
  | Some mb => (nt, if nt =? 0 then [SSend tp dst (unread mb)] else [])
  end.

(** ** Timers *)

Definition st_tmr_handler (id : Z) (s : sips) : sips := drop_st id s.

Definition retransmit_handler (nt now id : Z) (s : sips) : sips * list sout :=
  match find_st id s with
  | None => (s, [])
  | Some st =>
      let o := (st_send nt (m_tp (st_msg st)) (st_dst st) (st_mb st)).2 in
      let txc := u32 (st_txc st + 1) in
      (put_st (st_set_txc (Some (now + Z.min (u32 (Z.shiftl SIP_T1 txc)) SIP_T2)) txc st) s, o)
  end.

(** ** Replies: reply.c *)

(** The reply goes to where the request came from; the port is that of the Via
    header unless the client asked for rport. *)
Definition sip_reply_addr (msg : sip_msg) (rport : bool) : option sa :=
  let port := sip_transp_port (m_tp msg) (sa_port (via_addr (m_via msg))) in
  let set_port := sa_set_port (m_src msg) port in
  match m_tp msg with
  | SIP_TRANSP_UDP =>
      match msg_param_decode (via_params (m_via msg)) (chars "maddr") with
      | None => None
      | Some (Ok maddr) => Some (match sa_set maddr port with Ok a => a | Err _ => sa0 end)
      | Some (Err _) => Some (if rport then m_src msg else set_port)
      end
  | SIP_TRANSP_TCP | SIP_TRANSP_TLS => Some set_port
  | _ => Some (m_src msg)
  end.

(** The state of the loop over the headers: the count of Via headers, and
    whether the first one asked for rport. *)
Definition reply_hdr (msg : sip_msg) (rec_route : bool) (scode : Z) (hdr : sip_hdr) (vr : Z * bool) (mb : mbuf) : option (Z * (Z * bool) * mbuf) :=
  let line := mbuf_printf (chars "%r: %r" ++ crlf) [PPl (Some (Some (hdr_name hdr))); PPl (Some (Some (hdr_val hdr)))] in
  let keep r := match r with Some (e, mb) => Some (e, vr, mb) | None => None end in
  if hdr_id hdr =? SIP_HDR_VIA then
    let name := mbuf_printf (chars "%r: ") [PPl (Some (Some (hdr_name hdr)))] in
    if negb (vr.1 =? 0) then
      match mb_or name (mbuf_printf (chars "%r" ++ crlf) [PPl (Some (Some (hdr_val hdr)))]) mb with
      | Some (e, mb) => Some (e, (vr.1 + 1, vr.2), mb)
      | None => None
      end
    else
      match msg_param_exists (via_params (m_via msg)) (chars "rport") with
      | None => None
      | Some x =>
          let rport := match x with Ok _ => true | Err _ => vr.2 end in
          let value :=
            match x with
            | Ok (i, l) =>
                let off := zlength (hdr_val hdr) - pl_l (via_params (m_via msg)) in
                mb_or (mb_do (mbuf_write_pl_skip (hdr_val hdr) 0 (zlength (hdr_val hdr)) (off + i) l))
                  (mbuf_printf (chars ";rport=%u") [PInt (sa_port (m_src msg))])
            | Err _ => mb_do (mbuf_write_pl (Some (hdr_val hdr)))
            end in
          let received :=
            if rport || negb (sa_cmp false (m_src msg) (via_addr (m_via msg)) SA_ADDR) then mbuf_printf (chars ";received=%j") [PSa (Some (m_src msg))] else mb_skip in
          match mb_or name (mb_or value (mb_or received (mb_do (mbuf_write_str crlf)))) mb with
          | Some (e, mb) => Some (e, (vr.1 + 1, rport), mb)
          | None => None
          end
      end
  else if hdr_id hdr =? SIP_HDR_TO then
    let tag := if negb (pl_isset (ta_tag (m_to msg))) && (scode >? 100) then mbuf_printf (chars ";tag=%016llx") [PLong (m_tag msg)] else mb_skip in
    keep (mb_or (mbuf_printf (chars "%r: %r") [PPl (Some (Some (hdr_name hdr))); PPl (Some (Some (hdr_val hdr)))]) (mb_or tag (mb_do (mbuf_write_str crlf))) mb)
  else if hdr_id hdr =? SIP_HDR_RECORD_ROUTE then if rec_route then keep (line mb) else Some (0, vr, mb)
  else if (hdr_id hdr =? SIP_HDR_FROM) || (hdr_id hdr =? SIP_HDR_CALL_ID) || (hdr_id hdr =? SIP_HDR_CSEQ) then keep (line mb)
  else Some (0, vr, mb).

Fixpoint reply_hdrs (msg : sip_msg) (rec_route : bool) (scode : Z) (l : list sip_hdr) (err : Z) (vr : Z * bool) (mb : mbuf) : option (Z * (Z * bool) * mbuf) :=
  match l with
  | [] => Some (err, vr, mb)
  | hdr :: l =>
      match reply_hdr msg rec_route scode hdr vr mb with
      | Some (e, vr, mb) => reply_hdrs msg rec_route scode l (Z.lor err e) vr mb
      | None => None
      end
  end.

(** The text of a reply; [extra] prints the headers and the body of the caller. *)
Definition reply_text (msg : sip_msg) (rec_route : bool) (scode : Z) (reason : list Z) (software : option (list Z)) (extra : option prog) : option (res (mbuf * bool)) :=
  match mbuf_alloc 1024 with
  | None => Some (Err ENOMEM)
  | Some mb =>
      match mbuf_printf (chars "SIP/2.0 %u %s" ++ crlf) [PInt scode; PStr (Some reason)] mb with
      | None => None
      | Some (e0, mb) =>
          match reply_hdrs msg rec_route scode (m_hdrl msg) e0 (0, false) mb with
          | None => None
          | Some (e1, (_, rport), mb) =>
              match mb_or (match software with Some sw => mbuf_printf (chars "Server: %s" ++ crlf) [PStr (Some sw)] | None => mb_skip end)
                      (match extra with Some p => run vprintf_handler p | None => mbuf_printf (chars "Content-Length: 0" ++ crlf ++ crlf) [] end) mb with
              | None => None
              | Some (e2, mb) => let e := Z.lor e1 e2 in Some (if e =? 0 then Ok (mbuf_set_pos mb 0, rport) else Err e)
              end
          end
      end
  end.

(** ** Transactions: strans.c *)

Definition sip_strans_alloc (msg : sip_msg) (cancelh : Z) (s : sips) : res Z * sips :=
  match mem_alloc SIP_STRANS_STRUCT with
  | None => (Err ENOMEM, s)
  | Some _ =>
      let id := ss_next s in
      let st := SipStransaction id None None sa0 msg None None cancelh ST_TRYING 0 (pl_strcmp (m_met msg) (chars "INVITE") =? 0) in
      (Ok id, Sips (ss_strans s ++ [st]) (ss_size s) (ss_software s) (id + 1))
  end.

(** The reply with the transaction [id]: the result, the new value of the user's
    pointer and the state. *)
Definition strans_reply (nt now : Z) (stp : option (option Z)) (dst : sa) (scode : Z) (mb : mbuf) (id : Z) (s : sips) : Z * option (option Z) * sips * list sout :=
  match find_st id s with
  | None => (EINVAL, stp, s, [])
  | Some st =>
      let st := st_set_reply dst mb st in
      let '(err, o) := st_send nt (m_tp (st_msg st)) dst (Some mb) in
      let stp := match stp with None => None | Some _ => Some (if negb (err =? 0) || (scode >=? 200) then None else Some id) end in
      if negb (err =? 0) then (err, stp, drop_st id s, o)
      else
        let rel := sip_transp_reliable (m_tp (st_msg st)) in
        let t64 := Some (now + 64 * SIP_T1) in
        let s :=
          if scode <? 200 then put_st (st_set_state ST_PROCEEDING (st_tmr st) (st_tmrg st) st) s
          else if st_invite st then
            if scode <? 300 then put_st (st_set_state ST_ACCEPTED t64 (st_tmrg st) st) s
            else put_st (st_set_state ST_COMPLETED t64 (if rel then st_tmrg st else Some (now + SIP_T1)) st) s
          else if rel then drop_st id s
          else put_st (st_set_state ST_COMPLETED t64 (st_tmrg st) st) s in
        (0, stp, s, o)
  end.

Definition sip_strans_reply (nt now : Z) (stp : option (option Z)) (msg : sip_msg) (dst : sa) (scode : Z) (mb : mbuf) (s : sips) : Z * option (option Z) * sips * list sout :=
  if (scode <? 200) && (match stp with None => true | Some _ => false end) then (EINVAL, stp, s, [])
  else
    match stp with
    | Some (Some id) => strans_reply nt now stp dst scode mb id s
    | _ => match sip_strans_alloc msg 0 s with (Err e, s) => (e, stp, s, []) | (Ok id, s) => strans_reply nt now stp dst scode mb id s end
    end.

(** vreplyf: with a transaction, or stateless. *)
Definition vreplyf (nt now : Z) (stp : option (option Z)) (trans : bool) (msg : sip_msg) (rec_route : bool) (scode : Z) (reason : list Z) (extra : option prog) (s : sips)
  : option (Z * option (option Z) * sips * list sout) :=
  if pl_strcmp (m_met msg) (chars "ACK") =? 0 then Some (0, stp, s, [])
  else
    let out '(err, stp, s, o) :=
      if negb (err =? 0) then
        match stp with Some (Some id) => (err, Some None, drop_st id s, o) | _ => (err, stp, s, o) end
      else (err, stp, s, o) in
    match reply_text msg rec_route scode reason (ss_software s) extra with
    | None => None
    | Some (Err e) => Some (out (e, stp, s, []))
    | Some (Ok (mb, rport)) =>
        match sip_reply_addr msg rport with
        | None => None
        | Some dst =>
            if trans then Some (out (sip_strans_reply nt now stp msg dst scode mb s))
            else let '(err, o) := st_send nt (m_tp msg) dst (Some mb) in Some (out (err, stp, s, o))
        end
    end.

Definition sip_treplyf (nt now : Z) stp msg rec_route scode reason extra s := vreplyf nt now stp true msg rec_route scode reason extra s.
Definition sip_treply (nt now : Z) stp msg scode reason s := sip_treplyf nt now stp msg false scode reason None s.
Definition sip_replyf (nt now : Z) msg scode reason extra s := vreplyf nt now None false msg false scode reason extra s.
Definition sip_reply (nt now : Z) msg scode reason s := sip_replyf nt now msg scode reason None s.

(** ** Requests that are received *)

Definition ack_handler (now : Z) (msg : sip_msg) (s : sips) : bool * sips :=
  match lookup_st cmp_ack_handler msg s with
  | None => (false, s)
  | Some st =>
      match st_state st with
      | ST_ACCEPTED => (false, s)
      | ST_COMPLETED =>
          if sip_transp_reliable (m_tp (st_msg st)) then (true, drop_st (st_id st) s)
          else (true, put_st (st_set_state ST_CONFIRMED (Some (now + SIP_T4)) None st) s)
      | _ => (true, s)
      end
  end.

Definition cancel_handler (nt now : Z) (msg : sip_msg) (s : sips) : option (bool * sips * list sout) :=
  match lookup_st cmp_cancel_handler msg s with
  | None => Some (false, s, [])
  | Some st =>
      let msg := set_tag (m_tag (st_msg st)) msg in
      match sip_reply nt now msg 200 (chars "OK") s with
      | None => None
      | Some (_, _, s, o) =>
          match st_state st with
          | ST_TRYING | ST_PROCEEDING =>
              Some (true, put_st (st_set_cancel (Some msg) st) s, o ++ (if st_cancelh st =? 0 then [] else [SCancel (st_id st) (st_cancelh st)]))
          | _ => Some (true, s, o)
          end
      end
  end.

(** True: the request has been dealt with. *)
Definition request_handler (nt now : Z) (msg : sip_msg) (s : sips) : option (bool * sips * list sout) :=
  if pl_strcmp (m_met msg) (chars "ACK") =? 0 then let '(b, s) := ack_handler now msg s in Some (b, s, [])
  else
    match lookup_st cmp_handler msg s with
    | Some st =>
        match st_state st with
        | ST_PROCEEDING | ST_COMPLETED => Some (true, s, (st_send nt (m_tp (st_msg st)) (st_dst st) (st_mb st)).2)
        | _ => Some (true, s, [])
        end
    | None =>
        match (if negb (pl_isset (ta_tag (m_to msg))) then lookup_mrg msg s else None) with
        | Some _ =>
            match sip_reply nt now msg 482 (chars "Loop Detected") s with
            | None => None
            | Some (_, _, s, o) => Some (true, s, o)
            end
        | None => if pl_strcmp (m_met msg) (chars "CANCEL") =? 0 then cancel_handler nt now msg s else Some (false, s, [])
        end
    end.
End Strans.
