(* ===== verification/SipStransSpec.v ===== *)
(** * SIP server transactions: pointers, timers and repeated replies

    A user of the server transactions holds pointers to them: one it allocated,
    until it sent a final reply with it, the transport failed or it released it.
    [sreach] tracks these pointers and the replies that were sent; the invariant
    says that no pointer dangles, that a transaction without an owner goes away by
    itself, and that a retransmitted request is answered with the last reply. *)

From stdpp Require Import base list numbers strings sets.
From Stdlib Require Import ZArith Lia.
From S2P Require Import Prelude Endian Mbuf Hash Dname Fmt Sa Odict Print Regex Uri SipMsg SipCtrans SipStrans.

Open Scope Z_scope.

(** ** The table *)

Lemma st_find_put id st s : find_st id (put_st st s) = if id =? st_id st then match find_st id s with Some _ => Some st | None => None end else find_st id s.
Proof.
  unfold find_st, put_st, set_strans. cbn [ss_strans]. induction (ss_strans s) as [|c l IH]; cbn [map List.find]; [by destruct (id =? st_id st)|].
  destruct (Z.eqb_spec (st_id c) (st_id st)) as [E|E], (Z.eqb_spec id (st_id st)) as [Ei|Hn].
  - subst id. by rewrite E, Z.eqb_refl.
  - rewrite (proj2 (Z.eqb_neq (st_id st) id)), (proj2 (Z.eqb_neq (st_id c) id)) by congruence. exact IH.
  - subst id. rewrite (proj2 (Z.eqb_neq _ _) E). exact IH.
  - by destruct (st_id c =? id).
Qed.

Lemma st_find_drop id i s : find_st id (drop_st i s) = if id =? i then None else find_st id s.
Proof.
  unfold find_st, drop_st, set_strans. cbn [ss_strans]. induction (ss_strans s) as [|c l IH]; cbn [List.filter List.find]; [by destruct (id =? i)|].
  destruct (Z.eqb_spec (st_id c) i) as [E|E]; cbn [negb List.find].
  - destruct (Z.eqb_spec id i) as [Ei|Hn]; [exact IH|]. rewrite (proj2 (Z.eqb_neq (st_id c) id)) by congruence. exact IH.
  - destruct (Z.eqb_spec (st_id c) id) as [Ei|Hn]; [|exact IH]. by rewrite (proj2 (Z.eqb_neq id i)) by congruence.
Qed.

Lemma st_find_append st s n : find_st (st_id st) s = None -> forall id,
  find_st id (Sips (ss_strans s ++ [st]) (ss_size s) (ss_software s) n) = if id =? st_id st then Some st else find_st id s.
Proof.
  intros Hf id. unfold find_st in *. cbn [ss_strans]. induction (ss_strans s) as [|c l IH]; cbn [app List.find] in *; [rewrite Z.eqb_sym; by destruct (id =? st_id st)|].
  destruct (Z.eqb_spec (st_id c) (st_id st)) as [E|E]; [done|]. destruct (Z.eqb_spec (st_id c) id) as [Ei|]; [by rewrite (proj2 (Z.eqb_neq id (st_id st))) by congruence|by apply IH].
Qed.

Lemma st_find_id id s st : find_st id s = Some st -> st_id st = id /\ In st (ss_strans s).
Proof. intros [Hin E]%List.find_some. apply Z.eqb_eq in E. by split. Qed.

Lemma st_find_in st s : NoDup (map st_id (ss_strans s)) -> In st (ss_strans s) -> find_st (st_id st) s = Some st.
Proof.
  unfold find_st. induction (ss_strans s) as [|c l IH]; [done|]. cbn [map List.find]. rewrite NoDup_cons. intros [Hn Hd] [->|Hin]; [by rewrite Z.eqb_refl|].
  destruct (Z.eqb_spec (st_id c) (st_id st)) as [E|E]; [|by apply IH]. exfalso. apply Hn. rewrite E. apply list_elem_of_In, in_map, Hin.
Qed.

Lemma st_ids_put st s : map st_id (ss_strans (put_st st s)) = map st_id (ss_strans s).
Proof. unfold put_st, set_strans. cbn [ss_strans]. rewrite map_map. apply map_ext. intros c. by destruct (Z.eqb_spec (st_id c) (st_id st)). Qed.

Lemma st_ids_drop id s : NoDup (map st_id (ss_strans s)) -> NoDup (map st_id (ss_strans (drop_st id s))).
Proof.
  intros Hd. unfold drop_st, set_strans. cbn [ss_strans]. eapply sublist_NoDup; [exact Hd|]. apply (fmap_sublist st_id).
  clear. induction (ss_strans s) as [|c l IH]; cbn; [done|]. destruct (negb _); by constructor.
Qed.

(** ** Users and their pointers *)

(** The instance, the pointers that users hold and the replies of the
    transactions. *)
Record server := Server { sv_sip : sips; sv_own : list Z; sv_log : list (Z * sout) }.

Inductive sevent :=
| RRequest (nt : Z) (msg : sip_msg)
| RAlloc (msg : sip_msg) (cancelh : Z)
| RReply (nt : Z) (stp : option (option Z)) (msg : sip_msg) (rec_route : bool) (scode : Z) (reason : list Z) (extra : option prog)
| RStateless (nt : Z) (msg : sip_msg) (scode : Z) (reason : list Z) (extra : option prog)
| RTmr (id : Z)
| RTmrg (nt id : Z)
| RRelease (id : Z).

Definition without (id : Z) (own : list Z) : list Z := List.filter (fun i => negb (i =? id)) own.
Definition holds_ptr (stp : option (option Z)) : list Z := match stp with Some (Some i) => [i] | _ => [] end.

Section Spec.
Context `{H : Host} `{P : Platform} `{R : Resolver}.

Definition sstep (now : Z) (e : sevent) (v : server) : option server :=
  let s := sv_sip v in
  match e with
  | RRequest nt msg => match request_handler nt now msg s with Some (_, s, _) => Some (Server s (sv_own v) (sv_log v)) | None => None end
  | RAlloc msg cancelh => match sip_strans_alloc msg cancelh s with (Ok id, s) => Some (Server s (sv_own v ++ [id]) (sv_log v)) | (Err _, s) => Some (Server s (sv_own v) (sv_log v)) end
  | RReply nt stp msg rec_route scode reason extra =>
      let id := match stp with Some (Some id) => id | _ => ss_next s end in
      match sip_treplyf nt now stp msg rec_route scode reason extra s with
      | Some (_, stp, s, o) => Some (Server s (without id (sv_own v) ++ holds_ptr stp) (sv_log v ++ map (pair id) o))
      | None => None
      end
  | RStateless nt msg scode reason extra => match sip_replyf nt now msg scode reason extra s with Some (_, _, s, _) => Some (Server s (sv_own v) (sv_log v)) | None => None end
  | RTmr id => Some (Server (st_tmr_handler id s) (sv_own v) (sv_log v))
  | RTmrg nt id => Some (Server (retransmit_handler nt now id s).1 (sv_own v) (sv_log v))
  | RRelease id => Some (Server (drop_st id s) (without id (sv_own v)) (sv_log v))
  end.

(** Timers fire when they are due; users reply with and release what they hold. *)
Definition sallowed (now : Z) (e : sevent) (v : server) : Prop :=
  match e with
  | RReply _ (Some (Some id)) _ _ _ _ _ | RRelease id => id ∈ sv_own v
  | RTmr id => exists st d, find_st id (sv_sip v) = Some st /\ st_tmr st = Some d /\ d <= now
  | RTmrg _ id => exists st d, find_st id (sv_sip v) = Some st /\ st_tmrg st = Some d /\ d <= now
  | _ => True
  end.

Inductive sreach (size : Z) (software : option (list Z)) : server -> Z -> Prop :=
| sreach_init now : sreach size software (Server (Sips [] size software 0) [] []) now
| sreach_step v t now e v' : sreach size software v t -> t <= now -> sallowed now e v -> sstep now e v = Some v' -> sreach size software v' now.

(** The last reply of a transaction. *)
Definition last_of (id : Z) (log : list (Z * sout)) : option sout := option_map snd (last (List.filter (fun e => e.1 =? id) log)).

(** ** The invariant *)

Definition due (t : Z) (o : option Z) : Prop := exists d, o = Some d /\ d <= t + 64 * SIP_T1.

Definition st_ok (t : Z) (own : Prop) (st : sip_strans) : Prop :=
  let rel := sip_transp_reliable (m_tp (st_msg st)) in
  match st_state st with
  | ST_TRYING => own /\ st_tmr st = None /\ st_tmrg st = None /\ st_mb st = None /\ st_txc st = 0
  | ST_PROCEEDING => own /\ st_tmr st = None /\ st_tmrg st = None /\ is_Some (st_mb st) /\ st_txc st = 0
  | ST_ACCEPTED => ~ own /\ due t (st_tmr st) /\ st_tmrg st = None /\ is_Some (st_mb st) /\ st_invite st = true
  | ST_COMPLETED => ~ own /\ due t (st_tmr st) /\ is_Some (st_mb st) /\ (st_invite st = true \/ rel = false) /\ (is_Some (st_tmrg st) <-> st_invite st = true /\ rel = false)
  | ST_CONFIRMED => ~ own /\ due t (st_tmr st) /\ st_tmrg st = None /\ is_Some (st_mb st) /\ rel = false
  end.

Definition logged (log : list (Z * sout)) (st : sip_strans) : Prop :=
  match st_mb st with None => True | Some mb => last_of (st_id st) log = Some (SSend (m_tp (st_msg st)) (st_dst st) (unread mb)) end.

Record sinv (v : server) (t : Z) : Prop := {
  si_nodup : NoDup (map st_id (ss_strans (sv_sip v)));
  si_fresh : forall id, ss_next (sv_sip v) <= id -> find_st id (sv_sip v) = None;
  si_find : forall id, match find_st id (sv_sip v) with Some st => st_ok t (id ∈ sv_own v) st /\ logged (sv_log v) st | None => id ∉ sv_own v end;
}.

Lemma due_later t now o : due t o -> t <= now -> due now o.
Proof. intros (d & -> & Hd) Ht. exists d. split; [done|lia]. Qed.

Lemma st_ok_later t now own own' st : st_ok t own st -> t <= now -> (own <-> own') -> st_ok now own' st.
Proof. unfold st_ok. intros Hs Ht Hiff. pose proof (fun Ho => due_later t now (st_tmr st) Ho Ht) as Hd. destruct (st_state st); tauto. Qed.

Lemma logged_same log log' st : logged log st -> last_of (st_id st) log' = last_of (st_id st) log -> logged log' st.
Proof. unfold logged. intros Hl ->. exact Hl. Qed.

Lemma sinv_later v t now own' log' : sinv v t -> t <= now -> (forall i, i ∈ sv_own v <-> i ∈ own') -> (forall i, find_st i (sv_sip v) <> None -> last_of i log' = last_of i (sv_log v)) ->
  sinv (Server (sv_sip v) own' log') now.
Proof.
  intros [Hd Hf Hi] Ht Ho Hl. split; cbn [sv_sip sv_own sv_log]; [done|done|]. intros id. specialize (Hi id). destruct (find_st id (sv_sip v)) as [st|] eqn:E; [|by rewrite <- Ho].
  destruct Hi as [Hok Hlog]. split; [by eapply st_ok_later|]. destruct (st_find_id _ _ _ E) as [Ei _]. apply (logged_same (sv_log v)); [done|]. apply Hl. rewrite Ei. congruence.
Qed.

Lemma sinv_put v t now id st st' own' log' : sinv v t -> t <= now -> find_st id (sv_sip v) = Some st -> st_id st' = id ->
  (forall i, i <> id -> i ∈ sv_own v <-> i ∈ own') -> (forall i, i <> id -> last_of i log' = last_of i (sv_log v)) ->
  st_ok now (id ∈ own') st' -> logged log' st' -> sinv (Server (put_st st' (sv_sip v)) own' log') now.
Proof.
  intros [Hd Hf Hi] Ht E Eid Ho Hl Hok Hlog. split; cbn [sv_sip sv_own sv_log].
  - by rewrite st_ids_put.
  - intros i Hge. change (ss_next (put_st st' (sv_sip v))) with (ss_next (sv_sip v)) in Hge. rewrite st_find_put, (Hf i Hge). by destruct (_ =? _).
  - intros i. rewrite st_find_put, Eid. destruct (Z.eqb_spec i id) as [->|Hne]; [by rewrite E|]. specialize (Hi i). destruct (find_st i (sv_sip v)) as [c|] eqn:Ec; [|by rewrite <- (Ho i Hne)].
    destruct Hi as [Hc Hg]. split; [by eapply st_ok_later; [done|done|apply Ho]|]. apply (logged_same (sv_log v)); [done|]. apply Hl. by destruct (st_find_id _ _ _ Ec) as [-> _].
Qed.

Lemma sinv_drop v t now id own' log' : sinv v t -> t <= now -> id ∉ own' ->
  (forall i, i <> id -> i ∈ sv_own v <-> i ∈ own') -> (forall i, i <> id -> last_of i log' = last_of i (sv_log v)) -> sinv (Server (drop_st id (sv_sip v)) own' log') now.
Proof.
  intros [Hd Hf Hi] Ht Hout Ho Hl. split; cbn [sv_sip sv_own sv_log].
  - by apply st_ids_drop.
  - intros i Hge. change (ss_next (drop_st id (sv_sip v))) with (ss_next (sv_sip v)) in Hge. rewrite st_find_drop, (Hf i Hge). by destruct (_ =? _).
  - intros i. rewrite st_find_drop. destruct (Z.eqb_spec i id) as [->|Hne]; [done|]. specialize (Hi i). destruct (find_st i (sv_sip v)) as [c|] eqn:Ec; [|by rewrite <- (Ho i Hne)].
    destruct Hi as [Hc Hg]. split; [by eapply st_ok_later; [done|done|apply Ho]|]. apply (logged_same (sv_log v)); [done|]. apply Hl. by destruct (st_find_id _ _ _ Ec) as [-> _].
Qed.

Lemma sinv_alloc v t now msg cancelh id s' : sinv v t -> t <= now -> sip_strans_alloc msg cancelh (sv_sip v) = (Ok id, s') ->
  sinv (Server s' (sv_own v ++ [id]) (sv_log v)) now /\ id = ss_next (sv_sip v) /\ exists st, find_st id s' = Some st.
Proof.
  intros [Hd Hf Hi] Ht. unfold sip_strans_alloc. destruct (mem_alloc _); [|done]. intros [= <- <-]. set (id := ss_next (sv_sip v)). set (st := SipStransaction _ _ _ _ _ _ _ _ _ _ _).
  pose proof (Hf id (Z.le_refl _)) as Hnone. pose proof (st_find_append st (sv_sip v) (id + 1) Hnone) as Hfind. change (st_id st) with id in Hfind. split_and!; [|done|exists st; by rewrite Hfind, Z.eqb_refl].
  split; cbn [sv_sip sv_own sv_log ss_strans ss_next].
  - rewrite map_app. apply NoDup_app. split_and!; [done| |apply NoDup_singleton]. intros x Hx. change (map st_id [st]) with [id]. rewrite list_elem_of_singleton. intros ->.
    apply list_elem_of_In, in_map_iff in Hx as (c & Ec & Hin). pose proof (st_find_in c _ Hd Hin) as Hc. rewrite Ec, Hnone in Hc. done.
  - intros i Hge. rewrite Hfind, (proj2 (Z.eqb_neq i id)) by lia. apply Hf. unfold id in Hge. lia.
  - intros i. rewrite Hfind. destruct (Z.eqb_spec i id) as [->|Hne]; [split; [|done]; cbn; set_solver|]. specialize (Hi i).
    assert (Ho : i ∈ sv_own v <-> i ∈ sv_own v ++ [id]) by set_solver. destruct (find_st i (sv_sip v)) as [c|]; [|by rewrite <- Ho]. destruct Hi as [Hc Hg]. split; [by eapply st_ok_later|done].
Qed.

(** ** Replies *)

Lemma without_spec id own i : i ∈ without id own <-> i ∈ own /\ i <> id.
Proof. unfold without. rewrite !list_elem_of_In, filter_In, negb_true_iff, Z.eqb_neq. done. Qed.

Lemma last_of_other i id log o : i <> id -> last_of i (log ++ map (pair id) o) = last_of i log.
Proof.
  intros Hne. unfold last_of. rewrite List.filter_app. assert (E : List.filter (fun e => e.1 =? i) (map (pair id) o) = []); [|by rewrite E, app_nil_r].
  induction o as [|x o IH]; [done|]. cbn. by rewrite (proj2 (Z.eqb_neq id i)) by congruence.
Qed.
Lemma last_of_same id log x : last_of id (log ++ map (pair id) [x]) = Some x.
Proof. unfold last_of. rewrite List.filter_app. cbn. rewrite Z.eqb_refl. by rewrite last_snoc. Qed.

(** What the user is left with: a pointer to [id] or none. *)
Definition own_after (id : Z) (own : list Z) (stp : option (option Z)) : list Z := without id own ++ holds_ptr stp.

Lemma own_after_other id own stp i : i <> id -> (stp = Some (Some id) \/ holds_ptr stp = []) -> i ∈ own <-> i ∈ own_after id own stp.
Proof.
  intros Hne Hs. unfold own_after. rewrite elem_of_app, without_spec. destruct Hs as [->| ->]; cbn [holds_ptr]; rewrite ?list_elem_of_singleton; [tauto|]. pose proof (not_elem_of_nil i). tauto.
Qed.

Lemma sinv_sent v t nt now id st (stp : option (option Z)) dst scode mb err o : sinv v t -> t <= now -> find_st id (sv_sip v) = Some st -> id ∈ sv_own v ->
  st_send nt (m_tp (st_msg st)) dst (Some mb) = (err, o) -> (stp = None -> 200 <= scode) ->
  let st' := st_set_reply dst mb st in
  let stp' := match stp with None => None | Some _ => Some (if negb (err =? 0) || (scode >=? 200) then None else Some id) end in
  let t64 := Some (now + 64 * SIP_T1) in
  let rel := sip_transp_reliable (m_tp (st_msg st)) in
  let s' := if negb (err =? 0) then drop_st id (sv_sip v)
            else if scode <? 200 then put_st (st_set_state ST_PROCEEDING (st_tmr st') (st_tmrg st') st') (sv_sip v)
            else if st_invite st' then
              if scode <? 300 then put_st (st_set_state ST_ACCEPTED t64 (st_tmrg st') st') (sv_sip v)
              else put_st (st_set_state ST_COMPLETED t64 (if rel then st_tmrg st' else Some (now + SIP_T1)) st') (sv_sip v)
            else if rel then drop_st id (sv_sip v)
            else put_st (st_set_state ST_COMPLETED t64 (st_tmrg st') st') (sv_sip v) in
  sinv (Server s' (own_after id (sv_own v) stp') (sv_log v ++ map (pair id) o)) now.
Proof.
  intros Hi Ht E Hown Hs Hstp. cbn zeta. set (stp' := match stp with None => None | Some _ => _ end). destruct (st_find_id _ _ _ E) as [Eid _].
  assert (Hptr : stp' = Some (Some id) \/ holds_ptr stp' = []) by (unfold stp'; destruct stp; [destruct (_ || _); [by right|by left]|by right]).
  pose proof (fun i Hne => own_after_other id (sv_own v) stp' i Hne Hptr) as Ho. pose proof (fun i Hne => last_of_other i id (sv_log v) o Hne) as Hl.
  assert (Hok : st_ok t True st). { pose proof (si_find _ _ Hi id) as Hx. rewrite E in Hx. eapply st_ok_later; [apply Hx|lia|]. tauto. }
  assert (Hfin : negb (err =? 0) || (scode >=? 200) = true -> id ∉ own_after id (sv_own v) stp').
  { intros Hx. unfold stp', own_after. rewrite Hx, elem_of_app, without_spec. destruct stp; cbn [holds_ptr]; pose proof (not_elem_of_nil id); tauto. }
  cbn [st_send] in Hs. injection Hs as <- Ho'. destruct (Z.eqb_spec nt 0) as [Hn|Hn]; cbn [negb orb] in *; [|by apply (sinv_drop v t); auto].
  assert (Hput : forall x tmr tmrg, st_ok now (id ∈ own_after id (sv_own v) stp') (st_set_state x tmr tmrg (st_set_reply dst mb st)) ->
    sinv (Server (put_st (st_set_state x tmr tmrg (st_set_reply dst mb st)) (sv_sip v)) (own_after id (sv_own v) stp') (sv_log v ++ map (pair id) o)) now).
  { intros x tmr tmrg Hx. eapply (sinv_put v t now id st); try done. unfold logged. cbn. rewrite <- Ho', Eid. apply last_of_same. }
  unfold st_ok in Hok. assert (Hno : st_tmr st = None /\ st_tmrg st = None /\ st_txc st = 0) by (destruct (st_state st); tauto). destruct Hno as (Htmr & Htmrg & Htx).
  assert (Hdue : due now (Some (now + 64 * SIP_T1))) by (eexists; split; [done|lia]).
  cbn [st_tmr st_tmrg st_invite st_set_reply]. destruct (Z.ltb_spec scode 200) as [Hlt|Hge].
  - apply Hput. cbn. rewrite Htmr, Htmrg. split_and!; [|done..]. unfold own_after, stp'. rewrite (proj2 (Z.leb_gt _ _) Hlt) || (rewrite Z.geb_leb, (proj2 (Z.leb_gt _ _) Hlt)).
    destruct stp; [|specialize (Hstp eq_refl); lia]. cbn. rewrite elem_of_app, list_elem_of_singleton. by right.
  - assert (Hout : id ∉ own_after id (sv_own v) stp') by (apply Hfin; lia). destruct (st_invite st) eqn:Einv.
    + destruct (scode <? 300); apply Hput; unfold st_ok; cbn; rewrite Htmrg, ?Einv; [by split_and!|].
      destruct (sip_transp_reliable _); split_and!; first [done|by left|by split|split; by intros []].
    + destruct (sip_transp_reliable _) eqn:Er; [by apply (sinv_drop v t); auto|]. apply Hput. unfold st_ok. cbn. rewrite Htmrg, Einv, Er. split_and!; first [done|by right|split; by intros []].
Qed.

Lemma fresh_own v t id : sinv v t -> ss_next (sv_sip v) <= id -> id ∉ sv_own v.
Proof. intros Hi Hge. pose proof (si_find _ _ Hi id) as Hx. by rewrite (si_fresh _ _ Hi id Hge) in Hx. Qed.

(** The transaction a reply is made with. *)
Definition reply_id (v : server) (stp : option (option Z)) : Z := match stp with Some (Some id) => id | _ => ss_next (sv_sip v) end.
Definition holds_own (v : server) (stp : option (option Z)) : Prop := match stp with Some (Some id) => id ∈ sv_own v | _ => True end.

Lemma own_after_same v t stp : sinv v t -> holds_own v stp -> forall i, i ∈ sv_own v <-> i ∈ own_after (reply_id v stp) (sv_own v) stp.
Proof.
  intros Hi Ho i. unfold own_after. rewrite elem_of_app, without_spec. unfold reply_id. destruct stp as [[id|]|]; cbn [holds_ptr] in *.
  - rewrite list_elem_of_singleton. cbn in Ho. destruct (Z.eq_dec i id) as [->|]; tauto.
  - pose proof (fresh_own v t (ss_next (sv_sip v)) Hi (Z.le_refl _)). pose proof (not_elem_of_nil i). destruct (Z.eq_dec i (ss_next (sv_sip v))) as [->|]; tauto.
  - pose proof (fresh_own v t (ss_next (sv_sip v)) Hi (Z.le_refl _)). pose proof (not_elem_of_nil i). destruct (Z.eq_dec i (ss_next (sv_sip v))) as [->|]; tauto.
Qed.

Lemma sinv_idle v t now stp : sinv v t -> t <= now -> holds_own v stp -> sinv (Server (sv_sip v) (own_after (reply_id v stp) (sv_own v) stp) (sv_log v ++ map (pair (reply_id v stp)) [])) now.
Proof. intros Hi Ht Ho. apply (sinv_later v t); [done|done|by eapply own_after_same|]. intros i _. by rewrite app_nil_r. Qed.

(** After the sending, the rest of sip_strans_reply. *)
Lemma sinv_reply v t nt now stp msg dst scode mb err stp' s' o : sinv v t -> t <= now -> holds_own v stp ->
  sip_strans_reply nt now stp msg dst scode mb (sv_sip v) = (err, stp', s', o) ->
  sinv (Server s' (own_after (reply_id v stp) (sv_own v) stp') (sv_log v ++ map (pair (reply_id v stp)) o)) now /\ (err <> 0 -> holds_ptr stp' = []).
Proof.
  intros Hi Ht Ho. unfold sip_strans_reply. destruct ((scode <? 200) && _) eqn:Eg.
  { intros [= <- <- <- <-]. split; [by apply (sinv_idle v t)|]. intros _. by destruct stp; [rewrite andb_comm in Eg|]. }
  assert (Hstp : stp = None -> 200 <= scode) by (intros ->; lia).
  assert (Hgo : forall v0, sinv v0 now -> reply_id v stp ∈ sv_own v0 -> strans_reply nt now stp dst scode mb (reply_id v stp) (sv_sip v0) = (err, stp', s', o) ->
    sinv (Server s' (own_after (reply_id v stp) (sv_own v0) stp') (sv_log v0 ++ map (pair (reply_id v stp)) o)) now /\ (err <> 0 -> holds_ptr stp' = [])).
  { intros v0 Hi0 Hin. unfold strans_reply. destruct (find_st (reply_id v stp) (sv_sip v0)) as [st|] eqn:E; [|pose proof (si_find _ _ Hi0 (reply_id v stp)) as Hx; by rewrite E in Hx].
    cbn zeta. destruct (st_send _ _ _ _) as [e o'] eqn:Es. pose proof (sinv_sent v0 now nt now _ st stp dst scode mb e o' Hi0 (Z.le_refl _) E Hin Es Hstp) as Hs. cbn zeta in Hs.
    destruct (Z.eqb_spec e 0) as [->|Hne]; cbn [negb orb] in *; intros [= <- <- <- <-]; (split; [exact Hs|]); [done|]. intros _. by destruct stp. }
  destruct stp as [[id|]|]; [apply (Hgo (Server (sv_sip v) (sv_own v) (sv_log v))); [by apply (sinv_later v t)|exact Ho]| |];
    (destruct (sip_strans_alloc msg 0 (sv_sip v)) as [[id|e] s1] eqn:Ea; [|unfold sip_strans_alloc in Ea; destruct (mem_alloc _); [done|]; injection Ea as <- <-; intros [= <- <- <- <-]; split; [by apply (sinv_idle v t)|done]]);
    destruct (sinv_alloc v t now msg 0 id s1 Hi Ht Ea) as (Hi1 & -> & _); intros Hg; (destruct (Hgo _ Hi1) as [Hs He]; [cbn; set_solver|exact Hg|]); (split; [|exact He]);
    cbn [sv_own sv_log] in Hs; unfold own_after, without in *; rewrite List.filter_app in Hs; cbn [List.filter] in Hs; unfold reply_id in Hs |- *; rewrite Z.eqb_refl in Hs; cbn [negb] in Hs; by rewrite app_nil_r in Hs.
Qed.

Lemma sinv_vreplyf v t nt now stp msg rec_route scode reason extra err stp' s' o : sinv v t -> t <= now -> holds_own v stp ->
  sip_treplyf nt now stp msg rec_route scode reason extra (sv_sip v) = Some (err, stp', s', o) ->
  sinv (Server s' (own_after (reply_id v stp) (sv_own v) stp') (sv_log v ++ map (pair (reply_id v stp)) o)) now.
Proof.
  intros Hi Ht Ho. unfold sip_treplyf, vreplyf. destruct (pl_strcmp _ _ =? 0); [intros [= <- <- <- <-]; by apply (sinv_idle v t)|]. cbn zeta.
  destruct (reply_text _ _ _ _ _ _) as [[[mb rport]|e]|]; [|destruct (Z.eqb_spec e 0) as [->|Hne]; cbn [negb]|done].
  - destruct (sip_reply_addr _ _) as [dst|]; [|done]. destruct (sip_strans_reply _ _ _ _ _ _ _ _) as [[[e stp1] s1] o1] eqn:Er.
    destruct (sinv_reply v t nt now stp msg dst scode mb e stp1 s1 o1 Hi Ht Ho Er) as [Hs He].
    destruct (Z.eqb_spec e 0) as [->|Hne]; cbn [negb]; [intros [= <- <- <- <-]; exact Hs|]. specialize (He Hne). destruct stp1 as [[i|]|]; [done| |]; intros [= <- <- <- <-]; exact Hs.
  - intros [= <- <- <- <-]. by apply (sinv_idle v t).
  - destruct stp as [[id|]|]; intros [= <- <- <- <-]; [|by apply (sinv_idle v t)..]. cbn [reply_id map]. apply (sinv_drop v t); [done|done| | |].
    + unfold own_after. rewrite elem_of_app, without_spec. pose proof (not_elem_of_nil id). cbn. tauto.
    + intros i Hne'. apply own_after_other; [done|by right].
    + intros i _. by rewrite app_nil_r.
Qed.

(** ** Requests *)

Lemma stateless_same nt now msg scode reason extra s err stp s' o : sip_replyf nt now msg scode reason extra s = Some (err, stp, s', o) -> s' = s.
Proof.
  unfold sip_replyf, vreplyf. destruct (pl_strcmp _ _ =? 0); [by intros [= <- <- <- <-]|]. cbn zeta. destruct (reply_text _ _ _ _ _ _) as [[[mb rport]|e]|]; [|destruct (negb _); by intros [= <- <- <- <-]|done].
  destruct (sip_reply_addr _ _) as [dst|]; [|done]. destruct (st_send _ _ _ _) as [e o']. destruct (negb _); by intros [= <- <- <- <-].
Qed.

Lemma lookup_st_find h msg s st : NoDup (map st_id (ss_strans s)) -> lookup_st h msg s = Some st -> find_st (st_id st) s = Some st /\ h msg st = true.
Proof. intros Hd [Hin Hb]%List.find_some. apply andb_prop in Hb as [_ Hb]. split; [by apply st_find_in|done]. Qed.

Lemma sinv_same v t now : sinv v t -> t <= now -> sinv (Server (sv_sip v) (sv_own v) (sv_log v)) now.
Proof. intros Hi Ht. by apply (sinv_later v t). Qed.

(** A step that changes the timers or the state only. *)
Lemma sinv_touch v t now st st' : sinv v t -> t <= now -> find_st (st_id st) (sv_sip v) = Some st -> st_id st' = st_id st -> st_msg st' = st_msg st -> st_mb st' = st_mb st -> st_dst st' = st_dst st ->
  (st_ok now (st_id st ∈ sv_own v) st -> st_ok now (st_id st ∈ sv_own v) st') -> sinv (Server (put_st st' (sv_sip v)) (sv_own v) (sv_log v)) now.
Proof.
  intros Hi Ht E Eid Em Eb Ed Hok. pose proof (si_find _ _ Hi (st_id st)) as Hx. rewrite E in Hx. destruct Hx as [Hs Hl]. apply (sinv_put v t now (st_id st) st); try done.
  - apply Hok. by eapply st_ok_later.
  - unfold logged in *. by rewrite Em, Eb, Ed, Eid.
Qed.

Lemma ack_inv v t now msg b s' : sinv v t -> t <= now -> ack_handler now msg (sv_sip v) = (b, s') -> sinv (Server s' (sv_own v) (sv_log v)) now.
Proof.
  intros Hi Ht. unfold ack_handler. destruct (lookup_st _ _ _) as [st|] eqn:El; [|intros [= <- <-]; by apply (sinv_same v t)]. destruct (lookup_st_find _ _ _ _ (si_nodup _ _ Hi) El) as [E _].
  pose proof (si_find _ _ Hi (st_id st)) as Hx. rewrite E in Hx. destruct Hx as [Hok _]. unfold st_ok in Hok.
  destruct (st_state st) eqn:Es; try (intros [= <- <-]; by apply (sinv_same v t)). destruct (sip_transp_reliable _) eqn:Er; intros [= <- <-]; [by apply (sinv_drop v t); try tauto|].
  apply (sinv_touch v t now st); try done. intros _. unfold st_ok. cbn. rewrite Er.
  split_and!; try tauto. eexists. split; [done|]. unfold SIP_T4, SIP_T1. lia.
Qed.

Lemma srv_cancel_inv v t nt now msg b s' o : sinv v t -> t <= now -> cancel_handler nt now msg (sv_sip v) = Some (b, s', o) -> sinv (Server s' (sv_own v) (sv_log v)) now.
Proof.
  intros Hi Ht. unfold cancel_handler. destruct (lookup_st _ _ _) as [st|] eqn:El; [|intros [= <- <- <-]; by apply (sinv_same v t)]. destruct (lookup_st_find _ _ _ _ (si_nodup _ _ Hi) El) as [E _].
  cbn zeta. destruct (sip_reply _ _ _ _ _ _) as [[[[e stp] s1] o1]|] eqn:Er; [|done]. unfold sip_reply in Er. apply stateless_same in Er as ->.
  destruct (st_state st) eqn:Es; intros [= <- <- <-]; try (by apply (sinv_same v t)); by apply (sinv_touch v t now st); try done; unfold st_ok; rewrite ?Es; cbn; rewrite ?Es.
Qed.

Lemma srv_request_inv v t nt now msg b s' o : sinv v t -> t <= now -> request_handler nt now msg (sv_sip v) = Some (b, s', o) -> sinv (Server s' (sv_own v) (sv_log v)) now.
Proof.
  intros Hi Ht. unfold request_handler. destruct (pl_strcmp _ _ =? 0).
  { destruct (ack_handler _ _ _) as [b' s1] eqn:Ea. intros [= <- <- <-]. by eapply ack_inv. }
  destruct (lookup_st _ _ _) as [st|]; [destruct (st_state st); intros [= <- <- <-]; by apply (sinv_same v t)|].
  destruct (if negb _ then _ else _); [|destruct (pl_strcmp _ _ =? 0); [by apply (srv_cancel_inv v t)|intros [= <- <- <-]; by apply (sinv_same v t)]].
  destruct (sip_reply _ _ _ _ _ _) as [[[[e stp] s1] o1]|] eqn:Er; [|done]. unfold sip_reply in Er. apply stateless_same in Er as ->. intros [= <- <- <-]. by apply (sinv_same v t).
Qed.

Lemma tmrg_inv v t nt now id st d : sinv v t -> t <= now -> find_st id (sv_sip v) = Some st -> st_tmrg st = Some d -> sinv (Server (retransmit_handler nt now id (sv_sip v)).1 (sv_own v) (sv_log v)) now.
Proof.
  intros Hi Ht E Hd. unfold retransmit_handler. rewrite E. cbn zeta. destruct (st_find_id _ _ _ E) as [<- _]. cbn [fst]. apply (sinv_touch v t now st); try done.
  unfold st_ok. cbn. rewrite Hd. destruct (st_state st); [by intros (_ & _ & ? & _)..| |by intros (_ & _ & ? & _)].
  intros (H1 & H2 & H3 & H4 & H5). split_and!; [done|done|done|done|]. rewrite <- H5. split; intros _; eexists; reflexivity.
Qed.

Lemma sreach_inv size software v t : sreach size software v t -> sinv v t.
Proof.
  induction 1 as [now|v t now e v' _ Hi Ht Ha Hs]; [split; cbn; [apply NoDup_nil_2|done|intros id; apply not_elem_of_nil]|].
  destruct e as [nt msg|msg cancelh|nt stp msg rr scode reason extra|nt msg scode reason extra|id|nt id|id]; cbn [sstep] in Hs; cbv zeta in Hs.
  - destruct (request_handler _ _ _ _) as [[[b s'] o]|] eqn:E; [|done]. injection Hs as <-. by eapply srv_request_inv.
  - destruct (sip_strans_alloc _ _ _) as [[id|e] s'] eqn:E; injection Hs as <-; [by eapply sinv_alloc|]. unfold sip_strans_alloc in E. destruct (mem_alloc _); [done|]. injection E as _ <-. by apply (sinv_same v t).
  - destruct (sip_treplyf _ _ _ _ _ _ _ _ _) as [[[[err stp'] s'] o]|] eqn:E; [|done]. injection Hs as <-. apply (sinv_vreplyf v t) in E; [exact E|done|done|]. by destruct stp as [[id|]|].
  - destruct (sip_replyf _ _ _ _ _ _ _) as [[[[err stp'] s'] o]|] eqn:E; [|done]. injection Hs as <-. apply stateless_same in E as ->. by apply (sinv_same v t).
  - injection Hs as <-. destruct Ha as (st & d & E & Hd & _). apply (sinv_drop v t); try done. pose proof (si_find _ _ Hi id) as Hx. rewrite E in Hx. destruct Hx as [Hok _]. unfold st_ok in Hok. rewrite Hd in Hok. destruct (st_state st); [by destruct Hok as (_ & ? & _)..|tauto|tauto|tauto].
  - injection Hs as <-. destruct Ha as (st & d & E & Hd & _). by eapply tmrg_inv.
  - injection Hs as <-. apply (sinv_drop v t); try done; [rewrite without_spec; tauto|]. intros i Hne. rewrite without_spec. tauto.
Qed.

(** ** A final reply that is not acknowledged *)

(** The timers of a transaction fire in their order, each when it is due; [None]
    is the removal of the transaction. *)
Fixpoint unacked (fuel : nat) (id : Z) (s : sips) : list (Z * option sout) :=
  match fuel with
  | O => []
  | S fuel =>
      match find_st id s with
      | None => []
      | Some st =>
          let again a := let '(s, o) := retransmit_handler 0 a id s in map (fun x => (a, Some x)) o ++ unacked fuel id s in
          let remove b := (b, None) :: unacked fuel id (st_tmr_handler id s) in
          match st_tmrg st, st_tmr st with
          | Some a, Some b => if a <=? b then again a else remove b
          | Some a, None => again a
          | None, Some b => remove b
          | None, None => []
          end
      end
  end.

(** When a final reply is sent, from its start (Timer G of RFC 3261). *)
Definition reply_times : list Z := [0; 500; 1500; 3500; 7500; 11500; 15500; 19500; 23500; 27500; 31500].

(** A transaction after [txc] retransmissions; the next is due at [t0 + k]. *)
Record unacked_so_far (id t0 : Z) (tp : sip_transp) (dst : sa) (mb : mbuf) (k txc : Z) (s : sips) : Prop := {
  ua_st : exists st, find_st id s = Some st /\ st_tmr st = Some (t0 + 64 * SIP_T1) /\ st_tmrg st = Some (t0 + k) /\ st_txc st = txc /\ m_tp (st_msg st) = tp /\ st_dst st = dst /\ st_mb st = Some mb;
}.

Lemma reply_again fuel id t0 tp dst mb k txc s w : unacked_so_far id t0 tp dst mb k txc s -> k <= 64 * SIP_T1 -> 0 <= txc < 100 -> w = Z.min (u32 (Z.shiftl SIP_T1 (txc + 1))) SIP_T2 ->
  exists s', unacked (S fuel) id s = (t0 + k, Some (SSend tp dst (unread mb))) :: unacked fuel id s' /\ unacked_so_far id t0 tp dst mb (k + w) (txc + 1) s'.
Proof.
  intros [(st & E & E1 & E2 & E3 & E4 & E5 & E6)] Hk Htx ->. destruct (st_find_id _ _ _ E) as [Eid _]. cbn [unacked]. rewrite E, E1, E2, (proj2 (Z.leb_le _ _)) by lia.
  unfold retransmit_handler. rewrite E, E3, (wrap_small 32 (txc + 1)) by lia. eexists. split; [cbn; rewrite E4, E5, E6; reflexivity|]. split. eexists. split; [by rewrite st_find_put; cbn [st_id st_set_txc]; rewrite Eid, Z.eqb_refl, E|].
  cbn. rewrite Z.add_assoc. by split_and!.
Qed.

Lemma unacked_end fuel id s st b : find_st id s = Some st -> st_tmr st = Some b -> match st_tmrg st with Some a => b < a | None => True end -> unacked (S fuel) id s = [(b, None)].
Proof.
  intros E Eb Ha. cbn [unacked]. rewrite E, Eb.
  assert (Hend : (b, None) :: unacked fuel id (st_tmr_handler id s) = [(b, None)]) by (f_equal; destruct fuel; [done|]; cbn [unacked]; unfold st_tmr_handler; by rewrite st_find_drop, Z.eqb_refl).
  destruct (st_tmrg st) as [a|]; [|exact Hend]. rewrite (proj2 (Z.leb_gt _ _)) by lia. exact Hend.
Qed.

Ltac replies :=
  repeat match goal with
  | Q : unacked_so_far ?id ?t0 ?tp ?dst ?mb ?k ?txc ?s |- context [unacked (S ?f) ?id ?s] =>
      let E := fresh "E" in let s' := fresh "s" in let Q' := fresh "Q" in
      let w := eval vm_compute in (Z.min (u32 (Z.shiftl SIP_T1 (txc + 1))) SIP_T2) in
      destruct (reply_again f id t0 tp dst mb k txc s w Q ltac:(by vm_compute) ltac:(lia) ltac:(by vm_compute)) as (s' & E & Q');
      rewrite E; clear E Q;
      let k' := eval vm_compute in (k + w) in change (k + w) with k' in Q';
      let t' := eval vm_compute in (txc + 1) in change (txc + 1) with t' in Q'; cbn [app]; f_equal
  end.

Lemma unacked_runs id t0 tp dst mb s : unacked_so_far id t0 tp dst mb 500 0 s ->
  (t0 + 0, Some (SSend tp dst (unread mb))) :: unacked 12 id s = map (fun k => (t0 + k, Some (SSend tp dst (unread mb)))) reply_times ++ [(t0 + 64 * SIP_T1, None)].
Proof.
  intros Q. unfold reply_times. cbn [map app]. f_equal. replies.
  match goal with Q : unacked_so_far _ _ _ _ _ _ _ ?s |- unacked (S ?f) _ ?s = _ => destruct Q as [(st & E & E1 & E2 & _)]; apply (unacked_end f _ _ st); [done|done|rewrite E2; unfold SIP_T1; lia] end.
Qed.

(** ** Claims *)

(** C18: In every reachable state of a server instance, whatever requests arrive,
    users allocate, reply, release, and timers do, in any order and with any
    errors of the transport: a pointer that a user holds is that of a transaction
    that exists and still waits for its final reply; a transaction that nobody
    holds has sent its final reply and is removed by a timer due within 64 T1; and
    a request that is received again is not given to the users: it is answered
    with exactly the last reply of its transaction while one is to be repeated,
    and otherwise silently dropped, which changes nothing. *)
Theorem sip_strans_accounted (size : Z) (software : option (list Z)) (v : server) (t : Z) :
  sreach size software v t ->
  (forall id, id ∈ sv_own v -> exists st, find_st id (sv_sip v) = Some st /\ st_id st = id /\ (st_state st = ST_TRYING \/ st_state st = ST_PROCEEDING))
  /\ (forall st, In st (ss_strans (sv_sip v)) -> st_id st ∉ sv_own v -> st_state st <> ST_TRYING /\ st_state st <> ST_PROCEEDING /\ exists d, st_tmr st = Some d /\ d <= t + 64 * SIP_T1)
  /\ (forall now msg st, pl_strcmp (m_met msg) (chars "ACK") <> 0 -> lookup_st cmp_handler msg (sv_sip v) = Some st ->
       request_handler 0 now msg (sv_sip v) =
         Some (true, sv_sip v, match st_state st with ST_PROCEEDING | ST_COMPLETED => match last_of (st_id st) (sv_log v) with Some r => [r] | None => [] end | _ => [] end)
       /\ (st_state st <> ST_TRYING -> is_Some (last_of (st_id st) (sv_log v)))).
Proof.
  intros Hi%sreach_inv. split_and!.
  - intros id Hin. pose proof (si_find _ _ Hi id) as Hx. destruct (find_st id (sv_sip v)) as [st|] eqn:E; [|done]. exists st. split_and!; [done|by eapply st_find_id|]. destruct Hx as [Hok _]. unfold st_ok in Hok. destruct (st_state st); tauto.
  - intros st Hin Hout. pose proof (si_find _ _ Hi (st_id st)) as Hx. rewrite (st_find_in st _ (si_nodup _ _ Hi) Hin) in Hx. destruct Hx as [Hok _]. unfold st_ok, due in Hok. destruct (st_state st); (split_and!; [done|done|tauto]) || tauto.
  - intros now msg st Hack El. destruct (lookup_st_find _ _ _ _ (si_nodup _ _ Hi) El) as [E _]. pose proof (si_find _ _ Hi (st_id st)) as Hx. rewrite E in Hx. destruct Hx as [Hok Hlog].
    unfold request_handler. rewrite (proj2 (Z.eqb_neq _ 0) Hack), El. unfold logged in Hlog. unfold st_ok in Hok.
    assert (Hmb : st_state st <> ST_TRYING -> is_Some (st_mb st)) by (destruct (st_state st); tauto).
    assert (Hsome : st_state st <> ST_TRYING -> is_Some (last_of (st_id st) (sv_log v))) by (intros Hne; destruct (Hmb Hne) as [mb Em]; rewrite Em in Hlog; by rewrite Hlog).
    split; [|done]. destruct (st_state st) eqn:Es; try done; destruct (Hmb ltac:(done)) as [mb Em]; rewrite Em in Hlog |- *; by rewrite Hlog.
Qed.

(** C23: A final reply other than 2xx that a user sends to an INVITE over an
    unreliable transport, in any reachable state, is sent eleven times at the
    times of RFC 3261, and after 64 T1 the transaction is gone; an ACK for it stops
    the retransmissions at once, is not given to the users, and the transaction
    goes T4 later. *)
Theorem sip_strans_schedule (size : Z) (software : option (list Z)) (v : server) (t t0 : Z) (id : Z) (st : sip_strans) (msg : sip_msg) (dst : sa) (scode : Z) (mb : mbuf) :
  sreach size software v t -> id ∈ sv_own v -> find_st id (sv_sip v) = Some st -> st_invite st = true -> sip_transp_reliable (m_tp (st_msg st)) = false -> 300 <= scode ->
  let '(err, stp, s, o) := sip_strans_reply 0 t0 (Some (Some id)) msg dst scode mb (sv_sip v) in
  err = 0 /\ stp = Some None
  /\ map (fun x => (t0, Some x)) o ++ unacked 12 id s = map (fun k => (t0 + k, Some (SSend (m_tp (st_msg st)) dst (unread mb)))) reply_times ++ [(t0 + 64 * SIP_T1, None)]
  /\ (forall now ack s1 st1, find_st id s1 = Some st1 -> lookup_st cmp_ack_handler ack s1 = Some st1 -> st_state st1 = ST_COMPLETED -> m_tp (st_msg st1) = m_tp (st_msg st) ->
       let '(taken, s2) := ack_handler now ack s1 in taken = true /\ unacked 12 id s2 = [(now + SIP_T4, None)]).
Proof.
  intros Hi%sreach_inv Hown E Hinv Hrel Hsc. unfold sip_strans_reply, strans_reply. rewrite (proj2 (Z.ltb_ge scode 200)) by lia. cbn [andb]. rewrite E. cbn [st_send st_set_reply st_invite st_msg st_tmrg].
  rewrite Hinv, Hrel, (proj2 (Z.ltb_ge scode 300)) by lia. replace (scode >=? 200) with true by lia. cbn [Z.eqb negb orb]. destruct (st_find_id _ _ _ E) as [Eid _].
  pose proof (si_find _ _ Hi id) as Hx. rewrite E in Hx. destruct Hx as [Hok _]. unfold st_ok in Hok. assert (Htx : st_txc st = 0) by (destruct (st_state st); tauto).
  split_and!; [done|done| |].
  - cbn [map app]. rewrite <- (Z.add_0_r t0) at 1. apply unacked_runs. split. eexists. split; [rewrite st_find_put; cbn [st_id st_set_state st_set_reply]; rewrite Eid, Z.eqb_refl, E; done|]. cbn. by rewrite Htx.
  - intros now ack s1 st1 E1 El Es Etp. unfold ack_handler. rewrite El, Es, Etp, Hrel. destruct (st_find_id _ _ _ E1) as [Eid1 _]. split; [done|].
    apply (unacked_end 11 _ _ (st_set_state ST_CONFIRMED (Some (now + SIP_T4)) None st1)); [|done|done]. rewrite st_find_put. cbn [st_id st_set_state]. by rewrite Eid1, Z.eqb_refl, E1.
Qed.
End Spec.

(** ** Examples *)

#[local] Instance st_platform : Platform := {| cvt_ll := fun _ => 0; str_error := fun _ => []; sa_ntop := fun _ => Some (chars "10.0.0.1") |}.
#[local] Instance st_resolver : Resolver :=
  {| inet_pton4 := fun s => if bool_decide (s = chars "10.0.0.1") then Some 0x0a000001 else None; inet_pton6 := fun _ => None; getaddrinfo := fun _ => None |}.
#[local] Instance st_host : Host := lp64_le.

Definition ex_line (n v : String.string) : list Z := chars n ++ [58; 32] ++ chars v ++ crlf.
Definition ex_invite_text : list Z :=
  chars "INVITE sip:bob@b.com SIP/2.0" ++ crlf ++ ex_line "Via" "SIP/2.0/UDP 10.0.0.1:5066;branch=z9hG4bKnash;rport" ++ ex_line "From" "Alice <sip:alice@a.com>;tag=77"
  ++ ex_line "To" "<sip:bob@b.com>" ++ ex_line "Call-ID" "f81d4@a.com" ++ ex_line "CSeq" "2 INVITE" ++ crlf.
Definition ex_invite : sip_msg :=
  match sip_msg_decode true 5 (Mbuf (Some ex_invite_text) (zlength ex_invite_text) 0 (zlength ex_invite_text)) with Some (Ok (m, _)) => set_src (SaIn 0x0a000001 5066) m | _ => msg0 end.

Definition ex_server0 : server := Server (Sips [] 16 None 0) [] [].
Definition ex_next (now : Z) (e : sevent) (v : server) : server := match sstep now e v with Some v => v | None => v end.
Definition ex_server1 : server := ex_next 0 (RAlloc ex_invite 0) ex_server0.
Definition ex_server2 : server := ex_next 10 (RReply 0 (Some (Some 0)) ex_invite false 180 (chars "Ringing") None) ex_server1.

Lemma ex_server2_reached : sreach 16 None ex_server2 10.
Proof.
  assert (H1 : sreach 16 None ex_server1 0) by (apply (sreach_step 16 None ex_server0 0 0 (RAlloc ex_invite 0)); [constructor|lia|done|vm_compute; reflexivity]).
  apply (sreach_step 16 None ex_server1 0 10 (RReply 0 (Some (Some 0)) ex_invite false 180 (chars "Ringing") None)); [exact H1|lia|change (0 ∈ sv_own ex_server1); apply (bool_decide_unpack _); by vm_compute|vm_compute; reflexivity].
Qed.

Definition ex_st : sip_strans := match lookup_st cmp_handler ex_invite (sv_sip ex_server2) with Some st => st | None => SipStransaction 9 None None sa0 msg0 None None 0 ST_TRYING 0 false end.

Lemma sip_strans_accounted_witness :
  match request_handler 0 600 ex_invite (sv_sip ex_server2) with Some (true, _, [SSend tp dst text]) => dst = SaIn 0x0a000001 5066 /\ ztake 15 text = chars "SIP/2.0 180 Rin" | _ => False end.
Proof.
  destruct (sip_strans_accounted 16 None ex_server2 10 ex_server2_reached) as (_ & _ & Hx).
  assert (E : lookup_st cmp_handler ex_invite (sv_sip ex_server2) = Some ex_st) by (vm_compute; reflexivity).
  assert (Ha : pl_strcmp (m_met ex_invite) (chars "ACK") <> 0) by (vm_compute; discriminate).
  destruct (Hx 600 ex_invite ex_st Ha E) as [Eq _]. rewrite Eq. clear. vm_compute. split; reflexivity.
Defined.

Lemma sip_strans_schedule_witness :
  let '(err, _, s, o) := sip_strans_reply 0 1000 (Some (Some 0)) ex_invite (SaIn 0x0a000001 5066) 486 (Mbuf (Some [83]) 1 0 1) (sv_sip ex_server2) in
  err = 0 /\ zlength (map (fun x => (1000, Some x)) o ++ unacked 12 0 s) = 12.
Proof.
  assert (E : find_st 0 (sv_sip ex_server2) = Some ex_st) by (vm_compute; reflexivity). assert (Hi : st_invite ex_st = true) by (vm_compute; reflexivity).
  assert (Hr : sip_transp_reliable (m_tp (st_msg ex_st)) = false) by (vm_compute; reflexivity). assert (Ho : 0 ∈ sv_own ex_server2) by (apply (bool_decide_unpack _); by vm_compute).
  pose proof (sip_strans_schedule 16 None ex_server2 10 1000 0 ex_st ex_invite (SaIn 0x0a000001 5066) 486 (Mbuf (Some [83]) 1 0 1) ex_server2_reached Ho E Hi Hr ltac:(lia)) as Hs.
  destruct (sip_strans_reply _ _ _ _ _ _ _ _) as [[[err stp] s] o]. destruct Hs as (Herr & _ & Hs & _). split; [exact Herr|]. rewrite Hs. clear. unfold zlength. rewrite length_app, length_map. reflexivity.
Defined.
