(* ===== verification/SipWire.v ===== *)
(** * SIP on the wire: what is printed is what the other side decodes

    A request or a reply that the library prints is made of lines
    ([SipMsgSpec.line]), so that the decoder gives back its parts.  The ACK for a
    rejected INVITE, printed by request_copy of ctrans.c from the request it had
    sent, is taken by strans.c of the other side for the transaction of that
    request. *)

From stdpp Require Import base list numbers strings.
From Stdlib Require Import ZArith Lia.
From S2P Require Import Prelude Endian Mbuf MbufView Hash Dname DnameSpec Fmt Sa Odict Print Regex Uri UriSpec SipMsg SipMsgSpec SipCtrans SipStrans.

Open Scope Z_scope.

(** ** Printing to a buffer *)

Section Writes.
Context `{H : Host} `{P : Platform} (Ham : ample_memory).

(** [f] appends [d] to a buffer that is written at its end. *)
Definition appends (f : mbuf -> option (Z * mbuf)) (d : list Z) : Prop :=
  forall mb c, holds mb c (zlength c) -> zlength c + zlength d < 2 ^ 31 -> exists mb', f mb = Some (0, mb') /\ holds mb' (c ++ d) (zlength (c ++ d)).

Lemma appends_run p : forall d, prints p d -> bytes d -> appends (run vprintf_handler p) d.
Proof.
  induction p as [e|t k IH|]; intros d [Ho Hc] Hb mb c Hh Hl; cbn [out code run] in *; [| |done].
  - injection Hc as ->. subst d. exists mb. rewrite app_nil_r. by split.
  - subst d. apply bytes_app in Hb as [Hb1 Hb2]. rewrite zlength_app in Hl. pose proof (zlength_nonneg (out (k 0))). destruct (holds_append mb c t Hh Hb1 Ham ltac:(lia)) as (mb1 & E & H1).
    unfold vprintf_handler at 1. rewrite E. destruct (IH 0 (out (k 0)) ltac:(by split) Hb2 mb1 (c ++ t) H1) as (mb2 & -> & H2); [rewrite zlength_app; lia|]. exists mb2. by rewrite app_assoc.
Qed.

Lemma appends_or f g d e : appends f d -> appends g e -> appends (mb_or f g) (d ++ e).
Proof.
  intros Hf Hg mb c Hh Hl. rewrite zlength_app in Hl. pose proof (zlength_nonneg e). unfold mb_or. destruct (Hf mb c Hh ltac:(lia)) as (mb1 & -> & H1).
  destruct (Hg mb1 (c ++ d) H1) as (mb2 & -> & H2); [rewrite zlength_app; lia|]. exists mb2. by rewrite app_assoc.
Qed.

Lemma appends_str s : bytes s -> appends (mb_do (mbuf_write_str s)) s.
Proof. intros Hs mb c Hh Hl. unfold mb_do, mbuf_write_str. destruct (holds_append mb c s Hh Hs Ham Hl) as (mb' & -> & H'). by exists mb'. Qed.

Lemma appends_skip : appends mb_skip [].
Proof. intros mb c Hh _. exists mb. rewrite app_nil_r. by split. Qed.

(** A text argument between two pieces of the format. *)
Lemma prints_arg a b p k : prints k b -> prints (pcheck (Call a Ret) (pcheck (calls (write_padded p 0 32 false [])) k)) (a ++ p ++ b).
Proof. intros Hk. apply prints_check; [apply prints_call|]. apply prints_check; [apply prints_text|done]. Qed.

(** [fmt] is a header name and a text. *)
Definition fmt_pl (name : String.string) (fmt : list Z) : Prop :=
  forall p, re_vhprintf fmt [PPl (Some p)] = pcheck (Call (chars name ++ [58; 32]) Ret) (pcheck (calls (write_padded (pl_str p) 0 32 false [])) (Call crlf Ret)).
Definition fmt_str (name : String.string) (fmt : list Z) : Prop :=
  forall s, re_vhprintf fmt [PStr (Some s)] = pcheck (Call (chars name ++ [58; 32]) Ret) (pcheck (calls (write_padded s 0 32 false [])) (Call crlf Ret)).

Definition hdr_text (name : String.string) (v : list Z) : list Z := (chars name ++ [58; 32]) ++ v ++ crlf.

Lemma bytes_chars (s : String.string) : bytes (chars s).
Proof.
  unfold chars. induction (String.list_ascii_of_string s) as [|c l IH]; [constructor|]. cbn [map]. constructor; [|exact IH]. unfold is_byte, chr. pose proof (Ascii.N_ascii_bounded c). pose proof (Ascii.nat_ascii_bounded c). lia.
Qed.

Lemma bytes_hdr name v : bytes v -> bytes (hdr_text name v).
Proof. intros Hv. unfold hdr_text. rewrite !bytes_app. split_and!; try done; try apply bytes_chars; apply (bool_decide_unpack _); by vm_compute. Qed.

Lemma appends_pl name fmt v : fmt_pl name fmt -> bytes v -> appends (mbuf_printf fmt [PPl (Some (Some v))]) (hdr_text name v).
Proof. intros Hf Hv. apply appends_run; [|by apply bytes_hdr]. rewrite Hf. apply prints_arg, prints_call. Qed.
Lemma appends_sw name fmt v : fmt_str name fmt -> bytes v -> appends (mbuf_printf fmt [PStr (Some v)]) (hdr_text name v).
Proof. intros Hf Hv. apply appends_run; [|by apply bytes_hdr]. rewrite Hf. apply prints_arg, prints_call. Qed.
End Writes.

(** ** What the decoder keeps of the lines *)

Definition okv (comsep : bool) (v : list Z) : Prop := core_ok comsep v = true /\ bytes v.

Section Parsed.
Context `{H : Host} `{P : Platform} `{R : Resolver} (char_signed : bool).

Record parsed (m : sip_msg) : Prop := {
  pd_via : pl_isset (via_sentby (m_via m)) = true -> exists v, via_val (m_via m) = Some v /\ okv true v /\ sip_via_decode (Some v) = Some (Ok (m_via m));
  pd_to : forall v, ta_val (m_to m) = Some v -> okv false v /\ exists a, sip_addr_decode (Some v) = Ok a;
  pd_from : forall v, ta_val (m_from m) = Some v -> okv false v /\ exists a, sip_addr_decode (Some v) = Ok a;
  pd_callid : forall v, m_callid m = Some v -> okv false v;
  pd_cseq : 0 <= cseq_num (m_cseq m) < 2 ^ 32;
  pd_route : forall h, In h (m_hdrht m) -> hdr_id h = SIP_HDR_ROUTE -> okv true (hdr_val h);
}.

Lemma via_decode_val v via : sip_via_decode (Some v) = Some (Ok via) -> via_val via = Some v.
Proof.
  unfold sip_via_decode. destruct (regex _ _) as [[|? [|? [|? [|? [|? [|? [|? [|? [|? [|]]]]]]]]]]|]; try done. destruct (decode_hostport _) as [[]|]; [|done].
  destruct (msg_param_decode _ _) as [[]|]; try done. by intros [= <-].
Qed.

Lemma taddr_decode_val old v a : taddr_decode old (Some v) = Some (Ok a) -> ta_val a = Some v /\ exists x, sip_addr_decode (Some v) = Ok x.
Proof. unfold taddr_decode. destruct (sip_addr_decode _) as [x|]; [|done]. destruct (msg_param_decode _ _); [|done]. intros [= <-]. by eauto. Qed.

Lemma u32_range p : 0 <= pl_u32 p < 2 ^ 32.
Proof. unfold pl_u32, pl_num. destruct p as [s|]; [|lia]. rewrite num_loop_value by lia. destruct (forallb _ _); [apply wrap_range; lia|lia]. Qed.

Lemma cseq_decode_num v c : sip_cseq_decode v = Ok c -> 0 <= cseq_num c < 2 ^ 32.
Proof. unfold sip_cseq_decode. destruct (regex _ _) as [[|? [|? [|? [|]]]]|]; try done. intros [= <-]. cbn [cseq_num]. apply u32_range. Qed.

(** The table only grows by the header. *)
Lemma store_via m hdr atomic line : m_via (hdr_store m hdr atomic line) = m_via m /\ m_to (hdr_store m hdr atomic line) = m_to m /\ m_from (hdr_store m hdr atomic line) = m_from m
  /\ m_callid (hdr_store m hdr atomic line) = m_callid m /\ m_cseq (hdr_store m hdr atomic line) = m_cseq m /\ m_met (hdr_store m hdr atomic line) = m_met m /\ m_ruri (hdr_store m hdr atomic line) = m_ruri m
  /\ (forall h, In h (m_hdrht (hdr_store m hdr atomic line)) -> In h (m_hdrht m) \/ h = hdr /\ atomic = true).
Proof.
  unfold hdr_store. destruct (_ || _), atomic, line; cbn; split_and!; try done; intros h; rewrite ?in_app_iff; cbn; intuition auto.
Qed.

Lemma store_parsed m hdr atomic line : parsed m -> (atomic = true -> okv (hdr_comma_separated (hdr_id hdr)) (hdr_val hdr)) -> parsed (hdr_store m hdr atomic line).
Proof.
  intros [K1 K2 K3 K4 K5 K6] Hv. destruct (store_via m hdr atomic line) as (E1 & E2 & E3 & E4 & E5 & _ & _ & E6). split; rewrite ?E1, ?E2, ?E3, ?E4, ?E5; try done.
  intros h Hin Hid. destruct (E6 h Hin) as [Hin'|[-> Ha]]; [by apply K6|]. specialize (Hv Ha). by rewrite Hid in Hv.
Qed.

(** Only Via is both comma separated and parsed. *)
Lemma parse_comsep m hdr : hdr_comma_separated (hdr_id hdr) = true -> hdr_parse m hdr false = Some (Ok m).
Proof.
  intros Hc. unfold hdr_parse. destruct (hdr_id hdr =? SIP_HDR_VIA); [done|].
  repeat match goal with |- context [hdr_id hdr =? ?x] => destruct (Z.eqb_spec (hdr_id hdr) x) as [E|_]; [exfalso; rewrite E in Hc; by vm_compute in Hc|] end. done.
Qed.

Lemma parse_parsed m hdr m' : parsed m -> okv (hdr_comma_separated (hdr_id hdr)) (hdr_val hdr) -> hdr_parse m hdr true = Some (Ok m') -> parsed m'.
Proof.
  intros K Hv. unfold hdr_parse. destruct (Z.eqb_spec (hdr_id hdr) SIP_HDR_VIA) as [E|_].
  { rewrite E in Hv. change (hdr_comma_separated SIP_HDR_VIA) with true in Hv. destruct (pl_isset (via_sentby (m_via m))) eqn:Es; cbn [negb orb]; [by intros [= <-]|].
    destruct (sip_via_decode (Some (hdr_val hdr))) as [[via|]|] eqn:Ev; try done. intros [= <-]. destruct K. split; cbn; try done. intros _. exists (hdr_val hdr). split_and!; [by apply via_decode_val|by apply Hv..|done]. }
  destruct (Z.eqb_spec (hdr_id hdr) SIP_HDR_TO) as [E|_].
  { rewrite E in Hv. destruct (taddr_decode _ _) as [[a|]|] eqn:Ea; try done. intros [= <-]. destruct (taddr_decode_val _ _ _ Ea) as [Ev Hx]. destruct K. split; cbn; try done. rewrite Ev. by intros v [= <-]. }
  destruct (Z.eqb_spec (hdr_id hdr) SIP_HDR_FROM) as [E|_].
  { rewrite E in Hv. destruct (taddr_decode _ _) as [[a|]|] eqn:Ea; try done. intros [= <-]. destruct (taddr_decode_val _ _ _ Ea) as [Ev Hx]. destruct K. split; cbn; try done. rewrite Ev. by intros v [= <-]. }
  destruct (Z.eqb_spec (hdr_id hdr) SIP_HDR_CALL_ID) as [E|_]; [rewrite E in Hv; intros [= <-]; destruct K; split; cbn; try done; by intros v [= <-]|].
  destruct (hdr_id hdr =? SIP_HDR_CSEQ); [destruct (sip_cseq_decode _) eqn:Ec; try done; intros [= <-]; destruct K; split; cbn; try done; by eapply cseq_decode_num|].
  destruct (hdr_id hdr =? SIP_HDR_RSEQ); [intros [= <-]; destruct K; by split|]. destruct (hdr_id hdr =? SIP_HDR_RACK); [destruct (sip_rack_decode _); try done; intros [= <-]; destruct K; by split|].
  destruct (hdr_id hdr =? SIP_HDR_MAX_FORWARDS); [intros [= <-]; destruct K; by split|]. destruct (hdr_id hdr =? SIP_HDR_CONTENT_TYPE); [destruct (msg_ctype_decode _); try done; intros [= <-]; destruct K; by split|].
  destruct (hdr_id hdr =? SIP_HDR_CONTENT_LENGTH); [intros [= <-]; destruct K; by split|]. destruct (hdr_id hdr =? SIP_HDR_EXPIRES); intros [= <-]; [destruct K; by split|done].
Qed.

Lemma hdr_parsed m hdr line m' : parsed m -> okv (hdr_comma_separated (hdr_id hdr)) (hdr_val hdr) -> msg_hdr m hdr true line = Some (Ok m') -> parsed m'.
Proof. intros K Hv. unfold msg_hdr. destruct (mem_alloc _); [|done]. apply parse_parsed; [|done]. by apply store_parsed. Qed.

Lemma hdr_whole m hdr line m' : parsed m -> hdr_comma_separated (hdr_id hdr) = true -> msg_hdr m hdr false line = Some (Ok m') -> parsed m'.
Proof. intros K Hv. unfold msg_hdr. destruct (mem_alloc _); [|done]. rewrite parse_comsep by done. intros [= <-]. by apply store_parsed. Qed.

Lemma parse_same m hdr atomic m' : hdr_parse m hdr atomic = Some (Ok m') -> m_met m' = m_met m /\ m_ruri m' = m_ruri m /\ m_req m' = m_req m.
Proof.
  unfold hdr_parse. repeat match goal with |- context [if ?b then _ else _] => destruct b end; repeat match goal with |- context [match ?r with _ => _ end] => destruct r as [[]|] || destruct r end; try done; by intros [= <-].
Qed.
Lemma store_same m hdr atomic line : m_met (hdr_store m hdr atomic line) = m_met m /\ m_ruri (hdr_store m hdr atomic line) = m_ruri m /\ m_req (hdr_store m hdr atomic line) = m_req m.
Proof. unfold hdr_store. by destruct (_ || _), atomic, line. Qed.
Lemma hdr_same m hdr atomic line m' : msg_hdr m hdr atomic line = Some (Ok m') -> m_met m' = m_met m /\ m_ruri m' = m_ruri m /\ m_req m' = m_req m.
Proof.
  unfold msg_hdr. destruct (mem_alloc _); [|done]. intros Hp. destruct (parse_same _ _ _ _ Hp) as (-> & -> & ->). apply store_same.
Qed.

(** [m'] was made from [m] by adding headers. *)
Definition grown (m m' : sip_msg) : Prop := (parsed m -> parsed m') /\ m_met m' = m_met m /\ m_ruri m' = m_ruri m /\ m_req m' = m_req m.

Lemma grown_trans m1 m2 m3 : grown m1 m2 -> grown m2 m3 -> grown m1 m3.
Proof. intros (A1 & A2 & A3 & A4) (B1 & B2 & B3 & B4). split_and!; [auto|congruence..]. Qed.

Lemma values_grown name id vs : Forall (okv (hdr_comma_separated id)) vs -> forall m m', msg_values name id m vs = Some (Ok m') -> grown m m'.
Proof.
  induction 1 as [|v vs Hv Hvs IH]; intros m m'; cbn [msg_values]; [intros [= <-]; by split|]. destruct (msg_hdr m _ true false) as [[m1|]|] eqn:E; try done. cbn [andthen]. intros E'.
  apply (grown_trans _ m1); [|by apply IH]. split; [intros K; by eapply hdr_parsed; [exact K| |exact E]|by eapply hdr_same].
Qed.

Definition line_bytes (l : line) : Prop := bytes (ln_first l) /\ forall g1 g2 u, In (g1, g2, u) (ln_more l) -> bytes u.

Lemma line_values l : line_ok char_signed l -> line_bytes l -> Forall (okv (hdr_comma_separated (ln_id char_signed l))) (ln_first l :: map snd (ln_more l)).
Proof.
  intros K [Hb1 Hb2]. constructor; [by split; [apply K|]|]. apply List.Forall_forall. intros u Hu. apply in_map_iff in Hu as ([[g1 g2] u'] & <- & Hin). cbn [snd].
  destruct (lok_more _ _ K _ _ _ Hin) as (_ & _ & Hc). split; [done|by eapply Hb2].
Qed.

Lemma line_grown m l m' : line_ok char_signed l -> line_bytes l -> msg_add char_signed m l = Some (Ok m') -> grown m m'.
Proof.
  intros K Hb. pose proof (line_values l K Hb) as Hv. unfold msg_add. destruct (ln_more l) as [|g more] eqn:Em.
  - intros E. apply Forall_inv in Hv. split; [intros Kp; by eapply hdr_parsed; [exact Kp| |exact E]|by eapply hdr_same].
  - destruct (lok_sep _ _ K) as [Hc _]; [by rewrite Em|]. destruct (msg_values _ _ _ _) as [[m1|]|] eqn:E1; try done. cbn [andthen]. intros E2. apply (grown_trans _ m1); [by eapply values_grown|].
    split; [intros Kp; by eapply hdr_whole; [exact Kp| |exact E2]|by eapply hdr_same].
Qed.

Lemma lines_grown ls : Forall (line_ok char_signed) ls -> Forall line_bytes ls -> forall m m', msg_lines char_signed m ls = Some (Ok m') -> grown m m'.
Proof.
  induction 1 as [|l ls K Ks IH]; intros Hb m m'; cbn [msg_lines]; [intros [= <-]; by split|]. apply Forall_cons in Hb as [Hb Hbs]. destruct (msg_add _ m l) as [[m1|]|] eqn:E; try done. cbn [andthen]. intros E'.
  apply (grown_trans _ m1); [by eapply line_grown|by apply IH].
Qed.

Lemma start_parsed x y z tag m : start_line x y z tag = Ok m -> parsed m.
Proof.
  unfold start_line. destruct (_ =? 0); [destruct (uri_decode _); [|done]|destruct (_ =? 0); [done|]]; intros [= <-]; split; cbn; try done; lia.
Qed.

(** The bytes of a line are among those of the text. *)
Lemma text_line_bytes x y z ls body : bytes (msg_text x y z ls body) -> Forall line_bytes ls.
Proof.
  unfold msg_text. rewrite !bytes_app. intros (_ & Hb & _). induction ls as [|l ls IH]; [constructor|]. cbn [map concat] in Hb. apply bytes_app in Hb as [Hl Hls]. constructor; [|by apply IH].
  unfold line_text, ln_value in Hl. rewrite !bytes_app in Hl. destruct Hl as (_ & _ & _ & [Hf Hm] & _). split; [done|]. intros g1 g2 u Hin. clear -Hm Hin. induction (ln_more l) as [|g more IH]; [done|].
  cbn [map concat] in Hm. apply bytes_app in Hm as [Hg Hm]. destruct Hin as [->|Hin]; [|by apply IH]. unfold more_text in Hg. rewrite !bytes_app in Hg. tauto.
Qed.
End Parsed.

(** ** The copy of a request *)

Definition hline (name : String.string) (v : list Z) : line := Line (chars name) [32] v [] [].

Lemma hline_text name v : line_text (hline name v) = hdr_text name v.
Proof. unfold line_text, hline, ln_value, hdr_text. cbn. by rewrite !app_nil_r, <- !app_assoc. Qed.

(** The values of the Route headers. *)
Definition route_values (req : sip_msg) : list (list Z) := map hdr_val (List.filter (fun h => hdr_id h =? SIP_HDR_ROUTE) (hdr_bucket req SIP_HDR_ROUTE)).

Definition copy_lines (via to from callid : list Z) (num : Z) (routes : list (list Z)) (met : list Z) (software : option (list Z)) : list line :=
  [hline "Via" via; hline "Max-Forwards" (chars "70")] ++ map (hline "Route") routes ++
  [hline "To" to; hline "From" from; hline "Call-ID" callid; hline "CSeq" (dec_str num ++ [32] ++ met)] ++
  (match software with Some sw => [hline "User-Agent" sw] | None => [] end) ++ [hline "Content-Length" (chars "0")].

Section Copy.
Context `{H : Host} `{P : Platform} (Ham : ample_memory).

Lemma appends_eq f d e : appends f d -> d = e -> appends f e.
Proof. by intros Hf <-. Qed.

Lemma routes_write (l : list sip_hdr) : (forall h, In h l -> hdr_id h = SIP_HDR_ROUTE -> bytes (hdr_val h)) -> forall mb c,
  let d := concat (map (fun h => hdr_text "Route" (hdr_val h)) (List.filter (fun h => hdr_id h =? SIP_HDR_ROUTE) l)) in
  holds mb c (zlength c) -> zlength c + zlength d < 2 ^ 31 ->
  exists mb', hdr_apply (fun hdr => negb (hdr_id hdr =? SIP_HDR_ROUTE)) (Some route_handler) l (Some mb) = (None, Some mb') /\ holds mb' (c ++ d) (zlength (c ++ d)).
Proof.
  induction l as [|h l IH]; intros Hb mb c d Hh Hl; [exists mb; change d with (@nil Z); by rewrite app_nil_r|]. unfold d in *. cbn [hdr_apply List.filter] in *.
  destruct (Z.eqb_spec (hdr_id h) SIP_HDR_ROUTE) as [E|E]; cbn [negb]; [|apply IH; [intros h' Hin; apply Hb; by right|done|done]]. cbn [map concat] in Hl |- *. rewrite zlength_app in Hl.
  match type of Hl with _ + (_ + zlength ?x) < _ => pose proof (zlength_nonneg x) end.
  destruct (appends_pl Ham "Route" (chars "Route: %r" ++ crlf) (hdr_val h)) with (mb := mb) (c := c) as (mb1 & E1 & H1); [by intros p|apply Hb; [by left|done]|done|lia|].
  unfold route_handler at 1. rewrite E1. cbn [Z.eqb negb]. destruct (IH (fun h' Hin => Hb h' (or_intror Hin)) mb1 _ H1) as (mb2 & -> & H2); [rewrite zlength_app; lia|]. exists mb2. split; [done|]. by rewrite app_assoc.
Qed.

Lemma routes_append req : (forall h, In h (m_hdrht req) -> hdr_id h = SIP_HDR_ROUTE -> bytes (hdr_val h)) -> appends (routes req) (concat (map line_text (map (hline "Route") (route_values req)))).
Proof.
  intros Hb mb c Hh Hl. unfold routes, sip_msg_hdr_apply, route_values in *. rewrite !map_map in *.
  rewrite (map_ext (fun h => line_text (hline "Route" (hdr_val h))) (fun h => hdr_text "Route" (hdr_val h))) in * by (intros h; apply hline_text).
  destruct (routes_write (hdr_bucket req SIP_HDR_ROUTE)) with (mb := mb) (c := c) as (mb' & -> & H'); [|done|done|by exists mb'].
  intros h Hin. apply Hb. unfold hdr_bucket in Hin. apply filter_In in Hin as [Hin _]. exact Hin.
Qed.

Lemma prints_start met ruri : prints (re_vhprintf (chars "%s %r SIP/2.0" ++ crlf) [PStr (Some met); PPl (Some (Some ruri))]) (met ++ [32] ++ ruri ++ chars " SIP/2.0" ++ crlf).
Proof.
  change (re_vhprintf (chars "%s %r SIP/2.0" ++ crlf) [PStr (Some met); PPl (Some (Some ruri))]) with
    (pcheck (calls (write_padded met 0 32 false [])) (pcheck (Call [32] Ret) (pcheck (calls (write_padded ruri 0 32 false [])) (Call (chars " SIP/2.0" ++ crlf) Ret)))).
  apply prints_check; [apply prints_text|]. apply prints_arg, prints_call.
Qed.

Lemma prints_cseq n met : is_u32 n -> prints (re_vhprintf (chars "CSeq: %u %s" ++ crlf) [PInt n; PStr (Some met)]) (hdr_text "CSeq" (dec_str n ++ [32] ++ met)).
Proof.
  intros Hn. change (re_vhprintf (chars "CSeq: %u %s" ++ crlf) [PInt n; PStr (Some met)]) with
    (pcheck (Call (chars "CSeq: ") Ret) (pcheck (calls (write_padded (local_itoa (u32 n) 10 false) 0 32 false [])) (pcheck (Call [32] Ret) (pcheck (calls (write_padded met 0 32 false [])) (Call crlf Ret))))).
  rewrite (wrap_small 32) by apply Hn. unfold hdr_text. rewrite <- !app_assoc. change (chars "CSeq" ++ [58; 32] ++ ?x) with (chars "CSeq: " ++ x). apply prints_arg. apply prints_arg, prints_call.
Qed.

Lemma copy_append req met resp software ruri via to from callid :
  m_ruri req = Some ruri -> via_val (m_via req) = Some via -> ta_val (match resp with Some r => m_to r | None => m_to req end) = Some to -> ta_val (m_from req) = Some from -> m_callid req = Some callid ->
  is_u32 (cseq_num (m_cseq req)) -> (forall h, In h (m_hdrht req) -> hdr_id h = SIP_HDR_ROUTE -> bytes (hdr_val h)) ->
  bytes met -> bytes ruri -> bytes via -> bytes to -> bytes from -> bytes callid -> (forall sw, software = Some sw -> bytes sw) ->
  appends (copy_text req met resp software) (msg_text met ruri (chars "SIP/2.0") (copy_lines via to from callid (cseq_num (m_cseq req)) (route_values req) met software) []).
Proof.
  intros E1 E2 E3 E4 E5 Hn Hr B1 B2 B3 B4 B5 B6 B7. unfold copy_text. rewrite E1, E2, E4, E5.
  assert (Et : match resp with Some r => ta_val (m_to r) | None => ta_val (m_to req) end = Some to) by (by destruct resp). rewrite Et.
  assert (Hcrlf : bytes crlf) by (apply (bool_decide_unpack _); by vm_compute).
  assert (Bd : bytes (dec_str (cseq_num (m_cseq req)))) by (apply dec_str_spec; unfold is_u32 in Hn; lia). assert (B32 : bytes [32]) by (apply (bool_decide_unpack _); by vm_compute).
  eapply appends_eq.
  { apply appends_or; [apply (appends_run Ham); [apply prints_start|rewrite !bytes_app; split_and!; auto using bytes_chars]|].
    apply appends_or; [apply (appends_pl Ham "Via"); [by intros p|done]|]. apply appends_or; [apply (appends_str Ham); rewrite bytes_app; auto using bytes_chars|].
    apply appends_or; [by apply routes_append|]. apply appends_or; [apply (appends_pl Ham "To"); [by intros p|done]|]. apply appends_or; [apply (appends_pl Ham "From"); [by intros p|done]|].
    apply appends_or; [apply (appends_pl Ham "Call-ID"); [by intros p|done]|]. apply appends_or; [apply (appends_run Ham); [by apply prints_cseq|apply bytes_hdr; rewrite !bytes_app; auto]|].
    apply appends_or; [|apply (appends_str Ham); rewrite !bytes_app; auto using bytes_chars].
    instantiate (1 := match software with Some sw => hdr_text "User-Agent" sw | None => [] end). destruct software as [sw|]; [apply (appends_sw Ham "User-Agent"); [by intros p|by apply B7]|apply appends_skip]. }
  unfold msg_text, copy_lines. rewrite !map_app, !concat_app. cbn [map concat]. rewrite !hline_text. destruct software as [sw|]; cbn [map concat]; rewrite ?hline_text; unfold hdr_text, crlf; rewrite ?app_nil_r, <- ?app_assoc; done.
Qed.
End Copy.

(** ** Decoding the lines *)

Section Back.
Context `{H : Host} `{P : Platform} `{R : Resolver} (Ham : ample_memory) (char_signed : bool).

Definition nospace (s : list Z) : bool := word [32; HT; CR; LF] s.

Lemma dec_nonempty n : 0 <= n < 2 ^ 64 -> 0 < zlength (dec_str n).
Proof.
  intros Hn. destruct (Z.eq_dec n 0) as [->|]; [by vm_compute|]. destruct (dec_str_spec n Hn) as (_ & _ & Hv). destruct (dec_str n) as [|c t]; [by cbn in Hv; lia|]. rewrite zlength_cons. pose proof (zlength_nonneg t). lia.
Qed.

Lemma cseq_back n met : is_u32 n -> nospace met = true -> 0 < zlength met < 2 ^ 31 -> sip_cseq_decode (Some (dec_str n ++ [32] ++ met)) = Ok (SipCseq (Some met) n).
Proof.
  intros Hn Hm Hl. unfold is_u32 in Hn. destruct (dec_str_spec n ltac:(lia)) as (_ & Hd & Hv). destruct (itoa_chars n) as [_ Hdl]. unfold sip_cseq_decode, regex.
  pose proof (dec_nonempty n ltac:(lia)) as Hne.
  rewrite (regex_compiled _ _ t_cseq) by (by vm_compute). erewrite search_first; [|unfold t_cseq|by destruct (dec_str n)].
  2: { rewrite exec_class; [|rewrite forallb_forall in Hd |- *; intros c Hc; specialize (Hd c Hc); unfold is_digit in Hd; unfold cls, expr_match, tolower; cbn [existsb fst snd]; destruct (_ && (c <=? 90)) eqn:?; lia|done|unfold any; lia|done].
    unfold c_ws. rewrite exec_class; [|done| |unfold any; change (zlength [32]) with 1; lia|done].
    - rewrite <- (app_nil_r met) at 1. unfold c_word. rewrite exec_none by (done || lia). cbn [exec app]. reflexivity.
    - destruct met as [|c t]; [done|]. unfold ends. unfold nospace, word in Hm. cbn [forallb] in Hm. apply andb_prop in Hm as [Hc _]. rewrite <- (cls_none [32; HT; CR; LF] c) in Hc by done.
      unfold cls, expr_match in Hc |- *. by destruct (existsb _ _). }
  cbn [map]. repeat f_equal. apply itoa_back; [by left|lia|lia].
Qed.

(** The parts of a message that decide where it belongs. *)
Record keyed (m : sip_msg) (met ruri : list Z) (via : sip_via) (to from callid : pl) (cseq : sip_cseq) : Prop := {
  ky_met : m_met m = Some met;
  ky_ruri : m_ruri m = Some ruri;
  ky_via : m_via m = via;
  ky_to : ta_val (m_to m) = to;
  ky_from : ta_val (m_from m) = from;
  ky_callid : m_callid m = callid;
  ky_cseq : m_cseq m = cseq;
}.

Lemma store_keyed m hdr met ruri via to from callid cseq : keyed m met ruri via to from callid cseq -> keyed (hdr_store m hdr true true) met ruri via to from callid cseq.
Proof. intros []. unfold hdr_store. destruct (_ || _); by split. Qed.

Lemma add_hline m name v : msg_add char_signed m (hline name v)
  = let hdr := SipHdr (chars name) v (hdr_hash char_signed (chars name)) in hdr_parse (hdr_store m hdr true true) hdr true.
Proof. unfold msg_add, hline, msg_hdr. cbn [ln_more ln_name ln_first]. destruct (mem_alloc_ample Ham SIP_HDR_STRUCT) as [b ->]; [done|]. done. Qed.

Lemma add_via m met ruri to from callid cseq v via : keyed m met ruri via0 to from callid cseq -> sip_via_decode (Some v) = Some (Ok via) ->
  exists m', msg_add char_signed m (hline "Via" v) = Some (Ok m') /\ keyed m' met ruri via to from callid cseq.
Proof.
  intros K Hv. rewrite add_hline. cbn zeta. assert (E : hdr_hash char_signed (chars "Via") = SIP_HDR_VIA) by (by destruct char_signed; vm_compute). rewrite E. set (hdr := SipHdr _ _ _).
  apply (store_keyed m hdr) in K. set (m1 := hdr_store m hdr true true) in *. unfold hdr_parse. change (hdr_id hdr =? SIP_HDR_VIA) with true. change (hdr_val hdr) with v. cbn iota.
  rewrite (ky_via _ _ _ _ _ _ _ _ K), Hv. eexists. split; [reflexivity|]. destruct K. by split.
Qed.

(** Headers that are only stored or whose value is not looked at. *)
Lemma add_other m name v met ruri via to from callid cseq : keyed m met ruri via to from callid cseq ->
  In name ["Max-Forwards"; "Route"; "User-Agent"; "Server"; "Content-Length"; "Record-Route"]%string ->
  exists m', msg_add char_signed m (hline name v) = Some (Ok m') /\ keyed m' met ruri via to from callid cseq.
Proof.
  intros K Hin. rewrite add_hline. cbn zeta.
  assert (E : forall id, hdr_hash char_signed (chars name) = id -> exists m', hdr_parse (hdr_store m (SipHdr (chars name) v id) true true) (SipHdr (chars name) v id) true = Some (Ok m') /\ keyed m' met ruri via to from callid cseq).
  { intros id <-. set (hdr := SipHdr _ _ _). apply (store_keyed m hdr) in K. set (m1 := hdr_store m hdr true true) in *. unfold hdr_parse.
    cbn [In] in Hin. destruct Hin as [<-|[<-|[<-|[<-|[<-|[<-|[]]]]]]];
    match goal with hdr := SipHdr (chars ?n) _ _ |- _ => let i := eval vm_compute in (hdr_hash true (chars n)) in assert (E : hdr_id hdr = i) by (by destruct char_signed; vm_compute) end;
    rewrite E; repeat match goal with |- context [if ?b then _ else _] => let x := eval vm_compute in b in match x with true => idtac | false => idtac end; change b with x; cbn iota end;
    (eexists; split; [reflexivity|]); destruct K; by split. }
  by apply E.
Qed.

Lemma addr_back old v a : sip_addr_decode (Some v) = Ok a -> exists ta, taddr_decode old (Some v) = Some (Ok ta) /\ ta_val ta = Some v.
Proof.
  intros E. unfold taddr_decode. rewrite E. pose proof (param_fine (addr_params a) (chars "tag") ltac:(cbn; tauto)) as Hp. destruct (msg_param_decode (addr_params a) (chars "tag")) as [t|]; [|done]. by eexists.
Qed.

Lemma add_to m met ruri via to from callid cseq v a : keyed m met ruri via to from callid cseq -> sip_addr_decode (Some v) = Ok a ->
  exists m', msg_add char_signed m (hline "To" v) = Some (Ok m') /\ keyed m' met ruri via (Some v) from callid cseq.
Proof.
  intros K Hv. rewrite add_hline. cbn zeta. assert (E : hdr_hash char_signed (chars "To") = SIP_HDR_TO) by (by destruct char_signed; vm_compute). rewrite E. set (hdr := SipHdr _ _ _).
  apply (store_keyed m hdr) in K. set (m1 := hdr_store m hdr true true) in *. unfold hdr_parse. change (hdr_id hdr) with SIP_HDR_TO. change (hdr_val hdr) with v.
  change (SIP_HDR_TO =? SIP_HDR_VIA) with false. change (SIP_HDR_TO =? SIP_HDR_TO) with true. cbn iota. destruct (addr_back (m_to m1) v a Hv) as (ta & -> & Ht). eexists. split; [reflexivity|]. destruct K. by split.
Qed.

Lemma add_from m met ruri via to from callid cseq v a : keyed m met ruri via to from callid cseq -> sip_addr_decode (Some v) = Ok a ->
  exists m', msg_add char_signed m (hline "From" v) = Some (Ok m') /\ keyed m' met ruri via to (Some v) callid cseq.
Proof.
  intros K Hv. rewrite add_hline. cbn zeta. assert (E : hdr_hash char_signed (chars "From") = SIP_HDR_FROM) by (by destruct char_signed; vm_compute). rewrite E. set (hdr := SipHdr _ _ _).
  apply (store_keyed m hdr) in K. set (m1 := hdr_store m hdr true true) in *. unfold hdr_parse. change (hdr_id hdr) with SIP_HDR_FROM. change (hdr_val hdr) with v.
  change (SIP_HDR_FROM =? SIP_HDR_VIA) with false. change (SIP_HDR_FROM =? SIP_HDR_TO) with false. change (SIP_HDR_FROM =? SIP_HDR_FROM) with true. cbn iota.
  destruct (addr_back (m_from m1) v a Hv) as (ta & -> & Ht). eexists. split; [reflexivity|]. destruct K. by split.
Qed.

Lemma add_callid m met ruri via to from callid cseq v : keyed m met ruri via to from callid cseq ->
  exists m', msg_add char_signed m (hline "Call-ID" v) = Some (Ok m') /\ keyed m' met ruri via to from (Some v) cseq.
Proof.
  intros K. rewrite add_hline. cbn zeta. assert (E : hdr_hash char_signed (chars "Call-ID") = SIP_HDR_CALL_ID) by (by destruct char_signed; vm_compute). rewrite E. set (hdr := SipHdr _ _ _).
  apply (store_keyed m hdr) in K. set (m1 := hdr_store m hdr true true) in *. exists (set_callid (Some v) m1). split; [reflexivity|]. destruct K. by split.
Qed.

Lemma add_cseq m met ruri via to from callid cseq v c : keyed m met ruri via to from callid cseq -> sip_cseq_decode (Some v) = Ok c ->
  exists m', msg_add char_signed m (hline "CSeq" v) = Some (Ok m') /\ keyed m' met ruri via to from callid c.
Proof.
  intros K Hv. rewrite add_hline. cbn zeta. assert (E : hdr_hash char_signed (chars "CSeq") = SIP_HDR_CSEQ) by (by destruct char_signed; vm_compute). rewrite E. set (hdr := SipHdr _ _ _).
  apply (store_keyed m hdr) in K. set (m1 := hdr_store m hdr true true) in *. exists (set_cseq c m1). split; [|destruct K; by split].
  change (match sip_cseq_decode (Some v) with Ok c => Some (Ok (set_cseq c m1)) | Err e => Some (Err e) end = Some (Ok (set_cseq c m1))). by rewrite Hv.
Qed.

Lemma hline_ok name v : forallb (fun c => negb (blank c || eol c || (c =? ch ":"))) (chars name) = true -> chars name <> [] ->
  core_ok (hdr_comma_separated (hdr_hash char_signed (chars name))) v = true -> line_ok char_signed (hline name v).
Proof.
  intros Hn Hne Hv. split; cbn [ln_name ln_lead ln_first ln_more ln_trail hline]; try done. split; [done|]. destruct (chars name) as [|c t]; [done|]. rewrite zlength_cons. pose proof (zlength_nonneg t). lia.
Qed.

(** The headers the library prints. *)
Lemma known_line name b v : In (name, b) [("Via", true); ("Route", true); ("Record-Route", true); ("Max-Forwards", false); ("To", false); ("From", false); ("Call-ID", false); ("CSeq", false); ("User-Agent", false); ("Server", false); ("Content-Length", false)]%string ->
  core_ok b v = true -> line_ok char_signed (hline name v).
Proof.
  intros Hin Hv. cbn [In] in Hin. repeat match type of Hin with _ \/ _ => destruct Hin as [[= <- <-]|Hin] end; try done;
    (apply hline_ok; [by vm_compute|done|]; match goal with |- core_ok (hdr_comma_separated (hdr_hash _ ?n)) _ = _ => assert (E : hdr_comma_separated (hdr_hash char_signed n) = hdr_comma_separated (hdr_hash true n)) by (by destruct char_signed; vm_compute); rewrite E; exact Hv end).
Qed.

Lemma bare_single u : forall q, bare false q u = true.
Proof. induction u as [|c u IH]; intros q; [done|]. cbn [bare]. by rewrite andb_false_r, IH. Qed.

Lemma nospace_chars u c : nospace u = true -> In c u -> blank c = false /\ eol c = false.
Proof.
  unfold nospace, word. rewrite forallb_forall. intros Hu Hc. specialize (Hu c Hc). cbn [existsb] in Hu. unfold blank, eol. by destruct (c =? 32), (c =? HT), (c =? CR), (c =? LF).
Qed.

Lemma digits_nospace n : 0 <= n < 2 ^ 64 -> nospace (dec_str n) = true.
Proof.
  intros Hn. destruct (dec_str_spec n Hn) as (_ & Hd & _). unfold nospace, word. rewrite forallb_forall in Hd |- *. intros c Hc. specialize (Hd c Hc). unfold is_digit in Hd. cbn [existsb]. unfold HT, CR, LF. lia.
Qed.

Lemma cseq_core n met : is_u32 n -> nospace met = true -> 0 < zlength met -> core_ok false (dec_str n ++ [32] ++ met) = true.
Proof.
  intros Hn Hm Hl. unfold is_u32 in Hn. pose proof (digits_nospace n ltac:(lia)) as Hd. unfold core_ok. rewrite bare_single, andb_true_r. apply andb_true_intro. split.
  - apply unfolded. rewrite !forallb_app. cbn [forallb]. apply andb_true_intro. split; [|apply andb_true_intro; split; [done|]]; apply forallb_forall; intros c Hc; [by rewrite (proj2 (nospace_chars _ _ Hd Hc))|by rewrite (proj2 (nospace_chars _ _ Hm Hc))].
  - assert (Hne : met <> []) by (intros ->; by change (zlength (@nil Z)) with 0 in Hl). destruct (exists_last Hne) as (t & x & ->). rewrite !app_assoc, List.last_last.
    assert (Hx : space x = false) by (unfold space; destruct (nospace_chars _ x Hm) as [-> ->]; [rewrite in_app_iff; right; by left|done]). rewrite Hx.
    pose proof (dec_nonempty n ltac:(lia)) as Hne'. destruct (dec_str n) as [|c d] eqn:Ed; [by change (zlength (@nil Z)) with 0 in Hne'|]. cbn [app]. unfold space. by destruct (nospace_chars _ c Hd (or_introl eq_refl)) as [-> ->].
Qed.

(** *** The whole message *)

Record copy_ok (ruri via to from callid : list Z) (num : Z) (routes : list (list Z)) (met : list Z) (software : option (list Z)) (v : sip_via) : Prop := {
  co_met : nospace met = true /\ 0 < zlength met < 2 ^ 31;
  co_ruri : nospace ruri = true /\ 0 < zlength ruri /\ exists u, uri_decode (Some ruri) = Ok u;
  co_via : core_ok true via = true /\ sip_via_decode (Some via) = Some (Ok v);
  co_to : core_ok false to = true /\ exists a, sip_addr_decode (Some to) = Ok a;
  co_from : core_ok false from = true /\ exists a, sip_addr_decode (Some from) = Ok a;
  co_callid : core_ok false callid = true;
  co_num : is_u32 num;
  co_routes : Forall (fun r => core_ok true r = true) routes;
  co_software : forall sw, software = Some sw -> core_ok false sw = true;
}.

Lemma copy_lines_ok ruri via to from callid num routes met software v : copy_ok ruri via to from callid num routes met software v ->
  Forall (line_ok char_signed) (copy_lines via to from callid num routes met software).
Proof.
  intros []. unfold copy_lines. rewrite !Forall_app. split_and!.
  - apply Forall_cons; split; [apply (known_line "Via" true); [cbn; tauto|tauto]|]. apply Forall_singleton, (known_line "Max-Forwards" false); [cbn; tauto|done].
  - apply List.Forall_map. eapply Forall_impl; [exact co_routes0|]. intros r Hr. apply (known_line "Route" true); [cbn; tauto|done].
  - apply Forall_cons; split; [apply (known_line "To" false); [cbn; tauto|tauto]|]. apply Forall_cons; split; [apply (known_line "From" false); [cbn; tauto|tauto]|].
    apply Forall_cons; split; [apply (known_line "Call-ID" false); [cbn; tauto|done]|]. apply Forall_singleton, (known_line "CSeq" false); [cbn; tauto|]. apply cseq_core; [done|tauto|lia].
  - destruct software as [sw|]; [|constructor]. apply Forall_singleton, (known_line "User-Agent" false); [cbn; tauto|by apply co_software0].
  - apply Forall_singleton, (known_line "Content-Length" false); [cbn; tauto|done].
Qed.

Lemma routes_keyed routes ls met ruri via to from callid cseq : forall m, keyed m met ruri via to from callid cseq ->
  exists m', msg_lines char_signed m (map (hline "Route") routes ++ ls) = msg_lines char_signed m' ls /\ keyed m' met ruri via to from callid cseq.
Proof.
  induction routes as [|r routes IH]; intros m K; [by exists m|]. cbn [map app msg_lines]. destruct (add_other m "Route" r _ _ _ _ _ _ _ K) as (m1 & -> & K1); [cbn; tauto|]. cbn [andthen]. by apply IH.
Qed.

Lemma copy_decoded tag ruri via to from callid num routes met software v : copy_ok ruri via to from callid num routes met software v ->
  zlength (msg_text met ruri (chars "SIP/2.0") (copy_lines via to from callid num routes met software) []) < 2 ^ 31 ->
  exists m, decode_text char_signed tag (msg_text met ruri (chars "SIP/2.0") (copy_lines via to from callid num routes met software) []) = Some (Ok (m, 0))
    /\ keyed m met ruri v (Some to) (Some from) (Some callid) (SipCseq (Some met) num).
Proof.
  intros K Hl. pose proof (copy_lines_ok _ _ _ _ _ _ _ _ _ _ K) as Hls. destruct K as [[Hm1 Hm2] (Hr1 & Hr2 & u & Hu) [_ Hv] [_ [a Ha]] [_ [b Hb]] _ Hn _ _]. unfold nospace in *.
  rewrite decode_lines by (done || lia). unfold msg_alloc. destruct (mem_alloc_ample Ham SIP_MSG_STRUCT) as [? ->]; [done|]. destruct (mem_alloc_ample Ham HASH_STRUCT) as [? ->]; [done|].
  destruct (mem_alloc_ample Ham (hash_valid_size HDR_HASH_SIZE * LIST_STRUCT)) as [? ->]; [by vm_compute|]. cbn [andthen]. unfold start_line. change (pl_strcmp (Some (chars "SIP/2.0")) (chars "SIP/2.0") =? 0) with true.
  cbn iota. rewrite Hu. cbn [andthen]. set (m0 := SipMsg _ _ _ _ _ _ _ _ _ _ _ _ _ _ _ _ _ _ _ _ _ _ _).
  assert (K0 : keyed m0 met ruri via0 None None None (SipCseq None 0)) by (by split). clearbody m0. unfold copy_lines. cbn [app msg_lines].
  destruct (add_via _ _ _ _ _ _ _ via v K0 Hv) as (m1 & -> & K1). cbn [andthen]. destruct (add_other m1 "Max-Forwards" (chars "70") _ _ _ _ _ _ _ K1) as (m2 & -> & K2); [cbn; tauto|]. cbn [andthen].
  destruct (routes_keyed routes ([hline "To" to; hline "From" from; hline "Call-ID" callid; hline "CSeq" (dec_str num ++ [32] ++ met)] ++ (match software with Some sw => [hline "User-Agent" sw] | None => [] end) ++ [hline "Content-Length" (chars "0")]) _ _ _ _ _ _ _ m2 K2) as (m3 & E3 & K3).
  cbn [app] in E3 |- *. rewrite E3. cbn [msg_lines]. destruct (add_to _ _ _ _ _ _ _ _ to a K3 Ha) as (m4 & -> & K4). cbn [andthen]. destruct (add_from _ _ _ _ _ _ _ _ from b K4 Hb) as (m5 & -> & K5). cbn [andthen].
  destruct (add_callid _ _ _ _ _ _ _ _ callid K5) as (m6 & -> & K6). cbn [andthen].
  destruct (add_cseq _ _ _ _ _ _ _ _ _ _ K6 (cseq_back num met Hn Hm1 Hm2)) as (m7 & E7 & K7). cbn [app] in E7. rewrite E7. cbn [andthen].
  assert (Hend : forall m, keyed m met ruri v (Some to) (Some from) (Some callid) (SipCseq (Some met) num) ->
    exists m', msg_lines char_signed m [hline "Content-Length" (chars "0")] = Some (Ok m') /\ keyed m' met ruri v (Some to) (Some from) (Some callid) (SipCseq (Some met) num)).
  { intros m K. cbn [msg_lines]. destruct (add_other m "Content-Length" (chars "0") _ _ _ _ _ _ _ K) as (m' & -> & K'); [cbn; tauto|]. by exists m'. }
  destruct software as [sw|]; cbn [app msg_lines].
  - destruct (add_other m7 "User-Agent" sw _ _ _ _ _ _ _ K7) as (m8 & -> & K8); [cbn; tauto|]. cbn [andthen]. destruct (Hend m8 K8) as (m9 & E9 & K9). cbn [msg_lines] in E9. rewrite E9. by exists m9.
  - destruct (Hend m7 K7) as (m9 & E9 & K9). cbn [msg_lines] in E9. rewrite E9. by exists m9.
Qed.
End Back.

(** ** A rejected call *)

Section Reject.
Context `{H : Host} `{P : Platform} `{R : Resolver} (char_signed : bool).

(** [m] is what the decoder makes of a text with this start line. *)
Definition from_lines (x y z : list Z) (m : sip_msg) : Prop :=
  exists tag ls body, bytes (msg_text x y z ls body) /\ zlength (msg_text x y z ls body) < 2 ^ 31 /\ nospace x = true /\ nospace y = true /\ word [CR; LF] z = true /\ 0 < zlength x /\ 0 < zlength y
    /\ Forall (line_ok char_signed) ls /\ ls <> [] /\ decode_text char_signed tag (msg_text x y z ls body) = Some (Ok (m, zlength body)).

Lemma from_lines_parsed x y z m : from_lines x y z m -> parsed m.
Proof.
  intros (tag & ls & body & Hb & Hl & Hx & Hy & Hz & Lx & Ly & Hls & Hne & E). rewrite decode_lines in E by done. destruct msg_alloc as [[]|]; try done. cbn [andthen] in E.
  destruct (start_line x y z tag) as [m0|] eqn:E0; [|done]. cbn [andthen] in E. destruct (msg_lines char_signed m0 ls) as [[m1|]|] eqn:E1; try done. cbn [andthen] in E. injection E as <-.
  apply (lines_grown char_signed ls Hls (text_line_bytes _ _ _ _ _ Hb) _ _ E1). by eapply start_parsed.
Qed.

Lemma from_lines_request met ruri m : from_lines met ruri (chars "SIP/2.0") m ->
  m_met m = Some met /\ m_ruri m = Some ruri /\ nospace ruri = true /\ 0 < zlength ruri /\ bytes ruri /\ exists u, uri_decode (Some ruri) = Ok u.
Proof.
  intros (tag & ls & body & Hb & Hl & Hx & Hy & Hz & Lx & Ly & Hls & Hne & E). rewrite decode_lines in E by done. destruct msg_alloc as [[]|]; try done. cbn [andthen] in E.
  destruct (start_line met ruri (chars "SIP/2.0") tag) as [m0|] eqn:E0; [|done]. cbn [andthen] in E. destruct (msg_lines char_signed m0 ls) as [[m1|]|] eqn:E1; try done. cbn [andthen] in E. injection E as <-.
  destruct (lines_grown char_signed ls Hls (text_line_bytes _ _ _ _ _ Hb) _ _ E1) as (_ & -> & -> & _). unfold start_line in E0. change (pl_strcmp (Some (chars "SIP/2.0")) (chars "SIP/2.0") =? 0) with true in E0. cbn iota in E0.
  destruct (uri_decode (Some ruri)) as [u|]; [|done]. injection E0 as <-. unfold msg_text in Hb. rewrite !bytes_app in Hb. split_and!; try done; [tauto|by exists u].
Qed.

(** The request has the headers every request must have. *)
Definition mandatory (m : sip_msg) : Prop := pl_isset (via_sentby (m_via m)) = true /\ is_Some (ta_val (m_to m)) /\ is_Some (ta_val (m_from m)) /\ is_Some (m_callid m).

(** The text of a copy of [req], with the To header of the response. *)
Definition copy_message (req : sip_msg) (met : list Z) (to : pl) (software : option (list Z)) : list Z :=
  msg_text met (pl_str (m_ruri req)) (chars "SIP/2.0")
    (copy_lines (pl_str (via_val (m_via req))) (pl_str to) (pl_str (ta_val (m_from req))) (pl_str (m_callid req)) (cseq_num (m_cseq req)) (route_values req) met software) [].

(** The request of a transaction, decoded where this was not done before. *)
Definition request_of (tag : Z) (ct : sip_ctrans) : option (res sip_msg) :=
  match ct_req ct with
  | Some req => Some (Ok req)
  | None => match sip_msg_decode char_signed tag (ct_mb ct) with Some (Ok (req, _)) => Some (Ok req) | Some (Err e) => Some (Err e) | None => None end
  end.

Lemma route_ok req : parsed req -> Forall (fun r => core_ok true r = true) (route_values req) /\ (forall h, In h (m_hdrht req) -> hdr_id h = SIP_HDR_ROUTE -> bytes (hdr_val h)).
Proof.
  intros K. split; [|intros h Hin Hid; by apply (pd_route _ K)]. unfold route_values. apply List.Forall_map, List.Forall_forall. intros h Hin. apply filter_In in Hin as [Hin Hid]. apply Z.eqb_eq in Hid.
  unfold hdr_bucket in Hin. apply filter_In in Hin as [Hin _]. by apply (pd_route _ K).
Qed.

Lemma unread_holds mb c p : holds mb c p -> unread mb = zdrop p c.
Proof.
  intros Hh. pose proof (holds_range _ _ _ Hh) as Hr. unfold unread. rewrite (holds_get_left _ _ _ Hh). unfold mbuf_buf. rewrite (holds_pos _ _ _ Hh). change (mb_slice mb p (zlength c - p) = zdrop p c).
  rewrite (holds_slice _ _ _ _ _ Hh) by lia. apply ztake_ge. rewrite zlength_zdrop by lia. lia.
Qed.

(** The copy is printed, and whoever decodes it sees the request again. *)
Lemma copy_wire (Ham : ample_memory) tag ct req ruri met0 met resp to software :
  request_of tag ct = Some (Ok req) -> from_lines met0 ruri (chars "SIP/2.0") req -> mandatory req ->
  ta_val (match resp with Some r => m_to r | None => m_to req end) = Some to -> okv false to -> (exists a, sip_addr_decode (Some to) = Ok a) ->
  nospace met = true -> 0 < zlength met < 2 ^ 31 -> bytes met -> (forall sw, software = Some sw -> okv false sw) -> zlength (copy_message req met (Some to) software) < 2 ^ 31 ->
  (exists mb' mb1 req1, (forall ct', ct_req ct' = ct_req ct -> ct_mb ct' = ct_mb ct -> request_copy char_signed tag ct' met resp software = (Some (Ok mb'), set_req mb1 req1 ct')) /\ unread mb' = copy_message req met (Some to) software)
  /\ forall tag2, exists m, decode_text char_signed tag2 (copy_message req met (Some to) software) = Some (Ok (m, 0))
       /\ keyed m met ruri (m_via req) (Some to) (ta_val (m_from req)) (m_callid req) (SipCseq (Some met) (cseq_num (m_cseq req))).
Proof.
  intros Hq Hfl (Hs & [to0 E0] & [from Ef] & [callid Ec]) Et Hto Ha Hm Lm Bm Hsw Hl. pose proof (from_lines_parsed _ _ _ _ Hfl) as K. destruct (from_lines_request _ _ _ Hfl) as (_ & Er & Hr & Lr & Br & Hu).
  destruct (pd_via _ K Hs) as (via & Ev & [Hv Bv] & Dv). destruct (pd_from _ K _ Ef) as [[Hf Bf] Df]. destruct (pd_callid _ K _ Ec) as [Hc Bc]. destruct (route_ok req K) as [Hrt Brt]. pose proof (pd_cseq _ K) as Hn.
  unfold copy_message in *. rewrite Er, Ev, Ef, Ec in *. cbn [pl_str] in *. split.
  - assert (Happ := copy_append Ham req met resp software ruri via to from callid Er Ev Et Ef Ec Hn Brt Bm Br Bv (proj2 Hto) Bf Bc (fun sw E => proj2 (Hsw sw E))).
    destruct (mbuf_alloc_new 1024 Ham) as (mb0 & Ea & H0 & _); [by vm_compute|]. destruct (Happ mb0 [] H0) as (mb1 & Ecopy & H1); [exact Hl|]. cbn [app] in H1.
    assert (Hun : unread (mbuf_set_pos mb1 0) = msg_text met ruri (chars "SIP/2.0") (copy_lines via to from callid (cseq_num (m_cseq req)) (route_values req) met software) []).
    { pose proof (holds_set_pos _ _ _ 0 H1 ltac:(split; [lia|apply zlength_nonneg])) as H2. by rewrite (unread_holds _ _ _ H2), zdrop_0. }
    unfold request_of in Hq. unfold request_copy. destruct (ct_req ct) as [req'|] eqn:Eq.
    + injection Hq as ->. rewrite Ea. exists (mbuf_set_pos mb1 0), (ct_mb ct), (Some req). split; [|done]. intros ct' E1 E2. rewrite E1, Ecopy. cbn [Z.eqb]. f_equal. destruct ct'. cbn in *. by subst.
    + destruct (sip_msg_decode char_signed tag (ct_mb ct)) as [[[r mb2]|]|] eqn:Ed; try done. injection Hq as ->. rewrite Ea. exists (mbuf_set_pos mb1 0), mb2, (Some req). split; [|done]. intros ct' E1 E2. by rewrite E1, E2, Ed, Ecopy.
  - intros tag2. apply (copy_decoded Ham char_signed); [|exact Hl]. destruct Hto. split; try done. intros sw E. by apply Hsw.
Qed.

(** Server transactions are found by the Via header. *)
Lemma ack_lookup req ack srv : m_via ack = m_via req -> lookup_st cmp_ack_handler ack srv = lookup_st cmp_ack_handler req srv.
Proof. intros E. unfold lookup_st, cmp_ack_handler, strans_cmp. by rewrite E. Qed.

(** The transaction of a rejected INVITE: what is sent and what is left. *)
Lemma reject_output (now tag : Z) (rsp : sip_msg) (s : sip) (ct : sip_ctrans) mb1 mb' req1 text :
  lookup_ct char_signed rsp s = Some ct -> ct_invite ct = true -> ct_state ct = CALLING \/ ct_state ct = PROCEEDING -> 300 <= m_scode rsp ->
  (forall ct', ct_req ct' = ct_req ct -> ct_mb ct' = ct_mb ct -> request_copy char_signed tag ct' (chars "ACK") (Some rsp) (s_software s) = (Some (Ok mb'), set_req mb1 req1 ct')) -> unread mb' = text ->
  (response_handler char_signed 0 now tag rsp s).2 = CSend (ct_tp ct) (ct_dst ct) text :: resp ct 0 (Some rsp).
Proof.
  intros El Hi Hst Hsc Hc Hu. unfold response_handler. rewrite El, Hi. unfold invite_response.
  assert (Hgo : forall ct', ct_req ct' = ct_req ct -> ct_mb ct' = ct_mb ct -> ct_tp ct' = ct_tp ct -> ct_dst ct' = ct_dst ct -> resp ct' 0 (Some rsp) = resp ct 0 (Some rsp) ->
    (let '(r, ct0) := request_copy char_signed tag (set_state COMPLETED ct') (chars "ACK") (Some rsp) (s_software s) in
     let ct1 := match r with Some (Ok mb) => set_ack (Some mb) ct0 | _ => ct0 end in
     let o := sip_send 0 (ct_tp ct1) (ct_dst ct1) (ct_mb_ack ct1) ++ resp ct1 0 (Some rsp) in
     if sip_transp_reliable (ct_tp ct1) then (drop_ct (ct_id ct1) s, o) else (put_ct (set_tmr (Some (now + COMPLETE_WAIT)) ct1) s, o)).2 = CSend (ct_tp ct) (ct_dst ct) text :: resp ct 0 (Some rsp)).
  { intros ct' E1 E2 E3 E4 E5. rewrite Hc by done. cbn zeta. cbn [ct_tp ct_dst ct_mb_ack set_ack set_req set_state]. rewrite E3, E4. cbn [sip_send sip_transp_send Z.eqb snd app]. rewrite Hu.
    change (resp (set_ack _ (set_req _ _ (set_state _ ct'))) 0 (Some rsp)) with (resp ct' 0 (Some rsp)). rewrite E5. by destruct (sip_transp_reliable (ct_tp ct)). }
  destruct Hst as [->| ->]; rewrite (proj2 (Z.ltb_ge _ 200)), (proj2 (Z.ltb_ge _ 300)) by lia;
    match goal with |- context [request_copy _ _ (set_state COMPLETED ?c) _ _ _] => specialize (Hgo c eq_refl eq_refl eq_refl eq_refl eq_refl) end; cbv zeta in Hgo |- *;
    destruct (request_copy _ _ _ _ _ _) as [[[|]|] ct0]; destruct (sip_transp_reliable _); exact Hgo.
Qed.

Lemma request_of_same tag ct ct' : ct_req ct' = ct_req ct -> ct_mb ct' = ct_mb ct -> request_of tag ct' = request_of tag ct.
Proof. intros E1 E2. unfold request_of. by rewrite E1, E2. Qed.

(** A rejected call is acknowledged.  When the final response of 300 or more
    to an INVITE reaches its client transaction, the transport is handed an ACK,
    and the response goes to the user.  Whoever decodes that ACK, from whatever
    buffer, gets the request URI, the Via header, From and Call-ID of the INVITE,
    its sequence number with the method ACK, and the To header of the response; and
    the server that holds the transaction of the INVITE takes the ACK for it, without
    telling its users: over a reliable transport the transaction is gone, otherwise it
    stops retransmitting and stays T4 longer. *)
Lemma sip_reject_acknowledged (now tag : Z) (rsp req : sip_msg) (s : sip) (ct : sip_ctrans) (ruri to x y z : list Z) :
  ample_memory -> lookup_ct char_signed rsp s = Some ct -> ct_invite ct = true -> ct_state ct = CALLING \/ ct_state ct = PROCEEDING ->
  request_of tag ct = Some (Ok req) -> from_lines (chars "INVITE") ruri (chars "SIP/2.0") req -> mandatory req ->
  300 <= m_scode rsp -> from_lines x y z rsp -> ta_val (m_to rsp) = Some to ->
  (forall sw, s_software s = Some sw -> okv false sw) -> zlength (copy_message req (chars "ACK") (Some to) (s_software s)) < 2 ^ 31 ->
  exists text, (response_handler char_signed 0 now tag rsp s).2 = CSend (ct_tp ct) (ct_dst ct) text :: resp ct 0 (Some rsp)
    /\ forall tag2 mb2, unread mb2 = text -> exists ack mb3, sip_msg_decode char_signed tag2 mb2 = Some (Ok (ack, mb3))
      /\ keyed ack (chars "ACK") ruri (m_via req) (Some to) (ta_val (m_from req)) (m_callid req) (SipCseq (Some (chars "ACK")) (cseq_num (m_cseq req)))
      /\ forall now2 srv st, lookup_st cmp_ack_handler req srv = Some st -> st_state st = ST_COMPLETED ->
           request_handler 0 now2 ack srv
           = Some (true, (if sip_transp_reliable (m_tp (st_msg st)) then drop_st (st_id st) srv else put_st (st_set_state ST_CONFIRMED (Some (now2 + SIP_T4)) None st) srv), []).
Proof.
  intros Ham El Hi Hst Hq Hfl Hm Hsc Hfr Et Hsw Hl. destruct (pd_to _ (from_lines_parsed _ _ _ _ Hfr) _ Et) as [Hto Ha].
  destruct (copy_wire Ham tag ct req ruri (chars "INVITE") (chars "ACK") (Some rsp) to (s_software s) Hq Hfl Hm Et Hto Ha eq_refl ltac:(by vm_compute) (bytes_chars _) Hsw Hl) as [(mb' & mb1 & req1 & Hc & Hu) Hd].
  exists (copy_message req (chars "ACK") (Some to) (s_software s)). split; [by apply (reject_output now tag rsp s ct mb1 mb' req1)|]. intros tag2 mb2 Emb. destruct (Hd tag2) as (ack & Ed & K).
  exists ack, (mbuf_set_pos mb2 (mb_end mb2 - 0)). split_and!; [unfold sip_msg_decode; fold (unread mb2); by rewrite Emb, Ed|done|].
  intros now2 srv st Els Ess. unfold request_handler, ack_handler. rewrite (ky_met _ _ _ _ _ _ _ _ K), (ack_lookup req ack srv) by apply K. change (pl_strcmp (Some (chars "ACK")) (chars "ACK") =? 0) with true. cbn iota.
  rewrite Els, Ess. by destruct (sip_transp_reliable _).
Qed.
End Reject.
