(* ===== verification/SipReply.v ===== *)
(** * SIP replies on the wire

    A reply is printed from the headers of its request, the first Via header with
    the address the request came from, the To header with a tag.  Whoever decodes
    it finds the branch and the sequence number of the request, so that it reaches
    the client transaction the request was sent by. *)

From stdpp Require Import base list numbers strings.
From Stdlib Require Import ZArith Lia.
From S2P Require Import Prelude Endian Mbuf MbufView Hash Dname DnameSpec Fmt Sa Odict Print Regex Uri UriSpec SipMsg SipMsgSpec SipCtrans SipStrans SipWire.

Open Scope Z_scope.

(** ** Classes with quotes *)

Definition unquoted (t : list Z) : bool := forallb (fun c => negb ((c =? 34) || (c =? 92))) t.

Lemma take_unquoted chrv neg nmax t : forall nm r, unquoted t = true -> forallb (cls chrv neg) t = true -> ends chrv neg r -> match r with c :: _ => (c =? 34) || (c =? 92) = false | [] => True end ->
  nm + zlength t <= nmax -> take_class chrv neg true nm nmax false false (t ++ r) = (t, r).
Proof.
  induction t as [|c t IH]; intros nm r Hq Ht Hr Hr' Hn; cbn [app].
  - destruct r as [|c r]; [done|]. apply orb_false_elim in Hr' as [H1 H2]. cbn [take_class andb]. unfold ends, cls in Hr. rewrite H1, H2, Hr. by destruct (nm <? nmax).
  - cbn [forallb unquoted] in *. apply andb_prop in Ht as [Hc Ht]. unfold unquoted in Hq. cbn [forallb] in Hq. apply andb_prop in Hq as [Hqc Hq]. apply negb_true_iff, orb_false_elim in Hqc as [H1 H2].
    rewrite zlength_cons in Hn. pose proof (zlength_nonneg t). cbn [take_class andb]. rewrite (proj2 (Z.ltb_lt _ _)) by lia. unfold cls in Hc. rewrite H1, H2, Hc, IH by (done || lia). done.
Qed.

Lemma exec_quoted cs nmin l t r frags : forallb plain cs = true -> unquoted t = true -> word cs t = true -> (match r with [] => true | c :: _ => existsb (Z.eqb c) cs && negb ((c =? 34) || (c =? 92)) end) = true ->
  nmin <= zlength t < 2 ^ 32 -> exec (TClass (map same cs) true true nmin any :: l) (t ++ r) frags = exec l r (frags ++ [t]).
Proof.
  intros Hp Hq Ht Hr Hn. cbn [exec]. unfold match_class. rewrite take_unquoted; [|done| | | |unfold any; lia].
  - assert (Hs : stripped true t = false).
    { unfold stripped. destruct t as [|c t]; [done|]. unfold unquoted in Hq. cbn [forallb] in Hq. apply andb_prop in Hq as [Hc _]. apply negb_true_iff, orb_false_elim in Hc as [Hc _].
      change (znth 0 (c :: t)) with c. by rewrite Hc, andb_false_r. }
    rewrite Hs. pose proof (zlength_nonneg t). rewrite wrap_small by lia. unfold any. rewrite (proj2 (Z.ltb_ge _ _)), Z.gtb_ltb, (proj2 (Z.ltb_ge _ _)) by lia. done.
  - unfold word in Ht. rewrite forallb_forall in Ht |- *. intros c Hc. rewrite cls_none by done. by apply Ht.
  - destruct r as [|c r]; [done|]. unfold ends. rewrite cls_none by done. apply andb_prop in Hr as [-> _]. done.
  - destruct r as [|c r]; [done|]. apply andb_prop in Hr as [_ Hr]. by apply negb_true_iff in Hr.
Qed.

(** Nothing to take. *)
Lemma exec_empty chrv neg nmax l r frags : ends chrv neg r -> 0 <= nmax < 2 ^ 32 -> exec (TClass chrv neg false 0 nmax :: l) r frags = exec l r (frags ++ [[]]).
Proof. intros Hr Hn. apply (exec_class chrv neg 0 nmax l [] r frags); [done|done|change (zlength (@nil Z)) with 0; lia|lia]. Qed.

(** A search goes on behind characters that cannot start a match. *)
Lemma search_behind e l pre : forall i s, forallb (fun c => negb (e =? tolower c)) pre = true ->
  search_from (fun s => exec (TChr e :: l) s []) i (pre ++ s) = search_from (fun s => exec (TChr e :: l) s []) (i + zlength pre) s.
Proof.
  induction pre as [|c pre IH]; intros i s Hp; [cbn [app]; f_equal; change (zlength (@nil Z)) with 0; lia|]. cbn [forallb] in Hp. apply andb_prop in Hp as [Hc Hp]. cbn [app search_from exec].
  apply negb_true_iff in Hc. rewrite Hc, IH by done. f_equal. rewrite zlength_cons. lia.
Qed.

Lemma search_from_ext f g i s : (forall s, f s = g s) -> search_from f i s = search_from g i s.
Proof. intros Hfg. revert i. induction s as [|c s IH]; intros i; [done|]. cbn. rewrite Hfg. destruct (g (c :: s)); [apply IH|done]. Qed.

(** ** Parameters *)

Definition spaces : list Z := [32; HT; CR; LF].

(** The value of a parameter, and what may follow. *)
Definition token (s : list Z) : bool := word [32; HT; CR; LF; 59] s && unquoted s.
Definition tail_ok (s : list Z) : bool := match s with [] => true | c :: _ => c =? 59 end.

Lemma ws_ends c r : existsb (Z.eqb c) spaces = false -> ends (map same spaces) false (c :: r).
Proof.
  intros Hc. unfold ends. pose proof (cls_none spaces c eq_refl) as E. rewrite Hc in E. unfold cls, expr_match in E |- *. apply (f_equal negb) in E. by rewrite !negb_involutive in E.
Qed.

Lemma token_chars c s : token (c :: s) = true -> existsb (Z.eqb c) spaces = false.
Proof. unfold token, word. cbn [forallb existsb spaces]. intros [[Hc _]%andb_prop _]%andb_prop. destruct (c =? 32), (c =? HT), (c =? CR), (c =? LF); done. Qed.

(** A name whose letters match. *)
Lemma exec_name name l s frags : exec (map TChr (lowered name) ++ l) (name ++ s) frags = exec l s frags.
Proof. induction name as [|c name IH]; [done|]. cbn [lowered map app]. rewrite exec_chr by done. apply IH. Qed.

Section Params.
Context `{P : Platform} `{R : Resolver}.

(** The first parameter of a list. *)
Lemma param_first name v tail : In name (map chars ["branch"; "tag"; "maddr"; "rport"]%string) -> token v = true -> 0 < zlength v < 2 ^ 31 -> tail_ok tail = true ->
  msg_param_decode (Some ([59] ++ name ++ [61] ++ v ++ tail)) name = Some (Ok (Some v)).
Proof.
  intros Hin Hv Hl Ht. unfold msg_param_decode. destruct (param_expr_tokens name Hin) as (expr & -> & Hc & He). unfold regex. rewrite (regex_compiled _ _ _ Hc) by done.
  assert (Hn : lowered name = name /\ exists c t, name = c :: t /\ existsb (Z.eqb c) spaces = false) by (cbn [map In] in Hin; destruct Hin as [<-|[<-|[<-|[<-|[]]]]]; (split; [by vm_compute|]); eexists _, _; (split; [vm_compute; reflexivity|by vm_compute])).
  destruct Hn as (Hn & c & t & Ename & Hcs). pose proof Hv as Hv'. unfold token in Hv. apply andb_prop in Hv as [Hv1 Hv2].
  assert (E : exec (param_tokens name) ([59] ++ name ++ [61] ++ v ++ tail) [] = Stop 0 [[]; []; []; v]).
  { unfold param_tokens. replace (map TChr name) with (map TChr (lowered name)) by (by rewrite Hn). cbn [app]. rewrite exec_chr by done. rewrite exec_empty; [|rewrite Ename; by apply ws_ends|unfold any; lia]. rewrite exec_name.
    rewrite exec_empty; [|by apply ws_ends|unfold any; lia]. rewrite exec_chr by done. rewrite exec_empty; [| |unfold any; lia].
    2: { destruct v as [|x v]; [change (zlength (@nil Z)) with 0 in Hl; lia|]. apply ws_ends. by apply (token_chars x v). }
    change (map same [32; HT; CR; LF; 59]) with (map same ([32; HT; CR; LF; 59])). rewrite exec_quoted; [done|done|done|done| |lia]. destruct tail as [|x tail]; [done|]. cbn in Ht. apply Z.eqb_eq in Ht as ->. done. }
  by rewrite (search_first _ _ _ E).
Qed.

Definition rport_tokens : list Regex.token := [TChr 59; TClass (map same spaces) false false 0 any] ++ map TChr (chars "rport") ++ [TClass (map same [32; HT; CR; LF; 59; 61]) false false 0 any].

Lemma rport_expr : exists expr, param_expr (chars ";" ++ expr_ws) (chars "rport") (chars "[ " ++ tcn ++ chars ";=]*") = Some expr /\ compile expr false None = Some rport_tokens.
Proof. eexists. split; [vm_compute; reflexivity|by vm_compute]. Qed.

(** No further parameter in a value. *)
Lemma token_behind v : token v = true -> forallb (fun c => negb (59 =? tolower c)) v = true.
Proof.
  unfold token, word. intros [Hv _]%andb_prop. rewrite forallb_forall in Hv |- *. intros c Hc. specialize (Hv c Hc). cbn [existsb] in Hv. rewrite Z.eqb_sym, tolower_plain by done. by destruct (c =? 59); rewrite ?orb_true_r in Hv.
Qed.

Lemma search_branch br s : token br = true -> forall i,
  search_from (fun s => exec rport_tokens s []) i (chars ";branch=" ++ br ++ s) = search_from (fun s => exec rport_tokens s []) (i + 8 + zlength br) s.
Proof.
  intros Hb i. change (chars ";branch=" ++ br ++ s) with ([59] ++ (chars "branch=" ++ br) ++ s). cbn [app search_from].
  assert (E : exec rport_tokens (59 :: (chars "branch=" ++ br) ++ s) [] = Again).
  { unfold rport_tokens. cbn [app]. rewrite exec_chr by done. rewrite exec_empty; [|by apply ws_ends|unfold any; lia]. done. }
  cbn [app] in E. rewrite E. change (98 :: 114 :: 97 :: 110 :: 99 :: 104 :: 61 :: br ++ s) with ((chars "branch=" ++ br) ++ s). unfold rport_tokens at 1. cbn [app].
  rewrite search_behind by (rewrite forallb_app; apply andb_true_intro; split; [by vm_compute|by apply token_behind]). f_equal. rewrite zlength_app. change (zlength (chars "branch=")) with 7. lia.
Qed.

Lemma rport_found br : token br = true -> msg_param_exists (Some (chars ";branch=" ++ br ++ chars ";rport")) (chars "rport") = Some (Ok (8 + zlength br, 6)).
Proof.
  intros Hb. unfold msg_param_exists. destruct rport_expr as (expr & -> & Hc). unfold re_regex_at. rewrite (search_from_ext _ (fun s => exec rport_tokens s [])) by (intros s; by apply attempt_exec).
  rewrite search_branch by done. change (search_from (fun s => exec rport_tokens s []) (0 + 8 + zlength br) (chars ";rport")) with (@Ok (Z * list (list Z)) (0 + 8 + zlength br, [[]; []])).
  change (zlength (chars "rport")) with 5. rewrite !zlength_app. change (zlength (chars ";branch=")) with 8. change (zlength (chars ";rport")) with 6.
  rewrite zlength_nil, (proj2 (Z.ltb_ge _ _)) by lia. done.
Qed.

Lemma rport_absent br : token br = true -> msg_param_exists (Some (chars ";branch=" ++ br)) (chars "rport") = Some (Err ENOENT).
Proof.
  intros Hb. unfold msg_param_exists. destruct rport_expr as (expr & -> & Hc). unfold re_regex_at. rewrite (search_from_ext _ (fun s => exec rport_tokens s [])) by (intros s; by apply attempt_exec).
  rewrite <- (app_nil_r (chars ";branch=" ++ br)), <- app_assoc, search_branch by done. done.
Qed.

(** ** The Via header of a request of the library *)

Definition via_params_text (br tail : list Z) : list Z := [59] ++ chars "branch" ++ [61] ++ br ++ tail.
Definition via_head (tp sentby : list Z) : list Z := chars "SIP/2.0/" ++ tp ++ [32] ++ sentby.
Definition via_value (tp sentby br tail : list Z) : list Z := via_head tp sentby ++ via_params_text br tail.

Record via_ok (tp sentby br : list Z) : Prop := {
  vk_tp : forallb (fun c => (65 <=? c) && (c <=? 90)) tp = true /\ 0 < zlength tp < 2 ^ 31;
  vk_sentby : word [59; 32; HT; CR; LF] sentby = true /\ 0 < zlength sentby < 2 ^ 31;
  vk_branch : token br = true /\ 0 < zlength br < 2 ^ 31;
}.

Lemma upper_cls tp : forallb (fun c => (65 <=? c) && (c <=? 90)) tp = true -> forallb (cls [(97, 122)] false) tp = true.
Proof. rewrite !forallb_forall. intros Ht c Hc. specialize (Ht c Hc). unfold cls, expr_match, tolower. cbn [existsb fst snd]. rewrite Ht. lia. Qed.

Lemma via_exec tp sentby br tail : via_ok tp sentby br -> zlength (via_params_text br tail) < 2 ^ 31 ->
  exec t_via (via_value tp sentby br tail) [] = Stop 0 [[]; []; []; []; tp; [32]; sentby; []; via_params_text br tail].
Proof.
  intros [[Ht1 Ht2] [Hs1 Hs2] _] Hl. unfold via_value, via_head. rewrite <- !app_assoc. change (chars "SIP/2.0/" ++ ?x) with (chars "SIP" ++ [47] ++ chars "2.0" ++ [47] ++ x). unfold t_via, c_ws.
  change (map TChr (chars "sip")) with (map TChr (lowered (chars "SIP"))). change (map TChr (chars "2.0")) with (map TChr (lowered (chars "2.0"))). rewrite exec_name. cbn [app].
  rewrite exec_empty; [|done|unfold any; lia]. rewrite exec_chr by done. rewrite exec_empty; [|done|unfold any; lia]. rewrite exec_name. rewrite exec_empty; [|done|unfold any; lia]. rewrite exec_chr by done.
  destruct tp as [|c tp]; [change (zlength (@nil Z)) with 0 in Ht2; lia|]. assert (Hc : 65 <= c <= 90) by (cbn [forallb] in Ht1; lia).
  rewrite exec_empty; [|apply ws_ends; cbn [existsb spaces]; unfold HT, CR, LF; lia|unfold any; lia]. rewrite exec_class; [|by apply upper_cls|done|unfold any; lia|done].
  change (32 :: sentby ++ ?x) with ([32] ++ sentby ++ x). rewrite exec_class; [|done| |by vm_compute|done].
  2: { destruct sentby as [|x sb]; [change (zlength (@nil Z)) with 0 in Hs2; lia|]. apply ws_ends. unfold word in Hs1. cbn [forallb existsb] in Hs1. cbn [existsb spaces]. destruct (x =? 32), (x =? HT), (x =? CR), (x =? LF); rewrite ?orb_true_r in Hs1; done. }
  rewrite exec_none by (done || lia). rewrite exec_empty; [|done|unfold any; lia]. rewrite <- (app_nil_r (via_params_text br tail)) at 1. change (TClass [] true false 0 any) with (TClass (map same []) true false 0 any).
  rewrite exec_none; [done|done|by apply forallb_forall|done|]. pose proof (zlength_nonneg (via_params_text br tail)). lia.
Qed.

Lemma via_decoded tp sentby br tail host port : via_ok tp sentby br -> tail_ok tail = true -> zlength (via_params_text br tail) < 2 ^ 31 -> decode_hostport (Some sentby) = Ok (host, port) ->
  sip_via_decode (Some (via_value tp sentby br tail))
  = Some (Ok (SipVia (Some sentby) (via_address host port) (Some (via_params_text br tail)) (Some br) (Some (via_value tp sentby br tail)) (via_transp (Some tp)))).
Proof.
  intros K Ht Hl Hh. unfold sip_via_decode, regex. rewrite (regex_compiled _ _ t_via) by (by vm_compute). rewrite (search_first _ _ _ (via_exec tp sentby br tail K Hl)) by done. cbn [map]. rewrite Hh.
  unfold via_params_text at 1. destruct K as [_ _ [Hb1 Hb2]]. rewrite (param_first (chars "branch") br tail); [done|cbn; tauto|done|done|done].
Qed.
End Params.

(** ** The To header *)

Section Address.
Context `{P : Platform} `{R : Resolver}.

(** An address in angle brackets, whatever parameters follow. *)
Lemma addr_angle u p : word [62] u = true -> 0 < zlength u < 2 ^ 31 -> zlength p < 2 ^ 31 ->
  sip_addr_decode (Some ([60] ++ u ++ [62] ++ p)) = match uri_decode (Some u) with Ok x => Ok (SipAddr None (Some u) x (or_null (Some p))) | Err e => Err e end.
Proof.
  intros Hu Hl Hp. pose proof (zlength_nonneg p). unfold sip_addr_decode, regex. rewrite (regex_compiled _ _ t_addr) by (by vm_compute).
  assert (E : exec t_addr ([60] ++ u ++ [62] ++ p) [] = Stop 0 [[]; []; u; p]).
  { unfold t_addr. rewrite (exec_quoted [32; HT; CR; LF; 60] 0 _ [] ([60] ++ u ++ [62] ++ p)) by (done || (change (zlength (@nil Z)) with 0; lia)). cbn [app]. rewrite exec_empty; [|done|unfold any; lia]. rewrite exec_chr by done.
    change (TClass [(62, 62)] true false 1 any) with (TClass (map same [62]) true false 1 any). change (u ++ 62 :: p) with (u ++ [62] ++ p). rewrite exec_none by (done || lia). cbn [app]. rewrite exec_chr by done.
    rewrite <- (app_nil_r p) at 1. change (TClass [] true false 0 any) with (TClass (map same []) true false 0 any). rewrite exec_none; [done|done|by apply forallb_forall|done|lia]. }
  rewrite (search_first _ _ _ E) by done. cbn [map]. done.
Qed.
End Address.

(** ** What the list of headers says of a message *)

Definition first_val (id : Z) (l : list sip_hdr) : pl := option_map hdr_val (List.find (fun h => hdr_id h =? id) l).
Definition last_val (id : Z) (l : list sip_hdr) : pl := fold_left (fun a h => if hdr_id h =? id then Some (hdr_val h) else a) l None.

Lemma last_val_app id l h : last_val id (l ++ [h]) = if hdr_id h =? id then Some (hdr_val h) else last_val id l.
Proof. unfold last_val. by rewrite fold_left_app. Qed.
Lemma first_val_app id l h : first_val id (l ++ [h]) = match first_val id l with Some v => Some v | None => if hdr_id h =? id then Some (hdr_val h) else None end.
Proof. unfold first_val. induction l as [|x l IH]; cbn [app List.find]; [by destruct (_ =? _)|]. by destruct (hdr_id x =? id). Qed.

(** The headers a reply repeats. *)
Definition kept (id : Z) : bool := (id =? SIP_HDR_VIA) || (id =? SIP_HDR_TO) || (id =? SIP_HDR_FROM) || (id =? SIP_HDR_CALL_ID) || (id =? SIP_HDR_CSEQ).

Definition name_ok (n : list Z) : Prop := forallb (fun c => negb (blank c || eol c || (c =? ch ":"))) n = true /\ 0 < zlength n /\ bytes n.

Section Listed.
Context `{H : Host} `{P : Platform} `{R : Resolver} (char_signed : bool).

(** A header of the list: kept values are decodable. *)
Record hdr_fit (h : sip_hdr) : Prop := {
  hf_id : hdr_id h = hdr_hash char_signed (hdr_name h);
  hf_name : name_ok (hdr_name h);
  hf_val : kept (hdr_id h) = true -> okv (hdr_comma_separated (hdr_id h)) (hdr_val h);
  hf_addr : hdr_id h = SIP_HDR_TO \/ hdr_id h = SIP_HDR_FROM -> exists a, sip_addr_decode (Some (hdr_val h)) = Ok a;
  hf_cseq : hdr_id h = SIP_HDR_CSEQ -> exists c, sip_cseq_decode (Some (hdr_val h)) = Ok c;
}.

(** A Via header that was decoded has a sender. *)
Lemma via_sender v via : sip_via_decode (Some v) = Some (Ok via) -> pl_isset (via_sentby via) = true.
Proof.
  unfold sip_via_decode, regex. rewrite (regex_compiled v expr_via t_via) by (by vm_compute). destruct (regex_run t_via v) as [fs|] eqn:E; [|done].
  assert (Hm : exists mid, matches t_via mid fs).
  { unfold regex_run in E. change (match t_via with [] => true | _ => false end) with false in E. clear -E. induction v as [|c v IH]; [done|]. cbn [search] in E. destruct (exec t_via (c :: v) []) as [|e fs'] eqn:Ee; [by apply IH|].
    destruct (e =? 0) eqn:E0; [|done]. injection E as <-. apply Z.eqb_eq in E0 as ->. destruct (exec_prefix t_via) with (s := c :: v) (frags := @nil (list Z)) (fs := fs') as (mid & post & f & _ & -> & Hm); [|done|by exists mid].
    apply (compile_ok expr_via false None). by vm_compute. }
  destruct Hm as [mid Hm]. let l := eval vm_compute in t_via in change t_via with l in Hm.
  assert (Hs : exists a b c d tp e sb f p, fs = [a; b; c; d; tp; e; sb; f; p] /\ 1 <= zlength sb).
  { repeat match goal with M : matches (_ :: _) _ _ |- _ => inversion M; clear M; subst | M : matches [] _ _ |- _ => inversion M; clear M; subst end. do 9 eexists. split; [reflexivity|lia]. }
  destruct Hs as (a & b & c & d & tp & e & sb & f & p & -> & Hsb). cbn [map]. destruct (decode_hostport _) as [[]|]; [|done]. destruct (msg_param_decode _ _) as [[]|]; try done. intros [= <-]. cbn [via_sentby].
  unfold pl_isset. apply negb_true_iff, Z.eqb_neq. lia.
Qed.

Lemma parse_hdrl m hdr atomic m' : hdr_parse m hdr atomic = Some (Ok m') -> m_hdrl m' = m_hdrl m.
Proof.
  unfold hdr_parse. repeat match goal with |- context [if ?b then _ else _] => destruct b end; repeat match goal with |- context [match ?r with _ => _ end] => destruct r as [[]|] || destruct r end; try done; by intros [= <-].
Qed.

Lemma first_other id l h : hdr_id h <> id -> first_val id (l ++ [h]) = first_val id l.
Proof. intros Hne. rewrite first_val_app, (proj2 (Z.eqb_neq _ _) Hne). by destruct (first_val id l). Qed.
Lemma last_other id l h : hdr_id h <> id -> last_val id (l ++ [h]) = last_val id l.
Proof. intros Hne. by rewrite last_val_app, (proj2 (Z.eqb_neq _ _) Hne). Qed.
Lemma last_same id l h : hdr_id h = id -> last_val id (l ++ [h]) = Some (hdr_val h).
Proof. intros He. by rewrite last_val_app, (proj2 (Z.eqb_eq _ _) He). Qed.

(** The parts of the message as the list says. *)
Definition says (m : sip_msg) (l : list sip_hdr) : Prop :=
  via_val (m_via m) = first_val SIP_HDR_VIA l /\ (first_val SIP_HDR_VIA l = None -> m_via m = via0)
  /\ (forall v, first_val SIP_HDR_VIA l = Some v -> sip_via_decode (Some v) = Some (Ok (m_via m)) /\ pl_isset (via_sentby (m_via m)) = true)
  /\ ta_val (m_to m) = last_val SIP_HDR_TO l /\ ta_val (m_from m) = last_val SIP_HDR_FROM l /\ m_callid m = last_val SIP_HDR_CALL_ID l
  /\ match last_val SIP_HDR_CSEQ l with Some v => sip_cseq_decode (Some v) = Ok (m_cseq m) | None => m_cseq m = SipCseq None 0 end.

(** A header with another identifier than these changes nothing of what is said. *)
Lemma says_other m hdr l : says m l -> kept (hdr_id hdr) = false -> says m (l ++ [hdr]).
Proof.
  intros K Hk. unfold kept in Hk. repeat (apply orb_false_elim in Hk as [Hk ?]). unfold says. by rewrite !first_other, !last_other by (by apply Z.eqb_neq).
Qed.

Lemma says_via m hdr m' l : says m l -> hdr_id hdr = SIP_HDR_VIA -> hdr_parse m hdr true = Some (Ok m') -> says m' (l ++ [hdr]).
Proof.
  intros (V & V0 & V1 & T & F & C & Q) E. unfold hdr_parse. rewrite E. change (SIP_HDR_VIA =? SIP_HDR_VIA) with true. cbn iota.
  assert (Hrest : forall m1, ta_val (m_to m1) = ta_val (m_to m) -> ta_val (m_from m1) = ta_val (m_from m) -> m_callid m1 = m_callid m -> m_cseq m1 = m_cseq m ->
      via_val (m_via m1) = first_val SIP_HDR_VIA (l ++ [hdr]) -> (forall v, first_val SIP_HDR_VIA (l ++ [hdr]) = Some v -> sip_via_decode (Some v) = Some (Ok (m_via m1)) /\ pl_isset (via_sentby (m_via m1)) = true) -> says m1 (l ++ [hdr])).
  { intros m1 E1 E2 E3 E4 E5 E6. unfold says. rewrite !last_other by (by rewrite E). rewrite E1, E2, E3, E4. split_and!; try done. rewrite first_val_app, E. by destruct (first_val SIP_HDR_VIA l). }
  destruct (pl_isset (via_sentby (m_via m))) eqn:Es; cbn [negb orb].
  - intros [= <-]. destruct (first_val SIP_HDR_VIA l) as [v|] eqn:Ef; [|by rewrite (V0 eq_refl) in Es]. apply Hrest; try done; rewrite first_val_app, Ef; [done|]. intros v' [= <-]. rewrite Es. by apply V1.
  - destruct (first_val SIP_HDR_VIA l) as [v|] eqn:Ef; [by destruct (V1 v eq_refl)|]. destruct (sip_via_decode (Some (hdr_val hdr))) as [[via|]|] eqn:Ev; try done. intros [= <-].
    apply Hrest; try done; rewrite first_val_app, Ef, E; cbn; [by apply via_decode_val|]. intros v' [= <-]. split; [done|]. by eapply via_sender.
Qed.

Lemma parse_says m hdr m' l : says m l -> hdr_parse m hdr true = Some (Ok m') ->
  says m' (l ++ [hdr]) /\ (hdr_id hdr = SIP_HDR_TO \/ hdr_id hdr = SIP_HDR_FROM -> exists a, sip_addr_decode (Some (hdr_val hdr)) = Ok a) /\ (hdr_id hdr = SIP_HDR_CSEQ -> exists c, sip_cseq_decode (Some (hdr_val hdr)) = Ok c).
Proof.
  intros K Hx. destruct (Z.eqb_spec (hdr_id hdr) SIP_HDR_VIA) as [E|N1]; [split_and!; [by eapply says_via|by rewrite E; intros [?|?]|by rewrite E]|].
  destruct (kept (hdr_id hdr)) eqn:Hk.
  2: { assert (Hm : says m' l).
    { revert Hx. unfold hdr_parse. unfold kept in Hk. repeat (apply orb_false_elim in Hk as [Hk ?]). rewrite (proj2 (Z.eqb_neq _ _) N1). repeat match goal with Q : (hdr_id hdr =? ?x) = false |- _ => rewrite Q; clear Q end.
      repeat match goal with |- context [if ?b then _ else _] => destruct b end; try (destruct (sip_rack_decode _); [|done]); try (destruct (msg_ctype_decode _); [|done]); by intros [= <-]. }
    split_and!; [by apply says_other| |]; unfold kept in Hk; [intros [E|E]|intros E]; rewrite E in Hk; done. }
  unfold kept in Hk. rewrite (proj2 (Z.eqb_neq _ _) N1) in Hk. cbn [orb] in Hk. unfold hdr_parse in Hx. rewrite (proj2 (Z.eqb_neq _ _) N1) in Hx. destruct K as (V & V0 & V1 & T & F & C & Q).
  destruct (Z.eqb_spec (hdr_id hdr) SIP_HDR_TO) as [E|N2]; [|destruct (Z.eqb_spec (hdr_id hdr) SIP_HDR_FROM) as [E|N3]; [|destruct (Z.eqb_spec (hdr_id hdr) SIP_HDR_CALL_ID) as [E|N4]; [|destruct (Z.eqb_spec (hdr_id hdr) SIP_HDR_CSEQ) as [E|N5]; [|done]]]].
  - destruct (taddr_decode _ _) as [[a|]|] eqn:Ea; try done. injection Hx as <-. destruct (taddr_decode_val _ _ _ Ea) as [Ev Hd]. split_and!; [|done|by rewrite E].
    unfold says. rewrite !first_other, (last_same SIP_HDR_TO), !last_other by (done || by rewrite E). by split_and!.
  - destruct (taddr_decode _ _) as [[a|]|] eqn:Ea; try done. injection Hx as <-. destruct (taddr_decode_val _ _ _ Ea) as [Ev Hd]. split_and!; [|done|by rewrite E].
    unfold says. rewrite !first_other, (last_same SIP_HDR_FROM), !last_other by (done || by rewrite E). by split_and!.
  - injection Hx as <-. split_and!; [|by rewrite E; intros [?|?]|by rewrite E]. unfold says. rewrite !first_other, (last_same SIP_HDR_CALL_ID), !last_other by (done || by rewrite E). by split_and!.
  - destruct (sip_cseq_decode _) as [c|] eqn:Ec; try done. injection Hx as <-. split_and!; [|by rewrite E; intros [?|?]|by exists c]. unfold says. rewrite !first_other, (last_same SIP_HDR_CSEQ), !last_other by (done || by rewrite E). by split_and!.
Qed.

Definition listed (m : sip_msg) : Prop := Forall hdr_fit (m_hdrl m) /\ says m (m_hdrl m).

(** What a line gives for each header it adds. *)
Definition hdr_pre (h : sip_hdr) : Prop := hdr_id h = hdr_hash char_signed (hdr_name h) /\ name_ok (hdr_name h).

Lemma store_says m hdr atomic line l : says (hdr_store m hdr atomic line) l <-> says m l.
Proof. unfold hdr_store. by destruct (_ || _), atomic, line. Qed.
Lemma store_hdrl m hdr line : line = true \/ (hdr_id hdr =? SIP_HDR_VIA) || (hdr_id hdr =? SIP_HDR_ROUTE) = true -> m_hdrl (hdr_store m hdr true line) = m_hdrl m ++ [hdr].
Proof. unfold hdr_store. intros Hc. destruct (_ || _) eqn:E; [done|]. destruct Hc as [->|]; done. Qed.

Lemma stored_listed m hdr line m' : listed m -> hdr_pre hdr -> okv (hdr_comma_separated (hdr_id hdr)) (hdr_val hdr) -> line = true \/ (hdr_id hdr =? SIP_HDR_VIA) || (hdr_id hdr =? SIP_HDR_ROUTE) = true ->
  msg_hdr m hdr true line = Some (Ok m') -> listed m'.
Proof.
  intros [Hf Hs] [Hi Hn] Hv Hc. unfold msg_hdr. destruct (mem_alloc _); [|done]. intros Hx. pose proof (proj2 (store_says m hdr true line _) Hs) as Hs1. destruct (parse_says _ _ _ _ Hs1 Hx) as (Hs2 & Ha & Hq).
  unfold listed. rewrite (parse_hdrl _ _ _ _ Hx), store_hdrl by done. split; [|done]. apply Forall_app. split; [done|]. apply Forall_singleton. by split.
Qed.

(** Values that are not listed on their own, and the whole of a list of values. *)
Lemma value_listed m hdr m' : listed m -> hdr_comma_separated (hdr_id hdr) = true -> (hdr_id hdr =? SIP_HDR_VIA) || (hdr_id hdr =? SIP_HDR_ROUTE) = false -> msg_hdr m hdr true false = Some (Ok m') -> listed m'.
Proof.
  intros [Hf Hs] Hc Hn. unfold msg_hdr. destruct (mem_alloc _); [|done]. assert (Ep : forall m1, hdr_parse m1 hdr true = hdr_parse m1 hdr false) by (intros m1; unfold hdr_parse; by apply orb_false_elim in Hn as [-> _]).
  rewrite Ep, parse_comsep by done. intros [= <-]. unfold hdr_store. rewrite Hn. by split.
Qed.

Lemma comsep_kept id : hdr_comma_separated id = true -> id <> SIP_HDR_VIA -> kept id = false.
Proof.
  intros Hc Hne. unfold kept. rewrite (proj2 (Z.eqb_neq _ _) Hne). repeat match goal with |- context [id =? ?x] => destruct (Z.eqb_spec id x) as [E|_]; [exfalso; rewrite E in Hc; by vm_compute in Hc|] end. done.
Qed.

Lemma whole_listed m hdr m' : listed m -> hdr_pre hdr -> hdr_comma_separated (hdr_id hdr) = true -> msg_hdr m hdr false true = Some (Ok m') -> listed m'.
Proof.
  intros [Hf Hs] [Hi Hn] Hc. unfold msg_hdr. destruct (mem_alloc _); [|done]. rewrite parse_comsep by done. intros [= <-]. unfold hdr_store. destruct (_ || _) eqn:E; [by split|]. cbn [negb].
  apply orb_false_elim in E as [E _]. apply Z.eqb_neq in E. pose proof (comsep_kept _ Hc E) as Hk. split; [|by apply (says_other m hdr)]. cbn. apply Forall_app. split; [done|]. apply Forall_singleton.
  split; try done; [by rewrite Hk| |]; unfold kept in Hk; intros Hx; rewrite ?Hx in Hk; [by destruct Hx as [Hx|Hx]; rewrite Hx in Hk|done].
Qed.

Lemma values_listed name id vs : hdr_comma_separated id = true -> hdr_pre (SipHdr name [] id) -> Forall (okv true) vs -> forall m m', listed m -> msg_values name id m vs = Some (Ok m') -> listed m'.
Proof.
  intros Hc Hp. induction 1 as [|v vs Hv Hvs IH]; intros m m' K; cbn [msg_values]; [by intros [= <-]|]. destruct (msg_hdr m _ true false) as [[m1|]|] eqn:E; try done. cbn [andthen]. intros E'. apply (IH m1); [|done].
  destruct ((id =? SIP_HDR_VIA) || (id =? SIP_HDR_ROUTE)) eqn:Ev; [|by eapply (value_listed m (SipHdr name v id)); [exact K| | |exact E]]. eapply (stored_listed m (SipHdr name v id) false); [exact K|exact Hp|change (okv (hdr_comma_separated id) v); by rewrite Hc|by right|exact E].
Qed.

Lemma line_listed m l m' : line_ok char_signed l -> line_bytes l -> bytes (ln_name l) -> listed m -> msg_add char_signed m l = Some (Ok m') -> listed m'.
Proof.
  intros K Hb Bn Hl. pose proof (line_values char_signed l K Hb) as Hv. destruct (lok_name _ _ K) as [Hn1 Hn2]. assert (Hp : forall v, hdr_pre (SipHdr (ln_name l) v (ln_id char_signed l))) by (intros v; by split).
  unfold msg_add. destruct (ln_more l) as [|g more] eqn:Em.
  - intros E. apply Forall_inv in Hv. eapply (stored_listed m (SipHdr (ln_name l) (ln_first l) (ln_id char_signed l)) true); [exact Hl|apply Hp|exact Hv|by left|exact E].
  - destruct (lok_sep _ _ K) as [Hc _]; [by rewrite Em|]. rewrite Hc in Hv. destruct (msg_values _ _ _ _) as [[m1|]|] eqn:E1; try done. cbn [andthen]. intros E2.
    eapply (whole_listed m1 (SipHdr (ln_name l) (ln_value l) (ln_id char_signed l))); [|apply (Hp (ln_value l))|exact Hc|exact E2]. by eapply values_listed; [exact Hc|apply (Hp [])|exact Hv|exact Hl|exact E1].
Qed.

Lemma lines_listed ls : Forall (line_ok char_signed) ls -> Forall line_bytes ls -> Forall (fun l => bytes (ln_name l)) ls -> forall m m', listed m -> msg_lines char_signed m ls = Some (Ok m') -> listed m'.
Proof.
  induction 1 as [|l ls K Ks IH]; intros Hb Hn m m' Hl; cbn [msg_lines]; [by intros [= <-]|]. apply Forall_cons in Hb as [Hb Hbs]. apply Forall_cons in Hn as [Hn Hns].
  destruct (msg_add _ m l) as [[m1|]|] eqn:E; try done. cbn [andthen]. intros E'. apply (IH Hbs Hns m1); [|done]. by eapply line_listed.
Qed.

Lemma text_name_bytes x y z ls body : bytes (msg_text x y z ls body) -> Forall (fun l => bytes (ln_name l)) ls.
Proof.
  unfold msg_text. rewrite !bytes_app. intros (_ & Hb & _). induction ls as [|l ls IH]; [constructor|]. cbn [map concat] in Hb. apply bytes_app in Hb as [Hl Hls]. constructor; [|by apply IH].
  unfold line_text in Hl. rewrite !bytes_app in Hl. tauto.
Qed.

Lemma from_lines_listed x y z m : from_lines char_signed x y z m -> listed m.
Proof.
  intros (tag & ls & body & Hb & Hl & Hx & Hy & Hz & Lx & Ly & Hls & Hne & E). rewrite decode_lines in E by done. destruct msg_alloc as [[]|]; try done. cbn [andthen] in E.
  destruct (start_line x y z tag) as [m0|] eqn:E0; [|done]. cbn [andthen] in E. destruct (msg_lines char_signed m0 ls) as [[m1|]|] eqn:E1; try done. cbn [andthen] in E. injection E as <-.
  apply (lines_listed ls Hls (text_line_bytes _ _ _ _ _ Hb) (text_name_bytes _ _ _ _ _ Hb) m0); [|done]. unfold start_line in E0.
  destruct (_ =? 0); [destruct (uri_decode _); [|done]|destruct (_ =? 0); [done|]]; injection E0 as <-; (split; [constructor|]); unfold says; cbn; by split_and!.
Qed.
End Listed.

(** ** Printing the reply *)

Definition nline (name v : list Z) : line := Line name [32] v [] [].
Definition nhdr_text (name v : list Z) : list Z := name ++ [58; 32] ++ v ++ crlf.

Lemma nline_text name v : line_text (nline name v) = nhdr_text name v.
Proof. unfold line_text, nline, ln_value, nhdr_text. cbn. by rewrite !app_nil_r. Qed.

Section Print.
Context `{H : Host} `{P : Platform} `{R : Resolver} (Ham : ample_memory).

(** The address without the port. *)
Definition addr_text (a : sa) : list Z := match sa_ntop a with Some t => t | None => [63] end.
Definition hex16 (n : Z) : list Z := concat (write_padded (local_itoa (u64 n) 16 false) 16 48 false []).
Definition tag_text (n : Z) : list Z := chars ";tag=" ++ hex16 n.

Lemma prints_nhdr name v : prints (re_vhprintf (chars "%r: %r" ++ crlf) [PPl (Some (Some name)); PPl (Some (Some v))]) (nhdr_text name v).
Proof.
  change (re_vhprintf (chars "%r: %r" ++ crlf) [PPl (Some (Some name)); PPl (Some (Some v))]) with
    (pcheck (calls (write_padded name 0 32 false [])) (pcheck (Call [58; 32] Ret) (pcheck (calls (write_padded v 0 32 false [])) (Call crlf Ret)))).
  unfold nhdr_text. apply prints_check; [apply prints_text|]. apply prints_arg, prints_call.
Qed.
Lemma prints_nhdr0 name v : prints (re_vhprintf (chars "%r: %r") [PPl (Some (Some name)); PPl (Some (Some v))]) (name ++ [58; 32] ++ v).
Proof.
  change (re_vhprintf (chars "%r: %r") [PPl (Some (Some name)); PPl (Some (Some v))]) with
    (pcheck (calls (write_padded name 0 32 false [])) (pcheck (Call [58; 32] Ret) (pcheck (calls (write_padded v 0 32 false [])) (Ret 0)))).
  rewrite <- (app_nil_r v) at 2. apply prints_check; [apply prints_text|]. by apply prints_arg.
Qed.
Lemma prints_name name : prints (re_vhprintf (chars "%r: ") [PPl (Some (Some name))]) (name ++ [58; 32]).
Proof. change (re_vhprintf (chars "%r: ") [PPl (Some (Some name))]) with (pcheck (calls (write_padded name 0 32 false [])) (Call [58; 32] Ret)). apply prints_check; [apply prints_text|apply prints_call]. Qed.
Lemma prints_value v : prints (re_vhprintf (chars "%r" ++ crlf) [PPl (Some (Some v))]) (v ++ crlf).
Proof. change (re_vhprintf (chars "%r" ++ crlf) [PPl (Some (Some v))]) with (pcheck (calls (write_padded v 0 32 false [])) (Call crlf Ret)). apply prints_check; [apply prints_text|apply prints_call]. Qed.
Lemma prints_rport n : is_u32 n -> prints (re_vhprintf (chars ";rport=%u") [PInt n]) (chars ";rport=" ++ dec_str n).
Proof.
  intros Hn. change (re_vhprintf (chars ";rport=%u") [PInt n]) with (pcheck (Call (chars ";rport=") Ret) (pcheck (calls (write_padded (local_itoa (u32 n) 10 false) 0 32 false [])) (Ret 0))).
  rewrite (wrap_small 32) by apply Hn. rewrite <- (app_nil_r (dec_str n)). by apply prints_arg.
Qed.
Lemma prints_received a : prints (re_vhprintf (chars ";received=%j") [PSa (Some a)]) (chars ";received=" ++ addr_text a).
Proof.
  change (re_vhprintf (chars ";received=%j") [PSa (Some a)]) with (pcheck (Call (chars ";received=") Ret) (pcheck (calls (write_padded (addr_text a) 0 32 false [])) (Ret 0))).
  rewrite <- (app_nil_r (addr_text a)) at 2. by apply prints_arg.
Qed.
Lemma prints_tag n : prints (re_vhprintf (chars ";tag=%016llx") [PLong n]) (tag_text n).
Proof.
  change (re_vhprintf (chars ";tag=%016llx") [PLong n]) with (pcheck (Call (chars ";tag=") Ret) (pcheck (calls (write_padded (local_itoa (u64 n) 16 false) 16 48 false [])) (Ret 0))).
  unfold tag_text. rewrite <- (app_nil_r (hex16 n)). apply prints_check; [apply prints_call|]. apply prints_check; [apply prints_calls|done].
Qed.
Lemma prints_status n reason : is_u32 n -> prints (re_vhprintf (chars "SIP/2.0 %u %s" ++ crlf) [PInt n; PStr (Some reason)]) (chars "SIP/2.0" ++ [32] ++ dec_str n ++ [32] ++ reason ++ [CR; LF]).
Proof.
  intros Hn. change (re_vhprintf (chars "SIP/2.0 %u %s" ++ crlf) [PInt n; PStr (Some reason)]) with
    (pcheck (Call (chars "SIP/2.0 ") Ret) (pcheck (calls (write_padded (local_itoa (u32 n) 10 false) 0 32 false [])) (pcheck (Call [32] Ret) (pcheck (calls (write_padded reason 0 32 false [])) (Call crlf Ret))))).
  rewrite (wrap_small 32) by apply Hn. change (chars "SIP/2.0" ++ [32] ++ ?x) with (chars "SIP/2.0 " ++ x). apply prints_arg. apply prints_arg, prints_call.
Qed.
End Print.

(** ** The headers of a reply *)

Section Reply.
Context `{H : Host} `{P : Platform} `{R : Resolver} (Ham : ample_memory) (char_signed : bool).

(** The parameters added to the first Via header. *)
Definition rport_asked (tail : list Z) : bool := bool_decide (tail = chars ";rport").
Definition new_tail (msg : sip_msg) (tail : list Z) : list Z :=
  (if rport_asked tail then chars ";rport=" ++ dec_str (sa_port (m_src msg)) else []) ++
  (if rport_asked tail || negb (sa_cmp false (m_src msg) (via_addr (m_via msg)) SA_ADDR) then chars ";received=" ++ addr_text (m_src msg) else []).
Definition to_value (msg : sip_msg) (scode : Z) (v : list Z) : list Z :=
  v ++ (if negb (pl_isset (ta_tag (m_to msg))) && (scode >? 100) then tag_text (m_tag msg) else []).

(** The headers of the reply: those that are kept, with their new values. *)
Definition reply_hdr_of (via : list Z) (msg : sip_msg) (scode : Z) (seen : bool) (h : sip_hdr) : sip_hdr :=
  SipHdr (hdr_name h) (if hdr_id h =? SIP_HDR_VIA then if seen then hdr_val h else via else if hdr_id h =? SIP_HDR_TO then to_value msg scode (hdr_val h) else hdr_val h) (hdr_id h).
Fixpoint reply_list (via : list Z) (msg : sip_msg) (scode : Z) (seen : bool) (l : list sip_hdr) : list sip_hdr :=
  match l with
  | [] => []
  | h :: l => (if kept (hdr_id h) then [reply_hdr_of via msg scode seen h] else []) ++ reply_list via msg scode (seen || (hdr_id h =? SIP_HDR_VIA)) l
  end.
Definition line_of (h : sip_hdr) : line := nline (hdr_name h) (hdr_val h).
Definition list_text (l : list sip_hdr) : list Z := concat (map line_text (map line_of l)).

(** One header: it is written, with this state after it. *)
Definition writes_hdr (msg : sip_msg) (scode : Z) (h : sip_hdr) (vr vr' : Z * bool) (d : list Z) : Prop :=
  forall mb c, holds mb c (zlength c) -> zlength c + zlength d < 2 ^ 31 -> exists mb', reply_hdr msg false scode h vr mb = Some (0, vr', mb') /\ holds mb' (c ++ d) (zlength (c ++ d)).

Lemma crlf_bytes : bytes crlf.
Proof. apply (bool_decide_unpack _). by vm_compute. Qed.

Lemma hex16_chars n : Forall (fun c => 48 <= c < 123) (hex16 n).
Proof.
  unfold hex16, write_padded. cbn [zlength length negb andb]. change (zlength (@nil Z)) with 0. cbn [Z.eqb negb andb app]. destruct (itoa_loop_chars 64 false (u64 n) 16 []) as [Hc _]; [lia|constructor|]. fold (local_itoa (u64 n) 16 false) in Hc.
  rewrite !concat_app. apply Forall_app. split; [|destruct (_ =? 0); cbn; rewrite ?app_nil_r; [constructor|done]]. unfold padding. induction (Z.to_nat _) as [|k IH]; [constructor|]. cbn. constructor; [lia|done].
Qed.
Lemma tag_text_bytes n : bytes (tag_text n).
Proof. unfold tag_text. rewrite bytes_app. split; [apply bytes_chars|]. eapply Forall_impl; [apply hex16_chars|]. unfold is_byte. cbn. lia. Qed.

Lemma writes_plain msg scode h vr : kept (hdr_id h) = true -> hdr_id h <> SIP_HDR_VIA -> hdr_id h <> SIP_HDR_TO -> bytes (hdr_name h) -> bytes (hdr_val h) ->
  writes_hdr msg scode h vr vr (line_text (nline (hdr_name h) (hdr_val h))).
Proof.
  intros Hk N1 N2 Bn Bv mb c Hh Hl. rewrite nline_text in *. unfold kept in Hk. rewrite (proj2 (Z.eqb_neq _ _) N1), (proj2 (Z.eqb_neq _ _) N2) in Hk. cbn [orb] in Hk.
  unfold reply_hdr. rewrite (proj2 (Z.eqb_neq _ _) N1), (proj2 (Z.eqb_neq _ _) N2). assert (N3 : (hdr_id h =? SIP_HDR_RECORD_ROUTE) = false).
  { apply Z.eqb_neq. intros E. rewrite E in Hk. by vm_compute in Hk. }
  rewrite N3, Hk. destruct (appends_run Ham _ _ (prints_nhdr (hdr_name h) (hdr_val h))) with (mb := mb) (c := c) as (mb' & E & H'); [|done|done|exists mb'].
  - unfold nhdr_text. rewrite !bytes_app. split_and!; try done; [apply (bool_decide_unpack _); by vm_compute|apply crlf_bytes].
  - unfold mbuf_printf. by rewrite E.
Qed.

Lemma writes_to msg scode h vr : hdr_id h = SIP_HDR_TO -> bytes (hdr_name h) -> bytes (hdr_val h) -> writes_hdr msg scode h vr vr (line_text (nline (hdr_name h) (to_value msg scode (hdr_val h)))).
Proof.
  intros E Bn Bv mb c Hh Hl. rewrite nline_text in *. unfold reply_hdr. rewrite E. change (SIP_HDR_TO =? SIP_HDR_VIA) with false. change (SIP_HDR_TO =? SIP_HDR_TO) with true. cbn iota.
  set (F := mb_or _ _). assert (Ha : appends F (nhdr_text (hdr_name h) (to_value msg scode (hdr_val h)))).
  { unfold F, nhdr_text, to_value. eapply appends_eq; [apply appends_or; [apply (appends_run Ham); [apply prints_nhdr0|]|apply appends_or; [|apply (appends_str Ham), crlf_bytes]]|].
    - rewrite !bytes_app. split_and!; try done. apply (bool_decide_unpack _); by vm_compute.
    - instantiate (1 := if negb (pl_isset (ta_tag (m_to msg))) && (scode >? 100) then tag_text (m_tag msg) else []). destruct (_ && _); [apply (appends_run Ham); [apply prints_tag|apply tag_text_bytes]|apply appends_skip].
    - by rewrite <- !app_assoc. }
  destruct (Ha mb c Hh Hl) as (mb' & -> & H'). by exists mb'.
Qed.

Lemma writes_via_more msg scode h n r : hdr_id h = SIP_HDR_VIA -> n <> 0 -> bytes (hdr_name h) -> bytes (hdr_val h) -> writes_hdr msg scode h (n, r) (n + 1, r) (line_text (nline (hdr_name h) (hdr_val h))).
Proof.
  intros E Hn Bn Bv mb c Hh Hl. rewrite nline_text in *. unfold reply_hdr. rewrite E. change (SIP_HDR_VIA =? SIP_HDR_VIA) with true. cbn iota. cbn [fst snd]. rewrite (proj2 (Z.eqb_neq _ _) Hn). cbn [negb].
  set (F := mb_or _ _). assert (Ha : appends F (nhdr_text (hdr_name h) (hdr_val h))).
  { unfold F, nhdr_text. rewrite app_assoc. apply appends_or; (apply (appends_run Ham); [apply prints_name || apply prints_value|]); rewrite bytes_app; (split; [done|]); [apply (bool_decide_unpack _); by vm_compute|apply crlf_bytes]. }
  destruct (Ha mb c Hh Hl) as (mb' & -> & H'). by exists mb'.
Qed.

Lemma writes_skip msg scode h vr : kept (hdr_id h) = false -> writes_hdr msg scode h vr vr [].
Proof.
  intros Hk mb c Hh Hl. unfold kept in Hk. repeat (apply orb_false_elim in Hk as [Hk ?]). exists mb. rewrite app_nil_r. split; [|done]. unfold reply_hdr.
  repeat match goal with Q : (hdr_id h =? ?x) = false |- _ => rewrite Q; clear Q end. cbn [orb]. by destruct (_ =? _).
Qed.

Lemma appends_skipped a b c : bytes (a ++ b ++ c) -> appends (mb_do (mbuf_write_pl_skip (a ++ b ++ c) 0 (zlength (a ++ b ++ c)) (zlength a) (zlength b))) (a ++ c).
Proof.
  intros Hb mb c0 Hh Hl. rewrite !bytes_app in Hb. destruct Hb as (Ba & _ & Bc). rewrite zlength_app in Hl. pose proof (zlength_nonneg a). pose proof (zlength_nonneg b). pose proof (zlength_nonneg c).
  unfold mb_do, mbuf_write_pl_skip. rewrite Z.gtb_ltb, (proj2 (Z.ltb_ge _ _)) by lia. rewrite Z.gtb_ltb, (proj2 (Z.ltb_ge _ _)) by (rewrite !zlength_app; lia). cbn [orb]. rewrite zdrop_0, Z.sub_0_r, ztake_app_exact.
  destruct (holds_append mb c0 a Hh Ba Ham ltac:(lia)) as (mb1 & -> & Hm1). cbn [Z.eqb negb].
  assert (Ec : ztake (0 + zlength (a ++ b ++ c) - (zlength a + zlength b)) (zdrop (zlength a + zlength b) (a ++ b ++ c)) = c).
  { rewrite app_assoc, <- zlength_app, zdrop_app_exact. apply ztake_ge. rewrite !zlength_app. lia. }
  rewrite Ec. destruct (holds_append mb1 (c0 ++ a) c Hm1 Bc Ham) as (mb2 & -> & Hm2); [rewrite zlength_app; lia|]. exists mb2. by rewrite app_assoc.
Qed.

Lemma writes_via_first msg scode h tp sentby br tail : hdr_id h = SIP_HDR_VIA -> hdr_val h = via_value tp sentby br tail -> token br = true -> via_params (m_via msg) = Some (via_params_text br tail) ->
  tail = [] \/ tail = chars ";rport" -> is_u32 (sa_port (m_src msg)) -> bytes (hdr_name h) -> bytes (hdr_val h) -> bytes (addr_text (m_src msg)) ->
  writes_hdr msg scode h (0, false) (1, rport_asked tail) (line_text (nline (hdr_name h) (via_value tp sentby br (new_tail msg tail)))).
Proof.
  intros E Ev Hb Ep Ht Hport Bn Bv Ba mb c Hh Hl. rewrite nline_text in *. unfold reply_hdr. rewrite E. change (SIP_HDR_VIA =? SIP_HDR_VIA) with true. cbn iota. cbn [fst snd Z.eqb negb]. rewrite Ep.
  assert (Hrec : forall rp : bool, appends (if rp || negb (sa_cmp false (m_src msg) (via_addr (m_via msg)) SA_ADDR) then mbuf_printf (chars ";received=%j") [PSa (Some (m_src msg))] else mb_skip)
    (if rp || negb (sa_cmp false (m_src msg) (via_addr (m_via msg)) SA_ADDR) then chars ";received=" ++ addr_text (m_src msg) else [])).
  { intros rp. destruct (_ || _); [apply (appends_run Ham); [apply prints_received|rewrite bytes_app; split; [apply bytes_chars|done]]|apply appends_skip]. }
  assert (Bn2 : bytes (hdr_name h ++ [58; 32])) by (rewrite bytes_app; split; [done|apply (bool_decide_unpack _); by vm_compute]).
  assert (Bd : bytes (dec_str (sa_port (m_src msg)))) by (apply dec_str_spec; unfold is_u32 in Hport; lia).
  assert (Hvia : forall t, via_value tp sentby br t = (via_head tp sentby ++ chars ";branch=" ++ br) ++ t) by (intros t; unfold via_value, via_params_text; by rewrite <- !app_assoc).
  destruct Ht as [->| ->].
  - assert (Ex : msg_param_exists (Some (via_params_text br [])) (chars "rport") = Some (Err ENOENT)) by (rewrite <- (rport_absent br Hb); unfold via_params_text; rewrite app_nil_r; done). rewrite Ex. cbn [snd].
    match goal with |- exists mb', match ?F mb with _ => _ end = _ /\ _ => assert (Ha : appends F (nhdr_text (hdr_name h) (via_value tp sentby br (new_tail msg [])))) end.
    { unfold nhdr_text, new_tail. change (rport_asked []) with false. eapply appends_eq; [apply appends_or; [apply (appends_run Ham); [apply prints_name|done]|apply appends_or; [apply (appends_str Ham); exact Bv|apply appends_or; [apply Hrec|apply (appends_str Ham), crlf_bytes]]]|].
      rewrite Ev, !Hvia. rewrite app_nil_r. cbn [app]. by rewrite <- !app_assoc. }
    destruct (Ha mb c Hh Hl) as (mb' & -> & H'). exists mb'. by split.
  - assert (Ex : msg_param_exists (Some (via_params_text br (chars ";rport"))) (chars "rport") = Some (Ok (8 + zlength br, 6))) by (rewrite <- (rport_found br Hb); unfold via_params_text; done). rewrite Ex.
    match goal with |- exists mb', match ?F mb with _ => _ end = _ /\ _ => assert (Ha : appends F (nhdr_text (hdr_name h) (via_value tp sentby br (new_tail msg (chars ";rport"))))) end.
    { unfold nhdr_text, new_tail. change (rport_asked (chars ";rport")) with true.
      assert (Eoff : zlength (hdr_val h) - pl_l (Some (via_params_text br (chars ";rport"))) + (8 + zlength br) = zlength (via_head tp sentby ++ chars ";branch=" ++ br)).
      { rewrite Ev. unfold via_value. change (pl_l (Some ?x)) with (zlength x). rewrite !zlength_app. change (zlength (chars ";branch=")) with 8. lia. }
      rewrite Eoff. rewrite Ev in Bv |- *. rewrite Hvia in Bv |- *. change (chars ";rport") with (chars ";rport" ++ []) in Bv |- * at 1. 
      eapply appends_eq; [apply appends_or; [apply (appends_run Ham); [apply prints_name|done]|apply appends_or; [apply appends_or; [exact (appends_skipped _ (chars ";rport") [] Bv)|apply (appends_run Ham); [by apply prints_rport|rewrite bytes_app; split; [apply bytes_chars|done]]]|apply appends_or; [apply Hrec|apply (appends_str Ham), crlf_bytes]]]|].
      rewrite Hvia. by rewrite <- !app_assoc. }
    destruct (Ha mb c Hh Hl) as (mb' & -> & H'). exists mb'. by split.
Qed.

(** What a request must be for its reply: the first Via header is one of the
    library, possibly with rport. *)
Record answerable (msg : sip_msg) (tp sentby br tail host port : list Z) : Prop := {
  an_via : via_ok tp sentby br;
  an_bare : word [44; 34] (sentby ++ br) = true;
  an_tail : tail = [] \/ tail = chars ";rport";
  an_host : decode_hostport (Some sentby) = Ok (Some host, Some port);
  an_first : first_val SIP_HDR_VIA (m_hdrl msg) = Some (via_value tp sentby br tail);
  an_len : zlength (via_value tp sentby br tail) < 2 ^ 31;
  an_port : is_u32 (sa_port (m_src msg));
  an_addr : word [32; HT; CR; LF; 44; 34] (addr_text (m_src msg)) = true /\ 0 < zlength (addr_text (m_src msg)) /\ bytes (addr_text (m_src msg));
}.

Definition first_or (seen : bool) (l : list sip_hdr) (v : list Z) : Prop := seen = true \/ first_val SIP_HDR_VIA l = None \/ first_val SIP_HDR_VIA l = Some v.

Lemma first_cons id h l : first_val id (h :: l) = if hdr_id h =? id then Some (hdr_val h) else first_val id l.
Proof. unfold first_val. cbn. by destruct (_ =? _). Qed.

Lemma reply_hdrs_append msg scode tp sentby br tail : token br = true -> via_params (m_via msg) = Some (via_params_text br tail) ->
  tail = [] \/ tail = chars ";rport" -> is_u32 (sa_port (m_src msg)) -> bytes (addr_text (m_src msg)) ->
  forall l, Forall (hdr_fit char_signed) l -> forall n r mb c, 0 <= n -> (n = 0 -> r = false) -> first_or (negb (n =? 0)) l (via_value tp sentby br tail) ->
  let d := list_text (reply_list (via_value tp sentby br (new_tail msg tail)) msg scode (negb (n =? 0)) l) in
  holds mb c (zlength c) -> zlength c + zlength d < 2 ^ 31 ->
  exists n' mb', reply_hdrs msg false scode l 0 (n, r) mb = Some (0, (n', if (n =? 0) && bool_decide (is_Some (first_val SIP_HDR_VIA l)) then rport_asked tail else r), mb') /\ holds mb' (c ++ d) (zlength (c ++ d)).
Proof.
  intros Hb Ep Ht Hport Ba. induction 1 as [|h l Hh Hl IH]; intros n r mb c Hn Hr Hf d Hm Hd.
  { exists n, mb. unfold d. cbn [reply_list]. change (list_text []) with (@nil Z). rewrite app_nil_r. cbn [reply_hdrs]. change (first_val SIP_HDR_VIA []) with (@None (list Z)). rewrite bool_decide_eq_false_2, andb_false_r by (by intros []). done. }
  set (via := via_value tp sentby br (new_tail msg tail)) in *. destruct Hh as [_ (_ & _ & Bn) Hv _ _]. cbn [reply_hdrs].
  assert (Hstep : forall vr' d1, writes_hdr msg scode h (n, r) vr' d1 -> 0 <= vr'.1 -> (vr'.1 = 0 -> vr'.2 = false) -> negb (vr'.1 =? 0) = negb (n =? 0) || (hdr_id h =? SIP_HDR_VIA) ->
    d = d1 ++ list_text (reply_list via msg scode (negb (n =? 0) || (hdr_id h =? SIP_HDR_VIA)) l) ->
    (if (vr'.1 =? 0) && bool_decide (is_Some (first_val SIP_HDR_VIA l)) then rport_asked tail else vr'.2) = (if (n =? 0) && bool_decide (is_Some (first_val SIP_HDR_VIA (h :: l))) then rport_asked tail else r) ->
    exists n' mb', match reply_hdr msg false scode h (n, r) mb with Some (e, vr, mb) => reply_hdrs msg false scode l (Z.lor 0 e) vr mb | None => None end
      = Some (0, (n', if (n =? 0) && bool_decide (is_Some (first_val SIP_HDR_VIA (h :: l))) then rport_asked tail else r), mb') /\ holds mb' (c ++ d) (zlength (c ++ d))).
  { intros [n1 r1] d1 Hw Hn1 Hr1 Hs Ed Erp. cbn [fst snd] in *. rewrite Ed in *. rewrite zlength_app in Hd. match type of Hd with _ + (_ + zlength ?x) < _ => pose proof (zlength_nonneg x) end.
    destruct (Hw mb c Hm ltac:(lia)) as (mb1 & -> & Hm1). rewrite Z.lor_0_r. rewrite <- Hs in *. rewrite <- Erp, app_assoc. apply IH; [done|done| |done|rewrite zlength_app; lia].
    unfold first_or in *. rewrite Hs. destruct Hf as [->|Hf]; [by left|]. rewrite first_cons in Hf. destruct (hdr_id h =? SIP_HDR_VIA); [left; by rewrite orb_true_r|by right]. }
  assert (Hrp : hdr_id h <> SIP_HDR_VIA -> first_val SIP_HDR_VIA (h :: l) = first_val SIP_HDR_VIA l) by (intros N; by rewrite first_cons, (proj2 (Z.eqb_neq _ _) N)).
  destruct (kept (hdr_id h)) eqn:Hk.
  2: { assert (N : hdr_id h <> SIP_HDR_VIA) by (intros E; rewrite E in Hk; done). apply (Hstep (n, r) []); cbn [fst snd]; [by apply writes_skip|done|done|by rewrite (proj2 (Z.eqb_neq _ _) N), orb_false_r|unfold d; cbn [reply_list]; by rewrite Hk|by rewrite Hrp]. }
  destruct (Hv eq_refl) as [_ Bv]. assert (Ed : forall d1, line_text (line_of (reply_hdr_of via msg scode (negb (n =? 0)) h)) = d1 -> d = d1 ++ list_text (reply_list via msg scode (negb (n =? 0) || (hdr_id h =? SIP_HDR_VIA)) l)).
  { intros d1 <-. unfold d. cbn [reply_list]. by rewrite Hk. }
  unfold reply_hdr_of, line_of in Ed. cbn [hdr_name hdr_val] in Ed. destruct (Z.eqb_spec (hdr_id h) SIP_HDR_VIA) as [E|N].
  - destruct (Z.eqb_spec n 0) as [->|Hn0]; cbn [negb] in Ed.
    + rewrite (Hr eq_refl) in *. destruct Hf as [|[Hf|Hf]]; [done|rewrite first_cons, E in Hf; done|]. rewrite first_cons, E in Hf. injection Hf as Hf.
      apply (Hstep (1, rport_asked tail) (line_text (nline (hdr_name h) via))); cbn [fst snd]; [by apply writes_via_first|lia|lia|done|by apply Ed|]. by rewrite first_cons, E.
    + apply (Hstep (n + 1, r) (line_text (nline (hdr_name h) (hdr_val h)))); cbn [fst snd]; [by apply writes_via_more|lia|lia|rewrite (proj2 (Z.eqb_neq (n + 1) 0)) by lia; by rewrite orb_true_r|by apply Ed|]. by rewrite (proj2 (Z.eqb_neq (n + 1) 0)) by lia.
  - destruct (Z.eqb_spec (hdr_id h) SIP_HDR_TO) as [E|N2]; eapply (Hstep (n, r)); cbn [fst snd].
    1: by apply writes_to.
    6: by apply writes_plain.
    all: first [done|by rewrite orb_false_r|by apply Ed|by rewrite Hrp].
Qed.
End Reply.

(** ** Decoding the reply *)

Section Decode.
Context `{H : Host} `{P : Platform} `{R : Resolver} (Ham : ample_memory) (char_signed : bool).

Definition parseable (seen : bool) (h : sip_hdr) : Prop :=
  (hdr_id h = SIP_HDR_VIA -> seen = false -> exists via, sip_via_decode (Some (hdr_val h)) = Some (Ok via))
  /\ (hdr_id h = SIP_HDR_TO \/ hdr_id h = SIP_HDR_FROM -> exists a, sip_addr_decode (Some (hdr_val h)) = Ok a)
  /\ (hdr_id h = SIP_HDR_CSEQ -> exists c, sip_cseq_decode (Some (hdr_val h)) = Ok c) /\ hdr_id h <> SIP_HDR_RACK /\ hdr_id h <> SIP_HDR_CONTENT_TYPE.
Fixpoint all_parse (seen : bool) (l : list sip_hdr) : Prop :=
  match l with [] => True | h :: l => parseable seen h /\ all_parse (seen || (hdr_id h =? SIP_HDR_VIA)) l end.

Definition is_set (p : pl) : bool := match p with Some _ => true | None => false end.

Lemma parse_succeeds m h l : says m l -> parseable (is_set (first_val SIP_HDR_VIA l)) h -> exists m', hdr_parse m h true = Some (Ok m') /\ m_scode m' = m_scode m.
Proof.
  intros (V & V0 & V1 & _) (Pv & Pa & Pc & Nr & Nt). unfold hdr_parse. rewrite (proj2 (Z.eqb_neq _ _) Nr), (proj2 (Z.eqb_neq _ _) Nt).
  destruct (Z.eqb_spec (hdr_id h) SIP_HDR_VIA) as [E|_].
  { destruct (pl_isset (via_sentby (m_via m))) eqn:Es; cbn [negb orb]; [by exists m|]. destruct (first_val SIP_HDR_VIA l) as [v|] eqn:Ef; [by destruct (V1 v eq_refl)|]. destruct (Pv E eq_refl) as [via ->]. by eexists. }
  destruct (Z.eqb_spec (hdr_id h) SIP_HDR_TO) as [E|_]; [destruct (Pa (or_introl E)) as [a Ha]; destruct (addr_back (m_to m) _ _ Ha) as (ta & -> & _); by eexists|].
  destruct (Z.eqb_spec (hdr_id h) SIP_HDR_FROM) as [E|_]; [destruct (Pa (or_intror E)) as [a Ha]; destruct (addr_back (m_from m) _ _ Ha) as (ta & -> & _); by eexists|].
  destruct (hdr_id h =? SIP_HDR_CALL_ID); [by eexists|]. destruct (Z.eqb_spec (hdr_id h) SIP_HDR_CSEQ) as [E|_]; [destruct (Pc E) as [c ->]; by eexists|].
  repeat match goal with |- context [if ?b then _ else _] => destruct b end; by eexists.
Qed.

Lemma add_line_of m h : hdr_pre char_signed h -> msg_add char_signed m (line_of h) = hdr_parse (hdr_store m h true true) h true.
Proof.
  intros [Hi _]. unfold msg_add, line_of, nline, msg_hdr. cbn [ln_more ln_name ln_first]. destruct (mem_alloc_ample Ham SIP_HDR_STRUCT) as [b ->]; [done|]. unfold ln_id. cbn [ln_name].
  rewrite <- Hi. by destruct h.
Qed.

Lemma store_scode m h atomic line : m_scode (hdr_store m h atomic line) = m_scode m.
Proof. unfold hdr_store. destruct ((hdr_id h =? SIP_HDR_VIA) || (hdr_id h =? SIP_HDR_ROUTE)), atomic, line; reflexivity. Qed.

Lemma lines_succeed l : forall m, says m (m_hdrl m) -> Forall (hdr_pre char_signed) l -> all_parse (is_set (first_val SIP_HDR_VIA (m_hdrl m))) l ->
  exists m', msg_lines char_signed m (map line_of l) = Some (Ok m') /\ m_hdrl m' = m_hdrl m ++ l /\ says m' (m_hdrl m') /\ m_scode m' = m_scode m.
Proof.
  induction l as [|h l IH]; intros m Hs Hp Ha; [exists m; by rewrite app_nil_r|]. apply Forall_cons in Hp as [Hh Hp]. cbn [all_parse] in Ha. destruct Ha as [Hh' Ha]. cbn [map msg_lines]. rewrite add_line_of by done.
  set (m1 := hdr_store m h true true). assert (Hs1 : says m1 (m_hdrl m)) by (by apply store_says). assert (El1 : m_hdrl m1 = m_hdrl m ++ [h]) by (by apply store_hdrl; left).
  destruct (parse_succeeds m1 h _ Hs1 Hh') as (m2 & E2 & Esc). rewrite E2. cbn [andthen]. destruct (parse_says _ _ _ _ Hs1 E2) as [Hs2 _]. rewrite <- El1, <- (parse_hdrl _ _ _ _ E2) in Hs2.
  destruct (IH m2 Hs2 Hp) as (m3 & -> & El3 & Hs3 & Esc3).
  { rewrite (parse_hdrl _ _ _ _ E2), El1, first_val_app. destruct (first_val SIP_HDR_VIA (m_hdrl m)); cbn [is_set orb] in *; [done|]. by destruct (hdr_id h =? SIP_HDR_VIA). }
  exists m3. split_and!; [done| |done|]; [by rewrite El3, (parse_hdrl _ _ _ _ E2), El1, <- app_assoc|]. rewrite Esc3, Esc. apply store_scode.
Qed.

(** *** The headers of a reply are well formed *)

Lemma line_of_ok h : hdr_pre char_signed h -> core_ok (hdr_comma_separated (hdr_id h)) (hdr_val h) = true -> line_ok char_signed (line_of h).
Proof. intros [Hi (Hn1 & Hn2 & _)] Hv. split; [by split|done|unfold ln_id; change (ln_name (line_of h)) with (hdr_name h); by rewrite <- Hi|by intros ? ? ? []|done|done]. Qed.

Lemma bare_word u b : word [44; 34] u = true -> bare b false u = true.
Proof.
  unfold word. induction u as [|c u IH]; [done|]. cbn [forallb existsb bare]. intros [Hc Hu]%andb_prop. change (ch ",") with 44. rewrite orb_false_r in Hc. apply negb_true_iff, orb_false_elim in Hc as [-> ->]. cbn [andb negb]. by apply IH.
Qed.

Lemma last_in (u : list Z) : u <> [] -> In (List.last u 0) u.
Proof. intros Hu. destruct (exists_last Hu) as (t & x & ->). rewrite List.last_last, in_app_iff. right. by left. Qed.

Lemma core_plain b u : word [CR; LF] u = true -> word [44; 34] u = true -> u <> [] -> blank (List.hd 0 u) = false -> blank (List.last u 0) = false -> core_ok b u = true.
Proof.
  intros He Hb Hne Hh Hl. assert (He' : forallb (fun c => negb (eol c)) u = true).
  { unfold word in He. rewrite forallb_forall in He |- *. intros c Hc. specialize (He c Hc). unfold eol. cbn [existsb] in He. by rewrite orb_false_r in He. }
  unfold core_ok. rewrite bare_word by done. rewrite andb_true_r. apply andb_true_intro. split.
  - apply unfolded, He'.
  - rewrite forallb_forall in He'. pose proof (last_in u Hne) as Hi. destruct u as [|c u]; [done|]. cbn [List.hd] in Hh. unfold space.
    by rewrite Hh, Hl, (proj1 (negb_true_iff _) (He' c (or_introl eq_refl))), (proj1 (negb_true_iff _) (He' _ Hi)).
Qed.

Lemma word_app cs a b : word cs (a ++ b) = word cs a && word cs b.
Proof. apply forallb_app. Qed.
Lemma word_sub cs cs' t : forallb (fun c => existsb (Z.eqb c) cs) cs' = true -> word cs t = true -> word cs' t = true.
Proof.
  unfold word. rewrite !forallb_forall. intros Hs Ht c Hc. specialize (Ht c Hc). apply negb_true_iff in Ht. apply negb_true_iff. destruct (existsb (Z.eqb c) cs') eqn:E; [|done].
  apply existsb_exists in E as (x & Hx & Ex). apply Z.eqb_eq in Ex as <-. specialize (Hs c Hx). by rewrite Ht in Hs.
Qed.
Lemma word_range cs lo hi t : forallb (fun c => (c <? lo) || (hi <? c)) cs = true -> Forall (fun c => lo <= c <= hi) t -> word cs t = true.
Proof.
  intros Hs Ht. unfold word. rewrite forallb_forall in Hs |- *. intros c Hc. apply negb_true_iff. destruct (existsb (Z.eqb c) cs) eqn:E; [|done]. apply existsb_exists in E as (x & Hx & Ex). apply Z.eqb_eq in Ex as <-.
  specialize (Hs c Hx). rewrite List.Forall_forall in Ht. specialize (Ht c Hc). cbn in Ht. lia.
Qed.
Lemma dec_range n : Forall (fun c => 48 <= c <= 122) (dec_str n).
Proof. eapply Forall_impl; [apply itoa_chars|]. cbn. lia. Qed.

Lemma last_app_ne (a b : list Z) : b <> [] -> List.last (a ++ b) 0 = List.last b 0.
Proof. intros Hb. destruct (exists_last Hb) as (t & x & ->). by rewrite app_assoc, !List.last_last. Qed.
Lemma last_blank u : word [32; HT] u = true -> u <> [] -> blank (List.last u 0) = false.
Proof. intros Hw Hu. unfold word in Hw. rewrite forallb_forall in Hw. specialize (Hw _ (last_in u Hu)). cbn [existsb] in Hw. unfold blank. by rewrite orb_false_r in Hw; apply negb_true_iff in Hw. Qed.

Lemma new_tail_ok msg tail : word [32; HT; CR; LF; 44; 34] (addr_text (m_src msg)) = true -> tail_ok (new_tail msg tail) = true /\ word [32; HT; CR; LF; 44; 34] (new_tail msg tail) = true.
Proof.
  intros Ha. unfold new_tail. split.
  - destruct (rport_asked tail); [done|]. cbn [orb app]. by destruct (negb _).
  - rewrite word_app. apply andb_true_intro. split.
    + destruct (rport_asked tail); [|done]. rewrite word_app. apply andb_true_intro. split; [done|]. by apply (word_range _ 48 122); [|apply dec_range].
    + destruct (_ || _); [|done]. rewrite word_app. apply andb_true_intro. by split.
Qed.

Lemma via_new_core msg tp sentby br tail host port : answerable msg tp sentby br tail host port -> core_ok true (via_value tp sentby br (new_tail msg tail)) = true.
Proof.
  intros [[[Htp _] [Hsb _] [Hbr Lbr]] Hbare _ _ _ _ _ [Ha _]]. destruct (new_tail_ok msg tail Ha) as [_ Hn]. unfold token in Hbr. apply andb_prop in Hbr as [Hbr _]. rewrite word_app in Hbare. apply andb_prop in Hbare as [Hb1 Hb2].
  assert (Ht : forall cs, forallb (fun c => (c <? 65) || (90 <? c)) cs = true -> word cs tp = true).
  { intros cs Hc. apply (word_range _ 65 90); [done|]. apply List.Forall_forall. intros c Hin. rewrite forallb_forall in Htp. specialize (Htp c Hin). cbn in Htp. lia. }
  unfold via_value, via_head, via_params_text. apply core_plain.
  - rewrite !word_app. repeat (apply andb_true_intro; split); try done; [by apply Ht|by eapply word_sub; [|exact Hsb]|by eapply word_sub; [|exact Hbr]|by eapply word_sub; [|exact Hn]].
  - rewrite !word_app. repeat (apply andb_true_intro; split); try done; [by apply Ht|by eapply word_sub; [|exact Hn]].
  - done.
  - done.
  - assert (Hne : br <> []) by (intros ->; change (zlength (@nil Z)) with 0 in Lbr; lia). rewrite !app_assoc. destruct (new_tail msg tail) as [|c t] eqn:En.
    + rewrite app_nil_r, last_app_ne by done. apply last_blank; [|done]. by eapply word_sub; [|exact Hbr].
    + rewrite last_app_ne by done. apply last_blank; [|done]. by eapply word_sub; [|exact Hn].
Qed.

Lemma to_value_core msg scode v : core_ok false v = true -> core_ok false (to_value msg scode v) = true.
Proof.
  intros Hv. unfold to_value. destruct (_ && _); [|by rewrite app_nil_r]. unfold core_ok in *. rewrite bare_single in *. rewrite andb_true_r in *. apply andb_prop in Hv as [Hv1 Hv2].
  assert (Ht : Forall (fun c => 48 <= c < 123) (hex16 (m_tag msg))) by apply hex16_chars. destruct v as [|c v]; [done|]. apply andb_prop in Hv2 as [Hv2 _]. apply andb_true_intro. split.
  - apply folded_app; [done|]. apply unfolded. unfold tag_text. rewrite forallb_app. apply andb_true_intro. split; [done|]. apply forallb_forall. intros x Hx. rewrite List.Forall_forall in Ht. specialize (Ht x Hx). cbn in Ht. unfold eol, CR, LF. lia.
  - cbn [app]. rewrite Hv2. cbn [andb]. assert (Hne : tag_text (m_tag msg) <> []) by done. change (c :: v ++ tag_text (m_tag msg)) with ((c :: v) ++ tag_text (m_tag msg)). rewrite last_app_ne by done.
    pose proof (last_in _ Hne) as Hin. unfold tag_text in Hin at 2. apply in_app_iff in Hin as [Hin|Hin].
    + assert (Hc : forallb (fun c => negb (space c)) (chars ";tag=") = true) by (by vm_compute). rewrite forallb_forall in Hc. exact (Hc _ Hin).
    + rewrite List.Forall_forall in Ht. specialize (Ht _ Hin). cbv beta in Ht. revert Ht. generalize (List.last (tag_text (m_tag msg)) 0). intros x Hx. unfold space, blank, eol, HT, CR, LF. lia.
Qed.

(** *** What the list of the reply says *)

Lemma reply_first via msg scode l : forall seen, first_val SIP_HDR_VIA (reply_list via msg scode seen l) = if seen then first_val SIP_HDR_VIA l else option_map (fun _ => via) (first_val SIP_HDR_VIA l).
Proof.
  induction l as [|h l IH]; intros seen; [by destruct seen|]. cbn [reply_list]. rewrite first_cons. destruct (Z.eqb_spec (hdr_id h) SIP_HDR_VIA) as [E|N].
  - rewrite E. change (kept SIP_HDR_VIA) with true. cbn [app]. rewrite first_cons. unfold reply_hdr_of. cbn [hdr_id hdr_val]. rewrite E. by destruct seen.
  - rewrite orb_false_r. destruct (kept (hdr_id h)); cbn [app]; [rewrite first_cons; unfold reply_hdr_of at 1; cbn [hdr_id]; rewrite (proj2 (Z.eqb_neq _ _) N)|]; apply IH.
Qed.

Definition last_from (id : Z) (a : pl) (l : list sip_hdr) : pl := fold_left (fun a h => if hdr_id h =? id then Some (hdr_val h) else a) l a.

Lemma reply_last via msg scode id f l : kept id = true -> id <> SIP_HDR_VIA -> (forall seen h, hdr_id h = id -> hdr_val (reply_hdr_of via msg scode seen h) = f (hdr_val h)) ->
  forall seen a, last_from id (option_map f a) (reply_list via msg scode seen l) = option_map f (last_from id a l).
Proof.
  intros Hk Hne Hf. induction l as [|h l IH]; intros seen a; [done|]. cbn [reply_list]. destruct (Z.eqb_spec (hdr_id h) id) as [E|N].
  - rewrite E, Hk. cbn [app]. unfold last_from. cbn [fold_left]. change (hdr_id (reply_hdr_of via msg scode seen h)) with (hdr_id h). rewrite E, Z.eqb_refl, Hf by done. apply (IH _ (Some (hdr_val h))).
  - destruct (kept (hdr_id h)); cbn [app]; unfold last_from; cbn [fold_left]; change (hdr_id (reply_hdr_of via msg scode seen h)) with (hdr_id h) || idtac; rewrite ?(proj2 (Z.eqb_neq _ _) N); apply IH.
Qed.

Lemma last_behind id l l' : forallb (fun h => negb (hdr_id h =? id)) l' = true -> last_val id (l ++ l') = last_val id l.
Proof.
  unfold last_val. rewrite fold_left_app. generalize (fold_left (fun a h => if hdr_id h =? id then Some (hdr_val h) else a) l None). induction l' as [|h l' IH]; intros a Hl; [done|].
  cbn [forallb fold_left] in *. apply andb_prop in Hl as [Hh Hl]. apply negb_true_iff in Hh. rewrite Hh. by apply IH.
Qed.
Lemma first_behind id l l' : forallb (fun h => negb (hdr_id h =? id)) l' = true -> first_val id (l ++ l') = first_val id l.
Proof.
  intros Hl. unfold first_val. induction l as [|h l IH]; cbn [app List.find]; [|by destruct (hdr_id h =? id)]. induction l' as [|h l' IH]; [done|]. cbn [forallb List.find] in *. apply andb_prop in Hl as [Hh Hl]. apply negb_true_iff in Hh. rewrite Hh. by apply IH.
Qed.

(** Every To header gets a tag only where it is an address in angle brackets. *)
Definition to_fit (msg : sip_msg) (scode : Z) : Prop :=
  negb (pl_isset (ta_tag (m_to msg))) && (scode >? 100) = true ->
  forall h, In h (m_hdrl msg) -> hdr_id h = SIP_HDR_TO -> exists u p, hdr_val h = [60] ++ u ++ [62] ++ p /\ word [62] u = true /\ 0 < zlength u < 2 ^ 31 /\ zlength p < 2 ^ 30.

Lemma hex16_length n : zlength (hex16 n) <= 128.
Proof.
  unfold hex16, write_padded. change (zlength (@nil Z)) with 0. cbn [Z.eqb negb andb app]. destruct (itoa_loop_chars 64 false (u64 n) 16 []) as [_ Hl]; [lia|constructor|]. fold (local_itoa (u64 n) 16 false) in Hl. change (zlength (@nil Z)) with 0 in Hl.
  rewrite !concat_app, !zlength_app. assert (Hp : forall k, zlength (concat (padding 48 k)) = Z.max 0 k).
  { intros k. unfold padding. rewrite <- (Z2Nat.id (Z.max 0 k)) by lia. replace (Z.to_nat k) with (Z.to_nat (Z.max 0 k)) by lia. induction (Z.to_nat (Z.max 0 k)) as [|j IH]; [done|]. cbn [replicate concat app]. rewrite zlength_cons, IH. lia. }
  rewrite Hp. change (16 - Z.min 16 0) with 16. pose proof (zlength_nonneg (local_itoa (u64 n) 16 false)). destruct (_ =? 0); cbn [concat]; rewrite ?app_nil_r; change (zlength (@nil Z)) with 0; lia.
Qed.

Lemma to_value_addr msg scode h : to_fit msg scode -> In h (m_hdrl msg) -> hdr_id h = SIP_HDR_TO -> (exists a, sip_addr_decode (Some (hdr_val h)) = Ok a) -> exists a, sip_addr_decode (Some (to_value msg scode (hdr_val h))) = Ok a.
Proof.
  intros Hf Hin Hid [a Ha]. unfold to_value. destruct (_ && _) eqn:Et; [|rewrite app_nil_r; by exists a]. destruct (Hf Et h Hin Hid) as (u & p & Ev & Hu & Lu & Lp). rewrite Ev in *.
  rewrite addr_angle in Ha by (done || lia). destruct (uri_decode (Some u)) as [x|] eqn:Ex; [|done]. rewrite <- !app_assoc. pose proof (hex16_length (m_tag msg)).
  rewrite addr_angle; [rewrite Ex; by eexists|done|done|]. unfold tag_text. rewrite !zlength_app. change (zlength (chars ";tag=")) with 5. lia.
Qed.

(** *** All of it *)

Definition reply_via (msg : sip_msg) (tp sentby br tail : list Z) : list Z := via_value tp sentby br (new_tail msg tail).

Lemma reply_list_fit msg scode tp sentby br tail host port : answerable msg tp sentby br tail host port -> to_fit msg scode -> bytes (reply_via msg tp sentby br tail) ->
  forall l, incl l (m_hdrl msg) -> Forall (hdr_fit char_signed) l -> forall seen, 
  Forall (fun h => hdr_pre char_signed h /\ okv (hdr_comma_separated (hdr_id h)) (hdr_val h)) (reply_list (reply_via msg tp sentby br tail) msg scode seen l).
Proof.
  intros An Hto Bv. induction l as [|h l IH]; intros Hin Hf seen; [constructor|]. apply Forall_cons in Hf as [[Hi Hn Hv Ha Hq] Hf]. cbn [reply_list]. apply Forall_app. split; [|apply IH; [by intros x Hx; apply Hin; right|done]].
  destruct (kept (hdr_id h)) eqn:Hk; [|constructor]. apply Forall_singleton. split; [by split|]. specialize (Hv eq_refl). unfold reply_hdr_of. cbn [hdr_id hdr_val].
  destruct (Z.eqb_spec (hdr_id h) SIP_HDR_VIA) as [E|N1]; [destruct seen; [done|]; rewrite E; split; [by eapply via_new_core|done]|]. destruct (Z.eqb_spec (hdr_id h) SIP_HDR_TO) as [E|N2]; [|done].
  rewrite E in Hv |- *. destruct Hv as [Hc Hb]. split; [by apply to_value_core|]. unfold to_value. rewrite bytes_app. split; [done|]. destruct (_ && _); [apply tag_text_bytes|constructor].
Qed.

Lemma reply_list_parse msg scode tp sentby br tail host port via : to_fit msg scode -> sip_via_decode (Some (reply_via msg tp sentby br tail)) = Some (Ok via) -> answerable msg tp sentby br tail host port ->
  forall l, incl l (m_hdrl msg) -> Forall (hdr_fit char_signed) l -> forall seen, all_parse seen (reply_list (reply_via msg tp sentby br tail) msg scode seen l).
Proof.
  intros Hto Hvia An. induction l as [|h l IH]; intros Hin Hf seen; [done|]. apply Forall_cons in Hf as [[Hi Hn Hv Ha Hq] Hf]. cbn [reply_list]. assert (IH' := IH (fun x Hx => Hin x (or_intror Hx)) Hf).
  destruct (kept (hdr_id h)) eqn:Hk; cbn [app all_parse].
  - split; [|apply IH']. unfold reply_hdr_of. unfold parseable. cbn [hdr_id hdr_val]. split_and!.
    + intros E Hs. rewrite E, Hs. by exists via.
    + intros [E|E]; rewrite E; [|by apply Ha; right]. apply (to_value_addr msg scode h Hto (Hin h (or_introl eq_refl)) E). apply Ha. by left.
    + intros E. rewrite E. by apply Hq.
    + intros E. rewrite E in Hk. done.
    + intros E. rewrite E in Hk. done.
  - assert (Hne : (hdr_id h =? SIP_HDR_VIA) = false) by (unfold kept in Hk; repeat (apply orb_false_elim in Hk as [Hk ?]); done). rewrite Hne, orb_false_r. apply IH'.
Qed.

Lemma all_parse_app l l' : forall seen, all_parse seen l -> (forall s, all_parse s l') -> all_parse seen (l ++ l').
Proof. induction l as [|h l IH]; intros seen Hl Hl'; [apply Hl'|]. cbn [app all_parse] in *. destruct Hl as [Hh Hl]. split; [done|]. by apply IH. Qed.

Definition reply_end (software : option (list Z)) : list sip_hdr :=
  (match software with Some sw => [SipHdr (chars "Server") sw (hdr_hash char_signed (chars "Server"))] | None => [] end) ++
  [SipHdr (chars "Content-Length") (chars "0") (hdr_hash char_signed (chars "Content-Length"))].

(** The headers and the text of the reply. *)
Definition reply_headers (msg : sip_msg) (scode : Z) (software : option (list Z)) (via : list Z) : list sip_hdr := reply_list via msg scode false (m_hdrl msg) ++ reply_end software.
Definition reply_message (msg : sip_msg) (scode : Z) (reason : list Z) (software : option (list Z)) (via : list Z) : list Z :=
  msg_text (chars "SIP/2.0") (dec_str scode) reason (map line_of (reply_headers msg scode software via)) [].

Lemma answer_params msg tp sentby br tail host port : answerable msg tp sentby br tail host port -> listed char_signed msg ->
  via_params (m_via msg) = Some (via_params_text br tail) /\ via_branch (m_via msg) = Some br /\ via_sentby (m_via msg) = Some sentby.
Proof.
  intros An [_ (_ & _ & V & _)]. destruct (V _ (an_first _ _ _ _ _ _ _ An)) as [E _]. pose proof (an_len _ _ _ _ _ _ _ An) as Hl. unfold via_value in Hl. rewrite zlength_app in Hl. pose proof (zlength_nonneg (via_head tp sentby)).
  rewrite (via_decoded tp sentby br tail (Some host) (Some port)) in E; [by injection E as <-|apply An| |lia|apply An]. by destruct (an_tail _ _ _ _ _ _ _ An) as [->| ->].
Qed.

Lemma reply_text_append msg scode reason software tp sentby br tail host port : answerable msg tp sentby br tail host port -> listed char_signed msg -> 0 <= scode < 2 ^ 16 -> bytes reason -> (forall sw, software = Some sw -> bytes sw) ->
  zlength (reply_message msg scode reason software (reply_via msg tp sentby br tail)) < 2 ^ 31 ->
  exists mb, reply_text msg false scode reason software None = Some (Ok (mb, rport_asked tail)) /\ unread mb = reply_message msg scode reason software (reply_via msg tp sentby br tail)
    /\ bytes (reply_message msg scode reason software (reply_via msg tp sentby br tail)).
Proof.
  intros An Hls Hsc Br Bsw Hlen. destruct (answer_params _ _ _ _ _ _ _ An Hls) as (Ep & _ & _). unfold reply_text. destruct (mbuf_alloc_new 1024 Ham) as (mb0 & -> & H0 & _); [by vm_compute|].
  set (st := chars "SIP/2.0" ++ [32] ++ dec_str scode ++ [32] ++ reason ++ [CR; LF]). set (hl := list_text (reply_list (reply_via msg tp sentby br tail) msg scode false (m_hdrl msg))).
  set (et := (match software with Some sw => hdr_text "Server" sw | None => [] end) ++ chars "Content-Length: 0" ++ crlf ++ crlf).
  assert (Em : reply_message msg scode reason software (reply_via msg tp sentby br tail) = st ++ hl ++ et).
  { unfold reply_message, reply_headers, msg_text, st, hl, et, list_text, reply_end. rewrite !map_app, !concat_app. rewrite <- !app_assoc. do 6 f_equal.
    destruct software as [sw|]; cbn [map concat app]; rewrite ?app_nil_r; unfold line_of; cbn [hdr_name hdr_val]; rewrite !nline_text; unfold hdr_text, nhdr_text, crlf; rewrite <- ?app_assoc; done. }
  rewrite Em in Hlen. rewrite (zlength_app st), (zlength_app hl) in Hlen. pose proof (zlength_nonneg hl). pose proof (zlength_nonneg et).
  assert (Bd : bytes (dec_str scode)) by (apply dec_str_spec; lia). assert (B32 : bytes [32]) by (apply (bool_decide_unpack _); by vm_compute).
  assert (Bst : bytes st) by (unfold st; rewrite !bytes_app; split_and!; try done; [apply bytes_chars|apply crlf_bytes]).
  assert (Hst : zlength st + (zlength hl + zlength et) < 2 ^ 31) by exact Hlen. clear Hlen.
  destruct (appends_run Ham _ _ (prints_status scode reason ltac:(unfold is_u32; lia)) Bst mb0 [] H0) as (mb1 & E1 & Hm1); [rewrite zlength_nil; fold st; lia|].
  unfold mbuf_printf at 1. rewrite E1. fold st in Hm1. cbn [app] in Hm1. destruct An as [[_ _ [Hb _]] _ Ht _ Hfirst _ Hport (_ & _ & Ba)].
  destruct (reply_hdrs_append Ham char_signed msg scode tp sentby br tail Hb Ep Ht Hport Ba (m_hdrl msg) (proj1 Hls) 0 false mb1 st ltac:(lia) ltac:(done)) as (n' & mb2 & E2 & Hm2); [right; by right|done|change (zlength st + zlength hl < 2 ^ 31); lia|].
  fold (reply_via msg tp sentby br tail) in Hm2. change (negb (0 =? 0)) with false in Hm2. fold hl in Hm2. rewrite E2. rewrite Hfirst. change (bool_decide (is_Some (Some (via_value tp sentby br tail)))) with true. cbn [Z.eqb andb].
  match goal with |- context [match ?F mb2 with _ => _ end] => assert (Ha : appends F et) end.
  { unfold et. apply appends_or; [destruct software as [sw|]; [apply (appends_sw Ham "Server"); [by intros p|by apply Bsw]|apply appends_skip]|].
    apply (appends_run Ham); [|rewrite !bytes_app; split_and!; [apply bytes_chars|apply crlf_bytes|apply crlf_bytes]].
    change (re_vhprintf (chars "Content-Length: 0" ++ crlf ++ crlf) []) with (Call (chars "Content-Length: 0" ++ crlf ++ crlf) Ret). apply prints_call. }
  destruct (Ha mb2 _ Hm2) as (mb3 & -> & Hm3); [rewrite zlength_app; lia|]. cbn [Z.lor Z.eqb]. exists (mbuf_set_pos mb3 0). split; [done|].
  pose proof (holds_set_pos _ _ _ 0 Hm3 ltac:(split; [lia|apply zlength_nonneg])) as Hm4. rewrite Em, (unread_holds _ _ _ Hm4), zdrop_0, <- app_assoc. split; [done|].
  rewrite app_assoc. exact (holds_bytes _ _ _ Hm3).
Qed.
End Decode.
