(* ===== verification/SipCall.v ===== *)
(** * A call that is rejected

    The two sides together: a reply that is printed for a request reaches the
    client transaction of that request, and a rejected INVITE is answered, the
    answer acknowledged, and the acknowledgement taken by the server transaction. *)

From stdpp Require Import base list numbers strings.
From Stdlib Require Import ZArith Lia.
From S2P Require Import Prelude Endian Mbuf MbufView Hash Dname DnameSpec Fmt Sa Odict Print Regex Uri UriSpec SipMsg SipMsgSpec SipCtrans SipStrans SipStransSpec SipWire SipReply.

Open Scope Z_scope.

(** ** The reply is decoded *)

Section Decoded.
Context `{H : Host} `{P : Platform} `{R : Resolver} (Ham : ample_memory) (char_signed : bool).

(** A value is part of the text. *)
Lemma list_text_value l h : In h l -> zlength (hdr_val h) <= zlength (list_text l).
Proof.
  induction l as [|x l IH]; [done|]. unfold list_text in *. cbn [map concat]. rewrite zlength_app. pose proof (zlength_nonneg (concat (map line_text (map line_of l)))). pose proof (zlength_nonneg (line_text (line_of x))).
  intros [->|Hin]; [|specialize (IH Hin); lia]. unfold line_of at 1. rewrite nline_text. unfold nhdr_text. rewrite !zlength_app. pose proof (zlength_nonneg (hdr_name h)). pose proof (zlength_nonneg [58; 32]). pose proof (zlength_nonneg crlf). lia.
Qed.

Lemma first_val_in id l v : first_val id l = Some v -> exists h, In h l /\ hdr_val h = v.
Proof. unfold first_val. destruct (List.find _ l) as [h|] eqn:E; [|done]. intros [= <-]. apply List.find_some in E as [Hin _]. by exists h. Qed.

(** What a reply says of the request it answers. *)
Record answers (msg rsp : sip_msg) (scode : Z) (br : list Z) : Prop := {
  as_req : m_req rsp = false;
  as_scode : m_scode rsp = scode;
  as_branch : via_branch (m_via rsp) = Some br;
  as_cseq : m_cseq rsp = m_cseq msg;
  as_from : ta_val (m_from rsp) = ta_val (m_from msg);
  as_callid : m_callid rsp = m_callid msg;
  as_to : ta_val (m_to rsp) = option_map (to_value msg scode) (ta_val (m_to msg));
}.

(** The Via header of the reply. *)
Lemma reply_via_decoded msg tp sentby br tail host port : answerable msg tp sentby br tail host port -> zlength (reply_via msg tp sentby br tail) < 2 ^ 31 ->
  exists via, sip_via_decode (Some (reply_via msg tp sentby br tail)) = Some (Ok via) /\ via_branch via = Some br.
Proof.
  intros An Hl. unfold reply_via, via_value in Hl. rewrite zlength_app in Hl. pose proof (zlength_nonneg (via_head tp sentby)). destruct (new_tail_ok msg tail (proj1 (an_addr _ _ _ _ _ _ _ An))) as [Ht _].
  unfold reply_via. rewrite (via_decoded tp sentby br (new_tail msg tail) (Some host) (Some port)); [by eexists|apply An|done|lia|apply An].
Qed.

Lemma reply_start scode reason tag : 0 < scode < 2 ^ 16 -> pl_strcmp (Some reason) (chars "SIP/2.0") <> 0 ->
  exists m, start_line (chars "SIP/2.0") (dec_str scode) reason tag = Ok m /\ m_scode m = scode /\ m_req m = false /\ m_hdrl m = [] /\ says m [].
Proof.
  intros Hs Hr. unfold start_line. rewrite (proj2 (Z.eqb_neq _ _) Hr). assert (E : pl_u32 (Some (dec_str scode)) = scode) by (apply (itoa_back 32); [by left|lia|lia]).
  rewrite E, wrap_small by lia. rewrite (proj2 (Z.eqb_neq _ _)) by lia. eexists. split; [reflexivity|]. unfold says. cbn. by split_and!.
Qed.

(** The last two headers are none of those the transactions look at. *)
Definition quiet (h : sip_hdr) : Prop := kept (hdr_id h) = false /\ hdr_id h <> SIP_HDR_RACK /\ hdr_id h <> SIP_HDR_CONTENT_TYPE.

Lemma end_quiet software : Forall quiet (reply_end char_signed software).
Proof.
  assert (Hq : forall n v, n = "Server"%string \/ n = "Content-Length"%string -> quiet (SipHdr (chars n) v (hdr_hash char_signed (chars n)))).
  { intros n v [->| ->]; unfold quiet; cbn [hdr_id]; destruct char_signed; vm_compute; by split_and!. }
  unfold reply_end. apply Forall_app. split; [destruct software; constructor|constructor]; try constructor; apply Hq; tauto.
Qed.

Lemma end_fit software : (forall sw, software = Some sw -> okv false sw) -> Forall (fun h => hdr_pre char_signed h /\ okv (hdr_comma_separated (hdr_id h)) (hdr_val h)) (reply_end char_signed software).
Proof.
  intros Hsw. assert (Hn : forall n, n = "Server"%string \/ n = "Content-Length"%string -> name_ok (chars n) /\ hdr_comma_separated (hdr_hash char_signed (chars n)) = false).
  { intros n [->| ->]; (split; [split_and!; [by vm_compute|by vm_compute|apply bytes_chars]|destruct char_signed; by vm_compute]). }
  assert (Hq : forall n v, n = "Server"%string \/ n = "Content-Length"%string -> okv false v -> let h := SipHdr (chars n) v (hdr_hash char_signed (chars n)) in hdr_pre char_signed h /\ okv (hdr_comma_separated (hdr_id h)) (hdr_val h)).
  { intros n v Hin Hv h. destruct (Hn n Hin) as [Hk Hc]. split; [by split|]. unfold h. cbn [hdr_id hdr_val]. by rewrite Hc. }
  unfold reply_end. apply Forall_app. split; [destruct software as [sw|]; [|constructor]; constructor; [|constructor]; apply Hq; [by left|by apply Hsw]|].
  constructor; [|constructor]. apply Hq; [by right|]. split; [by vm_compute|apply bytes_chars].
Qed.

Lemma quiet_not id l : kept id = true -> Forall quiet l -> forallb (fun h => negb (hdr_id h =? id)) l = true.
Proof.
  intros Hk Hl. apply forallb_forall. intros h Hin. rewrite List.Forall_forall in Hl. destruct (Hl h Hin) as [Hq _]. apply negb_true_iff, Z.eqb_neq. intros E. by rewrite E, Hk in Hq.
Qed.

Lemma quiet_parse l : Forall quiet l -> forall seen, all_parse seen l.
Proof.
  induction 1 as [|h l (Hk & Hr & Ht) Hl IH]; intros seen; [done|]. cbn [all_parse]. split; [|apply IH]. unfold kept in Hk. repeat (apply orb_false_elim in Hk as [Hk ?]).
  repeat match goal with Q : (hdr_id h =? _) = false |- _ => apply Z.eqb_neq in Q end. split_and!; try done. by intros [?|?].
Qed.

(** The values the reply has are those of the request. *)
Lemma reply_values msg scode software via id f : kept id = true -> id <> SIP_HDR_VIA -> (forall seen h, hdr_id h = id -> hdr_val (reply_hdr_of via msg scode seen h) = f (hdr_val h)) ->
  last_val id (reply_headers char_signed msg scode software via) = option_map f (last_val id (m_hdrl msg)).
Proof.
  intros Hk Hne Hf. unfold reply_headers. rewrite last_behind by (apply quiet_not; [done|apply end_quiet]). exact (reply_last via msg scode id f (m_hdrl msg) Hk Hne Hf false None).
Qed.

Lemma reply_says msg rsp scode software tp sentby br tail host port : answerable msg tp sentby br tail host port -> listed char_signed msg -> zlength (reply_via msg tp sentby br tail) < 2 ^ 31 ->
  m_req rsp = false -> m_scode rsp = scode -> says rsp (reply_headers char_signed msg scode software (reply_via msg tp sentby br tail)) -> answers msg rsp scode br.
Proof.
  intros An [_ (_ & _ & _ & T & F & C & Q)] Hl Er Esc (_ & _ & V' & T' & F' & C' & Q'). destruct (reply_via_decoded _ _ _ _ _ _ _ An Hl) as (via & Ev & Eb).
  assert (Hid : forall x : pl, option_map (fun v : list Z => v) x = x) by (by intros []).
  assert (Hplain : forall id, kept id = true -> id <> SIP_HDR_VIA -> id <> SIP_HDR_TO -> last_val id (reply_headers char_signed msg scode software (reply_via msg tp sentby br tail)) = last_val id (m_hdrl msg)).
  { intros id Hk N1 N2. rewrite (reply_values msg scode software _ id (fun v => v)), Hid; [done|done|done|]. intros seen h E. unfold reply_hdr_of. cbn [hdr_val]. by rewrite E, (proj2 (Z.eqb_neq _ _) N1), (proj2 (Z.eqb_neq _ _) N2). }
  rewrite Hplain in F' by done. rewrite Hplain in C' by done. rewrite Hplain in Q' by done. rewrite (reply_values msg scode software _ SIP_HDR_TO (to_value msg scode)) in T'; [|done|done|].
  2: { intros seen h E. unfold reply_hdr_of. cbn [hdr_val]. by rewrite E. }
  assert (Efirst : first_val SIP_HDR_VIA (reply_headers char_signed msg scode software (reply_via msg tp sentby br tail)) = Some (reply_via msg tp sentby br tail)).
  { unfold reply_headers. rewrite first_behind by (apply quiet_not; [done|apply end_quiet]). rewrite reply_first, (an_first _ _ _ _ _ _ _ An). done. }
  destruct (V' _ Efirst) as [Ed _]. rewrite Ev in Ed. injection Ed as ->. split; try done; [|by rewrite F', F|by rewrite C', C|by rewrite T', T].
  destruct (last_val SIP_HDR_CSEQ (m_hdrl msg)) as [v|]; [|by rewrite Q, Q']. rewrite Q in Q'. by injection Q'.
Qed.

(** The Via header of the reply is part of its text. *)
Lemma reply_via_bounds msg scode reason software tp sentby br tail host port : answerable msg tp sentby br tail host port ->
  let text := reply_message char_signed msg scode reason software (reply_via msg tp sentby br tail) in bytes text -> zlength text < 2 ^ 31 ->
  bytes (reply_via msg tp sentby br tail) /\ zlength (reply_via msg tp sentby br tail) < 2 ^ 31.
Proof.
  intros An text Bt Hl. set (via := reply_via msg tp sentby br tail) in *. set (hs := reply_headers char_signed msg scode software via).
  assert (Hin : exists h, In h hs /\ hdr_val h = via).
  { apply (first_val_in SIP_HDR_VIA). unfold hs, reply_headers. rewrite first_behind by (apply quiet_not; [done|apply end_quiet]). by rewrite reply_first, (an_first _ _ _ _ _ _ _ An). }
  destruct Hin as (h & Hin & <-). split.
  - apply text_line_bytes in Bt. rewrite List.Forall_forall in Bt. destruct (Bt (line_of h)) as [Hb _]; [by apply in_map|exact Hb].
  - pose proof (list_text_value hs h Hin) as Hle. unfold text, reply_message, msg_text in Hl. fold hs in Hl. fold (list_text hs) in Hl. rewrite !zlength_app in Hl.
    repeat match type of Hl with context [zlength ?x] => pose proof (zlength_nonneg x); generalize dependent (zlength x); intros end. lia.
Qed.

(** The headers of the reply make lines that can be read. *)
Lemma reply_headers_fit msg scode software tp sentby br tail host port : answerable msg tp sentby br tail host port -> listed char_signed msg -> to_fit msg scode -> (forall sw, software = Some sw -> okv false sw) ->
  bytes (reply_via msg tp sentby br tail) -> zlength (reply_via msg tp sentby br tail) < 2 ^ 31 -> let hs := reply_headers char_signed msg scode software (reply_via msg tp sentby br tail) in
  Forall (hdr_pre char_signed) hs /\ Forall (line_ok char_signed) (map line_of hs) /\ map line_of hs <> [] /\ all_parse false hs.
Proof.
  intros An Hls Hto Hsw Bv Hvl hs. destruct (reply_via_decoded _ _ _ _ _ _ _ An Hvl) as (v & Ev & Eb).
  assert (Hfit : Forall (fun h => hdr_pre char_signed h /\ okv (hdr_comma_separated (hdr_id h)) (hdr_val h)) hs).
  { unfold hs, reply_headers. apply Forall_app. split; [|by apply end_fit]. eapply reply_list_fit; [exact An|exact Hto|exact Bv|by intros x|apply Hls]. }
  split_and!.
  - eapply Forall_impl; [exact Hfit|]. by intros h [Hp _].
  - apply Forall_map. eapply Forall_impl; [exact Hfit|]. intros h [Hp [Hc _]]. by apply line_of_ok.
  - unfold hs, reply_headers, reply_end. rewrite !map_app, app_assoc. intros E. apply app_eq_nil in E as [_ E]. discriminate E.
  - unfold hs, reply_headers. apply all_parse_app; [|apply quiet_parse, end_quiet]. eapply reply_list_parse; [exact Hto|exact Ev|exact An|by intros x|apply Hls].
Qed.

(** A status line and lines that are all taken. *)
Lemma decode_succeeds tag y z ls m0 m : nospace y = true -> word [CR; LF] z = true -> 0 < zlength y -> Forall (line_ok char_signed) ls -> ls <> [] -> zlength (msg_text (chars "SIP/2.0") y z ls []) < 2 ^ 31 ->
  start_line (chars "SIP/2.0") y z tag = Ok m0 -> msg_lines char_signed m0 ls = Some (Ok m) -> decode_text char_signed tag (msg_text (chars "SIP/2.0") y z ls []) = Some (Ok (m, 0)).
Proof.
  intros Hy Hz Ly Hls Hne Hl E0 E1. assert (Lx : 0 < zlength (chars "SIP/2.0")) by (by vm_compute). rewrite decode_lines by done. unfold msg_alloc.
  destruct (mem_alloc_ample Ham SIP_MSG_STRUCT) as [? ->]; [done|]. destruct (mem_alloc_ample Ham HASH_STRUCT) as [? ->]; [done|].
  destruct (mem_alloc_ample Ham (hash_valid_size HDR_HASH_SIZE * LIST_STRUCT)) as [? ->]; [by vm_compute|]. cbn [andthen]. rewrite E0. cbn [andthen]. by rewrite E1.
Qed.

(** Whoever decodes the text of the reply. *)
Lemma reply_decoded msg scode reason software tp sentby br tail host port tag : answerable msg tp sentby br tail host port -> listed char_signed msg -> to_fit msg scode ->
  0 < scode < 2 ^ 16 -> pl_strcmp (Some reason) (chars "SIP/2.0") <> 0 -> word [CR; LF] reason = true -> (forall sw, software = Some sw -> okv false sw) ->
  let text := reply_message char_signed msg scode reason software (reply_via msg tp sentby br tail) in bytes text -> zlength text < 2 ^ 31 ->
  exists rsp, decode_text char_signed tag text = Some (Ok (rsp, 0)) /\ from_lines char_signed (chars "SIP/2.0") (dec_str scode) reason rsp /\ answers msg rsp scode br.
Proof.
  intros An Hls Hto Hsc Hr Hw Hsw text Bt Hl. destruct (reply_via_bounds _ _ _ _ _ _ _ _ _ _ An Bt Hl) as [Bv Hvl]. unfold text, reply_message in *. clear text.
  destruct (reply_headers_fit _ scode software _ _ _ _ _ _ An Hls Hto Hsw Bv Hvl) as (Hp & Hlines & Hne & Ha).
  assert (Hrs : forall rsp, m_req rsp = false -> m_scode rsp = scode -> says rsp (reply_headers char_signed msg scode software (reply_via msg tp sentby br tail)) -> answers msg rsp scode br) by (intros rsp; by eapply reply_says).
  revert Hp Hlines Hne Ha Hrs Bt Hl. generalize (reply_headers char_signed msg scode software (reply_via msg tp sentby br tail)). intros hs Hp Hlines Hne Ha Hrs Bt Hl.
  destruct (reply_start scode reason tag Hsc Hr) as (m0 & E0 & Esc & Erq & El & Hs0). rewrite <- El in Hs0.
  destruct (lines_succeed Ham char_signed hs m0 Hs0 Hp) as (rsp & E1 & El1 & Hs1 & Esc1); [rewrite El; exact Ha|].
  destruct (lines_grown char_signed _ Hlines (text_line_bytes _ _ _ _ _ Bt) _ _ E1) as (_ & _ & _ & Erq1).
  pose proof (digits_nospace scode ltac:(lia)) as Hd. pose proof (dec_nonempty scode ltac:(lia)) as Ld. assert (Lx : 0 < zlength (chars "SIP/2.0")) by (by vm_compute).
  assert (Ed : decode_text char_signed tag (msg_text (chars "SIP/2.0") (dec_str scode) reason (map line_of hs) []) = Some (Ok (rsp, 0))) by exact (decode_succeeds _ _ _ _ _ _ Hd Hw Ld Hlines Hne Hl E0 E1).
  exists rsp. split; [exact Ed|]. split; [|apply Hrs; [congruence|congruence|rewrite El in El1; cbn [app] in El1; by rewrite <- El1]].
  exists tag, (map line_of hs), []. split_and!; [exact Bt|exact Hl|reflexivity|exact Hd|exact Hw|exact Lx|exact Ld|exact Hlines|exact Hne|exact Ed].
Qed.

(** Client transactions are found by the branch and the method. *)
Lemma answer_lookup msg rsp scode br s : via_branch (m_via msg) = Some br -> answers msg rsp scode br -> lookup_ct char_signed rsp s = lookup_ct char_signed msg s.
Proof. intros Eb K. unfold lookup_ct, SipCtrans.cmp_handler. by rewrite (as_branch _ _ _ _ K), (as_cseq _ _ _ _ K), Eb. Qed.
End Decoded.

(** ** The two sides *)

Section Call.
Context `{H : Host} `{P : Platform} `{R : Resolver} (char_signed : bool).

(** The request as the transport hands it on: with its source, the transport and
    a tag of this side. *)
Definition delivered (src : sa) (tp : sip_transp) (tag : Z) (req : sip_msg) : sip_msg := set_tag tag (set_tp tp (set_src src req)).

Lemma delivered_listed src tp tag req : listed char_signed req -> listed char_signed (delivered src tp tag req).
Proof. done. Qed.

(** What may be replied. *)
Record reply_ok (msg : sip_msg) (scode : Z) (reason : list Z) (software : option (list Z)) (tp sentby br tail host port : list Z) : Prop := {
  rk_msg : answerable msg tp sentby br tail host port;
  rk_to : to_fit msg scode;
  rk_scode : 0 < scode < 2 ^ 16;
  rk_reason : word [CR; LF] reason = true /\ bytes reason /\ pl_strcmp (Some reason) (chars "SIP/2.0") <> 0;
  rk_software : forall sw, software = Some sw -> okv false sw;
  rk_size : zlength (reply_message char_signed msg scode reason software (reply_via msg tp sentby br tail)) < 2 ^ 31;
}.

Lemma reply_wire (Ham : ample_memory) msg scode reason software tp sentby br tail host port : listed char_signed msg -> reply_ok msg scode reason software tp sentby br tail host port ->
  exists mb, reply_text msg false scode reason software None = Some (Ok (mb, rport_asked tail))
    /\ forall tag2 mb2, unread mb2 = unread mb -> exists rsp mb3, sip_msg_decode char_signed tag2 mb2 = Some (Ok (rsp, mb3))
      /\ from_lines char_signed (chars "SIP/2.0") (dec_str scode) reason rsp /\ answers msg rsp scode br.
Proof.
  intros Hls [An Hto Hsc (Hw & Br & Hr) Hsw Hl]. destruct (reply_text_append Ham char_signed msg scode reason software tp sentby br tail host port An Hls ltac:(lia) Br (fun sw E => proj2 (Hsw sw E)) Hl) as (mb & E & Eu & Bt).
  exists mb. split; [exact E|]. intros tag2 mb2 E2. destruct (reply_decoded Ham char_signed msg scode reason software tp sentby br tail host port tag2 An Hls Hto Hsc Hr Hw Hsw Bt Hl) as (rsp & Ed & Hfl & K).
  exists rsp, (mbuf_set_pos mb2 (mb_end mb2 - 0)). split_and!; [|exact Hfl|exact K]. unfold sip_msg_decode. fold (unread mb2). by rewrite E2, Eu, Ed.
Qed.

(** A transaction that is changed is still found. *)
Lemma lookup_put msg s st st' : NoDup (map st_id (ss_strans s)) -> lookup_st cmp_ack_handler msg s = Some st -> st_id st' = st_id st -> st_msg st' = st_msg st ->
  lookup_st cmp_ack_handler msg (put_st st' s) = Some st'.
Proof.
  intros Hd El Ei Em. unfold lookup_st in *. cbn [ss_size put_st set_strans ss_strans]. unfold put_st, set_strans. cbn [ss_strans ss_size]. revert El. set (f := fun st0 => _ && _).
  assert (Hf : f st' = f st) by (unfold f, cmp_ack_handler; by rewrite Em). clearbody f. induction (ss_strans s) as [|c l IH]; [done|]. cbn [map List.find] in *. apply NoDup_cons in Hd as [Hn Hd].
  destruct (f c) eqn:Ec; [intros [= ->]; by rewrite Ei, Z.eqb_refl, Hf, Ec|]. intros El. assert (Hne : st_id c <> st_id st).
  { intros E. apply Hn. rewrite E. apply list_elem_of_In, in_map. by eapply List.find_some in El as [? _]. }
  rewrite Ei, (proj2 (Z.eqb_neq _ _) Hne), Ec, <- Ei. by apply IH.
Qed.

Lemma reply_addr_some msg rport : exists dst, sip_reply_addr msg rport = Some dst.
Proof.
  unfold sip_reply_addr. pose proof (param_fine (via_params (m_via msg)) (chars "maddr") ltac:(cbn; tauto)) as Hp. destruct (m_tp msg); try by eexists. destruct (msg_param_decode _ _) as [[]|]; [by eexists..|done].
Qed.

(** The answer of 300 or more that a server transaction sends for its INVITE. *)
Lemma reject_sent now msg srv st scode reason mb rport :
  pl_strcmp (m_met msg) (chars "ACK") <> 0 -> find_st (st_id st) srv = Some st -> st_invite st = true -> 300 <= scode ->
  reply_text msg false scode reason (ss_software srv) None = Some (Ok (mb, rport)) ->
  exists dst st', sip_treply 0 now (Some (Some (st_id st))) msg scode reason srv = Some (0, Some None, put_st st' srv, [SSend (m_tp (st_msg st)) dst (unread mb)])
    /\ st_id st' = st_id st /\ st_msg st' = st_msg st /\ st_state st' = ST_COMPLETED
    /\ st_tmrg st' = (if sip_transp_reliable (m_tp (st_msg st)) then st_tmrg st else Some (now + SIP_T1)) /\ st_tmr st' = Some (now + 64 * SIP_T1).
Proof.
  intros Hm Ef Hi Hs Et. destruct (reply_addr_some msg rport) as [dst Ed]. exists dst, (st_set_state ST_COMPLETED (Some (now + 64 * SIP_T1)) (if sip_transp_reliable (m_tp (st_msg st)) then st_tmrg st else Some (now + SIP_T1)) (st_set_reply dst mb st)).
  split; [|by split_and!]. unfold sip_treply, sip_treplyf, vreplyf. rewrite (proj2 (Z.eqb_neq _ _) Hm), Et, Ed. unfold sip_strans_reply. rewrite andb_false_r. unfold strans_reply. rewrite Ef. cbn [st_send st_set_reply st_msg st_invite Z.eqb negb orb].
  rewrite Hi, (proj2 (Z.ltb_ge scode 200)), (proj2 (Z.ltb_ge scode 300)), (Z.geb_leb scode), (proj2 (Z.leb_le 200 scode)) by lia. done.
Qed.

(** C17: a reply reaches the transaction of its request.  A reply with any code
    from 1 to 65535, without Record-Route, extra headers or body, is printed for a
    request that was decoded from lines and whose first Via header is of the form
    the library writes (a branch, and ;rport or nothing behind it); where the
    request's To has no tag and the code is above 100, its To is in angle brackets
    and the reply adds a tag to it, and otherwise To is as in the request; the
    first Via header gets rport and received.  Whoever decodes that text, from
    whatever buffer, gets a response with the code, and with the branch, the
    sequence number and method, From and Call-ID of the request and this To; so
    the client finds for it, in any state, the transaction it finds for the
    request.  The text is below 2^31 bytes and memory suffices. *)
Theorem sip_reply_received (req : sip_msg) (x y z : list Z) (src : sa) (tr : sip_transp) (tag scode : Z) (reason : list Z) (software : option (list Z)) (tp sentby br tail host port : list Z) :
  ample_memory -> from_lines char_signed x y z req -> let msg := delivered src tr tag req in reply_ok msg scode reason software tp sentby br tail host port ->
  exists mb, reply_text msg false scode reason software None = Some (Ok (mb, rport_asked tail))
    /\ forall tag2 mb2, unread mb2 = unread mb -> exists rsp mb3, sip_msg_decode char_signed tag2 mb2 = Some (Ok (rsp, mb3))
      /\ answers msg rsp scode br /\ forall s, lookup_ct char_signed rsp s = lookup_ct char_signed req s.
Proof.
  intros Ham Hfl msg K. pose proof (delivered_listed src tr tag req (from_lines_listed char_signed _ _ _ _ Hfl)) as Hls. fold msg in Hls. destruct (reply_wire Ham _ _ _ _ _ _ _ _ _ _ Hls K) as (mb & E & Hd).
  exists mb. split; [exact E|]. intros tag2 mb2 Emb. destruct (Hd tag2 mb2 Emb) as (rsp & mb3 & Ed & _ & Ka). exists rsp, mb3. split_and!; [exact Ed|exact Ka|]. intros s.
  destruct (answer_params char_signed _ _ _ _ _ _ _ (rk_msg _ _ _ _ _ _ _ _ _ _ K) Hls) as (_ & Eb & _). exact (answer_lookup char_signed msg rsp scode br s Eb Ka).
Qed.

(** C16: a call is rejected.  A server transaction answers its INVITE with a code
    of 300 or more (below 65536), by a reply without extra headers or body: one
    reply is handed to the transport.  Whoever decodes it, and has the client
    transaction of the INVITE waiting, hands an ACK to its transport and the
    response to its user.  Whoever decodes that ACK beside the server transaction
    takes it for that transaction.  Over an unreliable transport the transaction
    then is confirmed: it stops retransmitting and goes away T4 later; over a
    reliable one it is gone at once.  The INVITE is one that was decoded from
    lines ([from_lines]) and has all mandatory headers; its first Via is of the
    form the library writes: a branch, and ;rport or nothing behind it; its To,
    where the reply adds a tag, is in angle brackets ([reply_ok]); the software
    names of both sides are texts that can stand in a header; the messages are
    below 2^31 bytes, sending succeeds and memory suffices. *)
Theorem sip_call_rejected (now1 now2 now3 tagc : Z) (req : sip_msg) (ruri : list Z) (src : sa) (tr : sip_transp) (tag scode : Z) (reason tp sentby br tail host port to : list Z) (s : sip) (ct : sip_ctrans) (srv : sips) (st : sip_strans) :
  ample_memory -> from_lines char_signed (chars "INVITE") ruri (chars "SIP/2.0") req -> mandatory req -> let msg := delivered src tr tag req in
  reply_ok msg scode reason (ss_software srv) tp sentby br tail host port -> 300 <= scode -> ta_val (m_to req) = Some to ->
  lookup_ct char_signed req s = Some ct -> ct_invite ct = true -> ct_state ct = CALLING \/ ct_state ct = PROCEEDING -> request_of char_signed tagc ct = Some (Ok req) ->
  (forall sw, s_software s = Some sw -> okv false sw) -> zlength (copy_message req (chars "ACK") (Some (to_value msg scode to)) (s_software s)) < 2 ^ 31 ->
  NoDup (map st_id (ss_strans srv)) -> lookup_st cmp_ack_handler req srv = Some st -> st_invite st = true ->
  exists dst text srv1, sip_treply 0 now1 (Some (Some (st_id st))) msg scode reason srv = Some (0, Some None, srv1, [SSend (m_tp (st_msg st)) dst text])
    /\ forall tag1 mb1, unread mb1 = text -> exists rsp mb1', sip_msg_decode char_signed tag1 mb1 = Some (Ok (rsp, mb1')) /\ answers msg rsp scode br
    /\ exists ack_text, (response_handler char_signed 0 now2 tagc rsp s).2 = CSend (ct_tp ct) (ct_dst ct) ack_text :: resp ct 0 (Some rsp)
    /\ forall tag2 mb2, unread mb2 = ack_text -> exists ack mb2', sip_msg_decode char_signed tag2 mb2 = Some (Ok (ack, mb2'))
    /\ exists srv2, request_handler 0 now3 ack srv1 = Some (true, srv2, [])
    /\ if sip_transp_reliable (m_tp (st_msg st)) then find_st (st_id st) srv2 = None
       else exists st2, find_st (st_id st) srv2 = Some st2 /\ st_state st2 = ST_CONFIRMED /\ st_tmrg st2 = None /\ st_tmr st2 = Some (now3 + SIP_T4).
Proof.
  intros Ham Hfl Hm msg K Hsc Eto Elc Hci Hcs Hq Hsw Hl Hnd Els Hsi. pose proof (delivered_listed src tr tag req (from_lines_listed char_signed _ _ _ _ Hfl)) as Hls. fold msg in Hls.
  destruct (reply_wire Ham _ _ _ _ _ _ _ _ _ _ Hls K) as (mb & Et & Hd). destruct (from_lines_request char_signed _ _ _ Hfl) as (Emet & _). destruct (lookup_st_find _ _ _ _ Hnd Els) as [Efs _].
  assert (Hack : pl_strcmp (m_met msg) (chars "ACK") <> 0) by (change (m_met msg) with (m_met req); rewrite Emet; by vm_compute).
  destruct (reject_sent now1 msg srv st scode reason mb _ Hack Efs Hsi Hsc Et) as (dst & st' & Er & Eid & Emsg & Est & _). exists dst, (unread mb), (put_st st' srv). split; [exact Er|].
  intros tag1 mb1 E1. destruct (Hd tag1 mb1 E1) as (rsp & mb1' & Ed1 & Hfr & Ka). exists rsp, mb1'. split_and!; [exact Ed1|exact Ka|].
  destruct (answer_params char_signed _ _ _ _ _ _ _ (rk_msg _ _ _ _ _ _ _ _ _ _ K) Hls) as (_ & Eb & _). 
  pose proof (eq_trans (answer_lookup char_signed msg rsp scode br s Eb Ka) Elc) as Ela.
  assert (Eto' : ta_val (m_to rsp) = Some (to_value msg scode to)) by (rewrite (as_to _ _ _ _ Ka); change (ta_val (m_to msg)) with (ta_val (m_to req)); by rewrite Eto).
  destruct (sip_reject_acknowledged char_signed now2 tagc rsp req s ct ruri (to_value msg scode to) (chars "SIP/2.0") (dec_str scode) reason Ham Ela Hci Hcs Hq Hfl Hm) as (text & Eo & Hk); [by rewrite (as_scode _ _ _ _ Ka)|exact Hfr|exact Eto'|exact Hsw|exact Hl|].
  exists text. split; [exact Eo|]. intros tag2 mb2 E2. destruct (Hk tag2 mb2 E2) as (ack & mb2' & Ed2 & _ & Hs2). exists ack, mb2'. split; [exact Ed2|].
  pose proof (lookup_put req srv st st' Hnd Els Eid Emsg) as Els1. eexists. split; [exact (Hs2 now3 _ _ Els1 Est)|]. rewrite Emsg, Eid.
  destruct (sip_transp_reliable _); [by rewrite st_find_drop, Z.eqb_refl|]. exists (st_set_state ST_CONFIRMED (Some (now3 + SIP_T4)) None st'). split; [|by split_and!].
  rewrite !st_find_put. change (st_id (st_set_state _ _ _ st')) with (st_id st'). by rewrite Eid, Z.eqb_refl, Efs.
Qed.
End Call.

(** ** Examples *)

#[local] Instance call_platform : Platform := {| cvt_ll := fun _ => 0; str_error := fun _ => []; sa_ntop := fun _ => Some (chars "10.0.0.1") |}.
#[local] Instance call_resolver : Resolver :=
  {| inet_pton4 := fun s => if bool_decide (s = chars "10.0.0.1") then Some 0x0a000001 else None; inet_pton6 := fun _ => None; getaddrinfo := fun _ => None |}.
#[local] Instance call_host : Host := lp64_le.

Definition ex_via : list Z := via_value (chars "UDP") (chars "10.0.0.1:5066") (chars "z9hG4bKnash") (chars ";rport").
Definition ex_invite_lines : list line :=
  [hline "Via" ex_via; hline "From" (chars "Alice <sip:alice@a.com>;tag=77"); hline "To" (chars "<sip:bob@b.com>"); hline "Call-ID" (chars "f81d4@a.com"); hline "CSeq" (chars "2 INVITE")].
Definition ex_text : list Z := msg_text (chars "INVITE") (chars "sip:bob@b.com") (chars "SIP/2.0") ex_invite_lines [].
Definition ex_req_mb : mbuf := Mbuf (Some ex_text) (zlength ex_text) 0 (zlength ex_text).
Definition ex_req : sip_msg := match sip_msg_decode true 5 ex_req_mb with Some (Ok (m, _)) => m | _ => msg0 end.

Lemma ex_line_ok name v : let l := hline name v in
  forallb (fun c => negb (blank c || eol c || (c =? ch ":"))) (ln_name l) && (0 <? zlength (ln_name l)) && core_ok (hdr_comma_separated (ln_id true l)) (ln_first l) = true -> line_ok true l.
Proof. intros l. rewrite !andb_true_iff. intros [[Hn Hl] Hc]. apply Z.ltb_lt in Hl. by split. Qed.

Lemma ex_from_lines : from_lines true (chars "INVITE") (chars "sip:bob@b.com") (chars "SIP/2.0") ex_req.
Proof.
  exists 5, ex_invite_lines, []. split_and!; [apply (bool_decide_unpack _); by vm_compute|by vm_compute|by vm_compute|by vm_compute|by vm_compute|by vm_compute|by vm_compute| |discriminate|vm_compute; reflexivity].
  unfold ex_invite_lines. do 5 (apply List.Forall_cons; [apply ex_line_ok; by vm_compute|]). constructor.
Qed.

Definition ex_src : sa := SaIn 0x0a000001 5066.
Definition ex_msg : sip_msg := delivered ex_src SIP_TRANSP_UDP 9 ex_req.

Lemma ex_answerable : answerable ex_msg (chars "UDP") (chars "10.0.0.1:5066") (chars "z9hG4bKnash") (chars ";rport") (chars "10.0.0.1") (chars "5066").
Proof.
  split; [|by vm_compute|by right|by vm_compute|by vm_compute|by vm_compute|by vm_compute|split_and!; [by vm_compute|by vm_compute|apply (bool_decide_unpack _); by vm_compute]].
  split; by vm_compute.
Qed.

Lemma ex_reply_ok software : software = None -> reply_ok true ex_msg 486 (chars "Busy Here") software (chars "UDP") (chars "10.0.0.1:5066") (chars "z9hG4bKnash") (chars ";rport") (chars "10.0.0.1") (chars "5066").
Proof.
  intros ->. split; [apply ex_answerable| |lia|split_and!; [by vm_compute|apply bytes_chars|by vm_compute]|done|by vm_compute].
  intros _ h Hin Hid. exists (chars "sip:bob@b.com"), []. assert (E : m_hdrl ex_msg = map (fun l => SipHdr (ln_name l) (ln_first l) (ln_id true l)) ex_invite_lines) by (vm_compute; reflexivity).
  rewrite E in Hin. cbn [map ex_invite_lines In] in Hin. destruct Hin as [<-|[<-|[<-|[<-|[<-|[]]]]]]; try (vm_compute in Hid; discriminate Hid).
  cbn [hdr_val ln_first hline]. split; [reflexivity|]. split; [reflexivity|]. split; [split; vm_compute; reflexivity|vm_compute; reflexivity].
Qed.

(** The client: the transaction of the INVITE, waiting. *)
Definition ex_ct : sip_ctrans := SipCtransaction 0 ex_src None (Some 32000) ex_req_mb None None (chars "INVITE") (chars "z9hG4bKnash") 1 SIP_TRANSP_UDP CALLING 1 true.
Definition ex_client : sip := Sip [ex_ct] 16 None 1.
Definition ex_srv_st : sip_strans := SipStransaction 0 None None sa0 ex_msg None None 0 ST_TRYING 0 true.
Definition ex_srv : sips := Sips [ex_srv_st] 16 None 1.

Lemma sip_reply_received_witness :
  exists mb, reply_text ex_msg false 486 (chars "Busy Here") None None = Some (Ok (mb, true)) /\ exists rsp mb3, sip_msg_decode true 6 mb = Some (Ok (rsp, mb3)) /\ lookup_ct true rsp ex_client = Some ex_ct.
Proof.
  destruct (sip_reply_received true ex_req _ _ _ ex_src SIP_TRANSP_UDP 9 486 (chars "Busy Here") None (chars "UDP") (chars "10.0.0.1:5066") (chars "z9hG4bKnash") (chars ";rport") (chars "10.0.0.1") (chars "5066") lp64_ample ex_from_lines (ex_reply_ok None eq_refl))
    as (mb & E & Hd). exists mb. split; [exact E|]. destruct (Hd 6 mb eq_refl) as (rsp & mb3 & Ed & _ & Hl). exists rsp, mb3. split; [exact Ed|]. rewrite (Hl ex_client). clear. vm_compute. reflexivity.
Defined.

Definition whole (text : list Z) : mbuf := Mbuf (Some text) (zlength text) 0 (zlength text).
Lemma unread_whole text : unread (whole text) = text.
Proof. pose proof (zlength_nonneg text). unfold unread, whole, mbuf_get_left, mbuf_buf, mb_mem. cbn [mb_end mb_pos mb_buf]. rewrite zdrop_0. apply ztake_ge. destruct (Z.gtb_spec (zlength text) 0); lia. Qed.

Lemma sip_call_rejected_witness :
  exists dst text srv1, sip_treply 0 100 (Some (Some 0)) ex_msg 486 (chars "Busy Here") ex_srv = Some (0, Some None, srv1, [SSend SIP_TRANSP_UDP dst text])
    /\ exists rsp mb1 ack_text, sip_msg_decode true 6 (whole text) = Some (Ok (rsp, mb1)) /\ (response_handler true 0 200 5 rsp ex_client).2 = [CSend SIP_TRANSP_UDP ex_src ack_text; CResp 0 1 0 (Some rsp)]
    /\ exists ack mb2, sip_msg_decode true 7 (whole ack_text) = Some (Ok (ack, mb2)) /\ exists srv2, request_handler 0 300 ack srv1 = Some (true, srv2, []) /\ option_map st_state (find_st 0 srv2) = Some ST_CONFIRMED.
Proof.
  assert (Hm : mandatory ex_req) by (unfold mandatory; split_and!; vm_compute; eauto).
  assert (Hct : lookup_ct true ex_req ex_client = Some ex_ct) by (vm_compute; reflexivity). assert (Hq : request_of true 5 ex_ct = Some (Ok ex_req)) by (vm_compute; reflexivity).
  assert (Hst : lookup_st cmp_ack_handler ex_req ex_srv = Some ex_srv_st) by (vm_compute; reflexivity). assert (Hto : ta_val (m_to ex_req) = Some (chars "<sip:bob@b.com>")) by (vm_compute; reflexivity).
  assert (Hl : zlength (copy_message ex_req (chars "ACK") (Some (to_value ex_msg 486 (chars "<sip:bob@b.com>"))) None) < 2 ^ 31) by (vm_compute; reflexivity).
  assert (Hnd : NoDup (map st_id (ss_strans ex_srv))) by (apply (bool_decide_unpack _); by vm_compute).
  destruct (sip_call_rejected true 100 200 300 5 ex_req (chars "sip:bob@b.com") ex_src SIP_TRANSP_UDP 9 486 (chars "Busy Here") (chars "UDP") (chars "10.0.0.1:5066") (chars "z9hG4bKnash") (chars ";rport") (chars "10.0.0.1") (chars "5066")
    (chars "<sip:bob@b.com>") ex_client ex_ct ex_srv ex_srv_st lp64_ample ex_from_lines Hm (ex_reply_ok None eq_refl) ltac:(lia) Hto Hct eq_refl (or_introl eq_refl) Hq ltac:(discriminate) Hl Hnd Hst eq_refl)
    as (dst & text & srv1 & E & Hd). exists dst, text, srv1. split; [exact E|].
  destruct (Hd 6 (whole text) (unread_whole text)) as (rsp & mb1 & Ed1 & _ & ack_text & Eo & Hk). exists rsp, mb1, ack_text. split; [exact Ed1|]. split; [exact Eo|].
  destruct (Hk 7 (whole ack_text) (unread_whole ack_text)) as (ack & mb2 & Ed2 & srv2 & Er & st2 & Ef & Es & _). exists ack, mb2. split; [exact Ed2|]. exists srv2. split; [exact Er|].
  change (st_id ex_srv_st) with 0 in Ef. rewrite Ef. cbn [option_map]. rewrite Es. reflexivity.
Defined.
