(* ===== verification/Websock.v ===== *)
(** * WebSocket connections: src/src/websock/websock.c

    The framing and the connections of the WebSocket protocol.  A connection is the
    record [websock_conn]; every function that takes one returns it with what it
    hands to the TCP connection and to the handlers of the user ([wout]).  [None]
    in place of a result is a memory access out of bounds, [None] in place of the
    connection says that it has been freed.

    The handshake goes through the HTTP client and server and is not modelled: a
    connection starts where http_resp_handler or websock_accept_proto have opened
    it ([conn_open]).  Random numbers, what tcp_send returns and what the handler of
    the user does with a message are parameters. *)

From stdpp Require Import base list numbers strings.
From Stdlib Require Import ZArith Lia.
From S2P Require Import Prelude Endian Mbuf Fmt Print SipCtrans.

Open Scope Z_scope.

(** errno.h *)
Definition ENOTCONN : Z := 107.

Definition TIMEOUT_CLOSE : Z := 10000.
Definition BUFSIZE_MAX : Z := 131072.

(** enum websock_opcode *)
Definition WEBSOCK_CONT : Z := 0.
Definition WEBSOCK_TEXT : Z := 1.
Definition WEBSOCK_BIN : Z := 2.
Definition WEBSOCK_CLOSE : Z := 8.
Definition WEBSOCK_PING : Z := 9.
Definition WEBSOCK_PONG : Z := 10.

(** enum websock_scode: those the code sends *)
Definition WEBSOCK_GOING_AWAY : Z := 1001.
Definition WEBSOCK_PROTOCOL_ERROR : Z := 1002.
Definition WEBSOCK_MESSAGE_TOO_BIG : Z := 1009.
Definition WEBSOCK_INTERNAL_ERROR : Z := 1011.

Record websock_hdr := WebsockHdr {
  wh_fin : bool;
  wh_rsv1 : bool;
  wh_rsv2 : bool;
  wh_rsv3 : bool;
  wh_opcode : Z;
  wh_mask : bool;
  wh_len : Z;
  wh_mkey : list Z;
}.

Inductive websock_state := ACCEPTING | CONNECTING | OPEN | CLOSING | CLOSED.

#[export] Instance websock_state_eq_dec : EqDecision websock_state.
Proof. solve_decision. Defined.

(** The handler the timer is set to. *)
Inductive websock_tmr := Keepalive | Timeout.

(** [wc_tc]: there is a TCP connection.  [wc_user]: the handlers are those of the
    user, not dummy_recv_handler and internal_close_handler.  [wc_refs] is the
    reference count of the object, [wc_rand] the number of calls of rand_bytes. *)
Record websock_conn := WebsockConn {
  wc_tmr : option (Z * websock_tmr);
  wc_tc : bool;
  wc_mb : option mbuf;
  wc_user : bool;
  wc_state : websock_state;
  wc_kaint : Z;
  wc_active : bool;
  wc_refs : Z;
  wc_rand : Z;
}.

Definition wc_set_tmr x (c : websock_conn) : websock_conn := WebsockConn x (wc_tc c) (wc_mb c) (wc_user c) (wc_state c) (wc_kaint c) (wc_active c) (wc_refs c) (wc_rand c).
Definition wc_set_tc x (c : websock_conn) : websock_conn := WebsockConn (wc_tmr c) x (wc_mb c) (wc_user c) (wc_state c) (wc_kaint c) (wc_active c) (wc_refs c) (wc_rand c).
Definition wc_set_mb x (c : websock_conn) : websock_conn := WebsockConn (wc_tmr c) (wc_tc c) x (wc_user c) (wc_state c) (wc_kaint c) (wc_active c) (wc_refs c) (wc_rand c).
Definition wc_set_user x (c : websock_conn) : websock_conn := WebsockConn (wc_tmr c) (wc_tc c) (wc_mb c) x (wc_state c) (wc_kaint c) (wc_active c) (wc_refs c) (wc_rand c).
Definition wc_set_state x (c : websock_conn) : websock_conn := WebsockConn (wc_tmr c) (wc_tc c) (wc_mb c) (wc_user c) x (wc_kaint c) (wc_active c) (wc_refs c) (wc_rand c).
Definition wc_set_refs x (c : websock_conn) : websock_conn := WebsockConn (wc_tmr c) (wc_tc c) (wc_mb c) (wc_user c) (wc_state c) (wc_kaint c) (wc_active c) x (wc_rand c).
Definition wc_set_rand x (c : websock_conn) : websock_conn := WebsockConn (wc_tmr c) (wc_tc c) (wc_mb c) (wc_user c) (wc_state c) (wc_kaint c) (wc_active c) (wc_refs c) x.

(** What leaves the connection: bytes to TCP, a message or the end of the
    connection to the user, and the release of the object. *)
Inductive wout :=
| WSend (data : list Z)
| WRecv (hdr : websock_hdr) (data : list Z)
| WClose (err : Z)
| WFree.

(** What the user may do with the connection. *)
Inductive uact :=
| USend (opcode : Z) (fmt : option prog)
| UClose (scode : Z) (fmt : option prog)
| URelease.

(** ** Frames *)

Section Frames.
Context `{H : Host}.

(** [for (i=0; i<len; i++) p[i] = p[i] ^ mkey[i%4];] over the memory from [p] on. *)
Fixpoint mask_loop (mkey : list Z) (p : list Z) (i len : Z) : option (list Z) :=
  if i <? len then
    match p with
    | [] => None
    | b :: p => match mask_loop mkey p (i + 1) len with Some p => Some (Z.lxor b (znth (i mod 4) mkey) :: p) | None => None end
    end
  else Some p.

Definition mask_payload (mkey : list Z) (len : Z) (mb : mbuf) : option mbuf :=
  match mb_buf mb with
  | None => if len =? 0 then Some mb else None
  | Some b => match mask_loop mkey (zdrop (mb_pos mb) b) 0 len with Some p => Some (set_mem mb (ztake (mb_pos mb) b ++ p)) | None => None end
  end.

(** The error is that of websock_decode; the header is only used without one. *)
Definition websock_decode (mb : mbuf) : option (res websock_hdr * mbuf) :=
  if mbuf_get_left mb <? 2 then Some (Err ENODATA, mb)
  else
    let '(v, mb) := mbuf_read_u8 mb in
    let '(v2, mb) := mbuf_read_u8 mb in
    let bit n := negb (Z.land (Z.shiftr v n) 1 =? 0) in
    let mask := negb (Z.land (Z.shiftr v2 7) 1 =? 0) in
    let len := Z.land v2 127 in
    let r :=
      if len =? 126 then
        if mbuf_get_left mb <? 2 then None else Some (read_be16 mb)
      else if len =? 127 then
        if mbuf_get_left mb <? 8 then None else Some (read_be64 mb)
      else Some (len, mb) in
    match r with
    | None => Some (Err ENODATA, mb)
    | Some (len, mb) =>
        let hdr mkey := WebsockHdr (bit 7) (bit 6) (bit 5) (bit 4) (Z.land v 15) mask len mkey in
        if mask then
          if mbuf_get_left mb <? u64 (4 + len) then Some (Err ENODATA, mb)
          else
            let '(k0, mb) := mbuf_read_u8 mb in
            let '(k1, mb) := mbuf_read_u8 mb in
            let '(k2, mb) := mbuf_read_u8 mb in
            let '(k3, mb) := mbuf_read_u8 mb in
            match mask_payload [k0; k1; k2; k3] len mb with
            | Some mb => Some (Ok (hdr [k0; k1; k2; k3]), mb)
            | None => None
            end
        else if mbuf_get_left mb <? len then Some (Err ENODATA, mb)
        else Some (Ok (hdr []), mb)
    end.

Definition frame_len (mask : bool) (len : Z) : mbuf -> Z * mbuf :=
  let m := Z.shiftl (Z.b2z mask) 7 in
  if len >? 0xffff then (mbuf_write_u8 (Z.lor m 127) ;| write_be64 len)%mbuf
  else if len >? 125 then (mbuf_write_u8 (Z.lor m 126) ;| write_be16 (u16 len))%mbuf
  else mbuf_write_u8 (Z.lor m (u8 len)).

Definition websock_encode (fin : bool) (opcode : Z) (mask : bool) (mkey : list Z) (len : Z) (mb : mbuf) : option (Z * mbuf) :=
  let '(err, mb) := (mbuf_write_u8 (Z.lor (Z.shiftl (Z.b2z fin) 7) (Z.land opcode 15)) ;| frame_len mask len)%mbuf mb in
  if mask then
    let '(e, mb) := mbuf_write_mem mb mkey in
    match mask_payload mkey len mb with Some mb => Some (Z.lor err e, mb) | None => None end
  else Some (err, mb).
End Frames.

(** ** Connections *)

Section Conn.
Context `{H : Host} `{P : Platform}.
(** rand_bytes for the masking key, and tcp_send. *)
Context (rand : Z -> list Z) (tcp_send : list Z -> Z).

(** A connection after the handshake. *)
Definition conn_open (now : Z) (active : bool) (kaint : Z) : websock_conn :=
  WebsockConn (if kaint =? 0 then None else Some (now + kaint, Keepalive)) true None true OPEN kaint active 1 0.

Definition websock_vsend (opcode scode : Z) (fmt : option prog) (c : websock_conn) : option (Z * websock_conn * list wout) :=
  if bool_decide (wc_state c = OPEN) then
    let hsz := if wc_active c then 14 else 10 in
    match mbuf_alloc 2048 with
    | None => Some (ENOMEM, c, [])
    | Some mb =>
        match mb_or (if scode =? 0 then mb_skip else mb_do (write_be16 scode)) (match fmt with Some p => run vprintf_handler p | None => mb_skip end) (mbuf_set_pos mb hsz) with
        | None => None
        | Some (err, mb) =>
            if negb (err =? 0) then Some (err, c, [])
            else
              let len := mb_pos mb - hsz in
              let start := if len >? 0xffff then 0 else if len >? 125 then 6 else 8 in
              let mkey := rand (wc_rand c) in
              let c := if wc_active c then wc_set_rand (wc_rand c + 1) c else c in
              match websock_encode true opcode (wc_active c) mkey len (mbuf_set_pos mb start) with
              | None => None
              | Some (err, mb) =>
                  if negb (err =? 0) then Some (err, c, [])
                  else
                    let data := unread (mbuf_set_pos mb start) in
                    let err := tcp_send data in
                    Some (err, c, if err =? 0 then [WSend data] else [])
              end
        end
    end
  else Some (ENOTCONN, c, []).

Definition websock_send (opcode : Z) (fmt : option prog) (c : websock_conn) := websock_vsend opcode 0 fmt c.

Definition websock_close (scode : Z) (fmt : option prog) (c : websock_conn) : option (Z * websock_conn * list wout) :=
  let fmt := if scode =? 0 then None else fmt in
  match websock_vsend WEBSOCK_CLOSE scode fmt c with
  | None => None
  | Some (err, c, o) => Some (err, if err =? 0 then wc_set_state CLOSING c else c, o)
  end.

Definition going_away (c : websock_conn) : option (Z * websock_conn * list wout) :=
  websock_close WEBSOCK_GOING_AWAY (Some (re_vhprintf (chars "Going Away") [])) c.

(** conn_destructor, called by mem_deref when no reference is left; [None]: freed. *)
Definition conn_destructor (now : Z) (c : websock_conn) : option (option websock_conn * list wout) :=
  match (if bool_decide (wc_state c = OPEN) then going_away c else Some (0, c, [])) with
  | None => None
  | Some (_, c, o) =>
      if bool_decide (wc_state c = CLOSING) then
        Some (Some (wc_set_refs (wc_refs c + 1) (wc_set_tmr (Some (now + TIMEOUT_CLOSE, Timeout)) (wc_set_user false c))), o)
      else Some (None, o ++ [WFree])
  end.

Definition conn_deref (now : Z) (c : websock_conn) : option (option websock_conn * list wout) :=
  let c := wc_set_refs (wc_refs c - 1) c in
  if wc_refs c >? 0 then Some (Some c, []) else conn_destructor now c.

(** The handler closeh is that of the user, or internal_close_handler. *)
Definition conn_close (now err : Z) (c : websock_conn) : option (option websock_conn * list wout) :=
  let c := wc_set_state CLOSED (wc_set_tc false (wc_set_tmr None c)) in
  if wc_user c then Some (Some c, [WClose err]) else conn_deref now c.

Definition websock_err2scode (err : Z) : Z :=
  if err =? EOVERFLOW then WEBSOCK_MESSAGE_TOO_BIG
  else if (err =? EPROTO) || (err =? EBADMSG) then WEBSOCK_PROTOCOL_ERROR
  else WEBSOCK_INTERNAL_ERROR.

(** The label out of recv_handler. *)
Definition recv_fail (now err : Z) (c : websock_conn) : option (option websock_conn * list wout) :=
  match websock_close (websock_err2scode err) None c with
  | None => None
  | Some (_, c, o) => match conn_close now err c with None => None | Some (c, o') => Some (c, o ++ o') end
  end.

(** One action of the user. *)
Definition user_act (now : Z) (a : uact) (c : websock_conn) : option (option websock_conn * list wout) :=
  match a with
  | USend opcode fmt => match websock_send opcode fmt c with Some (_, c, o) => Some (Some c, o) | None => None end
  | UClose scode fmt => match websock_close scode fmt c with Some (_, c, o) => Some (Some c, o) | None => None end
  | URelease => conn_deref now c
  end.
(** A use of the connection after it was freed is out of bounds. *)
Fixpoint user_acts (now : Z) (l : list uact) (c : websock_conn) : option (websock_conn * list wout) :=
  match l with
  | [] => Some (c, [])
  | a :: l =>
      match user_act now a c with
      | Some (Some c, o) => match user_acts now l c with Some (c, o') => Some (c, o ++ o') | None => None end
      | _ => None
      end
  end.

(** The handler of the user. *)
Context (recvh : websock_hdr -> list Z -> list uact).

(** WEBSOCK_CONT, WEBSOCK_TEXT and WEBSOCK_BIN: the object is held during the call
    of the handler. *)
Definition recv_message (now : Z) (hdr : websock_hdr) (mb : mbuf) (c : websock_conn) : option (option websock_conn * list wout) :=
  let c := wc_set_refs (wc_refs c + 1) c in
  let o := if wc_user c then [WRecv hdr (unread mb)] else [] in
  match user_acts now (if wc_user c then recvh hdr (unread mb) else []) c with
  | None => None
  | Some (c, o1) =>
      if wc_refs c =? 1 then
        match (if bool_decide (wc_state c = OPEN) then going_away c else Some (0, c, [])) with
        | None => None
        | Some (_, c, o2) =>
            match conn_deref now (wc_set_state CLOSING c) with
            | Some (c, o3) => Some (c, o ++ o1 ++ o2 ++ o3)
            | None => None
            end
        end
      else match conn_deref now c with Some (c, o3) => Some (c, o ++ o1 ++ o3) | None => None end
  end.

(** [fmt] of the replies to control frames: the payload with %b. *)
Definition payload_fmt (mb : mbuf) : option prog := Some (re_vhprintf (chars "%b") [PStr (Some (mbuf_buf mb)); PLong (mbuf_get_left mb)]).

(** The loop of recv_handler; each turn takes two bytes or more. *)
Fixpoint recv_frames (fuel : nat) (now : Z) (c : websock_conn) : option (option websock_conn * list wout) :=
  match wc_mb c with
  | None => Some (Some c, [])
  | Some mb =>
      match fuel with
      | O => None
      | S fuel =>
          let pos := mb_pos mb in
          match websock_decode mb with
          | None => None
          | Some (Err err, mb) =>
              if err =? ENODATA then Some (Some (wc_set_mb (Some (mbuf_set_pos mb pos)) c), [])
              else recv_fail now err (wc_set_mb (Some mb) c)
          | Some (Ok hdr, mb) =>
              let c := wc_set_mb (Some mb) c in
              if eqb (wc_active c) (wh_mask hdr) then recv_fail now EPROTO c
              else if wh_rsv1 hdr || wh_rsv2 hdr || wh_rsv3 hdr then recv_fail now EPROTO c
              else
                let end_ := mb_end mb in
                let rest := zdrop (mb_pos mb + wh_len hdr) (ztake end_ (mb_mem mb)) in
                let mb := mbuf_set_end mb (mb_pos mb + wh_len hdr) in
                let next :=
                  if end_ >? mb_end mb then
                    match mbuf_alloc (end_ - mb_end mb) with
                    | None => None
                    | Some mbn => Some (Some (mbuf_set_pos (mbuf_write_mem mbn rest).2 0))
                    end
                  else Some None in
                match next with
                | None => recv_fail now ENOMEM (wc_set_mb (Some mb) c)
                | Some mbn =>
                    let c := wc_set_mb mbn c in
                    let go (r : option (option websock_conn * list wout)) :=
                      match r with
                      | Some (Some c, o) => match recv_frames fuel now c with Some (c, o') => Some (c, o ++ o') | None => None end
                      | _ => None
                      end in
                    let op := wh_opcode hdr in
                    if (op =? WEBSOCK_CONT) || (op =? WEBSOCK_TEXT) || (op =? WEBSOCK_BIN) then go (recv_message now hdr mb c)
                    else if op =? WEBSOCK_CLOSE then
                      match (if bool_decide (wc_state c = OPEN) then websock_send WEBSOCK_CLOSE (payload_fmt mb) c else Some (0, c, [])) with
                      | None => None
                      | Some (_, c, o) => match conn_close now 0 c with Some (c, o') => Some (c, o ++ o') | None => None end
                      end
                    else if op =? WEBSOCK_PING then
                      go (match websock_send WEBSOCK_PONG (payload_fmt mb) c with Some (_, c, o) => Some (Some c, o) | None => None end)
                    else if op =? WEBSOCK_PONG then go (Some (Some c, []))
                    else recv_fail now EPROTO c
                end
          end
      end
  end.

(** [mb] is the buffer tcp.c hands over. *)
Definition recv_handler (now : Z) (mb : mbuf) (c : websock_conn) : option (option websock_conn * list wout) :=
  let go c := match wc_mb c with Some mb => recv_frames (S (Z.to_nat (mbuf_get_left mb))) now c | None => Some (Some c, []) end in
  match wc_mb c with
  | Some cmb =>
      let len := mbuf_get_left mb in
      let pos := mb_pos cmb in
      if u64 (mbuf_get_left cmb + len) >? BUFSIZE_MAX then recv_fail now EOVERFLOW c
      else
        let '(err, cmb) := mbuf_write_mem (mbuf_set_pos cmb (mb_end cmb)) (ztake len (mbuf_buf mb)) in
        if negb (err =? 0) then recv_fail now err (wc_set_mb (Some cmb) c)
        else go (wc_set_mb (Some (mbuf_set_pos cmb pos)) c)
  | None => go (wc_set_mb (Some mb) c)
  end.

(** ** Timers and the end of the TCP connection *)

Definition timeout_handler (now : Z) (c : websock_conn) := conn_close now ETIMEDOUT c.

Definition keepalive_handler (now : Z) (c : websock_conn) : option (option websock_conn * list wout) :=
  let c := wc_set_tmr (Some (now + wc_kaint c, Keepalive)) c in
  match websock_send WEBSOCK_PING None c with Some (_, c, o) => Some (Some c, o) | None => None end.

Definition close_handler (now err : Z) (c : websock_conn) := conn_close now err c.
End Conn.
