(* ===== verification/WebsockSpec.v ===== *)
(** * WebSocket: what the frames say and what arrives

    Frames are characterised as byte strings ([frame]); the decoder gives back what
    they hold, waits for the rest of an incomplete one, and leaves its buffer only
    where the length of a masked frame wraps around.  Messages sent on one side
    arrive on the other one, however TCP cuts the stream. *)

From stdpp Require Import base list numbers strings.
From Stdlib Require Import ZArith Lia.
From S2P Require Import Prelude Endian Mbuf MbufView Fmt Print Sa UriSpec SipCtrans SipWire Websock.

Open Scope Z_scope.

(** ** Masks *)

Fixpoint masked (key : list Z) (i : Z) (d : list Z) : list Z :=
  match d with [] => [] | b :: d => Z.lxor b (znth (i mod 4) key) :: masked key (i + 1) d end.

Lemma masked_length key d : forall i, zlength (masked key i d) = zlength d.
Proof. induction d as [|b d IH]; intros i; [done|]. cbn [masked]. by rewrite !zlength_cons, IH. Qed.

Lemma masked_twice key d : forall i, masked key i (masked key i d) = d.
Proof. induction d as [|b d IH]; intros i; [done|]. cbn [masked]. by rewrite IH, Z.lxor_assoc, Z.lxor_nilpotent, Z.lxor_0_r. Qed.

Lemma lxor_byte a b : is_byte a -> is_byte b -> is_byte (Z.lxor a b).
Proof.
  unfold is_byte. intros Ha Hb. split; [apply Z.lxor_nonneg; lia|]. change 256 with (2 ^ 8). destruct (Z.eq_dec (Z.lxor a b) 0) as [->|Hn]; [lia|].
  assert (Hp : 0 <= Z.lxor a b) by (apply Z.lxor_nonneg; lia). apply Z.log2_lt_pow2; [lia|]. eapply Z.le_lt_trans; [apply Z.log2_lxor; lia|]. apply Z.max_lub_lt.
  - destruct (Z.eq_dec a 0) as [->|]; [by vm_compute|]. apply Z.log2_lt_pow2; lia.
  - destruct (Z.eq_dec b 0) as [->|]; [by vm_compute|]. apply Z.log2_lt_pow2; lia.
Qed.

Lemma key_byte key i : bytes key -> is_byte (znth i key).
Proof.
  intros Hk. unfold znth. destruct (i <? 0); [by vm_compute|]. destruct (nth_in_or_default (Z.to_nat i) key 0) as [Hin| ->]; [|by vm_compute]. rewrite List.Forall_forall in Hk. by apply Hk.
Qed.

Lemma masked_bytes key d : bytes key -> forall i, bytes d -> bytes (masked key i d).
Proof.
  intros Hk. induction d as [|b d IH]; intros i Hd; [constructor|]. apply Forall_cons in Hd as [Hb Hd]. cbn [masked]. constructor; [|by apply IH]. apply lxor_byte; [done|by apply key_byte].
Qed.

Lemma mask_loop_done key d r : forall i, mask_loop key (d ++ r) i (i + zlength d) = Some (masked key i d ++ r).
Proof.
  induction d as [|b d IH]; intros i; cbn [app masked].
  - rewrite zlength_nil, Z.add_0_r. destruct r; cbn [mask_loop]; by rewrite Z.ltb_irrefl.
  - rewrite zlength_cons. pose proof (zlength_nonneg d). cbn [mask_loop]. rewrite (proj2 (Z.ltb_lt _ _)) by lia. replace (i + (1 + zlength d)) with (i + 1 + zlength d) by lia. by rewrite IH.
Qed.

Lemma mask_loop_out key p : forall i len, i + zlength p < len -> mask_loop key p i len = None.
Proof.
  induction p as [|b p IH]; intros i len Hl; [rewrite zlength_nil in Hl|rewrite zlength_cons in Hl; pose proof (zlength_nonneg p)]; cbn [mask_loop]; rewrite (proj2 (Z.ltb_lt _ _)) by lia; [done|]. by rewrite IH by lia.
Qed.

(** In the contents of a buffer. *)
Lemma mask_holds key mb a d r : holds mb (a ++ d ++ r) (zlength a) -> bytes key ->
  exists mb', mask_payload key (zlength d) mb = Some mb' /\ holds mb' (a ++ masked key 0 d ++ r) (zlength a).
Proof.
  intros Hh Hk. pose proof (holds_bytes _ _ _ Hh) as Hb. rewrite !bytes_app in Hb. destruct Hb as (_ & Hd & _). pose proof (masked_bytes key d Hk 0 Hd) as Hm.
  pose proof (zlength_nonneg a). pose proof (zlength_nonneg d). pose proof (zlength_nonneg r). pose proof (holds_end _ _ _ Hh) as He. rewrite !zlength_app in He.
  assert (Hs : holds (mb_store mb (zlength a) (masked key 0 d)) (a ++ masked key 0 d ++ r) (zlength a)).
  { rewrite <- (zsplice_mid a d (masked key 0 d) r) by apply masked_length. apply holds_store; [done|lia|rewrite masked_length, !zlength_app; lia|done]. }
  destruct Hh as [W Hc Hp]. unfold mask_payload. destruct (mb_buf mb) as [b|] eqn:Eb.
  - assert (Hpre : exists y, b = a ++ d ++ r ++ y).
    { unfold content, mb_mem in Hc. rewrite Eb in Hc. cbn in Hc. exists (zdrop (mb_end mb) b). rewrite <- (ztake_zdrop (mb_end mb) b), Hc at 1. by rewrite <- !app_assoc. }
    destruct Hpre as [y ->]. rewrite Hp, zdrop_app_exact, ztake_app_exact. pose proof (mask_loop_done key d (r ++ y) 0) as E. rewrite Z.add_0_l in E. rewrite E. eexists. split; [done|].
    unfold mb_store in Hs. replace (mb_mem mb) with (a ++ d ++ r ++ y) in Hs by (unfold mb_mem; by rewrite Eb). rewrite zsplice_mid in Hs by apply masked_length. exact Hs.
  - assert (Hn : a ++ d ++ r = []) by (rewrite <- Hc; unfold content, mb_mem, ztake; rewrite Eb; apply take_nil). apply app_eq_nil in Hn as [-> Hn]. apply app_eq_nil in Hn as [-> ->].
    exists mb. split; [done|by split].
Qed.

(** ** The decoder *)

Section Decode.
Context `{H : Host}.

(** The length behind the second byte [v2], and the bytes it takes. *)
Definition len_field (v2 : Z) (r : list Z) : option (Z * Z) :=
  let l := Z.land v2 127 in
  if l =? 126 then if zlength r <? 2 then None else Some (be_val (ztake 2 r), 2)
  else if l =? 127 then if zlength r <? 8 then None else Some (be_val (ztake 8 r), 8)
  else Some (l, 0).

Definition masks (v2 : Z) : bool := negb (Z.land (Z.shiftr v2 7) 1 =? 0).

Definition hdr_bits (v v2 len : Z) (key : list Z) : websock_hdr :=
  let bit n := negb (Z.land (Z.shiftr v n) 1 =? 0) in WebsockHdr (bit 7) (bit 6) (bit 5) (bit 4) (Z.land v 15) (masks v2) len key.

(** The decoder behind the length. *)
Definition decode_tail (v v2 len : Z) (mb : mbuf) : option (res websock_hdr * mbuf) :=
  if masks v2 then
    if mbuf_get_left mb <? u64 (4 + len) then Some (Err ENODATA, mb)
    else
      let '(k0, mb) := mbuf_read_u8 mb in
      let '(k1, mb) := mbuf_read_u8 mb in
      let '(k2, mb) := mbuf_read_u8 mb in
      let '(k3, mb) := mbuf_read_u8 mb in
      match mask_payload [k0; k1; k2; k3] len mb with
      | Some mb => Some (Ok (hdr_bits v v2 len [k0; k1; k2; k3]), mb)
      | None => None
      end
  else if mbuf_get_left mb <? len then Some (Err ENODATA, mb)
  else Some (Ok (hdr_bits v v2 len []), mb).

Lemma be_read n (r : list Z) : bytes r -> Z.of_nat n <= zlength r -> r = be_bytes n (be_val (ztake (Z.of_nat n) r)) ++ zdrop (Z.of_nat n) r /\ 0 <= be_val (ztake (Z.of_nat n) r) < 256 ^ Z.of_nat n.
Proof.
  intros Hr Hl. assert (Hb : bytes (ztake (Z.of_nat n) r)) by (rewrite <- (ztake_zdrop (Z.of_nat n) r), bytes_app in Hr; tauto).
  assert (Hn : length (ztake (Z.of_nat n) r) = n) by (pose proof (zlength_ztake (Z.of_nat n) r ltac:(lia)) as E; unfold zlength in E; lia).
  split; [|pose proof (be_val_bound _ Hb) as Hv; by rewrite Hn in Hv]. rewrite <- Hn at 1. rewrite be_bytes_be_val by done. by rewrite ztake_zdrop.
Qed.

Lemma ws_decode_read mb v v2 r : mbuf_wf mb -> rest mb = v :: v2 :: r ->
  websock_decode mb = match len_field v2 r with None => Some (Err ENODATA, adv mb 2) | Some (len, n) => decode_tail v v2 len (adv mb (2 + n)) end
  /\ match len_field v2 r with None => True | Some (len, n) => mbuf_wf (adv mb (2 + n)) /\ rest (adv mb (2 + n)) = zdrop n r /\ 0 <= len < 2 ^ 64 /\ 0 <= n end.
Proof.
  intros W E. pose proof (bytes_rest mb W) as Hb. rewrite E in Hb. apply Forall_cons in Hb as [Hv Hb]. apply Forall_cons in Hb as [Hv2 Hb].
  destruct (mbuf_read_u8_cons mb v (v2 :: r) W E) as (E1 & W1 & R1). destruct (mbuf_read_u8_cons _ v2 r W1 R1) as (E2 & W2 & R2). rewrite adv_adv in *. change (1 + 1) with 2 in *.
  unfold websock_decode. rewrite mbuf_get_left_rest, E, !zlength_cons by done. pose proof (zlength_nonneg r). rewrite (proj2 (Z.ltb_ge _ 2)) by lia. rewrite E1, E2.
  assert (H127 : 0 <= Z.land v2 127 < 128) by (change 127 with (Z.ones 7); rewrite Z.land_ones by lia; apply Z.mod_pos_bound; lia).
  unfold len_field. rewrite !(mbuf_get_left_rest (adv mb 2)), R2 by done. destruct (Z.land v2 127 =? 126); [|destruct (Z.land v2 127 =? 127)].
  - destruct (Z.ltb_spec (zlength r) 2) as [Hs|Hs]; [done|]. destruct (be_read 2 r Hb ltac:(lia)) as [Er Hr]. change (Z.of_nat 2) with 2 in *. rewrite Er in R2 at 1. destruct (read_be16_app _ _ _ W2 R2) as (E3 & W3 & R3).
    rewrite adv_adv in *. rewrite E3, (wrap_small 16) by lia. split; [done|]. split_and!; try done; lia.
  - destruct (Z.ltb_spec (zlength r) 8) as [Hs|Hs]; [done|]. destruct (be_read 8 r Hb ltac:(lia)) as [Er Hr]. change (Z.of_nat 8) with 8 in *. rewrite Er in R2 at 1. destruct (read_be64_app _ _ _ W2 R2) as (E3 & W3 & R3).
    rewrite adv_adv in *. rewrite E3, (wrap_small 64 (be_val _)) by lia. split; [done|]. split_and!; try done; lia.
  - split; [done|]. rewrite Z.add_0_r. split_and!; try done; lia.
Qed.

(** A complete payload behind the key. *)
Lemma tail_masked v v2 key e r mb : masks v2 = true -> mbuf_wf mb -> rest mb = key ++ e ++ r -> zlength key = 4 -> zlength e < 2 ^ 32 ->
  exists mb', decode_tail v v2 (zlength e) mb = Some (Ok (hdr_bits v v2 (zlength e) key), mb') /\ mbuf_wf mb' /\ rest mb' = masked key 0 e ++ r /\ mb_pos mb' = mb_pos mb + 4.
Proof.
  intros Hm W E Hk Hl. pose proof (zlength_nonneg e). pose proof (zlength_nonneg r). unfold decode_tail. rewrite Hm, mbuf_get_left_rest, E, !zlength_app, Hk by done. rewrite wrap_small, (proj2 (Z.ltb_ge _ _)) by lia.
  pose proof (bytes_rest mb W) as Hb. rewrite E, !bytes_app in Hb. destruct Hb as (Bk & _ & _). destruct key as [|k0 [|k1 [|k2 [|k3 [|]]]]]; try (unfold zlength in Hk; cbn in Hk; lia). cbn [app] in E.
  destruct (mbuf_read_u8_cons _ _ _ W E) as (E0 & W0 & R0). destruct (mbuf_read_u8_cons _ _ _ W0 R0) as (E1 & W1 & R1). destruct (mbuf_read_u8_cons _ _ _ W1 R1) as (E2 & W2 & R2). destruct (mbuf_read_u8_cons _ _ _ W2 R2) as (E3 & W3 & R3).
  rewrite E0, E1, E2, E3. rewrite !adv_adv in *. cbn [Z.add Pos.add Pos.succ] in *.
  pose proof (holds_of_rest _ _ _ W3 eq_refl R3) as Hh. destruct (mask_holds [k0; k1; k2; k3] _ _ _ _ Hh Bk) as (mb' & -> & Hh'). exists mb'. split; [done|].
  pose proof (holds_rest _ _ _ Hh') as Hr. rewrite zdrop_app_exact in Hr. split_and!; [apply Hh'|done|]. rewrite (holds_pos _ _ _ Hh'), zlength_ztake; [done|]. apply pos_content. done.
Qed.

(** The length wraps around: the loop runs out of the memory. *)
Lemma tail_wraps v v2 len mb : masks v2 = true -> mbuf_wf mb -> 2 ^ 64 - 4 <= len < 2 ^ 64 -> len + 4 - 2 ^ 64 <= zlength (rest mb) -> decode_tail v v2 len mb = None.
Proof.
  intros Hm W Hl Hr. unfold decode_tail. rewrite Hm, mbuf_get_left_rest by done. assert (Eu : u64 (4 + len) = len + 4 - 2 ^ 64) by (unfold wrap; symmetry; apply (Z.mod_unique _ _ 1); lia). rewrite Eu, (proj2 (Z.ltb_ge _ _)) by lia.
  assert (Hrd : forall m, mbuf_wf m -> exists k m', mbuf_read_u8 m = (k, m') /\ mbuf_wf m').
  { intros m Wm. destruct (rest m) as [|b t] eqn:Et; [|destruct (mbuf_read_u8_cons m b t Wm Et) as (E & W' & _); by eauto].
    exists 0, m. split; [|done]. unfold mbuf_read_u8, mbuf_read_uint. rewrite mbuf_read_mem_short by (rewrite ?Et; done). done. }
  destruct (Hrd _ W) as (k0 & m0 & -> & W0). destruct (Hrd _ W0) as (k1 & m1 & -> & W1). destruct (Hrd _ W1) as (k2 & m2 & -> & W2). destruct (Hrd _ W2) as (k3 & m3 & -> & W3).
  assert (En : mask_payload [k0; k1; k2; k3] len m3 = None); [|by rewrite En]. unfold mask_payload. destruct (mb_buf m3) as [b|] eqn:Eb; [|by rewrite (proj2 (Z.eqb_neq _ _)) by lia].
  rewrite mask_loop_out; [done|]. destruct W3 as [Wl Wp We Wm _]. unfold mb_mem in Wl. rewrite Eb in Wl. cbn in Wl. unfold MEM_SIZE_MAX in Wm. rewrite zlength_zdrop by lia. lia.
Qed.

(** Frames whose length wraps around. *)
Definition wraps (d : list Z) : bool :=
  match d with
  | _ :: v2 :: r => masks v2 && match len_field v2 r with Some (len, n) => (2 ^ 64 - 4 <=? len) && (len + 4 - 2 ^ 64 <=? zlength r - n) | None => false end
  | _ => false
  end.

Lemma len_field_bytes v2 r len n : len_field v2 r = Some (len, n) -> 0 <= n <= zlength r.
Proof.
  pose proof (zlength_nonneg r). unfold len_field. destruct (_ =? 126); [destruct (Z.ltb_spec (zlength r) 2)|destruct (_ =? 127); [destruct (Z.ltb_spec (zlength r) 8)|]]; intros [= <- <-]; lia.
Qed.

(** What the decoder does with any buffer. *)
Definition decoded (mb : mbuf) (r : option (res websock_hdr * mbuf)) : Prop :=
  match r with
  | None => wraps (rest mb) = true
  | Some (Err e, mb') => wraps (rest mb) = false /\ e = ENODATA /\ mbuf_set_pos mb' (mb_pos mb) = mb
  | Some (Ok hdr, mb') => wraps (rest mb) = false /\ mbuf_wf mb' /\ 0 <= wh_len hdr <= zlength (rest mb')
  end.

Lemma ws_adv_back mb n : mbuf_set_pos (adv mb n) (mb_pos mb) = mb.
Proof. unfold adv, mbuf_set_pos. by destruct mb. Qed.

Lemma tail_decoded v v2 r len n mb : mbuf_wf mb -> rest mb = v :: v2 :: r -> masks v2 = true -> len_field v2 r = Some (len, n) -> mbuf_wf (adv mb (2 + n)) -> rest (adv mb (2 + n)) = zdrop n r -> 0 <= len < 2 ^ 64 -> 0 <= n ->
  decoded mb (decode_tail v v2 len (adv mb (2 + n))).
Proof.
  intros W E Em Ef W1 R1 Hlen Hn. pose proof (len_field_bytes _ _ _ _ Ef) as Hnr. assert (Hrl : zlength (rest (adv mb (2 + n))) = zlength r - n) by (rewrite R1; apply zlength_zdrop; lia).
  assert (Ew : wraps (rest mb) = (2 ^ 64 - 4 <=? len) && (len + 4 - 2 ^ 64 <=? zlength r - n)) by (rewrite E; cbn [wraps]; by rewrite Em, Ef).
  destruct (Z.leb_spec (2 ^ 64 - 4) len) as [Hw|Hw]; cbn [andb] in Ew.
  - destruct (Z.leb_spec (len + 4 - 2 ^ 64) (zlength r - n)) as [Hl|Hl]; [rewrite tail_wraps; (done || lia)|].
    unfold decode_tail. rewrite Em, mbuf_get_left_rest, Hrl by done. assert (Eu : u64 (4 + len) = len + 4 - 2 ^ 64) by (unfold wrap; symmetry; apply (Z.mod_unique _ _ 1); lia). rewrite Eu, (proj2 (Z.ltb_lt _ _)) by lia. split_and!; [done|done|apply ws_adv_back].
  - destruct (Z.ltb_spec (zlength r - n) (4 + len)) as [Hs|Hs].
    + unfold decode_tail. rewrite Em, mbuf_get_left_rest, Hrl, wrap_small, (proj2 (Z.ltb_lt _ _)) by (done || lia). split_and!; [done|done|apply ws_adv_back].
    + assert (Hsz : zlength r <= MEM_SIZE_MAX) by (pose proof (zlength_rest mb W) as Hz; rewrite E, !zlength_cons in Hz; mbuf_wf_facts; unfold MEM_SIZE_MAX in *; lia). unfold MEM_SIZE_MAX in Hsz.
      set (d := zdrop n r) in *. assert (Hd : zlength d = zlength r - n) by (apply zlength_zdrop; lia). pose proof (ztake_zdrop 4 d) as E4. pose proof (ztake_zdrop len (zdrop 4 d)) as E5.
      assert (Hl4 : zlength (ztake len (zdrop 4 d)) = len) by (rewrite zlength_ztake; [done|]; rewrite zlength_zdrop; lia).
      destruct (tail_masked v v2 (ztake 4 d) (ztake len (zdrop 4 d)) (zdrop len (zdrop 4 d)) (adv mb (2 + n))) as (mb' & E' & W' & R' & _); [done|done|by rewrite E5, E4|apply zlength_ztake; lia|lia|].
      rewrite Hl4 in E'. rewrite E'. split_and!; [done|done|apply Hlen|]. cbn [wh_len hdr_bits]. rewrite R', zlength_app, masked_length, Hl4. match goal with |- _ <= _ + zlength ?x => pose proof (zlength_nonneg x) end. lia.
Qed.

Lemma ws_decode_total mb : mbuf_wf mb -> decoded mb (websock_decode mb).
Proof.
  intros W. assert (Hshort : zlength (rest mb) < 2 -> wraps (rest mb) = false -> decoded mb (websock_decode mb)).
  { intros Hl Hw. unfold websock_decode. rewrite mbuf_get_left_rest, (proj2 (Z.ltb_lt _ _)) by done. split_and!; [done|done|by destruct mb]. }
  destruct (rest mb) as [|v [|v2 r]] eqn:E; [by apply Hshort|by apply Hshort|]. destruct (ws_decode_read mb v v2 r W E) as [-> Hf].
  destruct (len_field v2 r) as [[len n]|] eqn:Ef; [|unfold decoded; rewrite E; cbn [wraps]; rewrite Ef, andb_false_r; split_and!; [done|done|apply ws_adv_back]]. destruct Hf as (W1 & R1 & Hlen & Hn).
  destruct (masks v2) eqn:Em; [by apply (tail_decoded v v2 r)|]. assert (Ew : wraps (rest mb) = false) by (rewrite E; cbn [wraps]; by rewrite Em).
  unfold decode_tail. rewrite Em, mbuf_get_left_rest by done. destruct (Z.ltb_spec (zlength (rest (adv mb (2 + n)))) len); split_and!; try done; [apply ws_adv_back|apply Hlen].
Qed.

(** *** Frames *)

Record wmsg := Wmsg { wm_op : Z; wm_key : list Z; wm_data : list Z }.

Definition mbit (mask : bool) : Z := if mask then 128 else 0.
Definition len_bytes (mask : bool) (len : Z) : list Z :=
  if len >? 0xffff then [mbit mask + 127] ++ be_bytes 8 len else if len >? 125 then [mbit mask + 126] ++ be_bytes 2 len else [mbit mask + len].
Definition head_bytes (mask : bool) (m : wmsg) : list Z := [128 + wm_op m] ++ len_bytes mask (zlength (wm_data m)) ++ (if mask then wm_key m else []).
(** The bytes of a message on the wire; a client masks them. *)
Definition frame (mask : bool) (m : wmsg) : list Z := head_bytes mask m ++ (if mask then masked (wm_key m) 0 (wm_data m) else wm_data m).
Definition hdr_of (mask : bool) (m : wmsg) : websock_hdr := WebsockHdr true false false false (wm_op m) mask (zlength (wm_data m)) (if mask then wm_key m else []).

Record wmsg_ok (m : wmsg) : Prop := {
  wk_op : 0 <= wm_op m < 16;
  wk_key : zlength (wm_key m) = 4 /\ bytes (wm_key m);
  wk_data : bytes (wm_data m) /\ zlength (wm_data m) < 2 ^ 30;
}.

(** The second byte of a frame. *)
Lemma second_byte mask l : 0 <= l < 128 -> masks (mbit mask + l) = mask /\ Z.land (mbit mask + l) 127 = l.
Proof.
  intros Hl. unfold masks. rewrite (Z.land_ones _ 1), Z.shiftr_div_pow2 by lia. rewrite (Z.land_ones _ 7) by lia. change (2 ^ 7) with 128. change (2 ^ 1) with 2. destruct mask; cbn [mbit].
  - replace ((128 + l) / 128) with 1 by (apply (Z.div_unique _ _ _ l); lia). split; [done|]. symmetry. apply (Z.mod_unique _ _ 1); lia.
  - rewrite Z.add_0_l, Z.div_small by lia. split; [done|]. apply Z.mod_small. lia.
Qed.

Lemma first_byte op : 0 <= op < 16 -> forall v2 len key, hdr_bits (128 + op) v2 len key = WebsockHdr true false false false op (masks v2) len key.
Proof.
  intros Hop v2 len key. assert (Hc : op = 0 \/ op = 1 \/ op = 2 \/ op = 3 \/ op = 4 \/ op = 5 \/ op = 6 \/ op = 7 \/ op = 8 \/ op = 9 \/ op = 10 \/ op = 11 \/ op = 12 \/ op = 13 \/ op = 14 \/ op = 15) by lia.
  do 15 (destruct Hc as [->|Hc]; [reflexivity|]). subst op. reflexivity.
Qed.

(** The first two bytes and the length of a frame. *)
Lemma len_bytes_read mask len r : 0 <= len < 2 ^ 30 -> exists l x, len_bytes mask len = (mbit mask + l) :: x /\ 0 <= l < 128 /\ (zlength x = 0 \/ zlength x = 2 \/ zlength x = 8)
  /\ len_field (mbit mask + l) (x ++ r) = Some (len, zlength x) /\ forall y z, x = y ++ z -> z <> [] -> len_field (mbit mask + l) y = None.
Proof.
  intros Hl. unfold len_bytes, len_field. destruct (Z.gtb_spec len 0xffff) as [H1|H1]; [|destruct (Z.gtb_spec len 125) as [H2|H2]]; cbn [app].
  - exists 127, (be_bytes 8 len). destruct (second_byte mask 127 ltac:(lia)) as [_ E]. rewrite E. cbn [Z.eqb Pos.eqb]. assert (L8 : zlength (be_bytes 8 len) = 8) by apply (zlength_be_bytes 8 len). split_and!; try done; [right; by right| |].
    + rewrite zlength_app, L8. pose proof (zlength_nonneg r). rewrite (proj2 (Z.ltb_ge _ _)) by lia. rewrite <- L8 at 1. rewrite ztake_app_exact, be_val_small by (change (256 ^ Z.of_nat 8) with (2 ^ 64); lia). done.
    + intros y z E' Hz. rewrite E', zlength_app in L8. destruct z as [|? z]; [done|]. rewrite zlength_cons in L8. pose proof (zlength_nonneg z). by rewrite (proj2 (Z.ltb_lt _ _)) by lia.
  - exists 126, (be_bytes 2 len). destruct (second_byte mask 126 ltac:(lia)) as [_ E]. rewrite E. cbn [Z.eqb Pos.eqb]. assert (L2 : zlength (be_bytes 2 len) = 2) by apply (zlength_be_bytes 2 len). split_and!; try done; [right; by left| |].
    + rewrite zlength_app, L2. pose proof (zlength_nonneg r). rewrite (proj2 (Z.ltb_ge _ _)) by lia. rewrite <- L2 at 1. rewrite ztake_app_exact, be_val_small by (change (256 ^ Z.of_nat 2) with (2 ^ 16); lia). done.
    + intros y z E' Hz. rewrite E', zlength_app in L2. destruct z as [|? z]; [done|]. rewrite zlength_cons in L2. pose proof (zlength_nonneg z). by rewrite (proj2 (Z.ltb_lt _ _)) by lia.
  - exists len, []. destruct (second_byte mask len ltac:(lia)) as [_ E]. rewrite E, (proj2 (Z.eqb_neq _ 126)), (proj2 (Z.eqb_neq _ 127)) by lia. split_and!; try done; try lia; [by left|]. intros y z E' Hz. by destruct y, z.
Qed.

Lemma decode_frame mask m r mb : wmsg_ok m -> mbuf_wf mb -> rest mb = frame mask m ++ r ->
  exists mb', websock_decode mb = Some (Ok (hdr_of mask m), mb') /\ mbuf_wf mb' /\ rest mb' = wm_data m ++ r.
Proof.
  intros [Hop [Lk Bk] [Bd Ld]] W E. pose proof (zlength_nonneg (wm_data m)). pose proof (zlength_nonneg r). unfold frame, head_bytes in E. rewrite <- !app_assoc in E.
  set (body := (if mask then wm_key m else []) ++ (if mask then masked (wm_key m) 0 (wm_data m) else wm_data m) ++ r) in E.
  destruct (len_bytes_read mask (zlength (wm_data m)) body ltac:(lia)) as (l & x & Ex & Hl & Hx & Ef & _). rewrite Ex in E. cbn [app] in E.
  destruct (ws_decode_read mb _ _ _ W E) as [-> Hf]. rewrite Ef in Hf |- *. destruct Hf as (W1 & R1 & _ & _). rewrite zdrop_app_exact in R1. destruct (second_byte mask l Hl) as [Em _]. destruct mask.
  - destruct (tail_masked (128 + wm_op m) _ (wm_key m) (masked (wm_key m) 0 (wm_data m)) r _ Em W1 R1 Lk) as (mb' & E' & W' & R' & _); [rewrite masked_length; lia|]. rewrite masked_length in E'. rewrite E', first_byte, Em by done.
    exists mb'. split_and!; [done|done|]. by rewrite R', masked_twice.
  - unfold decode_tail. rewrite Em, mbuf_get_left_rest, R1 by done. unfold body. cbn [app]. rewrite zlength_app, (proj2 (Z.ltb_ge _ _)) by lia. rewrite first_byte, Em by done. by eexists.
Qed.

Lemma decode_prefix mask m s t mb : wmsg_ok m -> mbuf_wf mb -> rest mb = s -> frame mask m = s ++ t -> t <> [] -> exists q, websock_decode mb = Some (Err ENODATA, adv mb q).
Proof.
  intros [Hop [Lk Bk] [Bd Ld]] W E Hs Ht. pose proof (zlength_nonneg (wm_data m)) as Hd0. assert (Lt : 0 < zlength t) by (destruct t as [|b t]; [done|rewrite zlength_cons; pose proof (zlength_nonneg t); lia]).
  set (body := (if mask then wm_key m else []) ++ (if mask then masked (wm_key m) 0 (wm_data m) else wm_data m)).
  assert (Lb : zlength body = (if mask then 4 else 0) + zlength (wm_data m)) by (unfold body; rewrite zlength_app; destruct mask; rewrite ?masked_length, ?Lk, ?zlength_nil; lia).
  assert (Ef : frame mask m = (128 + wm_op m) :: len_bytes mask (zlength (wm_data m)) ++ body) by (unfold frame, head_bytes, body; by rewrite <- !app_assoc).
  destruct (len_bytes_read mask (zlength (wm_data m)) body ltac:(lia)) as (l & x & Ex & Hl & Hx & Elf & Hshort). rewrite Ef, Ex in Hs. cbn [app] in Hs. destruct s as [|v [|v2 s]].
  { exists 0. unfold websock_decode. rewrite mbuf_get_left_rest, E by done. cbn. do 2 f_equal. unfold adv, mbuf_set_pos. rewrite Z.add_0_r. by destruct mb. }
  { exists 0. unfold websock_decode. rewrite mbuf_get_left_rest, E by done. cbn. do 2 f_equal. unfold adv, mbuf_set_pos. rewrite Z.add_0_r. by destruct mb. }
  cbn [app] in Hs. injection Hs as <- <- Hs. destruct (ws_decode_read mb _ _ _ W E) as [-> Hf]. destruct (second_byte mask l Hl) as [Em _].
  destruct (Z.lt_ge_cases (zlength s) (zlength x)) as [Hlt|Hge].
  - assert (Hy : exists z, x = s ++ z /\ z <> []).
    { exists (zdrop (zlength s) x). assert (Es : ztake (zlength s) x = s) by (apply (f_equal (ztake (zlength s))) in Hs; rewrite ztake_app_exact, ztake_app_le in Hs by lia; done). split; [rewrite <- Es at 1; by rewrite ztake_zdrop|].
      intros En. pose proof (zlength_zdrop (zlength s) x ltac:(pose proof (zlength_nonneg s); lia)) as Hz. rewrite En, zlength_nil in Hz. lia. }
    destruct Hy as (z & Ez & Hz). rewrite (Hshort s z Ez Hz). by eexists.
  - assert (Es : s = x ++ zdrop (zlength x) s).
    { assert (Ex' : ztake (zlength x) s = x) by (apply (f_equal (ztake (zlength x))) in Hs; rewrite ztake_app_exact, ztake_app_le in Hs by lia; done). by rewrite <- Ex' at 1; rewrite ztake_zdrop. }
    assert (Elf' : len_field (mbit mask + l) s = Some (zlength (wm_data m), zlength x)) by (rewrite Es; by destruct (len_bytes_read mask (zlength (wm_data m)) (zdrop (zlength x) s) ltac:(lia)) as (l' & x' & Ex' & _ & _ & El' & _); rewrite Ex in Ex'; assert (l = l' /\ x = x') as [<- <-] by (injection Ex'; intros; split; [lia|done])).
    rewrite Elf' in Hf |- *. destruct Hf as (W1 & R1 & _ & _). assert (Hls : zlength (rest (adv mb (2 + zlength x))) < (if mask then 4 else 0) + zlength (wm_data m)).
    { rewrite R1, zlength_zdrop by (pose proof (zlength_nonneg x); lia). apply (f_equal zlength) in Hs. rewrite !zlength_app in Hs. lia. }
    exists (2 + zlength x). unfold decode_tail. rewrite Em, mbuf_get_left_rest by done. destruct mask; [rewrite wrap_small by lia|]; by rewrite (proj2 (Z.ltb_lt _ _)) by lia.
Qed.
End Decode.

(** ** Sending *)

Section Send.
Context `{H : Host} `{P : Platform} (Ham : ample_memory).

Lemma op_byte op : 0 <= op < 16 -> Z.lor (Z.shiftl (Z.b2z true) 7) (Z.land op 15) = 128 + op /\ is_byte (128 + op).
Proof. intros Hop. change 15 with (Z.ones 4). rewrite Z.land_ones, Z.mod_small by lia. cbn [Z.b2z]. rewrite (lor_shiftl_add 1 op 7) by lia. unfold is_byte. lia. Qed.

Lemma mask_byte (mask : bool) l : 0 <= l < 128 -> Z.lor (Z.shiftl (Z.b2z mask) 7) l = mbit mask + l /\ is_byte (mbit mask + l).
Proof. intros Hl. rewrite lor_shiftl_add by lia. unfold is_byte. destruct mask; cbn [Z.b2z mbit]; lia. Qed.

Lemma ws_writes_byte b : is_byte b -> writes (mbuf_write_u8 b) [b].
Proof. intros Hb. pose proof (writes_u8 b) as Hw. by rewrite Z.mod_small in Hw by done. Qed.

Lemma frame_len_writes mask len : 0 <= len < 2 ^ 30 -> writes (frame_len mask len) (len_bytes mask len) /\ zlength (len_bytes mask len) = (if len >? 0xffff then 9 else if len >? 125 then 3 else 1).
Proof.
  intros Hl. unfold frame_len, len_bytes. destruct (Z.gtb_spec len 0xffff) as [H1|H1]; [|destruct (Z.gtb_spec len 125) as [H2|H2]].
  - destruct (mask_byte mask 127 ltac:(lia)) as [-> Hb]. split; [apply writes_seq_or; [by apply ws_writes_byte|apply writes_be64]|]. rewrite zlength_app, (zlength_be_bytes 8). done.
  - destruct (mask_byte mask 126 ltac:(lia)) as [-> Hb]. rewrite (wrap_small 16) by lia. split; [apply writes_seq_or; [by apply ws_writes_byte|apply writes_be16]|]. rewrite zlength_app, (zlength_be_bytes 2). done.
  - rewrite (wrap_small 8) by lia. destruct (mask_byte mask len ltac:(lia)) as [-> Hb]. split; [by apply ws_writes_byte|done].
Qed.

(** The payload is behind the space that was left for the header; nothing was
    written where the payload is empty. *)
Definition behind (mb : mbuf) (hsz : Z) (d : list Z) : Prop := d = [] /\ reserved mb [] hsz \/ exists hole, zlength hole = hsz /\ holds mb (hole ++ d) (hsz + zlength d).

Lemma run_behind p d hsz mb : prints p d -> bytes d -> reserved mb [] hsz -> hsz + zlength d < 2 ^ 31 -> exists mb', run vprintf_handler p mb = Some (0, mb') /\ behind mb' hsz d /\ mb_pos mb' = hsz + zlength d.
Proof.
  destruct p as [e|t k|]; intros [Ho Hc] Hb Hr Hl; cbn [out code run] in *; [| |done].
  - injection Hc as ->. subst d. exists mb. split_and!; [done|by left|]. rewrite (reserved_pos _ _ _ Hr). change (zlength (@nil Z)) with 0. lia.
  - subst d. apply bytes_app in Hb as [Hb1 Hb2]. rewrite zlength_app in Hl. pose proof (zlength_nonneg (out (k 0))). destruct (reserved_put mb [] hsz t Hr Hb1 Ham ltac:(lia)) as (hole & mb1 & E & Lh & H1). cbn [app] in H1. change (zlength (@nil Z)) with 0 in Lh; rewrite Z.sub_0_r in Lh.
    unfold vprintf_handler at 1, mbuf_write_mem. rewrite E. assert (H1' : holds mb1 (hole ++ t) (zlength (hole ++ t))) by (by rewrite zlength_app, Lh).
    destruct (appends_run Ham (k 0) (out (k 0)) ltac:(by split) Hb2 mb1 _ H1') as (mb2 & -> & H2); [rewrite zlength_app; lia|]. rewrite <- app_assoc in H2. exists mb2. split; [done|].
    assert (El : zlength (hole ++ t ++ out (k 0)) = hsz + zlength (t ++ out (k 0))) by (rewrite zlength_app; lia). rewrite El in H2. split; [right; by exists hole|apply H2].
Qed.

(** The header, and the key where there is one. *)
Lemma head_reserved b g dg mb q : is_byte b -> writes g dg -> reserved mb [] q -> q + 1 + zlength dg < 2 ^ 31 ->
  exists hole mb', (mbuf_write_u8 b ;| g)%mbuf mb = (0, mb') /\ zlength hole = q /\ holds mb' (hole ++ [b] ++ dg) (zlength (hole ++ [b] ++ dg)).
Proof.
  intros Hb Hg Hr Hl. pose proof (zlength_nonneg dg). unfold seq_or. destruct (reserved_put mb [] q [b] Hr ltac:(by constructor) Ham) as (hole & mb1 & E & Lh & H1); [change (zlength [b]) with 1; lia|].
  change (zlength (@nil Z)) with 0 in Lh; rewrite Z.sub_0_r in Lh. cbn [app] in H1. assert (E1 : mbuf_write_u8 b mb = (0, mb1)).
  { rewrite <- E. unfold mbuf_write_u8, mbuf_write_mem. rewrite host_bytes_1. by rewrite Z.mod_small by done. }
  rewrite E1. assert (H1' : holds mb1 (hole ++ [b]) (zlength (hole ++ [b]))) by (by rewrite zlength_app, Lh). destruct (holds_writes g dg mb1 (hole ++ [b]) Ham Hg H1') as (mb2 & -> & H2); [rewrite zlength_app, Lh; change (zlength [b]) with 1; lia|].
  exists hole, mb2. rewrite <- app_assoc in H2. by split_and!.
Qed.

Definition head_size (mask : bool) : Z := if mask then 14 else 10.
Definition head_start (len : Z) : Z := if len >? 0xffff then 0 else if len >? 125 then 6 else 8.

(** The start of the frame, without the key. *)
Definition bare_head (mask : bool) (m : wmsg) : list Z := [128 + wm_op m] ++ len_bytes mask (zlength (wm_data m)).

Lemma head_written mask m mb : wmsg_ok m -> behind mb (head_size mask) (wm_data m) ->
  let '(err, mb') := (mbuf_write_u8 (Z.lor (Z.shiftl (Z.b2z true) 7) (Z.land (wm_op m) 15)) ;| frame_len mask (zlength (wm_data m)))%mbuf (mbuf_set_pos mb (head_start (zlength (wm_data m)))) in
  exists a k, err = 0 /\ zlength a = head_start (zlength (wm_data m)) /\ zlength k = (if mask then 4 else 0)
    /\ (holds mb' (a ++ bare_head mask m ++ k ++ wm_data m) (zlength (a ++ bare_head mask m)) \/ wm_data m = [] /\ holds mb' (a ++ bare_head mask m) (zlength (a ++ bare_head mask m))).
Proof.
  intros [Hop _ [Bd Ld]] Hb. pose proof (zlength_nonneg (wm_data m)). pose proof (zlength_nonneg (len_bytes mask (zlength (wm_data m)))). destruct (op_byte _ Hop) as [-> Hob]. destruct (frame_len_writes mask (zlength (wm_data m)) ltac:(lia)) as [Hw Hwl].
  assert (Hsz : head_start (zlength (wm_data m)) + 1 + zlength (len_bytes mask (zlength (wm_data m))) = 10) by (rewrite Hwl; unfold head_start; repeat case_match; lia).
  set (st := head_start _) in *. assert (Hst : 0 <= st) by (unfold st, head_start; repeat case_match; lia). destruct Hb as [[Ed Hr]|(hole & Lh & Hh)].
  - assert (Hr' : reserved (mbuf_set_pos mb st) [] st) by (eapply reserved_seek; [exact Hr|change (zlength (@nil Z)) with 0; lia]).
    destruct (head_reserved _ _ _ _ st Hob Hw Hr' ltac:(lia)) as (a & mb' & -> & La & Hh). exists a, (if mask then [0; 0; 0; 0] else []). split_and!; [done|done|by destruct mask|right; by split].
  - pose proof (holds_set_pos _ _ _ st Hh) as Hh'. specialize (Hh' ltac:(rewrite zlength_app, Lh; unfold head_size; destruct mask; lia)). set (n := 1 + zlength (len_bytes mask (zlength (wm_data m)))) in *.
    assert (Eh : hole = ztake st hole ++ ztake n (zdrop st hole) ++ zdrop n (zdrop st hole)) by (by rewrite !ztake_zdrop). assert (Hn : 0 <= n) by (unfold n; pose proof (zlength_nonneg (len_bytes mask (zlength (wm_data m)))); lia).
    assert (Lt : zlength (zdrop st hole) = head_size mask - st) by (rewrite zlength_zdrop; unfold head_size in *; destruct mask; lia).
    assert (La : zlength (ztake st hole) = st) by (apply zlength_ztake; unfold head_size in Lh; destruct mask; lia).
    assert (Lb : zlength (ztake n (zdrop st hole)) = n) by (apply zlength_ztake; rewrite Lt; unfold head_size; destruct mask; lia).
    assert (Lk : zlength (zdrop n (zdrop st hole)) = if mask then 4 else 0) by (rewrite zlength_zdrop, Lt by (rewrite Lt; unfold head_size; destruct mask; lia); unfold head_size; destruct mask; lia).
    rewrite Eh in Hh'. rewrite <- !app_assoc in Hh'. rewrite <- La in Hh' at 5. clear Eh.
    destruct (holds_overwrite _ _ _ (ztake st hole) _ (zdrop n (zdrop st hole) ++ wm_data m) (writes_seq_or _ _ _ _ (ws_writes_byte _ Hob) Hw) Hh') as (mb' & -> & Hm).
    { rewrite Lb, zlength_app. change (zlength [128 + wm_op m]) with 1. done. }
    { done. }
    { rewrite zlength_app, La, Lb. lia. }
    exists (ztake st hole), (zdrop n (zdrop st hole)). split_and!; [done|done|done|by left].
Qed.

Lemma sent_from mb a t p : holds mb (a ++ t) p -> unread (mbuf_set_pos mb (zlength a)) = t.
Proof.
  intros Hh. pose proof (zlength_nonneg a). pose proof (zlength_nonneg t). rewrite (unread_holds _ _ _ (holds_set_pos _ _ _ (zlength a) Hh ltac:(rewrite zlength_app; lia))). apply zdrop_app_exact.
Qed.

Lemma encode_frame mask m mb : wmsg_ok m -> behind mb (head_size mask) (wm_data m) ->
  exists mb', websock_encode true (wm_op m) mask (wm_key m) (zlength (wm_data m)) (mbuf_set_pos mb (head_start (zlength (wm_data m)))) = Some (0, mb')
    /\ unread (mbuf_set_pos mb' (head_start (zlength (wm_data m)))) = frame mask m.
Proof.
  intros Hok Hb. pose proof (head_written mask m mb Hok Hb) as Hw. unfold websock_encode. destruct (seq_or _ _ _) as [err mb1]. destruct Hw as (a & k & -> & La & Lk & Hh). destruct Hok as [Hop [Lkey Bkey] [Bd Ld]].
  rewrite <- La. assert (Ef : frame mask m = bare_head mask m ++ (if mask then wm_key m ++ masked (wm_key m) 0 (wm_data m) else wm_data m)) by (unfold frame, head_bytes, bare_head; destruct mask; rewrite <- ?app_assoc; cbn [app]; by rewrite ?app_nil_r).
  assert (La8 : zlength a <= 8) by (rewrite La; unfold head_start; repeat case_match; lia). pose proof (zlength_nonneg (wm_data m)).
  assert (Lbare : zlength (bare_head mask m) <= 10) by (unfold bare_head; rewrite zlength_app; destruct (frame_len_writes mask (zlength (wm_data m)) ltac:(lia)) as [_ ->]; change (zlength [_]) with 1; repeat case_match; lia).
  destruct mask.
  - assert (Hkey : exists mb2, mbuf_write_mem mb1 (wm_key m) = (0, mb2) /\ holds mb2 ((a ++ bare_head true m ++ wm_key m) ++ wm_data m ++ []) (zlength (a ++ bare_head true m ++ wm_key m))).
    { destruct Hh as [Hh|[Ed Hh]].
      - rewrite app_assoc in Hh. destruct (holds_overwrite mb1 (fun mb => mbuf_write_mem mb (wm_key m)) (wm_key m) _ k (wm_data m) (writes_mem _ Bkey ltac:(lia)) Hh) as (mb2 & E & Hm2); [lia|done|rewrite !zlength_app; lia|].
        exists mb2. split; [done|]. rewrite app_nil_r, <- !app_assoc in *. exact Hm2.
      - destruct (holds_append mb1 _ (wm_key m) Hh Bkey Ham) as (mb2 & E & Hm2); [rewrite zlength_app; lia|]. exists mb2. split; [done|]. rewrite Ed, !app_nil_r. rewrite <- !app_assoc in Hm2. exact Hm2. }
    destruct Hkey as (mb2 & -> & Hm2). destruct (mask_holds (wm_key m) mb2 _ _ _ Hm2 Bkey) as (mb3 & -> & Hm3). exists mb3. split; [done|]. rewrite app_nil_r, <- !app_assoc in Hm3. rewrite (sent_from _ _ _ _ Hm3), Ef. done.
  - exists mb1. split; [done|]. destruct k as [|? k]; [|rewrite zlength_cons in Lk; pose proof (zlength_nonneg k); lia]. destruct Hh as [Hh|[Ed Hh]]; rewrite (sent_from _ _ _ _ Hh), Ef; [done|by rewrite Ed, app_nil_r].
Qed.

(** What websock_send hands to TCP. *)
Lemma send_frame rand tcp_send op p d c : wc_state c = OPEN -> prints p d -> wmsg_ok (Wmsg op (rand (wc_rand c)) d) ->
  let data := frame (wc_active c) (Wmsg op (rand (wc_rand c)) d) in
  websock_send rand tcp_send op (Some p) c
  = Some (tcp_send data, if wc_active c then wc_set_rand (wc_rand c + 1) c else c, if tcp_send data =? 0 then [WSend data] else []).
Proof.
  intros Ho Hp Hok data. unfold websock_send, websock_vsend. rewrite bool_decide_eq_true_2 by done. destruct (mbuf_alloc_new 2048 Ham) as (mb0 & -> & H0 & _); [by vm_compute|]. cbn [Z.eqb]. fold (head_size (wc_active c)).
  assert (Hr : reserved (mbuf_set_pos mb0 (head_size (wc_active c))) [] (head_size (wc_active c))) by (apply reserve; [done|unfold head_size; destruct (wc_active c); by vm_compute]).
  pose proof (wk_data _ Hok) as [Bd Ld]. cbn [wm_data] in Bd, Ld. destruct (run_behind p d _ _ Hp Bd Hr) as (mb1 & E1 & Hb & Ep); [unfold head_size; destruct (wc_active c); lia|].
  unfold mb_or, mb_skip. rewrite E1. cbn [Z.lor Z.eqb negb]. rewrite Ep. replace (head_size (wc_active c) + zlength d - head_size (wc_active c)) with (zlength d) by lia. fold (head_start (zlength d)).
  destruct (encode_frame (wc_active c) _ mb1 Hok Hb) as (mb2 & E2 & Eu). cbn [wm_op wm_key wm_data] in E2, Eu. assert (Ea : wc_active (if wc_active c then wc_set_rand (wc_rand c + 1) c else c) = wc_active c) by (by destruct (wc_active c) eqn:?; cbn). rewrite Ea, E2. cbn [Z.eqb negb]. rewrite Eu. done.
Qed.
End Send.

(** ** Receiving *)

Section Receive.
Context `{H : Host} `{P : Platform} (Ham : ample_memory).
Context (rand : Z -> list Z) (tcp_send : list Z -> Z).

(** The handler of the user takes the messages and does nothing else. *)
Definition quiet_user (hdr : websock_hdr) (data : list Z) : list uact := [].

Definition data_op (op : Z) : bool := (op =? WEBSOCK_CONT) || (op =? WEBSOCK_TEXT) || (op =? WEBSOCK_BIN).
Definition received (mask : bool) (m : wmsg) : wout := WRecv (hdr_of mask m) (wm_data m).
Definition stream (mask : bool) (ms : list wmsg) : list Z := concat (map (frame mask) ms).

(** The bytes a connection keeps for the next segment. *)
Definition kept_back (c : websock_conn) : list Z := match wc_mb c with Some mb => rest mb | None => [] end.
(** A connection that takes frames with or without a mask. *)
Record takes (mask : bool) (c : websock_conn) : Prop := {
  tk_user : wc_user c = true;
  tk_refs : 1 <= wc_refs c;
  tk_active : wc_active c = negb mask;
  tk_mb : match wc_mb c with Some mb => mbuf_wf mb /\ mb_pos mb = 0 | None => True end;
}.
(** [s] is not yet a frame. *)
Definition incomplete (mask : bool) (s : list Z) : Prop := s = [] \/ exists m t, wmsg_ok m /\ frame mask m = s ++ t /\ t <> [].

Lemma message_taken now hdr mb c : wc_user c = true -> 1 <= wc_refs c -> recv_message rand tcp_send quiet_user now hdr mb c = Some (Some c, [WRecv hdr (unread mb)]).
Proof.
  intros Hu Hr. unfold recv_message, quiet_user. cbn [wc_user wc_set_refs wc_refs user_acts]. rewrite Hu. cbn [user_acts]. change (wc_refs (wc_set_refs ?x c)) with x. rewrite (proj2 (Z.eqb_neq _ _)) by lia. unfold conn_deref. cbn [wc_refs wc_set_refs].
  replace (wc_refs c + 1 - 1) with (wc_refs c) by lia. rewrite Z.gtb_ltb, (proj2 (Z.ltb_lt _ _)) by lia. by destruct c.
Qed.

Lemma frame_nonempty mask m : frame mask m <> [].
Proof. unfold frame, head_bytes. done. Qed.

Lemma frame_pos mask m : 0 < zlength (frame mask m).
Proof. pose proof (frame_nonempty mask m) as Hne. destruct (frame mask m) as [|b t]; [done|]. rewrite zlength_cons. pose proof (zlength_nonneg t). lia. Qed.

Lemma rest_cut mb d r : mbuf_wf mb -> rest mb = d ++ r -> unread (mbuf_set_end mb (mb_pos mb + zlength d)) = d /\ zdrop (mb_pos mb + zlength d) (ztake (mb_end mb) (mb_mem mb)) = r /\ mb_end mb = mb_pos mb + zlength d + zlength r.
Proof.
  intros W E. pose proof (zlength_nonneg d). pose proof (zlength_nonneg r). pose proof (zlength_rest mb W) as Hl. rewrite E, zlength_app in Hl. pose proof (pos_content mb W) as Hp. pose proof (zlength_content mb W) as Hc.
  assert (Hh : holds mb (content mb) (mb_pos mb)) by (by split). split_and!; [|fold (content mb); rewrite <- zdrop_zdrop by lia; fold (rest mb); by rewrite E, zdrop_app_exact|lia].
  pose proof (holds_set_end _ _ _ (mb_pos mb + zlength d) Hh ltac:(lia)) as Hh'. rewrite (unread_holds _ _ _ Hh'). rewrite <- ztake_zdrop_comm by lia. fold (rest mb). by rewrite E, ztake_app_exact.
Qed.

(** The buffer for what follows a frame. *)
Lemma next_buffer r : bytes r -> 0 < zlength r < 2 ^ 31 -> exists mbn, mbuf_alloc (zlength r) = Some mbn /\ let mb := mbuf_set_pos (mbuf_write_mem mbn r).2 0 in mbuf_wf mb /\ mb_pos mb = 0 /\ rest mb = r.
Proof.
  intros Hb Hl. destruct (mbuf_alloc_new (zlength r) Ham ltac:(unfold MEM_SIZE_MAX; lia)) as (mbn & -> & H0 & _). exists mbn. split; [done|]. destruct (holds_append mbn [] r H0 Hb Ham) as (mb' & -> & H1); [change (zlength (@nil Z)) with 0; lia|].
  cbn [app snd] in *. pose proof (holds_set_pos _ _ _ 0 H1 ltac:(lia)) as H2. split_and!; [apply H2|done|]. by rewrite (holds_rest _ _ _ H2), zdrop_0.
Qed.

Lemma frames_taken mask now ms : Forall wmsg_ok ms -> Forall (fun m => data_op (wm_op m) = true) ms -> forall fuel c mb s,
  takes mask c -> wc_mb c = Some mb -> rest mb = stream mask ms ++ s -> incomplete mask s -> (length (rest mb) < fuel)%nat -> zlength (rest mb) < 2 ^ 31 ->
  exists mbo, recv_frames rand tcp_send quiet_user fuel now c = Some (Some (wc_set_mb mbo c), map (received mask) ms) /\ takes mask (wc_set_mb mbo c) /\ kept_back (wc_set_mb mbo c) = s.
Proof.
  induction 1 as [|m ms Hok Hoks IH]; intros Hops fuel c mb s [Hu Hr Ha Hm] Emb Er Hi Hf Hl; rewrite Emb in Hm; destruct Hm as [W Hp]; (destruct fuel as [|fuel]; [lia|]); cbn [recv_frames]; rewrite Emb.
  - change (stream mask [] ++ s) with s in Er. assert (Hd : exists q, websock_decode mb = Some (Err ENODATA, adv mb q)).
    { destruct Hi as [->|(m & t & Hok & Ef & Ht)]; [|by eapply decode_prefix]. exists 0. unfold websock_decode. rewrite mbuf_get_left_rest, Er by done. cbn. do 2 f_equal. unfold adv, mbuf_set_pos. rewrite Z.add_0_r. by destruct mb. }
    destruct Hd as [q ->]. cbn [Z.eqb Pos.eqb ENODATA]. change (ENODATA =? ENODATA) with true. cbn iota. assert (Eb : mbuf_set_pos (adv mb q) (mb_pos mb) = mb) by (unfold adv, mbuf_set_pos; by destruct mb). rewrite Eb. exists (Some mb). split; [done|]. split; [by split|exact Er].
  - apply Forall_cons in Hops as [Hop Hops]. change (stream mask (m :: ms)) with (frame mask m ++ stream mask ms) in Er. rewrite <- app_assoc in Er. set (r := stream mask ms ++ s) in *.
    destruct (decode_frame mask m r mb Hok W Er) as (mb1 & -> & W1 & R1). cbn [wc_active wc_set_mb]. rewrite Ha. change (wh_mask (hdr_of mask m)) with mask. change (wh_rsv1 (hdr_of mask m) || wh_rsv2 (hdr_of mask m) || wh_rsv3 (hdr_of mask m)) with false.
    assert (Eq : eqb (negb mask) mask = false) by (by destruct mask). rewrite Eq. cbn iota. change (wh_len (hdr_of mask m)) with (zlength (wm_data m)). change (wh_opcode (hdr_of mask m)) with (wm_op m).
    destruct (rest_cut mb1 _ _ W1 R1) as (Eu & Ez & Ee). rewrite Ez. cbn [mb_end mbuf_set_end]. fold (data_op (wm_op m)). rewrite Hop. pose proof (zlength_nonneg r).
    assert (Lfr : zlength (rest mb) = zlength (frame mask m) + zlength r) by (rewrite Er; apply zlength_app). assert (Lf1 : 0 < zlength (frame mask m)) by apply frame_pos.
    destruct (Z.gtb_spec (mb_end mb1) (mb_pos mb1 + zlength (wm_data m))) as [Hgt|Hle].
    + replace (mb_end mb1 - (mb_pos mb1 + zlength (wm_data m))) with (zlength r) by lia. assert (Br : bytes r) by (pose proof (bytes_rest mb1 W1) as Hb; rewrite R1, bytes_app in Hb; tauto).
      destruct (next_buffer r Br ltac:(lia)) as (mbn & -> & Wn & Pn & Rn). set (mb2 := mbuf_set_pos _ 0) in *. rewrite message_taken by done. rewrite Eu.
      destruct (IH Hops fuel (wc_set_mb (Some mb2) c) mb2 s) as (mbo & E & Ht & Hk); [by split|done|by rewrite Rn|done|rewrite Rn; unfold zlength in *; lia|rewrite Rn; lia|].
      change (wc_set_mb (Some mb2) (wc_set_mb (Some mb1) c)) with (wc_set_mb (Some mb2) c). rewrite E. exists mbo. by split.
    + assert (Hnil : r = []) by (destruct r as [|? r']; [done|]; rewrite zlength_cons in Ee; pose proof (zlength_nonneg r'); lia). unfold r in Hnil. apply app_eq_nil in Hnil as [Hms ->].
      assert (ms = []) as -> by (destruct ms as [|m' ms]; [done|discriminate Hms]).
      rewrite message_taken by done. rewrite Eu. change (wc_set_mb None (wc_set_mb (Some mb1) c)) with (wc_set_mb None c). exists None. assert (En : recv_frames rand tcp_send quiet_user fuel now (wc_set_mb None c) = Some (Some (wc_set_mb None c), [])) by (by destruct fuel). rewrite En. split; [done|]. split; [by split|done].
Qed.

Lemma segment_taken mask now ms sg c s : Forall wmsg_ok ms -> Forall (fun m => data_op (wm_op m) = true) ms -> takes mask c -> bytes sg -> kept_back c ++ sg = stream mask ms ++ s -> incomplete mask s ->
  zlength (kept_back c) + zlength sg <= BUFSIZE_MAX ->
  exists mbo, recv_handler rand tcp_send quiet_user now (rcv_buf sg) c = Some (Some (wc_set_mb mbo c), map (received mask) ms) /\ takes mask (wc_set_mb mbo c) /\ kept_back (wc_set_mb mbo c) = s.
Proof.
  intros Hok Hops Ht Bs E Hi Hl. pose proof (zlength_nonneg sg). pose proof (zlength_nonneg (kept_back c)). unfold BUFSIZE_MAX in Hl. assert (Hsg : holds (rcv_buf sg) sg 0) by (apply rcv_buf_holds; [done|unfold MEM_SIZE_MAX; lia]).
  assert (Hgo : forall mb, mbuf_wf mb -> mb_pos mb = 0 -> rest mb = kept_back c ++ sg ->
    exists mbo, recv_frames rand tcp_send quiet_user (S (Z.to_nat (mbuf_get_left mb))) now (wc_set_mb (Some mb) c) = Some (Some (wc_set_mb mbo c), map (received mask) ms) /\ takes mask (wc_set_mb mbo c) /\ kept_back (wc_set_mb mbo c) = s).
  { intros mb W Hp Er. destruct (frames_taken mask now ms Hok Hops (S (Z.to_nat (mbuf_get_left mb))) (wc_set_mb (Some mb) c) mb s) as (mbo & Ex & Hx); [by destruct Ht; split|done|by rewrite Er|done|rewrite mbuf_get_left_rest by done; unfold zlength; lia|rewrite Er, zlength_app; lia|]. by exists mbo. }
  unfold recv_handler, kept_back in *. pose proof (tk_mb _ _ Ht) as Hm. destruct (wc_mb c) as [cmb|].
  - destruct Hm as [W Hp]. rewrite (holds_get_left _ _ _ Hsg), Z.sub_0_r, mbuf_get_left_rest by done. rewrite wrap_small by lia. unfold BUFSIZE_MAX. rewrite Z.gtb_ltb, (proj2 (Z.ltb_ge _ _)) by lia.
    assert (Hh : holds cmb (rest cmb) 0) by (split; [done|unfold rest; by rewrite Hp, zdrop_0|done]). pose proof (holds_end _ _ _ Hh) as He. rewrite He. pose proof (holds_set_pos _ _ _ (zlength (rest cmb)) Hh ltac:(lia)) as Hh1.
    assert (Eb : ztake (zlength sg) (mbuf_buf (rcv_buf sg)) = sg) by (unfold mbuf_buf, mb_mem, rcv_buf; cbn [mb_pos mb_buf from_option]; rewrite zdrop_0; by apply ztake_ge). rewrite Eb.
    destruct (holds_append _ _ sg Hh1 Bs Ham ltac:(lia)) as (mb2 & -> & Hh2). cbn [Z.eqb negb]. rewrite Hp. cbn [wc_mb wc_set_mb]. pose proof (holds_set_pos _ _ _ 0 Hh2 ltac:(rewrite zlength_app; lia)) as Hh3.
    destruct (Hgo (mbuf_set_pos mb2 0)) as (mbo & Ex & Hx); [apply Hh3|done|by rewrite (holds_rest _ _ _ Hh3), zdrop_0|]. by exists mbo.
  - cbn [wc_mb wc_set_mb]. destruct (Hgo (rcv_buf sg)) as (mbo & Ex & Hx); [apply Hsg|done|by rewrite (holds_rest _ _ _ Hsg), zdrop_0|]. by exists mbo.
Qed.

(** [s] is the start of the first frame. *)
Definition cut (mask : bool) (s : list Z) (ms : list wmsg) : Prop := s = [] \/ exists m t ms', ms = m :: ms' /\ frame mask m = s ++ t /\ t <> [].

(** Where a stream of frames is cut. *)
Lemma stream_cut mask ms : Forall wmsg_ok ms -> forall x y, stream mask ms = x ++ y ->
  exists ms1 ms2 s, ms = ms1 ++ ms2 /\ x = stream mask ms1 ++ s /\ stream mask ms2 = s ++ y /\ cut mask s ms2.
Proof.
  induction 1 as [|m ms Hok Hoks IH]; intros x y E.
  - symmetry in E. apply app_eq_nil in E as [-> ->]. exists [], [], []. split_and!; try done. by left.
  - change (stream mask (m :: ms)) with (frame mask m ++ stream mask ms) in E. destruct (Z.lt_ge_cases (zlength x) (zlength (frame mask m))) as [Hlt|Hge].
    + exists [], (m :: ms), x. split_and!; [done|done|done|]. right. exists m, (zdrop (zlength x) (frame mask m)), ms. pose proof (zlength_nonneg x).
      assert (Ex : ztake (zlength x) (frame mask m) = x) by (apply (f_equal (ztake (zlength x))) in E; by rewrite ztake_app_exact, ztake_app_le in E by lia). split_and!; [done|transitivity (ztake (zlength x) (frame mask m) ++ zdrop (zlength x) (frame mask m)); [by rewrite ztake_zdrop|by rewrite Ex]|].
      intros En. pose proof (zlength_zdrop (zlength x) (frame mask m) ltac:(lia)) as Hz. rewrite En in Hz. change (zlength (@nil Z)) with 0 in Hz. lia.
    + assert (Ex : x = frame mask m ++ zdrop (zlength (frame mask m)) x).
      { assert (Ef : ztake (zlength (frame mask m)) x = frame mask m) by (apply (f_equal (ztake (zlength (frame mask m)))) in E; by rewrite ztake_app_exact, ztake_app_le in E by lia). by rewrite <- Ef at 1; rewrite ztake_zdrop. }
      rewrite Ex, <- app_assoc in E. apply app_inv_head in E. destruct (IH _ _ E) as (ms1 & ms2 & s & -> & E1 & E2 & Hs). exists (m :: ms1), ms2, s. split_and!; [done| |done|done].
      rewrite Ex, E1. unfold stream. cbn [map concat]. by rewrite <- app_assoc.
Qed.

(** All segments, one after the other. *)
Fixpoint feed (now : Z) (segs : list (list Z)) (c : websock_conn) : option (option websock_conn * list wout) :=
  match segs with
  | [] => Some (Some c, [])
  | sg :: segs =>
      match recv_handler rand tcp_send quiet_user now (rcv_buf sg) c with
      | Some (Some c, o) => match feed now segs c with Some (c, o') => Some (c, o ++ o') | None => None end
      | r => r
      end
  end.

Lemma cut_all mask s ms : cut mask s ms -> stream mask ms = s -> ms = [] /\ s = [].
Proof.
  intros [->|(m & t & ms' & -> & Ef & Ht)] E; [destruct ms as [|m ms]; [done|discriminate E]|]. exfalso. change (stream mask (m :: ms')) with (frame mask m ++ stream mask ms') in E. rewrite Ef, <- app_assoc in E.
  assert (En : t ++ stream mask ms' = []) by (apply (app_inv_head s); by rewrite app_nil_r). by apply app_eq_nil in En as [-> _].
Qed.

Lemma cut_incomplete mask s ms size : cut mask s ms -> Forall wmsg_ok ms -> Forall (fun m => zlength (frame mask m) <= size) ms -> 0 <= size -> incomplete mask s /\ zlength s <= size.
Proof.
  intros [->|(m & t & ms' & -> & Ef & Ht)] Hok Hsz H0; [split; [by left|done]|]. apply Forall_inv in Hok, Hsz. split; [right; by exists m, t|]. rewrite Ef, zlength_app in Hsz. pose proof (zlength_nonneg t). lia.
Qed.

Lemma segments_taken mask now size segs : forall ms c, Forall wmsg_ok ms -> Forall (fun m => data_op (wm_op m) = true) ms -> Forall (fun m => zlength (frame mask m) <= size) ms -> 0 <= size ->
  takes mask c -> Forall bytes segs -> Forall (fun sg => size + zlength sg <= BUFSIZE_MAX) segs -> kept_back c ++ concat segs = stream mask ms -> cut mask (kept_back c) ms ->
  exists mbo, feed now segs c = Some (Some (wc_set_mb mbo c), map (received mask) ms) /\ takes mask (wc_set_mb mbo c) /\ kept_back (wc_set_mb mbo c) = [].
Proof.
  induction segs as [|sg segs IH]; intros ms c Hok Hops Hsz H0 Ht Hb Hl E Hc.
  - cbn [concat] in E. rewrite app_nil_r in E. destruct (cut_all mask _ ms Hc (eq_sym E)) as [-> Hk]. exists (wc_mb c). assert (Ec : wc_set_mb (wc_mb c) c = c) by (by destruct c). by rewrite Ec.
  - apply Forall_cons in Hb as [Hb Hbs]. apply Forall_cons in Hl as [Hl Hls]. cbn [concat] in E. rewrite app_assoc in E. symmetry in E. destruct (cut_incomplete mask _ ms size Hc Hok Hsz H0) as [_ Hk]. destruct (stream_cut mask ms Hok _ _ E) as (ms1 & ms2 & s & -> & E1 & E2 & Hs).
    apply Forall_app in Hok as [Hok1 Hok2]. apply Forall_app in Hops as [Hops1 Hops2]. apply Forall_app in Hsz as [Hsz1 Hsz2]. destruct (cut_incomplete mask s ms2 size Hs Hok2 Hsz2 H0) as [Hi _].
    destruct (segment_taken mask now ms1 sg c s Hok1 Hops1 Ht Hb E1 Hi ltac:(lia)) as (mbo & Er & Ht' & Hk'). cbn [feed]. rewrite Er.
    destruct (IH ms2 (wc_set_mb mbo c) Hok2 Hops2 Hsz2 H0 Ht' Hbs Hls) as (mbo' & Ef & Hf); [by rewrite Hk'|by rewrite Hk'|]. exists mbo'. rewrite Ef. change (wc_set_mb mbo' (wc_set_mb mbo c)) with (wc_set_mb mbo' c) in *. rewrite map_app. by split.
Qed.
End Receive.

(** ** The theorems *)

Section Session.
Context `{H : Host} `{P : Platform} (rand : Z -> list Z) (tcp_send : list Z -> Z).

(** The bytes handed to TCP for messages sent one after the other. *)
Fixpoint send_all (ms : list (Z * prog)) (c : websock_conn) : option (websock_conn * list Z) :=
  match ms with
  | [] => Some (c, [])
  | (op, p) :: ms =>
      match websock_send rand tcp_send op (Some p) c with
      | Some (0, c, [WSend d]) => match send_all ms c with Some (c, d') => Some (c, d ++ d') | None => None end
      | _ => None
      end
  end.

Definition sendable (size : Z) (m : Z * prog) : Prop := data_op m.1 = true /\ code m.2 = Some 0 /\ bytes (out m.2) /\ zlength (out m.2) <= size.

Fixpoint wmsgs (active : bool) (n : Z) (ms : list (Z * prog)) : list wmsg :=
  match ms with [] => [] | (op, p) :: ms => Wmsg op (rand n) (out p) :: wmsgs active (if active then n + 1 else n) ms end.

Definition key_source : Prop := forall i, zlength (rand i) = 4 /\ bytes (rand i).

Lemma data_op_range op : data_op op = true -> 0 <= op < 16.
Proof. unfold data_op, WEBSOCK_CONT, WEBSOCK_TEXT, WEBSOCK_BIN. lia. Qed.

Lemma frame_size mask m : wmsg_ok m -> zlength (frame mask m) <= 14 + zlength (wm_data m).
Proof.
  intros [_ [Lk _] [_ Ld]]. pose proof (zlength_nonneg (wm_data m)). destruct (frame_len_writes mask (zlength (wm_data m)) ltac:(lia)) as [_ Hl]. unfold frame, head_bytes. rewrite !zlength_app, Hl. change (zlength [128 + wm_op m]) with 1.
  assert (Hk : zlength (if mask then wm_key m else []) <= 4) by (destruct mask; [lia|by vm_compute]). assert (Hd : zlength (if mask then masked (wm_key m) 0 (wm_data m) else wm_data m) = zlength (wm_data m)) by (destruct mask; [apply masked_length|done]).
  rewrite Hd. destruct (_ >? 65535); [lia|]. destruct (_ >? 125); lia.
Qed.

Lemma wmsgs_ok size active ms : key_source -> size < 2 ^ 30 -> Forall (sendable size) ms -> forall n,
  Forall wmsg_ok (wmsgs active n ms) /\ Forall (fun m => data_op (wm_op m) = true) (wmsgs active n ms) /\ Forall (fun m => zlength (frame active m) <= 14 + size) (wmsgs active n ms).
Proof.
  intros Hk Hs. induction 1 as [|[op p] ms (Hop & _ & Hb & Hl) Hms IH]; intros n; [by split_and!|]. cbn [fst snd] in *. cbn [wmsgs]. destruct (IH (if active then n + 1 else n)) as (I1 & I2 & I3).
  assert (Hok : wmsg_ok (Wmsg op (rand n) (out p))) by (split; cbn; [by apply data_op_range|apply Hk|split; [done|lia]]). pose proof (frame_size active _ Hok). cbn [wm_data] in *. split_and!; constructor; (done || lia).
Qed.

Lemma sends_stream size ms : ample_memory -> key_source -> (forall d, tcp_send d = 0) -> size < 2 ^ 30 -> Forall (sendable size) ms -> forall c, wc_state c = OPEN ->
  exists c', send_all ms c = Some (c', stream (wc_active c) (wmsgs (wc_active c) (wc_rand c) ms)).
Proof.
  intros Ham Hk Htcp Hs. induction 1 as [|[op p] ms Hm Hms IH]; intros c Ho; [by exists c|]. destruct (wmsgs_ok size (wc_active c) [(op, p)] Hk Hs ltac:(by constructor) (wc_rand c)) as (Hok & _). apply Forall_inv in Hok.
  destruct Hm as (Hop & Hc & _). cbn [send_all]. rewrite (send_frame Ham rand tcp_send op p (out p) c Ho ltac:(by split) Hok). rewrite Htcp. cbn [Z.eqb].
  set (c1 := if wc_active c then _ else c). destruct (IH c1) as [c' ->]; [unfold c1; by destruct (wc_active c)|]. exists c'. do 2 f_equal. unfold c1, stream. destruct (wc_active c) eqn:Ea; cbn; by rewrite ?Ea.
Qed.

(** C24: a WebSocket session.  Data messages of at most [size] bytes are sent one
    after the other on an open connection, by the client with the mask of each frame
    taken from the random numbers or by the server without a mask, and handed to TCP
    as a stream.  Whatever segments TCP makes of it, provided that for each segment
    14 + [size] + its length is at most BUFSIZE_MAX (131072; more than that in the
    buffer is refused with EOVERFLOW), the user on the other side gets these messages
    in the same order with the same opcodes and payloads, nothing else happens to
    that connection, and no byte is kept back.  tcp_send and memory do not fail, the
    receiver is the other role of the sender, holds no unfinished frame, and its
    handler only takes the messages. *)
Theorem websock_session (ms : list (Z * prog)) (size now : Z) (sender receiver : websock_conn) (segs : list (list Z)) :
  ample_memory -> key_source -> (forall d, tcp_send d = 0) -> 0 <= size < 2 ^ 30 -> Forall (sendable size) ms -> wc_state sender = OPEN ->
  takes (wc_active sender) receiver -> kept_back receiver = [] -> Forall bytes segs -> Forall (fun sg => 14 + size + zlength sg <= BUFSIZE_MAX) segs ->
  exists sender' data, send_all ms sender = Some (sender', data) /\ (concat segs = data ->
    exists mbo o, feed rand tcp_send now segs receiver = Some (Some (wc_set_mb mbo receiver), o) /\ kept_back (wc_set_mb mbo receiver) = []
      /\ Forall2 (fun m x => exists hdr, x = WRecv hdr (out m.2) /\ wh_opcode hdr = m.1 /\ wh_fin hdr = true) ms o).
Proof.
  intros Ham Hk Htcp Hs Hms Ho Ht Hb0 Hb Hsg. destruct (sends_stream size ms Ham Hk Htcp ltac:(lia) Hms sender Ho) as [sender' E]. exists sender', (stream (wc_active sender) (wmsgs (wc_active sender) (wc_rand sender) ms)). split; [exact E|]. intros Ec.
  destruct (wmsgs_ok size (wc_active sender) ms Hk ltac:(lia) Hms (wc_rand sender)) as (Hok & Hops & Hsz).
  destruct (segments_taken Ham rand tcp_send (wc_active sender) now (14 + size) segs _ receiver Hok Hops Hsz ltac:(lia) Ht Hb Hsg) as (mbo & Ef & _ & Hk'); [by rewrite Hb0|by left|].
  exists mbo, (map (received (wc_active sender)) (wmsgs (wc_active sender) (wc_rand sender) ms)). split_and!; [exact Ef|exact Hk'|]. generalize (wc_rand sender). clear. induction ms as [|[op p] ms IH]; intros n; cbn [wmsgs map]; constructor; [|apply IH].
  eexists. by split_and!.
Qed.
End Session.

(** C25: The decoder of frames and its buffer.  Whatever bytes a connection has
    received, websock_decode gives a header whose payload is all there, or says that
    data is missing and leaves the bytes as they were for the next segment; but where
    a masked frame has a length of 2^64 - 4 or more, the sum with the length of the
    key wraps around in the test, and the loop that takes off the mask writes beyond
    the memory of the buffer: this happens in exactly these cases. *)
Theorem websock_decode_bounds `{H : Host} (mb : mbuf) : mbuf_wf mb ->
  match websock_decode mb with
  | None => wraps (rest mb) = true
  | Some (Err e, mb') => wraps (rest mb) = false /\ e = ENODATA /\ mbuf_set_pos mb' (mb_pos mb) = mb
  | Some (Ok hdr, mb') => wraps (rest mb) = false /\ mbuf_wf mb' /\ 0 <= wh_len hdr <= zlength (rest mb')
  end.
Proof. apply ws_decode_total. Qed.

(** ** Examples *)

#[local] Instance ws_platform : Platform := {| cvt_ll := fun _ => 0; str_error := fun _ => []; sa_ntop := fun _ => None |}.
#[local] Instance ws_host : Host := lp64_le.

(** Fourteen bytes that make the decoder write out of its buffer. *)
Definition ex_wrapping : mbuf := rcv_buf [130; 255; 255; 255; 255; 255; 255; 255; 255; 255; 1; 2; 3; 4].

Lemma websock_decode_bounds_witness : wraps (rest ex_wrapping) = true /\ websock_decode ex_wrapping = None.
Proof.
  assert (Hw : mbuf_wf ex_wrapping) by (eapply rcv_buf_holds; [apply (bool_decide_unpack _); by vm_compute|by vm_compute]). pose proof (websock_decode_bounds ex_wrapping Hw) as Hd.
  assert (E : wraps (rest ex_wrapping) = true) by (vm_compute; reflexivity). rewrite E in Hd. split; [exact E|]. destruct (websock_decode ex_wrapping) as [[[hdr|e] mb']|]; [destruct Hd as [Hd _]; discriminate Hd..|reflexivity].
Defined.

Definition ex_key (i : Z) : list Z := [u8 (7 * i); 2; 3; 4].
Lemma ex_key_source : key_source ex_key.
Proof. intros i. split; [done|]. unfold ex_key. repeat constructor; try (by vm_compute); apply wrap_range; lia. Qed.

Definition ex_ws_messages : list (Z * prog) := [(WEBSOCK_TEXT, Call (chars "hello") Ret); (WEBSOCK_BIN, Call [1; 2] (fun _ => Call [3] Ret))].
Definition ex_ws_stream : list Z := match send_all ex_key (fun _ => 0) ex_ws_messages (conn_open 0 true 0) with Some (_, d) => d | None => [] end.

Lemma websock_session_witness :
  exists c, feed ex_key (fun _ => 0) 5 [ztake 3 ex_ws_stream; zdrop 3 ex_ws_stream] (conn_open 0 false 0) = Some (Some c, [WRecv (WebsockHdr true false false false 1 true 5 [0; 2; 3; 4]) (chars "hello"); WRecv (WebsockHdr true false false false 2 true 3 [7; 2; 3; 4]) [1; 2; 3]]) /\ kept_back c = [].
Proof.
  assert (Hms : Forall (sendable 5) ex_ws_messages) by (repeat constructor; cbn; by vm_compute). assert (Ht : takes true (conn_open 0 false 0)) by (split; vm_compute; done).
  assert (Hb : Forall (fun l => bytes l) [ztake 3 ex_ws_stream; zdrop 3 ex_ws_stream]) by (apply (bool_decide_unpack _); by vm_compute).
  assert (Hsg : Forall (fun sg => 14 + 5 + zlength sg <= BUFSIZE_MAX) [ztake 3 ex_ws_stream; zdrop 3 ex_ws_stream]) by (repeat constructor; by vm_compute).
  destruct (websock_session ex_key (fun _ => 0) ex_ws_messages 5 5 (conn_open 0 true 0) (conn_open 0 false 0) [ztake 3 ex_ws_stream; zdrop 3 ex_ws_stream] (lp64_ample : @ample_memory ws_host) ex_key_source (fun _ => eq_refl) ltac:(lia) Hms eq_refl Ht eq_refl Hb Hsg)
    as (sender' & data & E & Hd). assert (Ec : concat [ztake 3 ex_ws_stream; zdrop 3 ex_ws_stream] = data) by (cbn [concat]; rewrite app_nil_r, ztake_zdrop; unfold ex_ws_stream; by rewrite E).
  destruct (Hd Ec) as (mbo & o & Ef & Hk & _). exists (wc_set_mb mbo (conn_open 0 false 0)). split; [|exact Hk]. rewrite Ef. f_equal. f_equal.
  assert (Eo : match feed ex_key (fun _ => 0) 5 [ztake 3 ex_ws_stream; zdrop 3 ex_ws_stream] (conn_open 0 false 0) with Some (_, o) => o | None => [] end = [WRecv (WebsockHdr true false false false 1 true 5 [0; 2; 3; 4]) (chars "hello"); WRecv (WebsockHdr true false false false 2 true 3 [7; 2; 3; 4]) [1; 2; 3]]) by (vm_compute; reflexivity).
  rewrite Ef in Eo. exact Eo.
Defined.
