(* ===== verification/Telev.v ===== *)
(** * Telephone events: src/src/telev/telev.c

    Keys of a telephone are sent as RTP payloads of RFC 4733: the application puts
    the press and the release of a key in a queue, polls for packets at a steady
    pace, and gives the packets that are received to telev_recv. *)

From stdpp Require Import base list numbers strings.
From Stdlib Require Import ZArith Lia.
From S2P Require Import Prelude Endian Mbuf MbufView.

Open Scope Z_scope.

Definition TXC_DIGIT_MIN : Z := 9.
Definition TXC_END : Z := 3.
Definition EVENT_END : Z := 255.
Definition PAYLOAD_SIZE : Z := 4.
Definition VOLUME : Z := 10.
Definition QUEUE_SIZE : Z := 8192.

Inductive telev_state := IDLE | SENDING | ENDING.

Record telev_fmt := TelevFmt { tf_event : Z; tf_end : bool; tf_vol : Z; tf_dur : Z }.

Record telev := Telev {
  tl_mb : mbuf;
  tl_ptime : Z;
  tl_pdur : Z;
  tl_state : telev_state;
  tl_event : Z;
  tl_dur : Z;
  tl_txc : Z;
  tl_rx_event : Z;
  tl_rx_end : bool;
}.

Definition tl_set_mb x (t : telev) : telev := Telev x (tl_ptime t) (tl_pdur t) (tl_state t) (tl_event t) (tl_dur t) (tl_txc t) (tl_rx_event t) (tl_rx_end t).
Definition tl_set_pdur x (t : telev) : telev := Telev (tl_mb t) (tl_ptime t) x (tl_state t) (tl_event t) (tl_dur t) (tl_txc t) (tl_rx_event t) (tl_rx_end t).
Definition tl_set_tx mb state event dur txc (t : telev) : telev := Telev mb (tl_ptime t) (tl_pdur t) state event dur txc (tl_rx_event t) (tl_rx_end t).
Definition tl_set_rx event end_ (t : telev) : telev := Telev (tl_mb t) (tl_ptime t) (tl_pdur t) (tl_state t) (tl_event t) (tl_dur t) (tl_txc t) event end_.

Section Telev.
Context `{H : Host}.

Definition payload_encode (event : Z) (end_ : bool) (dur : Z) (mb : mbuf) : Z * mbuf :=
  let pos := mb_pos mb in
  let '(err, mb) := (mbuf_write_u8 (u8 event) ;| mbuf_write_u8 (Z.lor (if end_ then 128 else 0) (Z.land VOLUME 63)) ;| write_be16 dur)%mbuf mb in
  (err, if negb (err =? 0) then mbuf_set_pos mb pos else mb).

Definition payload_decode (mb : mbuf) : res telev_fmt * mbuf :=
  if mbuf_get_left mb <? PAYLOAD_SIZE then (Err ENOENT, mb)
  else
    let '(event, mb) := mbuf_read_u8 mb in
    let '(b, mb) := mbuf_read_u8 mb in
    let '(dur, mb) := read_be16 mb in
    (Ok (TelevFmt event (Z.land b 128 =? 128) (Z.land b 63) dur), mb).

Definition telev_alloc (ptime : Z) : res telev :=
  if ptime =? 0 then Err EINVAL
  else match mbuf_alloc 16 with None => Err ENOMEM | Some mb => Ok (Telev mb ptime (u16 (ptime * 8)) IDLE 0 0 0 (-1) false) end.

Definition telev_set_srate (srate : Z) (t : telev) : Z * telev :=
  if srate =? 0 then (EINVAL, t) else (0, tl_set_pdur (u16 (u32 (tl_ptime t * srate) / 1000)) t).

Definition telev_send (event : Z) (end_ : bool) (t : telev) : Z * telev :=
  if mb_end (tl_mb t) >=? QUEUE_SIZE then (EOVERFLOW, t)
  else
    let pos := mb_pos (tl_mb t) in
    let '(err, mb) := mbuf_write_u8 (if end_ then EVENT_END else u8 event) (mbuf_set_pos (tl_mb t) (mb_end (tl_mb t))) in
    (err, tl_set_mb (mbuf_set_pos mb pos) t).

(** The event and the end flag the caller is given, or an error. *)
Definition telev_recv (mb : mbuf) (t : telev) : res (Z * bool) * telev * mbuf :=
  let '(r, mb) := payload_decode mb in
  match r with
  | Err e => (Err e, t, mb)
  | Ok fmt =>
      if tf_end fmt then
        if tl_rx_end t then (Err EALREADY, t, mb) else (Ok (tf_event fmt, true), tl_set_rx (-1) true t, mb)
      else if tf_event fmt =? tl_rx_event t then (Err EALREADY, t, mb)
      else (Ok (tf_event fmt, false), tl_set_rx (tf_event fmt) false t, mb)
  end.

(** The marker is set where there is no error. *)
Definition telev_poll (t : telev) (mb : mbuf) : res bool * telev * mbuf :=
  let out mrk err t mb := (if err =? 0 then Ok mrk else Err err, t, mb) in
  match tl_state t with
  | IDLE =>
      if mbuf_get_left (tl_mb t) =? 0 then (Err ENOENT, t, mb)
      else
        let '(event, q) := mbuf_read_u8 (tl_mb t) in
        let t := tl_set_tx q SENDING event (tl_pdur t) 1 t in
        let '(err, mb) := payload_encode (tl_event t) false (tl_dur t) mb in
        out true err t mb
  | SENDING =>
      let dur := u16 (tl_dur t + tl_pdur t) in
      let '(err, mb) := payload_encode (tl_event t) false dur mb in
      let txc := u32 (tl_txc t + 1) in
      let t := tl_set_tx (tl_mb t) SENDING (tl_event t) dur txc t in
      if txc <? TXC_DIGIT_MIN then out false err t mb
      else if mbuf_get_left (tl_mb t) =? 0 then out false err t mb
      else
        let '(v, q) := mbuf_read_u8 (tl_mb t) in
        let q := if negb (v =? EVENT_END) then mbuf_set_pos q (mb_pos q - 1) else q in
        out false err (tl_set_tx q ENDING (tl_event t) dur 0 t) mb
  | ENDING =>
      let '(err, mb) := payload_encode (tl_event t) true (tl_dur t) mb in
      let txc := u32 (tl_txc t + 1) in
      let t := tl_set_tx (tl_mb t) ENDING (tl_event t) (tl_dur t) txc t in
      if txc <? TXC_END then out false err t mb
      else
        let q := if mbuf_get_left (tl_mb t) =? 0 then mbuf_rewind (tl_mb t) else tl_mb t in
        out false err (tl_set_tx q IDLE (tl_event t) (tl_dur t) txc t) mb
  end.

Definition telev_is_empty (t : telev) : bool := match tl_state t with IDLE => mbuf_get_left (tl_mb t) =? 0 | _ => false end.
End Telev.

Definition telev_digit2code (digit : Z) : Z :=
  if (48 <=? digit) && (digit <=? 57) then digit - 48
  else if digit =? 42 then 10
  else if digit =? 35 then 11
  else if (97 <=? digit) && (digit <=? 100) then digit - 97 + 12
  else if (65 <=? digit) && (digit <=? 68) then digit - 65 + 12
  else -1.

Definition telev_code2digit (code : Z) : Z :=
  if (code <? 0) || (code >=? 16) then -1 else znth code (chars "0123456789*#ABCD").

(** The codes are those of the digits. *)
Lemma telev_digits : forall code, 0 <= code < 16 -> telev_digit2code (telev_code2digit code) = code.
Proof.
  intros code Hc. assert (Ha : forallb (fun c => telev_digit2code (telev_code2digit c) =? c) (map Z.of_nat (seq 0 16)) = true) by (by vm_compute).
  rewrite forallb_forall in Ha. apply Z.eqb_eq, Ha. apply in_map_iff. exists (Z.to_nat code). rewrite in_seq. lia.
Qed.
