(* ===== verification/TelevSpec.v ===== *)
(** * Telephone events: every key is heard once

    The packets of a key that is pressed, held and released, and what the other
    side hears of them when some are lost. *)

From stdpp Require Import base list numbers strings.
From Stdlib Require Import ZArith Lia.
From S2P Require Import Prelude Endian Mbuf MbufView Telev.

Open Scope Z_scope.

Section Spec.
Context `{H : Host} (Ham : ample_memory).

(** ** Payloads *)

Definition payload (e : Z) (end_ : bool) (dur : Z) : list Z := [e; if end_ then 138 else 10] ++ be_bytes 2 dur.

Lemma payload_encoded e end_ dur : is_byte e -> exists mb, payload_encode e end_ dur mbuf_init = (0, mb) /\ content mb = payload e end_ dur.
Proof.
  intros He. unfold payload_encode. rewrite (wrap_small 8) by exact He. assert (H0 : holds mbuf_init [] (zlength (@nil Z))) by (split; [apply mbuf_init_wf|done|done]).
  assert (Hb : is_byte (if end_ then 138 else 10)) by (by destruct end_). assert (El : Z.lor (if end_ then 128 else 0) (Z.land VOLUME 63) = if end_ then 138 else 10) by (by destruct end_). rewrite El.
  assert (Hw : forall b, is_byte b -> writes (mbuf_write_u8 b) [b]) by (intros b Hx; pose proof (writes_u8 b) as Hw; by rewrite Z.mod_small in Hw).
  destruct (holds_writes _ _ mbuf_init [] Ham (writes_seq_or _ _ _ _ (Hw e He) (writes_seq_or _ _ _ _ (Hw _ Hb) (writes_be16 dur))) H0) as (mb & E & Hm); [rewrite !zlength_app, zlength_be_bytes; by vm_compute|].
  unfold write_be16. rewrite E. exists mb. split; [done|]. rewrite (holds_content _ _ _ Hm). done.
Qed.

Lemma payload_decoded e end_ dur : is_byte e -> 0 <= dur < 2 ^ 16 -> (payload_decode (rcv_buf (payload e end_ dur))).1 = Ok (TelevFmt e end_ 10 dur).
Proof.
  intros He Hd. assert (Hb : bytes (payload e end_ dur)) by (unfold payload; rewrite bytes_app; split; [constructor; [done|constructor; [by destruct end_|constructor]]|apply be_bytes_bytes]).
  assert (Hl : zlength (payload e end_ dur) = 4) by (unfold payload; rewrite zlength_app, zlength_be_bytes; done). pose proof (rcv_buf_holds _ Hb ltac:(rewrite Hl; by vm_compute)) as Hh. destruct Hh as [W Hc Hp].
  assert (Er : rest (rcv_buf (payload e end_ dur)) = e :: (if end_ then 138 else 10) :: be_bytes 2 dur ++ []) by (unfold rest; rewrite Hc, Hp, zdrop_0, app_nil_r; done).
  unfold payload_decode. rewrite mbuf_get_left_rest, Er by done. rewrite !zlength_cons, zlength_app, zlength_be_bytes. change (zlength (@nil Z)) with 0. cbn [Z.of_nat Pos.of_succ_nat Z.add Pos.add Pos.succ Z.ltb Z.compare PAYLOAD_SIZE Pos.compare Pos.compare_cont].
  destruct (mbuf_read_u8_cons _ _ _ W Er) as (-> & W1 & R1). destruct (mbuf_read_u8_cons _ _ _ W1 R1) as (-> & W2 & R2). destruct (read_be16_app _ _ _ W2 R2) as (-> & _ & _). cbn [fst]. rewrite wrap_small by lia. by destruct end_.
Qed.

(** ** The sender *)

(** One packet, or none. *)
Definition poll1 (t : telev) : list (bool * list Z) * telev :=
  let '(r, t, mb) := telev_poll t mbuf_init in (match r with Ok mrk => [(mrk, content mb)] | Err _ => [] end, t).
Fixpoint polls (n : nat) (t : telev) : list (bool * list Z) * telev :=
  match n with O => ([], t) | S n => let '(p, t) := poll1 t in let '(ps, t) := polls n t in (p ++ ps, t) end.

Lemma polls_app m : forall n t, polls (m + n) t = let '(p, t) := polls m t in let '(q, t) := polls n t in (p ++ q, t).
Proof.
  induction m as [|m IH]; intros n t; cbn [Nat.add polls]; [by destruct (polls n t)|]. destruct (poll1 t) as [p t1]. rewrite IH. destruct (polls m t1) as [p1 t2]. destruct (polls n t2) as [p2 t3]. by rewrite app_assoc.
Qed.

(** The transmission of [e]; the queue has the bytes [c] and is read up to [p]. *)
Record phase (st : telev_state) (pdur e dur txc : Z) (c : list Z) (p : Z) (t : telev) : Prop := {
  ph_state : tl_state t = st;
  ph_pdur : tl_pdur t = pdur;
  ph_event : tl_event t = e;
  ph_dur : tl_dur t = dur;
  ph_txc : tl_txc t = txc;
  ph_queue : holds (tl_mb t) c p;
}.
(** Nothing to send, with [q] in the queue. *)
Record resting (pdur : Z) (q : list Z) (t : telev) : Prop := {
  rs_state : tl_state t = IDLE;
  rs_pdur : tl_pdur t = pdur;
  rs_queue : holds (tl_mb t) q 0;
}.

Lemma push_byte mb c p b : holds mb c p -> zlength c <= 2 -> is_byte b -> exists mb', mbuf_write_u8 b (mbuf_set_pos mb (mb_end mb)) = (0, mb') /\ holds (mbuf_set_pos mb' (mb_pos mb)) (c ++ [b]) p.
Proof.
  intros Hh Hl Hb. pose proof (holds_range _ _ _ Hh) as Hr. pose proof (zlength_nonneg c). rewrite (holds_end _ _ _ Hh). pose proof (holds_set_pos _ _ _ (zlength c) Hh ltac:(lia)) as Hh1.
  pose proof (writes_u8 b) as Hw. rewrite Z.mod_small in Hw by done. destruct (holds_writes _ _ _ c Ham Hw Hh1) as (mb' & -> & H1); [change (zlength [b]) with 1; lia|]. exists mb'. split; [done|]. rewrite (holds_pos _ _ _ Hh).
  apply (holds_set_pos _ _ (zlength (c ++ [b]))); [done|]. rewrite zlength_app. change (zlength [b]) with 1. lia.
Qed.

Lemma press pdur t e : resting pdur [] t -> is_byte e -> exists t', telev_send e false t = (0, t') /\ resting pdur [e] t'.
Proof.
  intros [Hs Hp Hq] He. unfold telev_send. rewrite (holds_end _ _ _ Hq). cbn [Z.geb Z.compare zlength]. change (zlength (@nil Z) >=? QUEUE_SIZE) with false. cbn iota. rewrite <- (holds_end _ _ _ Hq).
  rewrite (wrap_small 8) by exact He. destruct (push_byte _ _ _ e Hq ltac:(by vm_compute) He) as (mb' & -> & Hm). eexists. split; [done|]. by split.
Qed.
Lemma release_resting pdur t e : resting pdur [e] t -> exists t', telev_send e true t = (0, t') /\ resting pdur [e; 255] t'.
Proof.
  intros [Hs Hp Hq]. unfold telev_send. rewrite (holds_end _ _ _ Hq). change (zlength [e] >=? QUEUE_SIZE) with false. cbn iota. rewrite <- (holds_end _ _ _ Hq).
  destruct (push_byte _ _ _ EVENT_END Hq ltac:(by vm_compute) ltac:(by vm_compute)) as (mb' & -> & Hm). eexists. split; [done|]. by split.
Qed.

Lemma release pdur e dur txc t : phase SENDING pdur e dur txc [e] 1 t -> exists t', telev_send e true t = (0, t') /\ phase SENDING pdur e dur txc [e; 255] 1 t'.
Proof.
  intros [Hs Hpd He Hd Ht Hh]. unfold telev_send. rewrite (holds_end _ _ _ Hh). change (zlength [e] >=? QUEUE_SIZE) with false. cbn iota. rewrite <- (holds_end _ _ _ Hh).
  destruct (push_byte _ _ _ EVENT_END Hh ltac:(by vm_compute) ltac:(by vm_compute)) as (mb' & -> & Hm). eexists. split; [done|]. by split.
Qed.

Definition dur_of (pdur k : Z) : Z := u16 (k * pdur).
(** The [k]-th packet of a key, and one of its last packets. *)
Definition start_pkt (pdur e k : Z) : bool * list Z := (k =? 1, payload e false (dur_of pdur k)).
Definition end_pkt (pdur e n : Z) : bool * list Z := (false, payload e true (dur_of pdur n)).

Lemma left_of mb c p : holds mb c p -> mbuf_get_left mb = zlength c - p.
Proof. apply holds_get_left. Qed.

Lemma poll_first pdur e q t : resting pdur (e :: q) t -> is_byte e -> 0 <= pdur < 2 ^ 16 -> exists t', poll1 t = ([start_pkt pdur e 1], t') /\ phase SENDING pdur e (dur_of pdur 1) 1 (e :: q) 1 t'.
Proof.
  intros [Hs Hp Hq] He Hpd. pose proof (zlength_nonneg q). unfold poll1, telev_poll. rewrite Hs, (left_of _ _ _ Hq), zlength_cons, Z.sub_0_r. rewrite (proj2 (Z.eqb_neq _ _)) by lia.
  assert (Er : rest (tl_mb t) = e :: q) by (by rewrite (holds_rest _ _ _ Hq), zdrop_0). destruct (mbuf_read_u8_cons _ _ _ (holds_wf _ _ _ Hq) Er) as (-> & _ & _). cbn [tl_event tl_dur tl_set_tx].
  destruct (payload_encoded e false (tl_pdur t) He) as (mb & -> & Ec). cbn [Z.eqb]. rewrite Ec, Hp. assert (Ed : dur_of pdur 1 = pdur) by (unfold dur_of; rewrite Z.mul_1_l; by apply wrap_small). unfold start_pkt. rewrite Ed. eexists. split; [done|].
  split; try done. cbn [tl_mb tl_set_tx]. unfold adv. rewrite (holds_pos _ _ _ Hq). apply (holds_set_pos _ _ 0); [done|]. rewrite zlength_cons. lia.
Qed.

(** One packet while the key is held, or less than nine were sent. *)
Lemma poll_more pdur e n c t : is_byte e -> phase SENDING pdur e (dur_of pdur n) n c 1 t -> 1 <= n < 2 ^ 31 -> c = [e] \/ c = [e; 255] /\ n < 8 ->
  exists t', poll1 t = ([start_pkt pdur e (n + 1)], t') /\ phase SENDING pdur e (dur_of pdur (n + 1)) (n + 1) c 1 t'.
Proof.
  intros He [Hs Hpd Hev Hd Ht Hh] Hn Hc. unfold poll1, telev_poll. rewrite Hs, Hev, Hd, Hpd, Ht. assert (Edur : u16 (dur_of pdur n + pdur) = dur_of pdur (n + 1)) by (unfold dur_of, wrap; rewrite Z.add_mod_idemp_l by lia; f_equal; lia). rewrite Edur.
  rewrite (wrap_small 32) by lia. destruct (payload_encoded e false (dur_of pdur (n + 1)) He) as (mb & -> & Ec). cbn [tl_mb tl_set_tx]. unfold start_pkt. rewrite (proj2 (Z.eqb_neq (n + 1) 1)) by lia.
  assert (Hgo : exists t', (match (if 0 =? 0 then Ok false else Err 0) with Ok mrk => [(mrk, content mb)] | Err _ => [] end, tl_set_tx (tl_mb t) SENDING e (dur_of pdur (n + 1)) (n + 1) t) = ([(false, payload e false (dur_of pdur (n + 1)))], t') /\ phase SENDING pdur e (dur_of pdur (n + 1)) (n + 1) c 1 t').
  { cbn [Z.eqb]. rewrite Ec. eexists. split; [done|]. by split. }
  unfold TXC_DIGIT_MIN. destruct (Z.ltb_spec (n + 1) 9) as [Hlt|Hge]; [exact Hgo|]. destruct Hc as [->|[_ Hc]]; [|lia]. rewrite (left_of _ _ _ Hh). exact Hgo.
Qed.

(** The packet after which the release is seen. *)
Lemma poll_released pdur e n t : is_byte e -> phase SENDING pdur e (dur_of pdur n) n [e; 255] 1 t -> 8 <= n < 2 ^ 31 ->
  exists t', poll1 t = ([start_pkt pdur e (n + 1)], t') /\ phase ENDING pdur e (dur_of pdur (n + 1)) 0 [e; 255] 2 t'.
Proof.
  intros He [Hs Hpd Hev Hd Ht Hh] Hn. unfold poll1, telev_poll. rewrite Hs, Hev, Hd, Hpd, Ht. assert (Edur : u16 (dur_of pdur n + pdur) = dur_of pdur (n + 1)) by (unfold dur_of, wrap; rewrite Z.add_mod_idemp_l by lia; f_equal; lia). rewrite Edur.
  rewrite (wrap_small 32) by lia. destruct (payload_encoded e false (dur_of pdur (n + 1)) He) as (mb & -> & Ec). cbn [tl_mb tl_set_tx]. unfold start_pkt, TXC_DIGIT_MIN. rewrite (proj2 (Z.eqb_neq (n + 1) 1)), (proj2 (Z.ltb_ge _ 9)) by lia.
  rewrite (left_of _ _ _ Hh). change (zlength [e; 255] - 1 =? 0) with false. cbn iota. assert (Er : rest (tl_mb t) = [255]) by (by rewrite (holds_rest _ _ _ Hh)). destruct (mbuf_read_u8_cons _ _ _ (holds_wf _ _ _ Hh) Er) as (-> & _ & _).
  change (negb (255 =? EVENT_END)) with false. cbn [Z.eqb]. rewrite Ec. eexists. split; [done|]. split; try done. cbn [tl_mb tl_set_tx]. unfold adv. rewrite (holds_pos _ _ _ Hh). apply (holds_set_pos _ _ 1); [done|by vm_compute].
Qed.

Lemma poll_ending pdur e n k t : is_byte e -> phase ENDING pdur e (dur_of pdur n) k [e; 255] 2 t -> 0 <= k < 2 -> exists t', poll1 t = ([end_pkt pdur e n], t') /\ phase ENDING pdur e (dur_of pdur n) (k + 1) [e; 255] 2 t'.
Proof.
  intros He [Hs Hpd Hev Hd Ht Hh] Hk. unfold poll1, telev_poll. rewrite Hs, Hev, Hd, Ht. destruct (payload_encoded e true (dur_of pdur n) He) as (mb & -> & Ec). rewrite (wrap_small 32) by lia. unfold TXC_END.
  rewrite (proj2 (Z.ltb_lt _ 3)) by lia. cbn [Z.eqb]. rewrite Ec. eexists. split; [done|]. by split.
Qed.
Lemma poll_last pdur e n t : is_byte e -> phase ENDING pdur e (dur_of pdur n) 2 [e; 255] 2 t -> exists t', poll1 t = ([end_pkt pdur e n], t') /\ resting pdur [] t'.
Proof.
  intros He [Hs Hpd Hev Hd Ht Hh]. unfold poll1, telev_poll. rewrite Hs, Hev, Hd, Ht. destruct (payload_encoded e true (dur_of pdur n) He) as (mb & -> & Ec). change (u32 (2 + 1) <? TXC_END) with false. cbn [Z.eqb tl_mb tl_set_tx].
  rewrite (left_of _ _ _ Hh). change (zlength [e; 255] - 2 =? 0) with true. cbn iota. rewrite Ec. eexists. split; [done|]. split; try done. cbn [tl_mb tl_set_tx]. destruct Hh as [[W1 W2 W3 W4 W5] _ _]. split; [|done|done]. unfold mbuf_rewind. split; cbn; try done; lia.
Qed.

(** ** A key *)

Lemma seqZ_first m j : seqZ m (Z.of_nat (S j)) = m :: seqZ (m + 1) (Z.of_nat j).
Proof. rewrite seqZ_cons by lia. f_equal. f_equal; lia. Qed.

Lemma more_polls pdur e c j : is_byte e -> forall n t, phase SENDING pdur e (dur_of pdur n) n c 1 t -> 1 <= n -> n + Z.of_nat j < 2 ^ 31 -> c = [e] \/ c = [e; 255] /\ n + Z.of_nat j <= 8 ->
  exists t', polls j t = (map (start_pkt pdur e) (seqZ (n + 1) (Z.of_nat j)), t') /\ phase SENDING pdur e (dur_of pdur (n + Z.of_nat j)) (n + Z.of_nat j) c 1 t'.
Proof.
  intros He. induction j as [|j IH]; intros n t Hp Hn Hj Hc; [exists t; cbn [polls]; by rewrite Z.add_0_r|]. cbn [polls]. destruct (poll_more pdur e n c t He Hp ltac:(lia)) as (t1 & -> & Hp1); [destruct Hc as [->|[-> Hc]]; [by left|right; split; [done|lia]]|].
  destruct (IH (n + 1) t1 Hp1 ltac:(lia) ltac:(lia)) as (t2 & -> & Hp2); [destruct Hc as [->|[-> Hc]]; [by left|right; split; [done|lia]]|]. exists t2. rewrite seqZ_first. split; [done|]. by replace (n + Z.of_nat (S j)) with (n + 1 + Z.of_nat j) by lia.
Qed.

Lemma end_polls pdur e n t : is_byte e -> phase ENDING pdur e (dur_of pdur n) 0 [e; 255] 2 t -> exists t', polls 3 t = (replicate 3 (end_pkt pdur e n), t') /\ resting pdur [] t'.
Proof.
  intros He Hp. destruct (poll_ending pdur e n 0 t He Hp ltac:(lia)) as (t1 & E1 & H1). destruct (poll_ending pdur e n 1 t1 He H1 ltac:(lia)) as (t2 & E2 & H2). destruct (poll_last pdur e n t2 He H2) as (t3 & E3 & H3).
  exists t3. split; [|done]. cbn [polls]. by rewrite E1, E2, E3.
Qed.

(** From the release on: up to nine packets, one at least, and three ends. *)
Lemma released_polls pdur e n t : is_byte e -> phase SENDING pdur e (dur_of pdur n) n [e; 255] 1 t -> 1 <= n -> n + 1 < 2 ^ 31 -> let last := Z.max 9 (n + 1) in
  exists t', polls (Z.to_nat (last - n + 3)) t = (map (start_pkt pdur e) (seqZ (n + 1) (last - n)) ++ replicate 3 (end_pkt pdur e last), t') /\ resting pdur [] t'.
Proof.
  intros He Hp Hn Hl last. set (j := Z.to_nat (last - n - 1)). assert (Ej : Z.of_nat j = last - n - 1) by (unfold j, last; lia).
  assert (Hj : exists t1, polls j t = (map (start_pkt pdur e) (seqZ (n + 1) (Z.of_nat j)), t1) /\ phase SENDING pdur e (dur_of pdur (n + Z.of_nat j)) (n + Z.of_nat j) [e; 255] 1 t1).
  { destruct (Z.le_gt_cases n 8) as [H8|H8]; [apply more_polls; try done; try lia; right; split; [done|unfold last in Ej; lia]|]. assert (j = 0%nat) as -> by (unfold last in Ej; lia). exists t. rewrite Z.add_0_r. by split. }
  destruct Hj as (t1 & E1 & H1). destruct (poll_released pdur e _ t1 He H1 ltac:(unfold last in Ej; lia)) as (t2 & E2 & H2). replace (n + Z.of_nat j + 1) with last in * by lia. destruct (end_polls pdur e last t2 He H2) as (t3 & E3 & H3).
  replace (Z.to_nat (last - n + 3)) with (j + (1 + 3))%nat by lia. rewrite polls_app, E1, polls_app. cbn [polls]. rewrite E2. cbn [polls] in E3. rewrite E3. exists t3. split; [|done]. rewrite app_nil_r.
  rewrite app_assoc. do 2 f_equal. replace (last - n) with (Z.of_nat j + 1) by lia. rewrite seqZ_app by lia. rewrite map_app. f_equal. replace (n + 1 + Z.of_nat j) with last by lia. done.
Qed.

(** The key [e], released after [a] packets. *)
Definition key_run (e : Z) (a : nat) (t : telev) : option (list (bool * list Z) * telev) :=
  match telev_send e false t with
  | (0, t) =>
      let '(p, t) := polls a t in
      match telev_send e true t with
      | (0, t) => let '(q, t) := polls (Z.to_nat (Z.max 9 (Z.of_nat a + 1) - Z.of_nat a + 3)) t in Some (p ++ q, t)
      | _ => None
      end
  | _ => None
  end.

Definition key_packets (pdur e : Z) (a : nat) : list (bool * list Z) :=
  let last := Z.max 9 (Z.of_nat a + 1) in map (start_pkt pdur e) (seqZ 1 last) ++ replicate 3 (end_pkt pdur e last).

Lemma key_sent pdur e a t : is_byte e -> 0 <= pdur < 2 ^ 16 -> resting pdur [] t -> Z.of_nat a < 2 ^ 30 -> exists t', key_run e a t = Some (key_packets pdur e a, t') /\ resting pdur [] t'.
Proof.
  intros He Hpd Hr Ha. unfold key_run, key_packets. destruct (press pdur t e Hr He) as (t1 & -> & H1). destruct a as [|a].
  - cbn [polls]. destruct (release_resting pdur t1 e H1) as (t2 & -> & H2). destruct (poll_first pdur e [255] t2 H2 He Hpd) as (t3 & E3 & H3). destruct (released_polls pdur e 1 t3 He H3 ltac:(lia) ltac:(lia)) as (t4 & E4 & H4).
    change (Z.to_nat (Z.max 9 (Z.of_nat 0 + 1) - Z.of_nat 0 + 3)) with (1 + Z.to_nat (Z.max 9 (1 + 1) - 1 + 3))%nat. rewrite polls_app. cbn [polls]. rewrite E3, E4. exists t4. split; [|done]. done.
  - cbn [polls]. destruct (poll_first pdur e [] t1 H1 He Hpd) as (t2 & -> & H2). destruct (more_polls pdur e [e] a He 1 t2 H2 ltac:(lia) ltac:(lia) ltac:(by left)) as (t3 & -> & H3). destruct (release _ _ _ _ _ H3) as (t4 & -> & H4).
    replace (1 + Z.of_nat a) with (Z.of_nat (S a)) in H4 by lia. destruct (released_polls pdur e _ t4 He H4 ltac:(lia) ltac:(lia)) as (t5 & -> & H5). exists t5. split; [|done]. rewrite app_assoc. do 3 f_equal.
    set (last := Z.max 9 (Z.of_nat (S a) + 1)). replace last with (1 + (Z.of_nat a + (last - Z.of_nat (S a)))) at 2 by lia. rewrite !seqZ_app by lia. rewrite !map_app. cbn [app]. replace (1 + 1 + Z.of_nat a) with (Z.of_nat (S a) + 1) by lia. done.
Qed.

(** ** The receiver *)

(** What is heard of the packets that arrive. *)
Fixpoint hears (ps : list (list Z)) (t : telev) : list (Z * bool) * telev :=
  match ps with
  | [] => ([], t)
  | p :: ps =>
      let '(r, t, _) := telev_recv (rcv_buf p) t in
      let '(o, t) := hears ps t in
      (match r with Ok x => x :: o | Err _ => o end, t)
  end.

Lemma hears_app ps qs : forall t, hears (ps ++ qs) t = let '(o, t) := hears ps t in let '(o', t) := hears qs t in (o ++ o', t).
Proof.
  induction ps as [|p ps IH]; intros t; cbn [app hears]; [by destruct (hears qs t)|]. destruct (telev_recv (rcv_buf p) t) as [[r t1] mb]. rewrite IH. destruct (hears ps t1) as [o t2]. destruct (hears qs t2) as [o' t3]. by destruct r.
Qed.

Definition is_start (e : Z) (p : list Z) : Prop := exists dur, 0 <= dur < 2 ^ 16 /\ p = payload e false dur.
Definition is_end (e : Z) (p : list Z) : Prop := exists dur, 0 <= dur < 2 ^ 16 /\ p = payload e true dur.

Lemma recv_payload e end_ dur t : is_byte e -> 0 <= dur < 2 ^ 16 ->
  (telev_recv (rcv_buf (payload e end_ dur)) t).1 =
  if end_ then if tl_rx_end t then (Err EALREADY, t) else (Ok (e, true), tl_set_rx (-1) true t)
  else if e =? tl_rx_event t then (Err EALREADY, t) else (Ok (e, false), tl_set_rx e false t).
Proof.
  intros He Hd. unfold telev_recv. pose proof (payload_decoded e end_ dur He Hd) as E. destruct (payload_decode _) as [r mb]. cbn [fst] in E. subst r. cbn [tf_end tf_event]. destruct end_; [by destruct (tl_rx_end t)|by destruct (e =? tl_rx_event t)].
Qed.

Lemma hears_more e ps t : is_byte e -> Forall (is_start e) ps -> tl_rx_event t = e -> hears ps t = ([], t).
Proof.
  intros He Hps Ht. induction Hps as [|p ps (dur & Hd & ->) _ IH]; [done|]. cbn [hears]. pose proof (recv_payload e false dur t He Hd) as E. rewrite Ht, Z.eqb_refl in E. destruct (telev_recv _ t) as [[r t1] mb]. cbn [fst] in E. injection E as -> ->. by rewrite IH.
Qed.
Lemma hears_ends e ps t : is_byte e -> Forall (is_end e) ps -> tl_rx_end t = true -> hears ps t = ([], t).
Proof.
  intros He Hps Ht. induction Hps as [|p ps (dur & Hd & ->) _ IH]; [done|]. cbn [hears]. pose proof (recv_payload e true dur t He Hd) as E. rewrite Ht in E. destruct (telev_recv _ t) as [[r t1] mb]. cbn [fst] in E. injection E as -> ->. by rewrite IH.
Qed.

(** One of the first packets and one of the last ones are enough. *)
Lemma key_heard e ss es t : is_byte e -> Forall (is_start e) ss -> Forall (is_end e) es -> ss <> [] -> es <> [] -> tl_rx_event t = -1 ->
  exists t', hears (ss ++ es) t = ([(e, false); (e, true)], t') /\ tl_rx_event t' = -1.
Proof.
  intros He Hss Hes Ns Ne Ht. destruct ss as [|p ss]; [done|]. destruct es as [|q es]; [done|]. apply Forall_cons in Hss as [(d1 & Hd1 & ->) Hss]. apply Forall_cons in Hes as [(d2 & Hd2 & ->) Hes].
  rewrite hears_app. cbn [hears]. pose proof (recv_payload e false d1 t He Hd1) as E1. rewrite Ht, (proj2 (Z.eqb_neq e (-1))) in E1 by (unfold is_byte in He; lia). destruct (telev_recv _ t) as [[r1 t1] mb1]. cbn [fst] in E1. injection E1 as -> ->.
  rewrite (hears_more e ss) by done. pose proof (recv_payload e true d2 (tl_set_rx e false t) He Hd2) as E2. cbn [tl_rx_end tl_set_rx] in E2. destruct (telev_recv _ (tl_set_rx e false t)) as [[r2 t2] mb2]. cbn [fst] in E2. injection E2 as -> ->.
  rewrite (hears_ends e es) by done. eexists. split; [done|done].
Qed.

(** ** Keys one after the other *)

Fixpoint keys_run (ks : list (Z * nat)) (t : telev) : option (list (list (bool * list Z)) * telev) :=
  match ks with
  | [] => Some ([], t)
  | (e, a) :: ks => match key_run e a t with Some (p, t) => match keys_run ks t with Some (ps, t) => Some (p :: ps, t) | None => None end | None => None end
  end.

(** Of the packets of a key some arrive, in order: one with the key down and one
    with its end at least. *)
Definition enough (sent : list (bool * list Z)) (arrived : list (list Z)) : Prop :=
  sublist arrived (map snd sent) /\ (exists p, In p arrived /\ znth 1 p < 128) /\ (exists p, In p arrived /\ 128 <= znth 1 p).

Lemma sublist_Forall {A} (Q : A -> Prop) l k : sublist l k -> Forall Q k -> Forall Q l.
Proof. intros Hs Hk. apply Forall_forall. intros x Hx. rewrite Forall_forall in Hk. apply Hk. eapply elem_of_submseteq; [exact Hx|by apply sublist_submseteq]. Qed.

Lemma enough_heard pdur e a arrived t : is_byte e -> enough (key_packets pdur e a) arrived -> tl_rx_event t = -1 -> exists t', hears arrived t = ([(e, false); (e, true)], t') /\ tl_rx_event t' = -1.
Proof.
  intros He (Hs & (p & Hp & Hp1) & (q & Hq & Hq1)) Ht. unfold key_packets in Hs. rewrite map_app in Hs. apply sublist_app_r in Hs as (ss & es & -> & Hss & Hes).
  assert (Fs : Forall (is_start e) ss). { eapply sublist_Forall; [exact Hss|]. rewrite map_map. apply Forall_map. apply List.Forall_forall. intros k _. exists (dur_of pdur k). split; [apply wrap_range; lia|done]. }
  assert (Fe : Forall (is_end e) es). { eapply sublist_Forall; [exact Hes|]. apply Forall_map. apply Forall_replicate. exists (dur_of pdur (Z.max 9 (Z.of_nat a + 1))). split; [apply wrap_range; lia|done]. }
  apply key_heard; try done.
  - intros ->. cbn [app] in Hp. rewrite List.Forall_forall in Fe. destruct (Fe p Hp) as (d & _ & ->). change (znth 1 (payload e true d)) with 138 in Hp1. lia.
  - intros ->. rewrite app_nil_r in Hq. rewrite List.Forall_forall in Fs. destruct (Fs q Hq) as (d & _ & ->). change (znth 1 (payload e false d)) with 10 in Hq1. lia.
Qed.

(** C26: every key is heard once.  A sender with nothing queued sends keys strictly
    one after the other: each is pressed, held for any number of packets below 2^30
    and released, and all its packets are sent before the next one is pressed (keys
    that overlap or are queued ahead are not covered).  The sender makes of each key
    at least nine packets, the first one with the marker, their durations multiples
    of the packet time modulo 2^16, and three packets with the end, and is then ready
    for the next one.  Whatever packets are lost, as long as the others keep their
    order and one of each kind arrives for each key, a receiver that holds no key
    reports the press and the release of exactly these keys, in order. *)
Theorem telev_keys_heard (ks : list (Z * nat)) (pdur : Z) (sender receiver : telev) :
  Forall (fun k => is_byte k.1 /\ Z.of_nat k.2 < 2 ^ 30) ks -> 0 <= pdur < 2 ^ 16 -> resting pdur [] sender -> tl_rx_event receiver = -1 ->
  exists sent sender', keys_run ks sender = Some (sent, sender') /\ telev_is_empty sender' = true
    /\ Forall2 (fun k ps => ps = key_packets pdur k.1 k.2) ks sent
    /\ forall arrived, Forall2 enough sent arrived -> (hears (concat arrived) receiver).1 = concat (map (fun k => [(k.1, false); (k.1, true)]) ks).
Proof.
  intros Hks Hpd Hr Hrx. revert sender receiver Hr Hrx. induction Hks as [|[e a] ks [He Ha] Hks IH]; intros sender receiver Hr Hrx.
  - exists [], sender. split_and!; [done| |constructor|by intros arrived ->%Forall2_nil_inv_l]. unfold telev_is_empty. rewrite (rs_state _ _ _ Hr), (left_of _ _ _ (rs_queue _ _ _ Hr)). done.
  - cbn [fst snd] in *. destruct (key_sent pdur e a sender He Hpd Hr Ha) as (s1 & E1 & Hr1). destruct (IH s1 receiver Hr1 Hrx) as (sent & s2 & E2 & Hem & Hall & _). exists (key_packets pdur e a :: sent), s2. cbn [keys_run]. rewrite E1, E2. split_and!; [done|done|by constructor|].
    intros arrived Harr. apply Forall2_cons_inv_l in Harr as (arr & rest & Ha1 & Ha2 & ->). destruct (enough_heard pdur e a arr receiver He Ha1 Hrx) as (r1 & Eh & Hr1').
    destruct (IH s1 r1 Hr1 Hr1') as (sent' & s2' & E2' & _ & _ & Hh). rewrite E2 in E2'. injection E2' as <- <-. specialize (Hh rest Ha2). cbn [concat map]. rewrite hears_app, Eh. destruct (hears (concat rest) r1) as [o r2]. cbn [fst] in *. by rewrite Hh.
Qed.
End Spec.

(** ** Examples *)

#[local] Instance telev_host : Host := lp64_le.

Definition ex_telev : telev := match telev_alloc 50 with Ok t => t | Err _ => Telev mbuf_init 0 0 IDLE 0 0 0 0 false end.

Lemma telev_keys_heard_witness : exists sent t', keys_run [(5, 0%nat); (11, 20%nat)] ex_telev = Some (sent, t') /\ map length sent = [12; 24]%nat
  /\ forall arrived, Forall2 enough sent arrived -> (hears (concat arrived) ex_telev).1 = [(5, false); (5, true); (11, false); (11, true)].
Proof.
  assert (Hr : resting 400 [] ex_telev).
  { destruct (mbuf_alloc_new 16 lp64_ample ltac:(by vm_compute)) as (mb & E & Hh & _). unfold ex_telev, telev_alloc. change (50 =? 0) with false. cbn iota. unfold telev_host. rewrite E. by split. }
  assert (Hk : Forall (fun k : Z * nat => is_byte k.1 /\ Z.of_nat k.2 < 2 ^ 30) [(5, 0%nat); (11, 20%nat)]) by (repeat constructor; cbn; lia).
  destruct (telev_keys_heard lp64_ample _ 400 ex_telev ex_telev Hk ltac:(lia) Hr eq_refl) as (sent & t' & E & _ & Hall & Hh). exists sent, t'. split; [exact E|]. split; [|exact Hh].
  apply Forall2_cons_inv_l in Hall as (p1 & l1 & -> & Hall & ->). apply Forall2_cons_inv_l in Hall as (p2 & l2 & -> & Hall & ->). apply Forall2_nil_inv_l in Hall as ->. vm_compute. reflexivity.
Defined.

(** Keys that overlap: the second one is pressed before the first one is released.
    Both releases stay in the queue, and the second one is sent as event 255. *)
Lemma telev_overlap_sends_end_event :
  let t := (telev_send 2 true (telev_send 1 true (telev_send 2 false (telev_send 1 false ex_telev).2).2).2).2 in
  map (fun p => ztake 1 p.2) (drop 24 (polls 25 t).1) = [[255]].
Proof. vm_compute. reflexivity. Qed.
