(* ===== verification/Amf.v ===== *)
(** * AMF, the values in RTMP commands: src/src/rtmp/amf_enc.c and amf_dec.c

    The variable arguments of rtmp_amf_vencode_object are the properties of a
    container: each has a key where the container has keys ([None] is NULL) and
    a value, which may be a container again.  The decoder fills an ordered
    dictionary.  It recurses once per level of nesting: the recursion and the
    loop over the properties of an object take fuel, and [None] is a decoder
    that has not ended.  The C stack that the recursion uses is not bounded in
    the model, nor in the code. *)

From stdpp Require Import base list numbers.
From Stdlib Require Import ZArith Lia.
From S2P Require Import Prelude Endian Mbuf MbufView Format Hash Fmt Odict.

Open Scope Z_scope.

Definition RTMP_AMF_TYPE_NUMBER : Z := 0.
Definition RTMP_AMF_TYPE_BOOLEAN : Z := 1.
Definition RTMP_AMF_TYPE_STRING : Z := 2.
Definition RTMP_AMF_TYPE_OBJECT : Z := 3.
Definition RTMP_AMF_TYPE_NULL : Z := 5.
Definition RTMP_AMF_TYPE_ECMA_ARRAY : Z := 8.
Definition RTMP_AMF_TYPE_OBJECT_END : Z := 9.
Definition RTMP_AMF_TYPE_STRICT_ARRAY : Z := 10.

(** The containers rtmp_amf_vencode_object knows. *)
Inductive amf_container := AMF_ROOT | AMF_OBJECT | AMF_ECMA_ARRAY | AMF_STRICT_ARRAY.

Definition container_has_key (c : amf_container) : bool :=
  match c with AMF_OBJECT | AMF_ECMA_ARRAY => true | AMF_ROOT | AMF_STRICT_ARRAY => false end.

Inductive amf_arg :=
| ANumber (bits : Z)
| ABoolean (b : bool)
| AString (s : option (list Z))
| ANull
| AContainer (c : amf_container) (props : list (option (list Z) * amf_arg))
| AOther.

Abbreviation amf_props := (list (option (list Z) * amf_arg)).

(** ** amf_enc.c *)

Section Encode.
Context `{H : Host}.

Definition rtmp_amf_encode_key (key : list Z) : mbuf -> Z * mbuf :=
  let len := zlength key in
  if len >? 65535 then fun mb => (EOVERFLOW, mb)
  else write_be16 (u16 len) ;| mbuf_write_str key.

Definition rtmp_amf_encode_object_start : mbuf -> Z * mbuf := mbuf_write_u8 RTMP_AMF_TYPE_OBJECT.
Definition rtmp_amf_encode_array_start (type length : Z) : mbuf -> Z * mbuf := mbuf_write_u8 type ;| write_be32 length.
Definition rtmp_amf_encode_object_end : mbuf -> Z * mbuf := mbuf_write_u16 0 ;| mbuf_write_u8 RTMP_AMF_TYPE_OBJECT_END.

Definition rtmp_amf_encode_number (bits : Z) : mbuf -> Z * mbuf := mbuf_write_u8 RTMP_AMF_TYPE_NUMBER ;| write_be64 bits.
Definition rtmp_amf_encode_boolean (b : bool) : mbuf -> Z * mbuf :=
  mbuf_write_u8 RTMP_AMF_TYPE_BOOLEAN ;| mbuf_write_u8 (if b then 1 else 0).
Definition rtmp_amf_encode_string (str : option (list Z)) : mbuf -> Z * mbuf :=
  match str with
  | None => fun mb => (EINVAL, mb)
  | Some str =>
      let len := zlength str in
      if len >? 65535 then fun mb => (EOVERFLOW, mb)
      else mbuf_write_u8 RTMP_AMF_TYPE_STRING ;| write_be16 (u16 len) ;| mbuf_write_str str
  end.
Definition rtmp_amf_encode_null : mbuf -> Z * mbuf := mbuf_write_u8 RTMP_AMF_TYPE_NULL.

(** What the container starts with. *)
Definition encode_start (c : amf_container) (propc : Z) : mbuf -> Z * mbuf :=
  match c with
  | AMF_OBJECT => rtmp_amf_encode_object_start
  | AMF_ECMA_ARRAY => rtmp_amf_encode_array_start RTMP_AMF_TYPE_ECMA_ARRAY propc
  | AMF_STRICT_ARRAY => rtmp_amf_encode_array_start RTMP_AMF_TYPE_STRICT_ARRAY propc
  | AMF_ROOT => ret_ok
  end.

Definition encode_key (has_key : bool) (key : option (list Z)) : mbuf -> Z * mbuf :=
  if has_key then match key with None => fun mb => (EINVAL, mb) | Some key => rtmp_amf_encode_key key end else ret_ok.

(** A value of a container; AMF_ROOT is not among the types a property may have. *)
Fixpoint encode_value (a : amf_arg) : mbuf -> Z * mbuf :=
  match a with
  | ANumber bits => rtmp_amf_encode_number bits
  | ABoolean b => rtmp_amf_encode_boolean b
  | AString s => rtmp_amf_encode_string s
  | ANull => rtmp_amf_encode_null
  | AContainer AMF_ROOT _ | AOther => fun mb => (ENOTSUP, mb)
  | AContainer c props =>
      if zlength props =? 0 then fun mb => (EINVAL, mb)
      else
        encode_start c (zlength props) ;&
        (fix loop (props : amf_props) : mbuf -> Z * mbuf :=
           match props with
           | [] => if container_has_key c then rtmp_amf_encode_object_end else ret_ok
           | (key, a) :: props => encode_key (container_has_key c) key ;& encode_value a ;& loop props
           end) props
  end.

(** The loop over the properties. *)
Fixpoint encode_props (c : amf_container) (props : amf_props) : mbuf -> Z * mbuf :=
  match props with
  | [] => if container_has_key c then rtmp_amf_encode_object_end else ret_ok
  | (key, a) :: props => encode_key (container_has_key c) key ;& encode_value a ;& encode_props c props
  end.

Definition rtmp_amf_vencode_object (c : amf_container) (props : amf_props) : mbuf -> Z * mbuf :=
  if zlength props =? 0 then fun mb => (EINVAL, mb)
  else encode_start c (zlength props) ;& encode_props c props.

Definition rtmp_command_header_encode (name : list Z) (tid : Z) : mbuf -> Z * mbuf :=
  rtmp_amf_encode_string (Some name) ;| rtmp_amf_encode_number (dbl_of_u64 tid).
End Encode.

(** ** amf_dec.c *)

Definition AMF_HASH_SIZE : Z := 32.

Section Decode.
Context `{H : Host}.

Definition dlift {A} (r : res A) : D A := fun mb => Some (r, mb).

(** mbuf_strdup: the bytes before the terminator that it adds. *)
Definition dstrdup (len : Z) : D (list Z) := fun mb =>
  match mbuf_strdup mb len with
  | (_, Some s, mb) => Some (Ok (ztake len s), mb)
  | (err, None, mb) => Some (Err err, mb)
  end.

(** The loop over the properties of an object; [dv] decodes a value into the
    dictionary. *)
Fixpoint amf_decode_object (dv : odict -> list Z -> D odict) (fuel : nat) (dict : odict) : D odict := fun mb =>
  if mbuf_get_left mb >? 0 then
    match fuel with
    | O => None
    | S fuel =>
        (do! _ := dneed 2 ENODATA in
         do! len := dread read_be16 in
         if len =? 0 then
           do! _ := dneed 1 ENODATA in
           do! val := dread mbuf_read_u8 in
           if val =? RTMP_AMF_TYPE_OBJECT_END then dret dict else dthrow EBADMSG
         else
           do! _ := dneed len ENODATA in
           do! key := dstrdup len in
           do! dict := dv dict key in
           amf_decode_object dv fuel dict) mb
    end
  else Some (Ok dict, mb).

(** The loop over the elements of a strict array, and over the values at the
    root of a message. *)
Fixpoint decode_elements (dv : odict -> list Z -> D odict) (n : nat) (i : Z) (dict : odict) : D odict :=
  match n with
  | O => dret dict
  | S n => do! dict := dv dict (dec_str i) in decode_elements dv n (i + 1) dict
  end.

Fixpoint amf_decode_value (fuel : nat) (dict : odict) (key : list Z) : D odict :=
  match fuel with
  | O => fun _ => None
  | S fuel =>
      do! _ := dneed 1 ENODATA in
      do! type := dread mbuf_read_u8 in
      if type =? RTMP_AMF_TYPE_NUMBER then
        do! _ := dneed 8 ENODATA in
        do! num := dread read_be64 in
        dlift (odict_entry_add dict key (ODouble num))
      else if type =? RTMP_AMF_TYPE_BOOLEAN then
        do! _ := dneed 1 ENODATA in
        do! b := dread mbuf_read_u8 in
        dlift (odict_entry_add dict key (OBool (negb (b =? 0))))
      else if type =? RTMP_AMF_TYPE_STRING then
        do! _ := dneed 2 ENODATA in
        do! len := dread read_be16 in
        do! _ := dneed len ENODATA in
        do! str := dstrdup len in
        dlift (odict_entry_add dict key (OString str))
      else if type =? RTMP_AMF_TYPE_NULL then dlift (odict_entry_add dict key ONull)
      else if (type =? RTMP_AMF_TYPE_ECMA_ARRAY) || (type =? RTMP_AMF_TYPE_OBJECT) then
        do! _ := (if type =? RTMP_AMF_TYPE_ECMA_ARRAY
                  then do! _ := dneed 4 ENODATA in dread read_be32 else dret 0) in
        do! object := dlift (odict_alloc 32) in
        do! object := amf_decode_object (amf_decode_value fuel) fuel object in
        dlift (odict_entry_add dict key (OObject object))
      else if type =? RTMP_AMF_TYPE_STRICT_ARRAY then
        do! _ := dneed 4 ENODATA in
        do! array_len := dread read_be32 in
        if (array_len =? 0) || (array_len >? 65536) then dthrow EPROTO
        else
          do! object := dlift (odict_alloc 32) in
          do! object := decode_elements (amf_decode_value fuel) (Z.to_nat array_len) 0 object in
          dlift (odict_entry_add dict key (OArray object))
      else dthrow EPROTO
  end.

Fixpoint decode_root (fuel : nat) (ix : Z) (msg : odict) : D odict := fun mb =>
  if mbuf_get_left mb >? 0 then
    match fuel with
    | O => None
    | S fuel =>
        (do! msg := amf_decode_value (S fuel) msg (dec_str ix) in
         decode_root fuel (u32 (ix + 1)) msg) mb
    end
  else Some (Ok msg, mb).

(** Each turn of a loop and each level of nesting takes a byte at least. *)
Definition rtmp_amf_decode : D odict := fun mb =>
  match odict_alloc AMF_HASH_SIZE with
  | Err e => Some (Err e, mb)
  | Ok msg => decode_root (Z.to_nat (mbuf_get_left mb)) 0 msg mb
  end.
End Decode.
