(* ===== verification/AmfSpec.v ===== *)
(** * AMF: what is encoded is decoded, and the decoder on arbitrary input

    [arg_bytes] is the format of a value and [value_of] what the decoder makes
    of it: both kinds of keyed containers become objects, and the elements of
    strict arrays and of the root are numbered. *)

From stdpp Require Import base list numbers strings.
From Stdlib Require Import ZArith Lia.
From S2P Require Import Prelude Endian Mbuf MbufView Format Hash Fmt Odict Amf.

Open Scope Z_scope.

(** ** Values and their format *)

Fixpoint number_keys (i : Z) (l : list odict_value) : odict :=
  match l with
  | [] => []
  | v :: l => (dec_str i, v) :: number_keys (i + 1) l
  end.

Fixpoint value_of (a : amf_arg) : odict_value :=
  match a with
  | ANumber bits => ODouble bits
  | ABoolean b => OBool b
  | AString s => OString (default [] s)
  | AContainer AMF_STRICT_ARRAY props => OArray (number_keys 0 (map (fun p => value_of p.2) props))
  | AContainer _ props => OObject (map (fun p => (default [] p.1, value_of p.2)) props)
  | ANull | AOther => ONull
  end.

Definition key_bytes (key : list Z) : list Z := be_bytes 2 (zlength key) ++ key.

Definition start_bytes (c : amf_container) (n : Z) : list Z :=
  match c with
  | AMF_ROOT => []
  | AMF_OBJECT => [RTMP_AMF_TYPE_OBJECT]
  | AMF_ECMA_ARRAY => RTMP_AMF_TYPE_ECMA_ARRAY :: be_bytes 4 n
  | AMF_STRICT_ARRAY => RTMP_AMF_TYPE_STRICT_ARRAY :: be_bytes 4 n
  end.

Definition end_bytes (c : amf_container) : list Z :=
  if container_has_key c then [0; 0; RTMP_AMF_TYPE_OBJECT_END] else [].

Fixpoint arg_bytes (a : amf_arg) : list Z :=
  match a with
  | ANumber bits => RTMP_AMF_TYPE_NUMBER :: be_bytes 8 bits
  | ABoolean b => [RTMP_AMF_TYPE_BOOLEAN; if b then 1 else 0]
  | AString s => RTMP_AMF_TYPE_STRING :: key_bytes (default [] s)
  | ANull => [RTMP_AMF_TYPE_NULL]
  | AContainer c props =>
      start_bytes c (zlength props)
        ++ concat (map (fun p => (if container_has_key c then key_bytes (default [] p.1) else []) ++ arg_bytes p.2) props)
        ++ end_bytes c
  | AOther => []
  end.

Definition prop_bytes (c : amf_container) (p : option (list Z) * amf_arg) : list Z :=
  (if container_has_key c then key_bytes (default [] p.1) else []) ++ arg_bytes p.2.
Definition props_bytes (c : amf_container) (props : amf_props) : list Z := concat (map (prop_bytes c) props).

(** ** Well-formed values *)

Definition str_ok (s : list Z) : Prop := Forall (fun b => 0 < b < 256) s /\ zlength s <= 65535.
Definition key_ok (c : amf_container) (key : option (list Z)) : Prop :=
  container_has_key c = true -> exists k, key = Some k /\ str_ok k /\ k <> [].

Inductive arg_ok : amf_arg -> Prop :=
| ok_number bits : is_u64 bits -> arg_ok (ANumber bits)
| ok_boolean b : arg_ok (ABoolean b)
| ok_string s : str_ok s -> arg_ok (AString (Some s))
| ok_null : arg_ok ANull
| ok_container c props :
    c <> AMF_ROOT -> 0 < zlength props -> (c = AMF_STRICT_ARRAY -> zlength props <= 65536) ->
    Forall (fun p => key_ok c p.1 /\ arg_ok p.2) props -> zlength (arg_bytes (AContainer c props)) < 2 ^ 30 -> arg_ok (AContainer c props).

(** Induction over nested values. *)
Lemma arg_nested_ind (P : amf_arg -> Prop) :
  (forall bits, P (ANumber bits)) -> (forall b, P (ABoolean b)) -> (forall s, P (AString s)) -> P ANull -> P AOther ->
  (forall c props, Forall (fun p => P p.2) props -> P (AContainer c props)) -> forall a, P a.
Proof.
  intros Hn Hb Hs Hz Ho Hc. fix IH 1. intros [bits|b|s| |c props|]; [apply Hn|apply Hb|apply Hs|apply Hz| |apply Ho].
  apply Hc. induction props as [|[k a] props IHp]; constructor; [apply IH|exact IHp].
Qed.

Lemma str_ok_bytes s : str_ok s -> bytes s.
Proof. intros [Hs _]. induction Hs as [|b s Hb _ IH]; constructor; [split; lia|done]. Qed.

Lemma until_nul_ok s : Forall (fun b => 0 < b < 256) s -> until_nul s = s.
Proof. induction 1 as [|b s Hb _ IH]; [done|]. cbn. rewrite (proj2 (Z.eqb_neq b 0)) by lia. by rewrite IH. Qed.

(** ** Encoding *)

Section Enc.
Context `{H : Host}.

Lemma writes_byte_const v : is_byte v -> writes (mbuf_write_u8 v) [v].
Proof. intros Hv. rewrite <- (Z.mod_small v 256) at 2 by apply Hv. apply writes_u8. Qed.

Lemma key_writes k : str_ok k -> writes (rtmp_amf_encode_key k) (key_bytes k).
Proof.
  intros Hk. unfold rtmp_amf_encode_key, key_bytes. pose proof (zlength_nonneg k). destruct Hk as [Hb Hl].
  rewrite Z.gtb_ltb, (proj2 (Z.ltb_ge _ _)), wrap_small by lia.
  apply writes_seq_or; [apply writes_be16|]. apply writes_mem; [by apply str_ok_bytes|lia].
Qed.

Lemma string_writes s : str_ok s -> writes (rtmp_amf_encode_string (Some s)) (arg_bytes (AString (Some s))).
Proof.
  intros Hk. unfold rtmp_amf_encode_string. cbn [arg_bytes default]. unfold key_bytes. pose proof (zlength_nonneg s). destruct Hk as [Hb Hl].
  rewrite Z.gtb_ltb, (proj2 (Z.ltb_ge _ _)), wrap_small by lia. change (?a :: ?l) with ([a] ++ l).
  apply writes_seq_or; [by apply writes_byte_const|]. apply writes_seq_or; [apply writes_be16|]. apply writes_mem; [by apply str_ok_bytes|cbn; lia].
Qed.

Lemma end_writes : writes rtmp_amf_encode_object_end [0; 0; RTMP_AMF_TYPE_OBJECT_END].
Proof.
  unfold rtmp_amf_encode_object_end. change [0; 0; ?c] with ([0; 0] ++ [c]). apply writes_seq_or; [|by apply writes_byte_const].
  apply (writes_host 2); [|done]. unfold host_bytes, be_bytes. by destruct host_endian.
Qed.

Lemma start_writes c n : writes (encode_start c n) (start_bytes c n).
Proof.
  destruct c; cbn [encode_start start_bytes]; unfold rtmp_amf_encode_object_start, rtmp_amf_encode_array_start; try apply writes_ret.
  - by apply writes_byte_const.
  - change (?a :: ?l) with ([a] ++ l). apply writes_seq_or; [by apply writes_byte_const|apply writes_be32].
  - change (?a :: ?l) with ([a] ++ l). apply writes_seq_or; [by apply writes_byte_const|apply writes_be32].
Qed.

Lemma props_write c props :
  Forall (fun p => key_ok c p.1 /\ writes (encode_value p.2) (arg_bytes p.2)) props ->
  writes (encode_props c props) (props_bytes c props ++ end_bytes c).
Proof.
  unfold props_bytes, end_bytes. induction 1 as [|[key a] props [Hk Ha] _ IH]; cbn [encode_props map concat app].
  - destruct (container_has_key c); [apply end_writes|apply writes_ret].
  - unfold prop_bytes at 1. cbn [fst snd]. rewrite <- !app_assoc. apply writes_seq_ok; [|apply writes_seq_ok; [exact Ha|exact IH]].
    unfold encode_key. unfold key_ok in Hk. cbn [fst] in Hk. destruct (container_has_key c); [|apply writes_ret].
    destruct (Hk eq_refl) as (k & -> & Hok & _). by apply key_writes.
Qed.

Lemma encode_container c props mb :
  c <> AMF_ROOT -> encode_value (AContainer c props) mb = rtmp_amf_vencode_object c props mb.
Proof.
  intros Hc. unfold rtmp_amf_vencode_object. set (E := encode_value (AContainer c props) mb).
  assert (Hloop : forall l, (fix loop (props : amf_props) : mbuf -> Z * mbuf :=
           match props with
           | [] => if container_has_key c then rtmp_amf_encode_object_end else ret_ok
           | (key, a) :: props => encode_key (container_has_key c) key ;& encode_value a ;& loop props
           end) l = encode_props c l).
  { induction l as [|[k a] l IH]; [done|]. cbn [encode_props]. by rewrite <- IH. }
  subst E. destruct c; [done| | |]; cbn [encode_value]; by rewrite Hloop.
Qed.

Lemma amf_vencode_writes c props :
  0 < zlength props -> Forall (fun p => key_ok c p.1 /\ writes (encode_value p.2) (arg_bytes p.2)) props ->
  writes (rtmp_amf_vencode_object c props) (start_bytes c (zlength props) ++ props_bytes c props ++ end_bytes c).
Proof.
  intros Hz Hp. unfold rtmp_amf_vencode_object. rewrite (proj2 (Z.eqb_neq _ 0)) by lia.
  apply writes_seq_ok; [apply start_writes|by apply props_write].
Qed.

Lemma value_writes a : arg_ok a -> writes (encode_value a) (arg_bytes a).
Proof.
  induction a as [bits|b|s| | |c props IH] using arg_nested_ind; intros Hok; inversion Hok; subst.
  - cbn [encode_value arg_bytes]. unfold rtmp_amf_encode_number. change (?a :: ?l) with ([a] ++ l).
    apply writes_seq_or; [by apply writes_byte_const|apply writes_be64].
  - cbn [encode_value arg_bytes]. unfold rtmp_amf_encode_boolean. change [?a; ?l] with ([a] ++ [l]).
    apply writes_seq_or; apply writes_byte_const; by destruct b.
  - by apply string_writes.
  - by apply writes_byte_const.
  - intros mb W. rewrite encode_container by done. revert mb W. change (arg_bytes (AContainer c props)) with
      (start_bytes c (zlength props) ++ props_bytes c props ++ end_bytes c). apply amf_vencode_writes; [done|].
    match goal with Hf : Forall _ props |- _ => revert IH Hf end. rewrite !List.Forall_forall. intros IH Hf p Hp.
    destruct (Hf p Hp) as [Hk Ha]. split; [done|]. by apply IH.
Qed.
End Enc.

(** ** Decoding *)

(** A key that is kept as it is. *)
Definition kept (key : list Z) : Prop := until_nul key = key /\ zlength key <= 65535.

Lemma str_ok_kept s : str_ok s -> kept s.
Proof. intros [Hs Hl]. split; [by apply until_nul_ok|done]. Qed.

Lemma dec_str_kept i : kept (dec_str i).
Proof.
  destruct (itoa_chars i) as [Hd Hl]. split; [apply until_nul_ok|lia]. eapply Forall_impl; [exact Hd|]. cbn. lia.
Qed.

Section Dec.
Context `{H : Host} (Ham : ample_memory).

Lemma alloc_some n : 0 <= n <= MEM_SIZE_MAX -> is_Some (mem_alloc n).
Proof. intros Hn. unfold mem_alloc. rewrite Z.gtb_ltb, (proj2 (Z.ltb_ge _ _)) by lia. by apply Ham. Qed.

Lemma str_dup_kept s : kept s -> str_dup s = Some s.
Proof.
  intros [Hs Hl]. unfold str_dup. rewrite Hs. pose proof (zlength_nonneg s).
  destruct (alloc_some (zlength s + 1)) as [b ->]; [unfold MEM_SIZE_MAX; lia|]. done.
Qed.

Lemma entry_add_ok o key v : kept key -> (forall s, v = OString s -> kept s) -> odict_entry_add o key v = Ok (o ++ [(key, v)]).
Proof.
  intros Hk Hv. unfold odict_entry_add. destruct (alloc_some ODICT_ENTRY_STRUCT) as [b ->]; [by vm_compute|]. rewrite str_dup_kept by done.
  destruct v; try done. by rewrite str_dup_kept by (by apply Hv).
Qed.

Lemma odict_alloc_ok : odict_alloc 32 = Ok [].
Proof.
  unfold odict_alloc. cbn [Z.eqb]. destruct (alloc_some ODICT_STRUCT) as [b ->]; [by vm_compute|].
  destruct (alloc_some HASH_STRUCT) as [b' ->]; [by vm_compute|]. destruct (alloc_some (hash_valid_size 32 * LIST_STRUCT)) as [b'' ->]; [by vm_compute|]. done.
Qed.

Lemma reads_lift {A} (r : res A) a : r = Ok a -> reads (dlift r) (raw []) (fun v => v = a).
Proof. intros ->. by apply (reads_dret a). Qed.

Lemma reads_then {A B} (d : D A) (k : A -> D B) a P Q :
  reads d (raw a) P -> (forall v, P v -> reads (k v) (raw []) Q) -> reads (dbind d k) (raw a) Q.
Proof. intros Hd Hk. rewrite <- (app_nil_r a). by eapply reads_app. Qed.

Lemma reads_64 v : is_u64 v -> reads (dread read_be64) (raw (be_bytes 8 v)) (fun a => a = v).
Proof.
  intros Hv mb c p0 p q Hh Hp [Hs ->]. destruct (rest_seg mb c p0 p _ Hh Hp Hs) as (Hb & W & r & Hr).
  rewrite zlength_be_bytes in *. split; [lia|]. exists v. split; [|done]. unfold dread.
  destruct (read_be64_app _ v r W Hr) as [-> _]. by rewrite wrap_small.
Qed.

Lemma reads_strdup s : zlength s <= 65535 -> reads (dstrdup (zlength s)) (raw s) (fun v => v = s).
Proof.
  intros Hl mb c p0 p q Hh Hp [Hs ->]. destruct (rest_seg mb c p0 p _ Hh Hp Hs) as (Hb & W & r & Hr).
  pose proof (zlength_nonneg s). split; [lia|]. exists s. split; [|done]. unfold dstrdup, mbuf_strdup. rewrite wrap_small by lia.
  destruct (alloc_some (zlength s + 1)) as [b ->]; [unfold MEM_SIZE_MAX; lia|].
  destruct (read_mem_app _ s r (zlength s) W Hr eq_refl) as [-> _]. cbn [Z.eqb]. rewrite ztake_app_exact. unfold adv. by rewrite set_pos_twice.
Qed.

(** A loop that goes on while bytes are left. *)
Lemma reads_left {A} (d e : D A) l P : 0 < zlength l -> reads d (raw l) P -> reads (fun mb => if mbuf_get_left mb >? 0 then d mb else e mb) (raw l) P.
Proof.
  intros Hl Hd mb c p0 p q Hh Hp HF. destruct (Hd mb c p0 p q Hh Hp HF) as (Hr & a & E & Ha). split; [done|]. exists a. split; [|done].
  destruct HF as [Hs ->]. rewrite (holds_get_left _ _ _ (holds_set_pos _ _ _ p Hh Hp)).
  rewrite Z.gtb_ltb, (proj2 (Z.ltb_lt _ _)) by lia. done.
Qed.

Lemma front_le n (a b : list Z) : n <= zlength a -> n <= zlength (a ++ b).
Proof. intros Hn. rewrite zlength_app. pose proof (zlength_nonneg b). lia. Qed.

(** What is asked of the decoder of values in a container. *)
Definition reads_value (dv : odict -> list Z -> D odict) (a : amf_arg) : Prop :=
  forall dict key, kept key -> reads (dv dict key) (raw (arg_bytes a)) (fun d => d = dict ++ [(key, value_of a)]).

Lemma object_reads dv c props : container_has_key c = true ->
  Forall (fun p => key_ok c p.1 /\ reads_value dv p.2) props -> forall fuel dict, (length props < fuel)%nat ->
  reads (amf_decode_object dv fuel dict) (raw (props_bytes c props ++ end_bytes c))
    (fun d => d = dict ++ map (fun p => (default [] p.1, value_of p.2)) props).
Proof.
  intros Hc. unfold end_bytes. rewrite Hc. induction 1 as [|[key a] props [Hk Ha] _ IH]; intros [|fuel] dict Hf; [cbn in Hf; lia| |cbn in Hf; lia|].
  - cbn [amf_decode_object props_bytes map concat app]. apply reads_left; [done|]. apply reads_need_raw; [done|].
    change [0; 0; ?x] with (be_bytes 2 0 ++ [x]). eapply reads_app; [by apply reads_16|]. intros v ->. cbn [Z.eqb].
    apply reads_need_raw; [done|]. eapply reads_last; [apply reads_8|]. intros v ->. rewrite app_nil_r. by eexists.
  - destruct (Hk Hc) as (k & Ek & Hok & Hne). cbn [fst] in Ek. subst key. cbn [fst snd] in *.
    assert (Hk1 : 1 <= zlength k <= 65535).
    { split; [|apply Hok]. destruct k; [done|]. rewrite zlength_cons. pose proof (zlength_nonneg k). lia. }
    assert (Eb : props_bytes c ((Some k, a) :: props) ++ [0; 0; RTMP_AMF_TYPE_OBJECT_END]
      = be_bytes 2 (zlength k) ++ k ++ arg_bytes a ++ props_bytes c props ++ [0; 0; RTMP_AMF_TYPE_OBJECT_END]).
    { unfold props_bytes. cbn [map concat]. unfold prop_bytes at 1. rewrite Hc. unfold key_bytes. by rewrite <- !app_assoc. }
    rewrite Eb. cbn [amf_decode_object]. apply reads_left; [pose proof (front_le 2 (be_bytes 2 (zlength k)) (k ++ arg_bytes a ++ props_bytes c props ++ [0; 0; RTMP_AMF_TYPE_OBJECT_END])) as Hfr; rewrite zlength_be_bytes in Hfr; lia|].
    apply reads_need_raw; [apply front_le; by rewrite zlength_be_bytes|].
    eapply reads_app; [apply reads_16; split; lia|]. intros v ->. rewrite (proj2 (Z.eqb_neq _ 0)) by lia.
    apply reads_need_raw; [by apply front_le|].
    eapply reads_app; [apply reads_strdup; lia|]. intros v ->. eapply reads_app; [apply Ha; by apply str_ok_kept|]. intros d ->.
    eapply reads_weaken; [apply IH; cbn in Hf; lia|done|]. intros d ->. cbn [map default fst snd]. by rewrite <- app_assoc.
Qed.

Lemma elements_read dv props : Forall (fun p => reads_value dv p.2) props -> forall i dict,
  reads (decode_elements dv (length props) i dict) (raw (props_bytes AMF_STRICT_ARRAY props))
    (fun d => d = dict ++ number_keys i (map (fun p => value_of p.2) props)).
Proof.
  induction 1 as [|[key a] props Ha _ IH]; intros i dict; cbn [length decode_elements props_bytes map concat number_keys].
  - apply reads_dret. by rewrite app_nil_r.
  - eapply reads_app; [apply Ha, dec_str_kept|]. intros d ->. eapply reads_weaken; [apply IH|done|]. intros d ->. by rewrite <- app_assoc.
Qed.

Lemma prop_length c p props : p ∈ props -> zlength (arg_bytes p.2) <= zlength (props_bytes c props).
Proof.
  intros Hp. unfold props_bytes. induction Hp as [p props|p q props _ IH]; cbn [map concat]; rewrite zlength_app.
  - unfold prop_bytes at 1. rewrite zlength_app. pose proof (zlength_nonneg (concat (map (prop_bytes c) props))).
    match goal with |- context [zlength ?x + zlength (arg_bytes _)] => pose proof (zlength_nonneg x) end. lia.
  - pose proof (zlength_nonneg (prop_bytes c q)). lia.
Qed.

Lemma arg_length a : arg_ok a -> 1 <= zlength (arg_bytes a).
Proof.
  destruct 1 as [| | | |c props Hc]; try (cbn [arg_bytes]; rewrite zlength_cons; match goal with |- context [zlength ?x] => pose proof (zlength_nonneg x) end; lia).
  cbn [arg_bytes]. apply front_le. destruct c; [done| | |]; cbn [start_bytes]; rewrite zlength_cons;
    match goal with |- context [zlength ?x] => pose proof (zlength_nonneg x) end; lia.
Qed.

Lemma props_count c props : Forall (fun p => arg_ok p.2) props -> Z.of_nat (length props) <= zlength (props_bytes c props).
Proof.
  unfold props_bytes. induction 1 as [|p props Hp _ IH]; cbn [length map concat]; [done|]. rewrite zlength_app. unfold prop_bytes at 1. rewrite zlength_app.
  pose proof (arg_length _ Hp). match goal with |- context [zlength ?x + zlength (arg_bytes _)] => pose proof (zlength_nonneg x) end. lia.
Qed.

(** The switch, for a container. *)
Lemma container_reads c props fuel dict key :
  arg_ok (AContainer c props) -> Forall (fun p => reads_value (amf_decode_value fuel) p.2) props -> (length props < fuel)%nat -> kept key ->
  reads (amf_decode_value (S fuel) dict key) (raw (arg_bytes (AContainer c props))) (fun d => d = dict ++ [(key, value_of (AContainer c props))]).
Proof.
  intros Hok Hr Hf Hk. inversion Hok as [| | | |? ? Hc Hz Hst Hp Hb]; subst.
  assert (Hn : 0 <= zlength props < 2 ^ 30).
  { split; [lia|]. assert (Hq : Forall (fun p => arg_ok p.2) props) by (rewrite List.Forall_forall in *; intros p Hin; by apply Hp).
    pose proof (props_count c props Hq) as Hpc. cbn [arg_bytes] in Hb. rewrite !zlength_app in Hb.
    change (concat _) with (props_bytes c props) in Hb. unfold zlength at 1. pose proof (zlength_nonneg (start_bytes c (zlength props))). pose proof (zlength_nonneg (end_bytes c)). lia. }
  assert (Ho : container_has_key c = true -> reads
    (do! object := dlift (odict_alloc 32) in do! object := amf_decode_object (amf_decode_value fuel) fuel object in dlift (odict_entry_add dict key (OObject object)))
    (raw (props_bytes c props ++ end_bytes c)) (fun d => d = dict ++ [(key, OObject (map (fun p => (default [] p.1, value_of p.2)) props))])).
  { intros Hkey. eapply (reads_app _ _ []); [apply reads_lift, odict_alloc_ok|]. intros v ->.
    eapply reads_then; [apply object_reads; [done| |done]|].
    - rewrite List.Forall_forall in *. intros p Hin. split; [by apply Hp|by apply Hr].
    - intros v ->. apply reads_lift. by rewrite entry_add_ok. }
  assert (El : arg_bytes (AContainer c props) = start_bytes c (zlength props) ++ props_bytes c props ++ end_bytes c) by done.
  rewrite El. cbn [amf_decode_value]. apply reads_need_raw; [rewrite <- El; by apply arg_length|]. destruct c; [done| | |]; cbn [start_bytes].
  - eapply reads_app; [apply reads_8|]. intros v ->. cbn [Z.eqb orb]. eapply (reads_app _ _ [] _ (fun _ => True)); [by apply reads_dret|]. intros v Hv. by apply Ho.
  - change (?a :: ?l) with ([a] ++ l). rewrite <- app_assoc. eapply reads_app; [apply reads_8|]. intros v ->. cbn [Z.eqb orb].
    eapply reads_app; [apply reads_need_raw; [by rewrite zlength_be_bytes|apply reads_32; split; lia]|]. intros v ->. by apply Ho.
  - change (?a :: ?l) with ([a] ++ l). rewrite <- app_assoc. eapply reads_app; [apply reads_8|]. intros v ->. cbn [Z.eqb orb].
    apply reads_need_raw; [apply front_le; by rewrite zlength_be_bytes|]. eapply reads_app; [apply reads_32; split; lia|]. intros v ->.
    specialize (Hst eq_refl). rewrite (proj2 (Z.eqb_neq _ 0)), Z.gtb_ltb, (proj2 (Z.ltb_ge _ _)) by lia. cbn [orb].
    eapply (reads_app _ _ []); [apply reads_lift, odict_alloc_ok|]. intros v ->.
    replace (Z.to_nat (zlength props)) with (length props) by (unfold zlength; lia).
    eapply reads_app; [by apply elements_read|]. intros v ->. apply reads_lift. by rewrite entry_add_ok.
Qed.

Lemma value_reads a : arg_ok a -> forall fuel, zlength (arg_bytes a) <= Z.of_nat fuel -> reads_value (amf_decode_value fuel) a.
Proof.
  induction a as [bits|b|s| | |c props IH] using arg_nested_ind; intros Hok [|fuel] Hf dict key Hk;
    try (exfalso; pose proof (arg_length _ Hok); lia); inversion Hok; subst.
  - cbn [amf_decode_value arg_bytes]. apply reads_need_raw; [done|]. change (?a :: ?l) with ([a] ++ l). eapply reads_app; [apply reads_8|]. intros v ->. cbn [Z.eqb].
    apply reads_need_raw; [by rewrite zlength_be_bytes|]. eapply reads_then; [by apply reads_64|]. intros v ->.
    apply reads_lift. by rewrite entry_add_ok.
  - cbn [amf_decode_value arg_bytes]. apply reads_need_raw; [done|]. change [?a; ?l] with ([a] ++ [l]). eapply reads_app; [apply reads_8|]. intros v ->. cbn [Z.eqb].
    apply reads_need_raw; [done|]. eapply reads_then; [apply reads_8|]. intros v ->.
    apply reads_lift. rewrite entry_add_ok by done. by destruct b.
  - cbn [amf_decode_value arg_bytes default id]. change (id s0) with s0. unfold key_bytes. apply reads_need_raw; [by apply (front_le 1 [_])|]. change (?a :: ?l) with ([a] ++ l).
    eapply reads_app; [apply reads_8|]. intros v ->. cbn [Z.eqb]. apply reads_need_raw; [apply front_le; by rewrite zlength_be_bytes|].
    match goal with Hs : str_ok _ |- _ => rename Hs into Hs; pose proof Hs as [_ Hl] end. pose proof (zlength_nonneg s0).
    eapply reads_app; [apply reads_16; split; lia|]. intros v ->. apply reads_need_raw; [lia|].
    eapply reads_then; [by apply reads_strdup|]. intros v ->. apply reads_lift.
    rewrite entry_add_ok; [done|done|]. intros x [= <-]. by apply str_ok_kept.
  - cbn [amf_decode_value arg_bytes]. apply reads_need_raw; [done|]. eapply reads_then; [apply reads_8|]. intros v ->. cbn [Z.eqb].
    apply reads_lift. by rewrite entry_add_ok.
  - match goal with Hp : Forall (fun p => key_ok c p.1 /\ _) props |- _ => rename Hp into HP end.
    cbn [arg_bytes] in Hf. rewrite !zlength_app in Hf. change (concat _) with (props_bytes c props) in Hf. pose proof (zlength_nonneg (end_bytes c)).
    assert (Hs : 4 <= zlength (start_bytes c (zlength props)) + zlength (end_bytes c)).
    { destruct c; [done|by vm_compute| |]; cbn [start_bytes]; rewrite ?zlength_cons, ?zlength_be_bytes; lia. }
    assert (Hs' : 1 <= zlength (start_bytes c (zlength props))).
    { destruct c; [done| | |]; cbn [start_bytes]; rewrite ?zlength_cons, ?zlength_be_bytes; change (zlength (@nil Z)) with 0; lia. }
    apply container_reads; [done| | |done].
    + rewrite List.Forall_forall in *. intros p Hin. apply IH; [done|by apply HP|]. pose proof (prop_length c p props ltac:(by apply list_elem_of_In)). lia.
    + assert (Hq : Forall (fun p => arg_ok p.2) props) by (rewrite List.Forall_forall in *; intros p Hin; by apply HP).
      pose proof (props_count c props Hq). lia.
Qed.

(** ** Messages *)

Lemma u32_next i n : 0 <= i -> i + n < 2 ^ 32 -> 0 < n -> u32 (i + 1) = i + 1.
Proof. intros. apply wrap_small. lia. Qed.

Lemma root_reads props : Forall (fun p => arg_ok p.2) props -> forall fuel i msg mb,
  mbuf_wf mb -> rest mb = props_bytes AMF_ROOT props -> zlength (props_bytes AMF_ROOT props) <= Z.of_nat fuel ->
  0 <= i -> i + zlength props < 2 ^ 32 ->
  decode_root fuel i msg mb = Some (Ok (msg ++ number_keys i (map (fun p => value_of p.2) props)), adv mb (zlength (props_bytes AMF_ROOT props))).
Proof.
  induction 1 as [|[key a] props Ha Hps IH]; intros fuel i msg mb W E Hf Hi Hn.
  - assert (El : mbuf_get_left mb = 0) by (rewrite mbuf_get_left_rest, E by done; done).
    destruct fuel; cbn [decode_root]; rewrite El; cbn [Z.gtb Z.compare map number_keys]; rewrite app_nil_r; do 2 f_equal;
      change (zlength _) with 0; unfold adv; rewrite Z.add_0_r; by destruct mb.
  - cbn [snd] in Ha. pose proof (arg_length a Ha) as La. assert (Eb : props_bytes AMF_ROOT ((key, a) :: props) = arg_bytes a ++ props_bytes AMF_ROOT props) by done.
    rewrite Eb in *. rewrite zlength_app, zlength_cons in *. pose proof (zlength_nonneg (props_bytes AMF_ROOT props)). pose proof (zlength_nonneg props).
    destruct fuel as [|fuel]; [lia|]. cbn [decode_root]. rewrite mbuf_get_left_rest, E, zlength_app by done.
    rewrite Z.gtb_ltb, (proj2 (Z.ltb_lt _ _)) by lia.
    destruct (reads_step _ _ _ mb _ (value_reads a Ha (S fuel) ltac:(lia) msg (dec_str i) (dec_str_kept i)) W E) as (d & Ed & -> & W1 & E1).
    unfold dbind at 1. rewrite Ed, (u32_next i (1 + zlength props)) by lia. rewrite (IH fuel _ _ _ W1 E1) by lia. rewrite adv_adv. cbn [map number_keys snd].
    by rewrite <- app_assoc.
Qed.

Lemma decode_reads props mb :
  Forall (fun p => arg_ok p.2) props -> mbuf_wf mb -> rest mb = props_bytes AMF_ROOT props -> zlength props < 2 ^ 32 ->
  rtmp_amf_decode mb = Some (Ok (number_keys 0 (map (fun p => value_of p.2) props)), adv mb (zlength (props_bytes AMF_ROOT props))).
Proof.
  intros Hp W E Hn. unfold rtmp_amf_decode, AMF_HASH_SIZE. rewrite odict_alloc_ok. rewrite mbuf_get_left_rest, E by done.
  pose proof (zlength_nonneg (props_bytes AMF_ROOT props)). by rewrite (root_reads props Hp _ 0 []) by (done || lia).
Qed.

(** The body of a command: its name, its transaction and its values. *)
Definition command (name : list Z) (tid : Z) (props : amf_props) : amf_props :=
  (None, AString (Some name)) :: (None, ANumber (dbl_of_u64 tid)) :: props.

Lemma command_writes name tid props :
  str_ok name -> Forall (fun p => arg_ok p.2) props -> 0 < zlength props ->
  writes (rtmp_command_header_encode name tid ;& rtmp_amf_vencode_object AMF_ROOT props) (props_bytes AMF_ROOT (command name tid props)).
Proof.
  intros Hn Hp Hz. unfold command. unfold props_bytes. cbn [map concat]. fold (props_bytes AMF_ROOT props). rewrite app_assoc. apply writes_seq_ok.
  - apply writes_seq_or; [by apply string_writes|]. change (prop_bytes AMF_ROOT (None, ANumber ?b)) with ([RTMP_AMF_TYPE_NUMBER] ++ be_bytes 8 b).
    apply writes_seq_or; [by apply writes_byte_const|apply writes_be64].
  - rewrite <- (app_nil_r (props_bytes AMF_ROOT props)). apply (amf_vencode_writes AMF_ROOT); [done|].
    rewrite List.Forall_forall in *. intros p Hin. split; [done|]. by apply value_writes, Hp.
Qed.
End Dec.

(** ** The decoder on arbitrary input *)

Section Safe.
Context `{H : Host}.

Definition amf_errors : list Z := [ENODATA; EBADMSG; EPROTO; ENOMEM].

(** With at most [n] bytes left, [d] returns, only moves forward, and uses [k]
    bytes at least when it succeeds. *)
Definition goes {A} (n k : Z) (d : D A) : Prop :=
  forall mb, mbuf_wf mb -> mbuf_get_left mb <= n ->
  exists r mb', d mb = Some (r, mb') /\ advances mb mb'
    /\ match r with Ok _ => mbuf_get_left mb' <= mbuf_get_left mb - k | Err e => e ∈ amf_errors end.

Lemma goes_impl {A} n n' k k' (d : D A) : goes n k d -> n' <= n -> k' <= k -> goes n' k' d.
Proof.
  intros Hd Hn Hk mb W Hl. destruct (Hd mb W ltac:(lia)) as (r & mb' & E & Ha & Hr). exists r, mb'. split; [done|]. split; [done|]. destruct r; [lia|done].
Qed.

Lemma goes_ret {A} n (a : A) : goes n 0 (dret a).
Proof. intros mb W Hl. exists (Ok a), mb. split; [done|]. split; [done|lia]. Qed.

Lemma goes_throw {A} n k e : e ∈ amf_errors -> goes n k (dthrow e : D A).
Proof. intros He mb W Hl. by exists (Err e), mb. Qed.

Lemma goes_neg {A} n k (d : D A) : n < 0 -> goes n k d.
Proof. intros Hn mb W Hl. rewrite mbuf_get_left_rest in Hl by done. pose proof (zlength_nonneg (rest mb)). lia. Qed.

Lemma goes_bind {A B} n k k' K (d : D A) (e : A -> D B) :
  goes n k d -> (forall a, goes (n - k) k' (e a)) -> K <= k + k' -> goes n K (dbind d e).
Proof.
  intros Hd He HK mb W Hl. destruct (Hd mb W Hl) as ([a|x] & mb1 & E & Ha & Hr); unfold dbind; rewrite E; [|by exists (Err x), mb1].
  destruct (Ha W) as (W1 & _). destruct (He a mb1 W1 ltac:(lia)) as (r & mb2 & E2 & Ha2 & Hr2). exists r, mb2. split; [done|]. split; [by etrans|].
  destruct r; [lia|done].
Qed.

(** A test for [m] bytes and what reads them. *)
Lemma goes_read {A B} n m k K (d : D A) P (e : A -> D B) :
  eats m d P -> (forall a, P a -> goes (n - m) k (e a)) -> 0 <= m -> K <= m + k -> goes n K (do! _ := dneed m ENODATA in do! a := d in e a).
Proof.
  intros Hd He Hm HK mb W Hl. unfold dbind at 1, dneed. destruct (Z.ltb_spec (mbuf_get_left mb) m).
  - exists (Err ENODATA), mb. split; [done|]. split; [done|]. by apply list_elem_of_In; left.
  - destruct (Hd mb W ltac:(lia)) as (a & E & Ha). destruct (left_adv mb m W ltac:(lia)) as [El W'].
    destruct (He a Ha (adv mb m) W' ltac:(lia)) as (r & mb' & E' & Hadv & Hr). exists r, mb'. unfold dbind. rewrite E. split; [done|].
    split; [etrans; [apply (adv_advances mb m W); lia|done]|]. destruct r; [lia|done].
Qed.

Lemma goes_strdup {B} n m k K (e : list Z -> D B) :
  (forall a, goes (n - m) k (e a)) -> is_u16 m -> K <= m + k -> goes n K (do! _ := dneed m ENODATA in do! a := dstrdup m in e a).
Proof.
  intros He Hm HK mb W Hl. destruct Hm as [Hm _]. unfold dbind at 1, dneed. destruct (Z.ltb_spec (mbuf_get_left mb) m).
  - exists (Err ENODATA), mb. split; [done|]. split; [done|]. by apply list_elem_of_In; left.
  - unfold dbind, dstrdup, mbuf_strdup. destruct (mem_alloc _).
    2: { exists (Err ENOMEM), mb. split; [done|]. split; [done|]. apply list_elem_of_In. cbn. tauto. }
    destruct (eats_mem m ltac:(lia) mb W ltac:(lia)) as (d & Ed & Hd). unfold dread_mem in Ed.
    destruct (mbuf_read_mem mb m) as [[err d'] mb1]. destruct (err =? 0); [|done]. injection Ed as -> ->.
    destruct (left_adv mb m W ltac:(lia)) as [El W'].
    destruct (He (ztake m (d ++ [0])) (adv mb m) W' ltac:(lia)) as (r & mb' & E' & Hadv & Hr). exists r, mb'. split; [done|].
    split; [etrans; [apply (adv_advances mb m W); lia|done]|]. destruct r; [lia|done].
Qed.

Lemma goes_lift {A} n (r : res A) : (forall e, r = Err e -> e ∈ amf_errors) -> goes n 0 (dlift r).
Proof. intros Hr mb W Hl. exists r, mb. split; [done|]. split; [done|]. destruct r; [lia|auto]. Qed.

Lemma nomem_amf : ENOMEM ∈ amf_errors.
Proof. apply list_elem_of_In. cbn. tauto. Qed.

Lemma entry_add_goes n dict key v : goes n 0 (dlift (odict_entry_add dict key v)).
Proof. apply goes_lift. unfold odict_entry_add. intros e. repeat case_match; intros [= <-]; apply nomem_amf. Qed.

Lemma alloc_goes n : goes n 0 (dlift (odict_alloc 32)).
Proof. apply goes_lift. unfold odict_alloc. intros e. cbn [Z.eqb]. repeat case_match; intros [= <-]; apply nomem_amf. Qed.

Lemma eats_64 : eats 8 (dread read_be64) (fun _ => True).
Proof.
  intros mb W Hl. unfold dread, read_be64. pose proof (read_uint_adv 8 mb W Hl) as E. unfold mbuf_read_u64.
  destruct (mbuf_read_uint 8 mb) as [v mb']. cbn in E. subst. eauto.
Qed.

(** A loop that goes on while bytes are left. *)
Lemma goes_while {A} n (d : D A) a : goes n 0 d -> goes n 0 (fun mb => if mbuf_get_left mb >? 0 then d mb else Some (Ok a, mb)).
Proof. intros Hd mb W Hl. destruct (mbuf_get_left mb >? 0); [by apply Hd|]. exists (Ok a), mb. split; [done|]. split; [done|lia]. Qed.

Lemma object_goes dv f : (0 < f -> forall dict key, goes f 1 (dv dict key)) ->
  forall fuel dict, Z.of_nat fuel <= f -> goes (Z.of_nat fuel) 0 (amf_decode_object dv fuel dict).
Proof.
  intros Hdv. induction fuel as [|fuel IH]; intros dict Hle; cbn [amf_decode_object].
  { intros mb W Hl. rewrite Z.gtb_ltb, (proj2 (Z.ltb_ge _ _)) by lia. exists (Ok dict), mb. split; [done|]. split; [done|lia]. }
  apply goes_while. eapply (goes_read _ 2 0); [apply eats_16| |lia|lia]. intros len Hlen. destruct (Z.eqb_spec len 0).
  - eapply (goes_read _ 1 0); [apply eats_8| |lia|lia]. intros v _.
    destruct (_ =? _); [apply goes_ret|apply goes_throw]. apply list_elem_of_In. cbn. tauto.
  - pose proof Hlen as [Hlen0 _]. eapply (goes_strdup _ len 0); [|done|lia]. intros key.
    eapply (goes_bind _ 1 0); [eapply goes_impl; [apply Hdv; lia|lia|lia]| |lia]. intros d. eapply goes_impl; [apply IH; lia|lia|lia].
Qed.

Lemma elements_go dv f : (forall dict key, goes f 1 (dv dict key)) -> forall n i dict, goes f 0 (decode_elements dv n i dict).
Proof.
  intros Hdv. induction n as [|n IH]; intros i dict; cbn [decode_elements]; [apply goes_ret|].
  eapply (goes_bind f 1 0); [apply Hdv| |lia]. intros d. eapply goes_impl; [apply IH|lia|lia].
Qed.

Lemma value_step fuel dict key :
  (0 < Z.of_nat fuel -> forall dict key, goes (Z.of_nat fuel) 1 (amf_decode_value fuel dict key)) ->
  goes (Z.of_nat (S fuel)) 1 (amf_decode_value (S fuel) dict key).
Proof.
  intros Hdv. cbn [amf_decode_value]. eapply (goes_read _ 1 0); [apply eats_8| |lia|lia]. intros type _.
  destruct (type =? RTMP_AMF_TYPE_NUMBER); [eapply (goes_read _ 8 0); [apply eats_64| |lia|lia]; intros; apply entry_add_goes|].
  destruct (type =? RTMP_AMF_TYPE_BOOLEAN); [eapply (goes_read _ 1 0); [apply eats_8| |lia|lia]; intros; apply entry_add_goes|].
  destruct (type =? RTMP_AMF_TYPE_STRING).
  { eapply (goes_read _ 2 0); [apply eats_16| |lia|lia]. intros len Hlen. pose proof Hlen as [Hlen0 _].
    eapply (goes_strdup _ len 0); [|done|lia]. intros; apply entry_add_goes. }
  destruct (type =? RTMP_AMF_TYPE_NULL); [apply entry_add_goes|].
  destruct (_ || _).
  { eapply (goes_bind _ 0 0); [| |lia].
    - destruct (type =? _); [|apply goes_ret]. intros mb W Hl. unfold dbind, dneed. destruct (Z.ltb_spec (mbuf_get_left mb) 4).
      + exists (Err ENODATA), mb. split; [done|]. split; [done|]. by apply list_elem_of_In; left.
      + destruct (eats_32 mb W ltac:(lia)) as (a & -> & _). exists (Ok a), (adv mb 4). split; [done|].
        split; [apply adv_advances; [done|lia]|]. destruct (left_adv mb 4 W) as [-> _]; lia.
    - intros _. eapply (goes_bind _ 0 0); [apply alloc_goes| |lia]. intros o.
      eapply (goes_bind _ 0 0); [eapply goes_impl; [apply (object_goes _ (Z.of_nat fuel)); [done|lia]|lia|lia]| |lia]. intros o'. apply entry_add_goes. }
  destruct (type =? RTMP_AMF_TYPE_STRICT_ARRAY); [|apply goes_throw, list_elem_of_In; cbn; tauto].
  eapply (goes_read _ 4 0); [apply eats_32| |lia|lia]. intros len _. destruct (_ || _); [apply goes_throw, list_elem_of_In; cbn; tauto|].
  destruct (Z.ltb_spec (Z.of_nat (S fuel) - 1 - 4) 0); [by apply goes_neg|].
  eapply (goes_bind _ 0 0); [apply alloc_goes| |lia]. intros o.
  eapply (goes_bind _ 0 0); [eapply goes_impl; [apply (elements_go _ (Z.of_nat fuel)), Hdv; lia|lia|lia]| |lia]. intros o'. apply entry_add_goes.
Qed.

Lemma value_goes fuel : forall dict key, goes (Z.of_nat (S fuel)) 1 (amf_decode_value (S fuel) dict key).
Proof. induction fuel as [|fuel IH]; intros dict key; apply value_step; [cbn; lia|]. intros _. apply IH. Qed.

Lemma root_goes fuel : forall ix msg mb, mbuf_wf mb -> mbuf_get_left mb <= Z.of_nat fuel ->
  exists r mb', decode_root fuel ix msg mb = Some (r, mb') /\ advances mb mb'
    /\ match r with Ok _ => mbuf_get_left mb' = 0 | Err e => e ∈ amf_errors end.
Proof.
  induction fuel as [|fuel IH]; intros ix msg mb W Hl; cbn [decode_root]; pose proof (mbuf_get_left_rest mb W) as El; pose proof (zlength_nonneg (rest mb)).
  - rewrite Z.gtb_ltb, (proj2 (Z.ltb_ge _ _)) by lia. exists (Ok msg), mb. split; [done|]. split; [done|lia].
  - destruct (Z.gtb_spec (mbuf_get_left mb) 0); [|exists (Ok msg), mb; split; [done|]; split; [done|lia]].
    destruct (value_goes fuel msg (dec_str ix) mb W Hl) as ([d|e] & mb1 & E1 & Ha & Hr); unfold dbind; rewrite E1; [|by exists (Err e), mb1].
    destruct (Ha W) as (W1 & _). destruct (IH (u32 (ix + 1)) d mb1 W1 ltac:(lia)) as (r & mb2 & E2 & Ha2 & Hr2).
    exists r, mb2. split; [done|]. split; [by etrans|done].
Qed.
End Safe.

(** ** Theorems *)

Section Theorems.
Context `{H : Host}.

Lemma number_string_0 name rest_ : odict_string (number_keys 0 (OString name :: rest_)) (dec_str 0) = Some name.
Proof. done. Qed.

Lemma number_number_1 cvt v bits rest_ :
  odict_get_number cvt (number_keys 0 (v :: ODouble bits :: rest_)) (dec_str 1) = Some (dbl_to_u64 cvt bits).
Proof. done. Qed.

Lemma dbl_of_u64_range n : 0 <= n <= 2 ^ 53 -> is_u64 (dbl_of_u64 n).
Proof.
  intros Hn. unfold dbl_of_u64. destruct (Z.eqb_spec n 0); [by vm_compute|]. destruct (Z.eq_dec n (2 ^ 53)) as [->|Hne]; [by vm_compute|].
  pose proof (Z.log2_spec n ltac:(lia)) as [Hlo Hhi]. set (e := Z.log2 n) in *. assert (0 <= e) by apply Z.log2_nonneg.
  assert (He : e <= 52) by (apply Z.lt_succ_r, (Z.pow_lt_mono_r_iff 2); lia). rewrite (proj2 (Z.leb_le e 52)) by lia.
  assert (E53 : 2 ^ 53 = 2 ^ Z.succ e * 2 ^ (52 - e)) by (rewrite <- Z.pow_add_r by lia; f_equal; lia).
  assert (0 < 2 ^ (52 - e)) by lia. split; nia.
Qed.

(** C14: A command is decoded to what was encoded.  rtmp_command_header_encode and
    rtmp_amf_vencode_object write the name, the transaction number and any
    well-formed values, nested to any depth, without an error; rtmp_amf_decode
    returns a dictionary with exactly these values under the keys "0", "1", ...,
    from which the name and the transaction number are read back, and uses all
    the bytes. *)
Theorem amf_command_roundtrip (cvt : Z -> Z) (name : list Z) (tid : Z) (props : amf_props) :
  ample_memory -> str_ok name -> 0 <= tid <= 2 ^ 53 -> 0 < zlength props -> Forall (fun p => arg_ok p.2) props ->
  zlength (props_bytes AMF_ROOT (command name tid props)) < 2 ^ 30 ->
  exists mb mb1 msg mb2, mbuf_alloc 512 = Some mb
    /\ (rtmp_command_header_encode name tid ;& rtmp_amf_vencode_object AMF_ROOT props) mb = (0, mb1)
    /\ rtmp_amf_decode (mbuf_set_pos mb1 0) = Some (Ok msg, mb2) /\ rest mb2 = []
    /\ msg = number_keys 0 (OString name :: ODouble (dbl_of_u64 tid) :: map (fun p => value_of p.2) props)
    /\ odict_string msg (dec_str 0) = Some name /\ odict_get_number cvt msg (dec_str 1) = Some tid.
Proof.
  intros Ham Hn Ht Hz Hp Hl. destruct (mbuf_alloc_new 512 Ham) as (mb & Ea & Hh & _); [by vm_compute|].
  destruct (holds_writes _ _ mb [] Ham (command_writes name tid props Hn Hp Hz) Hh) as (mb1 & Ew & Hh1); [change (zlength (@nil Z)) with 0; lia|].
  cbn [app] in Hh1. set (w := props_bytes AMF_ROOT (command name tid props)) in *.
  pose proof (holds_set_pos _ _ _ 0 Hh1 ltac:(pose proof (zlength_nonneg w); lia)) as Hh0.
  assert (Er : rest (mbuf_set_pos mb1 0) = w) by (by rewrite (holds_rest _ _ _ Hh0), zdrop_0).
  assert (Hc : Forall (fun p => arg_ok p.2) (command name tid props)).
  { constructor; [by apply ok_string|]. constructor; [apply ok_number, dbl_of_u64_range; lia|done]. }
  pose proof (props_count AMF_ROOT _ Hc) as Hcount. fold w in Hcount.
  assert (Hn32 : zlength (command name tid props) < 2 ^ 32) by (unfold zlength; lia).
  pose proof (decode_reads Ham _ _ Hc (holds_wf _ _ _ Hh0) Er Hn32) as Ed. fold w in Ed.
  do 4 eexists. split; [exact Ea|]. split; [exact Ew|]. split; [exact Ed|]. split.
  - rewrite rest_adv, Er by (apply Hh0 || apply zlength_nonneg). by apply zdrop_ge.
  - split; [done|]. split; [apply number_string_0|]. cbn [command map snd value_of]. rewrite number_number_1. f_equal. by apply dbl_roundtrip.
Qed.

(** C15: rtmp_amf_decode on any bytes whatever: it returns (the recursion over
    nested containers and all its loops end), only moves forward within the
    buffer, and either has read everything or reports one of the four errors
    ENODATA, EBADMSG, EPROTO and ENOMEM. *)
Theorem amf_decode_safe (mb : mbuf) :
  mbuf_wf mb ->
  exists r mb', rtmp_amf_decode mb = Some (r, mb') /\ advances mb mb'
    /\ match r with Ok _ => mbuf_get_left mb' = 0 | Err e => e ∈ [ENODATA; EBADMSG; EPROTO; ENOMEM] end.
Proof.
  intros W. unfold rtmp_amf_decode, AMF_HASH_SIZE. pose proof (alloc_goes (mbuf_get_left mb) mb W ltac:(lia)) as (r & mb1 & E & _ & Hr).
  unfold dlift in E. injection E as Er E1. destruct (odict_alloc 32) as [o|e]; subst r; [|by exists (Err e), mb].
  rewrite mbuf_get_left_rest by done. pose proof (zlength_nonneg (rest mb)). apply root_goes; [done|]. rewrite mbuf_get_left_rest by done. lia.
Qed.
End Theorems.

Definition ex_props : amf_props :=
  [(None, ANull);
   (None, AContainer AMF_OBJECT [(Some (chars "app"), AString (Some (chars "live"))); (Some (chars "fpad"), ABoolean false)]);
   (None, AContainer AMF_STRICT_ARRAY [(None, ANumber (dbl_of_u64 7)); (None, AContainer AMF_ECMA_ARRAY [(Some (chars "x"), ANull)])])].

Lemma ex_props_ok : Forall (fun p => arg_ok p.2) ex_props.
Proof.
  assert (Hs : Forall (fun s => str_ok (chars s)) ["app"; "live"; "fpad"; "x"]%string).
  { repeat constructor; by vm_compute. }
  rewrite List.Forall_forall in Hs.
  assert (Hk : forall c s, In s ["app"; "live"; "fpad"; "x"]%string -> key_ok c (Some (chars s))).
  { intros c s Hin _. exists (chars s). split; [done|]. split; [by apply Hs|]. cbn in Hin. by repeat destruct Hin as [<-|Hin]. }
  repeat constructor; try (by vm_compute); try (apply Hk; cbn; tauto); try (apply Hs; cbn; tauto); try done.
Qed.

Lemma amf_command_roundtrip_witness :
  exists mb mb1 msg mb2, mbuf_alloc (H := lp64_le) 512 = Some mb
    /\ (rtmp_command_header_encode (H := lp64_le) (chars "connect") 1 ;& rtmp_amf_vencode_object (H := lp64_le) AMF_ROOT ex_props) mb = (0, mb1)
    /\ rtmp_amf_decode (H := lp64_le) (mbuf_set_pos mb1 0) = Some (Ok msg, mb2) /\ rest mb2 = []
    /\ msg = number_keys 0 (OString (chars "connect") :: ODouble (dbl_of_u64 1) :: map (fun p => value_of p.2) ex_props)
    /\ odict_string msg (dec_str 0) = Some (chars "connect") /\ odict_get_number (fun _ => 0) msg (dec_str 1) = Some 1.
Proof.
  apply (amf_command_roundtrip (H := lp64_le)); [exact lp64_ample| |lia|by vm_compute|exact ex_props_ok|by vm_compute].
  split; [repeat constructor; by vm_compute|by vm_compute].
Defined.

(** A strict array that announces two elements and has one, which is cut short. *)
Lemma amf_decode_safe_witness :
  exists r mb', rtmp_amf_decode (H := lp64_le) (rcv_buf [10; 0; 0; 0; 2; 3; 0; 1]) = Some (r, mb')
    /\ advances (rcv_buf [10; 0; 0; 0; 2; 3; 0; 1]) mb'
    /\ match r with Ok _ => mbuf_get_left mb' = 0 | Err e => e ∈ [ENODATA; EBADMSG; EPROTO; ENOMEM] end.
Proof.
  apply (amf_decode_safe (H := lp64_le)). apply (holds_wf _ [10; 0; 0; 0; 2; 3; 0; 1] 0), rcv_buf_holds; [by_compute|by vm_compute].
Defined.
