(* ===== verification/Rtmp.v ===== *)
(** * RTMP chunks: src/src/rtmp/hdr.c, chunk.c and dechunk.c

    A message is cut into chunks of a maximal size; the header of a chunk has
    one of four formats, the shorter ones leave out what is as in the preceding
    message of the chunk stream.  The chunk streams of a dechunker are the
    sequence of their entries ([ListSpec]); the first entry with an id is the
    one the code finds and changes.  rtmp_dechunker_receive calls the handler
    of complete messages last: [dechunk_step] is everything before that call
    and returns the message, if there is one. *)

From stdpp Require Import base list numbers.
From Stdlib Require Import ZArith Lia.
From S2P Require Import Prelude Endian Mbuf MbufView Format.

Open Scope Z_scope.

Definition RTMP_CHUNK_OFFSET : Z := 64.
Definition TIMESTAMP_24MAX : Z := 0x00ffffff.
Definition MAX_CHUNKS : Z := 64.

Record rtmp_header := RtmpHeader {
  rh_format : Z;
  rh_chunk_id : Z;
  rh_timestamp : Z;
  rh_timestamp_delta : Z;
  rh_timestamp_ext : Z;
  rh_length : Z;
  rh_type_id : Z;
  rh_stream_id : Z;
  rh_ext_ts : bool;
}.

Definition set_format (f : Z) (h : rtmp_header) : rtmp_header :=
  RtmpHeader f (rh_chunk_id h) (rh_timestamp h) (rh_timestamp_delta h) (rh_timestamp_ext h) (rh_length h)
    (rh_type_id h) (rh_stream_id h) (rh_ext_ts h).
Definition set_timestamp (t : Z) (h : rtmp_header) : rtmp_header :=
  RtmpHeader (rh_format h) (rh_chunk_id h) t (rh_timestamp_delta h) (rh_timestamp_ext h) (rh_length h)
    (rh_type_id h) (rh_stream_id h) (rh_ext_ts h).
Definition set_timestamp_delta (t : Z) (h : rtmp_header) : rtmp_header :=
  RtmpHeader (rh_format h) (rh_chunk_id h) (rh_timestamp h) t (rh_timestamp_ext h) (rh_length h)
    (rh_type_id h) (rh_stream_id h) (rh_ext_ts h).
Definition set_timestamp_ext (t : Z) (h : rtmp_header) : rtmp_header :=
  RtmpHeader (rh_format h) (rh_chunk_id h) (rh_timestamp h) (rh_timestamp_delta h) t (rh_length h)
    (rh_type_id h) (rh_stream_id h) (rh_ext_ts h).
Definition set_length_type (len ty : Z) (h : rtmp_header) : rtmp_header :=
  RtmpHeader (rh_format h) (rh_chunk_id h) (rh_timestamp h) (rh_timestamp_delta h) (rh_timestamp_ext h) len
    ty (rh_stream_id h) (rh_ext_ts h).
Definition set_ext_ts (b : bool) (h : rtmp_header) : rtmp_header :=
  RtmpHeader (rh_format h) (rh_chunk_id h) (rh_timestamp h) (rh_timestamp_delta h) (rh_timestamp_ext h) (rh_length h)
    (rh_type_id h) (rh_stream_id h) b.

(** ** hdr.c *)

Section Header.
Context `{H : Host}.

Definition mbuf_write_u24_hton (v : Z) : mbuf -> Z * mbuf :=
  mbuf_write_u8 (Z.shiftr v 16) ;| mbuf_write_u8 (Z.shiftr v 8) ;| mbuf_write_u8 v.

Definition mbuf_read_u24_ntoh : D Z :=
  do! a := dread mbuf_read_u8 in
  do! b := dread mbuf_read_u8 in
  do! c := dread mbuf_read_u8 in
  dret (Z.lor (Z.lor (Z.shiftl a 16) (Z.shiftl b 8)) c).

Definition encode_basic_hdr (fmt chunk_id : Z) : mbuf -> Z * mbuf :=
  if chunk_id >=? 320 then
    mbuf_write_u8 (Z.lor (Z.shiftl fmt 6) 1) ;| write_be16 (u16 (chunk_id - RTMP_CHUNK_OFFSET))
  else if chunk_id >=? RTMP_CHUNK_OFFSET then
    mbuf_write_u8 (Z.lor (Z.shiftl fmt 6) 0) ;| mbuf_write_u8 (u8 (chunk_id - RTMP_CHUNK_OFFSET))
  else mbuf_write_u8 (Z.lor (Z.shiftl fmt 6) chunk_id).

(** The format and the id of the chunk stream. *)
Definition decode_basic_hdr : D (Z * Z) :=
  do! _ := dneed 1 ENODATA in
  do! v := dread mbuf_read_u8 in
  let format := Z.shiftr v 6 in
  let cs_id := Z.land v 0x3f in
  if cs_id =? 0 then
    do! _ := dneed 1 ENODATA in
    do! x := dread mbuf_read_u8 in dret (format, x + RTMP_CHUNK_OFFSET)
  else if cs_id =? 1 then
    do! _ := dneed 2 ENODATA in
    do! x := dread read_be16 in dret (format, x + RTMP_CHUNK_OFFSET)
  else dret (format, cs_id).

Definition ts_24 (ts : Z) : Z := if ts >=? TIMESTAMP_24MAX then TIMESTAMP_24MAX else ts.
Definition ts_ext (ts : Z) : Z := if ts >=? TIMESTAMP_24MAX then ts else 0.

(** The header as the switch of rtmp_header_encode leaves it, and what that
    branch writes. *)
Definition encode_fields (hdr : rtmp_header) : rtmp_header * (mbuf -> Z * mbuf) :=
  if rh_format hdr =? 0 then
    (set_timestamp_ext (ts_ext (rh_timestamp hdr)) hdr,
     mbuf_write_u24_hton (ts_24 (rh_timestamp hdr)) ;| mbuf_write_u24_hton (rh_length hdr)
       ;| mbuf_write_u8 (rh_type_id hdr) ;| mbuf_write_u32 (sys_htoll (rh_stream_id hdr)))
  else if rh_format hdr =? 1 then
    (set_timestamp_ext (ts_ext (rh_timestamp_delta hdr)) hdr,
     mbuf_write_u24_hton (ts_24 (rh_timestamp_delta hdr)) ;| mbuf_write_u24_hton (rh_length hdr)
       ;| mbuf_write_u8 (rh_type_id hdr))
  else if rh_format hdr =? 2 then
    (set_timestamp_ext (ts_ext (rh_timestamp_delta hdr)) hdr, mbuf_write_u24_hton (ts_24 (rh_timestamp_delta hdr)))
  else (hdr, ret_ok).

Definition rtmp_header_encode (hdr : rtmp_header) (mb : mbuf) : Z * rtmp_header * mbuf :=
  let '(err, mb) := encode_basic_hdr (rh_format hdr) (rh_chunk_id hdr) mb in
  if negb (err =? 0) then (err, hdr, mb)
  else
    let '(hdr, fields) := encode_fields hdr in
    let '(err, mb) :=
      (fields ;| (if rh_timestamp_ext hdr =? 0 then ret_ok else write_be32 (rh_timestamp_ext hdr))) mb in
    (err, hdr, mb).

(** The switch of rtmp_header_decode. *)
Definition decode_fields (format chunk_id : Z) : D rtmp_header :=
  if format =? 0 then
    do! _ := dneed 11 ENODATA in
    do! ts := mbuf_read_u24_ntoh in
    do! len := mbuf_read_u24_ntoh in
    do! ty := dread mbuf_read_u8 in
    do! sid := dread mbuf_read_u32 in
    dret (RtmpHeader format chunk_id ts 0 0 len ty (sys_ltohl sid) false)
  else if format =? 1 then
    do! _ := dneed 7 ENODATA in
    do! delta := mbuf_read_u24_ntoh in
    do! len := mbuf_read_u24_ntoh in
    do! ty := dread mbuf_read_u8 in
    dret (RtmpHeader format chunk_id 0 delta 0 len ty 0 false)
  else if format =? 2 then
    do! _ := dneed 3 ENODATA in
    do! delta := mbuf_read_u24_ntoh in
    dret (RtmpHeader format chunk_id 0 delta 0 0 0 0 false)
  else dret (RtmpHeader format chunk_id 0 0 0 0 0 0 false).

Definition rtmp_header_decode : D rtmp_header :=
  do! (format, chunk_id) := decode_basic_hdr in
  do! hdr := decode_fields format chunk_id in
  if rh_timestamp hdr =? TIMESTAMP_24MAX then
    do! _ := dneed 4 ENODATA in
    do! ext := dread read_be32 in dret (set_ext_ts true (set_timestamp ext hdr))
  else if rh_timestamp_delta hdr =? TIMESTAMP_24MAX then
    do! _ := dneed 4 ENODATA in
    do! ext := dread read_be32 in dret (set_ext_ts true (set_timestamp_delta ext hdr))
  else dret hdr.
End Header.

(** ** chunk.c *)

Section Chunker.
Context `{H : Host}.

(** The loop over the rest of the payload; each turn takes at least one byte. *)
Fixpoint chunk_loop (fuel : nat) (max_chunk_sz : Z) (hdr : rtmp_header) (payload : list Z) (mb : mbuf) : option (Z * mbuf) :=
  if zlength payload =? 0 then Some (0, mb)
  else
    match fuel with
    | O => None
    | S fuel =>
        let chunk_sz := Z.min (zlength payload) max_chunk_sz in
        let '(e1, hdr, mb) := rtmp_header_encode hdr mb in
        let '(e2, mb) := mbuf_write_mem mb (ztake chunk_sz payload) in
        let err := Z.lor e1 e2 in
        if negb (err =? 0) then Some (err, mb)
        else chunk_loop fuel max_chunk_sz hdr (zdrop chunk_sz payload) mb
    end.

(** The bytes handed to tcp_send, or the error. *)
Definition rtmp_chunker (format chunk_id timestamp timestamp_delta msg_type_id msg_stream_id : Z) (payload : list Z)
    (max_chunk_sz : Z) : option (res (list Z)) :=
  let payload_len := zlength payload in
  if (payload_len =? 0) || (max_chunk_sz =? 0) then Some (Err EINVAL)
  else
    match mbuf_alloc (payload_len + 256) with
    | None => Some (Err ENOMEM)
    | Some mb =>
        let hdr := RtmpHeader (format mod 4) chunk_id timestamp timestamp_delta 0 (u32 payload_len) msg_type_id
                     msg_stream_id false in
        let chunk_sz := Z.min payload_len max_chunk_sz in
        let '(e1, hdr, mb) := rtmp_header_encode hdr mb in
        let '(e2, mb) := mbuf_write_mem mb (ztake chunk_sz payload) in
        let err := Z.lor e1 e2 in
        if negb (err =? 0) then Some (Err err)
        else
          match chunk_loop (Z.to_nat payload_len) max_chunk_sz (set_format 3 hdr) (zdrop chunk_sz payload) mb with
          | None => None
          | Some (err, mb) =>
              if negb (err =? 0) then Some (Err err) else Some (Ok (rest (mbuf_set_pos mb 0)))
          end
    end.
End Chunker.

(** ** dechunk.c *)

Record rtmp_chunk := RtmpChunk {
  ck_hdr : rtmp_header;
  ck_mb : option mbuf;
}.

Record rtmp_dechunker := RtmpDechunker {
  rd_chunkl : list rtmp_chunk;
  rd_chunk_sz : Z;
}.

(** sizeof(struct rtmp_chunk) *)
Definition RTMP_CHUNK_STRUCT : Z := 80.

Definition find_chunk (chunkl : list rtmp_chunk) (chunk_id : Z) : option rtmp_chunk :=
  List.find (fun c => chunk_id =? rh_chunk_id (ck_hdr c)) chunkl.

(** The entry the pointer returned by find_chunk refers to, changed. *)
Fixpoint put_chunk (chunk_id : Z) (new : rtmp_chunk) (chunkl : list rtmp_chunk) : list rtmp_chunk :=
  match chunkl with
  | [] => []
  | c :: l => if chunk_id =? rh_chunk_id (ck_hdr c) then new :: l else c :: put_chunk chunk_id new l
  end.

Definition set_chunkl (l : list rtmp_chunk) (rd : rtmp_dechunker) : rtmp_dechunker := RtmpDechunker l (rd_chunk_sz rd).

Definition rtmp_dechunker_alloc (chunk_sz : Z) : res rtmp_dechunker :=
  if chunk_sz =? 0 then Err EINVAL else Ok (RtmpDechunker [] chunk_sz).

Definition rtmp_dechunker_set_chunksize (chunk_sz : Z) (rd : rtmp_dechunker) : rtmp_dechunker :=
  if chunk_sz =? 0 then rd else RtmpDechunker (rd_chunkl rd) chunk_sz.

Section Dechunker.
Context `{H : Host}.

Definition create_chunk (chunkl : list rtmp_chunk) (hdr : rtmp_header) : option (list rtmp_chunk * rtmp_chunk) :=
  match mem_alloc RTMP_CHUNK_STRUCT with
  | None => None
  | Some _ => Some (chunkl ++ [RtmpChunk hdr None], RtmpChunk hdr None)
  end.

(** The chunk stream of a header, created when the header has format 0. *)
Definition chunk_of (hdr : rtmp_header) (rd : rtmp_dechunker) : res (rtmp_chunk * rtmp_dechunker) :=
  match find_chunk (rd_chunkl rd) (rh_chunk_id hdr) with
  | Some c => Ok (c, rd)
  | None =>
      if rh_format hdr =? 0 then
        if zlength (rd_chunkl rd) >? MAX_CHUNKS then Err EOVERFLOW
        else
          match create_chunk (rd_chunkl rd) hdr with
          | None => Err ENOMEM
          | Some (l, c) => Ok (c, set_chunkl l rd)
          end
      else Err ENOENT
  end.

(** What the header of a new message makes of the header of its chunk stream. *)
Definition merge_hdr (hdr old : rtmp_header) : rtmp_header :=
  if rh_format hdr =? 0 then hdr
  else if rh_format hdr =? 1 then
    set_length_type (rh_length hdr) (rh_type_id hdr) (set_timestamp_delta (rh_timestamp_delta hdr) old)
  else set_timestamp_delta (rh_timestamp_delta hdr) old.

(** Formats 0, 1 and 2: the first chunk of a message. *)
Definition first_chunk (max_sz : Z) (hdr : rtmp_header) (chunk : rtmp_chunk) (mb : mbuf) : Z * rtmp_chunk * mbuf :=
  let ch := merge_hdr hdr (ck_hdr chunk) in
  let msg_len := rh_length ch in
  let chunk_sz := Z.min msg_len max_sz in
  if mbuf_get_left mb <? chunk_sz then (ENODATA, RtmpChunk ch (ck_mb chunk), mb)
  else
    match mbuf_alloc msg_len with
    | None => (ENOMEM, RtmpChunk ch None, mb)
    | Some b =>
        let '(err, d, mb) := mbuf_read_mem mb chunk_sz in
        if negb (err =? 0) then (err, RtmpChunk ch (Some b), mb)
        else
          let b := mbuf_set_end (mbuf_set_pos (mb_store b 0 d) chunk_sz) chunk_sz in
          let ch := set_ext_ts (rh_ext_ts hdr) (set_format (rh_format hdr) ch) in
          let ch := if (rh_format hdr =? 1) || (rh_format hdr =? 2)
                    then set_timestamp (u32 (rh_timestamp ch + rh_timestamp_delta hdr)) ch else ch in
          (0, RtmpChunk ch (Some b), mb)
    end.

(** The extended timestamp of a chunk of format 3, where its message has one. *)
Definition next_ext (ch : rtmp_header) (mb : mbuf) : Z * rtmp_header * mbuf :=
  if rh_ext_ts ch then
    if mbuf_get_left mb <? 4 then (ENODATA, ch, mb)
    else
      let '(ext_ts, mb) := read_be32 mb in
      (0, if rh_format ch =? 0 then set_timestamp ext_ts ch else set_timestamp_delta ext_ts ch, mb)
  else (0, ch, mb).

(** The buffer a chunk of format 3 adds to; without one it starts a message. *)
Definition next_buf (ch : rtmp_header) (buf : option mbuf) : option (rtmp_header * mbuf) :=
  match buf with
  | Some b => Some (ch, b)
  | None =>
      match mbuf_alloc (rh_length ch) with
      | None => None
      | Some b =>
          let ch := if rh_format ch =? 0 then set_timestamp_delta (rh_timestamp ch) ch else ch in
          Some (set_timestamp (u32 (rh_timestamp ch + rh_timestamp_delta ch)) ch, b)
      end
  end.

(** Format 3: another chunk of the message, or a message like the last one. *)
Definition next_chunk (max_sz : Z) (chunk : rtmp_chunk) (mb : mbuf) : Z * rtmp_chunk * mbuf :=
  let '(err, ch, mb) := next_ext (ck_hdr chunk) mb in
  if negb (err =? 0) then (err, RtmpChunk ch (ck_mb chunk), mb)
  else
    match next_buf ch (ck_mb chunk) with
    | None => (ENOMEM, RtmpChunk ch None, mb)
    | Some (ch, b) =>
        let chunk_sz := Z.min (mbuf_get_space b) max_sz in
        if mbuf_get_left mb <? chunk_sz then (ENODATA, RtmpChunk ch (Some b), mb)
        else
          let '(err, d, mb) := mbuf_read_mem mb chunk_sz in
          if negb (err =? 0) then (err, RtmpChunk ch (Some b), mb)
          else
            let b := mb_store b (mb_pos b) d in
            (0, RtmpChunk ch (Some (mbuf_set_end (mbuf_set_pos b (u64 (mb_pos b + chunk_sz))) (u64 (mb_end b + chunk_sz)))), mb)
    end.

(** A complete message leaves its chunk stream. *)
Definition take_message (chunk : rtmp_chunk) : rtmp_chunk * option (rtmp_header * mbuf) :=
  match ck_mb chunk with
  | Some b =>
      if mb_pos b >=? mb_size b then (RtmpChunk (ck_hdr chunk) None, Some (ck_hdr chunk, mbuf_set_pos b 0))
      else (chunk, None)
  | None => (chunk, None)
  end.

Definition dechunk_step (rd : rtmp_dechunker) (mb : mbuf)
    : option (Z * rtmp_dechunker * mbuf * option (rtmp_header * mbuf)) :=
  match rtmp_header_decode mb with
  | None => None
  | Some (Err e, mb) => Some (e, rd, mb, None)
  | Some (Ok hdr, mb) =>
      match chunk_of hdr rd with
      | Err e => Some (e, rd, mb, None)
      | Ok (chunk, rd) =>
          let store c := set_chunkl (put_chunk (rh_chunk_id hdr) c (rd_chunkl rd)) rd in
          let '(err, chunk, mb) :=
            if (rh_format hdr =? 0) || (rh_format hdr =? 1) || (rh_format hdr =? 2)
            then first_chunk (rd_chunk_sz rd) hdr chunk mb
            else if rh_format hdr =? 3 then next_chunk (rd_chunk_sz rd) chunk mb
            else (EPROTO, chunk, mb) in
          if negb (err =? 0) then Some (err, store chunk, mb, None)
          else let '(chunk, msg) := take_message chunk in Some (0, store chunk, mb, msg)
      end
  end.

(** With the handler of a user whose state is [s]. *)
Definition rtmp_dechunker_receive {S : Type}
    (chunkh : rtmp_header -> mbuf -> rtmp_dechunker -> S -> Z * rtmp_dechunker * S) (rd : rtmp_dechunker) (s : S)
    (mb : mbuf) : option (Z * rtmp_dechunker * S * mbuf) :=
  match dechunk_step rd mb with
  | None => None
  | Some (err, rd, mb, None) => Some (err, rd, s, mb)
  | Some (_, rd, mb, Some (hdr, buf)) => let '(err, rd, s) := chunkh hdr buf rd s in Some (err, rd, s, mb)
  end.
End Dechunker.
