(* ===== verification/RtmpSpec.v ===== *)
(** * RTMP: what the dechunker makes of a stream of bytes

    A stream reaches the dechunker in pieces that TCP chooses.  An attempt on
    bytes that stop inside a chunk fails with ENODATA and is repeated with
    more bytes: it leaves the dechunker in a state from which the repetition
    does what the first attempt would have done with all the bytes
    ([dechunk_resumes]).  Messages cut by rtmp_chunker are put together again
    ([rtmp_chunk_roundtrip]). *)

From stdpp Require Import base list gmap numbers.
From Stdlib Require Import ZArith Lia.
From S2P Require Import Prelude Endian Mbuf MbufView Format Rtmp.

Open Scope Z_scope.

(** ** Decoders and incomplete data *)

Section Resume.
Context `{H : Host}.

(** With [n] bytes at least, [d] either asks for more or decides: with more
    bytes it comes to the same decision.  It uses [j] bytes at least. *)
Definition decides {A} (n j : Z) (d : D A) : Prop :=
  forall mb1 mb2 x, mbuf_wf mb1 -> mbuf_wf mb2 -> rest mb2 = rest mb1 ++ x -> n <= zlength (rest mb1) ->
    (exists mb', d mb1 = Some (Err ENODATA, mb')) \/
    (exists a k, j <= k /\ 0 <= k <= zlength (rest mb1) /\ d mb1 = Some (Ok a, adv mb1 k) /\ d mb2 = Some (Ok a, adv mb2 k)).

Lemma adv_0 mb : adv mb 0 = mb.
Proof. destruct mb. unfold adv, mbuf_set_pos. simpl. f_equal. lia. Qed.

Lemma rest_prefix mb1 mb2 x k :
  mbuf_wf mb1 -> mbuf_wf mb2 -> rest mb2 = rest mb1 ++ x -> 0 <= k <= zlength (rest mb1) ->
  mbuf_wf (adv mb1 k) /\ mbuf_wf (adv mb2 k) /\ rest (adv mb2 k) = rest (adv mb1 k) ++ x
    /\ zlength (rest (adv mb1 k)) = zlength (rest mb1) - k.
Proof.
  intros W1 W2 E Hk. pose proof (zlength_nonneg x).
  split; [by apply adv_wf|]. split; [apply adv_wf; [done|]; rewrite E, zlength_app; lia|].
  rewrite !rest_adv by (done || lia). rewrite E. split; [rewrite zdrop_app_le by lia; done|].
  rewrite zlength_zdrop; lia.
Qed.

Lemma decides_ret {A} n (a : A) : decides n 0 (dret a).
Proof. intros mb1 mb2 x W1 W2 E Hn. right. exists a, 0. rewrite !adv_0. pose proof (zlength_nonneg (rest mb1)). split; [lia|]. split; [lia|done]. Qed.

Lemma decides_bind {A B} n j (d : D A) (k : A -> D B) : decides n j d -> (forall a, decides 0 0 (k a)) -> decides n j (dbind d k).
Proof.
  intros Hd Hk mb1 mb2 x W1 W2 E Hn. unfold dbind.
  destruct (Hd mb1 mb2 x W1 W2 E Hn) as [[mb' ->]|(a & i & Hj & Hi & -> & ->)]; [left; eauto|].
  destruct (rest_prefix mb1 mb2 x i W1 W2 E Hi) as (W1' & W2' & E' & L).
  destruct (Hk a _ _ x W1' W2' E') as [[mb' ->]|(b & i' & Hi0 & Hi' & -> & ->)]; [apply zlength_nonneg|left; eauto|].
  right. exists b, (i + i'). rewrite !adv_adv. split; [lia|]. split; [lia|done].
Qed.

Lemma decides_need {A} n m j (d : D A) : decides m j d -> decides n j (do! _ := dneed m ENODATA in d).
Proof.
  intros Hd mb1 mb2 x W1 W2 E Hn. unfold dbind, dneed. rewrite !mbuf_get_left_rest by done.
  destruct (Z.ltb_spec (zlength (rest mb1)) m); [left; eauto|].
  rewrite E, zlength_app. pose proof (zlength_nonneg x). destruct (Z.ltb_spec (zlength (rest mb1) + zlength x) m); [lia|].
  by apply Hd with x.
Qed.

Lemma read_uint_prefix n mb1 mb2 x :
  mbuf_wf mb1 -> mbuf_wf mb2 -> rest mb2 = rest mb1 ++ x -> Z.of_nat n <= zlength (rest mb1) ->
  (mbuf_read_uint n mb2).1 = (mbuf_read_uint n mb1).1 /\ (mbuf_read_uint n mb1).2 = adv mb1 (Z.of_nat n)
    /\ (mbuf_read_uint n mb2).2 = adv mb2 (Z.of_nat n).
Proof.
  intros W1 W2 E Hn. set (l := ztake (Z.of_nat n) (rest mb1)).
  assert (E1 : rest mb1 = l ++ zdrop (Z.of_nat n) (rest mb1)) by (symmetry; apply ztake_zdrop).
  assert (E2 : rest mb2 = l ++ zdrop (Z.of_nat n) (rest mb1) ++ x) by (rewrite E, app_assoc; congruence).
  assert (Hl : length l = n).
  { assert (zlength l = Z.of_nat n) by (unfold l; rewrite zlength_ztake; lia). unfold zlength in *. lia. }
  rewrite (mbuf_read_uint_app n mb1 l _ W1 E1 Hl), (mbuf_read_uint_app n mb2 l _ W2 E2 Hl). done.
Qed.

Lemma decides_uint {A B} n j m (f : Z -> A) (k : A -> D B) :
  j <= Z.of_nat m <= n -> (forall a, decides (n - Z.of_nat m) 0 (k a)) ->
  decides n j (dbind (dread (fun mb => let '(v, mb) := mbuf_read_uint m mb in (f v, mb))) k).
Proof.
  intros Hm Hk mb1 mb2 x W1 W2 E Hn. unfold dbind, dread.
  destruct (read_uint_prefix m mb1 mb2 x W1 W2 E) as (Hv & H1 & H2); [lia|].
  destruct (mbuf_read_uint m mb1) as [v1 mb1'], (mbuf_read_uint m mb2) as [v2 mb2']. cbn in *. subst.
  destruct (rest_prefix mb1 mb2 x (Z.of_nat m) W1 W2 E) as (W1' & W2' & E' & L); [lia|].
  destruct (Hk (f v1) _ _ x W1' W2' E') as [[mb' ->]|(b & i & Hi0 & Hi & -> & ->)]; [lia|left; eauto|].
  right. exists b, (Z.of_nat m + i). rewrite !adv_adv. split; [lia|]. split; [lia|done].
Qed.

Lemma decides_u8 {B} n j (k : Z -> D B) : j <= 1 <= n -> (forall a, decides (n - 1) 0 (k a)) -> decides n j (dbind (dread mbuf_read_u8) k).
Proof.
  intros Hn Hk mb1 mb2 x W1 W2 E Hl.
  pose proof (decides_uint n j 1 (fun v => v) k Hn Hk mb1 mb2 x W1 W2 E Hl) as Hd. unfold dbind, dread, mbuf_read_u8 in *.
  by destruct (mbuf_read_uint 1 mb1), (mbuf_read_uint 1 mb2).
Qed.

Lemma decides_u32 {B} n j (k : Z -> D B) : j <= 4 <= n -> (forall a, decides (n - 4) 0 (k a)) -> decides n j (dbind (dread mbuf_read_u32) k).
Proof.
  intros Hn Hk mb1 mb2 x W1 W2 E Hl.
  pose proof (decides_uint n j 4 (fun v => v) k Hn Hk mb1 mb2 x W1 W2 E Hl) as Hd. unfold dbind, dread, mbuf_read_u32 in *.
  by destruct (mbuf_read_uint 4 mb1), (mbuf_read_uint 4 mb2).
Qed.

Lemma decides_be16 {B} n j (k : Z -> D B) : j <= 2 <= n -> (forall a, decides (n - 2) 0 (k a)) -> decides n j (dbind (dread read_be16) k).
Proof. apply (decides_uint n j 2 ntohs k). Qed.

Lemma decides_be32 {B} n j (k : Z -> D B) : j <= 4 <= n -> (forall a, decides (n - 4) 0 (k a)) -> decides n j (dbind (dread read_be32) k).
Proof. apply (decides_uint n j 4 ntohl k). Qed.

Lemma decides_u24 {B} n (k : Z -> D B) : 3 <= n -> (forall a, decides (n - 3) 0 (k a)) -> decides n 0 (dbind mbuf_read_u24_ntoh k).
Proof.
  intros Hn Hk mb1 mb2 x W1 W2 E Hl. unfold mbuf_read_u24_ntoh.
  assert (Hd : decides n 0 (do! a := dread mbuf_read_u8 in do! b := dread mbuf_read_u8 in do! c := dread mbuf_read_u8 in
                            k (Z.lor (Z.lor (Z.shiftl a 16) (Z.shiftl b 8)) c))).
  { apply decides_u8; [lia|]. intros a. apply decides_u8; [lia|]. intros b. apply decides_u8; [lia|]. intros c.
    replace (n - 1 - 1 - 1) with (n - 3) by lia. apply Hk. }
  specialize (Hd mb1 mb2 x W1 W2 E Hl). unfold dbind, dread, dret in *.
  destruct (mbuf_read_u8 mb1) as [? m1], (mbuf_read_u8 mb2) as [? m2]. cbn in *.
  destruct (mbuf_read_u8 m1) as [? m1'], (mbuf_read_u8 m2) as [? m2']. cbn in *.
  destruct (mbuf_read_u8 m1') as [? m1''], (mbuf_read_u8 m2') as [? m2'']. cbn in *. done.
Qed.

Ltac decide_step :=
  match goal with
  | |- decides _ _ (dret _) => apply decides_ret
  | |- decides _ _ (dbind (dneed _ _) _) => apply decides_need
  | |- decides _ _ (dbind (dread mbuf_read_u8) _) => apply decides_u8; [lia|intros ?]
  | |- decides _ _ (dbind (dread mbuf_read_u32) _) => apply decides_u32; [lia|intros ?]
  | |- decides _ _ (dbind (dread read_be16) _) => apply decides_be16; [lia|intros ?]
  | |- decides _ _ (dbind (dread read_be32) _) => apply decides_be32; [lia|intros ?]
  | |- decides _ _ (dbind mbuf_read_u24_ntoh _) => apply decides_u24; [lia|intros ?]
  | |- decides _ _ (if ?b then _ else _) => destruct b
  end.

Lemma header_decides : decides 0 1 rtmp_header_decode.
Proof.
  unfold rtmp_header_decode. apply decides_bind; [unfold decode_basic_hdr; repeat decide_step|].
  intros [format chunk_id]. apply decides_bind; [unfold decode_fields; repeat decide_step|].
  intros hdr. repeat decide_step.
Qed.
End Resume.

(** ** The list of chunk streams *)

Lemma find_chunk_id l id c : find_chunk l id = Some c -> rh_chunk_id (ck_hdr c) = id.
Proof. unfold find_chunk. intros E. apply find_some in E as [_ E]. by apply Z.eqb_eq in E. Qed.

Lemma chunk_put l id c0 c : find_chunk l id = Some c0 -> rh_chunk_id (ck_hdr c) = id -> find_chunk (put_chunk id c l) id = Some c.
Proof.
  unfold find_chunk. intros E Hc. induction l as [|a l IH]; [done|]. cbn in *.
  destruct (id =? _) eqn:E1; cbn.
  - by rewrite Hc, Z.eqb_refl.
  - rewrite E1. auto.
Qed.

Lemma find_put_other l id id' c : rh_chunk_id (ck_hdr c) = id -> id' <> id -> find_chunk (put_chunk id c l) id' = find_chunk l id'.
Proof.
  unfold find_chunk. intros Hc Hne. induction l as [|a l IH]; [done|]. cbn.
  destruct (Z.eqb_spec id (rh_chunk_id (ck_hdr a))) as [E|E]; cbn; [|by rewrite IH].
  rewrite Hc, <- E. by rewrite (proj2 (Z.eqb_neq _ _) Hne).
Qed.

Lemma put_put l id c1 c2 : rh_chunk_id (ck_hdr c1) = id -> put_chunk id c2 (put_chunk id c1 l) = put_chunk id c2 l.
Proof.
  intros Hc. induction l as [|a l IH]; [done|]. cbn. destruct (id =? _) eqn:E1; cbn.
  - by rewrite Hc, Z.eqb_refl.
  - by rewrite E1, IH.
Qed.

Lemma chunk_app_new l id c : find_chunk l id = None -> rh_chunk_id (ck_hdr c) = id -> find_chunk (l ++ [c]) id = Some c.
Proof.
  unfold find_chunk. intros E Hc. induction l as [|a l IH]; cbn in *; [by rewrite Hc, Z.eqb_refl|].
  destruct (id =? _); [done|auto].
Qed.

Lemma zlength_put l id c : zlength (put_chunk id c l) = zlength l.
Proof. induction l as [|a l IH]; [done|]. cbn [put_chunk]. case_match; rewrite !zlength_cons; [done|by rewrite IH]. Qed.

Section Dechunk.
Context `{H : Host}.

Lemma chunk_of_found hdr rd c rd' :
  chunk_of hdr rd = Ok (c, rd') -> find_chunk (rd_chunkl rd') (rh_chunk_id hdr) = Some c /\ rd_chunk_sz rd' = rd_chunk_sz rd.
Proof.
  unfold chunk_of, create_chunk. destruct (find_chunk _ _) eqn:E; [intros [= <- <-]; done|].
  destruct (rh_format hdr =? 0), (zlength (rd_chunkl rd) >? MAX_CHUNKS), (mem_alloc RTMP_CHUNK_STRUCT); try done. intros [= <- <-]. split; [|done]. by apply chunk_app_new.
Qed.

(** ** An attempt on incomplete data *)

Lemma merge_twice hdr old : merge_hdr hdr (merge_hdr hdr old) = merge_hdr hdr old.
Proof. unfold merge_hdr. by repeat case_match. Qed.

Lemma merge_id hdr old : rh_chunk_id old = rh_chunk_id hdr -> rh_chunk_id (merge_hdr hdr old) = rh_chunk_id hdr.
Proof. unfold merge_hdr. by repeat case_match. Qed.

Lemma first_short sz hdr c mb1 c' mb' :
  first_chunk sz hdr c mb1 = (ENODATA, c', mb') ->
  c' = RtmpChunk (merge_hdr hdr (ck_hdr c)) (ck_mb c) /\ forall mb2, first_chunk sz hdr c' mb2 = first_chunk sz hdr c mb2.
Proof.
  intros E. assert (c' = RtmpChunk (merge_hdr hdr (ck_hdr c)) (ck_mb c)) as ->.
  { revert E. unfold first_chunk, mbuf_read_mem. match goal with |- context [?a <? ?b] => destruct (a <? b) end; [by intros [= <- _]|].
    destruct (mbuf_alloc _); [|done]. match goal with |- context [?a >? ?b] => by destruct (a >? b) end. }
  split; [done|]. intros mb2. unfold first_chunk. cbn [ck_hdr ck_mb]. by rewrite merge_twice.
Qed.

(** A chunk of format 3 that starts a message with an extended absolute
    timestamp: the one case where the attempt leaves a trace. *)
Definition ext_restart (c : rtmp_chunk) : Prop :=
  ck_mb c = None /\ rh_ext_ts (ck_hdr c) = true /\ rh_format (ck_hdr c) = 0.

Lemma next_ext_prefix ch mb1 mb2 x :
  mbuf_wf mb1 -> mbuf_wf mb2 -> rest mb2 = rest mb1 ++ x ->
  (exists mb', next_ext ch mb1 = (ENODATA, ch, mb')) /\ (x = [] -> exists m', next_ext ch mb2 = (ENODATA, ch, m')) \/
  (exists ch' k, 0 <= k <= zlength (rest mb1) /\ next_ext ch mb1 = (0, ch', adv mb1 k) /\ next_ext ch mb2 = (0, ch', adv mb2 k)).
Proof.
  intros W1 W2 E. unfold next_ext. destruct (rh_ext_ts ch) eqn:Ex.
  2: { right. exists ch, 0. rewrite !adv_0. pose proof (zlength_nonneg (rest mb1)). split; [lia|done]. }
  rewrite !mbuf_get_left_rest by done. destruct (Z.ltb_spec (zlength (rest mb1)) 4).
  { left. split; [eauto|]. intros ->. rewrite E, app_nil_r, (proj2 (Z.ltb_lt _ _)) by done. eauto. }
  rewrite E, zlength_app. pose proof (zlength_nonneg x). destruct (Z.ltb_spec (zlength (rest mb1) + zlength x) 4); [lia|].
  destruct (read_uint_prefix 4 mb1 mb2 x W1 W2 E) as (Hv & Ha & Hb); [lia|]. unfold read_be32, mbuf_read_u32.
  destruct (mbuf_read_uint 4 mb1) as [v1 ?], (mbuf_read_uint 4 mb2) as [v2 ?]. cbn in *. subst.
  right. do 2 eexists. split; [|split; reflexivity]. lia.
Qed.

Lemma next_ext_again ch ch1 ch2 mb mb' :
  next_ext ch mb = (0, ch1, mb') -> rh_ext_ts ch2 = rh_ext_ts ch -> rh_format ch2 = rh_format ch ->
  (if rh_format ch =? 0 then rh_timestamp ch2 = rh_timestamp ch1 else rh_timestamp_delta ch2 = rh_timestamp_delta ch1) ->
  next_ext ch2 mb = (0, ch2, mb').
Proof.
  unfold next_ext. intros E He Hf Ht. rewrite He, Hf. destruct (rh_ext_ts ch) eqn:Ex; [|by injection E as <- <-].
  destruct (mbuf_get_left mb <? 4); [done|]. destruct (read_be32 mb) as [e mb'']. injection E as <- <-.
  destruct (rh_format ch =? 0); cbn in Ht; rewrite <- Ht; destruct ch2; done.
Qed.

Lemma next_ext_shape ch ch1 mb mb' :
  next_ext ch mb = (0, ch1, mb') ->
  rh_ext_ts ch1 = rh_ext_ts ch /\ rh_format ch1 = rh_format ch /\ rh_chunk_id ch1 = rh_chunk_id ch
    /\ (rh_ext_ts ch = false -> ch1 = ch).
Proof. unfold next_ext. destruct (rh_ext_ts ch) eqn:E; repeat case_match; intros [= <- <-]; done. Qed.

Lemma next_buf_shape ch1 buf ch2 b :
  next_buf ch1 buf = Some (ch2, b) ->
  rh_ext_ts ch2 = rh_ext_ts ch1 /\ rh_format ch2 = rh_format ch1 /\ rh_chunk_id ch2 = rh_chunk_id ch1
    /\ (rh_format ch1 <> 0 -> rh_timestamp_delta ch2 = rh_timestamp_delta ch1) /\ (buf <> None -> ch2 = ch1).
Proof.
  unfold next_buf. destruct buf; [intros [= <- <-]; split_and!; done|]. destruct (mbuf_alloc _); [|done].
  destruct (Z.eqb_spec (rh_format ch1) 0); intros [= <- <-]; cbn; split_and!; try done; intros; lia.
Qed.

Lemma next_short sz c mb1 c' mb' mb2 x :
  mbuf_wf mb1 -> mbuf_wf mb2 -> rest mb2 = rest mb1 ++ x -> ~ ext_restart c ->
  next_chunk sz c mb1 = (ENODATA, c', mb') ->
  rh_chunk_id (ck_hdr c') = rh_chunk_id (ck_hdr c) /\ next_chunk sz c' mb2 = next_chunk sz c mb2 /\ ~ ext_restart c'.
Proof.
  intros W1 W2 E Hr. unfold next_chunk at 1.
  destruct (next_ext_prefix (ck_hdr c) mb1 mb2 x W1 W2 E) as [[[m ->] _]|(ch1 & k & Hk & -> & E2)].
  { cbn. intros [= <- <-]. by destruct c. }
  cbn [negb Z.eqb]. destruct (next_buf ch1 (ck_mb c)) as [[ch2 b]|] eqn:Eb; [|done].
  destruct (next_ext_shape _ _ _ _ E2) as (S1 & S2 & S3 & S4).
  destruct (next_buf_shape _ _ _ _ Eb) as (B1 & B2 & B3 & B4 & B5).
  intros Ec. assert (c' = RtmpChunk ch2 (Some b)) as ->.
  { revert Ec. unfold mbuf_read_mem. match goal with |- context [?a <? ?b] => destruct (a <? b) end; [by intros [= <- _]|]. match goal with |- context [?a >? ?b] => by destruct (a >? b) end. }
  cbn. split; [congruence|]. unfold next_chunk. cbn [ck_hdr ck_mb]. rewrite E2.
  assert (Ea : next_ext ch2 mb2 = (0, ch2, adv mb2 k)).
  { destruct (rh_ext_ts (ck_hdr c)) eqn:Ex.
    2: { unfold next_ext. rewrite B1, S1. revert E2. unfold next_ext. rewrite Ex. intros E2. injection E2 as _ E2. by rewrite <- E2. }
    apply (next_ext_again (ck_hdr c) ch1); [done|congruence|congruence|].
    destruct (Z.eqb_spec (rh_format (ck_hdr c)) 0) as [F|F]; [|apply B4; congruence].
    rewrite B5; [done|]. intros N. apply Hr. done. }
  rewrite Ea, Eb. cbn [negb Z.eqb next_buf]. split; [done|]. by intros [N _].
Qed.

(** Where an attempt does not ask for more bytes, more bytes change nothing. *)
Lemma read_mem_prefix mb1 mb2 x n :
  mbuf_wf mb1 -> mbuf_wf mb2 -> rest mb2 = rest mb1 ++ x -> 0 <= n <= zlength (rest mb1) ->
  exists d, mbuf_read_mem mb1 n = (0, d, adv mb1 n) /\ mbuf_read_mem mb2 n = (0, d, adv mb2 n).
Proof.
  intros W1 W2 E Hn. exists (ztake n (rest mb1)). pose proof (zlength_ztake n (rest mb1) Hn) as Hl.
  assert (E1 : rest mb1 = ztake n (rest mb1) ++ zdrop n (rest mb1)) by (symmetry; apply ztake_zdrop).
  assert (E2 : rest mb2 = ztake n (rest mb1) ++ zdrop n (rest mb1) ++ x) by (rewrite app_assoc, ztake_zdrop; done).
  destruct (read_mem_app mb1 _ _ n W1 E1 Hl) as (-> & _). by destruct (read_mem_app mb2 _ _ n W2 E2 Hl) as (-> & _).
Qed.

(** The outcome of a part of a step on two buffers: more bytes are asked for, or
    it is the same. *)
Definition agree {A} (x : list Z) (r1 r2 : Z * A * mbuf) (mb1 mb2 : mbuf) : Prop :=
  (exists a m, r1 = (ENODATA, a, m) /\ (x = [] -> exists m', r2 = (ENODATA, a, m'))) \/
  (exists e a m1 m2, r1 = (e, a, m1) /\ r2 = (e, a, m2) /\ e <> ENODATA
     /\ (e = 0 -> exists k, 0 <= k <= zlength (rest mb1) /\ m1 = adv mb1 k /\ m2 = adv mb2 k)).

Lemma first_agree sz hdr c mb1 mb2 x :
  mbuf_wf mb1 -> mbuf_wf mb2 -> rest mb2 = rest mb1 ++ x -> 0 <= sz -> 0 <= rh_length (merge_hdr hdr (ck_hdr c)) ->
  agree x (first_chunk sz hdr c mb1) (first_chunk sz hdr c mb2) mb1 mb2.
Proof.
  intros W1 W2 E Hs Hl. unfold first_chunk. set (ch := merge_hdr _ _) in *. set (n := Z.min (rh_length ch) sz).
  rewrite !mbuf_get_left_rest by done. destruct (Z.ltb_spec (zlength (rest mb1)) n).
  { left. do 2 eexists. split; [done|]. intros ->. rewrite E, app_nil_r, (proj2 (Z.ltb_lt _ _)) by done. eauto. }
  rewrite E, zlength_app. pose proof (zlength_nonneg x). rewrite (proj2 (Z.ltb_ge _ _)) by lia. right.
  destruct (mbuf_alloc (rh_length ch)) as [b|]; [|do 4 eexists; split_and!; done].
  destruct (read_mem_prefix mb1 mb2 x n W1 W2 E) as (d & -> & ->); [unfold n; lia|]. cbn [negb Z.eqb].
  do 4 eexists. split; [reflexivity|]. split; [reflexivity|]. split; [done|]. intros _. exists n. split; [unfold n; lia|done].
Qed.

Lemma next_agree sz c mb1 mb2 x :
  mbuf_wf mb1 -> mbuf_wf mb2 -> rest mb2 = rest mb1 ++ x -> 0 <= sz ->
  agree x (next_chunk sz c mb1) (next_chunk sz c mb2) mb1 mb2.
Proof.
  intros W1 W2 E Hs. unfold next_chunk.
  destruct (next_ext_prefix (ck_hdr c) mb1 mb2 x W1 W2 E) as [[[m ->] Hx]|(ch1 & k & Hk & -> & ->)].
  { left. do 2 eexists. split; [done|]. intros Ex. destruct (Hx Ex) as [m' ->]. cbn. eauto. }
  cbn [negb Z.eqb]. destruct (rest_prefix mb1 mb2 x k W1 W2 E Hk) as (W1' & W2' & E' & El).
  destruct (next_buf ch1 (ck_mb c)) as [[ch2 b]|]; [|right; do 4 eexists; split_and!; done].
  set (n := Z.min (mbuf_get_space b) sz). assert (Hn : 0 <= n) by (unfold n, mbuf_get_space; case_test; lia).
  rewrite !mbuf_get_left_rest by done. destruct (Z.ltb_spec (zlength (rest (adv mb1 k))) n).
  { left. do 2 eexists. split; [done|]. intros ->. rewrite E', app_nil_r, (proj2 (Z.ltb_lt _ _)) by done. eauto. }
  rewrite E', zlength_app. pose proof (zlength_nonneg x). rewrite (proj2 (Z.ltb_ge _ _)) by lia. right.
  destruct (read_mem_prefix (adv mb1 k) (adv mb2 k) x n W1' W2' E') as (d & -> & ->); [lia|]. cbn [negb Z.eqb].
  do 4 eexists. split; [reflexivity|]. split; [reflexivity|]. split; [done|]. intros _. exists (k + n). rewrite !adv_adv. split; [lia|done].
Qed.

(** ** The invariant of a dechunker *)

Definition rd_ok (rd : rtmp_dechunker) : Prop :=
  0 < rd_chunk_sz rd /\ Forall (fun c => 0 <= rh_length (ck_hdr c)) (rd_chunkl rd).

Abbreviation no_data := [ENODATA].

Lemma runs_u24 s : runs no_data s 0 mbuf_read_u24_ntoh (fun v => 0 <= v).
Proof.
  unfold mbuf_read_u24_ntoh. eapply runs_bind; [apply runs_8|]. intros a Ha. eapply runs_bind; [apply runs_8|]. intros b Hb.
  eapply runs_bind; [apply runs_8|]. intros c Hc. apply runs_ret. destruct Ha, Hb, Hc. rewrite !Z.lor_nonneg, !Z.shiftl_nonneg. lia.
Qed.

Lemma runs_raw32 s : runs no_data s 0 (dread mbuf_read_u32) (fun _ => True).
Proof.
  intros mb W Hl Hs. unfold dread, mbuf_read_u32. pose proof (read_uint_advances 4 mb W). destruct (mbuf_read_uint 4 mb) as [v mb']. by exists (Ok v), mb'.
Qed.

Lemma runs_need0 {A} (d : D A) s n m P : 0 <= m -> runs no_data s 0 d P -> runs no_data s n (do! _ := dneed m ENODATA in d) P.
Proof. intros Hm Hd. apply runs_need; [by apply list_elem_of_singleton|]. by eapply runs_impl. Qed.

Lemma header_runs s : runs no_data s 0 rtmp_header_decode (fun h => 0 <= rh_length h).
Proof.
  unfold rtmp_header_decode. eapply (runs_bind _ _ _ _ _ (fun _ => True)).
  { unfold decode_basic_hdr. apply runs_need0; [lia|]. eapply runs_bind; [apply runs_8|]. intros v _.
    repeat case_match; try (apply runs_need0; [lia|]; eapply runs_bind; [apply runs_8 || apply runs_16|]; intros x _); by apply runs_ret. }
  intros [format cs] _. eapply (runs_bind _ _ _ _ _ (fun h => 0 <= rh_length h)).
  { unfold decode_fields. repeat case_match; try (apply runs_need0; [lia|]).
    - eapply runs_bind; [apply runs_u24|]. intros t _. eapply runs_bind; [apply runs_u24|]. intros len Hlen.
      eapply runs_bind; [apply runs_8|]. intros ty _. eapply runs_bind; [apply runs_raw32|]. intros sid _. by apply runs_ret.
    - eapply runs_bind; [apply runs_u24|]. intros t _. eapply runs_bind; [apply runs_u24|]. intros len Hlen.
      eapply runs_bind; [apply runs_8|]. intros ty _. by apply runs_ret.
    - eapply runs_bind; [apply runs_u24|]. intros t _. by apply runs_ret.
    - by apply runs_ret. }
  intros h Hh. repeat case_match; try (apply runs_need0; [lia|]; eapply runs_bind; [apply runs_32|]; intros x _); by apply runs_ret.
Qed.

Lemma put_ok l id c : Forall (fun c => 0 <= rh_length (ck_hdr c)) l -> 0 <= rh_length (ck_hdr c) ->
  Forall (fun c => 0 <= rh_length (ck_hdr c)) (put_chunk id c l).
Proof. intros Hl Hc. induction Hl as [|a l Ha Hl IH]; cbn [put_chunk]; [constructor|]. by destruct (id =? _); constructor. Qed.

Lemma chunk_of_rd_ok hdr rd c rd' : rd_ok rd -> 0 <= rh_length hdr -> chunk_of hdr rd = Ok (c, rd') -> rd_ok rd' /\ 0 <= rh_length (ck_hdr c).
Proof.
  intros [Hs Hl] Hh. unfold chunk_of, create_chunk. destruct (find_chunk (rd_chunkl rd) (rh_chunk_id hdr)) as [c'|] eqn:Ef.
  - intros [= <- <-]. split; [done|]. apply find_some in Ef as [Hin _]. rewrite List.Forall_forall in Hl. by apply Hl.
  - destruct (rh_format hdr =? 0), (zlength (rd_chunkl rd) >? MAX_CHUNKS), (mem_alloc RTMP_CHUNK_STRUCT); try done. intros [= <- <-].
    split; [|done]. split; [done|]. apply Forall_app. split; [done|]. by repeat constructor.
Qed.

Lemma merge_length hdr old : 0 <= rh_length hdr -> 0 <= rh_length old -> 0 <= rh_length (merge_hdr hdr old).
Proof. intros. unfold merge_hdr. by repeat case_match. Qed.

Lemma first_length_ok sz hdr c mb e c' mb' :
  0 <= rh_length hdr -> 0 <= rh_length (ck_hdr c) -> first_chunk sz hdr c mb = (e, c', mb') -> 0 <= rh_length (ck_hdr c').
Proof.
  intros Hh Hc. pose proof (merge_length hdr (ck_hdr c) Hh Hc). unfold first_chunk. destruct (_ <? _); [by intros [= _ <- _]|].
  destruct (mbuf_alloc _); [|by intros [= _ <- _]]. destruct (mbuf_read_mem mb _) as [[err d] m0]. destruct (negb (err =? 0)); [by intros [= _ <- _]|].
  intros [= _ <- _]. cbn [ck_hdr]. by destruct (_ || _).
Qed.

Lemma next_length_ok sz c mb e c' mb' : 0 <= rh_length (ck_hdr c) -> next_chunk sz c mb = (e, c', mb') -> 0 <= rh_length (ck_hdr c').
Proof.
  intros Hc. unfold next_chunk. destruct (next_ext (ck_hdr c) mb) as [[err ch] m] eqn:Ee.
  assert (Hch : 0 <= rh_length ch). { revert Ee. unfold next_ext. repeat case_match; intros [= _ <- _]; done. }
  destruct (negb (err =? 0)); [by intros [= _ <- _]|]. destruct (next_buf ch (ck_mb c)) as [[ch2 b]|] eqn:Eb; [|by intros [= _ <- _]].
  assert (Hch2 : 0 <= rh_length ch2). { revert Eb. unfold next_buf. repeat case_match; intros [= <- _]; done. }
  destruct (_ <? _); [by intros [= _ <- _]|]. destruct (mbuf_read_mem m _) as [[err' d] m']. by destruct (negb (err' =? 0)); intros [= _ <- _].
Qed.

Lemma dechunk_rd_ok rd mb e rd' mb' m : rd_ok rd -> mbuf_wf mb -> dechunk_step rd mb = Some (e, rd', mb', m) -> rd_ok rd'.
Proof.
  intros Hrd W. unfold dechunk_step. pose proof W as []. destruct (header_runs 0 mb W) as (r & m1 & -> & _ & Hr).
  { rewrite mbuf_get_left_rest by done. apply zlength_nonneg. }
  { lia. }
  destruct r as [hdr|x]; [|by intros [= _ <- _ _]]. destruct (chunk_of hdr rd) as [[c rd1]|x] eqn:Ec; [|by intros [= _ <- _ _]].
  destruct (chunk_of_rd_ok _ _ _ _ Hrd Hr Ec) as [[Hs Hl] Hc].
  match goal with |- context [if ?b then first_chunk ?a ?h ?k ?n else ?e] => destruct (if b then first_chunk a h k n else e) as [[err c'] m2] eqn:E1 end.
  assert (Hc' : 0 <= rh_length (ck_hdr c')).
  { revert E1. repeat case_match; [by apply first_length_ok..|by apply next_length_ok|by intros [= _ <- _]]. }
  assert (Hput : forall c, 0 <= rh_length (ck_hdr c) -> rd_ok (set_chunkl (put_chunk (rh_chunk_id hdr) c (rd_chunkl rd1)) rd1)).
  { intros c'' Hc''. split; [done|]. by apply put_ok. }
  destruct (negb (err =? 0)); [intros [= _ <- _ _]; by apply Hput|].
  destruct (take_message c') as [c2 msg] eqn:Et. intros [= _ <- _ _]. apply Hput.
  revert Et. unfold take_message. repeat case_match; intros [= <- _]; done.
Qed.

(** The header at the position of [mb], if it is complete, does not restart a
    message with an extended absolute timestamp. *)
Definition plain_restart (rd : rtmp_dechunker) (mb : mbuf) : Prop :=
  forall hdr mb' c, rtmp_header_decode mb = Some (Ok hdr, mb') -> rh_format hdr = 3 ->
    find_chunk (rd_chunkl rd) (rh_chunk_id hdr) = Some c -> ~ ext_restart c.

(** A step asks for more bytes or decides. *)
Lemma dechunk_decides rd mb1 mb2 x :
  rd_ok rd -> mbuf_wf mb1 -> mbuf_wf mb2 -> rest mb2 = rest mb1 ++ x ->
  (exists rd' m, dechunk_step rd mb1 = Some (ENODATA, rd', m, None)
     /\ (x = [] -> exists m', dechunk_step rd mb2 = Some (ENODATA, rd', m', None))) \/
  (exists e rd' m1 m2 out, dechunk_step rd mb1 = Some (e, rd', m1, out) /\ dechunk_step rd mb2 = Some (e, rd', m2, out) /\ e <> ENODATA
     /\ (e = 0 -> exists k, 0 < k <= zlength (rest mb1) /\ m1 = adv mb1 k /\ m2 = adv mb2 k) /\ (e <> 0 -> out = None)).
Proof.
  intros Hrd W1 W2 E. unfold dechunk_step. pose proof W1 as [].
  destruct (header_runs 0 mb1 W1) as (r & m0 & Er & _ & Hr).
  { rewrite mbuf_get_left_rest by done. apply zlength_nonneg. }
  { lia. }
  destruct (header_decides mb1 mb2 x W1 W2 E) as [[mb' Eb]|(hdr & k & Hk0 & Hk & E1 & ->)]; [apply zlength_nonneg| |].
  { rewrite Eb. left. do 2 eexists. split; [done|]. intros ->. rewrite app_nil_r in E.
    destruct (header_decides mb2 mb1 [] W2 W1) as [[m' ->]|(h & k & _ & _ & _ & Ex)]; [by rewrite app_nil_r|apply zlength_nonneg|eauto|congruence]. }
  rewrite E1 in Er |- *. injection Er as <- <-. destruct (rest_prefix mb1 mb2 x k W1 W2 E Hk) as (W1' & W2' & E' & El).
  destruct (chunk_of hdr rd) as [[c rd1]|e] eqn:Ec.
  2: { right. do 5 eexists. split; [reflexivity|]. split; [reflexivity|]. revert Ec. unfold chunk_of. repeat case_match; intros [= <-]; done. }
  destruct (chunk_of_rd_ok _ _ _ _ Hrd Hr Ec) as [[Hs _] Hc].
  match goal with |- context [if ?b then first_chunk ?a ?h ?o (adv mb1 k) else ?e] => set (r1 := if b then first_chunk a h o (adv mb1 k) else e) end.
  match goal with |- context [if ?b then first_chunk ?a ?h ?o (adv mb2 k) else ?e] => set (r2 := if b then first_chunk a h o (adv mb2 k) else e) end.
  assert (Ha : agree x r1 r2 (adv mb1 k) (adv mb2 k)).
  { subst r1 r2. destruct (_ || _); [apply (first_agree _ _ _ _ _ x); [done|done|done|lia|by apply merge_length]|].
    destruct (_ =? 3); [apply (next_agree _ _ _ _ x); [done|done|done|lia]|]. right. do 4 eexists. split; [done|]. split; [done|]. done. }
  clearbody r1 r2. destruct Ha as [(a & m & -> & Hx)|(e & a & m1 & m2 & -> & -> & Hne & Hk2)].
  { left. do 2 eexists. split; [done|]. intros Ex. destruct (Hx Ex) as [m' ->]. cbn. eauto. }
  right. destruct (Z.eqb_spec e 0) as [->|He]; cbn [negb].
  - destruct (take_message a) as [c2 msg]. do 5 eexists. split; [reflexivity|]. split; [reflexivity|]. split; [done|]. split; [|done].
    intros _. destruct (Hk2 eq_refl) as (k2 & Hk2' & -> & ->). exists (k + k2). rewrite !adv_adv. split; [lia|done].
  - do 5 eexists. split; [reflexivity|]. split; [reflexivity|]. split; [done|]. split; [done|done].
Qed.

(** Storing a chunk after an attempt that stored another. *)
Lemma step_again hdr rd rd1 c c' :
  chunk_of hdr rd = Ok (c, rd1) -> rh_chunk_id (ck_hdr c') = rh_chunk_id hdr ->
  let rd' := set_chunkl (put_chunk (rh_chunk_id hdr) c' (rd_chunkl rd1)) rd1 in
  chunk_of hdr rd' = Ok (c', rd') /\
  forall d, set_chunkl (put_chunk (rh_chunk_id hdr) d (rd_chunkl rd')) rd' = set_chunkl (put_chunk (rh_chunk_id hdr) d (rd_chunkl rd1)) rd1.
Proof.
  intros E Hc rd'. apply chunk_of_found in E as [E _]. split.
  - unfold chunk_of. subst rd'. cbn [set_chunkl rd_chunkl]. by rewrite (chunk_put _ _ c).
  - intros d. subst rd'. unfold set_chunkl. cbn [rd_chunkl rd_chunk_sz]. by rewrite put_put.
Qed.

Lemma dechunk_resumes rd rd' mb1 mb1' mb2 x m :
  mbuf_wf mb1 -> mbuf_wf mb2 -> rest mb2 = rest mb1 ++ x -> plain_restart rd mb2 ->
  dechunk_step rd mb1 = Some (ENODATA, rd', mb1', m) ->
  m = None /\ dechunk_step rd' mb2 = dechunk_step rd mb2 /\ plain_restart rd' mb2.
Proof.
  intros W1 W2 E Hr. unfold dechunk_step at 1.
  destruct (header_decides mb1 mb2 x W1 W2 E) as [[mb' ->]|(hdr & k & _ & Hk & -> & E2)]; [apply zlength_nonneg|by intros [= <- _ <-]|].
  destruct (rest_prefix mb1 mb2 x k W1 W2 E Hk) as (W1' & W2' & E' & _).
  destruct (chunk_of hdr rd) as [[c rd1]|e] eqn:Ec.
  2: { intros [= -> <- _ <-]. split; [done|]. done. }
  pose proof (chunk_of_found _ _ _ _ Ec) as [Ef Hsz]. pose proof (find_chunk_id _ _ _ Ef) as Hid.
  unfold dechunk_step. rewrite E2, Ec.
  set (f := (_ || _)%bool). destruct f eqn:Ff; [|destruct (rh_format hdr =? 3) eqn:F3; [|done]].
  - destruct (first_chunk _ hdr c (adv mb1 k)) as [[err c'] mb'] eqn:E1.
    destruct (err =? 0) eqn:Ez; [apply Z.eqb_eq in Ez; subst err; cbn [negb]; by case_match|].
    cbn [negb]. intros [= -> <- _ <-]. split; [done|].
    split; [|intros h m c0; rewrite E2; intros [= <- _] F3; subst f; by rewrite F3 in Ff].
    destruct (first_short _ _ _ _ _ _ E1) as [Hc' Hs].
    destruct (step_again hdr rd rd1 c c' Ec) as [-> Hst]; [subst c'; by apply merge_id|].
    cbn [set_chunkl rd_chunk_sz]. rewrite Hs. destruct (first_chunk _ hdr c (adv mb2 k)) as [[e2 c2] m2].
    case_match; [by rewrite Hst|]. case_match. by rewrite Hst.
  - destruct (next_chunk _ c (adv mb1 k)) as [[err c'] mb'] eqn:E1.
    destruct (err =? 0) eqn:Ez; [apply Z.eqb_eq in Ez; subst err; cbn [negb]; by case_match|].
    cbn [negb]. intros [= -> <- _ <-]. split; [done|].
    assert (Hn : ~ ext_restart c).
    { apply Z.eqb_eq in F3. revert Ec. unfold chunk_of. destruct (find_chunk (rd_chunkl rd) _) eqn:Eq.
      - intros [= -> _]. by eapply Hr.
      - rewrite F3. done. }
    destruct (next_short _ _ _ _ _ _ _ W1' W2' E' Hn E1) as (Hc' & Hs & Hn').
    split; [|intros h m c0; rewrite E2; intros [= <- _] _; cbn [set_chunkl rd_chunkl]; rewrite (chunk_put _ _ c) by congruence; by intros [= <-]].
    destruct (step_again hdr rd rd1 c c' Ec) as [-> Hst]; [congruence|].
    cbn [set_chunkl rd_chunk_sz]. rewrite Hs. destruct (next_chunk _ c (adv mb2 k)) as [[e2 c2] m2].
    case_match; [by rewrite Hst|]. case_match. by rewrite Hst.
Qed.
End Dechunk.

(** ** Chunks on the wire *)

(** A message to send: the timestamp counts for format 0, the difference to the
    preceding message of the chunk stream for formats 1 and 2. *)
Record rtmp_msg := RtmpMsg {
  m_format : Z;
  m_chunk_id : Z;
  m_timestamp : Z;
  m_delta : Z;
  m_type : Z;
  m_stream : Z;
  m_payload : list Z;
}.

Definition m_time (m : rtmp_msg) : Z := if m_format m =? 0 then m_timestamp m else m_delta m.
Definition m_len (m : rtmp_msg) : Z := zlength (m_payload m).

Record msg_ok (m : rtmp_msg) : Prop := {
  ok_format : 0 <= m_format m <= 2;
  ok_chunk_id : 2 <= m_chunk_id m <= 65599;
  ok_timestamp : is_u32 (m_timestamp m);
  ok_delta : is_u32 (m_delta m);
  ok_type : is_byte (m_type m);
  ok_stream : is_u32 (m_stream m);
  ok_len : 0 < m_len m < 2 ^ 24;
  ok_bytes : bytes (m_payload m);
}.

Definition basic_bytes (fmt cs : Z) : list Z :=
  if 320 <=? cs then (fmt * 64 + 1) :: be_bytes 2 (cs - 64)
  else if 64 <=? cs then [fmt * 64; cs - 64]
  else [fmt * 64 + cs].

Definition field_bytes (fmt t len ty sid : Z) : list Z :=
  let t24 := be_bytes 3 (Z.min t TIMESTAMP_24MAX) in
  if fmt =? 0 then t24 ++ be_bytes 3 len ++ [ty] ++ le_bytes 4 sid
  else if fmt =? 1 then t24 ++ be_bytes 3 len ++ [ty]
  else t24.

Definition ext_bytes (t : Z) : list Z := if TIMESTAMP_24MAX <=? t then be_bytes 4 t else [].

Definition first_bytes (m : rtmp_msg) : list Z :=
  basic_bytes (m_format m) (m_chunk_id m) ++ field_bytes (m_format m) (m_time m) (m_len m) (m_type m) (m_stream m)
    ++ ext_bytes (m_time m).
Definition next_bytes (m : rtmp_msg) : list Z := basic_bytes 3 (m_chunk_id m) ++ ext_bytes (m_time m).

(** The chunks after the first. *)
Fixpoint next_chunks (fuel : nat) (sz : Z) (m : rtmp_msg) (payload : list Z) : list Z :=
  match fuel with
  | O => []
  | S fuel => if zlength payload =? 0 then []
              else next_bytes m ++ ztake sz payload ++ next_chunks fuel sz m (zdrop sz payload)
  end.

Definition rtmp_bytes (sz : Z) (m : rtmp_msg) : list Z :=
  first_bytes m ++ ztake sz (m_payload m) ++ next_chunks (Z.to_nat (m_len m)) sz m (zdrop sz (m_payload m)).

Section Wire.
Context `{H : Host}.

Lemma be3 v : be_bytes 3 v = [Z.shiftr v 16 mod 256; Z.shiftr v 8 mod 256; v mod 256].
Proof.
  unfold be_bytes. cbn [le_bytes rev app]. rewrite !Z.shiftr_div_pow2 by lia. rewrite Z.div_div by lia. done.
Qed.

Lemma writes_u24 v : writes (mbuf_write_u24_hton v) (be_bytes 3 v).
Proof.
  unfold mbuf_write_u24_hton. rewrite be3. change [?a; ?b; ?c] with ([a] ++ [b] ++ [c]).
  apply writes_seq_or; [apply writes_u8|]. apply writes_seq_or; apply writes_u8.
Qed.

Lemma reads_u24 v : 0 <= v < 2 ^ 24 -> reads mbuf_read_u24_ntoh (raw (be_bytes 3 v)) (fun a => a = v).
Proof.
  intros Hv. unfold mbuf_read_u24_ntoh. rewrite be3. change [?a; ?b; ?c] with ([a] ++ [b] ++ [c]).
  eapply reads_app; [apply reads_8|]. intros a ->. eapply reads_app; [apply reads_8|]. intros b ->.
  eapply reads_last; [apply reads_8|]. intros c ->. eexists. split; [done|].
  rewrite !Z.shiftr_div_pow2, !Z.shiftl_mul_pow2 by lia. rewrite (lor_disjoint 16 (_ * 2 ^ 16)); [|lia| |].
  2: { rewrite Z.mod_mul; lia. }
  2: { pose proof (Z.mod_pos_bound (v / 2 ^ 8) 256). lia. }
  rewrite (lor_disjoint 8); [|lia| |].
  2: { Z.to_euclidean_division_equations; lia. }
  2: { pose proof (Z.mod_pos_bound v 256). lia. }
  Z.to_euclidean_division_equations; lia.
Qed.

Lemma writes_le32 v : writes (mbuf_write_u32 (sys_htoll v)) (le_bytes 4 v).
Proof.
  unfold mbuf_write_u32. rewrite sys_htoll_val. apply (writes_host 4); [apply host_bytes_le_val|done].
Qed.

Lemma basic_writes fmt cs : 0 <= fmt < 4 -> 2 <= cs <= 65599 -> writes (encode_basic_hdr fmt cs) (basic_bytes fmt cs).
Proof.
  intros Hf Hc. unfold encode_basic_hdr, basic_bytes, RTMP_CHUNK_OFFSET. rewrite !Z.geb_leb.
  assert (Hl : forall y, 0 <= y < 64 -> Z.lor (Z.shiftl fmt 6) y = fmt * 64 + y).
  { intros y Hy. rewrite Z.shiftl_mul_pow2 by lia. apply (lor_disjoint 6); [lia| |lia]. by rewrite Z.mod_mul by lia. }
  destruct (Z.leb_spec 320 cs); [|destruct (Z.leb_spec 64 cs)].
  - rewrite Hl by lia. change (?a :: ?l) with ([a] ++ l). apply writes_seq_or.
    + rewrite <- (Z.mod_small (fmt * 64 + 1) 256) at 2 by lia. apply writes_u8.
    + rewrite wrap_small by lia. apply writes_be16.
  - rewrite Hl by lia. change [?a; ?b] with ([a] ++ [b]). rewrite Z.add_0_r, wrap_small by lia. apply writes_seq_or.
    + rewrite <- (Z.mod_small (fmt * 64) 256) at 2 by lia. apply writes_u8.
    + rewrite <- (Z.mod_small (cs - 64) 256) at 2 by lia. apply writes_u8.
  - rewrite Hl by lia. rewrite <- (Z.mod_small (fmt * 64 + cs) 256) at 2 by lia. apply writes_u8.
Qed.

Definition send_hdr (m : rtmp_msg) : rtmp_header :=
  RtmpHeader (m_format m) (m_chunk_id m) (m_timestamp m) (m_delta m) 0 (m_len m) (m_type m) (m_stream m) false.
Definition sent_hdr (m : rtmp_msg) : rtmp_header := set_timestamp_ext (ts_ext (m_time m)) (send_hdr m).

Lemma ts_24_min t : ts_24 t = Z.min t TIMESTAMP_24MAX.
Proof. unfold ts_24. case_test; lia. Qed.

Lemma fields_write m : msg_ok m ->
  exists f, encode_fields (send_hdr m) = (sent_hdr m, f)
    /\ writes f (field_bytes (m_format m) (m_time m) (m_len m) (m_type m) (m_stream m)).
Proof.
  intros M. unfold encode_fields, sent_hdr, field_bytes, m_time. cbn [send_hdr rh_format rh_timestamp rh_timestamp_delta rh_length rh_type_id rh_stream_id].
  pose proof (writes_u8 (m_type m)) as Ht. rewrite Z.mod_small in Ht by apply M. rewrite !ts_24_min.
  destruct (m_format m =? 0) eqn:F0; [|destruct (m_format m =? 1) eqn:F1; [|destruct (m_format m =? 2) eqn:F2]].
  - eexists. split; [done|]. repeat (apply writes_seq_or; [done || apply writes_u24|]). apply writes_le32.
  - eexists. split; [done|]. repeat (apply writes_seq_or; [done || apply writes_u24|]). done.
  - eexists. split; [done|]. apply writes_u24.
  - exfalso. pose proof (ok_format m M). lia.
Qed.

Lemma ext_write t : writes (if ts_ext t =? 0 then ret_ok else write_be32 (ts_ext t)) (ext_bytes t).
Proof.
  unfold ts_ext, ext_bytes. rewrite Z.geb_leb. destruct (Z.leb_spec TIMESTAMP_24MAX t) as [Ht|Ht]; [|apply writes_ret].
  rewrite (proj2 (Z.eqb_neq t 0)) by (unfold TIMESTAMP_24MAX in Ht; lia). apply writes_be32.
Qed.

Context (Ham : ample_memory).

(** A header encoded at the end of a buffer. *)
Lemma header_encodes hdr hdr' f d e mb c :
  writes (encode_basic_hdr (rh_format hdr) (rh_chunk_id hdr)) d -> encode_fields hdr = (hdr', f) ->
  writes (f ;| (if rh_timestamp_ext hdr' =? 0 then ret_ok else write_be32 (rh_timestamp_ext hdr'))) e ->
  holds mb c (zlength c) -> zlength c + zlength (d ++ e) < 2 ^ 31 ->
  exists mb', rtmp_header_encode hdr mb = (0, hdr', mb') /\ holds mb' (c ++ d ++ e) (zlength (c ++ d ++ e)).
Proof.
  intros Hd Ef He Hh Hl. rewrite zlength_app in Hl. pose proof (zlength_nonneg e). unfold rtmp_header_encode.
  destruct (holds_writes _ _ mb c Ham Hd Hh) as (mb1 & -> & Hh1); [lia|]. cbn [negb Z.eqb]. rewrite Ef.
  destruct (holds_writes _ _ mb1 _ Ham He Hh1) as (mb2 & -> & Hh2); [rewrite zlength_app; lia|].
  exists mb2. split; [done|]. by rewrite <- app_assoc in Hh2.
Qed.

Lemma first_encodes m mb c :
  msg_ok m -> holds mb c (zlength c) -> zlength c + zlength (first_bytes m) < 2 ^ 31 ->
  exists mb', rtmp_header_encode (send_hdr m) mb = (0, sent_hdr m, mb') /\ holds mb' (c ++ first_bytes m) (zlength (c ++ first_bytes m)).
Proof.
  intros M Hh Hl. destruct (fields_write m M) as (f & Ef & Hf).
  eapply header_encodes; [|exact Ef| |exact Hh|exact Hl].
  - apply basic_writes; [pose proof (ok_format m M); cbn; lia|apply M].
  - apply writes_seq_or; [exact Hf|apply ext_write].
Qed.

Lemma next_encodes m mb c :
  msg_ok m -> holds mb c (zlength c) -> zlength c + zlength (next_bytes m) < 2 ^ 31 ->
  exists mb', rtmp_header_encode (set_format 3 (sent_hdr m)) mb = (0, set_format 3 (sent_hdr m), mb')
    /\ holds mb' (c ++ next_bytes m) (zlength (c ++ next_bytes m)).
Proof.
  intros M Hh Hl. eapply header_encodes; [|done| |exact Hh|exact Hl].
  - apply basic_writes; [done|apply M].
  - apply (writes_seq_or ret_ok _ []); [apply writes_ret|apply ext_write].
Qed.

Lemma ztake_min {A} (l : list A) n : ztake (Z.min (zlength l) n) l = ztake n l.
Proof. destruct (Z.min_spec (zlength l) n) as [[? ->]|[? ->]]; [|done]. by rewrite !ztake_ge by lia. Qed.
Lemma zdrop_min {A} (l : list A) n : zdrop (Z.min (zlength l) n) l = zdrop n l.
Proof. destruct (Z.min_spec (zlength l) n) as [[? ->]|[? ->]]; [|done]. by rewrite !zdrop_ge by lia. Qed.

Lemma zlength_ztake_min {A} (l : list A) n : 0 <= n -> zlength (ztake n l) = Z.min (zlength l) n.
Proof. intros Hn. rewrite <- ztake_min. pose proof (zlength_nonneg l). rewrite zlength_ztake; lia. Qed.
Lemma zlength_zdrop_min {A} (l : list A) n : 0 <= n -> zlength (zdrop n l) = zlength l - Z.min (zlength l) n.
Proof. intros Hn. rewrite <- zdrop_min. pose proof (zlength_nonneg l). rewrite zlength_zdrop; lia. Qed.

Lemma basic_length fmt cs : 1 <= zlength (basic_bytes fmt cs) <= 3.
Proof. unfold basic_bytes. destruct (320 <=? cs), (64 <=? cs); rewrite ?zlength_cons, ?zlength_be_bytes; change (zlength (@nil Z)) with 0; lia. Qed.

Lemma ext_length t : 0 <= zlength (ext_bytes t) <= 4.
Proof. unfold ext_bytes. destruct (_ <=? _); [rewrite zlength_be_bytes|change (zlength (@nil Z)) with 0]; lia. Qed.

Lemma first_length m : 1 <= zlength (first_bytes m) <= 18.
Proof.
  unfold first_bytes. rewrite !zlength_app. pose proof (basic_length (m_format m) (m_chunk_id m)). pose proof (ext_length (m_time m)).
  unfold field_bytes. repeat case_match; rewrite ?zlength_app, ?zlength_be_bytes, ?zlength_cons, ?zlength_nil;
    change (zlength (le_bytes 4 (m_stream m))) with 4; lia.
Qed.

Lemma next_length m : 1 <= zlength (next_bytes m) <= 7.
Proof. unfold next_bytes. rewrite zlength_app. pose proof (basic_length 3 (m_chunk_id m)). pose proof (ext_length (m_time m)). lia. Qed.

Lemma next_chunks_length fuel sz m payload : 0 < sz -> 0 <= zlength (next_chunks fuel sz m payload) <= 8 * zlength payload.
Proof.
  intros Hs. revert payload. induction fuel as [|fuel IH]; intros payload; cbn [next_chunks]; [change (zlength (@nil Z)) with 0; pose proof (zlength_nonneg payload); lia|].
  destruct (Z.eqb_spec (zlength payload) 0); [change (zlength (@nil Z)) with 0; lia|].
  rewrite !zlength_app. pose proof (next_length m). specialize (IH (zdrop sz payload)). pose proof (zlength_nonneg payload).
  rewrite zlength_zdrop_min in IH by lia. rewrite zlength_ztake_min by lia. lia.
Qed.

Lemma loop_writes m sz : msg_ok m -> 0 < sz -> forall fuel payload mb c,
  zlength payload <= Z.of_nat fuel -> bytes payload -> holds mb c (zlength c) -> zlength c + 8 * zlength payload < 2 ^ 31 ->
  exists mb', chunk_loop fuel sz (set_format 3 (sent_hdr m)) payload mb = Some (0, mb')
    /\ holds mb' (c ++ next_chunks fuel sz m payload) (zlength (c ++ next_chunks fuel sz m payload)).
Proof.
  intros M Hs. induction fuel as [|fuel IH]; intros payload mb c Hf Hb Hh Hl; cbn [chunk_loop next_chunks].
  { pose proof (zlength_nonneg payload). rewrite (proj2 (Z.eqb_eq (zlength payload) 0)) by lia. exists mb. rewrite app_nil_r. done. }
  destruct (Z.eqb_spec (zlength payload) 0) as [E|E]; [exists mb; rewrite app_nil_r; done|].
  pose proof (zlength_nonneg payload). pose proof (next_length m).
  destruct (next_encodes m mb c M Hh) as (mb1 & -> & Hh1); [lia|]. rewrite ztake_min, zdrop_min.
  pose proof (zlength_ztake_min payload sz ltac:(lia)) as Ht. pose proof (zlength_zdrop_min payload sz ltac:(lia)) as Hd.
  destruct (holds_append mb1 _ (ztake sz payload) Hh1) as (mb2 & -> & Hh2); [auto with relib|done|rewrite zlength_app; lia|].
  cbn [Z.lor negb Z.eqb]. destruct (IH (zdrop sz payload) mb2 ((c ++ next_bytes m) ++ ztake sz payload)) as (mb3 & -> & Hh3); [lia|auto with relib|exact Hh2|rewrite !zlength_app; lia|].
  exists mb3. split; [done|]. by rewrite <- !app_assoc in Hh3.
Qed.

Lemma chunker_bytes m sz : msg_ok m -> 0 < sz ->
  rtmp_chunker (m_format m) (m_chunk_id m) (m_timestamp m) (m_delta m) (m_type m) (m_stream m) (m_payload m) sz
  = Some (Ok (rtmp_bytes sz m)).
Proof.
  intros M Hs. unfold rtmp_chunker. pose proof (ok_len m M) as Hl. pose proof (ok_format m M). pose proof (ok_bytes m M) as Hb.
  unfold m_len in Hl. rewrite !(proj2 (Z.eqb_neq _ 0)) by lia. cbn [orb].
  destruct (mbuf_alloc_new (zlength (m_payload m) + 256) Ham) as (mb & -> & Hh & _); [unfold MEM_SIZE_MAX; lia|].
  rewrite (Z.mod_small (m_format m)), wrap_small by lia. fold (send_hdr m). pose proof (first_length m).
  destruct (first_encodes m mb [] M Hh) as (mb1 & E1 & Hh1); [change (zlength (@nil Z)) with 0; lia|].
  unfold send_hdr, m_len in E1. rewrite E1. rewrite ztake_min, zdrop_min.
  pose proof (zlength_ztake_min (m_payload m) sz ltac:(lia)) as Ht. pose proof (zlength_zdrop_min (m_payload m) sz ltac:(lia)) as Hd.
  destruct (holds_append mb1 _ (ztake sz (m_payload m)) Hh1) as (mb2 & -> & Hh2); [auto with relib|done|cbn [app]; lia|].
  cbn [Z.lor negb Z.eqb app] in *.
  destruct (loop_writes m sz M Hs (Z.to_nat (zlength (m_payload m))) (zdrop sz (m_payload m)) mb2 (first_bytes m ++ ztake sz (m_payload m))) as (mb3 & -> & Hh3);
    [lia|auto with relib|exact Hh2|rewrite !zlength_app; lia|].
  cbn [negb Z.eqb]. do 2 f_equal. rewrite (holds_rest _ _ 0 (holds_set_pos _ _ _ 0 Hh3 ltac:(split; [lia|apply zlength_nonneg]))).
  unfold rtmp_bytes, m_len. by rewrite zdrop_0, <- !app_assoc.
Qed.
End Wire.

(** ** What the dechunker reads *)

(** The header of the first chunk of a message, and of the others. *)
Definition recv_hdr (m : rtmp_msg) : rtmp_header :=
  let ext := TIMESTAMP_24MAX <=? m_time m in
  if m_format m =? 0 then RtmpHeader 0 (m_chunk_id m) (m_timestamp m) 0 0 (m_len m) (m_type m) (m_stream m) ext
  else if m_format m =? 1 then RtmpHeader 1 (m_chunk_id m) 0 (m_delta m) 0 (m_len m) (m_type m) 0 ext
  else RtmpHeader 2 (m_chunk_id m) 0 (m_delta m) 0 0 0 0 ext.

Section Read.
Context `{H : Host}.

Lemma ltohl_le v : is_u32 v -> sys_ltohl (host_val (le_bytes 4 v)) = v.
Proof.
  intros Hv. rewrite sys_ltohl_val. unfold host_val, be_val. destruct host_endian.
  - rewrite !le_val_le_bytes. rewrite Zmod_mod. apply Z.mod_small, Hv.
  - rewrite le_bytes_val_n by (auto with relib || (rewrite length_rev; apply le_bytes_length)).
    rewrite rev_involutive, le_val_le_bytes. apply Z.mod_small, Hv.
Qed.

Lemma reads_le32 v : is_u32 v -> reads (dread mbuf_read_u32) (raw (le_bytes 4 v)) (fun a => sys_ltohl a = v).
Proof.
  intros Hv mb c p0 p q Hh Hp [Hs ->]. destruct (rest_seg mb c p0 p _ Hh Hp Hs) as (Hb & W & r & Er).
  change (zlength (le_bytes 4 v)) with 4 in *. split; [lia|]. exists (host_val (le_bytes 4 v)). split; [|by apply ltohl_le].
  unfold dread, mbuf_read_u32. by rewrite (mbuf_read_uint_app 4 _ (le_bytes 4 v) r W Er) by apply le_bytes_length.
Qed.

Lemma basic_reads fmt cs : 0 <= fmt < 4 -> 2 <= cs <= 65599 -> reads decode_basic_hdr (raw (basic_bytes fmt cs)) (fun v => v = (fmt, cs)).
Proof.
  intros Hf Hc. unfold decode_basic_hdr, basic_bytes, RTMP_CHUNK_OFFSET.
  assert (Hl : forall y, 0 <= y < 64 -> Z.shiftr (fmt * 64 + y) 6 = fmt /\ Z.land (fmt * 64 + y) 0x3f = y).
  { intros y Hy. rewrite Z.shiftr_div_pow2, (Z.land_ones _ 6) by lia. split; Z.to_euclidean_division_equations; lia. }
  apply reads_need_raw; [pose proof (basic_length fmt cs); unfold basic_bytes in *; lia|].
  destruct (Z.leb_spec 320 cs); [|destruct (Z.leb_spec 64 cs)].
  - change (?a :: be_bytes 2 ?l) with ([a] ++ be_bytes 2 l). eapply reads_app; [apply reads_8|]. intros v ->.
    destruct (Hl 1 ltac:(lia)) as [-> ->]. cbn [Z.eqb]. apply reads_need_raw; [by rewrite zlength_be_bytes|].
    eapply reads_last; [apply reads_16; split; lia|]. intros v ->. eexists. split; [done|]. f_equal. lia.
  - change [?a; ?b] with ([a] ++ [b]). eapply reads_app; [apply reads_8|]. intros v ->.
    destruct (Hl 0 ltac:(lia)) as [E1 E2]. rewrite Z.add_0_r in E1, E2. rewrite E1, E2. cbn [Z.eqb].
    apply reads_need_raw; [done|]. eapply reads_last; [apply reads_8|]. intros v ->. eexists. split; [done|]. f_equal. lia.
  - eapply reads_last; [apply reads_8|]. intros v ->. destruct (Hl cs ltac:(lia)) as [-> ->].
    rewrite (proj2 (Z.eqb_neq cs 0)), (proj2 (Z.eqb_neq cs 1)) by lia. by eexists.
Qed.

(** The switch and the extended timestamp. *)
Lemma min_max_test t : 0 <= t -> (Z.min t TIMESTAMP_24MAX =? TIMESTAMP_24MAX) = (TIMESTAMP_24MAX <=? t).
Proof. intros Ht. unfold TIMESTAMP_24MAX. destruct (Z.leb_spec 0xffffff t); [apply Z.eqb_eq|apply Z.eqb_neq]; lia. Qed.

Definition plain_hdr (m : rtmp_msg) : rtmp_header :=
  let t := Z.min (m_time m) TIMESTAMP_24MAX in
  if m_format m =? 0 then RtmpHeader 0 (m_chunk_id m) t 0 0 (m_len m) (m_type m) (m_stream m) false
  else if m_format m =? 1 then RtmpHeader 1 (m_chunk_id m) 0 t 0 (m_len m) (m_type m) 0 false
  else RtmpHeader 2 (m_chunk_id m) 0 t 0 0 0 0 false.

Lemma m_time_u32 m : msg_ok m -> is_u32 (m_time m).
Proof. intros M. unfold m_time. case_match; apply M. Qed.

Lemma fields_read m : msg_ok m ->
  reads (decode_fields (m_format m) (m_chunk_id m)) (raw (field_bytes (m_format m) (m_time m) (m_len m) (m_type m) (m_stream m)))
    (fun h => h = plain_hdr m).
Proof.
  intros M. pose proof (m_time_u32 m M) as [Ht _]. pose proof (ok_format m M). pose proof (ok_len m M).
  assert (Ht24 : 0 <= Z.min (m_time m) TIMESTAMP_24MAX < 2 ^ 24) by (unfold TIMESTAMP_24MAX; lia).
  unfold decode_fields, field_bytes, plain_hdr.
  destruct (Z.eqb_spec (m_format m) 0) as [F0|F0]; [|destruct (Z.eqb_spec (m_format m) 1) as [F1|F1]; [|destruct (Z.eqb_spec (m_format m) 2) as [F2|F2]; [|lia]]].
  - apply reads_need_raw; [by rewrite !zlength_app, !zlength_be_bytes|].
    eapply reads_app; [by apply reads_u24|]. intros v ->. eapply reads_app; [apply reads_u24; lia|]. intros v ->.
    eapply reads_app; [apply reads_8|]. intros v ->. eapply reads_last; [apply reads_le32; apply M|]. intros v ->. rewrite F0. by eexists.
  - apply reads_need_raw; [by rewrite !zlength_app, !zlength_be_bytes|].
    eapply reads_app; [by apply reads_u24|]. intros v ->. eapply reads_app; [apply reads_u24; lia|]. intros v ->.
    eapply reads_last; [apply reads_8|]. intros v ->. rewrite F1. by eexists.
  - apply reads_need_raw; [by rewrite !zlength_be_bytes|].
    eapply reads_last; [by apply reads_u24|]. intros v ->. rewrite F2. by eexists.
Qed.

Lemma header_reads m : msg_ok m -> reads rtmp_header_decode (raw (first_bytes m)) (fun h => h = recv_hdr m).
Proof.
  intros M. pose proof (m_time_u32 m M) as Ht. pose proof (ok_format m M). unfold rtmp_header_decode, first_bytes.
  eapply reads_app; [apply basic_reads; [lia|apply M]|]. intros v ->.
  eapply reads_app; [by apply fields_read|]. intros v ->.
  unfold plain_hdr, recv_hdr, ext_bytes.
  assert (Hx : forall (k : Z -> rtmp_header) h, k (m_time m) = h ->
    reads (do! _ := dneed 4 ENODATA in do! ext := dread read_be32 in dret (k ext)) (raw (be_bytes 4 (m_time m))) (fun x => x = h)).
  { intros k h <-. apply reads_need_raw; [by rewrite zlength_be_bytes|]. eapply reads_last; [by apply reads_32|]. intros v ->. by eexists. }
  unfold m_time in *. destruct (m_format m =? 0) eqn:F0; [|destruct (m_format m =? 1) eqn:F1];
    cbn [rh_timestamp rh_timestamp_delta]; rewrite min_max_test by apply Ht; cbn [Z.eqb TIMESTAMP_24MAX];
    destruct (_ <=? _) eqn:El; cbn [Z.eqb]; try (by apply Hx); apply reads_dret; unfold TIMESTAMP_24MAX in *; rewrite Z.min_l by lia; done.
Qed.

Lemma next_reads m : msg_ok m ->
  reads rtmp_header_decode (raw (basic_bytes 3 (m_chunk_id m))) (fun h => h = RtmpHeader 3 (m_chunk_id m) 0 0 0 0 0 0 false).
Proof.
  intros M. unfold rtmp_header_decode. eapply reads_last; [apply basic_reads; [lia|apply M]|]. intros v ->. by eexists.
Qed.
End Read.

(** ** Messages put together *)

(** What a chunk stream remembers of its last message. *)
Record last_msg := LastMsg {
  l_time : Z;
  l_len : Z;
  l_type : Z;
  l_stream : Z;
}.

Definition last_of (h : rtmp_header) : last_msg := LastMsg (rh_timestamp h) (rh_length h) (rh_type_id h) (rh_stream_id h).

(** The shorter formats refer to the last message of the chunk stream. *)
Definition follows (S : gmap Z last_msg) (m : rtmp_msg) : Prop :=
  match S !! m_chunk_id m with
  | None => m_format m = 0 /\ Z.of_nat (size S) <= MAX_CHUNKS
  | Some l =>
      (m_format m <> 0 -> l_stream l = m_stream m) /\ (m_format m = 2 -> l_len l = m_len m /\ l_type l = m_type m)
  end.

Definition time_of (S : gmap Z last_msg) (m : rtmp_msg) : Z :=
  if m_format m =? 0 then m_timestamp m
  else match S !! m_chunk_id m with Some l => u32 (l_time l + m_delta m) | None => 0 end.

Definition arrived (S : gmap Z last_msg) (m : rtmp_msg) : gmap Z last_msg :=
  <[m_chunk_id m := LastMsg (time_of S m) (m_len m) (m_type m) (m_stream m)]> S.

(** The dechunker knows the chunk streams of [S]. *)
Record knows (rd : rtmp_dechunker) (S : gmap Z last_msg) : Prop := {
  knows_last : forall cs, S !! cs = (fun c => last_of (ck_hdr c)) <$> find_chunk (rd_chunkl rd) cs;
  knows_size : zlength (rd_chunkl rd) = Z.of_nat (size S);
}.

(** The header handed over with a message, as far as it matters. *)
Record hdr_for (S : gmap Z last_msg) (m : rtmp_msg) (h : rtmp_header) : Prop := {
  hf_id : rh_chunk_id h = m_chunk_id m;
  hf_last : last_of h = LastMsg (time_of S m) (m_len m) (m_type m) (m_stream m);
  hf_format : rh_format h = m_format m;
  hf_ext : rh_ext_ts h = (TIMESTAMP_24MAX <=? m_time m);
  hf_delta : m_format m <> 0 -> rh_timestamp_delta h = m_delta m;
}.

Section Messages.
Context `{H : Host} (Ham : ample_memory).

(** A buffer filled from the front. *)
Lemma fill_buffer b d p n :
  holds b d (zlength d) -> mb_size b = n -> bytes p -> zlength d + zlength p <= n ->
  let b' := mbuf_set_end (mbuf_set_pos (mb_store b (zlength d) p) (zlength d + zlength p)) (zlength d + zlength p) in
  holds b' (d ++ p) (zlength (d ++ p)) /\ mb_size b' = n.
Proof.
  intros [W Hc Hp] Hn Hb Hl b'. subst b'. split; [|done]. pose proof (zlength_nonneg d). pose proof (zlength_nonneg p).
  mbuf_wf_facts. assert (Ec : ztake (zlength d) (mb_mem b) = d).
  { rewrite <- Hc at 2. unfold content. f_equal. rewrite <- Hc, zlength_content by done. done. }
  split; [split|..]; cbn [mbuf_set_end mbuf_set_pos mb_store set_mem mb_pos mb_end mb_size].
  - change (mb_mem _) with (zsplice (zlength d) p (mb_mem b)). rewrite zlength_zsplice; lia.
  - lia.
  - lia.
  - done.
  - change (mb_mem _) with (zsplice (zlength d) p (mb_mem b)). auto with relib.
  - unfold content. cbn [mb_end]. change (mb_mem _) with (zsplice (zlength d) p (mb_mem b)). unfold zsplice. rewrite Ec.
    rewrite app_assoc. replace (zlength d + zlength p) with (zlength (d ++ p)) by apply zlength_app. apply ztake_app_exact.
  - by rewrite zlength_app.
Qed.

(** The header a chunk stream has before a message of format 1 or 2. *)
Definition based (S : gmap Z last_msg) (m : rtmp_msg) (old : rtmp_header) : Prop :=
  m_format m <> 0 -> rh_chunk_id old = m_chunk_id m /\ S !! m_chunk_id m = Some (last_of old)
    /\ rh_stream_id old = m_stream m /\ (m_format m = 2 -> rh_length old = m_len m /\ rh_type_id old = m_type m).

(** The header of the chunk stream after the first chunk. *)
Definition first_hdr (m : rtmp_msg) (old : rtmp_header) : rtmp_header :=
  let hdr := recv_hdr m in
  let ch := set_ext_ts (rh_ext_ts hdr) (set_format (rh_format hdr) (merge_hdr hdr old)) in
  if (rh_format hdr =? 1) || (rh_format hdr =? 2) then set_timestamp (u32 (rh_timestamp ch + rh_timestamp_delta hdr)) ch else ch.

Lemma first_hdr_for S m old : msg_ok m -> based S m old ->
  rh_length (merge_hdr (recv_hdr m) old) = m_len m /\ hdr_for S m (first_hdr m old).
Proof.
  intros M Hb. pose proof (ok_format m M). unfold first_hdr, based in *. unfold recv_hdr, merge_hdr.
  destruct (Z.eqb_spec (m_format m) 0) as [F0|F0]; [|destruct (Hb F0) as (B1 & B2 & B3 & B4);
    destruct (Z.eqb_spec (m_format m) 1) as [F1|F1]; [|destruct B4 as [B4 B5]; [lia|]]];
    cbn [rh_format Z.eqb orb rh_length set_length_type set_timestamp_delta]; (split; [done|]);
    split; cbn [rh_chunk_id last_of set_timestamp set_ext_ts set_format set_length_type set_timestamp_delta rh_timestamp rh_length rh_type_id
      rh_stream_id rh_format rh_ext_ts rh_timestamp_delta]; unfold last_of, time_of; cbn; rewrite ?B2, ?F0, ?F1; cbn; try done; try lia.
  - by rewrite B3.
  - rewrite (proj2 (Z.eqb_neq _ _) F0). cbn. by rewrite B3, B4, B5.
Qed.

Lemma first_chunk_ok S m sz old omb mb p r :
  msg_ok m -> 0 < sz -> based S m old -> mbuf_wf mb -> p = ztake sz (m_payload m) -> rest mb = p ++ r ->
  exists b, first_chunk sz (recv_hdr m) (RtmpChunk old omb) mb = (0, RtmpChunk (first_hdr m old) (Some b), adv mb (zlength p))
    /\ holds b p (zlength p) /\ mb_size b = m_len m.
Proof.
  intros M Hs Hb W -> E. pose proof (ok_len m M) as Hl. destruct (first_hdr_for S m old M Hb) as [El _].
  pose proof (zlength_ztake_min (m_payload m) sz ltac:(lia)) as Lp. fold (m_len m) in Lp. unfold first_chunk. cbn [ck_hdr]. rewrite El.
  rewrite mbuf_get_left_rest, E, zlength_app, Lp by done. pose proof (zlength_nonneg r).
  rewrite (proj2 (Z.ltb_ge _ _)) by lia.
  destruct (mbuf_alloc_new (m_len m) Ham) as (b & -> & Hh & Hsz); [unfold MEM_SIZE_MAX; lia|]. rewrite <- Lp.
  destruct (read_mem_app mb _ r _ W E eq_refl) as (-> & _). cbn [negb Z.eqb]. eexists. split; [reflexivity|].
  destruct (fill_buffer b [] (ztake sz (m_payload m)) (m_len m) Hh Hsz) as [Hf Hfs].
  - apply bytes_ztake, M.
  - change (zlength (@nil Z)) with 0. lia.
  - change (zlength (@nil Z)) with 0 in Hf. rewrite Z.add_0_l in Hf. done.
Qed.

Lemma next_ext_ok S m h mb r : msg_ok m -> hdr_for S m h -> mbuf_wf mb -> rest mb = ext_bytes (m_time m) ++ r ->
  next_ext h mb = (0, h, adv mb (zlength (ext_bytes (m_time m)))) /\ mbuf_wf (adv mb (zlength (ext_bytes (m_time m))))
    /\ rest (adv mb (zlength (ext_bytes (m_time m)))) = r.
Proof.
  intros M Hf W E. split; [|by apply (adv_step mb (ext_bytes (m_time m)) r)]. unfold next_ext. rewrite (hf_ext _ _ _ Hf). unfold ext_bytes in *.
  destruct (TIMESTAMP_24MAX <=? m_time m); [|by rewrite adv_0].
  rewrite mbuf_get_left_rest, E, zlength_app, zlength_be_bytes by done. pose proof (zlength_nonneg r).
  rewrite (proj2 (Z.ltb_ge _ _)) by lia. destruct (read_be32_app mb _ r W E) as (-> & _). rewrite (wrap_small 32) by apply (m_time_u32 m M).
  destruct Hf as [_ Hl Hfm _ Hd]. rewrite Hfm. change (Z.of_nat 4) with 4. unfold last_of, time_of in Hl. injection Hl as Ht _ _ _.
  unfold m_time. do 2 f_equal. destruct (Z.eqb_spec (m_format m) 0) as [F|F].
  - rewrite <- Ht. by destruct h.
  - rewrite <- (Hd F). by destruct h.
Qed.

(** A further chunk [p] of a message of which [d] is there. *)
Lemma next_chunk_ok S m sz h b mb d p r :
  msg_ok m -> 0 < sz -> hdr_for S m h -> holds b d (zlength d) -> mb_size b = m_len m ->
  zlength p = Z.min (m_len m - zlength d) sz -> zlength d < m_len m -> bytes p ->
  mbuf_wf mb -> rest mb = ext_bytes (m_time m) ++ p ++ r ->
  exists b', next_chunk sz (RtmpChunk h (Some b)) mb = (0, RtmpChunk h (Some b'), adv mb (zlength (ext_bytes (m_time m) ++ p)))
    /\ holds b' (d ++ p) (zlength (d ++ p)) /\ mb_size b' = m_len m.
Proof.
  intros M Hs Hf Hh Hsz Lp Ld Hb W E. pose proof (ok_len m M) as Hl. destruct (next_ext_ok S m h mb (p ++ r) M Hf W E) as (Ee & W1 & E1).
  unfold next_chunk. cbn [ck_hdr ck_mb]. rewrite Ee. cbn [negb Z.eqb next_buf].
  assert (Esp : mbuf_get_space b = m_len m - zlength d).
  { unfold mbuf_get_space. rewrite Hsz, (holds_pos _ _ _ Hh). destruct (Z.gtb_spec (m_len m) (zlength d)); lia. }
  rewrite Esp, <- Lp, mbuf_get_left_rest, E1, zlength_app by done. pose proof (zlength_nonneg r). pose proof (zlength_nonneg d).
  rewrite (proj2 (Z.ltb_ge _ _)) by lia. destruct (read_mem_app _ p r _ W1 E1 eq_refl) as (-> & _). cbn [negb Z.eqb].
  rewrite adv_adv, <- zlength_app. eexists. split; [reflexivity|]. rewrite (holds_pos _ _ _ Hh).
  cbn [mb_store set_mem mb_pos mb_end]. rewrite (holds_pos _ _ _ Hh), (holds_end _ _ _ Hh), wrap_small by lia.
  apply fill_buffer; [done|done|done|lia].
Qed.

(** A list of chunk streams in which that of [m] may be any. *)
Record besides (S : gmap Z last_msg) (m : rtmp_msg) (l : list rtmp_chunk) : Prop := {
  be_found : is_Some (find_chunk l (m_chunk_id m));
  be_other : forall cs, cs <> m_chunk_id m -> S !! cs = (fun c => last_of (ck_hdr c)) <$> find_chunk l cs;
  be_size : zlength l = Z.of_nat (size (arrived S m));
}.

Lemma find_app_other l c id : rh_chunk_id (ck_hdr c) <> id -> find_chunk (l ++ [c]) id = find_chunk l id.
Proof.
  intros Hc. unfold find_chunk. induction l as [|a l IH]; cbn.
  - by rewrite (proj2 (Z.eqb_neq _ _)) by congruence.
  - by rewrite IH.
Qed.

(** The chunk stream of a message is found or created. *)
Lemma chunk_of_ok rd S m : knows rd S -> msg_ok m -> follows S m ->
  exists c l, chunk_of (recv_hdr m) rd = Ok (c, set_chunkl l rd) /\ based S m (ck_hdr c) /\ besides S m l.
Proof.
  intros [Kl Ks] M Hf. unfold chunk_of, follows in *. pose proof (Kl (m_chunk_id m)) as Kc.
  assert (rh_chunk_id (recv_hdr m) = m_chunk_id m) as -> by (unfold recv_hdr; by repeat case_match).
  destruct (find_chunk (rd_chunkl rd) (m_chunk_id m)) as [c|] eqn:Ef; cbn in Kc; rewrite Kc in Hf.
  - exists c, (rd_chunkl rd). split; [by destruct rd|]. destruct Hf as [Hf1 Hf2]. split.
    + intros F. split; [by eapply find_chunk_id|]. split; [done|]. split; [by apply Hf1|]. intros F2. by apply Hf2.
    + split; [eauto|auto|]. unfold arrived. rewrite map_size_insert_Some by eauto. done.
  - destruct Hf as [F0 Hsz]. unfold recv_hdr. rewrite (proj2 (Z.eqb_eq _ _) F0). cbn [rh_format Z.eqb].
    rewrite Ks, Z.gtb_ltb, (proj2 (Z.ltb_ge _ _)) by lia. unfold create_chunk, mem_alloc. cbn [Z.gtb Z.compare RTMP_CHUNK_STRUCT MEM_SIZE_MAX].
    destruct (Ham RTMP_CHUNK_STRUCT) as [[blk Hblk] _]; [by vm_compute|]. rewrite Hblk.
    change (RTMP_CHUNK_STRUCT >? MEM_SIZE_MAX) with false. cbn match. do 2 eexists. split; [reflexivity|]. split; [intros F; lia|]. split.
    + eexists. by apply chunk_app_new.
    + intros cs Hne. rewrite find_app_other by (cbn; congruence). done.
    + rewrite zlength_app, Ks. unfold arrived. rewrite map_size_insert_None by done. change (zlength [_]) with 1. lia.
Qed.

(** [d] of the payload has arrived. *)
Record during (S : gmap Z last_msg) (m : rtmp_msg) (rd : rtmp_dechunker) (d : list Z) : Prop := {
  du_besides : besides S m (rd_chunkl rd);
  du_chunk : exists h b, find_chunk (rd_chunkl rd) (m_chunk_id m) = Some (RtmpChunk h (Some b)) /\ hdr_for S m h
    /\ holds b d (zlength d) /\ mb_size b = m_len m;
}.

(** The message is complete and handed over. *)
Definition handed (S : gmap Z last_msg) (m : rtmp_msg) (rd : rtmp_dechunker) (out : option (rtmp_header * mbuf)) : Prop :=
  knows rd (arrived S m) /\ exists h buf, out = Some (h, buf) /\ hdr_for S m h /\ holds buf (m_payload m) 0.

Lemma besides_put S m l c : besides S m l -> rh_chunk_id (ck_hdr c) = m_chunk_id m -> besides S m (put_chunk (m_chunk_id m) c l).
Proof.
  intros [[c0 Hc0] Ho Hs] Hc. split.
  - eexists. by eapply chunk_put.
  - intros cs Hne. rewrite find_put_other by done. by apply Ho.
  - by rewrite zlength_put.
Qed.

(** Storing the chunk after [d] of the payload is there. *)
Lemma store_chunk S m rd l h b d :
  msg_ok m -> besides S m l -> hdr_for S m h -> holds b d (zlength d) -> mb_size b = m_len m ->
  zlength d <= m_len m -> (zlength d = m_len m -> d = m_payload m) ->
  exists c out, take_message (RtmpChunk h (Some b)) = (c, out) /\
    let rd' := set_chunkl (put_chunk (m_chunk_id m) c l) rd in
    if zlength d =? m_len m then handed S m rd' out else out = None /\ during S m rd' d.
Proof.
  intros M Hbe Hf Hh Hsz Hle Hd. unfold take_message. cbn [ck_mb ck_hdr]. rewrite (holds_pos _ _ _ Hh), Hsz, Z.geb_leb.
  destruct (Z.leb_spec (m_len m) (zlength d)) as [Hge|Hlt].
  - rewrite (proj2 (Z.eqb_eq _ _)) by lia. do 2 eexists. split; [reflexivity|]. cbn zeta. split.
    + destruct (besides_put S m l (RtmpChunk h None) Hbe (hf_id _ _ _ Hf)) as [_ Ho Hs]. destruct Hbe as [[c0 Hc0] _ _]. split; [|done].
      intros cs. unfold arrived. destruct (decide (cs = m_chunk_id m)) as [->|Hne].
      * rewrite lookup_insert_eq. cbn [set_chunkl rd_chunkl]. rewrite (chunk_put _ _ c0); [|done|apply (hf_id _ _ _ Hf)]. cbn. by rewrite (hf_last _ _ _ Hf).
      * rewrite lookup_insert_ne by congruence. by apply Ho.
    + do 2 eexists. split; [reflexivity|]. split; [done|]. rewrite <- Hd by lia. apply (holds_set_pos _ _ _ 0 Hh). pose proof (zlength_nonneg d). lia.
  - rewrite (proj2 (Z.eqb_neq _ _)) by lia. do 2 eexists. split; [reflexivity|]. cbn zeta. split; [done|]. split.
    + apply besides_put; [done|apply (hf_id _ _ _ Hf)].
    + exists h, b. destruct Hbe as [[c0 Hc0] _ _]. split; [|done]. apply (chunk_put _ _ c0); [done|apply (hf_id _ _ _ Hf)].
Qed.

(** The outcome of a step after which [d] of the payload is there. *)
Definition progress (S : gmap Z last_msg) (m : rtmp_msg) (rd rd' : rtmp_dechunker) (d : list Z) (out : option (rtmp_header * mbuf)) : Prop :=
  rd_chunk_sz rd' = rd_chunk_sz rd /\ if zlength d =? m_len m then handed S m rd' out else out = None /\ during S m rd' d.

Lemma prefix_whole (m : rtmp_msg) d r : m_payload m = d ++ r -> zlength d <= m_len m /\ (zlength d = m_len m -> d = m_payload m).
Proof.
  intros E. unfold m_len. rewrite E, zlength_app. pose proof (zlength_nonneg r). split; [lia|]. intros Hr.
  destruct r; [by rewrite app_nil_r|]. rewrite zlength_cons in Hr. pose proof (zlength_nonneg r). lia.
Qed.

Lemma first_step S m rd mb r :
  knows rd S -> msg_ok m -> follows S m -> 0 < rd_chunk_sz rd -> mbuf_wf mb ->
  let p := ztake (rd_chunk_sz rd) (m_payload m) in rest mb = (first_bytes m ++ p) ++ r ->
  exists rd' out, dechunk_step rd mb = Some (0, rd', adv mb (zlength (first_bytes m ++ p)), out) /\ progress S m rd rd' p out.
Proof.
  intros K M Hf Hs W p E. rewrite <- app_assoc in E.
  destruct (reads_step _ _ _ mb (p ++ r) (header_reads m M) W E) as (hdr & Eh & -> & W1 & E1). unfold dechunk_step. rewrite Eh.
  destruct (chunk_of_ok rd S m K M Hf) as (c & l & -> & Hb & Hbe). destruct c as [old omb]. cbn [ck_hdr] in Hb.
  assert (rh_chunk_id (recv_hdr m) = m_chunk_id m) as -> by (unfold recv_hdr; by repeat case_match).
  destruct (first_chunk_ok S m (rd_chunk_sz rd) old omb _ p r M Hs Hb W1 eq_refl E1) as (b & Ec & Hh & Hsz).
  assert (((rh_format (recv_hdr m) =? 0) || (rh_format (recv_hdr m) =? 1) || (rh_format (recv_hdr m) =? 2))%bool = true) as ->
    by (unfold recv_hdr; by repeat case_match).
  cbn [set_chunkl rd_chunk_sz rd_chunkl]. rewrite Ec. cbn [negb Z.eqb].
  destruct (first_hdr_for S m old M Hb) as [_ Hhf].
  destruct (prefix_whole m p (zdrop (rd_chunk_sz rd) (m_payload m))) as [Hle Hw]; [symmetry; apply ztake_zdrop|].
  destruct (store_chunk S m rd l _ b p M Hbe Hhf Hh Hsz Hle Hw) as (c' & out & -> & Hst).
  do 2 eexists. split; [rewrite adv_adv, <- zlength_app; reflexivity|]. split; [done|]. exact Hst.
Qed.

Lemma next_step S m rd mb d r' r :
  during S m rd d -> msg_ok m -> 0 < rd_chunk_sz rd -> mbuf_wf mb -> m_payload m = d ++ r' -> zlength d < m_len m ->
  let p := ztake (rd_chunk_sz rd) r' in rest mb = (next_bytes m ++ p) ++ r ->
  exists rd' out, dechunk_step rd mb = Some (0, rd', adv mb (zlength (next_bytes m ++ p)), out) /\ progress S m rd rd' (d ++ p) out.
Proof.
  intros [Hbe (h & b & Ef & Hf & Hh & Hsz)] M Hs W Ep Hlt p E. unfold next_bytes in E. rewrite <- !app_assoc in E.
  destruct (reads_step _ _ _ mb _ (next_reads m M) W E) as (hdr & Eh & -> & W1 & E1). unfold dechunk_step. rewrite Eh. unfold chunk_of. cbn [rh_chunk_id].
  rewrite Ef. cbn [rh_format Z.eqb orb Pos.eqb].
  assert (Lr : zlength r' = m_len m - zlength d) by (unfold m_len; rewrite Ep, zlength_app; lia).
  pose proof (ok_bytes m M) as Hb. rewrite Ep in Hb. apply Forall_app in Hb as [_ Hb].
  destruct (next_chunk_ok S m (rd_chunk_sz rd) h b (adv mb (zlength (basic_bytes 3 (m_chunk_id m)))) d p r M Hs Hf Hh Hsz) as (b' & Ec & Hh' & Hsz'); [|done| |done|exact E1|].
  { unfold p. rewrite zlength_ztake_min by lia. by rewrite Lr. }
  { by apply bytes_ztake. }
  rewrite Ec. cbn [negb Z.eqb].
  destruct (prefix_whole m (d ++ p) (zdrop (rd_chunk_sz rd) r')) as [Hle Hw]; [rewrite <- app_assoc; unfold p; by rewrite ztake_zdrop|].
  destruct (store_chunk S m rd _ _ b' (d ++ p) M Hbe Hf Hh' Hsz' Hle Hw) as (c' & out & -> & Hst).
  do 2 eexists. split; [rewrite adv_adv, <- zlength_app; unfold next_bytes; rewrite <- !app_assoc; reflexivity|]. split; [done|]. exact Hst.
Qed.

(** ** Any buffer that starts with the bytes of a chunk *)

(** The bytes [p] at the position of any buffer are one chunk. *)
Definition takes (rd : rtmp_dechunker) (p : list Z) (rd' : rtmp_dechunker) (out : option (rtmp_header * mbuf)) : Prop :=
  0 < zlength p /\ forall mb r, mbuf_wf mb -> rest mb = p ++ r ->
    dechunk_step rd mb = Some (0, rd', adv mb (zlength p), out) /\ plain_restart rd mb.

(** The bytes [b] are chunks that hand over the messages [ms]. *)
Inductive eats : rtmp_dechunker -> list Z -> rtmp_dechunker -> list (rtmp_header * mbuf) -> Prop :=
| eats_nil rd : eats rd [] rd []
| eats_cons rd p rd1 out b rd2 ms : takes rd p rd1 out -> eats rd1 b rd2 ms -> eats rd (p ++ b) rd2 (option_list out ++ ms).

Lemma eats_app rd1 b1 rd2 ms1 b2 rd3 ms2 : eats rd1 b1 rd2 ms1 -> eats rd2 b2 rd3 ms2 -> eats rd1 (b1 ++ b2) rd3 (ms1 ++ ms2).
Proof. induction 1 as [|rd p rda out b rdb ms Ht _ IH]; intros Hb; [done|]. rewrite <- !app_assoc. eapply eats_cons; eauto. Qed.

Lemma eats_one rd p rd' out : takes rd p rd' out -> eats rd p rd' (option_list out).
Proof. intros Ht. rewrite <- (app_nil_r p), <- (app_nil_r (option_list out)). eapply eats_cons; [exact Ht|constructor]. Qed.

(** One buffer stands for all. *)
Lemma takes_intro rd p rd' out :
  rd_ok rd -> bytes p -> 0 < zlength p <= MEM_SIZE_MAX -> (forall mb r, mbuf_wf mb -> rest mb = p ++ r -> plain_restart rd mb) ->
  dechunk_step rd (rcv_buf p) = Some (0, rd', adv (rcv_buf p) (zlength p), out) -> takes rd p rd' out.
Proof.
  intros Hrd Hb Hl Hpl Est. split; [lia|]. intros mb r W E. split; [|by eapply Hpl].
  pose proof (rcv_buf_holds p Hb ltac:(lia)) as Hh. assert (Er : rest (rcv_buf p) = p) by (rewrite (holds_rest _ _ _ Hh); apply zdrop_0).
  destruct (dechunk_decides rd (rcv_buf p) mb r Hrd (holds_wf _ _ _ Hh) W) as [(rd1 & m & E1 & _)|(e & rd1 & m1 & m2 & o & E1 & E2 & _ & Hk & _)];
    [by rewrite Er| |]; rewrite E1 in Est.
  - discriminate Est.
  - injection Est as -> -> Em ->. destruct (Hk eq_refl) as (k & Hk' & -> & ->). rewrite E2. do 3 f_equal.
    assert (Ek : mb_pos (adv (rcv_buf p) k) = mb_pos (adv (rcv_buf p) (zlength p))) by congruence. cbn in Ek. f_equal. lia.
Qed.

Lemma bytes_ext t : bytes (ext_bytes t).
Proof. unfold ext_bytes. case_match; auto with relib. Qed.

Lemma bytes_basic fmt cs : 0 <= fmt < 4 -> 2 <= cs <= 65599 -> bytes (basic_bytes fmt cs).
Proof.
  intros Hf Hc. unfold basic_bytes. destruct (Z.leb_spec 320 cs); [|destruct (Z.leb_spec 64 cs)]; repeat (constructor; [unfold is_byte; lia|]); auto with relib.
Qed.

Lemma bytes_first m : msg_ok m -> bytes (first_bytes m).
Proof.
  intros M. pose proof (ok_format m M). pose proof (ok_chunk_id m M). pose proof (ok_type m M) as Ht. unfold first_bytes, field_bytes.
  rewrite !bytes_app. split; [apply bytes_basic; lia|]. split; [|apply bytes_ext].
  repeat case_match; rewrite ?bytes_app; split_and?; auto with relib.
Qed.

Lemma bytes_next m : msg_ok m -> bytes (next_bytes m).
Proof. intros M. pose proof (ok_chunk_id m M). unfold next_bytes. rewrite bytes_app. split; [apply bytes_basic; lia|apply bytes_ext]. Qed.

Lemma bytes_chunks m sz fuel : msg_ok m -> forall p, bytes p -> bytes (next_chunks fuel sz m p).
Proof.
  intros M. induction fuel as [|fuel IH]; intros p Hp; cbn [next_chunks]; [constructor|]. case_match; [constructor|].
  rewrite !bytes_app. split_and!; [by apply bytes_next|by apply bytes_ztake|by apply IH, bytes_zdrop].
Qed.

Lemma bytes_message sz m : msg_ok m -> bytes (rtmp_bytes sz m).
Proof.
  intros M. pose proof (ok_bytes m M) as Hb. unfold rtmp_bytes. rewrite !bytes_app.
  split_and!; [by apply bytes_first|by apply bytes_ztake|by apply bytes_chunks, bytes_zdrop].
Qed.

Lemma first_takes S m rd :
  knows rd S -> msg_ok m -> follows S m -> rd_ok rd ->
  let p := ztake (rd_chunk_sz rd) (m_payload m) in
  exists rd' out, takes rd (first_bytes m ++ p) rd' out /\ progress S m rd rd' p out.
Proof.
  intros K M Hf Hrd p. pose proof Hrd as [Hsz _]. pose proof (first_length m). pose proof (ok_len m M). unfold m_len in *.
  pose proof (zlength_ztake_min (m_payload m) (rd_chunk_sz rd) ltac:(lia)) as Lp. fold p in Lp.
  assert (Hb : bytes (first_bytes m ++ p)) by (apply bytes_app; split; [by apply bytes_first|apply bytes_ztake, M]).
  assert (Hl : 0 < zlength (first_bytes m ++ p) <= MEM_SIZE_MAX) by (rewrite zlength_app; unfold MEM_SIZE_MAX; lia).
  pose proof (rcv_buf_holds _ Hb ltac:(lia)) as Hh.
  destruct (first_step S m rd (rcv_buf (first_bytes m ++ p)) [] K M Hf Hsz (holds_wf _ _ _ Hh)) as (rd' & out & Est & Hpr).
  { by rewrite (holds_rest _ _ _ Hh), zdrop_0, app_nil_r. }
  exists rd', out. split; [|done]. apply takes_intro; try done. intros mb r W E. rewrite <- app_assoc in E.
  destruct (reads_step _ _ _ mb (p ++ r) (header_reads m M) W E) as (hdr & Eh & -> & _). intros h mb' c. rewrite Eh. intros [= <- _].
  intros F. exfalso. revert F. unfold recv_hdr. by repeat case_match.
Qed.

Lemma next_takes S m rd d r' :
  during S m rd d -> msg_ok m -> rd_ok rd -> m_payload m = d ++ r' -> zlength d < m_len m ->
  let p := ztake (rd_chunk_sz rd) r' in
  exists rd' out, takes rd (next_bytes m ++ p) rd' out /\ progress S m rd rd' (d ++ p) out.
Proof.
  intros Hd M Hrd Ep Hlt p. pose proof Hrd as [Hsz _]. pose proof (next_length m). pose proof (ok_len m M). pose proof (ok_bytes m M) as Hbm.
  unfold m_len in *. rewrite Ep in *. rewrite zlength_app in *. rewrite bytes_app in Hbm. pose proof (zlength_nonneg d).
  pose proof (zlength_ztake_min r' (rd_chunk_sz rd) ltac:(lia)) as Lp. fold p in Lp.
  assert (Hb : bytes (next_bytes m ++ p)) by (apply bytes_app; split; [by apply bytes_next|apply bytes_ztake, Hbm]).
  assert (Hl : 0 < zlength (next_bytes m ++ p) <= MEM_SIZE_MAX) by (rewrite zlength_app; unfold MEM_SIZE_MAX; lia).
  pose proof (rcv_buf_holds _ Hb ltac:(lia)) as Hh.
  destruct (next_step S m rd (rcv_buf (next_bytes m ++ p)) d r' [] Hd M Hsz (holds_wf _ _ _ Hh) Ep) as (rd' & out & Est & Hpr).
  { unfold m_len. rewrite Ep, zlength_app. lia. }
  { by rewrite (holds_rest _ _ _ Hh), zdrop_0, app_nil_r. }
  exists rd', out. split; [|done]. apply takes_intro; try done. intros mb r W E. unfold next_bytes in E. rewrite <- !app_assoc in E.
  destruct (reads_step _ _ _ mb _ (next_reads m M) W E) as (hdr & Eh & -> & _). intros h mb' c. rewrite Eh. intros [= <- _] _. cbn [rh_chunk_id].
  destruct Hd as [_ (h0 & b & -> & _)]. intros [= <-]. by intros [N _].
Qed.

Lemma takes_rd_ok rd p rd' out : bytes p -> zlength p <= MEM_SIZE_MAX -> rd_ok rd -> takes rd p rd' out -> rd_ok rd'.
Proof.
  intros Hb Hl Hrd [_ Ht]. pose proof (rcv_buf_holds _ Hb Hl) as Hh. destruct (Ht (rcv_buf p) []) as [Est _]; [apply Hh| |].
  - by rewrite (holds_rest _ _ _ Hh), zdrop_0, app_nil_r.
  - eapply dechunk_rd_ok; [done|apply Hh|exact Est].
Qed.

(** The bytes [b] are chunks of which the last hands [m] over. *)
Definition delivers (S : gmap Z last_msg) (m : rtmp_msg) (rd : rtmp_dechunker) (b : list Z) : Prop :=
  exists rd' out, eats rd b rd' [out] /\ rd_chunk_sz rd' = rd_chunk_sz rd /\ rd_ok rd' /\ handed S m rd' (Some out).

Lemma next_chunks_end fuel sz m : next_chunks fuel sz m [] = [].
Proof. by destruct fuel. Qed.

(** A chunk, then the rest of the message. *)
Lemma chunk_delivers S m rd rd' hd d r' fuel out :
  msg_ok m -> rd_ok rd -> bytes hd -> 0 <= zlength hd <= 18 -> m_payload m = d ++ r' ->
  let p := ztake (rd_chunk_sz rd) r' in
  takes rd (hd ++ p) rd' out -> progress S m rd rd' (d ++ p) out ->
  (forall rd1, during S m rd1 (d ++ p) -> rd_ok rd1 -> rd_chunk_sz rd1 = rd_chunk_sz rd -> zlength (d ++ p) < m_len m ->
    delivers S m rd1 (next_chunks fuel (rd_chunk_sz rd) m (zdrop (rd_chunk_sz rd) r'))) ->
  delivers S m rd (hd ++ p ++ next_chunks fuel (rd_chunk_sz rd) m (zdrop (rd_chunk_sz rd) r')).
Proof.
  intros M Hrd Hhd Hl Ep p Ht [Hz Hpr] Hnext. pose proof (ok_bytes m M) as Hbm. pose proof (ok_len m M).
  destruct (prefix_whole m (d ++ p) (zdrop (rd_chunk_sz rd) r')) as [Hle Hw]; [rewrite <- app_assoc; unfold p; by rewrite ztake_zdrop|].
  pose proof (zlength_nonneg d). rewrite Ep in Hbm. rewrite bytes_app in Hbm. destruct Hbm as [_ Hbr].
  assert (Hrd' : rd_ok rd').
  { eapply takes_rd_ok; [|..|exact Ht]; [| |done].
    - rewrite bytes_app. split; [done|]. by apply bytes_ztake.
    - rewrite zlength_app in *. unfold MEM_SIZE_MAX. lia. }
  rewrite app_assoc. destruct (Z.eqb_spec (zlength (d ++ p)) (m_len m)) as [Hall|Hmore].
  - assert (zdrop (rd_chunk_sz rd) r' = []) as ->.
    { specialize (Hw Hall). rewrite Ep in Hw. apply app_inv_head in Hw. assert (El : zlength (p ++ zdrop (rd_chunk_sz rd) r') = zlength p) by (unfold p; by rewrite ztake_zdrop, <- Hw at 1).
      rewrite zlength_app in El. apply length_zero_iff_nil. unfold zlength in El. lia. }
    rewrite next_chunks_end, app_nil_r. pose proof Hpr as [_ (h & buf & -> & _)]. exists rd', (h, buf). split; [by apply (eats_one _ _ _ _ Ht)|done].
  - destruct Hpr as [-> Hdu]. destruct (Hnext rd' Hdu Hrd' Hz ltac:(lia)) as (rd2 & o2 & He & Hz2 & Hrd2 & Hh2). exists rd2, o2. split; [|split; [congruence|done]].
    by apply (eats_cons _ _ _ None _ _ _ Ht).
Qed.
Lemma next_delivers S m : msg_ok m -> forall fuel rd d r',
  during S m rd d -> rd_ok rd -> m_payload m = d ++ r' -> zlength d < m_len m -> zlength r' <= Z.of_nat fuel ->
  delivers S m rd (next_chunks fuel (rd_chunk_sz rd) m r').
Proof.
  intros M. induction fuel as [|fuel IH]; intros rd d r' Hd Hrd Ep Hlt Hl;
    assert (Lr : zlength r' = m_len m - zlength d) by (unfold m_len; rewrite Ep, zlength_app; lia); [lia|].
  cbn [next_chunks]. rewrite (proj2 (Z.eqb_neq (zlength r') 0)) by lia.
  destruct (next_takes S m rd d r' Hd M Hrd Ep Hlt) as (rd' & out & Ht & Hpr). pose proof (next_length m). pose proof Hrd as [Hs _].
  pose proof (zlength_zdrop_min r' (rd_chunk_sz rd) ltac:(lia)) as Ldr.
  eapply chunk_delivers; [done|done|by apply bytes_next|lia|exact Ep|exact Ht|exact Hpr|].
  intros rd1 Hd1 Hrd1 Hz1 Hlt1. rewrite <- Hz1 in *. eapply IH; [exact Hd1|done| |done|lia]. by rewrite <- app_assoc, Hz1, ztake_zdrop.
Qed.

(** All the chunks of a message: the last one hands it over. *)
Lemma message_delivers S m rd :
  knows rd S -> msg_ok m -> follows S m -> rd_ok rd -> delivers S m rd (rtmp_bytes (rd_chunk_sz rd) m).
Proof.
  intros K M Hf Hrd. destruct (first_takes S m rd K M Hf Hrd) as (rd' & out & Ht & Hpr). pose proof (first_length m).
  unfold rtmp_bytes. apply (chunk_delivers S m rd rd' (first_bytes m) [] (m_payload m) _ out); try done; [by apply bytes_first|lia|].
  intros rd1 Hd1 Hrd1 Hz1 Hlt1. rewrite <- Hz1 in *. pose proof Hrd1 as [Hs _]. pose proof (ok_len m M) as Hl. unfold m_len in *.
  pose proof (zlength_zdrop_min (m_payload m) (rd_chunk_sz rd1) ltac:(lia)).
  eapply next_delivers; [done|exact Hd1|done| |done|lia]. symmetry. apply ztake_zdrop.
Qed.

(** Messages of which each refers to what the ones before it left. *)
Fixpoint chain (S : gmap Z last_msg) (ms : list rtmp_msg) : Prop :=
  match ms with [] => True | m :: ms => msg_ok m /\ follows S m /\ chain (arrived S m) ms end.

(** The messages handed over, with the times the chunk streams give them. *)
Inductive hands : gmap Z last_msg -> list rtmp_msg -> list (rtmp_header * mbuf) -> Prop :=
| hands_nil S : hands S [] []
| hands_cons S m ms h buf outs : hdr_for S m h -> holds buf (m_payload m) 0 -> hands (arrived S m) ms outs -> hands S (m :: ms) ((h, buf) :: outs).

Lemma chain_eats ms : forall S rd, chain S ms -> knows rd S -> rd_ok rd ->
  exists rd' outs, eats rd (concat (map (rtmp_bytes (rd_chunk_sz rd)) ms)) rd' outs /\ hands S ms outs.
Proof.
  induction ms as [|m ms IH]; intros S rd Hc K Hrd; [exists rd, []; split; constructor|]. destruct Hc as (M & Hf & Hc).
  destruct (message_delivers S m rd K M Hf Hrd) as (rd1 & [h buf] & He & Hz & Hrd1 & K1 & (h' & buf' & [= <- <-] & Hh & Hb)).
  destruct (IH _ rd1 Hc K1 Hrd1) as (rd' & outs & He' & Hh'). rewrite Hz in He'. exists rd', ((h, buf) :: outs). cbn [map concat]. split.
  - by apply (eats_app _ _ _ [(h, buf)] _ _ outs He He').
  - by constructor.
Qed.

(** ** Chunks there and back *)

(** All the messages through the chunker. *)
Fixpoint chunk_all (sz : Z) (ms : list rtmp_msg) : option (res (list Z)) :=
  match ms with
  | [] => Some (Ok [])
  | m :: ms =>
      match rtmp_chunker (m_format m) (m_chunk_id m) (m_timestamp m) (m_delta m) (m_type m) (m_stream m) (m_payload m) sz with
      | None => None
      | Some (Err e) => Some (Err e)
      | Some (Ok b) => match chunk_all sz ms with Some (Ok b') => Some (Ok (b ++ b')) | r => r end
      end
  end.

(** A message as a handler gets it: chunk stream, time, type, message stream and payload. *)
Definition received (m : rtmp_header * mbuf) : Z * Z * Z * Z * list Z :=
  (rh_chunk_id m.1, rh_timestamp m.1, rh_type_id m.1, rh_stream_id m.1, rest m.2).

(** rtmp_dechunker_receive until the buffer is empty, with a handler that keeps the messages. *)
Fixpoint dechunk_all (fuel : nat) (rd : rtmp_dechunker) (mb : mbuf) : option (Z * rtmp_dechunker * list (Z * Z * Z * Z * list Z)) :=
  if mbuf_get_left mb =? 0 then Some (0, rd, [])
  else
    match fuel with
    | O => None
    | Datatypes.S fuel =>
        match rtmp_dechunker_receive (fun h b rd l => (0, rd, l ++ [received (h, b)])) rd [] mb with
        | None => None
        | Some (err, rd, l, mb) =>
            if negb (err =? 0) then Some (err, rd, l)
            else match dechunk_all fuel rd mb with Some (err, rd, l') => Some (err, rd, l ++ l') | None => None end
        end
    end.

(** What should arrive: times are absolute, of format 0, or follow from the
    last message of the chunk stream. *)
Fixpoint expected_msgs (S : gmap Z last_msg) (ms : list rtmp_msg) : list (Z * Z * Z * Z * list Z) :=
  match ms with
  | [] => []
  | m :: ms => (m_chunk_id m, time_of S m, m_type m, m_stream m, m_payload m) :: expected_msgs (arrived S m) ms
  end.

Lemma chunk_all_bytes sz ms : forall S, chain S ms -> 0 < sz -> chunk_all sz ms = Some (Ok (concat (map (rtmp_bytes sz) ms))).
Proof.
  induction ms as [|m ms IH]; intros S Hc Hs; [done|]. destruct Hc as (M & _ & Hc). cbn [chunk_all map concat].
  by rewrite (chunker_bytes Ham m sz M Hs), (IH _ Hc Hs).
Qed.

Lemma dechunk_eats rd b rd' ms : eats rd b rd' ms -> forall mb fuel,
  mbuf_wf mb -> rest mb = b -> zlength b <= Z.of_nat fuel -> dechunk_all fuel rd mb = Some (0, rd', map received ms).
Proof.
  induction 1 as [rd|rd p rd1 out b rd2 ms [Hp Ht] He IH]; intros mb fuel W E Hf.
  - destruct fuel; cbn; by rewrite mbuf_get_left_rest, E by done.
  - rewrite zlength_app in Hf. pose proof (zlength_nonneg b). destruct fuel as [|fuel]; [lia|]. cbn [dechunk_all].
    rewrite mbuf_get_left_rest, E, zlength_app, (proj2 (Z.eqb_neq _ 0)) by (done || lia).
    destruct (Ht mb b W E) as [Est _]. destruct (adv_step mb p b (zlength p) W E eq_refl) as [W1 E1].
    unfold rtmp_dechunker_receive. rewrite Est. destruct out as [[h buf]|]; cbn [negb Z.eqb]; by rewrite (IH _ fuel W1 E1) by lia.
Qed.

Lemma hands_expected S ms outs : hands S ms outs -> map received outs = expected_msgs S ms.
Proof.
  induction 1 as [|S m ms h buf outs Hf Hb Hr IH]; [done|]. cbn [map expected_msgs]. rewrite IH. f_equal. unfold received. cbn [fst snd].
  pose proof (hf_last _ _ _ Hf) as Hl. injection Hl as -> _ -> ->. by rewrite (hf_id _ _ _ Hf), (holds_rest _ _ _ Hb), zdrop_0.
Qed.
End Messages.

(** C13: What rtmp_chunker writes, rtmp_dechunker_receive puts together again:
    messages of formats 0, 1 and 2, each with extended timestamps or not, of any
    length below 2^24 and in chunks of any size, are handed over once, in order,
    with their types, streams and payloads and with the times that the chunk
    streams give them, and all the bytes are used. *)
Theorem rtmp_chunk_roundtrip `{H : Host} (S : gmap Z last_msg) (ms : list rtmp_msg) (rd : rtmp_dechunker) :
  ample_memory -> chain S ms -> knows rd S -> rd_ok rd ->
  exists b rd', chunk_all (rd_chunk_sz rd) ms = Some (Ok b) /\
    forall mb, mbuf_wf mb -> rest mb = b -> dechunk_all (Z.to_nat (zlength b)) rd mb = Some (0, rd', expected_msgs S ms).
Proof.
  intros Ham Hc K Hrd. pose proof Hrd as [Hs _]. destruct (chain_eats Ham ms S rd Hc K Hrd) as (rd' & outs & He & Hh).
  eexists. exists rd'. split; [by apply (chunk_all_bytes Ham _ _ S)|]. intros mb W E. rewrite <- (hands_expected _ _ _ Hh).
  eapply dechunk_eats; [exact He|done|done|]. pose proof (zlength_nonneg (concat (map (rtmp_bytes (rd_chunk_sz rd)) ms))). lia.
Qed.

(** Three messages on one chunk stream with the formats 0, 1 and 2, the first
    with an extended timestamp, in chunks of 4 bytes. *)
Definition ex_msgs : list rtmp_msg :=
  [RtmpMsg 0 400 16777215 0 9 1 [1; 2; 3; 4; 5]; RtmpMsg 1 400 0 40 8 1 [6; 7]; RtmpMsg 2 400 0 4294967295 8 1 [8; 9]].

Lemma ex_msgs_expected :
  expected_msgs ∅ ex_msgs = [(400, 16777215, 9, 1, [1; 2; 3; 4; 5]); (400, 16777255, 8, 1, [6; 7]); (400, 16777254, 8, 1, [8; 9])].
Proof. by vm_compute. Qed.

Lemma rtmp_chunk_roundtrip_witness :
  exists b rd', chunk_all (H := lp64_le) 4 ex_msgs = Some (Ok b) /\
    forall mb, mbuf_wf mb -> rest mb = b -> dechunk_all (H := lp64_le) (Z.to_nat (zlength b)) (RtmpDechunker [] 4) mb
      = Some (0, rd', [(400, 16777215, 9, 1, [1; 2; 3; 4; 5]); (400, 16777255, 8, 1, [6; 7]); (400, 16777254, 8, 1, [8; 9])]).
Proof.
  rewrite <- ex_msgs_expected. apply (rtmp_chunk_roundtrip (H := lp64_le) ∅ ex_msgs (RtmpDechunker [] 4)); [exact lp64_ample| | |].
  - repeat split; try done; cbn [m_payload]; by_compute.
  - split; [intros cs; by rewrite lookup_empty|by vm_compute].
  - split; [by vm_compute|by apply Forall_nil_2].
Defined.
