(* ===== verification/RtmpConn.v ===== *)
(** * RTMP connections: src/src/rtmp/conn.c, control.c, amf.c, ctrans.c and stream.c

    A connection is the record [rtmp_conn]; the operations are computations in
    the monad [R]: state, error codes, and what is handed to the outside
    ([rtmp_out]): bytes for TCP and calls of the user's handlers.  An early
    return keeps what was done before it; [None] is a loop that has not ended
    or an access to freed memory.  Handlers of the user run after the step; whether one is set is a flag.
    The handlers that the library registers for responses are [resp_h].  Streams
    and transactions are named by a number the connection counts up ([rc_next]).

    [net n] is what the n-th call of tcp_send on the connection returns, [rnd]
    the random bytes of the handshake, [ver] the version of the library and
    [cvt] the conversion of doubles out of range. *)

From stdpp Require Import base list numbers strings.
From Stdlib Require Import ZArith Lia.
From S2P Require Import Prelude Endian Mbuf MbufView Format Sa Dname Fmt Odict Amf Rtmp.

Open Scope Z_scope.

Definition RTMP_PROTOCOL_VERSION : Z := 3.
Definition RTMP_DEFAULT_CHUNKSIZE : Z := 128.
Definition RTMP_HANDSHAKE_SIZE : Z := 1536.
Definition RTMP_MESSAGE_LEN_MAX : Z := 524288.
Definition RTMP_CHUNK_ID_CONTROL : Z := 2.
Definition RTMP_CHUNK_ID_CONN : Z := 3.
Definition RTMP_CONTROL_STREAM_ID : Z := 0.
Definition WINDOW_ACK_SIZE : Z := 2500000.

Definition RTMP_TYPE_SET_CHUNK_SIZE : Z := 1.
Definition RTMP_TYPE_ACKNOWLEDGEMENT : Z := 3.
Definition RTMP_TYPE_USER_CONTROL_MSG : Z := 4.
Definition RTMP_TYPE_WINDOW_ACK_SIZE : Z := 5.
Definition RTMP_TYPE_SET_PEER_BANDWIDTH : Z := 6.
Definition RTMP_TYPE_AUDIO : Z := 8.
Definition RTMP_TYPE_VIDEO : Z := 9.
Definition RTMP_TYPE_DATA : Z := 18.
Definition RTMP_TYPE_AMF0 : Z := 20.

Definition RTMP_EVENT_STREAM_BEGIN : Z := 0.
Definition RTMP_EVENT_STREAM_EOF : Z := 1.
Definition RTMP_EVENT_STREAM_DRY : Z := 2.
Definition RTMP_EVENT_SET_BUFFER_LENGTH : Z := 3.
Definition RTMP_EVENT_STREAM_IS_RECORDED : Z := 4.
Definition RTMP_EVENT_PING_REQUEST : Z := 6.
Definition RTMP_EVENT_PING_RESPONSE : Z := 7.

Inductive rtmp_handshake_state :=
| RTMP_STATE_UNINITIALIZED
| RTMP_STATE_VERSION_SENT
| RTMP_STATE_ACK_SENT
| RTMP_STATE_HANDSHAKE_DONE.

#[export] Instance rtmp_handshake_state_eq_dec : EqDecision rtmp_handshake_state.
Proof. solve_decision. Defined.

(** The response handlers: connect_resp_handler, createstream_handler of a
    stream, or the user's. *)
Inductive resp_h := RConnect | RCreateStream (strm : Z) | RUser (tag : Z).

Record rtmp_ctrans := RtmpCtrans {
  ct_tid : Z;
  ct_resph : resp_h;
}.

Record rtmp_stream := RtmpStream {
  st_ref : Z;
  st_created : bool;
  st_stream_id : Z;
  st_chunk_id_audio : Z;
  st_chunk_id_video : Z;
  st_chunk_id_data : Z;
  st_auh : bool;
  st_vidh : bool;
  st_datah : bool;
  st_cmdh : bool;
  st_resph : bool;
  st_ctrlh : bool;
}.

Record rtmp_conn := RtmpConn {
  rc_streaml : list rtmp_stream;
  rc_dechunk : rtmp_dechunker;
  rc_tc : bool;
  rc_mb : option mbuf;
  rc_state : rtmp_handshake_state;
  rc_total_bytes : Z;
  rc_last_ack : Z;
  rc_window_ack_size : Z;
  rc_send_chunk_size : Z;
  rc_chunk_id_counter : Z;
  rc_is_client : bool;
  rc_connected : bool;
  rc_estabh : bool;
  rc_cmdh : bool;
  rc_closeh : bool;
  rc_ctransl : list rtmp_ctrans;
  rc_srvv : list sa;
  rc_tid_counter : Z;
  rc_app : list Z;
  rc_uri : list Z;
  rc_next : Z;
  rc_sends : nat;
}.

(** What a connection does to the outside; bytes are labelled with the type of
    the message they carry. *)
Inductive rtmp_out :=
| OSend (type : option Z) (d : list Z)
| OConnect (addr : sa)
| OEstab
| OClose (err : Z)
| OCommand (msg : odict)
| OStreamCommand (strm : Z) (msg : odict)
| OStreamData (strm : Z) (msg : odict)
| OControl (strm event : Z) (d : list Z)
| OAudio (strm timestamp : Z) (pld : list Z)
| OVideo (strm timestamp : Z) (pld : list Z)
| OStreamResp (strm : Z) (success : bool) (msg : odict)
| OResp (tag : Z) (success : bool) (msg : odict).

(** Field updates. *)
Definition upd_core (c : rtmp_conn) (dechunk : rtmp_dechunker) (mb : option mbuf) (state : rtmp_handshake_state) : rtmp_conn :=
  RtmpConn (rc_streaml c) dechunk (rc_tc c) mb state (rc_total_bytes c) (rc_last_ack c) (rc_window_ack_size c)
    (rc_send_chunk_size c) (rc_chunk_id_counter c) (rc_is_client c) (rc_connected c) (rc_estabh c) (rc_cmdh c) (rc_closeh c)
    (rc_ctransl c) (rc_srvv c) (rc_tid_counter c) (rc_app c) (rc_uri c) (rc_next c) (rc_sends c).
Definition set_dechunk (d : rtmp_dechunker) (c : rtmp_conn) : rtmp_conn := upd_core c d (rc_mb c) (rc_state c).
Definition set_mb (mb : option mbuf) (c : rtmp_conn) : rtmp_conn := upd_core c (rc_dechunk c) mb (rc_state c).
Definition set_state (s : rtmp_handshake_state) (c : rtmp_conn) : rtmp_conn := upd_core c (rc_dechunk c) (rc_mb c) s.

Definition upd_counts (c : rtmp_conn) (total last window chunk : Z) : rtmp_conn :=
  RtmpConn (rc_streaml c) (rc_dechunk c) (rc_tc c) (rc_mb c) (rc_state c) total last window chunk (rc_chunk_id_counter c)
    (rc_is_client c) (rc_connected c) (rc_estabh c) (rc_cmdh c) (rc_closeh c) (rc_ctransl c) (rc_srvv c) (rc_tid_counter c)
    (rc_app c) (rc_uri c) (rc_next c) (rc_sends c).
Definition set_total (n : Z) (c : rtmp_conn) : rtmp_conn := upd_counts c n (rc_last_ack c) (rc_window_ack_size c) (rc_send_chunk_size c).
Definition set_last_ack (n : Z) (c : rtmp_conn) : rtmp_conn := upd_counts c (rc_total_bytes c) n (rc_window_ack_size c) (rc_send_chunk_size c).
Definition set_window (n : Z) (c : rtmp_conn) : rtmp_conn := upd_counts c (rc_total_bytes c) (rc_last_ack c) n (rc_send_chunk_size c).
Definition set_send_chunk_size (n : Z) (c : rtmp_conn) : rtmp_conn := upd_counts c (rc_total_bytes c) (rc_last_ack c) (rc_window_ack_size c) n.

Definition upd_life (c : rtmp_conn) (tc connected estabh closeh : bool) (srvv : list sa) (sends : nat) : rtmp_conn :=
  RtmpConn (rc_streaml c) (rc_dechunk c) tc (rc_mb c) (rc_state c) (rc_total_bytes c) (rc_last_ack c) (rc_window_ack_size c)
    (rc_send_chunk_size c) (rc_chunk_id_counter c) (rc_is_client c) connected estabh (rc_cmdh c) closeh
    (rc_ctransl c) srvv (rc_tid_counter c) (rc_app c) (rc_uri c) (rc_next c) sends.
Definition set_tc (b : bool) (c : rtmp_conn) : rtmp_conn := upd_life c b (rc_connected c) (rc_estabh c) (rc_closeh c) (rc_srvv c) (rc_sends c).
Definition set_connected (c : rtmp_conn) : rtmp_conn := upd_life c (rc_tc c) true (rc_estabh c) (rc_closeh c) (rc_srvv c) (rc_sends c).
Definition set_estabh (b : bool) (c : rtmp_conn) : rtmp_conn := upd_life c (rc_tc c) (rc_connected c) b (rc_closeh c) (rc_srvv c) (rc_sends c).
Definition set_closeh (b : bool) (c : rtmp_conn) : rtmp_conn := upd_life c (rc_tc c) (rc_connected c) (rc_estabh c) b (rc_srvv c) (rc_sends c).
Definition set_srvv (l : list sa) (c : rtmp_conn) : rtmp_conn := upd_life c (rc_tc c) (rc_connected c) (rc_estabh c) (rc_closeh c) l (rc_sends c).
Definition set_sends (n : nat) (c : rtmp_conn) : rtmp_conn := upd_life c (rc_tc c) (rc_connected c) (rc_estabh c) (rc_closeh c) (rc_srvv c) n.

Definition upd_users (c : rtmp_conn) (streaml : list rtmp_stream) (ctransl : list rtmp_ctrans) (chunk_id tid next : Z) : rtmp_conn :=
  RtmpConn streaml (rc_dechunk c) (rc_tc c) (rc_mb c) (rc_state c) (rc_total_bytes c) (rc_last_ack c) (rc_window_ack_size c)
    (rc_send_chunk_size c) chunk_id (rc_is_client c) (rc_connected c) (rc_estabh c) (rc_cmdh c) (rc_closeh c)
    ctransl (rc_srvv c) tid (rc_app c) (rc_uri c) next (rc_sends c).
Definition set_streaml (l : list rtmp_stream) (c : rtmp_conn) : rtmp_conn :=
  upd_users c l (rc_ctransl c) (rc_chunk_id_counter c) (rc_tid_counter c) (rc_next c).
Definition set_ctransl (l : list rtmp_ctrans) (c : rtmp_conn) : rtmp_conn :=
  upd_users c (rc_streaml c) l (rc_chunk_id_counter c) (rc_tid_counter c) (rc_next c).

(** rtmp_set_handlers *)
Definition rtmp_set_handlers (cmdh closeh : bool) (c : rtmp_conn) : rtmp_conn :=
  RtmpConn (rc_streaml c) (rc_dechunk c) (rc_tc c) (rc_mb c) (rc_state c) (rc_total_bytes c) (rc_last_ack c) (rc_window_ack_size c)
    (rc_send_chunk_size c) (rc_chunk_id_counter c) (rc_is_client c) (rc_connected c) (rc_estabh c) cmdh closeh
    (rc_ctransl c) (rc_srvv c) (rc_tid_counter c) (rc_app c) (rc_uri c) (rc_next c) (rc_sends c).

(** ** Computations over a connection *)

Definition R (A : Type) : Type := rtmp_conn -> option (res A * rtmp_conn * list rtmp_out).
Definition rret {A} (a : A) : R A := fun c => Some (Ok a, c, []).
Definition rthrow {A} (e : Z) : R A := fun c => Some (Err e, c, []).
Definition rbind {A B} (m : R A) (k : A -> R B) : R B := fun c =>
  match m c with
  | None => None
  | Some (Err e, c, o) => Some (Err e, c, o)
  | Some (Ok a, c, o) =>
      match k a c with
      | None => None
      | Some (r, c, o') => Some (r, c, o ++ o')
      end
  end.
Definition rget : R rtmp_conn := fun c => Some (Ok c, c, []).
Definition rset (f : rtmp_conn -> rtmp_conn) : R unit := fun c => Some (Ok tt, f c, []).
Definition emit (o : rtmp_out) : R unit := fun c => Some (Ok tt, c, [o]).
Definition rlift {A} (r : option (res A)) : R A := fun c => match r with None => None | Some r => Some (r, c, []) end.
(** The error code a call returns, as a value. *)
Definition rcode {A} (m : R A) : R Z := fun c =>
  match m c with
  | None => None
  | Some (Ok _, c, o) => Some (Ok 0, c, o)
  | Some (Err e, c, o) => Some (Ok e, c, o)
  end.

Declare Scope rtmp_scope.
Delimit Scope rtmp_scope with rtmp.
Notation "'let*' x := m 'in' k" := (rbind m (fun x => k)) (at level 10, x pattern, m at level 100, k at level 200) : rtmp_scope.
Notation "m ;;* k" := (rbind m (fun _ => k)) (at level 100, right associativity) : rtmp_scope.
Open Scope rtmp_scope.

Section Conn.
Context `{H : Host} (net : nat -> Z) (rnd : list Z) (ver : Z * Z * Z) (cvt : Z -> Z).

(** ** Sending *)

Definition tcp_send (type : option Z) (d : list Z) : R unit :=
  let* c := rget in
  if negb (rc_tc c) then rthrow EINVAL
  else
    rset (set_sends (S (rc_sends c))) ;;*
    (if net (rc_sends c) =? 0 then emit (OSend type d) else rthrow (net (rc_sends c))).

Definition send_packet (pkt : list Z) : R unit :=
  match mbuf_alloc (zlength pkt) with
  | None => rthrow ENOMEM
  | Some mb => tcp_send None (rest (mbuf_set_pos (mbuf_write_mem mb pkt).2 0))
  end.

Definition rtmp_conn_send_msg (format chunk_id timestamp timestamp_delta msg_type_id msg_stream_id : Z) (payload : list Z) : R unit :=
  let* c := rget in
  if (zlength payload =? 0) || negb (rc_tc c) then rthrow EINVAL
  else
    let* d := rlift (rtmp_chunker format chunk_id timestamp timestamp_delta msg_type_id msg_stream_id payload (rc_send_chunk_size c)) in
    tcp_send (Some msg_type_id) d.

Definition rtmp_send_amf_command (format chunk_id type_id msg_stream_id : Z) (cmd : list Z) : R unit :=
  rtmp_conn_send_msg format chunk_id 0 0 type_id msg_stream_id cmd.

(** control.c: the variable arguments of rtmp_control by the type. *)
Inductive rtmp_ctrl :=
| CSetChunkSize (v : Z)
| CAcknowledgement (v : Z)
| CWindowAckSize (v : Z)
| CUserControl (event v : Z)
| CPeerBandwidth (v limit : Z).

Definition ctrl_type (x : rtmp_ctrl) : Z :=
  match x with
  | CSetChunkSize _ => RTMP_TYPE_SET_CHUNK_SIZE
  | CAcknowledgement _ => RTMP_TYPE_ACKNOWLEDGEMENT
  | CWindowAckSize _ => RTMP_TYPE_WINDOW_ACK_SIZE
  | CUserControl _ _ => RTMP_TYPE_USER_CONTROL_MSG
  | CPeerBandwidth _ _ => RTMP_TYPE_SET_PEER_BANDWIDTH
  end.

Definition ctrl_encode (x : rtmp_ctrl) : mbuf -> Z * mbuf :=
  match x with
  | CSetChunkSize v | CAcknowledgement v | CWindowAckSize v => write_be32 v
  | CUserControl event v => write_be16 (u16 event) ;| write_be32 v
  | CPeerBandwidth v limit => write_be32 v ;| mbuf_write_u8 limit
  end.

Definition rtmp_control (x : rtmp_ctrl) : R unit :=
  match mbuf_alloc 8 with
  | None => rthrow ENOMEM
  | Some mb =>
      let '(err, mb) := ctrl_encode x mb in
      if negb (err =? 0) then rthrow err
      else rtmp_conn_send_msg 0 RTMP_CHUNK_ID_CONTROL 0 0 (ctrl_type x) RTMP_CONTROL_STREAM_ID (content mb)
  end.

(** ** amf.c and ctrans.c *)

(** The body of a command, with the buffer rtmp_amf_command and its siblings
    allocate; [props] may be empty. *)
Definition amf_body (head : mbuf -> Z * mbuf) (props : amf_props) : R (list Z) :=
  match mbuf_alloc 512 with
  | None => rthrow ENOMEM
  | Some mb =>
      let '(err, mb) := (head ;& (if zlength props =? 0 then ret_ok else rtmp_amf_vencode_object AMF_ROOT props)) mb in
      if negb (err =? 0) then rthrow err else rret (content mb)
  end.

Definition rtmp_amf_command (stream_id : Z) (command : list Z) (props : amf_props) : R unit :=
  let* d := amf_body (rtmp_amf_encode_string (Some command)) props in
  rtmp_send_amf_command 0 RTMP_CHUNK_ID_CONN RTMP_TYPE_AMF0 stream_id d.

Definition rtmp_amf_data (stream_id : Z) (command : list Z) (props : amf_props) : R unit :=
  let* d := amf_body (rtmp_amf_encode_string (Some command)) props in
  rtmp_send_amf_command 0 RTMP_CHUNK_ID_CONN RTMP_TYPE_DATA stream_id d.

Definition rtmp_amf_reply (stream_id : Z) (success : bool) (req : odict) (props : amf_props) : R unit :=
  match odict_get_number cvt req (dec_str 1) with
  | None => rthrow EPROTO
  | Some tid =>
      if tid =? 0 then rthrow EPROTO
      else
        let* d := amf_body (rtmp_command_header_encode (chars (if success then "_result" else "_error")) tid) props in
        rtmp_send_amf_command 0 RTMP_CHUNK_ID_CONN RTMP_TYPE_AMF0 stream_id d
  end.

Definition rtmp_conn_assign_tid : R Z :=
  let* c := rget in
  let tid := u64 (rc_tid_counter c + 1) in
  rset (fun c => upd_users c (rc_streaml c) (rc_ctransl c) (rc_chunk_id_counter c) tid (rc_next c)) ;;* rret tid.

Definition rtmp_conn_assign_chunkid : R Z :=
  let* c := rget in
  let id := u32 (rc_chunk_id_counter c + 1) in
  rset (fun c => upd_users c (rc_streaml c) (rc_ctransl c) id (rc_tid_counter c) (rc_next c)) ;;* rret id.

(** sizeof(struct rtmp_ctrans) and (struct rtmp_stream) *)
Definition RTMP_CTRANS_STRUCT : Z := 56.
Definition RTMP_STREAM_STRUCT : Z := 120.

Definition rtmp_amf_request (stream_id : Z) (command : list Z) (resph : resp_h) (props : amf_props) : R unit :=
  match mbuf_alloc 512, mem_alloc RTMP_CTRANS_STRUCT with
  | None, _ | _, None => rthrow ENOMEM
  | Some _, Some _ =>
      let* tid := rtmp_conn_assign_tid in
      let* d := amf_body (rtmp_command_header_encode command tid) props in
      rtmp_send_amf_command 0 RTMP_CHUNK_ID_CONN RTMP_TYPE_AMF0 stream_id d ;;*
      rset (fun c => set_ctransl (rc_ctransl c ++ [RtmpCtrans tid resph]) c)
  end.

Definition rtmp_ctrans_find (l : list rtmp_ctrans) (tid : Z) : option rtmp_ctrans :=
  List.find (fun ct => tid =? ct_tid ct) l.

(** The first transaction with the number leaves the list. *)
Fixpoint without_tid (tid : Z) (l : list rtmp_ctrans) : list rtmp_ctrans :=
  match l with
  | [] => []
  | ct :: l => if tid =? ct_tid ct then l else ct :: without_tid tid l
  end.

(** ** Closing *)

Definition conn_close (err : Z) : R unit :=
  rset (set_tc false) ;;*
  (let* c := rget in
   if rc_closeh c then rset (set_closeh false) ;;* emit (OClose err) else rret tt).

(** ** Streams *)

Definition rtmp_stream_find (c : rtmp_conn) (stream_id : Z) : option rtmp_stream :=
  List.find (fun s => stream_id =? st_stream_id s) (rc_streaml c).

Definition upd_stream (ref : Z) (f : rtmp_stream -> rtmp_stream) (l : list rtmp_stream) : list rtmp_stream :=
  map (fun s => if st_ref s =? ref then f s else s) l.

Definition set_created (created : bool) (id : Z) (s : rtmp_stream) : rtmp_stream :=
  RtmpStream (st_ref s) created id (st_chunk_id_audio s) (st_chunk_id_video s) (st_chunk_id_data s) (st_auh s) (st_vidh s)
    (st_datah s) (st_cmdh s) (st_resph s) (st_ctrlh s).

(** connect_resp_handler *)
Definition connect_resp_handler (success : bool) : R unit :=
  if negb success then conn_close EPROTO
  else
    rset set_connected ;;*
    (let* c := rget in
     if rc_estabh c then rset (set_estabh false) ;;* emit OEstab else rret tt).

(** createstream_handler of the stream [ref].  The transaction keeps a pointer
    to the stream; when the stream is gone the access is undefined: [None]. *)
Definition createstream_handler (ref : Z) (success : bool) (msg : odict) : R unit :=
  let* c := rget in
  match List.find (fun s => st_ref s =? ref) (rc_streaml c) with
  | None => fun _ => None
  | Some strm =>
      let '(ok, id) :=
        if negb success then (false, st_stream_id strm)
        else match odict_get_number cvt msg (dec_str 3) with
             | None => (false, st_stream_id strm)
             | Some num => (negb (u32 num =? 0), u32 num)
             end in
      rset (fun c => set_streaml (upd_stream ref (set_created (st_created strm || ok) id) (rc_streaml c)) c) ;;*
      (if st_resph strm then emit (OStreamResp ref ok msg) else rret tt)
  end.

Definition rtmp_ctrans_response (msg : odict) : R unit :=
  let success := str_casecmp (odict_string msg (dec_str 0)) (Some (chars "_result")) =? 0 in
  match odict_get_number cvt msg (dec_str 1) with
  | None => rthrow EPROTO
  | Some tid =>
      let* c := rget in
      match rtmp_ctrans_find (rc_ctransl c) tid with
      | None => rthrow ENOENT
      | Some ct =>
          rset (fun c => set_ctransl (without_tid tid (rc_ctransl c)) c) ;;*
          match ct_resph ct with
          | RConnect => connect_resp_handler success
          | RCreateStream ref => createstream_handler ref success msg
          | RUser tag => emit (OResp tag success msg)
          end
      end
  end.

(** ** Received messages *)

Definition amf_decode (mb : mbuf) : R odict := fun c =>
  match rtmp_amf_decode mb with
  | None => None
  | Some (r, _) => Some (r, c, [])
  end.

Definition handle_amf_command (stream_id : Z) (mb : mbuf) : R unit :=
  let* msg := amf_decode mb in
  let name := odict_string msg (dec_str 0) in
  let* c := rget in
  if rc_is_client c && ((str_casecmp name (Some (chars "_result")) =? 0) || (str_casecmp name (Some (chars "_error")) =? 0)) then
    rcode (rtmp_ctrans_response msg) ;;* rret tt
  else if stream_id =? 0 then (if rc_cmdh c then emit (OCommand msg) else rret tt)
  else
    match rtmp_stream_find c stream_id with
    | Some strm => if st_cmdh strm then emit (OStreamCommand (st_ref strm) msg) else rret tt
    | None => rret tt
    end.

Definition handle_user_control_msg (mb : mbuf) : R unit :=
  if mbuf_get_left mb <? 6 then rthrow EBADMSG
  else
    let '(event, mb) := read_be16 mb in
    let '(value, mb) := read_be32 mb in
    if (event =? RTMP_EVENT_STREAM_BEGIN) || (event =? RTMP_EVENT_STREAM_EOF) || (event =? RTMP_EVENT_STREAM_DRY)
       || (event =? RTMP_EVENT_STREAM_IS_RECORDED) || (event =? RTMP_EVENT_SET_BUFFER_LENGTH) then
      if negb (value =? RTMP_CONTROL_STREAM_ID) then
        let* c := rget in
        match rtmp_stream_find c value with
        | Some strm => if st_ctrlh strm then emit (OControl (st_ref strm) event (rest mb)) else rret tt
        | None => rret tt
        end
      else rret tt
    else if event =? RTMP_EVENT_PING_REQUEST then rtmp_control (CUserControl RTMP_EVENT_PING_RESPONSE value)
    else rret tt.

Definition handle_data_message (stream_id : Z) (mb : mbuf) : R unit :=
  let* msg := amf_decode mb in
  let* c := rget in
  match rtmp_stream_find c stream_id with
  | Some strm => if st_datah strm then emit (OStreamData (st_ref strm) msg) else rret tt
  | None => rret tt
  end.

Definition rtmp_dechunk_handler (hdr : rtmp_header) (mb : mbuf) : R unit :=
  let* c := rget in
  let type := rh_type_id hdr in
  if type =? RTMP_TYPE_SET_CHUNK_SIZE then
    if mbuf_get_left mb <? 4 then rthrow EBADMSG
    else rset (fun c => set_dechunk (rtmp_dechunker_set_chunksize (Z.land (read_be32 mb).1 0x7fffffff) (rc_dechunk c)) c)
  else if type =? RTMP_TYPE_ACKNOWLEDGEMENT then
    if mbuf_get_left mb <? 4 then rthrow EBADMSG else rret tt
  else if type =? RTMP_TYPE_AMF0 then handle_amf_command (rh_stream_id hdr) mb
  else if type =? RTMP_TYPE_WINDOW_ACK_SIZE then
    if mbuf_get_left mb <? 4 then rthrow EBADMSG
    else let was := (read_be32 mb).1 in if negb (was =? 0) then rset (set_window was) else rret tt
  else if type =? RTMP_TYPE_SET_PEER_BANDWIDTH then
    if mbuf_get_left mb <? 5 then rthrow EBADMSG
    else
      let was := (read_be32 mb).1 in
      (if negb (was =? 0) then rset (set_window was) else rret tt) ;;* rtmp_control (CWindowAckSize WINDOW_ACK_SIZE)
  else if type =? RTMP_TYPE_USER_CONTROL_MSG then handle_user_control_msg mb
  else if type =? RTMP_TYPE_AUDIO then
    match rtmp_stream_find c (rh_stream_id hdr) with
    | Some strm => if st_auh strm then emit (OAudio (st_ref strm) (rh_timestamp hdr) (content mb)) else rret tt
    | None => rret tt
    end
  else if type =? RTMP_TYPE_VIDEO then
    match rtmp_stream_find c (rh_stream_id hdr) with
    | Some strm => if st_vidh strm then emit (OVideo (st_ref strm) (rh_timestamp hdr) (content mb)) else rret tt
    | None => rret tt
    end
  else if type =? RTMP_TYPE_DATA then handle_data_message (rh_stream_id hdr) mb
  else rret tt.

(** rtmp_dechunker_receive with rtmp_dechunk_handler. *)
Definition conn_receive (mb : mbuf) : R mbuf := fun c =>
  match dechunk_step (rc_dechunk c) mb with
  | None => None
  | Some (err, rd, mb, None) => Some (if err =? 0 then Ok mb else Err err, set_dechunk rd c, [])
  | Some (_, rd, mb, Some (hdr, buf)) => (rtmp_dechunk_handler hdr buf ;;* rret mb) (set_dechunk rd c)
  end.

(** ** stream.c *)

Definition rtmp_stream_alloc (stream_id : Z) (cmdh ctrlh auh vidh datah : bool) : R Z :=
  match mem_alloc RTMP_STREAM_STRUCT with
  | None => rthrow ENOMEM
  | Some _ =>
      let* a := rtmp_conn_assign_chunkid in
      let* v := rtmp_conn_assign_chunkid in
      let* d := rtmp_conn_assign_chunkid in
      let* c := rget in
      rset (fun c => upd_users c (rc_streaml c ++ [RtmpStream (rc_next c) false stream_id a v d auh vidh datah cmdh false ctrlh])
                       (rc_ctransl c) (rc_chunk_id_counter c) (rc_tid_counter c) (rc_next c + 1)) ;;*
      rret (rc_next c)
  end.

Definition set_resph (b : bool) (s : rtmp_stream) : rtmp_stream :=
  RtmpStream (st_ref s) (st_created s) (st_stream_id s) (st_chunk_id_audio s) (st_chunk_id_video s) (st_chunk_id_data s) (st_auh s)
    (st_vidh s) (st_datah s) (st_cmdh s) b (st_ctrlh s).

(** The destructor of a stream. *)
Definition stream_destructor (ref : Z) : R unit :=
  let* c := rget in
  match List.find (fun s => st_ref s =? ref) (rc_streaml c) with
  | None => fun _ => None
  | Some strm =>
      rset (fun c => set_streaml (List.filter (fun s => negb (st_ref s =? ref)) (rc_streaml c)) c) ;;*
      (if st_created strm then
         rcode (rtmp_amf_command 0 (chars "deleteStream")
           [(None, ANumber 0); (None, ANull); (None, ANumber (dbl_of_u64 (st_stream_id strm)))]) ;;* rret tt
       else rret tt)
  end.

Definition rtmp_stream_create (resph cmdh ctrlh auh vidh datah : bool) : R Z :=
  let* ref := rtmp_stream_alloc (2 ^ 32 - 1) cmdh ctrlh auh vidh datah in
  rset (fun c => set_streaml (upd_stream ref (set_resph resph) (rc_streaml c)) c) ;;*
  (let* err := rcode (rtmp_amf_request 0 (chars "createStream") (RCreateStream ref) [(None, ANull)]) in
   if negb (err =? 0) then stream_destructor ref ;;* rthrow err else rret ref).

(** The bits of the double -2000.0. *)
Definition dbl_minus_2000 : Z := 2 ^ 63 + dbl_of_u64 2000.

Definition rtmp_play (strm : rtmp_stream) (name : list Z) : R unit :=
  rtmp_amf_command (st_stream_id strm) (chars "play")
    [(None, ANumber 0); (None, ANull); (None, AString (Some name)); (None, ANumber dbl_minus_2000)].

Definition rtmp_publish (strm : rtmp_stream) (name : list Z) : R unit :=
  rtmp_amf_command (st_stream_id strm) (chars "publish")
    [(None, ANumber 0); (None, ANull); (None, AString (Some name)); (None, AString (Some (chars "live")))].

Definition rtmp_meta (strm : rtmp_stream) : R unit :=
  rtmp_amf_data (st_stream_id strm) (chars "@setDataFrame")
    [(None, AString (Some (chars "onMetaData")));
     (None, AContainer AMF_ECMA_ARRAY [(Some (chars "audiocodecid"), ANumber (dbl_of_u64 10)); (Some (chars "videocodecid"), ANumber (dbl_of_u64 7))])].

Definition rtmp_send_audio (strm : rtmp_stream) (timestamp : Z) (pld : list Z) : R unit :=
  if zlength pld =? 0 then rthrow EINVAL
  else rtmp_conn_send_msg 0 (st_chunk_id_audio strm) timestamp 0 RTMP_TYPE_AUDIO (st_stream_id strm) pld.

Definition rtmp_send_video (strm : rtmp_stream) (timestamp : Z) (pld : list Z) : R unit :=
  if zlength pld =? 0 then rthrow EINVAL
  else rtmp_conn_send_msg 0 (st_chunk_id_video strm) timestamp 0 RTMP_TYPE_VIDEO (st_stream_id strm) pld.

(** ** The handshake *)

(** The version byte, a zero time, the version of the library and random bytes. *)
Definition handshake_sig : list Z :=
  let '(major, minor, patch) := ver in [RTMP_PROTOCOL_VERSION; 0; 0; 0; 0; major; minor; patch; 0] ++ rnd.

Definition handshake_start : R unit :=
  send_packet handshake_sig ;;* rset (set_state RTMP_STATE_VERSION_SENT).

Definition tcp_estab_handler : R unit :=
  let* c := rget in
  let* err := (if rc_is_client c then rcode handshake_start else rret 0) in
  if negb (err =? 0) then conn_close err else rret tt.

Definition send_connect : R unit :=
  let* c := rget in
  rtmp_amf_request RTMP_CONTROL_STREAM_ID (chars "connect") RConnect
    [(None, AContainer AMF_OBJECT
       [(Some (chars "app"), AString (Some (rc_app c)));
        (Some (chars "flashVer"), AString (Some (chars "FMLE/3.0")));
        (Some (chars "tcUrl"), AString (Some (rc_uri c)));
        (Some (chars "fpad"), ABoolean false);
        (Some (chars "capabilities"), ANumber (dbl_of_u64 15));
        (Some (chars "audioCodecs"), ANumber (dbl_of_u64 0x0400));
        (Some (chars "videoCodecs"), ANumber (dbl_of_u64 0x0080));
        (Some (chars "videoFunction"), ANumber (dbl_of_u64 1))])].

(** A test for [n] bytes. *)
Definition rneed (n : Z) (mb : mbuf) : R unit := if mbuf_get_left mb <? n then rthrow ENODATA else rret tt.

(** Copying the peer's handshake packet back; sizeof(s1), sizeof(c1). *)
Definition echo (mb : mbuf) : R mbuf :=
  let '(_, s1, mb) := mbuf_read_mem mb RTMP_HANDSHAKE_SIZE in
  send_packet s1 ;;* rset (set_state RTMP_STATE_ACK_SENT) ;;* rret mb.

Definition start_chunks : R unit :=
  rset (set_send_chunk_size 4096) ;;* rtmp_control (CSetChunkSize 4096).

Definition client_handle_packet (mb : mbuf) : R mbuf :=
  let* c := rget in
  match rc_state c with
  | RTMP_STATE_VERSION_SENT =>
      rneed (1 + RTMP_HANDSHAKE_SIZE) mb ;;*
      (let '(s0, mb) := mbuf_read_u8 mb in
       if negb (s0 =? RTMP_PROTOCOL_VERSION) then rthrow EPROTO else echo mb)
  | RTMP_STATE_ACK_SENT =>
      rneed RTMP_HANDSHAKE_SIZE mb ;;* start_chunks ;;* send_connect ;;*
      rset (set_state RTMP_STATE_HANDSHAKE_DONE) ;;* rret (mbuf_advance mb RTMP_HANDSHAKE_SIZE)
  | RTMP_STATE_HANDSHAKE_DONE => conn_receive mb
  | RTMP_STATE_UNINITIALIZED => rthrow EPROTO
  end.

Definition server_handle_packet (mb : mbuf) : R mbuf :=
  let* c := rget in
  match rc_state c with
  | RTMP_STATE_UNINITIALIZED =>
      rneed 1 mb ;;*
      (let '(c0, mb) := mbuf_read_u8 mb in
       if negb (c0 =? RTMP_PROTOCOL_VERSION) then rthrow EPROTO else handshake_start ;;* rret mb)
  | RTMP_STATE_VERSION_SENT => rneed RTMP_HANDSHAKE_SIZE mb ;;* echo mb
  | RTMP_STATE_ACK_SENT =>
      rneed RTMP_HANDSHAKE_SIZE mb ;;* start_chunks ;;*
      rset (set_state RTMP_STATE_HANDSHAKE_DONE) ;;* rret (mbuf_advance mb RTMP_HANDSHAKE_SIZE)
  | RTMP_STATE_HANDSHAKE_DONE => conn_receive mb
  end.

Definition handle_packet (mb : mbuf) : R mbuf :=
  let* c := rget in if rc_is_client c then client_handle_packet mb else server_handle_packet mb.

(** ** Receiving *)

(** The loop over the packets in the reassembly buffer.  The value is whether
    to go on after the loop; a closed connection returns at once. *)
Fixpoint recv_loop (fuel : nat) (mb : mbuf) : R bool :=
  if mbuf_get_left mb >? 0 then
    match fuel with
    | O => fun _ => None
    | S fuel => fun c =>
        match handle_packet mb c with
        | None => None
        | Some (r, c, o) =>
            if negb (rc_tc c) then Some (Ok false, set_mb (Some mb) c, o)
            else
              match r with
              | Err e => Some (if e =? ENODATA then Ok true else Err e, set_mb (Some mb) c, o)
              | Ok mb =>
                  if mb_pos mb >=? mb_end mb then Some (Ok true, set_mb None c, o)
                  else
                    match recv_loop fuel mb c with
                    | None => None
                    | Some (r, c, o') => Some (r, c, o ++ o')
                    end
              end
        end
    end
  else fun c => Some (Ok true, set_mb (Some mb) c, []).

(** Re-assembly of fragments.  No handler looks at the buffer of the
    connection, so the loop takes it out and puts it back. *)
Definition reassemble (mb_pkt : mbuf) : R mbuf :=
  let* c := rget in
  match rc_mb c with
  | None => rret mb_pkt
  | Some mb =>
      if mbuf_get_left mb + mbuf_get_left mb_pkt >? RTMP_MESSAGE_LEN_MAX then rthrow EOVERFLOW
      else
        let '(err, mb') := mbuf_write_mem (mbuf_set_pos mb (mb_end mb)) (rest mb_pkt) in
        if negb (err =? 0) then rset (set_mb (Some mb')) ;;* rthrow err
        else rset (set_mb None) ;;* rret (mbuf_set_pos mb' (mb_pos mb))
  end.

(** The part of tcp_recv_handler that uses the bytes. *)
Definition recv_data (mb_pkt : mbuf) : R bool :=
  let* mb := reassemble mb_pkt in recv_loop (Z.to_nat (mbuf_get_left mb)) mb.

(** The acknowledgement at the end of tcp_recv_handler. *)
Definition acknowledge : R unit :=
  let* c := rget in
  if rc_total_bytes c >=? u64 (rc_last_ack c + rc_window_ack_size c) then
    rset (set_last_ack (rc_total_bytes c)) ;;* rtmp_control (CAcknowledgement (u32 (rc_total_bytes c)))
  else rret tt.

Definition tcp_recv_handler (mb_pkt : mbuf) : R unit :=
  rset (fun c => set_total (u64 (rc_total_bytes c + mbuf_get_left mb_pkt)) c) ;;*
  (let* err := rcode (
     let* on := recv_data mb_pkt in
     if on then acknowledge else rret tt) in
   if negb (err =? 0) then conn_close err else rret tt).

(** ** Connecting *)

(** [results] are what tcp_connect returns for the servers tried. *)
Fixpoint req_connect_loop (results : list Z) (srvv : list sa) (err : Z) : R Z :=
  match srvv, results with
  | [], _ => rret err
  | addr :: srvv, r :: results =>
      rset (fun c => set_srvv srvv (set_tc (r =? 0)
        (set_dechunk (rtmp_dechunker_set_chunksize RTMP_DEFAULT_CHUNKSIZE (rc_dechunk c))
          (set_mb None (set_state RTMP_STATE_UNINITIALIZED (upd_counts c 0 0 WINDOW_ACK_SIZE RTMP_DEFAULT_CHUNKSIZE)))))) ;;*
      (if r =? 0 then emit (OConnect addr) ;;* rret 0 else req_connect_loop results srvv r)
  | _ :: _, [] => fun _ => None
  end.

(** The addresses are tried from the last one on. *)
Definition req_connect (results : list Z) : R Z :=
  let* c := rget in req_connect_loop results (rc_srvv c) EINVAL.

Definition tcp_close_handler (err : Z) (results : list Z) : R unit :=
  let* c := rget in
  let* err' := (if rc_is_client c && negb (rc_connected c) && negb (zlength (rc_srvv c) =? 0) then req_connect results else rret (-1)) in
  if err' =? 0 then rret tt else conn_close (if err' =? -1 then err else err').
End Conn.

Definition rtmp_conn_alloc (is_client estabh cmdh closeh : bool) (app uri : list Z) (srvv : list sa) : rtmp_conn :=
  RtmpConn [] (RtmpDechunker [] RTMP_DEFAULT_CHUNKSIZE) false None RTMP_STATE_UNINITIALIZED 0 0 WINDOW_ACK_SIZE RTMP_DEFAULT_CHUNKSIZE
    (RTMP_CHUNK_ID_CONN + 1) is_client false estabh cmdh closeh [] srvv 0 app uri 0 0.

(** [err] is what tcp_accept returns. *)
Definition rtmp_accept (err : Z) (cmdh closeh : bool) : res rtmp_conn :=
  if err =? 0 then Ok (set_tc true (rtmp_conn_alloc false false cmdh closeh [] [] [])) else Err err.
