(* ===== verification/RtmpConnSpec.v ===== *)
(** * RTMP connections: segmentation, the handshake and media

    TCP may deliver the bytes of a peer in any pieces.  [pump c b] is what the
    loop of tcp_recv_handler does with bytes [b] in one piece; [rtmp_segmentation]
    shows that the pieces do not matter.  [rtmp_media_session] follows messages
    from the sender's stream to the receiver's handlers. *)

From stdpp Require Import base list gmap numbers strings.
From Stdlib Require Import ZArith Lia.
From S2P Require Import Prelude Endian Mbuf MbufView Format Sa Dname Fmt Odict Amf AmfSpec Rtmp RtmpSpec RtmpConn.

Open Scope Z_scope.

(** ** What every step keeps *)

Section Keeps.
Context `{H : Host} (net : nat -> Z) (rnd : list Z) (ver : Z * Z * Z) (cvt : Z -> Z).

(** The dechunker is in order and the loop holds the buffer. *)
Definition conn_ok (c : rtmp_conn) : Prop := rd_ok (rc_dechunk c) /\ rc_mb c = None.

Definition keeps {A} (m : R A) : Prop := forall c r c' o, conn_ok c -> m c = Some (r, c', o) -> conn_ok c'.

Lemma keeps_ret {A} (a : A) : keeps (rret a).
Proof. by intros c r c' o Hc [= _ <- _]. Qed.
Lemma keeps_throw {A} e : keeps (rthrow e : R A).
Proof. by intros c r c' o Hc [= _ <- _]. Qed.
Lemma keeps_get : keeps rget.
Proof. by intros c r c' o Hc [= _ <- _]. Qed.
Lemma keeps_emit o : keeps (emit o).
Proof. by intros c r c' o' Hc [= _ <- _]. Qed.
Lemma keeps_none {A} : keeps ((fun _ => None) : R A).
Proof. done. Qed.
Lemma keeps_lift {A} (r : option (res A)) : keeps (rlift r).
Proof. intros c r' c' o Hc. unfold rlift. destruct r; [|done]. by intros [= _ <- _]. Qed.
Lemma keeps_set f : (forall c, conn_ok c -> conn_ok (f c)) -> keeps (rset f).
Proof. intros Hf c r c' o Hc [= _ <- _]. auto. Qed.
Lemma keeps_bind {A B} (m : R A) (k : A -> R B) : keeps m -> (forall a, keeps (k a)) -> keeps (rbind m k).
Proof.
  intros Hm Hk c r c' o Hc. unfold rbind. destruct (m c) as [[[[a|e] c1] o1]|] eqn:E; [| |done].
  - destruct (k a c1) as [[[r2 c2] o2]|] eqn:E2; [|done]. intros [= _ <- _]. eapply Hk; [|exact E2]. by eapply Hm.
  - intros [= _ <- _]. by eapply Hm.
Qed.
Lemma keeps_code {A} (m : R A) : keeps m -> keeps (rcode m).
Proof.
  intros Hm c r c' o Hc. unfold rcode. destruct (m c) as [[[[a|e] c1] o1]|] eqn:E; intros Hx; try done; injection Hx as _ <- _; by eapply Hm.
Qed.
Lemma keeps_decode mb : keeps (amf_decode mb).
Proof. intros c r c' o Hc. unfold amf_decode. destruct (rtmp_amf_decode mb) as [[x m]|]; [|done]. by intros [= _ <- _]. Qed.

Lemma chunksize_ok v rd : rd_ok rd -> 0 <= v -> rd_ok (rtmp_dechunker_set_chunksize v rd).
Proof. intros [Hs Hl] Hv. unfold rtmp_dechunker_set_chunksize. destruct (Z.eqb_spec v 0); [done|]. split; [cbn; lia|done]. Qed.
End Keeps.

Create HintDb keeps discriminated.
#[export] Hint Resolve keeps_ret keeps_throw keeps_get keeps_emit keeps_none keeps_lift keeps_code keeps_decode : keeps.

(** Splits a computation into its calls. *)
Ltac keep_step :=
  match goal with
  | |- keeps (rbind _ _) => apply keeps_bind; [|intros ?]
  | |- keeps (rcode _) => apply keeps_code
  | |- keeps (rset _) => apply keeps_set; intros ? ?
  | |- keeps (if ?b then _ else _) => destruct b
  | |- keeps (match ?x with _ => _ end) => destruct x
  | |- keeps (let '(_, _) := ?x in _) => destruct x
  | |- keeps _ => solve [auto with keeps]
  | |- conn_ok _ => solve [done | assumption]
  end.

Section KeepsOps.
Context `{H : Host} (net : nat -> Z) (rnd : list Z) (ver : Z * Z * Z) (cvt : Z -> Z).

Lemma keeps_tcp_send ty d : keeps (tcp_send net ty d).
Proof. unfold tcp_send. repeat keep_step. Qed.
Hint Resolve keeps_tcp_send : keeps.
Lemma keeps_packet d : keeps (send_packet net d).
Proof. unfold send_packet. repeat keep_step. Qed.
Lemma keeps_send f cs ts dl ty sid p : keeps (rtmp_conn_send_msg net f cs ts dl ty sid p).
Proof. unfold rtmp_conn_send_msg. repeat keep_step. Qed.
Hint Resolve keeps_packet keeps_send : keeps.
Lemma keeps_control x : keeps (rtmp_control net x).
Proof. unfold rtmp_control. repeat keep_step. Qed.
Lemma keeps_body h p : keeps (amf_body h p).
Proof. unfold amf_body. repeat keep_step. Qed.
Hint Resolve keeps_control keeps_body : keeps.
Lemma keeps_request sid cmd h p : keeps (rtmp_amf_request net sid cmd h p).
Proof. unfold rtmp_amf_request, rtmp_conn_assign_tid, rtmp_send_amf_command. repeat keep_step. Qed.
Lemma keeps_close e : keeps (conn_close e).
Proof. unfold conn_close. repeat keep_step. Qed.
Hint Resolve keeps_request keeps_close : keeps.
Lemma keeps_response msg : keeps (rtmp_ctrans_response cvt msg).
Proof. unfold rtmp_ctrans_response, connect_resp_handler, createstream_handler. repeat keep_step. Qed.
Hint Resolve keeps_response : keeps.

Lemma keeps_handler h mb : keeps (rtmp_dechunk_handler net cvt h mb).
Proof.
  unfold rtmp_dechunk_handler, handle_amf_command, handle_user_control_msg, handle_data_message. repeat keep_step.
  match goal with Hc : conn_ok _ |- _ => destruct Hc as [Hrd Hmb]; split; [|exact Hmb] end. apply chunksize_ok; [done|]. apply Z.land_nonneg. right. done.
Qed.
Hint Resolve keeps_handler : keeps.

Lemma keeps_receive mb : mbuf_wf mb -> keeps (conn_receive net cvt mb).
Proof.
  intros W c r c' o Hc. unfold conn_receive. destruct (dechunk_step (rc_dechunk c) mb) as [[[[e rd] m] [[hdr buf]|]]|] eqn:E; [| |done];
    (assert (Hc' : conn_ok (set_dechunk rd c)) by (destruct Hc as [Hrd Hmb]; split; [by eapply dechunk_rd_ok|done])).
  - intros Hx. revert Hc' Hx. generalize (set_dechunk rd c). intros c1 Hc1 Hx. revert c1 r c' o Hc1 Hx. change (keeps (rtmp_dechunk_handler net cvt hdr buf ;;* rret m)).
    repeat keep_step.
  - intros [= _ <- _]. done.
Qed.

Lemma keeps_handle mb : mbuf_wf mb -> keeps (handle_packet net rnd ver cvt mb).
Proof.
  intros W. pose proof (keeps_receive mb W). unfold handle_packet, client_handle_packet, server_handle_packet, rneed, echo, start_chunks, send_connect, handshake_start.
  repeat keep_step.
Qed.
End KeepsOps.
#[export] Hint Resolve keeps_handle : keeps.

(** ** One packet *)

Section Packet.
Context `{H : Host} (net : nat -> Z) (rnd : list Z) (ver : Z * Z * Z) (cvt : Z -> Z).
Abbreviation packet := (handle_packet net rnd ver cvt).

(** A whole packet is there. *)
Definition complete (c : rtmp_conn) (mb : mbuf) : Prop :=
  match rc_state c with
  | RTMP_STATE_UNINITIALIZED => 1 <= mbuf_get_left mb
  | RTMP_STATE_VERSION_SENT => (if rc_is_client c then 1 + RTMP_HANDSHAKE_SIZE else RTMP_HANDSHAKE_SIZE) <= mbuf_get_left mb
  | RTMP_STATE_ACK_SENT => RTMP_HANDSHAKE_SIZE <= mbuf_get_left mb
  | RTMP_STATE_HANDSHAKE_DONE => forall rd m, dechunk_step (rc_dechunk c) mb <> Some (ENODATA, rd, m, None)
  end.

(** The packet is not one of those the code does not handle as it should: a
    chunk that starts a message over with an extended timestamp, or a complete
    packet that is refused with the code for incomplete data. *)
Definition proper (c : rtmp_conn) (mb : mbuf) : Prop :=
  (rc_state c = RTMP_STATE_HANDSHAKE_DONE -> plain_restart (rc_dechunk c) mb) /\
  (complete c mb -> forall c' o, packet mb c <> Some (Err ENODATA, c', o)).

(** The same outcome on two buffers. *)
Definition same_outcome (mb1 mb2 : mbuf) (x1 x2 : option (res mbuf * rtmp_conn * list rtmp_out)) : Prop :=
  match x1, x2 with
  | None, None => True
  | Some (r1, c1, o1), Some (r2, c2, o2) =>
      c1 = c2 /\ o1 = o2 /\
      match r1, r2 with
      | Ok m1, Ok m2 => exists k, 0 < k <= zlength (rest mb1) /\ m1 = adv mb1 k /\ m2 = adv mb2 k
      | Err e1, Err e2 => e1 = e2
      | _, _ => False
      end
  | _, _ => False
  end.

(** Computations that use the same bytes of both buffers. *)
Definition twin (mb1 mb2 : mbuf) (m1 m2 : R mbuf) : Prop := forall c, same_outcome mb1 mb2 (m1 c) (m2 c).

Lemma twin_bind {A} mb1 mb2 (m : R A) k1 k2 : (forall a, twin mb1 mb2 (k1 a) (k2 a)) -> twin mb1 mb2 (rbind m k1) (rbind m k2).
Proof.
  intros Hk c. unfold rbind. destruct (m c) as [[[[a|e] c1] o1]|]; [| done |done]. specialize (Hk a c1).
  destruct (k1 a c1) as [[[r1 d1] p1]|], (k2 a c1) as [[[r2 d2] p2]|]; try done. destruct Hk as (-> & -> & Hr). done.
Qed.

Lemma twin_throw mb1 mb2 e : twin mb1 mb2 (rthrow e) (rthrow e).
Proof. done. Qed.

Lemma twin_ret mb1 mb2 k : 0 < k <= zlength (rest mb1) -> twin mb1 mb2 (rret (adv mb1 k)) (rret (adv mb2 k)).
Proof. intros Hk c. cbn. split; [done|]. split; [done|]. by exists k. Qed.

Lemma get_bind {A} (k : rtmp_conn -> R A) c : rbind rget k c = k c c.
Proof. unfold rbind. cbn. by destruct (k c c) as [[[r c'] o]|]. Qed.

Lemma need_short n mb c : mbuf_get_left mb < n -> rneed n mb c = Some (Err ENODATA, c, []).
Proof. intros Hn. unfold rneed. by rewrite (proj2 (Z.ltb_lt _ _)). Qed.

Lemma need_enough n mb : n <= mbuf_get_left mb -> rneed n mb = rret tt.
Proof. intros Hn. unfold rneed. by rewrite (proj2 (Z.ltb_ge _ _)). Qed.

Lemma twin_echo mb1 mb2 m1 m2 x j :
  mbuf_wf m1 -> mbuf_wf m2 -> rest m2 = rest m1 ++ x -> RTMP_HANDSHAKE_SIZE <= zlength (rest m1) ->
  m1 = adv mb1 j -> m2 = adv mb2 j -> 0 <= j -> j + RTMP_HANDSHAKE_SIZE <= zlength (rest mb1) -> twin mb1 mb2 (echo net m1) (echo net m2).
Proof.
  intros W1 W2 E Hl -> -> Hj Hle. unfold echo. destruct (read_mem_prefix _ _ x RTMP_HANDSHAKE_SIZE W1 W2 E) as (d & -> & ->); [unfold RTMP_HANDSHAKE_SIZE in *; lia|].
  apply twin_bind. intros _. apply twin_bind. intros _. rewrite !adv_adv. apply twin_ret. unfold RTMP_HANDSHAKE_SIZE in *. lia.
Qed.

Lemma handshake_short mb1 c :
  rc_state c <> RTMP_STATE_HANDSHAKE_DONE -> ~ complete c mb1 -> (rc_is_client c = true -> rc_state c <> RTMP_STATE_UNINITIALIZED) ->
  packet mb1 c = Some (Err ENODATA, c, []).
Proof.
  intros Hs Hc Hcl. unfold complete in Hc. unfold handle_packet. rewrite !get_bind. unfold client_handle_packet, server_handle_packet.
  destruct (rc_is_client c) eqn:Ecl; rewrite !get_bind; destruct (rc_state c); try done; try (by destruct (Hcl eq_refl)); unfold rbind at 1;
    rewrite need_short by lia; done.
Qed.

Section Twins.
Context (mb1 mb2 : mbuf) (x : list Z) (W1 : mbuf_wf mb1) (W2 : mbuf_wf mb2) (E : rest mb2 = rest mb1 ++ x).

Lemma left_longer : mbuf_get_left mb1 <= mbuf_get_left mb2.
Proof. rewrite !mbuf_get_left_rest, E, zlength_app by done. pose proof (zlength_nonneg x). lia. Qed.

Lemma advance_twin n : 0 <= n <= zlength (rest mb1) -> mbuf_advance mb1 n = adv mb1 n /\ mbuf_advance mb2 n = adv mb2 n.
Proof.
  intros Hn. pose proof (zlength_nonneg x). split; apply mbuf_advance_adv; try done. rewrite E, zlength_app. lia.
Qed.

(** The states of the handshake. *)
Lemma handshake_twin c :
  rc_state c <> RTMP_STATE_HANDSHAKE_DONE -> complete c mb1 -> same_outcome mb1 mb2 (packet mb1 c) (packet mb2 c).
Proof.
  intros Hs Hc. unfold complete in Hc. pose proof left_longer as Hl. pose proof (mbuf_get_left_rest mb1 W1) as L1.
  assert (Hread : 1 <= mbuf_get_left mb1 -> mbuf_read_u8 mb2 = ((mbuf_read_u8 mb1).1, adv mb2 1) /\ mbuf_read_u8 mb1 = ((mbuf_read_u8 mb1).1, adv mb1 1)).
  { intros H1. destruct (read_uint_prefix 1 mb1 mb2 x W1 W2 E) as (Ev & Ea & Eb); [lia|]. unfold mbuf_read_u8.
    destruct (mbuf_read_uint 1 mb1), (mbuf_read_uint 1 mb2). cbn in *. subst. done. }
  unfold handle_packet. rewrite !get_bind. unfold client_handle_packet, server_handle_packet. destruct (rc_is_client c) eqn:Ecl; rewrite !get_bind;
    destruct (rc_state c); try done; unfold RTMP_HANDSHAKE_SIZE in *; rewrite ?need_enough by lia; try apply (twin_bind mb1 mb2); try intros _.
  - destruct (Hread ltac:(lia)) as [-> ->]. destruct (rest_prefix mb1 mb2 x 1 W1 W2 E) as (W1' & W2' & E' & El); [lia|].
    destruct (negb _); [apply twin_throw|]. apply (twin_echo _ _ _ _ x 1); try done; unfold RTMP_HANDSHAKE_SIZE; lia.
  - destruct (advance_twin 1536) as [-> ->]; [lia|]. do 3 (apply twin_bind; intros _). apply twin_ret. lia.
  - destruct (Hread ltac:(lia)) as [-> ->]. destruct (negb _); [apply twin_throw|]. apply twin_bind. intros _. apply twin_ret. lia.
  - apply (twin_echo _ _ _ _ x 0); try done; rewrite ?adv_0; try done; unfold RTMP_HANDSHAKE_SIZE; lia.
  - destruct (advance_twin 1536) as [-> ->]; [lia|]. do 2 (apply twin_bind; intros _). apply twin_ret. lia.
Qed.

(** The dechunker. *)
Lemma packet_done mb c : rc_state c = RTMP_STATE_HANDSHAKE_DONE -> packet mb c = conn_receive net cvt mb c.
Proof.
  intros Hs. unfold handle_packet. rewrite get_bind. unfold client_handle_packet, server_handle_packet. by destruct (rc_is_client c); rewrite get_bind, Hs.
Qed.

Lemma receive_resumes c rd' mb :
  dechunk_step rd' mb = dechunk_step (rc_dechunk c) mb -> conn_receive net cvt mb (set_dechunk rd' c) = conn_receive net cvt mb c.
Proof. intros Ed. unfold conn_receive. change (rc_dechunk (set_dechunk rd' c)) with rd'. rewrite Ed. by destruct (dechunk_step (rc_dechunk c) mb) as [[[[e rd] m'] [[h b]|]]|]. Qed.

Lemma packet_cases c :
  conn_ok c -> proper c mb2 -> 0 < mbuf_get_left mb1 ->
  (exists c', packet mb1 c = Some (Err ENODATA, c', []) /\ packet mb2 c' = packet mb2 c /\ rc_tc c' = rc_tc c /\ conn_ok c' /\ proper c' mb2
     /\ (x = [] -> packet mb2 c = Some (Err ENODATA, c', []))) \/
  (same_outcome mb1 mb2 (packet mb1 c) (packet mb2 c) /\ forall c' o, packet mb1 c <> Some (Err ENODATA, c', o)).
Proof.
  intros [Hrd Hmb] [Hpl Hpr] Hpos. pose proof left_longer as Hlg.
  assert (Hright : complete c mb2 -> same_outcome mb1 mb2 (packet mb1 c) (packet mb2 c) ->
    same_outcome mb1 mb2 (packet mb1 c) (packet mb2 c) /\ forall c' o, packet mb1 c <> Some (Err ENODATA, c', o)).
  { intros Hc Hso. split; [done|]. intros c' o Ep. rewrite Ep in Hso. destruct (packet mb2 c) as [[[[m|e] c2] o2]|] eqn:Ep2; try done.
    - by destruct Hso as (_ & _ & ?).
    - destruct Hso as (-> & -> & <-). by eapply Hpr. }
  destruct (decide (rc_state c = RTMP_STATE_HANDSHAKE_DONE)) as [Hs|Hs].
  - rewrite (packet_done mb1 c Hs), (packet_done mb2 c Hs) in *.
    destruct (dechunk_decides _ mb1 mb2 x Hrd W1 W2 E) as [(rd' & m & E1 & Hx)|(e & rd' & m1 & m2 & out & E1 & E2 & Hne & Hk & Hout)].
    + left. exists (set_dechunk rd' c). unfold conn_receive at 1. rewrite E1. split; [done|].
      destruct (dechunk_resumes _ _ _ _ _ _ _ W1 W2 E (Hpl Hs) E1) as (_ & Er & Hpl').
      assert (Ep : packet mb2 (set_dechunk rd' c) = conn_receive net cvt mb2 c) by (rewrite packet_done by done; by apply receive_resumes).
      split_and!.
      * done.
      * done.
      * split; [apply (dechunk_rd_ok _ _ _ _ _ _ Hrd W1 E1)|done].
      * split; [done|]. rewrite Ep. intros Hc'. apply Hpr. revert Hc'. unfold complete. change (rc_state (set_dechunk rd' c)) with (rc_state c).
        rewrite Hs. change (rc_dechunk (set_dechunk rd' c)) with rd'. by rewrite Er.
      * intros Ex. destruct (Hx Ex) as [m' E2]. unfold conn_receive. by rewrite E2.
    + right. apply Hright.
      * unfold complete. rewrite Hs, E2. congruence.
      * unfold conn_receive. rewrite E1, E2. destruct out as [[h b]|].
        -- destruct (Z.eq_dec e 0) as [He|He]; [|by specialize (Hout He)]. destruct (Hk He) as (k & Hk' & -> & ->).
           apply (twin_bind mb1 mb2). intros _. by apply twin_ret.
        -- destruct (Z.eqb_spec e 0) as [->|He]; [|done]. destruct (Hk eq_refl) as (k & Hk' & -> & ->). cbn. split; [done|]. split; [done|]. by exists k.
  - assert (Hd : complete c mb1 \/ ~ complete c mb1) by (unfold complete; destruct (rc_state c); [lia|lia|lia|done]). destruct Hd as [Hc|Hc].
    + right. apply Hright; [|by apply handshake_twin]. unfold complete in *. destruct (rc_state c); [lia|destruct (rc_is_client c); lia|lia|done].
    + left. exists c. assert (Hcl : rc_is_client c = true -> rc_state c <> RTMP_STATE_UNINITIALIZED).
      { intros _ Hu. apply Hc. unfold complete. rewrite Hu. lia. }
      split; [by apply handshake_short|]. do 4 (split; [done|]). intros ->. rewrite app_nil_r in E.
      apply handshake_short; [done| |done]. 
      assert (El : mbuf_get_left mb2 = mbuf_get_left mb1) by (rewrite !mbuf_get_left_rest, E by done; done).
      unfold complete in *. rewrite El. by destruct (rc_state c).
Qed.
End Twins.

(** ** The loop over packets *)

Abbreviation loop := (recv_loop net rnd ver cvt).
Abbreviation outcome := (option (res bool * rtmp_conn * list rtmp_out)).

(** Bytes in one piece. *)
Definition pump (c : rtmp_conn) (b : list Z) : outcome := loop (Z.to_nat (zlength b)) (rcv_buf b) c.

Definition fits (b : list Z) : Prop := bytes b /\ zlength b <= MEM_SIZE_MAX.

(** The packets of [b] are all proper. *)
Fixpoint smooth (n : nat) (c : rtmp_conn) (b : list Z) : Prop :=
  match n with
  | O => True
  | S n => 0 < zlength b -> proper c (rcv_buf b) /\
      forall k c' o, packet (rcv_buf b) c = Some (Ok (adv (rcv_buf b) k), c', o) -> rc_tc c' = true -> smooth n c' (zdrop k b)
  end.

(** What is left for the next segment. *)
Definition pending (c : rtmp_conn) : list Z := match rc_mb c with None => [] | Some m => rest m end.

(** The same outcome, but for the position in the buffer. *)
Definition alike (x y : outcome) : Prop :=
  match x, y with
  | None, None => True
  | Some (r, c, o), Some (r', c', o') => r = r' /\ o = o' /\ set_mb None c = set_mb None c' /\ (r = Ok true -> pending c = pending c')
  | _, _ => False
  end.

#[export] Instance alike_equiv : Equivalence alike.
Proof.
  split.
  - intros [[[r c] o]|]; done.
  - intros [[[r c] o]|] [[[r' c'] o']|]; try done. intros (-> & -> & Hc & Hp). split_and!; try done. intros Hr. by rewrite Hp.
  - intros [[[r c] o]|] [[[r' c'] o']|] [[[r'' c''] o'']|]; try done. intros (-> & -> & Hc & Hp) (-> & -> & Hc' & Hp'). split_and!; try done; [congruence|].
    intros Hr. by rewrite Hp, Hp'.
Qed.

Definition prefixed (o : list rtmp_out) (x : outcome) : outcome :=
  match x with None => None | Some (r, c, o') => Some (r, c, o ++ o') end.

Lemma prefix_alike o x y : alike x y -> alike (prefixed o x) (prefixed o y).
Proof. destruct x as [[[r c] o1]|], y as [[[r' c'] o2]|]; try done. intros (-> & -> & Hc & Hp). done. Qed.

Lemma prefix_prefix o o' x : prefixed o (prefixed o' x) = prefixed (o ++ o') x.
Proof. destruct x as [[[r c] o1]|]; [|done]. cbn. by rewrite app_assoc. Qed.

Lemma fits_wf b : fits b -> mbuf_wf (rcv_buf b) /\ rest (rcv_buf b) = b.
Proof.
  intros [Hb Hl]. pose proof (rcv_buf_holds b Hb Hl) as Hh. split; [apply Hh|]. by rewrite (holds_rest _ _ _ Hh), zdrop_0.
Qed.

Lemma fits_drop k b : fits b -> fits (zdrop k b).
Proof.
  intros [Hb Hl]. split; [by apply bytes_zdrop|]. unfold zlength in *. unfold zdrop. rewrite length_drop. lia.
Qed.

Lemma drained_iff m : mbuf_wf m -> (mb_pos m >=? mb_end m) = (zlength (rest m) =? 0).
Proof.
  intros W. rewrite zlength_rest by done. pose proof W as []. rewrite Z.geb_leb. destruct (Z.leb_spec (mb_end m) (mb_pos m)); symmetry; [apply Z.eqb_eq|apply Z.eqb_neq]; lia.
Qed.

Lemma set_mb_none c : rc_mb c = None -> set_mb None c = c.
Proof. intros Hm. destruct c. unfold set_mb, upd_core. cbn in *. by subst. Qed.

(** One turn of the loop. *)
Definition turn (next : mbuf -> rtmp_conn -> outcome) (mb : mbuf) (x : option (res mbuf * rtmp_conn * list rtmp_out)) : outcome :=
  match x with
  | None => None
  | Some (r, c, o) =>
      if negb (rc_tc c) then Some (Ok false, set_mb (Some mb) c, o)
      else
        match r with
        | Err e => Some (if e =? ENODATA then Ok true else Err e, set_mb (Some mb) c, o)
        | Ok m => if mb_pos m >=? mb_end m then Some (Ok true, set_mb None c, o) else prefixed o (next m c)
        end
  end.

Lemma loop_turn f mb c : 0 < mbuf_get_left mb -> loop (S f) mb c = turn (fun m c => loop f m c) mb (packet mb c).
Proof.
  intros Hl. cbn [recv_loop]. rewrite Z.gtb_ltb, (proj2 (Z.ltb_lt _ _)) by done. unfold turn. by destruct (packet mb c) as [[[[m|e] c'] o]|].
Qed.

Lemma loop_end f mb c : mbuf_get_left mb <= 0 -> loop f mb c = Some (Ok true, set_mb (Some mb) c, []).
Proof. intros Hl. destruct f; cbn [recv_loop]; by rewrite Z.gtb_ltb, (proj2 (Z.ltb_ge _ _)) by done. Qed.

Lemma adv_bounds mb k x : mbuf_wf mb -> rest mb = x -> 0 < k <= zlength x -> mbuf_wf (adv mb k) /\ rest (adv mb k) = zdrop k x.
Proof. intros W <- Hk. split; [apply adv_wf; [done|lia]|]. by rewrite rest_adv by (done || lia). Qed.

(** What is left of a segment continues with the bytes [x]. *)
Definition after (x : list Z) (r : outcome) : outcome :=
  match r with
  | Some (Ok true, c, o) => prefixed o (pump (set_mb None c) (pending c ++ x))
  | _ => r
  end.

Lemma after_prefixed x o r : after x (prefixed o r) = prefixed o (after x r).
Proof. destruct r as [[[[[]|e] c] o']|]; cbn [after prefixed]; by rewrite ?prefix_prefix. Qed.

(** A connection that waits for [x], with a buffer that ends at [e] at most. *)
Record waits (e : Z) (x : list Z) (c : rtmp_conn) : Prop := {
  w_ok : conn_ok (set_mb None c);
  w_tc : rc_tc c = true;
  w_fits : fits (pending c ++ x);
  w_smooth : exists n, zlength (pending c ++ x) <= Z.of_nat n /\ smooth n (set_mb None c) (pending c ++ x);
  w_mb : forall m, rc_mb c = Some m -> mbuf_wf m /\ mb_end m <= e;
}.

Lemma waits_le e e' x c : e <= e' -> waits e x c -> waits e' x c.
Proof. intros Hle [? ? ? ? Hm]. split; try done. intros m Em. destruct (Hm m Em). split; [done|lia]. Qed.

Lemma waits_on mb a x c n :
  mbuf_wf mb -> rest mb = a -> conn_ok c -> rc_tc c = true -> fits (a ++ x) -> zlength (a ++ x) <= Z.of_nat n -> smooth n c (a ++ x) ->
  waits (mb_end mb) x (set_mb (Some mb) c).
Proof.
  intros W Ea Hc Htc Hf Hn Hs. assert (Em : set_mb None (set_mb (Some mb) c) = c) by (rewrite <- (set_mb_none c) at 2 by apply Hc; done).
  split; rewrite ?Em; unfold pending; cbn [rc_mb set_mb upd_core]; rewrite ?Ea; try done.
  - by exists n.
  - by intros m [= <-].
Qed.

Lemma waits_none e x c n : conn_ok c -> rc_tc c = true -> fits x -> zlength x <= Z.of_nat n -> smooth n c x -> waits e x (set_mb None c).
Proof.
  intros Hc Htc Hf Hn Hs. rewrite set_mb_none by apply Hc. assert (Ep : pending c ++ x = x) by (unfold pending; by rewrite (proj2 Hc)).
  split; rewrite ?Ep, ?set_mb_none by apply Hc; try done; [by exists n|]. by rewrite (proj2 Hc).
Qed.

Lemma pump_turn b c : 0 < zlength b -> fits b -> pump c b = turn (fun m c => loop (Z.to_nat (zlength b - 1)) m c) (rcv_buf b) (packet (rcv_buf b) c).
Proof.
  intros Hl Hb. destruct (fits_wf b Hb) as [W E]. unfold pump. replace (Z.to_nat (zlength b)) with (S (Z.to_nat (zlength b - 1))) by lia.
  rewrite loop_turn; [done|]. rewrite mbuf_get_left_rest, E by done. lia.
Qed.

(** The loop on another buffer with the same bytes. *)
Lemma loop_rest n : forall b mb c f g,
  zlength b <= Z.of_nat n -> fits b -> mbuf_wf mb -> rest mb = b -> conn_ok c -> smooth n c b -> zlength b <= Z.of_nat f -> zlength b <= Z.of_nat g ->
  alike (loop f mb c) (loop g (rcv_buf b) c).
Proof.
  induction n as [|n IH]; intros b mb c f g Hn Hb W Er Hc Hs Hf Hg; destruct (fits_wf b Hb) as [Wb Eb];
    pose proof (mbuf_get_left_rest mb W) as L1; pose proof (mbuf_get_left_rest _ Wb) as L2; rewrite Er in L1; rewrite Eb in L2; pose proof (zlength_nonneg b).
  { rewrite !loop_end by lia. cbn. split_and!; try done. intros _. unfold pending. cbn. congruence. }
  destruct (Z.eq_dec (zlength b) 0) as [Hz|Hz].
  { rewrite !loop_end by lia. cbn. split_and!; try done. intros _. unfold pending. cbn. congruence. }
  destruct f as [|f]; [lia|]. destruct g as [|g]; [lia|]. rewrite !loop_turn by lia.
  destruct Hs as [Hp Hs]; [lia|].
  destruct (packet_cases mb (rcv_buf b) [] W Wb) with (c := c) as [(c' & E1 & _ & Htc & Hc' & _ & E2)|[Hso Hne]]; [by rewrite app_nil_r, Er|done|done|lia| |].
  - rewrite E1, (E2 eq_refl). cbn [turn]. destruct (negb (rc_tc c')); cbn; split_and!; try done. intros _. unfold pending. cbn. congruence.
  - destruct (packet mb c) as [[[r1 c1] o1]|] eqn:P1, (packet (rcv_buf b) c) as [[[r2 c2] o2]|] eqn:P2; try done. destruct Hso as (<- & <- & Hr).
    pose proof (keeps_handle net rnd ver cvt mb W c _ _ _ Hc P1) as Hc1. cbn [turn]. destruct (rc_tc c1) eqn:Htc; cbn [negb]; [|done].
    destruct r1 as [m1|e1], r2 as [m2|e2]; try done.
    + destruct Hr as (k & Hk & -> & ->). rewrite Er in Hk. destruct (adv_bounds mb k b W Er Hk) as [Wa Ea]. destruct (adv_bounds (rcv_buf b) k b Wb Eb Hk) as [Wc Ec].
      rewrite !drained_iff by done. rewrite Ea, Ec. destruct (Z.eqb_spec (zlength (zdrop k b)) 0); [done|]. apply prefix_alike.
      rewrite zlength_zdrop in * by lia. specialize (Hs k c1 o1 eq_refl Htc).
      etrans; [apply (IH (zdrop k b) _ c1 f (Z.to_nat (zlength b)))|symmetry; apply (IH (zdrop k b) _ c1 g (Z.to_nat (zlength b)))];
        try done; try (by apply fits_drop); rewrite ?zlength_zdrop; lia.
    + subst e2. destruct (Z.eqb_spec e1 ENODATA) as [->|]; [by destruct (Hne c1 o1)|done].
Qed.
(** The bytes [a] first, then the bytes [x]. *)
Lemma loop_split n : forall a x mb c f,
  0 < zlength x -> zlength (a ++ x) <= Z.of_nat n -> fits (a ++ x) -> mbuf_wf mb -> rest mb = a -> conn_ok c -> rc_tc c = true ->
  smooth n c (a ++ x) -> zlength a <= Z.of_nat f ->
  alike (pump c (a ++ x)) (after x (loop f mb c)) /\
  forall c1 o, loop f mb c = Some (Ok true, c1, o) -> waits (mb_end mb) x c1.
Proof.
  induction n as [|n IH]; intros a x mb c f Hx Hn Hb W Er Hc Htc Hs Hf; pose proof (zlength_nonneg a); rewrite zlength_app in Hn; [lia|].
  destruct (fits_wf _ Hb) as [Wb Eb]. pose proof (mbuf_get_left_rest mb W) as L1. rewrite Er in L1.
  assert (Hend : forall c', conn_ok c' -> rc_tc c' = true -> smooth (S n) c' (a ++ x) ->
    after x (Some (Ok true, set_mb (Some mb) c', [])) = pump c' (a ++ x) /\ waits (mb_end mb) x (set_mb (Some mb) c')).
  { intros c' Hc' Htc' Hs'. split; [|apply (waits_on mb a x c' (S n)); try done; rewrite zlength_app; lia].
    assert (Em : set_mb None (set_mb (Some mb) c') = c') by (rewrite <- (set_mb_none c') at 2 by apply Hc'; done).
    cbn [after]. rewrite Em. unfold pending. cbn [rc_mb set_mb upd_core]. rewrite Er. by destruct (pump c' (a ++ x)) as [[[r c2] o2]|]. }
  destruct (Z.eq_dec (zlength a) 0) as [Hz|Hz].
  { rewrite loop_end by lia. destruct (Hend c) as [-> Hw]; try done. split; [done|]. by intros c1 o [= <- _]. }
  destruct f as [|f]; [lia|]. rewrite loop_turn by lia. rewrite pump_turn by (rewrite ?zlength_app; lia || done).
  destruct Hs as [Hp Hs]; [rewrite zlength_app; lia|].
  destruct (packet_cases mb (rcv_buf (a ++ x)) x W Wb) with (c := c) as [(c' & E1 & E2 & Htc' & Hc' & Hp' & _)|[Hso Hne]]; [by rewrite Eb, Er|done|done|lia| |].
  - rewrite E1. cbn [turn]. rewrite Htc', Htc. cbn [negb]. change (ENODATA =? ENODATA) with true. cbn match.
    destruct (Hend c') as [-> Hw]; [done|congruence| |split; [|by intros c1 o [= <- _]]].
    + intros _. split; [done|]. by rewrite E2.
    + rewrite pump_turn by (rewrite ?zlength_app; lia || done). by rewrite E2.
  - destruct (packet mb c) as [[[r1 c1] o1]|] eqn:P1, (packet (rcv_buf (a ++ x)) c) as [[[r2 c2] o2]|] eqn:P2; try done. destruct Hso as (<- & <- & Hr).
    pose proof (keeps_handle net rnd ver cvt mb W c _ _ _ Hc P1) as Hc1. cbn [turn]. destruct (rc_tc c1) eqn:Htc1; cbn [negb]; [|done].
    destruct r1 as [m1|e1], r2 as [m2|e2]; try done.
    2: { subst e2. destruct (Z.eqb_spec e1 ENODATA) as [->|]; [by destruct (Hne c1 o1)|done]. }
    destruct Hr as (k & Hk & -> & ->). rewrite Er in Hk. destruct (adv_bounds mb k a W Er Hk) as [Wa Ea].
    destruct (adv_bounds (rcv_buf (a ++ x)) k (a ++ x) Wb Eb) as [Wc Ec]; [rewrite zlength_app; lia|].
    specialize (Hs k c1 o1 eq_refl Htc1). rewrite zdrop_app_le in Ec, Hs by lia.
    rewrite !drained_iff by done. rewrite Ea, Ec, (proj2 (Z.eqb_neq _ 0)) by (rewrite zlength_app; pose proof (zlength_nonneg (zdrop k a)); lia).
    pose proof (zlength_zdrop k a ltac:(lia)) as Lk. pose proof (fits_drop k _ Hb) as Hb'. rewrite zdrop_app_le in Hb' by lia.
    assert (Hbig : alike (loop (Z.to_nat (zlength (a ++ x) - 1)) (adv (rcv_buf (a ++ x)) k) c1) (pump c1 (zdrop k a ++ x))).
    { unfold pump. apply (loop_rest n); try done; rewrite ?zlength_app; lia. }
    destruct (Z.eqb_spec (zlength (zdrop k a)) 0) as [Hk0|Hk0].
    + assert (zdrop k a = []) as Hd by (apply length_zero_iff_nil; unfold zlength in Hk0; lia). clear Hk0. rewrite Hd in *. cbn [app] in *. split.
      * cbn [after]. rewrite set_mb_none by (rewrite set_mb_none by apply Hc1; apply Hc1). unfold pending. rewrite set_mb_none, (proj2 Hc1) by apply Hc1. by apply prefix_alike.
      * intros c2 o [= <- _]. apply (waits_none _ _ _ n); try done. lia.
    + destruct (IH (zdrop k a) x (adv mb k) c1 f) as [IH1 IH2]; try done; try (rewrite ?zlength_app; lia). split.
      * rewrite after_prefixed. apply prefix_alike. by etrans.
      * intros c2 o. destruct (loop f (adv mb k) c1) as [[[r2 c3] o3]|] eqn:El; [|done]. intros [= -> -> _]. by eapply IH2.
Qed.

(** ** Segments *)

(** The data of several segments, one tcp_recv_handler each. *)
Fixpoint feed (segs : list (list Z)) : R bool :=
  match segs with
  | [] => rret true
  | s :: segs => let* on := recv_data net rnd ver cvt (rcv_buf s) in if on then feed segs else rret false
  end.

(** At no time more than RTMP_MESSAGE_LEN_MAX bytes wait for the rest of their packet. *)
Fixpoint roomy (segs : list (list Z)) (c : rtmp_conn) : Prop :=
  match segs with
  | [] => True
  | s :: segs => zlength (pending c ++ s) <= RTMP_MESSAGE_LEN_MAX /\
      forall c' o, recv_data net rnd ver cvt (rcv_buf s) c = Some (Ok true, c', o) -> roomy segs c'
  end.

Lemma bind_set {A} f (k : R A) c : rbind (rset f) (fun _ => k) c = k (f c).
Proof. unfold rbind. cbn. by destruct (k (f c)) as [[[r c'] o]|]. Qed.

(** Re-assembly puts the segment behind what is left. *)
Lemma recv_data_loop e s c :
  ample_memory -> fits s -> e + zlength s < 2 ^ 31 -> 0 <= e -> (forall m, rc_mb c = Some m -> mbuf_wf m /\ mb_end m <= e) ->
  zlength (pending c ++ s) <= RTMP_MESSAGE_LEN_MAX ->
  exists mb, recv_data net rnd ver cvt (rcv_buf s) c = loop (Z.to_nat (mbuf_get_left mb)) mb (set_mb None c)
    /\ mbuf_wf mb /\ rest mb = pending c ++ s /\ mb_end mb <= e + zlength s.
Proof.
  intros Ham Hs He He0 Hm Hl. destruct (fits_wf s Hs) as [Ws Es]. unfold pending in *.
  set (p := match rc_mb c with None => [] | Some m => rest m end) in *.
  enough (exists mb, reassemble (rcv_buf s) c = Some (Ok mb, set_mb None c, []) /\ mbuf_wf mb /\ rest mb = p ++ s /\ mb_end mb <= e + zlength s) as Hx.
  { destruct Hx as (mb & E & HP). exists mb. split; [|exact HP]. unfold recv_data, rbind. rewrite E. by destruct (loop _ mb (set_mb None c)) as [[[r c'] o]|]. }
  subst p. unfold reassemble. rewrite get_bind.
  destruct (rc_mb c) as [m|] eqn:Em.
  2: { exists (rcv_buf s). rewrite (set_mb_none c Em). do 3 (split; [done|]). cbn. lia. }
  destruct (Hm m eq_refl) as [W Hme]. rewrite zlength_app in Hl. rewrite !mbuf_get_left_rest, Es, Z.gtb_ltb, (proj2 (Z.ltb_ge _ _)) by (done || lia).
  pose proof (zlength_content m W) as Lc. pose proof W as [].
  assert (Hh : holds (mbuf_set_pos m (mb_end m)) (content m) (zlength (content m))).
  { rewrite Lc. apply (holds_set_pos m _ (mb_pos m)); [by split|]. lia. }
  destruct (holds_writes (fun mb => mbuf_write_mem mb s) s _ _ Ham (writes_mem s (proj1 Hs) ltac:(lia)) Hh ltac:(lia)) as (mb' & -> & Hh').
  cbn [negb Z.eqb]. rewrite bind_set.
  exists (mbuf_set_pos mb' (mb_pos m)).
  pose proof (holds_set_pos _ _ _ (mb_pos m) Hh' ltac:(rewrite zlength_app; pose proof (zlength_nonneg s); lia)) as Hp. split; [done|split; [apply Hp|split]].
  - rewrite (holds_rest _ _ _ Hp). unfold rest. rewrite zdrop_app_le by lia. done.
  - change (mb_end (mbuf_set_pos mb' (mb_pos m))) with (mb_end mb'). rewrite <- (zlength_content mb') by apply Hh'. rewrite (holds_content _ _ _ Hh'), zlength_app. lia.
Qed.

Lemma feed_pump segs : forall s e c,
  ample_memory -> Forall (fun s => 0 < zlength s) segs -> 0 <= e -> e + zlength (concat (s :: segs)) < 2 ^ 31 ->
  waits e (concat (s :: segs)) c -> roomy (s :: segs) c ->
  alike (feed (s :: segs) c) (pump (set_mb None c) (pending c ++ concat (s :: segs))).
Proof.
  induction segs as [|s2 segs IH]; intros s e c Ham Hpos He0 He Hw [Hroom Hnext]; pose proof Hw as [Hok Htc Hfit (n & Hn & Hsm) Hmb]; cbn [concat] in *.
  - rewrite app_nil_r in *. destruct (recv_data_loop e s c) as (mb & E & W & Er & _); try done.
    { destruct Hfit as [Hf Hl]. rewrite bytes_app, zlength_app in *. pose proof (zlength_nonneg (pending c)). split; [apply Hf|lia]. }
    assert (Ef : feed [s] c = loop (Z.to_nat (mbuf_get_left mb)) mb (set_mb None c)).
    { cbn [feed]. unfold rbind. rewrite E. destruct (loop _ mb _) as [[[[[]|x] c'] o]|]; cbn; by rewrite ?app_nil_r. }
    rewrite Ef. apply (loop_rest n); try done; rewrite ?mbuf_get_left_rest, ?Er by done; lia.
  - apply Forall_cons in Hpos as [Hs2 Hpos]. rewrite (app_assoc (pending c)) in *. set (x := s2 ++ concat segs) in *.
    assert (Hx : 0 < zlength x) by (subst x; rewrite zlength_app; pose proof (zlength_nonneg (concat segs)); lia).
    rewrite zlength_app in He. destruct (recv_data_loop e s c) as (mb & E & W & Er & Hme); try done; try lia.
    { destruct Hfit as [Hf Hl]. rewrite !bytes_app, !zlength_app in *. pose proof (zlength_nonneg (pending c)). split; [apply Hf|lia]. }
    destruct (loop_split n (pending c ++ s) x mb (set_mb None c) (Z.to_nat (mbuf_get_left mb))) as [Ha Hnw]; try done.
    { rewrite mbuf_get_left_rest, Er by done. lia. }
    symmetry. etrans; [exact Ha|]. cbn [feed]. unfold rbind at 1. rewrite E in *.
    destruct (loop _ mb (set_mb None c)) as [[[[[]|e'] c1] o1]|] eqn:El; [|cbn; by rewrite app_nil_r|done|done].
    specialize (Hnw c1 o1 eq_refl). cbn [after]. specialize (IH s2 (e + zlength s) c1 Ham Hpos). symmetry.
    change (alike (prefixed o1 (feed (s2 :: segs) c1)) (prefixed o1 (pump (set_mb None c1) (pending c1 ++ x)))). apply prefix_alike, IH; cbn [concat].
    + pose proof (zlength_nonneg s). lia.
    + subst x. lia.
    + by eapply waits_le.
    + by eapply Hnext.
Qed.

End Packet.

(** C11: cutting the bytes of a peer into segments.  For a connection in any
    state of handshake and session that holds no unfinished data, recv_data on
    several non-empty segments one after the other has the outcome of recv_data
    on the same bytes in one segment: the same answers and events in the same
    order, the same connection and the same bytes left over, and the same error
    where there is one.  The bytes are fewer than 2^31 and smooth: no complete
    packet among them is refused with ENODATA, which the code takes for missing
    bytes, and no chunk of format 3 starts a message over with an extended
    timestamp; and they are roomy: with each segment at most
    RTMP_MESSAGE_LEN_MAX bytes wait for the rest of their packet, since more are
    refused.  What tcp_recv_handler does around recv_data, counting bytes and
    acknowledging them, depends on the segments and is not part of it. *)
Theorem rtmp_segmentation `{H : Host} net rnd ver cvt (c : rtmp_conn) (segs : list (list Z)) :
  ample_memory -> conn_ok c -> rc_tc c = true -> segs <> [] -> Forall (fun s => 0 < zlength s) segs ->
  bytes (concat segs) -> zlength (concat segs) < 2 ^ 31 ->
  smooth net rnd ver cvt (Z.to_nat (zlength (concat segs))) c (concat segs) -> roomy net rnd ver cvt segs c ->
  alike (feed net rnd ver cvt segs c) (recv_data net rnd ver cvt (rcv_buf (concat segs)) c).
Proof.
  intros Ham Hok Htc Hne Hpos Hb Hl Hs Hr. destruct segs as [|s segs]; [done|]. apply Forall_cons in Hpos as [Hpos1 Hpos].
  assert (Hfit : fits (concat (s :: segs))) by (split; [done|unfold MEM_SIZE_MAX; lia]). pose proof (zlength_nonneg (concat (s :: segs))).
  pose proof Hok as [_ Hm]. assert (Ep : forall b, pending c ++ b = b) by (intros b; unfold pending; by rewrite Hm).
  assert (Hw : waits net rnd ver cvt 0 (concat (s :: segs)) c).
  { split; rewrite ?Ep, ?set_mb_none by done; try done; [|by rewrite Hm]. eexists. split; [|exact Hs]. lia. }
  etrans; [apply (feed_pump net rnd ver cvt segs s 0 c Ham Hpos); done || lia|].
  rewrite Ep, set_mb_none by done. unfold recv_data, reassemble. unfold rbind at 1. rewrite get_bind, Hm. cbn [rret].
  rewrite mbuf_get_left_rest by apply (fits_wf _ Hfit). rewrite (proj2 (fits_wf _ Hfit)). unfold pump.
  by destruct (recv_loop _ _ _ _ _ _ c) as [[[r c'] o]|].
Qed.

(** ** An example *)

Lemma smooth_step `{H : Host} net rnd ver cvt n c b k c' o :
  plain_restart (rc_dechunk c) (rcv_buf b) -> handle_packet net rnd ver cvt (rcv_buf b) c = Some (Ok (adv (rcv_buf b) k), c', o) ->
  smooth net rnd ver cvt n c' (zdrop k b) -> smooth net rnd ver cvt (S n) c b.
Proof.
  intros Hp E Hs _. split; [split; [done|]; by rewrite E|]. intros k' c1 o1. rewrite E. intros [= Ek -> _] _.
  assert (k' = k) as -> by lia. done.
Qed.

Lemma smooth_nil `{H : Host} net rnd ver cvt n c : smooth net rnd ver cvt n c [].
Proof. destruct n; [done|]. by intros Hl. Qed.

(** A new chunk size and a ping, cut in the header of the one and the body of the other. *)
Definition ex_conn : rtmp_conn := set_state RTMP_STATE_HANDSHAKE_DONE (set_tc true (rtmp_conn_alloc false false false false [] [] [])).
Definition ex_segs : list (list Z) :=
  [[2; 0; 0; 0; 0]; [0; 4; 1; 0; 0; 0; 0; 0; 0; 16; 0; 2; 0; 0; 0; 0; 0; 6; 4; 0; 0; 0; 0; 0; 6; 1]; [2; 3; 4]].

Lemma ex_smooth : smooth (H := lp64_le) (fun _ => 0) [] (0, 0, 0) (fun _ => 0) (Z.to_nat (zlength (concat ex_segs))) ex_conn (concat ex_segs).
Proof.
  eapply (smooth_step (H := lp64_le) _ _ _ _ _ _ _ 16); [|vm_compute; reflexivity|].
  { intros h m ch Eh. vm_compute in Eh. by injection Eh as <- _. }
  eapply (smooth_step (H := lp64_le) _ _ _ _ _ _ _ 18); [|vm_compute; reflexivity|].
  { intros h m ch Eh. vm_compute in Eh. by injection Eh as <- _. }
  apply smooth_nil.
Qed.

Lemma ex_roomy : roomy (H := lp64_le) (fun _ => 0) [] (0, 0, 0) (fun _ => 0) ex_segs ex_conn.
Proof. split; [by vm_compute|]. intros c1 o1 E1. vm_compute in E1. injection E1 as <- _. split; [by vm_compute|]. intros c2 o2 E2. vm_compute in E2. injection E2 as <- _. split; [by vm_compute|done]. Qed.

Lemma rtmp_segmentation_witness :
  alike (feed (H := lp64_le) (fun _ => 0) [] (0, 0, 0) (fun _ => 0) ex_segs ex_conn)
    (recv_data (H := lp64_le) (fun _ => 0) [] (0, 0, 0) (fun _ => 0) (rcv_buf (concat ex_segs)) ex_conn).
Proof.
  apply (rtmp_segmentation (H := lp64_le)); [exact lp64_ample|split; [split; [by vm_compute|by apply Forall_nil_2]|done]|done|done|repeat (apply Forall_cons; split; [by vm_compute|]); by apply Forall_nil|cbn [concat app ex_segs]; by_compute|by vm_compute|exact ex_smooth|exact ex_roomy].
Defined.
