(* ===== verification/RtmpMedia.v ===== *)
(** * RTMP media: audio and video from one connection to another

    [loop_eats] is the loop of tcp_recv_handler on any part of the chunks of
    some messages, [segments_eat] tcp_recv_handler on any segments of them;
    [rtmp_media_session] follows audio and video from rtmp_send_audio and
    rtmp_send_video to the handlers of the peer's stream. *)

From stdpp Require Import base list gmap numbers strings.
From Stdlib Require Import ZArith Lia.
From S2P Require Import Prelude Endian Mbuf MbufView Format Sa Dname Fmt Odict Amf AmfSpec Rtmp RtmpSpec RtmpConn RtmpConnSpec.

Open Scope Z_scope.

(** ** Messages through the loop *)

Section Media.
Context `{H : Host} (net : nat -> Z) (rnd : list Z) (ver : Z * Z * Z) (cvt : Z -> Z).
Abbreviation packet := (handle_packet net rnd ver cvt).
Abbreviation loop := (recv_loop net rnd ver cvt).

(** [ear] is what the user of [c] gets for a message. *)
Definition hears (ear : rtmp_header * mbuf -> list rtmp_out) (c : rtmp_conn) (msg : rtmp_header * mbuf) : Prop :=
  forall rd, rtmp_dechunk_handler net cvt msg.1 msg.2 (set_dechunk rd c) = Some (Ok tt, set_dechunk rd c, ear msg).

Definition heard (ear : rtmp_header * mbuf -> list rtmp_out) (ms : list (rtmp_header * mbuf)) : list rtmp_out := concat (map ear ms).

Definition pend (mbo : option mbuf) : list Z := match mbo with None => [] | Some m => rest m end.

Lemma pend_le mbo e : (forall m, mbo = Some m -> mbuf_wf m /\ mb_end m <= e) -> 0 <= e -> zlength (pend mbo) <= e.
Proof.
  intros Hm He. destruct mbo as [m|]; [|exact He]. destruct (Hm m eq_refl) as [W Hle]. cbn [pend]. rewrite zlength_rest by done. pose proof W as []. lia.
Qed.

Lemma app_split {A} (p b a x : list A) :
  p ++ b = a ++ x -> (exists a', a = p ++ a' /\ b = a' ++ x) \/ (exists q, p = a ++ q /\ x = q ++ b /\ 0 < zlength q).
Proof.
  intros E. destruct (app_eq_inv _ _ _ _ E) as [(q & -> & ->)|(a' & -> & ->)]; [|left; by exists a'].
  destruct q as [|z q]; [left; exists []; by rewrite !app_nil_r|right]. exists (z :: q). rewrite zlength_cons. pose proof (zlength_nonneg q). split_and!; [done..|lia].
Qed.

(** Part of a chunk. *)
Lemma takes_part rd p rd' out mb q :
  rd_ok rd -> fits p -> takes rd p rd' out -> mbuf_wf mb -> p = rest mb ++ q -> 0 < zlength q ->
  exists rd1 m, dechunk_step rd mb = Some (ENODATA, rd1, m, None) /\ takes rd1 p rd' out /\ rd_ok rd1.
Proof.
  intros Hrd Hf [Hp Ht] W E Hq. destruct (fits_wf p Hf) as [Wp Ep]. destruct (Ht (rcv_buf p) [] Wp) as [Est Hpl]; [by rewrite app_nil_r|].
  destruct (dechunk_decides rd mb (rcv_buf p) q Hrd W Wp) as [(rd1 & m & E1 & _)|(e & rd1 & m1 & m2 & o & E1 & E2 & _ & Hk & _)]; [by rewrite Ep| |].
  - exists rd1, m. split; [done|]. split; [|by apply (dechunk_rd_ok _ _ _ _ _ _ Hrd W E1)]. split; [done|]. intros mb2 r W2 Er.
    destruct (Ht mb2 r W2 Er) as [Est2 Hpl2]. rewrite E, <- app_assoc in Er.
    destruct (dechunk_resumes rd rd1 mb m mb2 _ _ W W2 Er Hpl2 E1) as (_ & -> & ?). done.
  - rewrite E2 in Est. injection Est as -> -> Em ->. destruct (Hk eq_refl) as (k & Hk' & -> & ->).
    assert (Ek : mb_pos (adv (rcv_buf p) k) = mb_pos (adv (rcv_buf p) (zlength p))) by congruence. cbn in Ek. rewrite E, zlength_app in Ek. lia.
Qed.

Section Loop.
Context (ear : rtmp_header * mbuf -> list rtmp_out) (c : rtmp_conn).
Context (Hst : rc_state c = RTMP_STATE_HANDSHAKE_DONE) (Htc : rc_tc c = true) (Hmb : rc_mb c = None).

Lemma packet_eats rd mb rd' k out :
  dechunk_step rd mb = Some (0, rd', adv mb k, out) -> (forall m, out = Some m -> hears ear c m) ->
  packet mb (set_dechunk rd c) = Some (Ok (adv mb k), set_dechunk rd' c, heard ear (option_list out)).
Proof.
  intros E Hh. rewrite packet_done by done. unfold conn_receive. change (rc_dechunk (set_dechunk rd c)) with rd. rewrite E.
  change (set_dechunk rd' (set_dechunk rd c)) with (set_dechunk rd' c).
  destruct out as [[h buf]|]; [|done]. unfold rbind. pose proof (Hh (h, buf) eq_refl rd') as Hr. cbn [fst snd] in Hr. rewrite Hr. done.
Qed.

(** The outcome of the loop on the first part [a] of the bytes [a ++ x]. *)
Definition loops (rd' : rtmp_dechunker) (ms : list (rtmp_header * mbuf)) (x : list Z) (e : Z) (r : option (res bool * rtmp_conn * list rtmp_out)) : Prop :=
  exists rd1 mbo ms1 ms2, r = Some (Ok true, set_mb mbo (set_dechunk rd1 c), heard ear ms1) /\ ms = ms1 ++ ms2 /\ rd_ok rd1
    /\ eats rd1 (pend mbo ++ x) rd' ms2 /\ (x = [] -> pend mbo = []) /\ forall m, mbo = Some m -> mbuf_wf m /\ mb_end m <= e.

Lemma loop_eats rd b rd' ms : eats rd b rd' ms -> forall a x mb f,
  b = a ++ x -> fits b -> rd_ok rd -> mbuf_wf mb -> rest mb = a -> zlength a <= Z.of_nat f -> Forall (hears ear c) ms ->
  loops rd' ms x (mb_end mb) (loop f mb (set_dechunk rd c)).
Proof.
  intros He. pose proof He as He0. induction He as [rd|rd p rd1 out b rd2 ms Ht He IH]; intros a x mb f E Hf Hrd W Er Hfu Hh;
    pose proof (mbuf_get_left_rest mb W) as L; rewrite Er in L; pose proof (zlength_nonneg a);
    (destruct (Z.eq_dec (zlength a) 0) as [Hz|Hz];
      [rewrite loop_end by lia; exists rd, (Some mb), []; eexists; split; [done|]; split; [done|]; split; [done|];
       cbn [pend]; rewrite Er; split; [by rewrite <- E|]; split; [intros _; apply length_zero_iff_nil; unfold zlength in Hz; lia|by intros m [= <-]]|]).
  { destruct a; [done|]. by destruct (app_cons_not_nil [] (a ++ x) z). }
  destruct f as [|f]; [lia|]. rewrite loop_turn by lia. pose proof Ht as [Hp Htk].
  apply Forall_app in Hh as [Hh1 Hh2]. destruct (app_split p b a x E) as [(a' & Ea & Eb)|(q & Eq & Ex & Hq)].
  - destruct (Htk mb a' W) as [Est Hpl]; [by rewrite Er|]. destruct (adv_step mb p a' (zlength p) W) as [W' Er']; [by rewrite Er|done|].
    rewrite (packet_eats _ _ _ _ _ Est) by (intros m ->; by apply Forall_inv in Hh1). cbn [turn]. change (rc_tc (set_dechunk rd1 c)) with (rc_tc c). rewrite Htc. cbn [negb].
    assert (Hfb : fits b) by (replace b with (zdrop (zlength p) (p ++ b)) by apply zdrop_app_exact; by apply fits_drop).
    assert (Hfp : fits p) by (destruct Hf as [Hf1 Hf2]; rewrite bytes_app, zlength_app in *; pose proof (zlength_nonneg b); split; [apply Hf1|lia]).
    assert (Hrd1 : rd_ok rd1) by (destruct Hfp; by eapply takes_rd_ok).
    rewrite drained_iff, Er' by done. destruct (Z.eqb_spec (zlength a') 0) as [Ha'|Ha'].
    + assert (a' = []) as -> by (apply length_zero_iff_nil; unfold zlength in Ha'; lia). cbn [app] in Eb. subst b.
      exists rd1, None, (option_list out), ms. split_and!; try done.
    + destruct (IH He a' x (adv mb (zlength p)) f) as (rd3 & mbo & ms1 & ms2 & -> & -> & ?); try done.
      { rewrite Ea, zlength_app in Hfu. lia. }
      exists rd3, mbo, (option_list out ++ ms1), ms2. unfold heard. rewrite map_app, concat_app, app_assoc. done.
  - assert (Hfp : fits p) by (destruct Hf as [Hf1 Hf2]; rewrite bytes_app, zlength_app in *; pose proof (zlength_nonneg b); split; [apply Hf1|lia]).
    destruct (takes_part rd p rd1 out mb q) as (rd3 & m & Est & Ht3 & Hrd3); try done; [by rewrite Er|].
    rewrite packet_done by done. unfold conn_receive. change (rc_dechunk (set_dechunk rd c)) with rd. rewrite Est. cbn [turn].
    change (rc_tc (set_dechunk rd3 (set_dechunk rd c))) with (rc_tc c). rewrite Htc. cbn [negb]. change (ENODATA =? 0) with false. change (ENODATA =? ENODATA) with true.
    exists rd3, (Some mb), [], (option_list out ++ ms). split; [done|]. split; [done|]. split; [done|]. cbn [pend]. rewrite Er. split_and!.
    + rewrite <- E. by eapply eats_cons.
    + intros ->. destruct q; [done|by destruct (app_cons_not_nil [] (q ++ b) z)].
    + by intros m' [= <-].
Qed.
End Loop.

(** Segments as they arrive. *)
Fixpoint receive_all (segs : list (list Z)) : R unit :=
  match segs with
  | [] => rret tt
  | s :: segs => tcp_recv_handler net rnd ver cvt (rcv_buf s) ;;* receive_all segs
  end.

Section Segments.
Context (ear : rtmp_header * mbuf -> list rtmp_out) (c : rtmp_conn).
Context (Hst : rc_state c = RTMP_STATE_HANDSHAKE_DONE) (Htc : rc_tc c = true).

(** The connection after some of the bytes: [t] have been counted. *)
Definition at_ (t : Z) (mbo : option mbuf) (rd : rtmp_dechunker) : rtmp_conn := set_mb mbo (set_dechunk rd (set_total t c)).

Lemma eats_end rd rd' ms : eats rd [] rd' ms -> rd = rd' /\ ms = [].
Proof.
  intros He. remember [] as b eqn:Eb. destruct He as [|rd p rd1 out b rd2 ms [Hp _] _]; [done|]. destruct p; [done|discriminate].
Qed.

(** One segment that does not fill the window. *)
Lemma segment_eats t mbo rd rd' ms s x e :
  ample_memory -> eats rd (pend mbo ++ s ++ x) rd' ms -> fits (pend mbo ++ s ++ x) -> rd_ok rd ->
  (forall m, mbo = Some m -> mbuf_wf m /\ mb_end m <= e) -> 0 <= e -> e + zlength s <= RTMP_MESSAGE_LEN_MAX ->
  0 <= t -> t + zlength s < rc_last_ack c + rc_window_ack_size c < 2 ^ 64 -> 0 <= rc_last_ack c + rc_window_ack_size c ->
  Forall (fun m => forall t, hears ear (set_mb None (set_total t c)) m) ms ->
  exists mbo1 rd1 ms1 ms2, tcp_recv_handler net rnd ver cvt (rcv_buf s) (at_ t mbo rd) = Some (Ok tt, at_ (t + zlength s) mbo1 rd1, heard ear ms1)
    /\ ms = ms1 ++ ms2 /\ eats rd1 (pend mbo1 ++ x) rd' ms2 /\ rd_ok rd1 /\ (x = [] -> pend mbo1 = [])
    /\ forall m, mbo1 = Some m -> mbuf_wf m /\ mb_end m <= e + zlength s.
Proof.
  intros Ham He Hf Hrd Hmbo He0 Hroom Ht Hwin Hwin0 Hear. pose proof (zlength_nonneg s) as Hs0.
  assert (Hfs : fits s).
  { destruct Hf as [Hf1 Hf2]. rewrite !bytes_app, !zlength_app in *. pose proof (zlength_nonneg (pend mbo)). pose proof (zlength_nonneg x). split; [apply Hf1|lia]. }
  set (t' := t + zlength s). set (c1 := set_mb None (set_total t' c)).
  assert (Hpe : zlength (pend mbo) <= e).
  { by apply pend_le. }
  destruct (recv_data_loop net rnd ver cvt e s (at_ t' mbo rd) Ham Hfs) as (mb & Erd & W & Er & Hme); try done.
  { unfold RTMP_MESSAGE_LEN_MAX in Hroom. lia. }
  { change (pending (at_ t' mbo rd)) with (pend mbo). rewrite zlength_app. lia. }
  change (pending (at_ t' mbo rd)) with (pend mbo) in Er. change (set_mb None (at_ t' mbo rd)) with (set_dechunk rd c1) in Erd.
  destruct (loop_eats ear c1 Hst Htc rd _ rd' ms He (pend mbo ++ s) x mb (Z.to_nat (mbuf_get_left mb))) as (rd1 & mbo1 & ms1 & ms2 & El & Ems & Hrd1 & He1 & Hx & Hm1);
    try done.
  { by rewrite app_assoc. }
  { rewrite mbuf_get_left_rest, Er by done. lia. }
  { eapply Forall_impl; [exact Hear|]. intros m Hm. apply Hm. }
  exists mbo1, rd1, ms1, ms2. split; [|split; [done|split; [done|split; [done|split; [done|]]]]].
  2: { intros m Em. destruct (Hm1 m Em). split; [done|lia]. }
  unfold tcp_recv_handler. rewrite bind_set. rewrite mbuf_get_left_rest by apply (fits_wf s Hfs). rewrite (proj2 (fits_wf s Hfs)).
  change (rc_total_bytes (at_ t mbo rd)) with t. assert (u64 (t + zlength s) = t') as -> by (apply wrap_small; unfold t'; lia).
  change (set_total t' (at_ t mbo rd)) with (at_ t' mbo rd).
  unfold rbind at 1, rcode. unfold rbind at 1. rewrite Erd, El. unfold acknowledge. rewrite get_bind.
  change (set_mb mbo1 (set_dechunk rd1 c1)) with (at_ t' mbo1 rd1). change (rc_total_bytes (at_ t' mbo1 rd1)) with t'.
  change (rc_last_ack (at_ t' mbo1 rd1) + rc_window_ack_size (at_ t' mbo1 rd1)) with (rc_last_ack c + rc_window_ack_size c).
  assert (u64 (rc_last_ack c + rc_window_ack_size c) = rc_last_ack c + rc_window_ack_size c) as -> by (apply wrap_small; lia).
  rewrite Z.geb_leb, (proj2 (Z.leb_gt _ _)) by (unfold t'; lia). cbn. by rewrite !app_nil_r.
Qed.

Lemma segments_eat segs : forall t mbo rd rd' ms e,
  ample_memory -> eats rd (pend mbo ++ concat segs) rd' ms -> fits (pend mbo ++ concat segs) -> rd_ok rd ->
  (forall m, mbo = Some m -> mbuf_wf m /\ mb_end m <= e) -> 0 <= e -> e + zlength (concat segs) <= RTMP_MESSAGE_LEN_MAX ->
  0 <= t -> t + zlength (concat segs) < rc_last_ack c + rc_window_ack_size c < 2 ^ 64 -> 0 <= rc_last_ack c + rc_window_ack_size c ->
  Forall (fun m => forall t, hears ear (set_mb None (set_total t c)) m) ms -> (segs = [] -> pend mbo = []) ->
  exists mbo', receive_all segs (at_ t mbo rd) = Some (Ok tt, at_ (t + zlength (concat segs)) mbo' rd', heard ear ms).
Proof.
  induction segs as [|s segs IH]; intros t mbo rd rd' ms e Ham He Hf Hrd Hmbo He0 Hroom Ht Hwin Hwin0 Hear Hend; cbn [concat] in *.
  - rewrite Hend in He by done. destruct (eats_end _ _ _ He) as [-> ->]. exists mbo. cbn. by rewrite Z.add_0_r.
  - rewrite zlength_app in *. pose proof (zlength_nonneg s). pose proof (zlength_nonneg (concat segs)).
    destruct (segment_eats t mbo rd rd' ms s (concat segs) e) as (mbo1 & rd1 & ms1 & ms2 & Eh & -> & He1 & Hrd1 & Hx & Hm1); try done; try lia.
    apply Forall_app in Hear as [Hear1 Hear2].
    destruct (IH (t + zlength s) mbo1 rd1 rd' ms2 (e + zlength s)) as (mbo' & Er); try done; try lia.
    { destruct Hf as [Hf1 Hf2]. rewrite !bytes_app, !zlength_app in *. split; [rewrite bytes_app; split; [|apply Hf1]|rewrite zlength_app].
      - destruct mbo1 as [m|]; [|by constructor]. destruct (Hm1 m eq_refl) as [W _]. by apply bytes_rest.
      - assert (zlength (pend mbo1) <= e + zlength s).
        { apply pend_le; [done|lia]. }
        unfold RTMP_MESSAGE_LEN_MAX, MEM_SIZE_MAX in *. lia. }
    { intros ->. by apply Hx. }
    exists mbo'. cbn [receive_all]. unfold rbind. rewrite Eh, Er. unfold heard. rewrite map_app, concat_app. by rewrite Z.add_assoc.
Qed.
End Segments.
End Media.

(** ** Media from one connection to another *)

Inductive frame :=
| Audio (timestamp : Z) (pld : list Z)
| Video (timestamp : Z) (pld : list Z).

Definition frame_msg (strm : rtmp_stream) (f : frame) : rtmp_msg :=
  match f with
  | Audio ts pld => RtmpMsg 0 (st_chunk_id_audio strm) ts 0 RTMP_TYPE_AUDIO (st_stream_id strm) pld
  | Video ts pld => RtmpMsg 0 (st_chunk_id_video strm) ts 0 RTMP_TYPE_VIDEO (st_stream_id strm) pld
  end.

(** What the handlers of the stream [ref] get. *)
Definition frame_out (ref : Z) (f : frame) : rtmp_out :=
  match f with Audio ts pld => OAudio ref ts pld | Video ts pld => OVideo ref ts pld end.

Definition frame_ok (f : frame) : Prop :=
  match f with Audio ts pld | Video ts pld => is_u32 ts /\ bytes pld /\ 0 < zlength pld < 2 ^ 24 end.

Definition strm_ok (strm : rtmp_stream) : Prop :=
  2 <= st_chunk_id_audio strm <= 65599 /\ 2 <= st_chunk_id_video strm <= 65599 /\ is_u32 (st_stream_id strm).

Definition sent_bytes (o : rtmp_out) : list Z := match o with OSend _ d => d | _ => [] end.

Section Session.
Context `{H : Host} (net : nat -> Z) (rnd : list Z) (ver : Z * Z * Z) (cvt : Z -> Z).

Definition send_frame (strm : rtmp_stream) (f : frame) : R unit :=
  match f with Audio ts pld => rtmp_send_audio net strm ts pld | Video ts pld => rtmp_send_video net strm ts pld end.

Fixpoint send_frames (strm : rtmp_stream) (fs : list frame) : R unit :=
  match fs with [] => rret tt | f :: fs => send_frame strm f ;;* send_frames strm fs end.

Lemma frame_msg_ok strm f : strm_ok strm -> frame_ok f -> msg_ok (frame_msg strm f).
Proof. intros (Ha & Hv & Hs). destruct f as [ts pld|ts pld]; intros (Ht & Hb & Hl); split; cbn; unfold is_byte, is_u32; done || lia. Qed.

Lemma send_frame_ok strm f c :
  ample_memory -> (forall n, net n = 0) -> strm_ok strm -> frame_ok f -> rc_tc c = true -> 0 < rc_send_chunk_size c ->
  send_frame strm f c = Some (Ok tt, set_sends (S (rc_sends c)) c,
    [OSend (Some (m_type (frame_msg strm f))) (rtmp_bytes (rc_send_chunk_size c) (frame_msg strm f))]).
Proof.
  intros Ham Hnet Hs Hf Htc Hsz. pose proof (chunker_bytes Ham (frame_msg strm f) _ (frame_msg_ok strm f Hs Hf) Hsz) as Ec.
  destruct f as [ts pld|ts pld]; destruct Hf as (_ & _ & Hl); unfold send_frame, rtmp_send_audio, rtmp_send_video, rtmp_conn_send_msg; cbn in Ec |- *;
    rewrite (proj2 (Z.eqb_neq (zlength pld) 0)) by lia; rewrite get_bind; rewrite Htc; cbn [negb orb]; unfold rbind at 1, rlift; rewrite Ec;
    unfold tcp_send; rewrite get_bind, Htc; cbn [negb]; rewrite bind_set, Hnet; done.
Qed.

Lemma send_frames_ok strm fs : forall c,
  ample_memory -> (forall n, net n = 0) -> strm_ok strm -> Forall frame_ok fs -> rc_tc c = true -> 0 < rc_send_chunk_size c ->
  exists c' outs, send_frames strm fs c = Some (Ok tt, c', outs)
    /\ concat (map sent_bytes outs) = concat (map (fun f => rtmp_bytes (rc_send_chunk_size c) (frame_msg strm f)) fs).
Proof.
  induction fs as [|f fs IH]; intros c Ham Hnet Hs Hf Htc Hsz; [by exists c, []|]. apply Forall_cons in Hf as [Hf Hfs]. cbn [send_frames].
  destruct (IH (set_sends (S (rc_sends c)) c) Ham Hnet Hs Hfs Htc Hsz) as (c' & outs & E & Eo).
  unfold rbind. rewrite (send_frame_ok strm f c), E by done. do 2 eexists. split; [done|]. cbn. by rewrite Eo.
Qed.

Definition media_ids (strm : rtmp_stream) : gset Z := {[st_chunk_id_audio strm; st_chunk_id_video strm]}.

(** Messages of format 0 need only room for their chunk streams. *)
Lemma frames_chain strm fs : forall S,
  strm_ok strm -> Forall frame_ok fs -> Z.of_nat (size (dom S ∪ media_ids strm)) <= MAX_CHUNKS + 1 -> chain S (map (frame_msg strm) fs).
Proof.
  induction fs as [|f fs IH]; intros S Hs Hf Hsz; [done|]. apply Forall_cons in Hf as [Hf Hfs]. cbn [map chain].
  assert (Hid : m_chunk_id (frame_msg strm f) ∈ media_ids strm) by (unfold media_ids; destruct f; cbn; set_solver).
  assert (F0 : m_format (frame_msg strm f) = 0) by (by destruct f). split; [by apply frame_msg_ok|]. split.
  - unfold follows. destruct (S !! _) as [l|] eqn:El; [by rewrite F0|]. split; [done|]. apply not_elem_of_dom in El.
    assert (size (dom S) < size (dom S ∪ media_ids strm))%nat by (apply subset_size; set_solver). rewrite size_dom in *. lia.
  - apply IH; [done|done|]. unfold arrived. rewrite dom_insert_L. replace ({[m_chunk_id (frame_msg strm f)]} ∪ dom S ∪ media_ids strm) with (dom S ∪ media_ids strm) by set_solver. done.
Qed.

Definition ear (ref : Z) (m : rtmp_header * mbuf) : list rtmp_out :=
  if rh_type_id m.1 =? RTMP_TYPE_AUDIO then [OAudio ref (rh_timestamp m.1) (content m.2)] else [OVideo ref (rh_timestamp m.1) (content m.2)].

Lemma hands_frames c strm rs fs : forall S outs,
  rtmp_stream_find c (st_stream_id strm) = Some rs -> st_auh rs = true -> st_vidh rs = true -> hands S (map (frame_msg strm) fs) outs ->
  heard (ear (st_ref rs)) outs = map (frame_out (st_ref rs)) fs
  /\ Forall (fun m => forall t, hears net cvt (ear (st_ref rs)) (set_mb None (set_total t c)) m) outs.
Proof.
  induction fs as [|f fs IH]; intros S outs Hfind Ha Hv Hh; cbn [map] in Hh; inversion Hh as [|? ? ? h buf outs' Hf Hb Hr]; subst; [done|].
  destruct (IH _ outs' Hfind Ha Hv Hr) as [Eo Ho]. pose proof (hf_last _ _ _ Hf) as Hl. unfold last_of, time_of in Hl.
  pose proof (holds_content _ _ _ Hb) as Hc. split.
  - unfold heard. cbn [map concat]. unfold heard in Eo. rewrite Eo. unfold ear. cbn [fst snd]. rewrite Hc.
    destruct f; cbn in Hl |- *; injection Hl as -> _ -> _; done.
  - constructor; [|done]. intros t rd. unfold rtmp_dechunk_handler. rewrite get_bind. cbn [fst snd].
    change (rtmp_stream_find (set_dechunk rd (set_mb None (set_total t c))) (rh_stream_id h)) with (rtmp_stream_find c (rh_stream_id h)).
    unfold ear. cbn [fst snd]. destruct f; cbn in Hl; injection Hl as -> _ Et ->; rewrite Et, Hfind, ?Ha, ?Hv; done.
Qed.
End Session.

(** C12: audio and video sent with rtmp_send_audio and rtmp_send_video on one
    stream reach the handlers of the peer's stream in order, with their
    timestamps and payloads, for every way TCP cuts these bytes into segments.
    The frames have 1 to 2^24 - 1 bytes each; tcp_send does not fail and memory
    suffices.  The peer has finished its handshake, holds no unfinished data,
    has a stream of this id with both handlers, dechunks with the sender's chunk
    size and has room for the chunk streams used.  All the bytes of the exchange
    together are at most RTMP_MESSAGE_LEN_MAX (512 kB) and end below the next
    acknowledgement, so that none is sent. *)
Theorem rtmp_media_session `{H : Host} net net' rnd ver cvt (sender receiver : rtmp_conn) (strm rs : rtmp_stream) (S : gmap Z last_msg) (fs : list frame) :
  ample_memory -> (forall n, net n = 0) -> strm_ok strm -> Forall frame_ok fs -> rc_tc sender = true ->
  rc_state receiver = RTMP_STATE_HANDSHAKE_DONE -> rc_tc receiver = true -> rc_mb receiver = None -> 0 <= rc_total_bytes receiver ->
  rd_ok (rc_dechunk receiver) -> knows (rc_dechunk receiver) S -> rd_chunk_sz (rc_dechunk receiver) = rc_send_chunk_size sender ->
  Z.of_nat (size (dom S ∪ media_ids strm)) <= MAX_CHUNKS + 1 ->
  rtmp_stream_find receiver (st_stream_id strm) = Some rs -> st_auh rs = true -> st_vidh rs = true ->
  exists sender' outs, send_frames net strm fs sender = Some (Ok tt, sender', outs) /\
    forall segs, concat segs = concat (map sent_bytes outs) -> zlength (concat segs) <= RTMP_MESSAGE_LEN_MAX ->
      rc_total_bytes receiver + zlength (concat segs) < rc_last_ack receiver + rc_window_ack_size receiver < 2 ^ 64 ->
      exists receiver', receive_all net' rnd ver cvt segs receiver = Some (Ok tt, receiver', map (frame_out (st_ref rs)) fs)
        /\ rc_tc receiver' = true /\ rc_total_bytes receiver' = rc_total_bytes receiver + zlength (concat segs).
Proof.
  intros Ham Hnet Hs Hf Htc Hst Htcr Hmb Ht0 Hrd K Hsz Hroom Hfind Ha Hv. pose proof Hrd as [Hpos _].
  destruct (send_frames_ok net strm fs sender Ham Hnet Hs Hf Htc ltac:(lia)) as (sender' & outs & Es & Eo).
  exists sender', outs. split; [done|]. intros segs Ec Hlen Hwin. pose proof (zlength_nonneg (concat segs)).
  destruct (chain_eats Ham (map (frame_msg strm) fs) S (rc_dechunk receiver)) as (rd' & ms & He & Hh); [by apply frames_chain|done|done|].
  destruct (hands_frames net' cvt receiver strm rs fs S ms Hfind Ha Hv Hh) as [Eh Hear].
  rewrite map_map, Hsz, <- Eo, <- Ec in He.
  destruct (segments_eat net' rnd ver cvt (ear (st_ref rs)) receiver Hst Htcr segs (rc_total_bytes receiver) None (rc_dechunk receiver) rd' ms 0) as [mbo' Er]; try done; try lia.
  - split; [|unfold RTMP_MESSAGE_LEN_MAX, MEM_SIZE_MAX in *; cbn [pend app]; lia]. cbn [pend app]. rewrite Ec, Eo. apply Forall_concat, Forall_map, (Forall_impl _ _ _ Hf).
    intros f Hfo. by apply bytes_message, frame_msg_ok.
  - exists (at_ receiver (rc_total_bytes receiver + zlength (concat segs)) mbo' rd'). split; [|done]. rewrite <- Eh, <- Er. f_equal.
    destruct receiver. cbn in Hmb. by rewrite Hmb.
Qed.

(** A sender with the default chunk size and a peer with one stream. *)
Definition ex_strm : rtmp_stream := RtmpStream 0 true 1 5 6 7 true true false false false false.
Definition ex_sender : rtmp_conn := set_tc true (rtmp_conn_alloc true false false false [] [] []).
Definition ex_receiver : rtmp_conn :=
  set_streaml [ex_strm] (set_state RTMP_STATE_HANDSHAKE_DONE (set_tc true (rtmp_conn_alloc false false false false [] [] []))).
Definition ex_frames : list frame := [Audio 0 [1; 2; 3]; Video 16777215 (repeat 7 200); Audio 40 [4]].

Lemma ex_frames_ok : Forall frame_ok ex_frames.
Proof.
  assert (Hb : bytes (repeat 7 200)) by (apply List.Forall_forall; intros x Hx; apply repeat_spec in Hx as ->; by_compute).
  repeat (apply Forall_cons; split; [split; [by_compute|split; [exact Hb || by_compute|by vm_compute]]|]). by apply Forall_nil_2.
Qed.

Lemma rtmp_media_session_witness :
  exists sender' outs, send_frames (H := lp64_le) (fun _ => 0) ex_strm ex_frames ex_sender = Some (Ok tt, sender', outs) /\
    forall segs, concat segs = concat (map sent_bytes outs) -> zlength (concat segs) <= RTMP_MESSAGE_LEN_MAX ->
      rc_total_bytes ex_receiver + zlength (concat segs) < rc_last_ack ex_receiver + rc_window_ack_size ex_receiver < 2 ^ 64 ->
      exists receiver', receive_all (H := lp64_le) (fun _ => 0) [] (0, 0, 0) (fun _ => 0) segs ex_receiver
          = Some (Ok tt, receiver', map (frame_out (st_ref ex_strm)) ex_frames)
        /\ rc_tc receiver' = true /\ rc_total_bytes receiver' = rc_total_bytes ex_receiver + zlength (concat segs).
Proof.
  apply (rtmp_media_session (H := lp64_le)) with (S := ∅);
    [exact lp64_ample|reflexivity|by vm_compute|exact ex_frames_ok|reflexivity|reflexivity|reflexivity|reflexivity|cbn; lia| | |reflexivity|by vm_compute|reflexivity|reflexivity|reflexivity].
  - split; [by vm_compute|by apply Forall_nil_2].
  - split; [intros cs; by rewrite lookup_empty|by vm_compute].
Defined.
